(* ===== verification/_CoqProject ===== *)
-Q . S2P
Prelude.v
RTPPacket.v
CodecAvc.v
CodecAdts.v
CodecSps.v
RTPH264FrameAssembler.v
RTPH264PacketBuilder.v
H264RoundTrip.v
PortManager.v
IPAddrV4.v
RTPTransmitterV4.v
RTPAACPacketBuilder.v
RTPSessionAudio.v
RTPSessionVideo.v
RTPSessionReceiver.v
Utils.v
Utf8.v
Json.v
JsonHeap.v
RoomUser.v
MsgQueue.v
Logger.v
Command.v
WSClient.v
LiveMeetingRoom.v
RoomLog.v
RoomSpec.v
RoomStreams.v
RoomLife.v
RoomRequests.v
Main.v
MgIobuf.v
MgWebsocket.v
MgSafety.v
MgSession.v
MgBase64.v
MgTimer.v
MgConnect.v
MgPrintf.v
MgHttp.v
MgAton.v
MgDns.v
MgPoll.v
MgOnline.v
MgRetry.v
Delivery.v
