(* ===== verification/Prelude.v ===== *)
(** * Verification of rtc_client

    The program ([src/src/]) is the client of a meeting service.  It talks JSON over a
    websocket with a signalling server, sends its microphone and camera as RTP over
    UDP, and receives the streams of the other participants.  This library models its
    own C++ code, and of the websocket library that is built with it the part the
    client speaks through, and proves what makes them correct; all paths below are
    under [src/src/].

    ** How the parts work together

    Sending.  The application gives [LiveMeetingRoom] a buffer of H.264 or AAC
    ([send_video_data], [send_audio_data]).  [RTPSessionVideo] has
    [RTPH264PacketBuilder] find the NAL units ([CodecAvc]) and cut them into single,
    STAP-A and FU-A packets, stamps marker, time and source on each, and
    [RTPTransmitterV4] sends each to every destination.  [RTPSessionAudio] and
    [RTPAACPacketBuilder] do the same with one AAC frame per packet.

    Receiving.  A turn of the receive loop asks each [RoomUser] to receive.  A
    [RTPSessionReceiver] takes a datagram from the transmitter, [RTPPacket] parses it,
    the re-order list may hold it back; video goes through
    [RTPH264FrameAssembler], and a packet with the marker makes the participant hand
    the collected access unit to the application.

    Signalling.  [WSClient] keeps the connection and reconnects; [Command] builds and
    reads the messages over [Json] and [Utils]; [LiveMeetingRoom] keeps the membership,
    the pending signal and the participants.  [MsgQueue] carries work between threads,
    [Logger] uses it to write the log.  Under [WSClient] is the vendored library:
    [MgPoll] opens, polls and closes the connections, [MgAton] and [MgDns] find the
    address of the server, [MgConnect] writes the request that opens the connection,
    [MgWebsocket] reads and writes frames in the buffers of [MgIobuf], [MgTimer]
    reconnects.  [Main] is the demo
    that drives the room: its callbacks ask for the streams of whoever is there.

    ** Files

    - [RTPPacket]: rtp/rtp_packet.  Header layout, [parse], accessors.
    - [CodecAvc], [CodecAdts], [CodecSps]: codec/codec_utils.  Start-code search and
      walks over NAL units; the ADTS header and counter; the sequence parameter set.
    - [RTPH264FrameAssembler], [RTPH264PacketBuilder], [RTPAACPacketBuilder],
      [RTPTransmitterV4], [RTPSessionAudio], [RTPSessionVideo], [RTPSessionReceiver]:
      the classes of these names in rtp/.  [H264RoundTrip] has no code of its own: it
      is the contract between builder and assembler.
    - [PortManager], [IPAddrV4], [Utils], [Utf8], [Json], [MsgQueue], [Logger]:
      common/common_port_manager, common_address_ipv4, common_utils, common_utf8,
      common_json, common_msg_queue, common_logger.
      [JsonHeap] is common_json again, over a heap: who owns the memory of a value.
    - [RoomUser], [Command], [LiveMeetingRoom]: application/app_room_user,
      app_command with app_util and app_error, app_meeting_room.
    - [WSClient]: websocket/ws_client.
    - [RoomSpec], [RoomStreams], [RoomLife]: no code of their own.  The protocol as an
      abstract machine and the room as its refinement; the streams of the participants;
      the room as a step relation and what holds in every reachable state.
      [RoomRequests]: what the server reads in a request for streams is what was asked.
    - [RoomLog]: the LOG macros of common/common_logger.h, and the lines that
      on_websocket_message and its handlers log.  [LiveMeetingRoom] has all else they do;
      [receive_message] is both.
    - [Main]: main.cpp, with the functions that lead to its callbacks
      (websocket_received, websocket_event, ws_event_handler, ws_timer_func).
    - [MgIobuf], [MgWebsocket], [MgBase64], [MgTimer], [MgConnect], [MgPrintf], [MgHttp],
      [MgAton], [MgDns]: websocket/mongoose.  Buffers; frames, the handshake as the client
      reads it, reading of a connection; base64; timers; URLs and the opening request; the
      library's own [vsnprintf]; the parser of HTTP heads; numeric addresses; messages of
      the resolver.  [MgSession] puts the frames
      under [WSClient], with [write_conn].
    - [MgPoll]: the connections of the library and the poll loop, with the constructor,
      [on_timer], [pulse] and [send_text] of websocket/ws_client on top.
    - [MgSafety], [Delivery], [MgOnline], [MgRetry]: no code of their own.  Arbitrary bytes;
      from the bytes of the server to the program; from the constructor of the client to
      the texts it receives; a server that does not answer.

    A class is a [Record] with the fields of the class, a method a function of the same
    name from the object (and what else it touches) to an [outcome]: [Ok] with the
    result, [Fault] when the code reads or writes memory it does not own or uses a null
    pointer, [Hang] when the fuel of a loop ran out.  [MgPoll] has a finer result: [Stop] says whether
    a connection was used after it was freed, a descriptor was outside of its set, bytes
    were outside of a buffer, or fuel ran out.  Integers are [Z] with the wrap of
    their width written out ([u8] to [i64]); strings and buffers are lists of bytes; a
    pointer into a buffer is an offset.  [std::map] is the list of its entries in the
    order of the keys.

    ** What is shown

    - The media path end to end ([published_frame_received], [video_path_correct],
      [receive_rtp_packets_correct], [send_data_annexb], [push_packets_fua],
      [push_packet_stapa], [parse_wire_roundtrip], [reordered_delivery]): what one
      client publishes the other's callback gets, unit for unit, through the receive
      buffer, the parser, the re-order list and the assembler.  The specification is
      the list of NAL units; packets, buffers and sessions refine it.
    - Bounds of untrusted input ([push_packet_safe], [receive_video_safe],
      [receive_turn_correct], [room_never_stuck]): a text of the server makes the room
      leave its memory only by a log line of more than 4096 bytes
      ([receive_message_async], [demo_never_stuck]); a datagram does not, under the
      conditions stated ([harmless], which speaks of its bytes, and [has_room]); the bytes
      that break the conditions are theorems too ([unreadable_text_faults],
      [push_packet_fua_overflow], [parse_truncated_faults], [parse_payload_bounds]).
    - The codecs ([avc_find_start_code_correct], [avc_walks_annexb],
      [AVCFindStartCodeInternal_correct], [parse_adts_header_correct],
      [h264_decode_sps_correct], [de_emulation_inverts]): the optimised search equals
      the search byte by byte; the readers invert the layouts of the standards.
    - The conference ([room_implements_protocol], [participants_history],
      [conference_created], [conference_left], [streams_pulled], [signal_guarded],
      [one_signal_per_window], [room_reachable]): on any sequence of texts the room is
      where the abstract protocol is; a user is a participant exactly when the last
      message about it brought it; exactly the streams asked for are received; a signal
      is sent in the states that allow it and in no other, as the request of its kind with
      the parameters of the call; all reachable states are in good state.
    - The signalling path end to end ([client_receives], [server_drives_demo],
      [request_is_printed], [opening_request_read], [request_well_formed],
      [texts_delivered], [sent_texts_received], [base64_round_trip], [timer_keeps_pace]): the
      request is what the URL of the room says, the library's formats print it, and the
      parser at the other end reads it so; the poll loop
      opens the connection, sends the request and reads; after the handshake each text of the server reaches the
      client whole, once and in order, however the network cuts the bytes, in one frame
      or in fragments; what is sent arrives so at the other end; no tick of the timer is
      lost.  The specification is the list of messages; [carries] says which frames carry
      them, and the byte-level reader refines it.  For bytes that are no frames
      [any_bytes_safe]: a read ends, the buffers stay bounded, and what is handed to the
      client lies in the buffer, but for one case ([lone_continuation_crashes]).
    - The connections ([client_never_dangles]): from the constructor to the destructor,
      whatever the program, the system and the network do, no connection is used after it
      was freed, the client has at most the one it points to, and its history is a run of
      the machine in [WSClient] ([ws_never_sends_on_null] is about those runs).
    - Printing ([vsnprintf_correct], [lld_correct]): for every format and all arguments the
      loop ends, nothing is written outside of the buffer, and what is written is the start
      of the text that is printed when there is room; the specification is the same printing
      without a buffer ([printed]), and [print_related] relates the two.
    - Addresses and names ([aton4_correct], [aton_safe], [dns_exchange], [dns_parse_safe],
      [http_parse_safe]): the hosts taken for addresses are the dotted quads; the answer to
      the query that is sent is read back, and no reply and no head of a message makes a
      reader leave its buffer or not end.
    - The demo ([demo_never_stuck], [newcomer_heard], [online_users_requested],
      [pull_request_understood], [finish_releases]): under every schedule the callbacks
      are called and end; whoever joins or is there already is asked for, in a request
      the server reads as it was meant.
    - Texts ([json_roundtrip], [request_read_back], [read_from_string_total],
      [is_utf8_chars_correct], [string_replace_correct]): writing then reading is the
      identity, and reading ends on every text.  Copies are deep and nothing is freed
      twice or lost ([json_copy_deep], [json_assign_correct]), so that [Json] may have
      values without addresses.
    - Threads ([messages_conserved], [no_lost_wakeup], [stop_ends]): the queue as a step
      relation over all interleavings; every message is handled once and in order, no
      waiting thread misses its message, and a queue that is stopped comes to its end
      under every schedule.
    - The log ([write_log_correct], [async_as_sync]), the ports ([get_udp_port_correct])
      and the reconnecting client ([ws_never_sends_on_null], [silent_server_exhausts]: what
      twelve seconds of silence cost, for every limit on the descriptors and polls at any
      times).
    - The places where the code does not do what it means to are theorems as well
      ([no_sender_after_leaving], [error_answer_ignored], [first_datagram_lost],
      [packetize_exact_unbounded], [count_aac_frames_hangs], [reinitialised_still_member],
      [stale_signal_faults], [de_emulation_loses_byte], [long_message_faults],
      [newcomer_missed], [lone_continuation_crashes], [long_array_reordered],
      [json_assign_member_faults], [in_room_never_cleared], [early_open_unnoticed],
      [silent_server_exhausts], [dns_timeout_closes_stdin], [destructor_leaves_connection],
      [hole_hides_headers], [unreadable_text_faults], [wrapped_number_overtakes],
      [port_in_use_reissued], [daily_count_is_per_day],
      [h264_decode_sps_whole_macroblocks]).

    ** Loops and fuel

    A loop over a buffer has as fuel one more than the bytes left, and each turn
    consumes at least one byte ([skip_zeros_total],
    [nal_loop_total], [send_loop_total], [stapa_loop_safe], [loops_total] for the JSON
    reader with [json_fuel], [create_directory_loop_total]): the results are [Ok] or
    [Fault], never [Hang].  The one loop without such a bound is [count_aac_frames],
    which does run for ever on a frame of length zero: [count_aac_frames_hangs] shows
    it for every fuel, [count_aac_frames_total] that nothing else makes it.  The choice
    of a log file ([select_loop]) turns at most once per file and once more.  The loop
    over the frames of a read ([ws_loop]) has one turn more than the bytes stored, and
    each turn takes at least two ([ws_turn_any]); the padding of base64 takes three.
    A copy of a JSON value has its depth for fuel; the loop over a format one turn more than
    its bytes ([printed_ends]).  A name in a DNS message is read with one
    turn more than the bytes of the message and at most six pointers deep, which is the
    limit of the code; [mg_connect] comes back to itself once, for the resolver, whose
    address is numeric; [poll_loop] has one turn for each connection in the list, and
    [client_never_dangles] includes that this is enough.

    ** Parameters

    What the operating system and the C library answer is a parameter: sockets and
    binding, the clock, [inet_addr], the printing and reading of floating-point
    numbers, opening and writing of log files, thread creation, what [select], [socket],
    [connect], [recv] and [send] answer to the websocket library (the record [os] of
    [MgPoll]) and the random bytes of its masks and keys.  Where a theorem relies on their documented behaviour it is a
    named hypothesis, and its witness has a concrete function for them.

    ** Not modelled

    - What main.cpp prints, and the log lines whose text does not come from the server:
      constants, numbers, the address that was set, the errors of the websocket library.
      All of these fit the buffer of the logger.
    - websocket/mongoose is a vendored library: what the client does not speak through
      (HTTP server, listening connections, MQTT, SNTP, TLS, SHA-1, MD5, the server side of
      the handshake, file systems) and its system calls.  In [MgWebsocket],
      [MgSession] and [MgPoll] the handler runs on the events of a read after the read, not
      between two frames of it, and the callbacks of the application are recorded; [calloc]
      does not fail.
    - The [_WIN32] branches, iconv and code-page conversions, [dump_adts_header] and
      the other functions that only print.
    - Failure of [new], except where the code tests for it; weak memory: a class with a
      mutex is modelled at the granularity of its critical sections. *)

From Stdlib Require Export ZArith Lia.
From stdpp Require Export base tactics list gmap sets strings fin_maps sorting.

#[global] Open Scope Z_scope.

(** ** Outcomes of C++ code

    [Ok a]: the code runs to completion with value [a].
    [Fault]: the code reads or writes outside the memory it owns (undefined
    behaviour).  [Hang]: the fuel of a loop ran out. *)
Inductive outcome (A : Type) : Type :=
| Ok (a : A)
| Fault
| Hang.

Arguments Ok {A} a.
Arguments Fault {A}.
Arguments Hang {A}.

#[global] Instance outcome_ret : MRet outcome := fun A a => Ok a.
#[global] Instance outcome_bind : MBind outcome := fun A B f m =>
  match m with Ok a => f a | Fault => Fault | Hang => Hang end.

#[global] Instance outcome_eq_dec `{EqDecision A} : EqDecision (outcome A).
Proof. solve_decision. Defined.

Definition is_ok {A} (m : outcome A) : bool :=
  match m with Ok _ => true | _ => false end.

(** ** Machine words, as [Z] with explicit wrap-around *)

Definition u8 (z : Z) : Z := z mod 2 ^ 8.
Definition u16 (z : Z) : Z := z mod 2 ^ 16.
Definition u32 (z : Z) : Z := z mod 2 ^ 32.
Definition u64 (z : Z) : Z := z mod 2 ^ 64.
Definition i32 (z : Z) : Z := (z + 2 ^ 31) mod 2 ^ 32 - 2 ^ 31.
Definition i64 (z : Z) : Z := (z + 2 ^ 63) mod 2 ^ 64 - 2 ^ 63.

(** A byte, a buffer of bytes. *)
Definition is_byte (b : Z) : Prop := 0 <= b < 256.
Definition is_bytes (l : list Z) : Prop := Forall is_byte l.

#[global] Instance is_byte_dec b : Decision (is_byte b).
Proof. unfold is_byte; apply _. Defined.
#[global] Instance is_bytes_dec l : Decision (is_bytes l).
Proof. unfold is_bytes; apply _. Defined.

(** Length as an integer. *)
Definition zlen {A} (l : list A) : Z := Z.of_nat (length l).

(** ** Memory regions

    A region is the list of the bytes the program owns; a pointer into it is
    an offset. *)

(** [p[i]]: a read outside of the region is a fault. *)
Definition rd (buf : list Z) (i : Z) : outcome Z :=
  if i <? 0 then Fault
  else match buf !! Z.to_nat i with Some b => Ok b | None => Fault end.

(** [ntohs] and [ntohl] of the 16-bit or 32-bit word at [p + i]: a big-endian
    read of its bytes. *)
Definition rd_be16 (buf : list Z) (i : Z) : outcome Z :=
  hi ← rd buf i; lo ← rd buf (i + 1); Ok (hi * 256 + lo).

Definition rd_be32 (buf : list Z) (i : Z) : outcome Z :=
  hi ← rd_be16 buf i; lo ← rd_be16 buf (i + 2); Ok (hi * 65536 + lo).

(** The source of a [memcpy] of [n] bytes from [p + i]. *)
Definition rd_range (buf : list Z) (i n : Z) : outcome (list Z) :=
  if (0 <=? i) && (0 <=? n) && (i + n <=? zlen buf)
  then Ok (take (Z.to_nat n) (drop (Z.to_nat i) buf))
  else Fault.

(** [p[i] = b] and a [memcpy] of [bs] to [p + i]. *)
Definition wr_range (buf : list Z) (i : Z) (bs : list Z) : outcome (list Z) :=
  if (0 <=? i) && (i + zlen bs <=? zlen buf)
  then Ok (take (Z.to_nat i) buf ++ bs ++ drop (Z.to_nat i + length bs) buf)
  else Fault.

(** [htons] / [htonl]: the bytes of a word in network order. *)
Definition be16_bytes (z : Z) : list Z := [u8 (z / 256); u8 z].
Definition be32_bytes (z : Z) : list Z :=
  [u8 (z / 16777216); u8 (z / 65536); u8 (z / 256); u8 z].

#[global] Arguments rd : simpl never.
#[global] Arguments rd_be16 : simpl never.
#[global] Arguments rd_be32 : simpl never.
#[global] Arguments rd_range : simpl never.
#[global] Arguments wr_range : simpl never.
#[global] Arguments u8 : simpl never.
#[global] Arguments u16 : simpl never.
#[global] Arguments u32 : simpl never.
#[global] Arguments u64 : simpl never.
#[global] Arguments i32 : simpl never.
#[global] Arguments i64 : simpl never.
#[global] Arguments zlen : simpl never.
#[global] Arguments be16_bytes : simpl never.
#[global] Arguments be32_bytes : simpl never.

(** ** Generic lemmas *)

Lemma zlen_nil {A} : zlen (@nil A) = 0.
Proof. reflexivity. Qed.

Lemma zlen_cons {A} (x : A) l : zlen (x :: l) = 1 + zlen l.
Proof. unfold zlen; simpl; lia. Qed.

Lemma zlen_app {A} (l k : list A) : zlen (l ++ k) = zlen l + zlen k.
Proof. unfold zlen; rewrite length_app; lia. Qed.

Lemma zlen_nonneg {A} (l : list A) : 0 <= zlen l.
Proof. unfold zlen; lia. Qed.

Lemma zlen_fmap {A B} (f : A → B) l : zlen (f <$> l) = zlen l.
Proof. unfold zlen; by rewrite length_fmap. Qed.

Lemma zlen_take {A} (l : list A) n :
  0 <= n <= zlen l → zlen (take (Z.to_nat n) l) = n.
Proof. unfold zlen; intros; rewrite length_take; lia. Qed.

Lemma zlen_drop {A} (l : list A) n :
  0 <= n <= zlen l → zlen (drop (Z.to_nat n) l) = zlen l - n.
Proof. unfold zlen; intros; rewrite length_drop; lia. Qed.

Create HintDb rtc.
Create Rewrite HintDb rtc_len.

#[export] Hint Rewrite @zlen_nil @zlen_cons @zlen_app @zlen_fmap : rtc_len.
#[export] Hint Resolve zlen_nonneg : rtc.

(** Arithmetic on lengths: normalise [zlen], bring in its positivity, [lia]. *)
Ltac len_pos :=
  repeat match goal with
  | |- context [zlen ?l] =>
      lazymatch goal with
      | _ : 0 <= zlen l |- _ => fail
      | _ => pose proof (zlen_nonneg l)
      end
  | H0 : context [zlen ?l] |- _ =>
      lazymatch goal with
      | _ : 0 <= zlen l |- _ => fail
      | _ => pose proof (zlen_nonneg l)
      end
  end.

Ltac len := autorewrite with rtc_len in *; len_pos; lia.

(** Case analysis of the guards of a handler. *)
Ltac guards :=
  repeat match goal with
  | |- context [if ?b then _ else _] =>
      lazymatch b with
      | context [if _ then _ else _] => fail
      | _ => let E := fresh "E" in destruct b eqn:E
      end
  end.

(** Decide the integer test at the head of the goal with [lia]. *)
Ltac dec_if :=
  match goal with
  | |- context [?a <? ?b] =>
      first [ rewrite (proj2 (Z.ltb_lt a b)) by len
            | rewrite (proj2 (Z.ltb_ge a b)) by len ]
  | |- context [?a <=? ?b] =>
      first [ rewrite (proj2 (Z.leb_le a b)) by len
            | rewrite (proj2 (Z.leb_gt a b)) by len ]
  | |- context [?a =? ?b] =>
      first [ rewrite (proj2 (Z.eqb_eq a b)) by len
            | rewrite (proj2 (Z.eqb_neq a b)) by len ]
  end.

Lemma bind_ok {A B} (f : A → outcome B) a : (Ok a ≫= f) = f a.
Proof. reflexivity. Qed.

Lemma bind_is_ok {A B} (m : outcome A) (f : A → outcome B) b :
  (m ≫= f) = Ok b → ∃ a, m = Ok a ∧ f a = Ok b.
Proof. destruct m; simpl; intros H; try discriminate; eauto. Qed.

Lemma bind_assoc {A B C} (m : outcome A) (f : A → outcome B) (g : B → outcome C) :
  ((m ≫= f) ≫= g) = (m ≫= λ x, f x ≫= g).
Proof. by destruct m. Qed.

(** Run one bind of a monadic computation: [step R] rewrites with [R : m = Ok a]
    and passes [a] on, without unfolding anything else. *)
Ltac step_bind := cbn [mbind outcome_bind mret outcome_ret].
Tactic Notation "step" uconstr(R) := rewrite R; step_bind.
Tactic Notation "step" uconstr(R) "by" tactic(t) := rewrite R by t; step_bind.

(** Decompose hypotheses [m ≫= f = Ok b]. *)
Ltac inv_bind :=
  repeat match goal with
  | H : (_ ≫= _) = Ok _ |- _ =>
      let a := fresh "a" in let Ha := fresh "Ha" in
      apply bind_is_ok in H as (a & Ha & H)
  | H : Ok _ = Ok _ |- _ => injection H as H
  | H : Fault = Ok _ |- _ => discriminate H
  | H : Hang = Ok _ |- _ => discriminate H
  end.

(** *** Reads *)

Lemma rd_lookup buf i b : 0 <= i → rd buf i = Ok b ↔ buf !! Z.to_nat i = Some b.
Proof.
  intros; unfold rd; dec_if.
  destruct (buf !! Z.to_nat i); split; congruence.
Qed.

Lemma rd_in_range buf i : 0 <= i < zlen buf → ∃ b, rd buf i = Ok b ∧ b ∈ buf.
Proof.
  intros Hi. destruct (lookup_lt_is_Some_2 buf (Z.to_nat i)) as [b Hb].
  { unfold zlen in Hi; lia. }
  exists b; split; [by apply rd_lookup; [lia|]|by eapply list_elem_of_lookup_2].
Qed.

Lemma rd_ok_range buf i b : rd buf i = Ok b → 0 <= i < zlen buf ∧ b ∈ buf.
Proof.
  unfold rd; destruct (Z.ltb_spec i 0); [discriminate|].
  destruct (buf !! Z.to_nat i) eqn:Hb; intros; simplify_eq.
  split; [|by eapply list_elem_of_lookup_2].
  apply lookup_lt_Some in Hb; unfold zlen; lia.
Qed.

Lemma rd_out_of_range buf i : ¬ (0 <= i < zlen buf) → rd buf i = Fault.
Proof.
  intros Hi. unfold rd; destruct (Z.ltb_spec i 0); [done|].
  by rewrite lookup_ge_None_2 by (unfold zlen in Hi; lia).
Qed.

Lemma rd_not_hang buf i : rd buf i ≠ Hang.
Proof. unfold rd; case_match; [done|]; by case_match. Qed.

Lemma rd_app_l l k i : i < zlen l → rd (l ++ k) i = rd l i.
Proof.
  intros. unfold rd. destruct (Z.ltb_spec i 0); [done|].
  rewrite lookup_app_l; [done|unfold zlen in *; lia].
Qed.

Lemma rd_app_r l k i : zlen l <= i → rd (l ++ k) i = rd k (i - zlen l).
Proof.
  intros. unfold rd. pose proof (zlen_nonneg l). do 2 dec_if.
  rewrite lookup_app_r by (unfold zlen in *; lia).
  by replace (Z.to_nat (i - zlen l)) with (Z.to_nat i - length l)%nat
    by (unfold zlen in *; lia).
Qed.

Lemma rd_app_r0 l k i : 0 <= i → rd (l ++ k) (zlen l + i) = rd k i.
Proof. intros. rewrite rd_app_r by lia. f_equal; lia. Qed.

Lemma rd_cons_0 b l : rd (b :: l) 0 = Ok b.
Proof. reflexivity. Qed.

Lemma rd_cons_S b l i : 0 < i → rd (b :: l) i = rd l (i - 1).
Proof.
  intros. change (b :: l) with ([b] ++ l). rewrite rd_app_r by (unfold zlen; simpl; lia).
  done.
Qed.

Lemma rd_drop l n i : 0 <= n → 0 <= i → rd (drop (Z.to_nat n) l) i = rd l (n + i).
Proof.
  intros. unfold rd. do 2 dec_if. rewrite lookup_drop.
  by replace (Z.to_nat n + Z.to_nat i)%nat with (Z.to_nat (n + i)) by lia.
Qed.

Lemma rd_be16_ok buf i :
  0 <= i → i + 1 < zlen buf → is_bytes buf →
  ∃ v, rd_be16 buf i = Ok v ∧ 0 <= v < 65536.
Proof.
  intros Hi Hl Hb. unfold rd_be16.
  destruct (rd_in_range buf i) as (h & -> & Hh); [lia|].
  destruct (rd_in_range buf (i + 1)) as (l & -> & Hl'); [lia|].
  eapply Forall_forall in Hh; [|done]. eapply Forall_forall in Hl'; [|done].
  simpl. eexists; split; [done|]. unfold is_byte in *; lia.
Qed.

Lemma rd_be16_out buf i : zlen buf <= i + 1 → rd_be16 buf i = Fault.
Proof.
  intros. unfold rd_be16. rewrite (rd_out_of_range buf (i + 1)) by lia.
  destruct (rd buf i) eqn:E; [done..|by apply rd_not_hang in E].
Qed.

Lemma rd_be16_not_hang buf i : rd_be16 buf i ≠ Hang.
Proof.
  unfold rd_be16. destruct (rd buf i) eqn:E; [|done|by apply rd_not_hang in E].
  destruct (rd buf (i + 1)) eqn:E2; [done|done|by apply rd_not_hang in E2].
Qed.

Lemma rd_be32_ok buf i :
  0 <= i → i + 3 < zlen buf → is_bytes buf →
  ∃ v, rd_be32 buf i = Ok v ∧ 0 <= v < 4294967296.
Proof.
  intros Hi Hl Hb. unfold rd_be32.
  destruct (rd_be16_ok buf i) as (h & -> & Hh); [lia..|done|].
  destruct (rd_be16_ok buf (i + 2)) as (l & -> & Hl'); [lia..|done|].
  simpl. eexists; split; [done|]. lia.
Qed.

Lemma rd_range_app l k m :
  rd_range (l ++ k ++ m) (zlen l) (zlen k) = Ok k.
Proof.
  unfold rd_range. pose proof (zlen_nonneg l); pose proof (zlen_nonneg k).
  repeat dec_if. simpl. unfold zlen. rewrite !Nat2Z.id, drop_app_length, take_app_length.
  done.
Qed.

Lemma rd_range_ok buf i n bs :
  rd_range buf i n = Ok bs →
  0 <= i ∧ 0 <= n ∧ i + n <= zlen buf ∧
  bs = take (Z.to_nat n) (drop (Z.to_nat i) buf) ∧ zlen bs = n.
Proof.
  unfold rd_range.
  destruct ((0 <=? i) && (0 <=? n) && (i + n <=? zlen buf)) eqn:E; [|done].
  intros [= <-]. apply andb_prop in E as [[E1 E2]%andb_prop E3].
  apply Z.leb_le in E1, E2, E3. repeat split; try lia.
  apply zlen_take. rewrite zlen_drop; lia.
Qed.

Lemma rd_range_in buf i n :
  0 <= i → 0 <= n → i + n <= zlen buf →
  rd_range buf i n = Ok (take (Z.to_nat n) (drop (Z.to_nat i) buf)).
Proof. intros; unfold rd_range. by repeat dec_if. Qed.

(** *** Words *)

Lemma u8_byte z : is_byte (u8 z).
Proof. unfold is_byte, u8. pose proof (Z.mod_pos_bound z (2 ^ 8)). lia. Qed.

Lemma u8_id z : is_byte z → u8 z = z.
Proof. intros; apply Z.mod_small; unfold is_byte in *; lia. Qed.

Lemma u16_range z : 0 <= u16 z < 65536.
Proof. unfold u16. pose proof (Z.mod_pos_bound z (2 ^ 16)). lia. Qed.

Lemma u32_range z : 0 <= u32 z < 4294967296.
Proof. unfold u32. pose proof (Z.mod_pos_bound z (2 ^ 32)). lia. Qed.

Lemma u16_id z : 0 <= z < 65536 → u16 z = z.
Proof. intros; apply Z.mod_small; lia. Qed.

Lemma u32_id z : 0 <= z < 4294967296 → u32 z = z.
Proof. intros; apply Z.mod_small; lia. Qed.

Lemma u64_id z : 0 <= z < 18446744073709551616 → u64 z = z.
Proof. intros; apply Z.mod_small; lia. Qed.

Lemma i32_id z : - 2147483648 <= z < 2147483648 → i32 z = z.
Proof. intros. unfold i32. rewrite Z.mod_small; lia. Qed.

#[export] Hint Resolve u8_byte u16_range u32_range : rtc.

Lemma be16_bytes_ok z : is_bytes (be16_bytes z).
Proof. unfold be16_bytes, is_bytes; repeat constructor; apply u8_byte. Qed.

Lemma be32_bytes_ok z : is_bytes (be32_bytes z).
Proof. unfold be32_bytes, is_bytes; repeat constructor; apply u8_byte. Qed.

Lemma zlen_be16 z : zlen (be16_bytes z) = 2.
Proof. reflexivity. Qed.

Lemma zlen_be32 z : zlen (be32_bytes z) = 4.
Proof. reflexivity. Qed.

#[export] Hint Rewrite zlen_be16 zlen_be32 : rtc_len.

(** [ntohs (htons z)] and [ntohl (htonl z)]. *)
Lemma be16_roundtrip l z r : rd_be16 (l ++ be16_bytes z ++ r) (zlen l) = Ok (u16 z).
Proof.
  unfold rd_be16. rewrite <- (Z.add_0_r (zlen l)) at 1.
  rewrite !rd_app_r0 by lia. simpl. unfold be16_bytes; simpl. unfold rd; simpl. f_equal. unfold u8, u16. simpl Z.pow.
  Z.div_mod_to_equations; lia.
Qed.

Lemma be32_roundtrip l z r : rd_be32 (l ++ be32_bytes z ++ r) (zlen l) = Ok (u32 z).
Proof.
  unfold rd_be32, rd_be16. rewrite <- (Z.add_0_r (zlen l)) at 1.
  rewrite <- !Z.add_assoc, !rd_app_r0 by lia. simpl. f_equal. unfold u8, u32. simpl Z.pow.
  Z.div_mod_to_equations; lia.
Qed.

Lemma rd_be16_app_l l k i : i + 1 < zlen l → rd_be16 (l ++ k) i = rd_be16 l i.
Proof. intros. unfold rd_be16. by rewrite !rd_app_l by lia. Qed.

Lemma rd_be16_app_r l k i : zlen l <= i → rd_be16 (l ++ k) i = rd_be16 k (i - zlen l).
Proof.
  intros. unfold rd_be16. rewrite !rd_app_r by lia.
  by replace (i + 1 - zlen l) with (i - zlen l + 1) by lia.
Qed.

Lemma rd_be32_app_l l k i : i + 3 < zlen l → rd_be32 (l ++ k) i = rd_be32 l i.
Proof. intros. unfold rd_be32. by rewrite !rd_be16_app_l by lia. Qed.

Lemma rd_be32_app_r l k i : zlen l <= i → rd_be32 (l ++ k) i = rd_be32 k (i - zlen l).
Proof.
  intros. unfold rd_be32. rewrite !rd_be16_app_r by lia.
  by replace (i + 2 - zlen l) with (i - zlen l + 2) by lia.
Qed.

Lemma rd_range_app_r l k i n : zlen l <= i → rd_range (l ++ k) i n = rd_range k (i - zlen l) n.
Proof.
  intros. unfold rd_range. rewrite zlen_app. pose proof (zlen_nonneg l).
  replace (i - zlen l + n <=? zlen k) with (i + n <=? zlen l + zlen k)
    by (destruct (Z.leb_spec (i - zlen l + n) (zlen k)); [dec_if|dec_if]; done).
  do 2 dec_if. case_match; [|done]. do 2 f_equal.
  rewrite drop_app. rewrite drop_ge by (unfold zlen in *; lia). simpl.
  f_equal. unfold zlen in *; lia.
Qed.

Lemma rd_range_app_l l k i n : i + n <= zlen l → rd_range (l ++ k) i n = rd_range l i n.
Proof.
  intros. unfold rd_range. rewrite zlen_app. pose proof (zlen_nonneg k). do 2 dec_if.
  destruct (Z.leb_spec 0 i), (Z.leb_spec 0 n); simpl; try done. f_equal.
  unfold zlen in *. rewrite drop_app_le by lia. rewrite take_app_le; [done|].
  rewrite length_drop; lia.
Qed.

Lemma be16_value z : u8 (z / 256) * 256 + u8 z = u16 z.
Proof. unfold u8, u16. simpl Z.pow. Z.div_mod_to_equations; lia. Qed.

Lemma be32_value z :
  (u8 (z / 16777216) * 256 + u8 (z / 65536)) * 65536 + (u8 (z / 256) * 256 + u8 z) = u32 z.
Proof. unfold u8, u32. simpl Z.pow. Z.div_mod_to_equations; lia. Qed.

(** A decidable property of all the integers below a bound is decided by
    evaluation: table lemmas on bytes and bit-fields are proved by [by_table]. *)
Lemma all_below_forallb (n : Z) (P : Z → Prop) `{!∀ x, Decision (P x)} :
  forallb (λ k, bool_decide (P (Z.of_nat k))) (seq 0 (Z.to_nat n)) = true ↔
  ∀ x, 0 <= x < n → P x.
Proof.
  rewrite forallb_forall. split.
  - intros Hall x Hx. rewrite <- (Z2Nat.id x) by lia.
    eapply bool_decide_eq_true_1, Hall, in_seq. lia.
  - intros Hall k Hk%in_seq. apply bool_decide_eq_true_2, Hall. lia.
Qed.

#[export] Instance all_below_dec (n : Z) (P : Z → Prop) `{!∀ x, Decision (P x)} :
  Decision (∀ x, 0 <= x < n → P x).
Proof.
  destruct (decide (forallb (λ k, bool_decide (P (Z.of_nat k))) (seq 0 (Z.to_nat n)) = true))
    as [Ht|Hf]; [left|right].
  - by apply (all_below_forallb n P).
  - intros Ht. by apply Hf, (all_below_forallb n P).
Defined.

Ltac by_table := refine (bool_decide_unpack _ _); by vm_compute.

(** The bits of a bounded word above its width are clear. *)
Lemma testbit_high lo n i : 0 <= n <= i → 0 <= lo < 2 ^ n → Z.testbit lo i = false.
Proof.
  intros Hn Hlo. rewrite <- (Z.mod_small lo (2 ^ n)) by done.
  by apply Z.mod_pow2_bits_high.
Qed.

(** [x lor y] of a shifted high part and a low part is their sum. *)
Lemma lor_shiftl_add hi lo n :
  0 <= n → 0 <= lo < 2 ^ n → Z.lor (Z.shiftl hi n) lo = hi * 2 ^ n + lo.
Proof.
  intros Hn Hlo. rewrite <- Z.shiftl_mul_pow2 by lia. assert (Hd : Z.land (Z.shiftl hi n) lo = 0).
  { apply Z.bits_inj'. intros i Hi. rewrite Z.land_spec, Z.bits_0.
    destruct (Z.ltb_spec i n); [by rewrite Z.shiftl_spec_low by lia|].
    by rewrite (testbit_high lo n i), andb_false_r by lia. }
  by rewrite Z.add_nocarry_lxor, Z.lxor_lor.
Qed.

(** Reading a stored field back, at the offset [i] where it was stored. *)
Lemma be16_at l z r i :
  i = zlen l → 0 <= z < 65536 → rd_be16 (l ++ be16_bytes z ++ r) i = Ok z.
Proof. intros -> ?. by rewrite be16_roundtrip, u16_id. Qed.

Lemma be32_at l z r i :
  i = zlen l → 0 <= z < 4294967296 → rd_be32 (l ++ be32_bytes z ++ r) i = Ok z.
Proof. intros -> ?. by rewrite be32_roundtrip, u32_id. Qed.

(** Parts of a range that can be read. *)
Lemma rd_range_take mem p n l k :
  rd_range mem p n = Ok l → 0 <= k <= n → rd_range mem p k = Ok (take (Z.to_nat k) l).
Proof.
  intros (H1 & H2 & H3 & -> & _)%rd_range_ok Hk. rewrite rd_range_in by lia.
  rewrite take_take. do 2 f_equal. lia.
Qed.

Lemma rd_range_drop mem p n l k :
  rd_range mem p n = Ok l → 0 <= k <= n →
  rd_range mem (p + k) (n - k) = Ok (drop (Z.to_nat k) l).
Proof.
  intros (H1 & H2 & H3 & -> & _)%rd_range_ok Hk. rewrite rd_range_in by lia.
  rewrite skipn_firstn_comm, drop_drop. do 2 f_equal; [lia|]. f_equal. lia.
Qed.

(** The two bytes of a 16-bit value, by shift and mask. *)
Lemma be16_bytes_shift z : [Z.land (Z.shiftr z 8) 255; Z.land z 255] = be16_bytes z.
Proof.
  unfold be16_bytes, u8. change 255 with (Z.ones 8). rewrite !Z.land_ones by lia.
  by rewrite Z.shiftr_div_pow2 by lia.
Qed.

(** Overwriting a part of a region in place. *)
Lemma wr_range_mid a b c b' :
  zlen b' = zlen b → wr_range (a ++ b ++ c) (zlen a) b' = Ok (a ++ b' ++ c).
Proof.
  intros Hb. unfold wr_range. pose proof (zlen_nonneg a). rewrite !zlen_app.
  pose proof (zlen_nonneg c). repeat dec_if. cbn [andb]. do 2 f_equal.
  - unfold zlen. by rewrite Nat2Z.id, take_app_length.
  - f_equal. unfold zlen in *. rewrite Nat2Z.id.
    replace (length a + length b')%nat with (length (a ++ b)) by (rewrite length_app; lia).
    by rewrite app_assoc, drop_app_length.
Qed.

Lemma land_ones_range z n : 0 <= n → 0 <= Z.land z (Z.ones n) < 2 ^ n.
Proof. intros. rewrite Z.land_ones by lia. apply Z.mod_pos_bound. lia. Qed.

Lemma wr_range_at l i a b c b' :
  l = a ++ b ++ c → i = zlen a → zlen b' = zlen b → wr_range l i b' = Ok (a ++ b' ++ c).
Proof. intros -> ->. apply wr_range_mid. Qed.
