(* ===== verification/RTPPacket.v ===== *)
(** * RTPPacket: the RTP packet and its parser

    Models [src/rtp/rtp_packet.h] and [src/rtp/rtp_packet.cpp]: the two header
    structures as laid out in memory (little-endian bit-fields, the default of
    the build), the class [RTPPacket], its parser and its accessors.  The
    memory behind [m_packet] is the list of the bytes the packet points to, and
    [m_payload] is an offset into it ([None] for NULL). *)

From S2P Require Import Prelude.

(** ** The wire structures *)

Definition sizeof_RTPHeader : Z := 12.
Definition sizeof_RTPExtensionHeader : Z := 16.

Record RTPHeader := mkRTPHeader {
  version : Z;
  padding : Z;
  extension : Z;
  csrcCount : Z;
  marker : Z;
  payloadType : Z;
  sequence : Z;
  timestamp : Z;
  ssrc : Z;
}.

Record RTPExtensionHeader := mkRTPExtensionHeader {
  ext_id : Z;
  ext_length : Z;
  ext_reserved : Z;
  ext_seqHigh16 : Z;
  ext_msw : Z;
  ext_lsw : Z;
}.

(** The bytes of a structure once its fields are stored (16- and 32-bit fields
    through [htons] and [htonl]). *)
Definition RTPHeader_bytes (h : RTPHeader) : list Z :=
  [ Z.lor (Z.lor (Z.shiftl (Z.land (version h) 3) 6) (Z.shiftl (Z.land (padding h) 1) 5))
          (Z.lor (Z.shiftl (Z.land (extension h) 1) 4) (Z.land (csrcCount h) 15));
    Z.lor (Z.shiftl (Z.land (marker h) 1) 7) (Z.land (payloadType h) 127) ]
  ++ be16_bytes (sequence h) ++ be32_bytes (timestamp h) ++ be32_bytes (ssrc h).

Definition RTPExtensionHeader_bytes (x : RTPExtensionHeader) : list Z :=
  be16_bytes (ext_id x) ++ be16_bytes (ext_length x) ++ be16_bytes (ext_reserved x)
  ++ be16_bytes (ext_seqHigh16 x) ++ be32_bytes (ext_msw x) ++ be32_bytes (ext_lsw x).

(** Reading the bit-fields of the first two bytes. *)
Definition byte0_version (b : Z) : Z := Z.land (Z.shiftr b 6) 3.
Definition byte0_padding (b : Z) : Z := Z.land (Z.shiftr b 5) 1.
Definition byte0_extension (b : Z) : Z := Z.land (Z.shiftr b 4) 1.
Definition byte0_csrcCount (b : Z) : Z := Z.land b 15.
Definition byte1_marker (b : Z) : Z := Z.land (Z.shiftr b 7) 1.
Definition byte1_payloadType (b : Z) : Z := Z.land b 127.

(** ** The class *)

Record RTPPacket := mkRTPPacket {
  m_padding : bool;
  m_extension : bool;
  m_csrc_count : Z;
  m_marker : bool;
  m_payload_type : Z;
  m_sequence : Z;
  m_timestamp : Z;
  m_ssrc : Z;
  m_extension_id : Z;
  m_extension_len : Z;
  m_reserved : Z;
  m_msw : Z;
  m_lsw : Z;
  m_payload : option Z;
  m_payload_len : Z;
  m_packet : option (list Z);
  m_packet_len : Z;
}.

(** [RTPPacket::reset], called by the constructor. *)
Definition reset : RTPPacket :=
  {| m_padding := false; m_extension := false; m_csrc_count := 0;
     m_marker := false; m_payload_type := 0; m_sequence := 0;
     m_timestamp := 0; m_ssrc := 0; m_extension_id := 0; m_extension_len := 0;
     m_reserved := 0; m_msw := 0; m_lsw := 0; m_payload := None;
     m_payload_len := 0; m_packet := None; m_packet_len := 0 |}.

(** The groups of assignments of [parse], in the order of the code. *)
Definition set_packet (this : RTPPacket) (buffer : list Z) (bufferLen : Z) : RTPPacket :=
  {| m_padding := m_padding this; m_extension := m_extension this;
     m_csrc_count := m_csrc_count this; m_marker := m_marker this;
     m_payload_type := m_payload_type this; m_sequence := m_sequence this;
     m_timestamp := m_timestamp this; m_ssrc := m_ssrc this;
     m_extension_id := m_extension_id this; m_extension_len := m_extension_len this;
     m_reserved := m_reserved this; m_msw := m_msw this; m_lsw := m_lsw this;
     m_payload := m_payload this; m_payload_len := m_payload_len this;
     m_packet := Some buffer; m_packet_len := bufferLen |}.

Definition set_header (this : RTPPacket) (b0 b1 seq ts ssrc : Z) : RTPPacket :=
  {| m_padding := negb (byte0_padding b0 =? 0);
     m_extension := negb (byte0_extension b0 =? 0);
     m_csrc_count := byte0_csrcCount b0;
     m_marker := negb (byte1_marker b1 =? 0);
     m_payload_type := byte1_payloadType b1;
     m_sequence := seq; m_timestamp := ts; m_ssrc := ssrc;
     m_extension_id := m_extension_id this; m_extension_len := m_extension_len this;
     m_reserved := m_reserved this; m_msw := m_msw this; m_lsw := m_lsw this;
     m_payload := m_payload this; m_payload_len := m_payload_len this;
     m_packet := m_packet this; m_packet_len := m_packet_len this |}.

Definition set_extension (this : RTPPacket) (seq id len reserved msw lsw : Z) : RTPPacket :=
  {| m_padding := m_padding this; m_extension := m_extension this;
     m_csrc_count := m_csrc_count this; m_marker := m_marker this;
     m_payload_type := m_payload_type this; m_sequence := seq;
     m_timestamp := m_timestamp this; m_ssrc := m_ssrc this;
     m_extension_id := id; m_extension_len := len;
     m_reserved := reserved; m_msw := msw; m_lsw := lsw;
     m_payload := m_payload this; m_payload_len := m_payload_len this;
     m_packet := m_packet this; m_packet_len := m_packet_len this |}.

Definition set_payload (this : RTPPacket) (payload : option Z) (len : Z) : RTPPacket :=
  {| m_padding := m_padding this; m_extension := m_extension this;
     m_csrc_count := m_csrc_count this; m_marker := m_marker this;
     m_payload_type := m_payload_type this; m_sequence := m_sequence this;
     m_timestamp := m_timestamp this; m_ssrc := m_ssrc this;
     m_extension_id := m_extension_id this; m_extension_len := m_extension_len this;
     m_reserved := m_reserved this; m_msw := m_msw this; m_lsw := m_lsw this;
     m_payload := payload; m_payload_len := len;
     m_packet := m_packet this; m_packet_len := m_packet_len this |}.

(** [RTPPacket::parse(buffer, bufferLen)]: [buffer] is the memory region the
    pointer addresses, [bufferLen] the length the caller passes. *)
Definition parse (this : RTPPacket) (buffer : list Z) (bufferLen : Z)
    : outcome (bool * RTPPacket) :=
  if bufferLen <=? sizeof_RTPHeader then Ok (false, this) else
  let this := set_packet this buffer bufferLen in
  b0 ← rd buffer 0;
  if negb (byte0_version b0 =? 2) then Ok (false, this) else
  b1 ← rd buffer 1;
  seq ← rd_be16 buffer 2;
  ts ← rd_be32 buffer 4;
  ssrc ← rd_be32 buffer 8;
  let this := set_header this b0 b1 seq ts ssrc in
  paddingBytes ← (if negb (byte0_padding b0 =? 0) then rd buffer (bufferLen - 1) else Ok 0);
  if negb (byte0_padding b0 =? 0) && (paddingBytes =? 0) then Ok (false, this) else
  if m_extension this then
    let ext := sizeof_RTPHeader + m_csrc_count this * 4 in
    id ← rd_be16 buffer ext;
    len ← rd_be16 buffer (ext + 2);
    if negb (len =? 3) then
      Ok (false, set_extension this seq id len (m_reserved this) (m_msw this) (m_lsw this))
    else
    high32 ← rd_be16 buffer (ext + 6);
    reserved ← rd_be16 buffer (ext + 4);
    msw ← rd_be32 buffer (ext + 8);
    lsw ← rd_be32 buffer (ext + 12);
    let this := set_extension this (Z.lor (Z.shiftl high32 16) seq) id len reserved msw lsw in
    let payload_len :=
      u64 (bufferLen - paddingBytes - sizeof_RTPHeader - m_csrc_count this * 4
           - sizeof_RTPExtensionHeader) in
    if payload_len <? 0 then Ok (false, set_payload this (m_payload this) payload_len)
    else Ok (true, set_payload this (Some (ext + sizeof_RTPExtensionHeader)) payload_len)
  else Ok (false, this).

(** The accessors. *)
Definition has_padding (this : RTPPacket) : bool := m_padding this.
Definition has_extension (this : RTPPacket) : bool := m_extension this.
Definition get_csrc_count (this : RTPPacket) : Z := m_csrc_count this.
Definition has_marker (this : RTPPacket) : bool := m_marker this.
Definition get_payload_type (this : RTPPacket) : Z := m_payload_type this.
Definition get_sequence (this : RTPPacket) : Z := m_sequence this.
Definition get_timestamp (this : RTPPacket) : Z := m_timestamp this.
Definition get_ssrc (this : RTPPacket) : Z := m_ssrc this.
Definition get_payload (this : RTPPacket) : option Z := m_payload this.
Definition get_payload_length (this : RTPPacket) : Z := m_payload_len this.
Definition get_packet (this : RTPPacket) : option (list Z) := m_packet this.
Definition get_packet_length (this : RTPPacket) : Z := m_packet_len this.
Definition get_extension_id (this : RTPPacket) : Z := m_extension_id this.
Definition get_extension_length (this : RTPPacket) : Z := m_extension_len this.
Definition get_reserved (this : RTPPacket) : Z := m_reserved this.
Definition get_msw (this : RTPPacket) : Z := m_msw this.
Definition get_lsw (this : RTPPacket) : Z := m_lsw this.

(** [RTPPacket::set_ssrc] patches the packet's memory, not the cached field. *)
Definition set_ssrc (this : RTPPacket) (newSsrc : Z) : outcome RTPPacket :=
  match m_packet this with
  | None => Fault
  | Some mem =>
      mem' ← wr_range mem 8 (be32_bytes newSsrc);
      Ok {| m_padding := m_padding this; m_extension := m_extension this;
            m_csrc_count := m_csrc_count this; m_marker := m_marker this;
            m_payload_type := m_payload_type this; m_sequence := m_sequence this;
            m_timestamp := m_timestamp this; m_ssrc := m_ssrc this;
            m_extension_id := m_extension_id this;
            m_extension_len := m_extension_len this;
            m_reserved := m_reserved this; m_msw := m_msw this; m_lsw := m_lsw this;
            m_payload := m_payload this; m_payload_len := m_payload_len this;
            m_packet := Some mem'; m_packet_len := m_packet_len this |}
  end.

(** [RTPPacket::get_csrc]. *)
Definition get_csrc (this : RTPPacket) (index : Z) : outcome Z :=
  if m_csrc_count this <=? index then Ok 0
  else match m_packet this with
       | None => Fault
       | Some mem => rd_be32 mem (sizeof_RTPHeader + index * 4)
       end.

(** [get_payload()[i]]: what a client of the packet reads. *)
Definition payload_rd (this : RTPPacket) (i : Z) : outcome Z :=
  match m_packet this, m_payload this with
  | Some mem, Some off => rd mem (off + i)
  | _, _ => Fault
  end.

(** A [memcpy] of [n] bytes from [get_payload() + i]. *)
Definition payload_range (this : RTPPacket) (i n : Z) : outcome (list Z) :=
  match m_packet this, m_payload this with
  | Some mem, Some off => rd_range mem (off + i) n
  | _, _ => Fault
  end.

(** ** The wire format (specification)

    A packet as RFC 3550 lays it out: the header, the CSRC list, the extension
    of this program, the payload and the padding, whose last byte is its
    length. *)
Record wire := mkWire {
  w_header : RTPHeader;
  w_csrcs : list Z;
  w_ext : RTPExtensionHeader;
  w_payload : list Z;
  w_padding : list Z;
}.

Definition wire_bytes (w : wire) : list Z :=
  RTPHeader_bytes (w_header w) ++ (w_csrcs w ≫= be32_bytes)
  ++ RTPExtensionHeader_bytes (w_ext w) ++ w_payload w ++ w_padding w.

Definition header_ok (h : RTPHeader) : Prop :=
  0 <= version h < 4 ∧ 0 <= padding h < 2 ∧ 0 <= extension h < 2
  ∧ 0 <= csrcCount h < 16 ∧ 0 <= marker h < 2 ∧ 0 <= payloadType h < 128
  ∧ 0 <= sequence h < 65536 ∧ 0 <= timestamp h < 4294967296
  ∧ 0 <= ssrc h < 4294967296.

Definition ext_ok (x : RTPExtensionHeader) : Prop :=
  0 <= ext_id x < 65536 ∧ ext_length x = 3 ∧ 0 <= ext_reserved x < 65536
  ∧ 0 <= ext_seqHigh16 x < 65536 ∧ 0 <= ext_msw x < 4294967296
  ∧ 0 <= ext_lsw x < 4294967296.

Definition wire_ok (w : wire) : Prop :=
  header_ok (w_header w) ∧ ext_ok (w_ext w)
  ∧ version (w_header w) = 2 ∧ extension (w_header w) = 1
  ∧ csrcCount (w_header w) = zlen (w_csrcs w)
  ∧ (padding (w_header w) = 0 → w_padding w = [])
  ∧ (padding (w_header w) = 1 →
       zlen (w_padding w) < 256 ∧ last (w_padding w) = Some (zlen (w_padding w)))
  ∧ zlen (wire_bytes w) < 2 ^ 64.

#[global] Instance header_ok_dec h : Decision (header_ok h).
Proof. unfold header_ok; apply _. Defined.
#[global] Instance ext_ok_dec x : Decision (ext_ok x).
Proof. unfold ext_ok; apply _. Defined.

(** The packet the receiver must obtain from [w]. *)
Definition wire_packet (w : wire) : RTPPacket :=
  {| m_padding := padding (w_header w) =? 1; m_extension := true;
     m_csrc_count := zlen (w_csrcs w); m_marker := marker (w_header w) =? 1;
     m_payload_type := payloadType (w_header w);
     m_sequence := ext_seqHigh16 (w_ext w) * 65536 + sequence (w_header w);
     m_timestamp := timestamp (w_header w); m_ssrc := ssrc (w_header w);
     m_extension_id := ext_id (w_ext w); m_extension_len := 3;
     m_reserved := ext_reserved (w_ext w); m_msw := ext_msw (w_ext w);
     m_lsw := ext_lsw (w_ext w);
     m_payload := Some (28 + 4 * zlen (w_csrcs w));
     m_payload_len := zlen (w_payload w);
     m_packet := Some (wire_bytes w); m_packet_len := zlen (wire_bytes w) |}.

(** The region the parser needs: header, CSRC list, extension. *)
Definition needed (buffer : list Z) : Z :=
  match rd buffer 0 with
  | Ok b0 => sizeof_RTPHeader + byte0_csrcCount b0 * 4 + sizeof_RTPExtensionHeader
  | _ => 0
  end.

(** The padding length [parse] subtracts. *)
Definition padding_read (buffer : list Z) (bufferLen : Z) : outcome Z :=
  b0 ← rd buffer 0;
  if negb (byte0_padding b0 =? 0) then rd buffer (bufferLen - 1) else Ok 0.

(** ** Lemmas *)

Lemma RTPHeader_bytes_len h : zlen (RTPHeader_bytes h) = 12.
Proof. reflexivity. Qed.

Lemma RTPExtensionHeader_bytes_len x : zlen (RTPExtensionHeader_bytes x) = 16.
Proof. reflexivity. Qed.

#[export] Hint Rewrite RTPHeader_bytes_len RTPExtensionHeader_bytes_len : rtc_len.

Lemma csrcs_len cs : zlen (cs ≫= be32_bytes) = 4 * zlen cs.
Proof. induction cs as [|c cs IH]; [done|]. rewrite bind_cons, zlen_app, zlen_cons, IH, zlen_be32; lia. Qed.

#[export] Hint Rewrite csrcs_len : rtc_len.

(** The bit-fields of the first two bytes read back as they were stored. *)
Lemma byte0_fields v p e c :
  0 <= v < 4 → 0 <= p < 2 → 0 <= e < 2 → 0 <= c < 16 →
  let b := Z.lor (Z.lor (Z.shiftl (Z.land v 3) 6) (Z.shiftl (Z.land p 1) 5))
                 (Z.lor (Z.shiftl (Z.land e 1) 4) (Z.land c 15)) in
  byte0_version b = v ∧ byte0_padding b = p ∧ byte0_extension b = e
  ∧ byte0_csrcCount b = c ∧ is_byte b.
Proof.
  cbv zeta. intros Hv Hp He Hc. revert v Hv p Hp e He c Hc. by_table.
Qed.

Lemma byte1_fields m t :
  0 <= m < 2 → 0 <= t < 128 →
  let b := Z.lor (Z.shiftl (Z.land m 1) 7) (Z.land t 127) in
  byte1_marker b = m ∧ byte1_payloadType b = t ∧ is_byte b.
Proof.
  cbv zeta. intros Hm Ht. revert m Hm t Ht. by_table.
Qed.

Lemma RTPHeader_bytes_is_bytes h :
  header_ok h → is_bytes (RTPHeader_bytes h).
Proof.
  intros (? & ? & ? & ? & ? & ? & _). unfold RTPHeader_bytes, is_bytes.
  destruct (byte0_fields (version h) (padding h) (extension h) (csrcCount h))
    as (_ & _ & _ & _ & ?); [done..|].
  destruct (byte1_fields (marker h) (payloadType h)) as (_ & _ & ?); [done..|].
  apply Forall_app; split; [by apply Forall_cons; split; [|apply Forall_cons; split; [|constructor]]|].
  apply Forall_app; split; [apply be16_bytes_ok|].
  apply Forall_app; split; apply be32_bytes_ok.
Qed.

(** What [parse] reads in the fixed header of a packet. *)
Lemma RTPHeader_reads h r :
  header_ok h →
  ∃ b0 b1,
    rd (RTPHeader_bytes h ++ r) 0 = Ok b0 ∧ rd (RTPHeader_bytes h ++ r) 1 = Ok b1
    ∧ byte0_version b0 = version h ∧ byte0_padding b0 = padding h
    ∧ byte0_extension b0 = extension h ∧ byte0_csrcCount b0 = csrcCount h
    ∧ byte1_marker b1 = marker h ∧ byte1_payloadType b1 = payloadType h
    ∧ rd_be16 (RTPHeader_bytes h ++ r) 2 = Ok (sequence h)
    ∧ rd_be32 (RTPHeader_bytes h ++ r) 4 = Ok (timestamp h)
    ∧ rd_be32 (RTPHeader_bytes h ++ r) 8 = Ok (ssrc h).
Proof.
  intros (Hv & Hp & He & Hc & Hm & Ht & Hs & Hts & Hssrc).
  destruct (byte0_fields _ _ _ _ Hv Hp He Hc) as (H1 & H2 & H3 & H4 & _).
  destruct (byte1_fields _ _ Hm Ht) as (H5 & H6 & _).
  do 2 eexists. split; [reflexivity|]. split; [reflexivity|].
  do 6 (split; [eassumption|]).
  unfold RTPHeader_bytes. rewrite <- !app_assoc.
  split; [by apply (be16_at [_; _])|].
  split; [rewrite app_assoc; by apply (be32_at (_ ++ _))|].
  rewrite 2 app_assoc. by apply (be32_at (_ ++ _)).
Qed.

(** What [parse] reads in the extension header that follows [l]. *)
Lemma RTPExtensionHeader_reads x l r i :
  ext_ok x → i = zlen l →
  let buf := l ++ RTPExtensionHeader_bytes x ++ r in
  rd_be16 buf i = Ok (ext_id x) ∧ rd_be16 buf (i + 2) = Ok 3
  ∧ rd_be16 buf (i + 4) = Ok (ext_reserved x) ∧ rd_be16 buf (i + 6) = Ok (ext_seqHigh16 x)
  ∧ rd_be32 buf (i + 8) = Ok (ext_msw x) ∧ rd_be32 buf (i + 12) = Ok (ext_lsw x).
Proof.
  intros (Hi & Hl & Hr & Hs & Hm & Hls) -> buf. subst buf.
  rewrite !(rd_be16_app_r l), !(rd_be32_app_r l) by lia.
  rewrite !(rd_be16_app_l (RTPExtensionHeader_bytes x)),
    !(rd_be32_app_l (RTPExtensionHeader_bytes x))
    by (rewrite RTPExtensionHeader_bytes_len; lia).
  rewrite Z.sub_diag, !Z.add_simpl_l. unfold RTPExtensionHeader_bytes.
  assert (Hnil : ∀ b, be32_bytes b = be32_bytes b ++ []) by (intros; by rewrite app_nil_r).
  rewrite (Hnil (ext_lsw x)), Hl.
  split; [by apply (be16_at [])|].
  split; [by apply (be16_at (be16_bytes _))|].
  split; [rewrite app_assoc; by apply (be16_at (_ ++ _))|].
  split; [rewrite 2 app_assoc; by apply (be16_at (_ ++ _))|].
  split; [rewrite 3 app_assoc; by apply (be32_at (_ ++ _))|].
  rewrite 4 app_assoc. by apply (be32_at (_ ++ _)).
Qed.

Lemma wire_bytes_len w :
  zlen (wire_bytes w) = 28 + 4 * zlen (w_csrcs w) + zlen (w_payload w) + zlen (w_padding w).
Proof. unfold wire_bytes. autorewrite with rtc_len. lia. Qed.

Lemma rd_last l b : last l = Some b → rd l (zlen l - 1) = Ok b.
Proof.
  intros Hl. destruct l as [|x l]; [done|].
  apply rd_lookup; [rewrite zlen_cons; len|].
  rewrite last_lookup in Hl. rewrite <- Hl. f_equal. unfold zlen; simpl length; lia.
Qed.

(** The padding length [parse] reads. *)
Lemma wire_padding_read w :
  wire_ok w → padding (w_header w) = 1 →
  rd (wire_bytes w) (zlen (wire_bytes w) - 1) = Ok (zlen (w_padding w)) ∧ 0 < zlen (w_padding w).
Proof.
  intros (_ & _ & _ & _ & _ & _ & Hp & _) H1. destruct (Hp H1) as [_ Hl].
  assert (Hne : 0 < zlen (w_padding w)).
  { destruct (w_padding w); [done|]. rewrite zlen_cons. len. }
  split; [|done]. rewrite <- (rd_last _ _ Hl). unfold wire_bytes.
  rewrite !app_assoc, rd_app_r, zlen_app by (rewrite !zlen_app; lia). f_equal. lia.
Qed.

Lemma wire_bytes_read w :
  wire_bytes w = RTPHeader_bytes (w_header w)
    ++ ((w_csrcs w ≫= be32_bytes) ++ RTPExtensionHeader_bytes (w_ext w)
        ++ w_payload w ++ w_padding w).
Proof. reflexivity. Qed.

Lemma wire_bytes_ext w :
  wire_bytes w = (RTPHeader_bytes (w_header w) ++ (w_csrcs w ≫= be32_bytes))
    ++ RTPExtensionHeader_bytes (w_ext w) ++ (w_payload w ++ w_padding w).
Proof. unfold wire_bytes. by rewrite <- !app_assoc. Qed.

(** The sequence number is extended with the high 16 bits of the extension. *)
Lemma sequence_join hi lo : 0 <= lo < 65536 → Z.lor (Z.shiftl hi 16) lo = hi * 65536 + lo.
Proof. intros. by rewrite lor_shiftl_add by (simpl; lia). Qed.

Lemma parse_wire_roundtrip_spec (this : RTPPacket) (w : wire) :
  wire_ok w →
  parse this (wire_bytes w) (zlen (wire_bytes w)) = Ok (true, wire_packet w).
Proof.
  intros Hok. pose proof (wire_padding_read w Hok) as Hpad.
  destruct Hok as (Hh & Hx & Hv & He & Hc & Hp0 & Hp1 & Hlen).
  pose proof (wire_bytes_len w) as HL.
  destruct (RTPHeader_reads (w_header w)
              ((w_csrcs w ≫= be32_bytes) ++ RTPExtensionHeader_bytes (w_ext w)
               ++ w_payload w ++ w_padding w) Hh)
    as (b0 & b1 & R0 & R1 & F1 & F2 & F3 & F4 & F5 & F6 & R2 & R3 & R4).
  rewrite <- wire_bytes_read in *.
  destruct (RTPExtensionHeader_reads (w_ext w)
              (RTPHeader_bytes (w_header w) ++ (w_csrcs w ≫= be32_bytes))
              (w_payload w ++ w_padding w) (12 + zlen (w_csrcs w) * 4) Hx)
    as (X1 & X2 & X3 & X4 & X5 & X6); [len|].
  rewrite <- wire_bytes_ext in *.
  pose proof (zlen_nonneg (w_csrcs w)). pose proof (zlen_nonneg (w_payload w)).
  pose proof (zlen_nonneg (w_padding w)).
  assert (Hpd : padding (w_header w) = 0 ∨ padding (w_header w) = 1)
    by (destruct Hh; lia).
  unfold parse, sizeof_RTPHeader, sizeof_RTPExtensionHeader. dec_if.
  step R0. rewrite F1, Hv. change (negb (2 =? 2)) with false. cbv iota.
  step R1. step R2. step R3. step R4.
  rewrite F2. cbn [set_header set_packet m_extension m_csrc_count].
  rewrite F3, F4, He, Hc. change (negb (1 =? 0)) with true. cbv iota.
  destruct Hh as (_ & _ & _ & _ & Hm & _ & Hs & _).
  assert (Hmk : negb (marker (w_header w) =? 0) = (marker (w_header w) =? 1))
    by (assert (marker (w_header w) = 0 ∨ marker (w_header w) = 1) as [-> | ->] by lia; done).
  assert (Hfin : ∀ pad, pad = zlen (w_padding w) →
    u64 (zlen (wire_bytes w) - pad - 12 - zlen (w_csrcs w) * 4 - 16) = zlen (w_payload w)).
  { intros pad ->. rewrite u64_id by lia. lia. }
  assert (Hread : ∃ pad,
    (if negb (padding (w_header w) =? 0)
     then rd (wire_bytes w) (zlen (wire_bytes w) - 1) else Ok 0) = Ok pad
    ∧ pad = zlen (w_padding w)
    ∧ negb (padding (w_header w) =? 0) && (pad =? 0) = false).
  { destruct Hpd as [Hpd|Hpd]; rewrite Hpd; simpl.
    - exists 0. by rewrite Hp0.
    - destruct (Hpad Hpd) as [-> ?]. eexists; split_and!; [done..|]. by dec_if. }
  destruct Hread as (pad & Hr & Hpv & Hz). step Hr. rewrite Hz. cbv iota.
  step X1. step X2. step X4. step X3. step X5. step X6.
  cbn [set_extension set_header m_csrc_count]. rewrite F4, Hc, (Hfin pad Hpv). dec_if.
  unfold set_payload, set_extension, set_header, wire_packet; cbn.
  rewrite F2, F3, ?F4, F5, F6, He, ?Hc, Hmk, sequence_join by lia.
  do 4 f_equal; [|lia]. destruct Hpd as [-> | ->]; done.
Qed.

(** C2: [parse] inverts the wire format. *)
Theorem parse_wire_roundtrip (this : RTPPacket) (w : wire) :
  wire_ok w →
  parse this (wire_bytes w) (zlen (wire_bytes w)) = Ok (true, wire_packet w).
Proof. by apply parse_wire_roundtrip_spec. Qed.

(** *** Safety and bounds of [parse] *)

Lemma byte0_csrcCount_range b : 0 <= byte0_csrcCount b < 16.
Proof.
  unfold byte0_csrcCount. change 15 with (Z.ones 4). rewrite Z.land_ones by lia.
  pose proof (Z.mod_pos_bound b (2 ^ 4)). lia.
Qed.

(** Inversion of a successful parse: where the payload is and how long. *)
Lemma parse_true_inv this buffer bufferLen p :
  parse this buffer bufferLen = Ok (true, p) →
  ∃ pad off,
    12 < bufferLen ∧ needed buffer = off ∧ padding_read buffer bufferLen = Ok pad
    ∧ off <= zlen buffer
    ∧ m_payload p = Some off ∧ m_payload_len p = u64 (bufferLen - pad - off)
    ∧ m_packet p = Some buffer ∧ m_packet_len p = bufferLen.
Proof.
  unfold parse, needed, padding_read, sizeof_RTPHeader, sizeof_RTPExtensionHeader.
  destruct (Z.leb_spec bufferLen 12); [done|]. intros Hparse.
  apply bind_is_ok in Hparse as (b0 & Hb0 & Hparse). rewrite Hb0. step_bind.
  destruct (negb (byte0_version b0 =? 2)); [done|].
  inv_bind. case_match; [done|].
  cbn [set_header set_packet m_extension m_csrc_count] in Hparse.
  destruct (negb (byte0_extension b0 =? 0)); [|done].
  inv_bind. case_match; [done|]. inv_bind.
  cbn [set_extension set_header set_packet m_extension m_csrc_count] in *.
  case_match; [done|]. inv_bind. subst p. cbn.
  match goal with Hl : rd_be32 _ (_ + 12) = Ok _ |- _ => rename Hl into Hlast end.
  exists a3, (12 + byte0_csrcCount b0 * 4 + 16).
  split_and!; try done; try (f_equal; lia).
  unfold rd_be32, rd_be16 in Hlast. inv_bind.
  repeat match goal with H : rd _ _ = Ok _ |- _ => apply rd_ok_range in H as [? _] end. lia.
Qed.

(** A packet long enough for its headers is parsed without a fault. *)
Theorem parse_no_fault this buffer :
  is_bytes buffer → needed buffer <= zlen buffer →
  ∃ r, parse this buffer (zlen buffer) = Ok r.
Proof.
  unfold parse, needed, sizeof_RTPHeader, sizeof_RTPExtensionHeader. intros Hb Hn.
  destruct (Z.leb_spec (zlen buffer) 12); [by eexists|].
  destruct (rd_in_range buffer 0) as (b0 & Hb0 & _); [lia|]. rewrite Hb0 in *. step_bind.
  pose proof (byte0_csrcCount_range b0).
  destruct (negb (byte0_version b0 =? 2)); [by eexists|].
  destruct (rd_in_range buffer 1) as (b1 & Hb1 & _); [lia|]. step Hb1.
  destruct (rd_be16_ok buffer 2) as (? & Hq & _); [lia..|done|]. step Hq.
  destruct (rd_be32_ok buffer 4) as (? & Hq1 & _); [lia..|done|]. step Hq1.
  destruct (rd_be32_ok buffer 8) as (? & Hq2 & _); [lia..|done|]. step Hq2.
  assert (Hpad : ∃ pad, (if negb (byte0_padding b0 =? 0)
                         then rd buffer (zlen buffer - 1) else Ok 0) = Ok pad).
  { case_match; [|by eexists].
    destruct (rd_in_range buffer (zlen buffer - 1)) as (? & ? & _); [lia|]. by eexists. }
  destruct Hpad as (pad & Hpad). step Hpad.
  destruct (negb (byte0_padding b0 =? 0) && (pad =? 0)); [by eexists|].
  cbn [set_header set_packet m_extension m_csrc_count].
  destruct (negb (byte0_extension b0 =? 0)); [|by eexists].
  destruct (rd_be16_ok buffer (12 + byte0_csrcCount b0 * 4)) as (? & E1 & _); [lia..|done|].
  step E1.
  destruct (rd_be16_ok buffer (12 + byte0_csrcCount b0 * 4 + 2)) as (? & E2 & _); [lia..|done|].
  step E2.
  match goal with |- context [negb (?len =? 3)] => destruct (negb (len =? 3)) end;
    [by eexists|].
  destruct (rd_be16_ok buffer (12 + byte0_csrcCount b0 * 4 + 6)) as (? & E3 & _); [lia..|done|].
  step E3.
  destruct (rd_be16_ok buffer (12 + byte0_csrcCount b0 * 4 + 4)) as (? & E4 & _); [lia..|done|].
  step E4.
  destruct (rd_be32_ok buffer (12 + byte0_csrcCount b0 * 4 + 8)) as (? & E5 & _); [lia..|done|].
  step E5.
  destruct (rd_be32_ok buffer (12 + byte0_csrcCount b0 * 4 + 12)) as (? & E6 & _); [lia..|done|].
  step E6. match goal with |- context [?l <? 0] => destruct (l <? 0) end; by eexists.
Qed.

(** A datagram with the version and extension bits set, but too short for the
    extension header its CSRC count places, is read out of bounds. *)
Theorem parse_truncated_faults this buffer b0 :
  is_bytes buffer → rd buffer 0 = Ok b0 →
  byte0_version b0 = 2 → byte0_extension b0 = 1 → byte0_padding b0 = 0 →
  12 < zlen buffer < 12 + byte0_csrcCount b0 * 4 + 4 →
  parse this buffer (zlen buffer) = Fault.
Proof.
  intros Hb Hb0 Hv He Hp Hl.
  unfold parse, sizeof_RTPHeader, sizeof_RTPExtensionHeader. dec_if. step Hb0.
  rewrite Hv, Hp. change (negb (2 =? 2)) with false. change (negb (0 =? 0)) with false.
  cbv iota.
  destruct (rd_in_range buffer 1) as (b1 & Hb1 & _); [lia|]. step Hb1.
  destruct (rd_be16_ok buffer 2) as (? & Hq & _); [lia..|done|]. step Hq.
  destruct (rd_be32_ok buffer 4) as (? & Hq1 & _); [lia..|done|]. step Hq1.
  destruct (rd_be32_ok buffer 8) as (? & Hq2 & _); [lia..|done|]. step Hq2.
  cbn [set_header set_packet m_extension m_csrc_count andb]. rewrite He.
  change (negb (1 =? 0)) with true. cbv iota.
  pose proof (byte0_csrcCount_range b0).
  rewrite (rd_be16_out buffer (12 + byte0_csrcCount b0 * 4 + 2)) by lia.
  destruct (rd_be16 buffer (12 + byte0_csrcCount b0 * 4)) eqn:E; [done..|].
  by apply rd_be16_not_hang in E.
Qed.

(** Where the payload lies: inside the packet exactly when the padding the
    packet claims fits; otherwise the unsigned length wraps around and the
    check for a negative length does not reject the packet. *)
Theorem parse_payload_bounds this buffer p :
  is_bytes buffer → zlen buffer < 2 ^ 63 →
  parse this buffer (zlen buffer) = Ok (true, p) →
  ∃ pad,
    padding_read buffer (zlen buffer) = Ok pad ∧ 0 <= pad < 256
    ∧ m_payload p = Some (needed buffer) ∧ needed buffer <= zlen buffer
    ∧ (needed buffer + pad <= zlen buffer →
         needed buffer + m_payload_len p + pad = zlen buffer)
    ∧ (zlen buffer < needed buffer + pad →
         m_payload_len p = 2 ^ 64 + (zlen buffer - needed buffer - pad)).
Proof.
  intros Hb Hlt (pad & off & Hl & Hn & Hpad & Hoff & Hpl & Hlen & _)%parse_true_inv.
  rewrite Hn. exists pad.
  assert (0 <= pad < 256).
  { revert Hpad. unfold padding_read. intros Hpad. inv_bind. case_match; inv_bind; [|lia].
    apply rd_ok_range in Hpad as [_ Hin]. exact (proj1 (Forall_forall _ _) Hb _ Hin). }
  assert (0 <= off).
  { subst off. unfold needed. case_match; [|done..].
    pose proof (byte0_csrcCount_range a). unfold sizeof_RTPHeader, sizeof_RTPExtensionHeader. lia. }
  split_and!; try done; try lia; intros; rewrite Hlen; [rewrite u64_id; lia|].
  unfold u64. rewrite <- (Z.mod_add _ 1) by lia. rewrite Z.mod_small; lia.
Qed.

(** ** Witnesses *)

Definition sample_wire : wire :=
  {| w_header := mkRTPHeader 2 1 1 1 1 96 65535 7 4294967295;
     w_csrcs := [305419896];
     w_ext := mkRTPExtensionHeader 0 3 9 1 5 6;
     w_payload := [101; 1; 2; 3];
     w_padding := [0; 0; 3] |}.

Lemma sample_wire_ok : wire_ok sample_wire.
Proof.
  unfold wire_ok. split_and!; try done; try by apply (bool_decide_unpack _).
Qed.

Lemma parse_wire_roundtrip_witness :
  parse reset (wire_bytes sample_wire) (zlen (wire_bytes sample_wire))
    = Ok (true, wire_packet sample_wire)
  ∧ m_sequence (wire_packet sample_wire) = 131071.
Proof.
  split; [|reflexivity]. apply (parse_wire_roundtrip reset sample_wire).
  exact sample_wire_ok.
Defined.

Lemma parse_no_fault_witness : ∃ r,
  parse reset (wire_bytes sample_wire) (zlen (wire_bytes sample_wire)) = Ok r.
Proof.
  apply (parse_no_fault reset (wire_bytes sample_wire)).
  - by apply (bool_decide_unpack _).
  - vm_compute. discriminate.
Defined.

(** A 13-byte datagram: version 2, extension bit set, nothing behind. *)
Definition truncated : list Z := [144; 96; 0; 1; 0; 0; 0; 0; 0; 0; 0; 1; 0].

Lemma parse_truncated_faults_witness : parse reset truncated 13 = Fault.
Proof.
  apply (parse_truncated_faults reset truncated 144); try reflexivity.
  - by apply (bool_decide_unpack _).
  - split; reflexivity.
Defined.

(** A packet of 28 bytes whose last byte claims 200 bytes of padding. *)
Definition overpadded : list Z :=
  [176; 96; 0; 1; 0; 0; 0; 0; 0; 0; 0; 1; 0; 0; 0; 3; 0; 0; 0; 0; 0; 0; 0; 0; 0; 0; 0; 200].

Lemma parse_payload_bounds_witness : ∃ p pad,
  parse reset overpadded 28 = Ok (true, p) ∧ padding_read overpadded 28 = Ok pad
  ∧ pad = 200 ∧ m_payload_len p = 2 ^ 64 - 200.
Proof.
  destruct (parse reset overpadded 28) as [[[] p]| |] eqn:E; [|discriminate E..].
  assert (Hb : is_bytes overpadded) by by apply (bool_decide_unpack _).
  assert (Hl : zlen overpadded < 2 ^ 63) by reflexivity.
  destruct (parse_payload_bounds reset overpadded p Hb Hl E)
    as (pad & Hpad & _ & _ & _ & _ & Hw).
  exists p, pad. injection Hpad as <-. split_and!; [done..|]. by rewrite Hw.
Defined.
