(* ===== verification/CodecAvc.v ===== *)
(** * CodecAvc: scanning an H.264 byte stream

    Models the start-code search of [src/codec/codec_utils.cpp]
    ([AVCFindStartCodeInternal], [avc_find_start_code]) and the functions that
    walk the NAL units of a buffer ([avc_find_key_frame],
    [avc_find_sps_pps_idr], [count_avc_key_frames], [count_frames]).  A pointer
    is an offset into the region [buf]; [base] is the address of [buf], on
    which only the word alignment of the search depends. *)

From S2P Require Import Prelude.

(** ** The start-code search *)

(** [p[0] == 0 && p[1] == 0 && p[2] == 1]. *)
Definition is_start_code (buf : list Z) (p : Z) : outcome bool :=
  b0 ← rd buf p;
  if negb (b0 =? 0) then Ok false else
  b1 ← rd buf (p + 1);
  if negb (b1 =? 0) then Ok false else
  b2 ← rd buf (p + 2);
  Ok (b2 =? 1).

(** The byte-wise loops: [inl p] when the code returns [p], [inr start] when the
    loop ends. *)
Fixpoint scan_bytes (fuel : nat) (buf : list Z) (start stop : Z) : outcome (Z + Z) :=
  match fuel with
  | O => Hang
  | S fuel =>
      if start <? stop then
        found ← is_start_code buf start;
        if (found : bool) then Ok (inl start) else scan_bytes fuel buf (start + 1) stop
      else Ok (inr start)
  end.

(** The 32-bit load of a little-endian machine. *)
Definition rd_le32 (buf : list Z) (p : Z) : outcome Z :=
  b0 ← rd buf p; b1 ← rd buf (p + 1); b2 ← rd buf (p + 2); b3 ← rd buf (p + 3);
  Ok (b0 + 256 * b1 + 65536 * b2 + 16777216 * b3).

(** [(x - 0x01010101) & (~x) & 0x80808080]: may the word contain a zero byte? *)
Definition has_zero_byte (x : Z) : bool :=
  negb (Z.land (Z.land (u32 (x - 16843009)) (u32 (Z.lnot x))) 2155905152 =? 0).

(** The tests on a word that may contain a zero byte. *)
Definition scan_word (buf : list Z) (p : Z) : outcome (option Z) :=
  b1 ← rd buf (p + 1);
  r ← (if b1 =? 0 then
         b0 ← rd buf p;
         hit0 ← (if b0 =? 0 then b2 ← rd buf (p + 2); Ok (b2 =? 1) else Ok false);
         if (hit0 : bool) then Ok (Some p) else
         b2 ← rd buf (p + 2);
         hit1 ← (if b2 =? 0 then b3 ← rd buf (p + 3); Ok (b3 =? 1) else Ok false);
         if (hit1 : bool) then Ok (Some (p + 1)) else Ok None
       else Ok None);
  match r with
  | Some q => Ok (Some q)
  | None =>
      b3 ← rd buf (p + 3);
      if b3 =? 0 then
        b2 ← rd buf (p + 2);
        hit2 ← (if b2 =? 0 then b4 ← rd buf (p + 4); Ok (b4 =? 1) else Ok false);
        if (hit2 : bool) then Ok (Some (p + 2)) else
        b4 ← rd buf (p + 4);
        hit3 ← (if b4 =? 0 then b5 ← rd buf (p + 5); Ok (b5 =? 1) else Ok false);
        if (hit3 : bool) then Ok (Some (p + 3)) else Ok None
      else Ok None
  end.

(** The word-wise loop. *)
Fixpoint scan_words (fuel : nat) (buf : list Z) (start stop : Z) : outcome (Z + Z) :=
  match fuel with
  | O => Hang
  | S fuel =>
      if start <? stop then
        x ← rd_le32 buf start;
        r ← (if has_zero_byte x then scan_word buf start else Ok None);
        match r with
        | Some q => Ok (inl q)
        | None => scan_words fuel buf (start + 4) stop
        end
      else Ok (inr start)
  end.

(** Fuel of a loop that advances by at least one from [start] up to [stop]. *)
Definition loop_fuel (start stop : Z) : nat := S (Z.to_nat (stop - start)).

Definition AVCFindStartCodeInternal (base : Z) (buf : list Z) (start stop : Z) : outcome Z :=
  let fuel := loop_fuel start stop in
  let a := start + 4 - Z.land (base + start) 3 in
  r ← scan_bytes fuel buf start (Z.min a (stop - 3));
  match r with
  | inl p => Ok p
  | inr start =>
      r ← scan_words fuel buf start (stop - 6);
      match r with
      | inl p => Ok p
      | inr start =>
          r ← scan_bytes fuel buf start (stop - 3);
          match r with
          | inl p => Ok p
          | inr _ => Ok stop
          end
      end
  end.

Definition avc_find_start_code (base : Z) (buf : list Z) (start stop : Z) : outcome Z :=
  pos ← AVCFindStartCodeInternal base buf start stop;
  if (start <? pos) && (pos <? stop) then
    b ← rd buf (pos - 1);
    Ok (if b =? 0 then pos - 1 else pos)
  else Ok pos.

(** ** Walking the NAL units *)

(** [while (nalStart < end && !*(nalStart++));] *)
Fixpoint skip_zeros (fuel : nat) (buf : list Z) (p stop : Z) : outcome Z :=
  match fuel with
  | O => Hang
  | S fuel =>
      if p <? stop then
        b ← rd buf p;
        if b =? 0 then skip_zeros fuel buf (p + 1) stop else Ok (p + 1)
      else Ok p
  end.

(** The loop the four functions share; [body acc p] is what is done with the NAL
    unit at [p], [(acc, true)] when the function returns. *)
Fixpoint nal_loop {A} (fuel : nat) (body : A → Z → outcome (A * bool))
    (base : Z) (buf : list Z) (nalStart stop : Z) (acc : A) : outcome A :=
  match fuel with
  | O => Hang
  | S fuel =>
      nalStart ← skip_zeros (loop_fuel nalStart stop) buf nalStart stop;
      if nalStart =? stop then Ok acc else
      r ← body acc nalStart;
      let '(acc, return_) := r in
      if (return_ : bool) then Ok acc else
      nalEnd ← avc_find_start_code base buf nalStart stop;
      nal_loop fuel body base buf nalEnd stop acc
  end.

Definition nal_walk {A} (body : A → Z → outcome (A * bool)) (base : Z) (data : list Z)
    (size : Z) (acc : A) : outcome A :=
  nalStart ← avc_find_start_code base data 0 size;
  nal_loop (loop_fuel 0 size) body base data nalStart size acc.

(** [nalStart[0] & 0x1F]. *)
Definition nal_type (b : Z) : Z := Z.land b 31.

Definition avc_find_key_frame (base : Z) (data : list Z) (size : Z) : outcome bool :=
  nal_walk (λ acc p, b ← rd data p;
                     if (nal_type b =? 5) || (nal_type b =? 1)
                     then Ok (nal_type b =? 5, true) else Ok (acc, false))
    base data size false.

Definition avc_find_sps_pps_idr (base : Z) (data : list Z) (size : Z) : outcome bool :=
  nal_walk (λ acc p, b ← rd data p;
                     if (nal_type b =? 5) || (nal_type b =? 7) || (nal_type b =? 8)
                     then Ok (true, true) else Ok (acc, false))
    base data size false.

Definition count_avc_key_frames (base : Z) (data : list Z) (size : Z) : outcome Z :=
  nal_walk (λ acc p, b ← rd data p;
                     Ok (if nal_type b =? 5 then acc + 1 else acc, false))
    base data size 0.

Definition count_frames (base : Z) (data : list Z) (size : Z) : outcome Z :=
  nal_walk (λ acc p, Ok (acc + 1, false)) base data size 0.

(** ** Specifications *)

(** The reference search: the first three-byte start code that is followed by at
    least one byte, in a plain byte-by-byte scan; [stop] if there is none. *)
Definition code_at (buf : list Z) (p : Z) : bool :=
  bool_decide (rd buf p = Ok 0) && bool_decide (rd buf (p + 1) = Ok 0)
  && bool_decide (rd buf (p + 2) = Ok 1).

Fixpoint first_code (n : nat) (buf : list Z) (p default : Z) : Z :=
  match n with
  | O => default
  | S n => if code_at buf p then p else first_code n buf (p + 1) default
  end.

Definition find_code_spec (buf : list Z) (start stop : Z) : Z :=
  first_code (Z.to_nat (stop - 3 - start)) buf start stop.

(** [avc_find_start_code] also takes the zero byte of a four-byte code. *)
Definition find_start_spec (buf : list Z) (start stop : Z) : Z :=
  let pos := find_code_spec buf start stop in
  if (start <? pos) && (pos <? stop) && bool_decide (rd buf (pos - 1) = Ok 0)
  then pos - 1 else pos.

(** An Annex-B stream: NAL units, each behind a start code of four ([true]) or
    three ([false]) bytes. *)
Definition start_code (long : bool) : list Z := if long then [0; 0; 0; 1] else [0; 0; 1].

Definition annexb (us : list (bool * list Z)) : list Z :=
  us ≫= λ u, start_code u.1 ++ u.2.

(** No start code inside a unit. *)
Definition no_code (n : list Z) : Prop := ∀ q, 0 <= q < zlen n → code_at n q = false.

(** A NAL unit of the standard: not empty, no start code inside, no trailing zero
    byte. *)
Definition nalu_ok (n : list Z) : Prop :=
  n ≠ [] ∧ is_bytes n ∧ no_code n ∧ last n ≠ Some 0.

#[global] Instance no_code_dec n : Decision (no_code n).
Proof. unfold no_code; apply _. Defined.
#[global] Instance nalu_ok_dec n : Decision (nalu_ok n).
Proof. unfold nalu_ok; apply _. Defined.

(** The type of a unit, from its first byte. *)
Definition unit_type (u : bool * list Z) : Z :=
  match u.2 with [] => 0 | b :: _ => nal_type b end.

(** What a walk computes on the units of a stream: [f acc n] handles one unit. *)
Fixpoint fold_units {A} (f : A → list Z → A * bool) (acc : A) (us : list (bool * list Z)) : A :=
  match us with
  | [] => acc
  | u :: us => let '(a, return_) := f acc u.2 in
               if (return_ : bool) then a else fold_units f a us
  end.

(** The first unit with one of the two slice types decides whether the frame is a
    key frame. *)
Fixpoint key_frame_spec (us : list (bool * list Z)) : bool :=
  match us with
  | [] => false
  | u :: us => if unit_type u =? 5 then true
               else if unit_type u =? 1 then false else key_frame_spec us
  end.

(** ** The reference search *)

Lemma first_code_cases n buf p d :
  (first_code n buf p d = d ∧ ∀ q, p <= q < p + Z.of_nat n → code_at buf q = false)
  ∨ (p <= first_code n buf p d < p + Z.of_nat n
     ∧ code_at buf (first_code n buf p d) = true
     ∧ ∀ q, p <= q < first_code n buf p d → code_at buf q = false).
Proof.
  revert p. induction n as [|n IH]; intros p; simpl.
  - left. split; [done|]. intros; lia.
  - destruct (code_at buf p) eqn:E.
    + right. split_and!; [lia|lia|done|]. intros; lia.
    + destruct (IH (p + 1)) as [[-> Hq]|(Hr & Hc & Hq)].
      * left. split; [done|]. intros q Hq'.
        destruct (Z.eq_dec q p) as [->|]; [done|]. apply Hq; lia.
      * right. split_and!; [lia|lia|done|]. intros q Hq'.
        destruct (Z.eq_dec q p) as [->|]; [done|]. apply Hq; lia.
Qed.

Lemma first_code_none n buf p d :
  (∀ q, p <= q < p + Z.of_nat n → code_at buf q = false) → first_code n buf p d = d.
Proof.
  intros Hq. destruct (first_code_cases n buf p d) as [[-> _]|(Hr & Hc & _)]; [done|].
  rewrite Hq in Hc by lia. done.
Qed.

Lemma first_code_at n buf p d r :
  p <= r < p + Z.of_nat n → code_at buf r = true →
  (∀ q, p <= q < r → code_at buf q = false) → first_code n buf p d = r.
Proof.
  intros Hr Hc Hq. destruct (first_code_cases n buf p d) as [[_ H]|(Hr' & Hc' & Hq')].
  - rewrite H in Hc by lia. done.
  - destruct (Z.lt_trichotomy (first_code n buf p d) r) as [?|[?|?]]; [|done|].
    + rewrite Hq in Hc' by lia. done.
    + rewrite Hq' in Hc by lia. done.
Qed.

(** ** Correctness of the optimised search *)

Lemma bool_decide_ok (b c : Z) : bool_decide (Ok b = Ok c) = (b =? c).
Proof.
  destruct (Z.eqb_spec b c); [apply bool_decide_eq_true_2|apply bool_decide_eq_false_2];
    congruence.
Qed.

Lemma code_at_vals buf p b0 b1 b2 :
  rd buf p = Ok b0 → rd buf (p + 1) = Ok b1 → rd buf (p + 2) = Ok b2 →
  code_at buf p = (b0 =? 0) && (b1 =? 0) && (b2 =? 1).
Proof. intros H0 H1 H2. unfold code_at. by rewrite H0, H1, H2, !bool_decide_ok. Qed.

Lemma code_at_first buf p b : rd buf p = Ok b → b ≠ 0 → code_at buf p = false.
Proof. intros Hb Hn. unfold code_at. rewrite Hb. by rewrite bool_decide_eq_false_2 by congruence. Qed.

Lemma is_start_code_ok buf p :
  0 <= p → p + 2 < zlen buf → is_start_code buf p = Ok (code_at buf p).
Proof.
  intros Hp Hl.
  destruct (rd_in_range buf p) as (b0 & R0 & _); [lia|].
  destruct (rd_in_range buf (p + 1)) as (b1 & R1 & _); [lia|].
  destruct (rd_in_range buf (p + 2)) as (b2 & R2 & _); [lia|].
  rewrite (code_at_vals _ _ _ _ _ R0 R1 R2). unfold is_start_code.
  step R0. destruct (b0 =? 0); [|done]. simpl negb. cbv iota. step R1.
  destruct (b1 =? 0); [|done]. simpl negb. cbv iota. by step R2.
Qed.

(** [r] is the first start code at or after [start]. *)
Definition first_hit (buf : list Z) (start r : Z) : Prop :=
  start <= r ∧ code_at buf r = true ∧ ∀ q, start <= q < r → code_at buf q = false.

Definition no_hit (buf : list Z) (start stop : Z) : Prop :=
  ∀ q, start <= q < stop → code_at buf q = false.

Lemma first_hit_skip buf start mid r :
  no_hit buf start mid → start <= mid → first_hit buf mid r → first_hit buf start r.
Proof.
  intros Hn Hm (H1 & H2 & H3). split_and!; [lia|done|].
  intros q Hq. destruct (Z.lt_ge_cases q mid); [apply Hn|apply H3]; lia.
Qed.

Lemma no_hit_app buf start mid stop :
  no_hit buf start mid → no_hit buf mid stop → no_hit buf start stop.
Proof. intros H1 H2 q Hq. destruct (Z.lt_ge_cases q mid); [apply H1|apply H2]; lia. Qed.

Lemma no_hit_cons buf start stop :
  code_at buf start = false → no_hit buf (start + 1) stop → no_hit buf start stop.
Proof. intros H1 H2 q Hq. destruct (Z.eq_dec q start) as [->|]; [done|]. apply H2; lia. Qed.

Lemma scan_bytes_spec fuel buf start stop :
  0 <= start → stop + 2 <= zlen buf → (Z.to_nat (stop - start) < fuel)%nat →
  ∃ r, scan_bytes fuel buf start stop = Ok r ∧
    match r with
    | inl p => first_hit buf start p ∧ p < stop
    | inr s => s = Z.max start stop ∧ no_hit buf start stop
    end.
Proof.
  revert start. induction fuel as [|fuel IH]; intros start Hs Hl Hf; [lia|]. simpl.
  destruct (Z.ltb_spec start stop).
  - rewrite is_start_code_ok by lia. step_bind. destruct (code_at buf start) eqn:E.
    + eexists; split; [done|]. unfold first_hit. split_and!; [lia|done|lia|lia].
    + destruct (IH (start + 1)) as (r & -> & Hr); [lia..|]. eexists; split; [done|].
      destruct r as [p|s].
      * destruct Hr as [Hh ?]. split; [|done]. eapply first_hit_skip; [|by apply Z.le_succ_diag_r|done].
        intros q Hq. by replace q with start by lia.
      * destruct Hr as [-> Hn]. split; [lia|]. by apply no_hit_cons.
  - eexists; split; [done|]. split; [lia|]. intros q Hq; lia.
Qed.

(** The six bytes a word test may read decide the four positions of the word. *)
Lemma scan_word_spec buf p :
  0 <= p → p + 5 < zlen buf →
  ∃ r, scan_word buf p = Ok r ∧
    match r with
    | Some q => first_hit buf p q ∧ q < p + 4
    | None => no_hit buf p (p + 4)
    end.
Proof.
  intros Hp Hl.
  destruct (rd_in_range buf p) as (b0 & R0 & _); [lia|].
  destruct (rd_in_range buf (p + 1)) as (b1 & R1 & _); [lia|].
  destruct (rd_in_range buf (p + 2)) as (b2 & R2 & _); [lia|].
  destruct (rd_in_range buf (p + 3)) as (b3 & R3 & _); [lia|].
  destruct (rd_in_range buf (p + 4)) as (b4 & R4 & _); [lia|].
  destruct (rd_in_range buf (p + 5)) as (b5 & R5 & _); [lia|].
  pose proof (code_at_vals _ _ _ _ _ R0 R1 R2) as C0.
  pose proof (code_at_vals buf (p + 1) b1 b2 b3 R1) as C1.
  rewrite <- !Z.add_assoc in C1. specialize (C1 R2 R3).
  pose proof (code_at_vals buf (p + 2) b2 b3 b4 R2) as C2.
  rewrite <- !Z.add_assoc in C2. specialize (C2 R3 R4).
  pose proof (code_at_vals buf (p + 3) b3 b4 b5 R3) as C3.
  rewrite <- !Z.add_assoc in C3. specialize (C3 R4 R5).
  assert (Hq : ∀ q, p <= q < p + 4 → q = p ∨ q = p + 1 ∨ q = p + 2 ∨ q = p + 3) by lia.
  unfold scan_word, first_hit, no_hit. rewrite R0, R1, R2, R3, R4, R5. step_bind.
  destruct (Z.eqb_spec b0 0), (Z.eqb_spec b1 0), (Z.eqb_spec b2 0), (Z.eqb_spec b2 1),
    (Z.eqb_spec b3 0), (Z.eqb_spec b3 1), (Z.eqb_spec b4 0), (Z.eqb_spec b4 1),
    (Z.eqb_spec b5 1); try (exfalso; lia); simpl in *;
    (eexists; split; [reflexivity|]; simpl; split_and?; try lia; try done;
     intros q Hq'; destruct (Hq q ltac:(lia)) as [->|[->|[->| ->]]]; (done || lia)).
Qed.

(** The bit trick does not miss a zero byte. *)
Lemma has_zero_byte_complete b0 b1 b2 b3 :
  is_byte b0 → is_byte b1 → is_byte b2 → is_byte b3 →
  has_zero_byte (b0 + 256 * b1 + 65536 * b2 + 16777216 * b3) = false →
  b0 ≠ 0 ∧ b1 ≠ 0 ∧ b2 ≠ 0 ∧ b3 ≠ 0.
Proof.
  unfold is_byte. intros H0 H1 H2 H3 Hz. unfold has_zero_byte in Hz.
  apply negb_false_iff, Z.eqb_eq in Hz.
  set (x := b0 + 256 * b1 + 65536 * b2 + 16777216 * b3) in *.
  assert (Hbit : ∀ i, 0 <= i → Z.testbit 2155905152 i = true →
            Z.testbit (u32 (x - 16843009)) i = true →
            Z.testbit (u32 (Z.lnot x)) i = true → False).
  { intros i Hi E1 E2 E3.
    assert (Ht : Z.testbit (Z.land (Z.land (u32 (x - 16843009)) (u32 (Z.lnot x))) 2155905152) i
                 = true) by (by rewrite !Z.land_spec, E1, E2, E3).
    by rewrite Hz, Z.bits_0 in Ht. }
  assert (Hl : Z.lnot x = - x - 1) by (unfold Z.lnot; lia). rewrite Hl in Hbit.
  assert (T : ∀ y i, 0 <= i → (u32 y / 2 ^ i) mod 2 = 1 → Z.testbit (u32 y) i = true)
    by (intros; by apply Z.testbit_true).
  assert (N0 : b0 ≠ 0).
  { intros ->. apply (Hbit 7); [lia|done|apply T; [lia|]..];
      unfold u32; simpl Z.pow; subst x; Z.div_mod_to_equations; lia. }
  assert (N1 : b1 ≠ 0).
  { intros ->. apply (Hbit 15); [lia|done|apply T; [lia|]..];
      unfold u32; simpl Z.pow; subst x; Z.div_mod_to_equations; lia. }
  assert (N2 : b2 ≠ 0).
  { intros ->. apply (Hbit 23); [lia|done|apply T; [lia|]..];
      unfold u32; simpl Z.pow; subst x; Z.div_mod_to_equations; lia. }
  assert (N3 : b3 ≠ 0).
  { intros ->. apply (Hbit 31); [lia|done|apply T; [lia|]..];
      unfold u32; simpl Z.pow; subst x; Z.div_mod_to_equations; lia. }
  done.
Qed.

Lemma scan_words_spec fuel buf start stop :
  is_bytes buf → 0 <= start → stop + 6 <= zlen buf → (Z.to_nat (stop - start) < fuel)%nat →
  ∃ r, scan_words fuel buf start stop = Ok r ∧
    match r with
    | inl p => first_hit buf start p ∧ p < stop + 3
    | inr s => start <= s ∧ stop <= s ∧ (s = start ∨ s < stop + 4) ∧ no_hit buf start s
    end.
Proof.
  intros Hb. revert start. induction fuel as [|fuel IH]; intros start Hs Hl Hf; [lia|]. simpl.
  destruct (Z.ltb_spec start stop).
  2:{ eexists; split; [done|]. split_and!; [lia|lia|by left|]. intros q Hq; lia. }
  destruct (scan_word_spec buf start) as (r & Hr & Hspec); [lia..|].
  destruct (rd_in_range buf start) as (b0 & R0 & I0); [lia|].
  destruct (rd_in_range buf (start + 1)) as (b1 & R1 & I1); [lia|].
  destruct (rd_in_range buf (start + 2)) as (b2 & R2 & I2); [lia|].
  destruct (rd_in_range buf (start + 3)) as (b3 & R3 & I3); [lia|].
  pose proof (proj1 (Forall_forall _ _) Hb) as Hf'.
  assert (Hword : ∃ r, (if has_zero_byte (b0 + 256 * b1 + 65536 * b2 + 16777216 * b3)
                        then scan_word buf start else Ok None) = Ok r ∧
    match r with
    | Some q => first_hit buf start q ∧ q < start + 4
    | None => no_hit buf start (start + 4)
    end).
  { destruct (has_zero_byte _) eqn:E; [by eexists|]. eexists; split; [done|].
    apply has_zero_byte_complete in E as (N0 & N1 & N2 & N3); [|by apply Hf'..].
    intros q Hq.
    assert (q = start ∨ q = start + 1 ∨ q = start + 2 ∨ q = start + 3)
      as [->|[->|[->| ->]]] by lia; by eapply code_at_first. }
  destruct Hword as (w & Hw & Hspec').
  unfold rd_le32. rewrite R0, R1, R2, R3. step_bind. rewrite Hw.
  destruct w as [q|].
  - eexists; split; [done|]. destruct Hspec' as [Hh ?]. split; [done|]. lia.
  - destruct (IH (start + 4)) as (r' & -> & Hr'); [lia..|]. eexists; split; [done|].
    destruct r' as [p|s].
    + destruct Hr' as [Hh ?]. split; [|done]. eapply first_hit_skip; [done|lia|done].
    + destruct Hr' as (? & ? & Hcase & Hn). split_and!; [lia|lia|right; lia|].
      by eapply no_hit_app.
Qed.

Lemma AVCFindStartCodeInternal_spec base buf start stop :
  is_bytes buf → 0 <= start <= stop → stop <= zlen buf →
  AVCFindStartCodeInternal base buf start stop = Ok (find_code_spec buf start stop).
Proof.
  intros Hb Hs Hl. unfold AVCFindStartCodeInternal, find_code_spec, loop_fuel.
  assert (Hland : 0 <= Z.land (base + start) 3 < 4).
  { change 3 with (Z.ones 2). rewrite Z.land_ones by lia.
    pose proof (Z.mod_pos_bound (base + start) (2 ^ 2)). lia. }
  assert (Hhit : ∀ p, first_hit buf start p → p < stop - 3 →
    first_code (Z.to_nat (stop - 3 - start)) buf start stop = p).
  { intros p (H1 & H2 & H3) Hp. apply first_code_at; [lia|done|done]. }
  destruct (scan_bytes_spec (S (Z.to_nat (stop - start))) buf start
             (Z.min (start + 4 - Z.land (base + start) 3) (stop - 3)))
    as ([p|s] & -> & Hr); [lia..| |]; step_bind.
  { destruct Hr. f_equal. symmetry. apply Hhit; [done|lia]. }
  destruct Hr as [-> Hn1].
  set (s1 := Z.max start _) in *.
  destruct (scan_words_spec (S (Z.to_nat (stop - start))) buf s1 (stop - 6))
    as ([p|s] & -> & Hr); [done|lia..| |]; step_bind.
  { destruct Hr as [Hh ?]. f_equal. symmetry. apply Hhit; [|lia].
    eapply (first_hit_skip _ _ s1); [|lia|done].
    intros q Hq. apply Hn1. lia. }
  destruct Hr as (Hs1 & Hs2 & Hc & Hn2).
  destruct (scan_bytes_spec (S (Z.to_nat (stop - start))) buf s (stop - 3))
    as ([p|s'] & -> & Hr); [lia..| |]; step_bind; f_equal; symmetry.
  - destruct Hr as [Hh ?]. apply Hhit; [|lia].
    eapply (first_hit_skip _ _ s1); [|lia|].
    + intros q Hq. apply Hn1. lia.
    + eapply first_hit_skip; [done|lia|done].
  - destruct Hr as [-> Hn3]. apply first_code_none. intros q Hq.
    destruct (Z.lt_ge_cases q s1); [apply Hn1; lia|].
    destruct (Z.lt_ge_cases q s); [apply Hn2; lia|]. apply Hn3; lia.
Qed.

Lemma avc_find_start_code_spec base buf start stop :
  is_bytes buf → 0 <= start <= stop → stop <= zlen buf →
  avc_find_start_code base buf start stop = Ok (find_start_spec buf start stop).
Proof.
  intros Hb Hs Hl. unfold avc_find_start_code, find_start_spec.
  rewrite AVCFindStartCodeInternal_spec by done. step_bind.
  set (pos := find_code_spec buf start stop).
  destruct (Z.ltb_spec start pos); [|done]. destruct (Z.ltb_spec pos stop); [|done].
  destruct (rd_in_range buf (pos - 1)) as (b & Hr & _); [lia|]. step Hr. simpl.
  by rewrite bool_decide_ok.
Qed.

(** The optimised search computes the reference search, on every alignment and
    without reading outside of the buffer. *)
Theorem AVCFindStartCodeInternal_correct base buf start stop :
  is_bytes buf → 0 <= start <= stop → stop <= zlen buf →
  AVCFindStartCodeInternal base buf start stop = Ok (find_code_spec buf start stop).
Proof. by apply AVCFindStartCodeInternal_spec. Qed.

(** C22: The search the callers use: the start code found is the long one when a zero byte
    stands before the short one, as in the reference. *)
Theorem avc_find_start_code_correct base buf start stop :
  is_bytes buf → 0 <= start <= stop → stop <= zlen buf →
  avc_find_start_code base buf start stop = Ok (find_start_spec buf start stop).
Proof. by apply avc_find_start_code_spec. Qed.

Lemma find_code_spec_range buf start stop :
  start <= stop → start <= find_code_spec buf start stop <= stop.
Proof.
  intros. unfold find_code_spec.
  destruct (first_code_cases (Z.to_nat (stop - 3 - start)) buf start stop)
    as [[-> _]|(? & _)]; lia.
Qed.

Lemma find_start_spec_range buf start stop :
  start <= stop → start <= find_start_spec buf start stop <= stop.
Proof.
  intros. unfold find_start_spec. pose proof (find_code_spec_range buf start stop).
  destruct (Z.ltb_spec start (find_code_spec buf start stop)); [|simpl; lia].
  destruct (_ <? stop); [|simpl; lia]. simpl. case_bool_decide; lia.
Qed.

(** ** The walks end on every input *)

Lemma skip_zeros_spec fuel buf p q b stop :
  p <= q < stop → (∀ i, p <= i < q → rd buf i = Ok 0) → rd buf q = Ok b → b ≠ 0 →
  (Z.to_nat (q - p) < fuel)%nat → skip_zeros fuel buf p stop = Ok (q + 1).
Proof.
  intros Hq Hz Hb Hne. revert p Hq Hz.
  induction fuel as [|fuel IH]; intros p Hq Hz Hf; [lia|]. simpl. dec_if.
  destruct (Z.eq_dec p q) as [->|].
  - step Hb. by dec_if.
  - step (Hz p) by lia. apply IH; [lia|intros; apply Hz; lia|lia].
Qed.

Lemma skip_zeros_total fuel buf p stop :
  0 <= p <= stop → stop <= zlen buf → (Z.to_nat (stop - p) < fuel)%nat →
  ∃ q, skip_zeros fuel buf p stop = Ok q ∧ p <= q <= stop ∧ (p < stop → p < q).
Proof.
  revert p. induction fuel as [|fuel IH]; intros p Hp Hl Hf; [lia|]. simpl.
  destruct (Z.ltb_spec p stop); [|eexists; split; [done|lia]].
  destruct (rd_in_range buf p) as (b & Hr & _); [lia|]. step Hr.
  destruct (b =? 0); [|eexists; split; [done|lia]].
  destruct (IH (p + 1)) as (q & -> & Hq & _); [lia..|]. eexists; split; [done|lia].
Qed.

Section walk.
Context {A : Type} (body : A → Z → outcome (A * bool)) (base : Z) (buf : list Z).
Hypothesis buf_bytes : is_bytes buf.

Lemma nal_loop_total fuel p acc :
  (∀ acc p, 0 <= p < zlen buf → ∃ r, body acc p = Ok r) →
  0 <= p <= zlen buf → (Z.to_nat (zlen buf - p) < fuel)%nat →
  ∃ r, nal_loop fuel body base buf p (zlen buf) acc = Ok r.
Proof.
  intros Hbody. revert p acc. induction fuel as [|fuel IH]; intros p acc Hp Hf; [lia|].
  cbn [nal_loop]. destruct (skip_zeros_total (loop_fuel p (zlen buf)) buf p (zlen buf))
    as (q & Hq & Hr & Hlt); [lia|lia|unfold loop_fuel; lia|]. step Hq.
  destruct (Z.eqb_spec q (zlen buf)); [by eexists|].
  destruct (Hbody acc q) as ([acc' ret] & Hb); [lia|]. step Hb.
  destruct ret; [by eexists|].
  rewrite avc_find_start_code_spec by (done || lia). step_bind.
  pose proof (find_start_spec_range buf q (zlen buf)).
  apply IH; lia.
Qed.

Lemma nal_walk_total acc :
  (∀ acc p, 0 <= p < zlen buf → ∃ r, body acc p = Ok r) →
  ∃ r, nal_walk body base buf (zlen buf) acc = Ok r.
Proof.
  intros Hbody. unfold nal_walk. pose proof (zlen_nonneg buf).
  rewrite avc_find_start_code_spec by (done || lia). step_bind.
  pose proof (find_start_spec_range buf 0 (zlen buf)).
  apply nal_loop_total; [done|lia|]. unfold loop_fuel. lia.
Qed.
End walk.

(** ** The walks on an Annex-B stream *)

Lemma start_code_bytes l : is_bytes (start_code l).
Proof. destruct l; by apply (bool_decide_unpack _). Qed.

Lemma start_code_len (l : bool) : zlen (start_code l) = if l then 4 else 3.
Proof. by destruct l. Qed.

Lemma annexb_cons u us : annexb (u :: us) = start_code u.1 ++ u.2 ++ annexb us.
Proof. unfold annexb. rewrite bind_cons. by rewrite <- app_assoc. Qed.

Definition units_ok (us : list (bool * list Z)) : Prop := Forall (λ u, nalu_ok u.2) us.

#[global] Instance units_ok_dec us : Decision (units_ok us).
Proof. unfold units_ok; apply _. Defined.

Lemma annexb_bytes us : units_ok us → is_bytes (annexb us).
Proof.
  induction 1 as [|u us (_ & Hb & _) _ IH]; [constructor|]. rewrite annexb_cons.
  apply Forall_app; split; [apply start_code_bytes|]. by apply Forall_app.
Qed.

Lemma code_at_shift pre k j : 0 <= j → code_at (pre ++ k) (zlen pre + j) = code_at k j.
Proof.
  intros. unfold code_at. rewrite <- !Z.add_assoc, !rd_app_r0 by lia. done.
Qed.

Lemma last_rd n : n ≠ [] → ∃ b, rd n (zlen n - 1) = Ok b ∧ last n = Some b.
Proof.
  intros Hn. destruct n as [|x n] using rev_ind; [done|].
  exists x. rewrite last_snoc, zlen_app, rd_app_r by (rewrite zlen_cons; len).
  split; [|done]. change (zlen [x]) with 1. by replace (zlen n + 1 - 1 - zlen n) with 0 by lia.
Qed.

(** No start code begins inside a unit that is followed by two zero bytes. *)
Lemma no_code_before n c t j :
  no_code n → last n ≠ Some 0 → c ≠ 1 → 0 <= j < zlen n →
  code_at (n ++ c :: t) j = false.
Proof.
  intros Hn Hl Hc Hj.
  assert (Hne : n ≠ []) by (intros ->; unfold zlen in Hj; simpl in Hj; lia).
  destruct (last_rd n Hne) as (b & Hb & Hlast). assert (b ≠ 0) by congruence.
  destruct (Z.lt_ge_cases (j + 2) (zlen n)).
  { specialize (Hn j Hj). unfold code_at in *. by rewrite !rd_app_l by lia. }
  unfold code_at. destruct (Z.eq_dec j (zlen n - 1)) as [->|].
  - rewrite rd_app_l, Hb by lia. by rewrite bool_decide_eq_false_2 by congruence.
  - assert (j = zlen n - 2) as -> by lia.
    replace (zlen n - 2 + 2) with (zlen n + 0) by lia. rewrite rd_app_r0 by lia.
    rewrite rd_cons_0, !andb_false_iff. right. apply bool_decide_eq_false_2. congruence.
Qed.

(** From the start of a unit the search finds the start code that ends it. *)
Lemma find_next base pre n rest :
  is_bytes (pre ++ n ++ rest) → no_code n → last n ≠ Some 0 →
  (rest = [] ∨ ∃ long tail, rest = start_code long ++ tail ∧ tail ≠ []) →
  avc_find_start_code base (pre ++ n ++ rest) (zlen pre) (zlen (pre ++ n ++ rest))
    = Ok (zlen pre + zlen n).
Proof.
  intros Hb Hn Hl Hrest. set (buf := pre ++ n ++ rest) in *.
  assert (HL : zlen buf = zlen pre + zlen n + zlen rest) by (subst buf; len).
  pose proof (zlen_nonneg pre). pose proof (zlen_nonneg n). pose proof (zlen_nonneg rest).
  rewrite avc_find_start_code_spec by (done || lia). f_equal.
  unfold find_start_spec.
  assert (Hsh : ∀ q, zlen pre <= q → code_at buf q = code_at (n ++ rest) (q - zlen pre)).
  { intros q Hq. rewrite <- (code_at_shift pre (n ++ rest) (q - zlen pre)) by lia. f_equal. lia. }
  destruct Hrest as [->|(long & tail & -> & Ht)].
  - change (zlen (@nil Z)) with 0 in HL.
    assert (find_code_spec buf (zlen pre) (zlen buf) = zlen buf) as ->.
    { apply first_code_none. intros q Hq. rewrite Hsh, app_nil_r by lia. apply Hn. lia. }
    rewrite Z.ltb_irrefl, andb_false_r. simpl.
    lia.
  - assert (0 < zlen tail) by (destruct tail; [done|rewrite zlen_cons; len]).
    rewrite zlen_app, start_code_len in HL.
    assert (Hin : ∀ q, zlen pre <= q < zlen pre + zlen n → code_at buf q = false).
    { intros q Hq. rewrite Hsh by lia.
      destruct long; apply no_code_before; (done || lia). }
    assert (Hrd : ∀ j, 0 <= j → rd buf (zlen pre + zlen n + j) = rd (start_code long ++ tail) j).
    { intros j Hj. subst buf. rewrite <- Z.add_assoc, rd_app_r0 by lia. by rewrite rd_app_r0. }
    destruct long.
    + assert (find_code_spec buf (zlen pre) (zlen buf) = zlen pre + zlen n + 1) as ->.
      { apply first_code_at; [lia| |].
        - unfold code_at. rewrite <- !Z.add_assoc, !(Z.add_assoc (zlen pre) (zlen n)).
          by rewrite !Hrd by lia.
        - intros q Hq. destruct (Z.lt_ge_cases q (zlen pre + zlen n)); [by apply Hin; lia|].
          replace q with (zlen pre + zlen n + 0) by lia.
          unfold code_at. rewrite <- !Z.add_assoc, !(Z.add_assoc (zlen pre) (zlen n)).
          by rewrite !Hrd by lia. }
      do 2 dec_if. simpl. rewrite bool_decide_eq_true_2; [lia|].
      replace (zlen pre + zlen n + 1 - 1) with (zlen pre + zlen n + 0) by lia. by rewrite Hrd.
    + assert (find_code_spec buf (zlen pre) (zlen buf) = zlen pre + zlen n) as ->.
      { apply first_code_at; [lia| |by apply Hin].
        replace (zlen pre + zlen n) with (zlen pre + zlen n + 0) by lia.
        unfold code_at. rewrite <- !Z.add_assoc, !(Z.add_assoc (zlen pre) (zlen n)).
        by rewrite !Hrd by lia. }
      destruct (Z.ltb_spec (zlen pre) (zlen pre + zlen n)); [|done]. dec_if. simpl.
      rewrite bool_decide_eq_false_2; [done|].
      assert (n ≠ []) by (intros ->; unfold zlen in *; simpl in *; lia).
      destruct (last_rd n) as (b & Hb' & Hlast); [done|].
      subst buf. rewrite rd_app_r, rd_app_l by lia.
      replace (zlen pre + zlen n - 1 - zlen pre) with (zlen n - 1) by lia.
      rewrite Hb'. congruence.
Qed.

Lemma annexb_rest us :
  units_ok us → annexb us = [] ∨ ∃ long tail, annexb us = start_code long ++ tail ∧ tail ≠ [].
Proof.
  destruct us as [|u us]; [by left|]. intros [(Hne & _) _]%Forall_cons. right.
  rewrite annexb_cons. exists u.1, (u.2 ++ annexb us). split; [done|].
  by intros [? _]%app_nil.
Qed.

Lemma skip_start_code pre (long : bool) tail stop :
  zlen pre + (if long then 4 else 3) <= stop →
  skip_zeros (loop_fuel (zlen pre) stop) (pre ++ start_code long ++ tail) (zlen pre) stop
    = Ok (zlen pre + zlen (start_code long)).
Proof.
  intros Hs. rewrite start_code_len.
  assert (Hrd : ∀ j, 0 <= j → rd (pre ++ start_code long ++ tail) (zlen pre + j)
                              = rd (start_code long ++ tail) j)
    by (intros; by rewrite rd_app_r0).
  rewrite (skip_zeros_spec _ _ _ (zlen pre + (if long then 3 else 2)) 1); [..|done|].
  - destruct long; f_equal; lia.
  - destruct long; lia.
  - intros i Hi. replace i with (zlen pre + (i - zlen pre)) by lia. rewrite Hrd by lia.
    destruct long.
    + assert (i - zlen pre = 0 ∨ i - zlen pre = 1 ∨ i - zlen pre = 2) as [->|[->| ->]] by lia; done.
    + assert (i - zlen pre = 0 ∨ i - zlen pre = 1) as [->| ->] by lia; done.
  - rewrite Hrd by (destruct long; lia). by destruct long.
  - unfold loop_fuel. destruct long; lia.
Qed.

Section walk_annexb.
Context {A : Type} (body : A → Z → outcome (A * bool)) (f : A → list Z → A * bool).
Context (base : Z) (buf : list Z).
Hypothesis body_unit : ∀ acc pre n rest,
  buf = pre ++ n ++ rest → n ≠ [] → body acc (zlen pre) = Ok (f acc n).

Lemma nal_loop_annexb us pre acc fuel :
  is_bytes buf → buf = pre ++ annexb us → units_ok us → (length us < fuel)%nat →
  nal_loop fuel body base buf (zlen pre) (zlen buf) acc = Ok (fold_units f acc us).
Proof.
  intros Hb. revert pre acc fuel. induction us as [|u us IH]; intros pre acc fuel Hbuf Hok Hf;
    (destruct fuel as [|fuel]; [lia|]); cbn [nal_loop].
  - rewrite app_nil_r in Hbuf. rewrite Hbuf. unfold loop_fuel. cbn [skip_zeros].
    rewrite Z.ltb_irrefl. step_bind. by rewrite Z.eqb_refl.
  - apply Forall_cons in Hok as [Hu Hok]. destruct Hu as (Hne & _ & Hno & Hl).
    rewrite annexb_cons in Hbuf.
    assert (0 < zlen u.2) by (destruct u.2; [done|rewrite zlen_cons; len]).
    assert (HL : zlen buf = zlen pre + zlen (start_code u.1) + zlen u.2 + zlen (annexb us))
      by (rewrite Hbuf; len).
    rewrite start_code_len in HL. pose proof (zlen_nonneg (annexb us)).
    pose proof (zlen_nonneg pre).
    assert (Hskip : skip_zeros (loop_fuel (zlen pre) (zlen buf)) buf (zlen pre) (zlen buf)
                    = Ok (zlen (pre ++ start_code u.1))).
    { rewrite zlen_app. rewrite Hbuf at 2. apply skip_start_code. destruct u.1; lia. }
    step Hskip. rewrite (proj2 (Z.eqb_neq _ _)).
    2:{ rewrite zlen_app, start_code_len. destruct u.1; lia. }
    assert (Hbuf' : buf = (pre ++ start_code u.1) ++ u.2 ++ annexb us)
      by (by rewrite Hbuf, <- app_assoc).
    step (body_unit acc _ _ _ Hbuf' Hne). simpl. destruct (f acc u.2) as [acc' []]; [done|].
    assert (Hfind : avc_find_start_code base buf (zlen (pre ++ start_code u.1)) (zlen buf)
                    = Ok (zlen (pre ++ start_code u.1) + zlen u.2)).
    { rewrite Hbuf'. apply find_next; [by rewrite <- Hbuf'|done|done|by apply annexb_rest]. }
    step Hfind. rewrite <- zlen_app. apply IH; [|done|simpl in Hf; lia].
    by rewrite Hbuf', <- !app_assoc.
Qed.

Lemma annexb_count us : units_ok us → Z.of_nat (length us) <= zlen (annexb us).
Proof.
  induction 1 as [|u us _ _ IH]; [unfold zlen; simpl; lia|].
  rewrite annexb_cons, !zlen_app, start_code_len. simpl length. len_pos. destruct u.1; lia.
Qed.

Lemma nal_walk_annexb us acc :
  buf = annexb us → units_ok us →
  nal_walk body base buf (zlen buf) acc = Ok (fold_units f acc us).
Proof.
  intros Hbuf Hok. unfold nal_walk.
  assert (Hb : is_bytes buf) by (rewrite Hbuf; by apply annexb_bytes).
  pose proof (find_next base [] [] (annexb us)) as Hfind. rewrite <- Hbuf in Hfind.
  change (([] : list Z) ++ [] ++ buf) with buf in Hfind.
  change (zlen (@nil Z)) with 0 in Hfind.
  rewrite Hfind; [|done|intros q Hq; unfold zlen in Hq; simpl in Hq; lia|done|
                  rewrite Hbuf; by apply annexb_rest].
  step_bind. change (0 + 0) with (zlen (@nil Z)).
  apply nal_loop_annexb; [done|by rewrite Hbuf|done|].
  pose proof (annexb_count us Hok). unfold loop_fuel. rewrite Hbuf. lia.
Qed.

End walk_annexb.

Lemma nal_walk_units {A} body (f : A → list Z → A * bool) base us acc :
  units_ok us →
  (∀ acc pre n rest, annexb us = pre ++ n ++ rest → n ≠ [] →
     body acc (zlen pre) = Ok (f acc n)) →
  nal_walk body base (annexb us) (zlen (annexb us)) acc = Ok (fold_units f acc us).
Proof. intros Hok Hbody. by eapply nal_walk_annexb. Qed.

Lemma rd_unit (pre n rest : list Z) :
  n ≠ [] → ∃ b n', n = b :: n' ∧ rd (pre ++ n ++ rest) (zlen pre) = Ok b.
Proof.
  destruct n as [|b n]; [done|]. intros _. exists b, n. split; [done|].
  rewrite <- (Z.add_0_r (zlen pre)), rd_app_r0 by lia. done.
Qed.

(** On a well-formed stream the walks count and classify its NAL units. *)
Theorem avc_walks_annexb base us :
  units_ok us →
  let data := annexb us in let size := zlen data in
  count_frames base data size = Ok (Z.of_nat (length us))
  ∧ count_avc_key_frames base data size
    = Ok (Z.of_nat (length (filter (λ u, unit_type u = 5) us)))
  ∧ avc_find_key_frame base data size = Ok (key_frame_spec us)
  ∧ avc_find_sps_pps_idr base data size
    = Ok (existsb (λ u, (unit_type u =? 5) || (unit_type u =? 7) || (unit_type u =? 8)) us).
Proof.
  intros Hok data size. subst data size.
  assert (Hnt : ∀ (u : bool * list Z), unit_type u = match u.2 with [] => 0 | b :: _ => nal_type b end)
    by done.
  split_and!.
  - unfold count_frames. rewrite (nal_walk_units _ (λ acc n, (acc + 1, false))) by done.
    f_equal.
    match goal with |- fold_units ?g 0 us = ?r =>
      cut (∀ z, fold_units g z us = z + r); [intros ->; lia|] end. clear.
    induction us as [|u us IH]; intros z; simpl; [lia|]. rewrite IH. lia.
  - unfold count_avc_key_frames.
    rewrite (nal_walk_units _
      (λ acc n, (if match n with [] => 0 | b :: _ => nal_type b end =? 5 then acc + 1 else acc,
                 false))); [|done|intros acc pre n rest Hbuf Hn].
    + f_equal.
    match goal with |- fold_units ?g 0 us = ?r =>
      cut (∀ z, fold_units g z us = z + r); [intros ->; lia|] end. clear.
      induction us as [|u us IH]; intros z; [simpl; lia|]. rewrite filter_cons. cbn [fold_units].
      change (match u.2 with [] => 0 | b :: _ => nal_type b end) with (unit_type u).
      rewrite IH. destruct (Z.eqb_spec (unit_type u) 5); case_decide; try done; simpl; lia.
    + rewrite Hbuf. destruct (rd_unit pre n rest Hn) as (b & n' & -> & Hr). by step Hr.
  - unfold avc_find_key_frame.
    rewrite (nal_walk_units _
      (λ acc n, let t := match n with [] => 0 | b :: _ => nal_type b end in
                if (t =? 5) || (t =? 1) then (t =? 5, true) else (acc, false)));
      [|done|intros acc pre n rest Hbuf Hn].
    + f_equal. clear. induction us as [|u us IH]; [done|]. cbn [fold_units key_frame_spec].
      change (match u.2 with [] => 0 | b :: _ => nal_type b end) with (unit_type u). cbv zeta.
      destruct (unit_type u =? 5); [done|]. by destruct (unit_type u =? 1).
    + rewrite Hbuf. destruct (rd_unit pre n rest Hn) as (b & n' & -> & Hr). step Hr. cbv zeta.
      by destruct ((nal_type b =? 5) || (nal_type b =? 1)).
  - unfold avc_find_sps_pps_idr.
    rewrite (nal_walk_units _
      (λ acc n, let t := match n with [] => 0 | b :: _ => nal_type b end in
                if (t =? 5) || (t =? 7) || (t =? 8) then (true, true) else (acc, false)));
      [|done|intros acc pre n rest Hbuf Hn].
    + f_equal. clear. induction us as [|u us IH]; [done|]. cbn [fold_units existsb].
      change (match u.2 with [] => 0 | b :: _ => nal_type b end) with (unit_type u). cbv zeta.
      by destruct ((unit_type u =? 5) || (unit_type u =? 7) || (unit_type u =? 8)).
    + rewrite Hbuf. destruct (rd_unit pre n rest Hn) as (b & n' & -> & Hr). step Hr. cbv zeta.
      by destruct ((nal_type b =? 5) || (nal_type b =? 7) || (nal_type b =? 8)).
Qed.

(** On arbitrary bytes the four walks end, and read nothing outside of the
    buffer. *)
Theorem avc_walks_total base data :
  is_bytes data →
  (∃ n, count_frames base data (zlen data) = Ok n)
  ∧ (∃ n, count_avc_key_frames base data (zlen data) = Ok n)
  ∧ (∃ b, avc_find_key_frame base data (zlen data) = Ok b)
  ∧ (∃ b, avc_find_sps_pps_idr base data (zlen data) = Ok b).
Proof.
  intros Hb. split_and!; apply nal_walk_total; try done; intros acc p Hp; [by eexists|..];
    destruct (rd_in_range data p Hp) as (b & Hr & _); step Hr; try case_match; by eexists.
Qed.

(** ** Witnesses *)

Definition sample_units : list (bool * list Z) :=
  [(true, [103; 66; 0; 30]); (true, [104; 206; 0; 0; 3; 1]); (false, [101; 136; 128; 64; 1; 2; 3])].

Lemma AVCFindStartCodeInternal_correct_witness :
  AVCFindStartCodeInternal 3 (annexb sample_units) 4 (zlen (annexb sample_units)) = Ok 9
  ∧ find_code_spec (annexb sample_units) 4 (zlen (annexb sample_units)) = 9.
Proof.
  rewrite (AVCFindStartCodeInternal_correct 3 (annexb sample_units) 4).
  - by vm_compute.
  - by apply (bool_decide_unpack _).
  - split; vm_compute; discriminate.
  - vm_compute; discriminate.
Defined.

Lemma avc_find_start_code_correct_witness :
  avc_find_start_code 0 (annexb sample_units) 4 (zlen (annexb sample_units)) = Ok 8
  ∧ find_start_spec (annexb sample_units) 4 (zlen (annexb sample_units)) = 8.
Proof.
  rewrite (avc_find_start_code_correct 0 (annexb sample_units) 4).
  - by vm_compute.
  - by apply (bool_decide_unpack _).
  - split; vm_compute; discriminate.
  - vm_compute; discriminate.
Defined.

Lemma avc_walks_annexb_witness :
  count_frames 1 (annexb sample_units) (zlen (annexb sample_units)) = Ok 3
  ∧ avc_find_key_frame 1 (annexb sample_units) (zlen (annexb sample_units)) = Ok true.
Proof.
  destruct (avc_walks_annexb 1 sample_units) as (H1 & _ & H3 & _).
  { by apply (bool_decide_unpack _). }
  split; [exact H1|exact H3].
Defined.

Lemma avc_walks_total_witness : ∃ n, count_frames 0 [0; 0; 0; 1; 7; 0; 0; 1] 8 = Ok n.
Proof.
  destruct (avc_walks_total 0 [0; 0; 0; 1; 7; 0; 0; 1]) as (H & _).
  { by apply (bool_decide_unpack _). }
  exact H.
Defined.
