(* ===== verification/CodecAdts.v ===== *)
(** * CodecAdts: the ADTS reader of codec/codec_utils.cpp

    [parse_adts_header], [count_aac_frames] and [aac_find_frame], and the two fixed
    buffers [H264Nalu] and [ADTS] of codec_utils.h.  Shown: the header reader inverts
    the header layout of the standard, bit for bit, and accepts nothing else; the
    frames of a well-formed stream are counted; the counter ends unless it meets a
    frame that says it has length 0, on which it never does. *)

From S2P Require Import Prelude.

Record ADTSHeader := mkADTSHeader {
  syncword : Z;
  id : Z;
  layer : Z;
  protection_absent : Z;
  profile : Z;
  sampling_freq_index : Z;
  private_bit : Z;
  channel_cfg : Z;
  original_copy : Z;
  home : Z;
  copyright_identification_bit : Z;
  copyright_identification_start : Z;
  aac_frame_length : Z;
  adts_buffer_fullness : Z;
  number_of_raw_data_blocks_in_frame : Z;
}.

(** [memset(header, 0, sizeof(struct ADTSHeader))]. *)
Definition zero_header : ADTSHeader := mkADTSHeader 0 0 0 0 0 0 0 0 0 0 0 0 0 0 0.

(** [data] is a pointer into the region [mem]; [syncword] is never assigned. *)
Definition parse_adts_header (mem : list Z) (data data_len : Z) (header : ADTSHeader)
    : outcome (bool * ADTSHeader) :=
  if data_len <? 7 then Ok (false, header) else
  d0 ← rd mem data;
  sync ← (if negb (d0 =? 255) then Ok true
          else d1 ← rd mem (data + 1); Ok (negb (Z.land d1 240 =? 240)));
  if (sync : bool) then Ok (false, zero_header) else
  d1 ← rd mem (data + 1);
  d2 ← rd mem (data + 2);
  d3 ← rd mem (data + 3);
  d4 ← rd mem (data + 4);
  d5 ← rd mem (data + 5);
  d6 ← rd mem (data + 6);
  Ok (true, {|
    syncword := 0;
    id := Z.shiftr (Z.land d1 8) 3;
    layer := Z.shiftr (Z.land d1 6) 1;
    protection_absent := Z.land d1 1;
    profile := Z.shiftr (Z.land d2 192) 6;
    sampling_freq_index := Z.shiftr (Z.land d2 60) 2;
    private_bit := Z.shiftr (Z.land d2 2) 1;
    channel_cfg := Z.lor (Z.shiftl (Z.land d2 1) 2) (Z.shiftr (Z.land d3 192) 6);
    original_copy := Z.shiftr (Z.land d3 32) 5;
    home := Z.shiftr (Z.land d3 16) 4;
    copyright_identification_bit := Z.shiftr (Z.land d3 8) 3;
    copyright_identification_start := Z.shiftr (Z.land d3 4) 2;
    aac_frame_length :=
      u16 (Z.lor (Z.lor (Z.shiftl (Z.land d3 3) 11) (Z.shiftl (Z.land d4 255) 3))
             (Z.shiftr (Z.land d5 224) 5));
    adts_buffer_fullness := u16 (Z.lor (Z.shiftl (Z.land d5 31) 6) (Z.shiftr (Z.land d6 252) 2));
    number_of_raw_data_blocks_in_frame := Z.land d6 3 |}).

(** The loop of [count_aac_frames]. *)
Fixpoint count_loop (fuel : nat) (data : list Z) (size currentPos count : Z)
    (header : ADTSHeader) : outcome Z :=
  match fuel with
  | O => Hang
  | S fuel =>
      if u64 (currentPos + 7) <=? size then
        r ← parse_adts_header data currentPos 7 header;
        let '(parseRet, header) := r in
        if (parseRet : bool)
        then count_loop fuel data size (u64 (currentPos + aac_frame_length header)) (count + 1) header
        else Ok count
      else Ok count
  end.

Definition count_aac_frames (data : list Z) (size : Z) : outcome Z :=
  count_loop (S (Z.to_nat size)) data size 0 0 zero_header.

(** [aac_find_frame]; [None] is the null pointer.  [size - 1] is a [size_t]: with an
    empty buffer it is the largest one. *)
Fixpoint find_frame_loop (fuel : nat) (data : list Z) (last i : Z) : outcome (option Z) :=
  match fuel with
  | O => Hang
  | S fuel =>
      if i <? last then
        b0 ← rd data i;
        hit ← (if b0 =? 255 then b1 ← rd data (i + 1); Ok (Z.land b1 240 =? 240) else Ok false);
        if (hit : bool) then Ok (Some i) else find_frame_loop fuel data last (i + 1)
      else Ok None
  end.

Definition aac_find_frame (data : list Z) (size : Z) : outcome (option Z) :=
  find_frame_loop (S (length data)) data (u64 (size - 1)) 0.

(** ** The buffers *)

(** [buffer] and [used_length] are the bytes in use. *)
Record H264Nalu := mkH264Nalu {
  n_used : list Z;
  n_duration : Z;
  n_start_time : Z;
  n_stop_time : Z;
}.

Definition new_nalu : H264Nalu := mkH264Nalu [] 0 0 0.

(** [len] is an [int], added to a [size_t]. *)
Definition nalu_append (this : H264Nalu) (mem : list Z) (data len start_time stop_time : Z)
    : outcome (bool * H264Nalu) :=
  if u64 (zlen (n_used this) + len) <? 1024 * 64 then
    bs ← rd_range mem data len;
    Ok (true, mkH264Nalu (n_used this ++ bs) (n_duration this) start_time stop_time)
  else Ok (false, this).

Definition nalu_reset (this : H264Nalu) : H264Nalu := mkH264Nalu [] 0 0 0.

Record ADTS := mkADTS { a_used : list Z; a_duration : Z }.

Definition new_adts : ADTS := mkADTS [] 0.

Definition adts_append (this : ADTS) (mem : list Z) (data dataLen duration : Z)
    : outcome (bool * ADTS) :=
  if u64 (zlen (a_used this) + dataLen) <? 1024 * 64 then
    bs ← rd_range mem data dataLen;
    Ok (true, mkADTS (a_used this ++ bs) (i32 (a_duration this + duration)))
  else Ok (false, this).

Definition adts_reset (this : ADTS) : ADTS := mkADTS [] 0.

(** ** Specification: the header layout *)

Definition adts_bytes (h : ADTSHeader) : list Z :=
  [255;
   240 + id h * 8 + layer h * 2 + protection_absent h;
   profile h * 64 + sampling_freq_index h * 4 + private_bit h * 2 + channel_cfg h / 4;
   channel_cfg h mod 4 * 64 + original_copy h * 32 + home h * 16
     + copyright_identification_bit h * 8 + copyright_identification_start h * 4
     + aac_frame_length h / 2048;
   aac_frame_length h / 8 mod 256;
   aac_frame_length h mod 8 * 32 + adts_buffer_fullness h / 64;
   adts_buffer_fullness h mod 64 * 4 + number_of_raw_data_blocks_in_frame h].

(** Each field within its bits. *)
Definition adts_ok (h : ADTSHeader) : Prop :=
  syncword h = 0 ∧ 0 <= id h < 2 ∧ 0 <= layer h < 4 ∧ 0 <= protection_absent h < 2
  ∧ 0 <= profile h < 4 ∧ 0 <= sampling_freq_index h < 16 ∧ 0 <= private_bit h < 2
  ∧ 0 <= channel_cfg h < 8 ∧ 0 <= original_copy h < 2 ∧ 0 <= home h < 2
  ∧ 0 <= copyright_identification_bit h < 2 ∧ 0 <= copyright_identification_start h < 2
  ∧ 0 <= aac_frame_length h < 8192 ∧ 0 <= adts_buffer_fullness h < 2048
  ∧ 0 <= number_of_raw_data_blocks_in_frame h < 4.

#[global] Instance adts_ok_dec h : Decision (adts_ok h).
Proof. unfold adts_ok. apply _. Defined.

(** A frame: its header, which counts itself, and the payload. *)
Definition frame_ok (f : ADTSHeader * list Z) : Prop :=
  adts_ok f.1 ∧ aac_frame_length f.1 = 7 + zlen f.2.

#[global] Instance frame_ok_dec f : Decision (frame_ok f).
Proof. unfold frame_ok. apply _. Defined.

Definition adts_stream (fs : list (ADTSHeader * list Z)) : list Z :=
  fs ≫= λ f, adts_bytes f.1 ++ f.2.

(** ** The header reader *)

(** The masks and shifts of the reader, as quotients and remainders. *)
Lemma adts_masks b :
  0 <= b < 256 →
  Z.shiftr (Z.land b 8) 3 = b / 8 mod 2 ∧ Z.shiftr (Z.land b 6) 1 = b / 2 mod 4
  ∧ Z.land b 1 = b mod 2 ∧ Z.shiftr (Z.land b 192) 6 = b / 64
  ∧ Z.shiftr (Z.land b 60) 2 = b / 4 mod 16 ∧ Z.shiftr (Z.land b 2) 1 = b / 2 mod 2
  ∧ Z.shiftr (Z.land b 32) 5 = b / 32 mod 2 ∧ Z.shiftr (Z.land b 16) 4 = b / 16 mod 2
  ∧ Z.shiftr (Z.land b 4) 2 = b / 4 mod 2 ∧ Z.land b 3 = b mod 4 ∧ Z.land b 255 = b
  ∧ Z.shiftr (Z.land b 224) 5 = b / 32 ∧ Z.land b 31 = b mod 32
  ∧ Z.shiftr (Z.land b 252) 2 = b / 4 ∧ (Z.land b 240 =? 240) = (240 <=? b).
Proof. revert b. by_table. Qed.

Lemma adts_channel x y : 0 <= y < 4 → Z.lor (Z.shiftl x 2) y = x * 4 + y.
Proof. intros. by rewrite (lor_shiftl_add x y 2) by lia. Qed.

Lemma adts_fullness x y : 0 <= y < 64 → Z.lor (Z.shiftl x 6) y = x * 64 + y.
Proof. intros. by rewrite (lor_shiftl_add x y 6) by lia. Qed.

Lemma adts_length x y z :
  0 <= y < 256 → 0 <= z < 8 →
  Z.lor (Z.lor (Z.shiftl x 11) (Z.shiftl y 3)) z = x * 2048 + y * 8 + z.
Proof.
  intros Hy Hz. rewrite lor_shiftl_add by (rewrite ?Z.shiftl_mul_pow2; lia).
  rewrite Z.shiftl_mul_pow2 by lia.
  replace (x * 2 ^ 11 + y * 2 ^ 3) with (Z.shiftl (x * 256 + y) 3)
    by (rewrite Z.shiftl_mul_pow2; lia).
  rewrite lor_shiftl_add by lia. lia.
Qed.

(** The header that seven bytes hold. *)
Definition header_of (d1 d2 d3 d4 d5 d6 : Z) : ADTSHeader :=
  {| syncword := 0; id := d1 / 8 mod 2; layer := d1 / 2 mod 4; protection_absent := d1 mod 2;
     profile := d2 / 64; sampling_freq_index := d2 / 4 mod 16; private_bit := d2 / 2 mod 2;
     channel_cfg := d2 mod 2 * 4 + d3 / 64; original_copy := d3 / 32 mod 2;
     home := d3 / 16 mod 2; copyright_identification_bit := d3 / 8 mod 2;
     copyright_identification_start := d3 / 4 mod 2;
     aac_frame_length := d3 mod 4 * 2048 + d4 * 8 + d5 / 32;
     adts_buffer_fullness := d5 mod 32 * 64 + d6 / 4;
     number_of_raw_data_blocks_in_frame := d6 mod 4 |}.

(** The bits of a byte make the byte. *)
Lemma byte_digits b :
  0 <= b < 256 →
  (240 <= b → 240 + b / 8 mod 2 * 8 + b / 2 mod 4 * 2 + b mod 2 = b)
  ∧ b / 64 * 64 + b / 4 mod 16 * 4 + b / 2 mod 2 * 2 + b mod 2 = b
  ∧ b / 64 * 64 + b / 32 mod 2 * 32 + b / 16 mod 2 * 16 + b / 8 mod 2 * 8
      + b / 4 mod 2 * 4 + b mod 4 = b.
Proof. revert b. by_table. Qed.

(** Fields that share a byte, put together and taken apart. *)
Lemma join_split hi lo n : 0 <= lo < n → (hi * n + lo) / n = hi ∧ (hi * n + lo) mod n = lo.
Proof.
  intros. rewrite Z.add_comm. split.
  - rewrite Z.div_add, Z.div_small by lia. lia.
  - rewrite Z.mod_add by lia. by apply Z.mod_small.
Qed.

Lemma join_length hi mid lo :
  0 <= mid < 256 → 0 <= lo < 8 →
  (hi * 2048 + mid * 8 + lo) / 2048 = hi ∧ (hi * 2048 + mid * 8 + lo) / 8 mod 256 = mid
  ∧ (hi * 2048 + mid * 8 + lo) mod 8 = lo.
Proof.
  intros. replace (hi * 2048 + mid * 8 + lo) with ((hi * 256 + mid) * 8 + lo) by lia.
  destruct (join_split (hi * 256 + mid) lo 8) as [-> ->]; [lia|].
  destruct (join_split hi mid 256) as [H1 ->]; [lia|]. split; [|done].
  change 2048 with (8 * 256). rewrite <- Z.div_div by lia.
  destruct (join_split (hi * 256 + mid) lo 8) as [-> _]; [lia|done].
Qed.

Lemma header_of_ok d1 d2 d3 d4 d5 d6 :
  240 <= d1 < 256 → is_byte d2 → is_byte d3 → is_byte d4 → is_byte d5 → is_byte d6 →
  adts_ok (header_of d1 d2 d3 d4 d5 d6)
  ∧ adts_bytes (header_of d1 d2 d3 d4 d5 d6) = [255; d1; d2; d3; d4; d5; d6].
Proof.
  unfold is_byte. intros. split.
  - unfold adts_ok; cbn. repeat split; Z.div_mod_to_equations; lia.
  - unfold adts_bytes; cbn [id layer protection_absent profile sampling_freq_index private_bit
      channel_cfg original_copy home copyright_identification_bit
      copyright_identification_start aac_frame_length adts_buffer_fullness
      number_of_raw_data_blocks_in_frame header_of].
    destruct (join_split (d2 mod 2) (d3 / 64) 4) as [-> ->]; [Z.div_mod_to_equations; lia|].
    destruct (join_split (d5 mod 32) (d6 / 4) 64) as [-> ->]; [Z.div_mod_to_equations; lia|].
    destruct (join_length (d3 mod 4) d4 (d5 / 32)) as (-> & -> & ->); [lia|Z.div_mod_to_equations; lia|].
    destruct (byte_digits d1) as (E1 & _); [lia|]. rewrite E1 by lia.
    destruct (byte_digits d2) as (_ & -> & _); [lia|].
    destruct (byte_digits d3) as (_ & _ & ->); [lia|].
    assert (d5 / 32 * 32 + d5 mod 32 = d5) as -> by (Z.div_mod_to_equations; lia).
    by assert (d6 / 4 * 4 + d6 mod 4 = d6) as -> by (Z.div_mod_to_equations; lia).
Qed.

Lemma header_of_adts_bytes h :
  adts_ok h →
  ∃ d1 d2 d3 d4 d5 d6, adts_bytes h = [255; d1; d2; d3; d4; d5; d6]
    ∧ 240 <= d1 < 256 ∧ is_byte d2 ∧ is_byte d3 ∧ is_byte d4 ∧ is_byte d5 ∧ is_byte d6
    ∧ header_of d1 d2 d3 d4 d5 d6 = h.
Proof.
  destruct h; unfold adts_ok, is_byte; cbn. intros Hok. do 6 eexists. split; [reflexivity|].
  unfold header_of. cbn. split_and!; try (Z.div_mod_to_equations; lia).
  destruct_and! Hok. subst. f_equal; Z.div_mod_to_equations; lia.
Qed.

Lemma rd_of_range mem p n l i :
  rd_range mem p n = Ok l → 0 <= i < n → rd mem (p + i) = rd l i.
Proof.
  intros (H1 & H2 & H3 & -> & _)%rd_range_ok Hi. rewrite <- rd_drop by lia.
  unfold rd. dec_if. by rewrite lookup_take_lt by lia.
Qed.

Lemma rd_first mem p n b l : rd_range mem p n = Ok (b :: l) → rd mem p = Ok b.
Proof.
  intros Hr. pose proof (rd_range_ok _ _ _ _ Hr) as (H1 & H2 & H3 & _ & H5).
  rewrite <- (Z.add_0_r p), (rd_of_range mem p n (b :: l)) by (done || len). done.
Qed.

Lemma rd_seven mem p d0 d1 d2 d3 d4 d5 d6 :
  rd_range mem p 7 = Ok [d0; d1; d2; d3; d4; d5; d6] →
  rd mem p = Ok d0 ∧ rd mem (p + 1) = Ok d1 ∧ rd mem (p + 2) = Ok d2 ∧ rd mem (p + 3) = Ok d3
  ∧ rd mem (p + 4) = Ok d4 ∧ rd mem (p + 5) = Ok d5 ∧ rd mem (p + 6) = Ok d6.
Proof.
  intros Hr. split; [by eapply rd_first|].
  repeat split; by rewrite (rd_of_range mem p 7 _ _ Hr) by lia.
Qed.

(** The reader on the seven bytes of a header. *)
Lemma parse_adts_header_spec mem p n h0 d1 d2 d3 d4 d5 d6 :
  rd_range mem p 7 = Ok [255; d1; d2; d3; d4; d5; d6] → 7 <= n →
  240 <= d1 < 256 → is_byte d2 → is_byte d3 → is_byte d4 → is_byte d5 → is_byte d6 →
  parse_adts_header mem p n h0 = Ok (true, header_of d1 d2 d3 d4 d5 d6).
Proof.
  unfold is_byte. intros Hr Hn B1 B2 B3 B4 B5 B6. unfold parse_adts_header. dec_if.
  destruct (rd_seven _ _ _ _ _ _ _ _ _ Hr) as (R0 & R1 & R2 & R3 & R4 & R5 & R6).
  step R0. dec_if. cbn [negb]. step R1.
  destruct (adts_masks d1) as (E1 & E2 & E3 & _ & _ & _ & _ & _ & _ & _ & _ & _ & _ & _ & ->); [lia|].
  replace (240 <=? d1) with true by (symmetry; apply Z.leb_le; lia).
  cbn [negb]. step R2. step R3. step R4. step R5. step R6.
  destruct (adts_masks d2) as (_ & _ & F3 & F4 & F5 & F6 & _); [lia|].
  destruct (adts_masks d3) as (G1 & _ & _ & G4 & _ & _ & G7 & G8 & G9 & G10 & _); [lia|].
  destruct (adts_masks d4) as (_ & _ & _ & _ & _ & _ & _ & _ & _ & _ & I11 & _); [lia|].
  destruct (adts_masks d5) as (_ & _ & _ & _ & _ & _ & _ & _ & _ & _ & _ & J12 & J13 & _); [lia|].
  destruct (adts_masks d6) as (_ & _ & _ & _ & _ & _ & _ & _ & _ & K10 & _ & _ & _ & K14 & _); [lia|].
  rewrite E1, E2, E3, F3, F4, F5, F6, G1, G4, G7, G8, G9, G10, I11, J12, J13, K10, K14.
  rewrite adts_channel, adts_fullness, adts_length by (Z.div_mod_to_equations; lia).
  rewrite !u16_id by (Z.div_mod_to_equations; lia). done.
Qed.

Lemma parse_adts_bytes mem p n h0 h :
  adts_ok h → rd_range mem p 7 = Ok (adts_bytes h) → 7 <= n →
  parse_adts_header mem p n h0 = Ok (true, h).
Proof.
  intros (d1 & d2 & d3 & d4 & d5 & d6 & E & B1 & B2 & B3 & B4 & B5 & B6 & <-)%header_of_adts_bytes.
  rewrite E. intros Hr Hn. by apply parse_adts_header_spec.
Qed.

(** Where seven bytes can be read, the reader answers, and its answer is determined. *)
Lemma parse_adts_cases mem p n h0 :
  is_bytes mem → 7 <= n → 0 <= p → p + 7 <= zlen mem →
  parse_adts_header mem p n h0 = Ok (false, zero_header)
  ∨ ∃ h, parse_adts_header mem p n h0 = Ok (true, h) ∧ adts_ok h
      ∧ rd_range mem p 7 = Ok (adts_bytes h).
Proof.
  intros Hm Hn Hp Hl.
  pose proof (rd_range_in mem p 7 Hp) as Hr. specialize (Hr ltac:(lia) Hl).
  pose proof (rd_range_ok _ _ _ _ Hr) as (_ & _ & _ & _ & Hlen).
  assert (is_bytes (take (Z.to_nat 7) (drop (Z.to_nat p) mem))) as Hb
    by (apply Forall_take, Forall_drop, Hm).
  destruct (take (Z.to_nat 7) (drop (Z.to_nat p) mem))
    as [|d0 [|d1 [|d2 [|d3 [|d4 [|d5 [|d6 [|]]]]]]]] eqn:E; try (unfold zlen in Hlen; simpl in Hlen; lia).
  inversion Hb as [|? ? B0 Hb1]; subst. inversion Hb1 as [|? ? B1 Hb2]; subst.
  repeat match goal with H : Forall is_byte (_ :: _) |- _ => apply Forall_cons in H as [? H] end.
  destruct (Z.eqb_spec d0 255) as [->|N0].
  2: { left. unfold parse_adts_header. dec_if. rewrite (rd_first _ _ _ _ _ Hr). step_bind. by dec_if. }
  destruct (adts_masks d1 B1) as (_ & _ & _ & _ & _ & _ & _ & _ & _ & _ & _ & _ & _ & _ & M).
  destruct (Z.leb_spec 240 d1) as [G1|G1].
  - right. exists (header_of d1 d2 d3 d4 d5 d6). unfold is_byte in *.
    destruct (header_of_ok d1 d2 d3 d4 d5 d6) as [Hok Hbytes]; [unfold is_byte; lia..|].
    split; [apply parse_adts_header_spec; unfold is_byte; done || lia|].
    split; [done|]. by rewrite Hbytes.
  - left. unfold parse_adts_header. dec_if.
    destruct (rd_seven _ _ _ _ _ _ _ _ _ Hr) as (R0 & R1 & _).
    step R0. cbn [negb Z.eqb Pos.eqb]. step R1. rewrite M.
    by replace (240 <=? d1) with false by (symmetry; apply Z.leb_gt; lia).
Qed.

(** The reader and the layout are inverse to each other: every header within its
    bits is read back from its bytes, and whatever is accepted is such a header,
    whose bytes are the ones read. *)
Theorem parse_adts_header_correct mem p n h0 :
  is_bytes mem → 7 <= n → 0 <= p → p + 7 <= zlen mem →
  ∀ h, parse_adts_header mem p n h0 = Ok (true, h)
       ↔ adts_ok h ∧ rd_range mem p 7 = Ok (adts_bytes h).
Proof.
  intros Hm Hn Hp Hl h. split.
  - intros E. destruct (parse_adts_cases mem p n h0) as [E'|(h' & E' & Hr)]; [done..| |];
      rewrite E in E'; [done|]. by injection E' as <-.
  - intros [Hh Hr]. by apply parse_adts_bytes.
Qed.

(** ** Counting *)

Lemma zlen_adts_bytes h : zlen (adts_bytes h) = 7.
Proof. reflexivity. Qed.

#[export] Hint Rewrite zlen_adts_bytes : rtc_len.

Lemma adts_stream_cons f fs : adts_stream (f :: fs) = adts_bytes f.1 ++ f.2 ++ adts_stream fs.
Proof. unfold adts_stream. by rewrite bind_cons, <- app_assoc. Qed.

(** The stream from the position [zlen pre] on. *)
Lemma count_stream fuel fs : ∀ pre count h0,
  Forall frame_ok fs → zlen (pre ++ adts_stream fs) < 2 ^ 63 → (length fs < fuel)%nat →
  count_loop fuel (pre ++ adts_stream fs) (zlen (pre ++ adts_stream fs)) (zlen pre) count h0
  = Ok (count + zlen fs).
Proof.
  revert fs. induction fuel as [|fuel IH]; intros [|[h l] fs] pre count h0 Hok Hlen Hf;
    simpl in Hf; try lia; cbn [count_loop].
  - rewrite app_nil_r in *. rewrite u64_id by len. dec_if. f_equal. len.
  - apply Forall_cons in Hok as [[Hh Hlf] Hok]. rewrite adts_stream_cons in *. cbn [fst snd] in *.
    rewrite u64_id by len. replace (zlen pre + 7 <=? _) with true by (symmetry; apply Z.leb_le; len).
    rewrite (parse_adts_bytes _ _ 7 h0 h); [|done|apply (rd_range_app pre (adts_bytes h))|lia].
    step_bind. rewrite Hlf, u64_id by len.
    assert (E : pre ++ adts_bytes h ++ l ++ adts_stream fs
                = (pre ++ adts_bytes h ++ l) ++ adts_stream fs) by (by rewrite <- !app_assoc).
    rewrite E in Hlen |- *.
    replace (zlen pre + (7 + zlen l)) with (zlen (pre ++ adts_bytes h ++ l)) by len.
    rewrite IH by (done || lia). f_equal. len.
Qed.

Lemma length_adts_stream fs : (length fs <= length (adts_stream fs))%nat.
Proof.
  induction fs as [|f fs IH]; [simpl; lia|]. rewrite adts_stream_cons, !length_app. simpl. lia.
Qed.

(** On a well-formed stream the counter counts the frames. *)
Theorem count_aac_frames_correct fs :
  Forall frame_ok fs → zlen (adts_stream fs) < 2 ^ 63 →
  count_aac_frames (adts_stream fs) (zlen (adts_stream fs)) = Ok (zlen fs).
Proof.
  intros Hok Hlen. unfold count_aac_frames.
  rewrite (count_stream _ fs [] 0 zero_header Hok Hlen); [done|].
  pose proof (length_adts_stream fs). unfold zlen. lia.
Qed.

(** The counter ends on every buffer, unless some header in it gives the length 0. *)
Lemma count_loop_total fuel : ∀ data size pos count h0,
  is_bytes data → zlen data = size → size < 2 ^ 63 → 0 <= pos < 2 ^ 63 + 8192 →
  (∀ p h, parse_adts_header data p 7 h0 = Ok (true, h) → aac_frame_length h ≠ 0) →
  (Z.to_nat (size - pos) < fuel)%nat →
  ∃ n, count_loop fuel data size pos count h0 = Ok n ∧ count <= n.
Proof.
  induction fuel as [|fuel IH]; intros data size pos count h0 Hb Hs Hlt Hp Hz Hf; [lia|].
  cbn [count_loop]. rewrite u64_id by lia.
  destruct (Z.leb_spec (pos + 7) size) as [Hle|]; [|eauto with lia].
  destruct (parse_adts_cases data pos 7 h0) as [E|(h & E & Hh & _)]; [done|lia..| |];
    rewrite E; step_bind; [eauto with lia|].
  pose proof (Hz _ _ E) as Hnz. assert (0 <= aac_frame_length h < 8192) by apply Hh.
  rewrite u64_id by lia.
  destruct (IH data size (pos + aac_frame_length h) (count + 1) h) as (n & -> & Hn);
    [done..|lia| |lia|exists n; split; [done|lia]].
  intros p h' E'. apply (Hz p h'). revert E'. unfold parse_adts_header. simpl. done.
Qed.

(** The counter ends, with a count, on every buffer without a header of length 0. *)
Theorem count_aac_frames_total data :
  is_bytes data → zlen data < 2 ^ 63 →
  (∀ p h, parse_adts_header data p 7 zero_header = Ok (true, h) → aac_frame_length h ≠ 0) →
  ∃ n, count_aac_frames data (zlen data) = Ok n ∧ 0 <= n.
Proof.
  intros Hb Hlen Hz. unfold count_aac_frames.
  apply count_loop_total; try done; unfold zlen in *; lia.
Qed.

(** A frame that says it has length 0 stops the counter where it is: however long it
    runs, it does not end. *)
Theorem count_aac_frames_hangs fuel h rest :
  adts_ok h → aac_frame_length h = 0 → zlen rest < 2 ^ 62 →
  let data := adts_bytes h ++ rest in
  count_loop fuel data (zlen data) 0 0 zero_header = Hang.
Proof.
  intros Hh Hz Hlen data. generalize 0 at 2 as count. generalize zero_header as h0.
  induction fuel as [|fuel IH]; intros h0 count; [done|]. cbn [count_loop].
  rewrite u64_id by lia. replace (0 + 7 <=? zlen data) with true
    by (symmetry; apply Z.leb_le; unfold data; len).
  rewrite (parse_adts_bytes data 0 7 h0 h); [|done|apply (rd_range_app [] (adts_bytes h))|lia].
  step_bind. rewrite Hz. apply IH.
Qed.

(** ** The search *)

(** A syncword at [i]. *)
Definition sync_at (data : list Z) (i : Z) : Prop :=
  rd data i = Ok 255 ∧ ∃ b, rd data (i + 1) = Ok b ∧ 240 <= b.

Lemma find_frame_spec fuel : ∀ data last i,
  is_bytes data → 0 <= i → last < zlen data → (Z.to_nat (last - i) < fuel)%nat →
  match find_frame_loop fuel data last i with
  | Ok (Some j) => i <= j < last ∧ sync_at data j ∧ ∀ k, i <= k < j → ¬ sync_at data k
  | Ok None => ∀ k, i <= k < last → ¬ sync_at data k
  | _ => False
  end.
Proof.
  induction fuel as [|fuel IH]; intros data last i Hb Hi Hl Hf; [lia|]. cbn [find_frame_loop].
  destruct (Z.ltb_spec i last) as [Hlt|]; [|intros; lia].
  destruct (rd_in_range data i) as (b0 & E0 & _); [lia|].
  destruct (rd_in_range data (i + 1)) as (b1 & E1 & Hin); [lia|].
  pose proof (proj1 (Forall_forall _ _) Hb _ Hin) as Hb1. unfold is_byte in Hb1.
  destruct (adts_masks b1 Hb1) as (_ & _ & _ & _ & _ & _ & _ & _ & _ & _ & _ & _ & _ & _ & M).
  step E0. assert (¬ sync_at data i → match find_frame_loop fuel data last (i + 1) with
    | Ok (Some j) => i <= j < last ∧ sync_at data j ∧ ∀ k, i <= k < j → ¬ sync_at data k
    | Ok None => ∀ k, i <= k < last → ¬ sync_at data k
    | _ => False
    end) as Hnext.
  { intros Hno. specialize (IH data last (i + 1) Hb ltac:(lia) Hl ltac:(lia)).
    destruct (find_frame_loop fuel data last (i + 1)) as [[j|]| |]; [|intros k ?|done..].
    - destruct IH as (H1 & H2 & H3). split; [lia|]. split; [done|]. intros k Hk.
      destruct (decide (k = i)) as [->|]; [done|]. apply H3. lia.
    - destruct (decide (k = i)) as [->|]; [done|]. apply IH. lia. }
  destruct (Z.eqb_spec b0 255) as [->|Hne].
  - step E1. rewrite M. destruct (Z.leb_spec 240 b1).
    + split; [lia|]. split; [|intros; lia]. split; [done|]. eauto.
    + apply Hnext. intros (_ & b & E & ?). rewrite E1 in E. injection E as <-. lia.
  - step_bind. apply Hnext. intros (E & _). rewrite E0 in E. congruence.
Qed.

(** The search finds the first syncword that begins in front of the last byte, and
    nothing when there is none; it stays within the buffer. *)
Theorem aac_find_frame_correct data :
  is_bytes data → data ≠ [] → zlen data < 2 ^ 63 →
  match aac_find_frame data (zlen data) with
  | Ok (Some j) => 0 <= j < zlen data - 1 ∧ sync_at data j ∧ ∀ k, 0 <= k < j → ¬ sync_at data k
  | Ok None => ∀ k, 0 <= k < zlen data - 1 → ¬ sync_at data k
  | _ => False
  end.
Proof.
  intros Hb Hne Hlen. unfold aac_find_frame.
  assert (0 < zlen data) by (destruct data; [done|len]). rewrite u64_id by lia.
  apply find_frame_spec; [done|lia|lia|unfold zlen; lia].
Qed.

(** With the size 0 there is no bound, and the search runs out of the buffer. *)
Lemma find_frame_runs_out fuel : ∀ data last i,
  is_bytes data → 0 <= i <= zlen data → zlen data < last →
  (∀ k, 0 <= k → ¬ sync_at data k) → rd data (zlen data - 1) ≠ Ok 255 →
  (Z.to_nat (zlen data - i) < fuel)%nat → find_frame_loop fuel data last i = Fault.
Proof.
  induction fuel as [|fuel IH]; intros data last i Hb Hi Hl Hno Hlast Hf; [lia|]. cbn [find_frame_loop].
  dec_if. destruct (decide (i = zlen data)) as [->|].
  { rewrite (rd_out_of_range data (zlen data)) by lia. done. }
  destruct (rd_in_range data i) as (b0 & E0 & _); [lia|]. step E0.
  destruct (Z.eqb_spec b0 255) as [->|]; [|step_bind; apply IH; done || lia].
  destruct (decide (i = zlen data - 1)) as [->|]; [done|].
  destruct (rd_in_range data (i + 1)) as (b1 & E1 & Hin); [lia|]. step E1.
  pose proof (proj1 (Forall_forall _ _) Hb _ Hin) as Hb1. unfold is_byte in Hb1.
  destruct (adts_masks b1 Hb1) as (_ & _ & _ & _ & _ & _ & _ & _ & _ & _ & _ & _ & _ & _ & ->).
  destruct (Z.leb_spec 240 b1); [|apply IH; done || lia].
  exfalso. apply (Hno i); [lia|]. split; [done|]. eauto.
Qed.

(** Asked to search nothing, [aac_find_frame] reads behind the buffer. *)
Theorem aac_find_frame_empty data :
  is_bytes data → zlen data < 2 ^ 63 → (∀ k, 0 <= k → ¬ sync_at data k) →
  rd data (zlen data - 1) ≠ Ok 255 → aac_find_frame data 0 = Fault.
Proof.
  intros Hb Hlen Hno Hlast. unfold aac_find_frame. change (u64 (0 - 1)) with (2 ^ 64 - 1).
  pose proof (zlen_nonneg data).
  apply find_frame_runs_out; try done; try lia. unfold zlen; lia.
Qed.

(** ** The buffers *)

(** What [append] accepts is kept behind what was there, up to 65535 bytes; what does
    not fit is refused and changes nothing; a reset empties the buffer. *)
Theorem buffers_correct n a mem data len bs t1 t2 d :
  zlen (n_used n) < 65536 → zlen (a_used a) < 65536 → rd_range mem data len = Ok bs → len < 2 ^ 31 →
  nalu_append n mem data len t1 t2
    = Ok (if zlen (n_used n ++ bs) <? 65536
          then (true, mkH264Nalu (n_used n ++ bs) (n_duration n) t1 t2) else (false, n))
  ∧ adts_append a mem data len d
    = Ok (if zlen (a_used a ++ bs) <? 65536
          then (true, mkADTS (a_used a ++ bs) (i32 (a_duration a + d))) else (false, a))
  ∧ nalu_reset n = new_nalu ∧ adts_reset a = new_adts.
Proof.
  intros Hn Ha Hr Hlen. pose proof (rd_range_ok _ _ _ _ Hr) as (_ & H0 & _ & _ & <-).
  unfold nalu_append, adts_append. rewrite !u64_id by len. rewrite !zlen_app, Hr.
  change (1024 * 64) with 65536. split; [|split; [|done]]; by case_match.
Qed.

(** ** Witnesses *)

(** A frame of AAC LC, 44100 Hz, two channels, with two payload bytes. *)
Definition sample_adts : ADTSHeader := mkADTSHeader 0 0 0 1 1 4 0 2 0 0 0 0 9 2047 0.

Definition sample_frames : list (ADTSHeader * list Z) :=
  [(sample_adts, [33; 16]); (sample_adts, [255; 241])].

Lemma parse_adts_header_correct_witness :
  parse_adts_header (adts_bytes sample_adts ++ [33; 16]) 0 7 zero_header = Ok (true, sample_adts).
Proof.
  apply (parse_adts_header_correct (adts_bytes sample_adts ++ [33; 16]) 0 7 zero_header);
    [by apply (bool_decide_unpack _); vm_compute|lia|lia|vm_compute; discriminate|].
  split; [by apply (bool_decide_unpack _); vm_compute|reflexivity].
Defined.

Lemma count_aac_frames_correct_witness :
  count_aac_frames (adts_stream sample_frames) (zlen (adts_stream sample_frames)) = Ok 2.
Proof.
  apply (count_aac_frames_correct sample_frames);
    [by apply (bool_decide_unpack _); vm_compute|reflexivity].
Defined.

Lemma count_aac_frames_total_witness :
  ∃ n, count_aac_frames [1; 2; 3] 3 = Ok n ∧ 0 <= n.
Proof.
  apply (count_aac_frames_total [1; 2; 3]);
    [by apply (bool_decide_unpack _); vm_compute|reflexivity|].
  intros p h. unfold parse_adts_header. change (7 <? 7) with false. cbv iota.
  destruct (rd [1; 2; 3] p) eqn:E; [|done..]. apply rd_ok_range in E as [_ Hin].
  assert (a ≠ 255) as Ha by (intros ->; by apply (bool_decide_unpack (255 ∉ [1; 2; 3])) in Hin).
  step_bind. by rewrite (proj2 (Z.eqb_neq a 255) Ha).
Defined.

Definition empty_frame : ADTSHeader := mkADTSHeader 0 0 0 1 1 4 0 2 0 0 0 0 0 2047 0.

Lemma count_aac_frames_hangs_witness :
  count_loop 1000 (adts_bytes empty_frame ++ [33]) 8 0 0 zero_header = Hang.
Proof.
  apply (count_aac_frames_hangs 1000 empty_frame [33]);
    [by apply (bool_decide_unpack _); vm_compute|reflexivity|reflexivity].
Defined.

Lemma aac_find_frame_correct_witness :
  aac_find_frame [1; 255; 241; 3] 4 = Ok (Some 1)
  ∧ match aac_find_frame [1; 255; 241; 3] 4 with
    | Ok (Some j) => 0 <= j < 4 - 1 ∧ sync_at [1; 255; 241; 3] j
                     ∧ ∀ k, 0 <= k < j → ¬ sync_at [1; 255; 241; 3] k
    | Ok None => ∀ k, 0 <= k < 4 - 1 → ¬ sync_at [1; 255; 241; 3] k
    | _ => False
    end.
Proof.
  split; [reflexivity|]. apply (aac_find_frame_correct [1; 255; 241; 3]);
    [by apply (bool_decide_unpack _); vm_compute|done|reflexivity].
Defined.

Lemma aac_find_frame_empty_witness : aac_find_frame [1; 2] 0 = Fault.
Proof.
  apply (aac_find_frame_empty [1; 2]);
    [by apply (bool_decide_unpack _); vm_compute|reflexivity| |vm_compute; discriminate].
  intros k _ [H _]. apply rd_ok_range in H as [_ Hin].
  by apply (bool_decide_unpack (255 ∉ [1; 2])) in Hin.
Defined.

Lemma buffers_correct_witness :
  nalu_append new_nalu [7; 8; 9] 1 2 5 6 = Ok (true, mkH264Nalu [8; 9] 0 5 6).
Proof.
  apply (buffers_correct new_nalu new_adts [7; 8; 9] 1 2 [8; 9] 5 6 0); reflexivity.
Defined.
