(* ===== verification/CodecSps.v ===== *)
(** * CodecSps: the H.264 sequence parameter set reader of codec/codec_utils.cpp

    [de_emulation_prevention], the bit readers [u], [Ue] and [Se], and
    [h264_decode_sps].  Shown: what the in-place removal of the emulation prevention
    bytes leaves in the buffer, and for which payloads that inverts the insertion;
    the readers invert the fixed-length and Exp-Golomb codes; on a parameter set
    written as the standard says, the decoder finds its size and frame rate. *)

From S2P Require Import Prelude.

(** ** Emulation prevention bytes *)

(** The indices are of type [int32_t]: past its largest value they are undefined. *)
Definition int_add (a b : Z) : outcome Z := if a + b <? 2 ^ 31 then Ok (a + b) else Fault.

(** [for (j = i + 2; j < tmp_buf_size - 1; j++) tmp_ptr[j] = tmp_ptr[j + 1];] *)
Fixpoint shift_loop (fuel : nat) (buf : list Z) (size j : Z) : outcome (list Z) :=
  match fuel with
  | O => Hang
  | S fuel =>
      if j <? u64 (size - 1) then
        k ← int_add j 1;
        b ← rd buf k;
        buf ← wr_range buf j [b];
        shift_loop fuel buf size k
      else Ok buf
  end.

(** [tmp_size] is the size on entry, [buf_size] the one that is decreased. *)
Fixpoint de_emulation_loop (fuel : nat) (buf : list Z) (tmp_size i buf_size : Z)
    : outcome (list Z * Z) :=
  match fuel with
  | O => Hang
  | S fuel =>
      if i <? u64 (tmp_size - 2) then
        i1 ← int_add i 1;
        i2 ← int_add i 2;
        b0 ← rd buf i;
        b1 ← rd buf i1;
        b2 ← rd buf i2;
        let val := Z.lxor b0 0 + Z.lxor b1 0 + Z.lxor b2 3 in
        if val =? 0 then
          buf ← shift_loop (S (length buf)) buf tmp_size i2;
          de_emulation_loop fuel buf tmp_size i1 (u64 (buf_size - 1))
        else de_emulation_loop fuel buf tmp_size i1 buf_size
      else Ok (buf, buf_size)
  end.

Definition de_emulation_prevention (buf : list Z) (buf_size : Z) : outcome (list Z * Z) :=
  de_emulation_loop (S (length buf)) buf buf_size 0 buf_size.

(** ** Bit readers

    A reader takes the position of the next bit, and returns a value and the new
    position. *)

Definition reader (A : Type) : Type := Z → outcome (A * Z).

Definition rret {A} (a : A) : reader A := λ s, Ok (a, s).

Definition rbind {A B} (m : reader A) (f : A → reader B) : reader B :=
  λ s, r ← m s; f r.1 r.2.

Declare Scope reader_scope.
Delimit Scope reader_scope with reader.
Notation "x '⇠' m ; k" := (rbind m (λ x, k))
  (at level 20, m at level 100, k at level 200, right associativity) : reader_scope.
Notation "m ';;;' k" := (rbind m (λ _, k))
  (at level 100, k at level 200, right associativity) : reader_scope.

(** [pBuff[nStartBit / 8] & (0x80 >> (nStartBit % 8))]. *)
Definition bit_at (buf : list Z) (nStartBit : Z) : outcome bool :=
  b ← rd buf (nStartBit / 8);
  Ok (negb (Z.land b (Z.shiftr 128 (nStartBit mod 8)) =? 0)).

(** The loop of [u], also the second loop of [Ue]. *)
Fixpoint u_loop (count : nat) (buf : list Z) (dwRet : Z) : reader Z :=
  match count with
  | O => rret dwRet
  | S count => λ nStartBit,
      b ← bit_at buf nStartBit;
      u_loop count buf (u64 (Z.shiftl dwRet 1 + Z.b2z b)) (u32 (nStartBit + 1))
  end.

Definition u (BitCount : nat) (buf : list Z) : reader Z := u_loop BitCount buf 0.

(** The first loop of [Ue]. *)
Fixpoint zeros_loop (fuel : nat) (pBuff : list Z) (nLen nZeroNum : Z) : reader Z :=
  match fuel with
  | O => λ _, Hang
  | S fuel => λ nStartBit,
      if nStartBit <? u64 (nLen * 8) then
        b ← bit_at pBuff nStartBit;
        if (b : bool) then Ok (nZeroNum, nStartBit)
        else zeros_loop fuel pBuff nLen (u32 (nZeroNum + 1)) (u32 (nStartBit + 1))
      else Ok (nZeroNum, nStartBit)
  end.

(** [1 << nZeroNum] overflows the [int] from 31 zeros on. *)
Definition Ue (pBuff : list Z) (nLen : Z) : reader Z := λ nStartBit,
  r ← zeros_loop (S (8 * length pBuff)) pBuff nLen 0 nStartBit;
  let '(nZeroNum, nStartBit) := r in
  r ← u_loop (Z.to_nat nZeroNum) pBuff 0 (u32 (nStartBit + 1));
  let '(dwRet, nStartBit) := r in
  if 31 <=? nZeroNum then Fault
  else Ok (u32 (u64 (Z.shiftl 1 nZeroNum - 1 + dwRet)), nStartBit).

(** [ceil(k / 2)] of an [int] is exact in a [double]. *)
Definition Se (pBuff : list Z) (nLen : Z) : reader Z := λ nStartBit,
  r ← Ue pBuff nLen nStartBit;
  let UeVal := i32 r.1 in
  let nValue := - ((- UeVal) / 2) in
  Ok (if Z.rem UeVal 2 =? 0 then - nValue else nValue, r.2).

(** ** The decoder *)

Section Decode.
Local Open Scope reader_scope.

(** The buffer without its emulation prevention bytes, and its size. *)
Context (data : list Z) (size : Z).

(** [int x = u(n, data, StartBit)] and [int x = Ue(data, size, StartBit)]. *)
Definition int_u (n : nat) : reader Z := v ⇠ u n data; rret (i32 v).
Definition int_Ue : reader Z := v ⇠ Ue data size; rret (i32 v).

(** [for (int i = 0; i < count; i++) x[i] = m;] *)
Fixpoint repeat_read (count : nat) (m : reader Z) : reader unit :=
  match count with
  | O => rret tt
  | S count => m ;;; repeat_read count m
  end.

(** The part of the high profiles. *)
Definition sps_chroma : reader unit :=
  chroma_format_idc ⇠ int_Ue;
  (if chroma_format_idc =? 3 then int_u 1 else rret 0) ;;;
  int_Ue ;;;
  int_Ue ;;;
  int_u 1 ;;;
  seq_scaling_matrix_present_flag ⇠ int_u 1;
  if seq_scaling_matrix_present_flag =? 0 then rret tt else repeat_read 8 (int_u 1).

Definition is_high (profile_idc : Z) : bool :=
  (profile_idc =? 100) || (profile_idc =? 110) || (profile_idc =? 122) || (profile_idc =? 144).

(** The picture order count.  [new int[n]] throws for a negative [n]. *)
Definition sps_poc : reader unit :=
  pic_order_cnt_type ⇠ int_Ue;
  if pic_order_cnt_type =? 0 then int_Ue ;;; rret tt
  else if pic_order_cnt_type =? 1 then
    int_u 1 ;;;
    Se data size ;;;
    Se data size ;;;
    num_ref_frames_in_pic_order_cnt_cycle ⇠ int_Ue;
    if num_ref_frames_in_pic_order_cnt_cycle <? 0 then λ _, Fault
    else repeat_read (Z.to_nat num_ref_frames_in_pic_order_cnt_cycle) (Se data size)
  else rret tt.

Definition sps_crop : reader unit :=
  frame_cropping_flag ⇠ int_u 1;
  if frame_cropping_flag =? 0 then rret tt else repeat_read 4 int_Ue.

(** An [int] division by zero, or of the least [int] by -1, is undefined. *)
Definition frame_rate (time_scale num_units_in_tick : Z) : reader Z :=
  let d := i32 (2 * num_units_in_tick) in
  if (d =? 0) || ((d =? -1) && (time_scale =? - 2 ^ 31)) then λ _, Fault
  else rret (Z.quot time_scale d).

Definition sps_vui (fps : Z) : reader Z :=
  vui_parameter_present_flag ⇠ int_u 1;
  if vui_parameter_present_flag =? 0 then rret fps else
  aspect_ratio_info_present_flag ⇠ int_u 1;
  (if aspect_ratio_info_present_flag =? 0 then rret tt else
   aspect_ratio_idc ⇠ int_u 8;
   if aspect_ratio_idc =? 255 then int_u 16 ;;; int_u 16 ;;; rret tt else rret tt) ;;;
  overscan_info_present_flag ⇠ int_u 1;
  (if overscan_info_present_flag =? 0 then rret 0 else int_u 1) ;;;
  video_signal_type_present_flag ⇠ int_u 1;
  (if video_signal_type_present_flag =? 0 then rret tt else
   int_u 3 ;;;
   int_u 1 ;;;
   colour_description_present_flag ⇠ int_u 1;
   if colour_description_present_flag =? 0 then rret tt else repeat_read 3 (int_u 8)) ;;;
  chroma_loc_info_present_flag ⇠ int_u 1;
  (if chroma_loc_info_present_flag =? 0 then rret tt else repeat_read 2 int_Ue) ;;;
  timing_info_present_flag ⇠ int_u 1;
  if timing_info_present_flag =? 0 then rret fps else
  num_units_in_tick ⇠ int_u 32;
  time_scale ⇠ int_u 32;
  frame_rate time_scale num_units_in_tick.

(** The outputs are width, height and frame rate; [out] are the values on entry. *)
Definition sps_fields (out : Z * Z * Z) : reader (bool * (Z * Z * Z)) :=
  let '(width, height, fps) := out in
  int_u 1 ;;;
  int_u 2 ;;;
  nal_unit_type ⇠ int_u 5;
  if negb (nal_unit_type =? 7) then rret (false, out) else
  profile_idc ⇠ int_u 8;
  repeat_read 4 (int_u 1) ;;;
  int_u 4 ;;;
  int_u 8 ;;;
  int_Ue ;;;
  (if is_high profile_idc then sps_chroma else rret tt) ;;;
  int_Ue ;;;
  sps_poc ;;;
  int_Ue ;;;
  int_u 1 ;;;
  pic_width_in_mbs_minus1 ⇠ int_Ue;
  pic_height_in_map_units_minus1 ⇠ int_Ue;
  let width := i32 ((pic_width_in_mbs_minus1 + 1) * 16) in
  let height := i32 ((pic_height_in_map_units_minus1 + 1) * 16) in
  frame_mbs_only_flag ⇠ int_u 1;
  (if frame_mbs_only_flag =? 0 then int_u 1 else rret 0) ;;;
  int_u 1 ;;;
  sps_crop ;;;
  fps ⇠ sps_vui fps;
  rret (true, (width, height, fps)).

End Decode.

Definition h264_decode_sps (data : list Z) (size : Z) (out : Z * Z * Z)
    : outcome ((bool * (Z * Z * Z)) * list Z) :=
  r ← de_emulation_prevention data size;
  let '(data, size) := r in
  r ← sps_fields data size out 0;
  Ok (r.1, data).

(** ** Specification: emulation prevention *)

(** What the removal leaves behind [p q]: a 3 behind two zeros goes, and the byte
    behind it stays unseen. *)
Fixpoint strip (p q : Z) (l : list Z) : list Z :=
  match l with
  | [] => []
  | b :: l' =>
      if (p =? 0) && (q =? 0) && (b =? 3) then
        match l' with
        | [] => []
        | b' :: l'' => b' :: strip q b' l''
        end
      else b :: strip q b l'
  end.

(** The insertion of the standard: a 3 in front of a byte up to 3 behind two zeros;
    [z] counts the zeros since the last insertion. *)
Fixpoint escape (z : nat) (s : list Z) : list Z :=
  match s with
  | [] => []
  | b :: s =>
      if (2 <=? z)%nat && (b <=? 3) then 3 :: b :: escape (if b =? 0 then 1 else 0) s
      else b :: escape (if b =? 0 then S z else 0) s
  end.

(** No 3 behind three zeros. *)
Fixpoint no_zero3 (s : list Z) : bool :=
  match s with
  | [] => true
  | a :: s' =>
      match s' with
      | b :: c :: d :: _ => negb ((a =? 0) && (b =? 0) && (c =? 0) && (d =? 3))
      | _ => true
      end && no_zero3 s'
  end.

(** ** Removal of the emulation prevention bytes *)

Lemma last_cons_default {A} (y : A) rest : ∀ x, List.last (y :: rest) x = List.last rest y.
Proof.
  revert y. induction rest as [|z rest IH]; intros y x; [done|].
  change (List.last (z :: rest) x = List.last (z :: rest) y). by rewrite !IH.
Qed.

Lemma int_add_ok a b : a + b < 2 ^ 31 → int_add a b = Ok (a + b).
Proof. intros. unfold int_add. by dec_if. Qed.

(** Shifting moves everything behind [a] down by one, and repeats the last byte. *)
Lemma shift_loop_spec fuel : ∀ a x rest post size,
  size = zlen (a ++ x :: rest) → size < 2 ^ 31 → (length rest < fuel)%nat →
  shift_loop fuel (a ++ (x :: rest) ++ post) size (zlen a)
  = Ok (a ++ rest ++ [List.last rest x] ++ post).
Proof.
  induction fuel as [|fuel IH]; intros a x rest post size Hs Hlt Hf; [lia|]. cbn [shift_loop].
  rewrite u64_id by len. destruct rest as [|y rest].
  { dec_if. done. }
  dec_if. step int_add_ok by len. rewrite rd_app_r0 by lia. change (rd ((x :: y :: rest) ++ post) 1) with (@Ok Z y).
  step_bind. change ((x :: y :: rest) ++ post) with ([x] ++ ((y :: rest) ++ post)).
  rewrite (wr_range_mid a [x] ((y :: rest) ++ post) [y]) by done. step_bind.
  change (a ++ [y] ++ (y :: rest) ++ post) with (a ++ [y] ++ ((y :: rest) ++ post)).
  rewrite app_assoc. replace (zlen a + 1) with (zlen (a ++ [y])) by len.
  rewrite IH; [|len|done|simpl in Hf; lia]. rewrite <- app_assoc. do 2 f_equal.
  by rewrite last_cons_default.
Qed.

(** The test for [0 0 3]. *)
Lemma prevention_test b0 b1 b2 :
  is_byte b0 → is_byte b1 → is_byte b2 →
  (Z.lxor b0 0 + Z.lxor b1 0 + Z.lxor b2 3 =? 0) = (b0 =? 0) && (b1 =? 0) && (b2 =? 3).
Proof.
  unfold is_byte. intros. rewrite !Z.lxor_0_r.
  assert (0 <= Z.lxor b2 3) by (apply Z.lxor_nonneg; lia).
  destruct (Z.eqb_spec b2 3) as [->|Hne].
  - change (Z.lxor 3 3) with 0.
    destruct (Z.eqb_spec b0 0), (Z.eqb_spec b1 0), (Z.eqb_spec (b0 + b1 + 0) 0); simpl; lia || done.
  - rewrite andb_false_r. assert (Z.lxor b2 3 ≠ 0) by (rewrite Z.lxor_eq_0_iff; lia).
    apply Z.eqb_neq. lia.
Qed.

(** Reading the window that begins behind [pre]. *)
Lemma window_reads pre p q b rest i :
  i = zlen pre →
  rd (pre ++ p :: q :: b :: rest) i = Ok p ∧ rd (pre ++ p :: q :: b :: rest) (i + 1) = Ok q
  ∧ rd (pre ++ p :: q :: b :: rest) (i + 2) = Ok b.
Proof.
  intros ->. rewrite !rd_app_r0 by lia. rewrite <- (Z.add_0_r (zlen pre)) at 1.
  by rewrite rd_app_r0 by lia.
Qed.

(** In the repeated bytes at the end nothing is removed. *)
Lemma de_emulation_stale fuel : ∀ pre p x r post size n,
  size = zlen (pre ++ p :: replicate r x) → size < 2 ^ 31 → (1 <= r)%nat →
  is_byte p → is_byte x → (r < fuel)%nat →
  de_emulation_loop fuel (pre ++ p :: replicate r x ++ post) size (zlen pre) n
  = Ok (pre ++ p :: replicate r x ++ post, n).
Proof.
  induction fuel as [|fuel IH]; intros pre p x r post size n Hs Hlt Hr Hp Hx Hf; [lia|].
  cbn [de_emulation_loop]. destruct r as [|[|r]]; [lia| |].
  { cbn [replicate] in *. rewrite u64_id by len. by dec_if. }
  cbn [replicate app] in *. rewrite u64_id by len. dec_if. step int_add_ok by len. step int_add_ok by len.
  destruct (window_reads pre p x x (replicate r x ++ post) (zlen pre)) as (R0 & R1 & R2); [done|].
  step R0. step R1. step R2. rewrite prevention_test by done.
  replace ((p =? 0) && (x =? 0) && (x =? 3)) with false
    by (destruct (Z.eqb_spec x 0), (Z.eqb_spec x 3); rewrite ?andb_false_r; lia || done).
  replace (pre ++ p :: x :: x :: replicate r x ++ post)
    with ((pre ++ [p]) ++ x :: replicate (S r) x ++ post) by (by rewrite <- app_assoc).
  replace (zlen pre + 1) with (zlen (pre ++ [p])) by len.
  apply IH; try done; try lia. rewrite Hs, <- app_assoc. done.
Qed.

Lemma last_app_replicate (l : list Z) r x d :
  List.last l d = x → List.last (l ++ replicate r x) d = x.
Proof.
  intros H. destruct r as [|r]; [by rewrite app_nil_r|].
  rewrite replicate_S_end, app_assoc. apply last_last.
Qed.

Lemma length_strip l : ∀ p q, (length (strip p q l) <= length l)%nat.
Proof.
  induction l as [l IH] using (well_founded_induction (well_founded_ltof _ length)).
  intros p q. destruct l as [|b [|b' l]]; simpl; [lia| |].
  - by case_match; simpl; lia.
  - case_match; simpl.
    + pose proof (IH l ltac:(unfold ltof; simpl; lia) q b'). lia.
    + pose proof (IH (b' :: l) ltac:(unfold ltof; simpl; lia) q b) as H1. simpl in H1. lia.
Qed.

(** The loop, with [r] repeated bytes at the end already. *)
Lemma de_emulation_loop_spec fuel : ∀ pre p q rest r x post size n,
  size = zlen (pre ++ p :: q :: rest ++ replicate r x) → size < 2 ^ 31 →
  List.last rest q = x → is_byte p → is_byte q → is_bytes rest →
  zlen rest <= n < 2 ^ 64 → (length rest + r + 1 < fuel)%nat →
  de_emulation_loop fuel (pre ++ p :: q :: rest ++ replicate r x ++ post) size (zlen pre) n
  = Ok (pre ++ p :: q :: strip p q rest
          ++ replicate (r + (length rest - length (strip p q rest))) x ++ post,
        n - (zlen rest - zlen (strip p q rest))).
Proof.
  induction fuel as [|fuel IH]; intros pre p q rest r x post size n Hs Hlt Hx Hp Hq Hb Hn Hf; [lia|].
  destruct rest as [|b rest].
  { simpl in Hx. subst q. cbn [app strip length].
    change (x :: replicate r x ++ post) with (replicate (S r) x ++ post).
    rewrite de_emulation_stale; try done; [|lia|simpl in Hf; lia].
    do 2 f_equal; [|len]. by replace (r + (0 - 0))%nat with r by lia. }
  apply Forall_cons in Hb as [Hb0 Hb].
  cbn [de_emulation_loop]. rewrite u64_id by len. dec_if. step int_add_ok by len. step int_add_ok by len.
  destruct (window_reads pre p q b (rest ++ replicate r x ++ post) (zlen pre)) as (R0 & R1 & R2); [done|].
  cbn [app] in *. step R0. step R1. step R2. rewrite prevention_test by done. cbn [strip].
  destruct ((p =? 0) && (q =? 0) && (b =? 3)) eqn:E.
  - apply andb_prop in E as [[->%Z.eqb_eq ->%Z.eqb_eq]%andb_prop ->%Z.eqb_eq].
    replace (pre ++ 0 :: 0 :: 3 :: rest ++ replicate r x ++ post)
      with ((pre ++ [0; 0]) ++ (3 :: rest ++ replicate r x) ++ post)
      by (by rewrite <- !app_assoc; cbn; rewrite <- app_assoc).
    replace (zlen pre + 2) with (zlen (pre ++ [0; 0])) by len.
    rewrite shift_loop_spec; [|subst size; by rewrite <- app_assoc|done
      |rewrite !length_app; simpl; rewrite !length_app; lia].
    step_bind. rewrite u64_id by len.
    rewrite last_app_replicate by (by rewrite <- Hx, last_cons_default).
    replace ((pre ++ [0; 0]) ++ (rest ++ replicate r x) ++ [x] ++ post)
      with ((pre ++ [0]) ++ 0 :: rest ++ replicate (S r) x ++ post)
      by (rewrite replicate_S_end, <- !app_assoc; done).
    replace (zlen pre + 1) with (zlen (pre ++ [0])) by len.
    destruct rest as [|b' rest].
    + simpl in Hx. cbn [app]. subst x. rewrite de_emulation_stale; try done; [|subst size|lia|simpl in Hf; lia].
      2: { rewrite replicate_S_end. cbn [app]. len. }
      rewrite <- app_assoc. cbn [length app]. by replace (r + (1 - 0))%nat with (S r) by lia.
    + apply Forall_cons in Hb as [Hb0' Hb]. cbn [app]. rewrite IH; try done;
        [|subst size; rewrite <- app_assoc; simpl; len|by rewrite <- Hx, !last_cons_default|len|simpl in Hf; lia].
      rewrite <- app_assoc. cbn [length app]. pose proof (length_strip rest 0 b').
      replace (S r + (length rest - length (strip 0 b' rest)))%nat
        with (r + (S (S (length rest)) - S (length (strip 0 b' rest))))%nat by lia.
      do 2 f_equal. len.
  - replace (pre ++ p :: q :: b :: rest ++ replicate r x ++ post)
      with ((pre ++ [p]) ++ q :: b :: rest ++ replicate r x ++ post) by (by rewrite <- app_assoc).
    replace (zlen pre + 1) with (zlen (pre ++ [p])) by len.
    rewrite IH; try done;
      [|subst size; rewrite <- app_assoc; simpl; done|by rewrite <- Hx, last_cons_default|len|simpl in Hf; lia].
    rewrite <- app_assoc. cbn [length app]. pose proof (length_strip rest q b).
    do 2 f_equal. len.
Qed.

Lemma de_emulation_prevention_spec p q rest post :
  is_byte p → is_byte q → is_bytes rest → zlen (p :: q :: rest) < 2 ^ 31 →
  ∃ tail, is_bytes tail
    ∧ de_emulation_prevention (p :: q :: rest ++ post) (zlen (p :: q :: rest))
      = Ok (p :: q :: strip p q rest ++ tail ++ post, zlen (p :: q :: strip p q rest)).
Proof.
  intros Hp Hq Hb Hlt.
  exists (replicate (0 + (length rest - length (strip p q rest))) (List.last rest q)).
  split; [apply Forall_replicate|].
  { destruct rest as [|x rest]; [done|]. apply (proj1 (Forall_forall _ _) Hb).
    apply list_elem_of_In. rewrite last_cons_default.
    clear. revert x. induction rest as [|y rest IH]; intros x; [by left|].
    rewrite last_cons_default. right. apply IH. }
  unfold de_emulation_prevention.
  pose proof (de_emulation_loop_spec (S (length (p :: q :: rest ++ post))) [] p q rest 0
                (List.last rest q) post (zlen (p :: q :: rest)) (zlen (p :: q :: rest))) as H.
  cbn [app replicate] in H. change (zlen []) with 0 in H. rewrite H; try done; [|by rewrite app_nil_r|len|].
  - f_equal. f_equal. pose proof (length_strip rest p q). unfold zlen. simpl length. lia.
  - simpl. rewrite length_app. lia.
Qed.

(** [strip] undoes the insertion; [o p q] are the bytes in front. *)
Lemma strip_escape s : ∀ z o p q,
  (z = 0%nat → q ≠ 0) → (z = 1%nat → q = 0 ∧ (p = 0 → o = 0)) → ((2 <= z)%nat → p = 0 ∧ q = 0) →
  is_bytes s → no_zero3 (o :: p :: q :: s) = true → strip p q (escape z s) = s.
Proof.
  induction s as [|b s IH]; intros z o p q H0 H1 H2 Hb Hn; [done|].
  apply Forall_cons in Hb as [Hb0 Hb]. unfold is_byte in Hb0.
  assert (no_zero3 (p :: q :: b :: s) = true) as Hn'.
  { cbn [no_zero3] in Hn |- *. by apply andb_prop in Hn as [_ Hn]. }
  cbn [escape]. destruct (Nat.leb_spec 2 z) as [Hz|Hz].
  - destruct (H2 Hz) as [-> ->]. cbn [andb].
    destruct (Z.leb_spec b 3).
    + cbn [strip Z.eqb Pos.eqb andb]. f_equal. apply (IH _ 0 0 b); try done;
        destruct (Z.eqb_spec b 0); intros; done || lia.
    + cbn [strip]. replace (b =? 3) with false by (symmetry; apply Z.eqb_neq; lia).
      rewrite andb_false_r. f_equal.
      apply (IH _ 0 0 b); try done; destruct (Z.eqb_spec b 0); intros; done || lia.
  - cbn [andb strip]. replace ((p =? 0) && (q =? 0) && (b =? 3)) with false.
    + f_equal. apply (IH _ p q b); try done; destruct (Z.eqb_spec b 0), z as [|[|z]]; intros; try lia; try done.
    + destruct z as [|[|z]]; [|destruct H1 as [-> Ho]; [done|]|lia].
      * destruct (Z.eqb_spec q 0) as [->|]; [by destruct H0|]. by rewrite andb_false_r.
      * destruct (Z.eqb_spec p 0) as [->|]; [|done]. rewrite Ho in Hn by done. cbn [no_zero3] in Hn.
        destruct (b =? 3); [done|by rewrite andb_false_r].
Qed.

Lemma escape_bytes s : ∀ z, is_bytes s → is_bytes (escape z s).
Proof.
  induction s as [|b s IH]; intros z Hb; [constructor|].
  apply Forall_cons in Hb as [Hb0 Hb]. cbn [escape].
  case_match; repeat (constructor; [done|]); by apply IH.
Qed.

Lemma de_emulation_inverts_spec p q s post :
  is_bytes (p :: q :: s) → no_zero3 (p :: q :: s) = true →
  let e := escape 0 (p :: q :: s) in
  zlen e < 2 ^ 31 →
  ∃ tail, is_bytes tail ∧ de_emulation_prevention (e ++ post) (zlen e)
    = Ok ((p :: q :: s) ++ tail ++ post, zlen (p :: q :: s)).
Proof.
  intros Hb Hn e Hlt. apply Forall_cons in Hb as [Hp Hb]. apply Forall_cons in Hb as [Hq Hb].
  set (z := if q =? 0 then S (if p =? 0 then 1 else 0) else 0%nat).
  assert (e = p :: q :: escape z s) as ->.
  { unfold e, z. cbn [escape]. by destruct (p =? 0). }
  assert (strip p q (escape z s) = s) as E.
  { apply (strip_escape s z 1); [..|done|].
    - unfold z. destruct (Z.eqb_spec q 0), (p =? 0); done.
    - unfold z. destruct (Z.eqb_spec q 0), (Z.eqb_spec p 0); done || lia.
    - unfold z. destruct (Z.eqb_spec q 0), (Z.eqb_spec p 0); lia || done.
    - cbn [no_zero3] in *. rewrite Hn. by destruct s. }
  destruct (de_emulation_prevention_spec p q (escape z s) post) as (tail & Hb' & Ht); try done.
  { by apply escape_bytes. }
  rewrite E in Ht. by exists tail.
Qed.


(** A 3 behind three zeros is a byte of the payload that the removal takes for an
    inserted one: the zeros around an inserted byte count as neighbours. *)
Theorem de_emulation_loses_byte :
  escape 0 [0; 0; 0; 3; 9] = [0; 0; 3; 0; 3; 9]
  ∧ de_emulation_prevention [0; 0; 3; 0; 3; 9] 6 = Ok ([0; 0; 0; 9; 9; 9], 4).
Proof. split; reflexivity. Qed.

(** ** Bits of a buffer *)

(** The bits of a byte, the highest first. *)
Definition byte_bits (b : Z) : list bool :=
  (λ k, Z.testbit b k) <$> [7; 6; 5; 4; 3; 2; 1; 0].

Definition bits_of (l : list Z) : list bool := l ≫= byte_bits.

Lemma length_bits_of l : zlen (bits_of l) = 8 * zlen l.
Proof. induction l as [|b l IH]; [done|]. unfold bits_of in *. rewrite bind_cons. cbn. len. Qed.

(** The mask of the bit reader selects the bit. *)
Lemma bit_mask b k :
  0 <= b < 256 → 0 <= k < 8 →
  negb (Z.land b (Z.shiftr 128 k) =? 0) = Z.testbit b (7 - k).
Proof.
  intros Hb Hk. revert b Hb.
  assert (∀ k, 0 <= k < 8 → ∀ b, 0 <= b < 256 →
    negb (Z.land b (Z.shiftr 128 k) =? 0) = Z.testbit b (7 - k)) as H by by_table.
  by apply H.
Qed.

Lemma bit_at_bits l : ∀ i, is_bytes l → 0 <= i →
  bit_at l i = match bits_of l !! Z.to_nat i with Some c => Ok c | None => Fault end.
Proof.
  induction l as [|b l IH]; intros i Hb Hi.
  - unfold bit_at. rewrite rd_out_of_range; [reflexivity|]. intros [? H]. unfold zlen in H; simpl in H. lia.
  - apply Forall_cons in Hb as [Hb0 Hb]. unfold bits_of. rewrite bind_cons.
    destruct (Z.ltb_spec i 8).
    + unfold bit_at. rewrite Z.div_small, rd_cons_0, Z.mod_small by lia. step_bind.
      rewrite bit_mask by (unfold is_byte in *; lia).
      rewrite lookup_app_l by (cbn; lia).
      assert (∃ k, Z.to_nat i = k ∧ i = Z.of_nat k ∧ (k < 8)%nat) as (k & -> & -> & Hk)
        by (exists (Z.to_nat i); lia).
      do 8 (destruct k as [|k]; [done|]). lia.
    + rewrite lookup_app_r by (cbn; lia).
      replace (Z.to_nat i - length (byte_bits b))%nat with (Z.to_nat (i - 8)) by (cbn; lia).
      change (l ≫= byte_bits) with (bits_of l). rewrite <- IH by (done || lia).
      unfold bit_at.
      assert (i / 8 = (i - 8) / 8 + 1 ∧ i mod 8 = (i - 8) mod 8) as [-> ->]
        by (Z.div_mod_to_equations; lia).
      rewrite rd_cons_S by (Z.div_mod_to_equations; lia). do 2 f_equal. lia.
Qed.

(** The fixed-length code of [n] bits. *)
Fixpoint ubits (n : nat) (v : Z) : list bool :=
  match n with
  | O => []
  | S n => Z.testbit v (Z.of_nat n) :: ubits n v
  end.

(** The Exp-Golomb codes: as many zeros as the number [v + 1] has bits behind its
    first, then the number. *)
Definition ue_bits (v : Z) : list bool :=
  let n := Z.to_nat (Z.log2 (v + 1)) in replicate n false ++ ubits (S n) (v + 1).

(** The signed numbers 0, 1, -1, 2, -2, ... *)
Definition se_bits (v : Z) : list bool := ue_bits (if 0 <? v then 2 * v - 1 else - (2 * v)).

Lemma length_ubits n v : zlen (ubits n v) = Z.of_nat n.
Proof. induction n as [|n IH]; [done|]. cbn [ubits]. len. Qed.

(** ** Specification: the parameter set

    The syntax elements the decoder reads, up to the frame rate; [sps_bits] writes
    them as the standard does.  Optional parts are present exactly where the standard
    has them. *)

(** The part of the high profiles; the scaling matrix is announced ([Some tt]) with
    all its lists absent, or not at all. *)
Record chroma_info := mkChroma {
  c_format : Z; c_residual : Z; c_luma : Z; c_chroma : Z; c_bypass : Z; c_scaling : bool;
}.

Inductive poc_info : Type :=
| poc_lsb (log2_max_pic_order_cnt_lsb_minus4 : Z)
| poc_cycle (delta_always_zero offset_non_ref offset_top_bottom : Z) (offsets : list Z)
| poc_output.

Record vui_info := mkVui {
  v_aspect : option (Z * option (Z * Z));
  v_overscan : option Z;
  v_signal : option (Z * Z * option (Z * Z * Z));
  v_chroma_loc : option (Z * Z);
  v_timing : option (Z * Z);
}.

Record sps := mkSps {
  s_header : Z;
  s_profile : Z;
  s_constraints : list Z;
  s_reserved : Z;
  s_level : Z;
  s_id : Z;
  s_chroma : chroma_info;
  s_log2_frame_num : Z;
  s_poc : poc_info;
  s_ref_frames : Z;
  s_gaps : Z;
  s_width : Z;
  s_height : Z;
  s_mbs_only : Z;
  s_adaptive : Z;
  s_direct : Z;
  s_crop : option (list Z);
  s_vui : option vui_info;
}.

(** A flag, and what follows when it is set. *)
Definition opt_bits {A} (o : option A) (code : A → list bool) : list bool :=
  match o with None => ubits 1 0 | Some a => ubits 1 1 ++ code a end.

Definition chroma_bits (c : chroma_info) : list bool :=
  ue_bits (c_format c) ++ (if c_format c =? 3 then ubits 1 (c_residual c) else [])
  ++ ue_bits (c_luma c) ++ ue_bits (c_chroma c) ++ ubits 1 (c_bypass c)
  ++ if c_scaling c then ubits 1 1 ++ (replicate 8 0 ≫= ubits 1) else ubits 1 0.

Definition poc_bits (p : poc_info) : list bool :=
  match p with
  | poc_lsb v => ue_bits 0 ++ ue_bits v
  | poc_cycle z o1 o2 os =>
      ue_bits 1 ++ ubits 1 z ++ se_bits o1 ++ se_bits o2 ++ ue_bits (zlen os) ++ (os ≫= se_bits)
  | poc_output => ue_bits 2
  end.

Definition vui_bits (v : vui_info) : list bool :=
  opt_bits (v_aspect v) (λ a, ubits 8 a.1 ++
    match a.2 with Some (w, h) => ubits 16 w ++ ubits 16 h | None => [] end)
  ++ opt_bits (v_overscan v) (ubits 1)
  ++ opt_bits (v_signal v) (λ s, ubits 3 s.1.1 ++ ubits 1 s.1.2 ++
       opt_bits s.2 (λ c, [c.1.1; c.1.2; c.2] ≫= ubits 8))
  ++ opt_bits (v_chroma_loc v) (λ c, [c.1; c.2] ≫= ue_bits)
  ++ opt_bits (v_timing v) (λ t, ubits 32 t.1 ++ ubits 32 t.2).

Definition sps_bits (s : sps) : list bool :=
  ubits 1 0 ++ ubits 2 (s_header s) ++ ubits 5 7 ++ ubits 8 (s_profile s)
  ++ (s_constraints s ≫= ubits 1) ++ ubits 4 (s_reserved s) ++ ubits 8 (s_level s)
  ++ ue_bits (s_id s) ++ (if is_high (s_profile s) then chroma_bits (s_chroma s) else [])
  ++ ue_bits (s_log2_frame_num s) ++ poc_bits (s_poc s) ++ ue_bits (s_ref_frames s)
  ++ ubits 1 (s_gaps s) ++ ue_bits (s_width s) ++ ue_bits (s_height s)
  ++ ubits 1 (s_mbs_only s) ++ (if s_mbs_only s =? 0 then ubits 1 (s_adaptive s) else [])
  ++ ubits 1 (s_direct s) ++ opt_bits (s_crop s) (λ c, c ≫= ue_bits)
  ++ opt_bits (s_vui s) vui_bits.

(** The ranges of the syntax elements. *)
Definition u_ok (n v : Z) : Prop := 0 <= v < 2 ^ n.
Definition ue_ok (v : Z) : Prop := 0 <= v < 2 ^ 31 - 1.
Definition se_ok (v : Z) : Prop := - 2 ^ 30 < v < 2 ^ 30.

Definition chroma_ok (c : chroma_info) : Prop :=
  ue_ok (c_format c) ∧ u_ok 1 (c_residual c) ∧ ue_ok (c_luma c) ∧ ue_ok (c_chroma c)
  ∧ u_ok 1 (c_bypass c).

Definition poc_ok (p : poc_info) : Prop :=
  match p with
  | poc_lsb v => ue_ok v
  | poc_cycle z o1 o2 os => u_ok 1 z ∧ se_ok o1 ∧ se_ok o2 ∧ ue_ok (zlen os) ∧ Forall se_ok os
  | poc_output => True
  end.

Definition opt_ok {A} (o : option A) (ok : A → Prop) : Prop :=
  match o with None => True | Some a => ok a end.

Definition vui_ok (v : vui_info) : Prop :=
  opt_ok (v_aspect v) (λ a, u_ok 8 a.1 ∧ (a.1 = 255 ↔ is_Some a.2)
    ∧ opt_ok a.2 (λ s, u_ok 16 s.1 ∧ u_ok 16 s.2))
  ∧ opt_ok (v_overscan v) (u_ok 1)
  ∧ opt_ok (v_signal v) (λ s, u_ok 3 s.1.1 ∧ u_ok 1 s.1.2
      ∧ opt_ok s.2 (λ c, Forall (u_ok 8) [c.1.1; c.1.2; c.2]))
  ∧ opt_ok (v_chroma_loc v) (λ c, Forall ue_ok [c.1; c.2])
  ∧ opt_ok (v_timing v) (λ t, 0 < t.1 < 2 ^ 30 ∧ 0 <= t.2 < 2 ^ 31).

(** The profiles are Baseline, Main, Extended, High, High 10 and High 4:2:2. *)
Definition sps_ok (s : sps) : Prop :=
  u_ok 2 (s_header s) ∧ s_profile s ∈ [66; 77; 88; 100; 110; 122]
  ∧ length (s_constraints s) = 4%nat ∧ Forall (u_ok 1) (s_constraints s)
  ∧ u_ok 4 (s_reserved s) ∧ u_ok 8 (s_level s) ∧ ue_ok (s_id s) ∧ chroma_ok (s_chroma s)
  ∧ ue_ok (s_log2_frame_num s) ∧ poc_ok (s_poc s) ∧ ue_ok (s_ref_frames s)
  ∧ u_ok 1 (s_gaps s) ∧ 0 <= s_width s < 2 ^ 26 ∧ 0 <= s_height s < 2 ^ 26
  ∧ u_ok 1 (s_mbs_only s) ∧ u_ok 1 (s_adaptive s) ∧ u_ok 1 (s_direct s)
  ∧ opt_ok (s_crop s) (λ c, length c = 4%nat ∧ Forall ue_ok c)
  ∧ opt_ok (s_vui s) vui_ok.

(** The frame rate; [fps] when there is no timing information. *)
Definition sps_rate (s : sps) (fps : Z) : Z :=
  match s_vui s with
  | Some v => match v_timing v with Some (n, t) => t / (2 * n) | None => fps end
  | None => fps
  end.

(** The format of the colour samples, 1 (4:2:0) where it is not said, and 0 or 3 when the
    planes are coded apart; the units of the cropping. *)
Definition chroma_format (s : sps) : Z := if is_high (s_profile s) then c_format (s_chroma s) else 1.

Definition crop_unit_x (s : sps) : Z :=
  if (chroma_format s =? 1) || (chroma_format s =? 2) then 2 else 1.

Definition crop_unit_y (s : sps) : Z :=
  (if chroma_format s =? 1 then 2 else 1) * (2 - s_mbs_only s).

Definition crop_at (s : sps) (i : nat) : Z :=
  match s_crop s with Some c => default 0 (c !! i) | None => 0 end.

(** The width and height of the video, by the standard: whole macroblocks (twice as many
    rows of them when fields are coded) without what is cropped left, right, top and
    bottom. *)
Definition video_width (s : sps) : Z :=
  (s_width s + 1) * 16 - crop_unit_x s * (crop_at s 0 + crop_at s 1).

Definition video_height (s : sps) : Z :=
  (2 - s_mbs_only s) * (s_height s + 1) * 16 - crop_unit_y s * (crop_at s 2 + crop_at s 3).

Definition sps_out (s : sps) (fps : Z) : Z * Z * Z :=
  (video_width s, video_height s, sps_rate s fps).

(** What the code reports. *)
Definition macroblocks (s : sps) (fps : Z) : Z * Z * Z :=
  ((s_width s + 1) * 16, (s_height s + 1) * 16, sps_rate s fps).

Lemma macroblocks_out s fps :
  s_mbs_only s = 1 → s_crop s = None → macroblocks s fps = sps_out s fps.
Proof.
  intros Hm Hc. unfold macroblocks, sps_out, video_width, video_height, crop_at. rewrite Hm, Hc.
  f_equal. f_equal; lia.
Qed.

(** ** What the readers read

    [reads m bs a]: with the bits [bs] at its position the reader [m] returns [a]
    and stands behind them. *)

Section Reads.
Context (data : list Z) (size : Z).
Context (Hbytes : is_bytes data) (Hsize : 0 <= size <= zlen data) (Hsmall : size < 2 ^ 28).

Definition sps_bits_at (pre bs post : list bool) : Prop :=
  bits_of (take (Z.to_nat size) data) = pre ++ bs ++ post.

Definition reads {A} (m : reader A) (bs : list bool) (a : A) : Prop :=
  ∀ pre post, sps_bits_at pre bs post → m (zlen pre) = Ok (a, zlen (pre ++ bs)).

Lemma sps_bits_len pre bs post :
  sps_bits_at pre bs post → zlen pre + zlen bs + zlen post = 8 * size.
Proof.
  unfold sps_bits_at. intros H. apply (f_equal zlen) in H. rewrite length_bits_of in H.
  rewrite zlen_take in H by done. len.
Qed.

Lemma bit_at_next pre b bs post :
  sps_bits_at pre (b :: bs) post → bit_at data (zlen pre) = Ok b.
Proof.
  intros H. pose proof (sps_bits_len _ _ _ H) as Hl. rewrite bit_at_bits by (done || len).
  rewrite <- (take_drop (Z.to_nat size) data). unfold bits_of. rewrite bind_app.
  change (take (Z.to_nat size) data ≫= byte_bits) with (bits_of (take (Z.to_nat size) data)).
  rewrite H, <- app_assoc, lookup_app_r by (unfold zlen; lia). unfold zlen at 1.
  by replace (Z.to_nat (Z.of_nat (length pre)) - length pre)%nat with 0%nat by lia.
Qed.

Lemma sps_bits_shift pre b bs post :
  sps_bits_at pre (b :: bs) post → sps_bits_at (pre ++ [b]) bs post.
Proof. unfold sps_bits_at. intros ->. by rewrite <- app_assoc. Qed.

Lemma reads_ret {A} (a : A) : reads (rret a) [] a.
Proof. intros pre post _. unfold rret. by rewrite app_nil_r. Qed.

(** Reading from the first bit on. *)
Lemma reads_start {A} (m : reader A) bs a post :
  reads m bs a → bits_of (take (Z.to_nat size) data) = bs ++ post → m 0 = Ok (a, zlen bs).
Proof. intros H E. exact (H [] post E). Qed.

Lemma reads_bind {A B} (m : reader A) (f : A → reader B) bs bs' a b :
  reads m bs a → reads (f a) bs' b → reads (rbind m f) (bs ++ bs') b.
Proof.
  intros Hm Hf pre post H. unfold rbind. unfold sps_bits_at in *. rewrite <- app_assoc in H.
  rewrite (Hm pre (bs' ++ post)) by done. step_bind. cbn [fst snd].
  rewrite (Hf (pre ++ bs) post) by (unfold sps_bits_at; by rewrite <- app_assoc). by rewrite <- app_assoc.
Qed.

(** A reader whose value is used up to a pure function. *)
Lemma reads_map {A B} (m : reader A) (f : A → B) bs a :
  reads m bs a → reads (rbind m (λ x, rret (f x))) bs (f a).
Proof. intros Hm. rewrite <- (app_nil_r bs). by eapply reads_bind, reads_ret. Qed.

(** ** The codes are read back *)

Lemma zlen_snoc {A} (l : list A) x : zlen (l ++ [x]) = zlen l + 1.
Proof. len. Qed.

(** The highest bit of a number, and the others. *)
Lemma top_bit n v :
  0 <= n → 0 <= v < 2 ^ (n + 1) →
  v = Z.b2z (Z.testbit v n) * 2 ^ n + v mod 2 ^ n ∧ 0 <= v mod 2 ^ n < 2 ^ n.
Proof.
  intros Hn Hv. rewrite Z.pow_add_r in Hv by lia. pose proof (Z.pow_pos_nonneg 2 n).
  split; [|apply Z.mod_pos_bound; lia]. rewrite Z.testbit_spec' by lia.
  rewrite (Z.mod_small (v / 2 ^ n)) by
    (split; [apply Z.div_pos; lia|apply Z.div_lt_upper_bound; lia]).
  rewrite Z.mul_comm. apply Z.div_mod. lia.
Qed.

Lemma ubits_low n v m : (m <= n)%nat → ubits m (v mod 2 ^ Z.of_nat n) = ubits m v.
Proof.
  induction m as [|m IH]; intros Hm; [done|]. cbn [ubits].
  rewrite Z.mod_pow2_bits_low by lia. f_equal. apply IH. lia.
Qed.

Lemma u_loop_reads n v : ∀ acc,
  0 <= v < 2 ^ Z.of_nat n → 0 <= acc → (acc + 1) * 2 ^ Z.of_nat n <= 2 ^ 64 →
  reads (u_loop n data acc) (ubits n v) (acc * 2 ^ Z.of_nat n + v).
Proof.
  revert v. induction n as [|n IH]; intros v acc Hv Hacc Hbig.
  - change (2 ^ Z.of_nat 0) with 1 in *. replace (acc * 1 + v) with acc by lia. apply reads_ret.
  - intros pre post H. cbn [u_loop ubits] in *. pose proof (sps_bits_len _ _ _ H) as Hl.
    rewrite zlen_cons, length_ubits in Hl. pose proof (zlen_nonneg pre). pose proof (zlen_nonneg post).
    step (bit_at_next pre _ _ _ H). rewrite u32_id by lia.
    rewrite <- (zlen_snoc pre (Z.testbit v (Z.of_nat n))). rewrite Nat2Z.inj_succ in *. unfold Z.succ in *.
    destruct (top_bit (Z.of_nat n) v) as [Hsplit Hmod]; [lia|done|].
    rewrite Z.pow_add_r in Hbig |- * by lia. change (2 ^ 1) with 2 in *.
    assert (0 <= Z.b2z (Z.testbit v (Z.of_nat n)) <= 1) by (destruct (Z.testbit _ _); simpl; lia).
    set (b := Z.b2z _) in *. pose proof (Z.pow_pos_nonneg 2 (Z.of_nat n)).
    rewrite Z.shiftl_mul_pow2, u64_id by (change (2 ^ 1) with 2; nia). change (2 ^ 1) with 2.
    apply sps_bits_shift in H. rewrite <- (ubits_low n v n) in H |- * by lia.
    rewrite (IH (v mod 2 ^ Z.of_nat n) (acc * 2 + b)) with (post := post); [|lia|lia|nia|exact H].
    rewrite <- app_assoc. f_equal. f_equal. rewrite Hsplit at 2. ring.
Qed.

Lemma u_reads n v : (n <= 64)%nat → 0 <= v < 2 ^ Z.of_nat n → reads (u n data) (ubits n v) v.
Proof.
  intros Hn Hv. unfold u. apply (u_loop_reads n v 0); [done|lia|].
  rewrite Z.mul_1_l. apply Z.pow_le_mono_r; lia.
Qed.

Lemma int_u_reads n v : (n <= 31)%nat → 0 <= v < 2 ^ Z.of_nat n → reads (int_u data n) (ubits n v) v.
Proof.
  intros Hn Hv. unfold int_u.
  assert (2 ^ Z.of_nat n <= 2 ^ 31) by (apply Z.pow_le_mono_r; lia).
  rewrite <- (i32_id v) at 2 by lia. apply reads_map, u_reads; [lia|done].
Qed.

Lemma zeros_loop_reads k : ∀ fuel z pre bs post,
  sps_bits_at pre (replicate k false ++ true :: bs) post → (k < fuel)%nat → 0 <= z →
  z + Z.of_nat k < 2 ^ 32 →
  zeros_loop fuel data size z (zlen pre) = Ok (z + Z.of_nat k, zlen pre + Z.of_nat k).
Proof.
  induction k as [|k IH]; intros [|fuel] z pre bs post H Hf Hz Hk; try lia;
    cbn [zeros_loop replicate app] in *; pose proof (sps_bits_len _ _ _ H) as Hl;
    rewrite zlen_cons in Hl; rewrite u64_id by len; dec_if; step (bit_at_next pre _ _ _ H).
  - do 2 f_equal; lia.
  - rewrite !u32_id by len. apply sps_bits_shift in H. rewrite <- (zlen_snoc pre false).
    rewrite (IH fuel (z + 1) _ bs post H) by lia. rewrite zlen_snoc. do 2 f_equal; lia.
Qed.

Lemma Ue_reads v : 0 <= v < 2 ^ 31 - 1 → reads (Ue data size) (ue_bits v) v.
Proof.
  intros Hv pre post H. unfold ue_bits in *. pose proof (Z.log2_spec (v + 1)) as Hlog.
  assert (0 <= Z.log2 (v + 1) <= 30) as Hn.
  { split; [apply Z.log2_nonneg|]. change 30 with (Z.log2 (2 ^ 31 - 1)). apply Z.log2_le_mono. lia. }
  remember (Z.to_nat (Z.log2 (v + 1))) as n eqn:En.
  assert (Z.log2 (v + 1) = Z.of_nat n) as El by lia. rewrite El in *. unfold Z.succ in Hlog.
  destruct (top_bit (Z.of_nat n) (v + 1)) as [Hsplit Hmod]; [lia..|].
  assert (Z.testbit (v + 1) (Z.of_nat n) = true) as Htop by (rewrite <- El; apply Z.bit_log2; lia).
  cbn [ubits] in H |- *. rewrite Htop in H, Hsplit |- *. cbn [Z.b2z] in Hsplit.
  pose proof (sps_bits_len _ _ _ H) as Hl. unfold Ue.
  assert (zlen (replicate n false) = Z.of_nat n) as Hrep by (unfold zlen; by rewrite length_replicate).
  rewrite zlen_app, zlen_cons, Hrep, length_ubits in Hl. pose proof (zlen_nonneg pre).
  pose proof (zlen_nonneg post).
  rewrite (zeros_loop_reads n _ 0 pre _ post H) by (unfold zlen in *; lia). step_bind. rewrite Z.add_0_l, Nat2Z.id.
  rewrite u32_id by lia.
  replace (zlen pre + Z.of_nat n + 1) with (zlen (pre ++ replicate n false ++ [true])) by len.
  unfold sps_bits_at in H. rewrite <- app_assoc in H. cbn [app] in H.
  assert (0 <= 2 ^ Z.of_nat n <= 2 ^ 30) by (split; [lia|apply Z.pow_le_mono_r; lia]).
  rewrite <- (ubits_low n (v + 1) n) in H |- * by lia.
  rewrite (u_loop_reads n ((v + 1) mod 2 ^ Z.of_nat n) 0) with (post := post); [|lia|lia|lia|].
  2: { unfold sps_bits_at. rewrite H, <- !app_assoc. done. }
  step_bind. dec_if. rewrite Z.shiftl_mul_pow2, Z.mul_1_l, u64_id, u32_id by lia.
  rewrite <- !app_assoc. f_equal. f_equal. lia.
Qed.

Lemma int_Ue_reads v : 0 <= v < 2 ^ 31 - 1 → reads (int_Ue data size) (ue_bits v) v.
Proof.
  intros Hv. unfold int_Ue. rewrite <- (i32_id v) at 2 by lia. by apply reads_map, Ue_reads.
Qed.

Lemma Se_reads v : - 2 ^ 30 < v < 2 ^ 30 → reads (Se data size) (se_bits v) v.
Proof.
  intros Hv pre post H. unfold Se, se_bits in *.
  rewrite (Ue_reads (if 0 <? v then 2 * v - 1 else - (2 * v))) with (post := post); [|by case_match; lia|done].
  step_bind. cbn [fst snd]. rewrite i32_id by (case_match; lia). f_equal. f_equal.
  destruct (Z.ltb_spec 0 v).
  - rewrite (proj2 (Z.eqb_neq _ _)) by (Z.quot_rem_to_equations; lia). Z.div_mod_to_equations; lia.
  - rewrite (proj2 (Z.eqb_eq _ _)) by (Z.quot_rem_to_equations; lia). Z.div_mod_to_equations; lia.
Qed.

Lemma repeat_reads (m : reader Z) (code : Z → list bool) vs :
  Forall (λ v, reads m (code v) v) vs →
  reads (repeat_read (length vs) m) (vs ≫= code) tt.
Proof.
  induction 1 as [|v vs Hv _ IH]; [apply reads_ret|]. rewrite bind_cons. cbn [repeat_read length].
  by eapply reads_bind.
Qed.

Lemma reads_if {A} (b : bool) (m1 m2 : reader A) bs1 bs2 a :
  (b = true → reads m1 bs1 a) → (b = false → reads m2 bs2 a) →
  reads (if b then m1 else m2) (if b then bs1 else bs2) a.
Proof. destruct b; auto. Qed.


(** ** The parts of a parameter set *)

Lemma reads_bind_ret {A B} (m : reader A) (f : A → reader B) bs a b :
  reads m bs a → reads (f a) [] b → reads (rbind m f) bs b.
Proof. intros Hm Hf. rewrite <- (app_nil_r bs). by eapply reads_bind. Qed.

(** [opt_bits] read as a flag and its part. *)
Lemma opt_reads {A B} (o : option A) (code : A → list bool) (none : reader B) (some : reader B)
    (b0 : B) (b1 : A → B) :
  reads none [] b0 → (∀ a, o = Some a → reads some (code a) (b1 a)) →
  reads (rbind (int_u data 1) (λ f, if f =? 0 then none else some)) (opt_bits o code)
    (match o with Some a => b1 a | None => b0 end).
Proof.
  intros H0 H1. destruct o as [a|]; cbn [opt_bits].
  - eapply reads_bind; [by apply (int_u_reads 1 1); [lia|]|]. by apply H1.
  - eapply reads_bind_ret; [by apply (int_u_reads 1 0); [lia|]|]. done.
Qed.

Lemma u_list_reads n vs :
  (n <= 31)%nat → Forall (u_ok (Z.of_nat n)) vs →
  reads (repeat_read (length vs) (int_u data n)) (vs ≫= ubits n) tt.
Proof. intros Hn H. apply repeat_reads. eapply Forall_impl; [done|]. intros v Hv. by apply int_u_reads. Qed.

Lemma ue_list_reads vs :
  Forall ue_ok vs → reads (repeat_read (length vs) (int_Ue data size)) (vs ≫= ue_bits) tt.
Proof. intros H. apply repeat_reads. eapply Forall_impl; [done|]. intros v Hv. by apply int_Ue_reads. Qed.

Lemma sps_chroma_reads c : chroma_ok c → reads (sps_chroma data size) (chroma_bits c) tt.
Proof.
  intros (H1 & H2 & H3 & H4 & H5). unfold sps_chroma, chroma_bits.
  eapply reads_bind; [by apply int_Ue_reads|]. cbv beta.
  eapply reads_bind with (a := if c_format c =? 3 then c_residual c else 0).
  { destruct (c_format c =? 3); [by apply int_u_reads; [lia|]|apply reads_ret]. }
  eapply reads_bind; [by apply int_Ue_reads|].
  eapply reads_bind; [by apply int_Ue_reads|].
  eapply reads_bind; [by apply int_u_reads; [lia|]|].
  pose proof (opt_reads (if c_scaling c then Some (replicate 8 0) else None) (λ l, l ≫= ubits 1)
    (rret tt) (repeat_read 8 (int_u data 1)) tt (λ _, tt)) as H.
  destruct (c_scaling c); apply H; try apply reads_ret; intros a [= <-].
  apply (u_list_reads 1 (replicate 8 0)); [lia|]. by apply (bool_decide_unpack _).
Qed.

Lemma sps_poc_reads p : poc_ok p → reads (sps_poc data size) (poc_bits p) tt.
Proof.
  intros Hp. unfold sps_poc, poc_bits. destruct p as [v|z o1 o2 os|]; cbn in Hp.
  - eapply reads_bind; [by apply int_Ue_reads|]. eapply reads_bind_ret; [by apply int_Ue_reads|].
    apply reads_ret.
  - destruct Hp as (H1 & H2 & H3 & H4 & H5).
    eapply reads_bind; [by apply int_Ue_reads|]. cbn [Z.eqb Pos.eqb].
    eapply reads_bind; [by apply int_u_reads; [lia|]|].
    eapply reads_bind; [by apply Se_reads|].
    eapply reads_bind; [by apply Se_reads|].
    eapply reads_bind; [by apply int_Ue_reads|]. cbv beta.
    pose proof (zlen_nonneg os). dec_if. unfold zlen. rewrite Nat2Z.id.
    apply repeat_reads. eapply Forall_impl; [done|]. intros v Hv. by apply Se_reads.
  - eapply reads_bind_ret; [by apply int_Ue_reads|]. apply reads_ret.
Qed.

Lemma sps_crop_reads c :
  opt_ok c (λ c, length c = 4%nat ∧ Forall ue_ok c) →
  reads (sps_crop data size) (opt_bits c (λ c, c ≫= ue_bits)) tt.
Proof.
  intros Hc. pose proof (opt_reads c (λ c, c ≫= ue_bits) (rret tt)
    (repeat_read 4 (int_Ue data size)) tt (λ _, tt)) as H.
  destruct c as [c|]; apply H; try apply reads_ret; intros a [= <-].
  destruct Hc as [Hl Hc]. rewrite <- Hl. by apply ue_list_reads.
Qed.

(** The frame rate: two 32-bit codes, read as [int]s. *)
Lemma timing_reads n t :
  0 < n < 2 ^ 30 → 0 <= t < 2 ^ 31 →
  reads (rbind (int_u data 32) (λ num, rbind (int_u data 32) (λ time, frame_rate time num)))
    (ubits 32 n ++ ubits 32 t) (t / (2 * n)).
Proof.
  assert (∀ v, 0 <= v < 2 ^ 31 → reads (int_u data 32) (ubits 32 v) v) as Hu.
  { intros v Hv. unfold int_u. rewrite <- (i32_id v) at 2 by lia. apply reads_map, u_reads; lia. }
  intros Hn Ht. eapply reads_bind; [apply Hu; lia|]. eapply reads_bind_ret; [by apply Hu|].
  cbv beta. unfold frame_rate. rewrite i32_id by lia. do 2 dec_if. cbn [orb andb].
  rewrite Z.quot_div_nonneg by lia. apply reads_ret.
Qed.

(** A flag and its part, whose value is not used. *)
Lemma opt_reads_then {A B C} (o : option A) (code : A → list bool) (none some : reader B)
    (rest : reader C) bs c b0 (b1 : A → B) :
  reads none [] b0 → (∀ a, o = Some a → reads some (code a) (b1 a)) → reads rest bs c →
  reads (rbind (int_u data 1) (λ f, rbind (if f =? 0 then none else some) (λ _, rest)))
    (opt_bits o code ++ bs) c.
Proof.
  intros H0 H1 H2. destruct o as [a|]; cbn [opt_bits].
  - rewrite <- app_assoc. eapply reads_bind; [by apply (int_u_reads 1 1); [lia|]|].
    eapply reads_bind; [by apply H1|done].
  - eapply reads_bind; [by apply (int_u_reads 1 0); [lia|]|].
    rewrite <- (app_nil_l bs). by eapply reads_bind.
Qed.

Lemma vui_reads v fps :
  opt_ok v vui_ok →
  reads (sps_vui data size fps) (opt_bits v vui_bits)
    (match v with
     | Some v => match v_timing v with Some (n, t) => t / (2 * n) | None => fps end
     | None => fps
     end).
Proof.
  intros Hv. unfold sps_vui. apply (opt_reads v vui_bits _ _ fps
    (λ v, match v_timing v with Some (n, t) => t / (2 * n) | None => fps end)); [apply reads_ret|].
  intros v' ->. destruct Hv as (H1 & H2 & H3 & H4 & H5). unfold vui_bits.
  eapply (opt_reads_then _ _ _ _ _ _ _ tt (λ _, tt)); [apply reads_ret| |].
  { intros [idc s] E. rewrite E in H1. destruct H1 as (Ha & Hb & Hc). cbn [fst snd] in *.
    eapply reads_bind; [by apply int_u_reads; [lia|]|]. cbv beta.
    destruct s as [[w h]|].
    - rewrite (proj2 Hb) by eauto. cbn in Hc. destruct Hc.
      eapply reads_bind; [by apply int_u_reads; [lia|]|].
      eapply reads_bind_ret; [by apply int_u_reads; [lia|]|]. apply reads_ret.
    - rewrite (proj2 (Z.eqb_neq _ _)) by (intros ->; by destruct (proj1 Hb eq_refl)).
      apply reads_ret. }
  eapply (opt_reads_then _ _ _ _ _ _ _ 0 (λ a, a)); [apply reads_ret| |].
  { intros a E. rewrite E in H2. by apply int_u_reads; [lia|]. }
  eapply (opt_reads_then _ _ _ _ _ _ _ tt (λ _, tt)); [apply reads_ret| |].
  { intros [[f r] c] E. rewrite E in H3. destruct H3 as (Ha & Hb & Hc). cbn [fst snd] in *.
    eapply reads_bind; [by apply int_u_reads; [lia|]|].
    eapply reads_bind; [by apply int_u_reads; [lia|]|].
    pose proof (opt_reads c (λ c, [c.1.1; c.1.2; c.2] ≫= ubits 8) (rret tt)
      (repeat_read 3 (int_u data 8)) tt (λ _, tt)) as H.
    destruct c as [c|]; apply H; try apply reads_ret; intros a [= <-].
    apply (u_list_reads 8 [_; _; _]); [lia|done]. }
  eapply (opt_reads_then _ _ _ _ _ _ _ tt (λ _, tt)); [apply reads_ret| |].
  { intros c E. rewrite E in H4. by apply (ue_list_reads [_; _]). }
  pose proof (opt_reads (v_timing v') (λ t, ubits 32 t.1 ++ ubits 32 t.2) (rret fps)
    (rbind (int_u data 32) (λ num, rbind (int_u data 32) (λ time, frame_rate time num))) fps
    (λ t, t.2 / (2 * t.1))) as H.
  destruct (v_timing v') as [[n t]|]; apply H; try apply reads_ret; intros a [= <-].
  destruct H5. by apply timing_reads.
Qed.

Lemma sps_fields_reads s w h fps :
  sps_ok s → reads (sps_fields data size (w, h, fps)) (sps_bits s) (true, macroblocks s fps).
Proof.
  intros (H1 & H2 & H3 & H4 & H5 & H6 & H7 & H8 & H9 & H10 & H11 & H12 & H13 & H14 & H15 & H16
          & H17 & H18 & H19). unfold sps_fields, sps_bits.
  assert (0 <= s_profile s < 2 ^ 8) as Hprof.
  { assert (∀ v, v ∈ [66; 77; 88; 100; 110; 122] → 0 <= v < 2 ^ 8) as Hr; [|by apply Hr].
    apply Forall_forall. by apply (bool_decide_unpack _). }
  eapply reads_bind; [by apply (int_u_reads 1 0); [lia|]|].
  eapply reads_bind; [by apply int_u_reads; [lia|]|].
  eapply reads_bind; [by apply (int_u_reads 5 7); [lia|]|]. cbn [negb Z.eqb Pos.eqb].
  eapply reads_bind; [by apply int_u_reads; [lia|]|].
  eapply reads_bind; [rewrite <- H3; by apply (u_list_reads 1); [lia|]|].
  eapply reads_bind; [by apply int_u_reads; [lia|]|].
  eapply reads_bind; [by apply int_u_reads; [lia|]|].
  eapply reads_bind; [by apply int_Ue_reads|].
  eapply reads_bind with (a := tt).
  { destruct (is_high (s_profile s)); [by apply sps_chroma_reads|apply reads_ret]. }
  eapply reads_bind; [by apply int_Ue_reads|].
  eapply reads_bind; [by apply sps_poc_reads|].
  eapply reads_bind; [by apply int_Ue_reads|].
  eapply reads_bind; [by apply int_u_reads; [lia|]|].
  eapply reads_bind; [apply int_Ue_reads; lia|].
  eapply reads_bind; [apply int_Ue_reads; lia|]. cbv beta zeta.
  rewrite !i32_id by lia.
  eapply reads_bind; [by apply int_u_reads; [lia|]|].
  eapply reads_bind with (a := if s_mbs_only s =? 0 then s_adaptive s else 0).
  { destruct (s_mbs_only s =? 0); [by apply int_u_reads; [lia|]|apply reads_ret]. }
  eapply reads_bind; [by apply int_u_reads; [lia|]|].
  eapply reads_bind; [by apply sps_crop_reads|].
  eapply reads_bind_ret; [by apply vui_reads|]. apply reads_ret.
Qed.

Lemma sps_fields_other a r n out :
  0 <= a < 2 → 0 <= r < 4 → 0 <= n < 32 → n ≠ 7 →
  reads (sps_fields data size out) (ubits 1 a ++ ubits 2 r ++ ubits 5 n) (false, out).
Proof.
  intros Ha Hr Hn Hne. unfold sps_fields. destruct out as [[w h] fps].
  eapply reads_bind; [by apply int_u_reads; [lia|]|].
  eapply reads_bind; [by apply int_u_reads; [lia|]|].
  eapply reads_bind_ret; [by apply int_u_reads; [lia|]|]. cbv beta.
  rewrite (proj2 (Z.eqb_neq n 7)) by done. apply reads_ret.
Qed.

End Reads.

Lemma zlen_escape s : ∀ z, zlen s <= zlen (escape z s).
Proof.
  induction s as [|b s IH]; intros z; cbn [escape]; [len|].
  pose proof (IH (if b =? 0 then 1%nat else 0%nat)). pose proof (IH (if b =? 0 then S z else 0%nat)).
  destruct ((2 <=? z)%nat && (b <=? 3)); rewrite !zlen_cons; lia.
Qed.

Lemma h264_decode_sps_spec s unit tail post w h fps :
  sps_ok s → is_bytes unit → is_bytes post → no_zero3 unit = true →
  bits_of unit = sps_bits s ++ tail →
  let e := escape 0 unit in
  zlen e < 2 ^ 28 →
  ∃ data, h264_decode_sps (e ++ post) (zlen e) (w, h, fps) = Ok ((true, macroblocks s fps), data).
Proof.
  intros Hs Hb Hpost Hn Hbits e He.
  assert (∃ p q l, unit = p :: q :: l) as (p & q & l & ->).
  { destruct unit as [|p [|q l]]; [by destruct (sps_bits s) eqn:E| |eauto];
      apply (f_equal zlen) in Hbits; rewrite length_bits_of in Hbits; unfold sps_bits in Hbits;
      rewrite !zlen_app, !length_ubits in Hbits; len. }
  destruct (de_emulation_inverts_spec p q l post Hb Hn) as (t & Ht & E).
  { change (escape 0 (p :: q :: l)) with e. lia. }
  unfold h264_decode_sps. change (escape 0 (p :: q :: l)) with e in E. step E.
  pose proof (zlen_escape (p :: q :: l) 0) as Hle. change (escape 0 _) with e in Hle.
  assert (is_bytes ((p :: q :: l) ++ t ++ post)) as Hall
    by (apply Forall_app_2; [done|by apply Forall_app_2]).
  pose proof (sps_fields_reads _ (zlen (p :: q :: l)) Hall ltac:(len) ltac:(lia) s w h fps Hs) as H.
  rewrite (reads_start _ _ _ _ _ tail H); [by eexists|].
  unfold zlen. by rewrite Nat2Z.id, take_app_length.
Qed.


(** With field coding or cropping the size is not that of the video: the code gives the
    macroblocks of a field, or of the frame before it is cropped. *)
Theorem h264_decode_sps_whole_macroblocks s unit tail w h fps :
  sps_ok s → is_bytes unit → no_zero3 unit = true → bits_of unit = sps_bits s ++ tail →
  zlen (escape 0 unit) < 2 ^ 28 →
  video_width s ≠ (s_width s + 1) * 16 ∨ video_height s ≠ (s_height s + 1) * 16 →
  ∃ out data, h264_decode_sps (escape 0 unit) (zlen (escape 0 unit)) (w, h, fps) = Ok ((true, out), data)
    ∧ out = macroblocks s fps ∧ out ≠ sps_out s fps.
Proof.
  intros Hs Hb Hn Hbits He Hne.
  destruct (h264_decode_sps_spec s unit tail [] w h fps) as [data E]; try done; [constructor|].
  rewrite app_nil_r in E. exists (macroblocks s fps), data. split; [exact E|]. split; [done|].
  unfold macroblocks, sps_out. intros [= H1 H2]. destruct Hne; congruence.
Qed.

(** The header of a unit. *)
Lemma header_bits b :
  0 <= b < 256 → byte_bits b = ubits 1 (b / 128) ++ ubits 2 (b / 32 mod 4) ++ ubits 5 (b mod 32).
Proof. revert b. by_table. Qed.

Lemma strip_bytes l : ∀ p q, is_bytes l → is_bytes (strip p q l).
Proof.
  induction l as [l IH] using (well_founded_induction (well_founded_ltof _ length)).
  intros p q Hb. destruct l as [|b l]; [done|]. apply Forall_cons in Hb as [Hb0 Hb]. cbn [strip].
  case_match; [|constructor; [done|apply IH; [unfold ltof; simpl; lia|done]]].
  destruct l as [|b' l]; [done|]. apply Forall_cons in Hb as [Hb1 Hb].
  constructor; [done|]. apply IH; [unfold ltof; simpl; lia|done].
Qed.

(** Anything but a parameter set is refused, and the outputs stay. *)
Theorem h264_decode_sps_other b c l w h fps :
  is_bytes (b :: c :: l) → b mod 32 ≠ 7 → zlen (b :: c :: l) < 2 ^ 28 →
  ∃ data, h264_decode_sps (b :: c :: l) (zlen (b :: c :: l)) (w, h, fps)
    = Ok ((false, (w, h, fps)), data).
Proof.
  intros Hb Hne Hlen. apply Forall_cons in Hb as [Hb0 Hb]. apply Forall_cons in Hb as [Hc Hb].
  destruct (de_emulation_prevention_spec b c l []) as (t & Ht & E); try done; [lia|].
  unfold h264_decode_sps. rewrite !app_nil_r in E. step E. unfold is_byte in Hb0.
  pose proof (length_strip l b c) as Hl.
  assert (zlen (b :: c :: strip b c l) <= zlen (b :: c :: l)) as Hle by (unfold zlen; simpl; lia).
  assert (is_bytes (b :: c :: strip b c l ++ t)) as Hall.
  { constructor; [done|]. constructor; [done|]. apply Forall_app_2; [by apply strip_bytes|done]. }
  pose proof (sps_fields_other _ (zlen (b :: c :: strip b c l)) Hall ltac:(len) ltac:(lia)
    (b / 128) (b / 32 mod 4) (b mod 32) (w, h, fps) ltac:(Z.div_mod_to_equations; lia)
    ltac:(Z.div_mod_to_equations; lia) ltac:(Z.div_mod_to_equations; lia) Hne) as H.
  pose proof (header_bits b Hb0) as Hbits.
  rewrite (reads_start _ _ _ _ _ (bits_of (c :: strip b c l)) H); [by eexists|].
  unfold zlen. rewrite Nat2Z.id.
  change (b :: c :: strip b c l ++ t) with ((b :: c :: strip b c l) ++ t).
  rewrite take_app_length. unfold bits_of. rewrite bind_cons, Hbits. by rewrite <- !app_assoc.
Qed.

(** A unit of less than two bytes: the bound [tmp_buf_size - 2] wraps around. *)
Theorem h264_decode_sps_short data out :
  zlen data < 2 → h264_decode_sps data (zlen data) out = Fault.
Proof. destruct data as [|b [|c data]]; [done..|]. len. Qed.

(** The Exp-Golomb readers invert the codes, wherever they stand in the buffer. *)
Theorem exp_golomb_roundtrip data size pre post v x :
  is_bytes data → 0 <= size <= zlen data → size < 2 ^ 28 → ue_ok v → se_ok x →
  (bits_of (take (Z.to_nat size) data) = pre ++ ue_bits v ++ post →
   Ue data size (zlen pre) = Ok (v, zlen (pre ++ ue_bits v)))
  ∧ (bits_of (take (Z.to_nat size) data) = pre ++ se_bits x ++ post →
   Se data size (zlen pre) = Ok (x, zlen (pre ++ se_bits x))).
Proof.
  intros Hb Hs Hlt Hv Hx. split; intros E.
  - by apply (Ue_reads data size Hb Hs Hlt v Hv) with (post := post).
  - by apply (Se_reads data size Hb Hs Hlt x Hx) with (post := post).
Qed.

(** ** Witnesses *)

(** 1280 x 720 at 25 frames per second, High profile. *)
Definition sample_sps : sps := {|
  s_header := 3; s_profile := 100; s_constraints := [0; 0; 0; 0]; s_reserved := 0;
  s_level := 31; s_id := 0; s_chroma := mkChroma 1 0 0 0 0 false; s_log2_frame_num := 0;
  s_poc := poc_lsb 2; s_ref_frames := 4; s_gaps := 0; s_width := 79; s_height := 44;
  s_mbs_only := 1; s_adaptive := 0; s_direct := 1; s_crop := None;
  s_vui := Some (mkVui (Some (1, None)) None (Some (5, 1, Some (1, 1, 1))) None (Some (1, 50)));
|}.

Definition sample_unit : list Z :=
  [103; 100; 0; 31; 172; 217; 64; 80; 5; 187; 1; 110; 2; 2; 2; 128; 0; 0; 0; 128; 0; 0; 25; 64].

Lemma sample_sps_ok : sps_ok sample_sps.
Proof.
  unfold sps_ok, sample_sps; cbn. unfold chroma_ok, vui_ok, u_ok, ue_ok; cbn.
  repeat match goal with
  | |- _ ∧ _ => split
  | |- Forall _ _ => repeat constructor
  | |- True => exact I
  | |- _ ↔ _ => split; [done|by intros []]
  end; try lia. by apply (bool_decide_unpack _).
Qed.


(** Bits as bytes, the last one filled with zeros. *)
Definition bits_value (l : list bool) : Z := foldl (λ v b, 2 * v + Z.b2z b) 0 l.

Fixpoint bytes_of_bits_fuel (fuel : nat) (l : list bool) : list Z :=
  match fuel, l with
  | S fuel, _ :: _ => bits_value (take 8 (l ++ replicate 7 false)) :: bytes_of_bits_fuel fuel (drop 8 l)
  | _, _ => []
  end.

Definition bytes_of_bits (l : list bool) : list Z := bytes_of_bits_fuel (length l) l.

(** 1920 x 1080: eight of the 1088 lines are cropped. *)
Definition cropped_sps : sps := {|
  s_header := 3; s_profile := 66; s_constraints := [0; 0; 0; 0]; s_reserved := 0;
  s_level := 40; s_id := 0; s_chroma := mkChroma 1 0 0 0 0 false; s_log2_frame_num := 0;
  s_poc := poc_output; s_ref_frames := 1; s_gaps := 0; s_width := 119; s_height := 67;
  s_mbs_only := 1; s_adaptive := 0; s_direct := 1; s_crop := Some [0; 0; 0; 4]; s_vui := None;
|}.

Definition cropped_unit : list Z := bytes_of_bits (sps_bits cropped_sps ++ [true]).

Lemma cropped_sps_ok : sps_ok cropped_sps.
Proof.
  unfold sps_ok, cropped_sps; cbn. unfold chroma_ok, u_ok, ue_ok; cbn.
  repeat match goal with
  | |- _ ∧ _ => split
  | |- Forall _ _ => repeat constructor
  | |- True => exact I
  end; try lia. by apply (bool_decide_unpack _).
Qed.

Lemma h264_decode_sps_whole_macroblocks_witness : ∃ out data,
  h264_decode_sps (escape 0 cropped_unit) (zlen (escape 0 cropped_unit)) (0, 0, 25) = Ok ((true, out), data)
  ∧ out = (1920, 1088, 25) ∧ out ≠ (1920, 1080, 25).
Proof.
  apply (h264_decode_sps_whole_macroblocks cropped_sps cropped_unit
           (drop (length (sps_bits cropped_sps)) (bits_of cropped_unit)) 0 0 25).
  - apply cropped_sps_ok.
  - by apply (bool_decide_unpack _); vm_compute.
  - reflexivity.
  - vm_compute. reflexivity.
  - reflexivity.
  - right. by vm_compute.
Defined.

Lemma h264_decode_sps_other_witness :
  ∃ data, h264_decode_sps [104; 206; 6] 3 (1, 2, 3) = Ok ((false, (1, 2, 3)), data).
Proof.
  apply (h264_decode_sps_other 104 206 [6] 1 2 3);
    [by apply (bool_decide_unpack _); vm_compute|by vm_compute|reflexivity].
Defined.

Lemma h264_decode_sps_short_witness : h264_decode_sps [103] 1 (0, 0, 0) = Fault.
Proof. by apply (h264_decode_sps_short [103] (0, 0, 0)). Defined.


(** The bits of 41, 128: 00101, then 00110. *)
Lemma exp_golomb_roundtrip_witness :
  Ue [41; 128] 2 0 = Ok (4, 5) ∧ Se [49; 128] 2 0 = Ok (3, 5).
Proof.
  split.
  - apply (exp_golomb_roundtrip [41; 128] 2 [] (drop 5 (bits_of [41; 128])) 4 3);
      [by apply (bool_decide_unpack _); vm_compute|unfold zlen; simpl; lia|lia|unfold ue_ok; lia
      |unfold se_ok; lia|reflexivity].
  - apply (exp_golomb_roundtrip [49; 128] 2 [] (drop 5 (bits_of [49; 128])) 4 3);
      [by apply (bool_decide_unpack _); vm_compute|unfold zlen; simpl; lia|lia|unfold ue_ok; lia
      |unfold se_ok; lia|reflexivity].
Defined.
