(* ===== verification/RTPH264FrameAssembler.v ===== *)
(** * RTPH264FrameAssembler: H.264 frames from RTP packets

    Models [src/rtp/rtp_h264_frame_assembler.h] and [.cpp].  The state keeps the
    bytes [m_buffer\[0 .. m_buffer_used_len)]: the allocation behind it has
    [ASSEMBLER_BUFFER_SIZE] bytes and a copy past its end is a fault. *)

From S2P Require Import Prelude.
From S2P Require Import RTPPacket.

Definition ASSEMBLER_BUFFER_SIZE : Z := 1024 * 256.

Definition START_CODE : list Z := [0; 0; 0; 1].
Definition SHORT_START_CODE : list Z := [0; 0; 1].

Record RTPH264FrameAssembler := mkRTPH264FrameAssembler {
  m_initialize : bool;
  m_frame : list Z;
}.

(** The constructor. *)
Definition new_assembler : RTPH264FrameAssembler :=
  {| m_initialize := false; m_frame := [] |}.

(** [initialize]: the allocation is assumed to succeed ([new] throws
    otherwise). *)
Definition initialize (this : RTPH264FrameAssembler) : bool * RTPH264FrameAssembler :=
  if m_initialize this then (true, this)
  else (true, {| m_initialize := true; m_frame := m_frame this |}).

Definition set_frame (this : RTPH264FrameAssembler) (f : list Z) : RTPH264FrameAssembler :=
  {| m_initialize := m_initialize this; m_frame := f |}.

(** [memcpy(m_buffer + m_buffer_used_len, bs, n); m_buffer_used_len += n]. *)
Definition append (this : RTPH264FrameAssembler) (bs : list Z) : outcome RTPH264FrameAssembler :=
  if zlen (m_frame this) + zlen bs <=? ASSEMBLER_BUFFER_SIZE
  then Ok (set_frame this (m_frame this ++ bs)) else Fault.

(** [p[0] == 0x65 || ((p[0] == 0x61 || p[0] == 0x41) && ((p[1] & 0x80) == 0x0))] *)
Definition use_short_code (mem : list Z) (p : Z) : outcome bool :=
  b0 ← rd mem p;
  if b0 =? 101 then Ok true
  else if (b0 =? 97) || (b0 =? 65) then b1 ← rd mem (p + 1); Ok (Z.land b1 128 =? 0)
  else Ok false.

(** The loop of [get_stapa_frame]. *)
Fixpoint stapa_loop (fuel : nat) (this : RTPH264FrameAssembler) (mem : list Z)
    (src srcLen : Z) : outcome (bool * RTPH264FrameAssembler) :=
  match fuel with
  | O => Hang
  | S fuel =>
      if 2 <? srcLen then
        nalSize ← rd_be16 mem src;
        let src := src + 2 in
        let srcLen := srcLen - 2 in
        if nalSize <=? srcLen then
          short ← use_short_code mem src;
          this ← append this (if (short : bool) then SHORT_START_CODE else START_CODE);
          bs ← rd_range mem src nalSize;
          this ← append this bs;
          stapa_loop fuel this mem (src + nalSize) (srcLen - nalSize)
        else Ok (false, set_frame this [])
      else Ok (true, this)
  end.

Definition get_stapa_frame (this : RTPH264FrameAssembler) (mem : list Z) (data len : Z)
    : outcome (bool * RTPH264FrameAssembler) :=
  let srcLen := i32 len in
  r ← stapa_loop (S (Z.to_nat srcLen)) (set_frame this []) mem data srcLen;
  match r with
  | (true, this) =>
      if ASSEMBLER_BUFFER_SIZE <? zlen (m_frame this) then Ok (false, set_frame this [])
      else Ok (true, this)
  | (false, this) => Ok (false, this)
  end.

Definition get_fua_frame (this : RTPH264FrameAssembler) (mem : list Z) (data len : Z)
    : outcome (bool * RTPH264FrameAssembler) :=
  if (len <? 3) || (ASSEMBLER_BUFFER_SIZE <? len) then Ok (false, set_frame this []) else
  fuIndicator ← rd mem data;
  fuHeader ← rd mem (data + 1);
  let startbit := Z.shiftr fuHeader 7 in
  let endbit := Z.land fuHeader 64 in
  let nalType := Z.land fuHeader 31 in
  let nal := Z.lor (Z.land fuIndicator 224) nalType in
  let data := data + 2 in
  let len := len - 2 in
  if negb (startbit =? 0) then
    short ← use_short_code mem data;
    bs ← rd_range mem data len;
    this ← append (set_frame this [])
             ((if (short : bool) then SHORT_START_CODE else START_CODE) ++ nal :: bs);
    Ok (false, this)
  else if negb (endbit =? 0) then
    bs ← rd_range mem data len;
    this ← append this bs;
    Ok (true, this)
  else
    bs ← rd_range mem data len;
    this ← append this bs;
    Ok (false, this).

Definition push_packet (this : RTPH264FrameAssembler) (packet : RTPPacket)
    : outcome (bool * RTPH264FrameAssembler) :=
  if negb (m_initialize this) then Ok (false, this) else
  let payloadLen := get_payload_length packet in
  if payloadLen =? 0 then Ok (false, this) else
  match get_packet packet, get_payload packet with
  | Some mem, Some payload =>
      nal ← rd mem payload;
      let type := Z.land nal 31 in
      let type := if (1 <=? type) && (type <=? 23) then 1 else type in
      if (type =? 0) || (type =? 1) then
        short ← use_short_code mem payload;
        let code := if (short : bool) then SHORT_START_CODE else START_CODE in
        if ASSEMBLER_BUFFER_SIZE <? u64 (payloadLen + zlen code) then Ok (false, set_frame this [])
        else
          bs ← rd_range mem payload payloadLen;
          this ← append (set_frame this []) (code ++ bs);
          Ok (true, this)
      else if type =? 24 then get_stapa_frame this mem (payload + 1) (payloadLen - 1)
      else if type =? 28 then get_fua_frame this mem payload payloadLen
      else Ok (false, this)
  | _, _ => Fault
  end.

Definition get_frame_data (this : RTPH264FrameAssembler) : list Z := m_frame this.
Definition get_frame_length (this : RTPH264FrameAssembler) : Z := zlen (m_frame this).

(** ** Specification of the packet payloads *)

(** The start code the assembler puts before a unit, from its first two bytes. *)
Definition short_code (n : list Z) : bool :=
  match n with
  | [] => false
  | b0 :: n => (b0 =? 101) || (((b0 =? 97) || (b0 =? 65))
                 && match n with [] => false | b1 :: _ => Z.land b1 128 =? 0 end)
  end.

Definition code_of (n : list Z) : list Z :=
  if short_code n then SHORT_START_CODE else START_CODE.

(** A unit the assembler can classify: a second byte is there when it looks. *)
Definition classifiable (n : list Z) : Prop :=
  match n with
  | [] => False
  | [b] => b ≠ 97 ∧ b ≠ 65
  | _ => True
  end.

#[global] Instance classifiable_dec n : Decision (classifiable n).
Proof. destruct n as [|b [|]]; simpl; apply _. Defined.

(** The payload of a STAP-A packet: [0x18], then each unit behind its size. *)
Definition stapa_units (ns : list (list Z)) : list Z :=
  ns ≫= λ n, be16_bytes (zlen n) ++ n.

Definition stapa_payload (ns : list (list Z)) : list Z := 24 :: stapa_units ns.

(** What the assembler produces for the aggregated units. *)
Definition stapa_frame (ns : list (list Z)) : list Z := ns ≫= λ n, code_of n ++ n.

(** The payload of a FU-A packet: indicator, header (start and end bits), the
    fragment. *)
Definition fua_payload (nal : Z) (s e : bool) (frag : list Z) : list Z :=
  Z.lor (Z.land nal 224) 28
  :: Z.lor (if s then 128 else if e then 64 else 0) (Z.land nal 31) :: frag.

(** A packet whose payload is [bs]; [pre] and [post] are the bytes of the packet
    before and after it. *)
Definition carries (packet : RTPPacket) (bs : list Z) : Prop :=
  ∃ pre post, get_packet packet = Some (pre ++ bs ++ post)
  ∧ get_payload packet = Some (zlen pre) ∧ get_payload_length packet = zlen bs.

(** The payloads the assembler can read, by their bytes.  It looks at the second byte
    of a unit that starts with 97 or 65, so such a byte is not the last one. *)
Fixpoint units_safe (fuel : nat) (l : list Z) : bool :=
  match fuel, l with
  | S fuel, a :: b :: ((_ :: _) as u) =>
      if a * 256 + b <=? zlen u then
        bool_decide (classifiable u) && units_safe fuel (drop (Z.to_nat (a * 256 + b)) u)
      else true
  | _, _ => true
  end.

Definition payload_safe (l : list Z) : bool :=
  match l with
  | [] => true
  | b :: rest =>
      if Z.land b 31 <=? 23 then bool_decide (classifiable l)
      else if Z.land b 31 =? 24 then units_safe (length rest) rest
      else if Z.land b 31 =? 28 then
        match rest with
        | h :: ((_ :: _) as f) => (Z.shiftr h 7 =? 0) || bool_decide (classifiable f)
        | _ => true
        end
      else true
  end.

(** Pushing packets in a row: the frames that are completed, and the state. *)
Fixpoint push_packets (this : RTPH264FrameAssembler) (packets : list RTPPacket)
    : outcome (list (list Z) * RTPH264FrameAssembler) :=
  match packets with
  | [] => Ok ([], this)
  | packet :: packets =>
      r ← push_packet this packet;
      let '(complete, this) := r in
      rest ← push_packets this packets;
      let '(frames, last) := rest in
      Ok (if (complete : bool) then (get_frame_data this :: frames, last) else (frames, last))
  end.

(** ** Helper lemmas *)

Lemma zlen_code_of n : 3 <= zlen (code_of n) <= 4.
Proof. unfold code_of. destruct (short_code n); unfold zlen; simpl; lia. Qed.

Lemma append_ok this bs :
  zlen (m_frame this) + zlen bs <= ASSEMBLER_BUFFER_SIZE →
  append this bs = Ok (set_frame this (m_frame this ++ bs)).
Proof. intros. unfold append. by dec_if. Qed.

(** The test on a unit that sits in memory. *)
Lemma use_short_code_unit pre n post :
  classifiable n → use_short_code (pre ++ n ++ post) (zlen pre) = Ok (short_code n).
Proof.
  destruct n as [|b0 n]; [done|]. intros Hc. unfold use_short_code.
  assert (R0 : rd (pre ++ (b0 :: n) ++ post) (zlen pre) = Ok b0).
  { rewrite (rd_app_r pre) by lia. by rewrite Z.sub_diag. }
  step R0. unfold short_code. destruct (b0 =? 101) eqn:E; [done|].
  destruct n as [|b1 n].
  - simpl in Hc. destruct Hc. rewrite !(proj2 (Z.eqb_neq b0 _)) by done. done.
  - assert (R1 : rd (pre ++ (b0 :: b1 :: n) ++ post) (zlen pre + 1) = Ok b1)
      by by rewrite rd_app_r0 by lia.
    destruct ((b0 =? 97) || (b0 =? 65)); [by step R1|done].
Qed.

Lemma use_short_code_total mem p :
  0 <= p → p + 1 < zlen mem → ∃ b, use_short_code mem p = Ok b.
Proof.
  intros Hp Hl. unfold use_short_code.
  destruct (rd_in_range mem p) as (b0 & R0 & _); [lia|]. step R0.
  destruct (rd_in_range mem (p + 1)) as (b1 & R1 & _); [lia|].
  destruct (b0 =? 101); [by eexists|]. destruct (_ || _); [|by eexists].
  step R1. by eexists.
Qed.

Lemma code_if n : (if short_code n then SHORT_START_CODE else START_CODE) = code_of n.
Proof. done. Qed.

Lemma set_frame_twice this f g : set_frame (set_frame this f) g = set_frame this g.
Proof. done. Qed.

Lemma rd_unit0 pre b n post : rd (pre ++ (b :: n) ++ post) (zlen pre) = Ok b.
Proof. rewrite (rd_app_r pre) by lia. by rewrite Z.sub_diag. Qed.

Lemma rd_unit1 pre b c n post : rd (pre ++ (b :: c :: n) ++ post) (zlen pre + 1) = Ok c.
Proof. by rewrite rd_app_r0 by lia. Qed.

(** ** Single NAL unit packets *)

Lemma push_packet_single_spec this packet b n :
  m_initialize this = true → carries packet (b :: n) → classifiable (b :: n) →
  Z.land b 31 <= 23 → 0 <= Z.land b 31 →
  zlen (b :: n) + 4 <= ASSEMBLER_BUFFER_SIZE →
  push_packet this packet = Ok (true, set_frame this (code_of (b :: n) ++ b :: n)).
Proof.
  intros Hi (pre & post & Hm & Hp & Hl) Hc Ht Ht0 Hsz. unfold push_packet.
  rewrite Hi, Hm, Hp, Hl. simpl negb. cbv iota.
  rewrite (proj2 (Z.eqb_neq (zlen (b :: n)) 0)) by len. step (rd_unit0 pre b n post).
  set (t := if (1 <=? Z.land b 31) && (Z.land b 31 <=? 23) then 1 else Z.land b 31).
  assert (Hty : (t =? 0) || (t =? 1) = true).
  { unfold t. destruct (Z.leb_spec 1 (Z.land b 31)); simpl; [by dec_if|].
    by replace (Z.land b 31) with 0 by lia. }
  rewrite Hty. step (use_short_code_unit pre (b :: n) post Hc).
  rewrite code_if. pose proof (zlen_code_of (b :: n)).
  rewrite u64_id by (unfold ASSEMBLER_BUFFER_SIZE in *; len). dec_if.
  step (rd_range_app pre (b :: n) post). rewrite append_ok; [done|].
  simpl. change (zlen (@nil Z)) with 0. len.
Qed.

(** A packet that carries one NAL unit completes the frame [start code ++ unit],
    whatever was in the buffer. *)
Theorem push_packet_single this packet b n :
  m_initialize this = true → carries packet (b :: n) → classifiable (b :: n) →
  Z.land b 31 <= 23 → 0 <= Z.land b 31 →
  zlen (b :: n) + 4 <= ASSEMBLER_BUFFER_SIZE →
  push_packet this packet = Ok (true, set_frame this (code_of (b :: n) ++ b :: n)).
Proof. by apply push_packet_single_spec. Qed.

(** ** STAP-A packets *)

Definition stapa_unit_ok (n : list Z) : Prop := classifiable n ∧ zlen n < 65536.

#[global] Instance stapa_unit_ok_dec n : Decision (stapa_unit_ok n).
Proof. unfold stapa_unit_ok; apply _. Defined.

Lemma stapa_frame_len ns : zlen (stapa_frame ns) <= zlen (stapa_units ns) + 2 * zlen ns.
Proof.
  induction ns as [|n ns IH]; [done|]. unfold stapa_frame, stapa_units in *.
  rewrite !bind_cons. pose proof (zlen_code_of n). len.
Qed.

(** The loop copies the units it finds, then goes on with what is behind them. *)
Lemma stapa_loop_units fuel this ns pre rest srcLen :
  Forall stapa_unit_ok ns →
  zlen (m_frame this) + zlen (stapa_frame ns) <= ASSEMBLER_BUFFER_SIZE →
  zlen (stapa_units ns) <= srcLen →
  stapa_loop (length ns + fuel) this (pre ++ stapa_units ns ++ rest) (zlen pre) srcLen
  = stapa_loop fuel (set_frame this (m_frame this ++ stapa_frame ns))
      (pre ++ stapa_units ns ++ rest) (zlen pre + zlen (stapa_units ns))
      (srcLen - zlen (stapa_units ns)).
Proof.
  intros Hok. revert this pre srcLen.
  induction Hok as [|n ns [Hc Hn] _ IH]; intros this pre srcLen Hsz Hlen.
  - simpl. change (zlen (@nil Z)) with 0. rewrite app_nil_r, Z.add_0_r, Z.sub_0_r.
    by destruct this.
  - change (stapa_units (n :: ns)) with ((be16_bytes (zlen n) ++ n) ++ stapa_units ns) in *.
    change (stapa_frame (n :: ns)) with ((code_of n ++ n) ++ stapa_frame ns) in *.
    rewrite <- !app_assoc. cbn [length Nat.add stapa_loop].
    assert (Hpos : 0 < zlen n) by (destruct n; [done|len]).
    autorewrite with rtc_len in Hsz, Hlen. pose proof (zlen_nonneg (stapa_units ns)). dec_if.
    step (be16_at pre (zlen n) _ (zlen pre) eq_refl) by lia. dec_if.
    assert (E : zlen pre + 2 = zlen (pre ++ be16_bytes (zlen n))) by len.
    rewrite E, app_assoc. step (use_short_code_unit (pre ++ be16_bytes (zlen n)) n _ Hc).
    rewrite code_if. pose proof (zlen_nonneg (stapa_frame ns)). step append_ok by len.
    step (rd_range_app (pre ++ be16_bytes (zlen n)) n _).
    step append_ok by (cbn [set_frame m_frame]; len). rewrite set_frame_twice.
    cbn [set_frame m_frame].
    replace (zlen (pre ++ be16_bytes (zlen n)) + zlen n)
      with (zlen ((pre ++ be16_bytes (zlen n)) ++ n)) by len.
    rewrite app_assoc. rewrite IH; cbn [set_frame m_frame]; [|len..].
    unfold set_frame. cbn. f_equal; [by rewrite <- !app_assoc|len|len].
Qed.

Lemma push_packet_stapa_spec this packet ns :
  m_initialize this = true → carries packet (stapa_payload ns) → Forall stapa_unit_ok ns →
  zlen (stapa_payload ns) < 2 ^ 31 → zlen (stapa_frame ns) <= ASSEMBLER_BUFFER_SIZE →
  push_packet this packet = Ok (true, set_frame this (stapa_frame ns)).
Proof.
  intros Hi (pre & post & Hm & Hp & Hl) Hok H31 Hsz. unfold push_packet.
  rewrite Hi, Hm, Hp, Hl. unfold stapa_payload in *. simpl negb. cbv iota.
  rewrite (proj2 (Z.eqb_neq (zlen (24 :: stapa_units ns)) 0)) by len.
  step (rd_unit0 pre 24 (stapa_units ns) post). change (Z.land 24 31) with 24. cbn [Z.leb Z.eqb andb orb Z.compare Pos.compare Pos.compare_cont Pos.eqb].
  unfold get_stapa_frame. rewrite zlen_cons in *.
  rewrite i32_id by len.
  replace (1 + zlen (stapa_units ns) - 1) with (zlen (stapa_units ns)) by lia.
  assert (Hn : zlen ns <= zlen (stapa_units ns)).
  { clear. induction ns as [|n ns IH]; [done|]. unfold stapa_units in *. rewrite bind_cons. len. }
  set (extra := (Z.to_nat (zlen (stapa_units ns)) - length ns)%nat).
  replace (S (Z.to_nat (zlen (stapa_units ns)))) with (length ns + S extra)%nat
    by (unfold extra, zlen in *; lia).
  assert (EM : pre ++ (24 :: stapa_units ns) ++ post = (pre ++ [24]) ++ stapa_units ns ++ post)
    by by rewrite <- app_assoc.
  rewrite EM. replace (zlen pre + 1) with (zlen (pre ++ [24])) by (autorewrite with rtc_len; done).
  rewrite (stapa_loop_units (S extra) _ ns) by (done || (cbn; unfold zlen at 1; simpl; lia)).
  cbn [stapa_loop]. dec_if. step_bind. cbn [set_frame m_frame app]. by dec_if.
Qed.

(** A STAP-A packet completes the frame of all its units, in order, each behind a
    start code. *)
Theorem push_packet_stapa this packet ns :
  m_initialize this = true → carries packet (stapa_payload ns) → Forall stapa_unit_ok ns →
  zlen (stapa_payload ns) < 2 ^ 31 → zlen (stapa_frame ns) <= ASSEMBLER_BUFFER_SIZE →
  push_packet this packet = Ok (true, set_frame this (stapa_frame ns)).
Proof. by apply push_packet_stapa_spec. Qed.

(** A STAP-A packet whose last unit is cut short is rejected and the units before
    it are dropped. *)
Theorem push_packet_stapa_truncated this packet ns size bs :
  m_initialize this = true →
  carries packet (stapa_payload ns ++ be16_bytes size ++ bs) → Forall stapa_unit_ok ns →
  0 < zlen bs < size → size < 65536 →
  zlen (stapa_payload ns ++ be16_bytes size ++ bs) < 2 ^ 31 →
  zlen (stapa_frame ns) <= ASSEMBLER_BUFFER_SIZE →
  push_packet this packet = Ok (false, set_frame this []).
Proof.
  intros Hi (pre & post & Hm & Hp & Hl) Hok Hbs Hsz H31 Hfr. unfold push_packet.
  rewrite Hi, Hm, Hp, Hl. unfold stapa_payload in *. simpl negb. cbv iota.
  set (pl := (24 :: stapa_units ns) ++ be16_bytes size ++ bs) in *.
  assert (Hpl : zlen pl = 3 + zlen (stapa_units ns) + zlen bs) by (unfold pl; len).
  pose proof (zlen_nonneg (stapa_units ns)).
  rewrite (proj2 (Z.eqb_neq (zlen pl) 0)) by lia.
  assert (R0 : rd (pre ++ pl ++ post) (zlen pre) = Ok 24) by apply rd_unit0. step R0.
  change (Z.land 24 31) with 24. cbn [Z.leb Z.eqb andb orb Z.compare Pos.compare Pos.compare_cont Pos.eqb].
  unfold get_stapa_frame. rewrite i32_id by lia.
  assert (Hn : zlen ns <= zlen (stapa_units ns)).
  { clear. induction ns as [|n ns IH]; [done|]. unfold stapa_units in *. rewrite bind_cons. len. }
  set (extra := (Z.to_nat (zlen pl - 1) - length ns)%nat).
  replace (S (Z.to_nat (zlen pl - 1))) with (length ns + S extra)%nat
    by (unfold extra, zlen in *; lia).
  assert (EM : pre ++ pl ++ post
               = (pre ++ [24]) ++ stapa_units ns ++ (be16_bytes size ++ bs ++ post))
    by (unfold pl; by rewrite <- !app_assoc).
  rewrite EM. replace (zlen pre + 1) with (zlen (pre ++ [24])) by (autorewrite with rtc_len; done).
  rewrite (stapa_loop_units (S extra) _ ns) by (done || lia || (cbn; change (zlen (@nil Z)) with 0; lia)).
  cbn [stapa_loop]. rewrite Hpl. dec_if. rewrite app_assoc.
  step (be16_at ((pre ++ [24]) ++ stapa_units ns) size (bs ++ post)) by len.
  dec_if. done.
Qed.

(** ** FU-A packets *)

Definition fua_header (nal : Z) (s e : bool) : Z :=
  Z.lor (if s then 128 else if e then 64 else 0) (Z.land nal 31).

Lemma fua_fields nal s e :
  is_byte nal →
  Z.land (Z.lor (Z.land nal 224) 28) 31 = 28 ∧
  Z.land (Z.lor (Z.land nal 224) 28) 224 = Z.land nal 224 ∧
  Z.shiftr (fua_header nal s e) 7 = (if s then 1 else 0) ∧
  Z.land (fua_header nal s e) 64 = (if s then 0 else if e then 64 else 0) ∧
  Z.land (fua_header nal s e) 31 = Z.land nal 31 ∧
  Z.lor (Z.land nal 224) (Z.land nal 31) = nal.
Proof.
  revert nal. unfold is_byte. destruct s, e; by_table.
Qed.

Lemma push_packet_fua this packet nal s e frag :
  m_initialize this = true → is_byte nal → carries packet (fua_payload nal s e frag) →
  frag ≠ [] → (s = true → classifiable frag) →
  zlen frag + 5 <= ASSEMBLER_BUFFER_SIZE →
  zlen (if s then [] else m_frame this) + zlen frag <= ASSEMBLER_BUFFER_SIZE →
  push_packet this packet =
    Ok (if s then (false, set_frame this (code_of frag ++ nal :: frag))
        else (e, set_frame this (m_frame this ++ frag))).
Proof.
  intros Hi Hnal (pre & post & Hm & Hp & Hl) Hne Hc Hsz Hroom. unfold push_packet.
  rewrite Hi, Hm, Hp, Hl. simpl negb. cbv iota.
  destruct (fua_fields nal s e Hnal) as (F1 & F2 & F3 & F4 & F5 & F6).
  unfold fua_payload in *. set (ind := Z.lor (Z.land nal 224) 28) in *.
  fold (fua_header nal s e) in *. set (hdr := fua_header nal s e) in *.
  assert (Hpos : 0 < zlen frag) by (destruct frag; [done|len]).
  rewrite (proj2 (Z.eqb_neq (zlen (ind :: hdr :: frag)) 0)) by len.
  step (rd_unit0 pre ind (hdr :: frag) post). rewrite F1.
  cbn [Z.leb Z.eqb andb orb Z.compare Pos.compare Pos.compare_cont Pos.eqb].
  unfold get_fua_frame. rewrite !zlen_cons in *.
  rewrite (proj2 (Z.ltb_ge (1 + (1 + zlen frag)) 3)) by lia.
  rewrite (proj2 (Z.ltb_ge ASSEMBLER_BUFFER_SIZE (1 + (1 + zlen frag)))) by lia.
  simpl orb. cbv iota.
  step (rd_unit0 pre ind (hdr :: frag) post). step (rd_unit1 pre ind hdr frag post).
  rewrite F2, F3, F4, F5, F6. replace (1 + (1 + zlen frag) - 2) with (zlen frag) by lia.
  assert (EM : pre ++ (ind :: hdr :: frag) ++ post = (pre ++ [ind; hdr]) ++ frag ++ post)
    by by rewrite <- app_assoc.
  rewrite EM. replace (zlen pre + 2) with (zlen (pre ++ [ind; hdr])) by (autorewrite with rtc_len; lia).
  destruct s; simpl negb; cbv iota.
  - step (use_short_code_unit (pre ++ [ind; hdr]) frag post (Hc eq_refl)). rewrite code_if.
    step (rd_range_app (pre ++ [ind; hdr]) frag post). pose proof (zlen_code_of frag).
    by step append_ok by (cbn; change (zlen (@nil Z)) with 0; len).
  - destruct e; simpl negb; cbv iota; step (rd_range_app (pre ++ [ind; hdr]) frag post);
      by step append_ok by lia.
Qed.

(** The packets of the fragments [frags] behind the first one. *)
Definition fua_tail (nal : Z) (frags : list (list Z)) (packets : list RTPPacket) : Prop :=
  ∃ mids last, frags = mids ++ [last] ∧
    ∃ ps p, packets = ps ++ [p] ∧
      Forall2 (λ frag q, carries q (fua_payload nal false false frag)) mids ps ∧
      carries p (fua_payload nal false true last).

Lemma push_packets_app l k this :
  push_packets this (l ++ k) =
    (r ← push_packets this l; r' ← push_packets r.2 k; Ok (r.1 ++ r'.1, r'.2)).
Proof.
  revert this. induction l as [|q l IH]; intros this.
  - cbn [push_packets app]. cbn [mbind outcome_bind fst snd app]. by destruct (push_packets this k) as [[]| |].
  - cbn [push_packets app]. destruct (push_packet this q) as [[b this']| |]; [|done..].
    cbn [mbind outcome_bind fst snd app]. rewrite IH. destruct (push_packets this' l) as [[fs this'']| |]; [|done..].
    cbn [mbind outcome_bind fst snd app]. destruct b; cbn [mbind outcome_bind fst snd app]; destruct (push_packets this'' k) as [[]| |]; done.
Qed.

Lemma push_packets_mids this nal mids ps :
  m_initialize this = true → is_byte nal →
  Forall (λ frag, frag ≠ []) mids →
  Forall2 (λ frag q, carries q (fua_payload nal false false frag)) mids ps →
  zlen (m_frame this ++ concat mids) + 5 <= ASSEMBLER_BUFFER_SIZE →
  push_packets this ps = Ok ([], set_frame this (m_frame this ++ concat mids)).
Proof.
  intros Hi Hnal Hne Hps. revert this Hi.
  induction Hps as [|frag q mids ps Hq Hps IH]; intros this Hi Hsz.
  - simpl. rewrite app_nil_r. by destruct this.
  - inversion Hne as [|? ? Hf Hne']; subst. cbn [push_packets concat] in *.
    pose proof (zlen_nonneg (m_frame this)). pose proof (zlen_nonneg (concat mids)).
    autorewrite with rtc_len in Hsz.
    step (push_packet_fua this q nal false false frag) by (done || lia).
    rewrite IH by (done || (cbn [set_frame m_frame]; len)). step_bind.
    cbn [set_frame m_frame]. by rewrite app_assoc.
Qed.

(** Fragments pushed in order give back the unit, behind one start code (chosen by
    the bytes of the first fragment); nothing is completed before the last one. *)
Theorem push_packets_fua this nal first frags p0 packets :
  m_initialize this = true → is_byte nal → classifiable first →
  Forall (λ frag, frag ≠ []) frags →
  carries p0 (fua_payload nal true false first) → fua_tail nal frags packets →
  zlen (first ++ concat frags) + 10 <= ASSEMBLER_BUFFER_SIZE →
  let frame := code_of first ++ nal :: first ++ concat frags in
  push_packets this (p0 :: packets) = Ok ([frame], set_frame this frame).
Proof.
  intros Hi Hnal Hc Hne H0 (mids & last & -> & ps & p & -> & Hmids & Hlast) Hsz.
  cbn [push_packets]. pose proof (zlen_code_of first). rewrite concat_app in *. cbn [concat] in *.
  rewrite app_nil_r in *. apply Forall_app in Hne as [Hne Hl]. inversion Hl; subst.
  autorewrite with rtc_len in Hsz.
  pose proof (zlen_nonneg (concat mids)). pose proof (zlen_nonneg last).
  assert (first ≠ []) by by destruct first.
  step (push_packet_fua this p0 nal true false first)
    by (done || (cbn; change (zlen (@nil Z)) with 0; len)).
  rewrite push_packets_app.
  step (push_packets_mids (set_frame this (code_of first ++ nal :: first)) nal mids ps)
    by (done || (cbn [set_frame m_frame]; len)).
  cbn [push_packets fst snd app]. rewrite (push_packet_fua _ p nal false true last)
    by (done || (cbn [set_frame m_frame]; len)).
  unfold get_frame_data, set_frame; cbn. by rewrite <- !app_assoc.
Qed.

(** ** Memory safety *)

(** A packet as the receiver delivers it: at least two bytes of the receive buffer
    are behind the payload (the assembler may look at them). *)
Definition delivered (packet : RTPPacket) (mem : list Z) (p n : Z) : Prop :=
  get_packet packet = Some mem ∧ is_bytes mem ∧ get_payload packet = Some p ∧
  get_payload_length packet = n ∧ 0 <= p ∧ 0 <= n < 65536 ∧ p + n + 2 <= zlen mem.

Lemma append_bound this bs n :
  zlen bs <= n → zlen (m_frame this) + n <= ASSEMBLER_BUFFER_SIZE →
  ∃ this', append this bs = Ok this' ∧ zlen (m_frame this') = zlen (m_frame this) + zlen bs.
Proof. intros. rewrite append_ok by lia. eexists; split; [done|]. cbn. len. Qed.

Lemma rd_range_total mem p n :
  0 <= p → 0 <= n → p + n <= zlen mem → ∃ bs, rd_range mem p n = Ok bs ∧ zlen bs = n.
Proof.
  intros. rewrite rd_range_in by lia. eexists; split; [done|].
  apply zlen_take. rewrite zlen_drop; lia.
Qed.

Lemma code_len b : zlen (if (b : bool) then SHORT_START_CODE else START_CODE) <= 4.
Proof. by destruct b. Qed.

Lemma stapa_loop_safe fuel this mem src srcLen :
  is_bytes mem → 0 <= src → 0 <= srcLen → src + srcLen + 2 <= zlen mem →
  (Z.to_nat srcLen < fuel)%nat →
  zlen (m_frame this) + 2 * srcLen <= ASSEMBLER_BUFFER_SIZE →
  ∃ r this', stapa_loop fuel this mem src srcLen = Ok (r, this')
    ∧ zlen (m_frame this') <= ASSEMBLER_BUFFER_SIZE.
Proof.
  intros Hb. revert this src srcLen.
  induction fuel as [|fuel IH]; intros this src srcLen Hs Hl Hm Hf Hsz; [lia|].
  cbn [stapa_loop]. destruct (Z.ltb_spec 2 srcLen); [|do 2 eexists; split; [done|lia]].
  destruct (rd_be16_ok mem src) as (k & -> & Hk); [lia..|done|]. step_bind.
  destruct (Z.leb_spec k (srcLen - 2)).
  2:{ do 2 eexists; split; [done|]. cbn. unfold ASSEMBLER_BUFFER_SIZE. change (zlen (@nil Z)) with 0. lia. }
  destruct (use_short_code_total mem (src + 2)) as [c ->]; [lia..|]. step_bind.
  pose proof (code_len c).
  destruct (append_bound this (if c then SHORT_START_CODE else START_CODE) 4)
    as (this1 & -> & L1); [lia..|]. step_bind.
  destruct (rd_range_total mem (src + 2) k) as (bs & -> & Lb); [lia..|]. step_bind.
  destruct (append_bound this1 bs k) as (this2 & -> & L2); [lia..|]. step_bind.
  apply IH; lia.
Qed.

Lemma get_fua_frame_safe this mem p n :
  0 <= p → p + n + 2 <= zlen mem → zlen (m_frame this) + n + 3 <= ASSEMBLER_BUFFER_SIZE →
  ∃ r this', get_fua_frame this mem p n = Ok (r, this')
    ∧ zlen (m_frame this') <= ASSEMBLER_BUFFER_SIZE.
Proof.
  intros Hp Hm Hsz. unfold get_fua_frame. pose proof (zlen_nonneg (m_frame this)).
  destruct (Z.ltb_spec n 3); simpl orb; cbv iota.
  { do 2 eexists; split; [done|]. by cbn. }
  rewrite (proj2 (Z.ltb_ge ASSEMBLER_BUFFER_SIZE n)) by lia.
  destruct (rd_in_range mem p) as (b0 & -> & _); [lia|]. step_bind.
  destruct (rd_in_range mem (p + 1)) as (b1 & -> & _); [lia|]. step_bind.
  destruct (rd_range_total mem (p + 2) (n - 2)) as (bs & R & Lb); [lia..|].
  destruct (negb (Z.shiftr b1 7 =? 0)).
  - destruct (use_short_code_total mem (p + 2)) as [c ->]; [lia..|]. step_bind. step R.
    pose proof (code_len c).
    match goal with |- context [append ?t ?l] => destruct (append_bound t l (n + 3))
      as (this1 & -> & L1) end; [len|cbn; change (zlen (@nil Z)) with 0; lia|].
    do 2 eexists; split; [done|]. rewrite L1. cbn [set_frame m_frame].
    change (zlen (@nil Z)) with 0. len.
  - destruct (append_bound this bs (n - 2)) as (this1 & E & L1); [lia..|].
    destruct (negb (Z.land b1 64 =? 0)); step R; step E; do 2 eexists; (split; [done|lia]).
Qed.

(** Payloads that are safe by their bytes. *)

Lemma rd_be16_unit pre a b u post :
  rd_be16 (pre ++ (a :: b :: u) ++ post) (zlen pre) = Ok (a * 256 + b).
Proof. unfold rd_be16. step (rd_unit0 pre a (b :: u) post). by step (rd_unit1 pre a b u post). Qed.

Lemma stapa_loop_units_safe m fuel this pre l post :
  is_bytes l → units_safe m l = true → (length l <= m)%nat → (length l < fuel)%nat →
  zlen (m_frame this) + 2 * zlen l <= ASSEMBLER_BUFFER_SIZE →
  ∃ r this', stapa_loop fuel this (pre ++ l ++ post) (zlen pre) (zlen l) = Ok (r, this').
Proof.
  revert m this pre l. induction fuel as [|fuel IH]; intros m this pre l Hb Hs Hm Hf Hsz; [lia|].
  cbn [stapa_loop]. destruct (Z.ltb_spec 2 (zlen l)) as [H2|]; [|by do 2 eexists].
  destruct l as [|a [|b [|c u]]]; try by (unfold zlen in H2; cbn in H2; lia).
  destruct m as [|m]; [cbn in Hm; lia|]. step (rd_be16_unit pre a b (c :: u) post).
  cbn [units_safe] in Hs. set (w := c :: u) in *.
  apply Forall_cons in Hb as [Ha Hb]; apply Forall_cons in Hb as [Hb0 Hb].
  unfold is_byte in Ha, Hb0. rewrite !zlen_cons in *.
  replace (1 + (1 + zlen w) - 2) with (zlen w) by lia.
  destruct (Z.leb_spec (a * 256 + b) (zlen w)) as [Hn|]; [|by do 2 eexists].
  apply andb_prop in Hs as [Hc%bool_decide_eq_true Hs].
  assert (E : pre ++ (a :: b :: w) ++ post = (pre ++ [a; b]) ++ w ++ post) by by rewrite <- app_assoc.
  rewrite E. replace (zlen pre + 2) with (zlen (pre ++ [a; b])) by (autorewrite with rtc_len; lia).
  step (use_short_code_unit (pre ++ [a; b]) w post Hc). rewrite code_if.
  pose proof (zlen_code_of w). step append_ok by len.
  assert (Ew : take (Z.to_nat (a * 256 + b)) w ++ drop (Z.to_nat (a * 256 + b)) w = w) by apply take_drop.
  set (u1 := take (Z.to_nat (a * 256 + b)) w) in *. set (u2 := drop (Z.to_nat (a * 256 + b)) w) in *.
  assert (L1 : zlen u1 = a * 256 + b) by (apply zlen_take; lia).
  assert (L2 : zlen u2 = zlen w - (a * 256 + b)) by (apply zlen_drop; lia).
  assert (Em : w ++ post = u1 ++ u2 ++ post) by by rewrite app_assoc, Ew.
  rewrite Em, <- L1. step (rd_range_app (pre ++ [a; b]) u1 (u2 ++ post)).
  step append_ok by (cbn [set_frame m_frame]; len). rewrite (app_assoc (pre ++ [a; b]) u1).
  replace (zlen (pre ++ [a; b]) + zlen u1) with (zlen ((pre ++ [a; b]) ++ u1)) by len.
  replace (zlen w - zlen u1) with (zlen u2) by lia.
  assert (Hlen : (length u2 <= length w)%nat) by (unfold u2; rewrite length_drop; lia).
  apply (IH m); [by apply Forall_drop|done| | |cbn [set_frame m_frame]; len]; cbn in Hm, Hf, Hlen; lia.
Qed.

(** What the assembler does with such a payload in its packet. *)
Lemma push_packet_payload_safe this packet bs :
  carries packet bs → is_bytes bs → payload_safe bs = true →
  zlen (m_frame this) + zlen bs + 4 <= ASSEMBLER_BUFFER_SIZE →
  2 * zlen bs + 4 <= ASSEMBLER_BUFFER_SIZE → is_ok (push_packet this packet) = true.
Proof.
  intros (pre & post & Hm & Hp & Hl) Hb Hs Hroom Hsz. unfold push_packet.
  destruct (m_initialize this); [|done]. rewrite Hm, Hp, Hl. cbn [negb]. cbv iota.
  destruct bs as [|b rest]; [done|]. pose proof (zlen_nonneg (m_frame this)).
  rewrite (proj2 (Z.eqb_neq (zlen (b :: rest)) 0)) by len. step (rd_unit0 pre b rest post).
  unfold payload_safe in Hs.
  assert (Ht : 0 <= Z.land b 31) by (apply Z.land_nonneg; lia).
  destruct (Z.leb_spec (Z.land b 31) 23).
  - apply bool_decide_eq_true in Hs. destruct (Z.leb_spec 1 (Z.land b 31)); cbn [andb].
    all: rewrite ?(proj2 (Z.eqb_eq (Z.land b 31) 0)) by lia; cbn [Z.eqb Pos.eqb orb].
    all: step (use_short_code_unit pre (b :: rest) post Hs); rewrite code_if.
    all: pose proof (zlen_code_of (b :: rest)); rewrite u64_id by (unfold ASSEMBLER_BUFFER_SIZE in *; len).
    all: dec_if; step (rd_range_app pre (b :: rest) post).
    all: by rewrite append_ok by (cbn [set_frame m_frame]; change (zlen (@nil Z)) with 0; len).
  - rewrite andb_false_r. rewrite !(proj2 (Z.eqb_neq (Z.land b 31) _)) by lia. cbn [orb].
    destruct (Z.land b 31 =? 24).
    + unfold get_stapa_frame. rewrite zlen_cons in *. replace (1 + zlen rest - 1) with (zlen rest) by lia.
      pose proof (zlen_nonneg rest). rewrite i32_id by (unfold ASSEMBLER_BUFFER_SIZE in *; lia).
      assert (E : pre ++ (b :: rest) ++ post = (pre ++ [b]) ++ rest ++ post) by by rewrite <- app_assoc.
      rewrite E. replace (zlen pre + 1) with (zlen (pre ++ [b])) by (autorewrite with rtc_len; lia).
      destruct (stapa_loop_units_safe (length rest) (S (Z.to_nat (zlen rest))) (set_frame this [])
                  (pre ++ [b]) rest post) as (r & this' & ->);
        [by apply Forall_cons in Hb as [_ Hb]|done|lia|unfold zlen; lia
        |cbn [set_frame m_frame]; change (zlen (@nil Z)) with 0; lia|].
      step_bind. destruct r; [|done]. by case_match.
    + destruct (Z.land b 31 =? 28); [|done]. unfold get_fua_frame.
      destruct rest as [|h [|c f]]; [done..|]. set (w := c :: f) in *.
      rewrite (proj2 (Z.ltb_ge (zlen (b :: h :: w)) 3)) by (unfold w; len).
      rewrite (proj2 (Z.ltb_ge ASSEMBLER_BUFFER_SIZE (zlen (b :: h :: w)))) by len. cbn [orb].
      step (rd_unit0 pre b (h :: w) post). step (rd_unit1 pre b h w post).
      assert (E : pre ++ (b :: h :: w) ++ post = (pre ++ [b; h]) ++ w ++ post) by by rewrite <- app_assoc.
      rewrite E. replace (zlen pre + 2) with (zlen (pre ++ [b; h])) by (autorewrite with rtc_len; lia).
      rewrite !zlen_cons in *. replace (1 + (1 + zlen w) - 2) with (zlen w) by lia.
      destruct (Z.shiftr h 7 =? 0); cbn [negb orb] in *.
      * destruct (negb (Z.land h 64 =? 0)); step (rd_range_app (pre ++ [b; h]) w post);
          by rewrite append_ok by lia.
      * apply bool_decide_eq_true in Hs. step (use_short_code_unit (pre ++ [b; h]) w post Hs).
        step (rd_range_app (pre ++ [b; h]) w post). rewrite code_if. pose proof (zlen_code_of w).
        by rewrite append_ok by (cbn [set_frame m_frame]; change (zlen (@nil Z)) with 0; len).
Qed.

(** The frame never grows past the buffer. *)
Lemma append_bounded this bs this' :
  append this bs = Ok this' → zlen (m_frame this') <= ASSEMBLER_BUFFER_SIZE.
Proof.
  unfold append. destruct (Z.leb_spec (zlen (m_frame this) + zlen bs) ASSEMBLER_BUFFER_SIZE); [|done].
  intros [= <-]. cbn. len.
Qed.

Lemma stapa_loop_bounded fuel this mem src srcLen b this' :
  zlen (m_frame this) <= ASSEMBLER_BUFFER_SIZE →
  stapa_loop fuel this mem src srcLen = Ok (b, this') →
  zlen (m_frame this') <= ASSEMBLER_BUFFER_SIZE.
Proof.
  revert this src srcLen. induction fuel as [|fuel IH]; intros this src srcLen H; cbn [stapa_loop]; [done|].
  case_match; [|by intros [= _ <-]]. intros Hl. apply bind_is_ok in Hl as (n & _ & Hl).
  destruct (n <=? srcLen - 2); [|by injection Hl as _ <-].
  inv_bind. eapply IH; [|exact Hl]. by eapply append_bounded.
Qed.

Lemma push_packet_bounded this packet b this' :
  zlen (m_frame this) <= ASSEMBLER_BUFFER_SIZE → push_packet this packet = Ok (b, this') →
  zlen (m_frame this') <= ASSEMBLER_BUFFER_SIZE.
Proof.
  intros H. assert (H0 : zlen (@nil Z) <= ASSEMBLER_BUFFER_SIZE) by done.
  unfold push_packet, get_stapa_frame, get_fua_frame.
  repeat match goal with
  | |- Ok _ = Ok _ → _ => intros [= <- <-]; first [exact H | exact H0 | eassumption]
  | |- Fault = Ok _ → _ => discriminate
  | |- context [if ?c then _ else _] => lazymatch c with
      | context [match _ with _ => _ end] => fail | _ => destruct c eqn:? end
  | |- (match ?m with _ => _ end) = Ok _ → _ => destruct m eqn:?
  | |- _ ≫= _ = Ok _ → _ => let E := fresh "E" in intros E;
      apply bind_is_ok in E as (? & ? & E); revert E; cbv beta zeta
  | H : append _ _ = Ok _ |- _ => apply append_bounded in H
  | H : stapa_loop _ _ _ _ _ = Ok (_, _) |- _ => apply stapa_loop_bounded in H; [|exact H0]
  end.
Qed.


(** The bound on the frame is needed: a middle fragment that does not fit in what
    is left of the buffer is copied all the same. *)
Theorem push_packet_fua_overflow this packet nal e frag :
  m_initialize this = true → is_byte nal → carries packet (fua_payload nal false e frag) →
  frag ≠ [] → zlen frag + 2 <= ASSEMBLER_BUFFER_SIZE →
  ASSEMBLER_BUFFER_SIZE < zlen (m_frame this) + zlen frag →
  push_packet this packet = Fault.
Proof.
  intros Hi Hnal (pre & post & Hm & Hp & Hl) Hne Hsz Hover. unfold push_packet.
  rewrite Hi, Hm, Hp, Hl. simpl negb. cbv iota.
  destruct (fua_fields nal false e Hnal) as (F1 & F2 & F3 & F4 & F5 & F6).
  unfold fua_payload in *. set (ind := Z.lor (Z.land nal 224) 28) in *.
  fold (fua_header nal false e) in *. set (hdr := fua_header nal false e) in *.
  assert (Hpos : 0 < zlen frag) by (destruct frag; [done|len]).
  rewrite (proj2 (Z.eqb_neq (zlen (ind :: hdr :: frag)) 0)) by len.
  step (rd_unit0 pre ind (hdr :: frag) post). rewrite F1.
  cbn [Z.leb Z.eqb andb orb Z.compare Pos.compare Pos.compare_cont Pos.eqb].
  unfold get_fua_frame. rewrite !zlen_cons in *.
  rewrite (proj2 (Z.ltb_ge (1 + (1 + zlen frag)) 3)) by lia.
  rewrite (proj2 (Z.ltb_ge ASSEMBLER_BUFFER_SIZE (1 + (1 + zlen frag)))) by lia.
  simpl orb. cbv iota.
  step (rd_unit0 pre ind (hdr :: frag) post). step (rd_unit1 pre ind hdr frag post).
  rewrite F3, F4. replace (1 + (1 + zlen frag) - 2) with (zlen frag) by lia.
  assert (EM : pre ++ (ind :: hdr :: frag) ++ post = (pre ++ [ind; hdr]) ++ frag ++ post)
    by by rewrite <- app_assoc.
  rewrite EM. replace (zlen pre + 2) with (zlen (pre ++ [ind; hdr])) by (autorewrite with rtc_len; lia).
  assert (Hap : append this frag = Fault) by (unfold append; by dec_if).
  destruct e; simpl negb; cbv iota; step (rd_range_app (pre ++ [ind; hdr]) frag post);
    by rewrite Hap.
Qed.

(** ** Concrete runs *)

(** A packet with the given payload between [pre] and [post]. *)
Definition payload_packet (pre bs post : list Z) : RTPPacket :=
  set_payload (set_packet reset (pre ++ bs ++ post) (zlen (pre ++ bs ++ post)))
    (Some (zlen pre)) (zlen bs).

Lemma payload_packet_carries pre bs post : carries (payload_packet pre bs post) bs.
Proof. exists pre, post. done. Qed.

Definition ready : RTPH264FrameAssembler := (initialize new_assembler).2.

Lemma push_packet_single_witness :
  push_packet ready (payload_packet [128; 96] [101; 184; 1] [])
  = Ok (true, set_frame ready [0; 0; 1; 101; 184; 1]).
Proof.
  apply (push_packet_single ready _ 101 [184; 1]); try done; try by apply (bool_decide_unpack _).
  apply payload_packet_carries.
Defined.

Definition sample_units : list (list Z) := [[103; 66]; [104; 206; 6]; [101; 7]].

Lemma push_packet_stapa_witness :
  push_packet ready (payload_packet [128] (stapa_payload sample_units) [9])
  = Ok (true, set_frame ready
      [0; 0; 0; 1; 103; 66; 0; 0; 0; 1; 104; 206; 6; 0; 0; 1; 101; 7]).
Proof.
  apply (push_packet_stapa ready _ sample_units); try done;
    try by apply (bool_decide_unpack _).
  apply payload_packet_carries.
Defined.

Lemma push_packet_stapa_truncated_witness :
  push_packet (set_frame ready [1])
    (payload_packet [128] (stapa_payload sample_units ++ be16_bytes 5 ++ [65; 1]) [9])
  = Ok (false, ready).
Proof.
  apply (push_packet_stapa_truncated (set_frame ready [1]) _ sample_units 5 [65; 1]);
    try done; try by apply (bool_decide_unpack _).
  apply payload_packet_carries.
Defined.

Definition sample_frags : list (list Z) := [[3; 4]; [5]].

Definition sample_fua : list RTPPacket :=
  [payload_packet [128] (fua_payload 101 true false [1; 2]) [];
   payload_packet [128] (fua_payload 101 false false [3; 4]) [];
   payload_packet [128] (fua_payload 101 false true [5]) []].

Lemma push_packets_fua_witness :
  push_packets ready sample_fua
  = Ok ([[0; 0; 0; 1; 101; 1; 2; 3; 4; 5]], set_frame ready [0; 0; 0; 1; 101; 1; 2; 3; 4; 5]).
Proof.
  unfold sample_fua. apply (push_packets_fua ready 101 [1; 2] sample_frags);
    try done; try by apply (bool_decide_unpack _).
  - apply payload_packet_carries.
  - exists [[3; 4]], [5]. split; [done|]. eexists [_], _. split; [done|].
    split; [|apply payload_packet_carries].
    constructor; [apply payload_packet_carries|constructor].
Defined.


(** The start of a frame left the buffer full. *)
Definition full : RTPH264FrameAssembler :=
  set_frame ready (replicate (Z.to_nat ASSEMBLER_BUFFER_SIZE) 0).

Lemma full_len : zlen (m_frame full) = ASSEMBLER_BUFFER_SIZE.
Proof. unfold full, set_frame, zlen. cbn [m_frame]. rewrite length_replicate.
  unfold ASSEMBLER_BUFFER_SIZE. lia. Qed.

Lemma push_packet_fua_overflow_witness :
  push_packet full (payload_packet [128] (fua_payload 101 false false [3; 4]) []) = Fault.
Proof.
  apply (push_packet_fua_overflow full _ 101 false [3; 4]).
  - reflexivity.
  - by apply (bool_decide_unpack _).
  - apply payload_packet_carries.
  - discriminate.
  - by vm_compute.
  - rewrite full_len. reflexivity.
Defined.
