(* ===== verification/RTPH264PacketBuilder.v ===== *)
(** * RTPH264PacketBuilder: RTP packets from an H.264 frame

    Models [src/rtp/rtp_h264_packet_builder.h] and [.cpp].  The NAL units are
    pointers into the caller's frame, so [m_nalu_vec] holds offsets and lengths
    and the functions take the frame as it is in memory when they run.  The
    packets are pointers into [m_rtp_buffer]: the state keeps the bytes from its
    start to [m_current_pos], and a write past its end is a fault.  The fields
    [m_load_type], [m_ntp_timestamp] and [m_marker] are never read. *)

From S2P Require Import Prelude.
From S2P Require Import RTPPacket.
From S2P Require Import CodecAvc.
From S2P Require Import RTPH264FrameAssembler.

Definition RTP_PACKET_SIZE : Z := 1400.
Definition RTP_PAYLOAD_SIZE : Z := RTP_PACKET_SIZE - sizeof_RTPHeader - sizeof_RTPExtensionHeader.
Definition RTP_PACKETS_BUFFER_SIZE : Z := 1024 * 256.

Record RTPH264PacketBuilder := mkRTPH264PacketBuilder {
  m_initialize : bool;
  m_ssrc : Z;
  m_sequence : Z;
  m_timestamp : Z;
  m_nalu_vec : list (Z * Z);
  m_rtp_buffer : list Z;
}.

Definition new_builder : RTPH264PacketBuilder :=
  {| m_initialize := false; m_ssrc := 0; m_sequence := 0; m_timestamp := 0;
     m_nalu_vec := []; m_rtp_buffer := [] |}.

Definition init (this : RTPH264PacketBuilder) (sequenceStart timestampStart : Z)
    : bool * RTPH264PacketBuilder :=
  if m_initialize this then (true, this)
  else (true, {| m_initialize := true; m_ssrc := m_ssrc this; m_sequence := sequenceStart;
                 m_timestamp := timestampStart; m_nalu_vec := m_nalu_vec this;
                 m_rtp_buffer := m_rtp_buffer this |}).

Definition set_ssrc (this : RTPH264PacketBuilder) (newssrc : Z) : RTPH264PacketBuilder :=
  {| m_initialize := m_initialize this; m_ssrc := newssrc; m_sequence := m_sequence this;
     m_timestamp := m_timestamp this; m_nalu_vec := m_nalu_vec this;
     m_rtp_buffer := m_rtp_buffer this |}.

Definition get_ssrc (this : RTPH264PacketBuilder) : Z := m_ssrc this.

Definition increment_timestamp_by (this : RTPH264PacketBuilder) (inc : Z) : RTPH264PacketBuilder :=
  {| m_initialize := m_initialize this; m_ssrc := m_ssrc this; m_sequence := m_sequence this;
     m_timestamp := u32 (m_timestamp this + inc); m_nalu_vec := m_nalu_vec this;
     m_rtp_buffer := m_rtp_buffer this |}.

Definition set_nalus (this : RTPH264PacketBuilder) (v : list (Z * Z)) : RTPH264PacketBuilder :=
  {| m_initialize := m_initialize this; m_ssrc := m_ssrc this; m_sequence := m_sequence this;
     m_timestamp := m_timestamp this; m_nalu_vec := v; m_rtp_buffer := m_rtp_buffer this |}.

Definition set_buffer (this : RTPH264PacketBuilder) (b : list Z) : RTPH264PacketBuilder :=
  {| m_initialize := m_initialize this; m_ssrc := m_ssrc this; m_sequence := m_sequence this;
     m_timestamp := m_timestamp this; m_nalu_vec := m_nalu_vec this; m_rtp_buffer := b |}.

(** [m_sequence++]. *)
Definition next_sequence (this : RTPH264PacketBuilder) : RTPH264PacketBuilder :=
  {| m_initialize := m_initialize this; m_ssrc := m_ssrc this;
     m_sequence := u32 (m_sequence this + 1); m_timestamp := m_timestamp this;
     m_nalu_vec := m_nalu_vec this; m_rtp_buffer := m_rtp_buffer this |}.

(** ** Writing at [m_current_pos] *)

(** [m_rtp_buffer_end], counted from [m_rtp_buffer]: both are NULL until [init]. *)
Definition m_rtp_buffer_end (this : RTPH264PacketBuilder) : Z :=
  if m_initialize this then RTP_PACKETS_BUFFER_SIZE else 0.

(** [m_current_pos + n < m_rtp_buffer_end]. *)
Definition room (this : RTPH264PacketBuilder) (n : Z) : bool :=
  zlen (m_rtp_buffer this) + n <? m_rtp_buffer_end this.

(** Store [bs] at [m_current_pos] and advance. *)
Definition write (this : RTPH264PacketBuilder) (bs : list Z) : outcome RTPH264PacketBuilder :=
  if zlen (m_rtp_buffer this) + zlen bs <=? m_rtp_buffer_end this
  then Ok (set_buffer this (m_rtp_buffer this ++ bs)) else Fault.

(** The two headers the builder fills in. *)
Definition packet_header (this : RTPH264PacketBuilder) : RTPHeader :=
  {| version := 2; padding := 0; extension := 1; csrcCount := 0; marker := 0;
     payloadType := 96; sequence := Z.land (m_sequence this) 65535;
     timestamp := m_timestamp this; ssrc := m_ssrc this |}.

Definition packet_extension (this : RTPH264PacketBuilder) : RTPExtensionHeader :=
  {| ext_id := 0; ext_length := 3; ext_reserved := 0;
     ext_seqHigh16 := Z.land (Z.shiftr (m_sequence this) 16) 65535;
     ext_msw := 0; ext_lsw := 0 |}.

Definition write_headers (this : RTPH264PacketBuilder) : outcome RTPH264PacketBuilder :=
  write this (RTPHeader_bytes (packet_header this)
              ++ RTPExtensionHeader_bytes (packet_extension this)).

(** What a function returns: its [bool], the state and the packets vector. *)
Notation builder_result := (bool * (RTPH264PacketBuilder * list (Z * Z)))%type.

(** ** FU-A packets *)

(** The [while (true)] of [build_fua_packet]. *)
Fixpoint fua_loop (fuel : nat) (this : RTPH264PacketBuilder) (mem : list Z)
    (data len fnri type : Z) (isStart : bool) (leftLen : Z) (rtpvec : list (Z * Z))
    : outcome builder_result :=
  match fuel with
  | O => Hang
  | S fuel =>
      if negb (room this (sizeof_RTPHeader + sizeof_RTPExtensionHeader))
      then Ok (false, (this, rtpvec)) else
      let start := zlen (m_rtp_buffer this) in
      this ← write_headers this;
      if negb (room this 2) then Ok (false, (this, rtpvec)) else
      let copyLen := if RTP_PAYLOAD_SIZE - 2 <? leftLen then RTP_PAYLOAD_SIZE - 2 else leftLen in
      this ← write this [Z.lor fnri 28];
      this ← write this [if isStart then Z.lor 128 type
                         else if copyLen =? leftLen then Z.lor 64 type else Z.lor 0 type];
      if negb (room this copyLen) then Ok (false, (this, rtpvec)) else
      bs ← rd_range mem (data + (len - leftLen)) copyLen;
      this ← write this bs;
      let rtpvec := rtpvec ++ [(start, zlen (m_rtp_buffer this) - start)] in
      let this := next_sequence this in
      let leftLen := leftLen - copyLen in
      if leftLen <=? 0 then Ok (true, (this, rtpvec))
      else fua_loop fuel this mem data len fnri type false leftLen rtpvec
  end.

Definition build_fua_packet (this : RTPH264PacketBuilder) (mem : list Z) (data len : Z)
    (rtpvec : list (Z * Z)) : outcome builder_result :=
  nal ← rd mem data;
  fua_loop (S (Z.to_nat len)) this mem (data + 1) (len - 1) (Z.land nal 224) (Z.land nal 31)
    true (len - 1) rtpvec.

(** ** Single NAL unit and STAP-A packets *)

(** The loop over [datavec] of a STAP-A packet; [first] is
    [it == datavec.begin()]. *)
Fixpoint stapa_write (this : RTPH264PacketBuilder) (mem : list Z) (first : bool)
    (datavec : list (Z * Z)) : outcome (bool * RTPH264PacketBuilder) :=
  match datavec with
  | [] => Ok (true, this)
  | (data, dataLen) :: datavec =>
      if negb (room this dataLen) then Ok (false, this) else
      this ← (if first then write this [24] else Ok this);
      this ← write this [Z.land (Z.shiftr dataLen 8) 255; Z.land dataLen 255];
      bs ← rd_range mem data dataLen;
      this ← write this bs;
      stapa_write this mem false datavec
  end.

Definition build_packet (this : RTPH264PacketBuilder) (mem : list Z) (datavec : list (Z * Z))
    (rtpvec : list (Z * Z)) : outcome builder_result :=
  if negb (room this (sizeof_RTPHeader + sizeof_RTPExtensionHeader))
  then Ok (false, (this, rtpvec)) else
  let start := zlen (m_rtp_buffer this) in
  this ← write_headers this;
  match datavec with
  | [(data, dataLen)] =>
      if room this dataLen then
        bs ← rd_range mem data dataLen;
        this ← write this bs;
        Ok (true, (next_sequence this, rtpvec ++ [(start, zlen (m_rtp_buffer this) - start)]))
      else Ok (false, (this, rtpvec))
  | _ =>
      r ← stapa_write this mem true datavec;
      let '(complete, this) := r in
      if (complete : bool)
      then Ok (true, (next_sequence this, rtpvec ++ [(start, zlen (m_rtp_buffer this) - start)]))
      else Ok (false, (this, rtpvec))
  end.

(** ** The interface: a frame in, packets out *)

(** [while (!*(startCode++));]: no test for the end of the data. *)
Fixpoint skip_zeros_unchecked (fuel : nat) (data : list Z) (p : Z) : outcome Z :=
  match fuel with
  | O => Hang
  | S fuel =>
      b ← rd data p;
      if b =? 0 then skip_zeros_unchecked fuel data (p + 1) else Ok (p + 1)
  end.

Fixpoint send_loop (fuel : nat) (base : Z) (data : list Z) (len startCode : Z)
    (nalu_vec : list (Z * Z)) : outcome (list (Z * Z)) :=
  match fuel with
  | O => Hang
  | S fuel =>
      if startCode <? len then
        startCode ← skip_zeros_unchecked (S (length data)) data startCode;
        nextStart ← avc_find_start_code base data startCode len;
        let naluLen := i32 (nextStart - startCode) in
        send_loop fuel base data len nextStart
          (if 0 <? naluLen then nalu_vec ++ [(startCode, naluLen)] else nalu_vec)
      else Ok nalu_vec
  end.

(** [base] is the address of the data (the search works by aligned words). *)
Definition send_data (this : RTPH264PacketBuilder) (base : Z) (data : list Z) (len : Z)
    : outcome (bool * RTPH264PacketBuilder) :=
  startCode ← avc_find_start_code base data 0 len;
  v ← send_loop (loop_fuel 0 len) base data len startCode [];
  Ok (true, set_nalus this v).

(** The loop over [m_nalu_vec]; the final flush is its last iteration. *)
Fixpoint receive_loop (nalus : list (Z * Z)) (this : RTPH264PacketBuilder) (mem : list Z)
    (totalLen : Z) (tmp : list (Z * Z)) (packets : list (Z * Z)) : outcome builder_result :=
  match nalus with
  | [] =>
      if 0 <? zlen tmp then build_packet this mem tmp packets else Ok (true, (this, packets))
  | (naluData, naluLen) :: nalus =>
      if RTP_PAYLOAD_SIZE <? naluLen then
        r ← (if 0 <? zlen tmp then build_packet this mem tmp packets
             else Ok (true, (this, packets)));
        match r with
        | (false, st) => Ok (false, st)
        | (true, (this, packets)) =>
            let totalLen := if 0 <? zlen tmp then 0 else totalLen in
            r ← build_fua_packet this mem naluData naluLen packets;
            match r with
            | (false, st) => Ok (false, st)
            | (true, (this, packets)) => receive_loop nalus this mem totalLen [] packets
            end
        end
      else if (totalLen <? RTP_PAYLOAD_SIZE) && (RTP_PAYLOAD_SIZE <? totalLen + naluLen) then
        r ← (if 0 <? zlen tmp then build_packet this mem tmp packets
             else Ok (true, (this, packets)));
        match r with
        | (false, st) => Ok (false, st)
        | (true, (this, packets)) =>
            receive_loop nalus this mem naluLen [(naluData, naluLen)] packets
        end
      else
        receive_loop nalus this mem (totalLen + naluLen) (tmp ++ [(naluData, naluLen)]) packets
  end.

Definition receive_rtp_packets (this : RTPH264PacketBuilder) (mem : list Z)
    (packets : list (Z * Z)) : outcome builder_result :=
  receive_loop (m_nalu_vec this) (set_buffer this []) mem 0 [] packets.

(** ** Specification *)

(** The vector entries point at these bytes. *)
Definition points_to (mem : list Z) : list (Z * Z) → list (list Z) → Prop :=
  Forall2 (λ s n, rd_range mem s.1 s.2 = Ok n).

(** The payloads of a unit cut in FU-A fragments: [s] on the first one. *)
Fixpoint fua_payloads (fuel : nat) (nal : Z) (s : bool) (l : list Z) : list (list Z) :=
  match fuel with
  | O => []
  | S fuel =>
      let e := zlen l <=? RTP_PAYLOAD_SIZE - 2 in
      fua_payload nal s e (take (Z.to_nat (RTP_PAYLOAD_SIZE - 2)) l)
      :: if e then [] else fua_payloads fuel nal false (drop (Z.to_nat (RTP_PAYLOAD_SIZE - 2)) l)
  end.

Definition fua_of (n : list Z) : list (list Z) :=
  match n with
  | [] => []
  | nal :: body => fua_payloads (S (length n)) nal true body
  end.

(** The payload of the units that were grouped together. *)
Definition group_payload (ns : list (list Z)) : list Z :=
  match ns with [n] => n | _ => stapa_payload ns end.

Definition flush (tmp : list (list Z)) : list (list Z) :=
  match tmp with [] => [] | _ => [group_payload tmp] end.

(** The payloads of the packets of a frame. *)
Fixpoint packetize (ns : list (list Z)) (totalLen : Z) (tmp : list (list Z)) : list (list Z) :=
  match ns with
  | [] => flush tmp
  | n :: ns =>
      if RTP_PAYLOAD_SIZE <? zlen n then
        flush tmp ++ fua_of n ++ packetize ns (if 0 <? zlen tmp then 0 else totalLen) []
      else if (totalLen <? RTP_PAYLOAD_SIZE) && (RTP_PAYLOAD_SIZE <? totalLen + zlen n) then
        flush tmp ++ packetize ns (zlen n) [n]
      else packetize ns (totalLen + zlen n) (tmp ++ [n])
  end.

(** The packet of a payload, and the packets of payloads sent in a row. *)
Definition packet_wire (this : RTPH264PacketBuilder) (payload : list Z) : wire :=
  {| w_header := packet_header this; w_csrcs := []; w_ext := packet_extension this;
     w_payload := payload; w_padding := [] |}.

Fixpoint packet_wires (this : RTPH264PacketBuilder) (payloads : list (list Z)) : list wire :=
  match payloads with
  | [] => []
  | p :: payloads => packet_wire this p :: packet_wires (next_sequence this) payloads
  end.

(** The effect of one packet, and of several. *)
Definition emit1 (st : RTPH264PacketBuilder * list (Z * Z)) (payload : list Z)
    : RTPH264PacketBuilder * list (Z * Z) :=
  let w := wire_bytes (packet_wire st.1 payload) in
  (next_sequence (set_buffer st.1 (m_rtp_buffer st.1 ++ w)),
   st.2 ++ [(zlen (m_rtp_buffer st.1), zlen w)]).

Definition emit (st : RTPH264PacketBuilder * list (Z * Z)) (payloads : list (list Z))
    : RTPH264PacketBuilder * list (Z * Z) := foldl emit1 st payloads.

(** The room the packets take. *)
Definition packets_size (payloads : list (list Z)) : Z :=
  foldr (λ p s, 28 + zlen p + s) 0 payloads.

(** ** [send_data] *)

Lemma skip_zeros_unchecked_spec fuel data p q b :
  p <= q → (∀ i, p <= i < q → rd data i = Ok 0) → rd data q = Ok b → b ≠ 0 →
  (Z.to_nat (q - p) < fuel)%nat → skip_zeros_unchecked fuel data p = Ok (q + 1).
Proof.
  intros Hq Hz Hb Hne. revert p Hq Hz.
  induction fuel as [|fuel IH]; intros p Hq Hz Hf; [lia|]. cbn [skip_zeros_unchecked].
  destruct (Z.eq_dec p q) as [->|].
  - step Hb. by dec_if.
  - step (Hz p) by lia. apply IH; [lia|intros; apply Hz; lia|lia].
Qed.

(** The search stops at a non-zero byte when there is one ahead. *)
Lemma skip_zeros_unchecked_total fuel data p q b :
  0 <= p <= q → rd data q = Ok b → b ≠ 0 → (Z.to_nat (q - p) < fuel)%nat →
  ∃ r, skip_zeros_unchecked fuel data p = Ok r ∧ p < r <= q + 1.
Proof.
  intros Hp Hb Hne. destruct (rd_ok_range _ _ _ Hb) as [Hr _]. revert p Hp.
  induction fuel as [|fuel IH]; intros p Hp Hf; [lia|]. cbn [skip_zeros_unchecked].
  destruct (rd_in_range data p) as (c & Hc & _); [lia|]. step Hc.
  destruct (Z.eqb_spec c 0) as [->|]; [|eexists; split; [done|lia]].
  assert (p ≠ q) by congruence.
  destruct (IH (p + 1)) as (r & -> & Hr'); [lia..|]. eexists; split; [done|lia].
Qed.

(** Where [avc_find_start_code] stops before the end there is a start code, so a
    non-zero byte. *)
Lemma find_start_nonzero buf start stop :
  start <= stop → find_start_spec buf start stop < stop →
  ∃ q, find_start_spec buf start stop <= q < stop ∧ rd buf q = Ok 1.
Proof.
  intros Hs. unfold find_start_spec, find_code_spec.
  destruct (first_code_cases (Z.to_nat (stop - 3 - start)) buf start stop)
    as [[-> _]|(Hr & Hc & _)].
  - rewrite Z.ltb_irrefl, andb_false_r. simpl. lia.
  - set (pos := first_code _ _ _ _) in *. intros Hlt. exists (pos + 2).
    unfold code_at in Hc. apply andb_prop in Hc as [_ Hc%bool_decide_eq_true_1].
    split; [|done]. destruct (_ && _); lia.
Qed.

Definition nalu_slot_ok (len : Z) (s : Z * Z) : Prop := 0 <= s.1 ∧ 0 < s.2 ∧ s.1 + s.2 <= len.

Lemma send_loop_total fuel base data startCode v :
  is_bytes data → zlen data < 2 ^ 31 → 0 <= startCode <= zlen data →
  (startCode < zlen data → ∃ q, startCode <= q < zlen data ∧ rd data q = Ok 1) →
  (Z.to_nat (zlen data - startCode) < fuel)%nat → Forall (nalu_slot_ok (zlen data)) v →
  ∃ v', send_loop fuel base data (zlen data) startCode v = Ok v'
    ∧ Forall (nalu_slot_ok (zlen data)) v'.
Proof.
  intros Hb H31. revert startCode v. induction fuel as [|fuel IH]; intros p v Hp Hone Hf Hv; [lia|].
  cbn [send_loop]. destruct (Z.ltb_spec p (zlen data)); [|by eexists].
  destruct (Hone H) as (q & Hq & R).
  destruct (skip_zeros_unchecked_total (S (length data)) data p q 1)
    as (r & -> & Hr); [lia|done|done|unfold zlen in *; lia|]. step_bind.
  rewrite avc_find_start_code_spec by (done || lia). step_bind.
  pose proof (find_start_spec_range data r (zlen data)) as Hn.
  apply IH; [lia| |lia|].
  - intros Hlt. destruct (find_start_nonzero data r (zlen data)) as (q' & ? & ?); [lia..|].
    exists q'. split; [lia|done].
  - rewrite i32_id by lia. destruct (Z.ltb_spec 0 (find_start_spec data r (zlen data) - r)); [|done].
    apply Forall_app; split; [done|]. constructor; [|done]. unfold nalu_slot_ok; simpl. lia.
Qed.

(** Splitting a frame never reads outside of it, although the search for the end
    of a start code is not bounded, and the units lie in the frame. *)
Theorem send_data_total this base data :
  is_bytes data → zlen data < 2 ^ 31 →
  ∃ v, send_data this base data (zlen data) = Ok (true, set_nalus this v)
    ∧ Forall (nalu_slot_ok (zlen data)) v.
Proof.
  intros Hb H31. unfold send_data. pose proof (zlen_nonneg data).
  rewrite avc_find_start_code_spec by (done || lia). step_bind.
  pose proof (find_start_spec_range data 0 (zlen data)).
  destruct (send_loop_total (loop_fuel 0 (zlen data)) base data
              (find_start_spec data 0 (zlen data)) [])
    as (v & -> & Hv); [done|done|lia| |unfold loop_fuel; lia|constructor|].
  - intros Hlt. destruct (find_start_nonzero data 0 (zlen data)) as (q & ? & ?); [lia..|].
    exists q. split; [lia|done].
  - exists v. done.
Qed.

Lemma skip_start_code_unchecked fuel pre (long : bool) tail :
  (4 < fuel)%nat →
  skip_zeros_unchecked fuel (pre ++ start_code long ++ tail) (zlen pre)
    = Ok (zlen (pre ++ start_code long)).
Proof.
  intros Hf. rewrite zlen_app, start_code_len.
  assert (Hrd : ∀ j, 0 <= j → rd (pre ++ start_code long ++ tail) (zlen pre + j)
                              = rd (start_code long ++ tail) j)
    by (intros; by rewrite rd_app_r0).
  rewrite (skip_zeros_unchecked_spec _ _ _ (zlen pre + (if long then 3 else 2)) 1); [..|done|].
  - destruct long; f_equal; lia.
  - destruct long; lia.
  - intros i Hi. replace i with (zlen pre + (i - zlen pre)) by lia. rewrite Hrd by lia.
    destruct long.
    + assert (i - zlen pre = 0 ∨ i - zlen pre = 1 ∨ i - zlen pre = 2) as [->|[->| ->]] by lia; done.
    + assert (i - zlen pre = 0 ∨ i - zlen pre = 1) as [->| ->] by lia; done.
  - rewrite Hrd by (destruct long; lia). by destruct long.
  - destruct long; lia.
Qed.

Lemma send_loop_annexb us pre fuel base data v ns :
  data = pre ++ annexb us → is_bytes data → zlen data < 2 ^ 31 → units_ok us →
  (length us < fuel)%nat → points_to data v ns →
  ∃ v', send_loop fuel base data (zlen data) (zlen pre) v = Ok v'
    ∧ points_to data v' (ns ++ us.*2).
Proof.
  intros Hdata Hb H31. revert pre fuel v ns Hdata.
  induction us as [|u us IH]; intros pre fuel v ns Hdata Hok Hf Hv;
    (destruct fuel as [|fuel]; [lia|]); cbn [send_loop].
  - rewrite app_nil_r in Hdata. replace (zlen pre) with (zlen data) by (by rewrite Hdata). rewrite Z.ltb_irrefl.
    exists v. by rewrite app_nil_r.
  - apply Forall_cons in Hok as [(Hne & _ & Hno & Hl) Hok]. rewrite annexb_cons in Hdata.
    assert (0 < zlen u.2) by (destruct u.2; [done|len]).
    assert (HL : zlen data = zlen pre + zlen (start_code u.1) + zlen u.2 + zlen (annexb us))
      by (rewrite Hdata; len).
    pose proof (zlen_nonneg (annexb us)). pose proof (zlen_nonneg pre).
    assert (Hlong : 3 <= zlen (start_code u.1)) by (rewrite start_code_len; destruct u.1; lia).
    dec_if.
    assert (Hskip : skip_zeros_unchecked (S (length data)) data (zlen pre)
                    = Ok (zlen (pre ++ start_code u.1))).
    { rewrite Hdata at 2. apply skip_start_code_unchecked. unfold zlen in *; lia. }
    step Hskip.
    assert (Hdata' : data = (pre ++ start_code u.1) ++ u.2 ++ annexb us)
      by (by rewrite Hdata, <- app_assoc).
    assert (Hfind : avc_find_start_code base data (zlen (pre ++ start_code u.1)) (zlen data)
                    = Ok (zlen (pre ++ start_code u.1) + zlen u.2)).
    { rewrite Hdata'. apply find_next; [by rewrite <- Hdata'|done|done|by apply annexb_rest]. }
    step Hfind.
    rewrite i32_id by lia.
    replace (zlen (pre ++ start_code u.1) + zlen u.2 - zlen (pre ++ start_code u.1))
      with (zlen u.2) by lia.
    dec_if. rewrite <- zlen_app.
    destruct (IH ((pre ++ start_code u.1) ++ u.2) fuel
                (v ++ [(zlen (pre ++ start_code u.1), zlen u.2)]) (ns ++ [u.2]))
      as (v' & -> & Hv'); [by rewrite Hdata', <- !app_assoc|done|simpl in Hf; lia| |].
    + apply Forall2_app; [done|]. constructor; [|constructor]. simpl.
      rewrite Hdata'. apply rd_range_app.
    + exists v'. split; [done|]. by rewrite <- app_assoc in Hv'.
Qed.

Lemma send_data_annexb_spec this base us :
  units_ok us → zlen (annexb us) < 2 ^ 31 →
  ∃ v, send_data this base (annexb us) (zlen (annexb us)) = Ok (true, set_nalus this v)
    ∧ points_to (annexb us) v us.*2.
Proof.
  intros Hok H31. unfold send_data.
  pose proof (annexb_bytes us Hok) as Hb.
  pose proof (find_next base [] [] (annexb us)) as Hfind.
  change (([] : list Z) ++ [] ++ annexb us) with (annexb us) in Hfind.
  change (zlen (@nil Z)) with 0 in Hfind.
  step Hfind by (done || by apply annexb_rest
                 || (intros q Hq; change (zlen (@nil Z)) with 0 in Hq; lia)).
  change (0 + 0) with (zlen (@nil Z)).
  pose proof (annexb_count us Hok).
  destruct (send_loop_annexb us [] (loop_fuel 0 (zlen (annexb us))) base (annexb us) [] [])
    as (v & -> & Hv); [done..|unfold loop_fuel; lia|constructor|].
  by exists v.
Qed.

(** C26: The builder finds exactly the NAL units of an Annex-B frame, in order. *)
Theorem send_data_annexb this base us :
  units_ok us → zlen (annexb us) < 2 ^ 31 →
  ∃ v, send_data this base (annexb us) (zlen (annexb us)) = Ok (true, set_nalus this v)
    ∧ points_to (annexb us) v us.*2.
Proof. by apply send_data_annexb_spec. Qed.

(** ** Building the packets *)

Lemma write_ok this bs :
  m_initialize this = true →
  zlen (m_rtp_buffer this) + zlen bs <= RTP_PACKETS_BUFFER_SIZE →
  write this bs = Ok (set_buffer this (m_rtp_buffer this ++ bs)).
Proof. intros Hi Hsz. unfold write, m_rtp_buffer_end. rewrite Hi. by dec_if. Qed.

Lemma room_ok this n :
  m_initialize this = true → zlen (m_rtp_buffer this) + n < RTP_PACKETS_BUFFER_SIZE →
  room this n = true.
Proof. intros Hi Hsz. unfold room, m_rtp_buffer_end. rewrite Hi. by dec_if. Qed.

Lemma h264_wire_of this payload :
  wire_bytes (packet_wire this payload)
  = (RTPHeader_bytes (packet_header this) ++ RTPExtensionHeader_bytes (packet_extension this))
    ++ payload.
Proof. unfold wire_bytes, packet_wire. cbn [w_header w_csrcs w_ext w_payload w_padding].
  change (([] : list Z) ≫= be32_bytes) with (@nil Z). by rewrite app_nil_l, app_nil_r, app_assoc. Qed.

Lemma wire_of_len this payload : zlen (wire_bytes (packet_wire this payload)) = 28 + zlen payload.
Proof. rewrite h264_wire_of, zlen_app. f_equal. Qed.

Lemma headers_len this :
  zlen (RTPHeader_bytes (packet_header this) ++ RTPExtensionHeader_bytes (packet_extension this)) = 28.
Proof. reflexivity. Qed.

Lemma write_headers_ok this :
  m_initialize this = true →
  zlen (m_rtp_buffer this) + 28 < RTP_PACKETS_BUFFER_SIZE →
  write_headers this = Ok (set_buffer this (m_rtp_buffer this
    ++ RTPHeader_bytes (packet_header this) ++ RTPExtensionHeader_bytes (packet_extension this))).
Proof. intros. unfold write_headers. rewrite write_ok; [done|done|]. rewrite headers_len. lia. Qed.

(** The state once a whole packet has been written. *)
Lemma emit1_eq this payload vec buf :
  buf = m_rtp_buffer this ++ (RTPHeader_bytes (packet_header this)
          ++ RTPExtensionHeader_bytes (packet_extension this)) ++ payload →
  (next_sequence (set_buffer this buf),
   vec ++ [(zlen (m_rtp_buffer this), zlen buf - zlen (m_rtp_buffer this))])
  = emit1 (this, vec) payload.
Proof.
  intros ->. unfold emit1; cbn [fst snd]. rewrite h264_wire_of. do 4 f_equal.
  rewrite (zlen_app (m_rtp_buffer this)). lia.
Qed.

Lemma stapa_write_ok mem v ns this :
  m_initialize this = true → points_to mem v ns →
  zlen (m_rtp_buffer this) + zlen (stapa_units ns) < RTP_PACKETS_BUFFER_SIZE →
  stapa_write this mem false v
  = Ok (true, set_buffer this (m_rtp_buffer this ++ stapa_units ns)).
Proof.
  intros Hi Hv. revert this Hi. induction Hv as [|[o k] n v ns Hn Hv IH]; intros this Hi Hsz.
  - cbn. change (stapa_units []) with (@nil Z). rewrite app_nil_r. by destruct this.
  - change (stapa_units (n :: ns)) with ((be16_bytes (zlen n) ++ n) ++ stapa_units ns) in *.
    cbn [fst snd] in Hn. destruct (rd_range_ok _ _ _ _ Hn) as (_ & _ & _ & _ & <-).
    cbn [stapa_write]. pose proof (zlen_nonneg (stapa_units ns)). pose proof (zlen_nonneg n).
    autorewrite with rtc_len in Hsz.
    rewrite room_ok by (done || lia). cbn [negb]. cbv iota. step_bind. rewrite be16_bytes_shift.
    step write_ok by (done || len). step Hn. step write_ok by (done || (cbn [set_buffer m_rtp_buffer]; len)).
    rewrite IH by (done || (cbn [set_buffer m_rtp_buffer]; len)).
    cbn. by rewrite <- !app_assoc.
Qed.

Lemma build_packet_ok this mem v ns vec :
  m_initialize this = true → points_to mem v ns → ns ≠ [] →
  zlen (m_rtp_buffer this) + 28 + zlen (group_payload ns) < RTP_PACKETS_BUFFER_SIZE →
  build_packet this mem v vec = Ok (true, emit1 (this, vec) (group_payload ns)).
Proof.
  intros Hi Hv Hne Hsz. unfold build_packet, sizeof_RTPHeader, sizeof_RTPExtensionHeader.
  pose proof (zlen_nonneg (group_payload ns)).
  rewrite room_ok by (done || lia). cbn [negb]. cbv iota. step write_headers_ok by (done || lia).
  inversion Hv as [|[o k] n v' ns' Hn Hv']; subst; [done|]. cbn [fst snd] in Hn.
  destruct (rd_range_ok _ _ _ _ Hn) as (_ & _ & _ & _ & <-).
  destruct Hv' as [|s2 n2 v'' ns'' Hn2 Hv''].
  - cbn [group_payload] in *. rewrite room_ok by (done || (cbn [set_buffer m_rtp_buffer]; len)).
    step Hn. step write_ok by (done || (cbn [set_buffer m_rtp_buffer]; len)).
    do 2 f_equal. apply (emit1_eq this). cbn [set_buffer m_rtp_buffer]. by rewrite <- !app_assoc.
  - set (ns' := n2 :: ns'') in *. set (v' := s2 :: v'') in *.
    change (group_payload (n :: ns')) with ([24] ++ (be16_bytes (zlen n) ++ n) ++ stapa_units ns') in *.
    assert (Hvs : points_to mem v' ns') by by constructor.
    autorewrite with rtc_len in Hsz. pose proof (zlen_nonneg (stapa_units ns')). pose proof (zlen_nonneg n).
    cbn [stapa_write]. rewrite room_ok by (done || (cbn [set_buffer m_rtp_buffer]; len)).
    cbn [negb]. cbv iota. rewrite be16_bytes_shift.
    step write_ok by (done || (cbn [set_buffer m_rtp_buffer]; len)).
    step write_ok by (done || (cbn [set_buffer m_rtp_buffer]; len)). step Hn.
    step write_ok by (done || (cbn [set_buffer m_rtp_buffer]; len)).
    step (stapa_write_ok mem v' ns') by (done || (cbn [set_buffer m_rtp_buffer]; len)).
    do 2 f_equal. apply (emit1_eq this). cbn [set_buffer m_rtp_buffer]. by rewrite <- !app_assoc.
Qed.

Lemma emit_app st l k : emit st (l ++ k) = emit (emit st l) k.
Proof. apply foldl_app. Qed.

Lemma packets_size_cons p l : packets_size (p :: l) = 28 + zlen p + packets_size l.
Proof. done. Qed.

Lemma packets_size_app l k : packets_size (l ++ k) = packets_size l + packets_size k.
Proof.
  induction l as [|p l IH]; [done|]. cbn [app]. rewrite !packets_size_cons, IH. lia.
Qed.

Lemma packets_size_nonneg l : 0 <= packets_size l.
Proof.
  induction l as [|p l IH]; [done|]. rewrite packets_size_cons.
  pose proof (zlen_nonneg p). lia.
Qed.

Lemma emit_buffer_len st l :
  zlen (m_rtp_buffer (emit st l).1) = zlen (m_rtp_buffer st.1) + packets_size l.
Proof.
  revert st. induction l as [|p l IH]; intros st; [cbn [emit foldl]; change (packets_size []) with 0; lia|].
  cbn [emit foldl]. change (foldl emit1 (emit1 st p) l) with (emit (emit1 st p) l).
  rewrite IH, packets_size_cons. unfold emit1; cbn [fst next_sequence set_buffer m_rtp_buffer].
  rewrite zlen_app, wire_of_len. lia.
Qed.

Lemma emit_initialize st l : m_initialize (emit st l).1 = m_initialize st.1.
Proof. revert st. induction l as [|p l IH]; intros st; [done|]. exact (IH (emit1 st p)). Qed.

Lemma fua_loop_ok fuel this mem data len nal s l vec :
  m_initialize this = true → rd_range mem (data + (len - zlen l)) (zlen l) = Ok l → l ≠ [] → (length l <= fuel)%nat →
  zlen (m_rtp_buffer this) + packets_size (fua_payloads fuel nal s l) < RTP_PACKETS_BUFFER_SIZE →
  fua_loop fuel this mem data len (Z.land nal 224) (Z.land nal 31) s (zlen l) vec
  = Ok (true, emit (this, vec) (fua_payloads fuel nal s l)).
Proof.
  revert this s l vec. induction fuel as [|fuel IH]; intros this s l vec Hi Hl Hne Hf Hsz.
  { destruct l; [done|simpl in Hf; lia]. }
  assert (Hpos : 0 < zlen l) by (destruct l; [done|len]).
  cbn [fua_loop fua_payloads] in *. unfold sizeof_RTPHeader, sizeof_RTPExtensionHeader.
  set (k := if RTP_PAYLOAD_SIZE - 2 <? zlen l then RTP_PAYLOAD_SIZE - 2 else zlen l).
  assert (Hk : k = Z.min (RTP_PAYLOAD_SIZE - 2) (zlen l)).
  { unfold k. destruct (Z.ltb_spec (RTP_PAYLOAD_SIZE - 2) (zlen l)); lia. }
  change (RTP_PAYLOAD_SIZE - 2) with 1370 in *.
  assert (Hek : (k =? zlen l) = (zlen l <=? 1370)).
  { destruct (Z.leb_spec (zlen l) 1370); [apply Z.eqb_eq|apply Z.eqb_neq]; lia. }
  set (e := zlen l <=? 1370) in *. set (frag := take (Z.to_nat 1370) l) in *.
  set (more := if e then [] else fua_payloads fuel nal false (drop (Z.to_nat 1370) l)) in *.
  assert (Hfr : rd_range mem (data + (len - zlen l)) k = Ok frag).
  { rewrite (rd_range_take _ _ _ _ k Hl) by lia. unfold frag. f_equal.
    rewrite Hk. destruct (Z.le_ge_cases (zlen l) 1370).
    - rewrite !take_ge by (unfold zlen in *; lia). done.
    - by rewrite Z.min_l by lia. }
  destruct (rd_range_ok _ _ _ _ Hfr) as (_ & _ & _ & _ & Hfl).
  rewrite packets_size_cons in Hsz. unfold fua_payload in Hsz at 1.
  pose proof (packets_size_nonneg more) as Hmore. autorewrite with rtc_len in Hsz.
  rewrite room_ok by (done || lia). cbn [negb]. cbv iota. step write_headers_ok by (done || lia).
  rewrite room_ok by (done || (cbn [set_buffer m_rtp_buffer]; len)).
  cbn [negb]. cbv iota. rewrite Hek.
  step write_ok by (done || (cbn [set_buffer m_rtp_buffer]; len)).
  step write_ok by (done || (cbn [set_buffer m_rtp_buffer]; len)).
  rewrite room_ok by (done || (cbn [set_buffer m_rtp_buffer]; len)).
  cbn [negb]. cbv iota. step Hfr.
  step write_ok by (done || (cbn [set_buffer m_rtp_buffer]; len)).
  cbn [set_buffer m_rtp_buffer].
  assert (Hst : ∀ st payload, emit st (payload :: more) = emit (emit1 st payload) more) by done.
  match goal with |- context [next_sequence ?t] =>
    set (this' := next_sequence t) end.
  match goal with |- context [vec ++ [?x]] => set (slot := x) end.
  assert (E1 : (this', vec ++ [slot]) = emit1 (this, vec) (fua_payload nal s e frag)).
  { unfold this', slot. unfold fua_payload. apply (emit1_eq this). rewrite <- !app_assoc. by destruct s, e. }
  change (fua_payload nal s e frag :: (if e then [] else _)) with (fua_payload nal s e frag :: more).
  rewrite Hst, <- E1. destruct e eqn:Ee; unfold e in Ee.
  - apply Z.leb_le in Ee. by dec_if.
  - apply Z.leb_gt in Ee. rewrite (proj2 (Z.leb_gt (zlen l - k) 0)) by lia.
    assert (Hd : zlen (drop (Z.to_nat 1370) l) = zlen l - 1370) by (apply zlen_drop; lia).
    replace (zlen l - k) with (zlen (drop (Z.to_nat 1370) l)) by lia.
    apply IH.
    + exact Hi.
    + rewrite <- (rd_range_drop mem (data + (len - zlen l)) (zlen l) l 1370 Hl) by lia.
      f_equal; lia.
    + intros Hnil. rewrite Hnil in Hd. change (zlen (@nil Z)) with 0 in Hd. lia.
    + unfold zlen in *. lia.
    + change (fua_payloads fuel nal false (drop (Z.to_nat 1370) l)) with more.
      assert (EB : m_rtp_buffer this' = m_rtp_buffer (emit1 (this, vec) (fua_payload nal s false frag)).1)
        by by rewrite <- E1.
      rewrite EB. unfold emit1; cbn [fst next_sequence set_buffer m_rtp_buffer].
      rewrite zlen_app, wire_of_len. unfold fua_payload at 1. len.
Qed.

Lemma build_fua_packet_ok this mem o n vec :
  m_initialize this = true → rd_range mem o (zlen n) = Ok n → 1 < zlen n →
  zlen (m_rtp_buffer this) + packets_size (fua_of n) < RTP_PACKETS_BUFFER_SIZE →
  build_fua_packet this mem o (zlen n) vec = Ok (true, emit (this, vec) (fua_of n)).
Proof.
  destruct n as [|nal body]; [intros _ _; change (zlen (@nil Z)) with 0; lia|].
  intros Hi Hn H1 Hsz. unfold build_fua_packet.
  assert (R0 : rd mem o = Ok nal).
  { destruct (rd_range_ok _ _ _ _ Hn) as (? & ? & ? & E & _).
    rewrite <- (Z.add_0_r o), <- rd_drop by lia.
    rewrite <- (take_drop (Z.to_nat (zlen (nal :: body))) (drop (Z.to_nat o) mem)), <- E.
    by rewrite rd_app_l by len. }
  step R0. unfold fua_of in *. unfold zlen at 1. rewrite Nat2Z.id.
  rewrite zlen_cons in *. replace (1 + zlen body - 1) with (zlen body) by lia.
  apply fua_loop_ok.
  - exact Hi.
  - replace (o + 1 + (zlen body - zlen body)) with (o + 1) by lia.
    replace (zlen body) with (1 + zlen body - 1) at 1 by lia.
    by rewrite (rd_range_drop _ _ _ _ 1 Hn) by (pose proof (zlen_nonneg body); lia).
  - intros ->. change (zlen (@nil Z)) with 0 in H1. lia.
  - simpl. lia.
  - done.
Qed.

Lemma flush_ok this mem v tmp vec :
  m_initialize this = true → points_to mem v tmp →
  zlen (m_rtp_buffer this) + packets_size (flush tmp) < RTP_PACKETS_BUFFER_SIZE →
  (if 0 <? zlen v then build_packet this mem v vec else Ok (true, (this, vec)))
  = Ok (true, emit (this, vec) (flush tmp)) ∧ (0 <? zlen v) = (0 <? zlen tmp).
Proof.
  intros Hi Hv Hsz. assert (zlen v = zlen tmp) as Hlen.
  { unfold zlen. by rewrite (Forall2_length _ _ _ Hv). }
  split; [|by rewrite Hlen]. destruct tmp as [|n tmp].
  - rewrite Hlen. done.
  - rewrite Hlen. dec_if. unfold flush in *. rewrite packets_size_cons in Hsz.
    change (packets_size []) with 0 in Hsz. by rewrite (build_packet_ok this mem v (n :: tmp)) by (done || lia).
Qed.

Lemma receive_loop_ok nalus mem ns this total tmpv tmp vec :
  m_initialize this = true → points_to mem nalus ns → points_to mem tmpv tmp →
  zlen (m_rtp_buffer this) + packets_size (packetize ns total tmp) < RTP_PACKETS_BUFFER_SIZE →
  receive_loop nalus this mem total tmpv vec
  = Ok (true, emit (this, vec) (packetize ns total tmp)).
Proof.
  intros Hi Hv. revert this total tmpv tmp vec Hi.
  induction Hv as [|[o k] n nalus ns Hn Hv IH]; intros this total tmpv tmp vec Hi Ht Hsz.
  - cbn [receive_loop packetize] in *. by destruct (flush_ok this mem tmpv tmp vec Hi Ht Hsz).
  - cbn [fst snd] in Hn. destruct (rd_range_ok _ _ _ _ Hn) as (_ & _ & _ & _ & <-).
    cbn [receive_loop packetize] in *. destruct (Z.ltb_spec RTP_PAYLOAD_SIZE (zlen n)) as [Hbig|Hsmall].
    + set (total' := if 0 <? zlen tmp then 0 else total) in *.
      rewrite !packets_size_app in Hsz.
      pose proof (packets_size_nonneg (fua_of n)). pose proof (packets_size_nonneg (packetize ns total' [])).
      destruct (flush_ok this mem tmpv tmp vec Hi Ht) as [Hfl Hc]; [lia|]. step Hfl. rewrite Hc.
      destruct (emit (this, vec) (flush tmp)) as [this1 vec1] eqn:E1.
      assert (Hi1 : m_initialize this1 = true) by (change this1 with ((this1, vec1).1); by rewrite <- E1, emit_initialize).
      assert (L1 : zlen (m_rtp_buffer this1) = zlen (m_rtp_buffer this) + packets_size (flush tmp)).
      { change this1 with ((this1, vec1).1). rewrite <- E1. apply emit_buffer_len. }
      step build_fua_packet_ok by (done || (unfold RTP_PAYLOAD_SIZE, RTP_PACKET_SIZE,
        sizeof_RTPHeader, sizeof_RTPExtensionHeader in Hbig; lia)).
      destruct (emit (this1, vec1) (fua_of n)) as [this2 vec2] eqn:E2.
      assert (Hi2 : m_initialize this2 = true) by (change this2 with ((this2, vec2).1); by rewrite <- E2, emit_initialize).
      assert (L2 : zlen (m_rtp_buffer this2) = zlen (m_rtp_buffer this1) + packets_size (fua_of n)).
      { change this2 with ((this2, vec2).1). rewrite <- E2. apply emit_buffer_len. }
      rewrite (IH this2 _ [] []); [|done|constructor|fold total'; lia].
      by rewrite !emit_app, E1, E2.
    + destruct ((total <? RTP_PAYLOAD_SIZE) && (RTP_PAYLOAD_SIZE <? total + zlen n)).
      * rewrite packets_size_app in Hsz. pose proof (packets_size_nonneg (packetize ns (zlen n) [n])).
        destruct (flush_ok this mem tmpv tmp vec Hi Ht) as [Hfl Hc]; [lia|]. step Hfl.
        destruct (emit (this, vec) (flush tmp)) as [this1 vec1] eqn:E1.
        assert (Hi1 : m_initialize this1 = true) by (change this1 with ((this1, vec1).1); by rewrite <- E1, emit_initialize).
        assert (L1 : zlen (m_rtp_buffer this1) = zlen (m_rtp_buffer this) + packets_size (flush tmp)).
        { change this1 with ((this1, vec1).1). rewrite <- E1. apply emit_buffer_len. }
        rewrite (IH this1 _ _ [n]); [|done|by repeat constructor|lia]. by rewrite emit_app, E1.
      * apply IH; [done| |done]. apply Forall2_app; [done|]. by repeat constructor.
Qed.

(** The slots of packets laid out one after the other from offset [o]. *)
Fixpoint slots (o : Z) (ps : list (list Z)) : list (Z * Z) :=
  match ps with
  | [] => []
  | p :: ps => (o, zlen p) :: slots (o + zlen p) ps
  end.

Lemma slots_points pre ps post : points_to (pre ++ concat ps ++ post) (slots (zlen pre) ps) ps.
Proof.
  revert pre. induction ps as [|p ps IH]; intros pre; [constructor|].
  cbn [slots concat]. rewrite <- app_assoc. constructor; [apply rd_range_app|].
  rewrite <- zlen_app, app_assoc. apply IH.
Qed.

(** The buffer does not matter for the headers. *)
Lemma packet_wires_buffer l t b : packet_wires (set_buffer t b) l = packet_wires t l.
Proof.
  revert t. induction l as [|q l IH]; intros t; [done|]. cbn [packet_wires]. f_equal.
  change (next_sequence (set_buffer t b)) with (set_buffer (next_sequence t) b). apply IH.
Qed.

(** Emitting packets lays them out at the end of the buffer. *)
Lemma emit_layout payloads this vec :
  let bs := wire_bytes <$> packet_wires this payloads in
  m_rtp_buffer (emit (this, vec) payloads).1 = m_rtp_buffer this ++ concat bs
  ∧ (emit (this, vec) payloads).2 = vec ++ slots (zlen (m_rtp_buffer this)) bs.
Proof.
  revert this vec. induction payloads as [|p payloads IH]; intros this vec bs; subst bs.
  - cbn. by rewrite !app_nil_r.
  - cbn [packet_wires]. rewrite fmap_cons. cbn [concat slots].
    change (emit (this, vec) (p :: payloads)) with (emit (emit1 (this, vec) p) payloads).
    unfold emit1. cbn [fst snd].
    set (w := wire_bytes (packet_wire this p)).
    destruct (IH (next_sequence (set_buffer this (m_rtp_buffer this ++ w)))
                (vec ++ [(zlen (m_rtp_buffer this), zlen w)])) as [-> ->].
    change (next_sequence (set_buffer this ?b)) with (set_buffer (next_sequence this) b).
    rewrite packet_wires_buffer. cbn [set_buffer next_sequence m_rtp_buffer].
    by rewrite <- !app_assoc, zlen_app.
Qed.

Lemma emit_sequence payloads this vec :
  0 <= m_sequence this < 4294967296 →
  m_sequence (emit (this, vec) payloads).1 = u32 (m_sequence this + zlen payloads).
Proof.
  revert this vec. induction payloads as [|p payloads IH]; intros this vec Hs.
  - cbn [emit foldl fst]. change (zlen (@nil (list Z))) with 0. by rewrite Z.add_0_r, u32_id.
  - change (emit (this, vec) (p :: payloads)) with (emit (emit1 (this, vec) p) payloads).
    unfold emit1. cbn [fst snd]. rewrite IH; cbn [next_sequence m_sequence set_buffer].
    + rewrite zlen_cons. unfold u32. rewrite Zplus_mod_idemp_l. f_equal. lia.
    + apply u32_range.
Qed.

Lemma receive_layout this mem ns :
  m_initialize this = true → points_to mem (m_nalu_vec this) ns → 0 <= m_sequence this < 4294967296 →
  packets_size (packetize ns 0 []) < RTP_PACKETS_BUFFER_SIZE →
  let bs := wire_bytes <$> packet_wires this (packetize ns 0 []) in
  ∃ this', receive_rtp_packets this mem [] = Ok (true, (this', slots 0 bs))
    ∧ m_rtp_buffer this' = concat bs
    ∧ m_sequence this' = u32 (m_sequence this + zlen (packetize ns 0 [])).
Proof.
  intros Hi Hv Hs Hsz bs. unfold receive_rtp_packets.
  rewrite (receive_loop_ok _ mem ns _ 0 [] []); [|done|done|constructor|done].
  destruct (emit_layout (packetize ns 0 []) (set_buffer this []) []) as [EB EV].
  pose proof (emit_sequence (packetize ns 0 []) (set_buffer this []) [] Hs) as Hq.
  rewrite packet_wires_buffer in EB, EV. fold bs in EB, EV.
  destruct (emit (set_buffer this [], []) (packetize ns 0 [])) as [this' packets].
  cbn [fst snd app set_buffer m_rtp_buffer] in *. subst packets. by exists this'.
Qed.

(** C25: The packets handed out are those of [packetize], numbered in a row, as long as
    they fit in the packet buffer together. *)
Theorem receive_rtp_packets_correct this mem ns :
  m_initialize this = true → points_to mem (m_nalu_vec this) ns → 0 <= m_sequence this < 4294967296 →
  packets_size (packetize ns 0 []) < RTP_PACKETS_BUFFER_SIZE →
  ∃ this' packets,
    receive_rtp_packets this mem [] = Ok (true, (this', packets))
    ∧ points_to (m_rtp_buffer this') packets
        (wire_bytes <$> packet_wires this (packetize ns 0 []))
    ∧ m_sequence this' = u32 (m_sequence this + zlen (packetize ns 0 [])).
Proof.
  intros Hi Hv Hs Hsz. destruct (receive_layout this mem ns Hi Hv Hs Hsz) as (this' & E & EB & Hq).
  do 2 eexists. split_and!; [exact E| |done]. rewrite EB.
  pose proof (slots_points [] (wire_bytes <$> packet_wires this (packetize ns 0 [])) []) as Hp.
  by rewrite app_nil_r in Hp.
Qed.

(** Every packet but those of grouped units is within [RTP_PACKET_SIZE]. *)
Lemma fua_payloads_size fuel nal s l :
  Forall (λ p, zlen p <= RTP_PAYLOAD_SIZE) (fua_payloads fuel nal s l).
Proof.
  revert s l. induction fuel as [|fuel IH]; intros s l; [constructor|]. cbn [fua_payloads].
  constructor; [|destruct (zlen l <=? RTP_PAYLOAD_SIZE - 2); [constructor|apply IH]].
  unfold fua_payload, zlen. cbn [length]. rewrite length_take.
  unfold RTP_PAYLOAD_SIZE, RTP_PACKET_SIZE, sizeof_RTPHeader, sizeof_RTPExtensionHeader. lia.
Qed.

(** The sum of the sizes of the units that wait in [tmp]. *)
Definition group_size (ns : list (list Z)) : Z := zlen (concat ns).

Lemma group_payload_size ns : zlen (group_payload ns) <= group_size ns + 2 * zlen ns + 1.
Proof.
  assert (Hst : zlen (stapa_payload ns) = group_size ns + 2 * zlen ns + 1).
  { unfold stapa_payload, group_size. induction ns as [|n ns IH]; [done|].
    unfold stapa_units in *. rewrite bind_cons. cbn [concat]. autorewrite with rtc_len in *. lia. }
  destruct ns as [|n [|n2 ns]]; [done| |by rewrite <- Hst].
  unfold group_payload, group_size in *. cbn [concat]. rewrite app_nil_r. len.
Qed.

Definition packet_bound (ns : list (list Z)) (p : list Z) : Prop :=
  zlen p <= RTP_PAYLOAD_SIZE + 2 * zlen ns + 1.

Lemma flush_bound ns tmp :
  group_size tmp <= RTP_PAYLOAD_SIZE → zlen tmp <= zlen ns →
  Forall (packet_bound ns) (flush tmp).
Proof.
  intros. destruct tmp as [|n tmp]; [constructor|]. constructor; [|constructor].
  pose proof (group_payload_size (n :: tmp)). unfold packet_bound. lia.
Qed.

(** No contiguous run of units adds up to exactly the payload size. *)
Definition no_exact_run (ns : list (list Z)) : Prop :=
  Forall (λ i, Forall (λ j, group_size (take j (drop i ns)) ≠ RTP_PAYLOAD_SIZE)
                 (seq 0 (S (length ns)))) (seq 0 (S (length ns))).

#[global] Instance no_exact_run_dec ns : Decision (no_exact_run ns).
Proof. unfold no_exact_run; apply _. Defined.

Lemma no_exact_run_at pre run post :
  no_exact_run (pre ++ run ++ post) → group_size run ≠ RTP_PAYLOAD_SIZE.
Proof.
  intros H. unfold no_exact_run in H. rewrite Forall_forall in H.
  specialize (H (length pre)). rewrite Forall_forall in H. specialize (fun Hi => H Hi (length run)).
  rewrite drop_app_length, take_app_length in H. apply H; apply elem_of_seq;
    rewrite !length_app; lia.
Qed.

Lemma group_size_app l k : group_size (l ++ k) = group_size l + group_size k.
Proof. unfold group_size. by rewrite concat_app, zlen_app. Qed.

Lemma group_size_one n : group_size [n] = zlen n.
Proof. unfold group_size. cbn [concat]. by rewrite app_nil_r. Qed.

Lemma packetize_bound_run ns pre tmp :
  no_exact_run (pre ++ tmp ++ ns) → group_size tmp < RTP_PAYLOAD_SIZE →
  Forall (packet_bound (pre ++ tmp ++ ns)) (packetize ns (group_size tmp) tmp).
Proof.
  revert pre tmp. induction ns as [|n ns IH]; intros pre tmp Hex Hsz; cbn [packetize].
  - apply flush_bound; [lia|]. len.
  - assert (Hfl : Forall (packet_bound (pre ++ tmp ++ n :: ns)) (flush tmp))
      by (apply flush_bound; [lia|len]).
    destruct (Z.ltb_spec RTP_PAYLOAD_SIZE (zlen n)).
    + apply Forall_app; split; [done|]. apply Forall_app; split.
      * destruct n as [|b body]; [constructor|].
        eapply Forall_impl; [apply fua_payloads_size|]. intros p Hp. cbv beta in Hp. unfold packet_bound. pose proof (zlen_nonneg (pre ++ tmp ++ (b :: body) :: ns)). lia.
      * replace (if 0 <? zlen tmp then 0 else group_size tmp) with (group_size [])
          by (destruct tmp; [done|by dec_if]).
        replace (pre ++ tmp ++ n :: ns) with ((pre ++ tmp ++ [n]) ++ [] ++ ns) in *
          by (rewrite app_nil_l, <- !app_assoc; done).
        by apply IH.
    + rewrite (proj2 (Z.ltb_lt (group_size tmp) RTP_PAYLOAD_SIZE)) by lia.
      pose proof (no_exact_run_at (pre ++ tmp) [n] ns) as H1.
      rewrite <- !app_assoc in H1. specialize (H1 Hex). rewrite group_size_one in H1.
      pose proof (no_exact_run_at pre (tmp ++ [n]) ns) as H2. rewrite <- app_assoc in H2.
      specialize (H2 Hex). rewrite group_size_app, group_size_one in H2.
      destruct (Z.ltb_spec RTP_PAYLOAD_SIZE (group_size tmp + zlen n)); cbn [andb].
      * apply Forall_app; split; [done|]. rewrite <- (group_size_one n).
        replace (pre ++ tmp ++ n :: ns) with ((pre ++ tmp) ++ [n] ++ ns) in *
          by (rewrite <- !app_assoc; done).
        apply IH; [done|]. rewrite group_size_one. lia.
      * rewrite <- (group_size_one n), <- group_size_app.
        replace (pre ++ tmp ++ n :: ns) with (pre ++ (tmp ++ [n]) ++ ns) in *
          by (rewrite <- !app_assoc; done).
        apply IH; [done|]. rewrite group_size_app, group_size_one. lia.
Qed.

(** The payloads stay within [RTP_PAYLOAD_SIZE] and the sizes of the aggregation
    (which the builder does not count), unless some run of units adds up to exactly
    the payload size. *)
Theorem packetize_bounded ns :
  no_exact_run ns →
  Forall (λ p, zlen p <= RTP_PAYLOAD_SIZE + 2 * zlen ns + 1) (packetize ns 0 []).
Proof. intros H. by apply (packetize_bound_run ns [] []). Qed.

Lemma packetize_after_exact ns total tmp :
  RTP_PAYLOAD_SIZE <= total → Forall (λ n, zlen n <= RTP_PAYLOAD_SIZE) ns →
  packetize ns total tmp = flush (tmp ++ ns).
Proof.
  intros Ht Hns. revert total tmp Ht.
  induction Hns as [|n ns Hn Hns IH]; intros total tmp Ht; cbn [packetize].
  - by rewrite app_nil_r.
  - do 2 dec_if. cbn [andb]. rewrite IH by len. by rewrite <- app_assoc.
Qed.

(** Once the sum of the waiting units is exactly the payload size, every small unit
    that follows goes in the same packet, however large it becomes. *)
Theorem packetize_exact_unbounded n ns :
  zlen n = RTP_PAYLOAD_SIZE → ns ≠ [] → Forall (λ m, zlen m <= RTP_PAYLOAD_SIZE) ns →
  packetize (n :: ns) 0 [] = [stapa_payload (n :: ns)].
Proof.
  intros Hn Hne Hns. cbn [packetize]. rewrite Hn, Z.ltb_irrefl. cbn [Z.add].
  rewrite Z.ltb_irrefl, andb_false_r. rewrite packetize_after_exact by (done || lia).
  by destruct ns.
Qed.

(** The test before a unit of a STAP-A packet does not count the three bytes in
    front of it: near the end of the packet buffer they are written past it. *)
Theorem build_packet_stapa_overflow this mem o n s v vec :
  m_initialize this = true → rd_range mem o (zlen n) = Ok n → n ≠ [] →
  zlen (m_rtp_buffer this) + 28 + zlen n < RTP_PACKETS_BUFFER_SIZE →
  RTP_PACKETS_BUFFER_SIZE < zlen (m_rtp_buffer this) + 28 + 3 + zlen n →
  build_packet this mem ((o, zlen n) :: s :: v) vec = Fault.
Proof.
  intros Hi Hn Hne Hlt Hgt. assert (0 < zlen n) by (destruct n; [done|len]).
  unfold build_packet, sizeof_RTPHeader, sizeof_RTPExtensionHeader.
  rewrite room_ok by (done || lia). cbn [negb]. cbv iota. step write_headers_ok by (done || lia).
  cbn [stapa_write]. rewrite room_ok by (done || (cbn [set_buffer m_rtp_buffer]; len)).
  cbn [negb]. cbv iota. step write_ok by (done || (cbn [set_buffer m_rtp_buffer]; len)).
  match goal with |- context [write ?t ?bs] => destruct (write t bs) eqn:W end; [|done|].
  2:{ unfold write in W. by case_match. }
  step_bind. step Hn. unfold write in W. case_match; [|done]. injection W as <-.
  unfold write, m_rtp_buffer_end. cbn [set_buffer m_rtp_buffer m_initialize]. rewrite Hi. by rewrite (proj2 (Z.leb_gt _ _)) by len.
Qed.

(** ** Concrete runs *)

(** A parameter set, a short slice, and a slice that is cut in fragments. *)
Definition sample_frame : list (bool * list Z) :=
  [(true, [103; 66; 0; 30]); (false, [65; 154; 1]); (true, 101 :: replicate 1400 7)].

Lemma sample_frame_ok : units_ok sample_frame.
Proof. by_table. Qed.

Lemma send_data_total_witness : ∃ v,
  send_data new_builder 0 [0; 0; 1; 65; 0; 0; 0; 1; 0; 0] 10
    = Ok (true, set_nalus new_builder v)
  ∧ Forall (nalu_slot_ok 10) v.
Proof. apply (send_data_total new_builder 0 [0; 0; 1; 65; 0; 0; 0; 1; 0; 0]); by_table. Defined.

Lemma send_data_annexb_witness : ∃ v,
  send_data new_builder 2 (annexb sample_frame) (zlen (annexb sample_frame))
    = Ok (true, set_nalus new_builder v)
  ∧ points_to (annexb sample_frame) v sample_frame.*2.
Proof.
  apply (send_data_annexb new_builder 2 sample_frame); [exact sample_frame_ok|by_table].
Defined.

(** The builder after [send_data] of the sample, at the last sequence number. *)
Definition sample_builder : RTPH264PacketBuilder :=
  set_nalus (set_ssrc (init new_builder 65535 5).2 9) [(4, 4); (11, 3); (18, 1401)].

Lemma receive_rtp_packets_correct_witness : ∃ this' packets,
  receive_rtp_packets sample_builder (annexb sample_frame) [] = Ok (true, (this', packets))
  ∧ points_to (m_rtp_buffer this') packets
      (wire_bytes <$> packet_wires sample_builder (packetize sample_frame.*2 0 []))
  ∧ m_sequence this' = u32 (65535 + zlen (packetize sample_frame.*2 0 []))
  ∧ length packets = 3%nat ∧ m_sequence this' = 65538.
Proof.
  assert (Hv : points_to (annexb sample_frame) (m_nalu_vec sample_builder) sample_frame.*2).
  { repeat constructor. }
  assert (Hs : 0 <= m_sequence sample_builder < 4294967296) by by vm_compute.
  assert (Hsz : packets_size (packetize sample_frame.*2 0 []) < RTP_PACKETS_BUFFER_SIZE)
    by by vm_compute.
  destruct (receive_rtp_packets_correct sample_builder (annexb sample_frame) sample_frame.*2
              eq_refl Hv Hs Hsz) as (this' & packets & E & Hp & Hq).
  exists this', packets. split_and!; [done..| |].
  - rewrite (Forall2_length _ _ _ Hp). by vm_compute.
  - rewrite Hq. by vm_compute.
Defined.

Lemma packetize_bounded_witness :
  Forall (λ p, zlen p <= RTP_PAYLOAD_SIZE + 2 * zlen sample_frame.*2 + 1)
    (packetize sample_frame.*2 0 []).
Proof. apply (packetize_bounded sample_frame.*2). by_table. Defined.

Lemma packetize_exact_unbounded_witness :
  packetize [replicate 1372 7; replicate 1372 7; replicate 1372 7] 0 []
  = [stapa_payload [replicate 1372 7; replicate 1372 7; replicate 1372 7]].
Proof.
  apply (packetize_exact_unbounded (replicate 1372 7) [replicate 1372 7; replicate 1372 7]).
  - by vm_compute.
  - discriminate.
  - by_table.
Defined.

Definition nearly_full : RTPH264PacketBuilder :=
  set_buffer (init new_builder 0 0).2 (replicate (Z.to_nat (RTP_PACKETS_BUFFER_SIZE - 31)) 0).

Lemma nearly_full_len : zlen (m_rtp_buffer nearly_full) = RTP_PACKETS_BUFFER_SIZE - 31.
Proof.
  unfold nearly_full, set_buffer, zlen. cbn [m_rtp_buffer]. rewrite length_replicate.
  unfold RTP_PACKETS_BUFFER_SIZE. lia.
Qed.

Lemma build_packet_stapa_overflow_witness :
  build_packet nearly_full [65; 1; 104; 2] [(0, 2); (2, 2)] [] = Fault.
Proof.
  apply (build_packet_stapa_overflow nearly_full [65; 1; 104; 2] 0 [65; 1] (2, 2) [] []).
  - reflexivity.
  - reflexivity.
  - discriminate.
  - rewrite nearly_full_len. reflexivity.
  - rewrite nearly_full_len. reflexivity.
Defined.
