(* ===== verification/H264RoundTrip.v ===== *)
(** * H264RoundTrip: what the sender packetizes the receiver reassembles

    The contract between [RTPH264PacketBuilder] and [RTPH264FrameAssembler]: the
    packets of a frame, parsed and pushed in order, give back its NAL units. *)

From S2P Require Import Prelude.
From S2P Require Import RTPPacket.
From S2P Require Import CodecAvc.
From S2P Require Import RTPH264FrameAssembler.
From S2P Require Import RTPH264PacketBuilder.

(** ** What is received *)

(** [bs] holds the NAL units [ns], each behind a start code. *)
Definition renders (bs : list Z) (ns : list (list Z)) : Prop :=
  ∃ longs : list bool, length longs = length ns ∧ bs = annexb (zip longs ns).

(** A unit the receiver can take from a packet of its own or from an aggregate: its
    type is one of a single NAL unit, and the assembler finds the second byte it
    looks at. *)
Definition sendable (n : list Z) : Prop :=
  n ≠ [] ∧ is_bytes n ∧
  (zlen n <= RTP_PAYLOAD_SIZE → classifiable n ∧ Forall (λ b, Z.land b 31 <= 23) (take 1 n)).

#[global] Instance sendable_dec n : Decision (sendable n).
Proof. unfold sendable; apply _. Defined.

(** The frame of the units fits in the assembler. *)
Definition frame_room (ns : list (list Z)) : Prop :=
  zlen (concat ns) + 4 * zlen ns + 10 <= ASSEMBLER_BUFFER_SIZE.

Lemma renders_nil : renders [] [].
Proof. by exists []. Qed.

Lemma renders_app a b ns ms : renders a ns → renders b ms → renders (a ++ b) (ns ++ ms).
Proof.
  intros (l & Hl & ->) (k & Hk & ->). exists (l ++ k). rewrite !length_app. split; [lia|].
  unfold annexb. rewrite zip_with_app by done. by rewrite bind_app.
Qed.

Lemma code_of_start n : code_of n = start_code (negb (short_code n)).
Proof. unfold code_of. by destruct (short_code n). Qed.

Lemma renders_one (long : bool) n : renders (start_code long ++ n) [n].
Proof. exists [long]. split; [done|]. unfold annexb. cbn. by rewrite app_nil_r. Qed.

Lemma renders_stapa ns : renders (stapa_frame ns) ns.
Proof.
  induction ns as [|n ns IH]; [apply renders_nil|].
  change (renders ((code_of n ++ n) ++ stapa_frame ns) ([n] ++ ns)).
  apply renders_app; [|done]. rewrite code_of_start. apply renders_one.
Qed.

(** ** Pushing the packets of one kind *)

Lemma push_packets_one this p this' :
  push_packet this p = Ok (true, this') → push_packets this [p] = Ok ([m_frame this'], this').
Proof. intros E. cbn [push_packets]. by step E. Qed.

(** The last of the packets completes a frame. *)
Definition last_completes (this : RTPH264FrameAssembler) (packets : list RTPPacket) : Prop :=
  packets ≠ [] → ∃ ps p fs a1 a2, packets = ps ++ [p]
    ∧ push_packets this ps = Ok (fs, a1) ∧ push_packet a1 p = Ok (true, a2).

Lemma last_completes_nil this : last_completes this [].
Proof. intros H. by destruct H. Qed.

Lemma last_completes_one this p a : push_packet this p = Ok (true, a) → last_completes this [p].
Proof. intros E _. exists [], p, [], this, a. by split_and!. Qed.

Lemma last_completes_app this q1 q2 f1 a1 :
  push_packets this q1 = Ok (f1, a1) → last_completes this q1 → last_completes a1 q2 →
  last_completes this (q1 ++ q2).
Proof.
  intros E1 H1 H2. destruct q2 as [|p2 q2]; [by rewrite app_nil_r|]. intros _.
  destruct H2 as (ps & p & fs & b1 & b2 & E & E2 & E3); [done|]. rewrite E.
  exists (q1 ++ ps), p, (f1 ++ fs), b1, b2. split_and!; [by rewrite app_assoc| |done].
  rewrite push_packets_app. step E1. cbn [snd fst]. by step E2.
Qed.

Lemma last_completes_cons this p rest b a1 :
  push_packet this p = Ok (b, a1) → rest ≠ [] → last_completes a1 rest →
  last_completes this (p :: rest).
Proof.
  intros E Hne H. destruct (H Hne) as (ps & q & fs & b1 & b2 & -> & E2 & E3). intros _.
  exists (p :: ps), q, (if b then get_frame_data a1 :: fs else fs), b1, b2.
  split_and!; [done| |done]. cbn [push_packets]. step E. step E2. by destruct b.
Qed.

(** The fragments behind the first one. *)
Lemma push_fua_tail fuel this nal l packets :
  RTPH264FrameAssembler.m_initialize this = true → is_byte nal → l ≠ [] →
  (length l <= fuel)%nat →
  Forall2 carries packets (fua_payloads fuel nal false l) →
  zlen (m_frame this) + zlen l + 5 <= ASSEMBLER_BUFFER_SIZE →
  push_packets this packets = Ok ([m_frame this ++ l], set_frame this (m_frame this ++ l))
  ∧ packets ≠ [] ∧ last_completes this packets.
Proof.
  intros Hi Hnal. revert this l packets Hi.
  induction fuel as [|fuel IH]; intros this l packets Hi Hne Hf Hp Hsz.
  { destruct l; [done|simpl in Hf; lia]. }
  assert (Hpos : 0 < zlen l) by (destruct l; [done|len]). pose proof (zlen_nonneg (m_frame this)).
  cbn [fua_payloads] in Hp. change (RTP_PAYLOAD_SIZE - 2) with 1370 in Hp.
  inversion Hp as [|p ? packets' ? H1 Hrest]; subst. clear Hp.
  set (frag := take (Z.to_nat 1370) l) in *.
  assert (Hfrag : zlen frag = Z.min 1370 (zlen l)).
  { unfold frag, zlen. rewrite length_take. lia. }
  assert (Hfne : frag ≠ []).
  { intros E. rewrite E in Hfrag. change (zlen (@nil Z)) with 0 in Hfrag. lia. }
  cbn [push_packets]. destruct (Z.leb_spec (zlen l) 1370).
  - inversion Hrest; subst.
    assert (frag = l) as Efr by (unfold frag; apply take_ge; unfold zlen in *; lia).
    pose proof (push_packet_fua this p nal false true frag Hi Hnal H1 Hfne ltac:(done)
                  ltac:(lia) ltac:(cbv iota; lia)) as E1.
    split_and!; [|done|exact (last_completes_one _ _ _ E1)]. step E1. by rewrite Efr.
  - pose proof (push_packet_fua this p nal false false frag Hi Hnal H1 Hfne ltac:(done)
                  ltac:(lia) ltac:(cbv iota; lia)) as E1. cbn beta iota in E1.
    assert (Hd : zlen (drop (Z.to_nat 1370) l) = zlen l - 1370) by (apply zlen_drop; lia).
    destruct (IH (set_frame this (m_frame this ++ frag)) (drop (Z.to_nat 1370) l) packets')
      as (E2 & Hne2 & Hlast); [done|..].
    + intros E. rewrite E in Hd. change (zlen (@nil Z)) with 0 in Hd. lia.
    + unfold zlen in *. lia.
    + done.
    + cbn [set_frame m_frame]. len.
    + split_and!; [|done|by eapply last_completes_cons].
      step E1. step E2. cbn [set_frame m_frame]. rewrite <- app_assoc. unfold frag.
      by rewrite take_drop.
Qed.

(** A fragmented unit comes back as one frame. *)
Lemma push_fua this nal body packets :
  RTPH264FrameAssembler.m_initialize this = true → is_byte nal →
  RTP_PAYLOAD_SIZE < zlen (nal :: body) →
  Forall2 carries packets (fua_of (nal :: body)) →
  zlen (nal :: body) + 10 <= ASSEMBLER_BUFFER_SIZE →
  ∃ long, let frame := start_code long ++ nal :: body in
    push_packets this packets = Ok ([frame], set_frame this frame)
    ∧ last_completes this packets.
Proof.
  intros Hi Hnal Hbig Hp Hsz. change RTP_PAYLOAD_SIZE with 1372 in Hbig.
  assert (Hk : (length body <= length (nal :: body))%nat) by (simpl; lia).
  unfold fua_of in Hp. revert Hk Hp. generalize (length (nal :: body)). intros k Hk Hp.
  rewrite zlen_cons in *. cbn [fua_payloads] in Hp.
  change (RTP_PAYLOAD_SIZE - 2) with 1370 in Hp.
  rewrite (proj2 (Z.leb_gt (zlen body) 1370)) in Hp by lia.
  inversion Hp as [|p ? packets' ? H1 Hrest]; subst. clear Hp.
  set (frag := take (Z.to_nat 1370) body) in *.
  assert (Hfrag : zlen frag = 1370) by (apply zlen_take; lia).
  assert (Hcl : classifiable frag).
  { destruct frag as [|a [|b frag']]; [..|done]; unfold zlen in Hfrag; simpl in Hfrag; lia. }
  assert (Hfne : frag ≠ []) by by intros ->.
  exists (negb (short_code frag)). cbn zeta. cbn [push_packets].
  pose proof (push_packet_fua this p nal true false frag Hi Hnal H1 Hfne ltac:(done)
    ltac:(lia) ltac:(cbv iota; change (zlen (@nil Z)) with 0; lia)) as E1. cbn beta iota in E1.
  assert (Hd : zlen (drop (Z.to_nat 1370) body) = zlen body - 1370) by (apply zlen_drop; lia).
  pose proof (zlen_code_of frag).
  destruct (push_fua_tail k (set_frame this (code_of frag ++ nal :: frag)) nal
             (drop (Z.to_nat 1370) body) packets' Hi Hnal) as (E2 & Hne2 & Hlast);
    [..|exact Hrest| |].
  - intros E. rewrite E in Hd. change (zlen (@nil Z)) with 0 in Hd. lia.
  - unfold zlen in *. simpl. lia.
  - cbn [set_frame m_frame]. len.
  - split; [|by eapply last_completes_cons].
    step E1. step E2. cbn [set_frame m_frame]. rewrite <- code_of_start, <- app_assoc. cbn [app].
    unfold set_frame, frag. cbn. by rewrite take_drop.
Qed.

(** A group of units comes back as one frame. *)
Lemma push_flush this tmp packets :
  RTPH264FrameAssembler.m_initialize this = true →
  Forall (λ n, sendable n ∧ zlen n <= RTP_PAYLOAD_SIZE) tmp → frame_room tmp →
  Forall2 carries packets (flush tmp) →
  ∃ frames this', push_packets this packets = Ok (frames, this')
    ∧ RTPH264FrameAssembler.m_initialize this' = true ∧ renders (concat frames) tmp
    ∧ last_completes this packets.
Proof.
  intros Hi Hok Hroom Hp. unfold frame_room in Hroom. destruct tmp as [|n tmp].
  { inversion Hp; subst. exists [], this. split_and!; [done..|apply renders_nil|apply last_completes_nil]. }
  unfold flush in Hp. inversion Hp as [|p ? ? ? H1 Hnil]; subst. inversion Hnil; subst. clear Hp Hnil.
  assert (Hfr : zlen (stapa_frame (n :: tmp)) + 10 <= ASSEMBLER_BUFFER_SIZE).
  { assert (zlen (stapa_frame (n :: tmp)) <= zlen (concat (n :: tmp)) + 4 * zlen (n :: tmp)); [|lia].
    clear. generalize (n :: tmp). intros l. induction l as [|m l IH]; [done|].
    change (stapa_frame (m :: l)) with ((code_of m ++ m) ++ stapa_frame l). cbn [concat].
    pose proof (zlen_code_of m). len. }
  assert (Hpush : push_packet this p = Ok (true, set_frame this (stapa_frame (n :: tmp)))).
  { pose proof (zlen_nonneg (concat tmp)). cbn [concat] in Hroom. autorewrite with rtc_len in Hroom.
    destruct tmp as [|m tmp].
    - inversion Hok as [|? ? [(Hne & Hb & Hs) Hle] _]; subst. destruct (Hs Hle) as [Hc Ht].
      destruct n as [|b n]; [done|]. unfold group_payload in H1. cbn [take] in Ht.
      inversion Ht; subst.
      rewrite (push_packet_single_spec this p b n Hi H1 Hc); [|done| |].
      + unfold stapa_frame. by rewrite bind_cons, app_nil_r.
      + apply Z.land_nonneg. right; lia.
      + change (zlen (@nil (list Z))) with 0 in Hroom. len.
    - apply push_packet_stapa_spec; [done|done| | |lia].
      + eapply Forall_impl; [exact Hok|]. intros k [(Hne & Hb & Hs) Hle]. destruct (Hs Hle) as [Hc _].
        split; [done|]. change RTP_PAYLOAD_SIZE with 1372 in Hle. lia.
      + pose proof (stapa_frame_len (n :: m :: tmp)) as _.
        assert (zlen (stapa_payload (n :: m :: tmp)) = group_size (n :: m :: tmp) + 2 * zlen (n :: m :: tmp) + 1) as ->.
        { unfold stapa_payload, group_size. generalize (n :: m :: tmp). clear. intros l.
          induction l as [|k l IH]; [done|]. unfold stapa_units in *. rewrite bind_cons.
          cbn [concat]. autorewrite with rtc_len in *. lia. }
        unfold group_size. cbn [concat] in *. autorewrite with rtc_len in *.
        unfold ASSEMBLER_BUFFER_SIZE in *. len_pos. lia. }
  exists [stapa_frame (n :: tmp)], (set_frame this (stapa_frame (n :: tmp))).
  split_and!; [by apply push_packets_one in Hpush|done| |by eapply last_completes_one].
  cbn [concat]. rewrite app_nil_r. apply renders_stapa.
Qed.

(** ** The frame *)

Lemma frame_room_app l k : frame_room (l ++ k) → frame_room l ∧ frame_room k.
Proof. unfold frame_room. rewrite concat_app, !zlen_app. len_pos. lia. Qed.

Lemma push_packetize ns this total tmp packets :
  RTPH264FrameAssembler.m_initialize this = true →
  Forall (λ n, sendable n ∧ zlen n <= RTP_PAYLOAD_SIZE) tmp → Forall sendable ns →
  frame_room (tmp ++ ns) →
  Forall2 carries packets (packetize ns total tmp) →
  ∃ frames this', push_packets this packets = Ok (frames, this')
    ∧ RTPH264FrameAssembler.m_initialize this' = true ∧ renders (concat frames) (tmp ++ ns)
    ∧ last_completes this packets.
Proof.
  intros Hi Htmp Hns. revert this total tmp packets Hi Htmp.
  induction Hns as [|n ns Hn Hns IH]; intros this total tmp packets Hi Htmp Hroom Hp;
    cbn [packetize] in Hp.
  { rewrite app_nil_r in *. by apply push_flush. }
  assert (Hsplit : ∀ l k q, Forall2 carries q (l ++ k) →
            ∃ q1 q2, q = q1 ++ q2 ∧ Forall2 carries q1 l ∧ Forall2 carries q2 k).
  { intros l k q Hq. apply Forall2_app_inv_r in Hq as (q1 & q2 & ? & ? & ->). eauto. }
  destruct (frame_room_app _ _ Hroom) as [Hr1 Hr2].
  change (n :: ns) with ([n] ++ ns) in Hr2. destruct (frame_room_app _ _ Hr2) as [Hr3 Hr4].
  destruct (Z.ltb_spec RTP_PAYLOAD_SIZE (zlen n)) as [Hbig|Hsmall].
  - apply Hsplit in Hp as (q1 & q2 & -> & Hq1 & Hq2).
    apply Hsplit in Hq2 as (q2' & q3 & -> & Hq2 & Hq3).
    destruct (push_flush this tmp q1) as (f1 & t1 & E1 & Hi1 & Hr & L1); [done..|].
    destruct Hn as (Hne & Hb & _). destruct n as [|nal body]; [done|].
    apply Forall_cons in Hb as [Hb _].
    destruct (push_fua t1 nal body q2') as (long & E2 & L2); [done..| |].
    { unfold frame_room in Hr3. cbn [concat] in Hr3. rewrite app_nil_r in Hr3.
      autorewrite with rtc_len in *. len_pos. lia. }
    destruct (IH (set_frame t1 (start_code long ++ nal :: body))
                (if 0 <? zlen tmp then 0 else total) [] q3) as (f3 & t3 & E3 & Hi3 & Hr3' & L3);
      [done|constructor|done|done|].
    exists (f1 ++ [start_code long ++ nal :: body] ++ f3), t3. split_and!; [|done| |].
    + rewrite push_packets_app, E1. step_bind. cbn [snd fst].
      rewrite push_packets_app, E2. step_bind. cbn [snd fst]. rewrite E3. by step_bind.
    + rewrite concat_app. apply renders_app; [done|].
      change ((nal :: body) :: ns) with ([nal :: body] ++ ns). rewrite concat_app.
      apply renders_app; [|done]. cbn [concat]. rewrite app_nil_r. apply renders_one.
    + eapply last_completes_app; [done|done|]. by eapply last_completes_app.
  - destruct ((total <? RTP_PAYLOAD_SIZE) && (RTP_PAYLOAD_SIZE <? total + zlen n)).
    + apply Hsplit in Hp as (q1 & q2 & -> & Hq1 & Hq2).
      destruct (push_flush this tmp q1) as (f1 & t1 & E1 & Hi1 & Hr & L1); [done..|].
      destruct (IH t1 (zlen n) [n] q2) as (f2 & t2 & E2 & Hi2 & Hr2' & L2); [done| |done|done|].
      { by apply Forall_singleton. }
      exists (f1 ++ f2), t2. split_and!; [|done| |by eapply last_completes_app].
      * rewrite push_packets_app, E1. step_bind. cbn [snd fst]. rewrite E2. by step_bind.
      * rewrite concat_app. by apply renders_app.
    + destruct (IH this (total + zlen n) (tmp ++ [n]) packets) as (f & t & E & Hi' & Hr & L);
        [done| | |done|].
      { apply Forall_app; split; [done|]. by apply Forall_singleton. }
      { by rewrite <- app_assoc. }
      rewrite <- app_assoc in Hr. eauto 10.
Qed.

(** The frames the assembler completes from the payloads of a frame are, put end to
    end, an Annex-B stream of exactly the NAL units that were sent. *)
Lemma packetize_reassembled ns this packets :
  RTPH264FrameAssembler.m_initialize this = true → Forall sendable ns → frame_room ns →
  Forall2 carries packets (packetize ns 0 []) →
  ∃ frames this', push_packets this packets = Ok (frames, this') ∧ renders (concat frames) ns
    ∧ last_completes this packets.
Proof.
  intros Hi Hns Hroom Hp. destruct (push_packetize ns this 0 [] packets) as (f & t & E & _ & Hr & L);
    [done|constructor|done..|]. eauto.
Qed.
