(* ===== verification/PortManager.v ===== *)
(** * PortManager: the pool of UDP ports

    Models [src/common/common_port_manager.h] and [.cpp].  A call holds [m_mutex]
    from its first line to its return, so calls are atomic.  [check_available]
    creates a socket and binds it: what [socket] and [bind] answer for a port at
    that moment is an argument. *)

From S2P Require Import Prelude.

Record PortManager := mkPortManager {
  m_initialized : bool;
  m_available_ports : list Z;
  m_ports_in_use : gset Z;
}.

Definition new_manager : PortManager :=
  {| m_initialized := false; m_available_ports := []; m_ports_in_use := ∅ |}.

(** [for (uint16_t i = start; i < end; i++)]. *)
Definition port_range (first last : Z) : list Z :=
  Z.of_nat <$> seq (Z.to_nat first) (Z.to_nat (last - first)).

Definition initialize_udp_ports (this : PortManager) (first last : Z) : PortManager :=
  if m_initialized this then this
  else {| m_initialized := true; m_available_ports := port_range first last;
          m_ports_in_use := ∅ |}.

(** The state of the machine: what [socket] returns, and [bind] on [0.0.0.0] and a
    port. *)
Record probe := mkProbe { socket_ : Z → Z; bind_ : Z → Z }.

Definition check_available (os : probe) (port : Z) : bool :=
  if socket_ os port =? -1 then false else bind_ os port =? 0.

(** The ports in use, in the order of the [std::set]. *)
Definition in_order (s : gset Z) : list Z := merge_sort Z.le (elements s).

(** All the ports in use become available again. *)
Definition recycle (this : PortManager) : PortManager :=
  match m_available_ports this with
  | [] => {| m_initialized := m_initialized this;
             m_available_ports := in_order (m_ports_in_use this); m_ports_in_use := ∅ |}
  | _ => this
  end.

(** [while (!m_available_ports.empty())]: take the first port; keep it if it can be
    bound. *)
Fixpoint take_port (os : probe) (available : list Z) (in_use : gset Z)
    : option Z * (list Z * gset Z) :=
  match available with
  | [] => (None, ([], in_use))
  | port :: available =>
      if check_available os port then (Some port, (available, {[port]} ∪ in_use))
      else take_port os available ({[port]} ∪ in_use)
  end.

Definition get_udp_port (os : probe) (this : PortManager) : option Z * PortManager :=
  let this := recycle this in
  match take_port os (m_available_ports this) (m_ports_in_use this) with
  | (Some port, (available, in_use)) =>
      (Some port, {| m_initialized := m_initialized this; m_available_ports := available;
                     m_ports_in_use := in_use |})
  | (None, (available, in_use)) =>
      (None, recycle {| m_initialized := m_initialized this; m_available_ports := available;
                        m_ports_in_use := in_use |})
  end.

Definition release_port (this : PortManager) (port : Z) : bool * PortManager :=
  if decide (port ∈ m_ports_in_use this)
  then (true, {| m_initialized := m_initialized this;
                 m_available_ports := m_available_ports this ++ [port];
                 m_ports_in_use := m_ports_in_use this ∖ {[port]} |})
  else (false, this).

(** [get_available_port] of the clients: port 0 (let the system choose) when there
    is none. *)
Definition get_available_port (os : probe) (this : PortManager) : Z * PortManager :=
  match get_udp_port os this with
  | (Some port, this) => (port, this)
  | (None, this) => (0, this)
  end.

(** ** The invariant: the two collections partition the pool *)

Definition pool (this : PortManager) : gset Z :=
  list_to_set (m_available_ports this) ∪ m_ports_in_use this.

Definition wf (this : PortManager) : Prop :=
  NoDup (m_available_ports this) ∧
  ∀ port, port ∈ m_available_ports this → port ∉ m_ports_in_use this.

Lemma in_order_elem s port : port ∈ in_order s ↔ port ∈ s.
Proof. unfold in_order. by rewrite merge_sort_Permutation, elem_of_elements. Qed.

Lemma in_order_NoDup s : NoDup (in_order s).
Proof. unfold in_order. rewrite merge_sort_Permutation. apply NoDup_elements. Qed.

Lemma recycle_wf this : wf this → wf (recycle this) ∧ pool (recycle this) = pool this.
Proof.
  unfold recycle, pool, wf. destruct (m_available_ports this) as [|port l] eqn:E.
  - intros _. cbn. split; [split; [apply in_order_NoDup|set_solver]|].
    apply set_eq. intros x. rewrite elem_of_union, elem_of_list_to_set, in_order_elem. set_solver.
  - by rewrite E.
Qed.

Lemma take_port_spec os available in_use :
  NoDup available → (∀ port, port ∈ available → port ∉ in_use) →
  let '(r, (available', in_use')) := take_port os available in_use in
  NoDup available' ∧ (∀ port, port ∈ available' → port ∉ in_use')
  ∧ list_to_set available' ∪ in_use' =@{gset Z} list_to_set available ∪ in_use
  ∧ match r with
    | Some port => check_available os port = true ∧ port ∈ available ∧ port ∈ in_use'
                   ∧ port ∉ in_use
                   ∧ ∃ refused, available = refused ++ port :: available'
                       ∧ Forall (λ p, check_available os p = false) refused
    | None => available' = [] ∧ Forall (λ p, check_available os p = false) available
    end.
Proof.
  revert in_use. induction available as [|port available IH]; intros in_use Hnd Hdis.
  { cbn. split_and!; [done|set_solver|done|done|constructor]. }
  apply NoDup_cons in Hnd as [Hin Hnd]. cbn [take_port].
  destruct (check_available os port) eqn:E.
  - split_and!; [done|set_solver|set_solver|done|set_solver|set_solver|set_solver|].
    by exists [].
  - specialize (IH ({[port]} ∪ in_use) Hnd ltac:(set_solver)).
    destruct (take_port os available ({[port]} ∪ in_use)) as [[q|] [av iu]].
    + destruct IH as (H1 & H2 & H3 & H4 & H5 & H6 & H7 & refused & H8 & H9).
      split_and!; [done|done|rewrite H3; set_solver|done|set_solver|done|set_solver|].
      exists (port :: refused). split; [by rewrite H8|by constructor].
    + destruct IH as (H1 & H2 & H3 & H4 & H5).
      split_and!; [done|done|rewrite H3; set_solver|done|by constructor].
Qed.

Lemma initialize_udp_ports_wf this first last :
  m_initialized this = false → wf (initialize_udp_ports this first last).
Proof.
  intros E. unfold initialize_udp_ports. rewrite E. split; cbn; [|set_solver].
  apply NoDup_fmap_2; [by intros ?? ?%Nat2Z.inj|apply NoDup_seq].
Qed.

Lemma get_udp_port_spec os this :
  wf this →
  let '(r, this') := get_udp_port os this in
  wf this' ∧ pool this' = pool this ∧
  match r with
  | Some port =>
      check_available os port = true ∧ port ∈ m_ports_in_use this'
      ∧ port ∉ m_ports_in_use (recycle this)
      ∧ ∃ refused, m_available_ports (recycle this) = refused ++ port :: m_available_ports this'
          ∧ Forall (λ p, check_available os p = false) refused
  | None => m_ports_in_use this' = ∅
            ∧ ∀ port, port ∈ m_available_ports (recycle this) → check_available os port = false
  end.
Proof.
  intros Hwf. destruct (recycle_wf this Hwf) as [[Hnd Hdis] Hpool]. unfold get_udp_port.
  pose proof (take_port_spec os _ _ Hnd Hdis) as Hspec.
  destruct (take_port os _ _) as [[port|] [av iu]].
  - destruct Hspec as (H1 & H2 & H3 & H4 & H5 & H6 & H7 & H8).
    split_and!; [done|unfold pool in *; cbn; by rewrite H3|done|done|done|done].
  - destruct Hspec as (H1 & H2 & H3 & -> & H5).
    destruct (recycle_wf (mkPortManager (m_initialized (recycle this)) [] iu)) as [W P].
    { split; cbn; [constructor|set_solver]. }
    split_and!; [done| |done|].
    + rewrite P. unfold pool in *. cbn [m_available_ports m_ports_in_use]. by rewrite H3.
    + intros port Hp. by eapply Forall_forall in H5.
Qed.

(** C34: The port that is handed out can be bound, and is the first such port of the queue;
    the pool never loses or gains a port.  While the queue holds a port, what is handed out
    was not in use.  When the queue is empty, all the ports in use are put back in it first,
    whether their users are done or not, and may be handed out again. *)
Theorem get_udp_port_correct os this :
  wf this →
  let '(r, this') := get_udp_port os this in
  wf this' ∧ pool this' = pool this ∧
  (m_available_ports this = [] →
     m_available_ports (recycle this) = in_order (m_ports_in_use this)
     ∧ m_ports_in_use (recycle this) = ∅) ∧
  match r with
  | Some port =>
      check_available os port = true ∧ port ∈ m_ports_in_use this'
      ∧ port ∉ m_ports_in_use (recycle this)
      ∧ (m_available_ports this ≠ [] → port ∉ m_ports_in_use this)
      ∧ ∃ refused, m_available_ports (recycle this) = refused ++ port :: m_available_ports this'
          ∧ Forall (λ p, check_available os p = false) refused
  | None => m_ports_in_use this' = ∅
            ∧ ∀ port, port ∈ m_available_ports (recycle this) → check_available os port = false
  end.
Proof.
  intros Hwf. pose proof (get_udp_port_spec os this Hwf) as H.
  destruct (get_udp_port os this) as [r this']. destruct H as (H1 & H2 & H).
  split; [done|]. split; [done|]. split.
  { intros E. unfold recycle. by rewrite E. }
  destruct r as [port|]; [|done]. destruct H as (H3 & H4 & H5 & H6).
  do 3 (split; [done|]). split; [|done]. revert H5. unfold recycle.
  by destruct (m_available_ports this).
Qed.

(** A port that is in use is handed out a second time when the queue has run out. *)
Theorem port_in_use_reissued os init port :
  check_available os port = true →
  (get_udp_port os (mkPortManager init [] {[port]})).1 = Some port.
Proof.
  intros Hc. unfold get_udp_port, recycle. cbn [m_available_ports m_ports_in_use].
  unfold in_order. rewrite elements_singleton. cbn. by rewrite Hc.
Qed.

(** Releasing gives the port back, at the end of the queue; only a port in use can
    be released. *)
Theorem release_port_correct this port :
  wf this →
  let '(r, this') := release_port this port in
  wf this' ∧ pool this' = pool this
  ∧ (r = true ↔ port ∈ m_ports_in_use this)
  ∧ (r = true → m_available_ports this' = m_available_ports this ++ [port]
                ∧ port ∉ m_ports_in_use this')
  ∧ (r = false → this' = this).
Proof.
  intros [Hnd Hdis]. unfold release_port.
  destruct (decide (port ∈ m_ports_in_use this)) as [Hin|Hout];
    [|by split_and!; [split|..]].
  assert (port ∉ m_available_ports this) by (intros Hp; by apply (Hdis port)).
  split_and!; [| |by split|intros _; split; [done|cbn; set_solver]|done].
  - split; cbn.
    + apply NoDup_app. split_and!; [done|set_solver|by apply NoDup_singleton].
    + intros p [Hp|Hp]%elem_of_app; [|set_solver]. specialize (Hdis p Hp). set_solver.
  - unfold pool. cbn. apply set_eq. intros x. rewrite list_to_set_app.
    destruct (decide (x = port)); set_solver.
Qed.

(** The pool of ports 50000 to 50003 on a machine where 50000 is taken. *)
Definition sample_manager : PortManager := initialize_udp_ports new_manager 50000 50004.
Definition sample_probe : probe := mkProbe (λ _, 3) (λ p, if p =? 50000 then -1 else 0).

Lemma sample_manager_wf : wf sample_manager.
Proof. by apply initialize_udp_ports_wf. Qed.

Lemma get_udp_port_correct_witness :
  (get_udp_port sample_probe sample_manager).1 = Some 50001 ∧
  let this' := (get_udp_port sample_probe sample_manager).2 in
  wf this' ∧ pool this' = pool sample_manager.
Proof.
  split; [by vm_compute|].
  pose proof (get_udp_port_correct sample_probe sample_manager sample_manager_wf) as H.
  destruct (get_udp_port sample_probe sample_manager) as [r this'].
  destruct H as (H1 & H2 & _). done.
Defined.

Lemma port_in_use_reissued_witness :
  (get_udp_port sample_probe (mkPortManager true [] {[50001]})).1 = Some 50001.
Proof. by apply (port_in_use_reissued sample_probe true 50001). Defined.

Lemma release_port_correct_witness :
  let this := (get_udp_port sample_probe sample_manager).2 in
  let '(r, this') := release_port this 50001 in
  wf this' ∧ pool this' = pool this ∧ (r = true ↔ 50001 ∈ m_ports_in_use this).
Proof.
  pose proof (get_udp_port_spec sample_probe sample_manager sample_manager_wf) as H.
  cbv zeta. destruct (get_udp_port sample_probe sample_manager) as [r0 this0].
  destruct H as (H1 & _ & _). cbn [snd].
  pose proof (release_port_correct this0 50001 H1) as H.
  destruct (release_port this0 50001). destruct H as (? & ? & ? & _). done.
Defined.
