(* ===== verification/IPAddrV4.v ===== *)
(** * IPAddrV4: a destination address

    Models [src/common/common_address_ipv4.h] and [.cpp].  [inet_addr] is the
    function of the C library, a parameter. *)

From S2P Require Import Prelude.

(** The 16-bit value whose bytes in memory, on a little-endian machine, are those
    of [port] in network order. *)
Definition htons (port : Z) : Z := u8 port * 256 + u8 (port / 256).

Record sockaddr_in := mkSockaddr { sin_addr : Z; sin_port : Z }.

#[global] Instance sockaddr_eq_dec : EqDecision sockaddr_in.
Proof. solve_decision. Defined.

Record IPAddrV4 := mkIPAddrV4 {
  m_sock_addr : sockaddr_in;
  m_ipaddr : string;
  m_port : Z;
}.

Section address.
Context (inet_addr : string → Z).

Definition new_address (ip : string) (port : Z) : IPAddrV4 :=
  {| m_sock_addr := mkSockaddr (inet_addr ip) (htons port); m_ipaddr := ip; m_port := port |}.
End address.

(** [operator ==]. *)
Definition address_eqb (this rhs : IPAddrV4) : bool :=
  (sin_addr (m_sock_addr this) =? sin_addr (m_sock_addr rhs))
  && (sin_port (m_sock_addr this) =? sin_port (m_sock_addr rhs)).

Definition get_sock_addr (this : IPAddrV4) : sockaddr_in := m_sock_addr this.
Definition get_ipaddr (this : IPAddrV4) : string := m_ipaddr this.
Definition get_port (this : IPAddrV4) : Z := m_port this.

(** [htons] only swaps the bytes: distinct ports stay distinct. *)
Lemma htons_inj p q : 0 <= p < 65536 → 0 <= q < 65536 → htons p = htons q → p = q.
Proof. unfold htons, u8. simpl Z.pow. intros. Z.div_mod_to_equations. lia. Qed.

Lemma address_eqb_sock a b : address_eqb a b = true ↔ m_sock_addr a = m_sock_addr b.
Proof.
  unfold address_eqb. rewrite andb_true_iff, !Z.eqb_eq.
  destruct (m_sock_addr a), (m_sock_addr b); cbn. split; [by intros [-> ->]|by intros [= -> ->]].
Qed.
