(* ===== verification/RTPTransmitterV4.v ===== *)
(** * RTPTransmitterV4: datagrams over UDP

    Models [src/rtp/rtp_transmitter_v4.h] and [.cpp] (the POSIX branch).  The calls
    of the socket interface are parameters: what they answer is given per call, and
    the datagrams handed to [sendto] are recorded in order.  [add_destination],
    [delete_destination], [clear_destination] and [send_data] hold [m_mutex] from
    start to return, so they are atomic. *)

From S2P Require Import Prelude.
From S2P Require Import IPAddrV4.
From S2P Require Import PortManager.

Record RTPTransParamsV4 := mkRTPTransParamsV4 {
  bindIP : Z;
  bindPort : Z;
  sendBufferSize : Z;
  recvBufferSize : Z;
  ttl : Z;
}.

Definition default_params : RTPTransParamsV4 :=
  {| bindIP := 0; bindPort := 0; sendBufferSize := 1024 * 32; recvBufferSize := 1024 * 32;
     ttl := 128 |}.

Record RTPTransmitterV4 := mkRTPTransmitterV4 {
  m_initialize : bool;
  m_bind_ip : Z;
  m_bind_port : Z;
  m_bind_socket : Z;
  m_destinations : list IPAddrV4;
}.

Definition new_transmitter : RTPTransmitterV4 :=
  {| m_initialize := false; m_bind_ip := 0; m_bind_port := 0; m_bind_socket := -1;
     m_destinations := [] |}.

Definition set_destinations (this : RTPTransmitterV4) (l : list IPAddrV4) : RTPTransmitterV4 :=
  {| m_initialize := m_initialize this; m_bind_ip := m_bind_ip this;
     m_bind_port := m_bind_port this; m_bind_socket := m_bind_socket this;
     m_destinations := l |}.

(** [init]: [sock] is what [socket] returns and [bind_result] what [bind] returns for
    an address and a port; [ports] is the port manager, asked when there are no
    parameters. *)
Definition init (os : probe) (sock : Z) (bind_result : Z → Z → Z) (this : RTPTransmitterV4)
    (params : option RTPTransParamsV4) (ports : PortManager)
    : bool * (RTPTransmitterV4 * PortManager) :=
  if m_initialize this then (true, (this, ports)) else
  let '(ip, (port, ports)) :=
    match params with
    | Some params => (bindIP params, (bindPort params, ports))
    | None => (0, get_available_port os ports)
    end in
  let this := {| m_initialize := false; m_bind_ip := ip; m_bind_port := port;
                 m_bind_socket := sock; m_destinations := m_destinations this |} in
  if sock =? -1 then (false, (this, ports)) else
  if negb (bind_result ip port =? 0) then
    (false, ({| m_initialize := false; m_bind_ip := ip; m_bind_port := port;
                m_bind_socket := -1; m_destinations := m_destinations this |}, ports))
  else
    (true, ({| m_initialize := true; m_bind_ip := ip; m_bind_port := port;
               m_bind_socket := sock; m_destinations := m_destinations this |}, ports)).

Section transmitter.
Context (inet_addr : string → Z).

Definition add_destination (this : RTPTransmitterV4) (ip : string) (port : Z)
    : bool * RTPTransmitterV4 :=
  (true, set_destinations this (m_destinations this ++ [new_address inet_addr ip port])).

(** The loop that erases the addresses equal to [tmp]. *)
Fixpoint erase_loop (tmp : IPAddrV4) (l : list IPAddrV4) : list IPAddrV4 :=
  match l with
  | [] => []
  | d :: l => if address_eqb tmp d then erase_loop tmp l else d :: erase_loop tmp l
  end.

Definition delete_destination (this : RTPTransmitterV4) (ip : string) (port : Z)
    : bool * RTPTransmitterV4 :=
  (true, set_destinations this
           (erase_loop (new_address inet_addr ip port) (m_destinations this))).
End transmitter.

Definition clear_destination (this : RTPTransmitterV4) : bool * RTPTransmitterV4 :=
  (true, set_destinations this []).

(** The datagrams handed to [sendto] so far, oldest first. *)
Definition network : Type := list (sockaddr_in * list Z).

Section sending.
(** What [sendto] returns for the next datagram, after those of [network]. *)
Context (sendto : network → sockaddr_in → list Z → Z).

Fixpoint send_loop (ds : list IPAddrV4) (data : list Z) (net : network) : bool * network :=
  match ds with
  | [] => (true, net)
  | d :: ds =>
      let ret := sendto net (get_sock_addr d) data in
      let net := net ++ [(get_sock_addr d, data)] in
      if ret =? -1 then (false, net)
      else if ret <? i32 (zlen data) then (false, net)
      else send_loop ds data net
  end.

Definition send_data (this : RTPTransmitterV4) (data : list Z) (net : network) : bool * network :=
  send_loop (m_destinations this) data net.
End sending.

(** What the socket answers to one [receive_data]: [ioctl] and the length it
    reports, [select] and whether the socket is in the set, and the datagram that
    [recvfrom] takes, [None] for an error. *)
Record arrival := mkArrival {
  ioctl_ret : Z;
  ioctl_len : Z;
  select_ret : Z;
  fd_isset : bool;
  datagram : option (list Z);
}.

(** [recvfrom]: the first [bufferlen] bytes of the datagram, the rest is lost. *)
Definition recvfrom (a : arrival) (bufferlen : Z) : Z * list Z :=
  match datagram a with
  | None => (-1, [])
  | Some d => let bs := take (Z.to_nat bufferlen) d in (zlen bs, bs)
  end.

(** The length, and the buffer as the call leaves it. *)
Definition receive_data (this : RTPTransmitterV4) (a : arrival) (buffer : list Z) (bufferlen : Z)
    : Z * list Z :=
  if negb (m_initialize this) then (0, buffer) else
  let receive :=
    let '(recvLen, bs) := recvfrom a bufferlen in
    if 0 <? recvLen then (recvLen, bs ++ drop (length bs) buffer) else (0, buffer) in
  if (ioctl_ret a =? 0) && (0 <? ioctl_len a) then receive
  else if select_ret a <? 0 then (0, buffer)
  else if fd_isset a then receive else (0, buffer).

(** ** Properties *)

Lemma erase_loop_filter tmp l :
  erase_loop tmp l = filter (λ d, m_sock_addr d ≠ m_sock_addr tmp) l.
Proof.
  induction l as [|d l IH]; [done|]. cbn [erase_loop]. rewrite filter_cons, IH.
  destruct (address_eqb tmp d) eqn:E.
  - apply address_eqb_sock in E. by rewrite decide_False by (intros H; by apply H).
  - rewrite decide_True; [done|]. intros H. by rewrite (proj2 (address_eqb_sock tmp d)) in E.
Qed.

(** After a deletion no datagram goes to the address; the other destinations keep
    their order.  Adding an address makes it the last destination. *)
Theorem destinations_correct inet_addr this ip port :
  let a := m_sock_addr (new_address inet_addr ip port) in
  m_sock_addr <$> m_destinations (delete_destination inet_addr this ip port).2
    = filter (λ s, s ≠ a) (m_sock_addr <$> m_destinations this)
  ∧ m_sock_addr <$> m_destinations (add_destination inet_addr this ip port).2
    = (m_sock_addr <$> m_destinations this) ++ [a]
  ∧ m_destinations (clear_destination this).2 = [].
Proof.
  cbn. split_and!; [|by rewrite fmap_app|done]. rewrite erase_loop_filter.
  induction (m_destinations this) as [|d l IH]; [done|]. cbn [fmap list_fmap].
  rewrite !filter_cons. cbn in *. repeat case_decide; cbn; by rewrite IH.
Qed.

(** What has been handed to the socket is the data, once per destination, in order,
    up to the first destination for which the socket did not take all of it. *)
Lemma send_loop_spec sendto ds data net :
  ∃ done rest, ds = done ++ rest
    ∧ send_loop sendto ds data net
      = (bool_decide (rest = []),
         net ++ ((λ d, (get_sock_addr d, data)) <$> done ++ take 1 rest)).
Proof.
  revert net. induction ds as [|d ds IH]; intros net; cbn [send_loop].
  { exists [], []. split; [done|]. by rewrite app_nil_r. }
  assert (Hstop : ∃ done rest, d :: ds = done ++ rest
    ∧ (false, net ++ [(get_sock_addr d, data)])
      = (bool_decide (rest = []), net ++ ((λ d, (get_sock_addr d, data)) <$> done ++ take 1 rest))).
  { by exists [], (d :: ds). }
  destruct (_ =? -1); [done|]. destruct (_ <? _); [done|].
  destruct (IH (net ++ [(get_sock_addr d, data)])) as (l & rest & -> & ->).
  exists (d :: l), rest. split; [done|]. by rewrite <- app_assoc.
Qed.

(** [send_data] answers [true] only when every destination got the data. *)
Theorem send_data_true sendto this data net net' :
  send_data sendto this data net = (true, net') →
  net' = net ++ ((λ s, (s, data)) <$> (m_sock_addr <$> m_destinations this)).
Proof.
  unfold send_data. destruct (send_loop_spec sendto (m_destinations this) data net)
    as (l & rest & E & ->). intros [= Hrest%bool_decide_eq_true_1 <-]. subst rest.
  cbn [take]. rewrite E, app_nil_r. by rewrite <- list_fmap_compose.
Qed.

Lemma send_data_all sendto this data net :
  (∀ net s, sendto net s data = zlen data) → zlen data < 2 ^ 31 →
  send_data sendto this data net
  = (true, net ++ ((λ s, (s, data)) <$> (m_sock_addr <$> m_destinations this))).
Proof.
  intros Hs Hl. unfold send_data. revert net.
  induction (m_destinations this) as [|d ds IH]; intros net; cbn [send_loop].
  - by rewrite app_nil_r.
  - rewrite Hs. pose proof (zlen_nonneg data). rewrite i32_id by lia.
    rewrite (proj2 (Z.eqb_neq _ _)) by lia. rewrite Z.ltb_irrefl, IH.
    by rewrite <- app_assoc.
Qed.

(** What is received never exceeds the buffer, and is the head of the datagram. *)
Theorem receive_data_bounds this a buffer bufferlen :
  zlen buffer = bufferlen →
  let '(n, buffer') := receive_data this a buffer bufferlen in
  0 <= n <= bufferlen ∧ zlen buffer' = bufferlen
  ∧ (0 < n → ∃ d, datagram a = Some d
      ∧ take (Z.to_nat n) buffer' = take (Z.to_nat bufferlen) d)
  ∧ (n = 0 → buffer' = buffer).
Proof.
  intros Hb. pose proof (zlen_nonneg buffer). unfold receive_data.
  assert (Hnone : 0 <= 0 <= bufferlen ∧ zlen buffer = bufferlen
    ∧ (0 < 0 → ∃ d, datagram a = Some d ∧ take (Z.to_nat 0) buffer = take (Z.to_nat bufferlen) d)
    ∧ (0 = 0 → buffer = buffer)) by (split_and!; [lia..|done]).
  destruct (m_initialize this); cbn [negb]; [|done].
  unfold recvfrom. revert Hnone. destruct (datagram a) as [d|]; intros Hnone.
  2:{ cbv beta iota. change (0 <? -1) with false. repeat case_match; simplify_eq; exact Hnone. }
  set (bs := take (Z.to_nat bufferlen) d).
  assert (Hbs : zlen bs <= bufferlen) by (unfold bs, zlen; rewrite length_take; lia).
  assert (Hgot : 0 < zlen bs → 0 <= zlen bs <= bufferlen
    ∧ zlen (bs ++ drop (length bs) buffer) = bufferlen
    ∧ (0 < zlen bs → ∃ d0, Some d = Some d0
        ∧ take (Z.to_nat (zlen bs)) (bs ++ drop (length bs) buffer) = take (Z.to_nat bufferlen) d0)
    ∧ (zlen bs = 0 → bs ++ drop (length bs) buffer = buffer)).
  { intros Hp. split_and!; [lia..| |intros _|lia].
    - rewrite zlen_app. unfold zlen in *. rewrite length_drop. lia.
    - exists d. split; [done|]. unfold zlen. rewrite Nat2Z.id. by rewrite take_app_length. }
  destruct (Z.ltb_spec 0 (zlen bs)) as [Hp|Hp]; repeat case_match; simplify_eq; auto.
Qed.

(** ** Concrete runs *)

(** Loopback only: every address is [127.0.0.1]. *)
Definition sample_inet_addr (ip : string) : Z := 16777343.

Definition sample_transmitter : RTPTransmitterV4 :=
  (add_destination sample_inet_addr
     (add_destination sample_inet_addr
        (mkRTPTransmitterV4 true 0 50001 4 []) "127.0.0.1" 7000).2 "127.0.0.1" 7001).2.

Lemma send_data_true_witness : ∃ net',
  send_data (λ _ _ d, zlen d) sample_transmitter [1; 2; 3] [] = (true, net')
  ∧ net' = [(mkSockaddr 16777343 22555, [1; 2; 3]); (mkSockaddr 16777343 22811, [1; 2; 3])].
Proof.
  eexists. split; [reflexivity|].
  apply (send_data_true (λ _ _ d, zlen d) sample_transmitter [1; 2; 3] []). reflexivity.
Defined.

Lemma receive_data_bounds_witness :
  let a := mkArrival 0 6 0 false (Some [1; 2; 3; 4; 5; 6]) in
  receive_data sample_transmitter a [0; 0; 0; 0] 4 = (4, [1; 2; 3; 4])
  ∧ let '(n, buffer') := receive_data sample_transmitter a [0; 0; 0; 0] 4 in
    0 <= n <= 4 ∧ zlen buffer' = 4.
Proof.
  cbv zeta. split; [by vm_compute|].
  pose proof (receive_data_bounds sample_transmitter
    (mkArrival 0 6 0 false (Some [1; 2; 3; 4; 5; 6])) [0; 0; 0; 0] 4 eq_refl) as H.
  destruct (receive_data _ _ _ _). destruct H as (? & ? & _). done.
Defined.
