(* ===== verification/RTPAACPacketBuilder.v ===== *)
(** * RTPAACPacketBuilder: one RTP packet from an AAC frame

    Models [src/rtp/rtp_aac_packet_builder.h] and [.cpp].  As for the H.264
    builder the state keeps the bytes from [m_rtp_buffer] to [m_current_pos],
    [None] while the latter is a null pointer. *)

From S2P Require Import Prelude.
From S2P Require Import RTPPacket.

Definition RTP_PACKETS_BUFFER_SIZE : Z := 1024 * 128.

Record RTPAACPacketBuilder := mkRTPAACPacketBuilder {
  m_initialize : bool;
  m_ssrc : Z;
  m_sequence : Z;
  m_timestamp : Z;
  m_rtp_buffer : option (list Z);
}.

Definition new_builder : RTPAACPacketBuilder :=
  {| m_initialize := false; m_ssrc := 0; m_sequence := 0; m_timestamp := 0;
     m_rtp_buffer := None |}.

Definition init (this : RTPAACPacketBuilder) (sequenceStart timestampStart : Z)
    : bool * RTPAACPacketBuilder :=
  if m_initialize this then (true, this)
  else (true, {| m_initialize := true; m_ssrc := m_ssrc this; m_sequence := sequenceStart;
                 m_timestamp := timestampStart; m_rtp_buffer := m_rtp_buffer this |}).

Definition set_ssrc (this : RTPAACPacketBuilder) (newssrc : Z) : RTPAACPacketBuilder :=
  {| m_initialize := m_initialize this; m_ssrc := newssrc; m_sequence := m_sequence this;
     m_timestamp := m_timestamp this; m_rtp_buffer := m_rtp_buffer this |}.

Definition get_ssrc (this : RTPAACPacketBuilder) : Z := m_ssrc this.

Definition increment_timestamp_by (this : RTPAACPacketBuilder) (inc : Z) : RTPAACPacketBuilder :=
  {| m_initialize := m_initialize this; m_ssrc := m_ssrc this; m_sequence := m_sequence this;
     m_timestamp := u32 (m_timestamp this + inc); m_rtp_buffer := m_rtp_buffer this |}.

Definition packet_header (this : RTPAACPacketBuilder) : RTPHeader :=
  {| version := 2; padding := 0; extension := 1; csrcCount := 0; marker := 0;
     payloadType := 97; sequence := Z.land (m_sequence this) 65535;
     timestamp := m_timestamp this; ssrc := m_ssrc this |}.

Definition packet_extension (this : RTPAACPacketBuilder) : RTPExtensionHeader :=
  {| ext_id := 0; ext_length := 3; ext_reserved := 0;
     ext_seqHigh16 := Z.land (Z.shiftr (m_sequence this) 16) 65535;
     ext_msw := 0; ext_lsw := 0 |}.

Definition send_data (this : RTPAACPacketBuilder) (data : list Z) (len : Z)
    : outcome (bool * RTPAACPacketBuilder) :=
  if RTP_PACKETS_BUFFER_SIZE <=? len + sizeof_RTPHeader + sizeof_RTPExtensionHeader
  then Ok (false, this) else
  if negb (m_initialize this) then Fault else
  bs ← rd_range data 0 len;
  Ok (true, {| m_initialize := m_initialize this; m_ssrc := m_ssrc this;
               m_sequence := u32 (m_sequence this + 1); m_timestamp := m_timestamp this;
               m_rtp_buffer := Some (RTPHeader_bytes (packet_header this)
                 ++ RTPExtensionHeader_bytes (packet_extension this) ++ bs) |}).

(** The packet that was built last: the bytes up to [m_current_pos]. *)
Definition receive_rtp_packet (this : RTPAACPacketBuilder) : outcome (list Z) :=
  match m_rtp_buffer this with Some bs => Ok bs | None => Fault end.

(** The packet as the wire format has it. *)
Definition packet_wire (this : RTPAACPacketBuilder) (payload : list Z) : wire :=
  {| w_header := packet_header this; w_csrcs := []; w_ext := packet_extension this;
     w_payload := payload; w_padding := [] |}.

Lemma aac_wire_of this payload :
  wire_bytes (packet_wire this payload)
  = RTPHeader_bytes (packet_header this) ++ RTPExtensionHeader_bytes (packet_extension this)
    ++ payload.
Proof.
  unfold wire_bytes, packet_wire. cbn [w_header w_csrcs w_ext w_payload w_padding].
  change (([] : list Z) ≫= be32_bytes) with (@nil Z). by rewrite app_nil_l, app_nil_r.
Qed.

Lemma packet_wire_ok this payload :
  0 <= m_timestamp this < 2 ^ 32 → 0 <= m_ssrc this < 2 ^ 32 → zlen payload < 2 ^ 62 →
  wire_ok (packet_wire this payload).
Proof.
  intros Ht Hs Hl. pose proof (land_ones_range (m_sequence this) 16).
  pose proof (land_ones_range (Z.shiftr (m_sequence this) 16) 16).
  unfold wire_ok, header_ok, ext_ok, packet_wire, packet_header, packet_extension. cbn.
  change 65535 with (Z.ones 16). change (zlen (@nil Z)) with 0.
  split_and!; try lia; try done.
  change (zlen (wire_bytes (packet_wire this payload)) < 2 ^ 64). rewrite aac_wire_of.
  pose proof (zlen_nonneg payload). len.
Qed.

(** A frame that fits in the buffer becomes one packet, which the receiver parses
    back to the frame; a larger one is refused and nothing changes. *)
Theorem send_data_packet (this : RTPAACPacketBuilder) data :
  m_initialize this = true → 0 <= m_timestamp this < 2 ^ 32 → 0 <= m_ssrc this < 2 ^ 32 →
  if zlen data + 28 <? RTP_PACKETS_BUFFER_SIZE then
    ∃ this' p, send_data this data (zlen data) = Ok (true, this')
      ∧ m_sequence this' = u32 (m_sequence this + 1)
      ∧ (bs ← receive_rtp_packet this'; parse reset bs (zlen bs)) = Ok (true, p)
      ∧ payload_range p 0 (get_payload_length p) = Ok data
      ∧ get_timestamp p = m_timestamp this ∧ get_payload_type p = 97
  else send_data this data (zlen data) = Ok (false, this).
Proof.
  intros Hi Ht Hs. unfold send_data, sizeof_RTPHeader, sizeof_RTPExtensionHeader.
  pose proof (zlen_nonneg data).
  destruct (Z.ltb_spec (zlen data + 28) RTP_PACKETS_BUFFER_SIZE) as [Hlt|Hge].
  - rewrite (proj2 (Z.leb_gt _ _)) by lia. rewrite Hi. cbn [negb].
    assert (R : rd_range data 0 (zlen data) = Ok data).
    { pose proof (rd_range_app [] data []) as R. by rewrite app_nil_r in R. }
    step R. eexists _, (wire_packet (packet_wire this data)).
    split; [done|]. cbn [m_sequence]. split; [done|]. unfold receive_rtp_packet.
    cbn [m_rtp_buffer]. step_bind. rewrite <- aac_wire_of.
    assert (Hok : wire_ok (packet_wire this data)).
    { apply packet_wire_ok; [done..|]. unfold RTP_PACKETS_BUFFER_SIZE in Hlt. lia. }
    rewrite (parse_wire_roundtrip_spec reset _ Hok). split; [done|].
    split; [|done]. unfold payload_range, wire_packet; cbn [RTPPacket.m_packet m_payload].
    rewrite aac_wire_of, app_assoc. cbn [get_payload_length m_payload_len w_csrcs w_payload packet_wire].
    replace (28 + 4 * zlen (@nil Z) + 0) with (zlen (RTPHeader_bytes (packet_header this)
      ++ RTPExtensionHeader_bytes (packet_extension this))) by done.
    rewrite <- (app_nil_r (_ ++ data)), <- app_assoc. apply rd_range_app.
  - by rewrite (proj2 (Z.leb_le _ _)) by lia.
Qed.

Lemma send_data_packet_witness :
  let this := set_ssrc (init new_builder 65535 8).2 77 in
  ∃ this' p, send_data this [33; 16; 4] 3 = Ok (true, this')
    ∧ m_sequence this' = 65536
    ∧ (bs ← receive_rtp_packet this'; parse reset bs (zlen bs)) = Ok (true, p)
    ∧ payload_range p 0 (get_payload_length p) = Ok [33; 16; 4].
Proof.
  cbv zeta. set (this := set_ssrc (init new_builder 65535 8).2 77).
  destruct (send_data_packet this [33; 16; 4]) as (this' & p & E & Hq & Hp & Hr & _);
    [by vm_compute..|].
  exists this', p. done.
Defined.
