(* ===== verification/RTPSessionAudio.v ===== *)
(** * RTPSessionAudio: sending AAC frames

    Models [src/rtp/rtp_session_audio.h] and [.cpp].  The session owns its builder
    and its transmitter; a use of a null pointer is a fault.  What [clock] returns
    is an argument. *)

From S2P Require Import Prelude.
From S2P Require Import RTPPacket.
From S2P Require Import IPAddrV4.
From S2P Require Import PortManager.
From S2P Require Import RTPTransmitterV4.
From S2P Require Import RTPAACPacketBuilder.

Record RTPSessionAudio := mkRTPSessionAudio {
  m_initialize : bool;
  m_aac_rtp_builder : option RTPAACPacketBuilder;
  m_transmitter : option RTPTransmitterV4;
}.

Definition new_session : RTPSessionAudio :=
  {| m_initialize := false; m_aac_rtp_builder := None; m_transmitter := None |}.

(** [(uint32_t)(now * 1000 / CLOCKS_PER_SEC)]. *)
Definition clock_ms (now : Z) : Z := u32 (Z.quot (i64 (now * 1000)) 1000000).

(** [rtpHeader->timestamp = htonl(ms)] in the packet at [p]. *)
Definition store_timestamp (buf : list Z) (p ms : Z) : outcome (list Z) :=
  wr_range buf (p + 4) (be32_bytes ms).

Definition init (os : probe) (sock : Z) (bind_result : Z → Z → Z) (this : RTPSessionAudio)
    (sequenceStart timestampStart ssrc : Z) (ports : PortManager)
    : bool * (RTPSessionAudio * PortManager) :=
  if m_initialize this then (true, (this, ports)) else
  let '(ok, builder) := RTPAACPacketBuilder.init new_builder sequenceStart timestampStart in
  if negb ok then (false, (new_session, ports)) else
  let builder := set_ssrc builder ssrc in
  let '(ok, (transmitter, ports)) :=
    RTPTransmitterV4.init os sock bind_result new_transmitter None ports in
  if negb ok then (false, (new_session, ports))
  else (true, ({| m_initialize := true; m_aac_rtp_builder := Some builder;
                  m_transmitter := Some transmitter |}, ports)).

Definition set_transmitter (this : RTPSessionAudio) (t : RTPTransmitterV4) : RTPSessionAudio :=
  {| m_initialize := m_initialize this; m_aac_rtp_builder := m_aac_rtp_builder this;
     m_transmitter := Some t |}.

Definition set_builder (this : RTPSessionAudio) (b : RTPAACPacketBuilder) : RTPSessionAudio :=
  {| m_initialize := m_initialize this; m_aac_rtp_builder := Some b;
     m_transmitter := m_transmitter this |}.

Definition add_destination (inet_addr : string → Z) (this : RTPSessionAudio) (ip : string)
    (port : Z) : outcome (bool * RTPSessionAudio) :=
  if negb (m_initialize this) then Ok (false, this) else
  match m_transmitter this with
  | None => Fault
  | Some t => let '(r, t) := RTPTransmitterV4.add_destination inet_addr t ip port in
              Ok (r, set_transmitter this t)
  end.

Definition delete_destination (inet_addr : string → Z) (this : RTPSessionAudio) (ip : string)
    (port : Z) : outcome (bool * RTPSessionAudio) :=
  if negb (m_initialize this) then Ok (false, this) else
  match m_transmitter this with
  | None => Fault
  | Some t => let '(r, t) := RTPTransmitterV4.delete_destination inet_addr t ip port in
              Ok (r, set_transmitter this t)
  end.

(** No test of [m_initialize] here. *)
Definition clear_destination (this : RTPSessionAudio) : outcome (bool * RTPSessionAudio) :=
  match m_transmitter this with
  | None => Fault
  | Some t => let '(r, t) := RTPTransmitterV4.clear_destination t in
              Ok (r, set_transmitter this t)
  end.

Definition send_aac_data (sendto : network → sockaddr_in → list Z → Z) (now : Z)
    (this : RTPSessionAudio) (data : list Z) (length : Z) (net : network)
    : outcome (bool * (RTPSessionAudio * network)) :=
  if negb (m_initialize this) then Ok (false, (this, net)) else
  match m_aac_rtp_builder this, m_transmitter this with
  | Some builder, Some t =>
      r ← RTPAACPacketBuilder.send_data builder data length;
      let '(ok, builder) := r in
      let this := set_builder this builder in
      if (ok : bool) then
        rtp ← receive_rtp_packet builder;
        rtp ← store_timestamp rtp 0 (clock_ms now);
        let this := set_builder this
          {| RTPAACPacketBuilder.m_initialize := RTPAACPacketBuilder.m_initialize builder;
             RTPAACPacketBuilder.m_ssrc := RTPAACPacketBuilder.m_ssrc builder;
             RTPAACPacketBuilder.m_sequence := RTPAACPacketBuilder.m_sequence builder;
             RTPAACPacketBuilder.m_timestamp := RTPAACPacketBuilder.m_timestamp builder;
             RTPAACPacketBuilder.m_rtp_buffer := Some rtp |} in
        let '(ret, net) := RTPTransmitterV4.send_data sendto t rtp net in
        Ok (ret, (this, net))
      else Ok (false, (this, net))
  | _, _ => Fault
  end.

(** ** Properties *)

(** The session is either uninitialised and owns nothing, or owns both parts. *)
Definition wf (this : RTPSessionAudio) : Prop :=
  (m_initialize this = true ∧ is_Some (m_aac_rtp_builder this) ∧ is_Some (m_transmitter this))
  ∨ this = new_session.

Lemma audio_session_init_wf os sock bind_result this seq ts ssrc ports :
  wf this → wf (init os sock bind_result this seq ts ssrc ports).2.1.
Proof.
  intros Hwf. unfold init. destruct (m_initialize this); [done|].
  change (RTPAACPacketBuilder.init new_builder seq ts) with (true, (RTPAACPacketBuilder.init new_builder seq ts).2).
  cbn [negb].
  destruct (RTPTransmitterV4.init os sock bind_result new_transmitter None ports)
    as [[] [t p]]; [left|by right].
  cbn. eauto.
Qed.

Lemma clock_ms_range now : 0 <= clock_ms now < 2 ^ 32.
Proof. apply u32_range. Qed.

(** The wire packet of a frame, stamped with the time. *)
Definition frame_wire (b : RTPAACPacketBuilder) (data : list Z) (ms : Z) : wire :=
  let w := packet_wire b data in
  {| w_header := mkRTPHeader 2 0 1 0 0 97 (sequence (w_header w)) ms (ssrc (w_header w));
     w_csrcs := []; w_ext := w_ext w; w_payload := data; w_padding := [] |}.

Lemma store_timestamp_wire b data ms :
  store_timestamp (wire_bytes (packet_wire b data)) 0 ms = Ok (wire_bytes (frame_wire b data ms)).
Proof.
  unfold store_timestamp. 
  set (h := packet_header b).
  set (front := [144; 97] ++ be16_bytes (sequence h)).
  set (back := be32_bytes (ssrc h) ++ RTPExtensionHeader_bytes (packet_extension b) ++ data).
  assert (E : ∀ t, wire_bytes {| w_header := mkRTPHeader 2 0 1 0 0 97 (sequence h) t (ssrc h);
      w_csrcs := []; w_ext := packet_extension b; w_payload := data; w_padding := [] |}
      = front ++ be32_bytes t ++ back).
  { intros t. unfold wire_bytes. cbn [w_header w_csrcs w_ext w_payload w_padding].
    change (([] : list Z) ≫= be32_bytes) with (@nil Z). by rewrite app_nil_l, app_nil_r. }
  change (packet_wire b data) with
    {| w_header := mkRTPHeader 2 0 1 0 0 97 (sequence h) (timestamp h) (ssrc h);
       w_csrcs := []; w_ext := packet_extension b; w_payload := data; w_padding := [] |}.
  unfold frame_wire. rewrite !E. change (0 + 4) with (zlen front).
  by apply wr_range_mid.
Qed.

(** A frame that fits goes to every destination as one packet with the sender's
    clock as timestamp, when the socket takes it. *)
Theorem send_aac_data_correct sendto now this builder t data net :
  m_initialize this = true → m_aac_rtp_builder this = Some builder →
  m_transmitter this = Some t → RTPAACPacketBuilder.m_initialize builder = true →
  zlen data + 28 < RTP_PACKETS_BUFFER_SIZE → (∀ net s d, sendto net s d = zlen d) →
  ∃ this', send_aac_data sendto now this data (zlen data) net
    = Ok (true, (this', net ++ ((λ s, (s, wire_bytes (frame_wire builder data (clock_ms now))))
                                <$> (m_sock_addr <$> m_destinations t))))
    ∧ wf this'.
Proof.
  intros Hi Hb Ht Hbi Hlt Hs. unfold send_aac_data. rewrite Hi, Hb, Ht. cbn [negb].
  unfold RTPAACPacketBuilder.send_data, sizeof_RTPHeader, sizeof_RTPExtensionHeader.
  pose proof (zlen_nonneg data). rewrite (proj2 (Z.leb_gt _ _)) by lia.
  rewrite Hbi. cbn [negb]. assert (R : rd_range data 0 (zlen data) = Ok data).
  { pose proof (rd_range_app [] data []) as R. by rewrite app_nil_r in R. }
  step R. unfold receive_rtp_packet. cbn [RTPAACPacketBuilder.m_rtp_buffer]. step_bind.
  rewrite <- aac_wire_of. step store_timestamp_wire.
  rewrite send_data_all; [|done|].
  - eexists. split; [done|]. left. cbn. rewrite Ht. eauto.
  - unfold wire_bytes, frame_wire. cbn [w_header w_csrcs w_ext w_payload w_padding].
    change (([] : list Z) ≫= be32_bytes) with (@nil Z). change (zlen data + 28 < 131072) in Hlt.
    len.
Qed.

Lemma send_aac_data_correct_witness :
  let b := set_ssrc (RTPAACPacketBuilder.init new_builder 1 0).2 9 in
  let this := mkRTPSessionAudio true (Some b) (Some sample_transmitter) in
  ∃ this', send_aac_data (λ _ _ d, zlen d) 5000000 this [33; 16] 2 []
    = Ok (true, (this', [(mkSockaddr 16777343 22555, wire_bytes (frame_wire b [33; 16] 5000));
                         (mkSockaddr 16777343 22811, wire_bytes (frame_wire b [33; 16] 5000))])).
Proof.
  cbv zeta. set (b := set_ssrc (RTPAACPacketBuilder.init new_builder 1 0).2 9).
  destruct (send_aac_data_correct (λ _ _ d, zlen d) 5000000
              (mkRTPSessionAudio true (Some b) (Some sample_transmitter)) b sample_transmitter
              [33; 16] []) as (this' & E & _); [done|done|done|done|by vm_compute|done|].
  exists this'. exact E.
Defined.
