(* ===== verification/RTPSessionVideo.v ===== *)
(** * RTPSessionVideo: sending H.264 frames

    Models [src/rtp/rtp_session_video.h] and [.cpp].  The packets are rewritten in
    the builder's buffer before they are sent. *)

From S2P Require Import Prelude.
From S2P Require Import RTPPacket.
From S2P Require Import IPAddrV4.
From S2P Require Import PortManager.
From S2P Require Import RTPTransmitterV4.
From S2P Require Import CodecAvc.
From S2P Require Import RTPH264FrameAssembler.
From S2P Require Import RTPH264PacketBuilder.
From S2P Require Import H264RoundTrip.

Record RTPSessionVideo := mkRTPSessionVideo {
  m_initialize : bool;
  m_h264_rtp_builder : option RTPH264PacketBuilder;
  m_transmitter : option RTPTransmitterV4;
}.

Definition new_session : RTPSessionVideo :=
  {| m_initialize := false; m_h264_rtp_builder := None; m_transmitter := None |}.

(** [(uint32_t)(now * 1000 / CLOCKS_PER_SEC)]. *)
Definition clock_ms (now : Z) : Z := u32 (Z.quot (i64 (now * 1000)) 1000000).

Definition init (os : probe) (sock : Z) (bind_result : Z → Z → Z) (this : RTPSessionVideo)
    (sequenceStart timestampStart ssrc : Z) (ports : PortManager)
    : bool * (RTPSessionVideo * PortManager) :=
  if m_initialize this then (true, (this, ports)) else
  let '(ok, builder) := RTPH264PacketBuilder.init new_builder sequenceStart timestampStart in
  if negb ok then (false, (new_session, ports)) else
  let builder := set_ssrc builder ssrc in
  let '(ok, (transmitter, ports)) :=
    RTPTransmitterV4.init os sock bind_result new_transmitter None ports in
  if negb ok then (false, (new_session, ports))
  else (true, ({| m_initialize := true; m_h264_rtp_builder := Some builder;
                  m_transmitter := Some transmitter |}, ports)).

Definition set_transmitter (this : RTPSessionVideo) (t : RTPTransmitterV4) : RTPSessionVideo :=
  {| m_initialize := m_initialize this; m_h264_rtp_builder := m_h264_rtp_builder this;
     m_transmitter := Some t |}.

Definition set_builder (this : RTPSessionVideo) (b : RTPH264PacketBuilder) : RTPSessionVideo :=
  {| m_initialize := m_initialize this; m_h264_rtp_builder := Some b;
     m_transmitter := m_transmitter this |}.

Definition add_destination (inet_addr : string → Z) (this : RTPSessionVideo) (ip : string)
    (port : Z) : outcome (bool * RTPSessionVideo) :=
  if negb (m_initialize this) then Ok (false, this) else
  match m_transmitter this with
  | None => Fault
  | Some t => let '(r, t) := RTPTransmitterV4.add_destination inet_addr t ip port in
              Ok (r, set_transmitter this t)
  end.

Definition delete_destination (inet_addr : string → Z) (this : RTPSessionVideo) (ip : string)
    (port : Z) : outcome (bool * RTPSessionVideo) :=
  if negb (m_initialize this) then Ok (false, this) else
  match m_transmitter this with
  | None => Fault
  | Some t => let '(r, t) := RTPTransmitterV4.delete_destination inet_addr t ip port in
              Ok (r, set_transmitter this t)
  end.

(** No test of [m_initialize] here. *)
Definition clear_destination (this : RTPSessionVideo) : outcome (bool * RTPSessionVideo) :=
  match m_transmitter this with
  | None => Fault
  | Some t => let '(r, t) := RTPTransmitterV4.clear_destination t in
              Ok (r, set_transmitter this t)
  end.

Section sending.
Context (sendto : network → sockaddr_in → list Z → Z).

(** The rewriting of the packet at [p]: [reserved] is the number of packets,
    [seqHigh16] is cleared, the last packet gets the marker, and the timestamp is
    replaced. *)
Definition stamp (buf : list Z) (p num ms : Z) (is_last : bool) : outcome (list Z) :=
  buf ← wr_range buf (p + sizeof_RTPHeader + 4) (be16_bytes num);
  buf ← wr_range buf (p + sizeof_RTPHeader + 6) [0; 0];
  buf ← (if is_last then b ← rd buf (p + 1); wr_range buf (p + 1) [Z.lor b 128] else Ok buf);
  wr_range buf (p + 4) (be32_bytes ms).

(** The loop over [m_rtp_send_packets]. *)
Fixpoint send_packets (t : RTPTransmitterV4) (packets : list (Z * Z)) (buf : list Z) (num ms : Z)
    (net : network) : outcome (bool * (list Z * network)) :=
  match packets with
  | [] => Ok (true, (buf, net))
  | (p, len) :: packets =>
      buf ← stamp buf p num ms (match packets with [] => true | _ => false end);
      data ← rd_range buf p len;
      let '(ret, net) := RTPTransmitterV4.send_data sendto t data net in
      if negb ret then Ok (false, (buf, net)) else send_packets t packets buf num ms net
  end.

(** [base] is the address of [data]. *)
Definition send_h264_data (now base : Z) (this : RTPSessionVideo) (data : list Z) (length : Z)
    (net : network) : outcome (bool * (RTPSessionVideo * network)) :=
  if negb (m_initialize this) then Ok (false, (this, net)) else
  match m_h264_rtp_builder this, m_transmitter this with
  | Some builder, Some t =>
      let ms := clock_ms now in
      r ← RTPH264PacketBuilder.send_data builder base data length;
      let '(ret, builder) := r in
      if negb ret then Ok (false, (set_builder this builder, net)) else
      r ← receive_rtp_packets builder data [];
      let '(ret, (builder, packets)) := r in
      if negb ret then Ok (false, (set_builder this builder, net)) else
      let num := u8 (zlen packets) in
      r ← send_packets t packets (m_rtp_buffer builder) num ms net;
      let '(ret, (buf, net)) := r in
      Ok (ret, (set_builder this (set_buffer builder buf), net))
  | _, _ => Fault
  end.
End sending.

(** ** Specification *)

(** The session either owns both parts or was not initialised. *)
Definition wf (this : RTPSessionVideo) : Prop :=
  (m_initialize this = true ∧ is_Some (m_h264_rtp_builder this) ∧ is_Some (m_transmitter this))
  ∨ this = new_session.

Lemma video_session_init_wf os sock bind_result this seq ts ssrc ports :
  wf this → wf (init os sock bind_result this seq ts ssrc ports).2.1.
Proof.
  intros Hwf. unfold init. destruct (m_initialize this); [done|].
  change (RTPH264PacketBuilder.init new_builder seq ts) with (true, (RTPH264PacketBuilder.init new_builder seq ts).2).
  cbn [negb].
  destruct (RTPTransmitterV4.init os sock bind_result new_transmitter None ports)
    as [[] [t p]]; [left|by right].
  cbn. eauto.
Qed.

(** The packet the session sends for a packet of the builder. *)
Definition stamp_wire (num ms : Z) (is_last : bool) (w : wire) : wire :=
  {| w_header := mkRTPHeader 2 0 1 0 (if is_last then 1 else 0) 96 (sequence (w_header w)) ms
                   (ssrc (w_header w));
     w_csrcs := []; w_ext := mkRTPExtensionHeader 0 3 num 0 0 0;
     w_payload := w_payload w; w_padding := [] |}.

Fixpoint stamp_wires (num ms : Z) (ws : list wire) : list wire :=
  match ws with
  | [] => []
  | w :: ws => stamp_wire num ms (match ws with [] => true | _ => false end) w
               :: stamp_wires num ms ws
  end.

(** The packets of a frame of units [ns]. *)
Definition session_wires (builder : RTPH264PacketBuilder) (ms : Z) (ns : list (list Z)) : list wire :=
  let payloads := packetize ns 0 [] in
  stamp_wires (u8 (zlen payloads)) ms (packet_wires builder payloads).

(** ** Rewriting the packets in place *)

(** The bytes of a packet with the fields the session changes. *)
Definition raw_packet (mark : bool) (seqn ms ssrc num high : Z) (payload : list Z) : list Z :=
  [144] ++ [if mark then 224 else 96] ++ be16_bytes seqn ++ be32_bytes ms ++ be32_bytes ssrc
  ++ (be16_bytes 0 ++ be16_bytes 3) ++ be16_bytes num ++ be16_bytes high
  ++ be32_bytes 0 ++ be32_bytes 0 ++ payload.

Lemma packet_wire_raw b p :
  wire_bytes (packet_wire b p)
  = raw_packet false (sequence (packet_header b)) (m_timestamp b) (m_ssrc b) 0
      (ext_seqHigh16 (packet_extension b)) p.
Proof. rewrite h264_wire_of. reflexivity. Qed.

Lemma stamp_wire_raw num ms mark b p :
  wire_bytes (stamp_wire num ms mark (packet_wire b p))
  = raw_packet mark (sequence (packet_header b)) ms (m_ssrc b) num 0 p.
Proof.
  unfold wire_bytes, stamp_wire, packet_wire. cbn [w_header w_csrcs w_ext w_payload w_padding].
  change (([] : list Z) ≫= be32_bytes) with (@nil Z). rewrite app_nil_l, app_nil_r.
  by destruct mark.
Qed.

Lemma raw_packet_len mark seqn ms ssrc num high p :
  zlen (raw_packet mark seqn ms ssrc num high p) = 28 + zlen p.
Proof. unfold raw_packet. len. Qed.

Lemma stamp_ok pre post num ms mark b p :
  stamp (pre ++ wire_bytes (packet_wire b p) ++ post) (zlen pre) num ms mark
  = Ok (pre ++ wire_bytes (stamp_wire num ms mark (packet_wire b p)) ++ post).
Proof.
  rewrite packet_wire_raw, stamp_wire_raw. unfold stamp, sizeof_RTPHeader.
  set (sq := sequence (packet_header b)). set (high := ext_seqHigh16 (packet_extension b)).
  pose (front := λ k t, pre ++ [144] ++ [k] ++ be16_bytes sq ++ be32_bytes t
                 ++ be32_bytes (m_ssrc b) ++ be16_bytes 0 ++ be16_bytes 3).
  pose (back := be32_bytes 0 ++ be32_bytes 0 ++ p ++ post).
  step (wr_range_at _ _ (front 96 (m_timestamp b)) (be16_bytes 0) (be16_bytes high ++ back));
    [|unfold raw_packet, front, back; by rewrite <- !app_assoc|unfold front; len|done].
  step (wr_range_at _ _ (front 96 (m_timestamp b) ++ be16_bytes num) (be16_bytes high) back);
    [|unfold front; by rewrite <- !app_assoc|unfold front; len|done].
  assert (Hmark : (if mark
    then b0 ← rd ((front 96 (m_timestamp b) ++ be16_bytes num) ++ [0; 0] ++ back) (zlen pre + 1);
         wr_range ((front 96 (m_timestamp b) ++ be16_bytes num) ++ [0; 0] ++ back) (zlen pre + 1)
           [Z.lor b0 128]
    else Ok ((front 96 (m_timestamp b) ++ be16_bytes num) ++ [0; 0] ++ back))
    = Ok (front (if mark then 224 else 96) (m_timestamp b) ++ be16_bytes num ++ [0; 0] ++ back)).
  { destruct mark; [|by rewrite <- app_assoc]. unfold front. rewrite <- !app_assoc.
    rewrite rd_app_r0 by lia. rewrite rd_app_r by (change (zlen [144]) with 1; lia).
    change (zlen [144]) with 1. cbn [app]. rewrite rd_cons_0. step_bind.
    erewrite (wr_range_at _ _ (pre ++ [144]) [96]); [|rewrite <- app_assoc; reflexivity|len|done].
    by rewrite <- app_assoc. }
  rewrite Hmark. step_bind.
  erewrite (wr_range_at _ _ (pre ++ [144] ++ [if mark then 224 else 96] ++ be16_bytes sq)
             (be32_bytes (m_timestamp b))); [|unfold front; by rewrite <- !app_assoc|len|done].
  f_equal. unfold raw_packet, back. by rewrite <- !app_assoc.
Qed.

(** ** Sending the packets *)

Definition builder_wire (w : wire) : Prop := ∃ b p, w = packet_wire b p ∧ zlen p + 28 < 2 ^ 31.

Lemma packet_wires_builder b payloads :
  Forall (λ p, zlen p + 28 < 2 ^ 31) payloads → Forall builder_wire (packet_wires b payloads).
Proof.
  intros Hp. revert b. induction Hp as [|p l Hp Hl IH]; intros b; [constructor|].
  cbn [packet_wires]. constructor; [by exists b, p|apply IH].
Qed.

Lemma packets_size_each payloads bound :
  packets_size payloads < bound → Forall (λ p, zlen p + 28 < bound) payloads.
Proof.
  induction payloads as [|p l IH]; [constructor|]. rewrite packets_size_cons. intros H.
  pose proof (packets_size_nonneg l). pose proof (zlen_nonneg p).
  constructor; [lia|apply IH; lia].
Qed.

(** The datagrams of packets [ws] for destinations [ss]. *)
Definition datagrams (ss : list sockaddr_in) (ws : list wire) : network :=
  ws ≫= λ w, (λ s, (s, wire_bytes w)) <$> ss.

Lemma send_packets_ok sendto t ws pre post num ms net :
  Forall builder_wire ws → (∀ net s d, sendto net s d = zlen d) →
  send_packets sendto t (slots (zlen pre) (wire_bytes <$> ws))
    (pre ++ concat (wire_bytes <$> ws) ++ post) num ms net
  = Ok (true, (pre ++ concat (wire_bytes <$> stamp_wires num ms ws) ++ post,
               net ++ datagrams (m_sock_addr <$> m_destinations t) (stamp_wires num ms ws))).
Proof.
  intros Hws Hs. revert pre net. induction Hws as [|w ws Hw Hws IH]; intros pre net.
  { cbn. by rewrite !app_nil_r. }
  destruct Hw as (b & p & -> & Hlt). cbn [stamp_wires]. rewrite !fmap_cons.
  cbn [slots send_packets concat]. rewrite <- !app_assoc.
  set (mark := match slots _ _ with [] => true | _ => false end).
  assert (Hmark : mark = match ws with [] => true | _ => false end) by by destruct ws.
  rewrite <- Hmark. clearbody mark. step stamp_ok.
  set (w' := stamp_wire num ms mark (packet_wire b p)).
  assert (Hlen : zlen (wire_bytes (packet_wire b p)) = zlen (wire_bytes w')).
  { unfold w'. by rewrite packet_wire_raw, stamp_wire_raw, !raw_packet_len. }
  rewrite Hlen. step (rd_range_app pre (wire_bytes w')).
  rewrite send_data_all; [|done|unfold w'; rewrite stamp_wire_raw, raw_packet_len; lia].
  cbn [negb]. rewrite <- zlen_app, (app_assoc pre). rewrite IH. unfold datagrams.
  rewrite bind_cons. by rewrite <- !app_assoc.
Qed.

Lemma send_h264_data_spec sendto now base this builder t us net :
  m_initialize this = true → m_h264_rtp_builder this = Some builder →
  m_transmitter this = Some t → RTPH264PacketBuilder.m_initialize builder = true →
  0 <= m_sequence builder < 4294967296 → units_ok us → zlen (annexb us) < 2 ^ 31 →
  packets_size (packetize us.*2 0 []) < RTP_PACKETS_BUFFER_SIZE →
  (∀ net s d, sendto net s d = zlen d) →
  ∃ builder', send_h264_data sendto now base this (annexb us) (zlen (annexb us)) net
    = Ok (true, (set_builder this builder',
                 net ++ datagrams (m_sock_addr <$> m_destinations t)
                          (session_wires builder (clock_ms now) us.*2)))
    ∧ m_sequence builder' = u32 (m_sequence builder + zlen (packetize us.*2 0 [])).
Proof.
  intros Hi Hb Ht Hbi Hq Hok H31 Hsz Hs. unfold send_h264_data. rewrite Hi, Hb, Ht. cbn [negb].
  destruct (send_data_annexb_spec builder base us Hok H31) as (v & -> & Hv). step_bind.
  destruct (receive_layout (set_nalus builder v) (annexb us) us.*2 Hbi Hv Hq Hsz)
    as (b' & -> & EB & Hq').
  step_bind. cbn [negb].
  set (payloads := packetize us.*2 0 []) in *.
  assert (Hw : packet_wires (set_nalus builder v) payloads = packet_wires builder payloads).
  { clear. generalize payloads. intros l. revert builder. induction l as [|q l IH]; intros b; [done|].
    cbn [packet_wires]. f_equal.
    change (next_sequence (set_nalus b v)) with (set_nalus (next_sequence b) v). apply IH. }
  rewrite Hw in *. rewrite EB.
  assert (Hbw : Forall builder_wire (packet_wires builder payloads)).
  { apply packet_wires_builder. eapply Forall_impl; [by apply packets_size_each|].
    intros p Hp. cbv beta in Hp. unfold RTP_PACKETS_BUFFER_SIZE in Hp. lia. }
  assert (Hn : zlen (slots 0 (wire_bytes <$> packet_wires builder payloads)) = zlen payloads).
  { unfold zlen. f_equal. generalize 0. clear. revert builder.
    induction payloads as [|p l IH]; intros b z; [done|]. cbn. f_equal. apply IH. }
  rewrite Hn.
  pose proof (send_packets_ok sendto t (packet_wires builder payloads) [] []
                (u8 (zlen payloads)) (clock_ms now) net Hbw Hs) as E.
  rewrite !app_nil_r in E. cbn [app] in E. change (zlen (@nil Z)) with 0 in E. step E.
  eexists. split; [done|]. done.
Qed.

(** A frame of NAL units is sent, when its packets fit in the builder's buffer and
    the socket takes them, as the packets of [session_wires], each to every
    destination. *)
Theorem send_h264_data_correct sendto now base this builder t us net :
  m_initialize this = true → m_h264_rtp_builder this = Some builder →
  m_transmitter this = Some t → RTPH264PacketBuilder.m_initialize builder = true →
  0 <= m_sequence builder < 4294967296 → units_ok us → zlen (annexb us) < 2 ^ 31 →
  packets_size (packetize us.*2 0 []) < RTP_PACKETS_BUFFER_SIZE →
  (∀ net s d, sendto net s d = zlen d) →
  ∃ builder', send_h264_data sendto now base this (annexb us) (zlen (annexb us)) net
    = Ok (true, (set_builder this builder',
                 net ++ datagrams (m_sock_addr <$> m_destinations t)
                          (session_wires builder (clock_ms now) us.*2)))
    ∧ m_sequence builder' = u32 (m_sequence builder + zlen (packetize us.*2 0 [])).
Proof. by apply send_h264_data_spec. Qed.

(** ** From the sender's frame to the receiver's frame *)

Lemma session_wire_ok num ms mark b p :
  0 <= num < 65536 → 0 <= ms < 2 ^ 32 → 0 <= m_ssrc b < 2 ^ 32 → zlen p + 28 < 2 ^ 31 →
  wire_ok (stamp_wire num ms mark (packet_wire b p)).
Proof.
  intros Hn Hm Hs Hl. pose proof (land_ones_range (m_sequence b) 16).
  assert (HL : zlen (wire_bytes (stamp_wire num ms mark (packet_wire b p))) < 2 ^ 64)
    by (rewrite stamp_wire_raw, raw_packet_len; lia).
  unfold wire_ok. split; [|split; [|split_and!; done]].
  - unfold header_ok, stamp_wire, packet_wire, packet_header. cbn. change 65535 with (Z.ones 16).
    destruct mark; split_and!; lia.
  - unfold ext_ok. cbn. split_and!; lia.
Qed.

Lemma wire_packet_carries num ms mark b p :
  carries (wire_packet (stamp_wire num ms mark (packet_wire b p))) p.
Proof.
  exists (take 28 (wire_bytes (stamp_wire num ms mark (packet_wire b p)))), [].
  rewrite app_nil_r. unfold get_packet, get_payload, get_payload_length, wire_packet.
  cbn [m_packet m_payload m_payload_len w_csrcs stamp_wire w_payload packet_wire].
  rewrite stamp_wire_raw. split_and!; [|done|done]. f_equal.
Qed.

(** The receiver's packets of a frame. *)
Definition received (builder : RTPH264PacketBuilder) (ms : Z) (ns : list (list Z)) : list RTPPacket :=
  wire_packet <$> session_wires builder ms ns.

Lemma stamp_wires_received num ms b payloads :
  0 <= num < 65536 → 0 <= ms < 2 ^ 32 → 0 <= m_ssrc b < 2 ^ 32 →
  Forall (λ p, zlen p + 28 < 2 ^ 31) payloads →
  let ws := stamp_wires num ms (packet_wires b payloads) in
  Forall wire_ok ws ∧ Forall2 carries (wire_packet <$> ws) payloads.
Proof.
  intros Hn Hm Hs Hp. revert b Hs. induction Hp as [|p l Hp Hl IH]; intros b Hs; [by split; constructor|].
  cbn [packet_wires stamp_wires]. rewrite fmap_cons. destruct (IH (next_sequence b) Hs) as [H1 H2].
  split; (constructor; [|done]); [by apply session_wire_ok|apply wire_packet_carries].
Qed.

(** All the packets of a frame carry the source of the builder and one time. *)
Lemma stamp_wires_identity num ms b payloads :
  Forall (λ p, RTPPacket.get_ssrc p = m_ssrc b ∧ get_timestamp p = ms)
    (wire_packet <$> stamp_wires num ms (packet_wires b payloads)).
Proof.
  revert b. induction payloads as [|p l IH]; intros b; [constructor|].
  cbn [packet_wires stamp_wires]. rewrite fmap_cons. constructor; [done|apply (IH (next_sequence b))].
Qed.

(** The numbers of the packets of a frame: the session sends the low sixteen bits. *)
Lemma stamp_wires_sequence num ms b payloads :
  0 <= m_sequence b < 4294967296 → m_sequence b mod 65536 + zlen payloads <= 65536 →
  get_sequence <$> (wire_packet <$> stamp_wires num ms (packet_wires b payloads))
  = seqZ (m_sequence b mod 65536) (zlen payloads).
Proof.
  revert b. induction payloads as [|p l IH]; intros b Hb Hs; [done|].
  cbn [packet_wires stamp_wires]. rewrite !fmap_cons, zlen_cons in *. pose proof (zlen_nonneg l).
  pose proof (Z.mod_pos_bound (m_sequence b) 65536 ltac:(lia)).
  rewrite seqZ_cons by lia. f_equal.
  { unfold get_sequence, wire_packet. cbn. change 65535 with (Z.ones 16). rewrite Z.land_ones by lia. done. }
  destruct (decide (l = [])) as [->|Hne]; [done|].
  assert (0 < zlen l) by (unfold zlen; destruct l; [done|cbn; lia]).
  assert (En : m_sequence (next_sequence b) mod 65536 = m_sequence b mod 65536 + 1).
  { cbn [next_sequence m_sequence]. unfold u32.
    rewrite <- Znumtheory.Zmod_div_mod by (lia || by exists 65536).
    rewrite <- Zplus_mod_idemp_l. rewrite Z.mod_small by lia. done. }
  rewrite IH; [|apply u32_range|rewrite En; lia]. rewrite En. f_equal; lia.
Qed.

(** How long they are. *)
Lemma stamp_wires_lengths num ms b payloads :
  Forall2 (λ w p, zlen (wire_bytes w) = 28 + zlen p)
    (stamp_wires num ms (packet_wires b payloads)) payloads.
Proof.
  revert b. induction payloads as [|p l IH]; intros b; [constructor|].
  cbn [packet_wires stamp_wires]. constructor; [|apply IH].
  rewrite stamp_wire_raw, raw_packet_len. lia.
Qed.

Lemma video_path_spec sendto now base this builder t d us net asm :
  m_initialize this = true → m_h264_rtp_builder this = Some builder →
  m_transmitter this = Some t → m_destinations t = [d] →
  RTPH264PacketBuilder.m_initialize builder = true → 0 <= m_sequence builder < 4294967296 → 0 <= m_ssrc builder < 2 ^ 32 →
  units_ok us → Forall sendable us.*2 → zlen (annexb us) < 2 ^ 31 → frame_room us.*2 →
  packets_size (packetize us.*2 0 []) < RTP_PACKETS_BUFFER_SIZE →
  (∀ net s d, sendto net s d = zlen d) → RTPH264FrameAssembler.m_initialize asm = true →
  ∃ this' ds packets frames asm',
    send_h264_data sendto now base this (annexb us) (zlen (annexb us)) net
      = Ok (true, (this', net ++ ((λ b, (m_sock_addr d, b)) <$> ds)))
    ∧ Forall2 (λ b p, parse reset b (zlen b) = Ok (true, p)) ds packets
    ∧ push_packets asm packets = Ok (frames, asm')
    ∧ renders (concat frames) us.*2
    ∧ last_completes asm packets
    ∧ Forall (λ p, RTPPacket.get_ssrc p = m_ssrc builder ∧ get_timestamp p = clock_ms now) packets
    ∧ (us ≠ [] → has_marker <$> packets = replicate (length packets - 1) false ++ [true])
    ∧ ds = wire_bytes <$> session_wires builder (clock_ms now) us.*2
    ∧ packets = wire_packet <$> session_wires builder (clock_ms now) us.*2.
Proof.
  intros Hi Hb Ht Hd Hbi Hq Hss Hok Hse H31 Hroom Hsz Hs Hasm.
  destruct (send_h264_data_spec sendto now base this builder t us net)
    as (builder' & E & _); [done..|].
  set (ws := session_wires builder (clock_ms now) us.*2) in *.
  assert (Hp : Forall (λ p, zlen p + 28 < 2 ^ 31) (packetize us.*2 0 [])).
  { eapply Forall_impl; [by apply packets_size_each|].
    intros p Hp. cbv beta in Hp. unfold RTP_PACKETS_BUFFER_SIZE in Hp. lia. }
  destruct (stamp_wires_received (u8 (zlen (packetize us.*2 0 []))) (clock_ms now) builder
              (packetize us.*2 0 [])) as [Hwok Hcar];
    [pose proof (u8_byte (zlen (packetize us.*2 0 []))); unfold is_byte in *; lia
    |apply u32_range|done|done|].
  fold (session_wires builder (clock_ms now) us.*2) in Hwok, Hcar. fold ws in Hwok, Hcar.
  destruct (packetize_reassembled us.*2 asm (wire_packet <$> ws)) as (frames & asm' & E2 & Hr & Hlast);
    [done..|].
  exists (set_builder this builder'), (wire_bytes <$> ws), (wire_packet <$> ws), frames, asm'.
  split_and!; [| |done|done|done|apply stamp_wires_identity| |done|done].
  - rewrite E, Hd. do 4 f_equal. unfold datagrams. clear. induction ws as [|w ws IH]; [done|].
    rewrite bind_cons, IH. done.
  - clear -Hwok. induction Hwok as [|w ws Hw _ IH]; [constructor|].
    rewrite !fmap_cons. constructor; [by apply parse_wire_roundtrip_spec|done].
  - intros Hne. assert (Hne' : packetize us.*2 0 [] ≠ []).
    { intros E0. rewrite E0 in Hcar. apply Forall2_nil_inv_r in Hcar. rewrite Hcar in E2.
      injection E2 as <- _. destruct Hr as (longs & Hl & Hnil).
      destruct us as [|u us]; [done|]. destruct longs as [|l longs]; [done|].
      cbn [fmap list_fmap zip_with concat] in Hnil. rewrite annexb_cons in Hnil.
      by destruct l. }
    rewrite length_fmap. unfold ws, session_wires. generalize (u8 (zlen (packetize us.*2 0 []))).
    revert Hne'. generalize (packetize us.*2 0 []). clear. intros l Hl num. revert builder.
    destruct l as [|p l]; [done|]. clear Hl. revert p.
    induction l as [|q l IH]; intros p b; [done|].
    specialize (IH q (next_sequence b)). cbn [packet_wires stamp_wires] in *.
    rewrite !fmap_cons in *. rewrite IH. cbn. by rewrite Nat.sub_0_r.
Qed.

(** The contract of the video path.  A frame of NAL units is sent to the one
    destination of the session as datagrams [ds]; each parses, and the packets,
    pushed in order, complete frames that hold exactly the NAL units of the sender;
    the marker is on the last packet and only there. *)
Theorem video_path_correct sendto now base this builder t d us net asm :
  m_initialize this = true → m_h264_rtp_builder this = Some builder →
  m_transmitter this = Some t → m_destinations t = [d] →
  RTPH264PacketBuilder.m_initialize builder = true → 0 <= m_sequence builder < 4294967296 → 0 <= m_ssrc builder < 2 ^ 32 →
  units_ok us → Forall sendable us.*2 → zlen (annexb us) < 2 ^ 31 → frame_room us.*2 →
  packets_size (packetize us.*2 0 []) < RTP_PACKETS_BUFFER_SIZE →
  (∀ net s d, sendto net s d = zlen d) → RTPH264FrameAssembler.m_initialize asm = true →
  ∃ this' ds packets frames asm',
    send_h264_data sendto now base this (annexb us) (zlen (annexb us)) net
      = Ok (true, (this', net ++ ((λ b, (m_sock_addr d, b)) <$> ds)))
    ∧ Forall2 (λ b p, parse reset b (zlen b) = Ok (true, p)) ds packets
    ∧ push_packets asm packets = Ok (frames, asm')
    ∧ renders (concat frames) us.*2
    ∧ last_completes asm packets
    ∧ Forall (λ p, RTPPacket.get_ssrc p = m_ssrc builder ∧ get_timestamp p = clock_ms now) packets
    ∧ (us ≠ [] → has_marker <$> packets = replicate (length packets - 1) false ++ [true]).
Proof.
  intros. destruct (video_path_spec sendto now base this builder t d us net asm)
    as (this' & ds & packets & frames & asm' & R1 & R2 & R3 & R4 & R5 & R6 & R7 & _); [done..|].
  by exists this', ds, packets, frames, asm'.
Qed.

(** ** Concrete runs *)

Definition one_destination : RTPTransmitterV4 :=
  set_destinations sample_transmitter [new_address sample_inet_addr "127.0.0.1" 7000].

Definition sample_session : RTPSessionVideo :=
  {| m_initialize := true;
     m_h264_rtp_builder := Some (set_ssrc (RTPH264PacketBuilder.init new_builder 65534 5).2 9);
     m_transmitter := Some one_destination |}.

Lemma send_h264_data_correct_witness : ∃ this',
  send_h264_data (λ _ _ d, zlen d) 7000000 0 sample_session
    (annexb sample_frame) (zlen (annexb sample_frame)) []
  = Ok (true, (this', datagrams [mkSockaddr 16777343 22555]
      (session_wires (set_ssrc (RTPH264PacketBuilder.init new_builder 65534 5).2 9) 7000
         sample_frame.*2))).
Proof.
  set (b := set_ssrc (RTPH264PacketBuilder.init new_builder 65534 5).2 9).
  destruct (send_h264_data_correct (λ _ _ d, zlen d) 7000000 0 sample_session b one_destination
              sample_frame []) as (b' & E & _);
    [done|done|done|done|by vm_compute|exact sample_frame_ok|by vm_compute|by vm_compute|done|].
  exists (set_builder sample_session b'). exact E.
Defined.

Lemma video_path_correct_witness : ∃ this' ds packets frames asm',
  send_h264_data (λ _ _ d, zlen d) 7000000 0 sample_session
    (annexb sample_frame) (zlen (annexb sample_frame)) []
    = Ok (true, (this', (λ b, (mkSockaddr 16777343 22555, b)) <$> ds))
  ∧ Forall2 (λ b p, parse reset b (zlen b) = Ok (true, p)) ds packets
  ∧ push_packets ready packets = Ok (frames, asm')
  ∧ renders (concat frames) sample_frame.*2
  ∧ has_marker <$> packets = replicate (length packets - 1) false ++ [true].
Proof.
  set (b := set_ssrc (RTPH264PacketBuilder.init new_builder 65534 5).2 9).
  destruct (video_path_correct (λ _ _ d, zlen d) 7000000 0 sample_session b one_destination
              (new_address sample_inet_addr "127.0.0.1" 7000) sample_frame [] ready)
    as (this' & ds & packets & frames & asm' & H1 & H2 & H3 & H4 & _ & _ & H5);
    [done|done|done|done|done|by vm_compute|by vm_compute|exact sample_frame_ok|by_table|by vm_compute
    |by vm_compute|by vm_compute|done|done|].
  exists this', ds, packets, frames, asm'.
  split_and!; [exact H1|exact H2|exact H3|exact H4|by apply H5].
Defined.
