(* ===== verification/RTPSessionReceiver.v ===== *)
(** * RTPSessionReceiver: receiving and re-ordering packets

    Models [src/rtp/rtp_session_receiver.h] and [.cpp].  The packets of
    [m_reorder_list] are heap objects the list owns until one is returned; they are
    values here, each with the copy of its datagram.  A use of a null transmitter is
    a fault.  [fresh] is the content of newly allocated memory. *)

From S2P Require Import Prelude.
From S2P Require Import RTPPacket.
From S2P Require Import IPAddrV4.
From S2P Require Import PortManager.
From S2P Require Import RTPTransmitterV4.

Definition RTP_RECV_BUFFER_SIZE : Z := 1024 * 2.

Record RTPSessionReceiver := mkRTPSessionReceiver {
  m_initialize : bool;
  m_transmitter : option RTPTransmitterV4;
  m_reorder : bool;
  m_reorder_list : list RTPPacket;
  m_rtp_packet : RTPPacket;
  m_recv_buffer : list Z;
}.

Definition new_receiver : RTPSessionReceiver :=
  {| m_initialize := false; m_transmitter := None; m_reorder := false; m_reorder_list := [];
     m_rtp_packet := reset; m_recv_buffer := [] |}.

Definition is_initialize (this : RTPSessionReceiver) : bool := m_initialize this.

Definition init (os : probe) (sock : Z) (bind_result : Z → Z → Z) (inet_addr : string → Z)
    (fresh : list Z) (this : RTPSessionReceiver) (reorder : bool)
    (recvParams : option RTPTransParamsV4) (pinholeIP : string) (pinholePort : Z)
    (ports : PortManager) : bool * (RTPSessionReceiver * PortManager) :=
  if m_initialize this then (true, (this, ports)) else
  let '(ok, (t, ports)) := RTPTransmitterV4.init os sock bind_result new_transmitter recvParams ports in
  if negb ok then
    (false, ({| m_initialize := false; m_transmitter := None; m_reorder := reorder;
                m_reorder_list := m_reorder_list this; m_rtp_packet := reset;
                m_recv_buffer := [] |}, ports)) else
  let '(_, t) := add_destination inet_addr t pinholeIP pinholePort in
  (true, ({| m_initialize := true; m_transmitter := Some t; m_reorder := reorder;
             m_reorder_list := m_reorder_list this; m_rtp_packet := reset;
             m_recv_buffer := fresh |}, ports)).

(** [message] is sent, whatever the outcome. *)
Definition nat_pinhole (sendto : network → sockaddr_in → list Z → Z) (this : RTPSessionReceiver)
    (message : list Z) (net : network) : outcome network :=
  match m_transmitter this with
  | None => Fault
  | Some t => Ok (send_data sendto t message net).2
  end.

Definition set_received (this : RTPSessionReceiver) (packet : RTPPacket) (buffer : list Z)
    (l : list RTPPacket) : RTPSessionReceiver :=
  {| m_initialize := m_initialize this; m_transmitter := m_transmitter this;
     m_reorder := m_reorder this; m_reorder_list := l; m_rtp_packet := packet;
     m_recv_buffer := buffer |}.

(** [receive_rtp_packet(timeout_us)]: [None] is the null pointer. *)
Definition receive_direct (this : RTPSessionReceiver) (a : arrival)
    : outcome (option RTPPacket * RTPSessionReceiver) :=
  if negb (m_initialize this) then Ok (None, this) else
  match m_transmitter this with
  | None => Fault
  | Some t =>
      let '(receivedLen, buffer) := receive_data t a (m_recv_buffer this) RTP_RECV_BUFFER_SIZE in
      if receivedLen =? 0 then Ok (None, set_received this (m_rtp_packet this) buffer (m_reorder_list this))
      else
        r ← parse (m_rtp_packet this) buffer receivedLen;
        let '(ret, packet) := r in
        Ok (if (ret : bool) then Some packet else None,
            set_received this packet buffer (m_reorder_list this))
  end.

(** The [while (!done)] of the insertion.  The iterator points at the head of
    [before] (the list up to it, reversed); [after] is what is behind it.  Running
    out of [before] is [it == start] with a larger sequence: [push_front]. *)
Fixpoint insert_loop (packet : RTPPacket) (before after : list RTPPacket) : list RTPPacket :=
  match before with
  | [] => packet :: after
  | p :: before' =>
      if get_sequence packet <? get_sequence p then insert_loop packet before' (p :: after)
      else if get_sequence p <? get_sequence packet then rev before ++ packet :: after
      else rev before ++ after
  end.

Definition insert_packet (l : list RTPPacket) (packet : RTPPacket) : list RTPPacket :=
  insert_loop packet (rev l) [].

(** The oldest packet leaves when there are more than [reorderLen]. *)
Definition pop_packet (l : list RTPPacket) (reorderLen : Z) : option RTPPacket * list RTPPacket :=
  match l with
  | packet :: l' => if reorderLen <? zlen l then (Some packet, l') else (None, l)
  | [] => (None, [])
  end.

(** [receive_rtp_packet(reorderLen, timeout_us)]. *)
Definition receive_rtp_packet (this : RTPSessionReceiver) (reorderLen : Z) (a : arrival)
    : outcome (option RTPPacket * RTPSessionReceiver) :=
  if (reorderLen <=? 0) || negb (m_reorder this) then receive_direct this a else
  match m_transmitter this with
  | None => Fault
  | Some t =>
      let '(receivedLen, buffer) := receive_data t a (m_recv_buffer this) RTP_RECV_BUFFER_SIZE in
      l ← (match m_reorder_list this with
           | [] => Ok [reset]
           | l => if 0 <? receivedLen then
                    ptr ← rd_range buffer 0 receivedLen;
                    r ← parse reset ptr receivedLen;
                    let '(ret, tmpPacket) := r in
                    Ok (if (ret : bool) then insert_packet l tmpPacket else l)
                  else Ok l
           end);
      let '(packet, l) := pop_packet l reorderLen in
      Ok (packet, set_received this (m_rtp_packet this) buffer l)
  end.

(** ** Specification *)

(** In strictly increasing order of the sequence numbers. *)
Definition ordered (l : list RTPPacket) : Prop :=
  StronglySorted (λ p q, get_sequence p < get_sequence q) l.

(** What the code does with one parsed packet. *)
Definition reorder_step (k : Z) (l : list RTPPacket) (packet : RTPPacket)
    : option RTPPacket * list RTPPacket := pop_packet (insert_packet l packet) k.

Fixpoint reorder_run (k : Z) (l : list RTPPacket) (packets : list RTPPacket)
    : list RTPPacket * list RTPPacket :=
  match packets with
  | [] => ([], l)
  | packet :: packets =>
      let '(out, l) := reorder_step k l packet in
      let '(outs, l) := reorder_run k l packets in
      (match out with Some p => p :: outs | None => outs end, l)
  end.

(** No packet arrives more than [k] places after one of a larger number. *)
Definition within_window (k : nat) (packets : list RTPPacket) : Prop :=
  ∀ pre packet post, packets = pre ++ packet :: post →
    Forall (λ p, get_sequence p < get_sequence packet) (take (length pre - k) pre).

(** ** The insertion *)

Lemma insert_loop_split packet before after :
  (∀ p, p ∈ before → get_sequence p ≠ get_sequence packet) →
  ordered (rev before ++ after) →
  (∀ p, p ∈ after → get_sequence packet < get_sequence p) →
  ∃ l1 l2, rev before ++ after = l1 ++ l2
    ∧ insert_loop packet before after = l1 ++ packet :: l2
    ∧ Forall (λ p, get_sequence p < get_sequence packet) l1
    ∧ Forall (λ p, get_sequence packet < get_sequence p) l2.
Proof.
  revert after. induction before as [|p before IH]; intros after Hne Hs Ha; cbn [insert_loop].
  - exists [], after. split_and!; [done|done|constructor|by apply Forall_forall].
  - cbn [rev] in *. destruct (Z.ltb_spec (get_sequence packet) (get_sequence p)).
    + rewrite <- app_assoc in *. apply IH; [set_solver|done|set_solver].
    + assert (get_sequence p ≠ get_sequence packet) by set_solver.
      rewrite (proj2 (Z.ltb_lt _ _)) by lia. exists (rev before ++ [p]), after.
      split_and!; [done|done| |by apply Forall_forall].
      apply Forall_app; split; [|by constructor; [lia|]].
      unfold ordered in Hs. rewrite <- app_assoc in Hs. apply Forall_forall. intros q Hq.
      assert (get_sequence q < get_sequence p); [|lia].
      clear -Hs Hq. induction (rev before) as [|x l IHl]; [set_solver|].
      apply StronglySorted_inv in Hs as [Hs Hx]. apply elem_of_cons in Hq as [->|Hq].
      * rewrite Forall_forall in Hx. apply Hx. set_solver.
      * by apply IHl.
Qed.

Lemma insert_packet_split l packet :
  ordered l → (∀ p, p ∈ l → get_sequence p ≠ get_sequence packet) →
  ∃ l1 l2, l = l1 ++ l2 ∧ insert_packet l packet = l1 ++ packet :: l2
    ∧ Forall (λ p, get_sequence p < get_sequence packet) l1
    ∧ Forall (λ p, get_sequence packet < get_sequence p) l2.
Proof.
  intros Hs Hne. destruct (insert_loop_split packet (rev l) []) as (l1 & l2 & E & H).
  - intros p Hp. apply Hne. apply list_elem_of_In. apply list_elem_of_In in Hp.
    by apply in_rev.
  - by rewrite rev_involutive, app_nil_r.
  - set_solver.
  - rewrite rev_involutive, app_nil_r in E. by exists l1, l2.
Qed.

Lemma ordered_insert l1 l2 packet :
  ordered (l1 ++ l2) →
  Forall (λ p, get_sequence p < get_sequence packet) l1 →
  Forall (λ p, get_sequence packet < get_sequence p) l2 →
  ordered (l1 ++ packet :: l2).
Proof.
  unfold ordered. induction l1 as [|p l1 IH]; cbn [app]; intros Hs H1 H2.
  - by constructor.
  - apply StronglySorted_inv in Hs as [Hs Hp]. inversion H1; subst.
    constructor; [by apply IH|]. rewrite Forall_forall in *. intros q.
    rewrite elem_of_app, elem_of_cons. intros [Hq|[->|Hq]]; [|done|]; apply Hp; set_solver.
Qed.

(** A packet with a number that is already there is dropped. *)
Lemma insert_loop_dup packet before after :
  (∃ p, p ∈ before ∧ get_sequence p = get_sequence packet) →
  insert_loop packet before after = rev before ++ after
  ∨ ∃ p, p ∈ before ∧ get_sequence p < get_sequence packet.
Proof.
  revert after. induction before as [|p before IH]; intros after (q & Hq & E); [set_solver|].
  cbn [insert_loop]. destruct (Z.ltb_spec (get_sequence packet) (get_sequence p)).
  - apply elem_of_cons in Hq as [->|Hq]; [lia|].
    destruct (IH (p :: after)) as [->|(r & Hr & Hlt)]; [by exists q| |].
    + left. cbn [rev]. by rewrite <- app_assoc.
    + right. exists r. set_solver.
  - destruct (Z.ltb_spec (get_sequence p) (get_sequence packet)); [|by left].
    right. exists p. set_solver.
Qed.

(** ** The order of what is delivered *)

Lemma ordered_app_lt l1 l2 p q :
  ordered (l1 ++ l2) → p ∈ l1 → q ∈ l2 → get_sequence p < get_sequence q.
Proof.
  unfold ordered. induction l1 as [|x l1 IH]; [set_solver|]. cbn [app].
  intros [Hs Hx]%StronglySorted_inv Hp Hq. apply elem_of_cons in Hp as [->|Hp]; [|by apply IH].
  rewrite Forall_forall in Hx. apply Hx. set_solver.
Qed.

Lemma ordered_app_r l1 l2 : ordered (l1 ++ l2) → ordered l2.
Proof.
  unfold ordered. induction l1 as [|x l1 IH]; [done|]. cbn [app].
  by intros [Hs _]%StronglySorted_inv; apply IH.
Qed.

Lemma ordered_app l1 l2 :
  ordered l1 → ordered l2 → (∀ p q, p ∈ l1 → q ∈ l2 → get_sequence p < get_sequence q) →
  ordered (l1 ++ l2).
Proof.
  unfold ordered. induction l1 as [|x l1 IH]; [done|]. cbn [app].
  intros [Hs Hx]%StronglySorted_inv H2 Hlt. constructor; [apply IH; set_solver|].
  apply Forall_app; split; [done|]. apply Forall_forall. set_solver.
Qed.

Lemma ordered_app_l l1 l2 : ordered (l1 ++ l2) → ordered l1.
Proof.
  unfold ordered. induction l1 as [|x l1 IH]; [constructor|]. cbn [app].
  intros [Hs Hx]%StronglySorted_inv. constructor; [by apply IH|].
  by apply Forall_app in Hx as [? _].
Qed.

#[global] Instance RTPPacket_eq_dec : EqDecision RTPPacket.
Proof. solve_decision. Defined.

(** Among more than [k] packets of [A], one is not of the last [k]. *)
Lemma one_is_old k (A l : list RTPPacket) :
  NoDup l → (∀ p, p ∈ l → p ∈ A) → (k < length l)%nat →
  ∃ y, y ∈ l ∧ y ∈ take (length A - k) A.
Proof.
  intros Hnd Hin Hlen.
  destruct (decide (Exists (λ y, y ∈ take (length A - k) A) l)) as [Hex|Hno].
  { by apply Exists_exists in Hex as (y & ? & ?); exists y. }
  exfalso. assert (Hsub : l ⊆+ drop (length A - k) A).
  { apply NoDup_submseteq; [done|]. intros p Hp.
    assert (Hp' : p ∉ take (length A - k) A).
    { intros H. apply Hno. apply Exists_exists. by exists p. }
    specialize (Hin p Hp). rewrite <- (take_drop (length A - k) A) in Hin. set_solver. }
  apply submseteq_length in Hsub. rewrite length_drop in Hsub. lia.
Qed.

Lemma NoDup_sequences (l : list RTPPacket) : NoDup (get_sequence <$> l) → NoDup l.
Proof. apply NoDup_fmap_1. Qed.

Lemma ordered_NoDup l : ordered l → NoDup l.
Proof.
  unfold ordered. induction 1 as [|p l Hs IH Hp]; [constructor|].
  constructor; [|done]. intros Hin. rewrite Forall_forall in Hp. specialize (Hp p Hin). lia.
Qed.

(** The invariant of the run: what was handed out, then what waits, is in order and
    is what arrived; and nothing handed out exceeds an old arrival. *)
Record reorder_inv (k : nat) (A out l : list RTPPacket) : Prop := {
  inv_ordered : ordered (out ++ l);
  inv_perm : out ++ l ≡ₚ A;
  inv_len : (length l <= k)%nat;
  inv_old : Forall (λ m, Exists (λ y, get_sequence m <= get_sequence y) (take (length A - k) A)) out;
}.

Lemma take_grows {T} (A B : list T) n m : (n <= m)%nat → (n <= length A)%nat →
  ∃ C, take m (A ++ B) = take n A ++ C.
Proof.
  intros Hn Hl. exists (drop n (take m (A ++ B))).
  rewrite <- (take_drop n (take m (A ++ B))) at 1. f_equal.
  rewrite take_take, Nat.min_l by lia. by rewrite take_app_le.
Qed.

Lemma reorder_step_inv k A out l packet :
  (0 < k)%nat → reorder_inv k A out l → NoDup (get_sequence <$> A ++ [packet]) →
  Forall (λ p, get_sequence p < get_sequence packet) (take (length A - k) A) →
  let '(o, l') := reorder_step (Z.of_nat k) l packet in
  reorder_inv k (A ++ [packet]) (out ++ match o with Some p => [p] | None => [] end) l'.
Proof.
  intros Hk [Hs Hp Hl Ho] Hnd Hwin.
  assert (Hfresh : ∀ p, p ∈ out ++ l → get_sequence p ≠ get_sequence packet).
  { intros p Hin E. rewrite Hp in Hin. rewrite fmap_app in Hnd. apply NoDup_app in Hnd as (_ & Hd & _).
    apply (Hd (get_sequence p)); [by apply list_elem_of_fmap_2|]. rewrite E. set_solver. }
  destruct (insert_packet_split l packet) as (l1 & l2 & -> & E & H1 & H2).
  { by eapply ordered_app_r. }
  { intros p Hin. apply Hfresh. set_solver. }
  assert (Hout : Forall (λ p, get_sequence p < get_sequence packet) out).
  { rewrite Forall_forall in Ho, Hwin |- *. intros m Hm.
    destruct (proj1 (Exists_exists _ _) (Ho m Hm)) as (y & Hy & Hle). specialize (Hwin y Hy). lia. }
  assert (Hs' : ordered (out ++ l1 ++ packet :: l2)).
  { rewrite app_assoc. apply ordered_insert; [by rewrite <- app_assoc| |done].
    by apply Forall_app. }
  assert (Hp' : out ++ l1 ++ packet :: l2 ≡ₚ A ++ [packet]) by (rewrite <- Hp; solve_Permutation).
  assert (Hold : Forall (λ m, Exists (λ y, get_sequence m <= get_sequence y)
                   (take (length (A ++ [packet]) - k) (A ++ [packet]))) out).
  { eapply Forall_impl; [exact Ho|]. intros m Hm. cbv beta in Hm |- *.
    destruct (take_grows A [packet] (length A - k) (length (A ++ [packet]) - k)) as [C ->];
      [rewrite length_app; lia|lia|]. apply Exists_app. by left. }
  unfold reorder_step. rewrite E. unfold pop_packet.
  destruct (l1 ++ packet :: l2) as [|m l'] eqn:El; [by destruct l1|].
  assert (Hlen : length (m :: l') = S (length (l1 ++ l2))) by (rewrite <- El, !length_app; cbn; lia).
  destruct (Z.ltb_spec (Z.of_nat k) (zlen (m :: l'))) as [Hlt|Hge].
  - split.
    + by rewrite <- app_assoc.
    + by rewrite <- app_assoc.
    + cbn in Hlen. lia.
    + apply Forall_app; split; [done|]. constructor; [|done].
      destruct (one_is_old k (A ++ [packet]) (m :: l')) as (y & Hy & Hyo).
      { apply ordered_NoDup. by eapply ordered_app_r. }
      { intros p Hin. rewrite <- Hp'. set_solver. }
      { unfold zlen in Hlt. lia. }
      apply Exists_exists. exists y. split; [done|].
      apply ordered_app_r in Hs'. apply elem_of_cons in Hy as [->|Hy]; [lia|].
      apply StronglySorted_inv in Hs' as [_ Hm]. rewrite Forall_forall in Hm. specialize (Hm y Hy). lia.
  - rewrite app_nil_r. split; [done|done| |done]. unfold zlen in Hge. lia.
Qed.

Lemma reorder_run_inv k packets A out l :
  (0 < k)%nat → reorder_inv k A out l → NoDup (get_sequence <$> A ++ packets) →
  within_window k (A ++ packets) →
  let '(outs, l') := reorder_run (Z.of_nat k) l packets in
  reorder_inv k (A ++ packets) (out ++ outs) l'.
Proof.
  intros Hk. revert A out l. induction packets as [|p packets IH]; intros A out l Hinv Hnd Hw.
  { cbn. by rewrite !app_nil_r. }
  cbn [reorder_run]. pose proof (reorder_step_inv k A out l p Hk Hinv) as Hstep.
  destruct (reorder_step (Z.of_nat k) l p) as [o l'].
  assert (EA : A ++ p :: packets = (A ++ [p]) ++ packets) by by rewrite <- app_assoc.
  specialize (IH (A ++ [p]) (out ++ match o with Some p => [p] | None => [] end) l').
  destruct (reorder_run (Z.of_nat k) l' packets) as [outs l''].
  rewrite <- EA in IH. destruct o; cbn [app] in *.
  - rewrite <- app_assoc in IH. apply IH; [|done|done].
    apply Hstep; [|by apply (Hw A p packets)].
    rewrite EA, fmap_app in Hnd. by apply NoDup_app in Hnd as (? & _).
  - rewrite !app_nil_r in *. apply IH; [|done|done].
    apply Hstep; [|by apply (Hw A p packets)].
    rewrite EA, fmap_app in Hnd. by apply NoDup_app in Hnd as (? & _).
Qed.

(** ** The calls of a receiver that re-orders *)

(** A datagram that fits in the receive buffer is waiting. *)
Definition delivers (a : arrival) (d : list Z) (p : RTPPacket) : Prop :=
  datagram a = Some d ∧ ioctl_ret a = 0 ∧ 0 < ioctl_len a
  ∧ 0 < zlen d <= RTP_RECV_BUFFER_SIZE ∧ parse reset d (zlen d) = Ok (true, p).

Definition ready (this : RTPSessionReceiver) : Prop :=
  m_initialize this = true ∧ m_reorder this = true
  ∧ (∃ t, m_transmitter this = Some t ∧ RTPTransmitterV4.m_initialize t = true)
  ∧ zlen (m_recv_buffer this) = RTP_RECV_BUFFER_SIZE.

Fixpoint receive_all (this : RTPSessionReceiver) (k : Z) (arrivals : list arrival)
    : outcome (list RTPPacket * RTPSessionReceiver) :=
  match arrivals with
  | [] => Ok ([], this)
  | a :: arrivals =>
      r ← receive_rtp_packet this k a;
      let '(o, this) := r in
      rest ← receive_all this k arrivals;
      let '(outs, this) := rest in
      Ok (match o with Some p => p :: outs | None => outs end, this)
  end.

Lemma receive_data_delivers t a d p buffer :
  RTPTransmitterV4.m_initialize t = true → delivers a d p →
  zlen buffer = RTP_RECV_BUFFER_SIZE →
  ∃ buffer', receive_data t a buffer RTP_RECV_BUFFER_SIZE = (zlen d, buffer')
    ∧ zlen buffer' = RTP_RECV_BUFFER_SIZE ∧ rd_range buffer' 0 (zlen d) = Ok d.
Proof.
  intros Ht (Hd & Hr & Hn & Hl & _) Hb. unfold receive_data, recvfrom. rewrite Ht, Hr, Hd.
  cbn [negb]. change (0 =? 0) with true. rewrite (proj2 (Z.ltb_lt 0 (ioctl_len a))) by lia.
  cbn [andb]. rewrite take_ge by (unfold zlen in *; lia).
  rewrite (proj2 (Z.ltb_lt 0 (zlen d))) by lia.
  eexists. split_and!; [done| |].
  - rewrite zlen_app. unfold zlen in *. rewrite length_drop. lia.
  - pose proof (rd_range_app [] d (drop (length d) buffer)) as R. exact R.
Qed.

Lemma receive_reorder_step this k a d p :
  ready this → 0 < k → m_reorder_list this ≠ [] → delivers a d p →
  ∃ this', receive_rtp_packet this k a
    = Ok ((reorder_step k (m_reorder_list this) p).1, this')
    ∧ ready this' ∧ m_reorder_list this' = (reorder_step k (m_reorder_list this) p).2.
Proof.
  intros (Hi & Hr & (t & Ht & Hti) & Hb) Hk Hne Hd. unfold receive_rtp_packet.
  rewrite Hr, Ht. rewrite (proj2 (Z.leb_gt k 0)) by lia. cbn [negb orb].
  destruct (receive_data_delivers t a d p (m_recv_buffer this)) as (buffer' & -> & Hb' & R);
    [done..|].
  destruct Hd as (_ & _ & _ & Hl & Hp).
  destruct (m_reorder_list this) as [|q l] eqn:El; [done|].
  rewrite (proj2 (Z.ltb_lt 0 (zlen d))) by lia. step R. step Hp.
  unfold reorder_step. destruct (pop_packet (insert_packet (q :: l) p) k) as [o l'].
  eexists. split; [done|]. split; [|done]. unfold ready; cbn. split_and!; eauto.
Qed.

Lemma insert_packet_length l p : (length l <= length (insert_packet l p))%nat.
Proof.
  unfold insert_packet. assert (∀ b a, (length b + length a <= length (insert_loop p b a))%nat) as H.
  { induction b as [|x b IH]; intros a; cbn [insert_loop]; [cbn; lia|].
    repeat case_match; [specialize (IH (x :: a)); cbn in *; lia|..];
      rewrite !length_app, length_rev; cbn; lia. }
  specialize (H (rev l) []). rewrite length_rev in H. cbn in H. lia.
Qed.

Lemma reorder_step_nonempty k l p :
  0 < k → ordered l → l ≠ [] → (reorder_step k l p).2 ≠ [].
Proof.
  intros Hk Hs Hne. unfold reorder_step, pop_packet.
  pose proof (insert_packet_length l p) as Hins.
  assert (Hlen : length l ≠ 0%nat) by by destruct l.
  destruct (insert_packet l p) as [|q l'] eqn:E; [cbn in Hins; lia|].
  destruct (Z.ltb_spec k (zlen (q :: l'))) as [Hlt|]; [|done].
  cbn. intros ->. change (zlen [q]) with 1 in Hlt. lia.
Qed.

Lemma receive_all_run this k arrivals ds ps A out :
  ready this → (0 < k)%nat → m_reorder_list this ≠ [] →
  Forall2 (λ a d, ∃ p, delivers a d p) arrivals ds →
  Forall2 (λ d p, parse reset d (zlen d) = Ok (true, p)) ds ps →
  reorder_inv k A out (m_reorder_list this) → NoDup (get_sequence <$> A ++ ps) →
  within_window k (A ++ ps) →
  ∃ this', receive_all this (Z.of_nat k) arrivals
      = Ok ((reorder_run (Z.of_nat k) (m_reorder_list this) ps).1, this')
    ∧ m_reorder_list this' = (reorder_run (Z.of_nat k) (m_reorder_list this) ps).2.
Proof.
  intros Hready Hk Hne Ha. revert this A out ps Hready Hne.
  induction Ha as [|a d arrivals ds Had _ IH]; intros this A out ps Hready Hne Hps Hinv Hnd Hw.
  { inversion Hps; subst. by exists this. }
  inversion Hps as [|? p ? ps' Hp Hps']; subst. destruct Had as (p' & Hd).
  assert (p' = p) as -> by (destruct Hd as (_ & _ & _ & _ & Hd); congruence).
  cbn [receive_all reorder_run].
  destruct (receive_reorder_step this (Z.of_nat k) a d p) as (this1 & -> & Hr1 & El);
    [done|lia|done|done|]. step_bind.
  assert (EA : A ++ p :: ps' = (A ++ [p]) ++ ps') by by rewrite <- app_assoc.
  rewrite EA in *.
  assert (Hnd1 : NoDup (get_sequence <$> A ++ [p]))
    by (rewrite fmap_app in Hnd; by apply NoDup_app in Hnd as (? & _)).
  pose proof (reorder_step_inv k A out (m_reorder_list this) p Hk Hinv Hnd1
                (Hw A p ps' (eq_sym EA))) as Hstep.
  assert (Hne1 : m_reorder_list this1 ≠ []).
  { rewrite El. apply reorder_step_nonempty; [lia| |done].
    eapply ordered_app_r. apply Hinv. }
  destruct (reorder_step (Z.of_nat k) (m_reorder_list this) p) as [o l'] eqn:Es.
  cbn [fst snd] in *. rewrite <- El in Hstep.
  destruct (IH this1 (A ++ [p]) _ ps' Hr1 Hne1 Hps' Hstep Hnd Hw) as (this2 & -> & El2).
  step_bind. rewrite El in *. destruct (reorder_run (Z.of_nat k) l' ps') as [outs l''].
  cbn [fst snd] in *. by exists this2.
Qed.

(** C27: Packets that are at most [k] places out of order come out of the receiver in
    order: what it returns, followed by what still waits (at most [k] packets), is
    the arrivals and the empty packet the list began with, sorted by number, none
    lost and none twice. *)
Theorem reordered_delivery this k arrivals ds ps :
  ready this → (0 < k)%nat → m_reorder_list this = [reset] →
  Forall2 (λ a d, ∃ p, delivers a d p) arrivals ds →
  Forall2 (λ d p, parse reset d (zlen d) = Ok (true, p)) ds ps →
  NoDup (get_sequence <$> reset :: ps) → within_window k (reset :: ps) →
  ∃ outs this', receive_all this (Z.of_nat k) arrivals = Ok (outs, this')
    ∧ ordered (outs ++ m_reorder_list this')
    ∧ outs ++ m_reorder_list this' ≡ₚ reset :: ps
    ∧ (length (m_reorder_list this') <= k)%nat.
Proof.
  intros Hr Hk El Ha Hp Hnd Hw.
  assert (Hinv : reorder_inv k [reset] [] (m_reorder_list this)).
  { rewrite El. split; [repeat constructor|done|cbn; lia|constructor]. }
  destruct (receive_all_run this k arrivals ds ps [reset] []) as (this' & E & E2);
    [done|done|by rewrite El|done..|].
  pose proof (reorder_run_inv k ps [reset] [] (m_reorder_list this) Hk Hinv Hnd Hw) as Hfin.
  destruct (reorder_run (Z.of_nat k) (m_reorder_list this) ps) as [outs l'].
  cbn [fst snd app] in *. destruct Hfin as [H1 H2 H3 _]. rewrite <- E2 in *.
  by exists outs, this'.
Qed.

(** The packet of a datagram, [reset] when it does not parse. *)
Definition packet_of (d : list Z) : RTPPacket :=
  match parse reset d (zlen d) with Ok (true, p) => p | _ => reset end.

(** A datagram a receiver takes: it fits in its buffer and parses. *)
Definition receivable (d : list Z) : Prop :=
  0 < zlen d <= RTP_RECV_BUFFER_SIZE ∧ parse reset d (zlen d) = Ok (true, packet_of d).

(** The system hands over the datagram [d]. *)
Definition arrives (a : arrival) (d : list Z) : Prop :=
  datagram a = Some d ∧ ioctl_ret a = 0 ∧ 0 < ioctl_len a.

#[global] Instance earlier_antisymm :
  AntiSymm (=) (λ p q : RTPPacket, get_sequence p < get_sequence q).
Proof. intros p q H1 H2. lia. Qed.

Lemma ordered_unique l1 l2 : ordered l1 → ordered l2 → l1 ≡ₚ l2 → l1 = l2.
Proof. unfold ordered. apply StronglySorted_unique; apply _. Qed.

Lemma ordered_sequences l : ordered l → NoDup (get_sequence <$> l).
Proof.
  unfold ordered. induction 1 as [|p l _ IH Hp]; [constructor|]. rewrite fmap_cons.
  constructor; [|done]. intros (q & E & Hq)%list_elem_of_fmap.
  rewrite Forall_forall in Hp. specialize (Hp q Hq). lia.
Qed.

(** Once a packet was handed out, [k] packets wait. *)
Lemma reorder_run_waiting k l ps :
  let '(outs, l') := reorder_run (Z.of_nat k) l ps in
  outs ≠ [] ∨ (k <= length l)%nat → (k <= length l')%nat.
Proof.
  revert l. induction ps as [|p ps IH]; intros l; cbn [reorder_run]; [by intros [?|?]|].
  unfold reorder_step, pop_packet. pose proof (insert_packet_length l p) as Hl.
  destruct (insert_packet l p) as [|q m] eqn:E.
  { specialize (IH []). destruct (reorder_run _ [] ps) as [outs l']. intros [?|?]; apply IH; [by left|].
    right. cbn in Hl |- *. lia. }
  destruct (Z.ltb_spec (Z.of_nat k) (zlen (q :: m))) as [Hlt|Hge].
  - specialize (IH m). destruct (reorder_run _ m ps) as [outs l']. intros _. apply IH. right.
    unfold zlen in Hlt. cbn in Hlt. lia.
  - specialize (IH (q :: m)). destruct (reorder_run _ (q :: m) ps) as [outs l'].
    intros [?|?]; apply IH; [by left|right; lia].
Qed.

(** Whatever the order within the window, the packets of smaller numbers come out in
    order once [k] packets are behind them. *)
Lemma receive_window this k arrivals arrived outs waiting :
  ready this → (0 < k)%nat → (0 < length (m_reorder_list this) <= k)%nat →
  ordered (m_reorder_list this) → Forall2 arrives arrivals arrived → Forall receivable arrived →
  m_reorder_list this ++ (packet_of <$> arrived) ≡ₚ outs ++ waiting →
  ordered (outs ++ waiting) → length waiting = k → outs ≠ [] →
  within_window k (m_reorder_list this ++ (packet_of <$> arrived)) →
  ∃ this', receive_all this (Z.of_nat k) arrivals = Ok (outs, this')
    ∧ m_reorder_list this' = waiting.
Proof.
  intros Hr Hk Hlen Ho Ha Hf Hperm Hs Hw Hne Hwin. set (l := m_reorder_list this) in *.
  assert (Hinv : reorder_inv k l [] l) by (split; [done|done|lia|constructor]).
  assert (Hnd : NoDup (get_sequence <$> l ++ (packet_of <$> arrived)))
    by (rewrite Hperm; by apply ordered_sequences).
  destruct (receive_all_run this k arrivals arrived (packet_of <$> arrived) l [])
    as (this' & E & E2); [done|done|by destruct (m_reorder_list this); [cbn in Hlen; lia|]| | |done..|].
  { clear -Ha Hf. induction Ha as [|a d arrivals arrived Had _ IH]; [constructor|].
    apply Forall_cons in Hf as [[Hl Hp] Hf]. constructor; [|by apply IH].
    exists (packet_of d). destruct Had as (?&?&?). unfold delivers; tauto. }
  { clear -Hf. induction Hf as [|d arrived [_ Hp] _ IH]; [constructor|].
    rewrite fmap_cons. by constructor. }
  exists this'. rewrite E, E2. fold l in E2 |- *.
  pose proof (reorder_run_inv k (packet_of <$> arrived) l [] l Hk Hinv Hnd Hwin) as Hfin.
  pose proof (reorder_run_waiting k l (packet_of <$> arrived)) as Hwait.
  destruct (reorder_run (Z.of_nat k) l (packet_of <$> arrived)) as [o w]. cbn [fst snd app] in *.
  destruct Hfin as [F1 F2 F3 _].
  assert (Eq : o ++ w = outs ++ waiting) by (apply ordered_unique; [done..|by rewrite F2]).
  assert (Ho' : o ≠ []).
  { intros ->. apply (f_equal length) in Eq. rewrite !length_app in Eq. cbn in Eq.
    destruct outs; [done|]. cbn in Eq. lia. }
  specialize (Hwait (or_introl Ho')). apply app_inj_2 in Eq as [-> ->]; [done|lia].
Qed.

(** The first datagram of a receiver that re-orders is not parsed: whatever it
    holds, the list starts with an empty packet of number 0 in its place. *)
Theorem first_datagram_lost this k a d p :
  ready this → 0 < k → m_reorder_list this = [] → delivers a d p →
  ∃ this', receive_rtp_packet this k a = Ok (None, this') ∧ m_reorder_list this' = [reset].
Proof.
  intros (Hi & Hr & (t & Ht & Hti) & Hb) Hk El Hd. unfold receive_rtp_packet.
  rewrite Hr, Ht, El. rewrite (proj2 (Z.leb_gt k 0)) by lia. cbn [negb orb].
  destruct (receive_data_delivers t a d p (m_recv_buffer this)) as (buffer' & -> & _ & _);
    [done..|].
  step_bind. unfold pop_packet. change (zlen [reset]) with 1. dec_if. by eexists.
Qed.

Definition numbered_packet_at (n : Z) : RTPPacket :=
  set_extension reset n 0 3 0 0 0.

(** The numbers are compared as they are: when [k] packets wait, one whose number began
    again at a smaller value is handed out before them, and they go on waiting. *)
Theorem wrapped_number_overtakes k l p :
  length l = k → (0 < k)%nat → Forall (λ q, get_sequence p < get_sequence q) l →
  reorder_step (Z.of_nat k) l p = (Some p, l).
Proof.
  intros Hl Hk Hp. unfold reorder_step, insert_packet.
  assert (H : ∀ before after, Forall (λ q, get_sequence p < get_sequence q) before →
            insert_loop p before after = p :: rev before ++ after).
  { induction before as [|q before IH]; intros after Hq; [done|]. cbn [insert_loop rev].
    apply Forall_cons in Hq as [Hq Hb]. rewrite (proj2 (Z.ltb_lt _ _)) by done.
    rewrite IH by done. by rewrite <- app_assoc. }
  rewrite H by by apply Forall_rev. rewrite rev_involutive, app_nil_r. unfold pop_packet.
  by rewrite (proj2 (Z.ltb_lt _ _)) by (unfold zlen; cbn; lia).
Qed.

(** ** Concrete runs *)

Lemma wrapped_number_overtakes_witness :
  reorder_step 2 [numbered_packet_at 65534; numbered_packet_at 65535] (numbered_packet_at 0)
  = (Some (numbered_packet_at 0), [numbered_packet_at 65534; numbered_packet_at 65535]).
Proof.
  apply (wrapped_number_overtakes 2 [numbered_packet_at 65534; numbered_packet_at 65535]
           (numbered_packet_at 0)); [done|lia|].
  by repeat constructor.
Defined.

Lemma within_window_check k (l : list RTPPacket) :
  Forall (λ i, Forall (λ p, get_sequence p < get_sequence (default reset (l !! i)))
                 (take (i - k) l)) (seq 0 (length l)) →
  within_window k l.
Proof.
  intros H pre x post ->. rewrite Forall_forall in H.
  specialize (H (length pre)). rewrite list_lookup_middle in H by done. cbn [default] in H.
  rewrite take_app_le in H by lia. apply H. apply elem_of_seq. rewrite length_app. cbn. lia.
Qed.

(** A datagram of sequence number [n], and its arrival. *)
Definition numbered (n : Z) : list Z :=
  RTPHeader_bytes (mkRTPHeader 2 0 1 0 0 96 n 0 1)
  ++ RTPExtensionHeader_bytes (mkRTPExtensionHeader 0 3 0 0 0 0) ++ [65; n].

Definition numbered_arrival (n : Z) : arrival := mkArrival 0 30 0 false (Some (numbered n)).

Definition numbered_packet (n : Z) : RTPPacket :=
  match parse reset (numbered n) 30 with Ok (_, p) => p | _ => reset end.

Definition sample_receiver (l : list RTPPacket) : RTPSessionReceiver :=
  {| m_initialize := true;
     m_transmitter := Some sample_transmitter; m_reorder := true; m_reorder_list := l;
     m_rtp_packet := reset; m_recv_buffer := replicate 2048 0 |}.

Lemma sample_receiver_ready l : ready (sample_receiver l).
Proof. unfold ready. split_and!; [done|done|by exists sample_transmitter|by vm_compute]. Qed.

Lemma reordered_delivery_witness : ∃ outs this',
  receive_all (sample_receiver [reset]) 2 (numbered_arrival <$> [2; 1; 4; 3; 5])
    = Ok (outs, this')
  ∧ ordered (outs ++ m_reorder_list this')
  ∧ outs ++ m_reorder_list this' ≡ₚ reset :: (numbered_packet <$> [2; 1; 4; 3; 5]).
Proof.
  destruct (reordered_delivery (sample_receiver [reset]) 2 (numbered_arrival <$> [2; 1; 4; 3; 5])
              (numbered <$> [2; 1; 4; 3; 5]) (numbered_packet <$> [2; 1; 4; 3; 5]))
    as (outs & this' & E & Ho & Hp & _).
  - apply sample_receiver_ready.
  - lia.
  - done.
  - repeat (apply Forall2_cons; split; [eexists; unfold delivers; split_and!;
      (reflexivity || by vm_compute)|]). constructor.
  - repeat (apply Forall2_cons; split; [reflexivity|]). constructor.
  - by apply (bool_decide_unpack _).
  - apply within_window_check. by_table.
  - exists outs, this'. exact (conj E (conj Ho Hp)).
Defined.

Lemma first_datagram_lost_witness : ∃ this',
  receive_rtp_packet (sample_receiver []) 5 (numbered_arrival 9) = Ok (None, this')
  ∧ m_reorder_list this' = [reset].
Proof.
  apply (first_datagram_lost (sample_receiver []) 5 (numbered_arrival 9) (numbered 9)
           (numbered_packet 9)).
  - apply sample_receiver_ready.
  - lia.
  - done.
  - unfold delivers. split_and!; (reflexivity || by vm_compute).
Defined.
