(* ===== verification/Utils.v ===== *)
(** * Utils: strings, numbers and directories

    Models [src/common/common_utils.h] and [.cpp].  A [std::string] is the list of
    its bytes; positions and lengths ([std::size_t]) are [nat], [npos] is [None]. *)

From S2P Require Import Prelude.

(** The bytes of a literal. *)
Definition bytes_of (s : string) : list Z :=
  (λ a, Z.of_N (Ascii.N_of_ascii a)) <$> String.list_ascii_of_string s.

(** ** [std::string] *)

Fixpoint starts (search str : list Z) : bool :=
  match search, str with
  | [], _ => true
  | x :: search, y :: str => (x =? y) && starts search str
  | _, [] => false
  end.

(** The first occurrence in [str], whose head is at position [i]. *)
Fixpoint find_at (search str : list Z) (i : nat) : option nat :=
  if starts search str then Some i
  else match str with [] => None | _ :: str => find_at search str (S i) end.

(** [str.find(search, pos)]. *)
Definition find (str search : list Z) (pos : nat) : option nat :=
  if bool_decide (pos <= length str)%nat then find_at search (drop pos str) pos else None.

(** [str.rfind(search)]: the last occurrence. *)
Fixpoint rfind_at (search str : list Z) (i : nat) : option nat :=
  match match str with [] => None | _ :: str => rfind_at search str (S i) end with
  | Some j => Some j
  | None => if starts search str then Some i else None
  end.

Definition rfind (str search : list Z) : option nat := rfind_at search str 0.

(** [str.replace(pos, len, replacement)]. *)
Definition replace (str : list Z) (pos len : nat) (replacement : list Z) : list Z :=
  take pos str ++ replacement ++ drop (pos + len) str.

(** ** Splitting, searching, trimming *)

Fixpoint split_loop (fuel : nat) (str seperator : list Z) (pos_begin : nat) : list (list Z) :=
  match fuel with
  | O => []
  | S fuel =>
      match find str seperator pos_begin with
      | Some pos_seperator =>
          take (pos_seperator - pos_begin) (drop pos_begin str)
          :: split_loop fuel str seperator (pos_seperator + length seperator)
      | None => [drop pos_begin str]
      end
  end.

Definition string_split (str seperator : list Z) : list (list Z) :=
  match seperator with
  | [] => [str]
  | _ => split_loop (S (length str)) str seperator 0
  end.

Definition string_starts_with (str substr : list Z) : bool :=
  bool_decide (find str substr 0 = Some 0%nat).

Definition string_ends_with (str substr : list Z) : bool :=
  match rfind str substr with
  | Some pos => bool_decide (pos = length str - length substr)%nat
  | None => false
  end.

(** [!isspace(ch)], in the C locale. *)
Definition is_not_space (ch : Z) : bool := negb ((ch =? 32) || ((9 <=? ch) && (ch <=? 13))).

(** [str.erase(str.begin(), find_if(str.begin(), str.end(), is_not_space))]. *)
Fixpoint string_trim_start (str : list Z) : list Z :=
  match str with
  | [] => []
  | c :: str' => if is_not_space c then str else string_trim_start str'
  end.

Definition string_trim_end (str : list Z) : list Z :=
  rev (string_trim_start (rev str)).

Definition string_trim (str : list Z) : list Z := string_trim_start (string_trim_end str).

(** [tolower] and [toupper] in the C locale. *)
Definition tolower (c : Z) : Z := if (65 <=? c) && (c <=? 90) then c + 32 else c.
Definition toupper (c : Z) : Z := if (97 <=? c) && (c <=? 122) then c - 32 else c.

Definition string_to_lower (str : list Z) : list Z := tolower <$> str.
Definition string_to_upper (str : list Z) : list Z := toupper <$> str.

(** The [while] of [string_replace]. *)
Fixpoint replace_loop (fuel : nat) (str search replacement : list Z) (lastPos : nat)
    : outcome (list Z) :=
  match fuel with
  | O => Hang
  | S fuel =>
      match find str search lastPos with
      | Some pos =>
          replace_loop fuel (replace str pos (length search) replacement) search replacement
            (pos + length replacement)
      | None => Ok str
      end
  end.

Definition string_replace (str search replacement : list Z) : outcome (list Z) :=
  if bool_decide (search = replacement) then Ok str
  else if bool_decide (search = []) then Ok str
  else replace_loop (S (length str)) str search replacement 0.

(** ** Numbers *)

(** The decimal digits [sprintf] prints for a non-negative number. *)
Fixpoint digits (fuel : nat) (n : Z) (acc : list Z) : list Z :=
  match fuel with
  | O => acc
  | S fuel => let acc := (48 + n mod 10) :: acc in
              if n <? 10 then acc else digits fuel (n / 10) acc
  end.

(** [common_to_string] of the integer types. *)
Definition common_to_string (n : Z) : list Z :=
  if n <? 0 then 45 :: digits (S (Z.to_nat (Z.log2 (- n)))) (- n) []
  else digits (S (Z.to_nat (Z.log2 n))) n [].

Definition common_to_string_bool (b : bool) : list Z :=
  if b then bytes_of "true" else bytes_of "false".

(** The digits at the head of a string. *)
Fixpoint read_digits (str : list Z) (acc : Z) : Z :=
  match str with
  | c :: str => if (48 <=? c) && (c <=? 57) then read_digits str (acc * 10 + (c - 48)) else acc
  | [] => acc
  end.

(** [strtol]: optional white space, an optional sign, digits; the value is clamped
    to the range of [long]. *)
Definition strtol (str : list Z) : Z :=
  let v := match string_trim_start str with
           | c :: str' => if c =? 45 then - read_digits str' 0
                          else if c =? 43 then read_digits str' 0
                          else read_digits (c :: str') 0
           | [] => 0
           end in
  Z.max (- 2 ^ 63) (Z.min (2 ^ 63 - 1) v).

(** [atol] is [strtol] in base 10, [atoi] its conversion to [int]. *)
Definition string_to_long (str : list Z) : Z := strtol str.
Definition string_to_int (str : list Z) : Z := i32 (strtol str).

(** ** Directories

    [stat] and [mkdir] are the system's, on a file system of any kind: [mkdir]
    returns its result, [errno], and the new file system. *)
Section directories.
Context {fs : Type} (stat : fs → list Z → Z) (mkdir : fs → list Z → (Z * Z) * fs).

Definition EEXIST : Z := 17.

Definition check_path_exists (s : fs) (path : list Z) : bool := stat s path =? 0.

Fixpoint create_directory_loop (fuel : nat) (s : fs) (directory : list Z) : outcome (bool * fs) :=
  match fuel with
  | O => Hang
  | S fuel =>
      if check_path_exists s directory then Ok (true, s) else
      r ← (match rfind directory [47] with
           | Some pos => create_directory_loop fuel s (take pos directory)
           | None => Ok (true, s)
           end);
      let '(ret, s) := r in
      if negb ret then Ok (false, s) else
      let '((mkdirRet, errno), s) := mkdir s directory in
      Ok (if mkdirRet =? 0 then true else errno =? EEXIST, s)
  end.

Definition create_directory_recursively (s : fs) (directory : list Z) : outcome (bool * fs) :=
  create_directory_loop (S (length directory)) s directory.
End directories.

(** ** Occurrences *)

Lemma starts_spec search str : starts search str = true ↔ ∃ k, str = search ++ k.
Proof.
  revert str. induction search as [|x search IH]; intros str; cbn [starts].
  - split; [by exists str|done].
  - destruct str as [|y str]; [split; [done|by intros [k ?]]|].
    rewrite andb_true_iff, Z.eqb_eq, IH. split.
    + intros [-> [k ->]]. by exists k.
    + intros [k [= -> ->]]. eauto.
Qed.

Lemma starts_refl s : starts s s = true.
Proof. apply starts_spec. exists []. by rewrite app_nil_r. Qed.

(** [occurs search str p]: an occurrence at position [p]. *)
Definition occurs (search str : list Z) (p : nat) : Prop :=
  ∃ a k, str = a ++ search ++ k ∧ length a = p.

Lemma occurs_starts search str : occurs search str 0 ↔ starts search str = true.
Proof.
  rewrite starts_spec. split.
  - intros (a & k & -> & Ha). destruct a; [|done]. by exists k.
  - intros [k ->]. by exists [], k.
Qed.

Lemma occurs_cons search c str p : occurs search (c :: str) (S p) ↔ occurs search str p.
Proof.
  split.
  - intros (a & k & E & Ha). destruct a as [|d a]; [done|]. injection E as -> ->.
    exists a, k. split; [done|]. by injection Ha.
  - intros (a & k & -> & Ha). exists (c :: a), k. split; [done|]. cbn. by rewrite Ha.
Qed.

Lemma find_at_spec search str i :
  match find_at search str i with
  | Some p => (i <= p)%nat ∧ occurs search str (p - i)
              ∧ ∀ q, (i <= q < p)%nat → ¬ occurs search str (q - i)
  | None => ∀ q, ¬ occurs search str q
  end.
Proof.
  revert i. induction str as [|c str IH]; intros i; cbn [find_at];
    destruct (starts search _) eqn:E.
  - split_and!; [done|by rewrite Nat.sub_diag, occurs_starts|lia].
  - intros q Hq. destruct Hq as (a & k & Hnil & Ha). destruct a; [|done].
    assert (starts search [] = true); [|congruence]. apply starts_spec. by exists k.
  - split_and!; [done|by rewrite Nat.sub_diag, occurs_starts|lia].
  - specialize (IH (S i)). destruct (find_at search str (S i)) as [p|].
    + destruct IH as (H1 & H2 & H3). split_and!; [lia| |].
      * replace (p - i)%nat with (S (p - S i)) by lia. by apply occurs_cons.
      * intros q Hq. destruct (decide (q = i)) as [->|].
        { rewrite Nat.sub_diag, occurs_starts. congruence. }
        replace (q - i)%nat with (S (q - S i)) by lia. rewrite occurs_cons. apply H3. lia.
    + intros [|q]; [rewrite occurs_starts; congruence|]. by rewrite occurs_cons.
Qed.

Lemma rfind_at_spec search str i :
  match rfind_at search str i with
  | Some p => (i <= p)%nat ∧ occurs search str (p - i)
              ∧ ∀ q, (p < q)%nat → ¬ occurs search str (q - i)
  | None => ∀ q, ¬ occurs search str q
  end.
Proof.
  revert i. induction str as [|c str IH]; intros i; cbn [rfind_at].
  - destruct (starts search []) eqn:E.
    + split_and!; [done|by rewrite Nat.sub_diag, occurs_starts|].
      intros q Hq (a & k & Hnil & Ha). destruct a; [cbn in Ha; lia|done].
    + intros q (a & k & Hnil & Ha). destruct a; [|done].
      assert (starts search [] = true); [|congruence]. apply starts_spec. by exists k.
  - specialize (IH (S i)). destruct (rfind_at search str (S i)) as [p|].
    + destruct IH as (H1 & H2 & H3). split_and!; [lia| |].
      * replace (p - i)%nat with (S (p - S i)) by lia. by apply occurs_cons.
      * intros q Hq. replace (q - i)%nat with (S (q - S i)) by lia. rewrite occurs_cons.
        apply H3. lia.
    + destruct (starts search (c :: str)) eqn:E.
      * split_and!; [done|by rewrite Nat.sub_diag, occurs_starts|]. intros q Hq.
        replace (q - i)%nat with (S (q - S i)) by lia. by rewrite occurs_cons.
      * intros [|q]; [rewrite occurs_starts; congruence|]. by rewrite occurs_cons.
Qed.

Lemma find_drop str search pos :
  (pos <= length str)%nat → find str search pos = find_at search (drop pos str) pos.
Proof. intros. unfold find. by rewrite bool_decide_eq_true_2. Qed.

(** ** [string_starts_with] and [string_ends_with] *)

(** The two tests decide the prefix and suffix relations. *)
Theorem string_starts_ends_correct str substr :
  (string_starts_with str substr = true ↔ ∃ k, str = substr ++ k)
  ∧ (string_ends_with str substr = true ↔ ∃ k, str = k ++ substr).
Proof.
  split.
  - unfold string_starts_with. rewrite bool_decide_eq_true, find_drop, drop_0 by lia.
    rewrite <- starts_spec. destruct str; cbn [find_at]; destruct (starts _ _) eqn:E; try by split.
    split; [|done]. pose proof (find_at_spec substr str 1) as H.
    destruct (find_at substr str 1) as [p|]; [|done]. intros [= ->]. lia.
  - unfold string_ends_with, rfind. pose proof (rfind_at_spec substr str 0) as H.
    destruct (rfind_at substr str 0) as [p|].
    + destruct H as (_ & (a & k & E & Ha) & Hlast). rewrite Nat.sub_0_r in Ha.
      rewrite bool_decide_eq_true. split.
      * intros ->. exists a. rewrite E. rewrite E, !length_app in Ha.
        destruct k; [by rewrite app_nil_r|]. cbn in Ha. lia.
      * intros [b Eb]. destruct (decide (p < length b)%nat) as [Hlt|].
        { exfalso. apply (Hlast (length b) Hlt). exists b, []. rewrite Nat.sub_0_r, app_nil_r. done. }
        rewrite Eb, length_app in *. apply (f_equal length) in E. rewrite !length_app in E. lia.
    + split; [done|]. intros [b Eb]. exfalso. apply (H (length b)).
      exists b, []. by rewrite app_nil_r.
Qed.

(** ** [string_replace] *)

(** The replacement in one pass from left to right; [skip] bytes belong to the
    occurrence that was replaced last. *)
Fixpoint replace_ref (search replacement : list Z) (skip : nat) (str : list Z) : list Z :=
  match str with
  | [] => []
  | c :: s =>
      match skip with
      | S skip => replace_ref search replacement skip s
      | O => if starts search str
             then replacement ++ replace_ref search replacement (length search - 1) s
             else c :: replace_ref search replacement 0 s
      end
  end.

Lemma replace_ref_skip search repl l k :
  replace_ref search repl (length l) (l ++ k) = replace_ref search repl 0 k.
Proof. induction l as [|c l IH]; [by destruct k|done]. Qed.

Lemma replace_ref_occurrence search repl k :
  search ≠ [] → replace_ref search repl 0 (search ++ k) = repl ++ replace_ref search repl 0 k.
Proof.
  intros Hne. destruct search as [|x s]; [done|]. cbn [replace_ref app].
  assert (starts (x :: s) (x :: s ++ k) = true) as -> by (apply starts_spec; by exists k).
  cbn [length]. rewrite Nat.sub_0_r, Nat.sub_succ, Nat.sub_0_r || rewrite Nat.sub_succ, Nat.sub_0_r.
  by rewrite replace_ref_skip.
Qed.

Lemma replace_ref_before search repl a k :
  (∀ q, (q < length a)%nat → ¬ occurs search (a ++ k) q) →
  replace_ref search repl 0 (a ++ k) = a ++ replace_ref search repl 0 k.
Proof.
  induction a as [|c a IH]; [done|]. intros Hq. cbn [app replace_ref].
  destruct (starts search (c :: a ++ k)) eqn:E.
  - exfalso. apply (Hq 0%nat); [cbn; lia|]. by apply occurs_starts.
  - rewrite IH; [done|]. intros q Hl. specialize (Hq (S q)). cbn [app] in Hq.
    rewrite occurs_cons in Hq. apply Hq. cbn. lia.
Qed.

Lemma replace_ref_none search repl str :
  (∀ q, ¬ occurs search str q) → replace_ref search repl 0 str = str.
Proof.
  intros Hq. pose proof (replace_ref_before search repl str []) as E.
  rewrite app_nil_r in E. rewrite E by auto. by rewrite app_nil_r.
Qed.

Lemma replace_loop_ref fuel front rest search repl :
  search ≠ [] → (length rest < fuel)%nat →
  replace_loop fuel (front ++ rest) search repl (length front)
  = Ok (front ++ replace_ref search repl 0 rest).
Proof.
  intros Hne. revert front rest. induction fuel as [|fuel IH]; intros front rest Hf; [lia|].
  cbn [replace_loop]. rewrite find_drop by (rewrite length_app; lia). rewrite drop_app_length.
  pose proof (find_at_spec search rest (length front)) as H.
  destruct (find_at search rest (length front)) as [p|].
  - destruct H as (Hp & (a & k & -> & Ha) & Hfirst).
    assert (Hs : (0 < length search)%nat) by (destruct search; [done|cbn; lia]).
    assert (Er : replace (front ++ a ++ search ++ k) p (length search) repl
                 = (front ++ a ++ repl) ++ k).
    { unfold replace. replace p with (length (front ++ a)) by (rewrite length_app; lia).
      replace (front ++ a ++ search ++ k) with ((front ++ a) ++ search ++ k) by (by rewrite <- !app_assoc).
      rewrite take_app_length, <- length_app.
      replace ((front ++ a) ++ search ++ k) with (((front ++ a) ++ search) ++ k) by (by rewrite <- !app_assoc).
      rewrite drop_app_length. by rewrite <- !app_assoc. }
    rewrite Er. replace (p + length repl)%nat with (length (front ++ a ++ repl))
      by (rewrite !length_app; lia).
    rewrite IH by (rewrite !length_app in Hf; lia).
    rewrite (replace_ref_before search repl a (search ++ k)), replace_ref_occurrence.
    + by rewrite <- !app_assoc.
    + done.
    + intros q Hq. specialize (Hfirst (length front + q)%nat ltac:(lia)).
      by rewrite Nat.add_comm, Nat.add_sub in Hfirst.
  - by rewrite replace_ref_none.
Qed.

Lemma string_replace_spec str search replacement :
  search ≠ [] →
  string_replace str search replacement = Ok (replace_ref search replacement 0 str).
Proof.
  intros Hne. unfold string_replace. destruct (bool_decide (search = replacement)) eqn:E.
  - apply bool_decide_eq_true_1 in E as <-. f_equal. symmetry.
    cut (∀ n s, (length s <= n)%nat → replace_ref search search 0 s = s); [eauto|].
    clear str. induction n as [|n IH]; intros s Hs; [by destruct s; cbn in Hs; [|lia]|].
    pose proof (find_at_spec search s 0) as H. destruct (find_at search s 0) as [p|].
    + destruct H as (_ & (a & k & -> & Ha) & Hfirst). rewrite Nat.sub_0_r in Ha.
      rewrite replace_ref_before, replace_ref_occurrence by (done || (intros q Hq;
        specialize (Hfirst q ltac:(lia)); by rewrite Nat.sub_0_r in Hfirst)).
      do 2 f_equal. apply IH. assert (0 < length search)%nat by (destruct search; [done|cbn; lia]).
      rewrite !length_app in Hs. lia.
    + by apply replace_ref_none.
  - rewrite bool_decide_eq_false_2 by done. by apply (replace_loop_ref _ []); [|lia].
Qed.

(** [string_replace] ends, and replaces the occurrences found from left to right;
    what it inserts is not searched again. *)
Theorem string_replace_correct str search replacement :
  search ≠ [] →
  string_replace str search replacement = Ok (replace_ref search replacement 0 str).
Proof. by apply string_replace_spec. Qed.

(** ** [string_split] *)

(** The parts put together again with the separator. *)
Fixpoint intercalate (sep : list Z) (parts : list (list Z)) : list Z :=
  match parts with
  | [] => []
  | [p] => p
  | p :: parts => p ++ sep ++ intercalate sep parts
  end.

Lemma split_loop_correct fuel front rest sep :
  sep ≠ [] → (length rest < fuel)%nat →
  let parts := split_loop fuel (front ++ rest) sep (length front) in
  parts ≠ [] ∧ intercalate sep parts = rest ∧ Forall (λ p, ∀ q, ¬ occurs sep p q) parts.
Proof.
  intros Hne. revert front rest. induction fuel as [|fuel IH]; intros front rest Hf; [lia|].
  cbn [split_loop]. rewrite find_drop by (rewrite length_app; lia). rewrite drop_app_length.
  pose proof (find_at_spec sep rest (length front)) as H.
  destruct (find_at sep rest (length front)) as [p|]; cbn zeta.
  - destruct H as (Hp & (a & k & -> & Ha) & Hfirst).
    assert (Hs : (0 < length sep)%nat) by (destruct sep; [done|cbn; lia]).
    assert (Hpart : take (p - length front) (a ++ sep ++ k) = a) by (by rewrite <- Ha, take_app_length).
    rewrite Hpart. replace (p + length sep)%nat with (length (front ++ a ++ sep))
      by (rewrite !length_app; lia).
    replace (front ++ a ++ sep ++ k) with ((front ++ a ++ sep) ++ k) by (by rewrite <- !app_assoc).
    destruct (IH (front ++ a ++ sep) k) as (H1 & H2 & H3);
      [rewrite !length_app in Hf; lia|].
    split_and!; [done| |].
    + cbn [intercalate]. destruct (split_loop _ _ _ _) eqn:E; [done|]. by rewrite H2.
    + constructor; [|done]. intros q (b & c & E & Hb).
      destruct (decide (q < p - length front)%nat) as [Hq|Hq].
      * apply (Hfirst (length front + q)%nat); [lia|]. rewrite Nat.add_comm, Nat.add_sub.
        exists b, (c ++ sep ++ k). split; [|done]. rewrite E. by rewrite <- !app_assoc.
      * rewrite <- Ha in Hq. apply (f_equal length) in E. rewrite !length_app in E. lia.
  - split_and!; [done..|]. by constructor.
Qed.

(** The parts of a split contain no separator, and joined with it they give the
    string back. *)
Theorem string_split_correct str sep :
  sep ≠ [] →
  intercalate sep (string_split str sep) = str
  ∧ Forall (λ p, ∀ q, ¬ occurs sep p q) (string_split str sep).
Proof.
  intros Hne. unfold string_split. destruct sep as [|x sep]; [done|].
  by destruct (split_loop_correct (S (length str)) [] str (x :: sep)) as (_ & H1 & H2); [|lia|].
Qed.

(** ** Trimming *)

Definition is_space (c : Z) : Prop := is_not_space c = false.

#[global] Instance is_space_dec c : Decision (is_space c).
Proof. unfold is_space; apply _. Defined.

Lemma trim_start_spec str :
  ∃ a, str = a ++ string_trim_start str ∧ Forall is_space a
    ∧ match string_trim_start str with [] => True | c :: _ => ¬ is_space c end.
Proof.
  induction str as [|c str IH]; [by exists []|]. cbn [string_trim_start].
  destruct (is_not_space c) eqn:E.
  - exists []. split_and!; [done|constructor|]. unfold is_space. congruence.
  - destruct IH as (a & Ha & Hs & Hh). exists (c :: a).
    split_and!; [by rewrite Ha at 1|by constructor|done].
Qed.

(** Trimming removes white space at both ends and nothing else, and leaves none
    there. *)
Theorem string_trim_correct str :
  ∃ a b, str = a ++ string_trim str ++ b ∧ Forall is_space a ∧ Forall is_space b
    ∧ match head (string_trim str) with Some c => ¬ is_space c | None => True end
    ∧ match last (string_trim str) with Some c => ¬ is_space c | None => True end.
Proof.
  unfold string_trim. set (r := string_trim_end str).
  destruct (trim_start_spec r) as (a & Ea & Ha & Hh).
  destruct (trim_start_spec (rev str)) as (b & Eb & Hb & Hl). fold (string_trim_end str) in *.
  assert (Er : rev r = string_trim_start (rev str))
    by (unfold r, string_trim_end; by rewrite rev_involutive).
  assert (Estr : str = r ++ rev b).
  { rewrite <- (rev_involutive str), Eb, rev_app_distr. by rewrite <- Er, rev_involutive. }
  exists a, (rev b). split_and!.
  - rewrite Estr, Ea at 1. by rewrite <- app_assoc.
  - done.
  - rewrite Forall_forall in *. intros c Hc. apply Hb. apply list_elem_of_In, in_rev.
    by apply list_elem_of_In.
  - by destruct (string_trim_start r).
  - destruct (last (string_trim_start r)) as [c|] eqn:El; [|done].
    rewrite <- Er in Hl. assert (El' : last r = Some c) by (rewrite Ea, last_app, El; done).
    destruct r as [|x r'] using rev_ind; [done|]. rewrite last_snoc in El'. injection El' as ->.
    rewrite rev_app_distr in Hl. exact Hl.
Qed.

(** ** Decimal numbers *)

Definition is_digit (c : Z) : Prop := 48 <= c <= 57.

#[global] Instance is_digit_dec c : Decision (is_digit c).
Proof. unfold is_digit; apply _. Defined.

Lemma digits_read fuel n acc :
  0 <= n < 2 ^ Z.of_nat fuel →
  ∃ k, 0 <= k ∧ ∀ v, read_digits (digits fuel n acc) v = read_digits acc (v * 10 ^ k + n).
Proof.
  revert n acc. induction fuel as [|fuel IH]; intros n acc Hn.
  { exists 0. split; [done|]. intros v. change (2 ^ Z.of_nat 0) with 1 in Hn. cbn [digits].
    f_equal. rewrite Z.pow_0_r. lia. }
  rewrite Nat2Z.inj_succ, Z.pow_succ_r in Hn by lia.
  assert (Hdig : ∀ v l, read_digits ((48 + n mod 10) :: l) v = read_digits l (v * 10 + n mod 10)).
  { intros v l. cbn [read_digits]. pose proof (Z.mod_pos_bound n 10 ltac:(lia)).
    do 2 dec_if. cbn [andb]. f_equal. lia. }
  cbn [digits]. destruct (Z.ltb_spec n 10).
  - exists 1. split; [done|]. intros v. rewrite Hdig. f_equal. rewrite Z.mod_small; lia.
  - destruct (IH (n / 10) ((48 + n mod 10) :: acc)) as (k & Hk & E).
    { split; [apply Z.div_pos; lia|]. apply Z.div_lt_upper_bound; lia. }
    exists (k + 1). split; [lia|]. intros v. rewrite E, Hdig. f_equal.
    rewrite Z.pow_add_r by lia. pose proof (Z.div_mod n 10 ltac:(lia)). lia.
Qed.

Lemma digits_all fuel n acc :
  0 <= n → Forall is_digit acc → Forall is_digit (digits fuel n acc).
Proof.
  revert n acc. induction fuel as [|fuel IH]; intros n acc Hn Ha; [done|]. cbn [digits].
  pose proof (Z.mod_pos_bound n 10 ltac:(lia)).
  assert (Forall is_digit ((48 + n mod 10) :: acc)) by (constructor; [unfold is_digit; lia|done]).
  destruct (n <? 10); [done|]. apply IH; [apply Z.div_pos; lia|done].
Qed.

Lemma digits_ne fuel n acc : fuel ≠ 0%nat ∨ acc ≠ [] → digits fuel n acc ≠ [].
Proof.
  revert n acc. induction fuel as [|fuel IH]; intros n acc Hf; [by destruct Hf|]. cbn [digits].
  destruct (n <? 10); [done|]. apply IH. by right.
Qed.

Lemma log2_bound n : 0 <= n → 0 <= n < 2 ^ Z.of_nat (S (Z.to_nat (Z.log2 n))).
Proof.
  intros Hn. split; [done|]. destruct (Z.eq_dec n 0) as [->|]; [done|].
  pose proof (Z.log2_nonneg n). rewrite Nat2Z.inj_succ, Z2Nat.id by lia.
  apply Z.log2_spec. lia.
Qed.

Lemma common_to_string_nonneg n :
  0 <= n → common_to_string n ≠ [] ∧ Forall is_digit (common_to_string n)
  ∧ read_digits (common_to_string n) 0 = n.
Proof.
  intros Hn. unfold common_to_string. dec_if. split_and!.
  - apply digits_ne. by left.
  - by apply digits_all.
  - destruct (digits_read _ n [] (log2_bound n Hn)) as (k & _ & ->). cbn [read_digits]. lia.
Qed.

Lemma strtol_digits str :
  str ≠ [] → Forall is_digit str →
  strtol str = Z.max (- 2 ^ 63) (Z.min (2 ^ 63 - 1) (read_digits str 0)).
Proof.
  intros Hne Hd. unfold strtol. destruct str as [|c str]; [done|].
  inversion Hd as [|? ? Hc _]; subst. unfold is_digit in Hc. cbn [string_trim_start].
  assert (is_not_space c = true) as ->.
  { unfold is_not_space. rewrite (proj2 (Z.eqb_neq c 32)) by lia.
    by rewrite (proj2 (Z.leb_gt c 13)), andb_false_r by lia. }
  by rewrite (proj2 (Z.eqb_neq c 45)), (proj2 (Z.eqb_neq c 43)) by lia.
Qed.

Lemma number_roundtrip_spec n :
  (- 2 ^ 63 <= n < 2 ^ 63 → string_to_long (common_to_string n) = n)
  ∧ (- 2 ^ 31 <= n < 2 ^ 31 → string_to_int (common_to_string n) = n).
Proof.
  assert (Hl : - 2 ^ 63 <= n < 2 ^ 63 → strtol (common_to_string n) = n).
  { intros Hn. destruct (Z.lt_ge_cases n 0) as [Hneg|Hpos].
    - unfold common_to_string. dec_if. unfold strtol. cbn [string_trim_start].
      change (is_not_space 45) with true. cbv iota. change (45 =? 45) with true. cbv iota.
      destruct (digits_read _ (- n) [] (log2_bound (- n) ltac:(lia))) as (k & _ & ->).
      cbn [read_digits]. lia.
    - destruct (common_to_string_nonneg n Hpos) as (H1 & H2 & H3).
      rewrite strtol_digits, H3 by done. lia. }
  split; [done|]. intros Hn. unfold string_to_int. rewrite Hl by lia. apply i32_id. lia.
Qed.

(** Printing a number and reading it back. *)
Theorem number_roundtrip n :
  (- 2 ^ 63 <= n < 2 ^ 63 → string_to_long (common_to_string n) = n)
  ∧ (- 2 ^ 31 <= n < 2 ^ 31 → string_to_int (common_to_string n) = n).
Proof. by apply number_roundtrip_spec. Qed.

(** ** Directories *)

Section directory_lemmas.
Context {fs : Type} (stat : fs → list Z → Z) (mkdir : fs → list Z → (Z * Z) * fs).

Lemma rfind_lt str pos : rfind str [47] = Some pos → (pos < length str)%nat.
Proof.
  unfold rfind. intros E. pose proof (rfind_at_spec [47] str 0) as H. rewrite E in H.
  destruct H as (_ & (a & k & -> & Ha) & _). rewrite !length_app. cbn. lia.
Qed.

Lemma create_directory_loop_total fuel s directory :
  (length directory < fuel)%nat → ∃ r, create_directory_loop stat mkdir fuel s directory = Ok r.
Proof.
  revert s directory. induction fuel as [|fuel IH]; intros s directory Hf; [lia|].
  cbn [create_directory_loop]. destruct (check_path_exists stat s directory); [by eexists|].
  assert (Hrec : ∃ r, match rfind directory [47] with
    | Some pos => create_directory_loop stat mkdir fuel s (take pos directory)
    | None => Ok (true, s) end = Ok r).
  { destruct (rfind directory [47]) as [pos|] eqn:E; [|by eexists].
    apply IH. apply rfind_lt in E. rewrite length_take. lia. }
  destruct Hrec as [[ret s'] ->]. step_bind. destruct ret; cbn [negb]; [|by eexists].
  destruct (mkdir s' directory) as [[r e] s'']. by eexists.
Qed.

(** The recursion ends; but a new directory directly under the root is never
    created: its parent is the empty path, which neither exists nor can be
    created. *)
Theorem create_directory_correct s name :
  (∀ directory, ∃ r, create_directory_recursively stat mkdir s directory = Ok r)
  ∧ (check_path_exists stat s (47 :: name) = false → 47 ∉ name →
     check_path_exists stat s [] = false → (∀ s, (mkdir s []).1 = (-1, 2)) →
     ∃ s', create_directory_recursively stat mkdir s (47 :: name) = Ok (false, s')).
Proof.
  split; [intros; apply create_directory_loop_total; lia|].
  intros Hno Hname Hroot Hmk. unfold create_directory_recursively.
  cbn [length create_directory_loop]. rewrite Hno.
  assert (Er : rfind (47 :: name) [47] = Some 0%nat).
  { unfold rfind. pose proof (rfind_at_spec [47] (47 :: name) 0) as H.
    destruct (rfind_at [47] (47 :: name) 0) as [p|].
    - destruct H as (_ & (a & k & E & Ha) & _). rewrite Nat.sub_0_r in Ha.
      destruct a as [|c a]; [by rewrite <- Ha|]. injection E as _ E.
      exfalso. apply Hname. rewrite E. set_solver.
    - exfalso. apply (H 0%nat). exists [], name. done. }
  rewrite Er. cbn [take]. rewrite Hroot. change (rfind [] [47]) with (@None nat). step_bind.
  cbn [negb]. specialize (Hmk s). destruct (mkdir s []) as [[r e] s'] eqn:Em.
  cbn [fst] in Hmk. injection Hmk as -> ->. cbn. by eexists.
Qed.
End directory_lemmas.

(** ** Concrete runs *)

Lemma string_replace_correct_witness :
  string_replace (bytes_of "a/b//c") (bytes_of "/") (bytes_of "\/") = Ok (bytes_of "a\/b\/\/c").
Proof. by rewrite (string_replace_correct (bytes_of "a/b//c") (bytes_of "/") (bytes_of "\/")). Defined.

Lemma string_split_correct_witness :
  string_split (bytes_of "1,2,,3") (bytes_of ",")
    = [bytes_of "1"; bytes_of "2"; []; bytes_of "3"]
  ∧ intercalate (bytes_of ",") (string_split (bytes_of "1,2,,3") (bytes_of ",")) = bytes_of "1,2,,3".
Proof.
  split; [reflexivity|].
  by destruct (string_split_correct (bytes_of "1,2,,3") (bytes_of ",")).
Defined.

Lemma number_roundtrip_witness :
  common_to_string (-2147483648) = bytes_of "-2147483648"
  ∧ string_to_int (common_to_string (-2147483648)) = -2147483648.
Proof.
  split; [by vm_compute|]. apply (number_roundtrip (-2147483648)). lia.
Defined.

(** A file system with one directory, [/tmp], where every [mkdir] of a non-empty
    path works. *)
Definition sample_stat (s : list (list Z)) (p : list Z) : Z :=
  if bool_decide (p ∈ s) then 0 else -1.
Definition sample_mkdir (s : list (list Z)) (p : list Z) : (Z * Z) * list (list Z) :=
  if bool_decide (p = []) then ((-1, 2), s) else ((0, 0), p :: s).

Lemma create_directory_correct_witness :
  create_directory_recursively sample_stat sample_mkdir [bytes_of "/tmp"] (bytes_of "/tmp/a/b")
    = Ok (true, [bytes_of "/tmp/a/b"; bytes_of "/tmp/a"; bytes_of "/tmp"])
  ∧ ∃ s', create_directory_recursively sample_stat sample_mkdir [bytes_of "/tmp"] (bytes_of "/log")
    = Ok (false, s').
Proof.
  split; [by vm_compute|].
  apply (create_directory_correct sample_stat sample_mkdir [bytes_of "/tmp"] (bytes_of "log"));
    [by vm_compute|by_table|by vm_compute|done].
Defined.
