(* ===== verification/Utf8.v ===== *)
(** * Utf8: is a string UTF-8?

    Models [src/common/common_utf8.h] and [.cpp] (the two functions outside of the
    Windows branches).  [is_utf8_chars] walks a zero-terminated array: [buf] is the
    memory it is in. *)

From S2P Require Import Prelude.

(** The inner loop: [Some (codepoint, byte, top)] at its exit, [None] when the
    function returns [false] in it. *)
Fixpoint utf8_inner (fuel : nat) (buf : list Z) (byte codepoint top : Z)
    : outcome (option (Z * Z * Z)) :=
  match fuel with
  | O => Hang
  | S fuel =>
      if Z.land codepoint top =? 0 then Ok (Some (codepoint, byte, top)) else
      b ← rd buf byte;
      let tmp := b - 128 in
      if negb (Z.shiftr tmp 6 =? 0) then Ok None
      else utf8_inner fuel buf (byte + 1) (u32 (u32 (Z.shiftl codepoint 6) + tmp))
             (u32 (Z.shiftl top 5))
  end.

(** The test of one character; [n] is its length [byte - str]. *)
Definition utf8_value_ok (codepoint top n : Z) : bool :=
  let codepoint := Z.land codepoint (u32 (u32 (Z.shiftl top 1) - 1)) in
  let min := if n =? 1 then 0 else if n =? 2 then 128 else Z.shiftl 1 (5 * n - 4) in
  negb ((codepoint <? min) || (1114112 <=? codepoint) || (codepoint =? 65534)
        || ((55296 <=? codepoint) && (codepoint <=? 57343))).

Fixpoint utf8_chars_loop (fuel : nat) (buf : list Z) (str : Z) : outcome bool :=
  match fuel with
  | O => Hang
  | S fuel =>
      c ← rd buf str;
      if c =? 0 then Ok true else
      let codepoint := c in
      let top := Z.shiftr (Z.land codepoint 128) 1 in
      if (Z.land codepoint 192 =? 128) || (254 <=? codepoint) then Ok false else
      r ← utf8_inner 8 buf (str + 1) codepoint top;
      match r with
      | None => Ok false
      | Some (codepoint, byte, top) =>
          if utf8_value_ok codepoint top (byte - str) then utf8_chars_loop fuel buf byte
          else Ok false
      end
  end.

Definition is_utf8_chars (buf : list Z) (str : Z) : outcome bool :=
  utf8_chars_loop (S (length buf)) buf str.

(** [is_utf8_str]: the loop; [bytesCount] bytes of a character are still to come. *)
Fixpoint utf8_str_loop (str : list Z) (bytesCount : Z) : bool :=
  match str with
  | [] => if 0 <? bytesCount then false else true
  | chr :: str =>
      if bytesCount =? 0 then
        if 128 <=? chr then
          if (252 <=? chr) && (chr <=? 253) then utf8_str_loop str 5
          else if 248 <=? chr then utf8_str_loop str 4
          else if 240 <=? chr then utf8_str_loop str 3
          else if 224 <=? chr then utf8_str_loop str 2
          else if 192 <=? chr then utf8_str_loop str 1
          else false
        else utf8_str_loop str 0
      else if negb (Z.land chr 192 =? 128) then false
      else utf8_str_loop str (bytesCount - 1)
  end.

Definition is_utf8_str (str : list Z) : bool := utf8_str_loop str 0.

(** ** Reference: UTF-8 by ranges *)

Definition cont (b : Z) : bool := (128 <=? b) && (b <? 192).

(** A code point of at least [min], not a surrogate; this program refuses U+FFFE
    too. *)
Definition scalar (min cp : Z) : bool :=
  (min <=? cp) && (cp <? 1114112) && negb (cp =? 65534)
  && negb ((55296 <=? cp) && (cp <=? 57343)).

Fixpoint utf8_ref (s : list Z) : bool :=
  match s with
  | [] => true
  | b0 :: s1 =>
      if b0 <? 128 then utf8_ref s1
      else if b0 <? 192 then false
      else if b0 <? 224 then
        match s1 with
        | b1 :: s2 => cont b1 && scalar 128 ((b0 - 192) * 64 + (b1 - 128)) && utf8_ref s2
        | _ => false
        end
      else if b0 <? 240 then
        match s1 with
        | b1 :: b2 :: s3 =>
            cont b1 && cont b2
            && scalar 2048 ((b0 - 224) * 4096 + (b1 - 128) * 64 + (b2 - 128)) && utf8_ref s3
        | _ => false
        end
      else if b0 <? 248 then
        match s1 with
        | b1 :: b2 :: b3 :: s4 =>
            cont b1 && cont b2 && cont b3
            && scalar 65536 ((b0 - 240) * 262144 + (b1 - 128) * 4096 + (b2 - 128) * 64 + (b3 - 128))
            && utf8_ref s4
        | _ => false
        end
      else false
  end.

(** The bytes of a code point. *)
Definition utf8_encode (cp : Z) : list Z :=
  if cp <? 128 then [cp]
  else if cp <? 2048 then [192 + cp / 64; 128 + cp mod 64]
  else if cp <? 65536 then [224 + cp / 4096; 128 + (cp / 64) mod 64; 128 + cp mod 64]
  else [240 + cp / 262144; 128 + (cp / 4096) mod 64; 128 + (cp / 64) mod 64; 128 + cp mod 64].

(** ** The inner loop *)

(** After [i] continuation bytes the code point holds the lead byte above their
    [6 * i] bits. *)
Lemma lead_bit b i t :
  0 <= i <= 5 → 0 <= t < 2 ^ (6 * i) →
  Z.testbit (u32 (b * 2 ^ (6 * i) + t)) (6 + 5 * i) = Z.testbit b (6 - i).
Proof.
  intros Hi Ht. unfold u32. rewrite Z.mod_pow2_bits_low by lia.
  rewrite <- lor_shiftl_add by lia. rewrite Z.lor_spec, Z.shiftl_spec by lia.
  assert (Z.testbit t (6 + 5 * i) = Z.testbit t (6 + 5 * i) && (6 + 5 * i <? 6 * i)) as Hbit.
  { destruct (Z.ltb_spec (6 + 5 * i) (6 * i)); [by rewrite andb_true_r|].
    rewrite andb_false_r. apply (testbit_high t (6 * i)); lia. }
  rewrite Hbit. rewrite (proj2 (Z.ltb_ge (6 + 5 * i) (6 * i))) by lia.
  rewrite andb_false_r, orb_false_r. f_equal. lia.
Qed.

Lemma land_pow2 x k : 0 <= k → (Z.land x (2 ^ k) =? 0) = negb (Z.testbit x k).
Proof.
  intros Hk. destruct (Z.testbit x k) eqn:E; cbn [negb].
  - apply Z.eqb_neq. intros H0. assert (Z.testbit (Z.land x (2 ^ k)) k = true) as Hb
      by (rewrite Z.land_spec, E, Z.pow2_bits_true by lia; done).
    by rewrite H0, Z.bits_0 in Hb.
  - apply Z.eqb_eq, Z.bits_inj'. intros j Hj. rewrite Z.land_spec, Z.bits_0.
    destruct (Z.eq_dec j k) as [->|]; [by rewrite E|].
    by rewrite Z.pow2_bits_false, andb_false_r by lia.
Qed.

(** One turn of the loop. *)
Lemma utf8_inner_stop fuel buf byte b i t :
  0 <= i <= 5 → 0 <= t < 2 ^ (6 * i) → Z.testbit b (6 - i) = false →
  utf8_inner (S fuel) buf byte (u32 (b * 2 ^ (6 * i) + t)) (2 ^ (6 + 5 * i))
  = Ok (Some (u32 (b * 2 ^ (6 * i) + t), byte, 2 ^ (6 + 5 * i))).
Proof.
  intros Hi Ht Hb. cbn [utf8_inner]. rewrite land_pow2 by lia. by rewrite lead_bit, Hb.
Qed.

Lemma utf8_inner_step fuel buf byte b i t c :
  0 <= i <= 4 → 0 <= t < 2 ^ (6 * i) → Z.testbit b (6 - i) = true →
  rd buf byte = Ok c → is_byte c →
  utf8_inner (S fuel) buf byte (u32 (b * 2 ^ (6 * i) + t)) (2 ^ (6 + 5 * i))
  = if cont c
    then utf8_inner fuel buf (byte + 1) (u32 (b * 2 ^ (6 * (i + 1)) + (t * 64 + (c - 128))))
           (2 ^ (6 + 5 * (i + 1)))
    else Ok None.
Proof.
  intros Hi Ht Hb Hc Hbc. cbn [utf8_inner]. rewrite land_pow2 by lia.
  rewrite lead_bit, Hb by lia. cbn [negb]. step Hc. unfold cont, is_byte in *.
  rewrite Z.shiftr_div_pow2 by lia. change (2 ^ 6) with 64.
  destruct (Z.leb_spec 128 c); cbn [andb].
  - destruct (Z.ltb_spec c 192).
    + rewrite Z.div_small by lia. cbn [negb Z.eqb]. f_equal.
      * unfold u32. rewrite Z.shiftl_mul_pow2, Zplus_mod_idemp_l by lia.
        rewrite Z.add_mod, Z.mul_mod_idemp_l, <- Z.add_mod by lia. f_equal.
        replace (6 * (i + 1)) with (6 * i + 6) by lia. rewrite Z.pow_add_r by lia. lia.
      * unfold u32. rewrite Z.shiftl_mul_pow2 by lia. rewrite <- Z.pow_add_r by lia.
        rewrite Z.mod_small; [f_equal; lia|].
        split; [apply Z.pow_nonneg; lia|apply Z.pow_lt_mono_r; lia].
    + assert ((c - 128) / 64 ≠ 0) by (Z.div_mod_to_equations; lia).
      by rewrite (proj2 (Z.eqb_neq _ _)).
  - assert ((c - 128) / 64 ≠ 0) by (Z.div_mod_to_equations; lia).
    by rewrite (proj2 (Z.eqb_neq _ _)).
Qed.

(** ** One character *)

(** The byte behind [pre]: the next one of [s], or the terminator. *)
Lemma rd_next pre s post :
  is_bytes s → rd (pre ++ s ++ 0 :: post) (zlen pre) = Ok (hd 0 s) ∧ is_byte (hd 0 s).
Proof.
  intros Hs. rewrite (rd_app_r pre) by lia. rewrite Z.sub_diag.
  destruct s as [|c s]; [done|]. inversion Hs; by subst.
Qed.

(** One turn of the inner loop on the list. *)
Lemma utf8_inner_list fuel pre s post b i t :
  0 <= i <= 4 → 0 <= t < 2 ^ (6 * i) → Z.testbit b (6 - i) = true → is_bytes s →
  let buf := pre ++ s ++ 0 :: post in
  utf8_inner (S fuel) buf (zlen pre) (u32 (b * 2 ^ (6 * i) + t)) (2 ^ (6 + 5 * i))
  = match s with
    | c :: s' =>
        if cont c
        then utf8_inner fuel ((pre ++ [c]) ++ s' ++ 0 :: post) (zlen (pre ++ [c]))
               (u32 (b * 2 ^ (6 * (i + 1)) + (t * 64 + (c - 128)))) (2 ^ (6 + 5 * (i + 1)))
        else Ok None
    | [] => Ok None
    end.
Proof.
  intros Hi Ht Hb Hs buf. destruct (rd_next pre s post Hs) as [Hr Hby].
  unfold buf. rewrite (utf8_inner_step fuel _ (zlen pre) b i t (hd 0 s)) by done.
  destruct s as [|c s']; [done|]. cbn [hd]. destruct (cont c); [|done].
  rewrite zlen_app. change (zlen [c]) with 1. by rewrite <- app_assoc.
Qed.

Lemma cont_range c : cont c = true → 0 <= c - 128 < 64.
Proof. unfold cont. rewrite andb_true_iff, Z.leb_le, Z.ltb_lt. lia. Qed.

Lemma land_top x k : 0 <= k < 31 → Z.land x (u32 (u32 (Z.shiftl (2 ^ k) 1) - 1)) = x mod 2 ^ (k + 1).
Proof.
  intros Hk. rewrite Z.shiftl_mul_pow2 by lia. rewrite <- Z.pow_add_r by lia.
  assert (0 < 2 ^ (k + 1) < 2 ^ 32) by (split; [apply Z.pow_pos_nonneg; lia|apply Z.pow_lt_mono_r; lia]).
  rewrite (u32_id (2 ^ (k + 1))) by lia. rewrite u32_id by lia.
  rewrite <- Z.land_ones by lia. f_equal. rewrite Z.ones_equiv. lia.
Qed.

Lemma value_ok_scalar cp x k n min :
  0 <= k < 31 → x mod 2 ^ (k + 1) = cp →
  (if n =? 1 then 0 else if n =? 2 then 128 else Z.shiftl 1 (5 * n - 4)) = min →
  utf8_value_ok x (2 ^ k) n = scalar min cp.
Proof.
  intros Hk Hx Hmin. unfold utf8_value_ok, scalar. rewrite land_top, Hx, Hmin by done.
  destruct (Z.ltb_spec cp min), (Z.leb_spec min cp), (Z.leb_spec 1114112 cp), (Z.ltb_spec cp 1114112);
    try lia; cbn [orb andb negb]; try done; by rewrite negb_orb.
Qed.

(** Characters of five or six bytes are never accepted. *)
Lemma value_ok_long x top n : 5 <= n <= 6 → utf8_value_ok x top n = false.
Proof.
  intros Hn. unfold utf8_value_ok. rewrite (proj2 (Z.eqb_neq n 1)), (proj2 (Z.eqb_neq n 2)) by lia.
  set (cp := Z.land _ _).
  assert (2097152 <= Z.shiftl 1 (5 * n - 4)).
  { assert (n = 5 ∨ n = 6) as [->| ->] by lia; vm_compute; discriminate. }
  destruct (Z.ltb_spec cp (Z.shiftl 1 (5 * n - 4))); [done|].
  by rewrite (proj2 (Z.leb_le 1114112 cp)), orb_true_r by lia.
Qed.

Lemma lead_bits :
  ∀ b, 0 <= b < 256 →
    (192 <= b → Z.testbit b 6 = true ∧ Z.land b 128 = 128 ∧ (Z.land b 192 =? 128) = false)
    ∧ (128 <= b < 192 → (Z.land b 192 =? 128) = true)
    ∧ (b < 128 → Z.land b 128 = 0 ∧ (Z.land b 192 =? 128) = false)
    ∧ (192 <= b < 224 → Z.testbit b 5 = false) ∧ (224 <= b → Z.testbit b 5 = true)
    ∧ (224 <= b < 240 → Z.testbit b 4 = false) ∧ (240 <= b → Z.testbit b 4 = true)
    ∧ (240 <= b < 248 → Z.testbit b 3 = false) ∧ (248 <= b → Z.testbit b 3 = true)
    ∧ (248 <= b < 252 → Z.testbit b 2 = false) ∧ (252 <= b → Z.testbit b 2 = true)
    ∧ (252 <= b < 254 → Z.testbit b 1 = false).
Proof. by_table. Qed.

(** What the body of the outer loop does with a lead byte [b] of at least 192. *)
Definition after_lead (buf : list Z) (str b : Z) (k : Z → outcome bool) : outcome bool :=
  r ← utf8_inner 8 buf (str + 1) b 64;
  match r with
  | None => Ok false
  | Some (codepoint, byte, top) =>
      if utf8_value_ok codepoint top (byte - str) then k byte else Ok false
  end.

Section lead.
Context (pre post : list Z) (b : Z) (s : list Z) (k : Z → outcome bool).
Hypothesis Hbyte : is_byte b.
Hypothesis Hs : is_bytes s.
Let buf : list Z := pre ++ (b :: s) ++ 0 :: post.

Lemma after_lead_start : 192 <= b →
  after_lead buf (zlen pre) b k
  = r ← utf8_inner 8 ((pre ++ [b]) ++ s ++ 0 :: post) (zlen (pre ++ [b]))
          (u32 (b * 2 ^ (6 * 0) + 0)) (2 ^ (6 + 5 * 0));
    match r with
    | None => Ok false
    | Some (codepoint, byte, top) =>
        if utf8_value_ok codepoint top (byte - zlen pre) then k byte else Ok false
    end.
Proof.
  intros Hb. unfold after_lead, buf. rewrite zlen_app. change (zlen [b]) with 1.
  change (2 ^ (6 * 0)) with 1. rewrite Z.mul_1_r, Z.add_0_r. unfold is_byte in Hbyte.
  rewrite u32_id by lia. by rewrite <- app_assoc.
Qed.
End lead.

Section characters.
Context (pre post : list Z) (b : Z) (k : Z → outcome bool).
Hypothesis Hbyte : is_byte b.

(** The state of the inner loop after the bytes [l] of the character. *)
Definition lead_state (l s : list Z) (fuel : nat) (i t : Z) : outcome bool :=
  r ← utf8_inner fuel (((pre ++ [b]) ++ l) ++ s ++ 0 :: post) (zlen ((pre ++ [b]) ++ l))
        (u32 (b * 2 ^ (6 * i) + t)) (2 ^ (6 + 5 * i));
  match r with
  | None => Ok false
  | Some (codepoint, byte, top) =>
      if utf8_value_ok codepoint top (byte - zlen pre) then k byte else Ok false
  end.

Lemma lead_state_start s : 192 <= b →
  after_lead (pre ++ (b :: s) ++ 0 :: post) (zlen pre) b k = lead_state [] s 8 0 0.
Proof. intros Hb. rewrite after_lead_start by done. unfold lead_state. by rewrite app_nil_r. Qed.

Lemma lead_state_step l s fuel i t :
  0 <= i <= 4 → 0 <= t < 2 ^ (6 * i) → Z.testbit b (6 - i) = true → is_bytes s →
  lead_state l s (S fuel) i t
  = match s with
    | c :: s' => if cont c then lead_state (l ++ [c]) s' fuel (i + 1) (t * 64 + (c - 128))
                 else Ok false
    | [] => Ok false
    end.
Proof.
  intros Hi Ht Hb Hs. unfold lead_state at 1. rewrite utf8_inner_list by done.
  destruct s as [|c s']; [done|]. destruct (cont c); [|done].
  unfold lead_state. by rewrite !app_assoc.
Qed.

Lemma lead_state_stop l s fuel i t min cp :
  0 <= i <= 3 → 0 <= t < 2 ^ (6 * i) → Z.testbit b (6 - i) = false → zlen l = i →
  (b * 2 ^ (6 * i) + t) mod 2 ^ (7 + 5 * i) = cp →
  (if 1 + i =? 1 then 0 else if 1 + i =? 2 then 128 else Z.shiftl 1 (5 * (1 + i) - 4)) = min →
  lead_state l s (S fuel) i t
  = if scalar min cp then k (zlen ((pre ++ [b]) ++ l)) else Ok false.
Proof.
  intros Hi Ht Hb Hl Hcp Hmin. unfold lead_state. rewrite utf8_inner_stop by (done || lia).
  step_bind. replace (zlen ((pre ++ [b]) ++ l) - zlen pre) with (1 + i) by len.
  rewrite (value_ok_scalar cp _ (6 + 5 * i) (1 + i) min); [done|lia| |done].
  replace (6 + 5 * i + 1) with (7 + 5 * i) by lia. rewrite <- Hcp. unfold u32.
  apply Z.mod_mod_divide. exists (2 ^ (32 - (7 + 5 * i))).
  rewrite <- Z.pow_add_r by lia. f_equal. lia.
Qed.

(** Leads of five or six bytes. *)
Lemma lead_state_long l s fuel i t :
  0 <= i <= 5 → 0 <= t < 2 ^ (6 * i) → zlen l = i → 248 <= b < 254 → is_bytes s →
  (i = 5 → 252 <= b) → 6 <= Z.of_nat fuel + i → lead_state l s fuel i t = Ok false.
Proof.
  destruct (lead_bits b) as (_ & _ & _ & H5 & H5' & H4 & H4' & H3 & H3' & H2 & H2' & H1);
    [done|]. destruct (lead_bits b) as (H6 & _); [done|].
  revert l s i t. induction fuel as [|fuel IH]; intros l s i t Hi Ht Hl Hb Hs H5b Hf; [lia|].
  assert (Hstop : 4 <= i → Z.testbit b (6 - i) = false → lead_state l s (S fuel) i t = Ok false).
  { intros Hi4 Hbit. unfold lead_state. rewrite utf8_inner_stop by done. step_bind.
    rewrite value_ok_long by len. done. }
  assert (Hstep : i <= 4 → (i = 4 → 252 <= b) → Z.testbit b (6 - i) = true →
    lead_state l s (S fuel) i t = Ok false).
  { intros Hi4 Hb4 Hbit. rewrite lead_state_step by (done || lia). destruct s as [|c s']; [done|].
    destruct (cont c) eqn:Ec; [|done]. apply cont_range in Ec. inversion Hs; subst.
    apply IH; [lia| |len|done|done|lia|lia].
    replace (6 * (zlen l + 1)) with (6 * zlen l + 6) by lia. rewrite Z.pow_add_r by lia. lia. }
  assert (i = 0 ∨ i = 1 ∨ i = 2 ∨ i = 3 ∨ i = 4 ∨ i = 5) as [->|[->|[->|[->|[->| ->]]]]] by lia.
  - apply Hstep; [lia|lia|]. apply H6. lia.
  - apply Hstep; [lia|lia|]. apply H5'. lia.
  - apply Hstep; [lia|lia|]. apply H4'. lia.
  - apply Hstep; [lia|lia|]. apply H3'. lia.
  - destruct (Z.lt_ge_cases b 252); [apply Hstop; [lia|apply H2; lia]|].
    apply Hstep; [lia|lia|apply H2'; lia].
  - apply Hstop; [lia|apply H1; lia].
Qed.
End characters.

(** What follows a leading byte. *)
Lemma after_lead_ref pre post b k s :
  is_byte b → 192 <= b → b < 254 → is_bytes s → 0 ∉ s →
  (∀ l s', s = l ++ s' → k (zlen ((pre ++ [b]) ++ l)) = Ok (utf8_ref s')) →
  after_lead (pre ++ (b :: s) ++ 0 :: post) (zlen pre) b k
    = Ok (if b <? 224 then match s with
        | b1 :: s2 => cont b1 && scalar 128 ((b - 192) * 64 + (b1 - 128)) && utf8_ref s2
        | _ => false end
      else if b <? 240 then match s with
        | b1 :: b2 :: s3 => cont b1 && cont b2
            && scalar 2048 ((b - 224) * 4096 + (b1 - 128) * 64 + (b2 - 128)) && utf8_ref s3
        | _ => false end
      else if b <? 248 then match s with
        | b1 :: b2 :: b3 :: s4 => cont b1 && cont b2 && cont b3
            && scalar 65536 ((b - 240) * 262144 + (b1 - 128) * 4096 + (b2 - 128) * 64 + (b3 - 128))
            && utf8_ref s4
        | _ => false end
      else false).
Proof.
  intros Hby Hlo Hhi Hs' H0 Hk. unfold is_byte in Hby.
  destruct (lead_bits b Hby) as (H6 & Hc & Ha & H5 & H5' & H4 & H4' & H3 & _).
  destruct (H6 ltac:(lia)) as (H6b & _ & _).
  rewrite lead_state_start by (done || lia).
  destruct (Z.lt_ge_cases b 248) as [Hlt|Hge].
  2:{ repeat (rewrite (proj2 (Z.ltb_ge b _)) by lia).
      apply lead_state_long; (done || lia). }
  rewrite (lead_state_step pre post b k [] s 7 0 0) by (done || lia).
  destruct s as [|b1 s]; [by repeat case_match|].
  inversion Hs' as [|? ? Hb1 Hs1]; subst.
  destruct (cont b1) eqn:E1; [apply cont_range in E1|by repeat case_match].
  change ([] ++ [b1]) with [b1]. cbn [andb]. change (0 + 1) with 1.
  replace (0 * 64 + (b1 - 128)) with (b1 - 128) by lia.
  destruct (Z.ltb_spec b 224).
  { rewrite (lead_state_stop pre post b k [b1] s 6 1 (b1 - 128) 128 ((b - 192) * 64 + (b1 - 128)));
      [|lia|change (2 ^ (6 * 1)) with 64; lia|apply H5; lia|done| |done].
    - destruct (scalar _ _); [|done]. by apply Hk.
    - change (2 ^ (6 * 1)) with 64. change (2 ^ (7 + 5 * 1)) with 4096.
      rewrite <- (Z.mod_add _ (-3)) by lia. rewrite Z.mod_small; lia. }
  rewrite (lead_state_step pre post b k [b1] s 6 1 (b1 - 128))
    by (done || lia || (change (2 ^ (6 * 1)) with 64; lia) || (apply H5'; lia)).
  destruct s as [|b2 s]; [by repeat case_match|].
  inversion Hs1 as [|? ? Hb2 Hs2]; subst.
  destruct (cont b2) eqn:E2; [apply cont_range in E2|by repeat case_match].
  cbn [app andb]. change (1 + 1) with 2.
  destruct (Z.ltb_spec b 240).
  { rewrite (lead_state_stop pre post b k [b1; b2] s 5 2 ((b1 - 128) * 64 + (b2 - 128)) 2048
      ((b - 224) * 4096 + (b1 - 128) * 64 + (b2 - 128)));
      [|lia|change (2 ^ (6 * 2)) with 4096; lia|apply H4; lia|done| |done].
    - destruct (scalar _ _); [|done]. by apply Hk.
    - change (2 ^ (6 * 2)) with 4096. change (2 ^ (7 + 5 * 2)) with 131072.
      rewrite <- (Z.mod_add _ (-7)) by lia. rewrite Z.mod_small; lia. }
  rewrite (lead_state_step pre post b k [b1; b2] s 5 2 ((b1 - 128) * 64 + (b2 - 128)))
    by (done || lia || (change (2 ^ (6 * 2)) with 4096; lia) || (apply H4'; lia)).
  destruct s as [|b3 s]; [by repeat case_match|].
  inversion Hs2 as [|? ? Hb3 Hs3]; subst.
  destruct (cont b3) eqn:E3; [apply cont_range in E3|by repeat case_match].
  cbn [app andb]. change (2 + 1) with 3.
  rewrite (proj2 (Z.ltb_lt b 248)) by lia.
  rewrite (lead_state_stop pre post b k [b1; b2; b3] s 4 3
      (((b1 - 128) * 64 + (b2 - 128)) * 64 + (b3 - 128)) 65536
      ((b - 240) * 262144 + (b1 - 128) * 4096 + (b2 - 128) * 64 + (b3 - 128)));
    [|lia|change (2 ^ (6 * 3)) with 262144; lia|apply H3; lia|done| |done].
  - destruct (scalar _ _); [|done]. by apply Hk.
  - change (2 ^ (6 * 3)) with 262144. change (2 ^ (7 + 5 * 3)) with 4194304.
    rewrite <- (Z.mod_add _ (-15)) by lia. rewrite Z.mod_small; lia.
Qed.

(** ** The whole string *)

Lemma utf8_chars_loop_ref fuel pre s post :
  is_bytes s → 0 ∉ s → (length s < fuel)%nat →
  utf8_chars_loop fuel (pre ++ s ++ 0 :: post) (zlen pre) = Ok (utf8_ref s).
Proof.
  revert pre s. induction fuel as [|fuel IH]; intros pre s Hs H0 Hf; [lia|].
  cbn [utf8_chars_loop]. destruct (rd_next pre s post Hs) as [Hr Hby]. step Hr.
  destruct s as [|b s]; [done|]. cbn [hd] in *.
  assert (b ≠ 0) by set_solver. rewrite (proj2 (Z.eqb_neq b 0)) by done.
  inversion Hs as [|? ? _ Hs']; subst. unfold is_byte in Hby.
  destruct (lead_bits b Hby) as (H6 & Hc & Ha & H5 & H5' & H4 & H4' & H3 & _).
  assert (Hk : ∀ l s', is_bytes s' → 0 ∉ s' → (length s' < fuel)%nat →
    b :: s = b :: l ++ s' →
    utf8_chars_loop fuel (pre ++ (b :: s) ++ 0 :: post) (zlen ((pre ++ [b]) ++ l)) = Ok (utf8_ref s')).
  { intros l s' H1 H2 H3' [= ->]. rewrite <- (IH ((pre ++ [b]) ++ l) s') by done.
    f_equal. rewrite <- !app_assoc. cbn [app]. by rewrite <- app_assoc. }
  cbn [length] in Hf. unfold utf8_ref; fold utf8_ref.
  destruct (Z.ltb_spec b 128).
  { destruct (Ha ltac:(lia)) as [-> ->]. change (Z.shiftr 0 1) with 0.
    rewrite (proj2 (Z.leb_gt 254 b)) by lia. cbn [orb utf8_inner]. rewrite Z.land_0_r.
    cbn [Z.eqb]. step_bind. assert (utf8_value_ok b 0 (zlen pre + 1 - zlen pre) = true) as ->.
    { unfold utf8_value_ok. replace (zlen pre + 1 - zlen pre) with 1 by lia. cbn [Z.eqb Pos.eqb].
      change (u32 (u32 (Z.shiftl 0 1) - 1)) with (Z.ones 32). rewrite Z.land_ones by lia.
      rewrite Z.mod_small by lia. by repeat dec_if. }
    specialize (Hk [] s Hs' ltac:(set_solver) ltac:(lia) eq_refl).
    rewrite app_nil_r, zlen_app in Hk. exact Hk. }
  destruct (Z.ltb_spec b 192).
  { rewrite Hc by lia. done. }
  destruct (H6 ltac:(lia)) as (H6b & -> & ->). change (Z.shiftr 128 1) with 64.
  cbn [orb]. destruct (Z.leb_spec 254 b).
  { repeat (rewrite (proj2 (Z.ltb_ge b _)) by lia). done. }
  apply (after_lead_ref pre post b (utf8_chars_loop fuel (pre ++ (b :: s) ++ 0 :: post)));
    [done|lia|lia|done|set_solver|].
  intros l s' E. rewrite E in Hs', H0. apply Hk; [by apply Forall_app in Hs' as [_ ?]|set_solver| |by rewrite E].
  rewrite E, length_app in Hf. lia.
Qed.

(** [is_utf8_chars] ends on every zero-terminated array, never reads behind the
    terminator, and accepts exactly the strings of the reference. *)
Theorem is_utf8_chars_correct pre s post :
  is_bytes s → 0 ∉ s →
  is_utf8_chars (pre ++ s ++ 0 :: post) (zlen pre) = Ok (utf8_ref s).
Proof.
  intros Hs H0. apply utf8_chars_loop_ref; [done|done|]. rewrite !length_app. lia.
Qed.

(** A code point this program takes for valid. *)
Definition code_point (cp : Z) : Prop :=
  0 < cp < 1114112 ∧ cp ≠ 65534 ∧ ¬ (55296 <= cp <= 57343).

#[global] Instance code_point_dec cp : Decision (code_point cp).
Proof. unfold code_point; apply _. Defined.

Lemma scalar_ok min cp : code_point cp → min <= cp → scalar min cp = true.
Proof.
  intros ((? & ?) & ? & ?) ?. unfold scalar. do 2 dec_if.
  rewrite (proj2 (Z.eqb_neq cp 65534)) by done. cbn [andb negb].
  destruct (Z.leb_spec 55296 cp), (Z.leb_spec cp 57343); try done. lia.
Qed.

Lemma cont_low x : cont (128 + x mod 64) = true.
Proof.
  unfold cont. pose proof (Z.mod_pos_bound x 64 ltac:(lia)). by do 2 dec_if.
Qed.

Lemma utf8_encode_ok cp s : code_point cp → utf8_ref (utf8_encode cp ++ s) = utf8_ref s.
Proof.
  intros Hcp. pose proof Hcp as ((? & ?) & ? & ?). unfold utf8_encode.
  destruct (Z.ltb_spec cp 128); [cbn [app utf8_ref]; by dec_if|].
  destruct (Z.ltb_spec cp 2048); [|destruct (Z.ltb_spec cp 65536)]; cbn [app utf8_ref];
    rewrite !cont_low; cbn [andb].
  - assert (2 <= cp / 64 < 32) by (split; [apply Z.div_le_lower_bound; lia|apply Z.div_lt_upper_bound; lia]).
    repeat dec_if. replace (_ + _) with cp by (Z.div_mod_to_equations; lia).
    by rewrite scalar_ok.
  - assert (0 <= cp / 4096 < 16) by (split; [apply Z.div_pos; lia|apply Z.div_lt_upper_bound; lia]).
    repeat dec_if. replace (_ + _) with cp by (Z.div_mod_to_equations; lia).
    by rewrite scalar_ok.
  - assert (0 <= cp / 262144 < 5) by (split; [apply Z.div_pos; lia|apply Z.div_lt_upper_bound; lia]).
    repeat dec_if. replace (_ + _) with cp by (Z.div_mod_to_equations; lia).
    by rewrite scalar_ok.
Qed.

Lemma cont_land c : is_byte c → cont c = true → (Z.land c 192 =? 128) = true.
Proof.
  revert c. refine (bool_decide_unpack (∀ c, 0 <= c < 256 → cont c = true → (Z.land c 192 =? 128) = true) _).
  by vm_compute.
Qed.

Lemma utf8_ref_str s : is_bytes s → utf8_ref s = true → utf8_str_loop s 0 = true.
Proof.
  cut (∀ n s, (length s <= n)%nat → is_bytes s → utf8_ref s = true → utf8_str_loop s 0 = true).
  { intros H. by apply (H (length s)). }
  clear s. induction n as [|n IH]; intros s Hn Hs Hr; [by destruct s; [|cbn in Hn; lia]|].
  destruct s as [|b s]; [done|]. inversion Hs as [|? ? Hb Hs1]; subst. cbn [length] in Hn.
  unfold is_byte in Hb. unfold utf8_ref in Hr; fold utf8_ref in Hr. cbn [utf8_str_loop].
  change (0 =? 0) with true. cbv iota.
  destruct (Z.ltb_spec b 128); [rewrite (proj2 (Z.leb_gt 128 b)) by lia; by apply IH; [lia|..]|].
  rewrite (proj2 (Z.leb_le 128 b)) by lia.
  assert (Hcont : ∀ c l m, is_byte c → cont c = true → 0 < m →
            utf8_str_loop (c :: l) m = utf8_str_loop l (m - 1)).
  { intros c l m Hc Hcc Hm. cbn [utf8_str_loop]. rewrite (proj2 (Z.eqb_neq m 0)) by lia.
    by rewrite cont_land. }
  destruct (Z.ltb_spec b 192); [done|].
  destruct (Z.ltb_spec b 224); [|destruct (Z.ltb_spec b 240); [|destruct (Z.ltb_spec b 248); [|done]]];
    rewrite (proj2 (Z.leb_gt 252 b)), (proj2 (Z.leb_gt 248 b)) by lia; cbn [andb].
  - destruct s as [|b1 s]; [done|]. inversion Hs1; subst.
    apply andb_prop in Hr as [[Hc1 _]%andb_prop Hr].
    rewrite (proj2 (Z.leb_gt 240 b)), (proj2 (Z.leb_gt 224 b)), (proj2 (Z.leb_le 192 b)) by lia.
    rewrite Hcont by (done || lia). apply IH; [cbn in Hn; lia|done..].
  - destruct s as [|b1 [|b2 s]]; try done. inversion Hs1 as [|? ? ? Hs2]; subst. inversion Hs2; subst.
    apply andb_prop in Hr as [[[Hc1 Hc2]%andb_prop _]%andb_prop Hr].
    rewrite (proj2 (Z.leb_gt 240 b)), (proj2 (Z.leb_le 224 b)) by lia.
    rewrite !Hcont by (done || lia). apply IH; [cbn in Hn; lia|done..].
  - destruct s as [|b1 [|b2 [|b3 s]]]; try done.
    inversion Hs1 as [|? ? ? Hs2]; subst. inversion Hs2 as [|? ? ? Hs3]; subst. inversion Hs3; subst.
    apply andb_prop in Hr as [[[[Hc1 Hc2]%andb_prop Hc3]%andb_prop _]%andb_prop Hr].
    rewrite (proj2 (Z.leb_le 240 b)) by lia.
    rewrite !Hcont by (done || lia). apply IH; [cbn in Hn; lia|done..].
Qed.

(** Both tests accept every string of valid code points; what [is_utf8_chars]
    accepts [is_utf8_str] accepts. *)
Theorem utf8_tests_agree cps s :
  (Forall code_point cps → utf8_ref (cps ≫= utf8_encode) = true)
  ∧ (is_bytes s → utf8_ref s = true → is_utf8_str s = true).
Proof.
  split; [|by apply utf8_ref_str]. induction 1 as [|cp cps Hcp _ IH]; [done|].
  rewrite bind_cons. by rewrite utf8_encode_ok.
Qed.

(** The converse fails: [is_utf8_str] only counts bytes, so it accepts overlong
    forms, surrogates, values above U+10FFFF and the bytes 0xFE and 0xFF as leads. *)
Theorem is_utf8_str_accepts_invalid :
  Forall (λ s, is_utf8_str s = true ∧ utf8_ref s = false)
    [[192; 128]; [237; 160; 128]; [247; 191; 191; 191]; [254; 128; 128; 128; 128]].
Proof. repeat constructor. Qed.

(** ** Concrete runs *)

(** "aé€😀" *)
Definition sample_text : list Z := [97; 195; 169; 226; 130; 172; 240; 159; 152; 128].

Lemma is_utf8_chars_correct_witness :
  is_utf8_chars ([7] ++ sample_text ++ 0 :: [255]) 1 = Ok true
  ∧ is_utf8_chars ([7] ++ [226; 130] ++ 0 :: [172]) 1 = Ok false.
Proof.
  split.
  - exact (is_utf8_chars_correct [7] sample_text [255] ltac:(by_table) ltac:(by_table)).
  - exact (is_utf8_chars_correct [7] [226; 130] [172] ltac:(by_table) ltac:(by_table)).
Defined.

Lemma utf8_tests_agree_witness :
  utf8_ref ([97; 233; 8364; 128512] ≫= utf8_encode) = true ∧ is_utf8_str sample_text = true.
Proof.
  split.
  - apply (proj1 (utf8_tests_agree [97; 233; 8364; 128512] [])). by_table.
  - apply (proj2 (utf8_tests_agree [] sample_text)); [by_table|reflexivity].
Defined.
