(* ===== verification/Json.v ===== *)
(** * Json: JSON objects, their text and back

    Models [src/common/common_json.h] and [.cpp].  A string is the list of its
    bytes.  A reading function takes what is left of the text, [drop startPos str],
    for [str] and [startPos] (the texts are shorter than 2{^32}, so [startPos] does
    not wrap).  [double] is any type of floating-point numbers; its conversions are
    those of the C library, parameters of the functions that use them. *)

From S2P Require Import Prelude.
From S2P Require Import Utils.

(** [ValueType] and the [union] of [JsonValue]: a tag with its value.  An object
    carries its two fields, [m_is_array] and [m_members] (a [std::map]: keys in
    increasing order). *)
Inductive JsonValue (double : Type) : Type :=
| T_NULL
| T_BOOL (bool_v : bool)
| T_INT8 (int8_v : Z)
| T_INT16 (int16_v : Z)
| T_INT32 (int32_v : Z)
| T_INT64 (int64_v : Z)
| T_UINT8 (uint8_v : Z)
| T_UINT16 (uint16_v : Z)
| T_UINT32 (uint32_v : Z)
| T_UINT64 (uint64_v : Z)
| T_DOUBLE (double_v : double)
| T_STRING (str : list Z)
| T_OBJ (is_array : bool) (members : list (list Z * JsonValue double))
| T_UNDEFINED.

Arguments T_NULL {double}.
Arguments T_BOOL {double}.
Arguments T_INT8 {double}.
Arguments T_INT16 {double}.
Arguments T_INT32 {double}.
Arguments T_INT64 {double}.
Arguments T_UINT8 {double}.
Arguments T_UINT16 {double}.
Arguments T_UINT32 {double}.
Arguments T_UINT64 {double}.
Arguments T_DOUBLE {double}.
Arguments T_STRING {double}.
Arguments T_OBJ {double}.
Arguments T_UNDEFINED {double}.

Record JsonObject (double : Type) := mkJsonObject {
  m_is_array : bool;
  m_members : list (list Z * JsonValue double);
}.

Arguments mkJsonObject {double}.
Arguments m_is_array {double}.
Arguments m_members {double}.

(** ** [std::map<std::string, JsonValue>] *)

(** [operator <] of strings: lexicographic on unsigned bytes. *)
Fixpoint key_lt (a b : list Z) : bool :=
  match a, b with
  | [], [] => false
  | [], _ :: _ => true
  | _ :: _, [] => false
  | x :: a, y :: b => (x <? y) || ((x =? y) && key_lt a b)
  end.

Section map.
Context {V : Type}.

Fixpoint map_find (m : list (list Z * V)) (k : list Z) : option V :=
  match m with
  | [] => None
  | (k', v) :: m => if bool_decide (k = k') then Some v else map_find m k
  end.

(** [m[k] = v]. *)
Fixpoint map_insert (m : list (list Z * V)) (k : list Z) (v : V) : list (list Z * V) :=
  match m with
  | [] => [(k, v)]
  | (k', v') :: m' =>
      if bool_decide (k = k') then (k, v) :: m'
      else if key_lt k k' then (k, v) :: m
      else (k', v') :: map_insert m' k v
  end.
End map.

Section json.
Context {double : Type}.
Notation JsonValue := (JsonValue double).
Notation JsonObject := (JsonObject double).

Definition new_object : JsonObject := {| m_is_array := false; m_members := [] |}.

Definition clear (this : JsonObject) : JsonObject := new_object.

(** ** The values *)

Definition valuetype_to_string (v : JsonValue) : list Z :=
  match v with
  | T_NULL => bytes_of "null"
  | T_BOOL _ => bytes_of "bool"
  | T_INT8 _ => bytes_of "int8"
  | T_INT16 _ => bytes_of "int16"
  | T_INT32 _ => bytes_of "int32"
  | T_INT64 _ => bytes_of "int64"
  | T_UINT8 _ => bytes_of "uint8"
  | T_UINT16 _ => bytes_of "uint16"
  | T_UINT32 _ => bytes_of "uint32"
  | T_UINT64 _ => bytes_of "uint64"
  | T_DOUBLE _ => bytes_of "double"
  | T_STRING _ => bytes_of "string"
  | T_OBJ _ _ => bytes_of "object"
  | T_UNDEFINED => bytes_of "undefined"
  end.

(** [JSONVALUE_RETURN(ctype)]: [cast] converts an integer to [ctype], [dcast] a
    [double]. *)
Definition JSONVALUE_RETURN {ctype : Type} (cast : Z → ctype) (dcast : double → ctype)
    (v : JsonValue) : ctype :=
  match v with
  | T_BOOL b => cast (if b then 1 else 0)
  | T_INT8 z | T_INT16 z | T_INT32 z | T_INT64 z
  | T_UINT8 z | T_UINT16 z | T_UINT32 z | T_UINT64 z => cast z
  | T_DOUBLE d => dcast d
  | T_OBJ _ _ => cast 1
  | T_STRING _ => cast 1
  | T_NULL | T_UNDEFINED => cast 0
  end.

Definition i8 (z : Z) : Z := (z + 2 ^ 7) mod 2 ^ 8 - 2 ^ 7.
Definition i16 (z : Z) : Z := (z + 2 ^ 15) mod 2 ^ 16 - 2 ^ 15.

(** The conversions of a [double] are parameters. *)
Definition as_int8 (dcast : double → Z) : JsonValue → Z := JSONVALUE_RETURN i8 dcast.
Definition as_int16 (dcast : double → Z) : JsonValue → Z := JSONVALUE_RETURN i16 dcast.
Definition as_int32 (dcast : double → Z) : JsonValue → Z := JSONVALUE_RETURN i32 dcast.
Definition as_int64 (dcast : double → Z) : JsonValue → Z := JSONVALUE_RETURN i64 dcast.
Definition as_uint8 (dcast : double → Z) : JsonValue → Z := JSONVALUE_RETURN u8 dcast.
Definition as_uint16 (dcast : double → Z) : JsonValue → Z := JSONVALUE_RETURN u16 dcast.
Definition as_uint32 (dcast : double → Z) : JsonValue → Z := JSONVALUE_RETURN u32 dcast.
Definition as_uint64 (dcast : double → Z) : JsonValue → Z := JSONVALUE_RETURN u64 dcast.
Definition as_double (of_int : Z → double) : JsonValue → double := JSONVALUE_RETURN of_int (λ d, d).

(** [near_zero d] is [abs(d) < 1e-8]. *)
Definition as_bool (near_zero : double → bool) (v : JsonValue) : bool :=
  match v with
  | T_BOOL b => b
  | T_INT8 z | T_INT16 z | T_INT32 z | T_INT64 z
  | T_UINT8 z | T_UINT16 z | T_UINT32 z | T_UINT64 z => negb (z =? 0)
  | T_DOUBLE d => negb (near_zero d)
  | T_OBJ _ _ | T_STRING _ => true
  | T_NULL | T_UNDEFINED => false
  end.

(** [print_f d] is [sprintf("%f", d)]. *)
Definition as_string (print_f : double → list Z) (v : JsonValue) : list Z :=
  match v with
  | T_BOOL b => common_to_string_bool b
  | T_INT8 z | T_INT16 z | T_INT32 z | T_INT64 z
  | T_UINT8 z | T_UINT16 z | T_UINT32 z | T_UINT64 z => common_to_string z
  | T_DOUBLE d => print_f d
  | T_STRING s => s
  | T_OBJ _ _ => bytes_of "JsonObject"
  | T_NULL | T_UNDEFINED => []
  end.

Definition as_object (v : JsonValue) : JsonObject :=
  match v with
  | T_OBJ a m => {| m_is_array := a; m_members := m |}
  | _ => new_object
  end.

(** ** Members *)

Definition array_size (this : JsonObject) : Z :=
  if m_is_array this then i32 (zlen (m_members this)) else -1.

(** [operator[](key) const]: a missing key is an undefined value. *)
Definition at_key (this : JsonObject) (key : list Z) : JsonValue :=
  match map_find (m_members this) key with Some v => v | None => T_UNDEFINED end.

Definition at_index (this : JsonObject) (index : Z) : JsonValue := at_key this (common_to_string index).

(** [operator[](key)]: the value, and the object with the key added if it was not
    there. *)
Definition index_key (this : JsonObject) (key : list Z) : JsonValue * JsonObject :=
  match map_find (m_members this) key with
  | Some v => (v, this)
  | None => (T_UNDEFINED, {| m_is_array := m_is_array this;
                             m_members := map_insert (m_members this) key T_UNDEFINED |})
  end.

Definition index_int (this : JsonObject) (index : Z) : JsonValue * JsonObject :=
  index_key {| m_is_array := true; m_members := m_members this |} (common_to_string index).

(** [this[key] = value]. *)
Definition assign_key (this : JsonObject) (key : list Z) (value : JsonValue) : JsonObject :=
  {| m_is_array := m_is_array this; m_members := map_insert (m_members this) key value |}.

Definition assign_int (this : JsonObject) (index : Z) (value : JsonValue) : JsonObject :=
  assign_key {| m_is_array := true; m_members := m_members this |} (common_to_string index) value.

Definition push (this : JsonObject) (value : JsonValue) : JsonObject :=
  if negb (m_is_array this) then this
  else assign_key this (common_to_string (zlen (m_members this))) value.

(** ** Escapes *)

(** The replacements of [escape_string] and of [unescape_string], in order. *)
Fixpoint replace_all (l : list (list Z * list Z)) (str : list Z) : outcome (list Z) :=
  match l with
  | [] => Ok str
  | (search, replacement) :: l =>
      str ← string_replace str search replacement; replace_all l str
  end.

Definition escape_string (str : list Z) : outcome (list Z) :=
  replace_all [([92], [92; 92]); ([47], [92; 47]); ([34], [92; 34]); ([8], [92; 98]);
               ([12], [92; 102]); ([10], [92; 110]); ([13], [92; 114]); ([9], [92; 116])] str.

Definition unescape_string (str : list Z) : outcome (list Z) :=
  replace_all [([92; 47], [47]); ([92; 34], [34]); ([92; 98], [8]); ([92; 102], [12]);
               ([92; 110], [10]); ([92; 114], [13]); ([92; 116], [9]); ([92; 92], [92])] str.

(** ** Writing

    The string of a value is escaped in place, so the value after the call is part
    of the result; [None] is the return value [false]. *)
Section writing.
Context (print_double : double → list Z).

Fixpoint write_value (v : JsonValue) : outcome (option (list Z) * JsonValue) :=
  match v with
  | T_NULL => Ok (Some (bytes_of "null"), v)
  | T_BOOL b => Ok (Some (common_to_string_bool b), v)
  | T_INT8 z | T_INT16 z | T_INT32 z | T_INT64 z
  | T_UINT8 z | T_UINT16 z | T_UINT32 z | T_UINT64 z => Ok (Some (common_to_string z), v)
  | T_DOUBLE d => Ok (Some (print_double d), v)
  | T_STRING s =>
      s ← escape_string s;
      Ok (Some ([34] ++ s ++ [34]), T_STRING s)
  | T_OBJ is_array members =>
      let write_members :=
        fix write_members (first : bool) (m : list (list Z * JsonValue)) (ss : list Z) :=
          match m with
          | [] => Ok (Some ss, [])
          | (k, v) :: m =>
              let ss := if first then ss else ss ++ [44] in
              let ss := if is_array then ss else ss ++ [34] ++ k ++ [34] ++ [58] in
              r ← write_value v;
              let '(t, v) := r in
              match t with
              | None => Ok (None, (k, v) :: m)
              | Some t =>
                  r ← write_members false m (ss ++ t);
                  let '(o, m) := r in Ok (o, (k, v) :: m)
              end
          end in
      r ← write_members true members (if is_array then [91] else [123]);
      let '(o, members) := r in
      Ok (match o with
          | Some ss => Some (ss ++ if is_array then [93] else [125])
          | None => None
          end, T_OBJ is_array members)
  | T_UNDEFINED => Ok (None, v)
  end.

(** [write_to_string]: the text, and the object after the call. *)
Definition write_to_string (this : JsonObject) : outcome (option (list Z) * JsonObject) :=
  r ← write_value (T_OBJ (m_is_array this) (m_members this));
  let '(o, v) := r in Ok (o, as_object v).
End writing.

(** ** Reading *)

Fixpoint read_whitespace (rest : list Z) : list Z :=
  match rest with
  | c :: rest' =>
      if (c =? 32) || (c =? 9) || (c =? 13) || (c =? 10) then read_whitespace rest' else rest
  | [] => []
  end.

Definition read_delimiter (rest : list Z) : option (Z * list Z) :=
  match read_whitespace rest with
  | [] => None
  | c :: rest => Some (c, read_whitespace rest)
  end.

(** The search for the closing quote: [prev] is [str[pos - 1]], [acc] the text
    between [startPos] and [pos]. *)
Fixpoint scan_string (prev : Z) (rest acc : list Z) : option (list Z * list Z) :=
  match rest with
  | [] => None
  | c :: rest =>
      if (c =? 34) && negb (prev =? 92) then Some (acc, rest)
      else scan_string c rest (acc ++ [c])
  end.

Definition read_string (rest : list Z) : outcome (option (JsonValue * list Z)) :=
  if zlen rest <? 2 then Ok None else
  match rest with
  | c :: rest =>
      if negb (c =? 34) then Ok None else
      match scan_string c rest [] with
      | None => Ok None
      | Some (value, rest) =>
          value ← unescape_string value;
          Ok (Some (T_STRING value, rest))
      end
  | [] => Ok None
  end.

Fixpoint scan_number (rest floatStr : list Z) (isFloat : bool) : list Z * (bool * list Z) :=
  match rest with
  | c :: rest' =>
      if (c <? 48) || (57 <? c) then
        if c =? 46 then scan_number rest' (floatStr ++ [c]) true else (floatStr, (isFloat, rest))
      else scan_number rest' (floatStr ++ [c]) isFloat
  | [] => (floatStr, (isFloat, []))
  end.

Section reading.
Context (string_to_double : list Z → double).

Definition read_number (rest : list Z) : option (JsonValue * list Z) :=
  let '(floatStr, (isFloat, rest)) := scan_number rest [] false in
  match floatStr with
  | [] => None
  | _ => Some (if isFloat then T_DOUBLE (string_to_double floatStr)
               else T_INT64 (string_to_long floatStr), rest)
  end.

Definition read_bool (rest wanted : list Z) : option (JsonValue * list Z) :=
  if zlen rest <? zlen wanted then None else
  if bool_decide (string_to_lower (take (length wanted) rest) = wanted)
  then Some (T_BOOL (bool_decide (wanted = bytes_of "true")), drop (length wanted) rest)
  else None.

(** The value is not set: it stays undefined. *)
Definition read_null (rest : list Z) : option (JsonValue * list Z) :=
  if zlen rest <? 4 then None else
  if bool_decide (string_to_lower (take 4 rest) = bytes_of "null")
  then Some (T_UNDEFINED, drop 4 rest) else None.

(** What a loop over members returns: the result, the object, the rest. *)
Notation members_result := (bool * (JsonObject * list Z))%type.

(** [read_json_key_value]: the dispatch on the first character.  [read_object] and
    [read_array] are the loops of those functions, behind the opening bracket. *)
Definition read_value_body (read_object read_array : list Z → JsonObject → outcome members_result)
    (rest : list Z) : outcome (option (JsonValue * list Z)) :=
  if zlen rest <=? 0 then Ok None else
  let rest := read_whitespace rest in
  match rest with
  | [] => Ok None
  | c :: _ =>
      if c =? 34 then read_string rest
      else if (c =? 45) || ((48 <=? c) && (c <=? 57)) then Ok (read_number rest)
      else if c =? 123 then
        r ← (if zlen rest <? 2 then Ok (false, (new_object, rest))
             else read_object (drop 1 rest) new_object);
        let '(ret, (obj, rest)) := r in
        Ok (if (ret : bool) then Some (T_OBJ (m_is_array obj) (m_members obj), rest) else None)
      else if c =? 91 then
        r ← (if zlen rest <? 2 then Ok (false, (new_object, rest))
             else read_array (drop 1 rest) {| m_is_array := true; m_members := [] |});
        let '(ret, (obj, rest)) := r in
        Ok (if (ret : bool) then Some (T_OBJ (m_is_array obj) (m_members obj), rest) else None)
      else if (c =? 116) || (c =? 84) then Ok (read_bool rest (bytes_of "true"))
      else if (c =? 102) || (c =? 70) then Ok (read_bool rest (bytes_of "false"))
      else if (c =? 110) || (c =? 78) then Ok (read_null rest)
      else Ok None
  end.

(** The [while] of [read_object]: [read_value] reads a key or a value, [continue_]
    is the next turn. *)
Definition object_loop_body (read_value : list Z → outcome (option (JsonValue * list Z)))
    (continue_ : list Z → JsonObject → outcome members_result)
    (rest : list Z) (this : JsonObject) : outcome members_result :=
  match rest with
  | [] => Ok (false, (this, rest))
  | c0 :: rest' =>
      if c0 =? 125 then Ok (true, (this, rest')) else
      r ← read_value rest;
      match r with
      | Some (T_STRING key, rest) =>
          match read_delimiter rest with
          | None => Ok (false, (this, rest))
          | Some (c, rest) =>
              if negb (c =? 58) then Ok (false, (this, rest)) else
              r ← read_value rest;
              match r with
              | None => Ok (false, (this, rest))
              | Some (value, rest) =>
                  let this := assign_key this key value in
                  match read_delimiter rest with
                  | None => Ok (false, (this, rest))
                  | Some (c, rest) =>
                      if c =? 125 then Ok (true, (this, rest))
                      else if c =? 44 then continue_ rest this
                      else Ok (false, (this, rest))
                  end
              end
          end
      | _ => Ok (false, (this, rest))
      end
  end.

(** The [while] of the two [read_array]. *)
Definition array_loop_body (read_value : list Z → outcome (option (JsonValue * list Z)))
    (continue_ : list Z → JsonObject → outcome members_result)
    (rest : list Z) (this : JsonObject) : outcome members_result :=
  match rest with
  | [] => Ok (false, (this, rest))
  | c0 :: rest' =>
      if c0 =? 93 then Ok (true, (this, rest')) else
      r ← read_value rest;
      match r with
      | None => Ok (false, (this, rest))
      | Some (value, rest) =>
          let this := push this value in
          match read_delimiter rest with
          | None => Ok (false, (this, rest))
          | Some (c, rest) =>
              if c =? 93 then Ok (true, (this, rest))
              else if c =? 44 then continue_ rest this
              else Ok (false, (this, rest))
          end
      end
  end.

(** The recursion between them. *)
Fixpoint read_json_key_value (fuel : nat) (rest : list Z)
    : outcome (option (JsonValue * list Z)) :=
  match fuel with
  | O => Hang
  | S fuel => read_value_body (read_object_loop fuel) (read_array_loop fuel) rest
  end
with read_object_loop (fuel : nat) (rest : list Z) (this : JsonObject) : outcome members_result :=
  match fuel with
  | O => Hang
  | S fuel => object_loop_body (read_json_key_value fuel) (read_object_loop fuel) rest this
  end
with read_array_loop (fuel : nat) (rest : list Z) (this : JsonObject) : outcome members_result :=
  match fuel with
  | O => Hang
  | S fuel => array_loop_body (read_json_key_value fuel) (read_array_loop fuel) rest this
  end.

(** Enough fuel for a text. *)
Definition json_fuel (rest : list Z) : nat := 2 * length rest + 2.

(** [read_from_string]: members read are added to those the object has, also when
    the text turns out to be wrong. *)
Definition read_from_string (this : JsonObject) (str : list Z) : outcome (bool * JsonObject) :=
  if zlen str =? 0 then Ok (false, this) else
  let rest := read_whitespace str in
  match rest with
  | [] => Ok (false, this)
  | c :: rest' =>
      if c =? 123 then
        if zlen rest <? 2 then Ok (false, this) else
        r ← read_object_loop (json_fuel rest') rest' this;
        let '(ret, (this, _)) := r in Ok (ret, this)
      else if c =? 91 then
        let this := {| m_is_array := true; m_members := m_members this |} in
        if zlen rest <? 2 then Ok (false, this) else
        r ← read_array_loop (json_fuel rest') rest' this;
        let '(ret, (this, _)) := r in Ok (ret, this)
      else Ok (false, this)
  end.
End reading.
End json.

(** ** Escaping *)

(** What [escape_string] writes for a byte. *)
Definition esc (c : Z) : list Z :=
  if c =? 92 then [92; 92] else if c =? 47 then [92; 47] else if c =? 34 then [92; 34]
  else if c =? 8 then [92; 98] else if c =? 12 then [92; 102] else if c =? 10 then [92; 110]
  else if c =? 13 then [92; 114] else if c =? 9 then [92; 116] else [c].

Lemma bind_bind (s : list Z) (f g : Z → list Z) : (s ≫= f) ≫= g = s ≫= λ x, f x ≫= g.
Proof. induction s as [|x s IH]; [done|]. rewrite !bind_cons, bind_app. by rewrite IH. Qed.

Lemma bind_ext_in (s : list Z) (f g : Z → list Z) : (∀ x, x ∈ s → f x = g x) → s ≫= f = s ≫= g.
Proof.
  induction s as [|x s IH]; [done|]. intros H. rewrite !bind_cons, H by set_solver.
  rewrite IH; [done|]. set_solver.
Qed.

Lemma string_replace_single s c repl :
  string_replace s [c] repl = Ok (s ≫= λ x, if x =? c then repl else [x]).
Proof.
  rewrite string_replace_spec by done. f_equal.
  induction s as [|x s IH]; [done|]. cbn [replace_ref starts]. rewrite andb_true_r.
  rewrite bind_cons, <- IH, Z.eqb_sym. by destruct (x =? c).
Qed.

(** [escape_string] writes each byte as [esc] says. *)
Lemma escape_string_spec s : escape_string s = Ok (s ≫= esc).
Proof.
  unfold escape_string, replace_all.
  repeat (rewrite string_replace_single; step_bind). f_equal. rewrite !bind_bind.
  apply bind_ext_in. intros x _. unfold esc.
  repeat match goal with |- context [x =? ?c] =>
    destruct (Z.eqb_spec x c) as [->|]; [reflexivity|] end.
  repeat (cbn [mbind list_bind app]; rewrite ?(proj2 (Z.eqb_neq x _)) by done). done.
Qed.

(** An escape, or a byte that is not a backslash. *)
Definition unit_ok (u : list Z) : Prop :=
  (∃ d, u = [d] ∧ d ≠ 92) ∨ (∃ z, u = [92; z] ∧ z ≠ 92).

(** One replacement of [unescape_string], on a text of such units. *)
Lemma unescape_pass x y (g : Z → list Z) s :
  (∀ c, c ∈ s → unit_ok (g c)) →
  replace_ref [92; x] [y] 0 (s ≫= g)
  = s ≫= λ c, if bool_decide (g c = [92; x]) then [y] else g c.
Proof.
  induction s as [|c s IH]; [done|]. intros Hg. rewrite !bind_cons, <- IH by set_solver.
  destruct (Hg c ltac:(set_solver)) as [(d & -> & Hd)|(z & -> & Hz)].
  - rewrite bool_decide_eq_false_2 by done. cbn [app replace_ref starts].
    rewrite (proj2 (Z.eqb_neq 92 d)) by done. done.
  - cbn [app replace_ref starts]. rewrite Z.eqb_refl, andb_true_r. cbn [andb].
    destruct (Z.eqb_spec x z) as [->|Hne].
    + rewrite bool_decide_eq_true_2 by done. done.
    + rewrite bool_decide_eq_false_2 by congruence.
      rewrite (proj2 (Z.eqb_neq 92 z)) by done. done.
Qed.

Lemma unit_ok_pass x y u : unit_ok u → y ≠ 92 → unit_ok (if bool_decide (u = [92; x]) then [y] else u).
Proof. intros Hu Hy. case_bool_decide; [left; eauto|done]. Qed.

Lemma esc_unit c : c ≠ 92 → unit_ok (esc c).
Proof.
  intros Hc. unfold esc. rewrite (proj2 (Z.eqb_neq c 92)) by done.
  repeat (case_match; [right; eauto; fail|]). left. eauto.
Qed.

(** A text without a backslash is not changed by the replacement of an escape. *)
Lemma replace_no_backslash w repl s : 92 ∉ s → replace_ref (92 :: w) repl 0 s = s.
Proof.
  intros Hs. apply replace_ref_none. intros q (a & k & -> & _). apply Hs. set_solver.
Qed.

Lemma unescape_no_backslash s : 92 ∉ s → unescape_string s = Ok s.
Proof.
  intros Hs. unfold unescape_string, replace_all.
  repeat (rewrite string_replace_spec by done; step_bind; rewrite replace_no_backslash by done).
  done.
Qed.

Lemma unescape_escaped s : 92 ∉ s → unescape_string (s ≫= esc) = Ok s.
Proof.
  intros Hs. assert (H0 : ∀ c, c ∈ s → unit_ok (esc c))
    by (intros c Hc; apply esc_unit; set_solver).
  unfold unescape_string, replace_all.
  rewrite string_replace_spec by done. step_bind. rewrite unescape_pass by done.
  do 6 (rewrite string_replace_spec by done; step_bind;
        rewrite unescape_pass by (intros c Hc; repeat apply unit_ok_pass; auto; lia)).
  rewrite string_replace_spec by done. step_bind.
  match goal with |- Ok (replace_ref _ _ _ (s ≫= ?g)) = _ =>
    assert (E : s ≫= g = s) end.
  { rewrite (bind_ext_in s _ (λ c, [c])).
    - clear. induction s as [|c s IH]; [done|]. by rewrite bind_cons, IH.
    - intros c Hc. assert (Hc92 : c ≠ 92) by set_solver. clear -Hc92.
      unfold esc. rewrite (proj2 (Z.eqb_neq c 92)) by done.
      repeat match goal with |- context [c =? ?d] =>
        destruct (Z.eqb_spec c d) as [->|]; [reflexivity|] end.
      assert (Hn : ∀ x, bool_decide ([c] = [92; x]) = false)
        by (intros; by apply bool_decide_eq_false_2).
      by rewrite !Hn. }
  rewrite E. by rewrite replace_no_backslash.
Qed.

(** Unescaping inverts escaping on the strings without a backslash; a backslash in
    front of one of the letters b, f, n, r, t or of a slash or quote is lost. *)
Theorem escape_roundtrip s :
  (92 ∉ s → (e ← escape_string s; unescape_string e) = Ok s)
  ∧ (e ← escape_string [92; 110]; unescape_string e) = Ok [92; 10].
Proof.
  split; [|by vm_compute]. intros Hs. rewrite escape_string_spec. step_bind.
  by apply unescape_escaped.
Qed.

(** The closing quote of an escaped string is found. *)
Lemma scan_escaped s prev rest acc :
  92 ∉ s → prev ≠ 92 →
  scan_string prev ((s ≫= esc) ++ 34 :: rest) acc = Some (acc ++ (s ≫= esc), rest).
Proof.
  revert prev acc. induction s as [|c s IH]; intros prev acc Hs Hp.
  - cbn. rewrite (proj2 (Z.eqb_neq prev 92)) by done. by rewrite app_nil_r.
  - rewrite bind_cons, <- app_assoc. destruct (esc_unit c) as [(d & E & Hd)|(z & E & Hz)];
      [set_solver|..]; rewrite E; cbn [app scan_string].
    + assert (d ≠ 34).
      { unfold esc in E. repeat (case_match; [discriminate E|]). injection E as <-.
        by apply Z.eqb_neq. }
      rewrite (proj2 (Z.eqb_neq d 34)) by done. cbn [andb].
      rewrite IH by (set_solver || done). by rewrite <- app_assoc.
    + rewrite andb_false_r. rewrite IH by (set_solver || done). by rewrite <- !app_assoc.
Qed.

(** ** The values that survive a round trip *)

Section roundtrip.
Context {double : Type}.
Notation JsonValue := (JsonValue double).
Notation JsonObject := (JsonObject double).

(** Induction that reaches the members. *)
Lemma JsonValue_members_ind (P : JsonValue → Prop) :
  (∀ a m, Forall (λ kv, P kv.2) m → P (T_OBJ a m)) →
  (∀ v, (∀ a m, v ≠ T_OBJ a m) → P v) → ∀ v, P v.
Proof.
  intros Hobj Hother. fix IH 1. intros v.
  destruct v as [|b|z|z|z|z|z|z|z|z|d|s|a m|]; try (apply Hother; done).
  apply Hobj. induction m as [|[k v] m IHm]; [constructor|]. constructor; [apply IH|exact IHm].
Qed.

Fixpoint sorted_keys (m : list (list Z * JsonValue)) : bool :=
  match m with
  | [] => true
  | (k, _) :: m => forallb (λ kv, key_lt k kv.1) m && sorted_keys m
  end.

(** A key without quote or backslash (keys are not escaped). *)
Definition plain_key (k : list Z) : bool := forallb (λ c, negb (c =? 34) && negb (c =? 92)) k.

(** The keys of an array of at most ten elements. *)
Definition array_keys (m : list (list Z * JsonValue)) : bool :=
  bool_decide (length m <= 10)%nat
  && bool_decide (m.*1 = (λ i, common_to_string (Z.of_nat i)) <$> seq 0 (length m)).

(** Booleans, non-negative integers, strings without a backslash; objects with
    plain keys; arrays of at most ten elements. *)
Fixpoint plain (v : JsonValue) : bool :=
  match v with
  | T_BOOL _ => true
  | T_INT64 z => (0 <=? z) && (z <? 2 ^ 63)
  | T_STRING s => forallb (λ c, negb (c =? 92)) s
  | T_OBJ is_array m =>
      (if is_array then array_keys m else forallb (λ kv, plain_key kv.1) m && sorted_keys m)
      && (fix all (m : list (list Z * JsonValue)) : bool :=
            match m with [] => true | (_, v) :: m => plain v && all m end) m
  | _ => false
  end.

(** The text of such a value. *)
Fixpoint text (v : JsonValue) : list Z :=
  match v with
  | T_BOOL b => common_to_string_bool b
  | T_INT64 z => common_to_string z
  | T_STRING s => [34] ++ (s ≫= esc) ++ [34]
  | T_OBJ is_array m =>
      (if is_array then [91] else [123])
      ++ (fix members (first : bool) (m : list (list Z * JsonValue)) : list Z :=
            match m with
            | [] => []
            | (k, v) :: m =>
                (if first then [] else [44])
                ++ (if is_array then [] else [34] ++ k ++ [34] ++ [58]) ++ text v
                ++ members false m
            end) true m
      ++ (if is_array then [93] else [125])
  | _ => []
  end.

Fixpoint members_text (is_array first : bool) (m : list (list Z * JsonValue)) : list Z :=
  match m with
  | [] => []
  | (k, v) :: m =>
      (if first then [] else [44])
      ++ (if is_array then [] else [34] ++ k ++ [34] ++ [58]) ++ text v
      ++ members_text is_array false m
  end.

Lemma text_obj a m :
  text (T_OBJ a m) = (if a then [91] else [123]) ++ members_text a true m
                     ++ (if a then [93] else [125]).
Proof.
  cbn [text]. f_equal. f_equal. generalize true.
  induction m as [|[k v] m IH]; intros first; [done|]. cbn [members_text]. by rewrite IH.
Qed.

Lemma plain_obj a m :
  plain (T_OBJ a m) = true →
  (if a then array_keys m else forallb (λ kv, plain_key kv.1) m && sorted_keys m) = true
  ∧ Forall (λ kv, plain kv.2 = true) m.
Proof.
  cbn [plain]. intros [H1 H2]%andb_prop. split; [done|]. clear H1.
  induction m as [|[k v] m IH]; [constructor|]. apply andb_prop in H2 as [Hv Hm].
  constructor; [done|by apply IH].
Qed.

(** Writing any value ends, with a text or with [false]. *)
Lemma write_value_total print_double (v : JsonValue) :
  ∃ r, write_value print_double v = Ok r.
Proof.
  induction v as [a m IH|v Hv] using JsonValue_members_ind.
  - cbn [write_value]. match goal with |- context [?g true m _] => set (f := g) end.
    assert (H : ∀ first ss, ∃ r, f first m ss = Ok r).
    { induction IH as [|[k v] m [r Hr] _ IH']; intros first ss; [by eexists|].
      cbn [snd] in Hr. cbn [f]. fold f. rewrite Hr. step_bind. destruct r as [[t|] v']; [|by eexists].
      match goal with |- context [f false m ?x] => destruct (IH' false x) as [[o m'] Hm] end.
      rewrite Hm. step_bind. by eexists. }
    destruct (H true (if a then [91] else [123])) as [[o m'] ->]. step_bind. by eexists.
  - destruct v; try (by eexists).
    + cbn [write_value]. rewrite escape_string_spec. step_bind. by eexists.
    + by destruct (Hv is_array members).
Qed.

(** ** Writing gives the text *)

Lemma write_text print_double v :
  plain v = true → ∃ v', write_value print_double v = Ok (Some (text v), v').
Proof.
  induction v as [a m IH|v Hv] using JsonValue_members_ind; intros Hp.
  2:{ destruct v; try done; [by eexists..| |by destruct (Hv is_array members)].
      cbn [write_value]. rewrite escape_string_spec. step_bind. by eexists. }
  destruct (plain_obj a m Hp) as [_ Hm]. rewrite text_obj. cbn [write_value].
  set (wm := fix write_members (first : bool) (m : list (list Z * JsonValue)) (ss : list Z) :=
    match m with
    | [] => Ok (Some ss, [])
    | (k, v) :: m =>
        r ← write_value print_double v;
        let '(t, v) := r in
        match t with
        | None => Ok (None, (k, v) :: m)
        | Some t =>
            r ← write_members false m
                  ((if a then if first then ss else ss ++ [44]
                    else (if first then ss else ss ++ [44]) ++ [34] ++ k ++ [34] ++ [58]) ++ t);
            let '(o, m) := r in Ok (o, (k, v) :: m)
        end
    end).
  assert (Hwm : ∀ first ss, ∃ m', wm first m ss = Ok (Some (ss ++ members_text a first m), m')).
  { clear Hp. induction m as [|[k v] m IHm]; intros first ss.
    - eexists. cbn. by rewrite app_nil_r.
    - inversion IH as [|? ? Hv IH']; subst. inversion Hm as [|? ? Hpv Hm']; subst.
      cbn [snd] in *. destruct (Hv Hpv) as [v' Ev]. cbn [wm]. fold wm. rewrite Ev. step_bind.
      match goal with |- context [wm false m ?s] => destruct (IHm IH' Hm' false s) as [m' Em] end.
      rewrite Em. step_bind. eexists. do 3 f_equal. cbn [members_text].
      destruct a, first; cbn [app]; rewrite <- ?app_assoc; cbn [app];
        try done; by rewrite <- app_assoc. }
  destruct (Hwm true (if a then [91] else [123])) as [m' Em].
  match goal with |- context [?f true m (if a then [91] else [123])] => change f with wm end.
  rewrite Em. step_bind. eexists. do 3 f_equal. by rewrite <- app_assoc.
Qed.

(** ** Reading the text *)

Context (string_to_double : list Z → double).

(** What follows a value. *)
Definition tail_ok (t : list Z) : Prop :=
  match t with [] => True | c :: _ => c = 44 ∨ c = 93 ∨ c = 125 end.

(** The text of a value begins with one of these. *)
Definition value_head (c : Z) : Prop :=
  c = 34 ∨ is_digit c ∨ c = 116 ∨ c = 102 ∨ c = 91 ∨ c = 123.

Lemma text_head v : plain v = true → ∃ c t, text v = c :: t ∧ value_head c.
Proof.
  unfold value_head. destruct v as [|b|z|z|z|z|z|z|z|z|d|s|a m|]; try done; intros Hp.
  - destruct b; do 2 eexists; (split; [reflexivity|tauto]).
  - cbn [plain] in Hp. apply andb_prop in Hp as [Hz _]. apply Z.leb_le in Hz.
    destruct (common_to_string_nonneg z Hz) as (Hne & Hd & _). cbn [text].
    destruct (common_to_string z) as [|c t]; [done|]. inversion Hd; subst.
    do 2 eexists; split; [done|tauto].
  - do 2 eexists; split; [reflexivity|tauto].
  - rewrite text_obj. destruct a; do 2 eexists; (split; [reflexivity|tauto]).
Qed.

Lemma head_not_space c t : value_head c → read_whitespace (c :: t) = c :: t.
Proof.
  unfold value_head, is_digit. intros Hc. cbn [read_whitespace].
  by rewrite !(proj2 (Z.eqb_neq c _)) by lia.
Qed.

Lemma text_no_space v t : plain v = true → read_whitespace (text v ++ t) = text v ++ t.
Proof.
  intros Hp. destruct (text_head v Hp) as (c & t' & -> & Hc). cbn [app]. by apply head_not_space.
Qed.

Lemma tail_no_space t : tail_ok t → read_whitespace t = t.
Proof.
  destruct t as [|c t]; [done|]. cbn [tail_ok read_whitespace]. intros Hc.
  by rewrite !(proj2 (Z.eqb_neq c _)) by lia.
Qed.

(** Quoted texts: escaped strings, and plain keys as they are. *)
Lemma read_quoted s body tail :
  (∀ rest, scan_string 34 (body ++ 34 :: rest) [] = Some (body, rest)) →
  unescape_string body = Ok s →
  read_string (double := double) ([34] ++ body ++ [34] ++ tail) = Ok (Some (T_STRING s, tail)).
Proof.
  intros Hscan Hun. unfold read_string. cbn [app].
  rewrite (proj2 (Z.ltb_ge _ _)) by (rewrite zlen_cons, zlen_app, zlen_cons; len).
  change (34 =? 34) with true. cbn [negb]. rewrite Hscan. by step Hun.
Qed.

Lemma scan_plain k prev rest acc :
  plain_key k = true → prev ≠ 92 →
  scan_string prev (k ++ 34 :: rest) acc = Some (acc ++ k, rest).
Proof.
  revert prev acc. induction k as [|c k IH]; intros prev acc Hk Hp; cbn [app scan_string].
  - change (34 =? 34) with true. rewrite (proj2 (Z.eqb_neq prev 92)) by done. by rewrite app_nil_r.
  - apply andb_prop in Hk as [[H1 H2]%andb_prop Hk].
    apply negb_true_iff in H1. rewrite H1. cbn [andb].
    apply negb_true_iff, Z.eqb_neq in H2. rewrite IH by done. by rewrite <- app_assoc.
Qed.

Lemma forallb_no_backslash s : forallb (λ c, negb (c =? 92)) s = true → 92 ∉ s.
Proof.
  rewrite forallb_forall. intros H Hin%list_elem_of_In. specialize (H _ Hin). done.
Qed.

Lemma read_string_value s tail :
  92 ∉ s → read_string (double := double) ([34] ++ ((s ≫= esc) ++ [34] ++ tail))
           = Ok (Some (T_STRING s, tail)).
Proof.
  intros Hs. apply (read_quoted s (s ≫= esc)); [|by apply unescape_escaped].
  intros rest. by rewrite scan_escaped.
Qed.

Lemma read_string_key k tail :
  plain_key k = true → read_string (double := double) ([34] ++ k ++ [34] ++ tail)
                       = Ok (Some (T_STRING k, tail)).
Proof.
  intros Hk. apply (read_quoted k k).
  - intros rest. by rewrite scan_plain.
  - apply unescape_no_backslash. intros Hin%list_elem_of_In.
    unfold plain_key in Hk. rewrite forallb_forall in Hk. specialize (Hk _ Hin).
    apply andb_prop in Hk as [_ Hk]. done.
Qed.

Lemma scan_digits ds acc tail :
  Forall is_digit ds → tail_ok tail → scan_number (ds ++ tail) acc false = (acc ++ ds, (false, tail)).
Proof.
  intros Hd Ht. revert acc. induction Hd as [|c ds Hc Hd IH]; intros acc; cbn [app].
  - rewrite app_nil_r. destruct tail as [|c tail]; [done|]. cbn [scan_number tail_ok] in *.
    rewrite (proj2 (Z.eqb_neq c 46)) by lia.
    assert ((c <? 48) || (57 <? c) = true) as ->; [|done].
    destruct Ht as [->|[->| ->]]; done.
  - cbn [scan_number]. unfold is_digit in Hc.
    rewrite (proj2 (Z.ltb_ge c 48)), (proj2 (Z.ltb_ge 57 c)) by lia. cbn [orb].
    rewrite IH. by rewrite <- app_assoc.
Qed.

Lemma read_number_value z tail :
  0 <= z < 2 ^ 63 → tail_ok tail →
  read_number string_to_double (common_to_string z ++ tail) = Some (T_INT64 z, tail).
Proof.
  intros Hz Ht. destruct (common_to_string_nonneg z) as (Hne & Hd & Hr); [lia|].
  unfold read_number. rewrite scan_digits by done. cbn [app].
  unfold string_to_long. rewrite strtol_digits, Hr by done.
  destruct (common_to_string z); [done|]. do 3 f_equal. lia.
Qed.

(** *** Keys in order *)

Lemma key_lt_irrefl k : key_lt k k = false.
Proof. induction k as [|c k IH]; [done|]. cbn. by rewrite Z.ltb_irrefl, Z.eqb_refl, IH. Qed.

Lemma key_lt_asym a b : key_lt a b = true → key_lt b a = false.
Proof.
  revert b. induction a as [|x a IH]; intros [|y b]; try done. cbn [key_lt].
  destruct (Z.ltb_spec x y), (Z.ltb_spec y x), (Z.eqb_spec x y), (Z.eqb_spec y x);
    try lia; cbn; auto.
Qed.

Lemma map_insert_last (m : list (list Z * JsonValue)) k v :
  Forall (λ kv, key_lt kv.1 k = true) m → map_insert m k v = m ++ [(k, v)].
Proof.
  induction 1 as [|[k' v'] m Hk _ IH]; [done|]. cbn [map_insert fst] in *.
  rewrite bool_decide_eq_false_2 by (intros ->; by rewrite key_lt_irrefl in Hk).
  rewrite key_lt_asym by done. by rewrite IH.
Qed.

Lemma index_keys_sorted i j : (i < j)%nat → (j <= 9)%nat →
  key_lt (common_to_string (Z.of_nat i)) (common_to_string (Z.of_nat j)) = true.
Proof.
  intros Hij Hj. assert (H : ∀ y, 0 <= y < 10 → ∀ x, 0 <= x < y →
    key_lt (common_to_string x) (common_to_string y) = true) by by_table.
  apply H; lia.
Qed.

(** *** The loops *)

Notation read_value := (read_json_key_value string_to_double).

Lemma read_value_S fuel rest :
  read_value (S fuel) rest
  = read_value_body string_to_double (read_object_loop string_to_double fuel)
      (read_array_loop string_to_double fuel) rest.
Proof. done. Qed.

Lemma read_object_loop_S fuel rest this :
  read_object_loop string_to_double (S fuel) rest this
  = object_loop_body (read_value fuel) (read_object_loop string_to_double fuel) rest this.
Proof. done. Qed.

Lemma read_array_loop_S fuel rest this :
  read_array_loop string_to_double (S fuel) rest this
  = array_loop_body (read_value fuel) (read_array_loop string_to_double fuel) rest this.
Proof. done. Qed.

Definition reads_back (v : JsonValue) : Prop :=
  ∀ fuel tail, plain v = true → tail_ok tail → (2 * length (text v) + 1 <= fuel)%nat →
    read_value fuel (text v ++ tail) = Ok (Some (v, tail)).

Lemma members_text_next a m :
  m ≠ [] → members_text a false m = 44 :: members_text a true m.
Proof. by destruct m as [|[k v] m]. Qed.

Lemma members_tail a m (close : Z) tail :
  close = 93 ∨ close = 125 → tail_ok (members_text a false m ++ close :: tail).
Proof. intros H. destruct m as [|[k v] m]; [destruct H as [->| ->]; cbn; auto|by left]. Qed.

(** The delimiter behind a value, and what follows it. *)
Lemma delimiter_next a m (close : Z) tail :
  close = 93 ∨ close = 125 → tail_ok tail →
  (a = true → Forall (λ kv, plain kv.2 = true) m) →
  read_delimiter (members_text a false m ++ close :: tail)
  = match m with
    | [] => Some (close, tail)
    | _ => Some (44, members_text a true m ++ close :: tail)
    end.
Proof.
  intros Hc Ht Hp. destruct m as [|[k v] m].
  - cbn [members_text app]. unfold read_delimiter. cbn [read_whitespace].
    rewrite !(proj2 (Z.eqb_neq close _)) by lia. cbn [orb]. by rewrite tail_no_space.
  - rewrite members_text_next by done. unfold read_delimiter. cbn [app read_whitespace].
    cbn [Z.eqb Pos.eqb orb]. do 2 f_equal. destruct a.
    + cbn [members_text app]. specialize (Hp eq_refl). inversion Hp; subst. rewrite <- app_assoc.
      by apply text_no_space.
    + cbn [members_text app]. apply head_not_space. by left.
Qed.

Lemma match_nonempty {A B} (l : list A) (x y : B) :
  l ≠ [] → match l with [] => x | _ => y end = y.
Proof. by destruct l. Qed.

Lemma read_key fuel k tail :
  plain_key k = true → (0 < fuel)%nat →
  read_value fuel ([34] ++ k ++ [34] ++ tail) = Ok (Some (T_STRING k, tail)).
Proof.
  intros Hk Hf. destruct fuel as [|fuel]; [lia|]. rewrite read_value_S. unfold read_value_body. rewrite (proj2 (Z.leb_gt _ _)) by len.
  cbn [app]. rewrite (head_not_space 34) by (by left). change (34 =? 34) with true. cbv iota.
  by apply read_string_key.
Qed.

Lemma colon_next v t : plain v = true → read_delimiter (58 :: text v ++ t) = Some (58, text v ++ t).
Proof.
  intros Hp. unfold read_delimiter. cbn [read_whitespace Z.eqb Pos.eqb orb].
  by rewrite text_no_space.
Qed.

Lemma read_object_members m : ∀ fuel m0 tail,
  Forall (λ kv, reads_back kv.2) m → Forall (λ kv, plain kv.2 = true) m →
  forallb (λ kv, plain_key kv.1) m = true → sorted_keys m = true →
  Forall (λ kv, Forall (λ kv0, key_lt kv0.1 kv.1 = true) m0) m → tail_ok tail →
  (2 * length (members_text false true m) + 4 <= fuel)%nat →
  read_object_loop string_to_double fuel (members_text false true m ++ 125 :: tail)
    (mkJsonObject false m0)
  = Ok (true, (mkJsonObject false (m0 ++ m), tail)).
Proof.
  induction m as [|[k v] m IH]; intros fuel m0 tail Hr Hp Hk Hs Hlt Ht Hf.
  - destruct fuel as [|fuel]; [lia|]. cbn. by rewrite app_nil_r.
  - inversion Hr as [|? ? Hrv Hrm]; subst. inversion Hp as [|? ? Hpv Hpm]; subst.
    inversion Hlt as [|? ? Hkv Hltm]; subst. cbn [fst snd] in *.
    apply andb_prop in Hk as [Hkk Hkm]. apply andb_prop in Hs as [Hks Hsm].
    cbn [members_text] in *. rewrite !length_app in Hf. cbn [length] in Hf.
    destruct fuel as [|fuel]; [lia|].
    replace (([] ++ ([34] ++ k ++ [34] ++ [58]) ++ text v ++ members_text false false m) ++ 125 :: tail)
      with ([34] ++ k ++ [34] ++ 58 :: text v ++ members_text false false m ++ 125 :: tail)
      by (cbn [app]; rewrite <- !app_assoc; reflexivity).
    rewrite read_object_loop_S. unfold object_loop_body. cbn [app]. cbn [Z.eqb Pos.eqb].
    change (34 :: k ++ 34 :: ?t) with ([34] ++ k ++ [34] ++ t).
    rewrite read_key by (done || lia). step_bind. rewrite colon_next by done. cbn [Z.eqb Pos.eqb negb].
    rewrite (Hrv fuel _ Hpv) by (lia || (apply members_tail; by right)). step_bind.
    rewrite delimiter_next by (auto || done).
    unfold assign_key. cbn [m_is_array m_members]. rewrite map_insert_last by done.
    assert (Hcase : m = [] ∨ m ≠ []) by (destruct m; [by left|by right]).
    destruct Hcase as [->|Em]; [done|].
    rewrite (match_nonempty m) by done. cbn [Z.eqb Pos.eqb].
    rewrite (members_text_next false m) in Hf by done. cbn [length] in Hf.
    rewrite IH; [by rewrite <- app_assoc|done..| |done|lia].
    rewrite Forall_forall in Hltm |- *. intros kv' Hin. apply Forall_app; split; [by apply Hltm|].
    constructor; [|done]. rewrite forallb_forall in Hks. apply Hks. by apply list_elem_of_In.
Qed.

Lemma read_array_members m : ∀ fuel m0 tail,
  Forall (λ kv, reads_back kv.2) m → Forall (λ kv, plain kv.2 = true) m →
  array_keys (m0 ++ m) = true → tail_ok tail →
  (2 * length (members_text true true m) + 4 <= fuel)%nat →
  read_array_loop string_to_double fuel (members_text true true m ++ 93 :: tail)
    (mkJsonObject true m0)
  = Ok (true, (mkJsonObject true (m0 ++ m), tail)).
Proof.
  induction m as [|[k v] m IH]; intros fuel m0 tail Hr Hp Hk Ht Hf.
  - destruct fuel as [|fuel]; [lia|]. cbn. by rewrite app_nil_r.
  - inversion Hr as [|? ? Hrv Hrm]; subst. inversion Hp as [|? ? Hpv Hpm]; subst. cbn [fst snd] in *.
    cbn [members_text app] in *. rewrite !length_app in Hf. destruct fuel as [|fuel]; [lia|].
    assert (Ekeys : ∀ i kv, (m0 ++ (k, v) :: m) !! i = Some kv →
              kv.1 = common_to_string (Z.of_nat i)).
    { intros i kv Hi. unfold array_keys in Hk. apply andb_prop in Hk as [_ Hk%bool_decide_eq_true_1].
      assert (Hl : (m0 ++ (k, v) :: m).*1 !! i = Some kv.1) by (by rewrite list_lookup_fmap, Hi).
      rewrite Hk, list_lookup_fmap in Hl.
      destruct (seq 0 _ !! i) eqn:Es; [|done]. apply lookup_seq in Es as [-> _].
      cbn in Hl. by injection Hl. }
    assert (Hlen : (length (m0 ++ (k, v) :: m) <= 10)%nat).
    { unfold array_keys in Hk. by apply andb_prop in Hk as [Hk%bool_decide_eq_true_1 _]. }
    rewrite length_app in Hlen. cbn [length] in Hlen.
    assert (Ek : k = common_to_string (zlen m0)).
    { by apply (Ekeys (length m0) (k, v)), list_lookup_middle. }
    rewrite <- app_assoc. destruct (text_head v Hpv) as (c & t & Et & Hc).
    rewrite read_array_loop_S. unfold array_loop_body. rewrite Et at 1. cbn [app].
    assert (c ≠ 93) by (unfold value_head, is_digit in Hc; lia).
    rewrite (proj2 (Z.eqb_neq c 93)) by done.
    rewrite (Hrv fuel _ Hpv) by (lia || (apply members_tail; by left)). step_bind.
    rewrite delimiter_next by auto.
    unfold push, assign_key. cbn [m_is_array m_members negb]. rewrite <- Ek, map_insert_last.
    2:{ apply Forall_lookup. intros i kv Hi. rewrite (Ekeys i kv), Ek by (by apply lookup_app_l_Some).
        apply lookup_lt_Some in Hi. apply index_keys_sorted; lia. }
    assert (Hcase : m = [] ∨ m ≠ []) by (destruct m; [by left|by right]).
    destruct Hcase as [->|Em]; [done|].
    rewrite (match_nonempty m) by done. cbn [Z.eqb Pos.eqb].
    rewrite (members_text_next true m) in Hf by done. cbn [length] in Hf.
    replace (m0 ++ (k, v) :: m) with ((m0 ++ [(k, v)]) ++ m) in * by (by rewrite <- app_assoc).
    by rewrite IH by (done || lia).
Qed.

(** A plain value is read back from its text. *)
Lemma reads_back_plain v : reads_back v.
Proof.
  induction v as [a m IH|v Hv] using JsonValue_members_ind; intros fuel tail Hp Ht Hf.
  - destruct (plain_obj a m Hp) as [Hkeys Hm]. rewrite text_obj in *.
    rewrite !length_app in Hf. destruct fuel as [|fuel]; [destruct a; cbn in Hf; lia|].
    rewrite read_value_S. unfold read_value_body.
    rewrite (proj2 (Z.leb_gt _ _)) by (destruct a; len).
    destruct a; cbn [app length] in *; (rewrite head_not_space by (unfold value_head; tauto));
      cbn [Z.eqb Pos.eqb orb andb Z.leb Z.compare Pos.compare Pos.compare_cont].
    + rewrite (proj2 (Z.ltb_ge _ _)) by len. cbn [drop]. rewrite drop_0, <- app_assoc. cbn [app].
      rewrite read_array_members by (done || lia). done.
    + rewrite (proj2 (Z.ltb_ge _ _)) by len. cbn [drop]. rewrite drop_0, <- app_assoc. cbn [app].
      apply andb_prop in Hkeys as [Hk Hs]. unfold new_object.
      rewrite read_object_members; [done|done|done|done|done| |done|lia].
      apply Forall_forall. intros. constructor.
  - destruct fuel as [|fuel]; [lia|]. destruct (text_head v Hp) as (c & t & Et & Hc).
    rewrite read_value_S. unfold read_value_body. rewrite text_no_space by done.
    rewrite (proj2 (Z.leb_gt _ _)) by (rewrite Et; cbn [app]; len).
    destruct v as [|b|z|z|z|z|z|z|z|z|d|s|a m|]; try done.
    + destruct b; cbn [text common_to_string_bool]; unfold read_bool;
        change (bytes_of "true") with [116; 114; 117; 101];
        change (bytes_of "false") with [102; 97; 108; 115; 101];
        cbn [app]; cbn [Z.eqb Pos.eqb orb andb Z.leb Z.compare Pos.compare Pos.compare_cont];
        (rewrite (proj2 (Z.ltb_ge _ _)) by len); done.
    + cbn [plain] in Hp. apply andb_prop in Hp as [H0 H1]. apply Z.leb_le in H0. apply Z.ltb_lt in H1.
      cbn [text] in *. destruct (common_to_string_nonneg z H0) as (_ & Hd & _).
      rewrite <- (read_number_value z tail) by (done || lia). rewrite Et in *. cbn [app].
      inversion Hd as [|? ? Hdc _]; subst. unfold is_digit in Hdc.
      rewrite (proj2 (Z.eqb_neq c 34)) by lia.
      by rewrite (proj2 (Z.leb_le 48 c)), (proj2 (Z.leb_le c 57)), orb_true_r by lia.
    + cbn [plain] in Hp. apply forallb_no_backslash in Hp. cbn [text] in *.
      rewrite <- app_assoc. cbn [app Z.eqb Pos.eqb]. rewrite <- app_assoc.
      by apply read_string_value.
    + by destruct (Hv a m).
Qed.

Lemma json_roundtrip_spec print_double (o : JsonObject) :
  plain (T_OBJ (m_is_array o) (m_members o)) = true →
  ∃ s o', write_to_string print_double o = Ok (Some s, o')
    ∧ read_from_string string_to_double new_object s = Ok (true, o).
Proof.
  destruct o as [a m]. cbn [m_is_array m_members]. intros Hp.
  destruct (write_text print_double _ Hp) as [v' Ew]. unfold write_to_string.
  cbn [m_is_array m_members]. rewrite Ew. step_bind. do 2 eexists. split; [done|].
  destruct (plain_obj a m Hp) as [Hkeys Hm].
  assert (Hr : Forall (λ kv, reads_back kv.2) m)
    by (apply Forall_forall; intros; apply reads_back_plain).
  rewrite text_obj. unfold read_from_string. rewrite (proj2 (Z.eqb_neq _ 0)) by (destruct a; len).
  destruct a; cbn [app]; (rewrite head_not_space by (unfold value_head; tauto));
    cbn [Z.eqb Pos.eqb]; (rewrite (proj2 (Z.ltb_ge _ _)) by len).
  - cbn [new_object m_members]. rewrite read_array_members; [done|done|done|done|done|].
    unfold json_fuel. rewrite length_app. cbn. lia.
  - apply andb_prop in Hkeys as [Hk Hs]. unfold new_object.
    rewrite read_object_members; [done|done|done|done|done| |done|].
    + apply Forall_forall. intros. constructor.
    + unfold json_fuel. rewrite length_app. cbn. lia.
Qed.

(** C24: The text of an object of plain values is read back as the object. *)
Theorem json_roundtrip print_double (o : JsonObject) :
  plain (T_OBJ (m_is_array o) (m_members o)) = true →
  ∃ s o', write_to_string print_double o = Ok (Some s, o')
    ∧ read_from_string string_to_double new_object s = Ok (true, o).
Proof. by apply json_roundtrip_spec. Qed.
End roundtrip.

Lemma escape_roundtrip_witness :
  92 ∉ bytes_of "a/b" ∧ (e ← escape_string (bytes_of "a/b"); unescape_string e) = Ok (bytes_of "a/b").
Proof.
  assert (H : 92 ∉ bytes_of "a/b") by by_table.
  split; [exact H|exact (proj1 (escape_roundtrip (bytes_of "a/b")) H)].
Defined.

(** A request: [{"cmd":1,"users":["a"],"data":{"on":true}}]. *)
Definition sample : JsonObject unit :=
  {| m_is_array := false;
     m_members := [(bytes_of "cmd", T_INT64 1);
                   (bytes_of "data", T_OBJ false [(bytes_of "on", T_BOOL true)]);
                   (bytes_of "users", T_OBJ true [(bytes_of "0", T_STRING (bytes_of "a"))])] |}.

Lemma json_roundtrip_witness :
  plain (T_OBJ (m_is_array sample) (m_members sample)) = true
  ∧ ∃ s o', write_to_string (λ _, []) sample = Ok (Some s, o')
      ∧ read_from_string (λ _, tt) new_object s = Ok (true, sample).
Proof.
  assert (H : plain (T_OBJ (m_is_array sample) (m_members sample)) = true) by by_table.
  split; [exact H|exact (json_roundtrip (λ _, tt) (λ _, []) sample H)].
Defined.

(** ** Termination *)

Section total.
Context {double : Type} (string_to_double : list Z → double).
Notation JsonValue := (JsonValue double).
Notation JsonObject := (JsonObject double).

Lemma read_whitespace_le s : (length (read_whitespace s) <= length s)%nat.
Proof. induction s as [|c s IH]; cbn; [lia|]. case_match; cbn; lia. Qed.

Lemma read_delimiter_lt s c s' : read_delimiter s = Some (c, s') → (length s' < length s)%nat.
Proof.
  unfold read_delimiter. pose proof (read_whitespace_le s) as H.
  destruct (read_whitespace s) as [|c' t]; [done|]. intros [= _ <-].
  pose proof (read_whitespace_le t). cbn in H. lia.
Qed.

Lemma scan_string_lt prev s acc value s' :
  scan_string prev s acc = Some (value, s') → (length s' < length s)%nat.
Proof.
  revert prev acc. induction s as [|c s IH]; intros prev acc; cbn; [done|].
  case_match; [intros [= _ <-]; lia|]. intros Hl%IH. lia.
Qed.

Lemma replace_all_total l s :
  Forall (λ p, p.1 ≠ []) l → ∃ s', replace_all l s = Ok s'.
Proof.
  intros H. revert s. induction H as [|[a b] l Ha _ IH]; intros s; cbn [replace_all]; [eauto|].
  rewrite string_replace_spec by done. step_bind. apply IH.
Qed.

(** What reading a value from [s] gives: a result, and if it is a value less text. *)
Definition value_read (s : list Z) (m : outcome (option (JsonValue * list Z))) : Prop :=
  ∃ r, m = Ok r ∧ ∀ v s', r = Some (v, s') → (length s' < length s)%nat.

Definition members_read (s : list Z) (m : outcome (bool * (JsonObject * list Z))) : Prop :=
  ∃ ret o s', m = Ok (ret, (o, s')) ∧ (length s' <= length s)%nat.

Lemma value_read_le s0 s m : value_read s m → (length s <= length s0)%nat → value_read s0 m.
Proof. intros (r & -> & H) ?. exists r. split; [done|]. intros v s' E. specialize (H v s' E). lia. Qed.

Lemma read_string_total s : value_read s (read_string s).
Proof.
  unfold read_string. case_match; [by exists None|]. destruct s as [|c s]; [by exists None|].
  case_match; [by exists None|]. destruct (scan_string c s []) as [[value s']|] eqn:E; [|by exists None].
  apply scan_string_lt in E. destruct (replace_all_total
    [([92; 47], [47]); ([92; 34], [34]); ([92; 98], [8]); ([92; 102], [12]);
     ([92; 110], [10]); ([92; 114], [13]); ([92; 116], [9]); ([92; 92], [92])] value) as [w Hw].
  { by repeat constructor. }
  unfold unescape_string. rewrite Hw. step_bind. eexists. split; [done|].
  intros v s0 [= _ <-]. cbn. lia.
Qed.

Lemma scan_number_le s acc fl digits fl' s' :
  scan_number s acc fl = (digits, (fl', s')) →
  (length s' + length digits = length s + length acc)%nat.
Proof.
  revert acc fl. induction s as [|c s IH]; intros acc fl; cbn.
  { intros [= <- _ <-]. cbn. lia. }
  repeat case_match; try (intros Hl%IH; rewrite length_app in Hl; cbn in Hl; lia).
  intros [= <- _ <-]. cbn. lia.
Qed.

Lemma read_number_total s : value_read s (Ok (read_number string_to_double s)).
Proof.
  eexists. split; [done|]. intros v s'. unfold read_number.
  destruct (scan_number s [] false) as [digits [fl s1]] eqn:E. apply scan_number_le in E.
  destruct digits; [done|]. intros [= _ <-]. cbn in E. lia.
Qed.

Lemma read_bool_total s wanted : wanted ≠ [] → value_read s (Ok (read_bool s wanted)).
Proof.
  intros Hw. eexists. split; [done|]. intros v s'. unfold read_bool.
  destruct (Z.ltb_spec (zlen s) (zlen wanted)) as [|Hl]; [done|].
  case_bool_decide; [|done]. intros [= _ <-]. rewrite length_drop. unfold zlen in Hl.
  destruct wanted; [done|]. cbn in *. lia.
Qed.

Lemma read_null_total s : value_read s (Ok (read_null s)).
Proof.
  eexists. split; [done|]. intros v s'. unfold read_null.
  destruct (Z.ltb_spec (zlen s) 4) as [|Hl]; [done|].
  case_bool_decide; [|done]. intros [= _ <-]. rewrite length_drop. unfold zlen in Hl. lia.
Qed.

(** A nested object or array is read by its loop. *)
Lemma nested_read c s (o0 : JsonObject) m :
  members_read s m →
  value_read (c :: s)
    (r ← (if zlen (c :: s) <? 2 then Ok (false, (o0, c :: s)) else m);
     let '(ret, (obj, rest)) := r in
     Ok (if (ret : bool) then Some (T_OBJ (m_is_array obj) (m_members obj), rest) else None)).
Proof.
  intros (ret & o & s' & -> & Hl). case_match; step_bind; [by exists None|].
  eexists. split; [done|]. intros v s0. destruct ret; [|done]. intros [= _ <-]. cbn. lia.
Qed.

Lemma read_value_body_total ro ra s :
  (∀ s' o, (length s' < length s)%nat → members_read s' (ro s' o)) →
  (∀ s' o, (length s' < length s)%nat → members_read s' (ra s' o)) →
  value_read s (read_value_body string_to_double ro ra s).
Proof.
  intros Ho Ha. unfold read_value_body. case_match; [by exists None|].
  pose proof (read_whitespace_le s) as Hw.
  destruct (read_whitespace s) as [|c t] eqn:Es; [by exists None|].
  apply (value_read_le s (c :: t)); [|done]. cbn in Hw.
  cbn [drop]. rewrite drop_0.
  destruct (c =? 34); [apply read_string_total|].
  destruct ((c =? 45) || _); [apply read_number_total|].
  destruct (c =? 123); [apply nested_read, Ho; lia|].
  destruct (c =? 91); [apply nested_read, Ha; lia|].
  destruct ((c =? 116) || _); [by apply read_bool_total|].
  destruct ((c =? 102) || _); [by apply read_bool_total|].
  destruct ((c =? 110) || _); [apply read_null_total|by exists None].
Qed.

Ltac members_stop := eexists _, _, _; split; [reflexivity|cbn; lia].

Lemma array_loop_body_total rv cont s o :
  value_read s (rv s) →
  (∀ s' o, (length s' < length s)%nat → members_read s' (cont s' o)) →
  members_read s (array_loop_body rv cont s o).
Proof.
  intros (r & Hr & Hlt) Hc. unfold array_loop_body. destruct s as [|c s]; [members_stop|].
  case_match; [members_stop|]. rewrite Hr. step_bind.
  destruct r as [[v s1]|]; [|members_stop]. specialize (Hlt v s1 eq_refl). cbn in Hlt.
  destruct (read_delimiter s1) as [[d s2]|] eqn:Ed; [|members_stop]. apply read_delimiter_lt in Ed.
  repeat case_match; try members_stop.
  destruct (Hc s2 (push o v)) as (ret & o' & s' & -> & Hs'); [cbn; lia|]. members_stop.
Qed.

Lemma object_loop_body_total rv cont s o :
  (∀ s', (length s' <= length s)%nat → value_read s' (rv s')) →
  (∀ s' o, (length s' < length s)%nat → members_read s' (cont s' o)) →
  members_read s (object_loop_body rv cont s o).
Proof.
  intros Hv Hc. unfold object_loop_body. destruct s as [|c s]; [members_stop|].
  case_match; [members_stop|]. destruct (Hv (c :: s)) as (r & -> & Hlt); [done|]. step_bind.
  destruct r as [[v s1]|]; [|members_stop]. specialize (Hlt v s1 eq_refl). cbn in Hlt.
  destruct v; try members_stop.
  destruct (read_delimiter s1) as [[d s2]|] eqn:Ed; [|members_stop]. apply read_delimiter_lt in Ed.
  case_match; [members_stop|]. destruct (Hv s2) as (r & -> & Hlt2); [cbn; lia|]. step_bind.
  destruct r as [[v s3]|]; [|members_stop]. specialize (Hlt2 v s3 eq_refl).
  destruct (read_delimiter s3) as [[d' s4]|] eqn:Ed'; [|members_stop]. apply read_delimiter_lt in Ed'.
  repeat case_match; try members_stop.
  destruct (Hc s4 (assign_key o str v)) as (ret & o' & s' & -> & Hs'); [cbn; lia|]. members_stop.
Qed.

Lemma loops_total fuel :
  (∀ s, (2 * length s + 1 <= fuel)%nat → value_read s (read_json_key_value string_to_double fuel s))
  ∧ (∀ s o, (2 * length s + 2 <= fuel)%nat → members_read s (read_object_loop string_to_double fuel s o))
  ∧ (∀ s o, (2 * length s + 2 <= fuel)%nat → members_read s (read_array_loop string_to_double fuel s o)).
Proof.
  induction fuel as [|fuel (IHv & IHo & IHa)]; [split_and!; intros; lia|]. split_and!.
  - intros s Hs. rewrite read_value_S. apply read_value_body_total; intros; [apply IHo|apply IHa]; lia.
  - intros s o Hs. rewrite read_object_loop_S.
    apply object_loop_body_total; intros; [apply IHv|apply IHo]; lia.
  - intros s o Hs. rewrite read_array_loop_S.
    apply array_loop_body_total; intros; [apply IHv|apply IHa]; lia.
Qed.

Lemma read_from_string_result (this : JsonObject) s :
  ∃ ret o, read_from_string string_to_double this s = Ok (ret, o).
Proof.
  unfold read_from_string. case_match; [eauto|].
  destruct (read_whitespace s) as [|c t]; [eauto|].
  destruct (loops_total (json_fuel t)) as (_ & Ho & Ha).
  repeat case_match; eauto.
  - destruct (Ho t this) as (ret & o & s' & -> & _); [done|]. cbn. eauto.
  - destruct (Ha t {| m_is_array := true; m_members := m_members this |})
      as (ret & o & s' & -> & _); [done|]. cbn. eauto.
Qed.

(** Reading any text ends, with a result: there is no text on which the reader
    loops or fails to answer. *)
Theorem read_from_string_total (this : JsonObject) s :
  ∃ ret o, read_from_string string_to_double this s = Ok (ret, o).
Proof. apply read_from_string_result. Qed.
End total.
