(* ===== verification/JsonHeap.v ===== *)
(** * JsonHeap: who owns the memory of a JSON value

    Models the constructors, the assignment, the destructor and [reset] of [JsonValue],
    and the copying of [JsonObject], of [src/common/common_json.h] and [.cpp], over a heap:
    a string or an object is behind a raw pointer of the [union].  [Json] has values as
    trees without addresses; here it is shown that they may be looked at so. *)

From S2P Require Import Prelude.
From S2P Require Import Json.

Section heap.
Context {double : Type}.
Notation JsonValue := (JsonValue double).

(** ** The heap *)

(** The tag and the [union]; the values without a pointer are those of [Json]. *)
Inductive hvalue : Type :=
| V_plain (v : JsonValue)
| V_str (str : Z)
| V_obj (object : Z).

Inductive cell : Type :=
| C_str (s : list Z)
| C_obj (is_array : bool) (members : list (list Z * hvalue)).

(** No address is given twice, so that what is freed stays free. *)
Record heap := mk_heap {
  cells : gmap Z cell;
  next : Z;
}.

Definition new_cell (c : cell) (h : heap) : Z * heap :=
  (next h, mk_heap (<[next h := c]> (cells h)) (next h + 1)).

Definition delete_cell (p : Z) (h : heap) : outcome heap :=
  match cells h !! p with
  | Some _ => Ok (mk_heap (delete p (cells h)) (next h))
  | None => Fault
  end.

(** ** Constructors *)

Definition undefined_value : hvalue := V_plain T_UNDEFINED.

Definition value_of_string (val : list Z) (h : heap) : hvalue * heap :=
  let '(p, h) := new_cell (C_str val) h in (V_str p, h).

(** The constructors from a [bool] and from numbers. *)
Definition value_of_scalar (val : JsonValue) : hvalue := V_plain val.

(** From a pointer and a length; a C string is its bytes without the zero. *)
Definition value_of_bytes (val : list Z) (len : Z) (h : heap) : outcome (hvalue * heap) :=
  s ← rd_range val 0 len; Ok (value_of_string s h).

(** [JsonObject(const JsonObject &)]: the copy of the [std::map]. *)
Fixpoint copy_members (copy : hvalue → heap → outcome (hvalue * heap))
    (ms : list (list Z * hvalue)) (h : heap) : outcome (list (list Z * hvalue) * heap) :=
  match ms with
  | [] => Ok ([], h)
  | (k, v) :: ms =>
      r ← copy v h;
      q ← copy_members copy ms r.2;
      Ok ((k, r.1) :: q.1, q.2)
  end.

(** [JsonValue(const JsonObject &)]. *)
Definition value_of_object (copy : hvalue → heap → outcome (hvalue * heap)) (is_array : bool)
    (ms : list (list Z * hvalue)) (h : heap) : outcome (hvalue * heap) :=
  r ← copy_members copy ms h;
  let '(p, h) := new_cell (C_obj is_array r.1) r.2 in Ok (V_obj p, h).

(** [JsonValue(const JsonValue &)]; the fuel is the depth of the value. *)
Fixpoint copy_value (fuel : nat) (rhs : hvalue) (h : heap) : outcome (hvalue * heap) :=
  match fuel with
  | O => Hang
  | S fuel =>
      match rhs with
      | V_plain v => Ok (V_plain v, h)
      | V_str p =>
          match cells h !! p with
          | Some (C_str s) => Ok (value_of_string s h)
          | _ => Fault
          end
      | V_obj p =>
          match cells h !! p with
          | Some (C_obj is_array ms) => value_of_object (copy_value fuel) is_array ms h
          | _ => Fault
          end
      end
  end.

(** ** [reset] and the destructor *)

Fixpoint reset_members (reset : hvalue → heap → outcome heap) (ms : list (list Z * hvalue)) (h : heap)
    : outcome heap :=
  match ms with
  | [] => Ok h
  | (_, v) :: ms => h ← reset v h; reset_members reset ms h
  end.

Fixpoint reset_value (fuel : nat) (v : hvalue) (h : heap) : outcome heap :=
  match fuel with
  | O => Hang
  | S fuel =>
      match v with
      | V_plain _ => Ok h
      | V_str p =>
          match cells h !! p with Some (C_str _) => delete_cell p h | _ => Fault end
      | V_obj p =>
          match cells h !! p with
          | Some (C_obj _ ms) => h ← reset_members (reset_value fuel) ms h; delete_cell p h
          | _ => Fault
          end
      end
  end.

(** ** Assignment *)

(** Where a [JsonValue] is: a variable, or a member of the object at an address. *)
Inductive place : Type :=
| Local (x : Z)
| Member (object : Z) (key : list Z).

#[global] Instance place_eq_dec : EqDecision place.
Proof. solve_decision. Defined.

Record store := mk_store {
  locals : gmap Z hvalue;
  memory : heap;
}.

Definition read_place (pl : place) (s : store) : outcome hvalue :=
  match pl with
  | Local x => match locals s !! x with Some v => Ok v | None => Fault end
  | Member p key =>
      match cells (memory s) !! p with
      | Some (C_obj _ ms) => match map_find ms key with Some v => Ok v | None => Fault end
      | _ => Fault
      end
  end.

Definition write_place (pl : place) (v : hvalue) (s : store) : outcome store :=
  match pl with
  | Local x => Ok (mk_store (<[x := v]> (locals s)) (memory s))
  | Member p key =>
      match cells (memory s) !! p with
      | Some (C_obj is_array ms) =>
          Ok (mk_store (locals s)
                (mk_heap (<[p := C_obj is_array (map_insert ms key v)]> (cells (memory s))) (next (memory s))))
      | _ => Fault
      end
  end.

(** [dst = src]. *)
Definition assign_value (fuel : nat) (dst src : place) (s : store) : outcome store :=
  if decide (dst = src) then Ok s else
  old ← read_place dst s;
  h ← reset_value fuel old (memory s);
  s ← write_place dst undefined_value (mk_store (locals s) h);
  rhs ← read_place src s;
  r ← copy_value fuel rhs (memory s);
  write_place dst r.1 (mk_store (locals s) r.2).

(** ** What a value on the heap stands for

    The tree, and the addresses it owns. *)
Definition pointer_free (v : JsonValue) : bool :=
  match v with T_STRING _ | T_OBJ _ _ => false | _ => true end.

Inductive rep (h : gmap Z cell) : hvalue → JsonValue → gset Z → Prop :=
| rep_plain v : pointer_free v = true → rep h (V_plain v) v ∅
| rep_str p s : h !! p = Some (C_str s) → rep h (V_str p) (T_STRING s) {[p]}
| rep_obj p is_array hs ms F :
    h !! p = Some (C_obj is_array hs) → reps h hs ms F → p ∉ F →
    rep h (V_obj p) (T_OBJ is_array ms) ({[p]} ∪ F)
with reps (h : gmap Z cell) : list (list Z * hvalue) → list (list Z * JsonValue) → gset Z → Prop :=
| reps_nil : reps h [] [] ∅
| reps_cons k v w F hs ms G :
    rep h v w F → reps h hs ms G → F ## G →
    reps h ((k, v) :: hs) ((k, w) :: ms) (F ∪ G).

Scheme rep_mut := Minimality for rep Sort Prop
  with reps_mut := Minimality for reps Sort Prop.
Combined Scheme rep_reps_ind from rep_mut, reps_mut.

Fixpoint depth (v : JsonValue) : nat :=
  match v with
  | T_OBJ _ ms => S (fold_right (λ kv n, Nat.max (depth kv.2) n) 0%nat ms)
  | _ => 1%nat
  end.

Definition depths (ms : list (list Z * JsonValue)) : nat :=
  fold_right (λ kv n, Nat.max (depth kv.2) n) 0%nat ms.

(** Every address in use is below the next one. *)
Definition heap_ok (h : heap) : Prop := ∀ p, p ∈ dom (cells h) → p < next h.

(** *** Only what is owned matters *)

Lemma rep_frame h h' :
  (∀ v w F, rep h v w F → (∀ p, p ∈ F → h' !! p = h !! p) → rep h' v w F)
  ∧ (∀ hs ms F, reps h hs ms F → (∀ p, p ∈ F → h' !! p = h !! p) → reps h' hs ms F).
Proof.
  apply rep_reps_ind.
  - intros v Hv _. by constructor.
  - intros p s E Hf. constructor. rewrite Hf; [done|set_solver].
  - intros p is_array hs ms F E _ IH Hp Hf. econstructor; [|apply IH|done].
    + rewrite Hf; [done|set_solver].
    + intros q Hq. apply Hf. set_solver.
  - intros _. constructor.
  - intros k v w F hs ms G _ IH1 _ IH2 Hd Hf. constructor; [apply IH1|apply IH2|done]; intros q Hq; apply Hf; set_solver.
Qed.

Lemma rep_dom h :
  (∀ v w F, rep h v w F → F ⊆ dom h) ∧ (∀ hs ms F, reps h hs ms F → F ⊆ dom h).
Proof.
  apply rep_reps_ind; intros; try set_solver.
  - apply singleton_subseteq_l, elem_of_dom. by eexists.
  - apply union_subseteq. split; [|done]. apply singleton_subseteq_l, elem_of_dom. by eexists.
Qed.

(** ** Copying *)

(** The copy stands for the same tree, on addresses of its own. *)
Record copied (h1 h2 : heap) (F' : gset Z) : Prop := {
  copied_ok : heap_ok h2;
  copied_kept : cells h1 ⊆ cells h2;
  copied_fresh : F' ## dom (cells h1);
  copied_dom : dom (cells h2) = dom (cells h1) ∪ F';
}.

Lemma copied_trans h1 h2 h3 F G :
  copied h1 h2 F → copied h2 h3 G → copied h1 h3 (F ∪ G) ∧ F ## G.
Proof.
  intros [H1 H2 H3 H4] [K1 K2 K3 K4]. rewrite H4 in K3, K4.
  split; [|set_solver]. split; [done|by etrans|set_solver|by rewrite K4, assoc_L by apply _].
Qed.

Lemma new_cell_copied c h : heap_ok h → copied h (new_cell c h).2 {[next h]}.
Proof.
  intros Hok. assert (Hn : next h ∉ dom (cells h)) by (intros Hin; specialize (Hok _ Hin); lia).
  split; cbn.
  - intros p Hp. cbn in *. rewrite dom_insert_L in Hp. apply elem_of_union in Hp as [Hp|Hp]; [set_solver by lia|].
    specialize (Hok _ Hp). lia.
  - by apply insert_subseteq, not_elem_of_dom.
  - set_solver.
  - rewrite dom_insert_L. set_solver.
Qed.

Lemma kept_at (h1 h2 : gmap Z cell) p : h1 ⊆ h2 → p ∈ dom h1 → h2 !! p = h1 !! p.
Proof.
  intros Hs [c Hc]%elem_of_dom. rewrite Hc. by eapply lookup_weaken.
Qed.

Lemma copy_represents h :
  (∀ v w F, rep h v w F → ∀ h1 fuel, (∀ p, p ∈ F → cells h1 !! p = h !! p) → heap_ok h1 →
     (depth w <= fuel)%nat →
     ∃ v' h2 F', copy_value fuel v h1 = Ok (v', h2) ∧ copied h1 h2 F' ∧ rep (cells h2) v' w F')
  ∧ (∀ hs ms F, reps h hs ms F → ∀ h1 fuel, (∀ p, p ∈ F → cells h1 !! p = h !! p) → heap_ok h1 →
     (depths ms <= fuel)%nat →
     ∃ hs' h2 F', copy_members (copy_value fuel) hs h1 = Ok (hs', h2) ∧ copied h1 h2 F'
       ∧ reps (cells h2) hs' ms F').
Proof.
  apply rep_reps_ind.
  - intros v Hv h1 fuel _ Hok Hd. destruct fuel as [|fuel]; [destruct v; cbn in Hd; lia|].
    exists (V_plain v), h1, ∅. split; [done|]. split; [|by constructor].
    split; [done|done|set_solver|set_solver].
  - intros p s E h1 fuel Hf Hok Hd. destruct fuel as [|fuel]; [cbn in Hd; lia|]. cbn [copy_value].
    rewrite Hf, E by set_solver. cbn [value_of_string new_cell].
    do 3 eexists. split; [done|]. split; [by apply (new_cell_copied (C_str s))|].
    constructor. cbn. by rewrite lookup_insert_eq.
  - intros p is_array hs ms F E _ IH Hp h1 fuel Hf Hok Hd. destruct fuel as [|fuel]; [cbn in Hd; lia|].
    cbn [copy_value]. rewrite Hf, E by set_solver. unfold value_of_object.
    destruct (IH h1 fuel) as (hs' & h2 & F' & Ec & Hc & Hr); [set_solver|done|cbn in Hd; unfold depths; lia|].
    step Ec. cbn [fst snd new_cell].
    pose proof (new_cell_copied (C_obj is_array hs') h2 (copied_ok _ _ _ Hc)) as Hn.
    destruct (copied_trans _ _ _ _ _ Hc Hn) as [Hall Hdis].
    do 3 eexists. split; [done|]. split; [exact Hall|].
    rewrite (comm_L union). econstructor; [cbn; by rewrite lookup_insert_eq| |set_solver].
    apply (proj2 (rep_frame (cells h2) _) _ _ _ Hr). intros q Hq. cbn.
    rewrite lookup_insert_ne; [done|set_solver].
  - intros h1 fuel _ Hok _. exists [], h1, ∅. split; [done|]. split; [|constructor].
    split; [done|done|set_solver|set_solver].
  - intros k v w F hs ms G _ IH1 Hs IH2 Hdis h1 fuel Hf Hok Hd. cbn in Hd.
    destruct (IH1 h1 fuel) as (v' & h2 & F' & E1 & Hc1 & Hr1); [set_solver|done|lia|].
    cbn [copy_members]. step E1. cbn [fst snd].
    assert (Hagree : ∀ p, p ∈ G → cells h2 !! p = h !! p).
    { intros p Hp. rewrite <- Hf by set_solver. apply kept_at; [apply Hc1|].
      apply elem_of_dom. rewrite Hf by set_solver. apply elem_of_dom. by apply (proj2 (rep_dom h) _ _ _ Hs). }
    destruct (IH2 h2 fuel Hagree (copied_ok _ _ _ Hc1)) as (hs' & h3 & G' & E2 & Hc2 & Hr2);
      [unfold depths; lia|]. step E2. cbn [fst snd].
    destruct (copied_trans _ _ _ _ _ Hc1 Hc2) as [Hall Hd']. do 3 eexists. split; [done|]. split; [exact Hall|].
    constructor; [|exact Hr2|done]. apply (proj1 (rep_frame (cells h2) _) _ _ _ Hr1).
    intros p Hp. apply kept_at; [apply Hc2|]. by apply (proj1 (rep_dom _) _ _ _ Hr1).
Qed.

(** ** Destroying *)

(** Exactly the addresses of [F] are given back. *)
Definition freed (h1 h2 : heap) (F : gset Z) : Prop :=
  next h2 = next h1 ∧ ∀ p, cells h2 !! p = if decide (p ∈ F) then None else cells h1 !! p.

Lemma freed_trans h1 h2 h3 F G : freed h1 h2 F → freed h2 h3 G → freed h1 h3 (F ∪ G).
Proof.
  intros [N1 H1] [N2 H2]. split; [congruence|]. intros p. rewrite H2, H1.
  repeat case_decide; try done; set_solver.
Qed.

Lemma delete_cell_freed p c h : cells h !! p = Some c → ∃ h2, delete_cell p h = Ok h2 ∧ freed h h2 {[p]}.
Proof.
  intros E. unfold delete_cell. rewrite E. eexists. split; [done|]. split; [done|]. intros q. cbn.
  case_decide as Hq.
  - apply elem_of_singleton in Hq as ->. apply lookup_delete_eq.
  - apply lookup_delete_ne. set_solver.
Qed.

Lemma reset_frees h :
  (∀ v w F, rep h v w F → ∀ h1 fuel, (∀ p, p ∈ F → cells h1 !! p = h !! p) → (depth w <= fuel)%nat →
     ∃ h2, reset_value fuel v h1 = Ok h2 ∧ freed h1 h2 F)
  ∧ (∀ hs ms F, reps h hs ms F → ∀ h1 fuel, (∀ p, p ∈ F → cells h1 !! p = h !! p) → (depths ms <= fuel)%nat →
     ∃ h2, reset_members (reset_value fuel) hs h1 = Ok h2 ∧ freed h1 h2 F).
Proof.
  assert (Hnil : ∀ h1, freed h1 h1 ∅) by (intros h1; split; [done|]; intros p; by rewrite decide_False by set_solver).
  apply rep_reps_ind.
  - intros v Hv h1 fuel _ Hd. destruct fuel as [|fuel]; [destruct v; cbn in Hd; lia|]. by exists h1.
  - intros p s E h1 fuel Hf Hd. destruct fuel as [|fuel]; [cbn in Hd; lia|]. cbn [reset_value].
    assert (E1 : cells h1 !! p = Some (C_str s)) by (rewrite Hf; [done|set_solver]). rewrite E1.
    by eapply delete_cell_freed.
  - intros p is_array hs ms F E _ IH Hp h1 fuel Hf Hd. destruct fuel as [|fuel]; [cbn in Hd; lia|].
    cbn [reset_value]. assert (E1 : cells h1 !! p = Some (C_obj is_array hs)) by (rewrite Hf; [done|set_solver]).
    rewrite E1. destruct (IH h1 fuel) as (h2 & Er & Hfr); [set_solver|cbn in Hd; unfold depths; lia|].
    step Er. destruct (delete_cell_freed p (C_obj is_array hs) h2) as (h3 & Ed & Hfd).
    { destruct Hfr as [_ ->]. by rewrite decide_False. }
    exists h3. split; [done|]. rewrite (comm_L union). by eapply freed_trans.
  - intros h1 fuel _ _. by exists h1.
  - intros k v w F hs ms G _ IH1 _ IH2 Hdis h1 fuel Hf Hd. cbn in Hd.
    destruct (IH1 h1 fuel) as (h2 & E1 & H1); [set_solver|lia|]. cbn [reset_members]. step E1.
    destruct (IH2 h2 fuel) as (h3 & E2 & H2); [|unfold depths; lia|].
    { intros p Hp. destruct H1 as [_ H1]. rewrite H1, decide_False by set_solver. apply Hf. set_solver. }
    exists h3. split; [done|]. by eapply freed_trans.
Qed.

Lemma freed_ok h1 h2 F : heap_ok h1 → freed h1 h2 F → heap_ok h2.
Proof.
  intros Hok [N H] p [c Hc]%elem_of_dom. rewrite N. apply Hok, elem_of_dom. rewrite H in Hc.
  case_decide; [done|]. by eexists.
Qed.

Lemma freed_dom h1 h2 F : freed h1 h2 F → dom (cells h2) = dom (cells h1) ∖ F.
Proof.
  intros [_ H]. apply set_eq. intros p. rewrite elem_of_difference, !elem_of_dom, H.
  case_decide as Hp; [|tauto]. split; [by intros [? ?]|tauto].
Qed.

(** ** What a copy and a destructor do together *)

(** C38: A copy of a value is a value of its own: it stands for the same tree, on addresses
    that nothing else uses; destroying the copy leaves the memory as it was before the
    copy, with no address lost and none freed twice; destroying the original instead
    leaves the copy whole. *)
Theorem json_copy_deep h v w F fuel :
  heap_ok h → rep (cells h) v w F → (depth w <= fuel)%nat →
  ∃ v' h1 F', copy_value fuel v h = Ok (v', h1)
    ∧ rep (cells h1) v w F ∧ rep (cells h1) v' w F' ∧ F ## F'
    ∧ (∃ h2, reset_value fuel v' h1 = Ok h2 ∧ cells h2 = cells h)
    ∧ (∃ h2, reset_value fuel v h1 = Ok h2 ∧ rep (cells h2) v' w F'
         ∧ dom (cells h2) = (dom (cells h) ∖ F) ∪ F').
Proof.
  intros Hok Hrep Hd. pose proof (proj1 (rep_dom _) _ _ _ Hrep) as HF.
  destruct (proj1 (copy_represents (cells h)) v w F Hrep h fuel) as (v' & h1 & F' & E & Hc & Hr'); [done..|].
  pose proof Hc as [Hok1 Hk Hfresh Hdom].
  assert (Hr : rep (cells h1) v w F).
  { apply (proj1 (rep_frame (cells h) _) _ _ _ Hrep). intros p Hp. apply kept_at; [done|]. set_solver. }
  exists v', h1, F'. split; [done|]. split; [done|]. split; [done|]. split; [set_solver|]. split.
  - destruct (proj1 (reset_frees (cells h1)) v' w F' Hr' h1 fuel) as (h2 & E2 & Hf); [done..|].
    exists h2. split; [done|]. apply map_eq. intros p. destruct Hf as [_ ->]. case_decide as Hp.
    + symmetry. apply not_elem_of_dom. set_solver.
    + destruct (decide (p ∈ dom (cells h))) as [Hin|Hin]; [by apply kept_at|].
      rewrite (proj1 (not_elem_of_dom _ _) Hin). apply not_elem_of_dom. set_solver.
  - destruct (proj1 (reset_frees (cells h1)) v w F Hr h1 fuel) as (h2 & E2 & Hf); [done..|].
    exists h2. split; [done|]. rewrite (freed_dom _ _ _ Hf), Hdom. split; [|set_solver].
    apply (proj1 (rep_frame (cells h1) _) _ _ _ Hr'). intros p Hp. destruct Hf as [_ ->].
    apply decide_False. set_solver.
Qed.

(** ** Assignment *)

(** The place is not within what is freed. *)
Definition outside (x : Z) (F : gset Z) (pl : place) : Prop :=
  match pl with Local y => y ≠ x | Member p _ => p ∉ F end.

Lemma read_place_kept x F pl s s' v :
  outside x F pl → read_place pl s = Ok v →
  (∀ y, y ≠ x → locals s' !! y = locals s !! y) →
  (∀ p, p ∉ F → cells (memory s') !! p = cells (memory s) !! p) →
  read_place pl s' = Ok v.
Proof. destruct pl as [y|p key]; cbn; intros Hout Hr Hl Hc; [by rewrite Hl|by rewrite Hc]. Qed.

(** Assigning to a variable frees what the variable owned and nothing else, and makes
    it own a copy of the source; the source stays what it was; no address is lost.
    Assigning a variable to itself does nothing. *)
Theorem json_assign_correct x src s v w F v2 w2 G fuel :
  heap_ok (memory s) →
  locals s !! x = Some v → rep (cells (memory s)) v w F →
  read_place src s = Ok v2 → rep (cells (memory s)) v2 w2 G → F ## G → outside x F src →
  (depth w <= fuel)%nat → (depth w2 <= fuel)%nat →
  assign_value fuel (Local x) (Local x) s = Ok s
  ∧ ∃ s' v' F', assign_value fuel (Local x) src s = Ok s'
    ∧ locals s' = <[x := v']> (locals s)
    ∧ rep (cells (memory s')) v' w2 F' ∧ rep (cells (memory s')) v2 w2 G
    ∧ read_place src s' = Ok v2
    ∧ dom (cells (memory s')) = (dom (cells (memory s)) ∖ F) ∪ F'
    ∧ F' ## dom (cells (memory s)) ∖ F.
Proof.
  intros Hok Ex Hv Esrc Hv2 Hdis Hout Hd Hd2. split; [unfold assign_value; by rewrite decide_True|].
  unfold assign_value. rewrite decide_False by (intros <-; by cbn in Hout).
  cbn [read_place]. rewrite Ex. step_bind.
  destruct (proj1 (reset_frees _) v w F Hv (memory s) fuel) as (h1 & E1 & Hf1); [done..|]. step E1.
  cbn [write_place]. step_bind. cbn [locals memory].
  set (s1 := mk_store (<[x := undefined_value]> (locals s)) h1).
  assert (E2 : read_place src s1 = Ok v2).
  { apply (read_place_kept x F src s s1); [done|done| |].
    - intros y Hy. cbn. by apply lookup_insert_ne.
    - intros p Hp. cbn. destruct Hf1 as [_ ->]. by rewrite decide_False. }
  step E2. assert (Hag : ∀ p, p ∈ G → cells h1 !! p = cells (memory s) !! p).
  { intros p Hp. destruct Hf1 as [_ ->]. apply decide_False. set_solver. }
  destruct (proj1 (copy_represents _) v2 w2 G Hv2 h1 fuel Hag (freed_ok _ _ _ Hok Hf1) Hd2)
    as (v' & h2 & F' & E3 & [Hok2 Hk Hfresh Hdom] & Hr').
  cbn [memory s1]. step E3. cbn [fst snd]. rewrite (freed_dom _ _ _ Hf1) in Hdom, Hfresh.
  do 3 eexists. split; [done|]. cbn [locals memory]. split; [by rewrite insert_insert_eq|].
  split; [exact Hr'|]. pose proof (proj1 (rep_dom _) _ _ _ Hv2) as HG.
  assert (Hkeep : ∀ p, p ∈ dom (cells h1) → cells h2 !! p = cells h1 !! p) by (intros; by apply kept_at).
  split; [|split; [|done]].
  - apply (proj1 (rep_frame (cells (memory s)) _) _ _ _ Hv2). intros p Hp.
    rewrite Hkeep; [by apply Hag|]. rewrite (freed_dom _ _ _ Hf1). set_solver.
  - destruct src as [y|p key]; cbn [outside read_place] in *.
    + cbn. rewrite !lookup_insert_ne by done. done.
    + cbn. assert (Hin : p ∈ dom (cells (memory s))).
      { apply elem_of_dom. destruct (cells (memory s) !! p); [by eexists|done]. }
      rewrite Hkeep; [|rewrite (freed_dom _ _ _ Hf1); set_solver].
      destruct Hf1 as [_ ->]. by rewrite decide_False.
Qed.

(** A member of the variable's own object is freed before it is read. *)
Theorem json_assign_member_faults x p key s is_array hs w F fuel :
  locals s !! x = Some (V_obj p) → rep (cells (memory s)) (V_obj p) w F →
  cells (memory s) !! p = Some (C_obj is_array hs) → (depth w <= fuel)%nat →
  assign_value fuel (Local x) (Member p key) s = Fault.
Proof.
  intros Ex Hv Ep Hd. unfold assign_value. rewrite decide_False by done. cbn [read_place]. rewrite Ex. step_bind.
  destruct (proj1 (reset_frees _) _ w F Hv (memory s) fuel) as (h1 & E1 & [_ Hf1]); [done..|]. step E1.
  cbn [write_place]. step_bind. cbn [read_place memory]. rewrite Hf1, decide_True; [done|].
  inversion Hv; subst. set_solver.
Qed.
End heap.

(** ** Concrete values *)

(** The object [{"a": "x"}] at address 1, its string at 0, and a variable for it. *)
Definition sample_heap : heap (double := unit) :=
  mk_heap {[0 := C_str [120]; 1 := C_obj false [([97], V_str 0)]]} 2.

Definition sample_tree : JsonValue unit := T_OBJ false [([97], T_STRING [120])].

Lemma sample_rep : rep (cells sample_heap) (V_obj 1) sample_tree ({[1]} ∪ ({[0]} ∪ ∅)).
Proof.
  apply (rep_obj _ 1 false [([97], V_str 0)]); [reflexivity| |].
  - apply reps_cons; [by constructor|constructor|set_solver].
  - set_solver.
Qed.

Lemma sample_heap_ok : heap_ok sample_heap.
Proof. intros p. cbn. rewrite !dom_insert_L, dom_singleton_L. set_solver by lia. Qed.

Lemma json_copy_deep_witness : ∃ v' h1 F', copy_value 2 (V_obj 1) sample_heap = Ok (v', h1)
  ∧ rep (cells h1) v' sample_tree F'
  ∧ ∃ h2, reset_value 2 v' h1 = Ok h2 ∧ cells h2 = cells sample_heap.
Proof.
  destruct (json_copy_deep sample_heap (V_obj 1) sample_tree _ 2 sample_heap_ok sample_rep)
    as (v' & h1 & F' & E & _ & Hr & _ & H2 & _); [cbn; lia|]. by exists v', h1, F'.
Defined.

(** [b = a], where [b] was a string of its own. *)
Definition sample_store : store (double := unit) :=
  mk_store {[10 := V_obj 1; 11 := V_str 2]}
    (mk_heap (<[2 := C_str [98]]> (cells sample_heap)) 3).

Lemma json_assign_correct_witness : ∃ s' v' F',
  assign_value 2 (Local 11) (Local 10) sample_store = Ok s'
  ∧ locals s' = <[11 := v']> (locals sample_store)
  ∧ rep (cells (memory s')) v' sample_tree F'.
Proof.
  destruct (json_assign_correct 11 (Local 10) sample_store (V_str 2) (T_STRING [98]) {[2]} (V_obj 1)
    sample_tree ({[1]} ∪ ({[0]} ∪ ∅)) 2) as (_ & s' & v' & F' & E & El & Hr & _).
  - intros p. cbn. rewrite !dom_insert_L, dom_singleton_L. set_solver by lia.
  - reflexivity.
  - by constructor.
  - reflexivity.
  - apply (proj1 (rep_frame (cells sample_heap) _) _ _ _ sample_rep). intros p Hp. cbn.
    rewrite lookup_insert_ne; [done|set_solver].
  - set_solver.
  - done.
  - cbn. lia.
  - cbn. lia.
  - by exists s', v', F'.
Defined.
