(* ===== verification/RoomUser.v ===== *)
(** * RoomUser: a participant whose streams are received

    Models [src/application/app_room_user.h] and [.cpp].  The receive buffer is the
    list of its first [m_h264_rtp_buffer_used_len] bytes.  A call of a callback is an
    event of the result.  A callback is known by its address. *)

From S2P Require Import Prelude.
From S2P Require Import CodecAvc.
From S2P Require Import RTPH264PacketBuilder.
From S2P Require Import RTPSessionVideo.
From S2P Require Import H264RoundTrip.
From S2P Require Import RTPPacket.
From S2P Require Import RTPH264FrameAssembler.
From S2P Require Import PortManager.
From S2P Require Import IPAddrV4.
From S2P Require Import RTPTransmitterV4.
From S2P Require Import RTPSessionReceiver.
From S2P Require Import Json.

Definition RTP_H264_RECV_BUFFER_SIZE : Z := 1024 * 1024.

Record RoomUser := mkRoomUser {
  m_video_initialize : bool;
  m_audio_initialize : bool;
  m_bind_major_port : Z;
  m_bind_audio_port : Z;
  m_major_receiver : option RTPSessionReceiver;
  m_audio_receiver : option RTPSessionReceiver;
  m_h264_frame_assembler : option RTPH264FrameAssembler;
  m_h264_rtp_buffer : option (list Z);
  m_h264_callback : option Z;
  m_h264_callback_arg : Z;
  m_aac_callback : option Z;
  m_aac_callback_arg : Z;
  m_user_id : list Z;
  m_user_name : list Z;
  m_user_uuid : list Z;
  m_user_ip_addr : list Z;
  m_video_ssrc : Z;
  m_audio_ssrc : Z;
  m_pinhole_uuid : list Z;
  m_pinhole_msg : list Z;
}.

(** The constructor does not set the two SSRCs: they hold what the memory held. *)
Definition create_user (video_garbage audio_garbage : Z) : RoomUser :=
  {| m_video_initialize := false; m_audio_initialize := false;
     m_bind_major_port := 0; m_bind_audio_port := 0;
     m_major_receiver := None; m_audio_receiver := None; m_h264_frame_assembler := None;
     m_h264_rtp_buffer := None; m_h264_callback := None; m_h264_callback_arg := 0;
     m_aac_callback := None; m_aac_callback_arg := 0;
     m_user_id := []; m_user_name := []; m_user_uuid := []; m_user_ip_addr := [];
     m_video_ssrc := video_garbage; m_audio_ssrc := audio_garbage;
     m_pinhole_uuid := []; m_pinhole_msg := [] |}.

(** ** Fields *)

(** The fields the video stream uses. *)
Definition set_video (this : RoomUser) (initialized : bool) (port : Z)
    (r : option RTPSessionReceiver) (asm : option RTPH264FrameAssembler) (buf : option (list Z))
    : RoomUser :=
  {| m_video_initialize := initialized; m_audio_initialize := m_audio_initialize this;
     m_bind_major_port := port; m_bind_audio_port := m_bind_audio_port this;
     m_major_receiver := r; m_audio_receiver := m_audio_receiver this;
     m_h264_frame_assembler := asm; m_h264_rtp_buffer := buf;
     m_h264_callback := m_h264_callback this; m_h264_callback_arg := m_h264_callback_arg this;
     m_aac_callback := m_aac_callback this; m_aac_callback_arg := m_aac_callback_arg this;
     m_user_id := m_user_id this; m_user_name := m_user_name this;
     m_user_uuid := m_user_uuid this; m_user_ip_addr := m_user_ip_addr this;
     m_video_ssrc := m_video_ssrc this; m_audio_ssrc := m_audio_ssrc this;
     m_pinhole_uuid := m_pinhole_uuid this; m_pinhole_msg := m_pinhole_msg this |}.

Definition set_audio (this : RoomUser) (initialized : bool) (port : Z)
    (r : option RTPSessionReceiver) : RoomUser :=
  {| m_video_initialize := m_video_initialize this; m_audio_initialize := initialized;
     m_bind_major_port := m_bind_major_port this; m_bind_audio_port := port;
     m_major_receiver := m_major_receiver this; m_audio_receiver := r;
     m_h264_frame_assembler := m_h264_frame_assembler this;
     m_h264_rtp_buffer := m_h264_rtp_buffer this;
     m_h264_callback := m_h264_callback this; m_h264_callback_arg := m_h264_callback_arg this;
     m_aac_callback := m_aac_callback this; m_aac_callback_arg := m_aac_callback_arg this;
     m_user_id := m_user_id this; m_user_name := m_user_name this;
     m_user_uuid := m_user_uuid this; m_user_ip_addr := m_user_ip_addr this;
     m_video_ssrc := m_video_ssrc this; m_audio_ssrc := m_audio_ssrc this;
     m_pinhole_uuid := m_pinhole_uuid this; m_pinhole_msg := m_pinhole_msg this |}.

Definition set_callbacks (this : RoomUser) (h264 : option Z) (h264_arg : Z)
    (aac : option Z) (aac_arg : Z) : RoomUser :=
  {| m_video_initialize := m_video_initialize this;
     m_audio_initialize := m_audio_initialize this;
     m_bind_major_port := m_bind_major_port this; m_bind_audio_port := m_bind_audio_port this;
     m_major_receiver := m_major_receiver this; m_audio_receiver := m_audio_receiver this;
     m_h264_frame_assembler := m_h264_frame_assembler this;
     m_h264_rtp_buffer := m_h264_rtp_buffer this;
     m_h264_callback := h264; m_h264_callback_arg := h264_arg;
     m_aac_callback := aac; m_aac_callback_arg := aac_arg;
     m_user_id := m_user_id this; m_user_name := m_user_name this;
     m_user_uuid := m_user_uuid this; m_user_ip_addr := m_user_ip_addr this;
     m_video_ssrc := m_video_ssrc this; m_audio_ssrc := m_audio_ssrc this;
     m_pinhole_uuid := m_pinhole_uuid this; m_pinhole_msg := m_pinhole_msg this |}.

Definition set_h264_receive_callback (this : RoomUser) (func : option Z) (arg : Z) : RoomUser :=
  set_callbacks this func arg (m_aac_callback this) (m_aac_callback_arg this).

Definition set_aac_receive_callback (this : RoomUser) (func : option Z) (arg : Z) : RoomUser :=
  set_callbacks this (m_h264_callback this) (m_h264_callback_arg this) func arg.

(** What the setters of the identity set. *)
Definition set_identity (this : RoomUser) (id name uuid ip : list Z) (video audio : Z)
    (pinhole msg : list Z) : RoomUser :=
  {| m_video_initialize := m_video_initialize this;
     m_audio_initialize := m_audio_initialize this;
     m_bind_major_port := m_bind_major_port this; m_bind_audio_port := m_bind_audio_port this;
     m_major_receiver := m_major_receiver this; m_audio_receiver := m_audio_receiver this;
     m_h264_frame_assembler := m_h264_frame_assembler this;
     m_h264_rtp_buffer := m_h264_rtp_buffer this;
     m_h264_callback := m_h264_callback this; m_h264_callback_arg := m_h264_callback_arg this;
     m_aac_callback := m_aac_callback this; m_aac_callback_arg := m_aac_callback_arg this;
     m_user_id := id; m_user_name := name; m_user_uuid := uuid; m_user_ip_addr := ip;
     m_video_ssrc := video; m_audio_ssrc := audio; m_pinhole_uuid := pinhole;
     m_pinhole_msg := msg |}.

Definition set_user_id (this : RoomUser) (userID : list Z) : RoomUser :=
  set_identity this userID (m_user_name this) (m_user_uuid this) (m_user_ip_addr this)
    (m_video_ssrc this) (m_audio_ssrc this) (m_pinhole_uuid this) (m_pinhole_msg this).

Definition set_user_name (this : RoomUser) (userName : list Z) : RoomUser :=
  set_identity this (m_user_id this) userName (m_user_uuid this) (m_user_ip_addr this)
    (m_video_ssrc this) (m_audio_ssrc this) (m_pinhole_uuid this) (m_pinhole_msg this).

Definition set_user_uuid (this : RoomUser) (userUUID : list Z) : RoomUser :=
  set_identity this (m_user_id this) (m_user_name this) userUUID (m_user_ip_addr this)
    (m_video_ssrc this) (m_audio_ssrc this) (m_pinhole_uuid this) (m_pinhole_msg this).

Definition set_user_ip_addr (this : RoomUser) (ipAddr : list Z) : RoomUser :=
  set_identity this (m_user_id this) (m_user_name this) (m_user_uuid this) ipAddr
    (m_video_ssrc this) (m_audio_ssrc this) (m_pinhole_uuid this) (m_pinhole_msg this).

Definition set_video_ssrc (this : RoomUser) (ssrc : Z) : RoomUser :=
  set_identity this (m_user_id this) (m_user_name this) (m_user_uuid this) (m_user_ip_addr this)
    ssrc (m_audio_ssrc this) (m_pinhole_uuid this) (m_pinhole_msg this).

Definition set_audio_ssrc (this : RoomUser) (ssrc : Z) : RoomUser :=
  set_identity this (m_user_id this) (m_user_name this) (m_user_uuid this) (m_user_ip_addr this)
    (m_video_ssrc this) ssrc (m_pinhole_uuid this) (m_pinhole_msg this).

(** The message for the pinhole is the text of [{"uuid": pinholeUUID}]. *)
Definition set_pinhole_uuid {double : Type} (print_double : double → list Z) (this : RoomUser)
    (pinholeUUID : list Z) : outcome RoomUser :=
  r ← write_to_string print_double
        (assign_key new_object (Utils.bytes_of "uuid") (T_STRING pinholeUUID));
  let '(s, _) := r in
  Ok (set_identity this (m_user_id this) (m_user_name this) (m_user_uuid this)
        (m_user_ip_addr this) (m_video_ssrc this) (m_audio_ssrc this) pinholeUUID
        match s with Some s => s | None => m_pinhole_msg this end).

(** ** Initialisation *)

(** What the system answers: the probe of the ports, [socket], [bind], [inet_addr],
    and the content of the receiver's new buffer. *)
Record environment := mkEnvironment {
  os : probe;
  sock : Z;
  bind_result : Z → Z → Z;
  inet_addr : string → Z;
  fresh : list Z;
}.

Definition receive_params (port : Z) : RTPTransParamsV4 :=
  {| bindIP := 0; bindPort := port; sendBufferSize := sendBufferSize default_params;
     recvBufferSize := recvBufferSize default_params; ttl := RTPTransmitterV4.ttl default_params |}.

Section initialize.
Context (env : environment).

Definition init_receiver (port : Z) (pinholeIP : string) (pinholePort : Z) (ports : PortManager)
    : bool * (RTPSessionReceiver * PortManager) :=
  RTPSessionReceiver.init (os env) (sock env) (bind_result env) (inet_addr env) (fresh env)
    new_receiver true (Some (receive_params port)) pinholeIP pinholePort ports.

(** A receiver, an assembler or a buffer left over from a failed call is deleted or
    replaced; the allocations succeed ([new] of the buffer throws otherwise). *)
Definition initialize_video (this : RoomUser) (pinholeIP : string) (pinholePort : Z)
    (ports : PortManager) : bool * (RoomUser * PortManager) :=
  if m_video_initialize this then (true, (this, ports)) else
  let '(majorPort, ports) := get_available_port (os env) ports in
  if majorPort =? 0 then (false, (this, ports)) else
  let '(ret, (receiver, ports)) := init_receiver majorPort pinholeIP pinholePort ports in
  if negb ret then (false, (set_video this false majorPort None None None, ports)) else
  let '(ok, assembler) := RTPH264FrameAssembler.initialize new_assembler in
  if negb ok then (false, (set_video this false majorPort None None None, ports)) else
  (true, (set_video this true majorPort (Some receiver) (Some assembler) (Some []), ports)).

Definition initialize_audio (this : RoomUser) (pinholeIP : string) (pinholePort : Z)
    (ports : PortManager) : bool * (RoomUser * PortManager) :=
  if m_audio_initialize this then (true, (this, ports)) else
  let '(audioPort, ports) := get_available_port (os env) ports in
  if audioPort =? 0 then (false, (this, ports)) else
  let '(ret, (receiver, ports)) := init_receiver audioPort pinholeIP pinholePort ports in
  if negb ret then (false, (set_audio this false audioPort None, ports)) else
  (true, (set_audio this true audioPort (Some receiver), ports)).

Definition initialize (this : RoomUser) (pinholeIP : string) (pinholePort : Z) (ssrc : Z)
    (ports : PortManager) : bool * (RoomUser * PortManager) :=
  if m_video_ssrc this =? ssrc then initialize_video this pinholeIP pinholePort ports
  else if m_audio_ssrc this =? ssrc then initialize_audio this pinholeIP pinholePort ports
  else (false, (this, ports)).
End initialize.

(** ** Receiving *)

(** One call of a callback.  [data] is the bytes the pointer and the length give,
    [None] for the null pointer. *)
Record received := mkReceived {
  cb_func : Z;
  cb_uuid : list Z;
  cb_data : option (list Z);
  cb_length : Z;
  cb_ssrc : Z;
  cb_timestamp : Z;
  cb_arg : Z;
}.

(** [receive_video] once a packet has come. *)
Definition on_video_packet (this : RoomUser) (rtp : RTPPacket)
    : outcome (list received * RoomUser) :=
  match m_h264_frame_assembler this with
  | None => Fault
  | Some assembler =>
      r ← push_packet assembler rtp;
      let '(complete, assembler) := r in
      let with_buffer buf :=
        set_video this (m_video_initialize this) (m_bind_major_port this)
          (m_major_receiver this) (Some assembler) buf in
      if negb (complete : bool) then Ok ([], with_buffer (m_h264_rtp_buffer this)) else
      let data := get_frame_data assembler in
      let len := get_frame_length assembler in
      match m_h264_rtp_buffer this with
      | None => Fault
      | Some buf =>
          let buf := if RTP_H264_RECV_BUFFER_SIZE <=? zlen buf + len then [] else buf in
          if RTP_H264_RECV_BUFFER_SIZE <? zlen buf + len then Fault else
          let buf := buf ++ data in
          if has_marker rtp then
            Ok (match m_h264_callback this with
                | Some func =>
                    [{| cb_func := func; cb_uuid := m_user_uuid this; cb_data := Some buf;
                        cb_length := i32 (zlen buf); cb_ssrc := get_ssrc rtp;
                        cb_timestamp := get_timestamp rtp; cb_arg := m_h264_callback_arg this |}]
                | None => []
                end, with_buffer (Some []))
          else Ok ([], with_buffer (Some buf))
      end
  end.

Definition receive_video (this : RoomUser) (a : arrival) : outcome (list received * RoomUser) :=
  match m_major_receiver this with
  | None => Ok ([], this)
  | Some receiver =>
      r ← receive_rtp_packet receiver 5 a;
      let '(rtp, receiver) := r in
      let this := set_video this (m_video_initialize this) (m_bind_major_port this)
                    (Some receiver) (m_h264_frame_assembler this) (m_h264_rtp_buffer this) in
      match rtp with
      | None => Ok ([], this)
      | Some rtp => on_video_packet this rtp
      end
  end.

(** The payload a packet hands to the callback. *)
Definition payload_data (rtp : RTPPacket) : outcome (option (list Z)) :=
  match get_payload rtp with
  | None => Ok None
  | Some _ => bs ← payload_range rtp 0 (get_payload_length rtp); Ok (Some bs)
  end.

Definition receive_audio (this : RoomUser) (a : arrival) : outcome (list received * RoomUser) :=
  match m_audio_receiver this with
  | None => Ok ([], this)
  | Some receiver =>
      r ← receive_rtp_packet receiver 5 a;
      let '(rtp, receiver) := r in
      let this := set_audio this (m_audio_initialize this) (m_bind_audio_port this)
                    (Some receiver) in
      match rtp, m_aac_callback this with
      | Some rtp, Some func =>
          data ← payload_data rtp;
          Ok ([{| cb_func := func; cb_uuid := m_user_uuid this; cb_data := data;
                  cb_length := i32 (get_payload_length rtp); cb_ssrc := get_ssrc rtp;
                  cb_timestamp := get_timestamp rtp; cb_arg := m_aac_callback_arg this |}], this)
      | _, _ => Ok ([], this)
      end
  end.

Definition nat_pinhole (sendto : network → sockaddr_in → list Z → Z) (this : RoomUser)
    (net : network) : outcome network :=
  net ← (match m_major_receiver this with
         | Some r => RTPSessionReceiver.nat_pinhole sendto r (m_pinhole_msg this) net
         | None => Ok net
         end);
  match m_audio_receiver this with
  | Some r => RTPSessionReceiver.nat_pinhole sendto r (m_pinhole_msg this) net
  | None => Ok net
  end.

(** ** What a user keeps *)

(** The buffer has room, and a user that receives video has what it needs for it. *)
Record user_ok (this : RoomUser) : Prop := {
  ok_buffer : ∀ buf, m_h264_rtp_buffer this = Some buf → zlen buf < RTP_H264_RECV_BUFFER_SIZE;
  ok_assembler : ∀ asm, m_h264_frame_assembler this = Some asm →
    zlen (m_frame asm) <= ASSEMBLER_BUFFER_SIZE;
  ok_video : is_Some (m_major_receiver this) →
    is_Some (m_h264_frame_assembler this) ∧ is_Some (m_h264_rtp_buffer this);
  ok_flags : (m_video_initialize this = true ↔ is_Some (m_major_receiver this))
    ∧ (m_audio_initialize this = true ↔ is_Some (m_audio_receiver this));
}.

Lemma create_user_ok v a : user_ok (create_user v a).
Proof.
  split; cbn; [done|done|by intros []%is_Some_None|].
  split; split; [done|by intros []%is_Some_None|done|by intros []%is_Some_None].
Qed.


(** An event whose data can be read for its length. *)
Definition event_ok (e : received) : Prop :=
  ∃ bs, cb_data e = Some bs ∧ cb_length e = zlen bs ∧ zlen bs < RTP_H264_RECV_BUFFER_SIZE.

Lemma on_video_packet_ok this rtp asm buf res :
  user_ok this → m_h264_frame_assembler this = Some asm → m_h264_rtp_buffer this = Some buf →
  push_packet asm rtp = Ok res →
  ∃ evs this', on_video_packet this rtp = Ok (evs, this') ∧ user_ok this' ∧ Forall event_ok evs.
Proof.
  intros [Hb Ha Hv Hf] Easm Ebuf E. unfold on_video_packet. rewrite Easm, Ebuf. step E.
  destruct res as [complete asm']. specialize (Hb buf Ebuf). specialize (Ha asm Easm).
  pose proof (push_packet_bounded asm rtp complete asm' Ha E) as Hl.
  assert (Hok : ∀ buf', zlen buf' < RTP_H264_RECV_BUFFER_SIZE →
    user_ok (set_video this (m_video_initialize this) (m_bind_major_port this)
               (m_major_receiver this) (Some asm') (Some buf'))).
  { intros buf' Hbuf'. split; cbn; [by intros ? [= <-]|by intros ? [= <-]|by eauto|done]. }
  destruct complete; cbn [negb]; [|do 2 eexists; split_and!; [done|by apply Hok|constructor]].
  unfold get_frame_length, get_frame_data.
  set (buf1 := if RTP_H264_RECV_BUFFER_SIZE <=? zlen buf + zlen (m_frame asm') then [] else buf).
  assert (H1 : zlen (buf1 ++ m_frame asm') < RTP_H264_RECV_BUFFER_SIZE).
  { unfold buf1, RTP_H264_RECV_BUFFER_SIZE, ASSEMBLER_BUFFER_SIZE in *.
    destruct (Z.leb_spec (1024 * 1024) (zlen buf + zlen (m_frame asm'))); len. }
  rewrite (proj2 (Z.ltb_ge _ _)) by len.
  destruct (has_marker rtp).
  - do 2 eexists. split_and!; [done|by apply Hok|]. case_match; [|constructor].
    constructor; [|constructor]. exists (buf1 ++ m_frame asm').
    unfold RTP_H264_RECV_BUFFER_SIZE in *. pose proof (zlen_nonneg (buf1 ++ m_frame asm')).
    cbn [cb_data cb_length]. rewrite i32_id by lia. done.
  - do 2 eexists. split_and!; [done|by apply Hok|constructor].
Qed.

(** The call never writes outside of the receive buffer: unless the receiver or the
    assembler faults it completes, what it keeps still fits, and the data a callback
    gets are as long as it is told. *)
Theorem receive_video_safe this a receiver o receiver' :
  user_ok this → m_major_receiver this = Some receiver →
  receive_rtp_packet receiver 5 a = Ok (o, receiver') →
  (∀ rtp asm, o = Some rtp → m_h264_frame_assembler this = Some asm →
     is_ok (push_packet asm rtp) = true) →
  ∃ evs this', receive_video this a = Ok (evs, this') ∧ user_ok this' ∧ Forall event_ok evs.
Proof.
  intros [Hb Ha Hv Hf] Er E Hp. unfold receive_video. rewrite Er. step E.
  destruct (Hv ltac:(by rewrite Er)) as [[asm Easm] [buf Ebuf]].
  set (this1 := set_video _ _ _ _ _ _).
  assert (Hok : user_ok this1).
  { split; [done|done|by eauto|]. cbn. destruct Hf as [[Hf1 Hf2] Hf3]. split; [|done].
    split; [by eauto|]. intros _. apply Hf2. by rewrite Er. }
  destruct o as [rtp|]; [|by exists [], this1].
  specialize (Hp rtp asm eq_refl Easm). destruct (push_packet asm rtp) as [res| |] eqn:Epush; [|done..].
  by eapply on_video_packet_ok.
Qed.

(** ** Access units *)

Fixpoint on_video_packets (this : RoomUser) (packets : list RTPPacket)
    : outcome (list received * RoomUser) :=
  match packets with
  | [] => Ok ([], this)
  | rtp :: packets =>
      r ← on_video_packet this rtp;
      let '(evs, this) := r in
      rest ← on_video_packets this packets;
      let '(evs', this) := rest in
      Ok (evs ++ evs', this)
  end.

(** The user between two packets of a frame. *)
Definition with_stream (this : RoomUser) (asm : RTPH264FrameAssembler) (buf : list Z) : RoomUser :=
  set_video this (m_video_initialize this) (m_bind_major_port this) (m_major_receiver this)
    (Some asm) (Some buf).

(** Packets without the marker collect their frames. *)
Lemma on_video_packets_collect this packets asm buf frames asm' :
  push_packets asm packets = Ok (frames, asm') →
  Forall (λ p, has_marker p = false) packets →
  zlen buf + zlen (concat frames) < RTP_H264_RECV_BUFFER_SIZE →
  on_video_packets (with_stream this asm buf) packets
    = Ok ([], with_stream this asm' (buf ++ concat frames)).
Proof.
  revert asm buf frames asm'. induction packets as [|p packets IH]; intros asm buf frames asm' E Hm Hl.
  { injection E as <- <-. cbn. by rewrite app_nil_r. }
  apply Forall_cons in Hm as [Hp Hm]. cbn [push_packets] in E.
  apply bind_is_ok in E as ([complete asm1] & E1 & E).
  apply bind_is_ok in E as ([frames1 last] & E2 & E). cbn [on_video_packets].
  unfold on_video_packet at 1. cbn [m_h264_frame_assembler with_stream set_video m_h264_rtp_buffer].
  step E1. unfold get_frame_data, get_frame_length in *.
  destruct complete; cbn [negb]; injection E as <- <-.
  - cbn [concat] in *. autorewrite with rtc_len in Hl. pose proof (zlen_nonneg (concat frames1)).
    rewrite (proj2 (Z.leb_gt _ _)) by lia. rewrite (proj2 (Z.ltb_ge _ _)) by lia.
    rewrite Hp. step_bind.
    change (set_video _ _ _ _ _ _) with (with_stream this asm1 (buf ++ m_frame asm1)).
    rewrite (IH asm1 (buf ++ m_frame asm1) frames1 last E2 Hm) by (rewrite zlen_app; lia).
    step_bind. by rewrite <- app_assoc.
  - step_bind. change (set_video _ _ _ _ _ _) with (with_stream this asm1 buf).
    by rewrite (IH asm1 buf frames1 last E2 Hm).
Qed.

Lemma on_video_packets_app this l k :
  on_video_packets this (l ++ k) =
    (r ← on_video_packets this l; r' ← on_video_packets r.2 k; Ok (r.1 ++ r'.1, r'.2)).
Proof.
  revert this. induction l as [|p l IH]; intros this; cbn [app on_video_packets].
  { step_bind. cbn [fst snd app]. by destruct (on_video_packets this k) as [[]| |]. }
  destruct (on_video_packet this p) as [[evs this1]| |]; step_bind; [|done..]. rewrite IH.
  destruct (on_video_packets this1 l) as [[evs1 this2]| |]; step_bind; [|done..].
  cbn [fst snd]. destruct (on_video_packets this2 k) as [[evs2 this3]| |]; step_bind; [|done..].
  by rewrite app_assoc.
Qed.

Lemma access_unit_spec this func packets asm frames asm' :
  m_h264_callback this = Some func → packets ≠ [] →
  push_packets asm packets = Ok (frames, asm') → last_completes asm packets →
  has_marker <$> packets = replicate (List.length packets - 1) false ++ [true] →
  zlen (concat frames) < RTP_H264_RECV_BUFFER_SIZE →
  ∃ p, last packets = Some p ∧ on_video_packets (with_stream this asm []) packets
    = Ok ([{| cb_func := func; cb_uuid := m_user_uuid this; cb_data := Some (concat frames);
              cb_length := zlen (concat frames); cb_ssrc := get_ssrc p;
              cb_timestamp := get_timestamp p; cb_arg := m_h264_callback_arg this |}],
          with_stream this asm' []).
Proof.
  intros Hcb Hne E Hl Hm Hlen. destruct (Hl Hne) as (ps & p & fs & a1 & a2 & -> & E1 & E2).
  exists p. split; [by rewrite last_snoc|].
  assert (Hmark : Forall (λ q, has_marker q = false) ps ∧ has_marker p = true).
  { rewrite fmap_app, length_app, Nat.add_sub in Hm. apply app_inj_2 in Hm as [Hps Hp]; [|done].
    split; [|by injection Hp]. apply Forall_forall. intros q Hq.
    apply (list_elem_of_fmap_2 has_marker) in Hq. rewrite Hps in Hq.
    by apply elem_of_replicate_inv in Hq. }
  rewrite push_packets_app, E1 in E. revert E. step_bind. cbn [fst snd push_packets]. rewrite E2.
  step_bind. intros [= <- <-]. rewrite concat_app in *. cbn [concat] in *. rewrite app_nil_r in *.
  rewrite zlen_app in Hlen. pose proof (zlen_nonneg (get_frame_data a2)).
  rewrite on_video_packets_app.
  step (on_video_packets_collect this ps asm [] fs a1 E1 (proj1 Hmark))
    by (change (zlen (@nil Z)) with 0; lia).
  cbn [fst snd app on_video_packets]. unfold on_video_packet at 1.
  cbn [m_h264_frame_assembler with_stream set_video m_h264_rtp_buffer m_h264_callback].
  step E2. unfold get_frame_length. cbn [negb]. unfold get_frame_data in *.
  rewrite (proj2 (Z.leb_gt _ _)) by lia. rewrite (proj2 (Z.ltb_ge _ _)) by lia.
  rewrite (proj2 Hmark), Hcb. step_bind. rewrite zlen_app.
  pose proof (zlen_nonneg (concat fs)). unfold RTP_H264_RECV_BUFFER_SIZE in *.
  by rewrite i32_id by lia.
Qed.

(** The frames that the packets of one access unit complete (the last packet has the
    marker and completes a frame) reach the callback in a single call, put end to
    end, with the source and time of the last packet; the buffer is then empty for
    the next access unit. *)
Theorem access_unit_delivered this func packets asm frames asm' :
  m_h264_callback this = Some func → packets ≠ [] →
  push_packets asm packets = Ok (frames, asm') → last_completes asm packets →
  has_marker <$> packets = replicate (List.length packets - 1) false ++ [true] →
  zlen (concat frames) < RTP_H264_RECV_BUFFER_SIZE →
  ∃ p, last packets = Some p ∧ on_video_packets (with_stream this asm []) packets
    = Ok ([{| cb_func := func; cb_uuid := m_user_uuid this; cb_data := Some (concat frames);
              cb_length := zlen (concat frames); cb_ssrc := get_ssrc p;
              cb_timestamp := get_timestamp p; cb_arg := m_h264_callback_arg this |}],
          with_stream this asm' []).
Proof. by apply access_unit_spec. Qed.

Lemma annexb_len us : zlen (annexb us) <= zlen (concat us.*2) + 4 * zlen us.*2.
Proof.
  induction us as [|[long n] us IH]; [done|]. unfold annexb in *. rewrite bind_cons.
  rewrite fmap_cons. cbn [concat fst snd]. assert (zlen (start_code long) <= 4) by by destruct long.
  len.
Qed.

Lemma renders_len bs ns : renders bs ns → zlen bs <= zlen (concat ns) + 4 * zlen ns.
Proof.
  intros (longs & Hl & ->). pose proof (annexb_len (zip longs ns)) as H.
  by rewrite snd_zip in H by lia.
Qed.

(** ** The turns of a participant that receives video *)

(** One turn for each arrival. *)
Fixpoint receive_videos (this : RoomUser) (arrivals : list arrival)
    : outcome (list received * RoomUser) :=
  match arrivals with
  | [] => Ok ([], this)
  | a :: arrivals =>
      r ← receive_video this a;
      let '(evs, this) := r in
      rest ← receive_videos this arrivals;
      let '(evs', this) := rest in
      Ok (evs ++ evs', this)
  end.

(** The user with another state of its receiver. *)
Definition with_receiver (r : RTPSessionReceiver) (this : RoomUser) : RoomUser :=
  set_video this (m_video_initialize this) (m_bind_major_port this) (Some r)
    (m_h264_frame_assembler this) (m_h264_rtp_buffer this).

(** Packets do not touch the receiver, and it does not touch them. *)
Lemma on_video_packet_receiver this r p evs this' :
  on_video_packet this p = Ok (evs, this') →
  on_video_packet (with_receiver r this) p = Ok (evs, with_receiver r this').
Proof.
  unfold on_video_packet. cbn [m_h264_frame_assembler with_receiver set_video m_h264_rtp_buffer].
  destruct (m_h264_frame_assembler this) as [asm|]; [|done].
  destruct (push_packet asm p) as [[c asm']| |]; step_bind; [|done..].
  repeat case_match; intros E; simplify_eq/=; done.
Qed.

Lemma on_video_packets_receiver this r ps evs this' :
  on_video_packets this ps = Ok (evs, this') →
  on_video_packets (with_receiver r this) ps = Ok (evs, with_receiver r this').
Proof.
  revert this evs. induction ps as [|p ps IH]; intros this evs; cbn [on_video_packets].
  { by intros [= <- <-]. }
  intros E. apply bind_is_ok in E as ([evs1 this1] & E1 & E).
  apply bind_is_ok in E as ([evs2 this2] & E2 & E). injection E as <- <-.
  step (on_video_packet_receiver this r p _ _ E1). by step (IH _ _ E2).
Qed.

Lemma with_receiver_same this r :
  m_major_receiver this = Some r → with_receiver r this = this.
Proof. intros H. destruct this. cbn in H. by subst. Qed.

(** The turns are those of the receiver, and then what it hands out is pushed. *)
Lemma receive_videos_split this r arrivals outs r' evs this' :
  m_major_receiver this = Some r → receive_all r 5 arrivals = Ok (outs, r') →
  on_video_packets this outs = Ok (evs, this') →
  receive_videos this arrivals = Ok (evs, with_receiver r' this').
Proof.
  revert this r outs evs this'. induction arrivals as [|a arrivals IH]; intros this r outs evs this' Hr Ha Ho;
    cbn [receive_all receive_videos] in *.
  { injection Ha as <- <-. injection Ho as <- <-. by rewrite with_receiver_same. }
  apply bind_is_ok in Ha as ([o r1] & E1 & Ha). apply bind_is_ok in Ha as ([outs1 r2] & E2 & Ha).
  injection Ha as <- ->. unfold receive_video. rewrite Hr. step E1.
  fold (with_receiver r1 this). destruct o as [p|].
  - cbn [on_video_packets] in Ho. apply bind_is_ok in Ho as ([evs1 this1] & P1 & Ho).
    apply bind_is_ok in Ho as ([evs2 this2] & P2 & Ho). injection Ho as <- <-.
    step (on_video_packet_receiver this r1 p _ _ P1).
    by step (IH (with_receiver r1 this1) r1 _ _ _ eq_refl E2 (on_video_packets_receiver _ r1 _ _ _ P2)).
  - step_bind.
    by step (IH (with_receiver r1 this) r1 _ _ _ eq_refl E2 (on_video_packets_receiver _ r1 _ _ _ Ho)).
Qed.

(** What packets leave as it was. *)
Lemma on_video_packets_stream this ps evs this' asm buf :
  on_video_packets this ps = Ok (evs, this') →
  m_h264_frame_assembler this' = Some asm → m_h264_rtp_buffer this' = Some buf →
  this' = with_stream this asm buf.
Proof.
  intros E Ha Hb.
  assert (H : ∃ a b, this' = set_video this (m_video_initialize this) (m_bind_major_port this)
                              (m_major_receiver this) a b).
  { clear Ha Hb. revert this evs E. induction ps as [|p ps IH]; intros this evs; cbn [on_video_packets].
    { intros [= _ <-]. exists (m_h264_frame_assembler this), (m_h264_rtp_buffer this). by destruct this. }
    intros E. apply bind_is_ok in E as ([evs1 this1] & E1 & E).
    apply bind_is_ok in E as ([evs2 this2] & E2 & E). injection E as _ <-.
    destruct (IH _ _ E2) as (a & b & ->). exists a, b. revert E1. unfold on_video_packet.
    destruct (m_h264_frame_assembler this) as [asm0|]; [|done].
    destruct (push_packet asm0 p) as [[c asm1]| |]; step_bind; [|done..].
    repeat case_match; intros E1; by simplify_eq/=. }
  destruct H as (a & b & ->). cbn in Ha, Hb. by subst.
Qed.

Lemma parsed_packets ds packets :
  Forall2 (λ b p, parse reset b (zlen b) = Ok (true, p)) ds packets → packet_of <$> ds = packets.
Proof.
  induction 1 as [|b p ds packets Hp _ IH]; [done|]. rewrite fmap_cons, IH. unfold packet_of.
  by rewrite Hp.
Qed.

(** The datagrams of a frame fit in the receive buffer when its packets do. *)
Lemma session_receivable ds packets ws (payloads : list (list Z)) :
  ds = wire_bytes <$> ws → Forall2 (λ w p, zlen (wire_bytes w) = 28 + zlen p) ws payloads →
  Forall (λ p, zlen p + 28 <= RTP_RECV_BUFFER_SIZE) payloads →
  Forall2 (λ b p, parse reset b (zlen b) = Ok (true, p)) ds packets → Forall receivable ds.
Proof.
  intros -> Hl. revert packets. induction Hl as [|w p ws payloads Hw _ IH]; intros packets Hp Hps;
    [constructor|]. apply Forall_cons in Hp as [Hp0 Hp]. rewrite fmap_cons in *.
  inversion Hps as [|? q ? qs Hq Hqs]; subst. constructor; [|by eapply IH].
  pose proof (zlen_nonneg p). split; [lia|]. unfold packet_of. by rewrite Hq.
Qed.

(** Packets numbered in a row, between smaller and larger numbers. *)
Lemma ordered_around l0 packets later s :
  ordered l0 → ordered later → get_sequence <$> packets = seqZ s (zlen packets) →
  Forall (λ p, get_sequence p < s) l0 → Forall (λ p, s + zlen packets <= get_sequence p) later →
  ordered ((l0 ++ packets) ++ later).
Proof.
  intros H0 Hl Hs Hlt Hge. rewrite Forall_forall in Hlt, Hge.
  assert (Hin : ∀ q, q ∈ packets → s <= get_sequence q < s + zlen packets).
  { intros q Hq%(list_elem_of_fmap_2 get_sequence). rewrite Hs in Hq. by apply elem_of_seqZ in Hq. }
  assert (Ho : ordered packets).
  { clear -Hs. revert s Hs. induction packets as [|q packets IH]; intros s Hs; [constructor|].
    rewrite fmap_cons, zlen_cons in Hs. pose proof (zlen_nonneg packets).
    rewrite seqZ_cons in Hs by lia. injection Hs as Eq Hs.
    replace (Z.pred (1 + zlen packets)) with (zlen packets) in Hs by lia.
    constructor; [by eapply IH|]. apply Forall_forall. intros x Hx%(list_elem_of_fmap_2 get_sequence).
    rewrite Hs in Hx. apply elem_of_seqZ in Hx. lia. }
  apply ordered_app; [apply ordered_app| |]; [done..| |done|].
  - intros p q Hp Hq. specialize (Hlt p Hp). specialize (Hin q Hq). lia.
  - intros p q [Hp|Hp]%elem_of_app Hq; specialize (Hge q Hq); pose proof (zlen_nonneg packets);
      [specialize (Hlt p Hp)|specialize (Hin p Hp)]; lia.
Qed.

(** C1: From the publisher to the participant.  [send_h264_data] puts the packets of a
    frame on the network, each within the receive buffer of 2048 bytes.  They reach a
    participant whose stream is running: up to five packets of smaller numbers wait in its
    re-order list, and complete what was before the frame.  However the datagrams of the
    frame and the five that follow are mixed within the window of five places, the turns
    that receive them call the callback once for the frame, with exactly the NAL units of
    the publisher, its SSRC and the time of the frame; the five wait in their turn.  The
    16-bit number of the packets does not wrap within the frame. *)
Theorem published_frame_received sendto now base session builder t d us net this r func evs0
    this0 asm arrivals arrived later :
  RTPSessionVideo.m_initialize session = true → m_h264_rtp_builder session = Some builder →
  RTPSessionVideo.m_transmitter session = Some t → m_destinations t = [d] →
  RTPH264PacketBuilder.m_initialize builder = true →
  0 <= RTPH264PacketBuilder.m_sequence builder < 4294967296 →
  0 <= RTPH264PacketBuilder.m_ssrc builder < 2 ^ 32 →
  units_ok us → us ≠ [] → Forall sendable us.*2 → zlen (annexb us) < 2 ^ 31 → frame_room us.*2 →
  packets_size (packetize us.*2 0 []) < RTP_PACKETS_BUFFER_SIZE →
  Forall (λ p, zlen p + 28 <= RTP_RECV_BUFFER_SIZE) (packetize us.*2 0 []) →
  (∀ net s d, sendto net s d = zlen d) →
  let first := RTPH264PacketBuilder.m_sequence builder mod 65536 in
  let next := first + zlen (packetize us.*2 0 []) in
  let ds := wire_bytes <$> session_wires builder (clock_ms now) us.*2 in
  next <= 65536 →
  m_major_receiver this = Some r → ready r → m_h264_callback this = Some func →
  (0 < length (m_reorder_list r) <= 5)%nat → ordered (m_reorder_list r) →
  Forall (λ p, get_sequence p < first) (m_reorder_list r) →
  on_video_packets this (m_reorder_list r) = Ok (evs0, this0) →
  m_h264_frame_assembler this0 = Some asm → RTPH264FrameAssembler.m_initialize asm = true →
  m_h264_rtp_buffer this0 = Some [] →
  length later = 5%nat → Forall receivable later → ordered (packet_of <$> later) →
  Forall (λ p, next <= get_sequence p) (packet_of <$> later) →
  Forall2 arrives arrivals arrived → arrived ≡ₚ ds ++ later →
  within_window 5 (m_reorder_list r ++ (packet_of <$> arrived)) →
  ∃ session' bs this' r',
    send_h264_data sendto now base session (annexb us) (zlen (annexb us)) net
      = Ok (true, (session', net ++ ((λ b, (m_sock_addr d, b)) <$> ds)))
    ∧ renders bs us.*2
    ∧ receive_videos this arrivals
      = Ok (evs0 ++ [{| cb_func := func; cb_uuid := m_user_uuid this; cb_data := Some bs;
                        cb_length := zlen bs; cb_ssrc := RTPH264PacketBuilder.m_ssrc builder;
                        cb_timestamp := clock_ms now; cb_arg := m_h264_callback_arg this |}], this')
    ∧ m_h264_rtp_buffer this' = Some [] ∧ m_major_receiver this' = Some r'
    ∧ m_reorder_list r' = packet_of <$> later.
Proof.
  intros Hi Hb Ht Hd Hbi Hq Hss Hok Hne Hse H31 Hroom Hsz Hfit Hs first next ds Hnext
    Hr Hready Hcb Hlen Ho Hlt E0 Ea Hasm Ebuf L5 Hrec Hol Hge Harr Hperm Hwin.
  destruct (video_path_spec sendto now base session builder t d us net asm)
    as (session' & ds' & packets & frames & asm' & E & Hp & Epush & Hrd & Hlast & Hid & Hm & Eds & Epk);
    [done..|]. fold ds in Eds. subst ds'.
  specialize (Hm Hne). assert (Hpne : packets ≠ []) by by intros ->.
  pose proof (renders_len _ _ Hrd) as Hlenb. unfold frame_room, ASSEMBLER_BUFFER_SIZE in Hroom.
  pose proof (on_video_packets_stream _ _ _ _ _ _ E0 Ea Ebuf) as E00.
  destruct (access_unit_spec this func packets asm frames asm') as (p & Hlp & Erun);
    [done..|unfold RTP_H264_RECV_BUFFER_SIZE; lia|].
  pose proof (parsed_packets _ _ Hp) as Epo.
  pose proof (stamp_wires_lengths (u8 (zlen (packetize us.*2 0 []))) (clock_ms now) builder
                (packetize us.*2 0 [])) as Hlens.
  fold (session_wires builder (clock_ms now) us.*2) in Hlens.
  assert (Hzl : zlen packets = zlen (packetize us.*2 0 [])).
  { unfold zlen. by rewrite Epk, length_fmap, (Forall2_length _ _ _ Hlens). }
  assert (Hord : ordered ((m_reorder_list r ++ packets) ++ (packet_of <$> later))).
  { apply (ordered_around _ _ _ first); [done|done| |done|by rewrite Hzl].
    rewrite Hzl, Epk. by apply stamp_wires_sequence. }
  destruct (receive_window r 5 arrivals arrived (m_reorder_list r ++ packets) (packet_of <$> later))
    as (r' & Er & Ew); try done; [lia| | |by rewrite length_fmap|by destruct (m_reorder_list r); [cbn in Hlen; lia|]|].
  { rewrite Hperm. apply Forall_app. split; [|done]. by eapply session_receivable. }
  { rewrite Hperm, fmap_app, Epo. by rewrite app_assoc. }
  assert (Eall : on_video_packets this (m_reorder_list r ++ packets) = Ok (evs0 ++ [
    {| cb_func := func; cb_uuid := m_user_uuid this; cb_data := Some (concat frames);
       cb_length := zlen (concat frames); cb_ssrc := get_ssrc p;
       cb_timestamp := get_timestamp p; cb_arg := m_h264_callback_arg this |}],
    with_stream this asm' [])).
  { rewrite on_video_packets_app, E0. step_bind. cbn [fst snd]. rewrite E00. by step Erun. }
  exists session', (concat frames), (with_receiver r' (with_stream this asm' [])), r'.
  split; [exact E|]. split; [done|]. split; [|done].
  rewrite (receive_videos_split this r arrivals _ r' _ _ Hr Er Eall).
  rewrite Forall_forall in Hid. destruct (Hid p) as [-> ->]; [|done].
  by apply last_Some_elem_of.
Qed.

(** ** The pinhole message *)

(** The pinhole server reads the identifier of the user from the message. *)
Theorem pinhole_message_read {double : Type} (print_double : double → list Z)
    (string_to_double : list Z → double) this pinholeUUID :
  92 ∉ pinholeUUID →
  ∃ this', set_pinhole_uuid print_double this pinholeUUID = Ok this'
    ∧ m_pinhole_uuid this' = pinholeUUID
    ∧ ∃ o, read_from_string string_to_double new_object (m_pinhole_msg this') = Ok (true, o)
        ∧ at_key o (Utils.bytes_of "uuid") = T_STRING pinholeUUID.
Proof.
  intros Hu. set (o := assign_key new_object (Utils.bytes_of "uuid") (T_STRING (double := double) pinholeUUID)).
  destruct (json_roundtrip_spec string_to_double print_double o) as (s & o' & Ew & Er).
  { cbn. rewrite !andb_true_r. apply forallb_forall. intros x Hx%list_elem_of_In.
    destruct (Z.eqb_spec x 92) as [->|]; [by destruct Hu|done]. }
  unfold set_pinhole_uuid. fold o. step Ew. eexists. split; [done|]. split; [done|].
  cbn [set_identity m_pinhole_msg]. exists o. by split.
Qed.

(** ** Initialisation *)

Lemma init_receiver_ok env port ip pport ports ret r ports' :
  init_receiver env port ip pport ports = (ret, (r, ports')) →
  ports' = ports ∧ (ret = true → RTPSessionReceiver.m_initialize r = true
                     ∧ m_reorder r = true ∧ m_reorder_list r = []).
Proof.
  unfold init_receiver, RTPSessionReceiver.init, RTPTransmitterV4.init.
  cbn [RTPSessionReceiver.m_initialize new_receiver RTPTransmitterV4.m_initialize new_transmitter].
  repeat case_match; simplify_eq/=; intros [= <- <- <-]; split; done.
Qed.

Lemma get_available_port_wf os ports :
  wf ports →
  let '(_, ports') := get_available_port os ports in wf ports' ∧ pool ports' = pool ports.
Proof.
  intros Hwf. pose proof (get_udp_port_spec os ports Hwf) as H. unfold get_available_port.
  destruct (get_udp_port os ports) as [[port|] ports']; by destruct H as (? & ? & _).
Qed.

(** What the two initialisations have in common. *)
Definition initialized (this : RoomUser) (ports : PortManager) (flag : RoomUser → bool)
    (r : bool * (RoomUser * PortManager)) : Prop :=
  let '(ret, (this', ports')) := r in
  user_ok this' ∧ wf ports' ∧ pool ports' = pool ports
  ∧ (ret = true ↔ flag this' = true)
  ∧ m_video_ssrc this' = m_video_ssrc this ∧ m_audio_ssrc this' = m_audio_ssrc this
  ∧ m_user_uuid this' = m_user_uuid this.

Lemma initialize_video_spec env this ip pport ports :
  user_ok this → wf ports →
  initialized this ports m_video_initialize (initialize_video env this ip pport ports)
  ∧ m_audio_receiver (initialize_video env this ip pport ports).2.1 = m_audio_receiver this.
Proof.
  intros Hok Hwf. unfold initialize_video. destruct (m_video_initialize this) eqn:Ei; [done|].
  pose proof (get_available_port_wf (os env) ports Hwf) as Hp.
  destruct (get_available_port (os env) ports) as [port ports1]. destruct Hp as [Hw Hpool].
  case_match; [split; [split_and!; (done || by rewrite Ei)|done]|].
  destruct (init_receiver env port ip pport ports1) as [ret [r ports2]] eqn:Er.
  apply init_receiver_ok in Er as (-> & _).
  destruct Hok as [Hb Ha Hv [Hf1 Hf2]].
  assert (H0 : 0 < RTP_H264_RECV_BUFFER_SIZE) by done.
  destruct ret; cbn [negb]; (split; [split_and!|]); try done.
  - split; cbn; [by intros ? [= <-]|by intros ? [= <-]|by eauto|by split; [split; eauto|]].
  - split; cbn; [done|done|by intros []%is_Some_None|split; [|done]].
    split; [done|by intros []%is_Some_None].
Qed.

Lemma initialize_audio_spec env this ip pport ports :
  user_ok this → wf ports →
  initialized this ports m_audio_initialize (initialize_audio env this ip pport ports)
  ∧ m_major_receiver (initialize_audio env this ip pport ports).2.1 = m_major_receiver this.
Proof.
  intros Hok Hwf. unfold initialize_audio. destruct (m_audio_initialize this) eqn:Ei; [done|].
  pose proof (get_available_port_wf (os env) ports Hwf) as Hp.
  destruct (get_available_port (os env) ports) as [port ports1]. destruct Hp as [Hw Hpool].
  case_match; [split; [split_and!; (done || by rewrite Ei)|done]|].
  destruct (init_receiver env port ip pport ports1) as [ret [r ports2]] eqn:Er.
  apply init_receiver_ok in Er as (-> & _).
  destruct Hok as [Hb Ha Hv [Hf1 Hf2]].
  destruct ret; cbn [negb]; (split; [split_and!|]); try done.
  - split; cbn; [done|done|done|split; [done|]]. split; [done|by intros []%is_Some_None].
Qed.

Lemma initialize_ok env this ip pport want ports :
  user_ok this → wf ports →
  let '(_, (this', ports')) := initialize env this ip pport want ports in
  user_ok this' ∧ wf ports' ∧ m_user_uuid this' = m_user_uuid this.
Proof.
  intros Hok Hwf. unfold initialize.
  pose proof (proj1 (initialize_video_spec env this ip pport ports Hok Hwf)) as Hv.
  pose proof (proj1 (initialize_audio_spec env this ip pport ports Hok Hwf)) as Ha.
  destruct (m_video_ssrc this =? want); [|destruct (m_audio_ssrc this =? want); [|done]].
  - destruct (initialize_video env this ip pport ports) as [r [u p]]. by destruct Hv as (? & ? & _ & _ & _ & _ & ?).
  - destruct (initialize_audio env this ip pport ports) as [r [u p]]. by destruct Ha as (? & ? & _ & _ & _ & _ & ?).
Qed.

Lemma set_identity_ok this id name uuid ip video audio pinhole msg :
  user_ok this → user_ok (set_identity this id name uuid ip video audio pinhole msg).
Proof. intros [H1 H2 H3 H4]. by split. Qed.

Lemma set_callbacks_ok this h harg a aarg : user_ok this → user_ok (set_callbacks this h harg a aarg).
Proof. intros [H1 H2 H3 H4]. by split. Qed.

(** The message is always written. *)
Lemma set_pinhole_uuid_total {double : Type} (print_double : double → list Z) this uuid :
  ∃ this', set_pinhole_uuid print_double this uuid = Ok this'
    ∧ (user_ok this → user_ok this') ∧ m_user_uuid this' = m_user_uuid this.
Proof.
  unfold set_pinhole_uuid, write_to_string, assign_key. cbn [m_is_array m_members new_object map_insert].
  cbn [write_value]. step (escape_string_spec uuid).
  eexists. split; [done|]. split; [by apply set_identity_ok|done].
Qed.

(** [initialize] starts the receiver of the stream whose SSRC it is given, and only
    that one, on a port of the pool; asked again it changes nothing. When it fails the
    user receives no more than before. *)
Theorem initialize_correct env this ip pport want ports :
  user_ok this → wf ports →
  let '(ret, (this', ports')) := initialize env this ip pport want ports in
  user_ok this' ∧ wf ports' ∧ pool ports' = pool ports
  ∧ (ret = true ↔ (m_video_ssrc this = want ∧ is_Some (m_major_receiver this'))
                ∨ (m_video_ssrc this ≠ want ∧ m_audio_ssrc this = want
                   ∧ is_Some (m_audio_receiver this')))
  ∧ (m_video_ssrc this ≠ want → m_major_receiver this' = m_major_receiver this)
  ∧ (m_video_ssrc this = want → m_audio_receiver this' = m_audio_receiver this)
  ∧ (ret = true → initialize env this' ip pport want ports' = (true, (this', ports'))).
Proof.
  intros Hok Hwf. unfold initialize.
  destruct (Z.eqb_spec (m_video_ssrc this) want) as [Ev|Ev].
  - pose proof (initialize_video_spec env this ip pport ports Hok Hwf) as [H Ha].
    destruct (initialize_video env this ip pport ports) as [ret [this' ports']].
    destruct H as (H1 & H2 & H3 & H4 & H5 & H6 & _). cbn [fst snd] in Ha.
    destruct (ok_flags this' H1) as [Hf _]. rewrite Hf in H4.
    split_and!; [done..|tauto|done|done|]. intros Hr. rewrite H5, (proj2 (Z.eqb_eq _ _)) by done.
    unfold initialize_video. by rewrite (proj2 Hf (proj1 H4 Hr)).
  - destruct (Z.eqb_spec (m_audio_ssrc this) want) as [Ea|Ea].
    + pose proof (initialize_audio_spec env this ip pport ports Hok Hwf) as [H Hm].
      destruct (initialize_audio env this ip pport ports) as [ret [this' ports']].
      destruct H as (H1 & H2 & H3 & H4 & H5 & H6 & _). cbn [fst snd] in Hm.
      destruct (ok_flags this' H1) as [_ Hf]. rewrite Hf in H4.
      split_and!; [done..|tauto|done|done|]. intros Hr.
      rewrite H5, H6, (proj2 (Z.eqb_neq _ _)), (proj2 (Z.eqb_eq _ _)) by done.
      unfold initialize_audio. by rewrite (proj2 Hf (proj1 H4 Hr)).
    + split_and!; [done..| |done|done|done]. split; [done|tauto].
Qed.

(** ** Concrete runs *)

Definition sample_environment : environment :=
  mkEnvironment sample_probe 4 (λ _ _, 0) sample_inet_addr (replicate 2048 0).

(** A user of video source 9 and audio source 10, with both callbacks. *)
Definition sample_user : RoomUser :=
  set_user_uuid (set_audio_ssrc (set_video_ssrc
    (set_aac_receive_callback (set_h264_receive_callback (create_user 0 0) (Some 1) 2)
       (Some 3) 4) 9) 10) (Utils.bytes_of "u1").

Lemma sample_user_ok : user_ok sample_user.
Proof.
  split; cbn; [done|done|by intros []%is_Some_None|].
  split; split; [done|by intros []%is_Some_None|done|by intros []%is_Some_None].
Qed.

Lemma initialize_correct_witness :
  let '(ret, (this', ports')) :=
    initialize sample_environment sample_user "127.0.0.1" 6000 9 sample_manager in
  ret = true ∧ user_ok this' ∧ wf ports' ∧ is_Some (m_major_receiver this')
  ∧ m_audio_receiver this' = None.
Proof.
  pose proof (initialize_correct sample_environment sample_user "127.0.0.1" 6000 9 sample_manager
                sample_user_ok sample_manager_wf) as H.
  assert (Hr : (initialize sample_environment sample_user "127.0.0.1" 6000 9 sample_manager).1 = true)
    by (vm_compute; reflexivity).
  destruct (initialize _ _ _ _ _ _) as [ret [this' ports']]. cbn [fst] in Hr. subst ret.
  destruct H as (H1 & H2 & _ & H4 & _ & H6 & _). split_and!; [done|done|done| |by apply H6].
  destruct (proj1 H4 eq_refl) as [[_ H]|[H _]]; [done|by destruct H].
Defined.

(** The user once video is received. *)
Definition receiving_user : RoomUser :=
  (initialize sample_environment sample_user "127.0.0.1" 6000 9 sample_manager).2.1.

Lemma receiving_user_ok : user_ok receiving_user.
Proof.
  pose proof (initialize_video_spec sample_environment sample_user "127.0.0.1" 6000 sample_manager
                sample_user_ok sample_manager_wf) as [H _].
  unfold receiving_user, initialize. change (m_video_ssrc sample_user =? 9) with true. cbv iota.
  destruct (initialize_video _ _ _ _ _) as [ret [this' ports']]. by destruct H as (H & _).
Qed.

Lemma receive_video_safe_witness : ∃ evs this',
  receive_video receiving_user (numbered_arrival 1) = Ok (evs, this')
  ∧ user_ok this' ∧ Forall event_ok evs.
Proof.
  destruct (m_major_receiver receiving_user) as [r|] eqn:Er; [|vm_compute in Er; discriminate Er].
  destruct (receive_rtp_packet r 5 (numbered_arrival 1)) as [[o r']| |] eqn:E;
    vm_compute in Er; injection Er as <-; vm_compute in E; try discriminate E.
  injection E as <- <-.
  eapply (receive_video_safe receiving_user (numbered_arrival 1)).
  - exact receiving_user_ok.
  - vm_compute. reflexivity.
  - vm_compute. reflexivity.
  - intros rtp asm [= <-].
Defined.

(** A parameter set and, marked, a slice. *)
Definition sample_unit : list RTPPacket :=
  [payload_packet [128; 96] [103; 66] [];
   set_header (payload_packet [144; 224] [101; 184] []) 144 224 5 7 9].

Lemma access_unit_delivered_witness :
  on_video_packets (with_stream sample_user RTPH264FrameAssembler.ready []) sample_unit
  = Ok ([{| cb_func := 1; cb_uuid := Utils.bytes_of "u1";
            cb_data := Some [0; 0; 0; 1; 103; 66; 0; 0; 1; 101; 184];
            cb_length := 11; cb_ssrc := 9; cb_timestamp := 7; cb_arg := 2 |}],
        with_stream sample_user
          (set_frame RTPH264FrameAssembler.ready [0; 0; 1; 101; 184]) []).
Proof.
  destruct (access_unit_delivered sample_user 1 sample_unit RTPH264FrameAssembler.ready
              [[0; 0; 0; 1; 103; 66]; [0; 0; 1; 101; 184]]
              (set_frame RTPH264FrameAssembler.ready [0; 0; 1; 101; 184])) as (p & Hp & E).
  - reflexivity.
  - discriminate.
  - vm_compute. reflexivity.
  - intros _. eexists [_], _, _, _, _. split; [reflexivity|].
    split; vm_compute; reflexivity.
  - reflexivity.
  - reflexivity.
  - injection Hp as <-. exact E.
Defined.

(** The first datagram of the stream was taken for the empty packet; the frame arrives with
    two of its packets swapped, and five more. *)
Definition started_user : RoomUser := with_receiver (sample_receiver [reset]) receiving_user.

Definition low_builder : RTPH264PacketBuilder :=
  RTPH264PacketBuilder.set_ssrc (RTPH264PacketBuilder.init new_builder 100 5).2 9.

Definition low_session : RTPSessionVideo :=
  mkRTPSessionVideo true (Some low_builder) (Some one_destination).

Definition frame_datagrams : list (list Z) :=
  wire_bytes <$> session_wires low_builder 7000 sample_frame.*2.

Definition later_datagrams : list (list Z) := numbered <$> [200; 201; 202; 203; 204].

Definition mixed_datagrams : list (list Z) :=
  match frame_datagrams with
  | d1 :: d2 :: ds => d2 :: d1 :: ds ++ later_datagrams
  | ds => ds ++ later_datagrams
  end.

Definition arrival_of (d : list Z) : arrival := mkArrival 0 (zlen d) 0 false (Some d).

Lemma arrivals_of ds : Forall (λ d, 0 < zlen d) ds → Forall2 arrives (arrival_of <$> ds) ds.
Proof. induction 1; constructor; [by split|done]. Qed.

Lemma published_frame_received_witness : ∃ session' bs this',
  send_h264_data (λ _ _ d, zlen d) 7000000 0 low_session
    (annexb sample_frame) (zlen (annexb sample_frame)) []
    = Ok (true, (session', (λ b, (mkSockaddr 16777343 22555, b)) <$> frame_datagrams))
  ∧ renders bs sample_frame.*2
  ∧ receive_videos started_user (arrival_of <$> mixed_datagrams)
    = Ok ([{| cb_func := 1; cb_uuid := Utils.bytes_of "u1"; cb_data := Some bs;
              cb_length := zlen bs; cb_ssrc := 9; cb_timestamp := 7000; cb_arg := 2 |}], this').
Proof.
  destruct (published_frame_received (λ _ _ d, zlen d) 7000000 0 low_session low_builder
              one_destination (new_address sample_inet_addr "127.0.0.1" 7000) sample_frame []
              started_user (sample_receiver [reset]) 1 []
              (with_stream started_user RTPH264FrameAssembler.ready []) RTPH264FrameAssembler.ready
              (arrival_of <$> mixed_datagrams) mixed_datagrams later_datagrams)
    as (session' & bs & this' & r' & H1 & H2 & H3 & _);
    [reflexivity|reflexivity|reflexivity|reflexivity|reflexivity|by vm_compute|by vm_compute
    |exact sample_frame_ok|discriminate|by_table|by vm_compute|by vm_compute|by vm_compute
    |by_table|done|by vm_compute|reflexivity|apply sample_receiver_ready|reflexivity
    |cbn; lia|by repeat constructor|by repeat constructor|vm_compute; reflexivity|reflexivity
    |reflexivity|reflexivity|reflexivity| |by_table|by_table| | | |].
  - by repeat (apply Forall_cons; split; [split; [by vm_compute|reflexivity]|]).
  - apply arrivals_of. by_table.
  - unfold mixed_datagrams, frame_datagrams. apply Permutation_swap.
  - apply within_window_check. by_table.
  - exists session', bs, this'. split; [exact H1|]. split; [exact H2|exact H3].
Defined.

Lemma pinhole_message_read_witness : ∃ this',
  set_pinhole_uuid (λ _ : unit, []) sample_user (Utils.bytes_of "a-1") = Ok this'
  ∧ m_pinhole_msg this'
    = [123; 34] ++ Utils.bytes_of "uuid" ++ [34; 58; 34] ++ Utils.bytes_of "a-1" ++ [34; 125]
  ∧ ∃ o, read_from_string (λ _, tt) new_object (m_pinhole_msg this') = Ok (true, o)
      ∧ at_key o (Utils.bytes_of "uuid") = T_STRING (Utils.bytes_of "a-1").
Proof.
  destruct (pinhole_message_read (λ _ : unit, []) (λ _, tt) sample_user (Utils.bytes_of "a-1"))
    as (this' & E & _ & H); [by_table|].
  exists this'. split; [exact E|]. split; [|exact H].
  vm_compute in E. injection E as <-. reflexivity.
Defined.
