(* ===== verification/MsgQueue.v ===== *)
(** * MsgQueue: the queue between the callers and its thread

    Models [src/common/common_msg_queue.h] and [.cpp] (the POSIX branch).  What a
    thread does between taking and releasing [m_mutex] is one function; the threads
    interleave between these.  [step] is the relation of one step of the thread of
    [run], or of a caller of [put] or [stop]. *)

From stdpp Require Import relations.
From S2P Require Import Prelude.

Definition EXIT_MSG_ID : Z := -1.

(** [m_pdata] is the address of the attached data. *)
Record MessageItem := mkMessageItem {
  m_msg_id : Z;
  m_first_param : Z;
  m_second_param : Z;
  m_pdata : Z;
}.

Definition get_id (this : MessageItem) : Z := m_msg_id this.
Definition get_first_param (this : MessageItem) : Z := m_first_param this.
Definition get_second_param (this : MessageItem) : Z := m_second_param this.
Definition get_data (this : MessageItem) : Z := m_pdata this.

Definition exit_msg : MessageItem := mkMessageItem EXIT_MSG_ID 0 0 0.

Definition is_exit (msg : MessageItem) : bool := get_id msg =? EXIT_MSG_ID.

Record SimpleMessageQueue := mkSimpleMessageQueue {
  m_initialized : bool;
  m_max_queue_length : Z;
  m_is_running : bool;
  m_msg_queue : list MessageItem;
}.

Definition new_queue (max_count : Z) : SimpleMessageQueue :=
  {| m_initialized := false; m_max_queue_length := max_count; m_is_running := false;
     m_msg_queue := [] |}.

Definition set_running (this : SimpleMessageQueue) (initialized running : bool) : SimpleMessageQueue :=
  {| m_initialized := initialized; m_max_queue_length := m_max_queue_length this;
     m_is_running := running; m_msg_queue := m_msg_queue this |}.

Definition set_queue (this : SimpleMessageQueue) (l : list MessageItem) : SimpleMessageQueue :=
  {| m_initialized := m_initialized this; m_max_queue_length := m_max_queue_length this;
     m_is_running := m_is_running this; m_msg_queue := l |}.

(** [ret] is what [pthread_create] returns. *)
Definition start (ret : Z) (this : SimpleMessageQueue) : SimpleMessageQueue :=
  if ret =? 0 then set_running this true true else set_running this false false.

(** The test at the head of [put]: a message it refuses is destroyed. *)
Definition put_check (this : SimpleMessageQueue) (msg : MessageItem) : bool :=
  m_is_running this || is_exit msg.

(** [put] with the mutex: the return value, and whether a signal is to follow. *)
Definition put_locked (this : SimpleMessageQueue) (msg : MessageItem)
    : (bool * bool) * SimpleMessageQueue :=
  if zlen (m_msg_queue this) <? m_max_queue_length this then
    let l := m_msg_queue this ++ [msg] in
    ((true, zlen l =? 1), set_queue this l)
  else ((false, false), this).

(** [get] with the mutex: whether it waits. *)
Definition get_waits (this : SimpleMessageQueue) : bool :=
  match m_msg_queue this with [] => true | _ => false end.

(** [front] and [pop_front]: undefined on an empty deque. *)
Definition get_locked (this : SimpleMessageQueue) : outcome (MessageItem * SimpleMessageQueue) :=
  match m_msg_queue this with
  | [] => Fault
  | msg :: l => Ok (msg, set_queue this l)
  end.

(** The messages destroyed, and the queue. *)
Definition clear_msg_queue (this : SimpleMessageQueue) : list MessageItem * SimpleMessageQueue :=
  (filter (λ m, is_exit m = false) (m_msg_queue this), set_queue this []).

(** ** The threads *)

(** Where the thread of [run] is: at the [while], in [get] before the mutex, in
    [pthread_cond_wait], awake from it, with a message, past the loop, or in
    undefined behaviour. *)
Inductive worker_pc : Type :=
| W_loop
| W_get
| W_wait
| W_woken
| W_msg (msg : MessageItem)
| W_done
| W_fault.

(** Where a caller of [put] is: before the mutex, or before [pthread_cond_signal]. *)
Inductive caller_pc : Type :=
| C_put (msg : MessageItem)
| C_signal.

(** [given], [accepted], [handled] and [destroyed] record the messages passed to
    [put], pushed on the queue, handled and destroyed so far. *)
Record state := mkState {
  queue : SimpleMessageQueue;
  worker : worker_pc;
  callers : list caller_pc;
  given : list MessageItem;
  accepted : list MessageItem;
  handled : list MessageItem;
  destroyed : list MessageItem;
}.

Definition started (max_count : Z) : state :=
  {| queue := start 0 (new_queue max_count); worker := W_loop; callers := [];
     given := []; accepted := []; handled := []; destroyed := [] |}.

(** [spurious]: whether [pthread_cond_wait] may return without a signal. *)
Inductive step (spurious : bool) : state → state → Prop :=
| put_refused q w cs g a h d msg :
    put_check q msg = false →
    step spurious (mkState q w cs g a h d) (mkState q w cs (g ++ [msg]) a h (d ++ [msg]))
| put_enter q w cs g a h d msg :
    put_check q msg = true →
    step spurious (mkState q w cs g a h d) (mkState q w (C_put msg :: cs) (g ++ [msg]) a h d)
| put_push q w cs1 cs2 g a h d msg (signal : bool) q' :
    put_locked q msg = ((true, signal), q') →
    step spurious (mkState q w (cs1 ++ C_put msg :: cs2) g a h d)
      (mkState q' w (cs1 ++ (if signal then [C_signal] else []) ++ cs2) g (a ++ [msg]) h d)
| put_full q w cs1 cs2 g a h d msg signal q' :
    put_locked q msg = ((false, signal), q') →
    step spurious (mkState q w (cs1 ++ C_put msg :: cs2) g a h d)
      (mkState q' w (cs1 ++ cs2) g a h (d ++ if is_exit msg then [] else [msg]))
| put_signal q w cs1 cs2 g a h d :
    step spurious (mkState q w (cs1 ++ C_signal :: cs2) g a h d)
      (mkState q (match w with W_wait => W_woken | _ => w end) (cs1 ++ cs2) g a h d)
| wait_spurious q cs g a h d :
    spurious = true →
    step spurious (mkState q W_wait cs g a h d) (mkState q W_woken cs g a h d)
| stop_ q w cs g a h d :
    m_is_running q = true →
    step spurious (mkState q w cs g a h d)
      (mkState (set_running q (m_initialized q) false) w (C_put exit_msg :: cs)
         (g ++ [exit_msg]) a h d)
| run_loop q cs g a h d :
    m_is_running q = true →
    step spurious (mkState q W_loop cs g a h d) (mkState q W_get cs g a h d)
| run_end q cs g a h d d' q' :
    m_is_running q = false → clear_msg_queue q = (d', q') →
    step spurious (mkState q W_loop cs g a h d) (mkState q' W_done cs g a h (d ++ d'))
| get_wait q cs g a h d :
    get_waits q = true →
    step spurious (mkState q W_get cs g a h d) (mkState q W_wait cs g a h d)
| get_take q w cs g a h d msg q' :
    w = W_woken ∨ (w = W_get ∧ get_waits q = false) →
    get_locked q = Ok (msg, q') →
    step spurious (mkState q w cs g a h d) (mkState q' (W_msg msg) cs g a h d)
| get_fault q cs g a h d :
    get_locked q = Fault →
    step spurious (mkState q W_woken cs g a h d) (mkState q W_fault cs g a h d)
| run_handle q cs g a h d msg :
    step spurious (mkState q (W_msg msg) cs g a h d)
      (mkState q W_loop cs g a (h ++ if is_exit msg then [] else [msg]) d).

Definition reachable (spurious : bool) (max_count : Z) (s : state) : Prop :=
  rtc (step spurious) (started max_count) s.

(** ** Where the messages are *)

(** The messages other than the one that ends the thread. *)
Definition proper (l : list MessageItem) : list MessageItem := filter (λ m, is_exit m = false) l.

Definition in_hand (w : worker_pc) : list MessageItem :=
  match w with W_msg msg => [msg] | _ => [] end.

Definition pending (cs : list caller_pc) : list MessageItem :=
  cs ≫= λ c, match c with C_put msg => [msg] | C_signal => [] end.

Record queue_inv (s : state) : Prop := {
  inv_conserved :
    proper (given s) ≡ₚ handled s ++ proper (in_hand (worker s)) ++ proper (m_msg_queue (queue s))
                        ++ destroyed s ++ proper (pending (callers s));
  inv_fifo : ∃ rest, proper (accepted s) = handled s ++ rest
    ∧ (worker s ≠ W_done →
       rest = proper (in_hand (worker s)) ++ proper (m_msg_queue (queue s)));
  inv_bound : zlen (m_msg_queue (queue s)) <= Z.max 0 (m_max_queue_length (queue s));
  inv_wakeup : worker s = W_wait → m_msg_queue (queue s) ≠ [] → C_signal ∈ callers s;
}.

Lemma proper_app l k : proper (l ++ k) = proper l ++ proper k.
Proof. apply filter_app. Qed.

Lemma proper_one msg : proper [msg] = if is_exit msg then [] else [msg].
Proof. unfold proper. rewrite filter_cons, filter_nil. by destruct (is_exit msg). Qed.

Lemma pending_app l k : pending (l ++ k) = pending l ++ pending k.
Proof. apply bind_app. Qed.

Lemma pending_put msg l : pending (C_put msg :: l) = msg :: pending l.
Proof. done. Qed.

Lemma pending_signal l : pending (C_signal :: l) = pending l.
Proof. done. Qed.

Lemma proper_cons msg l : proper (msg :: l) = proper [msg] ++ proper l.
Proof. apply (proper_app [msg] l). Qed.

#[local] Hint Rewrite proper_app pending_app pending_put pending_signal : msgs.

Lemma queue_inv_started max_count : queue_inv (started max_count).
Proof.
  split; cbn; [done|by exists []|change (zlen (@nil MessageItem)) with 0; lia|done].
Qed.

(** The location of the messages is kept by every step. *)
Lemma step_conserved sp s s' : step sp s s' → queue_inv s →
  proper (given s') ≡ₚ handled s' ++ proper (in_hand (worker s')) ++ proper (m_msg_queue (queue s'))
                        ++ destroyed s' ++ proper (pending (callers s')).
Proof.
  intros Hs [Hc _ _ _]. destruct Hs; cbn [queue worker callers given accepted handled destroyed] in *.
  - rewrite proper_app, Hc, proper_one.
    unfold put_check in H. apply orb_false_iff in H as [_ ->]. solve_Permutation.
  - rewrite proper_app, Hc, pending_put, (proper_cons msg (pending cs)). solve_Permutation.
  - unfold put_locked in H. case_match; simplify_eq. cbn [set_queue m_msg_queue].
    revert Hc. autorewrite with msgs. rewrite (proper_cons msg (pending cs2)).
    intros ->. destruct (zlen _ =? 1); autorewrite with msgs; cbn [pending app];
      solve_Permutation.
  - unfold put_locked in H. case_match; simplify_eq.
    revert Hc. autorewrite with msgs. rewrite (proper_cons msg (pending cs2)), proper_one.
    intros ->. solve_Permutation.
  - revert Hc. autorewrite with msgs. intros ->. by destruct w.
  - done.
  - rewrite proper_app, Hc, pending_put, (proper_cons exit_msg (pending cs)), app_nil_r. done.
  - done.
  - unfold clear_msg_queue in H0. simplify_eq. cbn [set_queue m_msg_queue in_hand] in *.
    rewrite Hc. fold (proper (m_msg_queue q)). cbn. solve_Permutation.
  - done.
  - unfold get_locked in H0. destruct (m_msg_queue q) as [|m l] eqn:E; [done|]. simplify_eq.
    rewrite Hc, (proper_cons msg l). cbn [set_queue m_msg_queue in_hand].
    destruct H as [->|[-> _]]; cbn [in_hand proper app]; solve_Permutation.
  - done.
  - rewrite Hc. cbn [in_hand]. rewrite proper_one. cbn. solve_Permutation.
Qed.

Lemma step_fifo sp s s' : step sp s s' → queue_inv s →
  ∃ rest, proper (accepted s') = handled s' ++ rest
    ∧ (worker s' ≠ W_done →
       rest = proper (in_hand (worker s')) ++ proper (m_msg_queue (queue s'))).
Proof.
  intros Hs [_ (rest & Ha & Hr) _ _].
  destruct Hs; cbn [queue worker callers given accepted handled destroyed] in *.
  - by exists rest.
  - by exists rest.
  - unfold put_locked in H. case_match; simplify_eq. cbn [set_queue m_msg_queue].
    exists (rest ++ proper [msg]). split; [by rewrite proper_app, Ha, app_assoc|].
    intros Hw. by rewrite (Hr Hw), proper_app, app_assoc.
  - unfold put_locked in H. case_match; simplify_eq. by exists rest.
  - exists rest. split; [done|]. intros Hne. by destruct w; apply Hr.
  - exists rest. split; [done|]. intros Hne. by apply Hr.
  - exists rest. split; [done|]. intros Hne. by apply Hr.
  - exists rest. split; [done|]. intros Hne. by apply Hr.
  - exists rest. by split.
  - exists rest. split; [done|]. intros Hne. by apply Hr.
  - unfold get_locked in H0. destruct (m_msg_queue q) as [|m l] eqn:E; [done|]. simplify_eq.
    exists rest. split; [done|]. intros _. cbn [set_queue m_msg_queue in_hand].
    rewrite Hr by (destruct H as [->|[-> _]]; done).
    rewrite (proper_cons msg l). destruct H as [->|[-> _]]; done.
  - exists rest. split; [done|]. intros Hne. by apply Hr.
  - exists (proper (m_msg_queue q)). rewrite Hr in Ha by done. cbn [in_hand] in Ha.
    rewrite proper_one in Ha. rewrite <- app_assoc. done.
Qed.

Lemma step_bound sp s s' : step sp s s' → queue_inv s →
  zlen (m_msg_queue (queue s')) <= Z.max 0 (m_max_queue_length (queue s')).
Proof.
  intros Hs [_ _ Hb _].
  destruct Hs; cbn [queue worker callers given accepted handled destroyed] in *; try done.
  - unfold put_locked in H. destruct (Z.ltb_spec (zlen (m_msg_queue q)) (m_max_queue_length q));
      simplify_eq. cbn [set_queue m_msg_queue m_max_queue_length]. len.
  - unfold put_locked in H. by case_match; simplify_eq.
  - unfold clear_msg_queue in H0. simplify_eq. cbn. change (zlen (@nil MessageItem)) with 0. lia.
  - unfold get_locked in H0. destruct (m_msg_queue q) as [|m l]; [done|]. simplify_eq.
    cbn [set_queue m_msg_queue m_max_queue_length]. len.
Qed.

(** A message that comes while the thread waits is signalled: the queue was empty. *)
Lemma step_wakeup sp s s' : step sp s s' → queue_inv s →
  worker s' = W_wait → m_msg_queue (queue s') ≠ [] → C_signal ∈ callers s'.
Proof.
  intros Hs [_ _ _ Hw].
  destruct Hs; cbn [queue worker callers given accepted handled destroyed] in *; try done; intros Ew Hq.
  - apply elem_of_cons. right. by apply Hw.
  - unfold put_locked in H. case_match; simplify_eq. cbn [set_queue m_msg_queue] in Hq.
    destruct (m_msg_queue q) as [|m l] eqn:E; [cbn; set_solver|].
    specialize (Hw eq_refl ltac:(done)). destruct (zlen _ =? 1); set_solver.
  - unfold put_locked in H. case_match; simplify_eq. specialize (Hw eq_refl Hq). set_solver.
  - by destruct w.
  - apply elem_of_cons. right. by apply Hw.
  - unfold get_waits in H. by destruct (m_msg_queue q).
Qed.

Lemma step_inv sp s s' : step sp s s' → queue_inv s → queue_inv s'.
Proof.
  intros Hs Hinv. split.
  - by eapply step_conserved.
  - by eapply step_fifo.
  - by eapply step_bound.
  - by eapply step_wakeup.
Qed.

Lemma reachable_inv sp max_count s : reachable sp max_count s → queue_inv s.
Proof.
  unfold reachable. assert (∀ s0, rtc (step sp) s0 s → queue_inv s0 → queue_inv s) as H.
  { intros s0. induction 1 as [|x y z Hxy _ IH]; [done|]. intros Hx. by eapply IH, step_inv. }
  intros Hr. eapply H; [exact Hr|apply queue_inv_started].
Qed.

(** C31: In every interleaving: no message is lost or duplicated (each one given is handled,
    in hand, queued, destroyed or on its way in), they are handled in the order in
    which they were accepted, and the queue never exceeds its length. *)
Theorem messages_conserved sp max_count s :
  reachable sp max_count s →
  proper (given s) ≡ₚ handled s ++ proper (in_hand (worker s)) ++ proper (m_msg_queue (queue s))
                      ++ destroyed s ++ proper (pending (callers s))
  ∧ (∃ rest, proper (accepted s) = handled s ++ rest)
  ∧ zlen (m_msg_queue (queue s)) <= Z.max 0 (m_max_queue_length (queue s)).
Proof. intros [H1 (rest & H2 & _) H3 _]%reachable_inv. eauto. Qed.

(** No wake-up is lost: while the thread waits and a message is queued, a caller is
    about to signal it. *)
Theorem no_lost_wakeup sp max_count s :
  reachable sp max_count s → worker s = W_wait → m_msg_queue (queue s) ≠ [] →
  C_signal ∈ callers s.
Proof. intros [_ _ _ H]%reachable_inv. exact H. Qed.

(** ** Stopping *)

(** A step of the threads that are there: nobody calls [put] or [stop] any more. *)
Definition settles (sp : bool) (s s' : state) : Prop := step sp s s' ∧ given s' = given s.

(** How much is left to do. *)
Definition rank (w : worker_pc) : nat :=
  match w with
  | W_get => 5 | W_wait => 4 | W_woken => 3 | W_msg _ => 2 | W_loop => 1 | W_done | W_fault => 0
  end.

Definition todo (cs : list caller_pc) : nat :=
  sum_list_with (λ c, match c with C_put _ => 2 | C_signal => 1 end)%nat cs.

Definition work (s : state) : nat := rank (worker s) + todo (callers s).

Lemma todo_app l k : todo (l ++ k) = (todo l + todo k)%nat.
Proof. apply sum_list_with_app. Qed.

Lemma longer_given {A} (g : list A) x : g ++ [x] ≠ g.
Proof. intros E%(f_equal length). rewrite length_app in E. cbn in E. lia. Qed.

Lemma settles_running sp s s' :
  settles sp s s' → m_is_running (queue s) = false → m_is_running (queue s') = false.
Proof.
  intros [Hs _] Hr. destruct Hs; cbn [queue] in *; try done;
    unfold put_locked, clear_msg_queue, get_locked in *; repeat case_match; simplify_eq; done.
Qed.

Lemma settles_work sp s s' :
  settles sp s s' → m_is_running (queue s) = false → (work s' < work s)%nat.
Proof.
  intros [Hs Hg] Hr. unfold work.
  destruct Hs; cbn [queue worker callers given] in *;
    try (by destruct (longer_given _ _ Hg)); rewrite ?todo_app; cbn [todo sum_list_with rank].
  - destruct signal; cbn; unfold todo; lia.
  - unfold todo; lia.
  - destruct w; cbn; unfold todo; lia.
  - lia.
  - congruence.
  - lia.
  - lia.
  - destruct H as [->|[-> _]]; cbn; lia.
  - lia.
  - lia.
Qed.

(** Once the queue is stopped, a thread that is about to wait has something to wait for. *)
Definition stop_inv (s : state) : Prop :=
  0 < m_max_queue_length (queue s)
  ∧ (m_is_running (queue s) = false → worker s = W_get ∨ worker s = W_wait →
     m_msg_queue (queue s) ≠ [] ∨ ∃ msg, C_put msg ∈ callers s).

Lemma step_stop_inv sp s s' : step sp s s' → stop_inv s → stop_inv s'.
Proof.
  intros Hs [Hm Hi]. unfold stop_inv.
  destruct Hs; cbn [queue worker callers] in *.
  - done.
  - split; [done|]. intros _ _. right. exists msg. by left.
  - unfold put_locked in H. case_match; simplify_eq. split; [done|]. intros _ _. left. cbn.
    by destruct (m_msg_queue q).
  - unfold put_locked in H.
    destruct (Z.ltb_spec (zlen (m_msg_queue q)) (m_max_queue_length q)) as [|Hfull]; [done|].
    injection H as <- <-. split; [done|]. intros _ _. left. intros E. rewrite E in Hfull.
    change (zlen (@nil MessageItem)) with 0 in Hfull. lia.
  - split; [done|]. intros Hr Hw. destruct w; (destruct Hw as [[=]|[=]]).
    destruct (Hi Hr) as [|(msg & Hmsg)]; [by left|by left|]. right. exists msg. set_solver.
  - split; [done|]. by intros _ [[=]|[=]].
  - split; [done|]. intros _ _. right. exists exit_msg. by left.
  - split; [done|congruence].
  - unfold clear_msg_queue in H0. simplify_eq. split; [done|]. by intros _ [[=]|[=]].
  - split; [done|]. intros Hr _. apply Hi; auto.
  - unfold get_locked in H0. destruct (m_msg_queue q); [done|]. simplify_eq. split; [done|].
    by intros _ [[=]|[=]].
  - split; [done|]. by intros _ [[=]|[=]].
  - split; [done|]. by intros _ [[=]|[=]].
Qed.

Lemma reachable_stop_inv sp max_count s : 0 < max_count → reachable sp max_count s → stop_inv s.
Proof.
  intros Hm Hr. unfold reachable in Hr.
  assert (∀ s0, rtc (step sp) s0 s → stop_inv s0 → stop_inv s) as H.
  { intros s0. induction 1 as [|x y z Hxy _ IH]; [done|]. intros Hx. by eapply IH, step_stop_inv. }
  by eapply H.
Qed.

(** A state in which no thread can move. *)
Definition at_rest (sp : bool) (s : state) : Prop := ∀ s', ¬ settles sp s s'.

Lemma at_rest_callers sp s : at_rest sp s → callers s = [].
Proof.
  intros Hn. destruct s as [q w cs g a h d]. destruct cs as [|[msg|] cs]; [done| |]; exfalso.
  - destruct (put_locked q msg) as [[[] signal] q'] eqn:E.
    + eapply Hn. split; [by apply (put_push sp q w [] cs g a h d msg signal q')|done].
    + eapply Hn. split; [by apply (put_full sp q w [] cs g a h d msg signal q')|done].
  - eapply Hn. split; [by apply (put_signal sp q w [] cs)|done].
Qed.

Lemma at_rest_worker sp s :
  queue_inv s → stop_inv s → m_is_running (queue s) = false → at_rest sp s →
  worker s = W_done ∨ worker s = W_fault.
Proof.
  intros [_ _ _ Hw] [_ Hi] Hr Hn. pose proof (at_rest_callers sp s Hn) as Hc.
  destruct s as [q w cs g a h d]. cbn [queue worker callers] in *. subst cs.
  assert (Htake : ∀ msg l, m_msg_queue q = msg :: l → get_locked q = Ok (msg, set_queue q l))
    by (intros msg l E; unfold get_locked; by rewrite E).
  destruct w; [| | | | |by left|by right]; exfalso.
  - destruct (clear_msg_queue q) as [d' q'] eqn:E. eapply Hn. split; [by eapply run_end|done].
  - destruct (m_msg_queue q) as [|msg l] eqn:E.
    + eapply Hn. split; [apply get_wait; unfold get_waits; by rewrite E|done].
    + eapply Hn. split; [eapply get_take; [right; split; [done|unfold get_waits; by rewrite E]|by apply Htake]|done].
  - destruct (Hi Hr) as [Hq|(msg & Hmsg)]; [by right| |by apply elem_of_nil in Hmsg].
    by apply (elem_of_nil C_signal), Hw.
  - destruct (m_msg_queue q) as [|msg l] eqn:E.
    + eapply Hn. split; [apply get_fault; unfold get_locked; by rewrite E|done].
    + eapply Hn. split; [eapply get_take; [by left|by apply Htake]|done].
  - eapply Hn. split; [apply run_handle|done].
Qed.

Lemma settles_sn sp s : m_is_running (queue s) = false → sn (settles sp) s.
Proof.
  remember (work s) as n eqn:E. revert s E.
  induction (lt_wf n) as [n _ IH]. intros s -> Hr. constructor. intros s' Hs.
  eapply (IH (work s')); [by eapply settles_work|done|by eapply settles_running].
Qed.

Lemma settles_reachable sp max_count s s' :
  reachable sp max_count s → rtc (settles sp) s s' → reachable sp max_count s'.
Proof.
  unfold reachable. intros Hr. induction 1 as [|x y z [Hxy _] _ IH]; [done|].
  apply IH. by eapply rtc_r.
Qed.

(** C32: [stop] returns: once it has been called and nobody calls [put] any more, every
    schedule of the threads comes to rest after finitely many steps, and then the thread
    that [pthread_join] waits for has ended (or the stale signal has led it to the read of
    an empty queue). *)
Theorem stop_ends sp max_count s :
  0 < max_count → reachable sp max_count s → m_is_running (queue s) = false →
  sn (settles sp) s
  ∧ ∀ s', rtc (settles sp) s s' → at_rest sp s' → worker s' = W_done ∨ worker s' = W_fault.
Proof.
  intros Hm Hr Hrun. split; [by apply settles_sn|]. intros s' Hs Hrest.
  pose proof (settles_reachable sp max_count s s' Hr Hs) as Hr'.
  apply (at_rest_worker sp); [by eapply reachable_inv|by eapply reachable_stop_inv| |done].
  clear Hr Hr' Hrest. induction Hs as [|x y z Hxy _ IH]; [done|]. by eapply IH, settles_running.
Qed.

(** ** Runs *)

Definition message (n : Z) : MessageItem := mkMessageItem n 0 0 0.

Definition running (l : list MessageItem) : SimpleMessageQueue :=
  {| m_initialized := true; m_max_queue_length := 2; m_is_running := true; m_msg_queue := l |}.

(** The signal of the first message comes when the thread has already taken it and
    waits for the next: [pthread_cond_wait] returns on an empty queue, which [get]
    does not check again. *)
Theorem stale_signal_faults : ∃ s, reachable false 2 s ∧ worker s = W_fault.
Proof.
  exists (mkState (running []) W_fault [] [message 1] [message 1] [message 1] []).
  split; [|done]. unfold reachable.
  eapply rtc_l. { by apply put_enter with (msg := message 1). }
  eapply rtc_l. { by apply (put_push false) with (cs1 := []) (cs2 := []). }
  eapply rtc_l. { by apply run_loop. }
  eapply rtc_l. { apply get_take; [right; split; reflexivity|reflexivity]. }
  eapply rtc_l. { apply run_handle. }
  eapply rtc_l. { by apply run_loop. }
  eapply rtc_l. { by apply get_wait. }
  eapply rtc_l. { by apply (put_signal false) with (cs1 := []) (cs2 := []). }
  eapply rtc_l. { by apply get_fault. }
  apply rtc_refl.
Qed.

(** The message is on the queue, its signal to come, and the thread waits. *)
Definition waiting : state :=
  mkState (running [message 1]) W_wait [C_signal] [message 1] [message 1] [] [].

Lemma waiting_reachable : reachable false 2 waiting.
Proof.
  unfold reachable.
  eapply rtc_l. { by apply run_loop. }
  eapply rtc_l. { by apply get_wait. }
  eapply rtc_l. { by apply put_enter with (msg := message 1). }
  eapply rtc_l. { by apply (put_push false) with (cs1 := []) (cs2 := []). }
  apply rtc_refl.
Qed.

Lemma messages_conserved_witness :
  reachable false 2 waiting ∧ proper (given waiting) ≡ₚ [message 1].
Proof.
  split; [exact waiting_reachable|].
  exact (proj1 (messages_conserved false 2 waiting waiting_reachable)).
Defined.

Lemma no_lost_wakeup_witness : reachable false 2 waiting ∧ C_signal ∈ callers waiting.
Proof.
  split; [exact waiting_reachable|].
  by apply (no_lost_wakeup false 2 waiting waiting_reachable).
Defined.

(** After [stop] a caller that passed the check before it still pushes its message,
    when the thread has cleared the queue and ended: nobody frees it. *)
Theorem message_stranded : ∃ s, reachable false 2 s
  ∧ worker s = W_done ∧ callers s = [C_signal]
  ∧ m_msg_queue (queue s) = [message 1].
Proof.
  exists (mkState (set_running (running [message 1]) true false) W_done [C_signal]
            [message 1; exit_msg] [exit_msg; message 1] [] []).
  split; [|done]. unfold reachable.
  eapply rtc_l. { by apply put_enter with (msg := message 1). }
  eapply rtc_l. { by apply stop_. }
  eapply rtc_l. { by apply (put_push false) with (cs1 := []) (cs2 := [C_put (message 1)]). }
  eapply rtc_l. { by apply (put_signal false) with (cs1 := []) (cs2 := [C_put (message 1)]). }
  eapply rtc_l. { by apply run_end. }
  eapply rtc_l. { by apply (put_push false) with (cs1 := []) (cs2 := []). }
  apply rtc_refl.
Qed.

(** The thread waits, [stop] has put its message, and is about to signal. *)
Definition stopping : state :=
  mkState (set_running (running [exit_msg]) true false) W_wait [C_signal] [exit_msg] [exit_msg] [] [].

Lemma stopping_reachable : reachable false 2 stopping.
Proof.
  unfold reachable.
  eapply rtc_l. { by apply run_loop. }
  eapply rtc_l. { by apply get_wait. }
  eapply rtc_l. { by apply stop_. }
  eapply rtc_l. { by apply (put_push false) with (cs1 := []) (cs2 := []). }
  apply rtc_refl.
Qed.

Lemma stop_ends_witness : sn (settles false) stopping
  ∧ ∃ s', rtc (settles false) stopping s' ∧ worker s' = W_done.
Proof.
  destruct (stop_ends false 2 stopping) as [H _]; [lia|exact stopping_reachable|done|].
  split; [exact H|].
  exists (mkState (set_running (running []) true false) W_done [] [exit_msg] [exit_msg] [] []).
  split; [|done].
  eapply rtc_l. { split; [by apply (put_signal false) with (cs1 := []) (cs2 := [])|done]. }
  eapply rtc_l. { split; [by apply get_take with (msg := exit_msg); [left|]|done]. }
  eapply rtc_l. { split; [apply run_handle|done]. }
  eapply rtc_l. { split; [by apply run_end|done]. }
  apply rtc_refl.
Defined.
