(* ===== verification/Logger.v ===== *)
(** * Logger: the application log

    Models [src/common/common_logger.h] and [.cpp] (the POSIX branch): the log tasks,
    the six calls, the file a line goes to, and the rotation of the files.  The
    directory is a finite map from path names to contents; the queue between the
    callers and the writing thread is that of MsgQueue.  Shown: the choice of a file
    ends and keeps the number of files bounded; each line goes behind the earlier ones
    of its file, whose size is tracked and bounded; what a call passes on of its
    message. *)

From S2P Require Import Prelude.
From S2P Require Import Utils.
From S2P Require Import MsgQueue.

Definition MSG_LOG_WRITE_TASK : Z := 1001.

Definition LOG_LEVEL_ERROR : Z := 1.
Definition LOG_LEVEL_WARNING : Z := 2.
Definition LOG_LEVEL_INFO : Z := 4.
Definition LOG_LEVEL_DEBUG : Z := 8.
Definition LOG_LEVEL_TRACE : Z := 16.
Definition LOG_LEVEL_VERBOSE : Z := 32.

Record LogTask := mkLogTask {
  m_file_name : list Z;
  m_line_number : Z;
  m_msg_type : list Z;
  m_message : list Z;
}.

Inductive LogType : Type := SYNC | ASYNC.

(** [m_file] is the path of the open file. *)
Record AppLogger := mkAppLogger {
  m_initialized : bool;
  m_prefix_name : list Z;
  m_log_directory : list Z;
  m_is_daily : bool;
  m_max_size : Z;
  m_max_file_count : Z;
  m_day : Z;
  m_seq : Z;
  m_log_file_path : list Z;
  m_file : option (list Z);
  m_printed_size : Z;
  m_log_type : LogType;
  m_queue : SimpleMessageQueue;
}.

(** The fields of [struct tm] that are used. *)
Record tm := mkTm {
  tm_year : Z; tm_mon : Z; tm_mday : Z; tm_hour : Z; tm_min : Z; tm_sec : Z;
}.

(** The directory tree: the contents of the files there are. *)
Notation fs := (gmap (list Z) (list Z)).

(** A C string ends at its first zero byte. *)
Fixpoint until_nul (s : list Z) : list Z :=
  match s with
  | [] => []
  | c :: s => if c =? 0 then [] else c :: until_nul s
  end.

Definition new_logger (strPrefixName : list Z) : AppLogger :=
  {| m_initialized := false;
     m_prefix_name := if 128 <? zlen strPrefixName then take 128 strPrefixName else strPrefixName;
     m_log_directory := []; m_is_daily := true; m_max_size := 4096; m_max_file_count := 100;
     m_day := 0; m_seq := 0; m_log_file_path := []; m_file := None; m_printed_size := 0;
     m_log_type := ASYNC; m_queue := new_queue (1024 * 20) |}.

(** [ret] is what [pthread_create] returns in [start]. *)
Definition initialize (ret : Z) (this : AppLogger) (strLogDirectory : list Z) (bDaily : bool)
    (nMaxSize nMaxFile : Z) : bool * AppLogger :=
  if m_initialized this then (true, this) else
  (true, {| m_initialized := true; m_prefix_name := m_prefix_name this;
            m_log_directory := strLogDirectory; m_is_daily := bDaily; m_max_size := nMaxSize;
            m_max_file_count := nMaxFile; m_day := m_day this; m_seq := m_seq this;
            m_log_file_path := m_log_file_path this; m_file := m_file this;
            m_printed_size := m_printed_size this; m_log_type := m_log_type this;
            m_queue := start ret (m_queue this) |}).

(** [stopped] is the queue after [stop], which waits for the thread. *)
Definition uninitialize (stopped : SimpleMessageQueue) (this : AppLogger) : bool * AppLogger :=
  if negb (m_initialized this) then (true, this) else
  (true, {| m_initialized := false; m_prefix_name := m_prefix_name this;
            m_log_directory := m_log_directory this; m_is_daily := m_is_daily this;
            m_max_size := m_max_size this; m_max_file_count := m_max_file_count this;
            m_day := m_day this; m_seq := m_seq this; m_log_file_path := m_log_file_path this;
            m_file := None;
            m_printed_size := match m_file this with Some _ => 0 | None => m_printed_size this end;
            m_log_type := m_log_type this; m_queue := stopped |}).

Definition set_log_type (this : AppLogger) (type : LogType) : AppLogger :=
  {| m_initialized := m_initialized this; m_prefix_name := m_prefix_name this;
     m_log_directory := m_log_directory this; m_is_daily := m_is_daily this;
     m_max_size := m_max_size this; m_max_file_count := m_max_file_count this;
     m_day := m_day this; m_seq := m_seq this; m_log_file_path := m_log_file_path this;
     m_file := m_file this; m_printed_size := m_printed_size this; m_log_type := type;
     m_queue := m_queue this |}.

(** ** The file of a line *)

(** Digits with a leading zero: [%.2d] and the fields of [strftime]. *)
Definition pad2 (n : Z) : list Z :=
  if n <? 10 then 48 :: common_to_string n else common_to_string n.

(** What [sprintf] writes to [szFileName]. *)
Definition log_file_name (this : AppLogger) (tmnow : tm) (seq : Z) : list Z :=
  if m_is_daily this then
    [47] ++ until_nul (m_prefix_name this) ++ [45] ++ common_to_string (tm_year tmnow + 1900)
      ++ [45] ++ pad2 (tm_mon tmnow + 1) ++ [45] ++ pad2 (tm_mday tmnow) ++ [46]
      ++ common_to_string seq ++ bytes_of ".log"
  else
    [47] ++ until_nul (m_prefix_name this) ++ [46] ++ common_to_string seq ++ bytes_of ".log".

(** The [do ... while] loop.  [szFileName] has 256 bytes, one for the end. *)
Fixpoint select_loop (fuel : nat) (this : AppLogger) (s : fs) (tmnow : tm) (seq : Z) (bLoop : bool)
    : outcome (Z * list Z) :=
  match fuel with
  | O => Hang
  | S fuel =>
      if m_max_file_count this =? 0 then Fault else
      let seq := Z.rem seq (m_max_file_count this) + 1 in
      let szFileName := log_file_name this tmnow seq in
      if 256 <=? zlen szFileName then Fault else
      let strLogFile := m_log_directory this ++ szFileName in
      match m_log_file_path this with
      | [] =>
          if bLoop then Ok (seq, strLogFile)
          else match s !! until_nul strLogFile with
               | None => Ok (seq, strLogFile)
               | Some _ => select_loop fuel this s tmnow seq (seq =? m_max_file_count this)
               end
      | _ => Ok (seq, strLogFile)
      end
  end.

(** Whether a line starts a new file. *)
Definition new_day (this : AppLogger) (tmnow : tm) : bool :=
  m_is_daily this && negb (m_day this =? tm_mday tmnow).

Definition needs_file (this : AppLogger) (tmnow : tm) : bool :=
  new_day this tmnow
  || (i32 (m_max_size this * 1024) <? m_printed_size this)
  || (m_max_file_count this <? m_seq this)
  || match m_file this with None => true | Some _ => false end.

Section Write.

(** [can_open path]: whether [fopen(path, "wb")] succeeds; [can_write] whether
    [fprintf] does; [tid] is the thread that writes. *)
Context (can_open : list Z → bool) (can_write : list Z → bool) (tid : Z).

(** The state after the file is chosen: the old file is closed, the new one emptied. *)
Definition open_file (this : AppLogger) (tmnow : tm) (seq : Z) (path : list Z) (s : fs)
    : AppLogger * fs :=
  let opened := can_open (until_nul path) in
  ({| m_initialized := m_initialized this; m_prefix_name := m_prefix_name this;
      m_log_directory := m_log_directory this; m_is_daily := m_is_daily this;
      m_max_size := m_max_size this; m_max_file_count := m_max_file_count this;
      m_day := if opened then tm_mday tmnow else m_day this; m_seq := seq;
      m_log_file_path := path; m_file := if opened then Some (until_nul path) else None;
      m_printed_size :=
        if opened then 0
        else match m_file this with Some _ => 0 | None => m_printed_size this end;
      m_log_type := m_log_type this; m_queue := m_queue this |},
   if opened then <[until_nul path := []]> s else s).

Definition rotate (this : AppLogger) (tmnow : tm) (s : fs) : outcome (AppLogger * fs) :=
  let seq := if new_day this tmnow || (m_max_file_count this <? m_seq this) then 0 else m_seq this in
  r ← select_loop (S (S (Z.to_nat (m_max_file_count this)))) this s tmnow seq false;
  let '(seq, strLogFile) := r in
  Ok (open_file this tmnow seq strLogFile s).

(** [strrchr(filename, '/') + 1], or all of it. *)
Fixpoint base_name (filename : list Z) : list Z :=
  match filename with
  | [] => []
  | c :: filename' =>
      if existsb (λ c, c =? 47) filename' then base_name filename'
      else if c =? 47 then filename' else filename
  end.

(** [strftime(szNow, 64, "[%y-%m-%d %H:%M:%S]", tmnow)]. *)
Definition time_stamp (t : tm) : list Z :=
  [91] ++ pad2 (tm_year t mod 100) ++ [45] ++ pad2 (tm_mon t + 1) ++ [45] ++ pad2 (tm_mday t)
  ++ [32] ++ pad2 (tm_hour t) ++ [58] ++ pad2 (tm_min t) ++ [58] ++ pad2 (tm_sec t) ++ [93].

(** ["%s%s[%ld] %s(%d):\t\t%s\r\n"]. *)
Definition log_line (tmnow : tm) (filename : list Z) (linenumber : Z) (msgtype strMessage : list Z)
    : list Z :=
  time_stamp tmnow ++ msgtype ++ [91] ++ common_to_string tid ++ [93; 32]
  ++ base_name filename ++ [40] ++ common_to_string linenumber ++ [41; 58; 9; 9]
  ++ strMessage ++ [13; 10].

(** [fprintf] to the open file. *)
Definition print_line (this : AppLogger) (line : list Z) (s : fs) : AppLogger * fs :=
  match m_file this with
  | None => (this, s)
  | Some path =>
      if can_write line then
        ({| m_initialized := m_initialized this; m_prefix_name := m_prefix_name this;
            m_log_directory := m_log_directory this; m_is_daily := m_is_daily this;
            m_max_size := m_max_size this; m_max_file_count := m_max_file_count this;
            m_day := m_day this; m_seq := m_seq this; m_log_file_path := m_log_file_path this;
            m_file := m_file this; m_printed_size := m_printed_size this + zlen line;
            m_log_type := m_log_type this; m_queue := m_queue this |},
         <[path := default [] (s !! path) ++ line]> s)
      else (this, s)
  end.

(** The C strings are given up to their end.  [now] is what [localtime_r] returns. *)
Definition write_log (this : AppLogger) (now : option tm) (filename : list Z) (linenumber : Z)
    (msgtype strMessage : list Z) (s : fs) : outcome (AppLogger * fs) :=
  match now with
  | None => Ok (this, s)
  | Some tmnow =>
      r ← (if needs_file this tmnow then rotate this tmnow s else Ok (this, s));
      let '(this, s) := r in
      Ok (print_line this (log_line tmnow filename linenumber msgtype strMessage) s)
  end.

(** [handle_msg]: the task of a message, if its allocation succeeded. *)
Definition handle_msg (this : AppLogger) (now : option tm) (msg : MessageItem)
    (task : option LogTask) (s : fs) : outcome (AppLogger * fs) :=
  if get_id msg =? MSG_LOG_WRITE_TASK then
    match task with
    | None => Fault
    | Some task =>
        write_log this now (until_nul (m_file_name task)) (m_line_number task)
          (until_nul (m_msg_type task)) (until_nul (m_message task)) s
    end
  else Ok (this, s).

(** ** The calls *)

(** [szLog] after [vsnprintf(szLog, 4000, ...)] of the formatted text. *)
Definition szLog (text : list Z) : list Z :=
  let written := take 3999 text in written ++ replicate (4096 - length written) 0.

(** What a call does: nothing, a line at once, or a task for the queue. *)
Inductive log_effect : Type :=
| Log_none
| Log_written (this : AppLogger) (s : fs)
| Log_queued (task : LogTask).

(** [info] and its sisters, which differ in [msgtype].  [text] is the formatted
    message and [nLog] its length, which [vsnprintf] returns; [LogTask] copies [nLog]
    bytes from [szLog]. *)
Definition log_call (msgtype : list Z) (this : AppLogger) (now : option tm) (filename : list Z)
    (line : Z) (text : list Z) (s : fs) : outcome log_effect :=
  let nLog := zlen text in
  if 0 <? nLog then
    match m_log_type this with
    | SYNC =>
        r ← write_log this now filename line msgtype (until_nul (szLog text)) s;
        Ok (Log_written r.1 r.2)
    | ASYNC =>
        message ← rd_range (szLog text) 0 nLog;
        Ok (Log_queued (mkLogTask filename line msgtype message))
    end
  else Ok Log_none.

Definition info := log_call (bytes_of "[I]").
Definition debug := log_call (bytes_of "[D]").
Definition warning := log_call (bytes_of "[W]").
Definition error := log_call (bytes_of "[E]").
Definition trace := log_call (bytes_of "[T]").
Definition verbose := log_call (bytes_of "[V]").

End Write.

(** The macros: whether a call is made at the level that is set. *)
Definition level_enabled (g_log_level level : Z) : bool := level <=? g_log_level.

(** ** Specification *)

(** A logger with a file count, whose prefix the constructor bounded. *)
Definition logger_ok (this : AppLogger) : Prop :=
  zlen (m_prefix_name this) <= 128 ∧ 1 <= m_max_file_count this < 2 ^ 31 ∧ 0 <= m_seq this.

Definition tm_ok (t : tm) : Prop :=
  - 2 ^ 31 <= tm_year t + 1900 < 2 ^ 31 ∧ 0 <= tm_mon t < 12 ∧ 1 <= tm_mday t <= 31.

#[global] Instance logger_ok_dec this : Decision (logger_ok this).
Proof. unfold logger_ok. apply _. Defined.
#[global] Instance tm_ok_dec t : Decision (tm_ok t).
Proof. unfold tm_ok. apply _. Defined.

(** The open file is there, and its size is what was counted. *)
Definition file_ok (this : AppLogger) (s : fs) : Prop :=
  match m_file this with
  | Some p => ∃ c, s !! p = Some c ∧ zlen c = m_printed_size this
  | None => True
  end.

(** The path of the [k]-th file. *)
Definition log_path (this : AppLogger) (t : tm) (k : Z) : list Z :=
  until_nul (m_log_directory this ++ log_file_name this t k).

(** ** The choice of a file *)

Lemma digits_length fuel : ∀ n acc k,
  0 <= n < 10 ^ k → 1 <= k → zlen (digits fuel n acc) <= zlen acc + k.
Proof.
  induction fuel as [|fuel IH]; intros n acc k Hn Hk; cbn [digits]; [lia|].
  destruct (Z.ltb_spec n 10); [len|].
  assert (k ≠ 1) by (intros ->; lia).
  assert (0 <= n / 10 < 10 ^ (k - 1)).
  { replace k with (k - 1 + 1) in Hn by lia. rewrite Z.pow_add_r in Hn by lia.
    split; [apply Z.div_pos; lia|apply Z.div_lt_upper_bound; lia]. }
  pose proof (IH (n / 10) ((48 + n mod 10) :: acc) (k - 1)). len.
Qed.

Lemma int_length n : - 2 ^ 31 <= n < 2 ^ 31 → zlen (common_to_string n) <= 11.
Proof.
  intros Hn. unfold common_to_string. destruct (Z.ltb_spec n 0).
  - pose proof (digits_length (S (Z.to_nat (Z.log2 (- n)))) (- n) [] 10). len.
  - pose proof (digits_length (S (Z.to_nat (Z.log2 n))) n [] 10). len.
Qed.

Lemma pad2_length n : 0 <= n < 100 → zlen (pad2 n) <= 3.
Proof.
  intros Hn. unfold pad2, common_to_string. replace (n <? 0) with false by (symmetry; apply Z.ltb_ge; lia).
  pose proof (digits_length (S (Z.to_nat (Z.log2 n))) n [] 2). case_match; len.
Qed.

Lemma until_nul_length s : zlen (until_nul s) <= zlen s.
Proof. induction s as [|c s IH]; cbn [until_nul]; [len|]. case_match; len. Qed.

(** The name fits in [szFileName]. *)
Lemma log_file_name_fits this t k :
  logger_ok this → tm_ok t → 0 <= k < 2 ^ 31 → zlen (log_file_name this t k) < 256.
Proof.
  intros (Hp & _) (Hy & Hm & Hd) Hk. unfold log_file_name.
  pose proof (until_nul_length (m_prefix_name this)). pose proof (int_length k).
  pose proof (int_length (tm_year t + 1900)). pose proof (pad2_length (tm_mon t + 1)).
  pose proof (pad2_length (tm_mday t)). change (bytes_of ".log") with [46; 108; 111; 103].
  case_match; len.
Qed.

(** Which number the loop ends with.  With a path from before, the next one; without,
    the first behind [seq] that is free, or 1 when none up to the last is. *)
Definition chosen (this : AppLogger) (s : fs) (t : tm) (seq k : Z) : Prop :=
  match m_log_file_path this with
  | [] => (seq < k ∧ s !! log_path this t k = None
           ∧ ∀ j, seq < j < k → is_Some (s !! log_path this t j))
          ∨ (k = 1 ∧ ∀ j, seq < j <= m_max_file_count this → is_Some (s !! log_path this t j))
  | _ => k = seq + 1
  end.

Lemma select_loop_spec this s t : logger_ok this → tm_ok t →
  ∀ fuel seq, 0 <= seq < m_max_file_count this →
  (Z.to_nat (m_max_file_count this - seq) < fuel)%nat →
  ∃ k, select_loop fuel this s t seq false = Ok (k, m_log_directory this ++ log_file_name this t k)
    ∧ 1 <= k <= m_max_file_count this ∧ chosen this s t seq k.
Proof.
  intros Hok Ht. assert (Hm := proj1 (proj2 Hok)).
  induction fuel as [|fuel IH]; intros seq Hs Hf; [lia|]. cbn [select_loop].
  rewrite Z.rem_small by lia. dec_if. pose proof (log_file_name_fits this t (seq + 1) Hok Ht). dec_if.
  unfold chosen, log_path in *. destruct (m_log_file_path this) as [|c path] eqn:Ep.
  2: { exists (seq + 1). split; [done|]. split; [lia|done]. }
  destruct (s !! until_nul (m_log_directory this ++ log_file_name this t (seq + 1))) eqn:Es.
  2: { exists (seq + 1). split; [done|]. split; [lia|]. left. split; [lia|]. split; [done|]. lia. }
  destruct (Z.eqb_spec (seq + 1) (m_max_file_count this)) as [He|He].
  - destruct fuel as [|fuel]; [lia|]. cbn [select_loop]. dec_if.
    rewrite He, Z.rem_same by lia. change (0 + 1) with 1. pose proof (log_file_name_fits this t 1 Hok Ht).
    dec_if. rewrite Ep. exists 1. split; [done|]. split; [lia|]. right. split; [done|].
    intros j Hj. replace j with (seq + 1) by lia. by rewrite Es.
  - destruct (IH (seq + 1)) as (k & -> & Hk & Hc); [lia..|]. exists k. split; [done|]. split; [done|].
    destruct Hc as [(H1 & H2 & H3)|[H1 H2]]; [left|right].
    + split; [lia|]. split; [done|]. intros j Hj. destruct (decide (j = seq + 1)) as [->|].
      * by rewrite Es.
      * apply H3. lia.
    + split; [done|]. intros j Hj. destruct (decide (j = seq + 1)) as [->|]; [by rewrite Es|].
      apply H2. lia.
Qed.

(** ** Writing *)

Section Proofs.
Context (can_open : list Z → bool) (can_write : list Z → bool) (tid : Z).

Definition start_seq (this : AppLogger) (t : tm) : Z :=
  (if new_day this t || (m_max_file_count this <? m_seq this) then 0 else m_seq this)
    mod m_max_file_count this.

Lemma select_start this s t seq fuel : logger_ok this → tm_ok t → 0 <= seq →
  (Z.to_nat (m_max_file_count this) < fuel)%nat →
  select_loop fuel this s t seq false = select_loop fuel this s t (seq mod m_max_file_count this) false.
Proof.
  intros (_ & Hm & _) _ Hs Hf. destruct fuel as [|fuel]; [lia|]. cbn [select_loop].
  pose proof (Z.mod_pos_bound seq (m_max_file_count this)).
  by rewrite (Z.rem_mod_nonneg seq), (Z.rem_small (seq mod _)) by lia.
Qed.

(** The rotation ends, with a number within the count and the file it opens empty. *)
Lemma rotate_spec this t s :
  logger_ok this → tm_ok t →
  ∃ k, 1 <= k <= m_max_file_count this ∧ chosen this s t (start_seq this t) k
    ∧ rotate can_open this t s
      = Ok (open_file can_open this t k (m_log_directory this ++ log_file_name this t k) s).
Proof.
  intros Hok Ht. assert (Hok' := Hok). destruct Hok' as (_ & Hm & Hs). unfold rotate.
  set (seq := if _ || _ then 0 else m_seq this).
  assert (0 <= seq) by (unfold seq; case_match; lia).
  rewrite select_start by (done || lia).
  destruct (select_loop_spec this s t Hok Ht (S (S (Z.to_nat (m_max_file_count this))))
              (seq mod m_max_file_count this)) as (k & -> & Hk & Hc).
  - apply Z.mod_pos_bound. lia.
  - pose proof (Z.mod_pos_bound seq (m_max_file_count this)). lia.
  - exists k. split; [done|]. split; [exact Hc|]. done.
Qed.

(** What a line does to the logger and the files. *)
Record line_written (this : AppLogger) (t : tm) (line : list Z) (s : fs) (this' : AppLogger) (s' : fs)
    : Prop := {
  lw_logger : logger_ok this';
  lw_file : file_ok this' s';
  (* the line stands behind what the file held, or alone in a new file *)
  lw_line : ∀ p, m_file this' = Some p → can_write line = true →
    ∃ c, s' !! p = Some (c ++ line)
      ∧ (if needs_file this t then c = [] else m_file this = Some p ∧ s !! p = Some c);
  (* no other file is touched *)
  lw_others : ∀ q, m_file this' ≠ Some q → s' !! q = s !! q;
  (* files stay within the count *)
  lw_count : ∀ q, is_Some (s' !! q) → is_Some (s !! q)
    ∨ ∃ k, 1 <= k <= m_max_file_count this ∧ q = log_path this t k;
  (* the size limit is exceeded by at most one line *)
  lw_size : m_file this' ≠ None →
    m_printed_size this' <= Z.max 0 (i32 (m_max_size this * 1024)) + zlen line;
  (* a file that can be opened is open *)
  lw_open : (∀ q, can_open q = true) → is_Some (m_file this');
}.

Lemma print_line_spec this t line s this1 s1 :
  (* the state after the choice of the file *)
  logger_ok this1 → file_ok this1 s1 →
  (∀ p, m_file this1 = Some p →
     if needs_file this t then s1 !! p = Some [] else m_file this = Some p ∧ s1 !! p = s !! p) →
  (∀ q, m_file this1 ≠ Some q → s1 !! q = s !! q) →
  (∀ q, is_Some (s1 !! q) → is_Some (s !! q)
    ∨ ∃ k, 1 <= k <= m_max_file_count this ∧ q = log_path this t k) →
  (m_file this1 ≠ None → m_printed_size this1 <= Z.max 0 (i32 (m_max_size this * 1024))) →
  ((∀ q, can_open q = true) → is_Some (m_file this1)) →
  let r := print_line can_write this1 line s1 in line_written this t line s r.1 r.2.
Proof.
  intros Hok Hf Hp Ho Hc Hs Hopen. unfold print_line, file_ok in *.
  pose proof (zlen_nonneg line).
  destruct (m_file this1) as [p|] eqn:Ef; cbn [fst snd].
  2: { constructor; try done; rewrite ?Ef; try done. unfold file_ok. by rewrite Ef. }
  destruct Hf as (c & Ec & El). specialize (Hp p eq_refl). specialize (Hs ltac:(done)).
  destruct (can_write line) eqn:Ew; cbn [fst snd].
  - constructor; cbn; try done.
    + unfold file_ok; cbn. rewrite ?Ef, Ec. cbn. exists (c ++ line).
      split; [by rewrite lookup_insert_eq|]. len.
    + intros p' E _. rewrite ?Ef in E. injection E as <-. rewrite Ec. cbn. exists c.
      split; [by rewrite lookup_insert_eq|]. destruct (needs_file this t).
      * rewrite Ec in Hp. by injection Hp.
      * destruct Hp as [? Hp]. split; [done|]. by rewrite <- Hp.
    + intros q Hq. rewrite ?Ef in Hq. rewrite lookup_insert_ne by congruence. apply Ho. done.
    + intros q Hq. apply Hc. destruct (decide (q = p)) as [->|]; [by eexists|].
      by rewrite lookup_insert_ne in Hq by done.
    + intros _. lia.
  - constructor; rewrite ?Ef; try done.
    + unfold file_ok. rewrite ?Ef. eauto.
    + intros p' _ Hw. congruence.
    + intros _. lia.
Qed.

(** A line, from the test for a new file to the count of its bytes. *)
Lemma write_log_spec this t filename linenumber msgtype strMessage s :
  logger_ok this → tm_ok t → file_ok this s →
  ∃ this' s', write_log can_open can_write tid this (Some t) filename linenumber msgtype strMessage s
      = Ok (this', s')
    ∧ line_written this t (log_line tid t filename linenumber msgtype strMessage) s this' s'.
Proof.
  intros Hok Ht Hf. unfold write_log. set (line := log_line _ _ _ _ _ _).
  destruct (needs_file this t) eqn:En.
  - destruct (rotate_spec this t s Hok Ht) as (k & Hk & _ & ->). step_bind.
    set (r := open_file _ _ _ _ _ _). destruct r as [this1 s1] eqn:Er.
    pose proof (print_line_spec this t line s this1 s1) as H. cbv zeta in H. rewrite En in H.
    destruct (print_line can_write this1 line s1) as [this' s'] eqn:E. exists this', s'.
    split; [by rewrite ?E|]. unfold r, open_file in Er.
    assert (logger_ok this1) as Hok1 by (injection Er as <- <-; destruct Hok as (? & ? & ?); repeat split; cbn; lia).
    change (until_nul (m_log_directory this ++ log_file_name this t k)) with (log_path this t k) in Er.
    apply H; clear H; try done; destruct (can_open (log_path this t k)) eqn:Eo;
      injection Er as <- <-; unfold file_ok; cbn; try done.
    + exists []. by rewrite lookup_insert_eq.
    + intros p [= <-]. by rewrite lookup_insert_eq.
    + intros q Hq. by rewrite lookup_insert_ne by congruence.
    + intros q Hq. destruct (decide (q = log_path this t k)) as [->|Hne]; [by right; exists k|].
      rewrite lookup_insert_ne in Hq by done. by left.
    + intros q Hq. by left.
    + intros _. lia.
    + intros Hall. by rewrite Hall in Eo.
  - step_bind. pose proof (print_line_spec this t line s this s) as H. cbv zeta in H. rewrite En in H.
    destruct (print_line can_write this line s) as [this' s'] eqn:E. exists this', s'.
    split; [by rewrite ?E|]. unfold needs_file in En.
    apply orb_false_iff in En as [[[_ En]%orb_false_iff _]%orb_false_iff Ef].
    apply H; try done.
    + intros q Hq. by left.
    + intros _. apply Z.ltb_ge in En. lia.
    + intros _. destruct (m_file this); [by eexists|done].
Qed.

(** The files of a round: those of one day when the names carry the day, else all. *)
Definition round_files (this : AppLogger) (t : tm) : gset (list Z) :=
  list_to_set (log_path this t <$> seqZ 1 (m_max_file_count this)).

Lemma round_files_size this t :
  logger_ok this → Z.of_nat (size (round_files this t)) <= m_max_file_count this.
Proof.
  intros (_ & Hm & _). unfold round_files.
  assert (H : ∀ l : list (list Z), (size (list_to_set l : gset (list Z)) <= length l)%nat).
  { induction l as [|x l IH]; [by rewrite list_to_set_nil, size_empty|].
    rewrite list_to_set_cons. cbn [length]. rewrite size_union_alt.
    assert (size ((list_to_set l : gset (list Z)) ∖ {[x]}) <= size (list_to_set l : gset (list Z)))%nat
      by (apply subseteq_size; set_solver).
    rewrite size_singleton. lia. }
  specialize (H (log_path this t <$> seqZ 1 (m_max_file_count this))).
  rewrite length_fmap, length_seqZ in H. lia.
Qed.

(** C33: Each line is handled to the end: it goes behind the earlier ones of its file, the
    other files stay as they are, and a file exceeds the size limit by at most one line.  A
    file that is new is one of the round, which has at most as many as the count; for a
    logger that is not daily the round is the same at all times, so the count bounds all
    its files, and for a daily one those of a day. *)
Theorem write_log_correct this t filename linenumber msgtype strMessage s :
  logger_ok this → tm_ok t → file_ok this s →
  (∃ this' s', write_log can_open can_write tid this (Some t) filename linenumber msgtype strMessage s
      = Ok (this', s')
    ∧ line_written this t (log_line tid t filename linenumber msgtype strMessage) s this' s'
    ∧ dom s' ⊆ dom s ∪ round_files this t)
  ∧ Z.of_nat (size (round_files this t)) <= m_max_file_count this
  ∧ (m_is_daily this = false → ∀ t', round_files this t' = round_files this t).
Proof.
  intros Hok Ht Hf. split; [|split; [by apply round_files_size|]].
  - destruct (write_log_spec this t filename linenumber msgtype strMessage s Hok Ht Hf)
      as (this' & s' & E & Hw).
    exists this', s'. split; [exact E|]. split; [done|]. intros q Hq. apply elem_of_dom in Hq.
    apply elem_of_union. destruct (lw_count _ _ _ _ _ _ Hw q Hq) as [H|(k & Hk & ->)].
    + left. by apply elem_of_dom.
    + right. apply elem_of_list_to_set. apply list_elem_of_fmap_2. apply elem_of_seqZ. lia.
  - intros Hd t'. unfold round_files, log_path, log_file_name. by rewrite Hd.
Qed.

(** The choice of a file ends: the next number of the round, or, for the first file of
    a logger, the first number that is free; when none is, the first file is reused. *)
Theorem rotate_correct this t s :
  logger_ok this → tm_ok t →
  ∃ k, 1 <= k <= m_max_file_count this ∧ chosen this s t (start_seq this t) k
    ∧ rotate can_open this t s
      = Ok (open_file can_open this t k (m_log_directory this ++ log_file_name this t k) s).
Proof. apply rotate_spec. Qed.

(** ** Calls *)

Lemma until_nul_app s r : 0 ∉ s → until_nul (s ++ 0 :: r) = s.
Proof.
  induction s as [|c s IH]; intros H; [done|]. apply not_elem_of_cons in H as [H1 H2]. cbn.
  rewrite (proj2 (Z.eqb_neq c 0)) by done. by rewrite IH.
Qed.

Lemma until_nul_id s : 0 ∉ s → until_nul s = s.
Proof.
  induction s as [|c s IH]; intros H; [done|]. apply not_elem_of_cons in H as [H1 H2]. cbn.
  rewrite (proj2 (Z.eqb_neq c 0)) by done. by rewrite IH.
Qed.

Lemma length_szLog text : zlen (szLog text) = 4096.
Proof. unfold szLog, zlen. rewrite length_app, length_replicate, length_take. lia. Qed.

(** The part of [szLog] a task copies, as the C string it is written as. *)
Lemma szLog_message text :
  0 ∉ text → 0 < zlen text <= 4096 →
  ∃ message, rd_range (szLog text) 0 (zlen text) = Ok message
    ∧ until_nul message = take 3999 text ∧ until_nul (szLog text) = take 3999 text.
Proof.
  intros Hn Hl. rewrite rd_range_in by (rewrite ?length_szLog; lia). eexists. split; [done|].
  assert (0 ∉ take 3999 text) as Hn'.
  { intros H. apply Hn. rewrite <- (take_drop 3999 text). apply elem_of_app. by left. }
  change (Z.to_nat 0) with 0%nat. rewrite drop_0. unfold szLog. rewrite length_take.
  replace (4096 - 3999 `min` length text)%nat with (S (4095 - 3999 `min` length text)) by lia.
  cbn [replicate]. split; [|by apply until_nul_app].
  destruct (Nat.le_gt_cases (length text) 3999) as [Hle|Hgt].
  - rewrite (take_ge text 3999) by lia. unfold zlen. rewrite Nat2Z.id, take_app_length. apply until_nul_id.
    by rewrite (take_ge text 3999) in Hn' by lia.
  - rewrite take_app_ge by (rewrite length_take; unfold zlen; lia).
    assert (∃ d, Z.to_nat (zlen text) - length (take 3999 text) = S d)%nat as [d ->].
    { exists (Z.to_nat (zlen text) - length (take 3999 text) - 1)%nat. rewrite length_take. unfold zlen. lia. }
    cbn [take]. by apply until_nul_app.
Qed.

(** A message of up to 4096 bytes is written the same way at once or by the thread:
    its first 3999 bytes. *)
Theorem async_as_sync msgtype this now filename line text s :
  0 ∉ text → 0 < zlen text <= 4096 → 0 ∉ filename → 0 ∉ msgtype →
  let w := write_log can_open can_write tid this now filename line msgtype (take 3999 text) s in
  (m_log_type this = SYNC →
   log_call can_open can_write tid msgtype this now filename line text s
   = (r ← w; Ok (Log_written r.1 r.2)))
  ∧ (m_log_type this = ASYNC →
     ∃ task, log_call can_open can_write tid msgtype this now filename line text s = Ok (Log_queued task)
       ∧ ∀ p, handle_msg can_open can_write tid this now (mkMessageItem MSG_LOG_WRITE_TASK 0 0 p)
                (Some task) s = w).
Proof.
  intros Hn Hl Hf Hm w. unfold log_call. dec_if.
  destruct (szLog_message text Hn Hl) as (message & E1 & E2 & E3).
  split; intros ->.
  - by rewrite E3.
  - rewrite E1. eexists. split; [reflexivity|]. intros p. unfold handle_msg. cbn.
    by rewrite E2, !until_nul_id by done.
Qed.

(** A message of more than 4096 bytes: the task copies the length that [vsnprintf]
    would have needed, from beyond the buffer. *)
Theorem long_message_faults msgtype this now filename line text s :
  m_log_type this = ASYNC → 4096 < zlen text →
  log_call can_open can_write tid msgtype this now filename line text s = Fault.
Proof.
  intros Ha Hl. unfold log_call. dec_if. rewrite Ha. unfold rd_range.
  rewrite length_szLog. pose proof (zlen_nonneg text). repeat dec_if. done.
Qed.

End Proofs.

(** ** Witnesses *)

Definition sample_logger : AppLogger :=
  (initialize 0 (new_logger (bytes_of "rtc")) (bytes_of "log") true 1 2).2.

Definition sample_time : tm := mkTm 124 0 31 23 59 58.

Definition sample_fs : fs := {[ bytes_of "log/rtc-2024-01-31.1.log" := [120] ]}.

Lemma write_log_correct_witness :
  ∃ this' s', write_log (λ _, true) (λ _, true) 7 sample_logger (Some sample_time)
      (bytes_of "src/main.cpp") 12 (bytes_of "[I]") (bytes_of "hello") sample_fs = Ok (this', s')
    ∧ line_written (λ _, true) (λ _, true) sample_logger sample_time
        (bytes_of "[24-01-31 23:59:58][I][7] main.cpp(12):" ++ [9; 9] ++ bytes_of "hello" ++ [13; 10])
        sample_fs this' s'
    ∧ dom s' ⊆ dom sample_fs ∪ round_files sample_logger sample_time.
Proof.
  apply (write_log_correct (λ _, true) (λ _, true) 7 sample_logger sample_time
           (bytes_of "src/main.cpp") 12 (bytes_of "[I]") (bytes_of "hello") sample_fs);
    [by apply (bool_decide_unpack _); vm_compute|by apply (bool_decide_unpack _); vm_compute|exact I].
Defined.

(** One line on each of three days, with a count of two files: there are three. *)
Definition three_days : outcome nat :=
  let write this d s := write_log (λ _, true) (λ _, true) 7 this (Some (mkTm 124 0 d 8 0 0))
                          (bytes_of "main.cpp") 1 (bytes_of "[I]") (bytes_of "hello") s in
  r ← write sample_logger 1 ∅; r ← write r.1 2 r.2; r ← write r.1 3 r.2; Ok (size r.2).

Theorem daily_count_is_per_day : m_max_file_count sample_logger = 2 ∧ three_days = Ok 3%nat.
Proof. split; vm_compute; reflexivity. Qed.

Lemma rotate_correct_witness :
  ∃ k, 1 <= k <= 2 ∧ chosen sample_logger sample_fs sample_time 0 k
    ∧ rotate (λ _, true) sample_logger sample_time sample_fs
      = Ok (open_file (λ _, true) sample_logger sample_time k
              (bytes_of "log" ++ log_file_name sample_logger sample_time k) sample_fs).
Proof.
  apply (rotate_correct (λ _, true) sample_logger sample_time sample_fs);
    by apply (bool_decide_unpack _); vm_compute.
Defined.

Lemma async_as_sync_witness :
  ∃ task, info (λ _, true) (λ _, true) 7 sample_logger (Some sample_time) (bytes_of "a.cpp") 1
      (bytes_of "hi") sample_fs = Ok (Log_queued task)
    ∧ ∀ p, handle_msg (λ _, true) (λ _, true) 7 sample_logger (Some sample_time)
             (mkMessageItem MSG_LOG_WRITE_TASK 0 0 p) (Some task) sample_fs
           = write_log (λ _, true) (λ _, true) 7 sample_logger (Some sample_time) (bytes_of "a.cpp") 1
               (bytes_of "[I]") (bytes_of "hi") sample_fs.
Proof.
  apply (async_as_sync (λ _, true) (λ _, true) 7 (bytes_of "[I]") sample_logger (Some sample_time)
           (bytes_of "a.cpp") 1 (bytes_of "hi") sample_fs); try reflexivity;
    [by apply (bool_decide_unpack _); vm_compute|split; [reflexivity|vm_compute; discriminate]
    |by apply (bool_decide_unpack _); vm_compute|by apply (bool_decide_unpack _); vm_compute].
Defined.

Lemma long_message_faults_witness :
  info (λ _, true) (λ _, true) 7 sample_logger None [] 1 (replicate 4097 65) ∅ = Fault.
Proof.
  apply (long_message_faults (λ _, true) (λ _, true) 7 (bytes_of "[I]") sample_logger None [] 1
           (replicate 4097 65) ∅); reflexivity.
Defined.
