(* ===== verification/Command.v ===== *)
(** * Command: the texts of the signalling protocol

    Models [src/application/app_command.h], [app_command.cpp], [app_util.cpp] and
    [app_error.h].  A [std::map] of strings is the list of its entries in the order
    of the keys. *)

From S2P Require Import Prelude.
From S2P Require Import Utils.
From S2P Require Import Json.

Definition OK : Z := 200.
Definition REQUEST_INVALID : Z := 400.
Definition RESOURCE_NOT_FOUND : Z := 404.
Definition SERVER_ERROR : Z := 500.

Definition TYPE_CONFERENCE_CREATE : Z := 1000.
Definition TYPE_CONFERENCE_JOIN : Z := 1001.
Definition TYPE_CONFERENCE_NEW_JOINED : Z := 1002.
Definition TYPE_CONFERENCE_PULL_STREAM : Z := 1100.
Definition TYPE_CONFERENCE_STOP_PULLING : Z := 1101.
Definition TYPE_CONFERENCE_EXIT : Z := 1200.
Definition TYPE_CONFERENCE_USER_GONE : Z := 1201.
Definition TYPE_CONFERENCE_STOP : Z := 1202.
Definition TYPE_CONFERENCE_CLOSING : Z := 1203.
Definition TYPE_CONFERENCE_ONLINE_USERS : Z := 2000.
Definition TYPE_CONFERENCE_KICK_OUT : Z := 2001.
Definition TYPE_CONFERENCE_HEARTBEAT : Z := 3000.

Definition ERROR_INVALID_PARAMS : Z := -1.
Definition ERROR_REACH_MAX_API_LIMIT : Z := -2.
Definition ERROR_WEBSOCKET_NOT_INIT : Z := -100.
Definition ERROR_WEBSOCKET_NOT_CONNECTED : Z := -101.
Definition ERROR_CONFERENCE_NOT_JOINED : Z := -200.
Definition ERROR_CONFERENCE_ALREADY_JOINED : Z := -201.

Definition cmdtype_to_string (cmdType : Z) : list Z :=
  if cmdType =? TYPE_CONFERENCE_CREATE then bytes_of "TYPE_CONFERENCE_CREATE"
  else if cmdType =? TYPE_CONFERENCE_JOIN then bytes_of "TYPE_CONFERENCE_JOIN"
  else if cmdType =? TYPE_CONFERENCE_PULL_STREAM then bytes_of "TYPE_CONFERENCE_PULL_STREAM"
  else if cmdType =? TYPE_CONFERENCE_STOP_PULLING then bytes_of "TYPE_CONFERENCE_STOP_PULLING"
  else if cmdType =? TYPE_CONFERENCE_EXIT then bytes_of "TYPE_CONFERENCE_EXIT"
  else if cmdType =? TYPE_CONFERENCE_STOP then bytes_of "TYPE_CONFERENCE_STOP"
  else if cmdType =? TYPE_CONFERENCE_ONLINE_USERS then bytes_of "TYPE_CONFERENCE_ONLINE_USERS"
  else if cmdType =? TYPE_CONFERENCE_HEARTBEAT then bytes_of "TYPE_CONFERENCE_HEARTBEAT"
  else bytes_of "Unknown command type".

(** [get_new_uuid]: the identifier, and the generator after the call. *)
Definition get_new_uuid (g_uuid_generator : Z) : list Z * Z :=
  let g := u64 (g_uuid_generator + 1) in (common_to_string g, g).

Section command.
Context {double : Type} (print_double : double → list Z).

(** [for (it = params.begin(); ...) paramsJson[it->first] = it->second]. *)
Fixpoint params_json (paramsJson : JsonObject double) (params : list (list Z * list Z))
    : JsonObject double :=
  match params with
  | [] => paramsJson
  | (k, v) :: params => params_json (assign_key paramsJson k (T_STRING v)) params
  end.

(** A [JsonObject] as the value of a member. *)
Definition object_value (o : JsonObject double) : JsonValue double :=
  T_OBJ (m_is_array o) (m_members o).

Definition request_object (cmd : Z) (uuid : list Z) (params : JsonObject double)
    : JsonObject double :=
  let json := assign_key new_object (bytes_of "opcode") (T_STRING (common_to_string cmd)) in
  let json := assign_key json (bytes_of "request") (T_STRING (bytes_of "true")) in
  let json := assign_key json (bytes_of "uuid") (T_STRING uuid) in
  assign_key json (bytes_of "params") (object_value params).

Definition response_object (code msg : list Z) (cmd : Z) (uuid : list Z)
    (params : JsonObject double) : JsonObject double :=
  let json := assign_key new_object (bytes_of "code") (T_STRING code) in
  let json := assign_key json (bytes_of "msg") (T_STRING msg) in
  let json := assign_key json (bytes_of "request") (T_STRING (bytes_of "false")) in
  let json := assign_key json (bytes_of "opcode") (T_STRING (common_to_string cmd)) in
  let json := assign_key json (bytes_of "uuid") (T_STRING uuid) in
  assign_key json (bytes_of "params") (object_value params).

(** The text, or the empty string when the object cannot be written. *)
Definition written (json : JsonObject double) : outcome (list Z) :=
  r ← write_to_string print_double json;
  Ok match r.1 with Some result => result | None => [] end.

(** [app_get_request] with a [JsonObject]. *)
Definition app_get_request_json (cmd : Z) (uuid : list Z) (params : JsonObject double)
    : outcome (list Z) := written (request_object cmd uuid params).

(** [app_get_request] with a [std::map]. *)
Definition app_get_request (cmd : Z) (uuid : list Z) (params : list (list Z * list Z))
    : outcome (list Z) := written (request_object cmd uuid (params_json new_object params)).

Definition app_get_response (code msg : list Z) (cmd : Z) (uuid : list Z)
    (params : list (list Z * list Z)) : outcome (list Z) :=
  written (response_object code msg cmd uuid (params_json new_object params)).

(** ** What is written is what the peer reads *)

(** Keys in order, free of quotes and backslashes; values free of backslashes. *)
Fixpoint plain_params (params : list (list Z * list Z)) : bool :=
  match params with
  | [] => true
  | (k, v) :: params =>
      plain_key k && forallb (λ c, negb (c =? 92)) v
      && forallb (λ kv, key_lt k kv.1) params && plain_params params
  end.

Definition param_members (params : list (list Z * list Z)) : list (list Z * JsonValue double) :=
  (λ kv, (kv.1, T_STRING kv.2)) <$> params.

Lemma params_json_members m params :
  plain_params params = true →
  Forall (λ kv, Forall (λ p, key_lt kv.1 p.1 = true) params) m →
  params_json {| m_is_array := false; m_members := m |} params
  = {| m_is_array := false; m_members := m ++ param_members params |}.
Proof.
  revert m. induction params as [|[k v] params IH]; intros m Hp Hm; cbn [params_json].
  { by rewrite app_nil_r. }
  cbn [plain_params] in Hp. apply andb_prop in Hp as [[[Hk Hv]%andb_prop Hlt]%andb_prop Hp].
  unfold assign_key. cbn [m_is_array m_members].
  rewrite map_insert_last.
  2:{ eapply Forall_impl; [exact Hm|]. intros kv H. by apply Forall_cons in H as [H _]. }
  rewrite IH; [by rewrite <- app_assoc|done|].
  apply Forall_app. split.
  - eapply Forall_impl; [exact Hm|]. intros kv H. by apply Forall_cons in H as [_ H].
  - constructor; [|constructor]. apply Forall_forall. intros p Hin.
    rewrite forallb_forall in Hlt. cbn [fst]. apply Hlt. by apply list_elem_of_In.
Qed.

Lemma plain_param_members params :
  plain_params params = true → plain (T_OBJ false (param_members params)) = true.
Proof.
  cbn [plain]. intros Hp. apply andb_true_intro. split; [apply andb_true_intro; split|].
  - apply forallb_forall. intros kv Hin%list_elem_of_In.
    apply list_elem_of_fmap in Hin as ([k v] & -> & Hin). cbn [fst].
    revert Hp Hin. induction params as [|[k' v'] params IH]; cbn [plain_params]; [set_solver|].
    intros [[[Hk _]%andb_prop _]%andb_prop Hp]%andb_prop [[= -> ->]|Hin]%elem_of_cons; auto.
  - induction params as [|[k v] params IH]; [done|]. cbn [plain_params] in Hp.
    apply andb_prop in Hp as [[_ Hlt]%andb_prop Hp].
    change (param_members ((k, v) :: params)) with ((k, T_STRING v) :: param_members params).
    cbn [sorted_keys]. rewrite (IH Hp), andb_true_r.
    rewrite forallb_forall in Hlt |- *. intros kv Hin%list_elem_of_In.
    apply list_elem_of_fmap in Hin as (p & -> & Hin). apply Hlt. by apply list_elem_of_In.
  - induction params as [|[k v] params IH]; [done|]. cbn [plain_params] in Hp.
    apply andb_prop in Hp as [[[_ Hv]%andb_prop _]%andb_prop Hp].
    change (param_members ((k, v) :: params)) with ((k, T_STRING v) :: param_members params).
    cbn [plain]. by rewrite Hv, (IH Hp).
Qed.

Lemma params_json_plain params :
  plain_params params = true →
  params_json new_object params
  = {| m_is_array := false; m_members := param_members params |}.
Proof. intros Hp. by apply params_json_members. Qed.

(** A text written from a plain object. *)
Lemma written_read string_to_double o :
  plain (object_value o) = true →
  ∃ s, written o = Ok s ∧ read_from_string string_to_double new_object s = Ok (true, o).
Proof.
  intros Hp. destruct (json_roundtrip_spec string_to_double print_double o Hp) as (s & o' & Ew & Er).
  exists s. split; [|done]. unfold written. by step Ew.
Qed.

(** A decimal number has digits and perhaps a sign, no backslash. *)
Lemma number_no_backslash n : forallb (λ c, negb (c =? 92)) (common_to_string n) = true.
Proof.
  apply forallb_forall. intros c Hc%list_elem_of_In.
  assert (H : c = 45 ∨ is_digit c).
  { unfold common_to_string in Hc. destruct (Z.ltb_spec n 0).
    - apply elem_of_cons in Hc as [->|Hc]; [by left|right].
      destruct (common_to_string_nonneg (- n)) as (_ & Hd & _); [lia|].
      unfold common_to_string in Hd. rewrite (proj2 (Z.ltb_ge _ _)) in Hd by lia.
      rewrite Forall_forall in Hd. by apply Hd.
    - right. destruct (common_to_string_nonneg n) as (_ & Hd & _); [lia|].
      unfold common_to_string in Hd. rewrite (proj2 (Z.ltb_ge _ _)) in Hd by lia.
      rewrite Forall_forall in Hd. by apply Hd. }
  unfold is_digit in H. destruct (Z.eqb_spec c 92); [lia|done].
Qed.

Definition no_backslash (s : list Z) : bool := forallb (λ c, negb (c =? 92)) s.

Lemma request_members cmd uuid params :
  m_members (request_object cmd uuid params)
  = [(bytes_of "opcode", T_STRING (common_to_string cmd)); (bytes_of "params", object_value params);
     (bytes_of "request", T_STRING (bytes_of "true")); (bytes_of "uuid", T_STRING uuid)].
Proof. reflexivity. Qed.

Lemma response_members code msg cmd uuid params :
  m_members (response_object code msg cmd uuid params)
  = [(bytes_of "code", T_STRING code); (bytes_of "msg", T_STRING msg);
     (bytes_of "opcode", T_STRING (common_to_string cmd)); (bytes_of "params", object_value params);
     (bytes_of "request", T_STRING (bytes_of "false")); (bytes_of "uuid", T_STRING uuid)].
Proof. reflexivity. Qed.

(** An object of plain values under keys that pass the tests. *)
Lemma plain_object m :
  forallb (λ kv, plain_key kv.1) m && sorted_keys m = true →
  forallb (λ kv, plain kv.2) m = true → plain (T_OBJ (double := double) false m) = true.
Proof.
  intros Hk Hv. cbn [plain]. rewrite Hk. cbn [andb]. clear Hk.
  induction m as [|[k v] m IH]; [done|]. cbn [forallb snd] in Hv.
  apply andb_prop in Hv as [-> Hv]. exact (IH Hv).
Qed.

Lemma request_plain cmd uuid params :
  no_backslash uuid = true → plain (object_value params) = true →
  plain (object_value (request_object cmd uuid params)) = true.
Proof.
  intros Hu Hp. unfold object_value at 1. rewrite request_members.
  apply plain_object; [reflexivity|]. cbn [forallb snd]. rewrite Hp. cbn [plain].
  unfold no_backslash in Hu. by rewrite number_no_backslash, Hu.
Qed.

Lemma response_plain code msg cmd uuid params :
  no_backslash code = true → no_backslash msg = true → no_backslash uuid = true →
  plain (object_value params) = true →
  plain (object_value (response_object code msg cmd uuid params)) = true.
Proof.
  intros Hc Hm Hu Hp. unfold object_value at 1. rewrite response_members.
  apply plain_object; [reflexivity|]. cbn [forallb snd]. rewrite Hp. cbn [plain].
  unfold no_backslash in *. by rewrite Hc, Hm, number_no_backslash, Hu.
Qed.

(** The peer that parses a request finds its command, its identifier and its
    parameters, each under its key. *)
Theorem request_read_back string_to_double cmd uuid params :
  no_backslash uuid = true → plain_params params = true →
  ∃ s o, app_get_request cmd uuid params = Ok s
    ∧ read_from_string string_to_double new_object s = Ok (true, o)
    ∧ at_key o (bytes_of "opcode") = T_STRING (common_to_string cmd)
    ∧ at_key o (bytes_of "request") = T_STRING (bytes_of "true")
    ∧ at_key o (bytes_of "uuid") = T_STRING uuid
    ∧ at_key o (bytes_of "params") = T_OBJ false (param_members params).
Proof.
  intros Hu Hp. pose proof (plain_param_members params Hp) as Hpp.
  unfold app_get_request. rewrite params_json_plain by done.
  set (po := {| m_is_array := false; m_members := param_members params |}).
  set (o := request_object cmd uuid po).
  destruct (written_read string_to_double o) as (s & Ew & Er); [by apply request_plain|].
  exists s, o. split_and!; [exact Ew|exact Er|reflexivity..].
Qed.

Lemma response_read_back string_to_double code msg cmd uuid params :
  no_backslash code = true → no_backslash msg = true → no_backslash uuid = true →
  plain_params params = true →
  ∃ s o, app_get_response code msg cmd uuid params = Ok s
    ∧ read_from_string string_to_double new_object s = Ok (true, o)
    ∧ at_key o (bytes_of "code") = T_STRING code
    ∧ at_key o (bytes_of "msg") = T_STRING msg
    ∧ at_key o (bytes_of "opcode") = T_STRING (common_to_string cmd)
    ∧ at_key o (bytes_of "request") = T_STRING (bytes_of "false")
    ∧ at_key o (bytes_of "params") = T_OBJ false (param_members params).
Proof.
  intros Hc Hm Hu Hp. pose proof (plain_param_members params Hp) as Hpp.
  unfold app_get_response. rewrite params_json_plain by done.
  set (po := {| m_is_array := false; m_members := param_members params |}).
  set (o := response_object code msg cmd uuid po).
  destruct (written_read string_to_double o) as (s & Ew & Er); [by apply response_plain|].
  exists s, o. split_and!; [exact Ew|exact Er|reflexivity..].
Qed.
End command.

(** ** Identifiers *)

(** The identifiers of [n] requests in a row, and the generator after them. *)
Fixpoint uuids (g : Z) (n : nat) : list (list Z) * Z :=
  match n with
  | O => ([], g)
  | S n => let '(uuid, g) := get_new_uuid g in let '(l, g) := uuids g n in (uuid :: l, g)
  end.

Lemma uuids_from g n :
  0 <= g → g + Z.of_nat n < 2 ^ 64 →
  uuids g n = ((λ i, common_to_string (g + 1 + Z.of_nat i)) <$> seq 0 n, g + Z.of_nat n).
Proof.
  revert g. induction n as [|n IH]; intros g Hg Hn; cbn [uuids].
  { cbn. f_equal. lia. }
  unfold get_new_uuid. rewrite u64_id by lia. rewrite IH by lia.
  f_equal; [|lia]. rewrite <- cons_seq, <- fmap_S_seq, fmap_cons, <- list_fmap_compose. f_equal.
  - f_equal. lia.
  - apply list_fmap_ext. intros i x _. cbn. f_equal. lia.
Qed.

(** No two requests of a process have the same identifier (the generator starts at
    0; fewer than 2{^63} requests are sent). *)
Theorem uuids_distinct n :
  Z.of_nat n < 2 ^ 63 → NoDup (uuids 0 n).1.
Proof.
  intros Hn. rewrite uuids_from by lia. cbn [fst]. apply NoDup_fmap_2_strong; [|apply NoDup_seq].
  intros i j Hi Hj E. apply elem_of_seq in Hi, Hj.
  destruct (number_roundtrip_spec (0 + 1 + Z.of_nat i)) as [Ei _].
  destruct (number_roundtrip_spec (0 + 1 + Z.of_nat j)) as [Ej _].
  rewrite E in Ei. rewrite Ei in Ej by lia. lia.
Qed.

Lemma uuids_distinct_witness :
  (uuids 0 3).1 = [bytes_of "1"; bytes_of "2"; bytes_of "3"] ∧ NoDup (uuids 0 3).1.
Proof. split; [by vm_compute|]. apply (uuids_distinct 3). lia. Defined.

Definition sample_params : list (list Z * list Z) :=
  [(bytes_of "conference_id", bytes_of "c/1"); (bytes_of "user_uuid", bytes_of "7")].

Lemma request_read_back_witness : ∃ s o,
  app_get_request (λ _ : unit, []) TYPE_CONFERENCE_EXIT (bytes_of "4") sample_params
    = Ok s
  ∧ read_from_string (λ _, tt) new_object s = Ok (true, o)
  ∧ at_key o (bytes_of "opcode") = T_STRING (bytes_of "1200")
  ∧ at_key o (bytes_of "params") = T_OBJ false (param_members sample_params).
Proof.
  destruct (request_read_back (λ _ : unit, []) (λ _, tt) TYPE_CONFERENCE_EXIT (bytes_of "4")
              sample_params) as (s & o & E1 & E2 & E3 & _ & _ & E4); [reflexivity|reflexivity|].
  exists s, o. exact (conj E1 (conj E2 (conj E3 E4))).
Defined.
