(* ===== verification/WSClient.v ===== *)
(** * WSClient: the signalling connection

    Models [src/websocket/ws_client.h] and [.cpp].  A connection of the websocket
    library is its address; calls of the library and of the callbacks are recorded as
    effects, in order.  What [mg_ws_connect] returns is an argument.  [mg_close_conn]
    of the library raises [MG_EV_CLOSE] on the connection before it returns
    ([src/websocket/mongoose.cpp:2757]), so the handler runs inside [on_timer]. *)

From S2P Require Import Prelude.

(** The events the handler tells apart; [flags] are those of the message. *)
Inductive ws_event : Type :=
| MG_EV_WS_OPEN
| MG_EV_WS_MSG (flags : Z) (data : list Z)
| MG_EV_CLOSE
| MG_EV_ERROR
| MG_EV_WS_CTL (flags : Z)
| MG_EV_OTHER.

Definition WEBSOCKET_OP_TEXT : Z := 1.
Definition WEBSOCKET_OP_PING : Z := 9.

Inductive ws_effect : Type :=
| mg_ws_send (conn : option Z) (data : list Z) (op : Z)
| mg_close_conn (conn : Z)
| mg_ws_connect (url : list Z)
| call_recv_func (func : Z) (data : list Z) (arg : Z)
| call_ws_func (func : Z) (event : ws_event) (arg : Z).

Record WSClient := mkWSClient {
  m_connection : option Z;
  m_server_url : list Z;
  m_recv_func : option Z;
  m_recv_func_arg : Z;
  m_ws_func : option Z;
  m_ws_func_arg : Z;
  m_connected : bool;
}.

Definition new_client (serverURL : list Z) : WSClient :=
  {| m_connection := None; m_server_url := serverURL; m_recv_func := None; m_recv_func_arg := 0;
     m_ws_func := None; m_ws_func_arg := 0; m_connected := false |}.

Definition set_connection (this : WSClient) (conn : option Z) (connected : bool) : WSClient :=
  {| m_connection := conn; m_server_url := m_server_url this;
     m_recv_func := m_recv_func this; m_recv_func_arg := m_recv_func_arg this;
     m_ws_func := m_ws_func this; m_ws_func_arg := m_ws_func_arg this;
     m_connected := connected |}.

Definition set_text_received_func (this : WSClient) (func : option Z) (arg : Z) : WSClient :=
  {| m_connection := m_connection this; m_server_url := m_server_url this;
     m_recv_func := func; m_recv_func_arg := arg;
     m_ws_func := m_ws_func this; m_ws_func_arg := m_ws_func_arg this;
     m_connected := m_connected this |}.

Definition set_ws_event_func (this : WSClient) (func : option Z) (arg : Z) : WSClient :=
  {| m_connection := m_connection this; m_server_url := m_server_url this;
     m_recv_func := m_recv_func this; m_recv_func_arg := m_recv_func_arg this;
     m_ws_func := func; m_ws_func_arg := arg; m_connected := m_connected this |}.

Definition is_connected (this : WSClient) : bool := m_connected this.

Definition call_event_func (this : WSClient) (event : ws_event) : list ws_effect :=
  match m_ws_func this with
  | Some func => [call_ws_func func event (m_ws_func_arg this)]
  | None => []
  end.

Definition on_message_received (this : WSClient) (data : list Z) : list ws_effect :=
  match m_recv_func this with
  | Some func => [call_recv_func func data (m_recv_func_arg this)]
  | None => []
  end.

Definition on_event_handle (this : WSClient) (event : ws_event) : list ws_effect * WSClient :=
  match event with
  | MG_EV_WS_OPEN => (call_event_func this event, set_connection this (m_connection this) true)
  | MG_EV_WS_MSG flags data =>
      if Z.land flags 15 =? WEBSOCKET_OP_TEXT then (on_message_received this data, this)
      else ([], this)
  | MG_EV_CLOSE => (call_event_func this event, set_connection this None false)
  | MG_EV_ERROR | MG_EV_WS_CTL _ | MG_EV_OTHER => ([], this)
  end.

(** [connect] is what [mg_ws_connect] returns. *)
Definition on_timer (connect : option Z) (this : WSClient) : list ws_effect * WSClient :=
  if m_connected this then
    ([mg_ws_send (m_connection this) [112; 105; 110; 103] WEBSOCKET_OP_PING], this)
  else
    match m_connection this with
    | Some conn =>
        let '(closing, this) := on_event_handle this MG_EV_CLOSE in
        (mg_close_conn conn :: closing ++ [mg_ws_connect (m_server_url this)],
         set_connection this connect (m_connected this))
    | None =>
        ([mg_ws_connect (m_server_url this)], set_connection this connect (m_connected this))
    end.

(** The time the poll of the library may take. *)
Definition pulse (timeout_ms : Z) : Z := if 1000 <? timeout_ms then 1000 else timeout_ms.

Definition send_text (this : WSClient) (msg : list Z) : bool * list ws_effect :=
  match m_connection this with
  | Some conn =>
      if m_connected this then (true, [mg_ws_send (Some conn) msg WEBSOCKET_OP_TEXT])
      else (false, [])
  | None => (false, [])
  end.

(** ** Runs

    The library raises events only on a connection that is open, for which
    [m_connection] holds the handle ([MgPoll] shows that it does).  The callbacks may be set
    at any time. *)
Inductive ws_step : WSClient → list ws_effect → WSClient → Prop :=
| step_timer this connect effects this' :
    on_timer connect this = (effects, this') → ws_step this effects this'
| step_event this conn event effects this' :
    m_connection this = Some conn →
    on_event_handle this event = (effects, this') → ws_step this effects this'
| step_send this msg ret effects :
    send_text this msg = (ret, effects) → ws_step this effects this.

Inductive ws_run : WSClient → list ws_effect → WSClient → Prop :=
| run_nil this : ws_run this [] this
| run_step this effects1 this1 effects2 this2 :
    ws_step this effects1 this1 → ws_run this1 effects2 this2 →
    ws_run this (effects1 ++ effects2) this2
| run_set_text this func arg effects this2 :
    ws_run (set_text_received_func this func arg) effects this2 → ws_run this effects this2
| run_set_event this func arg effects this2 :
    ws_run (set_ws_event_func this func arg) effects this2 → ws_run this effects this2.

(** A client that believes it is connected has a connection. *)
Definition ws_ok (this : WSClient) : Prop :=
  m_connected this = true → is_Some (m_connection this).

(** What is handed to the library goes out on a connection. *)
Definition effect_ok (e : ws_effect) : Prop :=
  match e with mg_ws_send conn _ _ => is_Some conn | _ => True end.

Lemma ws_step_ok this effects this' :
  ws_step this effects this' → ws_ok this → ws_ok this' ∧ Forall effect_ok effects.
Proof.
  unfold ws_ok. intros [this0 connect es this1 E|this0 conn ev es this1 Hc E|this0 msg ret es E] Hok.
  - unfold on_timer in E. destruct (m_connected this0) eqn:Ec.
    + injection E as <- <-. split; [intros _; by apply Hok|]. constructor; [by apply Hok|constructor].
    + destruct (m_connection this0) as [c|]; cbn [on_event_handle] in E; injection E as <- <-.
      * cbn. split; [done|]. constructor; [done|]. unfold call_event_func.
        apply Forall_app; split; [case_match; repeat constructor|repeat constructor].
      * cbn. split; [congruence|repeat constructor].
  - assert (H1 : Forall effect_ok (call_event_func this0 ev))
      by (unfold call_event_func; case_match; repeat constructor).
    assert (H2 : ∀ data, Forall effect_ok (on_message_received this0 data))
      by (intros; unfold on_message_received; case_match; repeat constructor).
    destruct ev; cbn [on_event_handle] in E; repeat case_match; simplify_eq; cbn;
      rewrite ?Hc; (split; [by eauto|by eauto using Forall_nil]).
  - unfold send_text in E. repeat case_match; simplify_eq;
      (split; [eauto|]); repeat (constructor; cbn; eauto).
Qed.

Lemma ws_run_app this0 es1 this1 es2 this2 :
  ws_run this0 es1 this1 → ws_run this1 es2 this2 → ws_run this0 (es1 ++ es2) this2.
Proof.
  induction 1 as [this|this es this' es' this'' Hs _ IH|this func arg es this' _ IH|this func arg es this' _ IH];
    intros H2; [done|rewrite <- app_assoc; eapply run_step; [exact Hs|by apply IH]| |].
  - eapply run_set_text. by apply IH.
  - eapply run_set_event. by apply IH.
Qed.

Lemma ws_run_snoc this0 es1 this1 es2 this2 :
  ws_run this0 es1 this1 → ws_step this1 es2 this2 → ws_run this0 (es1 ++ es2) this2.
Proof.
  intros H1 H2. eapply ws_run_app; [exact H1|]. rewrite <- (app_nil_r es2).
  by eapply run_step; [|constructor].
Qed.

(** From its creation on, whatever the timer, the events of the network and the
    callers do: a connected client has a connection, and nothing is ever sent on a
    null one. *)
Theorem ws_never_sends_on_null serverURL effects this :
  ws_run (new_client serverURL) effects this → ws_ok this ∧ Forall effect_ok effects.
Proof.
  assert (H0 : ws_ok (new_client serverURL)) by done. revert H0.
  generalize (new_client serverURL). intros this0 H0 Hr.
  induction Hr as [this0|this0 es1 this1 es2 this2 Hs _ IH|this0 func arg es this2 _ IH|this0 func arg es this2 _ IH];
    [by split; [|constructor]| |by apply IH|by apply IH].
  destruct (ws_step_ok _ _ _ Hs H0) as [H1 He]. destruct (IH H1) as [H2 He2].
  split; [done|]. by apply Forall_app.
Qed.

(** The timer of a client that is not connected gives up the attempt under way and
    starts exactly one new connection to the server; [send_text] answers [true] only
    for a text handed to the library. *)
Theorem on_timer_reconnects connect this msg :
  m_connected this = false →
  let '(effects, this') := on_timer connect this in
  m_connection this' = connect ∧ m_connected this' = false
  ∧ (∃ closing, effects = closing ++ [mg_ws_connect (m_server_url this)]
       ∧ Forall (λ e, match e with mg_ws_connect _ => False | _ => True end) closing)
  ∧ (∀ conn, m_connection this = Some conn → mg_close_conn conn ∈ effects)
  ∧ send_text this' msg = (false, []).
Proof.
  intros Ec. unfold on_timer. rewrite Ec. destruct (m_connection this) as [conn|];
    cbn [on_event_handle].
  - split_and!; [done|done| |by intros ? [= ->]; left|].
    + exists (mg_close_conn conn :: call_event_func this MG_EV_CLOSE). split; [done|].
      constructor; [done|]. unfold call_event_func. case_match; repeat constructor.
    + unfold send_text. cbn. by destruct connect.
  - split_and!; [done|done| |done|].
    + exists []. split; [done|constructor].
    + unfold send_text. cbn. rewrite ?Ec. by destruct connect.
Qed.

(** ** Concrete runs *)

Definition sample_client : WSClient :=
  set_ws_event_func (new_client [119; 115]) (Some 1) 2.

Lemma on_timer_reconnects_witness :
  let '(effects, this') := on_timer (Some 8) (set_connection sample_client (Some 7) false) in
  effects = [mg_close_conn 7; call_ws_func 1 MG_EV_CLOSE 2; mg_ws_connect [119; 115]]
  ∧ m_connection this' = Some 8.
Proof.
  pose proof (on_timer_reconnects (Some 8) (set_connection sample_client (Some 7) false) [] eq_refl)
    as H.
  destruct (on_timer (Some 8) (set_connection sample_client (Some 7) false)) as [es this'] eqn:E.
  injection E as <- <-. split; [reflexivity|]. by destruct H as (H & _).
Defined.

(** Connect, open, ping. *)
Lemma ws_never_sends_on_null_witness : ∃ effects this,
  ws_run (new_client [119; 115]) effects this
  ∧ effects = [mg_ws_connect [119; 115]; mg_ws_send (Some 7) [112; 105; 110; 103] 9]
  ∧ ws_ok this ∧ Forall effect_ok effects.
Proof.
  set (c := set_connection (new_client [119; 115]) (Some 7) true).
  assert (H : ws_run (new_client [119; 115])
                [mg_ws_connect [119; 115]; mg_ws_send (Some 7) [112; 105; 110; 103] 9] c).
  { apply (run_step _ [mg_ws_connect [119; 115]]
             (set_connection (new_client [119; 115]) (Some 7) false)).
    { by apply (step_timer _ (Some 7)). }
    apply (run_step _ [] c). { by apply (step_event _ 7 MG_EV_WS_OPEN). }
    apply (run_step _ [mg_ws_send (Some 7) [112; 105; 110; 103] 9] c [] c);
      [by apply (step_timer _ None)|constructor]. }
  exists [mg_ws_connect [119; 115]; mg_ws_send (Some 7) [112; 105; 110; 103] 9], c.
  split; [exact H|]. split; [reflexivity|]. exact (ws_never_sends_on_null [119; 115] _ c H).
Defined.
