(* ===== verification/LiveMeetingRoom.v ===== *)
(** * LiveMeetingRoom: the conference

    Models [src/application/app_meeting_room.h] and [.cpp].  A message of the server,
    a call of the application and a turn of the receive loop are functions of the room
    and of the world; [m_receive_mutex] makes a turn of the loop and each access of a
    handler to the users atomic.  A [std::map] is the list of its entries in the order
    of the keys. *)

From S2P Require Import Prelude.
From S2P Require Import Utils.
From S2P Require Import Json.
From S2P Require Import Command.
From S2P Require Import WSClient.
From S2P Require Import PortManager.
From S2P Require Import IPAddrV4.
From S2P Require Import RTPTransmitterV4.
From S2P Require Import RTPSessionReceiver.
From S2P Require Import RTPSessionAudio.
From S2P Require Import RTPSessionVideo.
From S2P Require Import RoomUser.

(** ** The state *)

(** The fields that hold what the server said of this participant. *)
Record membership := mkMembership {
  m_my_room_id : list Z;
  m_my_ip_addr : list Z;
  m_my_user_id : list Z;
  m_my_user_name : list Z;
  m_my_user_uuid : list Z;
  m_video_ssrc : Z;
  m_audio_ssrc : Z;
  m_video_push_ip : list Z;
  m_video_push_port : Z;
  m_audio_push_ip : list Z;
  m_audio_push_port : Z;
}.

Definition no_membership : membership := mkMembership [] [] [] [] [] 0 0 [] 0 [] 0.

Record LiveMeetingRoom := mkLiveMeetingRoom {
  m_initialized : bool;
  m_ws_thread_running : bool;
  m_websocket_client : option WSClient;
  m_other_users_map : list (list Z * RoomUser);
  m_receive_thread_running : bool;
  m_rtp_audio_sender : option RTPSessionAudio;
  m_rtp_video_sender : option RTPSessionVideo;
  m_rtp_send_initialized : bool;
  m_my : membership;
  m_event_callback_func : option Z;
  m_event_callback_arg : Z;
  m_signal_callback_func : option Z;
  m_signal_callback_arg : Z;
  m_is_signal_running : bool;
  m_prev_signal_time : Z;
  m_h264_callback : option Z;
  m_h264_callback_arg : Z;
  m_aac_callback : option Z;
  m_aac_callback_arg : Z;
}.

(** The one instance has static storage: what the constructor leaves out is zero. *)
Definition instance : LiveMeetingRoom :=
  {| m_initialized := false; m_ws_thread_running := false; m_websocket_client := None;
     m_other_users_map := []; m_receive_thread_running := false; m_rtp_audio_sender := None;
     m_rtp_video_sender := None; m_rtp_send_initialized := false; m_my := no_membership;
     m_event_callback_func := None; m_event_callback_arg := 0;
     m_signal_callback_func := None; m_signal_callback_arg := 0;
     m_is_signal_running := false; m_prev_signal_time := 0;
     m_h264_callback := None; m_h264_callback_arg := 0;
     m_aac_callback := None; m_aac_callback_arg := 0 |}.

(** The groups of assignments. *)
Definition set_context (this : LiveMeetingRoom) (initialized ws_running : bool)
    (client : option WSClient) : LiveMeetingRoom :=
  {| m_initialized := initialized; m_ws_thread_running := ws_running;
     m_websocket_client := client; m_other_users_map := m_other_users_map this;
     m_receive_thread_running := m_receive_thread_running this;
     m_rtp_audio_sender := m_rtp_audio_sender this; m_rtp_video_sender := m_rtp_video_sender this;
     m_rtp_send_initialized := m_rtp_send_initialized this; m_my := m_my this;
     m_event_callback_func := m_event_callback_func this;
     m_event_callback_arg := m_event_callback_arg this;
     m_signal_callback_func := m_signal_callback_func this;
     m_signal_callback_arg := m_signal_callback_arg this;
     m_is_signal_running := m_is_signal_running this;
     m_prev_signal_time := m_prev_signal_time this;
     m_h264_callback := m_h264_callback this; m_h264_callback_arg := m_h264_callback_arg this;
     m_aac_callback := m_aac_callback this; m_aac_callback_arg := m_aac_callback_arg this |}.

Definition set_streams (this : LiveMeetingRoom) (users : list (list Z * RoomUser))
    (receiving : bool) (audio : option RTPSessionAudio) (video : option RTPSessionVideo)
    (initialized : bool) : LiveMeetingRoom :=
  {| m_initialized := m_initialized this; m_ws_thread_running := m_ws_thread_running this;
     m_websocket_client := m_websocket_client this; m_other_users_map := users;
     m_receive_thread_running := receiving; m_rtp_audio_sender := audio;
     m_rtp_video_sender := video; m_rtp_send_initialized := initialized; m_my := m_my this;
     m_event_callback_func := m_event_callback_func this;
     m_event_callback_arg := m_event_callback_arg this;
     m_signal_callback_func := m_signal_callback_func this;
     m_signal_callback_arg := m_signal_callback_arg this;
     m_is_signal_running := m_is_signal_running this;
     m_prev_signal_time := m_prev_signal_time this;
     m_h264_callback := m_h264_callback this; m_h264_callback_arg := m_h264_callback_arg this;
     m_aac_callback := m_aac_callback this; m_aac_callback_arg := m_aac_callback_arg this |}.

Definition set_users (this : LiveMeetingRoom) (users : list (list Z * RoomUser)) : LiveMeetingRoom :=
  set_streams this users (m_receive_thread_running this) (m_rtp_audio_sender this)
    (m_rtp_video_sender this) (m_rtp_send_initialized this).

Definition set_receiving (this : LiveMeetingRoom) (receiving : bool) : LiveMeetingRoom :=
  set_streams this (m_other_users_map this) receiving (m_rtp_audio_sender this)
    (m_rtp_video_sender this) (m_rtp_send_initialized this).

Definition set_senders (this : LiveMeetingRoom) (audio : option RTPSessionAudio)
    (video : option RTPSessionVideo) (initialized : bool) : LiveMeetingRoom :=
  set_streams this (m_other_users_map this) (m_receive_thread_running this) audio video initialized.

Definition set_signal (this : LiveMeetingRoom) (my : membership) (running : bool) (time : Z)
    : LiveMeetingRoom :=
  {| m_initialized := m_initialized this; m_ws_thread_running := m_ws_thread_running this;
     m_websocket_client := m_websocket_client this; m_other_users_map := m_other_users_map this;
     m_receive_thread_running := m_receive_thread_running this;
     m_rtp_audio_sender := m_rtp_audio_sender this; m_rtp_video_sender := m_rtp_video_sender this;
     m_rtp_send_initialized := m_rtp_send_initialized this; m_my := my;
     m_event_callback_func := m_event_callback_func this;
     m_event_callback_arg := m_event_callback_arg this;
     m_signal_callback_func := m_signal_callback_func this;
     m_signal_callback_arg := m_signal_callback_arg this;
     m_is_signal_running := running; m_prev_signal_time := time;
     m_h264_callback := m_h264_callback this; m_h264_callback_arg := m_h264_callback_arg this;
     m_aac_callback := m_aac_callback this; m_aac_callback_arg := m_aac_callback_arg this |}.

Definition set_running (this : LiveMeetingRoom) (running : bool) : LiveMeetingRoom :=
  set_signal this (m_my this) running (m_prev_signal_time this).

Definition set_my (this : LiveMeetingRoom) (my : membership) : LiveMeetingRoom :=
  set_signal this my (m_is_signal_running this) (m_prev_signal_time this).

Definition set_callbacks (this : LiveMeetingRoom) (event : option Z) (event_arg : Z)
    (signal : option Z) (signal_arg : Z) (h264 : option Z) (h264_arg : Z)
    (aac : option Z) (aac_arg : Z) : LiveMeetingRoom :=
  {| m_initialized := m_initialized this; m_ws_thread_running := m_ws_thread_running this;
     m_websocket_client := m_websocket_client this; m_other_users_map := m_other_users_map this;
     m_receive_thread_running := m_receive_thread_running this;
     m_rtp_audio_sender := m_rtp_audio_sender this; m_rtp_video_sender := m_rtp_video_sender this;
     m_rtp_send_initialized := m_rtp_send_initialized this; m_my := m_my this;
     m_event_callback_func := event; m_event_callback_arg := event_arg;
     m_signal_callback_func := signal; m_signal_callback_arg := signal_arg;
     m_is_signal_running := m_is_signal_running this;
     m_prev_signal_time := m_prev_signal_time this;
     m_h264_callback := h264; m_h264_callback_arg := h264_arg;
     m_aac_callback := aac; m_aac_callback_arg := aac_arg |}.

Definition set_event_callback_func (this : LiveMeetingRoom) (func : option Z) (arg : Z)
    : LiveMeetingRoom :=
  set_callbacks this func arg (m_signal_callback_func this) (m_signal_callback_arg this)
    (m_h264_callback this) (m_h264_callback_arg this)
    (m_aac_callback this) (m_aac_callback_arg this).

Definition set_signal_callback_func (this : LiveMeetingRoom) (func : option Z) (arg : Z)
    : LiveMeetingRoom :=
  set_callbacks this (m_event_callback_func this) (m_event_callback_arg this) func arg
    (m_h264_callback this) (m_h264_callback_arg this)
    (m_aac_callback this) (m_aac_callback_arg this).

Definition set_h264_receive_callback (this : LiveMeetingRoom) (func : option Z) (arg : Z)
    : LiveMeetingRoom :=
  set_callbacks this (m_event_callback_func this) (m_event_callback_arg this)
    (m_signal_callback_func this) (m_signal_callback_arg this) func arg
    (m_aac_callback this) (m_aac_callback_arg this).

Definition set_aac_receive_callback (this : LiveMeetingRoom) (func : option Z) (arg : Z)
    : LiveMeetingRoom :=
  set_callbacks this (m_event_callback_func this) (m_event_callback_arg this)
    (m_signal_callback_func this) (m_signal_callback_arg this)
    (m_h264_callback this) (m_h264_callback_arg this) func arg.

(** What the room shares with the rest of the process: the ports, the datagrams sent,
    the generator of identifiers and the calls of the websocket library. *)
Record world := mkWorld {
  w_ports : PortManager;
  w_network : network;
  w_uuid_generator : Z;
  w_effects : list ws_effect;
}.

Definition set_ports (w : world) (ports : PortManager) : world :=
  {| w_ports := ports; w_network := w_network w; w_uuid_generator := w_uuid_generator w;
     w_effects := w_effects w |}.

Definition set_network (w : world) (net : network) : world :=
  {| w_ports := w_ports w; w_network := net; w_uuid_generator := w_uuid_generator w;
     w_effects := w_effects w |}.

(** [EVENT_*] of [src/application/app_event.h], with what the data pointer gives. *)
Record OnlineUser := mkOnlineUser {
  userID : list Z;
  userName : list Z;
  userIP : list Z;
  userUUID : list Z;
  videoSSRC : Z;
  audioSSRC : Z;
}.

Inductive conference_event : Type :=
| EVENT_CONFERENCE_CREATED
| EVENT_CONFERENCE_JOINED
| EVENT_OTHER_USER_JOINED (user : OnlineUser)
| EVENT_ONLINE_USERS (users : list OnlineUser)
| EVENT_CONFERENCE_EXIT (uuid : list Z)
| EVENT_USER_GONE_OUT (uuid : list Z)
| EVENT_CONFERENCE_STOPPED (id : list Z)
| EVENT_CONFERENCE_CLOSING (id : list Z).

(** A call of the event callback: its address, the event, its argument. *)
Definition fire (this : LiveMeetingRoom) (e : conference_event) : list (Z * conference_event * Z) :=
  match m_event_callback_func this with
  | Some func => [(func, e, m_event_callback_arg this)]
  | None => []
  end.

(** [c_str()] as an argument of the socket functions: the bytes before a zero. *)
Fixpoint c_str (s : list Z) : string :=
  match s with
  | [] => ""
  | c :: s => if c =? 0 then "" else String (Ascii.ascii_of_nat (Z.to_nat c)) (c_str s)
  end.

(** [map.erase(k)]. *)
Fixpoint map_erase {V} (m : list (list Z * V)) (k : list Z) : list (list Z * V) :=
  match m with
  | [] => []
  | (k', v) :: m => if bool_decide (k = k') then m else (k', v) :: map_erase m k
  end.

Section room.
Context {double : Type} (string_to_double : list Z → double)
        (print_double print_f : double → list Z).
(** The system; [thread_create] is what [pthread_create] returns. *)
Context (env : environment) (thread_create : Z).

Notation JsonObject := (JsonObject double).

(** [params["key"].as_string()]. *)
Definition str (params : JsonObject) (key : string) : list Z :=
  as_string print_f (at_key params (bytes_of key)).

Definition str_u32 (s : list Z) : Z := u32 (string_to_long s).
Definition str_u16 (s : list Z) : Z := u16 (string_to_int s).

(** ** Starting and stopping *)

(** The threads have ended when they are joined. *)
Definition free_context (this : LiveMeetingRoom) : LiveMeetingRoom :=
  set_streams (set_context this false false None) [] false None None false.

Definition un_initialize (this : LiveMeetingRoom) : LiveMeetingRoom := free_context this.

Definition is_signal_connected (this : LiveMeetingRoom) : bool :=
  match m_websocket_client this with Some client => is_connected client | None => false end.

Definition stop_receive (this : LiveMeetingRoom) : LiveMeetingRoom :=
  if m_receive_thread_running this then set_receiving this false else this.

(** The address of the websocket server. *)
Definition wsaddress (ip : list Z) (port : Z) : list Z :=
  bytes_of "ws://" ++ ip ++ bytes_of ":" ++ common_to_string port ++ bytes_of "/rtc_signal".

(** [websocket_received] and [websocket_event] are the addresses of those functions,
    [self] that of the room. *)
Definition initialize (websocket_received websocket_event self : Z) (this : LiveMeetingRoom)
    (websocket_ip : list Z) (websocket_port : Z) : bool * LiveMeetingRoom :=
  let this := if m_initialized this then free_context this else this in
  let client := new_client (wsaddress websocket_ip websocket_port) in
  let client := set_text_received_func client (Some websocket_received) self in
  let client := set_ws_event_func client (Some websocket_event) self in
  if negb (thread_create =? 0) then (false, free_context (set_context this (m_initialized this) false (Some client)))
  else
    let this := set_context this true true (Some client) in
    (true, set_senders this (Some RTPSessionAudio.new_session) (Some RTPSessionVideo.new_session)
             (m_rtp_send_initialized this)).

(** ** Sending media *)

Definition send_h264_data (sendto : network → sockaddr_in → list Z → Z) (now base : Z)
    (this : LiveMeetingRoom) (data : list Z) (length : Z) (w : world)
    : outcome (LiveMeetingRoom * world) :=
  match m_rtp_video_sender this with
  | None => Ok (this, w)
  | Some sender =>
      r ← RTPSessionVideo.send_h264_data sendto now base sender data length (w_network w);
      let '(_, (sender, net)) := r in
      Ok (set_senders this (m_rtp_audio_sender this) (Some sender) (m_rtp_send_initialized this),
          set_network w net)
  end.

Definition send_aac_data (sendto : network → sockaddr_in → list Z → Z) (now : Z)
    (this : LiveMeetingRoom) (data : list Z) (length : Z) (w : world)
    : outcome (LiveMeetingRoom * world) :=
  match m_rtp_audio_sender this with
  | None => Ok (this, w)
  | Some sender =>
      r ← RTPSessionAudio.send_aac_data sendto now sender data length (w_network w);
      let '(_, (sender, net)) := r in
      Ok (set_senders this (Some sender) (m_rtp_video_sender this) (m_rtp_send_initialized this),
          set_network w net)
  end.

Definition add_sender_destination (this : LiveMeetingRoom) (w : world)
    (majorVideoIP : list Z) (majorVideoPort majorVideoSequenceStart majorVideoTimestampStart
    majorVideoSSRC : Z) (audioIP : list Z) (audioPort audioSequenceStart audioTimestampStart
    audioSSRC : Z) : outcome (LiveMeetingRoom * world) :=
  match m_rtp_audio_sender this, m_rtp_video_sender this with
  | Some audio, Some video =>
      let '(ready, (audio, (video, ports))) :=
        if m_rtp_send_initialized this then (true, (audio, (video, w_ports w)))
        else
          let '(ret, (audio, ports)) :=
            RTPSessionAudio.init (os env) (sock env) (bind_result env) audio audioSequenceStart
              audioTimestampStart audioSSRC (w_ports w) in
          if negb ret then (false, (audio, (video, ports))) else
          let '(ret, (video, ports)) :=
            RTPSessionVideo.init (os env) (sock env) (bind_result env) video
              majorVideoSequenceStart majorVideoTimestampStart majorVideoSSRC ports in
          (ret, (audio, (video, ports))) in
      let w := set_ports w ports in
      if negb (ready : bool)
      then Ok (set_senders this (Some audio) (Some video) (m_rtp_send_initialized this), w) else
      a ← RTPSessionAudio.add_destination (inet_addr env) audio (c_str audioIP) audioPort;
      v ← RTPSessionVideo.add_destination (inet_addr env) video (c_str majorVideoIP) majorVideoPort;
      Ok (set_senders this (Some a.2) (Some v.2) true, w)
  | _, _ => Ok (this, w)
  end.

Definition remove_sender (this : LiveMeetingRoom) : LiveMeetingRoom :=
  set_senders this None None false.

(** ** The receive loop *)

(** One user of a turn: [arrive] says what its two sockets deliver. *)
Definition receive_user (sendto : network → sockaddr_in → list Z → Z) (count : Z)
    (arrive : arrival * arrival) (usr : RoomUser) (net : network)
    : outcome (list received * (RoomUser * network)) :=
  r ← receive_audio usr arrive.1;
  let '(evs1, usr) := r in
  r ← receive_video usr arrive.2;
  let '(evs2, usr) := r in
  net ← (if count mod 2000 =? 0 then RoomUser.nat_pinhole sendto usr net else Ok net);
  Ok (evs1 ++ evs2, (usr, net)).

Fixpoint receive_users (sendto : network → sockaddr_in → list Z → Z) (count : Z)
    (arrive : list Z → arrival * arrival) (users : list (list Z * RoomUser)) (net : network)
    : outcome (list received * (list (list Z * RoomUser) * network)) :=
  match users with
  | [] => Ok ([], ([], net))
  | (k, usr) :: users =>
      r ← receive_user sendto count (arrive k) usr net;
      let '(evs1, (usr, net)) := r in
      r ← receive_users sendto count arrive users net;
      let '(evs2, (users, net)) := r in
      Ok (evs1 ++ evs2, ((k, usr) :: users, net))
  end.

(** The body of [receive_loop], with the mutex; [count] is a [uint32_t]. *)
Definition receive_turn (sendto : network → sockaddr_in → list Z → Z)
    (arrive : list Z → arrival * arrival) (this : LiveMeetingRoom) (count : Z) (w : world)
    : outcome (list received * (LiveMeetingRoom * (Z * world))) :=
  r ← receive_users sendto count arrive (m_other_users_map this) (w_network w);
  let '(evs, (users, net)) := r in
  Ok (evs, (set_users this users, (u32 (count + 1), set_network w net))).

(** ** Signals *)

Definition count_as_limit (this : LiveMeetingRoom) (nowSeconds : Z) : bool :=
  m_is_signal_running this && (u64 (nowSeconds - m_prev_signal_time this) <? 6).

(** [(uint64_t)(clock() / CLOCKS_PER_SEC)]. *)
Definition now_seconds (clock : Z) : Z := u64 (Z.quot clock 1000000).

(** [send_text] of the text, and what follows when it fails. *)
Definition send_signal (this : LiveMeetingRoom) (client : WSClient) (w : world) (generator : Z)
    (signalStr : list Z) : Z * (LiveMeetingRoom * world) :=
  let '(ret, effects) := send_text client signalStr in
  let w := {| w_ports := w_ports w; w_network := w_network w; w_uuid_generator := generator;
              w_effects := w_effects w ++ effects |} in
  if negb ret then (ERROR_WEBSOCKET_NOT_CONNECTED, (set_running this false, w))
  else (0, (this, w)).

Definition is_empty (s : list Z) : bool := match s with [] => true | _ => false end.

Definition signal_create_conference (this : LiveMeetingRoom) (clock : Z)
    (myUserId myUserName : list Z) (w : world) : outcome (Z * (LiveMeetingRoom * world)) :=
  match m_websocket_client this with
  | None => Ok (ERROR_WEBSOCKET_NOT_INIT, (this, w))
  | Some client =>
      if negb (is_empty (m_my_room_id (m_my this))) || negb (is_empty (m_my_user_uuid (m_my this)))
      then Ok (ERROR_CONFERENCE_ALREADY_JOINED, (this, w)) else
      let nowSeconds := now_seconds clock in
      if count_as_limit this nowSeconds then Ok (ERROR_REACH_MAX_API_LIMIT, (this, w)) else
      let this := set_signal this (m_my this) true nowSeconds in
      let params := map_insert [] (bytes_of "user_id") myUserId in
      let params := map_insert params (bytes_of "user_name") myUserName in
      let '(signalUUID, generator) := get_new_uuid (w_uuid_generator w) in
      signalStr ← app_get_request print_double TYPE_CONFERENCE_CREATE signalUUID params;
      Ok (send_signal this client w generator signalStr)
  end.

Definition signal_join_conference (this : LiveMeetingRoom) (clock : Z)
    (conferenceId myUserId myUserName : list Z) (w : world)
    : outcome (Z * (LiveMeetingRoom * world)) :=
  match m_websocket_client this with
  | None => Ok (ERROR_WEBSOCKET_NOT_INIT, (this, w))
  | Some client =>
      let my := m_my this in
      if negb (is_empty (m_my_room_id my)) || negb (is_empty (m_my_user_uuid my))
      then Ok (ERROR_CONFERENCE_ALREADY_JOINED, (this, w)) else
      let nowSeconds := now_seconds clock in
      if count_as_limit this nowSeconds then Ok (ERROR_REACH_MAX_API_LIMIT, (this, w)) else
      let my := mkMembership (m_my_room_id my) (m_my_ip_addr my) myUserId myUserName
                  (m_my_user_uuid my) (m_video_ssrc my) (m_audio_ssrc my) (m_video_push_ip my)
                  (m_video_push_port my) (m_audio_push_ip my) (m_audio_push_port my) in
      let this := set_signal this my true nowSeconds in
      let params := map_insert [] (bytes_of "conference_id") conferenceId in
      let params := map_insert params (bytes_of "user_id") myUserId in
      let params := map_insert params (bytes_of "user_name") myUserName in
      let '(signalUUID, generator) := get_new_uuid (w_uuid_generator w) in
      signalStr ← app_get_request print_double TYPE_CONFERENCE_JOIN signalUUID params;
      Ok (send_signal this client w generator signalStr)
  end.

(** The loops that build the [streams] array: the SSRCs of one user, then the users
    with at least one. *)
Fixpoint ssrcs_json (i : Z) (ssrcSet : list (list Z)) (ssrcsJson : JsonObject) : JsonObject :=
  match ssrcSet with
  | [] => ssrcsJson
  | ssrc :: ssrcSet =>
      let ssrcJson := assign_key new_object (bytes_of "ssrc") (T_STRING ssrc) in
      ssrcs_json (i + 1) ssrcSet (assign_int ssrcsJson i (object_value ssrcJson))
  end.

Fixpoint streams_json (count : Z) (streams : list (list Z * list (list Z)))
    (streamsJson : JsonObject) : JsonObject :=
  match streams with
  | [] => streamsJson
  | (uuid, ssrcSet) :: streams =>
      match ssrcSet with
      | [] => streams_json count streams streamsJson
      | _ =>
          let ssrcsJson := ssrcs_json 0 ssrcSet new_object in
          let streamJson := assign_key new_object (bytes_of "user_uuid") (T_STRING uuid) in
          let streamJson := assign_key streamJson (bytes_of "ssrcs") (object_value ssrcsJson) in
          streams_json (count + 1) streams (assign_int streamsJson count (object_value streamJson))
      end
  end.

(** [signal_start_pull_stream] and [signal_stop_pull_stream] have the same text but
    for the command [cmd].  [streams] is changed for the caller, too. *)
Definition signal_pull_stream (cmd : Z) (this : LiveMeetingRoom) (clock : Z)
    (streams : list (list Z * list (list Z))) (w : world)
    : outcome (Z * (list (list Z * list (list Z)) * (LiveMeetingRoom * world))) :=
  match m_websocket_client this with
  | None => Ok (ERROR_WEBSOCKET_NOT_INIT, (streams, (this, w)))
  | Some client =>
      let my := m_my this in
      if is_empty (m_my_room_id my) || is_empty (m_my_user_uuid my)
      then Ok (ERROR_CONFERENCE_NOT_JOINED, (streams, (this, w))) else
      let streams := map_erase streams (m_my_user_uuid my) in
      if match streams with [] => true | _ => false end
      then Ok (ERROR_INVALID_PARAMS, (streams, (this, w))) else
      let nowSeconds := now_seconds clock in
      if count_as_limit this nowSeconds
      then Ok (ERROR_REACH_MAX_API_LIMIT, (streams, (this, w))) else
      let this := set_signal this my true nowSeconds in
      let streamsJson := streams_json 0 streams new_object in
      let params := assign_key new_object (bytes_of "conference_id") (T_STRING (m_my_room_id my)) in
      let params := assign_key params (bytes_of "user_uuid") (T_STRING (m_my_user_uuid my)) in
      let params := assign_key params (bytes_of "streams") (object_value streamsJson) in
      let '(signalUUID, generator) := get_new_uuid (w_uuid_generator w) in
      signalStr ← app_get_request_json print_double cmd signalUUID params;
      Ok (let '(ret, r) := send_signal this client w generator signalStr in (ret, (streams, r)))
  end.

Definition signal_start_pull_stream := signal_pull_stream TYPE_CONFERENCE_PULL_STREAM.
Definition signal_stop_pull_stream := signal_pull_stream TYPE_CONFERENCE_STOP_PULLING.

(** [signal_exit_conference], [signal_stop_conference] and [signal_online_users] have
    the same text but for the command. *)
Definition signal_of_member (cmd : Z) (this : LiveMeetingRoom) (clock : Z) (w : world)
    : outcome (Z * (LiveMeetingRoom * world)) :=
  match m_websocket_client this with
  | None => Ok (ERROR_WEBSOCKET_NOT_INIT, (this, w))
  | Some client =>
      let my := m_my this in
      if is_empty (m_my_room_id my) || is_empty (m_my_user_uuid my)
      then Ok (ERROR_CONFERENCE_NOT_JOINED, (this, w)) else
      let nowSeconds := now_seconds clock in
      if count_as_limit this nowSeconds then Ok (ERROR_REACH_MAX_API_LIMIT, (this, w)) else
      let this := set_signal this my true nowSeconds in
      let params := map_insert [] (bytes_of "conference_id") (m_my_room_id my) in
      let params := map_insert params (bytes_of "user_uuid") (m_my_user_uuid my) in
      let '(signalUUID, generator) := get_new_uuid (w_uuid_generator w) in
      signalStr ← app_get_request print_double cmd signalUUID params;
      Ok (send_signal this client w generator signalStr)
  end.

Definition signal_exit_conference := signal_of_member TYPE_CONFERENCE_EXIT.
Definition signal_stop_conference := signal_of_member TYPE_CONFERENCE_STOP.
Definition signal_online_users := signal_of_member TYPE_CONFERENCE_ONLINE_USERS.

Definition signal_heartbeat (this : LiveMeetingRoom) (myUserUUID conferenceID : list Z) (w : world)
    : outcome (Z * (LiveMeetingRoom * world)) :=
  match m_websocket_client this with
  | None => Ok (ERROR_WEBSOCKET_NOT_INIT, (this, w))
  | Some client =>
      let params := map_insert [] (bytes_of "conference_id") conferenceID in
      let params := map_insert params (bytes_of "user_uuid") myUserUUID in
      signalStr ← app_get_request print_double TYPE_CONFERENCE_HEARTBEAT (bytes_of "0") params;
      let '(ret, effects) := send_text client signalStr in
      let w := {| w_ports := w_ports w; w_network := w_network w;
                  w_uuid_generator := w_uuid_generator w; w_effects := w_effects w ++ effects |} in
      Ok (if negb ret then ERROR_WEBSOCKET_NOT_CONNECTED else 0, (this, w))
  end.

(** ** Messages of the server *)

Notation handled := (outcome (list (Z * conference_event * Z) * (LiveMeetingRoom * world))).

(** The fields the answers to [create] and [join] carry. *)
Definition membership_of (params : JsonObject) : membership :=
  {| m_my_room_id := str params "conference_id"; m_my_ip_addr := str params "user_ip";
     m_my_user_id := str params "user_id"; m_my_user_name := str params "user_name";
     m_my_user_uuid := str params "user_uuid";
     m_video_ssrc := str_u32 (str params "video_ssrc");
     m_audio_ssrc := str_u32 (str params "audio_ssrc");
     m_video_push_ip := str params "push_video_ip";
     m_video_push_port := str_u16 (str params "push_video_port");
     m_audio_push_ip := str params "push_audio_ip";
     m_audio_push_port := str_u16 (str params "push_audio_port") |}.

(** The assignments, the destinations and the receive thread. *)
Definition enter (params : JsonObject) (this : LiveMeetingRoom) (w : world)
    : outcome (LiveMeetingRoom * world) :=
  let my := membership_of params in
  let this := set_my this my in
  r ← add_sender_destination this w (m_video_push_ip my) (m_video_push_port my) 0 0
        (m_video_ssrc my) (m_audio_push_ip my) (m_audio_push_port my) 0 0 (m_audio_ssrc my);
  let '(this, w) := r in
  Ok (if m_receive_thread_running this then this
      else set_receiving this (thread_create =? 0), w).

Definition on_ws_conference_create (params : JsonObject) (this : LiveMeetingRoom) (w : world)
    : handled :=
  r ← enter params this w;
  let '(this, w) := r in
  let this := set_running this false in
  Ok (fire this EVENT_CONFERENCE_CREATED, (this, w)).

Definition on_ws_conference_join (params : JsonObject) (this : LiveMeetingRoom) (w : world)
    : handled :=
  r ← (if bool_decide (str params "user_uuid" = m_my_user_uuid (m_my this))
          || bool_decide (str params "user_id" = m_my_user_id (m_my this))
       then enter params this w else Ok (this, w));
  let '(this, w) := r in
  let this := set_running this false in
  Ok (fire this EVENT_CONFERENCE_JOINED, (this, w)).

Definition online_user (params : JsonObject) : OnlineUser :=
  {| userID := str params "user_id"; userName := str params "user_name";
     userIP := str params "user_ip"; userUUID := str params "user_uuid";
     videoSSRC := str_u32 (str params "video_ssrc");
     audioSSRC := str_u32 (str params "audio_ssrc") |}.

(** A [RoomUser] for a participant; both SSRCs are set. *)
Definition room_user (this : LiveMeetingRoom) (u : OnlineUser) : outcome RoomUser :=
  let roomUser := create_user 0 0 in
  let roomUser := set_user_id roomUser (userID u) in
  let roomUser := set_user_name roomUser (userName u) in
  let roomUser := set_user_ip_addr roomUser (userIP u) in
  let roomUser := set_user_uuid roomUser (userUUID u) in
  let roomUser := RoomUser.set_video_ssrc roomUser (videoSSRC u) in
  let roomUser := RoomUser.set_audio_ssrc roomUser (audioSSRC u) in
  let roomUser := RoomUser.set_aac_receive_callback roomUser (m_aac_callback this) (m_aac_callback_arg this) in
  let roomUser := RoomUser.set_h264_receive_callback roomUser (m_h264_callback this) (m_h264_callback_arg this) in
  set_pinhole_uuid print_double roomUser (m_my_user_uuid (m_my this)).

(** The participant is added unless the room knows it. *)
Definition add_user (this : LiveMeetingRoom) (u : OnlineUser) : outcome LiveMeetingRoom :=
  match map_find (m_other_users_map this) (userUUID u) with
  | Some _ => Ok this
  | None =>
      roomUser ← room_user this u;
      Ok (set_users this (map_insert (m_other_users_map this) (userUUID u) roomUser))
  end.

Definition on_ws_conference_new_joined (params : JsonObject) (this : LiveMeetingRoom) (w : world)
    : handled :=
  let user := online_user params in
  this ← add_user this user;
  Ok (fire this (EVENT_OTHER_USER_JOINED user), (this, w)).

(** The SSRCs of one stream, from index [j] on, [n] of them. *)
Fixpoint pull_ssrcs (ssrcsJson : JsonObject) (j : Z) (n : nat) (roomUser : RoomUser)
    (ports : PortManager) : RoomUser * PortManager :=
  match n with
  | O => (roomUser, ports)
  | S n =>
      let ssrcJson := as_object (at_index ssrcsJson j) in
      let ssrc := str_u32 (str ssrcJson "ssrc") in
      let pinholePort := str_u16 (str ssrcJson "port") in
      let '(_, (roomUser, ports)) :=
        RoomUser.initialize env roomUser (c_str (str ssrcJson "ip")) pinholePort ssrc ports in
      pull_ssrcs ssrcsJson (j + 1) n roomUser ports
  end.

Fixpoint pull_streams (streamsJson : JsonObject) (i : Z) (n : nat)
    (users : list (list Z * RoomUser)) (ports : PortManager)
    : list (list Z * RoomUser) * PortManager :=
  match n with
  | O => (users, ports)
  | S n =>
      let streamJson := as_object (at_index streamsJson i) in
      let streamUserUUID := str streamJson "user_uuid" in
      match map_find users streamUserUUID with
      | None => pull_streams streamsJson (i + 1) n users ports
      | Some roomUser =>
          let ssrcsJson := as_object (at_key streamJson (bytes_of "ssrcs")) in
          let '(roomUser, ports) :=
            pull_ssrcs ssrcsJson 0 (Z.to_nat (array_size ssrcsJson)) roomUser ports in
          pull_streams streamsJson (i + 1) n (map_insert users streamUserUUID roomUser) ports
      end
  end.

Definition on_ws_conference_pull_stream (params : JsonObject) (this : LiveMeetingRoom) (w : world)
    : handled :=
  let streamsJson := as_object (at_key params (bytes_of "streams")) in
  let '(users, ports) :=
    pull_streams streamsJson 0 (Z.to_nat (array_size streamsJson)) (m_other_users_map this)
      (w_ports w) in
  Ok ([], (set_running (set_users this users) false, set_ports w ports)).

Definition on_ws_conference_stop_pulling (params : JsonObject) (this : LiveMeetingRoom) (w : world)
    : handled := Ok ([], (set_running this false, w)).

(** What the end of the conference undoes. *)
Definition leave (this : LiveMeetingRoom) : LiveMeetingRoom :=
  let this := stop_receive this in
  let this := remove_sender this in
  let this := set_users this [] in
  let this := set_my this no_membership in
  set_running this false.

Definition on_ws_conference_exit (params : JsonObject) (this : LiveMeetingRoom) (w : world)
    : handled :=
  let this := leave this in
  Ok (fire this (EVENT_CONFERENCE_EXIT (str params "user_uuid")), (this, w)).

Definition on_ws_conference_user_gone (params : JsonObject) (this : LiveMeetingRoom) (w : world)
    : handled :=
  let uuid := str params "user_uuid" in
  let this := match map_find (m_other_users_map this) uuid with
              | Some _ => set_users this (map_erase (m_other_users_map this) uuid)
              | None => this
              end in
  Ok (fire this (EVENT_USER_GONE_OUT uuid), (this, w)).

(** The users of the answer, from index [i] on, [n] of them. *)
Fixpoint online_users (onlineUsersJson : JsonObject) (i : Z) (n : nat) (this : LiveMeetingRoom)
    : outcome (list OnlineUser * LiveMeetingRoom) :=
  match n with
  | O => Ok ([], this)
  | S n =>
      let user := online_user (as_object (at_index onlineUsersJson i)) in
      this ← add_user this user;
      r ← online_users onlineUsersJson (i + 1) n this;
      let '(userVec, this) := r in
      Ok (user :: userVec, this)
  end.

Definition on_ws_conference_online_users (params : JsonObject) (this : LiveMeetingRoom) (w : world)
    : handled :=
  let this := set_running this false in
  let onlineUsersJson := as_object (at_key params (bytes_of "online_users")) in
  r ← online_users onlineUsersJson 0 (Z.to_nat (array_size onlineUsersJson)) this;
  let '(userVec, this) := r in
  Ok (fire this (EVENT_ONLINE_USERS userVec), (this, w)).

Definition on_ws_conference_heartbeat (params : JsonObject) (this : LiveMeetingRoom) (w : world)
    : handled := Ok ([], (this, w)).

Definition on_ws_conference_stop (params : JsonObject) (this : LiveMeetingRoom) (w : world)
    : handled :=
  let this := leave this in
  Ok (fire this (EVENT_CONFERENCE_STOPPED (str params "conference_id")), (this, w)).

Definition on_ws_conference_closing (params : JsonObject) (this : LiveMeetingRoom) (w : world)
    : handled :=
  let this := leave this in
  Ok (fire this (EVENT_CONFERENCE_CLOSING (str params "conference_id")), (this, w)).

Definition on_websocket_event (this : LiveMeetingRoom) (event : ws_event) : list ws_effect :=
  match m_signal_callback_func this with
  | Some func => [call_ws_func func event (m_signal_callback_arg this)]
  | None => []
  end.

(** [on_websocket_message], but for its [LOG] lines, which [RoomLog] puts in front: a case
    without [return] falls through to the next. *)
Definition on_websocket_message (this : LiveMeetingRoom) (message : list Z) (w : world) : handled :=
  r ← read_from_string string_to_double new_object message;
  let '(ret, json) := r in
  if negb (ret : bool) then Ok ([], (this, w)) else
  let opcode := string_to_int (str json "opcode") in
  if negb (bool_decide (str json "code" = bytes_of "200")) then Ok ([], (this, w)) else
  let params := as_object (at_key json (bytes_of "params")) in
  if opcode =? TYPE_CONFERENCE_CREATE then on_ws_conference_create params this w
  else if opcode =? TYPE_CONFERENCE_JOIN then on_ws_conference_join params this w
  else if opcode =? TYPE_CONFERENCE_NEW_JOINED then on_ws_conference_new_joined params this w
  else if opcode =? TYPE_CONFERENCE_PULL_STREAM then on_ws_conference_pull_stream params this w
  else if opcode =? TYPE_CONFERENCE_STOP_PULLING then on_ws_conference_stop_pulling params this w
  else if opcode =? TYPE_CONFERENCE_EXIT then on_ws_conference_exit params this w
  else if opcode =? TYPE_CONFERENCE_USER_GONE then on_ws_conference_user_gone params this w
  else if opcode =? TYPE_CONFERENCE_STOP then on_ws_conference_stop params this w
  else if opcode =? TYPE_CONFERENCE_ONLINE_USERS then on_ws_conference_online_users params this w
  else if opcode =? TYPE_CONFERENCE_CLOSING then
    r ← on_ws_conference_closing params this w;
    let '(evs, (this, w)) := r in
    r ← on_ws_conference_heartbeat params this w;
    let '(evs', (this, w)) := r in Ok (evs ++ evs', (this, w))
  else if opcode =? TYPE_CONFERENCE_HEARTBEAT then on_ws_conference_heartbeat params this w
  else Ok ([], (this, w)).
End room.

(** ** Maps *)

Section map_lemmas.
Context {V : Type}.

Lemma map_find_insert (m : list (list Z * V)) k v k' :
  map_find (map_insert m k v) k' = if bool_decide (k' = k) then Some v else map_find m k'.
Proof.
  induction m as [|[k0 v0] m IH]; cbn [map_insert]; [done|].
  destruct (bool_decide_reflect (k = k0)) as [<-|E0].
  - cbn [map_find]. by destruct (bool_decide_reflect (k' = k)).
  - destruct (key_lt k k0); cbn [map_find]; [done|]. rewrite IH.
    destruct (bool_decide_reflect (k' = k0)), (bool_decide_reflect (k' = k)); congruence.
Qed.

Lemma map_find_erase_ne (m : list (list Z * V)) k k' :
  k' ≠ k → map_find (map_erase m k) k' = map_find m k'.
Proof.
  intros Hk. induction m as [|[k0 v0] m IH]; cbn [map_erase map_find]; [done|].
  case_bool_decide as E0; [subst; by rewrite bool_decide_eq_false_2|].
  cbn [map_find]. by rewrite IH.
Qed.

Lemma map_find_in (m : list (list Z * V)) k v : map_find m k = Some v → (k, v) ∈ m.
Proof.
  induction m as [|[k0 v0] m IH]; cbn [map_find]; [done|]. case_bool_decide; [|set_solver].
  intros [= ->]. subst. set_solver.
Qed.

Lemma map_insert_in (m : list (list Z * V)) k v kv :
  kv ∈ map_insert m k v → kv = (k, v) ∨ kv ∈ m.
Proof.
  induction m as [|[k0 v0] m IH]; cbn [map_insert]; [set_solver|].
  case_bool_decide; [set_solver|]. destruct (key_lt k k0); set_solver.
Qed.

Lemma map_erase_in (m : list (list Z * V)) k kv : kv ∈ map_erase m k → kv ∈ m.
Proof.
  induction m as [|[k0 v0] m IH]; cbn [map_erase]; [done|]. case_bool_decide; set_solver.
Qed.

Lemma map_erase_find (m : list (list Z * V)) k : NoDup m.*1 → map_find (map_erase m k) k = None.
Proof.
  induction m as [|[k0 v0] m IH]; [done|]. rewrite fmap_cons, NoDup_cons. cbn [map_erase fst].
  intros [Hk Hnd]. case_bool_decide; [subst|].
  - destruct (map_find m k0) eqn:E; [|done]. destruct Hk. apply map_find_in in E.
    by apply (list_elem_of_fmap_2 fst) in E.
  - cbn [map_find]. rewrite bool_decide_eq_false_2 by done. by apply IH.
Qed.

(** The keys of a [std::map] are in strictly increasing order. *)
Definition sorted_map (m : list (list Z * V)) : Prop :=
  StronglySorted (λ a b, key_lt a b = true) m.*1.

Lemma key_lt_trans a b c : key_lt a b = true → key_lt b c = true → key_lt a c = true.
Proof.
  revert b c. induction a as [|x a IH]; intros [|y b] [|z c]; cbn [key_lt]; try done.
  rewrite !orb_true_iff, !andb_true_iff, !Z.ltb_lt, !Z.eqb_eq.
  intros [H1|[H1 H1']] [H2|[H2 H2']]; [left; lia..|]. right. split; [lia|by eapply IH].
Qed.

Lemma key_lt_total a b : key_lt a b = false → a ≠ b → key_lt b a = true.
Proof.
  revert b. induction a as [|x a IH]; intros [|y b]; cbn [key_lt]; try done.
  rewrite orb_false_iff, orb_true_iff, andb_true_iff, !Z.ltb_lt, Z.ltb_ge, Z.eqb_eq.
  intros [H1 H2] Hne. destruct (Z.eq_dec x y) as [->|]; [|left; lia].
  right. split; [done|]. rewrite Z.eqb_refl in H2. apply IH; [done|congruence].
Qed.

Lemma map_insert_key (m : list (list Z * V)) k v k' :
  k' ∈ (map_insert m k v).*1 → k' = k ∨ k' ∈ m.*1.
Proof.
  intros (kv & -> & H)%list_elem_of_fmap. apply map_insert_in in H as [->|H]; [by left|right].
  by apply (list_elem_of_fmap_2 fst).
Qed.

Lemma map_insert_sorted m k v : sorted_map m → sorted_map (map_insert m k v).
Proof.
  unfold sorted_map. induction m as [|[k0 v0] m IH]; cbn [map_insert].
  { intros _. repeat constructor. }
  intros Hs. case_bool_decide as E0; [by subst|].
  rewrite fmap_cons in Hs. cbn [fst] in Hs. pose proof (StronglySorted_inv Hs) as [Hs' Hlt].
  rewrite Forall_forall in Hlt.
  destruct (key_lt k k0) eqn:Ek; rewrite !fmap_cons; cbn [fst].
  - constructor; [done|]. constructor; [done|]. apply Forall_forall. intros k' Hk'.
    eapply key_lt_trans; [done|]. by apply Hlt.
  - constructor; [by apply IH|]. apply Forall_forall. intros k' [->|Hk']%map_insert_key.
    + by apply key_lt_total.
    + by apply Hlt.
Qed.

Lemma map_erase_sorted m k : sorted_map m → sorted_map (map_erase m k).
Proof.
  unfold sorted_map. induction m as [|[k0 v0] m IH]; cbn [map_erase]; [done|].
  rewrite fmap_cons. intros [Hs Hlt]%StronglySorted_inv. case_bool_decide; [done|].
  rewrite fmap_cons. constructor; [by apply IH|]. rewrite Forall_forall in *. intros k' Hk'.
  apply Hlt. apply list_elem_of_fmap in Hk' as (kv & -> & Hkv). apply map_erase_in in Hkv.
  by apply (list_elem_of_fmap_2 fst).
Qed.

Lemma sorted_map_NoDup m : sorted_map m → NoDup m.*1.
Proof.
  unfold sorted_map. induction 1 as [|k l Hs IH Hk]; constructor; [|done].
  intros Hin. rewrite Forall_forall in Hk. specialize (Hk k Hin). by rewrite key_lt_irrefl in Hk.
Qed.
End map_lemmas.

(** ** The invariant of the room *)

(** Every participant is stored under its identifier, in order, and is in good state;
    the two senders come and go together, and are initialised when the room thinks so. *)
Record room_ok (this : LiveMeetingRoom) : Prop := {
  ok_sorted : sorted_map (m_other_users_map this);
  ok_users : Forall (λ kv, user_ok kv.2 ∧ m_user_uuid kv.2 = kv.1) (m_other_users_map this);
  ok_audio : ∀ a, m_rtp_audio_sender this = Some a → RTPSessionAudio.wf a;
  ok_video : ∀ v, m_rtp_video_sender this = Some v → RTPSessionVideo.wf v;
  ok_both : is_Some (m_rtp_audio_sender this) ↔ is_Some (m_rtp_video_sender this);
  ok_ready : m_rtp_send_initialized this = true → ∃ a v,
    m_rtp_audio_sender this = Some a ∧ m_rtp_video_sender this = Some v
    ∧ RTPSessionAudio.m_initialize a = true ∧ RTPSessionVideo.m_initialize v = true;
}.

Definition users_ok (users : list (list Z * RoomUser)) : Prop :=
  sorted_map users ∧ Forall (λ kv, user_ok kv.2 ∧ m_user_uuid kv.2 = kv.1) users.

Lemma room_ok_users this : room_ok this → users_ok (m_other_users_map this).
Proof. by intros [H1 H2 _ _ _ _]. Qed.

Lemma set_users_ok this users : room_ok this → users_ok users → room_ok (set_users this users).
Proof. intros [_ _ H3 H4 H5 H6] [H1 H2]. by split. Qed.

Lemma set_signal_ok this my running time : room_ok this → room_ok (set_signal this my running time).
Proof. intros [H1 H2 H3 H4 H5 H6]. by split. Qed.

Lemma set_receiving_ok this b : room_ok this → room_ok (set_receiving this b).
Proof. intros [H1 H2 H3 H4 H5 H6]. by split. Qed.

#[local] Hint Resolve set_signal_ok set_receiving_ok : room.

Lemma users_ok_insert users k u :
  users_ok users → user_ok u → m_user_uuid u = k → users_ok (map_insert users k u).
Proof.
  intros [Hs Hu] H1 H2. split; [by apply map_insert_sorted|].
  rewrite Forall_forall in *. intros kv [->|Hkv]%map_insert_in; [done|by apply Hu].
Qed.

Lemma users_ok_erase users k : users_ok users → users_ok (map_erase users k).
Proof.
  intros [Hs Hu]. split; [by apply map_erase_sorted|].
  rewrite Forall_forall in *. intros kv Hkv%map_erase_in. by apply Hu.
Qed.

Lemma users_ok_find users k u :
  users_ok users → map_find users k = Some u → user_ok u ∧ m_user_uuid u = k.
Proof.
  intros [_ Hu] H%map_find_in. rewrite Forall_forall in Hu. by apply (Hu (k, u)).
Qed.

Lemma instance_ok : room_ok instance.
Proof.
  split; cbn; [constructor|constructor|done|done| |done].
  by split; intros []%is_Some_None.
Qed.

Lemma free_context_ok this : room_ok (free_context this).
Proof.
  split; cbn; [constructor|constructor|done|done| |done].
  by split; intros []%is_Some_None.
Qed.

Lemma leave_ok this : room_ok (leave this).
Proof.
  unfold leave, stop_receive. split; cbn; [constructor|constructor|done|done| |done].
  by split; intros []%is_Some_None.
Qed.

Section room_lemmas.
Context {double : Type} (string_to_double : list Z → double).
Context (print_double print_f : double → list Z) (env : environment) (thread_create : Z).

(** *** The senders *)

Lemma audio_add_ok a ip port :
  RTPSessionAudio.wf a →
  ∃ r a', RTPSessionAudio.add_destination (inet_addr env) a ip port = Ok (r, a')
    ∧ RTPSessionAudio.wf a' ∧ RTPSessionAudio.m_initialize a' = RTPSessionAudio.m_initialize a.
Proof.
  intros [(Hi & Hb & t & Ht)| -> ].
  - unfold RTPSessionAudio.add_destination. rewrite Hi, Ht. cbn. do 2 eexists. split; [done|].
    split; [left; cbn; eauto|done].
  - do 2 eexists. split; [done|]. split; [by right|done].
Qed.

Lemma video_add_ok v ip port :
  RTPSessionVideo.wf v →
  ∃ r v', RTPSessionVideo.add_destination (inet_addr env) v ip port = Ok (r, v')
    ∧ RTPSessionVideo.wf v' ∧ RTPSessionVideo.m_initialize v' = RTPSessionVideo.m_initialize v.
Proof.
  intros [(Hi & Hb & t & Ht)| -> ].
  - unfold RTPSessionVideo.add_destination. rewrite Hi, Ht. cbn. do 2 eexists. split; [done|].
    split; [left; cbn; eauto|done].
  - do 2 eexists. split; [done|]. split; [by right|done].
Qed.

Lemma transmitter_init_ports ports :
  PortManager.wf ports →
  PortManager.wf (RTPTransmitterV4.init (os env) (sock env) (bind_result env) new_transmitter None ports).2.2.
Proof.
  intros Hw. unfold RTPTransmitterV4.init. cbn [RTPTransmitterV4.m_initialize new_transmitter].
  pose proof (get_available_port_wf (os env) ports Hw) as Hp.
  destruct (get_available_port (os env) ports) as [port ports']. destruct Hp as [Hp _].
  by repeat case_match.
Qed.

Lemma audio_init_ok a q t s ports ret a' ports' :
  RTPSessionAudio.wf a → PortManager.wf ports →
  RTPSessionAudio.init (os env) (sock env) (bind_result env) a q t s ports = (ret, (a', ports')) →
  RTPSessionAudio.wf a' ∧ PortManager.wf ports'
  ∧ (ret = true → RTPSessionAudio.m_initialize a' = true).
Proof.
  intros Ha Hp E.
  pose proof (RTPSessionAudio.audio_session_init_wf (os env) (sock env) (bind_result env) a q t s ports Ha) as Hw.
  pose proof (transmitter_init_ports ports Hp) as Ht. revert E Hw Ht.
  unfold RTPSessionAudio.init. destruct (RTPSessionAudio.m_initialize a) eqn:Ei.
  { intros [= <- <- <-] _ _. done. }
  destruct (RTPAACPacketBuilder.init _ _ _) as [[] b]; cbn [negb].
  - destruct (RTPTransmitterV4.init _ _ _ _ _ _) as [[] [tr p]]; cbn [negb];
      intros [= <- <- <-] Hw Ht; done.
  - intros [= <- <- <-] Hw _. done.
Qed.

Lemma video_init_ok v q t s ports ret v' ports' :
  RTPSessionVideo.wf v → PortManager.wf ports →
  RTPSessionVideo.init (os env) (sock env) (bind_result env) v q t s ports = (ret, (v', ports')) →
  RTPSessionVideo.wf v' ∧ PortManager.wf ports'
  ∧ (ret = true → RTPSessionVideo.m_initialize v' = true).
Proof.
  intros Ha Hp E.
  pose proof (RTPSessionVideo.video_session_init_wf (os env) (sock env) (bind_result env) v q t s ports Ha) as Hw.
  pose proof (transmitter_init_ports ports Hp) as Ht. revert E Hw Ht.
  unfold RTPSessionVideo.init. destruct (RTPSessionVideo.m_initialize v) eqn:Ei.
  { intros [= <- <- <-] _ _. done. }
  destruct (RTPH264PacketBuilder.init _ _ _) as [[] b]; cbn [negb].
  - destruct (RTPTransmitterV4.init _ _ _ _ _ _) as [[] [tr p]]; cbn [negb];
      intros [= <- <- <-] Hw Ht; done.
  - intros [= <- <- <-] Hw _. done.
Qed.

(** What a handler gives: a room and a world in good state. *)
Definition good (this : LiveMeetingRoom) (w : world) : Prop :=
  room_ok this ∧ PortManager.wf (w_ports w).

Lemma set_senders_ok this a v b :
  room_ok this → RTPSessionAudio.wf a → RTPSessionVideo.wf v →
  (b = true → RTPSessionAudio.m_initialize a = true ∧ RTPSessionVideo.m_initialize v = true) →
  room_ok (set_senders this (Some a) (Some v) b).
Proof.
  intros [H1 H2 H3 H4 H5 H6] Ha Hv Hb.
  split; cbn; [done|done|by intros ? [= <-]|by intros ? [= <-]|by split; eauto|].
  intros E. destruct (Hb E). eauto 10.
Qed.

Lemma add_sender_destination_ok this w vip vport vs vt vssrc aip aport as_ at_ assrc :
  good this w →
  ∃ this' w', add_sender_destination env this w vip vport vs vt vssrc aip aport as_ at_ assrc
      = Ok (this', w') ∧ good this' w' ∧ m_my this' = m_my this
    ∧ m_other_users_map this' = m_other_users_map this
    ∧ (∀ e, fire this' e = fire this e)
    ∧ (m_rtp_audio_sender this = None → m_rtp_audio_sender this' = None)
    ∧ (m_rtp_video_sender this = None → m_rtp_video_sender this' = None).
Proof.
  intros [Hok Hp]. unfold add_sender_destination.
  destruct (m_rtp_audio_sender this) as [a|] eqn:Ea; [|by exists this, w].
  destruct (m_rtp_video_sender this) as [v|] eqn:Ev; [|by exists this, w].
  pose proof (ok_audio this Hok a Ea) as Hwa. pose proof (ok_video this Hok v Ev) as Hwv.
  set (prep := if m_rtp_send_initialized this then _ else _).
  assert (Hprep : ∃ ready a' v' ports, prep = (ready, (a', (v', ports)))
    ∧ RTPSessionAudio.wf a' ∧ RTPSessionVideo.wf v' ∧ PortManager.wf ports
    ∧ (ready = true → RTPSessionAudio.m_initialize a' = true ∧ RTPSessionVideo.m_initialize v' = true)
    ∧ (m_rtp_send_initialized this = true → ready = true)).
  { unfold prep. destruct (m_rtp_send_initialized this) eqn:Er.
    - exists true, a, v, (w_ports w). split_and!; try done. intros _.
      destruct (ok_ready this Hok Er) as (a0 & v0 & E1 & E2 & Hi1 & Hi2). simplify_eq. done.
    - destruct (RTPSessionAudio.init _ _ _ _ _ _ _ _) as [r [a' p]] eqn:E1.
      apply audio_init_ok in E1 as (Ha' & Hp' & Hi); [|done..].
      destruct r; cbn [negb]; [|exists false, a', v, p; by split_and!].
      destruct (RTPSessionVideo.init _ _ _ _ _ _ _ _) as [r [v' p']] eqn:E2.
      apply video_init_ok in E2 as (Hv' & Hp'' & Hi'); [|done..].
      exists r, a', v', p'. split_and!; auto; done. }
  destruct Hprep as (ready & a' & v' & ports & -> & Ha' & Hv' & Hp' & Hr & Hflag).
  destruct ready; cbn [negb].
  - destruct (audio_add_ok a' (c_str aip) aport Ha') as (r1 & a2 & E1 & Ha2 & Hi1). step E1.
    destruct (video_add_ok v' (c_str vip) vport Hv') as (r2 & v2 & E2 & Hv2 & Hi2). step E2.
    do 2 eexists. split; [done|]. destruct (Hr eq_refl) as [Hia Hiv]. split_and!; try done.
    split; [|done]. apply set_senders_ok; [done..|]. intros _; cbn [snd]; by rewrite Hi1, Hi2.
  - do 2 eexists. split; [done|]. split_and!; try done. split; [|done].
    apply set_senders_ok; [done..|]. intros E. by specialize (Hflag E).
Qed.

Definition same_senders (this this' : LiveMeetingRoom) : Prop :=
  (m_rtp_audio_sender this = None → m_rtp_audio_sender this' = None)
  ∧ (m_rtp_video_sender this = None → m_rtp_video_sender this' = None).

(** A handler that runs to its end, keeps the room in good state, and creates no
    sender. *)
Definition handles (this : LiveMeetingRoom)
    (r : outcome (list (Z * conference_event * Z) * (LiveMeetingRoom * world))) : Prop :=
  ∃ evs this' w', r = Ok (evs, (this', w')) ∧ good this' w' ∧ same_senders this this'.

Lemma enter_ok params this w :
  good this w →
  ∃ this' w', enter print_f env thread_create params this w = Ok (this', w') ∧ good this' w'
    ∧ m_my this' = membership_of print_f params ∧ same_senders this this'
    ∧ m_other_users_map this' = m_other_users_map this
    ∧ (∀ e, fire this' e = fire this e).
Proof.
  intros [Hok Hp]. unfold enter.
  destruct (add_sender_destination_ok (set_my this (membership_of print_f params)) w
              (m_video_push_ip (membership_of print_f params))
              (m_video_push_port (membership_of print_f params)) 0 0
              (m_video_ssrc (membership_of print_f params))
              (m_audio_push_ip (membership_of print_f params))
              (m_audio_push_port (membership_of print_f params)) 0 0
              (m_audio_ssrc (membership_of print_f params)))
    as (this' & w' & E & [Hok' Hp'] & H1 & H2 & H3 & H4 & H5); [by split; [apply set_signal_ok|]|].
  step E. do 2 eexists. split; [done|].
  destruct (m_receive_thread_running this'); split_and!; try done; by split; [apply set_receiving_ok|].
Qed.

Lemma room_user_ok this u :
  ∃ usr, room_user print_double this u = Ok usr ∧ user_ok usr ∧ m_user_uuid usr = userUUID u.
Proof.
  unfold room_user. match goal with |- context [set_pinhole_uuid _ ?r ?i] =>
    destruct (set_pinhole_uuid_total print_double r i) as (usr & E & Hok & Hu) end.
  exists usr. split; [exact E|]. split; [|exact Hu]. apply Hok.
  unfold RoomUser.set_h264_receive_callback, RoomUser.set_aac_receive_callback.
  apply set_callbacks_ok, set_callbacks_ok. repeat apply set_identity_ok. apply create_user_ok.
Qed.

(** The participants the room knows are kept; a new one is added. *)
Lemma add_user_ok this u :
  room_ok this →
  ∃ this', add_user print_double this u = Ok this' ∧ room_ok this'
    ∧ is_Some (map_find (m_other_users_map this') (userUUID u))
    ∧ (∀ k, k ≠ userUUID u →
         map_find (m_other_users_map this') k = map_find (m_other_users_map this) k)
    ∧ (∀ k usr, map_find (m_other_users_map this) k = Some usr →
         map_find (m_other_users_map this') k = Some usr)
    ∧ this' = set_users this (m_other_users_map this').
Proof.
  intros Hok. unfold add_user. destruct (map_find (m_other_users_map this) (userUUID u)) as [usr|] eqn:E.
  { exists this. do 2 (split; [done|]). split; [by rewrite E|]. do 2 (split; [done|]). by destruct this. }
  destruct (room_user_ok this u) as (usr & -> & H1 & H2). step_bind. eexists. split; [done|].
  assert (Hu : users_ok (map_insert (m_other_users_map this) (userUUID u) usr))
    by (apply users_ok_insert; [by apply room_ok_users|done|done]).
  split; [by apply set_users_ok|]. split; [|split; [|split; [|done]]].
  - cbn. rewrite map_find_insert, bool_decide_eq_true_2 by done. by eexists.
  - intros k Hk. cbn. by rewrite map_find_insert, bool_decide_eq_false_2.
  - intros k usr' Hk. cbn. rewrite map_find_insert. destruct (bool_decide_reflect (k = userUUID u)); [congruence|done].
Qed.

Lemma pull_ssrcs_ok ssrcsJson j n u ports :
  user_ok u → PortManager.wf ports →
  let '(u', ports') := pull_ssrcs print_f env ssrcsJson j n u ports in
  user_ok u' ∧ PortManager.wf ports' ∧ m_user_uuid u' = m_user_uuid u.
Proof.
  revert j u ports. induction n as [|n IH]; intros j u ports Hu Hp; cbn [pull_ssrcs]; [done|].
  match goal with |- context [RoomUser.initialize env u ?ip ?port ?ssrc ports] =>
    pose proof (initialize_ok env u ip port ssrc ports Hu Hp) as H;
    destruct (RoomUser.initialize env u ip port ssrc ports) as [r [u1 p1]] end.
  destruct H as (Hu1 & Hp1 & E1). specialize (IH (j + 1) u1 p1 Hu1 Hp1).
  destruct (pull_ssrcs print_f env ssrcsJson (j + 1) n u1 p1) as [u' p'].
  destruct IH as (H1 & H2 & H3). split_and!; [done|done|by rewrite H3].
Qed.

Lemma pull_streams_ok streamsJson i n users ports :
  users_ok users → PortManager.wf ports →
  let '(users', ports') := pull_streams print_f env streamsJson i n users ports in
  users_ok users' ∧ PortManager.wf ports'.
Proof.
  revert i users ports. induction n as [|n IH]; intros i users ports Hu Hp; cbn [pull_streams]; [done|].
  set (k := str print_f _ "user_uuid"). destruct (map_find users k) as [u|] eqn:E; [|by apply IH].
  destruct (users_ok_find users k u Hu E) as [Hu1 Hk].
  match goal with |- context [pull_ssrcs print_f env ?o ?j ?m u ports] =>
    pose proof (pull_ssrcs_ok o j m u ports Hu1 Hp) as H;
    destruct (pull_ssrcs print_f env o j m u ports) as [u' p'] end.
  destruct H as (H1 & H2 & H3). apply IH; [|done]. apply users_ok_insert; [done|done|by rewrite H3].
Qed.

Lemma online_users_ok o i n this :
  room_ok this →
  ∃ l this', online_users print_double print_f o i n this = Ok (l, this') ∧ room_ok this'
    ∧ l = (λ j, online_user print_f (as_object (at_index o (i + Z.of_nat j)))) <$> seq 0 n
    ∧ Forall (λ u, is_Some (map_find (m_other_users_map this') (userUUID u))) l
    ∧ (∀ k, k ∉ userUUID <$> l →
         map_find (m_other_users_map this') k = map_find (m_other_users_map this) k)
    ∧ (∀ k usr, map_find (m_other_users_map this) k = Some usr →
         map_find (m_other_users_map this') k = Some usr)
    ∧ this' = set_users this (m_other_users_map this').
Proof.
  revert i this. induction n as [|n IH]; intros i this Hok; cbn [online_users].
  { exists [], this. do 3 (split; [done|]). split; [constructor|]. do 2 (split; [done|]). by destruct this. }
  set (u := online_user print_f _).
  destruct (add_user_ok this u Hok) as (this1 & E1 & Hok1 & Hin & Hne & Hk & Eq1). step E1.
  destruct (IH (i + 1) this1 Hok1) as (l & this2 & E2 & Hok2 & El & Hall & Hne2 & Hk2 & Eq2). step E2.
  exists (u :: l), this2. do 2 (split; [done|]). split; [|split; [|split; [|split]]].
  - rewrite <- cons_seq, <- fmap_S_seq, fmap_cons, <- list_fmap_compose. f_equal.
    + unfold u. by rewrite Z.add_0_r.
    + rewrite El. apply list_fmap_ext. intros j x _. cbn. do 3 f_equal. lia.
  - constructor; [|done]. destruct Hin as [usr Husr]. exists usr. by apply Hk2.
  - intros k Hkl. rewrite fmap_cons in Hkl. apply not_elem_of_cons in Hkl as [Hk1 Hk2'].
    by rewrite Hne2, Hne.
  - intros k usr Hu. by apply Hk2, Hk.
  - rewrite Eq2, Eq1. done.
Qed.

Lemma message_handled this message w :
  good this w →
  handles this (on_websocket_message string_to_double print_double print_f env thread_create
                  this message w).
Proof.
  intros [Hok Hp]. unfold on_websocket_message.
  destruct (read_from_string_result string_to_double new_object message) as (ret & json & E). step E.
  assert (Hkeep : ∀ evs, handles this (Ok (evs, (this, w)))) by (intros evs; by exists evs, this, w).
  assert (Hleave : ∀ evs, handles this (Ok (evs, (leave this, w)))).
  { intros evs. exists evs, (leave this), w. split; [done|]. split; [by split; [apply leave_ok|]|done]. }
  destruct ret; cbn [negb]; [|apply Hkeep]. case_match; [apply Hkeep|].
  set (params := as_object _).
  repeat (case_match; [|]); try apply Hkeep; try apply Hleave.
  - unfold on_ws_conference_create.
    destruct (enter_ok params this w) as (this' & w' & E' & [Hok' Hp'] & _ & Hs & _); [done|]. step E'.
    do 3 eexists. split; [done|]. split; [by split; [apply set_signal_ok|]|exact Hs].
  - unfold on_ws_conference_join. case_match.
    + destruct (enter_ok params this w) as (this' & w' & E' & [Hok' Hp'] & _ & Hs & _); [done|]. step E'.
      do 3 eexists. split; [done|]. split; [by split; [apply set_signal_ok|]|exact Hs].
    + step_bind. do 3 eexists. split; [done|]. split; [by split; [apply set_signal_ok|]|done].
  - unfold on_ws_conference_new_joined.
    destruct (add_user_ok this (online_user print_f params) Hok) as (this' & E' & Hok' & _ & _ & _ & Eq).
    step E'. do 3 eexists. split; [done|]. split; [done|]. by rewrite Eq.
  - unfold on_ws_conference_pull_stream.
    match goal with |- context [pull_streams print_f env ?o ?i ?n ?u ?p] =>
      pose proof (pull_streams_ok o i n u p (room_ok_users this Hok) Hp) as H';
      destruct (pull_streams print_f env o i n u p) as [users ports] end.
    destruct H' as [Hu Hp']. do 3 eexists. split; [done|].
    split; [split; [by apply set_signal_ok, set_users_ok|done]|done].
  - do 3 eexists. split; [done|]. split; [by split; [apply set_signal_ok|]|done].
  - unfold on_ws_conference_user_gone. do 3 eexists. split; [done|].
    case_match; [|done]. split; [|done]. split; [|done].
    by apply set_users_ok, users_ok_erase, room_ok_users.
  - unfold on_ws_conference_online_users.
    match goal with |- context [online_users print_double print_f ?o ?i ?n ?t] =>
      destruct (online_users_ok o i n t (set_signal_ok this _ _ _ Hok))
        as (l & this' & E' & Hok' & _ & _ & _ & _ & Eq) end.
    step E'. do 3 eexists. split; [done|]. split; [done|]. by rewrite Eq.
Qed.

Notation on_message := (on_websocket_message string_to_double print_double print_f env thread_create).

(** Whatever bytes the server sends, the room handles them to the end, without an
    access outside of its memory, and stays in good state. *)
Theorem on_websocket_message_safe this message w :
  room_ok this → PortManager.wf (w_ports w) →
  ∃ evs this' w', on_message this message w = Ok (evs, (this', w'))
    ∧ room_ok this' ∧ PortManager.wf (w_ports w').
Proof.
  intros Hok Hp.
  destruct (message_handled this message w) as (evs & this' & w' & E & [H1 H2] & _); [done|].
  by exists evs, this', w'.
Qed.

(** Messages one after the other. *)
Fixpoint on_messages (this : LiveMeetingRoom) (messages : list (list Z)) (w : world)
    : outcome (list (Z * conference_event * Z) * (LiveMeetingRoom * world)) :=
  match messages with
  | [] => Ok ([], (this, w))
  | message :: messages =>
      r ← on_message this message w;
      let '(evs, (this, w)) := r in
      r ← on_messages this messages w;
      let '(evs', (this, w)) := r in Ok (evs ++ evs', (this, w))
  end.

(** Once a conference is left the room has no senders, and no message of the server
    brings them back: in the next conference nothing that is published is sent. *)
Theorem no_sender_after_leaving this messages w sendto now base data len :
  PortManager.wf (w_ports w) →
  ∃ evs this' w', on_messages (leave this) messages w = Ok (evs, (this', w'))
    ∧ send_h264_data sendto now base this' data len w' = Ok (this', w')
    ∧ send_aac_data sendto now this' data len w' = Ok (this', w').
Proof.
  intros Hp. assert (Hg : good (leave this) w) by (split; [apply leave_ok|done]).
  assert (Ha : m_rtp_audio_sender (leave this) = None) by done.
  assert (Hv : m_rtp_video_sender (leave this) = None) by done.
  clear Hp. revert Hg Ha Hv. generalize (leave this). clear this. revert w.
  induction messages as [|message messages IH]; intros w this Hg Ha Hv; cbn [on_messages].
  { exists [], this, w. split; [done|]. unfold send_h264_data, send_aac_data. by rewrite Ha, Hv. }
  destruct (message_handled this message w Hg) as (evs & this1 & w1 & E & Hg1 & Ha1 & Hv1). step E.
  destruct (IH w1 this1 Hg1 (Ha1 Ha) (Hv1 Hv)) as (evs2 & this2 & w2 & E2 & H1 & H2). step E2.
  by exists (evs ++ evs2), this2, w2.
Qed.

(** *** Answers of the server *)

(** The value a parameter has. *)
Definition param (params : list (list Z * list Z)) (key : string) : list Z :=
  default [] (map_find params (bytes_of key)).

Lemma str_param params key :
  str print_f {| m_is_array := false; m_members := param_members (double := double) params |} key
  = param params key.
Proof.
  unfold str, at_key, param, param_members. cbn [m_members].
  induction params as [|[k v] params IH]; [done|]. rewrite fmap_cons. cbn [map_find fst snd].
  by destruct (bool_decide (bytes_of key = k)).
Qed.

Lemma response_received code msg cmd uuid params s :
  no_backslash code = true → no_backslash msg = true → no_backslash uuid = true →
  plain_params params = true → - 2 ^ 31 <= cmd < 2 ^ 31 →
  app_get_response print_double code msg cmd uuid params = Ok s →
  ∃ json, read_from_string string_to_double new_object s = Ok (true, json)
    ∧ str print_f json "code" = code ∧ string_to_int (str print_f json "opcode") = cmd
    ∧ as_object (at_key json (bytes_of "params"))
      = {| m_is_array := false; m_members := param_members params |}.
Proof.
  intros Hc Hm Hu Hp Hcmd Es.
  destruct (response_read_back print_double string_to_double code msg cmd uuid params)
    as (s' & json & E & Er & H1 & _ & H3 & _ & H5); [done..|].
  rewrite Es in E. injection E as <-. exists json. unfold str. rewrite H1, H3, H5.
  split_and!; [done|done| |done]. cbn [as_string]. by apply number_roundtrip_spec.
Qed.

(** An answer that is not "200" leaves the room as it is, the signal still running: for
    six seconds no further signal is sent. *)
Theorem error_answer_ignored this code msg cmd uuid params w s :
  no_backslash code = true → no_backslash msg = true → no_backslash uuid = true →
  plain_params params = true → - 2 ^ 31 <= cmd < 2 ^ 31 → code ≠ bytes_of "200" →
  app_get_response print_double code msg cmd uuid params = Ok s →
  on_websocket_message string_to_double print_double print_f env thread_create this s w
    = Ok ([], (this, w)).
Proof.
  intros Hc Hm Hu Hp Hcmd Hne Es.
  destruct (response_received code msg cmd uuid params s) as (json & Er & H1 & H2 & H3); [done..|].
  unfold on_websocket_message. step Er. cbn [negb]. rewrite H1.
  by rewrite bool_decide_eq_false_2.
Qed.

Definition leaving (cmd : Z) : Prop :=
  cmd = TYPE_CONFERENCE_EXIT ∨ cmd = TYPE_CONFERENCE_STOP ∨ cmd = TYPE_CONFERENCE_CLOSING.

(** The answer to [exit] or [stop], and the news that the conference closes, undo all
    the room holds of it: participants, senders, receive thread, membership, pending
    signal. *)
Theorem conference_left this msg cmd uuid params w s :
  no_backslash msg = true → no_backslash uuid = true → plain_params params = true →
  leaving cmd → app_get_response print_double (bytes_of "200") msg cmd uuid params = Ok s →
  ∃ evs this', on_message this s w = Ok (evs, (this', w))
    ∧ length evs = (if m_event_callback_func this then 1 else 0)%nat
    ∧ m_other_users_map this' = [] ∧ m_receive_thread_running this' = false
    ∧ m_rtp_audio_sender this' = None ∧ m_rtp_video_sender this' = None
    ∧ m_my this' = no_membership ∧ m_is_signal_running this' = false.
Proof.
  intros Hm Hu Hp Hcmd Es.
  assert (Hr : - 2 ^ 31 <= cmd < 2 ^ 31) by (destruct Hcmd as [->|[->| ->]]; done).
  destruct (response_received (bytes_of "200") msg cmd uuid params s)
    as (json & Er & H1 & H2 & H3); [done..|].
  unfold on_websocket_message. step Er. cbn [negb]. rewrite H1, H2, H3.
  assert (Hl : m_receive_thread_running (leave this) = false)
    by (unfold leave, stop_receive; by destruct (m_receive_thread_running this) eqn:?).
  assert (Hf : ∀ e, length (fire (leave this) e) = (if m_event_callback_func this then 1 else 0)%nat).
  { intros e. unfold fire, leave, stop_receive.
    destruct (m_receive_thread_running this); cbn; by destruct (m_event_callback_func this). }
  destruct Hcmd as [->|[->| ->]]; cbn [Z.eqb Pos.eqb]; step_bind; do 2 eexists;
    (split; [reflexivity|]); rewrite ?app_nil_r; by split_and!.
Qed.

(** The answer to [create] makes the room a member with the identity, SSRCs and push
    addresses the server gave, and ends the pending signal. *)
Theorem conference_created this msg uuid params w s :
  good this w →
  no_backslash msg = true → no_backslash uuid = true → plain_params params = true →
  app_get_response print_double (bytes_of "200") msg TYPE_CONFERENCE_CREATE uuid params = Ok s →
  ∃ evs this' w', on_message this s w = Ok (evs, (this', w'))
    ∧ m_my this' = {|
        m_my_room_id := param params "conference_id"; m_my_ip_addr := param params "user_ip";
        m_my_user_id := param params "user_id"; m_my_user_name := param params "user_name";
        m_my_user_uuid := param params "user_uuid";
        m_video_ssrc := str_u32 (param params "video_ssrc");
        m_audio_ssrc := str_u32 (param params "audio_ssrc");
        m_video_push_ip := param params "push_video_ip";
        m_video_push_port := str_u16 (param params "push_video_port");
        m_audio_push_ip := param params "push_audio_ip";
        m_audio_push_port := str_u16 (param params "push_audio_port") |}
    ∧ m_other_users_map this' = m_other_users_map this
    ∧ m_is_signal_running this' = false
    ∧ evs = fire this EVENT_CONFERENCE_CREATED.
Proof.
  intros Hg Hm Hu Hp Es.
  destruct (response_received (bytes_of "200") msg TYPE_CONFERENCE_CREATE uuid params s)
    as (json & Er & H1 & H2 & H3); [done..|].
  unfold on_websocket_message. step Er. cbn [negb]. rewrite H1, H2, H3. cbn [Z.eqb Pos.eqb].
  unfold on_ws_conference_create.
  set (po := {| m_is_array := false; m_members := param_members params |}).
  destruct (enter_ok po this w Hg) as (this' & w' & E & _ & Hmy & _ & Hus & Hcb).
  change (bool_decide (bytes_of "200" = bytes_of "200")) with true. cbn [negb]. step E.
  do 3 eexists. split; [reflexivity|]. split_and!; [|done|done|].
  - cbn [m_my set_running set_signal]. rewrite Hmy. unfold membership_of, po. by rewrite !str_param.
  - exact (Hcb EVENT_CONFERENCE_CREATED).
Qed.

(** *** Participants *)

Notation users := m_other_users_map.

(** A participant who joins, is listed or goes: the room holds an entry for exactly
    the ones who came and did not go, keeps the entries it had, and tells the
    application. *)
Theorem participants_tracked params this w :
  room_ok this →
  let uuid := str print_f params "user_uuid" in
  (∃ this', on_ws_conference_new_joined print_double print_f params this w
       = Ok (fire this (EVENT_OTHER_USER_JOINED (online_user print_f params)), (this', w))
     ∧ is_Some (map_find (users this') uuid)
     ∧ (∀ k, k ≠ uuid → map_find (users this') k = map_find (users this) k)
     ∧ (∀ usr, map_find (users this) uuid = Some usr → map_find (users this') uuid = Some usr))
  ∧ (∃ this', on_ws_conference_user_gone print_f params this w
       = Ok (fire this (EVENT_USER_GONE_OUT uuid), (this', w))
     ∧ map_find (users this') uuid = None
     ∧ (∀ k, k ≠ uuid → map_find (users this') k = map_find (users this) k)).
Proof.
  intros Hok uuid. split.
  - destruct (add_user_ok this (online_user print_f params) Hok)
      as (this' & E & _ & Hin & Hne & Hk & Eq).
    unfold on_ws_conference_new_joined. step E. exists this'.
    split; [by rewrite Eq|]. split; [exact Hin|]. split; [exact Hne|]. intros usr Hu. by apply Hk.
  - unfold on_ws_conference_user_gone. fold uuid.
    destruct (map_find (users this) uuid) as [usr|] eqn:E; [|by exists this].
    eexists. split; [reflexivity|]. cbn [m_other_users_map set_users set_streams].
    split; [|intros k Hk; by apply map_find_erase_ne].
    apply map_erase_find, sorted_map_NoDup, Hok.
Qed.

(** The answer to [online_users] is reported in its order; afterwards the room has an
    entry for each user of it, and those it had. *)
Theorem online_users_correct params this w :
  room_ok this →
  let o := as_object (at_key params (bytes_of "online_users")) in
  let listed := (λ j, online_user print_f (as_object (at_index o (Z.of_nat j))))
                  <$> seq 0 (Z.to_nat (array_size o)) in
  ∃ this', on_ws_conference_online_users print_double print_f params this w
      = Ok (fire this (EVENT_ONLINE_USERS listed), (this', w))
    ∧ Forall (λ u, is_Some (map_find (users this') (userUUID u))) listed
    ∧ (∀ k, k ∉ userUUID <$> listed → map_find (users this') k = map_find (users this) k)
    ∧ (∀ k usr, map_find (users this) k = Some usr → map_find (users this') k = Some usr).
Proof.
  intros Hok o listed. unfold on_ws_conference_online_users. fold o.
  destruct (online_users_ok o 0 (Z.to_nat (array_size o))
              (set_running this false) (set_signal_ok this _ _ _ Hok))
    as (l & this' & E & _ & El & Hall & Hne & Hk & Eq). step E.
  assert (l = listed) as -> by exact El. exists this'.
  split; [by rewrite Eq|]. split; [exact Hall|]. split; [exact Hne|exact Hk].
Qed.
End room_lemmas.

(** ** The signals of the application *)

Section signals.
Context {double : Type} (print_double : double → list Z).

(** The calls that send a request and wait for its answer. *)
Inductive signal : Type :=
| S_create (myUserId myUserName : list Z)
| S_join (conferenceId myUserId myUserName : list Z)
| S_start_pull (streams : list (list Z * list (list Z)))
| S_stop_pull (streams : list (list Z * list (list Z)))
| S_exit
| S_stop
| S_online_users.

(** A call on the room.  The signal that is returned is the call with its argument as the
    caller has it afterwards: the two pull calls take their map by reference. *)
Definition call_signal (this : LiveMeetingRoom) (clock : Z) (s : signal) (w : world)
    : outcome (Z * (signal * (LiveMeetingRoom * world))) :=
  match s with
  | S_create id name =>
      r ← signal_create_conference print_double this clock id name w; Ok (r.1, (s, r.2))
  | S_join conf id name =>
      r ← signal_join_conference print_double this clock conf id name w; Ok (r.1, (s, r.2))
  | S_start_pull streams =>
      r ← signal_start_pull_stream print_double this clock streams w;
      Ok (r.1, (S_start_pull r.2.1, r.2.2))
  | S_stop_pull streams =>
      r ← signal_stop_pull_stream print_double this clock streams w;
      Ok (r.1, (S_stop_pull r.2.1, r.2.2))
  | S_exit => r ← signal_exit_conference print_double this clock w; Ok (r.1, (s, r.2))
  | S_stop => r ← signal_stop_conference print_double this clock w; Ok (r.1, (s, r.2))
  | S_online_users => r ← signal_online_users print_double this clock w; Ok (r.1, (s, r.2))
  end.

(** What it does to the room and the world. *)
Definition run_signal (this : LiveMeetingRoom) (clock : Z) (s : signal) (w : world)
    : outcome (Z * (LiveMeetingRoom * world)) :=
  r ← call_signal this clock s w; Ok (r.1, r.2.2).

(** Specification: which error a call gives before anything is sent, if any. *)
Definition joined (this : LiveMeetingRoom) : bool :=
  negb (is_empty (m_my_room_id (m_my this))) && negb (is_empty (m_my_user_uuid (m_my this))).

Definition outside (this : LiveMeetingRoom) : bool :=
  is_empty (m_my_room_id (m_my this)) && is_empty (m_my_user_uuid (m_my this)).

Definition other_streams (this : LiveMeetingRoom) (s : signal) : bool :=
  match s with
  | S_start_pull streams | S_stop_pull streams =>
      negb (bool_decide (map_erase streams (m_my_user_uuid (m_my this)) = []))
  | _ => true
  end.

Definition refused (this : LiveMeetingRoom) (clock : Z) (s : signal) : option Z :=
  match m_websocket_client this with
  | None => Some ERROR_WEBSOCKET_NOT_INIT
  | Some _ =>
      let state_error := match s with
        | S_create _ _ | S_join _ _ _ =>
            if outside this then None else Some ERROR_CONFERENCE_ALREADY_JOINED
        | _ => if joined this then None else Some ERROR_CONFERENCE_NOT_JOINED
        end in
      match state_error with
      | Some e => Some e
      | None =>
          if negb (other_streams this s) then Some ERROR_INVALID_PARAMS
          else if count_as_limit this (now_seconds clock) then Some ERROR_REACH_MAX_API_LIMIT
          else None
      end
  end.

(** The caller's map loses the caller's own entry as soon as the room is a member. *)
Definition after_call (this : LiveMeetingRoom) (s : signal) : signal :=
  if bool_decide (is_Some (m_websocket_client this)) && joined this then
    match s with
    | S_start_pull streams => S_start_pull (map_erase streams (m_my_user_uuid (m_my this)))
    | S_stop_pull streams => S_stop_pull (map_erase streams (m_my_user_uuid (m_my this)))
    | _ => s
    end
  else s.

(** A request to join keeps who asks. *)
Definition asking (this : LiveMeetingRoom) (s : signal) : membership :=
  match s with
  | S_join _ id name =>
      let my := m_my this in
      mkMembership (m_my_room_id my) (m_my_ip_addr my) id name (m_my_user_uuid my) (m_video_ssrc my)
        (m_audio_ssrc my) (m_video_push_ip my) (m_video_push_port my) (m_audio_push_ip my)
        (m_audio_push_port my)
  | _ => m_my this
  end.

Definition command (s : signal) : Z :=
  match s with
  | S_create _ _ => 1000
  | S_join _ _ _ => 1001
  | S_start_pull _ => 1100
  | S_stop_pull _ => 1101
  | S_exit => 1200
  | S_stop => 1202
  | S_online_users => 2000
  end.

(** The members of the request's parameters, in the order of their keys. *)
Definition parameters (this : LiveMeetingRoom) (s : signal) : list (list Z * JsonValue double) :=
  let member l := (λ kv, (bytes_of kv.1, T_STRING kv.2)) <$> l in
  let room := m_my_room_id (m_my this) in
  let uuid := m_my_user_uuid (m_my this) in
  match s with
  | S_create id name => member [("user_id", id); ("user_name", name)]
  | S_join conf id name => member [("conference_id", conf); ("user_id", id); ("user_name", name)]
  | S_start_pull streams | S_stop_pull streams =>
      [(bytes_of "conference_id", T_STRING room);
       (bytes_of "streams", object_value (streams_json 0 (map_erase streams uuid) new_object));
       (bytes_of "user_uuid", T_STRING uuid)]
  | S_exit | S_stop | S_online_users => member [("conference_id", room); ("user_uuid", uuid)]
  end%string.

(** The text of the request with the identifier [uuid]. *)
Definition request_text (this : LiveMeetingRoom) (s : signal) (uuid : list Z) : outcome (list Z) :=
  app_get_request_json print_double (command s) uuid
    {| m_is_array := false; m_members := parameters this s |}.

(** Whether the client takes a text. *)
Definition takes (client : WSClient) : bool :=
  m_connected client && bool_decide (is_Some (m_connection client)).

(** A call that is not refused takes the next identifier, hands the client one text, the
    request, and is pending if the client took it. *)
Definition sent (this : LiveMeetingRoom) (clock : Z) (s : signal) (w : world)
    (r : outcome (Z * (signal * (LiveMeetingRoom * world)))) : Prop :=
  ∃ client text, m_websocket_client this = Some client
  ∧ request_text this s (common_to_string (u64 (w_uuid_generator w + 1))) = Ok text
  ∧ r = Ok (if takes client then 0 else ERROR_WEBSOCKET_NOT_CONNECTED,
        (after_call this s,
         (set_signal this (asking this s) (takes client) (now_seconds clock),
          {| w_ports := w_ports w; w_network := w_network w;
             w_uuid_generator := u64 (w_uuid_generator w + 1);
             w_effects := w_effects w
               ++ (if takes client then [mg_ws_send (m_connection client) text WEBSOCKET_OP_TEXT]
                   else []) |}))).

Lemma send_signal_eq this client clock w my g text :
  send_signal (set_signal this my true (now_seconds clock)) client w g text
  = (if takes client then 0 else ERROR_WEBSOCKET_NOT_CONNECTED,
     (set_signal this my (takes client) (now_seconds clock),
      {| w_ports := w_ports w; w_network := w_network w; w_uuid_generator := g;
         w_effects := w_effects w
           ++ (if takes client then [mg_ws_send (m_connection client) text WEBSOCKET_OP_TEXT]
               else []) |})).
Proof.
  unfold send_signal, takes, send_text.
  by destruct (m_connection client), (m_connected client).
Qed.

Lemma written_total (o : JsonObject double) : ∃ s, written print_double o = Ok s.
Proof.
  unfold written, write_to_string.
  destruct (write_value_total print_double (T_OBJ (m_is_array o) (m_members o))) as [[t v] ->].
  step_bind. by eexists.
Qed.

(** The request as the code builds it is the specified one. *)
Lemma request_handed this client clock w s s' (params : JsonObject double) :
  m_websocket_client this = Some client → after_call this s = s' →
  params = {| m_is_array := false; m_members := parameters this s |} →
  sent this clock s w
    (signalStr ← written print_double
        (request_object (command s) (get_new_uuid (w_uuid_generator w)).1 params);
     let r := send_signal (set_signal this (asking this s) true (now_seconds clock)) client w
                (u64 (w_uuid_generator w + 1)) signalStr in
     Ok (r.1, (s', r.2))).
Proof.
  intros Hc <- ->.
  destruct (written_total (request_object (command s) (get_new_uuid (w_uuid_generator w)).1
              {| m_is_array := false; m_members := parameters this s |})) as [t Et].
  rewrite Et. step_bind. exists client, t. split; [done|]. split; [exact Et|].
  by rewrite send_signal_eq.
Qed.

Lemma joined_test this :
  is_empty (m_my_room_id (m_my this)) || is_empty (m_my_user_uuid (m_my this)) = negb (joined this).
Proof. unfold joined. by rewrite negb_andb, !negb_involutive. Qed.

Lemma outside_test this :
  negb (is_empty (m_my_room_id (m_my this))) || negb (is_empty (m_my_user_uuid (m_my this)))
  = negb (outside this).
Proof. unfold outside. by rewrite negb_andb. Qed.

(** What [refused] announces is what a call does. *)
Definition guarded (this : LiveMeetingRoom) (clock : Z) (s : signal) (w : world)
    (r : outcome (Z * (signal * (LiveMeetingRoom * world)))) : Prop :=
  match refused this clock s with
  | Some e => r = Ok (e, (after_call this s, (this, w)))
  | None => sent this clock s w r
  end.

Lemma member_guarded this clock w s :
  s = S_exit ∨ s = S_stop ∨ s = S_online_users →
  guarded this clock s w
    (r ← signal_of_member print_double (command s) this clock w; Ok (r.1, (s, r.2))).
Proof.
  intros Hs. unfold guarded, refused, signal_of_member.
  assert (Ha : after_call this s = s)
    by (unfold after_call; by destruct (_ && _), Hs as [->|[->| ->]]).
  rewrite Ha. destruct (m_websocket_client this) as [client|] eqn:Hc; [|done]. rewrite joined_test.
  assert (E : match s with
    | S_create _ _ | S_join _ _ _ => if outside this then None else Some ERROR_CONFERENCE_ALREADY_JOINED
    | _ => if joined this then None else Some ERROR_CONFERENCE_NOT_JOINED
    end = if joined this then None else Some ERROR_CONFERENCE_NOT_JOINED)
    by (by destruct Hs as [->|[->| ->]]).
  assert (Ho : other_streams this s = true) by (by destruct Hs as [->|[->| ->]]).
  rewrite E, Ho. destruct (joined this); cbn [negb]; [|done].
  destruct (count_as_limit this (now_seconds clock)); [done|].
  assert (Hk : asking this s = m_my this) by (by destruct Hs as [->|[->| ->]]).
  pose proof (request_handed this client clock w s s
                (params_json new_object
                   [(bytes_of "conference_id", m_my_room_id (m_my this));
                    (bytes_of "user_uuid", m_my_user_uuid (m_my this))]) Hc Ha) as H.
  rewrite Hk in H. unfold get_new_uuid in *. cbn [fst] in *.
  change (map_insert _ (bytes_of "user_uuid") _) with
    [(bytes_of "conference_id", m_my_room_id (m_my this)); (bytes_of "user_uuid", m_my_user_uuid (m_my this))].
  unfold app_get_request. destruct (written_total (request_object (command s) (common_to_string (u64 (w_uuid_generator w + 1)))
    (params_json new_object [(bytes_of "conference_id", m_my_room_id (m_my this));
                    (bytes_of "user_uuid", m_my_user_uuid (m_my this))]))) as [t Et].
  rewrite Et in H |- *. step_bind. apply H. by destruct Hs as [->|[->| ->]].
Qed.

Lemma pull_guarded this clock w (make : list (list Z * list (list Z)) → signal) streams :
  make = S_start_pull ∨ make = S_stop_pull →
  guarded this clock (make streams) w
    (r ← signal_pull_stream print_double (command (make streams)) this clock streams w;
     Ok (r.1, (make r.2.1, r.2.2))).
Proof.
  intros Hs. unfold guarded, refused, signal_pull_stream.
  assert (Ha : after_call this (make streams)
    = if bool_decide (is_Some (m_websocket_client this)) && joined this
      then make (map_erase streams (m_my_user_uuid (m_my this))) else make streams)
    by (by destruct Hs as [->| ->]).
  destruct (m_websocket_client this) as [client|] eqn:Hc; [|by rewrite Ha]. rewrite joined_test.
  rewrite bool_decide_eq_true_2 in Ha by done. cbn [andb] in Ha.
  assert (Ho : other_streams this (make streams)
    = negb (bool_decide (map_erase streams (m_my_user_uuid (m_my this)) = [])))
    by (by destruct Hs as [->| ->]).
  assert (E : match make streams with
    | S_create _ _ | S_join _ _ _ => if outside this then None else Some ERROR_CONFERENCE_ALREADY_JOINED
    | _ => if joined this then None else Some ERROR_CONFERENCE_NOT_JOINED
    end = if joined this then None else Some ERROR_CONFERENCE_NOT_JOINED)
    by (by destruct Hs as [->| ->]).
  rewrite E, Ho, negb_involutive. destruct (joined this); cbn [negb]; [|by rewrite Ha].
  set (others := map_erase streams (m_my_user_uuid (m_my this))) in *.
  assert (Eo : match others with [] => true | _ => false end = bool_decide (others = []))
    by (by destruct others).
  rewrite Eo. destruct (bool_decide (others = [])); [by rewrite Ha|].
  destruct (count_as_limit this (now_seconds clock)); [by rewrite Ha|].
  pose proof (request_handed this client clock w (make streams) (make others) _ Hc Ha eq_refl) as H.
  assert (Hk : asking this (make streams) = m_my this) by (by destruct Hs as [->| ->]).
  assert (Hp : parameters this (make streams)
    = [(bytes_of "conference_id", T_STRING (m_my_room_id (m_my this)));
       (bytes_of "streams", object_value (streams_json 0 others new_object));
       (bytes_of "user_uuid", T_STRING (m_my_user_uuid (m_my this)))])
    by (by destruct Hs as [->| ->]).
  rewrite Hk, Hp in H. unfold get_new_uuid in *. cbn [fst] in *.
  change (assign_key _ (bytes_of "streams") _) with
    (mkJsonObject (double := double) false
         [(bytes_of "conference_id", T_STRING (m_my_room_id (m_my this)));
          (bytes_of "streams", object_value (streams_json 0 others new_object));
          (bytes_of "user_uuid", T_STRING (m_my_user_uuid (m_my this)))]).
  unfold app_get_request_json. revert H.
  destruct (written print_double _) as [t| |]; step_bind; [|done..].
  match goal with |- context [send_signal ?a ?b ?c ?d ?e] =>
    by destruct (send_signal a b c d e) as [ret r] end.
Qed.

Lemma outside_guarded this clock w s (params : list (list Z * list Z)) :
  (∃ id name, s = S_create id name) ∨ (∃ conf id name, s = S_join conf id name) →
  params_json new_object params = {| m_is_array := false; m_members := parameters this s |} →
  guarded this clock s w
    (r ← match m_websocket_client this with
         | None => Ok (ERROR_WEBSOCKET_NOT_INIT, (this, w))
         | Some client =>
             if negb (outside this) then Ok (ERROR_CONFERENCE_ALREADY_JOINED, (this, w)) else
             if count_as_limit this (now_seconds clock)
             then Ok (ERROR_REACH_MAX_API_LIMIT, (this, w)) else
             signalStr ← app_get_request print_double (command s)
               (common_to_string (u64 (w_uuid_generator w + 1))) params;
             Ok (send_signal (set_signal this (asking this s) true (now_seconds clock)) client w
                   (u64 (w_uuid_generator w + 1)) signalStr)
         end;
     Ok (r.1, (s, r.2))).
Proof.
  intros Hs Hp. unfold guarded, refused.
  assert (Ha : after_call this s = s)
    by (unfold after_call; by destruct (_ && _), Hs as [(? & ? & ->)|(? & ? & ? & ->)]).
  rewrite Ha. destruct (m_websocket_client this) as [client|] eqn:Hc; [|done].
  assert (E : match s with
    | S_create _ _ | S_join _ _ _ => if outside this then None else Some ERROR_CONFERENCE_ALREADY_JOINED
    | _ => if joined this then None else Some ERROR_CONFERENCE_NOT_JOINED
    end = if outside this then None else Some ERROR_CONFERENCE_ALREADY_JOINED)
    by (by destruct Hs as [(? & ? & ->)|(? & ? & ? & ->)]).
  assert (Ho : other_streams this s = true) by (by destruct Hs as [(? & ? & ->)|(? & ? & ? & ->)]).
  rewrite E, Ho. destruct (outside this); cbn [negb]; [|done].
  destruct (count_as_limit this (now_seconds clock)); [done|].
  pose proof (request_handed this client clock w s s _ Hc Ha Hp) as H.
  unfold app_get_request, get_new_uuid in *. cbn [fst] in H. revert H.
  by destruct (written print_double _) as [t| |]; step_bind.
Qed.

Lemma signal_guarded_spec this clock s w : guarded this clock s w (call_signal this clock s w).
Proof.
  destruct s; cbn [call_signal].
  - unfold signal_create_conference. rewrite outside_test. apply outside_guarded; [eauto|done].
  - unfold signal_join_conference. rewrite outside_test. apply outside_guarded; [eauto|done].
  - apply pull_guarded. by left.
  - apply pull_guarded. by right.
  - apply (member_guarded _ _ _ S_exit). auto.
  - apply (member_guarded _ _ _ S_stop). auto.
  - apply (member_guarded _ _ _ S_online_users). auto.
Qed.

(** What a call does to the room, seen without its argument. *)
Lemma run_signal_refused this clock s w e :
  refused this clock s = Some e → run_signal this clock s w = Ok (e, (this, w)).
Proof.
  intros Er. pose proof (signal_guarded_spec this clock s w) as H. unfold guarded in H.
  rewrite Er in H. unfold run_signal. rewrite H. by step_bind.
Qed.

Lemma run_signal_sent this clock s w :
  refused this clock s = None →
  ∃ client w', m_websocket_client this = Some client
    ∧ run_signal this clock s w
      = Ok (if takes client then 0 else ERROR_WEBSOCKET_NOT_CONNECTED,
          (set_signal this (asking this s) (takes client) (now_seconds clock), w'))
    ∧ w_ports w' = w_ports w.
Proof.
  intros Er. pose proof (signal_guarded_spec this clock s w) as H. unfold guarded in H.
  rewrite Er in H. destruct H as (client & text & Hc & _ & E). unfold run_signal. rewrite E.
  step_bind. exists client. by eexists.
Qed.

(** C28: The six guards of every call, in the order of the code.  A refused call returns the
    error and leaves the room and the world as they are; the caller's map of a pull call,
    which is passed by reference, loses the caller's own entry once the client is there and
    the room is a member, and is untouched before.  Any other call takes the next
    identifier, hands the client exactly one text, the request of its kind with the
    parameters of the call, and is pending from now on if the client took it; if not, it
    returns the error and is not pending.  (What the array of streams says is
    [pull_request_understood].) *)
Theorem signal_guarded this clock s w : guarded this clock s w (call_signal this clock s w).
Proof. apply signal_guarded_spec. Qed.
End signals.

Section signal_window.
Context {double : Type} (print_double : double → list Z).

Lemma refused_nonzero this clock s e : refused this clock s = Some e → e ≠ 0.
Proof.
  unfold refused, ERROR_WEBSOCKET_NOT_INIT, ERROR_CONFERENCE_ALREADY_JOINED,
    ERROR_CONFERENCE_NOT_JOINED, ERROR_INVALID_PARAMS, ERROR_REACH_MAX_API_LIMIT.
  destruct (m_websocket_client this); [|by intros [= <-]].
  generalize (other_streams this s). intros streams.
  destruct s, (outside this), (joined this), streams, (count_as_limit this (now_seconds clock));
    by intros [= <-].
Qed.

Lemma limit_refuses this clock s :
  count_as_limit this (now_seconds clock) = true → is_Some (refused this clock s).
Proof.
  intros Hc. unfold refused. rewrite Hc. destruct (m_websocket_client this); [|by eexists].
  generalize (other_streams this s). intros streams.
  destruct s, (outside this), (joined this), streams; by eexists.
Qed.

(** While a request is pending no other is sent: within six seconds of a call that
    succeeded, with no message of the server in between, every call is refused and
    nothing reaches the network. *)
Theorem one_signal_per_window this clock1 s1 w this1 w1 clock2 s2 :
  run_signal print_double this clock1 s1 w = Ok (0, (this1, w1)) →
  u64 (now_seconds clock2 - now_seconds clock1) < 6 →
  ∃ e, e ≠ 0 ∧ run_signal print_double this1 clock2 s2 w1 = Ok (e, (this1, w1)).
Proof.
  intros E1 Hw.
  assert (Hrun : m_is_signal_running this1 = true ∧ m_prev_signal_time this1 = now_seconds clock1).
  { destruct (refused this clock1 s1) as [e|] eqn:Er.
    - rewrite (run_signal_refused _ _ _ _ _ _ Er) in E1. injection E1 as -> _ _.
      by destruct (refused_nonzero _ _ _ _ Er).
    - destruct (run_signal_sent print_double this clock1 s1 w Er) as (client & w' & _ & E & _).
      rewrite E1 in E. injection E as Hret -> _. destruct (takes client); [done|discriminate Hret]. }
  destruct (refused this1 clock2 s2) as [e|] eqn:Er.
  - exists e. split; [by eapply refused_nonzero|by apply run_signal_refused].
  - destruct (limit_refuses this1 clock2 s2) as [e He]; [|by rewrite He in Er].
    unfold count_as_limit. rewrite (proj1 Hrun), (proj2 Hrun). by rewrite (proj2 (Z.ltb_lt _ _)).
Qed.

(** The membership outlives the room: after [un_initialize] and a new [initialize] a room
    that was in a conference still refuses to create or join one. *)
Theorem reinitialised_still_member this w recv ev self ip port clock s :
  joined this = true →
  (∃ id name, s = S_create id name) ∨ (∃ conf id name, s = S_join conf id name) →
  let '(ret, this') := initialize 0 recv ev self (un_initialize this) ip port in
  ret = true ∧ run_signal print_double this' clock s w = Ok (ERROR_CONFERENCE_ALREADY_JOINED, (this', w)).
Proof.
  intros Hj Hs. destruct (initialize _ _ _ _ _ _ _) as [ret this'] eqn:E.
  injection E as <- <-. split; [done|].
  set (this' := set_senders _ _ _ _).
  assert (Ho : outside this' = false).
  { change (outside this') with (outside this). revert Hj. unfold joined, outside.
    by destruct (is_empty (m_my_room_id _)), (is_empty (m_my_user_uuid _)). }
  assert (Er : refused this' clock s = Some ERROR_CONFERENCE_ALREADY_JOINED).
  { unfold refused. cbn [m_websocket_client this' set_senders set_streams set_context]. rewrite Ho.
    by destruct Hs as [(? & ? & ->)|(? & ? & ? & ->)]. }
  by apply run_signal_refused.
Qed.
End signal_window.

(** ** Concrete runs *)

(** A room that is initialised, connected to the server, and reports its events. *)
Definition sample_room : LiveMeetingRoom :=
  let this := (initialize 0 1 2 3 (set_event_callback_func instance (Some 5) 6)
                 (bytes_of "10.0.0.1") 9000).2 in
  set_context this true true
    (Some (set_connection (new_client (bytes_of "ws://10.0.0.1:9000/rtc_signal")) (Some 7) true)).

Definition sample_world : world := mkWorld sample_manager [] 0 [].

Lemma sample_room_ok : room_ok sample_room.
Proof.
  split; cbn.
  - constructor.
  - constructor.
  - intros a [= <-]. by right.
  - intros v [= <-]. by right.
  - split; intros _; by eexists.
  - done.
Qed.

Lemma sample_world_ok : PortManager.wf (w_ports sample_world).
Proof. exact sample_manager_wf. Qed.

(** The answer of the server to [create]. *)
Definition created_params : list (list Z * list Z) :=
  [(bytes_of "audio_ssrc", bytes_of "10"); (bytes_of "conference_id", bytes_of "c1");
   (bytes_of "push_audio_ip", bytes_of "10.0.0.2"); (bytes_of "push_audio_port", bytes_of "7001");
   (bytes_of "push_video_ip", bytes_of "10.0.0.2"); (bytes_of "push_video_port", bytes_of "7000");
   (bytes_of "user_id", bytes_of "ann"); (bytes_of "user_ip", bytes_of "10.0.0.3");
   (bytes_of "user_name", bytes_of "Ann"); (bytes_of "user_uuid", bytes_of "u1");
   (bytes_of "video_ssrc", bytes_of "4000000000")].

Notation answer code cmd params :=
  (app_get_response (λ _ : unit, []) (bytes_of code) (bytes_of "OK") cmd (bytes_of "1") params).

Definition answer_text (code : string) (cmd : Z) (params : list (list Z * list Z)) : list Z :=
  match answer code cmd params with Ok s => s | _ => [] end.

Notation sample_message := (on_websocket_message (λ _, tt) (λ _ : unit, []) (λ _, []) sample_environment 0).

Lemma on_websocket_message_safe_witness : ∃ evs this' w',
  sample_message sample_room (answer_text "200" 1000 created_params) sample_world
    = Ok (evs, (this', w'))
  ∧ evs = [(5, EVENT_CONFERENCE_CREATED, 6)] ∧ room_ok this' ∧ PortManager.wf (w_ports w').
Proof.
  destruct (on_websocket_message_safe (λ _, tt) (λ _ : unit, []) (λ _, []) sample_environment 0
              sample_room (answer_text "200" 1000 created_params) sample_world
              sample_room_ok sample_world_ok) as (evs & this' & w' & E & H1 & H2).
  exists evs, this', w'. split; [exact E|]. split; [|exact (conj H1 H2)].
  assert (Ev : (match sample_message sample_room (answer_text "200" 1000 created_params) sample_world with
                | Ok (e, _) => e | _ => [] end) = [(5, EVENT_CONFERENCE_CREATED, 6)])
    by (vm_compute; reflexivity).
  rewrite E in Ev. exact Ev.
Defined.

Lemma no_sender_after_leaving_witness : ∃ evs this' w',
  on_messages (λ _, tt) (λ _ : unit, []) (λ _, []) sample_environment 0 (leave sample_room)
    [answer_text "200" 1000 created_params] sample_world = Ok (evs, (this', w'))
  ∧ send_h264_data (λ _ _ d, zlen d) 0 0 this' [0; 0; 1; 101; 1] 5 w' = Ok (this', w').
Proof.
  destruct (no_sender_after_leaving (λ _, tt) (λ _ : unit, []) (λ _, []) sample_environment 0
              sample_room [answer_text "200" 1000 created_params] sample_world (λ _ _ d, zlen d) 0 0
              [0; 0; 1; 101; 1] 5 sample_world_ok) as (evs & this' & w' & E & H & _).
  exists evs, this', w'. exact (conj E H).
Defined.

Lemma error_answer_ignored_witness :
  sample_message sample_room (answer_text "404" 1001 []) sample_world
  = Ok ([], (sample_room, sample_world)).
Proof.
  apply (error_answer_ignored (λ _, tt) (λ _ : unit, []) (λ _, []) sample_environment 0
           sample_room (bytes_of "404") (bytes_of "OK") 1001 (bytes_of "1") [] sample_world);
    try (vm_compute; reflexivity); [lia|vm_compute; discriminate].
Defined.

Lemma conference_left_witness : ∃ evs this',
  sample_message sample_room (answer_text "200" 1200 sample_params) sample_world
    = Ok (evs, (this', sample_world))
  ∧ length evs = 1%nat ∧ m_rtp_video_sender this' = None ∧ m_my this' = no_membership.
Proof.
  destruct (conference_left (λ _, tt) (λ _ : unit, []) (λ _, []) sample_environment 0
              sample_room (bytes_of "OK") TYPE_CONFERENCE_EXIT (bytes_of "1") sample_params sample_world
              (answer_text "200" 1200 sample_params))
    as (evs & this' & E & H1 & _ & _ & _ & H2 & H3 & _);
    [reflexivity|reflexivity|reflexivity|by left|vm_compute; reflexivity|].
  exists evs, this'. exact (conj E (conj H1 (conj H2 H3))).
Defined.

Lemma conference_created_witness : ∃ evs this' w',
  sample_message sample_room (answer_text "200" 1000 created_params) sample_world
    = Ok (evs, (this', w'))
  ∧ m_my_room_id (m_my this') = bytes_of "c1"
  ∧ m_video_ssrc (m_my this') = 4000000000 ∧ m_video_push_port (m_my this') = 7000.
Proof.
  destruct (conference_created (λ _, tt) (λ _ : unit, []) (λ _, []) sample_environment 0
              sample_room (bytes_of "OK") (bytes_of "1") created_params sample_world
              (answer_text "200" 1000 created_params))
    as (evs & this' & w' & E & H & _);
    [by split; [exact sample_room_ok|exact sample_world_ok]
    |reflexivity|reflexivity|vm_compute; reflexivity|vm_compute; reflexivity|].
  exists evs, this', w'. rewrite H. split; [exact E|]. split_and!; vm_compute; reflexivity.
Defined.

(** The parameters of a participant. *)
Definition joined_params : JsonObject unit :=
  {| m_is_array := false;
     Json.m_members := param_members [(bytes_of "user_id", bytes_of "bob"); (bytes_of "user_uuid", bytes_of "u2")] |}.

Lemma participants_tracked_witness :
  ∃ this', on_ws_conference_new_joined (λ _ : unit, []) (λ _, []) joined_params sample_room sample_world
      = Ok ([(5, EVENT_OTHER_USER_JOINED (online_user (λ _, []) joined_params), 6)], (this', sample_world))
    ∧ is_Some (map_find (m_other_users_map this') (bytes_of "u2")).
Proof.
  destruct (participants_tracked (λ _ : unit, []) (λ _, []) joined_params sample_room sample_world
              sample_room_ok) as [(this' & E & H & _) _].
  exists this'. exact (conj E H).
Defined.

Definition listed_params : JsonObject unit :=
  {| m_is_array := false;
     Json.m_members := [(bytes_of "online_users", T_OBJ true [(bytes_of "0", object_value joined_params)])] |}.

Lemma online_users_correct_witness :
  ∃ this', on_ws_conference_online_users (λ _ : unit, []) (λ _, []) listed_params sample_room sample_world
      = Ok ([(5, EVENT_ONLINE_USERS [online_user (λ _, []) joined_params], 6)], (this', sample_world))
    ∧ Forall (λ u, is_Some (map_find (m_other_users_map this') (userUUID u)))
        [online_user (λ _, []) joined_params].
Proof.
  destruct (online_users_correct (λ _ : unit, []) (λ _, []) listed_params sample_room sample_world
              sample_room_ok) as (this' & E & H & _).
  exists this'. exact (conj E H).
Defined.

Lemma one_signal_per_window_witness : ∃ this1 w1 e,
  run_signal (λ _ : unit, []) sample_room 20000000 (S_create (bytes_of "ann") (bytes_of "Ann")) sample_world
    = Ok (0, (this1, w1))
  ∧ e ≠ 0 ∧ run_signal (λ _ : unit, []) this1 25000000 (S_join (bytes_of "c") [] []) w1
            = Ok (e, (this1, w1)).
Proof.
  set (r := run_signal (λ _ : unit, []) sample_room 20000000
              (S_create (bytes_of "ann") (bytes_of "Ann")) sample_world).
  assert (E : r = Ok (0, match r with Ok (_, p) => p | _ => (sample_room, sample_world) end))
    by (vm_compute; reflexivity).
  destruct (match r with Ok (_, p) => p | _ => (sample_room, sample_world) end) as [this1 w1].
  destruct (one_signal_per_window (λ _ : unit, []) sample_room 20000000
              (S_create (bytes_of "ann") (bytes_of "Ann")) sample_world this1 w1 25000000
              (S_join (bytes_of "c") [] []) E) as (e & He & E2); [vm_compute; reflexivity|].
  exists this1, w1, e. exact (conj E (conj He E2)).
Defined.

(** The room as a member of conference "c1". *)
Definition member_room : LiveMeetingRoom :=
  set_my sample_room (mkMembership (bytes_of "c1") [] [] [] (bytes_of "u1") 0 0 [] 0 [] 0).

Definition restarted_room : LiveMeetingRoom :=
  (initialize 0 1 2 3 (un_initialize member_room) (bytes_of "10.0.0.1") 9000).2.

Lemma reinitialised_still_member_witness :
  run_signal (λ _ : unit, []) restarted_room 9000000 (S_create (bytes_of "ann") (bytes_of "Ann"))
    sample_world
  = Ok (ERROR_CONFERENCE_ALREADY_JOINED, (restarted_room, sample_world)).
Proof.
  exact (proj2 (reinitialised_still_member (λ _ : unit, []) member_room sample_world 1 2 3
                  (bytes_of "10.0.0.1") 9000 9000000 (S_create (bytes_of "ann") (bytes_of "Ann"))
                  eq_refl (or_introl (ex_intro _ _ (ex_intro _ _ eq_refl))))).
Defined.
