(* ===== verification/RoomLog.v ===== *)
(** * RoomLog: what the room writes to the log

    Models the [LOG_*] macros of [src/common/common_logger.h] and the lines that
    [on_websocket_message] and its handlers in [src/application/app_meeting_room.cpp] log
    of a text of the server.  These lines come before anything else a handler does, so
    [receive_message] logs them and then does what [LiveMeetingRoom] models.  Shown: with
    a logger that can take the lines the text is handled as if nothing were logged; with
    an asynchronous logger a line of more than 4096 bytes reads beyond the buffer of the
    logger. *)

From S2P Require Import Prelude.
From S2P Require Import Utils.
From S2P Require Import Json.
From S2P Require Import Command.
From S2P Require Import Logger.
From S2P Require Import RoomUser.
From S2P Require Import LiveMeetingRoom.

(** ** The macros *)

(** The globals, and what the logger works on: the log files and the tasks given to its
    queue, in order. *)
Record logging := mkLogging {
  g_pLogger : option AppLogger;
  g_log_level : Z;
  log_files : fs;
  log_tasks : list LogTask;
}.

(** What the logger asks of the system.  [now i] is the time while [i] statements are
    still to come. *)
Record log_system := mkLogSystem {
  can_open : list Z → bool;
  can_write : list Z → bool;
  thread_id : Z;
  now : nat → option tm;
}.

(** [LOG_ERROR(...)] and so on, with the level, [__FILE__] without its directories,
    [__LINE__], and the formatted text. *)
Record log_statement := LOG {
  at_level : Z;
  in_file : list Z;
  at_line : Z;
  says : list Z;
}.

(** The method the macro of a level calls, by the tag it gives its lines. *)
Definition level_tag (level : Z) : list Z :=
  if level =? LOG_LEVEL_ERROR then bytes_of "[E]"
  else if level =? LOG_LEVEL_WARNING then bytes_of "[W]"
  else if level =? LOG_LEVEL_INFO then bytes_of "[I]"
  else if level =? LOG_LEVEL_DEBUG then bytes_of "[D]"
  else if level =? LOG_LEVEL_TRACE then bytes_of "[T]"
  else bytes_of "[V]".

Definition run_statement (sys : log_system) (lg : logging) (time : option tm) (st : log_statement)
    : outcome logging :=
  match g_pLogger lg with
  | None => Ok lg
  | Some logger =>
      if level_enabled (g_log_level lg) (at_level st) then
        e ← log_call (can_open sys) (can_write sys) (thread_id sys) (level_tag (at_level st)) logger
              time (in_file st) (at_line st) (says st) (log_files lg);
        Ok match e with
           | Log_none => lg
           | Log_written logger files =>
               mkLogging (Some logger) (g_log_level lg) files (log_tasks lg)
           | Log_queued task =>
               mkLogging (Some logger) (g_log_level lg) (log_files lg) (log_tasks lg ++ [task])
           end
      else Ok lg
  end.

Fixpoint run_statements (sys : log_system) (lg : logging) (sts : list log_statement)
    : outcome logging :=
  match sts with
  | [] => Ok lg
  | st :: sts =>
      lg ← run_statement sys lg (now sys (length sts)) st;
      run_statements sys lg sts
  end.

(** [%s] with a string: up to its first zero byte. *)
Definition shown (key : string) (value : list Z) : list Z :=
  [9] ++ bytes_of key ++ [58] ++ until_nul value.

Definition room_file : list Z := bytes_of "app_meeting_room.cpp".

Definition LOG_ERROR (line : Z) (text : list Z) : log_statement :=
  LOG LOG_LEVEL_ERROR room_file line text.
Definition LOG_DEBUG (line : Z) (text : list Z) : log_statement :=
  LOG LOG_LEVEL_DEBUG room_file line text.

Section room.
Context {double : Type} (string_to_double : list Z → double).
Context (print_double print_f : double → list Z).

Notation str := (str print_f).

(** The lines both answers log of a member, from [line] on. *)
Definition member_logs (line : Z) (params : JsonObject double) : list log_statement :=
  [LOG_DEBUG line (shown "user_id" (str params "user_id"));
   LOG_DEBUG (line + 1) (shown "user_name" (str params "user_name"));
   LOG_DEBUG (line + 2) (shown "user_ip" (str params "user_ip"));
   LOG_DEBUG (line + 3) (shown "user_uuid" (str params "user_uuid"));
   LOG_DEBUG (line + 4) (shown "video_ssrc" (common_to_string (str_u32 (str params "video_ssrc"))));
   LOG_DEBUG (line + 5) (shown "audio_ssrc" (common_to_string (str_u32 (str params "audio_ssrc"))))].

Definition push_logs (line : Z) (params : JsonObject double) : list log_statement :=
  [LOG_DEBUG line (shown "push_video_ip" (str params "push_video_ip"));
   LOG_DEBUG (line + 1) (shown "push_video_port" (common_to_string (str_u16 (str params "push_video_port"))));
   LOG_DEBUG (line + 2) (shown "push_audio_ip" (str params "push_audio_ip"));
   LOG_DEBUG (line + 3) (shown "push_audio_port" (common_to_string (str_u16 (str params "push_audio_port"))))].

Definition create_logs (params : JsonObject double) : list log_statement :=
  [LOG_DEBUG 843 (bytes_of "create conference:");
   LOG_DEBUG 844 (shown "conference_id" (str params "conference_id"))]
  ++ member_logs 845 params ++ push_logs 851 params.

Definition join_logs (params : JsonObject double) : list log_statement :=
  [LOG_DEBUG 910 (bytes_of "conference join:")] ++ member_logs 911 params ++ push_logs 917 params.

Definition new_joined_logs (params : JsonObject double) : list log_statement :=
  [LOG_DEBUG 974 (bytes_of "conference new joined:")] ++ member_logs 975 params.

Definition closing_logs (params : JsonObject double) : list log_statement :=
  [LOG_DEBUG 1292 (bytes_of "conference is closing");
   LOG_DEBUG 1293 (shown "conference_id" (str params "conference_id"))].

(** What is logged of a text that could be read. *)
Definition object_logs (json : JsonObject double) : list log_statement :=
  let opcode := string_to_int (str json "opcode") in
  if negb (bool_decide (str json "code" = bytes_of "200")) then
    [LOG_ERROR 773 (bytes_of "error: the reponse[" ++ until_nul (cmdtype_to_string opcode)
                    ++ bytes_of "] status code[" ++ until_nul (str json "code")
                    ++ bytes_of "]:[" ++ until_nul (str json "msg") ++ bytes_of "]")]
  else
  let params := as_object (at_key json (bytes_of "params")) in
  if opcode =? TYPE_CONFERENCE_CREATE then create_logs params
  else if opcode =? TYPE_CONFERENCE_JOIN then join_logs params
  else if opcode =? TYPE_CONFERENCE_NEW_JOINED then new_joined_logs params
  else if opcode =? TYPE_CONFERENCE_PULL_STREAM then []
  else if opcode =? TYPE_CONFERENCE_STOP_PULLING then []
  else if opcode =? TYPE_CONFERENCE_EXIT then []
  else if opcode =? TYPE_CONFERENCE_USER_GONE then []
  else if opcode =? TYPE_CONFERENCE_STOP then []
  else if opcode =? TYPE_CONFERENCE_ONLINE_USERS then []
  else if opcode =? TYPE_CONFERENCE_CLOSING then closing_logs params
  else if opcode =? TYPE_CONFERENCE_HEARTBEAT then []
  else [LOG_ERROR 825 (bytes_of "Unknown websocket response message")].

Definition message_logs (message : list Z) : outcome (list log_statement) :=
  r ← read_from_string string_to_double new_object message;
  let '(ret, json) := r in
  Ok (if negb (ret : bool) then [LOG_ERROR 759 (bytes_of "parse json error:" ++ until_nul message)]
      else object_logs json).

(** The whole of [on_websocket_message], its [LOG] lines with it. *)
Definition receive_message (sys : log_system) (env : environment) (thread_create : Z)
    (this : LiveMeetingRoom) (message : list Z) (w : world) (lg : logging)
    : outcome (list (Z * conference_event * Z) * (LiveMeetingRoom * world) * logging) :=
  sts ← message_logs message;
  lg ← run_statements sys lg sts;
  r ← on_websocket_message string_to_double print_double print_f env thread_create this message w;
  Ok (r, lg).
End room.

(** ** Specification *)

(** The tasks the lines of the level become, in order. *)
Definition tasks_of (level : Z) (sts : list log_statement) : list LogTask :=
  (λ st, mkLogTask (in_file st) (at_line st) (level_tag (at_level st))
           (take (length (says st)) (szLog (says st))))
    <$> filter (λ st, level_enabled level (at_level st) = true ∧ says st ≠ []) sts.

(** No line is longer than the buffer of the logger. *)
Definition lines_fit (level : Z) (sts : list log_statement) : bool :=
  forallb (λ st, negb (level_enabled level (at_level st)) || (zlen (says st) <=? 4096)) sts.

(** What the logger has to be for lines to be logged: absent, asynchronous with lines that
    fit, or synchronous and in good state. *)
Definition can_log (sys : log_system) (lg : logging) (sts : list log_statement) : Prop :=
  match g_pLogger lg with
  | None => True
  | Some logger =>
      match m_log_type logger with
      | ASYNC => lines_fit (g_log_level lg) sts = true
      | SYNC => logger_ok logger ∧ file_ok logger (log_files lg) ∧ ∀ i t, now sys i = Some t → tm_ok t
      end
  end.

(** ** Lines *)

Lemma write_log_type co cw tid this time file line tag text s this' s' :
  write_log co cw tid this time file line tag text s = Ok (this', s') →
  m_log_type this' = m_log_type this.
Proof.
  unfold write_log. destruct time as [t|]; [|by intros [= <- _]]. intros ([this1 s1] & E1 & E)%bind_is_ok.
  assert (m_log_type this1 = m_log_type this) as <-.
  { revert E1. case_match; [|by intros [= <- _]]. unfold rotate. intros ([k f] & _ & E1)%bind_is_ok.
    by injection E1 as <- _. }
  injection E as E. revert E. unfold print_line. repeat case_match; by intros [= <- _].
Qed.

Lemma run_statement_sync sys lg time st logger :
  g_pLogger lg = Some logger → m_log_type logger = SYNC → logger_ok logger →
  file_ok logger (log_files lg) → (∀ t, time = Some t → tm_ok t) →
  ∃ logger' files, run_statement sys lg time st
      = Ok (mkLogging (Some logger') (g_log_level lg) files (log_tasks lg))
    ∧ m_log_type logger' = SYNC ∧ logger_ok logger' ∧ file_ok logger' files.
Proof.
  intros El Es Hok Hf Ht. unfold run_statement. rewrite El.
  assert (Hsame : ∃ logger' files, Ok lg = Ok (mkLogging (Some logger') (g_log_level lg) files (log_tasks lg))
    ∧ m_log_type logger' = SYNC ∧ logger_ok logger' ∧ file_ok logger' files).
  { exists logger, (log_files lg). destruct lg. by cbn in *; subst. }
  destruct (level_enabled _ _); [|done]. unfold log_call.
  destruct (Z.ltb_spec 0 (zlen (says st))); [|step_bind; exact Hsame]. rewrite Es.
  destruct time as [t|].
  - edestruct (write_log_spec (can_open sys) (can_write sys) (thread_id sys) logger t) as (this' & s' & E & Hw);
      [done|by apply Ht|done|]. step E. exists this', s'.
    split; [done|]. split; [by rewrite (write_log_type _ _ _ _ _ _ _ _ _ _ _ _ E)|].
    split; [exact (lw_logger _ _ _ _ _ _ _ _ Hw)|exact (lw_file _ _ _ _ _ _ _ _ Hw)].
  - cbn [write_log]. step_bind. by exists logger, (log_files lg).
Qed.

Lemma run_statement_async sys lg time st logger :
  g_pLogger lg = Some logger → m_log_type logger = ASYNC →
  run_statement sys lg time st
  = if lines_fit (g_log_level lg) [st]
    then Ok (mkLogging (Some logger) (g_log_level lg) (log_files lg) (log_tasks lg ++ tasks_of (g_log_level lg) [st]))
    else Fault.
Proof.
  intros El Ea. unfold run_statement, lines_fit, tasks_of. cbn [forallb]. rewrite El, andb_true_r, filter_cons.
  assert (Hsame : Ok lg = Ok (mkLogging (Some logger) (g_log_level lg) (log_files lg) (log_tasks lg ++ []))).
  { destruct lg. cbn in *. by rewrite app_nil_r, El. }
  destruct (level_enabled _ _); cbn [negb orb]; [|by case_decide as H; [destruct H|]].
  destruct (Z.leb_spec (zlen (says st)) 4096) as [Hl|Hl].
  - unfold log_call. destruct (Z.ltb_spec 0 (zlen (says st))) as [Hn|Hn].
    + rewrite Ea. pose proof (length_szLog (says st)). rewrite rd_range_in by lia. step_bind.
      rewrite decide_True by (split; [done|intros E; rewrite E in Hn; done]).
      change (Z.to_nat 0) with 0%nat. rewrite drop_0. unfold zlen. by rewrite Nat2Z.id.
    + step_bind. destruct (says st) as [|c l] eqn:Es; [|unfold zlen in Hn; cbn in Hn; lia].
      rewrite decide_False by (by intros [_ ?]). exact Hsame.
  - rewrite long_message_faults by done. done.
Qed.

Lemma lines_fit_cons level st sts :
  lines_fit level (st :: sts) = lines_fit level [st] && lines_fit level sts.
Proof. unfold lines_fit. cbn [forallb]. by rewrite andb_true_r. Qed.

Lemma lines_fit_app level sts1 sts2 :
  lines_fit level (sts1 ++ sts2) = lines_fit level sts1 && lines_fit level sts2.
Proof. apply forallb_app. Qed.

Lemma tasks_of_app level sts1 sts2 :
  tasks_of level (sts1 ++ sts2) = tasks_of level sts1 ++ tasks_of level sts2.
Proof. unfold tasks_of. by rewrite filter_app, fmap_app. Qed.

(** An asynchronous logger is given a task for each line, or the first line that is too
    long is read from beyond the buffer. *)
Lemma run_statements_async sys lg sts logger :
  g_pLogger lg = Some logger → m_log_type logger = ASYNC →
  run_statements sys lg sts
  = if lines_fit (g_log_level lg) sts
    then Ok (mkLogging (Some logger) (g_log_level lg) (log_files lg)
               (log_tasks lg ++ tasks_of (g_log_level lg) sts))
    else Fault.
Proof.
  intros El Ea. revert lg El. induction sts as [|st sts IH]; intros lg El; cbn [run_statements].
  { cbn. rewrite app_nil_r. destruct lg. cbn in *. by rewrite El. }
  rewrite (run_statement_async sys lg _ st logger) by done. rewrite (lines_fit_cons _ st sts).
  destruct (lines_fit _ [st]); [|done]. cbn [andb]. step_bind. rewrite IH by done. cbn [g_log_level log_files log_tasks].
  destruct (lines_fit _ sts); [|done]. do 2 f_equal.
  rewrite <- app_assoc. f_equal. symmetry. apply (tasks_of_app _ [st]).
Qed.

Lemma run_statements_sync sys lg sts logger :
  g_pLogger lg = Some logger → m_log_type logger = SYNC → logger_ok logger →
  file_ok logger (log_files lg) → (∀ i t, now sys i = Some t → tm_ok t) →
  ∃ logger' files, run_statements sys lg sts
      = Ok (mkLogging (Some logger') (g_log_level lg) files (log_tasks lg))
    ∧ logger_ok logger' ∧ file_ok logger' files.
Proof.
  intros El Es Hok Hf Ht. revert lg logger El Es Hok Hf.
  induction sts as [|st sts IH]; intros lg logger El Es Hok Hf; cbn [run_statements].
  { exists logger, (log_files lg). destruct lg. by cbn in *; subst. }
  destruct (run_statement_sync sys lg (now sys (length sts)) st logger) as (l1 & f1 & E1 & Es1 & Hok1 & Hf1);
    [done..|by apply Ht|]. step E1. by apply (IH (mkLogging (Some l1) _ f1 _) l1).
Qed.

(** Lines the logger can take are logged. *)
Lemma run_statements_ok sys lg sts :
  can_log sys lg sts → ∃ lg', run_statements sys lg sts = Ok lg'.
Proof.
  unfold can_log. destruct (g_pLogger lg) as [logger|] eqn:El.
  - destruct (m_log_type logger) eqn:Et.
    + intros (Hok & Hf & Ht). destruct (run_statements_sync sys lg sts logger) as (? & ? & E & _); eauto.
    + intros Hl. rewrite (run_statements_async sys lg sts logger) by done. rewrite Hl. by eexists.
  - intros _. exists lg. revert El. induction sts as [|st sts IH]; intros El; cbn [run_statements]; [done|].
    unfold run_statement. rewrite El. step_bind. by apply IH.
Qed.

(** ** Messages *)

Section messages.
Context {double : Type} (string_to_double : list Z → double).
Context (print_double print_f : double → list Z).

Lemma message_logs_ok message : ∃ sts, message_logs string_to_double print_f message = Ok sts.
Proof.
  unfold message_logs.
  destruct (read_from_string_result string_to_double new_object message) as (ret & json & ->).
  step_bind. by eexists.
Qed.

(** The lines of a text. *)
Definition lines_of (message : list Z) : list log_statement :=
  match message_logs string_to_double print_f message with Ok sts => sts | _ => [] end.

Lemma message_lines message :
  message_logs string_to_double print_f message = Ok (lines_of message).
Proof. unfold lines_of. by destruct (message_logs_ok message) as [sts ->]. Qed.

Section receive.
Context (sys : log_system) (env : environment) (thread_create : Z).

Notation on_message := (on_websocket_message string_to_double print_double print_f env thread_create).
Notation receive := (receive_message string_to_double print_double print_f sys env thread_create).

(** What can be logged does not show in the room. *)
Lemma receive_message_ok this message w lg :
  can_log sys lg (lines_of message) →
  ∃ lg', receive this message w lg = (r ← on_message this message w; Ok (r, lg')).
Proof.
  intros Hl. destruct (run_statements_ok sys lg (lines_of message) Hl) as [lg' E].
  exists lg'. unfold receive_message. rewrite message_lines. step_bind. by step E.
Qed.

Lemma receive_message_room this message w lg r lg' :
  receive this message w lg = Ok (r, lg') → on_message this message w = Ok r.
Proof.
  unfold receive_message. rewrite message_lines. step_bind.
  intros (lg1 & _ & (r1 & -> & [= <- _])%bind_is_ok)%bind_is_ok. done.
Qed.

(** With an asynchronous logger a text is handled, and its lines are queued, exactly when
    the lines fit. *)
Theorem receive_message_async this message w lg logger :
  g_pLogger lg = Some logger → m_log_type logger = ASYNC →
  receive this message w lg
  = if lines_fit (g_log_level lg) (lines_of message)
    then r ← on_message this message w;
         Ok (r, mkLogging (Some logger) (g_log_level lg) (log_files lg)
                  (log_tasks lg ++ tasks_of (g_log_level lg) (lines_of message)))
    else Fault.
Proof.
  intros El Ea. unfold receive_message. rewrite message_lines. step_bind.
  rewrite (run_statements_async sys lg _ logger) by done. by destruct (lines_fit _ _).
Qed.

(** A text that is not JSON and has more than 4079 bytes: the line that reports it does
    not fit, and the logger reads beyond its buffer. *)
Theorem unreadable_text_faults this message w lg logger json :
  g_pLogger lg = Some logger → m_log_type logger = ASYNC → LOG_LEVEL_ERROR <= g_log_level lg →
  read_from_string string_to_double new_object message = Ok (false, json) →
  4079 < zlen (until_nul message) →
  receive this message w lg = Fault.
Proof.
  intros El Ea Hlv Er Hl. rewrite (receive_message_async this message w lg logger) by done.
  assert (E : lines_of message = [LOG_ERROR 759 (bytes_of "parse json error:" ++ until_nul message)]).
  { unfold lines_of, message_logs. rewrite Er. by step_bind. }
  rewrite E. unfold lines_fit. cbn [forallb LOG_ERROR at_level says]. unfold level_enabled.
  rewrite (proj2 (Z.leb_le _ _) Hlv). cbn [negb orb].
  rewrite (proj2 (Z.leb_gt _ _)); [done|]. rewrite zlen_app. change (zlen (bytes_of "parse json error:")) with 17. lia.
Qed.
End receive.
End messages.

(** ** Concrete runs *)

(** The logger of the demo, and no system behind it: its lines only go to the queue. *)
Definition no_system : log_system := mkLogSystem (λ _, false) (λ _, false) 0 (λ _, None).

Definition async_logging : logging := mkLogging (Some sample_logger) LOG_LEVEL_VERBOSE ∅ [].

Lemma receive_message_async_witness : ∃ r tasks,
  receive_message (λ _, tt) (λ _ : unit, []) (λ _, []) no_system sample_environment 0 instance [123; 34; 0]
      sample_world async_logging
    = Ok (r, mkLogging (Some sample_logger) LOG_LEVEL_VERBOSE ∅ tasks)
  ∧ m_message <$> tasks = [bytes_of "parse json error:{" ++ [34]].
Proof.
  rewrite (receive_message_async (λ _, tt) (λ _ : unit, []) (λ _, []) no_system sample_environment 0 instance
             [123; 34; 0] sample_world async_logging sample_logger) by reflexivity.
  vm_compute. do 2 eexists. split; reflexivity.
Defined.

Lemma unreadable_text_faults_witness :
  receive_message (λ _, tt) (λ _ : unit, []) (λ _, []) no_system sample_environment 0 instance
    (replicate 4080 120) sample_world async_logging = Fault.
Proof.
  eapply (unreadable_text_faults (λ _, tt) (λ _ : unit, []) (λ _, []) no_system sample_environment 0 instance
           (replicate 4080 120) sample_world async_logging sample_logger); vm_compute; reflexivity || discriminate.
Defined.
