(* ===== verification/RoomSpec.v ===== *)
(** * RoomSpec: the conference as a protocol, and the room as its implementation

    An abstract conference is what the application can know of it: the membership, the
    set of the participants and whether a request is pending.  [abstract_step] says
    what each message of the server does to it, in a few lines and without sockets,
    objects or text.  The theorems show that [on_websocket_message] of
    [src/application/app_meeting_room.cpp] implements it on every text, and what that
    means for who is a participant after a sequence of messages. *)

From S2P Require Import Prelude.
From S2P Require Import Utils.
From S2P Require Import Json.
From S2P Require Import Command.
From S2P Require Import PortManager.
From S2P Require Import RoomUser.
From S2P Require Import LiveMeetingRoom.

(** ** The specification *)

Record conference := mkConference {
  c_my : membership;
  c_users : gset (list Z);
  c_pending : bool;
}.

(** What a message says, its text aside. *)
Inductive server_message : Type :=
| M_created (my : membership)
| M_joined (my : membership)
| M_new_joined (user : OnlineUser)
| M_online (users : list OnlineUser)
| M_gone (uuid : list Z)
| M_pulled
| M_left (e : conference_event)
| M_ignored.

(** An answer to [join] is meant for the participant it names. *)
Definition addressed (c : conference) (my : membership) : bool :=
  bool_decide (m_my_user_uuid my = m_my_user_uuid (c_my c))
  || bool_decide (m_my_user_id my = m_my_user_id (c_my c)).

Definition abstract_step (c : conference) (m : server_message)
    : conference * list conference_event :=
  match m with
  | M_created my => (mkConference my (c_users c) false, [EVENT_CONFERENCE_CREATED])
  | M_joined my =>
      (mkConference (if addressed c my then my else c_my c) (c_users c) false,
       [EVENT_CONFERENCE_JOINED])
  | M_new_joined user =>
      (mkConference (c_my c) ({[userUUID user]} ∪ c_users c) (c_pending c),
       [EVENT_OTHER_USER_JOINED user])
  | M_online users =>
      (mkConference (c_my c) (list_to_set (userUUID <$> users) ∪ c_users c) false,
       [EVENT_ONLINE_USERS users])
  | M_gone uuid =>
      (mkConference (c_my c) (c_users c ∖ {[uuid]}) (c_pending c), [EVENT_USER_GONE_OUT uuid])
  | M_pulled => (mkConference (c_my c) (c_users c) false, [])
  | M_left e => (mkConference no_membership ∅ false, [e])
  | M_ignored => (c, [])
  end.

Fixpoint abstract_run (c : conference) (ms : list server_message)
    : conference * list conference_event :=
  match ms with
  | [] => (c, [])
  | m :: ms =>
      let '(c, evs) := abstract_step c m in
      let '(c, evs') := abstract_run c ms in (c, evs ++ evs')
  end.

(** What the room looks like to the application. *)
Definition abstraction (this : LiveMeetingRoom) : conference :=
  {| c_my := m_my this; c_users := list_to_set (m_other_users_map this).*1;
     c_pending := m_is_signal_running this |}.

(** The messages that make a user a participant, and those that end it. *)
Definition brings (uuid : list Z) (m : server_message) : Prop :=
  match m with
  | M_new_joined user => userUUID user = uuid
  | M_online users => uuid ∈ userUUID <$> users
  | _ => False
  end.

Definition removes (uuid : list Z) (m : server_message) : Prop :=
  match m with
  | M_gone uuid' => uuid' = uuid
  | M_left _ => True
  | _ => False
  end.

#[global] Instance brings_dec uuid m : Decision (brings uuid m).
Proof. destruct m; cbn; apply _. Defined.
#[global] Instance removes_dec uuid m : Decision (removes uuid m).
Proof. destruct m; cbn; apply _. Defined.

(** ** Messages *)

Section messages.
Context {double : Type} (string_to_double : list Z → double)
        (print_double print_f : double → list Z).

(** The users an answer to [online_users] lists, in its order. *)
Definition listed (params : JsonObject double) : list OnlineUser :=
  let o := as_object (at_key params (bytes_of "online_users")) in
  (λ j, online_user print_f (as_object (at_index o (Z.of_nat j))))
    <$> seq 0 (Z.to_nat (array_size o)).

Definition message_of (opcode : Z) (params : JsonObject double) : server_message :=
  if opcode =? TYPE_CONFERENCE_CREATE then M_created (membership_of print_f params)
  else if opcode =? TYPE_CONFERENCE_JOIN then M_joined (membership_of print_f params)
  else if opcode =? TYPE_CONFERENCE_NEW_JOINED then M_new_joined (online_user print_f params)
  else if (opcode =? TYPE_CONFERENCE_PULL_STREAM) || (opcode =? TYPE_CONFERENCE_STOP_PULLING)
  then M_pulled
  else if opcode =? TYPE_CONFERENCE_EXIT
  then M_left (EVENT_CONFERENCE_EXIT (str print_f params "user_uuid"))
  else if opcode =? TYPE_CONFERENCE_USER_GONE then M_gone (str print_f params "user_uuid")
  else if opcode =? TYPE_CONFERENCE_STOP
  then M_left (EVENT_CONFERENCE_STOPPED (str print_f params "conference_id"))
  else if opcode =? TYPE_CONFERENCE_ONLINE_USERS then M_online (listed params)
  else if opcode =? TYPE_CONFERENCE_CLOSING
  then M_left (EVENT_CONFERENCE_CLOSING (str print_f params "conference_id"))
  else M_ignored.

(** Texts that are not JSON and answers that are not "200" say nothing. *)
Definition decode_message (message : list Z) : server_message :=
  match read_from_string string_to_double new_object message with
  | Ok (true, json) =>
      if bool_decide (str print_f json "code" = bytes_of "200")
      then message_of (string_to_int (str print_f json "opcode"))
             (as_object (at_key json (bytes_of "params")))
      else M_ignored
  | _ => M_ignored
  end.
End messages.

(** ** The room implements it *)

Definition participants (users : list (list Z * RoomUser)) : gset (list Z) :=
  list_to_set users.*1.

Lemma elem_participants users k : k ∈ participants users ↔ is_Some (map_find users k).
Proof.
  unfold participants. rewrite elem_of_list_to_set.
  induction users as [|[k0 u] users IH]; cbn [map_find].
  { split; [by intros ?%elem_of_nil|by intros []%is_Some_None]. }
  rewrite fmap_cons, elem_of_cons, IH. cbn [fst].
  case_bool_decide as E; [subst; by split; [eauto|left]|].
  split; [by intros [?|?]|by right].
Qed.

Lemma participants_add users users' k :
  is_Some (map_find users' k) →
  (∀ k', k' ≠ k → map_find users' k' = map_find users k') →
  participants users' = {[k]} ∪ participants users.
Proof.
  intros Hk Hne. apply set_eq. intros k'. rewrite elem_of_union, elem_of_singleton, !elem_participants.
  destruct (decide (k' = k)) as [->|E]; [tauto|]. rewrite Hne by done. tauto.
Qed.

Lemma participants_add_all users users' (l : list OnlineUser) :
  Forall (λ u, is_Some (map_find users' (userUUID u))) l →
  (∀ k, k ∉ userUUID <$> l → map_find users' k = map_find users k) →
  participants users' = list_to_set (userUUID <$> l) ∪ participants users.
Proof.
  intros Hl Hne. apply set_eq. intros k. rewrite elem_of_union, elem_of_list_to_set, !elem_participants.
  destruct (decide (k ∈ userUUID <$> l)) as [E|E]; [|rewrite Hne by done; tauto].
  split; [by left|]. intros _. apply list_elem_of_fmap in E as (u & -> & Hu).
  rewrite Forall_forall in Hl. by apply Hl.
Qed.

Lemma participants_erase users k :
  NoDup users.*1 → participants (map_erase users k) = participants users ∖ {[k]}.
Proof.
  intros Hnd. apply set_eq. intros k'.
  rewrite elem_of_difference, elem_of_singleton, !elem_participants.
  destruct (decide (k' = k)) as [->|E].
  - rewrite map_erase_find by done. split; [by intros []%is_Some_None|tauto].
  - rewrite map_find_erase_ne by done. tauto.
Qed.

Lemma participants_replace users k u :
  is_Some (map_find users k) → participants (map_insert users k u) = participants users.
Proof.
  intros Hk. apply set_eq. intros k'. rewrite !elem_participants, map_find_insert.
  case_bool_decide; [subst|done]. by split; [|eauto].
Qed.

Section refinement.
Context {double : Type} (string_to_double : list Z → double).
Context (print_double print_f : double → list Z) (env : environment) (thread_create : Z).

(** The result [r] of a handler on [this] is what the specification says of [m], and
    the application is told the same events. *)
Definition implements (this : LiveMeetingRoom) (m : server_message)
    (r : outcome (list (Z * conference_event * Z) * (LiveMeetingRoom * world))) : Prop :=
  ∃ evs this' w', r = Ok (evs, (this', w')) ∧ good this' w'
    ∧ abstraction this' = (abstract_step (abstraction this) m).1
    ∧ evs = (abstract_step (abstraction this) m).2 ≫= fire this
    ∧ ∀ e, fire this' e = fire this e.

Lemma fire_one this e : [e] ≫= fire this = fire this e.
Proof. cbn. by rewrite app_nil_r. Qed.

Lemma entered_implements params this w m evs :
  good this w →
  (abstract_step (abstraction this) m).1
    = mkConference (membership_of print_f params) (c_users (abstraction this)) false →
  (abstract_step (abstraction this) m).2 = [evs] →
  implements this m
    (r ← enter print_f env thread_create params this w;
     let '(this, w) := r in Ok (fire (set_running this false) evs, (set_running this false, w))).
Proof.
  intros Hg E1 E2. unfold implements. rewrite E1, E2, fire_one.
  destruct (enter_ok print_f env thread_create params this w Hg)
    as (this' & w' & E & [Hok Hp] & Hmy & _ & Hus & Hcb). step E.
  do 3 eexists. split; [done|]. split; [by split; [apply set_signal_ok|]|]. split.
  - unfold abstraction. cbn. by rewrite Hmy, Hus.
  - split; [exact (Hcb evs)|exact Hcb].
Qed.

Lemma left_implements this w e :
  good this w → implements this (M_left e) (Ok (fire (leave this) e, (leave this, w))).
Proof.
  intros [Hok Hp]. assert (Hf : ∀ e, fire (leave this) e = fire this e).
  { intros e'. unfold leave, stop_receive. by destruct (m_receive_thread_running this). }
  exists (fire (leave this) e), (leave this), w. split; [done|].
  split; [by split; [apply leave_ok|]|]. split; [done|].
  split; [|exact Hf]. cbn [abstract_step snd]. by rewrite fire_one, Hf.
Qed.

Lemma pull_streams_participants (o : JsonObject double) i n users ports :
  participants (pull_streams print_f env o i n users ports).1 = participants users.
Proof.
  revert i users ports. induction n as [|n IH]; intros i users ports; cbn [pull_streams]; [done|].
  set (k := str print_f _ "user_uuid"). destruct (map_find users k) as [u|] eqn:E; [|apply IH].
  destruct (pull_ssrcs _ _ _ _ _ _ _) as [u' p']. rewrite IH.
  apply participants_replace. by rewrite E.
Qed.

Lemma pulled_implements this (params : JsonObject double) w :
  good this w → implements this M_pulled (on_ws_conference_pull_stream print_f env params this w).
Proof.
  intros [Hok Hp]. unfold on_ws_conference_pull_stream.
  set (o := as_object _). set (n := Z.to_nat _).
  pose proof (pull_streams_ok print_f env o 0 n _ _ (room_ok_users this Hok) Hp) as H.
  pose proof (pull_streams_participants o 0 n (m_other_users_map this) (w_ports w)) as Hk.
  destruct (pull_streams print_f env o 0 n _ _) as [users ports]. destruct H as [Hu Hp'].
  do 3 eexists. split; [done|]. split; [by split; [apply set_signal_ok, set_users_ok|]|].
  split; [|done]. unfold abstraction. cbn. f_equal. exact Hk.
Qed.

Lemma new_joined_implements this (params : JsonObject double) w :
  good this w →
  implements this (M_new_joined (online_user print_f params))
    (on_ws_conference_new_joined print_double print_f params this w).
Proof.
  intros [Hok Hp]. unfold on_ws_conference_new_joined.
  destruct (add_user_ok print_double this (online_user print_f params) Hok)
    as (this' & E & Hok' & Hin & Hne & _ & Eq). step E.
  do 3 eexists. split; [done|]. split; [done|]. split.
  - unfold abstraction. rewrite Eq. cbn. f_equal. by apply participants_add.
  - rewrite Eq. split; [|done]. cbn [abstract_step snd]. by rewrite fire_one.
Qed.

Lemma gone_implements this (params : JsonObject double) w :
  good this w →
  implements this (M_gone (str print_f params "user_uuid"))
    (on_ws_conference_user_gone print_f params this w).
Proof.
  intros [Hok Hp]. unfold on_ws_conference_user_gone. set (uuid := str _ _ _).
  pose proof (participants_erase (m_other_users_map this) uuid
                (sorted_map_NoDup _ (ok_sorted this Hok))) as Hs.
  do 3 eexists. split; [reflexivity|]. cbn [abstract_step fst snd]. rewrite fire_one.
  destruct (map_find (m_other_users_map this) uuid) as [u|] eqn:E.
  - split; [by split; [apply set_users_ok, users_ok_erase, room_ok_users|]|].
    split; [|done]. unfold abstraction. cbn. f_equal. exact Hs.
  - split; [done|]. split; [|done]. unfold abstraction. cbn. f_equal.
    fold (participants (m_other_users_map this)). symmetry. apply difference_disjoint_L.
    apply disjoint_singleton_r. rewrite elem_participants, E. by intros []%is_Some_None.
Qed.

Lemma online_implements this (params : JsonObject double) w :
  good this w →
  implements this (M_online (listed print_f params))
    (on_ws_conference_online_users print_double print_f params this w).
Proof.
  intros [Hok Hp]. unfold on_ws_conference_online_users. set (o := as_object _).
  destruct (online_users_ok print_double print_f o 0 (Z.to_nat (array_size o)) (set_running this false)
              (set_signal_ok this _ _ _ Hok)) as (l & this' & E & Hok' & El & Hall & Hne & _ & Eq).
  step E. assert (l = listed print_f params) as -> by exact El.
  do 3 eexists. split; [done|]. split; [done|]. rewrite Eq. split; [|split; [|done]].
  - unfold abstraction. cbn. f_equal. by apply participants_add_all.
  - cbn [abstract_step snd]. by rewrite fire_one.
Qed.

(** A request is over; nothing else changes. *)
Lemma answered_implements this w :
  good this w → implements this M_pulled (Ok ([], (set_running this false, w))).
Proof.
  intros [Hok Hp]. do 3 eexists. split; [done|]. by split; [split; [apply set_signal_ok|]|].
Qed.

Lemma ignored_implements this w : good this w → implements this M_ignored (Ok ([], (this, w))).
Proof. intros Hg. by exists [], this, w. Qed.

Lemma joined_implements this (params : JsonObject double) w :
  good this w →
  implements this (M_joined (membership_of print_f params))
    (on_ws_conference_join print_f env thread_create params this w).
Proof.
  intros Hg. unfold on_ws_conference_join. change (str print_f params "user_uuid") with
    (m_my_user_uuid (membership_of print_f params)).
  change (str print_f params "user_id") with (m_my_user_id (membership_of print_f params)).
  set (b := bool_decide _ || bool_decide _).
  assert (Ha : addressed (abstraction this) (membership_of print_f params) = b) by done.
  revert Ha. generalize b. intros [] Ha.
  - apply entered_implements; [done| |done]. cbn [abstract_step fst]. by rewrite Ha.
  - step_bind. destruct Hg as [Hok Hp]. do 3 eexists. split; [done|].
    split; [by split; [apply set_signal_ok|]|]. cbn [abstract_step fst snd].
    by rewrite fire_one, Ha.
Qed.

Lemma message_implements this message w :
  good this w →
  implements this (decode_message string_to_double print_f message)
    (on_websocket_message string_to_double print_double print_f env thread_create this message w).
Proof.
  intros Hg. unfold on_websocket_message, decode_message.
  destruct (read_from_string_result string_to_double new_object message) as (ret & json & ->).
  step_bind. destruct ret; cbn [negb]; [|by apply ignored_implements].
  destruct (bool_decide _); cbn [negb]; [|by apply ignored_implements].
  set (params := as_object _). unfold message_of.
  repeat (case_match; [|]); try discriminate;
    try (by apply ignored_implements || by apply answered_implements || by apply left_implements
         || by apply new_joined_implements || by apply pulled_implements
         || by apply joined_implements || by apply gone_implements || by apply online_implements).
  - by apply entered_implements.
  - unfold on_ws_conference_closing, on_ws_conference_heartbeat. step_bind. rewrite app_nil_r.
    by apply left_implements.
Qed.

Notation on_message := (on_websocket_message string_to_double print_double print_f env thread_create).
Notation decode := (decode_message string_to_double print_f).

Lemma abstract_run_events c ms (this this1 : LiveMeetingRoom) :
  (∀ e, fire this1 e = fire this e) →
  (abstract_run c ms).2 ≫= fire this1 = (abstract_run c ms).2 ≫= fire this.
Proof. intros H. by apply list_bind_ext. Qed.

Lemma messages_implement this messages w :
  good this w →
  ∃ this' w', on_messages string_to_double print_double print_f env thread_create this messages w
      = Ok ((abstract_run (abstraction this) (decode <$> messages)).2 ≫= fire this, (this', w'))
    ∧ good this' w'
    ∧ abstraction this' = (abstract_run (abstraction this) (decode <$> messages)).1.
Proof.
  revert this w. induction messages as [|message messages IH]; intros this w Hg; cbn [on_messages].
  { by exists this, w. }
  destruct (message_implements this message w Hg) as (evs & this1 & w1 & E & Hg1 & Ha & Ev & Hf).
  step E. destruct (IH this1 w1 Hg1) as (this2 & w2 & E2 & Hg2 & Ha2). step E2.
  exists this2, w2. rewrite fmap_cons. cbn [abstract_run].
  rewrite Ha in E2, Ha2. rewrite Ev. rewrite Ha.
  rewrite (abstract_run_events _ _ this this1 Hf).
  destruct (abstract_step (abstraction this) (decode message)) as [c evs1]. cbn [fst snd] in *.
  destruct (abstract_run c (decode <$> messages)) as [c' evs2]. cbn [fst snd] in *.
  by rewrite bind_app.
Qed.

(** C3: The room implements the protocol: on any sequence of texts it reaches the state the
    specification gives for the messages they carry, and tells the application exactly the
    events the specification lists, in that order. *)
Theorem room_implements_protocol this messages w :
  room_ok this → PortManager.wf (w_ports w) →
  ∃ this' w', on_messages string_to_double print_double print_f env thread_create this messages w
      = Ok ((abstract_run (abstraction this) (decode <$> messages)).2 ≫= fire this, (this', w'))
    ∧ room_ok this' ∧ PortManager.wf (w_ports w')
    ∧ abstraction this' = (abstract_run (abstraction this) (decode <$> messages)).1.
Proof.
  intros Hok Hp. destruct (messages_implement this messages w) as (this' & w' & E & [H1 H2] & Ha); [done|].
  by exists this', w'.
Qed.

(** ** Who is a participant *)

Lemma abstract_run_app c ms1 ms2 :
  (abstract_run c (ms1 ++ ms2)).1 = (abstract_run (abstract_run c ms1).1 ms2).1.
Proof.
  revert c. induction ms1 as [|m ms1 IH]; intros c; [done|]. cbn [app abstract_run].
  specialize (IH (abstract_step c m).1). destruct (abstract_step c m) as [c1 e1]. cbn [fst] in IH.
  destruct (abstract_run c1 (ms1 ++ ms2)), (abstract_run c1 ms1). exact IH.
Qed.

Lemma abstract_step_users c m uuid :
  uuid ∈ c_users (abstract_step c m).1 ↔ brings uuid m ∨ (uuid ∈ c_users c ∧ ¬ removes uuid m).
Proof. destruct m; cbn; set_solver. Qed.

(** The last message about [uuid] brought it. *)
Definition last_brings (uuid : list Z) (ms : list server_message) : Prop :=
  ∃ pre m post, ms = pre ++ m :: post ∧ brings uuid m ∧ Forall (λ m', ¬ removes uuid m') post.

Lemma abstract_run_users c ms uuid :
  uuid ∈ c_users (abstract_run c ms).1
  ↔ last_brings uuid ms ∨ (uuid ∈ c_users c ∧ Forall (λ m, ¬ removes uuid m) ms).
Proof.
  induction ms as [|m ms IH] using rev_ind.
  { cbn. split; [by right|]. intros [(pre & m & post & H & _)|[]]; [|done]. by destruct pre. }
  rewrite abstract_run_app. cbn [abstract_run].
  replace (let '(c0, evs) := abstract_step (abstract_run c ms).1 m in (c0, evs ++ []))
    with ((abstract_step (abstract_run c ms).1 m).1, (abstract_step (abstract_run c ms).1 m).2 ++ [])
    by (by destruct (abstract_step (abstract_run c ms).1 m)).
  cbn [fst]. rewrite abstract_step_users, IH. rewrite Forall_app, Forall_singleton. split.
  - intros [Hb|[[(pre & m' & post & -> & Hb & Hr)|[Hc Hr]] Hm]].
    + left. by exists ms, m, [].
    + left. exists pre, m', (post ++ [m]). rewrite <- app_assoc. split; [done|]. split; [done|].
      by rewrite Forall_app, Forall_singleton.
    + by right.
  - intros [(pre & m' & post & E & Hb & Hr)|(Hc & Hr & Hm)]; [|by right; split; [right|]].
    destruct post as [|x post' _] using rev_ind.
    + apply app_inj_tail in E as [-> ->]. by left.
    + rewrite app_comm_cons, app_assoc in E. apply app_inj_tail in E as [-> ->].
      rewrite Forall_app, Forall_singleton in Hr. destruct Hr as [Hr Hx]. right. split; [left|done].
      by exists pre, m', post'.
Qed.

(** C29: After any sequence of texts the room has an entry for a user exactly when some message
    brought the user (the news that it joined, or a list it is on) and none after it said
    that the user is gone or that the conference is over. *)
Theorem participants_history this messages w uuid :
  room_ok this → PortManager.wf (w_ports w) → m_other_users_map this = [] →
  ∃ evs this' w', on_messages string_to_double print_double print_f env thread_create this messages w
      = Ok (evs, (this', w'))
    ∧ (is_Some (map_find (m_other_users_map this') uuid) ↔ last_brings uuid (decode <$> messages)).
Proof.
  intros Hok Hp He. destruct (messages_implement this messages w) as (this' & w' & E & _ & Ha); [done|].
  do 3 eexists. split; [exact E|]. rewrite <- elem_participants.
  change (participants _) with (c_users (abstraction this')). rewrite Ha, abstract_run_users.
  cbn [c_users abstraction]. rewrite He. set_solver.
Qed.
End refinement.

(** ** Concrete runs *)

(** [created], [bob] joins, [bob] goes, [bob] is on the list again. *)
Definition bob : list (list Z * list Z) :=
  [(bytes_of "user_id", bytes_of "bob"); (bytes_of "user_uuid", bytes_of "u2")].

Definition sample_texts : list (list Z) :=
  [answer_text "200" 1000 created_params; answer_text "200" 1002 bob;
   answer_text "200" 1201 bob; answer_text "200" 1002 bob].

Lemma room_implements_protocol_witness : ∃ this' w',
  on_messages (λ _, tt) (λ _ : unit, []) (λ _, []) sample_environment 0 sample_room sample_texts
      sample_world
    = Ok ((abstract_run (abstraction sample_room)
             (decode_message (λ _, tt) (λ _ : unit, []) <$> sample_texts)).2 ≫= fire sample_room,
          (this', w'))
  ∧ c_users (abstraction this') = {[bytes_of "u2"]}
  ∧ m_my_room_id (c_my (abstraction this')) = bytes_of "c1".
Proof.
  destruct (room_implements_protocol (λ _, tt) (λ _ : unit, []) (λ _, []) sample_environment 0
              sample_room sample_texts sample_world sample_room_ok sample_world_ok)
    as (this' & w' & E & _ & _ & Ha).
  exists this', w'. split; [exact E|]. rewrite Ha. split; vm_compute; reflexivity.
Defined.

Lemma participants_history_witness : ∃ evs this' w',
  on_messages (λ _, tt) (λ _ : unit, []) (λ _, []) sample_environment 0 sample_room sample_texts
      sample_world = Ok (evs, (this', w'))
  ∧ is_Some (map_find (m_other_users_map this') (bytes_of "u2")).
Proof.
  destruct (participants_history (λ _, tt) (λ _ : unit, []) (λ _, []) sample_environment 0
              sample_room sample_texts sample_world (bytes_of "u2") sample_room_ok sample_world_ok
              eq_refl) as (evs & this' & w' & E & H).
  exists evs, this', w'. split; [exact E|]. apply H.
  exists (take 3 (decode_message (λ _, tt) (λ _ : unit, []) <$> sample_texts)).
  eexists _, []. split; [vm_compute; reflexivity|]. split; [vm_compute; reflexivity|constructor].
Defined.
