(* ===== verification/RoomStreams.v ===== *)
(** * RoomStreams: the streams of the participants

    The two ends of a stream in [src/application/app_meeting_room.cpp]: the answer to
    [start_pull_stream], which starts the receivers that were asked for and no other,
    and the turns of [receive_loop], which hand what arrives for a participant to the
    callbacks under its identifier.  A datagram is harmless when the parser and the
    assembler can read what it claims to hold; on those a turn never leaves its memory,
    and each participant is served as if it were alone. *)

From S2P Require Import Prelude.
From S2P Require Import Utils.
From S2P Require Import Json.
From S2P Require Import Command.
From S2P Require Import PortManager.
From S2P Require Import IPAddrV4.
From S2P Require Import RTPPacket.
From S2P Require Import RTPTransmitterV4.
From S2P Require Import RTPH264FrameAssembler.
From S2P Require Import RTPSessionReceiver.
From S2P Require Import RoomUser.
From S2P Require Import LiveMeetingRoom.

(** ** Receivers on harmless datagrams *)

(** A payload the reader can take: for video the assembler, [payload_safe]; the callback
    for audio takes every payload. *)
Definition any_payload : list Z → bool := λ _, true.

(** A datagram of the length its headers claim, behind which the padding and a payload
    the reader can take find place; or one the parser turns away at once. *)
Definition datagram_safe (reader : list Z → bool) (d : list Z) : bool :=
  match d with
  | [] => true
  | b0 :: _ =>
      let pad := if byte0_padding b0 =? 0 then 0 else default 0 (last d) in
      (zlen d <=? sizeof_RTPHeader) || negb (byte0_version b0 =? 2) || (byte0_extension b0 =? 0)
      || (needed d + pad <=? zlen d)
         && reader (take (Z.to_nat (zlen d - pad - needed d)) (drop (Z.to_nat (needed d)) d))
  end.

(** What arrives is nothing, or such a datagram once it is cut to the receive buffer. *)
Definition harmless (reader : list Z → bool) (a : arrival) : Prop :=
  ∀ d, datagram a = Some d →
    is_bytes d ∧ datagram_safe reader (take (Z.to_nat RTP_RECV_BUFFER_SIZE) d) = true.

Definition harmless_streams (a : arrival * arrival) : Prop :=
  harmless any_payload a.1 ∧ harmless payload_safe a.2.

(** A packet that waits: it has no payload, or one inside its memory that the reader can
    take. *)
Definition packet_safe (reader : list Z → bool) (p : RTPPacket) : Prop :=
  get_payload p = None ∧ get_payload_length p = 0
  ∨ ∃ bs, carries p bs ∧ is_bytes bs ∧ zlen bs <= RTP_RECV_BUFFER_SIZE ∧ reader bs = true.

Lemma packet_safe_push p asm :
  packet_safe payload_safe p →
  zlen (m_frame asm) + RTP_RECV_BUFFER_SIZE + 4 <= ASSEMBLER_BUFFER_SIZE →
  is_ok (push_packet asm p) = true.
Proof.
  intros [[Hp Hl]|(bs & Hc & Hb & Hl & Hs)] Hroom.
  - unfold push_packet. rewrite Hl. by case_match.
  - apply (push_packet_payload_safe asm p bs); try done; [lia|].
    unfold RTP_RECV_BUFFER_SIZE, ASSEMBLER_BUFFER_SIZE in *. lia.
Qed.

Lemma packet_safe_data reader p : packet_safe reader p → is_ok (payload_data p) = true.
Proof.
  unfold payload_data. intros [[-> _]|(bs & (pre & post & Hm & Hp & Hl) & _)]; [done|].
  rewrite Hp, Hl. unfold payload_range. unfold get_packet, get_payload in Hm, Hp. rewrite Hm, Hp.
  by rewrite Z.add_0_r, rd_range_app.
Qed.

Lemma reset_safe reader : packet_safe reader reset.
Proof. by left. Qed.

Lemma rd_last_byte (d : list Z) : d ≠ [] → rd d (zlen d - 1) = Ok (default 0 (last d)).
Proof.
  intros Hne. destruct (exists_last Hne) as (l & x & ->). rewrite last_snoc.
  autorewrite with rtc_len. rewrite rd_app_r by len.
  by replace (zlen l + (1 + 0) - 1 - zlen l) with 0 by lia.
Qed.

Lemma datagram_parsed reader d :
  is_bytes d → zlen d <= RTP_RECV_BUFFER_SIZE → datagram_safe reader d = true →
  ∃ ret p, parse reset d (zlen d) = Ok (ret, p) ∧ (ret = true → packet_safe reader p).
Proof.
  intros Hb Hlen Hs. destruct d as [|b0 d0]; [by do 2 eexists|].
  unfold datagram_safe in Hs. set (d := b0 :: d0) in *.
  assert (R0 : rd d 0 = Ok b0) by done.
  set (pad := if byte0_padding b0 =? 0 then 0 else default 0 (last d)) in *.
  assert (Rp : padding_read d (zlen d) = Ok pad).
  { unfold padding_read, pad. step R0. destruct (byte0_padding b0 =? 0); [done|]. by apply rd_last_byte. }
  destruct (Z.leb_spec (zlen d) sizeof_RTPHeader) as [Hsmall|Hbig].
  { unfold parse. rewrite (proj2 (Z.leb_le _ _)) by done. by do 2 eexists. }
  assert (Hneed : needed d = 12 + byte0_csrcCount b0 * 4 + 16) by (unfold needed; by rewrite R0).
  pose proof (byte0_csrcCount_range b0). cbn [orb] in Hs.
  destruct (byte0_version b0 =? 2) eqn:Ev; cbn [negb orb] in Hs.
  2:{ unfold parse. rewrite (proj2 (Z.leb_gt _ _)) by done. step R0. rewrite Ev. by do 2 eexists. }
  destruct (byte0_extension b0 =? 0) eqn:Ee; cbn [orb] in Hs.
  - unfold parse, sizeof_RTPHeader in *. rewrite (proj2 (Z.leb_gt _ _)) by done. step R0. rewrite Ev.
    cbn [negb]. destruct (rd_in_range d 1) as (b1 & R1 & _); [lia|]. step R1.
    destruct (rd_be16_ok d 2) as (? & R2 & _); [lia..|done|]. step R2.
    destruct (rd_be32_ok d 4) as (? & R4 & _); [lia..|done|]. step R4.
    destruct (rd_be32_ok d 8) as (? & R8 & _); [lia..|done|]. step R8.
    unfold padding_read in Rp. rewrite R0 in Rp. cbn [mbind outcome_bind] in Rp. step Rp.
    clearbody pad. match goal with |- context [if ?c && ?e then _ else _] => destruct (c && e) end;
      [by do 2 eexists|].
    cbn [set_header m_extension]. rewrite Ee. by do 2 eexists.
  - apply andb_prop in Hs as [Hfit%Z.leb_le Hr].
    assert (Hpad : 0 <= pad).
    { unfold pad. case_match; [done|]. destruct (last d) as [x|] eqn:El; [|done].
      apply last_Some_elem_of in El. exact (proj1 (proj1 (Forall_forall _ _) Hb x El)). }
    destruct (parse_no_fault reset d Hb ltac:(lia)) as [[ret p] E]. exists ret, p. split; [done|].
    intros ->. apply parse_true_inv in E as (pad' & off & _ & Eoff & Ep & Hoff & Hp & Hl & Hm & _).
    rewrite Rp in Ep. injection Ep as <-. right. rewrite Eoff in *.
    set (n := zlen d - pad - off) in *. assert (Hn : 0 <= n) by (unfold n; lia).
    exists (take (Z.to_nat n) (drop (Z.to_nat off) d)).
    assert (Hzl : zlen (take (Z.to_nat n) (drop (Z.to_nat off) d)) = n)
      by (apply zlen_take; rewrite zlen_drop by lia; lia).
    split; [|split; [by apply Forall_take, Forall_drop|split; [lia|done]]].
    exists (take (Z.to_nat off) d), (drop (Z.to_nat n) (drop (Z.to_nat off) d)).
    unfold get_packet, get_payload, get_payload_length. rewrite Hm, Hp, Hl, Hzl, !take_drop.
    split_and!; [done| |].
    + rewrite zlen_take by lia. done.
    + apply u64_id. unfold RTP_RECV_BUFFER_SIZE in *. lia.
Qed.

Definition receiver_live (reader : list Z → bool) (this : RTPSessionReceiver) : Prop :=
  ready this ∧ Forall (packet_safe reader) (m_reorder_list this).

Lemma elem_of_rev {A} (l : list A) x : x ∈ rev l ↔ x ∈ l.
Proof. by rewrite !list_elem_of_In, <- in_rev. Qed.

Lemma insert_loop_in packet before after p :
  p ∈ insert_loop packet before after → p = packet ∨ p ∈ before ∨ p ∈ after.
Proof.
  revert after. induction before as [|q before IH]; intros after; cbn [insert_loop]; [set_solver|].
  case_match; [intros [?|[?|?]]%IH; set_solver|].
  case_match; cbn [rev]; rewrite !elem_of_app, elem_of_rev; set_solver.
Qed.

Lemma insert_packet_safe (P : RTPPacket → Prop) l packet :
  Forall P l → P packet → Forall P (insert_packet l packet).
Proof.
  rewrite !Forall_forall. intros Hl Hp p [->|[Hin|Hin]]%insert_loop_in; [done| |set_solver].
  apply Hl. by apply elem_of_rev.
Qed.

Lemma pop_packet_safe (P : RTPPacket → Prop) l k :
  Forall P l → Forall P (pop_packet l k).2 ∧ ∀ p, (pop_packet l k).1 = Some p → P p.
Proof.
  destruct l as [|q l]; cbn [pop_packet]; [done|]. intros Hl.
  destruct (k <? zlen (q :: l)); cbn [fst snd]; [|done].
  apply Forall_cons in Hl as [Hq Hl]. split; [done|]. by intros p [= <-].
Qed.

(** What a receiver that re-orders does with a harmless datagram, or none. *)
Lemma receive_live reader this a :
  receiver_live reader this → harmless reader a →
  ∃ o this', receive_rtp_packet this 5 a = Ok (o, this') ∧ receiver_live reader this'
    ∧ ∀ p, o = Some p → packet_safe reader p.
Proof.
  intros [(Hi & Hr & (t & Ht & Hti) & Hb) Hl] Ha. unfold receive_rtp_packet.
  rewrite Hr, Ht. cbn [negb orb Z.leb Z.compare].
  pose proof (receive_data_bounds t a (m_recv_buffer this) RTP_RECV_BUFFER_SIZE Hb) as H.
  destruct (receive_data t a (m_recv_buffer this) RTP_RECV_BUFFER_SIZE) as [n buffer].
  destruct H as (Hn & Hlen & Hd & _).
  assert (Hdone : ∀ l, Forall (packet_safe reader) l → ∃ o this',
    (let '(packet, l) := pop_packet l 5 in
     Ok (packet, set_received this (m_rtp_packet this) buffer l)) = Ok (o, this')
    ∧ receiver_live reader this' ∧ ∀ p, o = Some p → packet_safe reader p).
  { intros l Hs. pose proof (pop_packet_safe _ l 5 Hs) as [H1 H2].
    destruct (pop_packet l 5) as [o l']. do 2 eexists. split; [done|]. split; [|done].
    split; [|done]. by split_and!; [..|exists t|]. }
  destruct (m_reorder_list this) as [|q l] eqn:El.
  { step_bind. apply Hdone. by repeat constructor; apply reset_safe. }
  destruct (Z.ltb_spec 0 n); [|step_bind; by apply Hdone].
  destruct (Hd ltac:(lia)) as (d & Ed & Etake).
  assert (Er : rd_range buffer 0 n = Ok (take (Z.to_nat RTP_RECV_BUFFER_SIZE) d))
    by (rewrite rd_range_in, drop_0, Etake by lia; done).
  assert (Elen : n = zlen (take (Z.to_nat RTP_RECV_BUFFER_SIZE) d))
    by (rewrite <- Etake, zlen_take; lia).
  step Er. destruct (Ha d Ed) as [Hbd Hds].
  destruct (datagram_parsed reader (take (Z.to_nat RTP_RECV_BUFFER_SIZE) d)) as (ret & p & Ep & Hsafe);
    [by apply Forall_take|lia|done|]. rewrite Elen. step Ep.
  apply Hdone. destruct ret; [|done]. apply insert_packet_safe; [done|by apply Hsafe].
Qed.

(** ** One participant *)

(** What the room set up for a participant, and a turn only reads. *)
Definition identity (this : RoomUser) :=
  (RoomUser.m_user_id this, m_user_name this, m_user_uuid this, m_user_ip_addr this,
   (RoomUser.m_video_ssrc this, RoomUser.m_audio_ssrc this), (m_pinhole_uuid this, m_pinhole_msg this),
   (RoomUser.m_h264_callback this, RoomUser.m_h264_callback_arg this),
   (RoomUser.m_aac_callback this, RoomUser.m_aac_callback_arg this)).

(** The application is called through a callback of the participant, with its identifier
    and the argument that goes with the callback. *)
Definition event_for (this : RoomUser) (e : received) : Prop :=
  cb_uuid e = m_user_uuid this
  ∧ ((RoomUser.m_h264_callback this = Some (cb_func e)
      ∧ cb_arg e = RoomUser.m_h264_callback_arg this)
     ∨ (RoomUser.m_aac_callback this = Some (cb_func e)
        ∧ cb_arg e = RoomUser.m_aac_callback_arg this)).

Record user_live (this : RoomUser) : Prop := {
  live_video : ∀ r, m_major_receiver this = Some r → receiver_live payload_safe r;
  live_audio : ∀ r, m_audio_receiver this = Some r → receiver_live any_payload r;
}.

(** The frame under construction leaves room for one more packet. *)
Definition has_room (this : RoomUser) : Prop :=
  ∀ asm, m_h264_frame_assembler this = Some asm →
    zlen (m_frame asm) + RTP_RECV_BUFFER_SIZE + 4 <= ASSEMBLER_BUFFER_SIZE.

(** The part of a turn that [this] has: it ends, keeps the participant in good state, and
    calls no one else. *)
Definition served (this : RoomUser) (r : outcome (list received * RoomUser)) : Prop :=
  ∃ evs this', r = Ok (evs, this') ∧ user_ok this' ∧ user_live this'
    ∧ identity this' = identity this ∧ Forall (event_for this) evs ∧ (length evs <= 1)%nat
    ∧ (m_video_initialize this' = m_video_initialize this
       ∧ m_audio_initialize this' = m_audio_initialize this).

Lemma event_for_identity this this' e :
  identity this' = identity this → event_for this' e → event_for this e.
Proof. unfold identity, event_for. intros [= _ _ -> _ _ _ _ _ -> -> -> ->]. done. Qed.

Ltac quiet := split_and!; try done; cbn; lia.

Lemma on_video_packet_served this rtp :
  user_ok this → user_live this → has_room this → packet_safe payload_safe rtp →
  is_Some (m_h264_frame_assembler this) → is_Some (m_h264_rtp_buffer this) →
  served this (on_video_packet this rtp).
Proof.
  intros Hok [Hlv Hla] Hroom Hp [asm Easm] [buf Ebuf].
  apply (packet_safe_push rtp asm) in Hp; [|by apply Hroom].
  destruct (push_packet asm rtp) as [res| |] eqn:E; [|done..].
  destruct (on_video_packet_ok this rtp asm buf res Hok Easm Ebuf E) as (evs & this' & E' & Hok' & _).
  exists evs, this'. split; [done|]. split; [done|]. revert E'.
  unfold on_video_packet. rewrite Easm, Ebuf. step E. destruct res as [complete asm'].
  destruct complete; cbn [negb]; [|intros [= <- <-]; split; [by split|quiet]].
  case_match; [done|]. destruct (has_marker rtp); [|intros [= <- <-]; split; [by split|quiet]].
  intros [= <- <-]. split; [by split|]. split; [done|].
  destruct (RoomUser.m_h264_callback this) as [func|] eqn:Ef; [|quiet].
  split; [|quiet].
  constructor; [split; [done|by left]|constructor].
Qed.

Lemma receive_video_served this a :
  user_ok this → user_live this → has_room this → harmless payload_safe a →
  served this (receive_video this a).
Proof.
  intros Hok Hlive Hroom Ha. unfold receive_video.
  destruct (m_major_receiver this) as [r|] eqn:Er; [|exists [], this; quiet].
  destruct (receive_live _ r a (live_video this Hlive r Er) Ha) as (o & r' & E & Hr' & Ho). step E.
  destruct Hlive as [Hlv Hla]. pose proof Hok as [Hb Has Hv Hf].
  destruct (Hv ltac:(by rewrite Er)) as [Hasm Hbuf].
  set (this1 := set_video _ _ _ _ _ _).
  assert (Hok1 : user_ok this1).
  { split; [done|done|by eauto|]. cbn. destruct Hf as [[Hf1 Hf2] Hf3]. split; [|done].
    split; [by eauto|]. intros _. apply Hf2. by rewrite Er. }
  assert (Hlive1 : user_live this1) by (split; [by intros ? [= <-]|done]).
  destruct o as [rtp|]; [|exists [], this1; quiet].
  destruct (on_video_packet_served this1 rtp) as (evs & this' & E' & H1 & H2 & H3 & H4 & H5);
    [done|done|done|by apply Ho|done|done|]. by exists evs, this'.
Qed.

Lemma receive_audio_served this a :
  user_ok this → user_live this → harmless any_payload a →
  served this (receive_audio this a)
  ∧ ∀ evs this', receive_audio this a = Ok (evs, this') →
      m_h264_frame_assembler this' = m_h264_frame_assembler this.
Proof.
  intros Hok Hlive Ha. unfold receive_audio.
  destruct (m_audio_receiver this) as [r|] eqn:Er;
    [|split; [exists [], this; quiet|by intros ?? [= _ <-]]].
  destruct (receive_live _ r a (live_audio this Hlive r Er) Ha) as (o & r' & E & Hr' & Ho). step E.
  destruct Hlive as [Hlv Hla]. pose proof Hok as [Hb Has Hv Hf].
  set (this1 := set_audio _ _ _ _).
  assert (Hok1 : user_ok this1).
  { split; [done|done|done|]. cbn. destruct Hf as [Hf1 [Hf2 Hf3]]. split; [done|].
    split; [by eauto|]. intros _. apply Hf3. by rewrite Er. }
  assert (Hlive1 : user_live this1) by (split; [done|by intros ? [= <-]]).
  destruct o as [rtp|]; [|split; [exists [], this1; quiet|by intros ?? [= _ <-]]].
  change (RoomUser.m_aac_callback this1) with (RoomUser.m_aac_callback this).
  destruct (RoomUser.m_aac_callback this) as [func|] eqn:Ef;
    [|split; [exists [], this1; quiet|by intros ?? [= _ <-]]].
  pose proof (packet_safe_data _ rtp (Ho rtp eq_refl)) as Hd.
  destruct (payload_data rtp) as [data| |]; [|done..]. step_bind.
  split; [|by intros ?? [= _ <-]]. do 2 eexists. split; [done|].
  split; [done|]. split; [done|]. split; [done|]. split; [|quiet].
  constructor; [split; [done|by right]|constructor].
Qed.

(** The pinhole of one participant sends its message and nothing else. *)
Lemma send_loop_extends sendto ds data net :
  ∃ extra, (send_loop sendto ds data net).2 = net ++ extra ∧ Forall (λ d, d.2 = data) extra.
Proof.
  revert net. induction ds as [|d ds IH]; intros net; cbn [send_loop].
  { exists []. by rewrite app_nil_r. }
  repeat case_match; cbn [snd]; try (eexists [_]; by split; [|constructor]).
  destruct (IH (net ++ [(get_sock_addr d, data)])) as (extra & -> & Hx).
  eexists (_ :: extra). rewrite <- app_assoc. by split; [|constructor].
Qed.

Lemma nat_pinhole_extends sendto this net :
  user_live this →
  ∃ extra, RoomUser.nat_pinhole sendto this net = Ok (net ++ extra)
    ∧ Forall (λ d, d.2 = m_pinhole_msg this) extra.
Proof.
  intros [Hv Ha].
  assert (Hone : ∀ reader (o : option RTPSessionReceiver) n, (∀ r, o = Some r → receiver_live reader r) →
    ∃ extra, (match o with
              | Some r => RTPSessionReceiver.nat_pinhole sendto r (m_pinhole_msg this) n
              | None => Ok n end) = Ok (n ++ extra) ∧ Forall (λ d, d.2 = m_pinhole_msg this) extra).
  { intros reader [r|] n Hr; [|by exists []; rewrite app_nil_r].
    destruct (Hr r eq_refl) as [(_ & _ & (t & Ht & _) & _) _].
    unfold RTPSessionReceiver.nat_pinhole, send_data. rewrite Ht.
    destruct (send_loop_extends sendto (m_destinations t) (m_pinhole_msg this) n) as (extra & -> & Hx).
    by exists extra. }
  unfold RoomUser.nat_pinhole.
  destruct (Hone _ (m_major_receiver this) net Hv) as (x1 & -> & H1). step_bind.
  destruct (Hone _ (m_audio_receiver this) (net ++ x1) Ha) as (x2 & -> & H2).
  exists (x1 ++ x2). rewrite app_assoc. split; [done|]. by apply Forall_app.
Qed.

(** ** A turn of the receive loop *)

(** What arrives for one participant, served alone: its audio, then its video. *)
Definition receive_streams (a : arrival * arrival) (usr : RoomUser)
    : outcome (list received * RoomUser) :=
  r ← receive_audio usr a.1;
  let '(evs1, usr) := r in
  r ← receive_video usr a.2;
  let '(evs2, usr) := r in Ok (evs1 ++ evs2, usr).

(** What a turn did for the participant [k]. *)
Definition turn_of (arrive : list Z → arrival * arrival) (kv : list Z * RoomUser)
    (t : list received * RoomUser) : Prop :=
  receive_streams (arrive kv.1) kv.2 = Ok t
  ∧ Forall (λ e, event_for kv.2 e ∧ cb_uuid e = kv.1) t.1 ∧ (length t.1 <= 2)%nat
  ∧ identity t.2 = identity kv.2.

Lemma receive_user_served sendto count a usr net :
  user_ok usr → user_live usr → has_room usr → harmless_streams a →
  ∃ evs usr' extra, receive_user sendto count a usr net = Ok (evs, (usr', net ++ extra))
    ∧ receive_streams a usr = Ok (evs, usr') ∧ user_ok usr' ∧ user_live usr'
    ∧ identity usr' = identity usr ∧ Forall (event_for usr) evs ∧ (length evs <= 2)%nat
    ∧ Forall (λ d, d.2 = m_pinhole_msg usr) extra ∧ (count mod 2000 ≠ 0 → extra = []).
Proof.
  intros Hok Hlive Hroom [Ha1 Ha2]. unfold receive_user, receive_streams.
  destruct (receive_audio_served usr a.1 Hok Hlive Ha1)
    as [(evs1 & usr1 & E1 & Hok1 & Hlive1 & Hid1 & Hev1 & Hn1 & _) Hasm]. step E1.
  assert (Hroom1 : has_room usr1) by (intros asm; rewrite (Hasm _ _ E1); apply Hroom).
  destruct (receive_video_served usr1 a.2 Hok1 Hlive1 Hroom1 Ha2)
    as (evs2 & usr2 & E2 & Hok2 & Hlive2 & Hid2 & Hev2 & Hn2 & _). step E2.
  assert (Hid : identity usr2 = identity usr) by congruence.
  assert (Hmsg : m_pinhole_msg usr2 = m_pinhole_msg usr) by (revert Hid; unfold identity; congruence).
  assert (Hev : Forall (event_for usr) (evs1 ++ evs2)).
  { apply Forall_app. split; [done|]. eapply Forall_impl; [exact Hev2|]. cbn. intros e He.
    exact (event_for_identity _ _ _ Hid1 He). }
  assert (Hn : (length (evs1 ++ evs2) <= 2)%nat) by (rewrite length_app; lia).
  destruct (Z.eqb_spec (count mod 2000) 0) as [Hc|Hc].
  - destruct (nat_pinhole_extends sendto usr2 net Hlive2) as (extra & -> & Hx). step_bind.
    exists (evs1 ++ evs2), usr2, extra. rewrite Hmsg in Hx. by split_and!.
  - step_bind. exists (evs1 ++ evs2), usr2, []. rewrite app_nil_r. by split_and!.
Qed.

Lemma identity_uuid u u' : identity u' = identity u → m_user_uuid u' = m_user_uuid u.
Proof. unfold identity. congruence. Qed.

Lemma receive_users_served sendto count arrive users net :
  Forall (λ kv, (user_ok kv.2 ∧ m_user_uuid kv.2 = kv.1) ∧ user_live kv.2 ∧ has_room kv.2
                ∧ harmless_streams (arrive kv.1)) users →
  ∃ turns extra,
    receive_users sendto count arrive users net
      = Ok (concat turns.*1, (zip users.*1 turns.*2, net ++ extra))
    ∧ Forall2 (turn_of arrive) users turns
    ∧ Forall (λ kv, (user_ok kv.2 ∧ m_user_uuid kv.2 = kv.1) ∧ user_live kv.2)
        (zip users.*1 turns.*2)
    ∧ Forall (λ d, ∃ kv, kv ∈ users ∧ d.2 = m_pinhole_msg kv.2) extra
    ∧ (count mod 2000 ≠ 0 → extra = []).
Proof.
  revert net. induction users as [|[k u] users IH]; intros net; cbn [receive_users].
  { intros _. exists [], []. rewrite app_nil_r. by split_and!. }
  intros [([Hok Hk] & Hlive & Hroom & Ha) Hall]%Forall_cons. cbn [fst snd] in *.
  destruct (receive_user_served sendto count (arrive k) u net Hok Hlive Hroom Ha)
    as (evs & u' & x1 & -> & E & Hok' & Hlive' & Hid & Hev & Hn & Hx1 & Hc1). step_bind.
  destruct (IH (net ++ x1) Hall) as (turns & x2 & -> & Ht & Hu & Hx2 & Hc2). step_bind.
  exists ((evs, u') :: turns), (x1 ++ x2). rewrite !fmap_cons. cbn [zip zip_with fst snd concat].
  rewrite app_assoc. split; [done|]. split; [|split; [|split]].
  - constructor; [|done]. split; [done|]. split; [|done]. eapply Forall_impl; [exact Hev|].
    cbn. intros e He. split; [done|]. by rewrite (proj1 He).
  - constructor; [|done]. cbn. by rewrite (identity_uuid _ _ Hid).
  - apply Forall_app. split.
    + eapply Forall_impl; [exact Hx1|]. intros d Hd. exists (k, u). split; [by left|done].
    + eapply Forall_impl; [exact Hx2|]. intros d (kv & Hkv & Hd). exists kv. split; [by right|done].
  - intros Hc. by rewrite Hc1, Hc2.
Qed.

(** All the participants can receive. *)
Definition room_live (this : LiveMeetingRoom) : Prop :=
  Forall (λ kv, user_live kv.2) (m_other_users_map this).

Lemma zip_keys (users : list (list Z * RoomUser)) (us : list RoomUser) :
  length us = length users → (zip users.*1 us).*1 = users.*1.
Proof. intros H. apply fst_zip. rewrite length_fmap. lia. Qed.

Lemma receive_turn_spec sendto arrive this count w :
  room_ok this → room_live this →
  Forall (λ kv, has_room kv.2 ∧ harmless_streams (arrive kv.1))
    (m_other_users_map this) →
  ∃ turns extra,
    let users' := zip (m_other_users_map this).*1 turns.*2 in
    receive_turn sendto arrive this count w
      = Ok (concat turns.*1, (set_users this users',
              (u32 (count + 1), set_network w (w_network w ++ extra))))
    ∧ Forall2 (turn_of arrive) (m_other_users_map this) turns
    ∧ room_ok (set_users this users') ∧ room_live (set_users this users')
    ∧ Forall (λ d, ∃ kv, kv ∈ m_other_users_map this ∧ d.2 = m_pinhole_msg kv.2) extra
    ∧ (count mod 2000 ≠ 0 → extra = []).
Proof.
  intros Hok Hlive Hin. destruct (room_ok_users this Hok) as [Hs Hu].
  destruct (receive_users_served sendto count arrive (m_other_users_map this) (w_network w))
    as (turns & extra & E & Ht & Hu' & Hx & Hc).
  { unfold room_live in Hlive. rewrite Forall_forall in *. intros kv Hkv.
    specialize (Hlive kv Hkv). specialize (Hin kv Hkv). by specialize (Hu kv Hkv). }
  exists turns, extra. cbv zeta. unfold receive_turn. step E. split; [done|]. split; [done|].
  apply Forall_and in Hu' as [H1 H2].
  split; [apply set_users_ok; [done|split; [|done]]|by split_and!].
  unfold sorted_map. rewrite zip_keys; [done|]. rewrite length_fmap. symmetry.
  by eapply Forall2_length.
Qed.

(** C17: A turn in which every participant's frame buffer has room for what may be added and
    what arrives is harmless by its bytes (nothing, a datagram the parser turns away at once,
    or one whose first 2048 bytes hold the header, sources, extension and padding it claims,
    and, for video, the bytes by which each NAL unit in it is classified) ends without a
    stray access and keeps the room in good state.  Each participant gets what it would get alone: its events go to its own
    callbacks under its own identifier, in the order of the participants, at most one for
    each stream.  Only pinhole messages of participants are sent, and those on every
    2000th turn alone. *)
Theorem receive_turn_correct sendto arrive this count w :
  room_ok this → room_live this →
  Forall (λ kv, has_room kv.2 ∧ harmless_streams (arrive kv.1))
    (m_other_users_map this) →
  ∃ turns extra,
    let users' := zip (m_other_users_map this).*1 turns.*2 in
    receive_turn sendto arrive this count w
      = Ok (concat turns.*1, (set_users this users',
              (u32 (count + 1), set_network w (w_network w ++ extra))))
    ∧ Forall2 (turn_of arrive) (m_other_users_map this) turns
    ∧ room_ok (set_users this users') ∧ room_live (set_users this users')
    ∧ Forall (λ d, ∃ kv, kv ∈ m_other_users_map this ∧ d.2 = m_pinhole_msg kv.2) extra
    ∧ (count mod 2000 ≠ 0 → extra = []).
Proof. by apply receive_turn_spec. Qed.

(** ** Starting the streams that were asked for *)

(** A system on which every call succeeds, and a pool that has a port. *)
Definition works (env : environment) : Prop :=
  sock env ≠ -1 ∧ (∀ ip port, bind_result env ip port = 0)
  ∧ (∀ port, check_available (os env) port = true)
  ∧ zlen (fresh env) = RTP_RECV_BUFFER_SIZE.

Definition ports_ok (ports : PortManager) : Prop :=
  wf ports ∧ pool ports ≠ ∅ ∧ 0 ∉ pool ports.

Lemma get_available_port_works env ports :
  works env → ports_ok ports →
  ∃ port ports', get_available_port (os env) ports = (port, ports') ∧ port ≠ 0 ∧ ports_ok ports'.
Proof.
  intros (_ & _ & Hc & _) (Hw & Hne & H0).
  pose proof (get_udp_port_spec (os env) ports Hw) as H.
  pose proof (recycle_wf ports Hw) as [_ Hpool].
  unfold get_available_port. destruct (get_udp_port (os env) ports) as [[port|] ports'].
  - destruct H as (Hw' & Hp & _ & Hin & _). exists port, ports'. split; [done|].
    unfold ports_ok. rewrite Hp. split; [|done]. intros ->. apply H0. rewrite <- Hp.
    unfold pool. set_solver.
  - destruct H as (_ & _ & _ & Hall). destruct Hne. rewrite <- Hpool. unfold pool.
    destruct (m_available_ports (recycle ports)) as [|port l] eqn:E;
      [|specialize (Hall port ltac:(set_solver)); by rewrite Hc in Hall].
    revert E. unfold recycle. destruct (m_available_ports ports) as [|q l'] eqn:Ea; [|by rewrite Ea].
    cbn. intros _. set_solver.
Qed.

Lemma init_receiver_works env port ip pport ports :
  works env →
  ∃ r, init_receiver env port ip pport ports = (true, (r, ports)) ∧ ∀ reader, receiver_live reader r.
Proof.
  intros (Hs & Hb & _ & Hf). unfold init_receiver, RTPSessionReceiver.init, RTPTransmitterV4.init.
  cbn [RTPSessionReceiver.m_initialize new_receiver RTPTransmitterV4.m_initialize new_transmitter].
  rewrite (proj2 (Z.eqb_neq _ _) Hs), Hb. cbn. eexists. split; [done|].
  split; [|constructor]. split_and!; [done|done|by eexists|done].
Qed.

(** What a request that names the SSRCs [l] for a participant asks of it. *)
Definition asks_video (l : list Z) (u : RoomUser) : bool :=
  existsb (Z.eqb (RoomUser.m_video_ssrc u)) l.

Definition asks_audio (l : list Z) (u : RoomUser) : bool :=
  negb (RoomUser.m_video_ssrc u =? RoomUser.m_audio_ssrc u)
  && existsb (Z.eqb (RoomUser.m_audio_ssrc u)) l.

#[local] Arguments asks_video : simpl never.
#[local] Arguments asks_audio : simpl never.

(** [u'] is [u] after the request [l]: exactly the receivers asked for were started, those
    that were running go on as they were. *)
Record pulled (l : list Z) (u u' : RoomUser) : Prop := {
  pulled_ok : user_ok u';
  pulled_live : user_live u → user_live u';
  pulled_identity : identity u' = identity u;
  pulled_video : m_video_initialize u' = m_video_initialize u || asks_video l u;
  pulled_audio : m_audio_initialize u' = m_audio_initialize u || asks_audio l u;
  kept_video : m_video_initialize u = true →
    m_major_receiver u' = m_major_receiver u
    ∧ m_h264_frame_assembler u' = m_h264_frame_assembler u
    ∧ m_h264_rtp_buffer u' = m_h264_rtp_buffer u;
  kept_audio : m_audio_initialize u = true → m_audio_receiver u' = m_audio_receiver u;
}.

Lemma asks_identity l u u' :
  identity u' = identity u → asks_video l u' = asks_video l u ∧ asks_audio l u' = asks_audio l u.
Proof. unfold identity, asks_video, asks_audio. intros [= _ _ _ _ -> -> _ _ _ _ _ _]. done. Qed.

Lemma pulled_nothing u : user_ok u → pulled [] u u.
Proof.
  intros Hok. split; try done; unfold asks_video, asks_audio; cbn.
  - by rewrite orb_false_r.
  - by rewrite andb_false_r, orb_false_r.
Qed.

Lemma pulled_app l1 l2 u u1 u2 : pulled l1 u u1 → pulled l2 u1 u2 → pulled (l1 ++ l2) u u2.
Proof.
  intros H1 H2. destruct (asks_identity l2 u u1 (pulled_identity _ _ _ H1)) as [Ev Ea].
  split.
  - apply H2.
  - intros H. by apply H2, H1.
  - by rewrite (pulled_identity _ _ _ H2), (pulled_identity _ _ _ H1).
  - rewrite (pulled_video _ _ _ H2), (pulled_video _ _ _ H1), Ev. unfold asks_video.
    by rewrite existsb_app, orb_assoc.
  - rewrite (pulled_audio _ _ _ H2), (pulled_audio _ _ _ H1), Ea. unfold asks_audio.
    by rewrite existsb_app, andb_orb_distrib_r, orb_assoc.
  - intros H. destruct (kept_video _ _ _ H1 H) as (E1 & E2 & E3).
    destruct (kept_video _ _ _ H2) as (E4 & E5 & E6); [by rewrite (pulled_video _ _ _ H1), H|].
    by rewrite E4, E5, E6.
  - intros H. rewrite (kept_audio _ _ _ H2) by (by rewrite (pulled_audio _ _ _ H1), H).
    by apply H1.
Qed.

(** One SSRC. *)
Lemma initialize_pulled env u ip pport ssrc ports :
  works env → ports_ok ports → user_ok u →
  ∃ ret u' ports', RoomUser.initialize env u ip pport ssrc ports = (ret, (u', ports'))
    ∧ ports_ok ports' ∧ pulled [ssrc] u u'.
Proof.
  intros Hw Hp Hok. pose proof Hp as (Hwf & Hne & H0). unfold RoomUser.initialize.
  assert (Hsame : (m_video_initialize u = true ∨ asks_video [ssrc] u = false) →
                  (m_audio_initialize u = true ∨ asks_audio [ssrc] u = false) → pulled [ssrc] u u).
  { intros H1 H2. split; try done.
    - destruct H1 as [-> | ->]; [done|by rewrite orb_false_r].
    - destruct H2 as [-> | ->]; [done|by rewrite orb_false_r]. }
  destruct (Z.eqb_spec (RoomUser.m_video_ssrc u) ssrc) as [Ev|Ev].
  - assert (Ha : asks_audio [ssrc] u = false).
    { unfold asks_audio. rewrite Ev. cbn. rewrite (Z.eqb_sym ssrc). by destruct (_ =? _). }
    assert (Hv : asks_video [ssrc] u = true) by (unfold asks_video; cbn; rewrite (proj2 (Z.eqb_eq _ _)); done).
    unfold initialize_video. destruct (m_video_initialize u) eqn:Ei.
    { do 3 eexists. split; [done|]. split; [done|]. apply Hsame; auto. }
    destruct (get_available_port_works env ports Hw Hp) as (port & ports1 & -> & Hport & Hp1).
    rewrite (proj2 (Z.eqb_neq _ _) Hport).
    destruct (init_receiver_works env port ip pport ports1 Hw) as (r & -> & Hr). cbn [negb].
    do 3 eexists. split; [reflexivity|]. split; [done|].
    destruct Hok as [Hb Has Hvd [Hf1 Hf2]]. split; cbn.
    + split; cbn; [by intros ? [= <-]|by intros ? [= <-]|by eauto|by split; [split; eauto|]].
    + intros [Hl1 Hl2]. split; [by intros ? [= <-]|done].
    + done.
    + by rewrite Ei, Hv.
    + by rewrite Ha, orb_false_r.
    + by rewrite Ei.
    + done.
  - assert (Hv : asks_video [ssrc] u = false) by (unfold asks_video; cbn; by rewrite (proj2 (Z.eqb_neq _ _) Ev)).
    destruct (Z.eqb_spec (RoomUser.m_audio_ssrc u) ssrc) as [Ea|Ea].
    + assert (Ha : asks_audio [ssrc] u = true).
      { unfold asks_audio. rewrite Ea. cbn. by rewrite (proj2 (Z.eqb_neq _ _) Ev), Z.eqb_refl. }
      unfold initialize_audio. destruct (m_audio_initialize u) eqn:Ei.
      { do 3 eexists. split; [done|]. split; [done|]. apply Hsame; auto. }
      destruct (get_available_port_works env ports Hw Hp) as (port & ports1 & -> & Hport & Hp1).
      rewrite (proj2 (Z.eqb_neq _ _) Hport).
      destruct (init_receiver_works env port ip pport ports1 Hw) as (r & -> & Hr). cbn [negb].
      do 3 eexists. split; [reflexivity|]. split; [done|].
      destruct Hok as [Hb Has Hvd [Hf1 Hf2]]. split; cbn.
      * split; cbn; [done|done|done|by split; [|split; eauto]].
      * intros [Hl1 Hl2]. split; [done|by intros ? [= <-]].
      * done.
      * by rewrite Hv, orb_false_r.
      * by rewrite Ei, Ha.
      * done.
      * by rewrite Ei.
    + do 3 eexists. split; [done|]. split; [done|]. apply Hsame; right; [done|].
      unfold asks_audio. cbn. by rewrite (proj2 (Z.eqb_neq _ _) Ea), orb_false_r, andb_false_r.
Qed.

Lemma map_find_elem {V} (m : list (list Z * V)) k v :
  sorted_map m → (k, v) ∈ m → map_find m k = Some v.
Proof.
  intros Hs%sorted_map_NoDup Hin. induction m as [|[k0 v0] m IH]; [by apply elem_of_nil in Hin|].
  rewrite fmap_cons, NoDup_cons in Hs. destruct Hs as [Hk Hnd]. cbn [map_find].
  apply elem_of_cons in Hin as [[= -> ->]|Hin]; [by rewrite bool_decide_eq_true_2|].
  rewrite bool_decide_eq_false_2; [by apply IH|]. intros ->. apply Hk.
  exact (list_elem_of_fmap_2 fst _ _ Hin).
Qed.

Section pulling.
Context {double : Type} (print_f : double → list Z) (env : environment).

(** The SSRCs of one stream of the answer, and its streams with their participants. *)
Fixpoint ssrcs_of (ssrcsJson : JsonObject double) (j : Z) (n : nat) : list Z :=
  match n with
  | O => []
  | S n => str_u32 (str print_f (as_object (at_index ssrcsJson j)) "ssrc")
             :: ssrcs_of ssrcsJson (j + 1) n
  end.

Fixpoint streams_of (streamsJson : JsonObject double) (i : Z) (n : nat)
    : list (list Z * list Z) :=
  match n with
  | O => []
  | S n =>
      let streamJson := as_object (at_index streamsJson i) in
      let ssrcsJson := as_object (at_key streamJson (bytes_of "ssrcs")) in
      (str print_f streamJson "user_uuid",
       ssrcs_of ssrcsJson 0 (Z.to_nat (array_size ssrcsJson))) :: streams_of streamsJson (i + 1) n
  end.

(** What the answer [params] asks of the participant [k]. *)
Definition requested (streams : list (list Z * list Z)) (k : list Z) : list Z :=
  streams ≫= λ s, if bool_decide (s.1 = k) then s.2 else [].

Lemma pull_ssrcs_pulled o j n u ports :
  works env → ports_ok ports → user_ok u →
  ∃ u' ports', pull_ssrcs print_f env o j n u ports = (u', ports')
    ∧ ports_ok ports' ∧ pulled (ssrcs_of o j n) u u'.
Proof.
  intros Hw. revert j u ports. induction n as [|n IH]; intros j u ports Hp Hok; cbn [pull_ssrcs ssrcs_of].
  { exists u, ports. split; [done|]. split; [done|]. by apply pulled_nothing. }
  match goal with |- context [RoomUser.initialize env u ?ip ?port ?ssrc ports] =>
    destruct (initialize_pulled env u ip port ssrc ports Hw Hp Hok)
      as (ret & u1 & ports1 & -> & Hp1 & Hu1) end.
  destruct (IH (j + 1) u1 ports1 Hp1 (pulled_ok _ _ _ Hu1)) as (u' & ports' & -> & Hp' & Hu').
  exists u', ports'. split; [done|]. split; [done|]. exact (pulled_app [_] _ _ _ _ Hu1 Hu').
Qed.

(** The participants before and after the requests [streams]. *)
Definition all_pulled (streams : list (list Z * list Z)) (users users' : list (list Z * RoomUser))
    : Prop :=
  ∀ k, match map_find users k with
       | None => map_find users' k = None
       | Some u => ∃ u', map_find users' k = Some u' ∧ pulled (requested streams k) u u'
       end.

Lemma pull_streams_pulled o i n users ports :
  works env → ports_ok ports → users_ok users →
  ∃ users' ports', pull_streams print_f env o i n users ports = (users', ports')
    ∧ ports_ok ports' ∧ users_ok users' ∧ all_pulled (streams_of o i n) users users'.
Proof.
  intros Hw. revert i users ports.
  induction n as [|n IH]; intros i users ports Hp Hu; cbn [pull_streams streams_of].
  { exists users, ports. do 3 (split; [done|]). intros k.
    destruct (map_find users k) as [u|] eqn:E; [|done]. exists u. split; [done|].
    apply pulled_nothing. by eapply users_ok_find. }
  set (k0 := str print_f _ "user_uuid"). set (l := ssrcs_of _ _ _).
  destruct (map_find users k0) as [u|] eqn:E.
  - destruct (users_ok_find users k0 u Hu E) as [Hok Hk].
    match goal with |- context [pull_ssrcs print_f env ?oo ?j ?m u ports] =>
      destruct (pull_ssrcs_pulled oo j m u ports Hw Hp Hok) as (u1 & ports1 & -> & Hp1 & Hu1) end.
    assert (Huk : m_user_uuid u1 = k0) by (rewrite <- Hk; by apply identity_uuid, Hu1).
    destruct (IH (i + 1) (map_insert users k0 u1) ports1 Hp1) as (users' & ports' & -> & Hp' & Hu' & Hall).
    { apply users_ok_insert; [done|apply Hu1|done]. }
    exists users', ports'. do 3 (split; [done|]). intros k. specialize (Hall k).
    rewrite map_find_insert in Hall. unfold requested in *. rewrite bind_cons. cbn [fst snd].
    destruct (bool_decide_reflect (k = k0)) as [Ek|Hne].
    + rewrite Ek, E. rewrite bool_decide_eq_true_2 by done. destruct Hall as (u' & E' & Hpu').
      exists u'. rewrite Ek in E', Hpu'. split; [done|]. exact (pulled_app _ _ _ _ _ Hu1 Hpu').
    + rewrite bool_decide_eq_false_2 by done. exact Hall.
  - destruct (IH (i + 1) users ports Hp Hu) as (users' & ports' & -> & Hp' & Hu' & Hall).
    exists users', ports'. do 3 (split; [done|]). intros k. specialize (Hall k).
    unfold requested in *. rewrite bind_cons. cbn [fst snd].
    destruct (bool_decide_reflect (k0 = k)) as [Ek|Hne]; [by rewrite <- Ek, E in *|exact Hall].
Qed.

Lemma streams_pulled_spec params this w :
  works env → ports_ok (w_ports w) → room_ok this → room_live this →
  let o := as_object (at_key params (bytes_of "streams")) in
  ∃ this' w', on_ws_conference_pull_stream print_f env params this w = Ok ([], (this', w'))
    ∧ all_pulled (streams_of o 0 (Z.to_nat (array_size o)))
        (m_other_users_map this) (m_other_users_map this')
    ∧ room_ok this' ∧ room_live this' ∧ ports_ok (w_ports w')
    ∧ m_is_signal_running this' = false ∧ w_network w' = w_network w.
Proof.
  intros Hw Hp Hok Hlive o. unfold on_ws_conference_pull_stream. fold o.
  destruct (pull_streams_pulled o 0 (Z.to_nat (array_size o)) (m_other_users_map this) (w_ports w) Hw Hp
              (room_ok_users this Hok)) as (users' & ports' & -> & Hp' & Hu' & Hall).
  do 2 eexists. split; [reflexivity|]. split; [exact Hall|].
  split; [by apply set_signal_ok, set_users_ok|]. split; [|done].
  apply Forall_forall. intros [k u'] Hin. cbn in *.
  assert (E' : map_find users' k = Some u') by (apply map_find_elem; [apply Hu'|done]).
  specialize (Hall k). destruct (map_find (m_other_users_map this) k) as [u|] eqn:E; [|by rewrite E' in Hall].
  destruct Hall as (u1 & E1 & Hpu). rewrite E' in E1. injection E1 as <-.
  apply (pulled_live _ _ _ Hpu). apply map_find_in in E.
  exact (proj1 (Forall_forall _ _) Hlive _ E).
Qed.

(** C6: The answer to [start_pull_stream] on a system where ports can be had: exactly the
    streams it lists are received from then on, of the participants the room knows; every
    receiver that was running goes on with what it holds, nobody comes or goes, and the
    pending request is over. *)
Theorem streams_pulled params this w :
  works env → ports_ok (w_ports w) → room_ok this → room_live this →
  let o := as_object (at_key params (bytes_of "streams")) in
  ∃ this' w', on_ws_conference_pull_stream print_f env params this w = Ok ([], (this', w'))
    ∧ all_pulled (streams_of o 0 (Z.to_nat (array_size o)))
        (m_other_users_map this) (m_other_users_map this')
    ∧ room_ok this' ∧ room_live this' ∧ ports_ok (w_ports w')
    ∧ m_is_signal_running this' = false ∧ w_network w' = w_network w.
Proof. apply streams_pulled_spec. Qed.
End pulling.

(** ** Concrete runs *)

Lemma numbered_packets_safe reader :
  (∀ n, reader [65; n] = true) → Forall (packet_safe reader) (numbered_packet <$> [1; 2; 3; 4; 5; 6]).
Proof.
  intros Hr. apply Forall_fmap, Forall_forall. intros n Hn. right. exists [65; n].
  assert (H : carries (numbered_packet n) [65; n] ∧ is_bytes [65; n]).
  { split; [exists (take 28 (numbered n)), []|].
    all: rewrite !elem_of_cons, elem_of_nil in Hn.
    all: destruct Hn as [->|[->|[->|[->|[->|[->|[]]]]]]]; vm_compute;
      repeat (split || constructor); discriminate. }
  destruct H as [H1 H2]. split; [done|]. split; [done|]. split; [done|apply Hr].
Qed.

(** A participant that publishes audio, with five packets waiting. *)
Definition audio_user : RoomUser :=
  set_audio sample_user true 5000 (Some (sample_receiver (numbered_packet <$> [1; 2; 3; 4; 5]))).

Definition audio_room : LiveMeetingRoom :=
  set_users sample_room [(bytes_of "u1", audio_user)].

(** The sixth arrives, and no video. *)
Definition sixth : list Z → arrival * arrival := λ _, (numbered_arrival 6, mkArrival 0 0 0 false None).

Lemma audio_user_ok : user_ok audio_user.
Proof.
  split; cbn; [done|done|by intros []%is_Some_None|].
  split; split; [done|by intros []%is_Some_None|by eexists|done].
Qed.

Lemma audio_room_ok : room_ok audio_room.
Proof.
  apply set_users_ok; [exact sample_room_ok|]. split; [repeat constructor|].
  constructor; [exact (conj audio_user_ok eq_refl)|constructor].
Qed.

Lemma audio_room_live : room_live audio_room.
Proof.
  constructor; [|constructor]. split; [done|]. cbn [snd]. intros r [= <-].
  split; [apply sample_receiver_ready|].
  exact (Forall_take _ 5 _ (numbered_packets_safe any_payload (λ _, eq_refl))).
Qed.

Lemma sixth_harmless k : harmless_streams (sixth k).
Proof. split; [|done]. intros d [= <-]. split; [by apply (bool_decide_unpack _)|by vm_compute]. Qed.

Definition turn_events {A} (r : outcome (list received * A)) : list received :=
  match r with Ok (evs, _) => evs | _ => [] end.

Lemma receive_turn_correct_witness : ∃ this' w',
  receive_turn (λ _ _ d, zlen d) sixth audio_room 1 sample_world
    = Ok ([{| cb_func := 3; cb_uuid := bytes_of "u1"; cb_data := Some [65; 1]; cb_length := 2;
              cb_ssrc := 1; cb_timestamp := 0; cb_arg := 4 |}], (this', (2, w')))
  ∧ room_ok this' ∧ room_live this'.
Proof.
  destruct (receive_turn_correct (λ _ _ d, zlen d) sixth audio_room 1 sample_world
              audio_room_ok audio_room_live) as (turns & extra & E & _ & H1 & H2 & _).
  { constructor; [|constructor]. split; [done|apply sixth_harmless]. }
  assert (Ev : turn_events (receive_turn (λ _ _ d, zlen d) sixth audio_room 1 sample_world)
    = [{| cb_func := 3; cb_uuid := bytes_of "u1"; cb_data := Some [65; 1]; cb_length := 2;
          cb_ssrc := 1; cb_timestamp := 0; cb_arg := 4 |}]) by (vm_compute; reflexivity).
  cbv zeta in *. rewrite E in Ev. cbn [turn_events] in Ev. rewrite Ev in E.
  do 2 eexists. split; [exact E|exact (conj H1 H2)].
Defined.

(** A system on which everything succeeds, and the answer that starts video source 9. *)
Definition full_environment : environment :=
  mkEnvironment (mkProbe (λ _, 3) (λ _, 0)) 4 (λ _ _, 0) sample_inet_addr (replicate 2048 0).

Lemma full_environment_works : works full_environment.
Proof. by split_and!. Qed.

Lemma sample_ports_ok : ports_ok (w_ports sample_world).
Proof. split; [exact sample_world_ok|]. split; by_table. Qed.

Definition pull_params : JsonObject unit :=
  {| m_is_array := false;
     Json.m_members := [(bytes_of "streams", T_OBJ true [(bytes_of "0",
       T_OBJ false [(bytes_of "ssrcs", T_OBJ true [(bytes_of "0",
                       T_OBJ false (param_members [(bytes_of "ip", bytes_of "10.0.0.5");
                         (bytes_of "port", bytes_of "6000"); (bytes_of "ssrc", bytes_of "9")]))]);
                    (bytes_of "user_uuid", T_STRING (bytes_of "u1"))])])] |}.

Lemma streams_pulled_witness : ∃ this' w' u',
  on_ws_conference_pull_stream (λ _ : unit, []) full_environment pull_params audio_room sample_world
    = Ok ([], (this', w'))
  ∧ map_find (m_other_users_map this') (bytes_of "u1") = Some u'
  ∧ m_video_initialize u' = true ∧ m_audio_receiver u' = m_audio_receiver audio_user.
Proof.
  destruct (streams_pulled (λ _ : unit, []) full_environment pull_params audio_room sample_world
              full_environment_works sample_ports_ok audio_room_ok audio_room_live)
    as (this' & w' & E & Hall & _).
  specialize (Hall (bytes_of "u1")).
  change (map_find (m_other_users_map audio_room) (bytes_of "u1")) with (Some audio_user) in Hall.
  cbv iota in Hall. destruct Hall as (u' & Eu & Hp).
  exists this', w', u'. split; [exact E|]. split; [exact Eu|]. split.
  - rewrite (pulled_video _ _ _ Hp). vm_compute. reflexivity.
  - apply (kept_audio _ _ _ Hp). reflexivity.
Defined.
