(* ===== verification/RoomLife.v ===== *)
(** * RoomLife: every state the room can get into

    [room_step] is one call of the application, one text or event of the websocket
    thread, or one turn of the receive thread of [src/application/app_meeting_room.cpp].
    What [room_inv] says holds in every reachable state: the participants, senders and
    ports are in good state, and a room that is not initialised holds nothing.  In such a
    state no text whose lines fit the logger, no signal and no turn on harmless datagrams
    can go wrong. *)

From S2P Require Import Prelude.
From S2P Require Import Json.
From S2P Require Import Command.
From S2P Require Import WSClient.
From S2P Require Import PortManager.
From S2P Require Import RTPTransmitterV4.
From S2P Require Import RTPSessionReceiver.
From S2P Require Import RTPSessionAudio.
From S2P Require Import RTPSessionVideo.
From S2P Require Import RoomUser.
From S2P Require Import Logger.
From S2P Require Import LiveMeetingRoom.
From S2P Require Import RoomLog.
From S2P Require Import RoomStreams.

(** ** What the handlers leave alone *)

(** The fields only [initialize], [free_context] and the setters set. *)
Definition context (this : LiveMeetingRoom)
    : bool * bool * option WSClient * (option Z * Z) * (option Z * Z) :=
  (LiveMeetingRoom.m_initialized this, m_ws_thread_running this, m_websocket_client this,
   (m_event_callback_func this, m_event_callback_arg this),
   (m_signal_callback_func this, m_signal_callback_arg this)).

(** The receivers of the environment's buffers have their length. *)
Definition env_ok (env : environment) : Prop := zlen (fresh env) = RTP_RECV_BUFFER_SIZE.

Lemma send_h264_data_wf sendto now base session data len net ret session' net' :
  RTPSessionVideo.wf session →
  RTPSessionVideo.send_h264_data sendto now base session data len net = Ok (ret, (session', net')) →
  RTPSessionVideo.wf session'
  ∧ RTPSessionVideo.m_initialize session' = RTPSessionVideo.m_initialize session.
Proof.
  intros [(Hi & Hb & Ht)| -> ]; [|by intros [= <- <- <-]; split; [right|]].
  unfold RTPSessionVideo.send_h264_data. rewrite Hi. cbn [negb].
  destruct Hb as [b ->], Ht as [t Et]. rewrite Et. intros E. inv_bind.
  repeat (case_match; inv_bind); simplify_eq; (split; [left; cbn; rewrite Et; eauto|done]).
Qed.

Lemma send_aac_data_wf sendto now session data len net ret session' net' :
  RTPSessionAudio.wf session →
  RTPSessionAudio.send_aac_data sendto now session data len net = Ok (ret, (session', net')) →
  RTPSessionAudio.wf session'
  ∧ RTPSessionAudio.m_initialize session' = RTPSessionAudio.m_initialize session.
Proof.
  intros [(Hi & Hb & Ht)| -> ]; [|by intros [= <- <- <-]; split; [right|]].
  unfold RTPSessionAudio.send_aac_data. rewrite Hi. cbn [negb].
  destruct Hb as [b ->], Ht as [t Et]. rewrite Et. intros E. inv_bind.
  repeat (case_match; inv_bind); simplify_eq; (split; [left; cbn; rewrite Et; eauto|done]).
Qed.

Section handlers.
Context {double : Type} (string_to_double : list Z → double).
Context (print_double print_f : double → list Z) (env : environment) (thread_create : Z).

(** [this'] was made from [this] by a handler. *)
Definition kept (this this' : LiveMeetingRoom) : Prop :=
  context this' = context this ∧ (room_live this → room_live this').

Lemma kept_refl this : kept this this.
Proof. done. Qed.

Lemma kept_trans this this1 this2 : kept this this1 → kept this1 this2 → kept this this2.
Proof. intros [E1 H1] [E2 H2]. split; [by rewrite E2|auto]. Qed.

(** Nothing but the users, the senders and the signal is touched. *)
Lemma kept_users this this' :
  context this' = context this → m_other_users_map this' = m_other_users_map this → kept this this'.
Proof. intros E1 E2. split; [done|]. unfold room_live. by rewrite E2. Qed.

Lemma kept_insert this k u :
  user_live u → kept this (set_users this (map_insert (m_other_users_map this) k u)).
Proof.
  intros Hu. split; [done|]. unfold room_live. cbn. rewrite !Forall_forall.
  intros Hall kv [->|Hkv]%map_insert_in; [done|by apply Hall].
Qed.

Lemma kept_erase this k : kept this (set_users this (map_erase (m_other_users_map this) k)).
Proof.
  split; [done|]. unfold room_live. cbn. rewrite !Forall_forall.
  intros Hall kv Hkv%map_erase_in. by apply Hall.
Qed.

Lemma leave_kept this : kept this (leave this).
Proof.
  unfold leave, stop_receive. destruct (m_receive_thread_running this); by split; [|constructor].
Qed.

Lemma add_sender_destination_kept this w vip vport vs vt vssrc aip aport as_ at_ assrc this' w' :
  add_sender_destination env this w vip vport vs vt vssrc aip aport as_ at_ assrc = Ok (this', w') →
  kept this this'.
Proof.
  unfold add_sender_destination.
  destruct (m_rtp_audio_sender this); [|by intros [= <- _]].
  destruct (m_rtp_video_sender this); [|by intros [= <- _]].
  match goal with |- context [if m_rtp_send_initialized this then ?a else ?b] =>
    destruct (if m_rtp_send_initialized this then a else b) as (ready & audio & video & ports) end.
  destruct ready; cbn [negb]; intros E; inv_bind; by simplify_eq.
Qed.

Lemma enter_kept params this w this' w' :
  enter print_f env thread_create params this w = Ok (this', w') → kept this this'.
Proof.
  unfold enter. intros E. apply bind_is_ok in E as ([this1 w1] & E1 & E). injection E as <- _.
  apply add_sender_destination_kept in E1. eapply kept_trans; [|eapply kept_trans; [exact E1|]].
  - by apply kept_users.
  - destruct (m_receive_thread_running this1); by apply kept_users.
Qed.

Lemma room_user_live this u usr : room_user print_double this u = Ok usr → user_live usr.
Proof.
  unfold room_user, set_pinhole_uuid. intros E. inv_bind. destruct a. inv_bind. subst usr.
  by split.
Qed.

Lemma add_user_kept this u this' : add_user print_double this u = Ok this' → kept this this'.
Proof.
  unfold add_user. destruct (map_find _ _); [by intros [= <-]|]. intros E. inv_bind. subst this'.
  apply kept_insert. by eapply room_user_live.
Qed.

Lemma online_users_kept o i n this l this' :
  online_users print_double print_f o i n this = Ok (l, this') → kept this this'.
Proof.
  revert i this l. induction n as [|n IH]; intros i this l; cbn [online_users]; [by intros [= _ <-]|].
  intros E. apply bind_is_ok in E as (this1 & E1 & E). apply bind_is_ok in E as ([l2 this2] & E2 & E).
  injection E as _ <-. eapply kept_trans; [by eapply add_user_kept|by eapply IH].
Qed.

(** Any system, with buffers of the right length. *)
Lemma init_receiver_live port ip pport ports r ports' :
  env_ok env → init_receiver env port ip pport ports = (true, (r, ports')) → ∀ reader, receiver_live reader r.
Proof.
  unfold env_ok, init_receiver, RTPSessionReceiver.init, RTPTransmitterV4.init. intros Hf.
  cbn [RTPSessionReceiver.m_initialize new_receiver RTPTransmitterV4.m_initialize new_transmitter].
  destruct (sock env =? -1); [done|]. cbn [receive_params bindIP bindPort].
  destruct (negb (bind_result env 0 port =? 0)); [done|]. cbn. intros [= <- _] reader.
  split; [|constructor]. split_and!; try done. by eexists.
Qed.

Lemma initialize_live u ip pport ssrc ports :
  env_ok env → user_live u →
  user_live (RoomUser.initialize env u ip pport ssrc ports).2.1.
Proof.
  intros Hf [Hv Ha]. unfold RoomUser.initialize, initialize_video, initialize_audio.
  repeat match goal with
  | |- context [init_receiver env ?a ?b ?c ?d] =>
      let E := fresh "E" in destruct (init_receiver env a b c d) as [[] [? ?]] eqn:E;
      [pose proof (init_receiver_live _ _ _ _ _ _ Hf E)|]
  | |- _ => case_match
  end; simplify_eq/=; split; cbn; try done; by intros ? [= <-].
Qed.

Lemma pull_ssrcs_live o j n u ports :
  env_ok env → user_live u → user_live (pull_ssrcs print_f env o j n u ports).1.
Proof.
  intros Hf. revert j u ports. induction n as [|n IH]; intros j u ports Hu; cbn [pull_ssrcs]; [done|].
  match goal with |- context [RoomUser.initialize env u ?ip ?port ?ssrc ports] =>
    pose proof (initialize_live u ip port ssrc ports Hf Hu) as H;
    destruct (RoomUser.initialize env u ip port ssrc ports) as [r [u1 p1]] end.
  by apply IH.
Qed.

Lemma pull_streams_live o i n users ports :
  env_ok env → Forall (λ kv, user_live kv.2) users →
  Forall (λ kv, user_live kv.2) (pull_streams print_f env o i n users ports).1.
Proof.
  intros Hf. revert i users ports. induction n as [|n IH]; intros i users ports Hu; cbn [pull_streams]; [done|].
  destruct (map_find users _) as [u|] eqn:E; [|by apply IH].
  match goal with |- context [pull_ssrcs print_f env ?o ?j ?m u ports] =>
    pose proof (pull_ssrcs_live o j m u ports Hf) as H;
    destruct (pull_ssrcs print_f env o j m u ports) as [u' p'] end.
  apply IH. rewrite Forall_forall in *. intros kv [->|Hkv]%map_insert_in; [|by apply Hu].
  apply H. apply map_find_in in E. exact (Hu _ E).
Qed.

Lemma message_kept this message w evs this' w' :
  env_ok env →
  on_websocket_message string_to_double print_double print_f env thread_create this message w
    = Ok (evs, (this', w')) →
  kept this this'.
Proof.
  intros Hf. unfold on_websocket_message. intros E. apply bind_is_ok in E as ([ret json] & _ & E).
  destruct ret; cbn [negb] in E; [|by inv_bind; simplify_eq].
  case_match; [by inv_bind; simplify_eq|]. revert E. set (params := as_object _). intros E.
  repeat (case_match; [|]); try (injection E as _ <- _; by (apply leave_kept || apply kept_users)).
  - apply bind_is_ok in E as ([this1 w1] & E1 & E). injection E as _ <- _.
    eapply kept_trans; [by eapply enter_kept|by apply kept_users].
  - apply bind_is_ok in E as ([this1 w1] & E1 & E). injection E as _ <- _.
    apply (kept_trans _ this1); [|by apply kept_users].
    match type of E1 with (if ?b then _ else _) = _ => destruct b end;
      [by eapply enter_kept|by injection E1 as <- _].
  - apply bind_is_ok in E as (this1 & E1 & E). injection E as _ <- _. by eapply add_user_kept.
  - unfold on_ws_conference_pull_stream in E.
    match type of E with context [pull_streams print_f env ?o ?i ?n ?u ?p] =>
      pose proof (pull_streams_live o i n u p Hf) as H';
      destruct (pull_streams print_f env o i n u p) as [users ports] end.
    injection E as _ <- _. split; [done|exact H'].
  - unfold on_ws_conference_user_gone in E. injection E as _ <- _.
    case_match; [apply kept_erase|apply kept_refl].
  - apply bind_is_ok in E as ([l this1] & E1 & E). injection E as _ <- _.
    eapply kept_trans; [|by eapply online_users_kept]. by apply kept_users.
Qed.
End handlers.

(** ** The steps *)

Section steps.
Context {double : Type} (string_to_double : list Z → double).
Context (print_double print_f : double → list Z).

Definition set_effects (w : world) (effects : list ws_effect) : world :=
  {| w_ports := w_ports w; w_network := w_network w; w_uuid_generator := w_uuid_generator w;
     w_effects := w_effects w ++ effects |}.

(** What the system answers, and the logger, may be different at each step.  A text comes
    while there is a client, a turn while the receive thread runs; what arrives in a turn
    is harmless. *)
Inductive room_step : LiveMeetingRoom → world → LiveMeetingRoom → world → Prop :=
| step_initialize this w thread_create received event self ip port ret this' :
    LiveMeetingRoom.initialize thread_create received event self this ip port = (ret, this') →
    room_step this w this' w
| step_un_initialize this w : room_step this w (un_initialize this) w
| step_set_callbacks this w e e' s s' h h' a a' :
    room_step this w (LiveMeetingRoom.set_callbacks this e e' s s' h h' a a') w
| step_client this w client effects client' :
    m_websocket_client this = Some client → ws_step client effects client' →
    room_step this w
      (set_context this (LiveMeetingRoom.m_initialized this) (m_ws_thread_running this) (Some client'))
      (set_effects w effects)
| step_text this w sys lg lg' env thread_create message evs this' w' :
    is_Some (m_websocket_client this) → env_ok env →
    receive_message string_to_double print_double print_f sys env thread_create this message w lg
      = Ok (evs, (this', w'), lg') →
    room_step this w this' w'
| step_signal this w clock s ret this' w' :
    run_signal print_double this clock s w = Ok (ret, (this', w')) → room_step this w this' w'
| step_heartbeat this w uuid id ret this' w' :
    signal_heartbeat print_double this uuid id w = Ok (ret, (this', w')) → room_step this w this' w'
| step_turn this w sendto arrive count evs this' count' w' :
    m_receive_thread_running this = true →
    Forall (λ kv, has_room kv.2 ∧ harmless_streams (arrive kv.1))
      (m_other_users_map this) →
    receive_turn sendto arrive this count w = Ok (evs, (this', (count', w'))) →
    room_step this w this' w'
| step_send_video this w sendto now base data len this' w' :
    send_h264_data sendto now base this data len w = Ok (this', w') → room_step this w this' w'
| step_send_audio this w sendto now data len this' w' :
    send_aac_data sendto now this data len w = Ok (this', w') → room_step this w this' w'.

Inductive reachable (w0 : world) : LiveMeetingRoom → world → Prop :=
| reachable_start : reachable w0 instance w0
| reachable_step this w this' w' :
    reachable w0 this w → room_step this w this' w' → reachable w0 this' w'.

(** A room that is not initialised has no client, no participant, no sender and no
    thread; one that is has a client and its thread. *)
Record lifecycle (this : LiveMeetingRoom) : Prop := {
  lc_client : is_Some (m_websocket_client this) ↔ LiveMeetingRoom.m_initialized this = true;
  lc_thread : m_ws_thread_running this = LiveMeetingRoom.m_initialized this;
  lc_idle : LiveMeetingRoom.m_initialized this = false →
    m_other_users_map this = [] ∧ m_receive_thread_running this = false
    ∧ m_rtp_audio_sender this = None ∧ m_rtp_video_sender this = None;
}.

Record room_inv (this : LiveMeetingRoom) (w : world) : Prop := {
  inv_ok : room_ok this;
  inv_live : room_live this;
  inv_ports : PortManager.wf (w_ports w);
  inv_lifecycle : lifecycle this;
}.

(** A step of a room that is initialised, and stays so. *)
Lemma lifecycle_kept this this' :
  lifecycle this → is_Some (m_websocket_client this) → context this' = context this → lifecycle this'.
Proof.
  intros [H1 H2 H3] Hc. unfold context. intros [= E1 E2 E3 _ _ _ _].
  assert (Hi : LiveMeetingRoom.m_initialized this = true) by tauto.
  split; rewrite ?E1, ?E2, ?E3; [tauto|done|congruence].
Qed.

Lemma free_context_inv this w :
  PortManager.wf (w_ports w) → room_inv (free_context this) w.
Proof.
  intros Hp. split; [apply free_context_ok|constructor|done|].
  split; [|done|done]. split; [by intros []%is_Some_None|done].
Qed.

Lemma initialize_inv thread_create recv ev self this ip port ret this' w :
  room_inv this w →
  LiveMeetingRoom.initialize thread_create recv ev self this ip port = (ret, this') →
  room_inv this' w.
Proof.
  intros Hinv. unfold LiveMeetingRoom.initialize. 
  set (this0 := if LiveMeetingRoom.m_initialized this then free_context this else this).
  assert (H0 : room_inv this0 w ∧ LiveMeetingRoom.m_initialized this0 = false).
  { unfold this0. destruct (LiveMeetingRoom.m_initialized this) eqn:E; [|done].
    split; [apply free_context_inv, Hinv|done]. }
  clearbody this0. destruct H0 as [[Hok Hlive Hp Hl] Hi].
  destruct (lc_idle _ Hl Hi) as (Hu & Hr & Ha & Hv).
  destruct (negb (thread_create =? 0)); intros [= <- <-]; [by apply free_context_inv|].
  split; [|done|done|split; [by split; eauto|done|done]].
  destruct Hok as [H1 H2 _ _ _ H6]. split; cbn; [done|done| | | |].
  - intros a [= <-]. by right.
  - intros v [= <-]. by right.
  - by split; eauto.
  - intros E. destruct (H6 E) as (? & ? & E1 & _). by rewrite Ha in E1.
Qed.

Lemma signal_inv this w clock s ret this' w' :
  room_inv this w → run_signal print_double this clock s w = Ok (ret, (this', w')) → room_inv this' w'.
Proof.
  intros [Hok Hlive Hp Hl] E. destruct (refused this clock s) as [e|] eqn:Er.
  { rewrite (run_signal_refused _ _ _ _ _ _ Er) in E. by simplify_eq. }
  destruct (run_signal_sent print_double this clock s w Er) as (c & w1 & Hc & Eq & Ew).
  rewrite E in Eq. simplify_eq.
  split; [by apply set_signal_ok|done|by rewrite Ew|]. by apply (lifecycle_kept this).
Qed.

Lemma send_inv this w a v b w' :
  room_inv this w → room_ok (set_senders this a v b) → w_ports w' = w_ports w →
  (is_Some a ↔ is_Some (m_rtp_audio_sender this)) → (is_Some v ↔ is_Some (m_rtp_video_sender this)) →
  room_inv (set_senders this a v b) w'.
Proof.
  intros [Hok Hlive Hp Hl] Hok' Ew Ha Hv. split; [done|done|by rewrite Ew|].
  destruct Hl as [H1 H2 H3]. split; [done|done|]. cbn. intros Hi. destruct (H3 Hi) as (? & ? & Ea & Ev).
  split_and!; [done|done|..]; apply eq_None_not_Some; [rewrite Ha, Ea|rewrite Hv, Ev];
    by intros []%is_Some_None.
Qed.

Lemma room_step_inv this w this' w' : room_inv this w → room_step this w this' w' → room_inv this' w'.
Proof.
  intros Hinv Hs. pose proof Hinv as [Hok Hlive Hp Hl].
  destruct Hs as [this w tc recv ev self ip port ret this' E|this w|this w e e' s s' h h' a a'
    |this w client effects client' Hc Hs|this w sys lg lg' env tc message evs this' w' Hc Hf E
    |this w clock s ret this' w' E|this w uuid id ret this' w' E
    |this w sendto arrive count evs this' count' w' Hr Hin E
    |this w sendto now base data len this' w' E|this w sendto now data len this' w' E].
  - by eapply initialize_inv.
  - by apply free_context_inv.
  - split; [|done|done|].
    + destruct Hok as [H1 H2 H3 H4 H5 H6]. by split.
    + destruct Hl as [H1 H2 H3]. by split.
  - split; [|done|done|].
    + destruct Hok as [H1 H2 H3 H4 H5 H6]. by split.
    + destruct Hl as [H1 H2 H3]. split; [|done|done]. cbn. rewrite <- H1, Hc. by split; eauto.
  - apply receive_message_room in E.
    destruct (message_handled string_to_double print_double print_f env tc this message w)
      as (evs1 & this1 & w1 & E1 & [Hok1 Hp1] & _); [done|]. rewrite E in E1. simplify_eq.
    destruct (message_kept string_to_double print_double print_f env tc this message w evs1 this1 w1 Hf E)
      as [Hctx Hlv].
    split; [done|by apply Hlv|done|]. by apply (lifecycle_kept this).
  - by eapply signal_inv.
  - revert E. unfold signal_heartbeat. destruct (m_websocket_client this); [|by intros [= _ <- <-]].
    intros E. inv_bind. destruct (send_text _ _) as [r effects]. inv_bind. simplify_eq. by split.
  - destruct (receive_turn_spec sendto arrive this count w Hok Hlive Hin)
      as (turns & extra & E1 & _ & Hok1 & Hlive1 & _). cbv zeta in *. rewrite E in E1. simplify_eq.
    split; [done|done|done|]. apply (lifecycle_kept this); [done| |done].
    apply (lc_client _ Hl). destruct (LiveMeetingRoom.m_initialized this) eqn:Ei; [done|].
    destruct (lc_idle _ Hl Ei) as (_ & Hr' & _). congruence.
  - revert E. unfold send_h264_data. destruct (m_rtp_video_sender this) as [v|] eqn:Ev; [|by intros [= <- <-]].
    intros E. apply bind_is_ok in E as ([ret [v' net]] & E1 & E). simplify_eq.
    pose proof (ok_video _ Hok v Ev) as Hv. apply send_h264_data_wf in E1 as [Hv' Hi]; [|done].
    apply (send_inv _ w); [done| |done|done|by rewrite Ev; split; eauto].
    destruct Hok as [H1 H2 H3 H4 H5 H6]. split; cbn; [done|done|done|by intros ? [= <-]| |].
    + rewrite H5, Ev. by split; eauto.
    + intros Er. destruct (H6 Er) as (a & v0 & Ea & Ev0 & Hia & Hiv). simplify_eq.
      exists a, v'. by rewrite Hi.
  - revert E. unfold send_aac_data. destruct (m_rtp_audio_sender this) as [a|] eqn:Ea; [|by intros [= <- <-]].
    intros E. apply bind_is_ok in E as ([ret [a' net]] & E1 & E). simplify_eq.
    pose proof (ok_audio _ Hok a Ea) as Ha. apply send_aac_data_wf in E1 as [Ha' Hi]; [|done].
    apply (send_inv _ w); [done| |done|by rewrite Ea; split; eauto|done].
    destruct Hok as [H1 H2 H3 H4 H5 H6]. split; cbn; [done|done|by intros ? [= <-]|done| |].
    + rewrite <- H5, Ea. by split; eauto.
    + intros Er. destruct (H6 Er) as (a0 & v & Ea0 & Ev & Hia & Hiv). simplify_eq.
      exists a', v. by rewrite Hi.
Qed.

Lemma room_reachable_inv w0 this w :
  PortManager.wf (w_ports w0) → reachable w0 this w → room_inv this w.
Proof.
  intros Hp Hr. induction Hr as [|this w this' w' _ IH Hs]; [|by eapply room_step_inv].
  split; [apply instance_ok|constructor|done|]. split; [|done|done].
  split; [by intros []%is_Some_None|done].
Qed.

(** C5: Whatever calls the application makes, whatever texts and events come from the
    websocket, whatever the system answers, in any order, with turns of the receive thread
    on datagrams that are harmless by their bytes while the frame buffers have room: as long
    as these run to their end the participants, senders, receivers and ports stay in good
    state, and a room that is not initialised has no client, thread, participant or sender.
    (A text whose log lines do not fit the logger does not run to its end; datagrams that
    are not harmless, or a full frame buffer, are outside of this.) *)
Theorem room_reachable w0 this w :
  PortManager.wf (w_ports w0) → reachable w0 this w →
  room_ok this ∧ room_live this ∧ PortManager.wf (w_ports w) ∧ lifecycle this.
Proof. intros Hp Hr. by destruct (room_reachable_inv w0 this w Hp Hr). Qed.

End steps.

(** ** Concrete runs *)

Notation sample_step := (room_step (λ _, tt) (λ _ : unit, []) (λ _, [])).
Notation sample_reachable := (reachable (λ _, tt) (λ _ : unit, []) (λ _, []) sample_world).

(** The room connects, and the server lets it create a conference. *)
Definition started_room : LiveMeetingRoom :=
  (LiveMeetingRoom.initialize 0 1 2 3 instance (Utils.bytes_of "10.0.0.1") 9000).2.

Definition started_client : WSClient :=
  match m_websocket_client started_room with Some c => c | None => new_client [] end.

Definition connecting : list ws_effect * WSClient := on_timer (Some 7) started_client.
Definition connected : list ws_effect * WSClient := on_event_handle connecting.2 MG_EV_WS_OPEN.

Definition connected_room : LiveMeetingRoom := set_context started_room true true (Some connected.2).
Definition connected_world : world :=
  set_effects (set_effects sample_world connecting.1) connected.1.

Definition created_text : list Z := answer_text "200" 1000 created_params.

Definition created : LiveMeetingRoom * world :=
  match receive_message (λ _, tt) (λ _ : unit, []) (λ _, []) no_system full_environment 0 connected_room
          created_text connected_world async_logging with
  | Ok (_, p, _) => p
  | _ => (connected_room, connected_world)
  end.

Lemma created_reachable : sample_reachable created.1 created.2.
Proof.
  eapply reachable_step.
  { eapply reachable_step.
    { eapply reachable_step.
      { eapply reachable_step; [apply reachable_start|].
        by eapply (step_initialize _ _ _ instance _ 0 1 2 3 (Utils.bytes_of "10.0.0.1") 9000). }
      eapply (step_client _ _ _ started_room _ started_client connecting.1 connecting.2); [reflexivity|].
      eapply (WSClient.step_timer started_client (Some 7)). reflexivity. }
    eapply (step_client _ _ _ _ _ connecting.2 connected.1 connected.2); [reflexivity|].
    eapply (WSClient.step_event connecting.2 7 MG_EV_WS_OPEN); reflexivity. }
  change (set_context _ _ _ (Some connected.2)) with connected_room.
  change (set_effects (set_effects sample_world connecting.1) connected.1) with connected_world.
  eapply (step_text _ _ _ connected_room connected_world no_system async_logging _ full_environment 0
            created_text [] created.1 created.2); [by eexists|reflexivity|].
  vm_compute. reflexivity.
Qed.

Lemma room_reachable_witness :
  room_ok created.1 ∧ room_live created.1 ∧ lifecycle created.1 ∧ joined created.1 = true.
Proof.
  destruct (room_reachable (λ _, tt) (λ _ : unit, []) (λ _, []) sample_world created.1 created.2
              sample_world_ok created_reachable) as (H1 & H2 & _ & H4).
  split_and!; [exact H1|exact H2|exact H4|vm_compute; reflexivity].
Defined.

