(* ===== verification/RoomRequests.v ===== *)
(** * RoomRequests: what a request for streams says to its reader

    No code of its own.  [signal_start_pull_stream] of
    [src/application/app_meeting_room.cpp] turns a map from participants to sets of SSRCs
    into nested JSON arrays; the handler of the answer reads the same shape
    ([streams_of]).  The two agree: the arrays name every participant with its sources,
    in order, and the text of the request is read back as these arrays. *)

From S2P Require Import Prelude.
From S2P Require Import Utils.
From S2P Require Import Json.
From S2P Require Import Command.
From S2P Require Import WSClient.
From S2P Require Import LiveMeetingRoom.
From S2P Require Import RoomStreams.

Lemma common_to_string_inj i j :
  0 <= i → 0 <= j → common_to_string i = common_to_string j → i = j.
Proof.
  intros Hi Hj E. destruct (common_to_string_nonneg i Hi) as (_ & _ & <-).
  destruct (common_to_string_nonneg j Hj) as (_ & _ & <-). by rewrite E.
Qed.

Lemma map_insert_fresh {V} (m : list (list Z * V)) k v :
  map_find m k = None → length (map_insert m k v) = S (length m).
Proof.
  induction m as [|[k0 v0] m IH]; cbn [map_find map_insert]; [done|].
  case_bool_decide; [done|]. intros Hf. case_match; [done|]. cbn. by rewrite IH.
Qed.

Section requests.
Context {double : Type} (print_f : double → list Z).
Notation JsonObject := (JsonObject double).
Notation JsonValue := (JsonValue double).

(** The object holds the values [l] under the indices 0, 1, 2, ... and nothing else. *)
Record holds (o : JsonObject) (l : list JsonValue) : Prop := {
  holds_array : m_is_array o = negb (bool_decide (l = []));
  holds_length : zlen (m_members o) = zlen l;
  holds_at : ∀ j : nat, map_find (m_members o) (common_to_string (Z.of_nat j)) = l !! j;
}.

Lemma as_object_value (o : JsonObject) : as_object (object_value o) = o.
Proof. by destruct o. Qed.

Lemma holds_nothing : holds new_object [].
Proof. by split. Qed.

Lemma holds_push o l v :
  holds o l → holds (assign_int o (zlen l) v) (l ++ [v]).
Proof.
  intros [Ha Hl Hat]. split; cbn [m_is_array assign_int assign_key m_members].
  - rewrite bool_decide_eq_false_2; [done|]. by intros []%app_eq_nil.
  - unfold zlen in *. rewrite map_insert_fresh; [rewrite length_app; cbn; lia|].
    rewrite Hat. apply lookup_ge_None_2. lia.
  - intros j. rewrite map_find_insert, Hat.
    destruct (bool_decide_reflect (common_to_string (Z.of_nat j) = common_to_string (zlen l))) as [E|E].
    + apply common_to_string_inj in E; [|lia|by unfold zlen; lia].
      rewrite lookup_app_r by (unfold zlen in E; lia). unfold zlen in E.
      by replace (j - length l)%nat with O by lia.
    + destruct (decide (j < length l)%nat) as [Hj|Hj]; [by rewrite lookup_app_l|].
      rewrite lookup_app_r, lookup_ge_None_2 by lia. symmetry. apply lookup_ge_None_2.
      cbn. destruct (decide (j = length l)) as [->|]; [by destruct E|lia].
Qed.

Lemma holds_index o l (j : nat) v : holds o l → l !! j = Some v → at_index o (Z.of_nat j) = v.
Proof. intros Hh E. unfold at_index, at_key. by rewrite (holds_at _ _ Hh), E. Qed.

Lemma holds_size o l : holds o l → zlen l < 2 ^ 31 → Z.to_nat (array_size o) = length l.
Proof.
  intros [Ha Hl _] Hlt. unfold array_size. rewrite Ha, Hl. destruct l; [done|].
  cbn [negb]. rewrite bool_decide_eq_false_2 by done. cbn [negb].
  rewrite i32_id by (unfold zlen in *; lia). unfold zlen. lia.
Qed.

(** ** The two loops *)

Definition ssrc_value (ssrc : list Z) : JsonValue :=
  object_value {| m_is_array := false; m_members := [(bytes_of "ssrc", T_STRING ssrc)] |}.

Lemma ssrcs_json_holds o l ssrcSet :
  holds o l → holds (ssrcs_json (zlen l) ssrcSet o) (l ++ (ssrc_value <$> ssrcSet)).
Proof.
  revert o l. induction ssrcSet as [|s ssrcSet IH]; intros o l Hh; cbn [ssrcs_json].
  { by rewrite app_nil_r. }
  rewrite fmap_cons, cons_middle, app_assoc. 
  replace (zlen l + 1) with (zlen (l ++ [ssrc_value s])) by (unfold zlen; rewrite length_app; cbn; lia).
  apply IH. by apply holds_push.
Qed.

Definition ssrcs_object (ssrcSet : list (list Z)) : JsonObject := ssrcs_json 0 ssrcSet new_object.

Definition stream_value (s : list Z * list (list Z)) : JsonValue :=
  object_value {| m_is_array := false;
    m_members := [(bytes_of "ssrcs", object_value (ssrcs_object s.2));
                  (bytes_of "user_uuid", T_STRING s.1)] |}.

(** The participants with at least one source. *)
Definition nonempty (streams : list (list Z * list (list Z))) : list (list Z * list (list Z)) :=
  filter (λ s, s.2 ≠ []) streams.

Lemma streams_json_holds o l streams :
  holds o l → holds (streams_json (zlen l) streams o) (l ++ (stream_value <$> nonempty streams)).
Proof.
  revert o l. induction streams as [|[u s] streams IH]; intros o l Hh; cbn [streams_json].
  { by rewrite app_nil_r. }
  unfold nonempty. destruct s as [|x s].
  { rewrite filter_cons_False by (intros H; by apply H). by apply IH. }
  rewrite filter_cons_True by done. rewrite fmap_cons, cons_middle, app_assoc.
  set (v := stream_value _).
  replace (zlen l + 1) with (zlen (l ++ [v])) by (unfold zlen; rewrite length_app; cbn; lia).
  apply IH. apply (holds_push o l v Hh).
Qed.

(** ** Read by the handler of the answer *)

Lemma ssrcs_of_holds o pre ssrcSet :
  holds o (pre ++ (ssrc_value <$> ssrcSet)) →
  ssrcs_of print_f o (zlen pre) (length ssrcSet) = str_u32 <$> ssrcSet.
Proof.
  revert pre. induction ssrcSet as [|s ssrcSet IH]; intros pre Hh; cbn [ssrcs_of length]; [done|].
  change (ssrc_value <$> s :: ssrcSet) with (ssrc_value s :: (ssrc_value <$> ssrcSet)) in Hh.
  rewrite fmap_cons. f_equal.
  - unfold zlen. rewrite (holds_index o _ (length pre) (ssrc_value s) Hh); [done|].
    by rewrite lookup_app_r, Nat.sub_diag by lia.
  - rewrite cons_middle, app_assoc in Hh.
    replace (zlen pre + 1) with (zlen (pre ++ [ssrc_value s])) by (unfold zlen; rewrite length_app; cbn; lia).
    by apply IH.
Qed.

Lemma ssrcs_object_read ssrcSet :
  zlen ssrcSet < 2 ^ 31 →
  ssrcs_of print_f (ssrcs_object ssrcSet) 0 (Z.to_nat (array_size (ssrcs_object ssrcSet)))
  = str_u32 <$> ssrcSet.
Proof.
  intros Hs. pose proof (ssrcs_json_holds new_object [] ssrcSet holds_nothing) as Hh.
  change (ssrcs_json (zlen []) ssrcSet new_object) with (ssrcs_object ssrcSet) in Hh.
  rewrite (holds_size _ _ Hh); cbn [app] in *; [|unfold zlen in *; rewrite ?length_fmap; lia].
  rewrite length_fmap. by apply (ssrcs_of_holds _ []).
Qed.

(** What the streams of a map are to their reader. *)
Definition read_stream (s : list Z * list (list Z)) : list Z * list Z :=
  (s.1, str_u32 <$> s.2).

Definition wanted (streams : list (list Z * list (list Z))) : list (list Z * list Z) :=
  read_stream <$> nonempty streams.

Lemma streams_of_holds o pre streams :
  Forall (λ s, zlen s.2 < 2 ^ 31) streams →
  holds o (pre ++ (stream_value <$> streams)) →
  streams_of print_f o (zlen pre) (length streams) = read_stream <$> streams.
Proof.
  intros Hlen. revert pre.
  induction Hlen as [|[u s] streams Hs _ IH]; intros pre Hh; cbn [streams_of length]; [done|].
  change (stream_value <$> (u, s) :: streams) with (stream_value (u, s) :: (stream_value <$> streams)) in Hh.
  rewrite fmap_cons.
  assert (Ei : at_index o (zlen pre) = stream_value (u, s)).
  { unfold zlen. apply (holds_index o _ (length pre) _ Hh). by rewrite lookup_app_r, Nat.sub_diag by lia. }
  rewrite Ei. f_equal.
  - change (str print_f (as_object (stream_value (u, s))) "user_uuid") with u.
    unfold read_stream. cbn [fst snd]. f_equal.
    change (at_key (as_object (stream_value (u, s))) (bytes_of "ssrcs"))
      with (object_value (ssrcs_object s)).
    rewrite as_object_value. exact (ssrcs_object_read s Hs).
  - rewrite cons_middle, app_assoc in Hh.
    replace (zlen pre + 1) with (zlen (pre ++ [stream_value (u, s)])) by (unfold zlen; rewrite length_app; cbn; lia).
    by apply IH.
Qed.

Definition streams_object (streams : list (list Z * list (list Z))) : JsonObject :=
  streams_json 0 streams new_object.

Lemma streams_object_read streams :
  zlen (nonempty streams) < 2 ^ 31 → Forall (λ s, zlen s.2 < 2 ^ 31) streams →
  streams_of print_f (streams_object streams) 0 (Z.to_nat (array_size (streams_object streams)))
  = wanted streams.
Proof.
  intros Hl Hs. pose proof (streams_json_holds new_object [] streams holds_nothing) as Hh.
  change (streams_json (zlen []) streams new_object) with (streams_object streams) in Hh.
  rewrite (holds_size _ _ Hh); cbn [app] in *; [|unfold zlen in *; rewrite ?length_fmap; lia].
  rewrite length_fmap. apply (streams_of_holds _ []); [|done].
  apply Forall_forall. intros s [_ Hin]%list_elem_of_filter. rewrite Forall_forall in Hs. by apply Hs.
Qed.

(** ** Through the text

    Up to ten values an array keeps its order in the text, where only the order of the
    members tells their indices. *)
Definition in_place (o : JsonObject) (l : list JsonValue) : Prop :=
  m_members o = imap (λ i v, (common_to_string (Z.of_nat i), v)) l.

Lemma in_place_push o l v :
  (length l <= 9)%nat → in_place o l → in_place (assign_int o (zlen l) v) (l ++ [v]).
Proof.
  unfold in_place. intros Hl E. cbn [assign_int assign_key m_members]. rewrite E, imap_app. cbn [imap].
  rewrite map_insert_last; [by rewrite Nat.add_0_r|].
  apply Forall_lookup. intros i kv Hi. rewrite list_lookup_imap in Hi.
  destruct (l !! i) as [x|] eqn:Ex; [|done]. cbn in Hi. injection Hi as <-. cbn [fst].
  apply lookup_lt_Some in Ex. unfold zlen. apply index_keys_sorted; lia.
Qed.

Lemma ssrcs_json_in_place o l ssrcSet :
  (length l + length ssrcSet <= 10)%nat → in_place o l →
  in_place (ssrcs_json (zlen l) ssrcSet o) (l ++ (ssrc_value <$> ssrcSet)).
Proof.
  revert o l. induction ssrcSet as [|s ssrcSet IH]; intros o l Hl Ho; cbn [ssrcs_json].
  { by rewrite app_nil_r. }
  cbn [length] in Hl. rewrite fmap_cons, cons_middle, app_assoc.
  replace (zlen l + 1) with (zlen (l ++ [ssrc_value s])) by (unfold zlen; rewrite length_app; cbn; lia).
  apply IH; [rewrite length_app; cbn; lia|]. apply (in_place_push o l); [lia|done].
Qed.

Lemma streams_json_in_place o l streams :
  (length l + length (nonempty streams) <= 10)%nat → in_place o l →
  in_place (streams_json (zlen l) streams o) (l ++ (stream_value <$> nonempty streams)).
Proof.
  revert o l. induction streams as [|[u s] streams IH]; intros o l Hl Ho; cbn [streams_json].
  { by rewrite app_nil_r. }
  unfold nonempty in *. destruct s as [|x s].
  { rewrite filter_cons_False in Hl |- * by (intros H; by apply H). by apply IH. }
  rewrite filter_cons_True in Hl |- * by done. cbn [length] in Hl.
  rewrite fmap_cons, cons_middle, app_assoc. set (v := stream_value _).
  replace (zlen l + 1) with (zlen (l ++ [v])) by (unfold zlen; rewrite length_app; cbn; lia).
  apply IH; [rewrite length_app; cbn; lia|]. apply (in_place_push o l v); [lia|done].
Qed.

Lemma plain_array (o : JsonObject) l :
  holds o l → in_place o l → l ≠ [] → (length l <= 10)%nat → forallb plain l = true →
  plain (object_value o) = true.
Proof.
  intros [Ha _ _] Ho Hne Hl Hp. unfold object_value. rewrite Ha, bool_decide_eq_false_2 by done.
  cbn [negb plain]. apply andb_true_intro. split.
  - unfold array_keys. rewrite Ho. apply andb_true_intro.
    split; apply bool_decide_eq_true; rewrite length_imap; [done|].
    apply list_eq. intros i. rewrite !list_lookup_fmap, list_lookup_imap.
    destruct (decide (i < length l)%nat) as [Hi|Hi].
    + rewrite lookup_seq_lt by done. by destruct (lookup_lt_is_Some_2 l i Hi) as [x ->].
    + by rewrite lookup_seq_ge, lookup_ge_None_2 by lia.
  - rewrite Ho. clear -Hp. set (key := λ i : nat, common_to_string (Z.of_nat i)).
    change (imap _ l) with (imap (λ i v, (key i, v)) l). clearbody key. revert key. induction l as [|v l IH]; intros key; [done|]. cbn [forallb] in Hp.
    apply andb_prop in Hp as [Hv Hp]. cbn [imap]. rewrite Hv. exact (IH Hp (key ∘ S)).
Qed.

(** The limits within which the text keeps what the map says. *)
Definition plain_streams (streams : list (list Z * list (list Z))) : Prop :=
  nonempty streams ≠ [] ∧ (length (nonempty streams) <= 10)%nat
  ∧ Forall (λ s, no_backslash s.1 = true ∧ forallb no_backslash s.2 = true ∧ (length s.2 <= 10)%nat)
      streams.

Lemma plain_ssrcs ssrcSet :
  ssrcSet ≠ [] → (length ssrcSet <= 10)%nat → forallb no_backslash ssrcSet = true →
  plain (object_value (ssrcs_object ssrcSet)) = true.
Proof.
  intros Hne Hl Hs. apply (plain_array _ (ssrc_value <$> ssrcSet)).
  - apply (ssrcs_json_holds new_object [] ssrcSet holds_nothing).
  - by apply (ssrcs_json_in_place new_object [] ssrcSet).
  - intros E. by apply fmap_nil_inv in E.
  - by rewrite length_fmap.
  - clear Hne Hl. induction ssrcSet as [|s ssrcSet IH]; [done|]. cbn [forallb] in Hs.
    apply andb_prop in Hs as [Hs1 Hs]. rewrite fmap_cons. cbn [forallb]. rewrite (IH Hs), andb_true_r.
    cbn. unfold no_backslash in Hs1. by rewrite Hs1.
Qed.

Lemma plain_streams_object streams :
  plain_streams streams → plain (object_value (streams_object streams)) = true.
Proof.
  intros (Hne & Hl & Hs). apply (plain_array _ (stream_value <$> nonempty streams)).
  - apply (streams_json_holds new_object [] streams holds_nothing).
  - by apply (streams_json_in_place new_object [] streams).
  - intros E. by apply fmap_nil_inv in E.
  - by rewrite length_fmap.
  - apply forallb_forall. intros v Hv%list_elem_of_In.
    apply list_elem_of_fmap in Hv as ([u s] & -> & [Hse Hin]%list_elem_of_filter).
    rewrite Forall_forall in Hs. destruct (Hs _ Hin) as (Hu & Hss & Hsl). cbn [fst snd] in *.
    unfold stream_value, object_value at 1. cbn [m_is_array m_members fst snd].
    apply plain_object; [reflexivity|]. cbn [forallb snd]. rewrite plain_ssrcs by done.
    cbn [plain]. unfold no_backslash in Hu. by rewrite Hu.
Qed.
End requests.

(** ** The call *)

Section pulling.
Context {double : Type} (string_to_double : list Z → double).
Context (print_double print_f : double → list Z).

(** The room's connection to the server is open on [conn]. *)
Definition online (this : LiveMeetingRoom) (conn : Z) : Prop :=
  ∃ client, m_websocket_client this = Some client
    ∧ m_connection client = Some conn ∧ m_connected client = true.

(** What the peer that parses [text] finds in it. *)
Definition asks_streams (cmd : Z) (room uuid : list Z) (streams : list (list Z * list Z))
    (text : list Z) : Prop :=
  ∃ o, read_from_string string_to_double new_object text = Ok (true, o)
    ∧ str print_f o "opcode" = common_to_string cmd
    ∧ let p := as_object (at_key o (bytes_of "params")) in
      str print_f p "conference_id" = room ∧ str print_f p "user_uuid" = uuid
      ∧ let a := as_object (at_key p (bytes_of "streams")) in
        streams_of print_f a 0 (Z.to_nat (array_size a)) = streams.

Lemma send_signal_online this client conn my clock w generator text :
  m_websocket_client this = Some client → m_connection client = Some conn →
  m_connected client = true →
  send_signal (set_signal this my true (now_seconds clock)) client w generator text
  = (0, (set_signal this my true (now_seconds clock),
         {| w_ports := w_ports w; w_network := w_network w; w_uuid_generator := generator;
            w_effects := w_effects w ++ [mg_ws_send (Some conn) text WEBSOCKET_OP_TEXT] |})).
Proof. intros H1 H2 H3. unfold send_signal, send_text. by rewrite H2, H3. Qed.

Lemma params_plain room uuid streams :
  no_backslash room = true → no_backslash uuid = true → plain_streams streams →
  plain (double := double) (object_value (assign_key (assign_key (assign_key new_object
    (bytes_of "conference_id") (T_STRING room)) (bytes_of "user_uuid") (T_STRING uuid))
    (bytes_of "streams") (object_value (streams_object streams)))) = true.
Proof.
  intros Hr Hu Hs. unfold object_value at 1. apply plain_object; [reflexivity|].
  cbn [m_members assign_key map_insert new_object forallb snd].
  change (forallb (λ kv, plain kv.2)
    [(bytes_of "conference_id", T_STRING room); (bytes_of "streams", object_value (streams_object streams));
     (bytes_of "user_uuid", T_STRING (double := double) uuid)] = true).
  cbn [forallb snd]. rewrite plain_streams_object by done. cbn [plain].
  unfold no_backslash in *. by rewrite Hr, Hu.
Qed.

Lemma pull_stream_request cmd this conn clock streams w :
  let my := m_my this in
  let others := map_erase streams (m_my_user_uuid my) in
  online this conn → joined this = true → count_as_limit this (now_seconds clock) = false →
  no_backslash (m_my_room_id my) = true → no_backslash (m_my_user_uuid my) = true →
  plain_streams others →
  ∃ text, signal_pull_stream print_double cmd this clock streams w
      = Ok (0, (others, (set_signal this my true (now_seconds clock),
          {| w_ports := w_ports w; w_network := w_network w;
             w_uuid_generator := u64 (w_uuid_generator w + 1);
             w_effects := w_effects w ++ [mg_ws_send (Some conn) text WEBSOCKET_OP_TEXT] |})))
    ∧ asks_streams cmd (m_my_room_id my) (m_my_user_uuid my) (wanted others) text.
Proof.
  intros my others (client & Hc & Hconn & Hcon) Hj Hlim Hr Hu Hp. unfold signal_pull_stream.
  rewrite Hc, joined_test, Hj, Hlim. cbn [negb]. fold my others.
  assert (Hne : others ≠ []) by (intros E; apply (proj1 Hp); by rewrite E).
  destruct others as [|st l] eqn:Eo; [done|]. rewrite <- Eo in *. clear Hne.
  unfold get_new_uuid, app_get_request_json.
  fold (streams_object (double := double) others). set (params := assign_key _ (bytes_of "streams") _).
  set (g := u64 (w_uuid_generator w + 1)).
  destruct (written_read print_double string_to_double (request_object cmd (common_to_string g) params))
    as (text & -> & Er).
  { apply request_plain; [apply number_no_backslash|]. by apply params_plain. }
  step_bind. rewrite (send_signal_online this client conn) by done.
  exists text. split; [done|]. eexists. split; [exact Er|]. split; [done|].
  change (at_key (request_object cmd (common_to_string g) params) (bytes_of "params"))
    with (object_value params).
  rewrite as_object_value. split; [done|]. split; [done|].
  change (at_key params (bytes_of "streams")) with (object_value (streams_object (double := double) others)).
  cbv zeta. rewrite as_object_value. destruct Hp as (_ & Hl & Hs).
  apply streams_object_read.
  - unfold zlen. lia.
  - eapply Forall_impl; [exact Hs|]. intros s (_ & _ & H). unfold zlen. lia.
Qed.

(** C15: The request for streams, of a participant that is online with nothing pending, is one
    text on the connection.  The peer that parses it finds the conference, the sender, and
    the participants of the map that have at least one source, but for the sender itself,
    in the order of the map, each with its sources read as 32-bit numbers
    ([string_to_long], cut to 32 bits); a participant with an empty set is left out.  The
    conditions: one to ten participants with sources and at most ten sources each (beyond
    ten the arrays lose their order in the text), and no backslash in an identifier or a
    source (the writer does not escape them). *)
Theorem pull_request_understood cmd this conn clock streams w :
  let my := m_my this in
  let others := map_erase streams (m_my_user_uuid my) in
  online this conn → joined this = true → count_as_limit this (now_seconds clock) = false →
  no_backslash (m_my_room_id my) = true → no_backslash (m_my_user_uuid my) = true →
  plain_streams others →
  ∃ text this' w', signal_pull_stream print_double cmd this clock streams w
      = Ok (0, (others, (this', w')))
    ∧ w_effects w' = w_effects w ++ [mg_ws_send (Some conn) text WEBSOCKET_OP_TEXT]
    ∧ m_is_signal_running this' = true
    ∧ asks_streams cmd (m_my_room_id my) (m_my_user_uuid my) (wanted others) text.
Proof.
  intros my others Ho Hj Hl Hr Hu Hp.
  destruct (pull_stream_request cmd this conn clock streams w Ho Hj Hl Hr Hu Hp) as (text & E & Ha).
  exists text. do 2 eexists. split; [exact E|]. by split.
Qed.
End pulling.

(** ** Concrete runs *)

Lemma member_online : online member_room 7.
Proof. eexists. by split_and!. Qed.

Definition sample_streams : list (list Z * list (list Z)) :=
  [(bytes_of "u1", [bytes_of "7"]); (bytes_of "u2", [bytes_of "10"; bytes_of "9"])].

Lemma sample_streams_plain : plain_streams (map_erase sample_streams (bytes_of "u1")).
Proof. by split; [|split; [vm_compute; lia|repeat (constructor; [vm_compute; repeat split; lia|])]]. Qed.

Lemma pull_request_understood_witness : ∃ text this' w',
  signal_pull_stream (λ _ : unit, []) TYPE_CONFERENCE_PULL_STREAM member_room 20000000 sample_streams
    sample_world = Ok (0, ([(bytes_of "u2", [bytes_of "10"; bytes_of "9"])], (this', w')))
  ∧ w_effects w' = [mg_ws_send (Some 7) text WEBSOCKET_OP_TEXT]
  ∧ asks_streams (λ _, tt) (λ _, []) TYPE_CONFERENCE_PULL_STREAM (bytes_of "c1") (bytes_of "u1")
      [(bytes_of "u2", [10; 9])] text.
Proof.
  destruct (pull_request_understood (λ _, tt) (λ _ : unit, []) (λ _, []) TYPE_CONFERENCE_PULL_STREAM
              member_room 7 20000000 sample_streams sample_world member_online eq_refl eq_refl
              eq_refl eq_refl sample_streams_plain) as (text & this' & w' & E & Ee & _ & Ha).
  exists text, this', w'. split; [exact E|]. split; [exact Ee|exact Ha].
Defined.

(** Eleven participants with one source each. *)
Definition eleven_streams : list (list Z * list (list Z)) :=
  (λ i, (common_to_string (100 + Z.of_nat i), [common_to_string (Z.of_nat i)])) <$> seq 0 11.

Definition eleven_read : outcome (list (list Z * list Z)) :=
  text ← written (λ _ : unit, []) (assign_key new_object (bytes_of "streams")
           (object_value (streams_object eleven_streams)));
  r ← read_from_string (λ _, tt) new_object text;
  let a := as_object (at_key r.2 (bytes_of "streams")) in
  Ok (streams_of (λ _ : unit, []) a 0 (Z.to_nat (array_size a))).

(** With more than ten the order is that of the decimal strings of the indices: the
    eleventh is read third. *)
Theorem long_array_reordered : ∃ l, eleven_read = Ok l
  ∧ wanted eleven_streams !! 10%nat = Some (bytes_of "110", [10])
  ∧ l !! 2%nat = Some (bytes_of "110", [10]) ∧ l ≡ₚ wanted eleven_streams.
Proof.
  eexists. split; [vm_compute; reflexivity|]. split; [reflexivity|]. split; [reflexivity|].
  do 2 apply perm_skip.
  exact (Permutation_cons_append (drop 2 (take 10 (wanted eleven_streams))) (bytes_of "110", [10])).
Qed.
