(* ===== verification/Main.v ===== *)
(** * Main: the demo program

    Models [src/main.cpp]: the globals, the two callbacks that drive the room, [main]
    itself, and the functions that lead from an event of the websocket library to them
    ([websocket_received], [websocket_event] of [src/application/app_meeting_room.cpp]).
    The lines that only print, and log lines without an argument, are left out.  A handler
    of the room calls the event callback as the last thing it does, so handler and callback
    are composed. *)

From S2P Require Import Prelude.
From S2P Require Import Utils.
From S2P Require Import Json.
From S2P Require Import Command.
From S2P Require Import WSClient.
From S2P Require Import PortManager.
From S2P Require Import RTPTransmitterV4.
From S2P Require Import RTPSessionReceiver.
From S2P Require Import RoomUser.
From S2P Require Import MsgQueue.
From S2P Require Import Logger.
From S2P Require Import LiveMeetingRoom.
From S2P Require Import RoomLog.
From S2P Require Import RoomSpec.
From S2P Require Import RoomStreams.
From S2P Require Import RoomLife.
From S2P Require Import RoomRequests.

(** ** The state *)

Record globals := mkGlobals {
  g_room_connected : bool;
  g_in_room : bool;
}.

(** Both are zero before [main]. *)
Definition no_globals : globals := mkGlobals false false.

Record demo := mkDemo {
  d_globals : globals;
  d_room : LiveMeetingRoom;
  d_world : world;
}.

(** The addresses of the functions and of the room. *)
Record addresses := mkAddresses {
  a_websocket_received : Z;
  a_websocket_event : Z;
  a_room : Z;
  a_conference_event_callback : Z;
  a_conference_signal_callback : Z;
  a_h264_receive_callback : Z;
  a_aac_receive_callback : Z;
}.

(** ** The callbacks *)

Definition conference_signal_callback (event : ws_event) (g : globals) : globals :=
  match event with
  | MG_EV_WS_OPEN => mkGlobals true (g_in_room g)
  | MG_EV_CLOSE => mkGlobals false (g_in_room g)
  | _ => g
  end.

(** [std::set::insert]; the set is in the order of its elements. *)
Fixpoint set_insert (s : list (list Z)) (x : list Z) : list (list Z) :=
  match s with
  | [] => [x]
  | y :: s' =>
      if bool_decide (x = y) then s
      else if key_lt x y then x :: s else y :: set_insert s' x
  end.

Definition user_ssrcs (user : OnlineUser) : list (list Z) :=
  set_insert (set_insert [] (common_to_string (videoSSRC user)))
    (common_to_string (audioSSRC user)).

(** The [for] over the users that are online. *)
Fixpoint users_streams (userVec : list OnlineUser) (streams : list (list Z * list (list Z)))
    : list (list Z * list (list Z)) :=
  match userVec with
  | [] => streams
  | user :: userVec => users_streams userVec (map_insert streams (userUUID user) (user_ssrcs user))
  end.

(** ** The log

    [main] makes the logger and never calls [set_log_type], so it is asynchronous; the
    level is that of all lines.  All such a logger does with a line is to read it and to
    give a task to its queue. *)
Definition demo_logger (log_thread : Z) : AppLogger :=
  (Logger.initialize log_thread (new_logger (bytes_of "rtc_client")) (bytes_of "rtc_client")
     false (1024 * 10) 10).2.

Definition demo_logging : logging := mkLogging (Some (demo_logger 0)) LOG_LEVEL_VERBOSE ∅ [].

(** What [conference_event_callback] logs. *)
Definition callback_logs (event : conference_event) : list log_statement :=
  let LOG_DEBUG line key value :=
    LOG LOG_LEVEL_DEBUG (bytes_of "main.cpp") line (bytes_of key ++ until_nul value) in
  match event with
  | EVENT_CONFERENCE_EXIT uuid => [LOG_DEBUG 196 "conference eixt, user uuid:"%string uuid]
  | EVENT_USER_GONE_OUT uuid => [LOG_DEBUG 204 "user gone out of conference, user uuid:"%string uuid]
  | EVENT_CONFERENCE_STOPPED id => [LOG_DEBUG 212 "conference eixt, conference id:"%string id]
  | EVENT_CONFERENCE_CLOSING id => [LOG_DEBUG 220 "conference closing, conference id:"%string id]
  | EVENT_CONFERENCE_CREATED | EVENT_CONFERENCE_JOINED
  | EVENT_OTHER_USER_JOINED _ | EVENT_ONLINE_USERS _ => []
  end.

(** The events a message is told with, in whatever state. *)
Definition told (m : server_message) : list conference_event :=
  (abstract_step (mkConference no_membership ∅ false) m).2.

Lemma told_eq c m : (abstract_step c m).2 = told m.
Proof. by destruct m. Qed.

Section demo.
Context {double : Type} (string_to_double : list Z → double).
Context (print_double print_f : double → list Z).
Context (A : addresses).

(** The answers to the signals are not looked at. *)
Definition conference_event_callback (clock : Z) (event : conference_event) (d : demo)
    : outcome demo :=
  match event with
  | EVENT_CONFERENCE_CREATED =>
      Ok (mkDemo (mkGlobals (g_room_connected (d_globals d)) true) (d_room d) (d_world d))
  | EVENT_CONFERENCE_JOINED =>
      r ← signal_online_users print_double (d_room d) clock (d_world d);
      Ok (mkDemo (mkGlobals (g_room_connected (d_globals d)) true) r.2.1 r.2.2)
  | EVENT_OTHER_USER_JOINED user =>
      let streams := map_insert [] (userUUID user) (user_ssrcs user) in
      r ← signal_start_pull_stream print_double (d_room d) clock streams (d_world d);
      Ok (mkDemo (d_globals d) r.2.2.1 r.2.2.2)
  | EVENT_ONLINE_USERS userVec =>
      let streams := users_streams userVec [] in
      r ← signal_start_pull_stream print_double (d_room d) clock streams (d_world d);
      Ok (mkDemo (d_globals d) r.2.2.1 r.2.2.2)
  | EVENT_CONFERENCE_EXIT _ | EVENT_USER_GONE_OUT _
  | EVENT_CONFERENCE_STOPPED _ | EVENT_CONFERENCE_CLOSING _ => Ok d
  end.

(** Calls of the event callback; no other function is at its address. *)
Fixpoint deliver (clock : Z) (evs : list (Z * conference_event * Z)) (d : demo) : outcome demo :=
  match evs with
  | [] => Ok d
  | (func, event, arg) :: evs =>
      if func =? a_conference_event_callback A then
        d ← conference_event_callback clock event d; deliver clock evs d
      else Fault
  end.

(** What a text does to the room and the program, the log aside. *)
Definition websocket_received (env : environment) (thread_create clock : Z) (data : list Z)
    (d : demo) : outcome demo :=
  r ← on_websocket_message string_to_double print_double print_f env thread_create (d_room d) data
        (d_world d);
  let '(evs, (room, w)) := r in
  deliver clock evs (mkDemo (d_globals d) room w).

(** All of it: the lines of the room come first, and of the events that are logged the
    callback does nothing else. *)
Definition receive_text (env : environment) (thread_create clock : Z) (data : list Z) (d : demo)
    : outcome demo :=
  r ← receive_message string_to_double print_double print_f no_system env thread_create (d_room d)
        data (d_world d) demo_logging;
  let '(evs, (room, w), lg) := r in
  _ ← run_statements no_system lg (evs ≫= λ e, callback_logs e.1.2);
  deliver clock evs (mkDemo (d_globals d) room w).

(** The lines of a text, the program's own with them, and whether all fit the logger. *)
Definition text_lines (data : list Z) : list log_statement :=
  lines_of string_to_double print_f data
  ++ (told (decode_message string_to_double print_f data) ≫= callback_logs).

Definition text_fits (data : list Z) : bool := lines_fit LOG_LEVEL_VERBOSE (text_lines data).

Definition event_fits (event : ws_event) : bool :=
  match event with
  | MG_EV_WS_MSG flags data =>
      if Z.land flags 15 =? WEBSOCKET_OP_TEXT then text_fits data else true
  | _ => true
  end.

(** The room passes the event on to the signal callback, if there is one. *)
Definition websocket_event (event : ws_event) (d : demo) : outcome demo :=
  match on_websocket_event (d_room d) event with
  | [call_ws_func func event arg] =>
      if func =? a_conference_signal_callback A then
        Ok (mkDemo (conference_signal_callback event (d_globals d)) (d_room d) (d_world d))
      else Fault
  | _ => Ok d
  end.

(** What the client asks for: the calls of the two functions above; everything else is
    the websocket library's to do. *)
Fixpoint perform (env : environment) (thread_create clock : Z) (effects : list ws_effect) (d : demo)
    : outcome demo :=
  match effects with
  | [] => Ok d
  | e :: effects =>
      d ← match e with
          | call_recv_func func data arg =>
              if (func =? a_websocket_received A) && (arg =? a_room A)
              then receive_text env thread_create clock data d else Fault
          | call_ws_func func event arg =>
              if (func =? a_websocket_event A) && (arg =? a_room A)
              then websocket_event event d else Fault
          | mg_ws_send _ _ _ | mg_close_conn _ | mg_ws_connect _ => Ok d
          end;
      perform env thread_create clock effects d
  end.

(** [ws_event_handler] and [ws_timer_func] of [src/websocket/ws_client.cpp] with what
    they lead to: the client changes its state before it calls anybody. *)
Definition run_client (env : environment) (thread_create clock : Z)
    (r : list ws_effect * WSClient) (d : demo) : outcome demo :=
  let this := d_room d in
  perform env thread_create clock r.1
    (mkDemo (d_globals d)
       (set_context this (LiveMeetingRoom.m_initialized this) (m_ws_thread_running this) (Some r.2))
       (set_effects (d_world d) r.1)).

Definition ws_event_handler (env : environment) (thread_create clock : Z) (event : ws_event)
    (d : demo) : outcome demo :=
  match m_websocket_client (d_room d) with
  | Some client => run_client env thread_create clock (on_event_handle client event) d
  | None => Fault
  end.

Definition ws_timer_func (env : environment) (thread_create clock : Z) (connect : option Z)
    (d : demo) : outcome demo :=
  match m_websocket_client (d_room d) with
  | Some client => run_client env thread_create clock (on_timer connect client) d
  | None => Fault
  end.

(** ** [main] *)

(** [new AppLogger] and [initialize]; [log_thread] is what [pthread_create] returns. *)
Definition start_logger {fs : Type} (stat : fs → list Z → Z) (mkdir : fs → list Z → (Z * Z) * fs)
    (log_thread : Z) (s : fs) : outcome (AppLogger * fs) :=
  s ← (if negb (check_path_exists stat s (bytes_of "rtc_client"))
       then r ← create_directory_recursively stat mkdir s (bytes_of "rtc_client"); Ok r.2
       else Ok s);
  Ok (demo_logger log_thread, s).

(** The ports and the room; [ws_thread] is what [pthread_create] returns. *)
Definition start_room (ws_thread : Z) (w : world) : bool * demo :=
  let w := set_ports w (initialize_udp_ports (w_ports w) 30000 30100) in
  let '(bRet, room) :=
    LiveMeetingRoom.initialize ws_thread (a_websocket_received A) (a_websocket_event A) (a_room A)
      instance (bytes_of "192.168.1.100") 23579 in
  (bRet, mkDemo no_globals room w).

Definition install_callbacks (d : demo) : demo :=
  let this := set_event_callback_func (d_room d) (Some (a_conference_event_callback A)) 0 in
  let this := set_signal_callback_func this (Some (a_conference_signal_callback A)) 0 in
  let this := LiveMeetingRoom.set_h264_receive_callback this (Some (a_h264_receive_callback A)) 0 in
  mkDemo (d_globals d)
    (LiveMeetingRoom.set_aac_receive_callback this (Some (a_aac_receive_callback A)) 0) (d_world d).

(** [delete m_websocket_client]: the library closes the connection, and tells the
    client, on the way. *)
Definition destroy_client (client : WSClient) : list ws_effect :=
  match m_connection client with
  | Some conn => mg_close_conn conn :: (on_event_handle client MG_EV_CLOSE).1
  | None => []
  end.

(** From [exitFlag] on; [stopped] is the queue of the logger after its thread has ended. *)
Definition finish (env : environment) (thread_create clock : Z) (stopped : SimpleMessageQueue)
    (logger : AppLogger) (d : demo) : outcome (demo * AppLogger) :=
  let effects := match m_websocket_client (d_room d) with
                 | Some client => destroy_client client | None => [] end in
  d ← perform env thread_create clock effects
        (mkDemo (d_globals d) (d_room d) (set_effects (d_world d) effects));
  Ok (mkDemo (d_globals d) (un_initialize (d_room d)) (d_world d),
      (Logger.uninitialize stopped logger).2).

(** ** The program while it runs

    A turn of the websocket thread is an event on the open connection or the timer; a
    turn of the receive thread takes what has arrived. *)
Inductive demo_step : demo → demo → Prop :=
| demo_event env thread_create clock event client conn d d' :
    m_websocket_client (d_room d) = Some client → m_connection client = Some conn → env_ok env →
    ws_event_handler env thread_create clock event d = Ok d' → demo_step d d'
| demo_timer env thread_create clock connect d d' :
    is_Some (m_websocket_client (d_room d)) →
    ws_timer_func env thread_create clock connect d = Ok d' → demo_step d d'
| demo_turn sendto arrive count evs this' count' w' d :
    m_receive_thread_running (d_room d) = true →
    Forall (λ kv, has_room kv.2 ∧ harmless_streams (arrive kv.1))
      (m_other_users_map (d_room d)) →
    receive_turn sendto arrive (d_room d) count (d_world d) = Ok (evs, (this', (count', w'))) →
    demo_step d (mkDemo (d_globals d) this' w').

Inductive demo_run (w0 : world) : demo → Prop :=
| run_start ws_thread d :
    start_room ws_thread w0 = (true, d) → demo_run w0 (install_callbacks d)
| run_step d d' : demo_run w0 d → demo_step d d' → demo_run w0 d'.

(** ** What holds while it runs *)

Notation room_reach := (reachable string_to_double print_double print_f).

(** The client calls the room, the room calls the program. *)
Record wired (w0 : world) (d : demo) : Prop := {
  wired_reach : room_reach w0 (d_room d) (d_world d);
  wired_event : m_event_callback_func (d_room d) = Some (a_conference_event_callback A);
  wired_signal : m_signal_callback_func (d_room d) = Some (a_conference_signal_callback A);
  wired_client : ∃ client, m_websocket_client (d_room d) = Some client
    ∧ m_recv_func client = Some (a_websocket_received A) ∧ m_recv_func_arg client = a_room A
    ∧ m_ws_func client = Some (a_websocket_event A) ∧ m_ws_func_arg client = a_room A
    ∧ ws_ok client;
}.

(** The global says whether the client is connected. *)
Definition mirrors (d : demo) : Prop := g_room_connected (d_globals d) = is_signal_connected (d_room d).

Lemma wired_kept w0 d this' w' g :
  wired w0 d → room_reach w0 this' w' → context this' = context (d_room d) →
  wired w0 (mkDemo g this' w').
Proof.
  intros [_ He Hs Hc] Hr. unfold context. intros [= _ _ Ec Ee _ Es _].
  split; cbn; rewrite ?Ec, ?Ee, ?Es; done.
Qed.

Lemma mirrors_kept d this' w' g :
  mirrors d → context this' = context (d_room d) →
  g_room_connected g = g_room_connected (d_globals d) → mirrors (mkDemo g this' w').
Proof.
  unfold mirrors, context, is_signal_connected. cbn. intros Hm [= _ _ Ec _ _ _ _] Eg.
  by rewrite Ec, Eg.
Qed.

(** A signal of the program, whatever comes of it. *)
Lemma signal_total this clock s w :
  ∃ ret this' w', run_signal print_double this clock s w = Ok (ret, (this', w'))
    ∧ context this' = context this.
Proof.
  destruct (refused this clock s) as [e|] eqn:Er.
  - rewrite (run_signal_refused _ _ _ _ _ _ Er). by do 3 eexists.
  - destruct (run_signal_sent print_double this clock s w Er) as (c & w1 & _ & -> & _). by do 3 eexists.
Qed.

Lemma signal_step w0 d clock s ret this' w' g :
  wired w0 d → run_signal print_double (d_room d) clock s (d_world d) = Ok (ret, (this', w')) →
  wired w0 (mkDemo g this' w') ∧ context this' = context (d_room d).
Proof.
  intros Hw E. destruct (signal_total (d_room d) clock s (d_world d)) as (r1 & t1 & w1 & E1 & Ec).
  rewrite E in E1. injection E1 as <- <- <-. split; [|exact Ec].
  apply (wired_kept w0 d); [done| |exact Ec].
  eapply reachable_step; [apply Hw|]. by eapply step_signal.
Qed.

Lemma start_pull_signal this clock streams w ret this' w' :
  run_signal print_double this clock (S_start_pull streams) w = Ok (ret, (this', w')) →
  ∃ streams', signal_start_pull_stream print_double this clock streams w
    = Ok (ret, (streams', (this', w'))).
Proof.
  unfold run_signal. cbn [call_signal].
  destruct (signal_start_pull_stream _ _ _ _ _) as [[r [l [t v]]]| |]; [|done..].
  intros [= <- <- <-]. by eexists.
Qed.

Lemma online_users_signal this clock w r :
  run_signal print_double this clock S_online_users w = Ok r →
  signal_online_users print_double this clock w = Ok r.
Proof.
  unfold run_signal. cbn [call_signal]. destruct (signal_online_users _ _ _ _) as [[ret p]| |]; [|done..].
  by intros [= <-].
Qed.

(** Both invariants go through a step that ends well. *)
Definition keeps (w0 : world) (d : demo) (r : outcome demo) : Prop :=
  wired w0 d → mirrors d → ∃ d', r = Ok d' ∧ wired w0 d' ∧ mirrors d'.

Lemma keeps_bind w0 d m (f : demo → outcome demo) :
  keeps w0 d m → (∀ d', keeps w0 d' (f d')) → keeps w0 d (d' ← m; f d').
Proof.
  intros Hm Hf Hw Hmi. destruct (Hm Hw Hmi) as (d1 & -> & Hw1 & Hm1). step_bind. by apply Hf.
Qed.

Lemma keeps_same w0 d : keeps w0 d (Ok d).
Proof. intros Hw Hm. by exists d. Qed.

Lemma conference_event_callback_keeps w0 clock event d :
  keeps w0 d (conference_event_callback clock event d).
Proof.
  assert (Hpull : ∀ streams, keeps w0 d
    (r ← signal_start_pull_stream print_double (d_room d) clock streams (d_world d);
     Ok (mkDemo (d_globals d) r.2.2.1 r.2.2.2))).
  { intros streams Hw Hm.
    destruct (signal_total (d_room d) clock (S_start_pull streams) (d_world d)) as (ret & t & v & E & _).
    destruct (start_pull_signal _ _ _ _ _ _ _ E) as [l ->]. step_bind. eexists. split; [done|].
    destruct (signal_step w0 d clock _ ret t v (d_globals d) Hw E) as [Hw' Hc].
    split; [done|]. by apply (mirrors_kept d). }
  destruct event; cbn [conference_event_callback]; try apply keeps_same; try apply Hpull; intros Hw Hm.
  - eexists. split; [done|]. split; [|done]. apply (wired_kept w0 d); [done|apply Hw|done].
  - destruct (signal_total (d_room d) clock S_online_users (d_world d)) as (ret & t & v & E & _).
    rewrite (online_users_signal _ _ _ _ E). step_bind. eexists. split; [done|].
    destruct (signal_step w0 d clock _ ret t v (mkGlobals (g_room_connected (d_globals d)) true) Hw E)
      as [Hw' Hc].
    split; [done|]. by apply (mirrors_kept d).
Qed.

Lemma deliver_keeps w0 clock evs d :
  Forall (λ e, e.1.1 = a_conference_event_callback A) evs → keeps w0 d (deliver clock evs d).
Proof.
  intros Hevs. revert d. induction Hevs as [|[[func event] arg] evs Hf _ IH]; intros d; cbn [deliver].
  { apply keeps_same. }
  cbn in Hf. rewrite Hf, Z.eqb_refl. apply keeps_bind; [|exact IH].
  apply conference_event_callback_keeps.
Qed.

(** A text of the server. *)
Lemma websocket_received_keeps w0 env thread_create clock data d :
  PortManager.wf (w_ports w0) → env_ok env →
  keeps w0 d (websocket_received env thread_create clock data d).
Proof.
  intros Hp Hf Hw Hm. pose proof (room_reachable_inv _ _ _ w0 _ _ Hp (wired_reach _ _ Hw)) as [Hok _ Hpw _].
  destruct (message_implements string_to_double print_double print_f env thread_create (d_room d) data
              (d_world d)) as (evs & this' & w' & E & _ & _ & Ev & _); [done|].
  unfold websocket_received. rewrite E. step_bind.
  pose proof (message_kept string_to_double print_double print_f env thread_create _ _ _ _ _ _ Hf E) as [Hc _].
  destruct (receive_message_ok string_to_double print_double print_f no_system env thread_create (d_room d)
              data (d_world d) (mkLogging None 0 ∅ []) I) as [lg El].
  apply deliver_keeps.
  - rewrite Ev. apply Forall_forall. intros e (ev & He & _)%list_elem_of_bind. unfold fire in He.
    rewrite (wired_event _ _ Hw) in He. apply list_elem_of_singleton in He. by rewrite He.
  - apply (wired_kept w0 d); [done| |done]. eapply reachable_step; [apply Hw|].
    apply (step_text _ _ _ _ _ no_system (mkLogging None 0 ∅ []) lg env thread_create data evs);
      [|done|].
    + destruct (wired_client _ _ Hw) as (c & Hc' & _). by rewrite Hc'.
    + by rewrite El, E.
  - by apply (mirrors_kept d).
Qed.

Lemma fired_logs w0 d (evs : list conference_event) :
  wired w0 d →
  (evs ≫= fire (d_room d)) ≫= (λ e, callback_logs e.1.2) = evs ≫= callback_logs.
Proof.
  intros Hw. induction evs as [|e evs IH]; [done|]. cbn. unfold fire at 1.
  rewrite (wired_event _ _ Hw). rewrite <- IH. cbn. done.
Qed.

(** A text is received if its lines fit, and is the end of the program if they do not. *)
Lemma receive_text_eq w0 env thread_create clock data d :
  PortManager.wf (w_ports w0) → wired w0 d →
  receive_text env thread_create clock data d
  = if text_fits data then websocket_received env thread_create clock data d else Fault.
Proof.
  intros Hp Hw. pose proof (room_reachable_inv _ _ _ w0 _ _ Hp (wired_reach _ _ Hw)) as [Hok _ Hpw _].
  destruct (message_implements string_to_double print_double print_f env thread_create (d_room d) data
              (d_world d)) as (evs & this' & w' & E & _ & _ & Ev & _); [done|].
  unfold receive_text, websocket_received, text_fits, text_lines. rewrite lines_fit_app.
  rewrite (receive_message_async string_to_double print_double print_f no_system env thread_create _ _ _
             demo_logging (demo_logger 0)) by done.
  cbn [g_log_level demo_logging]. destruct (lines_fit _ (lines_of _ _ _)); [|done]. rewrite E. step_bind.
  rewrite (run_statements_async no_system _ _ (demo_logger 0)) by done. cbn [g_log_level].
  rewrite Ev, (fired_logs w0 d) by done. rewrite told_eq. by destruct (lines_fit _ (_ ≫= _)).
Qed.

Lemma websocket_event_run w0 event d :
  wired w0 d →
  websocket_event event d
  = Ok (mkDemo (conference_signal_callback event (d_globals d)) (d_room d) (d_world d)).
Proof.
  intros Hw. unfold websocket_event, on_websocket_event. rewrite (wired_signal _ _ Hw).
  by rewrite Z.eqb_refl.
Qed.

(** The state in which the client has changed and nobody has been called yet. *)
Definition client_moved (d : demo) (effects : list ws_effect) (client : WSClient) : demo :=
  mkDemo (d_globals d)
    (set_context (d_room d) (LiveMeetingRoom.m_initialized (d_room d)) (m_ws_thread_running (d_room d))
       (Some client)) (set_effects (d_world d) effects).

Lemma client_moved_wired w0 d client effects client' :
  wired w0 d → m_websocket_client (d_room d) = Some client → ws_step client effects client' →
  wired w0 (client_moved d effects client').
Proof.
  intros Hw Ec Hs. destruct (wired_client _ _ Hw) as (c & Ec' & H1 & H2 & H3 & H4 & Hok).
  rewrite Ec in Ec'. injection Ec' as <-.
  assert (H : m_recv_func client' = m_recv_func client ∧ m_recv_func_arg client' = m_recv_func_arg client
    ∧ m_ws_func client' = m_ws_func client ∧ m_ws_func_arg client' = m_ws_func_arg client).
  { destruct Hs as [c0 conn es c1 E|c0 conn ev es c1 Hc E|c0 msg r es E]; [| |done].
    - unfold on_timer in E. repeat case_match; cbn [on_event_handle] in *; by simplify_eq.
    - destruct ev; cbn [on_event_handle] in E; repeat case_match; by simplify_eq. }
  destruct H as (E1 & E2 & E3 & E4). pose proof (ws_step_ok _ _ _ Hs Hok) as [Hok' _].
  split; cbn; [|apply Hw|apply Hw|by exists client'; rewrite E1, E2, E3, E4].
  eapply reachable_step; [apply Hw|]. by eapply step_client.
Qed.

(** An event on the open connection. *)
Lemma ws_event_handler_keeps w0 env thread_create clock event client conn d :
  PortManager.wf (w_ports w0) → env_ok env →
  m_websocket_client (d_room d) = Some client → m_connection client = Some conn →
  event_fits event = true →
  keeps w0 d (ws_event_handler env thread_create clock event d).
Proof.
  intros Hp Hf Ec Econn Hfit Hw Hm. unfold ws_event_handler, run_client. rewrite Ec.
  destruct (on_event_handle client event) as [effects client'] eqn:E. cbn [fst snd].
  assert (Hs : ws_step client effects client') by (by eapply WSClient.step_event).
  pose proof (client_moved_wired _ _ _ _ _ Hw Ec Hs) as Hw'. unfold client_moved in Hw'.
  destruct (wired_client _ _ Hw) as (c & Ec' & H1 & H2 & H3 & H4 & Hok).
  rewrite Ec in Ec'. injection Ec' as <-.
  unfold mirrors, is_signal_connected in Hm. rewrite Ec in Hm.
  assert (Hcall : ∀ ev, call_event_func client ev = [call_ws_func (a_websocket_event A) ev (a_room A)])
    by (intros; unfold call_event_func; by rewrite H3, H4).
  destruct event as [|flags data| | | |]; cbn [on_event_handle] in E; rewrite ?Hcall in E.
  - injection E as <- <-. cbn [perform]. rewrite !Z.eqb_refl. cbn [andb].
    rewrite (websocket_event_run w0) by done. step_bind. eexists. split; [done|].
    split; [|done]. apply (wired_kept w0 _ _ _ _ Hw'); [apply Hw'|done].
  - assert (Hkeep : client' = client ∧ (effects = [] ∨ text_fits data = true ∧
        effects = [call_recv_func (a_websocket_received A) data (a_room A)])).
    { unfold on_message_received in E. rewrite H1, H2 in E. cbn [event_fits] in Hfit.
      destruct (Z.land flags 15 =? WEBSOCKET_OP_TEXT); simplify_eq; auto. }
    destruct Hkeep as [-> [-> | [Hfits ->]]]; cbn [perform].
    + eexists. split; [done|]. split; [done|]. unfold mirrors, is_signal_connected. by cbn.
    + rewrite !Z.eqb_refl. cbn [andb]. rewrite (receive_text_eq w0), Hfits by done.
      destruct (websocket_received_keeps w0 env thread_create clock data _ Hp Hf Hw') as (d' & -> & H5 & H6).
      { unfold mirrors, is_signal_connected. by cbn. }
      step_bind. by exists d'.
  - injection E as <- <-. cbn [perform]. rewrite !Z.eqb_refl. cbn [andb].
    rewrite (websocket_event_run w0) by done. step_bind. eexists. split; [done|].
    split; [|done]. apply (wired_kept w0 _ _ _ _ Hw'); [apply Hw'|done].
  - injection E as <- <-. eexists. split; [done|]. split; [done|]. unfold mirrors, is_signal_connected. by cbn.
  - injection E as <- <-. eexists. split; [done|]. split; [done|]. unfold mirrors, is_signal_connected. by cbn.
  - injection E as <- <-. eexists. split; [done|]. split; [done|]. unfold mirrors, is_signal_connected. by cbn.
Qed.

(** Without the condition: a text with a line that does not fit ends the program. *)
Lemma ws_event_handler_unfit w0 env thread_create clock event client conn d :
  PortManager.wf (w_ports w0) → wired w0 d → m_websocket_client (d_room d) = Some client →
  m_connection client = Some conn → event_fits event = false → ws_event_handler env thread_create clock event d = Fault.
Proof.
  intros Hp Hw Ec En Hfit. unfold ws_event_handler, run_client. rewrite Ec.
  destruct event as [|flags data| | | |]; try done.
  destruct (on_event_handle client (MG_EV_WS_MSG flags data)) as [effects client'] eqn:E. cbn [fst snd].
  assert (Hs : ws_step client effects client') by (by eapply WSClient.step_event).
  pose proof (client_moved_wired _ _ _ _ _ Hw Ec Hs) as Hw'. unfold client_moved in Hw'.
  cbn [event_fits on_event_handle] in Hfit, E.
  destruct (Z.land flags 15 =? WEBSOCKET_OP_TEXT); [|done].
  destruct (wired_client _ _ Hw) as (c & Ec' & H1 & H2 & _). rewrite Ec in Ec'. injection Ec' as <-.
  unfold on_message_received in E. rewrite H1, H2 in E. injection E as <- <-. cbn [perform].
  rewrite !Z.eqb_refl. cbn [andb]. by rewrite (receive_text_eq w0), Hfit.
Qed.

(** The timer. *)
Lemma ws_timer_func_keeps w0 env thread_create clock connect d :
  keeps w0 d (ws_timer_func env thread_create clock connect d).
Proof.
  intros Hw Hm. destruct (wired_client _ _ Hw) as (client & Ec & H1 & H2 & H3 & H4 & Hok).
  unfold ws_timer_func, run_client. rewrite Ec.
  destruct (on_timer connect client) as [effects client'] eqn:E. cbn [fst snd].
  assert (Hs : ws_step client effects client') by (by eapply WSClient.step_timer).
  pose proof (client_moved_wired _ _ _ _ _ Hw Ec Hs) as Hw'. unfold client_moved in Hw'.
  unfold mirrors, is_signal_connected in Hm. rewrite Ec in Hm.
  unfold on_timer in E. destruct (m_connected client) eqn:Econ.
  { injection E as <- <-. eexists. split; [done|]. split; [done|].
    unfold mirrors, is_signal_connected. cbn. by rewrite Hm. }
  destruct (m_connection client) as [conn|]; cbn [on_event_handle] in E.
  - unfold call_event_func in E. rewrite H3, H4 in E. injection E as <- <-. cbn [app perform].
    step_bind. rewrite !Z.eqb_refl. cbn [andb]. rewrite (websocket_event_run w0) by done.
    step_bind. eexists. split; [done|]. split; [|done].
    apply (wired_kept w0 _ _ _ _ Hw'); [apply Hw'|done].
  - injection E as <- <-. eexists. split; [done|]. split; [done|].
    unfold mirrors, is_signal_connected. cbn. by rewrite Hm.
Qed.

(** ** The messages that make the program ask for streams *)

Lemma new_joined_message this message w env thread_create user :
  decode_message string_to_double print_f message = M_new_joined user →
  on_websocket_message string_to_double print_double print_f env thread_create this message w
  = (this' ← add_user print_double this user;
     Ok (fire this' (EVENT_OTHER_USER_JOINED user), (this', w))).
Proof.
  unfold decode_message, on_websocket_message. intros E.
  destruct (read_from_string string_to_double new_object message) as [[[] json]| |]; try done.
  step_bind. cbn [negb]. destruct (bool_decide _); cbn [negb]; [|done].
  revert E. set (params := as_object _). unfold message_of.
  case_match; [discriminate|]. case_match; [discriminate|].
  case_match; [by intros [= <-]|]. intros E. exfalso. revert E.
  repeat (case_match; [discriminate|]). discriminate.
Qed.

(** What is known of a participant that has just been added. *)
Lemma room_user_fresh this user usr :
  room_user print_double this user = Ok usr →
  RoomUser.m_video_ssrc usr = videoSSRC user ∧ RoomUser.m_audio_ssrc usr = audioSSRC user
  ∧ m_video_initialize usr = false ∧ m_audio_initialize usr = false.
Proof.
  unfold room_user, set_pinhole_uuid. intros E. inv_bind. destruct a. inv_bind. by subst usr.
Qed.

Lemma user_ssrcs_perm user :
  0 <= videoSSRC user → 0 <= audioSSRC user → videoSSRC user ≠ audioSSRC user →
  user_ssrcs user ≡ₚ [common_to_string (videoSSRC user); common_to_string (audioSSRC user)].
Proof.
  intros Hv Ha Hne. unfold user_ssrcs. cbn [set_insert].
  rewrite bool_decide_eq_false_2 by (intros E; apply common_to_string_inj in E; lia).
  destruct (key_lt _ _); [apply perm_swap|done].
Qed.

Lemma str_u32_printed z : 0 <= z < 2 ^ 32 → str_u32 (common_to_string z) = z.
Proof.
  intros Hz. unfold str_u32. rewrite (proj1 (number_roundtrip_spec z)) by lia.
  apply u32_id. lia.
Qed.

Lemma user_ssrcs_read user :
  0 <= videoSSRC user < 2 ^ 32 → 0 <= audioSSRC user < 2 ^ 32 → videoSSRC user ≠ audioSSRC user →
  str_u32 <$> user_ssrcs user ≡ₚ [videoSSRC user; audioSSRC user].
Proof.
  intros Hv Ha Hne. rewrite user_ssrcs_perm by lia. cbn. by rewrite !str_u32_printed.
Qed.

(** The SSRCs of a message are 32-bit numbers. *)
Lemma online_user_range (params : JsonObject double) :
  0 <= videoSSRC (online_user print_f params) < 2 ^ 32
  ∧ 0 <= audioSSRC (online_user print_f params) < 2 ^ 32.
Proof. cbn. unfold str_u32, u32. split; apply Z.mod_pos_bound; lia. Qed.

Lemma user_ssrcs_plain user :
  user_ssrcs user ≠ [] ∧ forallb no_backslash (user_ssrcs user) = true
  ∧ (length (user_ssrcs user) <= 2)%nat.
Proof.
  unfold user_ssrcs. cbn [set_insert]. pose proof number_no_backslash as H.
  repeat case_match; (split; [done|]; split; [|cbn; lia]); cbn [forallb]; unfold no_backslash;
    by rewrite !H.
Qed.

Lemma one_stream_plain user :
  no_backslash (userUUID user) = true → plain_streams [(userUUID user, user_ssrcs user)].
Proof.
  intros Hu. destruct (user_ssrcs_plain user) as (H1 & H2 & H3). unfold plain_streams, nonempty.
  rewrite filter_cons_True by done. split; [done|]. split; [cbn; lia|].
  constructor; [|constructor]. cbn [fst snd]. split_and!; [done|done|lia].
Qed.

Lemma one_stream_wanted user :
  wanted [(userUUID user, user_ssrcs user)] = [(userUUID user, str_u32 <$> user_ssrcs user)].
Proof. unfold wanted, nonempty. by rewrite filter_cons_True by apply user_ssrcs_plain. Qed.

(** The room after a new participant was added, before the program is told. *)
Lemma newcomer_added w0 env thread_create clock message d user :
  wired w0 d → decode_message string_to_double print_f message = M_new_joined user →
  map_find (m_other_users_map (d_room d)) (userUUID user) = None →
  ∃ usr, room_user print_double (d_room d) user = Ok usr
    ∧ websocket_received env thread_create clock message d
      = conference_event_callback clock (EVENT_OTHER_USER_JOINED user)
          (mkDemo (d_globals d)
             (set_users (d_room d) (map_insert (m_other_users_map (d_room d)) (userUUID user) usr))
             (d_world d)).
Proof.
  intros Hw Ed Hn. destruct (room_user_ok print_double (d_room d) user) as (usr & Er & _).
  exists usr. split; [done|]. unfold websocket_received.
  rewrite (new_joined_message _ _ _ _ _ user Ed). unfold add_user. rewrite Hn, Er. step_bind.
  unfold fire. cbn [m_event_callback_func set_users set_streams]. rewrite (wired_event _ _ Hw).
  cbn [deliver]. rewrite Z.eqb_refl.
  by destruct (conference_event_callback _ _ _).
Qed.

(** The participant as the answer to the request leaves it. *)
Definition heard (this : LiveMeetingRoom) (uuid : list Z) : Prop :=
  ∃ usr, map_find (m_other_users_map this) uuid = Some usr
    ∧ m_video_initialize usr = true ∧ m_audio_initialize usr = true.

Lemma pulled_heard (params : JsonObject double) env this w user usr l :
  works env → ports_ok (w_ports w) → room_ok this → room_live this →
  map_find (m_other_users_map this) (userUUID user) = Some usr →
  RoomUser.m_video_ssrc usr = videoSSRC user → RoomUser.m_audio_ssrc usr = audioSSRC user →
  videoSSRC user ≠ audioSSRC user → l ≡ₚ [videoSSRC user; audioSSRC user] →
  let o := as_object (at_key params (bytes_of "streams")) in
  streams_of print_f o 0 (Z.to_nat (array_size o)) = [(userUUID user, l)] →
  ∃ this' w', on_ws_conference_pull_stream print_f env params this w = Ok ([], (this', w'))
    ∧ heard this' (userUUID user) ∧ m_is_signal_running this' = false.
Proof.
  intros Hw Hp Hok Hlive Hu Hv Ha Hne Hl o Es.
  destruct (streams_pulled_spec print_f env params this w Hw Hp Hok Hlive)
    as (this' & w' & E & Hall & _ & _ & _ & Hrun & _).
  exists this', w'. split; [done|]. split; [|done]. fold o in Hall. rewrite Es in Hall.
  specialize (Hall (userUUID user)). rewrite Hu in Hall. destruct Hall as (u' & E' & Hpu).
  unfold requested in Hpu. cbn [mbind list_bind fst snd] in Hpu.
  rewrite bool_decide_eq_true_2, app_nil_r in Hpu by done.
  assert (Hin : ∀ z, z ∈ [videoSSRC user; audioSSRC user] → existsb (Z.eqb z) l = true).
  { intros z Hz. apply existsb_exists. exists z. split; [|apply Z.eqb_refl].
    apply list_elem_of_In. by rewrite Hl. }
  exists u'. split; [done|]. rewrite (pulled_video _ _ _ Hpu), (pulled_audio _ _ _ Hpu).
  unfold asks_video, asks_audio. rewrite Hv, Ha, !Hin, (proj2 (Z.eqb_neq _ _) Hne) by set_solver.
  by rewrite !orb_true_r.
Qed.

(** C14: A participant joins while the program is online with nothing pending.  The program
    sends one request that names the newcomer and both its sources, and when the server
    answers with these, both receivers of the newcomer run and nothing is pending. *)
Theorem newcomer_heard w0 env thread_create clock message d user conn :
  let my := m_my (d_room d) in
  PortManager.wf (w_ports w0) → wired w0 d → mirrors d → works env → ports_ok (w_ports (d_world d)) →
  decode_message string_to_double print_f message = M_new_joined user →
  online (d_room d) conn → joined (d_room d) = true →
  count_as_limit (d_room d) (now_seconds clock) = false →
  map_find (m_other_users_map (d_room d)) (userUUID user) = None →
  userUUID user ≠ m_my_user_uuid my → videoSSRC user ≠ audioSSRC user →
  no_backslash (userUUID user) = true → no_backslash (m_my_room_id my) = true →
  no_backslash (m_my_user_uuid my) = true →
  0 <= videoSSRC user < 2 ^ 32 → 0 <= audioSSRC user < 2 ^ 32 →
  ∃ text l d1, websocket_received env thread_create clock message d = Ok d1
    ∧ w_effects (d_world d1)
      = w_effects (d_world d) ++ [mg_ws_send (Some conn) text WEBSOCKET_OP_TEXT]
    ∧ asks_streams string_to_double print_f TYPE_CONFERENCE_PULL_STREAM (m_my_room_id my)
        (m_my_user_uuid my) [(userUUID user, l)] text
    ∧ l ≡ₚ [videoSSRC user; audioSSRC user]
    ∧ ∀ params : JsonObject double,
        let o := as_object (at_key params (bytes_of "streams")) in
        streams_of print_f o 0 (Z.to_nat (array_size o)) = [(userUUID user, l)] →
        ∃ this' w', on_ws_conference_pull_stream print_f env params (d_room d1) (d_world d1)
            = Ok ([], (this', w'))
          ∧ heard this' (userUUID user) ∧ m_is_signal_running this' = false.
Proof.
  intros my Hp Hw Hm Hworks Hports Ed Hon Hj Hl Hn Hmy Hne Hb1 Hb2 Hb3 Hv Ha.
  assert (Hf : env_ok env) by apply Hworks.
  destruct (newcomer_added w0 env thread_create clock message d user Hw Ed Hn) as (usr & Er & E).
  destruct (websocket_received_keeps w0 env thread_create clock message d Hp Hf Hw Hm)
    as (d1 & E1 & Hw1 & _).
  pose proof E1 as E1'. rewrite E in E1'. cbn [conference_event_callback map_insert d_room d_world] in E1'.
  set (this1 := set_users (d_room d) _) in *. set (st := [(userUUID user, user_ssrcs user)]) in *.
  assert (Eo : map_erase st (m_my_user_uuid (m_my this1)) = st).
  { unfold st. cbn [map_erase]. by rewrite bool_decide_eq_false_2 by (intros H; by apply Hmy). }
  destruct (pull_stream_request string_to_double print_double print_f TYPE_CONFERENCE_PULL_STREAM this1
              conn clock st (d_world d)) as (text & Et & Hask); try done.
  { rewrite Eo. by apply one_stream_plain. }
  unfold signal_start_pull_stream in E1'. rewrite Et in E1'. cbv beta iota in E1'.
  injection E1' as <-. rewrite Eo in Hask. unfold st in Hask. rewrite one_stream_wanted in Hask.
  pose proof (user_ssrcs_read user Hv Ha Hne) as Hperm.
  exists text, (str_u32 <$> user_ssrcs user). eexists. split; [exact E1|]. split; [done|].
  split; [exact Hask|]. split; [done|]. intros params o Es.
  pose proof (room_reachable_inv _ _ _ w0 _ _ Hp (wired_reach _ _ Hw1)) as [Hok Hlive _ _].
  destruct (room_user_fresh _ _ _ Er) as (Ev & Ea & _).
  eapply (pulled_heard params env _ _ user usr); try done.
  cbn. by rewrite map_find_insert, bool_decide_eq_true_2.
Qed.

(** A participant that joins while an answer is pending is never asked for: the room knows
    it, no receiver runs for it, and nothing is sent. *)
Theorem newcomer_missed w0 env thread_create clock message d user :
  wired w0 d → decode_message string_to_double print_f message = M_new_joined user →
  count_as_limit (d_room d) (now_seconds clock) = true →
  map_find (m_other_users_map (d_room d)) (userUUID user) = None →
  ∃ d1 usr, websocket_received env thread_create clock message d = Ok d1
    ∧ d_world d1 = d_world d ∧ d_globals d1 = d_globals d
    ∧ map_find (m_other_users_map (d_room d1)) (userUUID user) = Some usr
    ∧ m_video_initialize usr = false ∧ m_audio_initialize usr = false.
Proof.
  intros Hw Ed Hl Hn.
  destruct (newcomer_added w0 env thread_create clock message d user Hw Ed Hn) as (usr & Er & E).
  rewrite E. cbn [conference_event_callback map_insert d_room d_world].
  set (this1 := set_users (d_room d) _). set (st := [(userUUID user, user_ssrcs user)]).
  destruct (limit_refuses this1 clock (S_start_pull st) Hl) as [e Ee].
  pose proof (run_signal_refused print_double this1 clock (S_start_pull st) (d_world d) e Ee) as H.
  destruct (start_pull_signal _ _ _ _ _ _ _ H) as [l ->]. step_bind.
  destruct (room_user_fresh _ _ _ Er) as (_ & _ & H1 & H2).
  eexists _, usr. split; [done|]. do 2 (split; [done|]). split; [|done].
  cbn. by rewrite map_find_insert, bool_decide_eq_true_2.
Qed.

Lemma online_message this message w env thread_create users :
  decode_message string_to_double print_f message = M_online users →
  ∃ params, listed print_f params = users ∧
    on_websocket_message string_to_double print_double print_f env thread_create this message w
    = on_ws_conference_online_users print_double print_f params this w.
Proof.
  unfold decode_message, on_websocket_message. intros E.
  destruct (read_from_string string_to_double new_object message) as [[[] json]| |]; try done.
  step_bind. cbn [negb]. destruct (bool_decide _); cbn [negb]; [|done].
  revert E. set (params := as_object _). unfold message_of.
  set (opcode := string_to_int _).
  destruct (opcode =? TYPE_CONFERENCE_CREATE); [discriminate|].
  destruct (opcode =? TYPE_CONFERENCE_JOIN); [discriminate|].
  destruct (opcode =? TYPE_CONFERENCE_NEW_JOINED); [discriminate|].
  destruct (opcode =? TYPE_CONFERENCE_PULL_STREAM); [discriminate|].
  destruct (opcode =? TYPE_CONFERENCE_STOP_PULLING); [discriminate|].
  destruct (opcode =? TYPE_CONFERENCE_EXIT); [discriminate|].
  destruct (opcode =? TYPE_CONFERENCE_USER_GONE); [discriminate|].
  destruct (opcode =? TYPE_CONFERENCE_STOP); [discriminate|].
  destruct (opcode =? TYPE_CONFERENCE_ONLINE_USERS); [intros [= <-]; by exists params|].
  by destruct (opcode =? TYPE_CONFERENCE_CLOSING).
Qed.

(** The map of the streams has, for each user of the list, what its last entry says. *)
Lemma users_streams_find users streams k :
  map_find (users_streams users streams) k
  = match last (filter (λ u, userUUID u = k) users) with
    | Some u => Some (user_ssrcs u) | None => map_find streams k
    end.
Proof.
  revert streams. induction users as [|u users IH]; intros streams; cbn [users_streams]; [done|].
  rewrite IH, map_find_insert. destruct (decide (userUUID u = k)) as [E|E].
  - rewrite filter_cons_True by done. rewrite last_cons.
    destruct (last (filter _ users)); [done|]. by rewrite bool_decide_eq_true_2.
  - rewrite filter_cons_False by done. rewrite (bool_decide_eq_false_2 (k = userUUID u)); [done|].
    intros H. by apply E.
Qed.

(** The answer that lists who is online ends the pending request and makes the program ask
    at once for the streams of all of them but itself, each with the sources its last
    entry in the list names. *)
Theorem online_users_requested w0 env thread_create clock message d users conn :
  let my := m_my (d_room d) in
  let streams := users_streams users [] in
  let others := map_erase streams (m_my_user_uuid my) in
  PortManager.wf (w_ports w0) → wired w0 d →
  decode_message string_to_double print_f message = M_online users →
  online (d_room d) conn → joined (d_room d) = true →
  no_backslash (m_my_room_id my) = true → no_backslash (m_my_user_uuid my) = true →
  plain_streams others →
  (∃ text d1, websocket_received env thread_create clock message d = Ok d1
    ∧ w_effects (d_world d1)
      = w_effects (d_world d) ++ [mg_ws_send (Some conn) text WEBSOCKET_OP_TEXT]
    ∧ asks_streams string_to_double print_f TYPE_CONFERENCE_PULL_STREAM (m_my_room_id my)
        (m_my_user_uuid my) (wanted others) text
    ∧ m_is_signal_running (d_room d1) = true
    ∧ Forall (λ u, is_Some (map_find (m_other_users_map (d_room d1)) (userUUID u))) users)
  ∧ ∀ k, map_find streams k
         = match last (filter (λ u, userUUID u = k) users) with
           | Some u => Some (user_ssrcs u) | None => None
           end.
Proof.
  intros my streams others Hp Hw Ed Hon Hj Hb1 Hb2 Hplain. split; [|intros k; apply users_streams_find].
  pose proof (room_reachable_inv _ _ _ w0 _ _ Hp (wired_reach _ _ Hw)) as [Hok _ _ _].
  destruct (online_message (d_room d) message (d_world d) env thread_create users Ed) as (params & El & E).
  unfold websocket_received. rewrite E. unfold on_ws_conference_online_users. set (o := as_object _).
  destruct (online_users_ok print_double print_f o 0 (Z.to_nat (array_size o))
              (set_running (d_room d) false) (set_signal_ok _ _ _ _ Hok))
    as (l & this1 & E1 & _ & El1 & Hall & _ & _ & Eq).
  assert (l = users) as -> by (by rewrite El1, <- El).
  rewrite E1. step_bind.
  assert (Ef : fire this1 (EVENT_ONLINE_USERS users)
    = [(a_conference_event_callback A, EVENT_ONLINE_USERS users, m_event_callback_arg this1)]).
  { unfold fire. rewrite Eq. cbn [m_event_callback_func set_users set_streams set_running set_signal].
    by rewrite (wired_event _ _ Hw). }
  rewrite Ef. cbn [deliver]. rewrite Z.eqb_refl. cbn [conference_event_callback d_room d_world].
  assert (Em : m_my this1 = my) by (by rewrite Eq).
  destruct (pull_stream_request string_to_double print_double print_f TYPE_CONFERENCE_PULL_STREAM this1
              conn clock streams (d_world d)) as (text & Et & Hask); rewrite ?Em; try done.
  { rewrite Eq. exact Hon. }
  { rewrite Eq. exact Hj. }
  { by rewrite Eq. }
  unfold signal_start_pull_stream. fold streams. rewrite Et. step_bind.
  exists text. eexists. split; [done|]. split; [done|]. rewrite Em in Hask. by split_and!.
Qed.

(** ** The run of the program *)

(** The start of [main] wires the parts together. *)
Lemma start_wired w0 ws_thread d :
  start_room ws_thread w0 = (true, d) →
  let w1 := set_ports w0 (initialize_udp_ports (w_ports w0) 30000 30100) in
  wired w1 (install_callbacks d) ∧ mirrors (install_callbacks d).
Proof.
  intros E w1. unfold start_room in E. fold w1 in E.
  destruct (LiveMeetingRoom.initialize _ _ _ _ _ _ _) as [bRet room] eqn:Ei. injection E as -> <-.
  assert (Hr : room_reach w1 room w1).
  { eapply reachable_step; [apply reachable_start|]. by eapply step_initialize. }
  unfold LiveMeetingRoom.initialize in Ei. destruct (negb (ws_thread =? 0)); [done|].
  injection Ei as <-. split; [|done]. split; [|done|done|].
  - eapply reachable_step; [exact Hr|].
    exact (step_set_callbacks _ _ _ _ _ (Some (a_conference_event_callback A)) 0
             (Some (a_conference_signal_callback A)) 0 (Some (a_h264_receive_callback A)) 0
             (Some (a_aac_receive_callback A)) 0).
  - eexists. split; [done|]. by split_and!.
Qed.

Lemma receive_turn_kept sendto arrive this count w evs this' count' w' :
  receive_turn sendto arrive this count w = Ok (evs, (this', (count', w'))) →
  context this' = context this.
Proof.
  unfold receive_turn. intros E. apply bind_is_ok in E as ([evs1 [users net]] & _ & E).
  by injection E as _ <- _ _.
Qed.

(** A fresh port manager is filled by [main]. *)
Lemma run_wired w0 d :
  PortManager.m_initialized (w_ports w0) = false → demo_run w0 d →
  let w1 := set_ports w0 (initialize_udp_ports (w_ports w0) 30000 30100) in
  PortManager.wf (w_ports w1) ∧ wired w1 d ∧ mirrors d.
Proof.
  intros Hi Hr w1. assert (Hp : PortManager.wf (w_ports w1)) by (by apply initialize_udp_ports_wf).
  split; [done|]. induction Hr as [ws_thread d Es|d d' _ IH Hs]; [by eapply start_wired|].
  destruct IH as [Hw Hm].
  destruct Hs as [env tc clock event client conn d d' Ec En Hf E|env tc clock connect d d' Hc E
    |sendto arrive count evs this' count' w' d Hrun Hin E].
  - destruct (event_fits event) eqn:Hfit.
    + destruct (ws_event_handler_keeps w1 env tc clock event client conn d Hp Hf Ec En Hfit Hw Hm)
        as (d1 & E1 & H). rewrite E in E1. by injection E1 as <-.
    + by rewrite (ws_event_handler_unfit w1 env tc clock event client conn d Hp Hw Ec En Hfit) in E.
  - destruct (ws_timer_func_keeps w1 env tc clock connect d Hw Hm) as (d1 & E1 & H).
    rewrite E in E1. by injection E1 as <-.
  - pose proof (receive_turn_kept _ _ _ _ _ _ _ _ _ E) as Hc. split.
    + apply (wired_kept w1 d); [done| |done]. eapply reachable_step; [apply Hw|]. by eapply step_turn.
    + by apply (mirrors_kept d).
Qed.


(** The end of [main], from any state of the run: the connection is closed and everything the
    room held is released, the global is cleared, and the log is closed. *)
Theorem finish_releases w0 d env thread_create clock stopped logger :
  PortManager.m_initialized (w_ports w0) = false → demo_run w0 d →
  ∃ d' logger', finish env thread_create clock stopped logger d = Ok (d', logger')
    ∧ LiveMeetingRoom.m_initialized (d_room d') = false ∧ m_websocket_client (d_room d') = None
    ∧ m_ws_thread_running (d_room d') = false ∧ m_receive_thread_running (d_room d') = false
    ∧ m_other_users_map (d_room d') = [] ∧ m_rtp_audio_sender (d_room d') = None
    ∧ m_rtp_video_sender (d_room d') = None
    ∧ g_room_connected (d_globals d') = false
    ∧ (∀ client conn, m_websocket_client (d_room d) = Some client → m_connection client = Some conn →
         mg_close_conn conn ∈ w_effects (d_world d'))
    ∧ Logger.m_initialized logger' = false
    ∧ (Logger.m_initialized logger = true → m_file logger' = None).
Proof.
  intros Hi Hr. destruct (run_wired w0 d Hi Hr) as (_ & Hw & Hm).
  set (w1 := set_ports w0 _) in *. clearbody w1.
  assert (Hlog : Logger.m_initialized (Logger.uninitialize stopped logger).2 = false
    ∧ (Logger.m_initialized logger = true → m_file (Logger.uninitialize stopped logger).2 = None)).
  { unfold Logger.uninitialize. by destruct (Logger.m_initialized logger) eqn:E; cbn. }
  destruct (wired_client _ _ Hw) as (client & Ec & _ & _ & H3 & H4 & Hok).
  unfold finish, destroy_client. rewrite Ec.
  destruct (m_connection client) as [conn|] eqn:En.
  - cbn [on_event_handle fst]. unfold call_event_func. rewrite H3, H4. cbn [app perform].
    step_bind. rewrite !Z.eqb_refl. cbn [andb].
    unfold websocket_event, on_websocket_event. cbn [d_room]. rewrite (wired_signal _ _ Hw).
    rewrite Z.eqb_refl. step_bind. do 2 eexists. split; [done|].
    do 8 (split; [done|]). split; [|exact Hlog].
    intros client' conn' [= <-] E. rewrite En in E. injection E as <-. cbn. set_solver.
  - cbn [perform]. step_bind. do 2 eexists. split; [done|]. do 7 (split; [done|]).
    split; [|split; [|exact Hlog]].
    + cbn. unfold mirrors, is_signal_connected in Hm. rewrite Ec in Hm. rewrite Hm. unfold is_connected.
      destruct (m_connected client) eqn:E; [|done]. apply Hok in E. rewrite En in E.
      by apply is_Some_None in E.
    + intros client' conn' [= <-] E. by rewrite En in E.
Qed.
End demo.

(** ** What the program does not do *)

Section gaps.
Context {double : Type} (string_to_double : list Z → double).
Context (print_double print_f : double → list Z) (A : addresses).

(** Nothing clears [g_in_room]: not the end of the conference, and not that of the
    connection. *)
Lemma conference_event_callback_in_room clock event d d' :
  conference_event_callback print_double clock event d = Ok d' →
  g_in_room (d_globals d) = true → g_in_room (d_globals d') = true.
Proof.
  destruct event; cbn [conference_event_callback]; intros E; inv_bind; simplify_eq; try done;
    by subst d'.
Qed.

Lemma deliver_in_room clock evs d d' :
  deliver print_double A clock evs d = Ok d' →
  g_in_room (d_globals d) = true → g_in_room (d_globals d') = true.
Proof.
  revert d. induction evs as [|[[func event] arg] evs IH]; intros d; cbn [deliver]; [by intros [= <-]|].
  destruct (func =? _); [|done]. intros E. apply bind_is_ok in E as (d1 & E1 & E). intros H.
  apply (IH d1 E). by eapply conference_event_callback_in_room.
Qed.

Theorem in_room_never_cleared env thread_create clock data d d' :
  websocket_received string_to_double print_double print_f A env thread_create clock data d = Ok d' →
  g_in_room (d_globals d) = true → g_in_room (d_globals d') = true.
Proof.
  unfold websocket_received. intros E. apply bind_is_ok in E as ([evs [room w]] & _ & E).
  intros H. by eapply deliver_in_room.
Qed.

(** The thread runs before the callbacks are set: a connection that opens in between is
    open, and the program never learns of it. *)
Theorem early_open_unnoticed w0 env thread_create clock conn :
  let d := (start_room A 0 w0).2 in
  ∃ d1 d2,
    ws_timer_func string_to_double print_double print_f A env thread_create clock (Some conn) d = Ok d1
    ∧ ws_event_handler string_to_double print_double print_f A env thread_create clock MG_EV_WS_OPEN d1
      = Ok d2
    ∧ is_signal_connected (d_room (install_callbacks A d2)) = true
    ∧ g_room_connected (d_globals (install_callbacks A d2)) = false.
Proof.
  unfold ws_timer_func, ws_event_handler, start_room, LiveMeetingRoom.initialize.
  cbn -[wsaddress]. do 2 eexists. split; [reflexivity|]. cbn -[wsaddress]. rewrite !Z.eqb_refl. cbn.
  by split_and!.
Qed.
End gaps.

(** ** Concrete runs *)

(** Side conditions on a closed state, by evaluation. *)
Ltac by_run :=
  vm_compute; match goal with
              | |- _ ∧ _ => split; [discriminate | reflexivity]
              | |- _ = _ => reflexivity
              | _ => discriminate
              end.

Definition sample_addresses : addresses := mkAddresses 1 2 3 4 5 6 7.
Definition fresh_world : world := mkWorld new_manager [] 0 [].

Notation sample_handler := (ws_event_handler (λ _, tt) (λ _ : unit, []) (λ _, []) sample_addresses
                              full_environment 0 20000000).
Notation sample_run := (demo_run (λ _, tt) (λ _ : unit, []) (λ _, []) sample_addresses fresh_world).

Definition result_of (r : outcome demo) : demo :=
  match r with Ok d => d | _ => mkDemo no_globals instance fresh_world end.

(** The program starts, connects, and creates a conference. *)
Definition demo_started : demo := install_callbacks sample_addresses (start_room sample_addresses 0 fresh_world).2.
Definition demo_connecting : demo :=
  result_of (ws_timer_func (λ _, tt) (λ _ : unit, []) (λ _, []) sample_addresses full_environment 0 0
               (Some 7) demo_started).
Definition demo_open : demo := result_of (sample_handler MG_EV_WS_OPEN demo_connecting).
Definition demo_created : demo := result_of (sample_handler (MG_EV_WS_MSG 1 created_text) demo_open).

Lemma demo_created_run : sample_run demo_created.
Proof.
  eapply run_step.
  { eapply run_step.
    { eapply run_step; [by apply (run_start _ _ _ _ _ 0)|].
      eapply (demo_timer _ _ _ _ full_environment 0 0 (Some 7) _ demo_connecting); [by eexists|].
      vm_compute. reflexivity. }
    eapply (demo_event _ _ _ _ full_environment 0 20000000 MG_EV_WS_OPEN _ 7 _ demo_open);
      vm_compute; reflexivity. }
  eapply (demo_event _ _ _ _ full_environment 0 20000000 (MG_EV_WS_MSG 1 created_text) _ 7 _ demo_created);
    vm_compute; reflexivity.
Qed.

Definition filled_world : world :=
  set_ports fresh_world (initialize_udp_ports new_manager 30000 30100).

Lemma filled_world_wf : PortManager.wf (w_ports filled_world).
Proof. by apply initialize_udp_ports_wf. Qed.

Notation sample_wired := (wired (λ _, tt) (λ _ : unit, []) (λ _, []) sample_addresses filled_world).

Lemma sample_run_wired d : sample_run d → sample_wired d ∧ mirrors d.
Proof. intros Hr. by apply (run_wired (λ _, tt) (λ _ : unit, []) (λ _, []) sample_addresses fresh_world). Qed.

Lemma demo_created_wired : sample_wired demo_created ∧ mirrors demo_created.
Proof. apply sample_run_wired, demo_created_run. Qed.

Lemma demo_created_ports : ports_ok (w_ports (d_world demo_created)).
Proof.
  split; [|split; by_table].
  destruct demo_created_wired as [Hw _].
  exact (inv_ports _ _ (room_reachable_inv _ _ _ _ _ _ filled_world_wf (wired_reach _ _ _ _ _ _ Hw))).
Qed.

(** [bob] with the sources 9 and 10. *)
Definition bob_params : list (list Z * list Z) :=
  [(bytes_of "audio_ssrc", bytes_of "10"); (bytes_of "user_id", bytes_of "bob");
   (bytes_of "user_uuid", bytes_of "u2"); (bytes_of "video_ssrc", bytes_of "9")].
Definition bob_text : list Z := answer_text "200" 1002 bob_params.
Definition bob_user : OnlineUser := mkOnlineUser (bytes_of "bob") [] [] (bytes_of "u2") 9 10.


Lemma finish_releases_witness : ∃ d' logger',
  finish (λ _, tt) (λ _ : unit, []) (λ _, []) sample_addresses full_environment 0 0 (new_queue 20480)
    sample_logger demo_created = Ok (d', logger')
  ∧ m_websocket_client (d_room d') = None ∧ g_room_connected (d_globals d') = false
  ∧ mg_close_conn 7 ∈ w_effects (d_world d').
Proof.
  destruct (finish_releases (λ _, tt) (λ _ : unit, []) (λ _, []) sample_addresses fresh_world demo_created
              full_environment 0 0 (new_queue 20480) sample_logger eq_refl demo_created_run)
    as (d' & logger' & E & _ & H1 & _ & _ & _ & _ & _ & H2 & H3 & _).
  exists d', logger'. split; [exact E|]. split; [exact H1|]. split; [exact H2|].
  eapply H3; vm_compute; reflexivity.
Defined.

Lemma demo_created_online : online (d_room demo_created) 7.
Proof. vm_compute. eexists. by split_and!. Qed.

Lemma newcomer_heard_witness : ∃ text l d1,
  websocket_received (λ _, tt) (λ _ : unit, []) (λ _, []) sample_addresses full_environment 0 20000000
    bob_text demo_created = Ok d1
  ∧ l ≡ₚ [9; 10]
  ∧ asks_streams (λ _, tt) (λ _, []) TYPE_CONFERENCE_PULL_STREAM (bytes_of "c1") (bytes_of "u1")
      [(bytes_of "u2", l)] text.
Proof.
  destruct demo_created_wired as [Hw Hm].
  pose proof (newcomer_heard (λ _, tt) (λ _ : unit, []) (λ _, []) sample_addresses filled_world
                full_environment 0 20000000 bob_text demo_created bob_user 7 filled_world_wf Hw Hm
                full_environment_works demo_created_ports ltac:(by_run) demo_created_online) as H.
  cbv zeta in H. do 10 specialize (H ltac:(by_run)). destruct H as (text & l & d1 & E & _ & Ha & Hl & _).
  exists text, l, d1. split; [exact E|]. split; [exact Hl|exact Ha].
Defined.

(** [cat] joins while the request for [bob] is pending. *)
Definition demo_bob : demo := result_of (sample_handler (MG_EV_WS_MSG 1 bob_text) demo_created).

Lemma demo_bob_run : sample_run demo_bob.
Proof.
  eapply run_step; [apply demo_created_run|].
  eapply (demo_event _ _ _ _ full_environment 0 20000000 (MG_EV_WS_MSG 1 bob_text) _ 7 _ demo_bob);
    vm_compute; reflexivity.
Qed.

Definition cat_text : list Z :=
  answer_text "200" 1002 [(bytes_of "user_id", bytes_of "cat"); (bytes_of "user_uuid", bytes_of "u3")].
Definition cat_user : OnlineUser := mkOnlineUser (bytes_of "cat") [] [] (bytes_of "u3") 0 0.

Lemma newcomer_missed_witness : ∃ d1 usr,
  websocket_received (λ _, tt) (λ _ : unit, []) (λ _, []) sample_addresses full_environment 0 25000000
    cat_text demo_bob = Ok d1
  ∧ map_find (m_other_users_map (d_room d1)) (bytes_of "u3") = Some usr
  ∧ m_video_initialize usr = false.
Proof.
  destruct (newcomer_missed (λ _, tt) (λ _ : unit, []) (λ _, []) sample_addresses filled_world
              full_environment 0 25000000 cat_text demo_bob cat_user
              (proj1 (sample_run_wired _ demo_bob_run)))
    as (d1 & usr & E & _ & _ & H1 & H2 & _); [vm_compute; reflexivity..|].
  exists d1, usr. split; [exact E|]. split; [exact H1|exact H2].
Defined.

(** The list of who is online, with the participant itself, [bob] and [cat]. *)
Definition online_answer : list Z :=
  match written (λ _ : unit, []) (response_object (bytes_of "200") (bytes_of "OK") 2000 (bytes_of "1")
          (assign_key new_object (bytes_of "online_users")
             (T_OBJ true [(bytes_of "0", T_OBJ false (param_members [(bytes_of "user_uuid", bytes_of "u1")]));
                          (bytes_of "1", T_OBJ false (param_members bob_params))]))) with
  | Ok s => s | _ => []
  end.

Definition listed_users : list OnlineUser := [mkOnlineUser [] [] [] (bytes_of "u1") 0 0; bob_user].

Lemma demo_bob_online : online (d_room demo_bob) 7.
Proof. vm_compute. eexists. by split_and!. Qed.

Lemma listed_plain : plain_streams (map_erase (users_streams listed_users []) (m_my_user_uuid (m_my (d_room demo_bob)))).
Proof.
  assert (E : map_erase (users_streams listed_users []) (m_my_user_uuid (m_my (d_room demo_bob)))
    = [(bytes_of "u2", [bytes_of "10"; bytes_of "9"])]) by (vm_compute; reflexivity).
  rewrite E. split; [by vm_compute|]. split; [vm_compute; lia|].
  constructor; [vm_compute; repeat split; lia|constructor].
Qed.

Lemma online_users_requested_witness : ∃ text d1,
  websocket_received (λ _, tt) (λ _ : unit, []) (λ _, []) sample_addresses full_environment 0 25000000
    online_answer demo_bob = Ok d1
  ∧ asks_streams (λ _, tt) (λ _, []) TYPE_CONFERENCE_PULL_STREAM (bytes_of "c1") (bytes_of "u1")
      [(bytes_of "u2", [10; 9])] text.
Proof.
  destruct (online_users_requested (λ _, tt) (λ _ : unit, []) (λ _, []) sample_addresses filled_world
              full_environment 0 25000000 online_answer demo_bob listed_users 7 filled_world_wf
              (proj1 (sample_run_wired _ demo_bob_run)))
    as [(text & d1 & E & _ & Ha & _) _];
    [by_run|exact demo_bob_online|by_run|by_run|by_run|exact listed_plain|].
  exists text, d1. split; [exact E|exact Ha].
Defined.
