(* ===== verification/MgIobuf.v ===== *)
(** * MgIobuf: the buffers of the embedded websocket library

    Models [mg_iobuf_resize], [mg_iobuf_add] and [mg_iobuf_del] of
    [src/websocket/mongoose.cpp].  A buffer is its allocation, all of it, and the number
    of bytes stored; [calloc] does not fail. *)

From S2P Require Import Prelude.

Record mg_iobuf := mk_mg_iobuf {
  buf : list Z;
  len : Z;
}.

(** [io->size]. *)
Definition size (io : mg_iobuf) : Z := zlen (buf io).

Definition empty_iobuf : mg_iobuf := mk_mg_iobuf [] 0.

Definition zeros (n : Z) : list Z := replicate (Z.to_nat n) 0.

(** The length stays when the allocation gets shorter than what is stored. *)
Definition mg_iobuf_resize (io : mg_iobuf) (new_size : Z) : mg_iobuf :=
  if new_size =? 0 then empty_iobuf
  else if negb (new_size =? size io) then
    let kept := if new_size <? len io then new_size else len io in
    {| buf := take (Z.to_nat kept) (buf io) ++ zeros (new_size - kept); len := len io |}
  else io.

Definition mg_iobuf_add (io : mg_iobuf) (ofs : Z) (data : list Z) (chunk_size : Z)
    : outcome (Z * mg_iobuf) :=
  let n := zlen data in
  let new_size := u64 (len io + n) in
  let io :=
    if size io <? new_size then
      let new_size := u64 (new_size + chunk_size) in
      mg_iobuf_resize io (new_size - new_size mod chunk_size)
    else io in
  b ← (if ofs <? len io
       then tail ← rd_range (buf io) ofs (len io - ofs); wr_range (buf io) (ofs + n) tail
       else Ok (buf io));
  b ← wr_range b ofs data;
  let stored := if len io <? ofs then ofs else len io in
  Ok (n, {| buf := b; len := stored + n |}).

Definition mg_iobuf_del (io : mg_iobuf) (ofs n : Z) : outcome (Z * mg_iobuf) :=
  let ofs := if len io <? ofs then len io else ofs in
  let n := if len io <? ofs + n then len io - ofs else n in
  tail ← rd_range (buf io) (ofs + n) (len io - ofs - n);
  b ← wr_range (buf io) ofs tail;
  b ← wr_range b (len io - n) (zeros n);
  Ok (n, {| buf := b; len := len io - n |}).

(** ** What is stored *)

Definition wf (io : mg_iobuf) : Prop := 0 <= len io <= size io.

Definition content (io : mg_iobuf) : list Z := take (Z.to_nat (len io)) (buf io).

Lemma content_length io : wf io → zlen (content io) = len io.
Proof. intros Hw. unfold content. by apply zlen_take. Qed.

(** The allocation is what is stored and the rest. *)
Lemma content_split io : wf io → ∃ rest, buf io = content io ++ rest ∧ zlen rest = size io - len io.
Proof.
  intros Hw. exists (drop (Z.to_nat (len io)) (buf io)). split.
  - unfold content. by rewrite take_drop.
  - by apply zlen_drop.
Qed.

Lemma content_intro io c rest : buf io = c ++ rest → len io = zlen c → wf io ∧ content io = c.
Proof.
  intros Eb El. unfold wf, size, content. rewrite Eb, El. split; [len|].
  unfold zlen. by rewrite Nat2Z.id, take_app_length.
Qed.

Lemma zeros_length n : 0 <= n → zlen (zeros n) = n.
Proof. intros. unfold zeros, zlen. rewrite length_replicate. lia. Qed.

(** A larger allocation holds the same. *)
Lemma resize_content io n :
  wf io → len io <= n → 0 < n →
  wf (mg_iobuf_resize io n) ∧ content (mg_iobuf_resize io n) = content io
  ∧ size (mg_iobuf_resize io n) = n ∧ len (mg_iobuf_resize io n) = len io.
Proof.
  intros Hw Hn Hpos. unfold mg_iobuf_resize. rewrite (proj2 (Z.eqb_neq n 0)) by lia.
  destruct (Z.eqb_spec n (size io)) as [E|E]; cbn [negb]; [done|].
  rewrite (proj2 (Z.ltb_ge n (len io))) by lia. fold (content io).
  pose proof (content_length io Hw) as Hl. unfold wf in Hw.
  destruct (content_intro {| buf := content io ++ zeros (n - len io); len := len io |}
              (content io) (zeros (n - len io))) as [H1 H2]; [done|by rewrite Hl|].
  split; [done|]. split; [done|]. split; [|done]. unfold size. cbn [buf].
  rewrite zlen_app, zeros_length, Hl by lia. lia.
Qed.

(** Appending. *)
Lemma add_content io data chunk :
  wf io → 0 < chunk → len io + zlen data + chunk < 2 ^ 64 →
  ∃ io', mg_iobuf_add io (len io) data chunk = Ok (zlen data, io')
    ∧ wf io' ∧ content io' = content io ++ data.
Proof.
  intros Hw Hc Hlt. pose proof (zlen_nonneg data). unfold mg_iobuf_add.
  assert (0 <= len io) by apply Hw. rewrite (u64_id (len io + zlen data)) by lia.
  set (io1 := if size io <? len io + zlen data then _ else io).
  assert (H1 : wf io1 ∧ content io1 = content io ∧ len io1 = len io
    ∧ len io + zlen data <= size io1).
  { unfold io1. destruct (Z.ltb_spec (size io) (len io + zlen data)) as [Hlt'|Hge]; [|done].
    rewrite u64_id by lia.
    pose proof (Z.mod_pos_bound (len io + zlen data + chunk) chunk Hc) as Hm.
    destruct (resize_content io (len io + zlen data + chunk - (len io + zlen data + chunk) mod chunk))
      as (H1 & H2 & H3 & H4); [done|unfold wf in Hw; lia..|].
    rewrite H3, H4. split; [done|]. split; [done|]. split; [done|]. lia. }
  clearbody io1. destruct H1 as (Hw1 & Ec & El & Hsz).
  rewrite El, Z.ltb_irrefl. step_bind.
  destruct (content_split io1 Hw1) as (rest & Eb & Hr).
  rewrite Eb, Ec. rewrite El in Hr.
  assert (E : rest = take (Z.to_nat (zlen data)) rest ++ drop (Z.to_nat (zlen data)) rest)
    by (by rewrite take_drop).
  rewrite E. erewrite (wr_range_at _ (len io) (content io) _ _ data); [|reflexivity|..].
  - step_bind. eexists. split; [done|].
    match goal with |- wf ?io' ∧ _ => apply (content_intro io' (content io ++ data)
      (drop (Z.to_nat (zlen data)) rest)) end; cbn [buf len].
    + by rewrite <- app_assoc.
    + rewrite zlen_app, (content_length io Hw). done.
  - by rewrite (content_length io Hw).
  - rewrite zlen_take; lia.
Qed.

(** Removing. *)
Lemma del_content io ofs n :
  wf io → 0 <= ofs → 0 <= n → ofs + n <= len io →
  ∃ io', mg_iobuf_del io ofs n = Ok (n, io') ∧ wf io' ∧ size io' = size io
    ∧ content io' = take (Z.to_nat ofs) (content io) ++ drop (Z.to_nat (ofs + n)) (content io).
Proof.
  intros Hw Ho Hn Hle. pose proof (content_length io Hw) as Hl.
  destruct (content_split io Hw) as (rest & Eb & Hr). unfold mg_iobuf_del.
  rewrite (proj2 (Z.ltb_ge (len io) ofs)), (proj2 (Z.ltb_ge (len io) (ofs + n))) by lia.
  set (a := take (Z.to_nat ofs) (content io)). set (c := drop (Z.to_nat (ofs + n)) (content io)).
  assert (Ha : zlen a = ofs) by (apply zlen_take; lia).
  assert (Hcl : zlen c = len io - ofs - n) by (unfold c; rewrite zlen_drop; lia).
  assert (E : content io = a ++ take (Z.to_nat n) (drop (Z.to_nat ofs) (content io)) ++ c).
  { unfold a, c. replace (Z.to_nat (ofs + n)) with (Z.to_nat ofs + Z.to_nat n)%nat by lia.
    by rewrite <- drop_drop, !take_drop. }
  set (m := take (Z.to_nat n) (drop (Z.to_nat ofs) (content io))) in *.
  assert (Hm : zlen m = n) by (unfold m; rewrite zlen_take; [done|]; rewrite zlen_drop; lia).
  assert (Er : rd_range (buf io) (ofs + n) (len io - ofs - n) = Ok c).
  { rewrite Eb, E. replace (ofs + n) with (zlen (a ++ m)) by len.
    rewrite <- Hcl, app_assoc, <- app_assoc. apply rd_range_app. }
  rewrite Er. step_bind.
  set (mid := take (Z.to_nat (len io - ofs - n)) (m ++ c)).
  set (last := drop (Z.to_nat (len io - ofs - n)) (m ++ c)).
  assert (Hmid : zlen mid = zlen c) by (unfold mid; rewrite zlen_take; [lia|]; len).
  assert (Hlast : zlen last = n) by (unfold last; rewrite zlen_drop; len).
  rewrite (wr_range_at (buf io) ofs a mid (last ++ rest) c); [|..|done].
  2:{ rewrite Eb, E. unfold mid, last. rewrite (app_assoc _ _ rest), take_drop.
      by rewrite <- !app_assoc. }
  2:{ done. }
  step_bind.
  rewrite (wr_range_at _ (len io - n) (a ++ c) last rest (zeros n));
    [|by rewrite <- app_assoc|len|rewrite zeros_length; lia].
  step_bind. eexists. split; [done|].
  destruct (content_intro {| buf := (a ++ c) ++ zeros n ++ rest; len := len io - n |} (a ++ c)
              (zeros n ++ rest)) as [H1 H2]; [done|cbn; len|].
  split; [done|]. split; [|done]. unfold size. cbn [buf]. rewrite Eb, E.
  rewrite !zlen_app, zeros_length by lia. lia.
Qed.

(** ** Parts of what is stored *)

Lemma content_zlen io l : wf io → content io = l → len io = zlen l.
Proof. intros Hw <-. by rewrite content_length. Qed.

Lemma rd_range_content io a b c :
  wf io → content io = a ++ b ++ c → rd_range (buf io) (zlen a) (zlen b) = Ok b.
Proof.
  intros Hw E. destruct (content_split io Hw) as (rest & -> & _). rewrite E, <- !app_assoc.
  apply rd_range_app.
Qed.

Lemma rd_content io x l : wf io → content io = x :: l → rd (buf io) 0 = Ok x.
Proof. intros Hw E. destruct (content_split io Hw) as (rest & -> & _). by rewrite E. Qed.

Lemma wr_range_content io a b c b' :
  wf io → content io = a ++ b ++ c → zlen b' = zlen b →
  ∃ mem, wr_range (buf io) (zlen a) b' = Ok mem
    ∧ wf (mk_mg_iobuf mem (len io)) ∧ content (mk_mg_iobuf mem (len io)) = a ++ b' ++ c.
Proof.
  intros Hw E Hb. pose proof (content_zlen io _ Hw E) as Hl.
  destruct (content_split io Hw) as (rest & Eb & _). rewrite Eb, E, <- !app_assoc.
  eexists. split; [by apply wr_range_mid|].
  apply (content_intro _ _ rest); cbn [buf len]; [by rewrite <- !app_assoc|]. rewrite Hl. len.
Qed.

Lemma del_mid io a b c :
  wf io → content io = a ++ b ++ c →
  ∃ io', mg_iobuf_del io (zlen a) (zlen b) = Ok (zlen b, io') ∧ wf io' ∧ content io' = a ++ c.
Proof.
  intros Hw E. pose proof (content_zlen io _ Hw E) as Hl. rewrite !zlen_app in Hl.
  pose proof (zlen_nonneg a). pose proof (zlen_nonneg b). pose proof (zlen_nonneg c).
  destruct (del_content io (zlen a) (zlen b) Hw) as (io' & Ed & Hw' & _ & Ec); [lia..|].
  exists io'. split; [done|]. split; [done|]. rewrite Ec, E.
  rewrite <- zlen_app. unfold zlen. rewrite !Nat2Z.id, take_app_length.
  by rewrite app_assoc, drop_app_length.
Qed.
