(* ===== verification/MgWebsocket.v ===== *)
(** * MgWebsocket: frames of the websocket

    Models the part of the embedded library ([src/websocket/mongoose.cpp]) that
    [src/websocket/ws_client.cpp] speaks through: [ws_process], [mkhdr], [mg_ws_mask],
    [mg_ws_send], [mg_ws_cb] with [mg_http_get_request_len], and [read_conn] with
    [iolog].  The handler of the client is not run inside [mg_ws_cb]: the events are
    returned in order.  [mg_ws_cb] also runs [mg_http_parse] on the answer of the server
    and gives the result to the handler of the client, which does not look at it: the call
    is left out ([MgHttp] shows that it ends within the buffer on any bytes).  The four
    random bytes of a mask are a parameter. *)

From S2P Require Import Prelude.
From S2P Require Import MgIobuf.

(** ** The state *)

Record ws_msg := mk_ws_msg {
  flags : Z;
  header_len : Z;
  data_len : Z;
}.

Definition WEBSOCKET_OP_CONTINUE : Z := 0.
Definition WEBSOCKET_OP_TEXT : Z := 1.
Definition WEBSOCKET_OP_BINARY : Z := 2.
Definition WEBSOCKET_OP_CLOSE : Z := 8.
Definition WEBSOCKET_OP_PING : Z := 9.
Definition WEBSOCKET_OP_PONG : Z := 10.

Definition MG_IO_SIZE : Z := 2048.
Definition MG_MAX_RECV_BUF_SIZE : Z := 3 * 1024 * 1024.

(** What the handler of the user is called with.  The data of a message is a pointer
    and a length: [Fault] if the bytes are not all in the buffer. *)
Inductive mg_event : Type :=
| EV_WS_OPEN
| EV_WS_CTL (flags : Z)
| EV_WS_MSG (flags : Z) (data : outcome (list Z))
| EV_ERROR.

(** [drawn] counts the masks taken from the random generator. *)
Record mg_connection := mk_mg_connection {
  recv : mg_iobuf;
  send : mg_iobuf;
  pfn_data : Z;
  is_websocket : bool;
  is_client : bool;
  is_closing : bool;
  drawn : nat;
}.

Definition set_recv (c : mg_connection) (io : mg_iobuf) (ofs : Z) : mg_connection :=
  mk_mg_connection io (send c) ofs (is_websocket c) (is_client c) (is_closing c) (drawn c).

Definition set_send (c : mg_connection) (io : mg_iobuf) (n : nat) : mg_connection :=
  mk_mg_connection (recv c) io (pfn_data c) (is_websocket c) (is_client c) (is_closing c) n.

Definition set_closing (c : mg_connection) : mg_connection :=
  mk_mg_connection (recv c) (send c) (pfn_data c) (is_websocket c) (is_client c) true (drawn c).

Definition set_websocket (c : mg_connection) : mg_connection :=
  mk_mg_connection (recv c) (send c) (pfn_data c) true (is_client c) (is_closing c) (drawn c).

(** [p[i] ^= mask[i & 3]]. *)
Definition xor_mask (mask data : list Z) : list Z :=
  imap (λ i b, Z.lxor b (nth (Z.to_nat (Z.land (Z.of_nat i) 3)) mask 0)) data.

(** ** Reading a frame

    [b] is the [len] bytes at [buf]; they are unmasked in place. *)
Definition ws_header (b : list Z) : outcome (Z * ws_msg) :=
  let l := zlen b in
  if 2 <=? l then
    b0 ← rd b 0;
    b1 ← rd b 1;
    let n := Z.land b1 127 in
    let mask_len := if Z.land b1 128 =? 0 then 0 else 4 in
    if (n <? 126) && (mask_len <=? l) then Ok (mask_len, mk_ws_msg b0 (2 + mask_len) n)
    else if (n =? 126) && (4 + mask_len <=? l) then
      d ← rd_be16 b 2; Ok (mask_len, mk_ws_msg b0 (4 + mask_len) d)
    else if 10 + mask_len <=? l then
      hi ← rd_be32 b 2; lo ← rd_be32 b 6;
      Ok (mask_len, mk_ws_msg b0 (10 + mask_len) (u64 (Z.shiftl hi 32 + lo)))
    else Ok (mask_len, mk_ws_msg b0 0 0)
  else Ok (0, mk_ws_msg 0 0 0).

Definition ws_process (b : list Z) : outcome (Z * (ws_msg * list Z)) :=
  r ← ws_header b;
  let '(mask_len, msg) := r in
  if 1024 * 1024 * 1024 <? data_len msg then Ok (0, (msg, b)) else
  if zlen b <? header_len msg + data_len msg then Ok (0, (msg, b)) else
  b ← (if 0 <? mask_len then
         mask ← (if data_len msg =? 0 then Ok [] else rd_range b (header_len msg - mask_len) 4);
         data ← rd_range b (header_len msg) (data_len msg);
         wr_range b (header_len msg) (xor_mask mask data)
       else Ok b);
  Ok (header_len msg + data_len msg, (msg, b)).

(** ** Writing a frame *)

Section sending.
Context (mg_random : nat → list Z).

Definition mkhdr (l op : Z) (client : bool) (drawn : nat) : list Z * nat :=
  let b0 := u8 (Z.lor op 128) in
  let hdr :=
    if l <? 126 then [b0; u8 l]
    else if l <? 65536 then [b0; 126] ++ be16_bytes (u16 l)
    else [b0; 127] ++ be32_bytes (u32 (Z.shiftr l 32)) ++ be32_bytes (Z.land l 4294967295) in
  if client then
    (match hdr with
     | b0 :: b1 :: rest => b0 :: Z.lor b1 (Z.shiftl 1 7) :: rest
     | _ => hdr
     end ++ mg_random drawn, S drawn)
  else (hdr, drawn).

Definition mg_send (c : mg_connection) (data : list Z) : outcome mg_connection :=
  r ← mg_iobuf_add (send c) (len (send c)) data MG_IO_SIZE; Ok (set_send c r.2 (drawn c)).

Definition mg_ws_mask (c : mg_connection) (n : Z) : outcome mg_connection :=
  if is_client c && negb (size (send c) =? 0) then
    let p := len (send c) - n in
    mask ← (if n =? 0 then Ok [] else rd_range (buf (send c)) (p - 4) 4);
    data ← rd_range (buf (send c)) p n;
    b ← wr_range (buf (send c)) p (xor_mask mask data);
    Ok (set_send c (mk_mg_iobuf b (len (send c))) (drawn c))
  else Ok c.

Definition mg_ws_send (c : mg_connection) (data : list Z) (op : Z) : outcome (Z * mg_connection) :=
  let '(header, n) := mkhdr (zlen data) op (is_client c) (drawn c) in
  c ← mg_send (set_send c (send c) n) header;
  c ← mg_send c data;
  c ← mg_ws_mask c (zlen data);
  Ok (zlen header + zlen data, c).

(** ** Receiving *)

(** The [switch] over the opcode; [s] are the data of the frame. *)
Definition ws_dispatch (c : mg_connection) (msg : ws_msg) (s : outcome (list Z))
    : outcome (list mg_event * mg_connection) :=
  let final := Z.land (flags msg) 128 in
  let op := Z.land (flags msg) 15 in
  if op =? WEBSOCKET_OP_CONTINUE then Ok ([EV_WS_CTL (flags msg)], c)
  else if op =? WEBSOCKET_OP_PING then
    data ← s;
    r ← mg_ws_send c data WEBSOCKET_OP_PONG;
    Ok ([EV_WS_CTL (flags msg)], r.2)
  else if op =? WEBSOCKET_OP_PONG then Ok ([EV_WS_CTL (flags msg)], c)
  else if (op =? WEBSOCKET_OP_TEXT) || (op =? WEBSOCKET_OP_BINARY) then
    Ok (if negb (final =? 0) then [EV_WS_MSG (flags msg) s] else [], c)
  else if op =? WEBSOCKET_OP_CLOSE then Ok ([EV_WS_CTL (flags msg)], set_closing c)
  else Ok ([EV_ERROR], set_closing c).

(** What is left of the frame in the buffer, and the message its last fragment ends. *)
Definition ws_strip (c : mg_connection) (msg : ws_msg) : outcome (list mg_event * mg_connection) :=
  let ofs := pfn_data c in
  let l := header_len msg + data_len msg in
  let final := Z.land (flags msg) 128 in
  let op := Z.land (flags msg) 15 in
  r ← (if (final =? 0) || (op =? 0) then
         let '(ofs, l, hl) :=
           if negb (op =? 0) then (ofs + 1, l - 1, header_len msg - 1) else (ofs, l, header_len msg) in
         d ← mg_iobuf_del (recv c) ofs hl;
         let ofs := ofs + (l - hl) in
         Ok (ofs, set_recv c d.2 ofs)
       else Ok (ofs, c));
  let '(ofs, c) := r in
  c ← (if negb (final =? 0) && negb (op =? 0)
       then d ← mg_iobuf_del (recv c) ofs l; Ok (set_recv c d.2 (pfn_data c))
       else Ok c);
  if negb (final =? 0) && (op =? 0) then
    f ← rd (buf (recv c)) 0;
    let m := EV_WS_MSG f (rd_range (buf (recv c)) 1 (u64 (ofs - 1))) in
    d ← mg_iobuf_del (recv c) 0 ofs;
    Ok ([m], set_recv c d.2 0)
  else Ok ([], c).

(** One turn of the [while] of [mg_ws_cb]; [None] when no frame is complete. *)
Definition ws_turn (c : mg_connection) : outcome (option (list mg_event * mg_connection)) :=
  let ofs := pfn_data c in
  b ← rd_range (buf (recv c)) ofs (len (recv c) - ofs);
  r ← ws_process b;
  let '(n, (msg, b)) := r in
  if n <=? 0 then Ok None else
  mem ← wr_range (buf (recv c)) ofs b;
  let c := set_recv c (mk_mg_iobuf mem (len (recv c))) ofs in
  r ← ws_dispatch c msg (rd_range mem (ofs + header_len msg) (data_len msg));
  let '(evs, c) := r in
  r ← ws_strip c msg;
  Ok (Some (evs ++ r.1, r.2)).

Fixpoint ws_loop (fuel : nat) (c : mg_connection) : outcome (list mg_event * mg_connection) :=
  match fuel with
  | O => Hang
  | S fuel =>
      r ← ws_turn c;
      match r with
      | None => Ok ([], c)
      | Some (evs, c) => r ← ws_loop fuel c; Ok (evs ++ r.1, r.2)
      end
  end.

Definition isok (c : Z) : bool := (c =? 10) || (c =? 13) || (32 <=? c).

(** From index [i] on; [b1] and [b2] are the bytes before it, the nearest first. *)
Fixpoint request_len_loop (b : list Z) (i b1 b2 : Z) : Z :=
  match b with
  | [] => 0
  | x :: b =>
      if negb (isok x) then -1
      else if ((0 <? i) && (x =? 10) && (b1 =? 10))
              || ((3 <? i) && (x =? 10) && (b1 =? 13) && (b2 =? 10)) then i + 1
      else request_len_loop b (i + 1) x b1
  end.

Definition mg_http_get_request_len (b : list Z) : Z := request_len_loop b 0 0 0.

(** [mg_ws_cb] on [MG_EV_READ]. *)
Definition mg_ws_cb (c : mg_connection) : outcome (list mg_event * mg_connection) :=
  if negb (is_websocket c) && is_client c then
    data ← rd_range (buf (recv c)) 0 (len (recv c));
    let n := mg_http_get_request_len data in
    if n <? 0 then ws_loop (S (Z.to_nat (len (recv c)))) (set_closing c)
    else if 0 <? n then
      status ← (if n <? 15 then Ok [] else rd_range data 9 3);
      let '(evs, c) :=
        if bool_decide (status = [49; 48; 49]) then ([EV_WS_OPEN], set_websocket c)
        else ([], set_closing c) in
      d ← mg_iobuf_del (recv c) 0 n;
      let c := set_recv c d.2 (pfn_data c) in
      r ← ws_loop (S (Z.to_nat (len (recv c)))) c;
      Ok (evs ++ r.1, r.2)
    else Ok ([], c)
  else ws_loop (S (Z.to_nat (len (recv c)))) c.

(** [read_conn] when [data] is what the socket delivers, at most the room there is;
    [iolog] raises [MG_EV_READ]. *)
Definition read_conn (c : mg_connection) (data : list Z) : outcome (list mg_event * mg_connection) :=
  if MG_MAX_RECV_BUF_SIZE <=? len (recv c) then Ok ([EV_ERROR], set_closing c) else
  let io := if size (recv c) - len (recv c) <? MG_IO_SIZE
            then mg_iobuf_resize (recv c) (size (recv c) + MG_IO_SIZE) else recv c in
  b ← wr_range (buf io) (len io) data;
  mg_ws_cb (set_recv c (mk_mg_iobuf b (len io + zlen data)) (pfn_data c)).
End sending.

(** ** Frames *)

Record frame := mk_frame {
  f_final : bool;
  f_op : Z;
  f_key : option (list Z);
  f_data : list Z;
}.

Definition frame_flags (f : frame) : Z := f_op f + if f_final f then 128 else 0.

Definition masked (f : frame) : list Z :=
  match f_key f with Some k => xor_mask k (f_data f) | None => f_data f end.

Definition key_bytes (f : frame) : list Z := match f_key f with Some k => k | None => [] end.

(** The length in seven bits, in sixteen, or in sixty-four; [m] is the mask bit. *)
Definition len_field (m l : Z) : list Z :=
  if l <? 126 then [l + m]
  else if l <? 65536 then [126 + m] ++ be16_bytes l
  else [127 + m] ++ be32_bytes 0 ++ be32_bytes l.

Definition mask_bit (f : frame) : Z := match f_key f with Some _ => 128 | None => 0 end.

Definition frame_header (f : frame) : list Z :=
  [frame_flags f] ++ len_field (mask_bit f) (zlen (f_data f)) ++ key_bytes f.

Definition frame_bytes (f : frame) : list Z := frame_header f ++ masked f.

Definition frame_ok (f : frame) : Prop :=
  0 <= f_op f < 16 ∧ zlen (f_data f) <= 2 ^ 30
  ∧ match f_key f with Some k => zlen k = 4 | None => True end.

Definition frame_msg (f : frame) : ws_msg :=
  mk_ws_msg (frame_flags f) (zlen (frame_header f)) (zlen (f_data f)).

(** *** The mask *)

Lemma xor_mask_length k l : zlen (xor_mask k l) = zlen l.
Proof. unfold xor_mask, zlen. by rewrite length_imap. Qed.

Lemma xor_mask_involutive k l : xor_mask k (xor_mask k l) = l.
Proof.
  unfold xor_mask. rewrite imap_imap, <- (imap_id l) at 1 || idtac.
  apply list_eq. intros i. rewrite !list_lookup_imap. destruct (l !! i) as [b|]; [|done].
  cbn. by rewrite Z.lxor_assoc, Z.lxor_nilpotent, Z.lxor_0_r.
Qed.

Lemma masked_length f : zlen (masked f) = zlen (f_data f).
Proof. unfold masked. destruct (f_key f); [apply xor_mask_length|done]. Qed.

Lemma frame_length f : zlen (frame_bytes f) = zlen (frame_header f) + zlen (f_data f).
Proof. unfold frame_bytes. by rewrite zlen_app, masked_length. Qed.

(** *** The header *)

Lemma seven_bits : ∀ l, 0 <= l < 128 → Z.land l 127 = l ∧ Z.land l 128 = 0
  ∧ Z.land (l + 128) 127 = l ∧ Z.land (l + 128) 128 = 128.
Proof. by_table. Qed.

Definition mask_size (f : frame) : Z := match f_key f with Some _ => 4 | None => 0 end.

Lemma key_size f : frame_ok f → zlen (key_bytes f) = mask_size f.
Proof. intros (_ & _ & Hk). unfold key_bytes, mask_size. by destruct (f_key f). Qed.

(** The second byte of a header: the length, and the bit of the mask. *)
Lemma length_byte f n : 0 <= n < 128 →
  Z.land (n + mask_bit f) 127 = n
  ∧ (if Z.land (n + mask_bit f) 128 =? 0 then 0 else 4) = mask_size f.
Proof.
  intros Hn. destruct (seven_bits n Hn) as (B1 & B2 & B3 & B4). unfold mask_bit, mask_size.
  destruct (f_key f); [by rewrite B3, B4|]. by rewrite Z.add_0_r, B1, B2.
Qed.

(** Reading the first two bytes of a frame, the second of which is [n] and the bit. *)
Ltac read_length f n :=
  let E1 := fresh "E1" in let E2 := fresh "E2" in
  destruct (length_byte f n) as [E1 E2]; [lia|];
  cbn [app]; step rd_cons_0; (step (rd_cons_S _ _ 1) by lia); step rd_cons_0; rewrite E1, E2.

(** What is read of the header when [p] is all there is of a frame, and perhaps more: all
    of it, or nothing yet. *)
Lemma ws_header_prefix f p q rest :
  frame_ok f → frame_bytes f ++ rest = p ++ q →
  ∃ k m, ws_header p = Ok (k, m)
    ∧ ((header_len m = 0 ∧ data_len m = 0 ∧ zlen p < zlen (frame_header f))
       ∨ (k = mask_size f ∧ m = frame_msg f)).
Proof.
  intros Hok E. pose proof (key_size f Hok) as Hk. destruct Hok as (Hop & Hl & _).
  set (l := zlen (f_data f)) in *. assert (0 <= l) by apply zlen_nonneg.
  unfold ws_header. destruct (Z.leb_spec 2 (zlen p)) as [H2|H2].
  2:{ exists 0, (mk_ws_msg 0 0 0). split; [done|]. left. split; [done|]. split; [done|].
      unfold frame_header, len_field. repeat case_match; len. }
  assert (Hrd : ∀ i, i < zlen p → rd p i = rd (frame_bytes f ++ rest) i)
    by (intros i Hi; by rewrite E, rd_app_l).
  assert (H16 : ∀ i, i + 1 < zlen p → rd_be16 p i = rd_be16 (frame_bytes f ++ rest) i)
    by (intros i Hi; by rewrite E, rd_be16_app_l).
  assert (H32 : ∀ i, i + 3 < zlen p → rd_be32 p i = rd_be32 (frame_bytes f ++ rest) i)
    by (intros i Hi; by rewrite E, rd_be32_app_l).
  rewrite !Hrd by lia. unfold frame_msg, frame_bytes, frame_header in *. fold l in E, Hrd, H16, H32 |- *.
  assert (Hm : mask_size f = 0 ∨ mask_size f = 4) by (unfold mask_size; destruct (f_key f); auto).
  unfold len_field in *. destruct (Z.ltb_spec l 126) as [L1|L1]; [|destruct (Z.ltb_spec l 65536) as [L2|L2]].
  - read_length f l. rewrite (proj2 (Z.ltb_lt l 126)) by lia. cbn [andb].
    destruct (Z.leb_spec (mask_size f) (zlen p)).
    + do 2 eexists. split; [done|]. right. split; [done|]. f_equal. len.
    + rewrite (proj2 (Z.eqb_neq l 126)), (proj2 (Z.leb_gt (10 + mask_size f) (zlen p))) by lia.
      cbn [andb].
      do 2 eexists. split; [done|]. left. split; [done|]. split; [done|]. len.
  - read_length f 126. cbn [Z.ltb Z.eqb Z.compare Pos.compare Pos.compare_cont Pos.eqb andb].
    destruct (Z.leb_spec (4 + mask_size f) (zlen p)).
    + rewrite H16 by lia.
      match goal with |- context [rd_be16 ?b 2] =>
        change b with ([frame_flags f; 126 + mask_bit f] ++ be16_bytes l
                       ++ (key_bytes f ++ masked f) ++ rest) end.
      step (be16_at [frame_flags f; 126 + mask_bit f] l _ 2 eq_refl ltac:(lia)).
      do 2 eexists. split; [done|]. right. split; [done|]. f_equal. len.
    + rewrite (proj2 (Z.leb_gt (10 + mask_size f) (zlen p))) by lia.
      do 2 eexists. split; [done|]. left. split; [done|]. split; [done|]. len.
  - read_length f 127. cbn [Z.ltb Z.eqb Z.compare Pos.compare Pos.compare_cont Pos.eqb andb].
    destruct (Z.leb_spec (10 + mask_size f) (zlen p)).
    + rewrite !H32 by lia.
      match goal with |- context [rd_be32 ?b 2] =>
        change b with ([frame_flags f; 127 + mask_bit f] ++ be32_bytes 0
                       ++ ((be32_bytes l ++ key_bytes f) ++ masked f) ++ rest) end.
      step (be32_at [frame_flags f; 127 + mask_bit f] 0 _ 2 eq_refl ltac:(lia)).
      match goal with |- context [rd_be32 ?b 6] =>
        change b with (([frame_flags f; 127 + mask_bit f] ++ be32_bytes 0) ++ be32_bytes l
                       ++ ((key_bytes f ++ masked f) ++ rest)) end.
      step (be32_at ([frame_flags f; 127 + mask_bit f] ++ be32_bytes 0) l _ 6 eq_refl ltac:(lia)).
      do 2 eexists. split; [done|]. right. split; [done|].
      rewrite Z.shiftl_0_l, Z.add_0_l, u64_id by lia. f_equal. len.
    + do 2 eexists. split; [done|]. left. split; [done|]. split; [done|]. len.
Qed.

(** A whole frame is taken off, and unmasked in place. *)
Lemma ws_process_whole f rest :
  frame_ok f →
  ws_process (frame_bytes f ++ rest)
  = Ok (zlen (frame_bytes f), (frame_msg f, frame_header f ++ f_data f ++ rest)).
Proof.
  intros Hok. pose proof (zlen_nonneg rest). pose proof (zlen_nonneg (f_data f)).
  destruct (ws_header_prefix f (frame_bytes f ++ rest) [] rest Hok) as (k & m & E & [H1|[-> ->]]).
  { by rewrite app_nil_r. }
  { rewrite zlen_app, frame_length in H1. lia. }
  unfold ws_process. step E. cbn [data_len header_len frame_msg].
  rewrite zlen_app, frame_length. destruct Hok as (Hop & Hl & Hkey).
  rewrite (proj2 (Z.ltb_ge _ (zlen (f_data f)))) by lia. rewrite (proj2 (Z.ltb_ge _ (_ + _))) by lia.
  unfold frame_bytes. rewrite <- app_assoc. set (h := frame_header f).
  destruct (f_key f) as [key|] eqn:Ek; unfold mask_size; rewrite Ek; cbn [Z.ltb Z.compare].
  2:{ step_bind. unfold masked. by rewrite Ek. }
  assert (Em : masked f = xor_mask key (f_data f)) by (unfold masked; by rewrite Ek).
  assert (Eh : ∃ h0, h = h0 ++ key).
  { eexists ([_] ++ _). unfold h, frame_header, key_bytes. rewrite Ek. by rewrite app_assoc. }
  destruct Eh as [h0 Eh].
  assert (Ekey : ∃ mask, (if zlen (f_data f) =? 0 then Ok []
                  else rd_range (h ++ masked f ++ rest) (zlen h - 4) 4) = Ok mask
               ∧ xor_mask mask (masked f) = f_data f).
  { rewrite Em. destruct (Z.eqb_spec (zlen (f_data f)) 0) as [E0|E0].
    - exists []. split; [done|]. unfold zlen in E0. by destruct (f_data f).
    - exists key. split; [|apply xor_mask_involutive]. rewrite Eh.
      replace (zlen (h0 ++ key) - 4) with (zlen h0) by len. rewrite <- app_assoc, <- Hkey.
      apply rd_range_app. }
  destruct Ekey as (mask & Er & Ex). step Er.
  rewrite <- (masked_length f). step (rd_range_app h (masked f) rest).
  rewrite Ex, (wr_range_mid h (masked f) rest) by (by rewrite masked_length). by step_bind.
Qed.

(** Nothing is done about a frame that is not complete. *)
Lemma ws_process_partial f p q :
  frame_ok f → frame_bytes f = p ++ q → q ≠ [] → ∃ m, ws_process p = Ok (0, (m, p)).
Proof.
  intros Hok E Hq. assert (0 < zlen q) by (destruct q; [done|len]).
  destruct (ws_header_prefix f p q [] Hok) as (k & m & Em & Hm); [by rewrite app_nil_r|].
  pose proof (frame_length f) as Hfl. rewrite E, zlen_app in Hfl. pose proof (zlen_nonneg p).
  exists m. unfold ws_process. step Em. destruct Hm as [(E1 & E2 & _)|[_ ->]].
  - rewrite E1, E2. do 2 dec_if. destruct (0 <? k); [|done]. step_bind.
    rewrite rd_range_in by lia. cbn [Z.eqb]. step_bind. change (xor_mask [] _) with (@nil Z).
    unfold wr_range. rewrite (@zlen_nil Z). by repeat dec_if.
  - cbn [data_len header_len frame_msg]. destruct Hok as (_ & Hl & _).
    rewrite (proj2 (Z.ltb_ge _ (zlen (f_data f)))) by lia. by rewrite (proj2 (Z.ltb_lt (zlen p) _)) by lia.
Qed.

(** ** Sending *)

Section sending_lemmas.
Context (mg_random : nat → list Z).
Hypothesis random_four : ∀ n, zlen (mg_random n) = 4.

(** The frame that [mg_ws_send] writes. *)
Definition sent_frame (c : mg_connection) (data : list Z) (op : Z) : frame :=
  mk_frame true op (if is_client c then Some (mg_random (drawn c)) else None) data.

Lemma lor_op : ∀ op, 0 <= op < 16 → u8 (Z.lor op 128) = op + 128.
Proof. by_table. Qed.

Lemma lor_len : ∀ l, 0 <= l < 128 → Z.lor l 128 = l + 128.
Proof. by_table. Qed.

Lemma mkhdr_frame c data op :
  0 <= op < 16 → zlen data <= 2 ^ 30 →
  mkhdr mg_random (zlen data) op (is_client c) (drawn c)
  = (frame_header (sent_frame c data op), if is_client c then S (drawn c) else drawn c).
Proof.
  intros Hop Hl. unfold mkhdr, frame_header, sent_frame, frame_flags, mask_bit, key_bytes, len_field.
  cbn [f_op f_final f_key f_data]. rewrite lor_op by done.
  set (l := zlen data) in *. assert (0 <= l) by apply zlen_nonneg.
  destruct (Z.ltb_spec l 126) as [L1|L1]; [|destruct (Z.ltb_spec l 65536) as [L2|L2]].
  - rewrite u8_id by (unfold is_byte; lia). change (Z.shiftl 1 7) with 128.
    destruct (is_client c); cbn [app]; [by rewrite lor_len by lia|by rewrite Z.add_0_r].
  - rewrite u16_id by lia. by destruct (is_client c).
  - assert (Eh : u32 (Z.shiftr l 32) = 0).
    { rewrite Z.shiftr_div_pow2 by lia. by rewrite Z.div_small by lia. }
    assert (El : Z.land l 4294967295 = l).
    { change 4294967295 with (Z.ones 32). rewrite Z.land_ones by lia. apply Z.mod_small. lia. }
    rewrite Eh, El. by destruct (is_client c).
Qed.

Lemma mg_send_content c data :
  wf (send c) → len (send c) + zlen data < 2 ^ 40 →
  ∃ io, mg_send c data = Ok (set_send c io (drawn c)) ∧ wf io ∧ content io = content (send c) ++ data.
Proof.
  intros Hw Hl. destruct (add_content (send c) data MG_IO_SIZE Hw) as (io & E & Hw' & Ec);
    [done|unfold MG_IO_SIZE; lia|].
  exists io. unfold mg_send. by step E.
Qed.

(** What is appended to the bytes to be sent is one frame with the data, masked when
    the client sends it. *)
Lemma mg_ws_send_frame c data op :
  wf (send c) → len (send c) < 2 ^ 32 → 0 <= op < 16 → zlen data <= 2 ^ 30 →
  ∃ io, mg_ws_send mg_random c data op
      = Ok (zlen (frame_bytes (sent_frame c data op)),
            set_send c io (if is_client c then S (drawn c) else drawn c))
    ∧ wf io ∧ content io = content (send c) ++ frame_bytes (sent_frame c data op).
Proof.
  intros Hw Hlen Hop Hl. pose proof (zlen_nonneg data). unfold mg_ws_send.
  rewrite mkhdr_frame by done. set (f := sent_frame c data op). set (n := if is_client c then _ else _).
  assert (Hok : frame_ok f).
  { split; [done|]. split; [done|]. unfold f, sent_frame. cbn. by destruct (is_client c). }
  assert (Hh : 2 <= zlen (frame_header f) <= 14).
  { unfold frame_header. rewrite !zlen_app, key_size by done. unfold mask_size, len_field.
    destruct (f_key f); repeat case_match; len. }
  set (c1 := set_send c (send c) n).
  destruct (mg_send_content c1 (frame_header f)) as (io1 & E1 & Hw1 & Ec1); [done|cbn [send set_send c1]; lia|].
  step E1. pose proof (content_length io1 Hw1) as Hl1. pose proof (content_length _ Hw) as Hl0.
  cbn [send c1 set_send] in Ec1. rewrite Ec1, zlen_app, Hl0 in Hl1.
  set (c2 := set_send c1 io1 (drawn c1)).
  destruct (mg_send_content c2 data) as (io2 & E2 & Hw2 & Ec2); [done|cbn [send set_send c1 c2]; lia|].
  step E2. pose proof (content_length io2 Hw2) as Hl2.
  cbn [send c2 set_send] in Ec2. rewrite Ec2, Ec1, !zlen_app, Hl0 in Hl2.
  destruct (content_split io2 Hw2) as (rest & Eb & Hr). rewrite Ec2, Ec1 in Eb.
  unfold mg_ws_mask. cbn [send set_send is_client c2 c1].
  rewrite frame_length. change (f_data f) with data.
  destruct (is_client c) eqn:Ecl; cbn [andb].
  2:{ step_bind. exists io2. split; [done|]. split; [done|]. rewrite Ec2, Ec1, <- app_assoc.
      unfold frame_bytes, masked. unfold f, sent_frame. by rewrite Ecl. }
  set (key := mg_random (drawn c)).
  assert (Ek : f_key f = Some key) by (unfold f, sent_frame; by rewrite Ecl).
  assert (Eh : ∃ h0, frame_header f = h0 ++ key).
  { eexists ([_] ++ _). unfold frame_header, key_bytes. rewrite Ek. by rewrite app_assoc. }
  destruct Eh as [h0 Eh].
  rewrite (proj2 (Z.eqb_neq (size io2) 0)) by (unfold wf in Hw2, Hw; lia). cbn [negb].
  assert (Ep : len io2 - zlen data = zlen (content (send c) ++ frame_header f)) by len.
  rewrite Ep.
  assert (Ekey : ∃ mask, (if zlen data =? 0 then Ok []
      else rd_range (buf io2) (zlen (content (send c) ++ frame_header f) - 4) 4) = Ok mask
      ∧ xor_mask mask data = xor_mask key data).
  { destruct (Z.eqb_spec (zlen data) 0) as [E0|E0].
    - exists []. split; [done|]. unfold zlen in E0. by destruct data.
    - exists key. split; [|done]. rewrite Eb, Eh. pose proof (random_four (drawn c)) as H4. fold key in H4.
      replace (zlen (content (send c) ++ h0 ++ key) - 4) with (zlen (content (send c) ++ h0)) by len.
      rewrite <- H4, !app_assoc, <- (app_assoc _ data rest), <- (app_assoc _ key _). apply rd_range_app. }
  destruct Ekey as (mask & Er & Ex). step Er. rewrite Eb, <- (app_assoc _ data rest).
  step (rd_range_app (content (send c) ++ frame_header f) data rest).
  rewrite Ex, (wr_range_mid _ data rest (xor_mask key data)) by apply xor_mask_length. step_bind.
  eexists. split; [done|].
  apply (content_intro _ (content (send c) ++ frame_bytes f) rest); cbn [buf len].
  - unfold frame_bytes, masked. rewrite Ek. by rewrite <- !app_assoc.
  - rewrite zlen_app, frame_length. change (f_data f) with data. lia.
Qed.
End sending_lemmas.

(** ** What a stream of frames means *)

(** A message of which only some fragments have come: its flags and data. *)
Definition ws_state : Type := option (Z * list Z).

Definition pending (st : ws_state) : list Z :=
  match st with Some (f, d) => f :: d | None => [] end.

(** The state after the frame, the events, and the data of the pongs sent. *)
Definition ws_spec (st : ws_state) (f : frame) : ws_state * (list mg_event * list (list Z)) :=
  let ctl := EV_WS_CTL (frame_flags f) in
  if f_op f =? WEBSOCKET_OP_CONTINUE then
    match st with
    | Some (flags, d) =>
        if f_final f then (None, ([ctl; EV_WS_MSG flags (Ok (d ++ f_data f))], []))
        else (Some (flags, d ++ f_data f), ([ctl], []))
    | None => (None, ([], []))
    end
  else if f_op f =? WEBSOCKET_OP_PING then (st, ([ctl], [f_data f]))
  else if f_op f =? WEBSOCKET_OP_PONG then (st, ([ctl], []))
  else if f_final f then (st, ([EV_WS_MSG (frame_flags f) (Ok (f_data f))], []))
  else (Some (frame_flags f, f_data f), ([], [])).

(** The frames of a peer that keeps to the protocol, but for the end of the connection. *)
Definition allowed (st : ws_state) (f : frame) : Prop :=
  (f_op f = WEBSOCKET_OP_CONTINUE ∧ is_Some st)
  ∨ ((f_op f = WEBSOCKET_OP_PING ∨ f_op f = WEBSOCKET_OP_PONG) ∧ f_final f = true)
  ∨ ((f_op f = WEBSOCKET_OP_TEXT ∨ f_op f = WEBSOCKET_OP_BINARY) ∧ (f_final f = true ∨ st = None)).

Section receiving.
Context (mg_random : nat → list Z).
Hypothesis random_four : ∀ n, zlen (mg_random n) = 4.

(** The bytes of the pongs with these data, from the [n]th mask on. *)
Fixpoint pong_bytes (client : bool) (n : nat) (l : list (list Z)) : list Z :=
  match l with
  | [] => []
  | d :: l =>
      frame_bytes (mk_frame true WEBSOCKET_OP_PONG (if client then Some (mg_random n) else None) d)
        ++ pong_bytes client (if client then S n else n) l
  end.

(** The connection holds the fragments of [st] and, behind them, the bytes [rest]. *)
Record holding (st : ws_state) (rest : list Z) (c : mg_connection) : Prop := {
  hold_recv : wf (recv c);
  hold_content : content (recv c) = pending st ++ rest;
  hold_ofs : pfn_data c = zlen (pending st);
  hold_send : wf (send c);
  hold_small : zlen (pending st) < 2 ^ 32;
}.

(** [c'] comes from [c] and has answered the pings. *)
Record answered (c c' : mg_connection) (pongs : list (list Z)) : Prop := {
  ans_client : is_client c' = is_client c;
  ans_websocket : is_websocket c' = is_websocket c;
  ans_closing : is_closing c' = is_closing c;
  ans_sent : content (send c') = content (send c) ++ pong_bytes (is_client c) (drawn c) pongs;
  ans_drawn : drawn c' = if is_client c then (drawn c + length pongs)%nat else drawn c;
}.

Lemma answered_nothing c io ofs : answered c (set_recv c io ofs) [].
Proof. split; cbn; [done..|by rewrite app_nil_r|by destruct (is_client c); rewrite ?Nat.add_0_r]. Qed.

Lemma flags_parts f : frame_ok f →
  Z.land (frame_flags f) 15 = f_op f
  ∧ Z.land (frame_flags f) 128 = if f_final f then 128 else 0.
Proof.
  intros (Hop & _). unfold frame_flags.
  assert (H : ∀ o, 0 <= o < 16 → Z.land (o + 0) 15 = o ∧ Z.land (o + 0) 128 = 0
    ∧ Z.land (o + 128) 15 = o ∧ Z.land (o + 128) 128 = 128) by by_table.
  specialize (H _ Hop). destruct (f_final f); tauto.
Qed.

(** Taking the frame off: what [ws_turn] does before it looks at the opcode. *)
Lemma ws_turn_frame st f rest c :
  holding st (frame_bytes f ++ rest) c → frame_ok f →
  ∃ mem, let io := mk_mg_iobuf mem (len (recv c)) in
    rd_range (buf (recv c)) (pfn_data c) (len (recv c) - pfn_data c) = Ok (frame_bytes f ++ rest)
    ∧ wr_range (buf (recv c)) (pfn_data c) (frame_header f ++ f_data f ++ rest) = Ok mem
    ∧ wf io ∧ content io = pending st ++ frame_header f ++ f_data f ++ rest
    ∧ rd_range mem (pfn_data c + zlen (frame_header f)) (zlen (f_data f)) = Ok (f_data f).
Proof.
  intros [Hw Ec Eo _ _] Hok. pose proof (content_zlen _ _ Hw Ec) as Hl. rewrite zlen_app in Hl.
  rewrite Eo, Hl. replace (zlen (pending st) + _ - zlen (pending st)) with (zlen (frame_bytes f ++ rest)) by lia.
  assert (Ec' : content (recv c) = pending st ++ (frame_bytes f ++ rest) ++ []) by (by rewrite app_nil_r).
  destruct (wr_range_content (recv c) (pending st) (frame_bytes f ++ rest) []
              (frame_header f ++ f_data f ++ rest) Hw Ec') as (mem & E & Hw' & Ec2).
  { rewrite !zlen_app, frame_length. lia. }
  rewrite app_nil_r in Ec2. rewrite Hl in Hw', Ec2.
  exists mem. split; [by apply (rd_range_content _ _ _ [])|]. split; [done|]. split; [done|].
  split; [done|]. rewrite <- zlen_app.
  apply (rd_range_content _ (pending st ++ frame_header f) (f_data f) rest Hw').
  by rewrite Ec2, <- !app_assoc.
Qed.

(** The buffer is all that [ws_strip] changes. *)
Definition stripped (c : mg_connection) (st : ws_state) (rest : list Z)
    (evs : list mg_event) (r : outcome (list mg_event * mg_connection)) : Prop :=
  ∃ io ofs, r = Ok (evs, set_recv c io ofs) ∧ holding st rest (set_recv c io ofs).

Lemma header_head f : frame_header f = frame_flags f :: drop 1 (frame_header f).
Proof. done. Qed.

Lemma header_long f : 2 <= zlen (frame_header f).
Proof. unfold frame_header, len_field. repeat case_match; len. Qed.

Lemma header_tail f : zlen (drop 1 (frame_header f)) = zlen (frame_header f) - 1.
Proof. rewrite (header_head f) at 2. len. Qed.

Section strip.
Context (st : ws_state) (f : frame) (rest : list Z) (c : mg_connection).
Hypothesis Hold : holding st (frame_header f ++ f_data f ++ rest) c.
Hypothesis Hok : frame_ok f.
Hypothesis Hsmall : zlen (pending st) + zlen (frame_bytes f) < 2 ^ 32.

Lemma strip_whole :
  f_final f = true → f_op f ≠ 0 → stripped c st rest [] (ws_strip c (frame_msg f)).
Proof using Hold Hok Hsmall.
  intros Hf Hop. destruct Hold as [Hw Ec Eo Hws Hsm]. destruct (flags_parts f Hok) as [E1 E2].
  unfold ws_strip. cbn [flags header_len data_len frame_msg]. rewrite E1, E2, Hf, (proj2 (Z.eqb_neq _ 0) Hop).
  cbn [Z.eqb negb orb andb]. step_bind.
  destruct (del_mid (recv c) (pending st) (frame_header f ++ f_data f) rest Hw) as (io & Ed & Hw' & Ec').
  { by rewrite Ec, <- !app_assoc. }
  rewrite zlen_app, <- Eo in Ed. step Ed. eexists _, _. split; [done|]. by split.
Qed.

Lemma strip_first :
  f_final f = false → f_op f ≠ 0 → st = None →
  stripped c (Some (frame_flags f, f_data f)) rest [] (ws_strip c (frame_msg f)).
Proof using Hold Hok Hsmall.
  intros Hf Hop Hst. destruct Hold as [Hw Ec Eo Hws Hsm]. destruct (flags_parts f Hok) as [E1 E2].
  rewrite frame_length in Hsmall. pose proof (header_long f).
  unfold ws_strip. cbn [flags header_len data_len frame_msg]. rewrite E1, E2, Hf, (proj2 (Z.eqb_neq _ 0) Hop).
  cbn [Z.eqb negb orb andb]. rewrite Hst in *. cbn [pending] in *. rewrite zlen_nil in *.
  destruct (del_mid (recv c) [frame_flags f] (drop 1 (frame_header f)) (f_data f ++ rest) Hw)
    as (io & Ed & Hw' & Ec').
  { by rewrite Ec, (header_head f). }
  rewrite header_tail in Ed. change (zlen [frame_flags f]) with (0 + 1) in Ed. rewrite Eo.
  step Ed. eexists _, _. split; [done|]. split; [done|exact Ec'| |done|];
    cbn [pending set_recv pfn_data]; len.
Qed.

Lemma strip_continue fl d :
  f_final f = false → f_op f = 0 → st = Some (fl, d) →
  stripped c (Some (fl, d ++ f_data f)) rest [] (ws_strip c (frame_msg f)).
Proof using Hold Hok Hsmall.
  intros Hf Hop Hst. destruct Hold as [Hw Ec Eo Hws Hsm]. destruct (flags_parts f Hok) as [E1 E2].
  rewrite frame_length in Hsmall. pose proof (header_long f).
  unfold ws_strip. cbn [flags header_len data_len frame_msg]. rewrite E1, E2, Hf, Hop.
  cbn [Z.eqb negb orb andb]. rewrite Hst in *. cbn [pending] in *.
  destruct (del_mid (recv c) (fl :: d) (frame_header f) (f_data f ++ rest) Hw Ec) as (io & Ed & Hw' & Ec').
  rewrite <- Eo in Ed. step Ed. eexists _, _. split; [done|].
  split; [done| | |done|];
    cbn [pending set_recv pfn_data recv snd]; [by rewrite Ec', app_assoc|len..].
Qed.

Lemma strip_last fl d :
  f_final f = true → f_op f = 0 → st = Some (fl, d) →
  stripped c None rest [EV_WS_MSG fl (Ok (d ++ f_data f))] (ws_strip c (frame_msg f)).
Proof using Hold Hok Hsmall.
  intros Hf Hop Hst. destruct Hold as [Hw Ec Eo Hws Hsm]. destruct (flags_parts f Hok) as [E1 E2].
  rewrite frame_length in Hsmall. pose proof (header_long f).
  unfold ws_strip. cbn [flags header_len data_len frame_msg]. rewrite E1, E2, Hf, Hop.
  cbn [Z.eqb negb orb andb]. rewrite Hst in *. cbn [pending] in *.
  destruct (del_mid (recv c) (fl :: d) (frame_header f) (f_data f ++ rest) Hw Ec) as (io & Ed & Hw' & Ec').
  rewrite <- Eo in Ed. step Ed. cbn [recv set_recv snd].
  step (rd_content io fl (d ++ f_data f ++ rest) Hw' Ec').
  assert (Eofs : pfn_data c + (zlen (frame_header f) + zlen (f_data f) - zlen (frame_header f))
          = zlen (fl :: d ++ f_data f)) by len.
  rewrite Eofs. assert (Er : rd_range (buf io) 1 (u64 (zlen (fl :: d ++ f_data f) - 1)) = Ok (d ++ f_data f)).
  { rewrite u64_id by len. replace (zlen (fl :: d ++ f_data f) - 1) with (zlen (d ++ f_data f)) by len.
    apply (rd_range_content io [fl] _ rest Hw'). by rewrite Ec', <- app_assoc. }
  rewrite Er.
  destruct (del_mid io [] (fl :: d ++ f_data f) rest Hw') as (io2 & Ed2 & Hw2 & Ec2).
  { by rewrite Ec', app_assoc. }
  rewrite zlen_nil in Ed2. step Ed2. eexists _, _. split; [done|]. by split.
Qed.
End strip.

(** A frame that the peer may send is taken off the buffer, does what the specification
    says, and leaves the rest. *)
Lemma ws_turn_whole st f rest c :
  holding st (frame_bytes f ++ rest) c → allowed st f → frame_ok f →
  zlen (pending st) + zlen (frame_bytes f) < 2 ^ 32 → len (send c) < 2 ^ 32 →
  ∃ c', ws_turn mg_random c = Ok (Some ((ws_spec st f).2.1, c'))
    ∧ holding (ws_spec st f).1 rest c' ∧ answered c c' (ws_spec st f).2.2.
Proof.
  intros Hh Ha Hok Hsz Hsend. pose proof Hh as [Hw Ec Eo Hws Hsm].
  destruct (ws_turn_frame st f rest c Hh Hok) as (mem & Eb & Em & Hw1 & Ec1 & Ed).
  destruct (flags_parts f Hok) as [Eop Efin]. pose proof (header_long f). 
  unfold ws_turn. step Eb. step (ws_process_whole f rest Hok). pose proof (frame_length f) as Hfl.
  pose proof (zlen_nonneg (f_data f)) as Hd0. rewrite (proj2 (Z.leb_gt _ 0)) by lia. step Em.
  cbn [header_len data_len frame_msg]. fold (frame_msg f). rewrite Ed. clear Eb Em Ed.
  set (io := mk_mg_iobuf mem (len (recv c))) in *. set (c1 := set_recv c io (pfn_data c)).
  assert (Hh1 : holding st (frame_header f ++ f_data f ++ rest) c1) by (by split).
  assert (Hdone : ∀ evs1 evs2 c2 st' r, r = Ok (evs1, c2) → stripped c2 st' rest evs2 (ws_strip c2 (frame_msg f)) →
    ∀ pongs, answered c c2 pongs →
    ∃ c', (r0 ← r; let '(evs, c) := r0 in r1 ← ws_strip c (frame_msg f); Ok (Some (evs ++ r1.1, r1.2)))
      = Ok (Some (evs1 ++ evs2, c')) ∧ holding st' rest c' ∧ answered c c' pongs).
  { intros evs1 evs2 c2 st' r -> (io2 & ofs2 & E2 & Hh2) pongs [A1 A2 A3 A4 A5]. step_bind. step E2.
    eexists. split; [done|]. split; [done|]. by split. }
  unfold ws_dispatch. cbn [flags frame_msg]. fold (frame_msg f). rewrite Eop, Efin.
  unfold ws_spec, allowed in *.
  destruct Ha as [[Hop [[fl d] Hst]]|[[Hop Hf]|[Hop Hf]]].
  - rewrite Hop, Hst. cbn [Z.eqb WEBSOCKET_OP_CONTINUE]. destruct (f_final f) eqn:Ef; cbn [fst snd].
    + apply (Hdone [_] [_] c1); [done| |apply answered_nothing]. by eapply strip_last.
    + apply (Hdone [_] [] c1); [done| |apply answered_nothing]. by eapply strip_continue.
  - destruct Hop as [Hop|Hop]; rewrite Hop, Hf; cbn [Z.eqb WEBSOCKET_OP_CONTINUE WEBSOCKET_OP_PING
      WEBSOCKET_OP_PONG Pos.eqb fst snd].
    + step_bind. destruct Hok as (Ho & Hl & Hk).
      destruct (mg_ws_send_frame mg_random random_four c1 (f_data f) WEBSOCKET_OP_PONG)
        as (io2 & Es & Hw2 & Ec2); [done|done|by unfold WEBSOCKET_OP_PONG|done|].
      rewrite Es. step_bind.
      set (c2 := set_send c1 io2 _).
      refine (Hdone [EV_WS_CTL (frame_flags f)] [] c2 st (Ok (_, c2)) eq_refl _ _ _).
      * apply strip_whole; [by split|done|done|done|rewrite Hop; by unfold WEBSOCKET_OP_PING].
      * split; cbn; [done..|by rewrite Ec2, app_nil_r|by destruct (is_client c); lia].
    + apply (Hdone [_] [] c1); [done| |apply answered_nothing].
      apply strip_whole; [done..|rewrite Hop; by unfold WEBSOCKET_OP_PONG].
  - assert (E0 : f_op f =? 0 = false) by (by destruct Hop as [->| ->]).
    assert (E9 : f_op f =? 9 = false) by (by destruct Hop as [->| ->]).
    assert (E10 : f_op f =? 10 = false) by (by destruct Hop as [->| ->]).
    assert (E12 : (f_op f =? 1) || (f_op f =? 2) = true) by (by destruct Hop as [->| ->]).
    unfold WEBSOCKET_OP_CONTINUE, WEBSOCKET_OP_PING, WEBSOCKET_OP_PONG, WEBSOCKET_OP_TEXT, WEBSOCKET_OP_BINARY.
    rewrite E0, E9, E10, E12. apply Z.eqb_neq in E0.
    destruct (f_final f) eqn:Ef; cbn [Z.eqb negb fst snd].
    + apply (Hdone [_] [] c1); [done| |apply answered_nothing]. by apply strip_whole.
    + destruct Hf as [?|Hst]; [done|]. apply (Hdone [] [] c1); [done| |apply answered_nothing].
      by eapply strip_first.
Qed.

(** ** Streams of frames *)

Fixpoint ws_specs (st : ws_state) (fs : list frame) : ws_state * (list mg_event * list (list Z)) :=
  match fs with
  | [] => (st, ([], []))
  | f :: fs =>
      let '(st, (evs, pongs)) := ws_spec st f in
      let '(st, (evs', pongs')) := ws_specs st fs in (st, (evs ++ evs', pongs ++ pongs'))
  end.

(** Every frame is allowed where it comes, and fits in the buffer behind what is pending. *)
Fixpoint well_formed (st : ws_state) (fs : list frame) : Prop :=
  match fs with
  | [] => True
  | f :: fs => allowed st f ∧ frame_ok f
      ∧ zlen (pending st) + zlen (frame_bytes f) <= MG_MAX_RECV_BUF_SIZE
      ∧ well_formed (ws_spec st f).1 fs
  end.

Definition stream (fs : list frame) : list Z := concat (frame_bytes <$> fs).

(** [part] is the beginning of the next frame, and not all of it. *)
Definition incomplete (part : list Z) (fs : list frame) : Prop :=
  match fs with
  | [] => part = []
  | f :: _ => ∃ q, q ≠ [] ∧ frame_bytes f = part ++ q
  end.

Lemma frame_nonempty f : frame_bytes f ≠ [].
Proof. intros E. pose proof (header_long f). pose proof (frame_length f) as H1. rewrite E in H1. len. Qed.

(** Any beginning of a stream is some whole frames and a part of the next. *)
Lemma split_stream fs s rest :
  s ++ rest = stream fs →
  ∃ fs1 fs2 part, fs = fs1 ++ fs2 ∧ s = stream fs1 ++ part ∧ part ++ rest = stream fs2
    ∧ incomplete part fs2.
Proof.
  unfold stream. revert s. induction fs as [|f fs IH]; intros s E.
  { apply app_eq_nil in E as [-> ->]. by exists [], [], []. }
  rewrite fmap_cons in E. cbn [concat] in E.
  destruct (decide (length s < length (frame_bytes f))%nat) as [Hs|Hs].
  - exists [], (f :: fs), s. do 3 (split; [done|]). cbn [incomplete].
    exists (drop (length s) (frame_bytes f)). apply (f_equal (take (length (frame_bytes f)))) in E.
    rewrite take_app_length, take_app_ge in E by lia. split.
    + intros Ed. apply (f_equal length) in Ed. rewrite length_drop in Ed.
      change (length []) with 0%nat in Ed. lia.
    + rewrite <- E at 2. rewrite drop_app_length. by rewrite E.
  - pose proof (f_equal (take (length (frame_bytes f))) E) as E1.
    pose proof (f_equal (drop (length (frame_bytes f))) E) as E2.
    rewrite take_app_length, take_app_le in E1 by lia. rewrite drop_app_length, drop_app_le in E2 by lia.
    destruct (IH _ E2) as (fs1 & fs2 & part & -> & Ep & Er & Hi).
    exists (f :: fs1), fs2, part. split; [done|]. split; [|done].
    rewrite <- (take_drop (length (frame_bytes f)) s), E1, Ep, fmap_cons. cbn [concat].
    by rewrite app_assoc.
Qed.

Lemma ws_turn_waits st part fs c :
  holding st part c → incomplete part fs → Forall frame_ok fs → ws_turn mg_random c = Ok None.
Proof.
  intros [Hw Ec Eo _ _] Hi Hok. pose proof (content_zlen _ _ Hw Ec) as Hl. rewrite zlen_app in Hl.
  unfold ws_turn. rewrite Eo, Hl.
  replace (zlen (pending st) + zlen part - zlen (pending st)) with (zlen part) by lia.
  rewrite (rd_range_content (recv c) (pending st) part []) by (done || by rewrite app_nil_r).
  step_bind. destruct fs as [|f fs]; cbn [incomplete] in Hi.
  - rewrite Hi. done.
  - destruct Hi as (q & Hq & Ef). apply Forall_cons in Hok as [Hf _].
    destruct (ws_process_partial f part q Hf Ef Hq) as [m Em]. by step Em.
Qed.

Lemma pong_bytes_app client n a b :
  pong_bytes client n (a ++ b)
  = pong_bytes client n a ++ pong_bytes client (if client then n + length a else n)%nat b.
Proof.
  revert n. induction a as [|d a IH]; intros n; cbn [app pong_bytes length].
  { by destruct client; rewrite ?Nat.add_0_r. }
  rewrite IH, <- app_assoc. do 2 f_equal. destruct client; [f_equal; lia|done].
Qed.

Lemma answered_app c c1 c2 a b : answered c c1 a → answered c1 c2 b → answered c c2 (a ++ b).
Proof.
  intros [A1 A2 A3 A4 A5] [B1 B2 B3 B4 B5]. split; [congruence..| |].
  - rewrite B4, A4, pong_bytes_app, A1, A5, <- app_assoc. done.
  - rewrite B5, A1, A5, length_app. destruct (is_client c); lia.
Qed.

Lemma well_formed_ok st fs : well_formed st fs → Forall frame_ok fs.
Proof.
  revert st. induction fs as [|f fs IH]; intros st; [constructor|]. intros (_ & Hok & _ & Hwf).
  constructor; [done|by eapply IH].
Qed.

Lemma well_formed_app st fs1 fs2 :
  well_formed st (fs1 ++ fs2) → well_formed st fs1 ∧ well_formed (ws_specs st fs1).1 fs2.
Proof.
  revert st. induction fs1 as [|f fs1 IH]; intros st; [done|]. cbn [app well_formed ws_specs].
  intros (H1 & H2 & H3 & H4). destruct (IH _ H4) as [H5 H6].
  destruct (ws_spec st f) as [st1 [evs pongs]]. cbn [fst] in *.
  by destruct (ws_specs st1 fs1) as [st2 [evs2 pongs2]].
Qed.

Lemma ws_specs_app st fs1 fs2 :
  ws_specs st (fs1 ++ fs2)
  = let '(st1, (evs1, pongs1)) := ws_specs st fs1 in
    let '(st2, (evs2, pongs2)) := ws_specs st1 fs2 in (st2, (evs1 ++ evs2, pongs1 ++ pongs2)).
Proof.
  revert st. induction fs1 as [|f fs1 IH]; intros st; cbn [app ws_specs].
  { by destruct (ws_specs st fs2) as [st2 [evs2 pongs2]]. }
  destruct (ws_spec st f) as [st1 [evs pongs]]. rewrite IH.
  destruct (ws_specs st1 fs1) as [st2 [evs2 pongs2]], (ws_specs st2 fs2) as [st3 [evs3 pongs3]].
  by rewrite !app_assoc.
Qed.

(** The loop takes all the frames that are there, and waits for the rest. *)
Lemma ws_loop_frames fuel st fs fs2 part c :
  (length fs < fuel)%nat → well_formed st (fs ++ fs2) → holding st (stream fs ++ part) c →
  incomplete part fs2 →
  len (send c) + zlen (pong_bytes (is_client c) (drawn c) (ws_specs st fs).2.2) < 2 ^ 32 →
  ∃ c', ws_loop mg_random fuel c = Ok ((ws_specs st fs).2.1, c')
    ∧ holding (ws_specs st fs).1 part c' ∧ answered c c' (ws_specs st fs).2.2.
Proof.
  revert fuel st c. induction fs as [|f fs IH]; intros fuel st c Hfuel Hwf Hh Hi Hlen;
    (destruct fuel as [|fuel]; [lia|]); cbn [ws_specs ws_loop] in *.
  - rewrite (ws_turn_waits st part fs2 c) by (done || by eapply well_formed_ok).
    step_bind. exists c. split; [done|]. split; [done|].
    split; [done..|by rewrite app_nil_r|]. by destruct (is_client c); rewrite ?Nat.add_0_r.
  - cbn [app well_formed] in Hwf. destruct Hwf as (Ha & Hok & Hsz & Hwf).
    unfold stream in Hh. rewrite fmap_cons in Hh. cbn [concat] in Hh. rewrite <- app_assoc in Hh.
    destruct (ws_turn_whole st f (stream fs ++ part) c) as (c1 & E1 & Hh1 & A1); try done.
    { unfold MG_MAX_RECV_BUF_SIZE in Hsz. lia. }
    { pose proof (zlen_nonneg (pong_bytes (is_client c) (drawn c)
        (let '(st0, (evs, pongs)) := ws_spec st f in
         let '(st1, (evs', pongs')) := ws_specs st0 fs in (st1, (evs ++ evs', pongs ++ pongs'))).2.2)). lia. }
    destruct (ws_spec st f) as [st1 [evs1 pongs1]]. cbn [fst snd] in *.
    specialize (IH fuel st1 c1 ltac:(cbn in Hfuel; lia) Hwf Hh1 Hi).
    destruct (ws_specs st1 fs) as [st2 [evs2 pongs2]]. cbn [fst snd] in *. step E1.
    rewrite pong_bytes_app, zlen_app in Hlen.
    destruct IH as (c2 & E2 & Hh2 & A2).
    { pose proof (content_zlen _ _ (hold_send _ _ _ Hh1) (ans_sent _ _ _ A1)) as Hs.
      rewrite zlen_app, (content_length _ (hold_send _ _ _ Hh)) in Hs.
      rewrite Hs, (ans_client _ _ _ A1), (ans_drawn _ _ _ A1). lia. }
    step E2. exists c2. split; [done|]. split; [done|]. by eapply answered_app.
Qed.

(** ** However the bytes are cut *)

(** The buffer [read_conn] gives to the socket, and the room in it. *)
Definition grown (c : mg_connection) : mg_iobuf :=
  if size (recv c) - len (recv c) <? MG_IO_SIZE
  then mg_iobuf_resize (recv c) (size (recv c) + MG_IO_SIZE) else recv c.

Definition room (c : mg_connection) : Z := size (grown c) - len (grown c).

Lemma grown_content c :
  wf (recv c) → wf (grown c) ∧ content (grown c) = content (recv c) ∧ MG_IO_SIZE <= room c.
Proof.
  intros Hw. unfold room, grown. destruct (Z.ltb_spec (size (recv c) - len (recv c)) MG_IO_SIZE); [|done].
  unfold wf in *.
  destruct (resize_content (recv c) (size (recv c) + MG_IO_SIZE)) as (H1 & H2 & H3 & H4);
    [done|unfold MG_IO_SIZE; lia..|].
  split; [exact H1|]. split; [done|]. rewrite H3, H4. lia.
Qed.

Fixpoint read_all (c : mg_connection) (chunks : list (list Z))
    : outcome (list mg_event * mg_connection) :=
  match chunks with
  | [] => Ok ([], c)
  | d :: chunks =>
      r ← read_conn mg_random c d;
      let '(evs, c) := r in
      r ← read_all c chunks; Ok (evs ++ r.1, r.2)
  end.

(** The socket delivers at least one byte, and no more than there is room for. *)
Fixpoint fits (c : mg_connection) (chunks : list (list Z)) : Prop :=
  match chunks with
  | [] => True
  | d :: chunks => d ≠ [] ∧ zlen d <= room c
      ∧ ∀ evs c', read_conn mg_random c d = Ok (evs, c') → fits c' chunks
  end.

(** What has arrived is behind what was there, and the loop starts. *)
Lemma read_conn_adds c d :
  wf (recv c) → len (recv c) < MG_MAX_RECV_BUF_SIZE → zlen d <= room c →
  ∃ io, read_conn mg_random c d = mg_ws_cb mg_random (set_recv c io (pfn_data c))
    ∧ wf io ∧ content io = content (recv c) ++ d ∧ size io = size (grown c).
Proof.
  intros Hw Hmax Hroom. unfold read_conn. rewrite (proj2 (Z.leb_gt _ _)) by lia. fold (grown c).
  destruct (grown_content c Hw) as (Hg & Ec & _). destruct (content_split _ Hg) as (rest & Eb & Hr).
  pose proof (content_length _ Hg) as Hl. unfold room in Hroom. pose proof (zlen_nonneg d).
  assert (E : rest = take (Z.to_nat (zlen d)) rest ++ drop (Z.to_nat (zlen d)) rest)
    by (by rewrite take_drop).
  rewrite (wr_range_at (buf (grown c)) (len (grown c)) (content (grown c)) _ (drop (Z.to_nat (zlen d)) rest) d
             ltac:(rewrite Eb, E at 1; reflexivity) (eq_sym Hl)) by (rewrite zlen_take; lia).
  step_bind. eexists. split; [done|].
  match goal with |- wf ?io ∧ _ => destruct (content_intro io (content (recv c) ++ d)
    (drop (Z.to_nat (zlen d)) rest)) as [W1 W2] end; cbn [buf len].
  - by rewrite Ec, <- app_assoc.
  - rewrite zlen_app, <- Ec, Hl. done.
  - split; [exact W1|]. split; [exact W2|]. unfold size at 1. cbn [buf].
    rewrite !zlen_app, zlen_drop, Hl by lia. lia.
Qed.

Lemma stream_length fs : (length fs <= length (stream fs))%nat.
Proof.
  unfold stream. induction fs as [|f fs IH]; [done|]. rewrite fmap_cons. cbn [concat length].
  rewrite length_app. pose proof (frame_nonempty f). destruct (frame_bytes f); [done|]. cbn. lia.
Qed.

(** The loop on everything there is. *)
Lemma ws_loop_all st fs fs2 part c :
  well_formed st (fs ++ fs2) → holding st (stream fs ++ part) c → incomplete part fs2 →
  len (send c) + zlen (pong_bytes (is_client c) (drawn c) (ws_specs st fs).2.2) < 2 ^ 32 →
  ∃ c', ws_loop mg_random (S (Z.to_nat (len (recv c)))) c = Ok ((ws_specs st fs).2.1, c')
    ∧ holding (ws_specs st fs).1 part c' ∧ answered c c' (ws_specs st fs).2.2.
Proof.
  intros Hwf Hh Hi Hlen. eapply ws_loop_frames; [|done..].
  pose proof (content_zlen _ _ (hold_recv _ _ _ Hh) (hold_content _ _ _ Hh)) as Hl.
  pose proof (stream_length fs). rewrite Hl. unfold zlen. rewrite !length_app. lia.
Qed.

(** What is left to say of the frames [fs], in state [st], when [part] has come already. *)
Record running (st : ws_state) (part : list Z) (fs : list frame) (c : mg_connection) : Prop := {
  run_holding : holding st part c;
  run_open : is_websocket c = true;
  run_frames : well_formed st fs;
  run_part : incomplete part fs;
  run_send : len (send c) + zlen (pong_bytes (is_client c) (drawn c) (ws_specs st fs).2.2) < 2 ^ 32;
}.

(** The frames that are whole are gone, the others are left. *)
Lemma running_step st fs1 fs2 part c c' :
  well_formed st (fs1 ++ fs2) → wf (send c) → is_websocket c = true → incomplete part fs2 →
  len (send c) + zlen (pong_bytes (is_client c) (drawn c) (ws_specs st (fs1 ++ fs2)).2.2) < 2 ^ 32 →
  holding (ws_specs st fs1).1 part c' → answered c c' (ws_specs st fs1).2.2 →
  running (ws_specs st fs1).1 part fs2 c'.
Proof.
  intros Hwf Hws Hopen Hi Hlen Hh [A1 A2 A3 A4 A5]. split; [done|congruence|by apply well_formed_app|done|].
  rewrite ws_specs_app in Hlen. destruct (ws_specs st fs1) as [st1 [evs1 pongs1]]. cbn [fst snd] in *.
  destruct (ws_specs st1 fs2) as [st2 [evs2 pongs2]]. cbn [fst snd] in *.
  rewrite pong_bytes_app, zlen_app in Hlen.
  pose proof (content_zlen _ _ (hold_send _ _ _ Hh) A4) as Hs.
  rewrite zlen_app, (content_length _ Hws) in Hs. rewrite Hs, A1, A5. lia.
Qed.

Lemma incomplete_stream part fs : incomplete part fs → part = stream fs → fs = [] ∧ part = [].
Proof.
  destruct fs as [|f fs]; [done|]. intros (q & Hq & E) Ep. exfalso.
  unfold stream in Ep. rewrite fmap_cons in Ep. cbn [concat] in Ep. rewrite Ep in E.
  apply (f_equal length) in E. rewrite !length_app in E. destruct q; [done|cbn in E; lia].
Qed.

(** Whatever the cuts, the frames come out one by one. *)
Lemma read_all_running chunks st part fs c :
  running st part fs c → part ++ concat chunks = stream fs → fits c chunks →
  ∃ c', read_all c chunks = Ok ((ws_specs st fs).2.1, c')
    ∧ holding (ws_specs st fs).1 [] c' ∧ answered c c' (ws_specs st fs).2.2.
Proof.
  revert st part fs c. induction chunks as [|d chunks IH]; intros st part fs c Hr E Hfits; cbn [read_all].
  { cbn in E. rewrite app_nil_r in E.
    destruct (incomplete_stream part fs (run_part _ _ _ _ Hr) E) as [-> ->].
    exists c. split; [done|]. split; [apply Hr|]. split; [done..|by rewrite app_nil_r|].
    by destruct (is_client c); rewrite ?Nat.add_0_r. }
  destruct Hr as [Hh Hopen Hwf Hi Hlen]. destruct Hfits as (Hd & Hroom & Hfits).
  cbn [concat] in E. rewrite app_assoc in E.
  destruct (split_stream fs (part ++ d) (concat chunks) E) as (fs1 & fs2 & part' & Efs & Ep & Er & Hi').
  assert (Hmax : len (recv c) < MG_MAX_RECV_BUF_SIZE).
  { rewrite (content_zlen _ _ (hold_recv _ _ _ Hh) (hold_content _ _ _ Hh)), zlen_app.
    destruct fs as [|f fs].
    - apply app_eq_nil in E as [[_ ?]%app_eq_nil _]. done.
    - destruct Hi as (q & Hq & Ef). destruct Hwf as (_ & _ & Hsz & _). rewrite Ef in Hsz.
      destruct q; [done|]. len. }
  destruct (read_conn_adds c d (hold_recv _ _ _ Hh) Hmax Hroom) as (io & Erc & Hw & Ec & _).
  set (c1 := set_recv c io (pfn_data c)) in *.
  assert (Hh1 : holding st (stream fs1 ++ part') c1).
  { destruct Hh as [H1 H2 H3 H4 H5]. split; [done| |done..]. cbn [recv c1 set_recv].
    by rewrite Ec, H2, <- app_assoc, Ep. }
  subst fs. pose proof Hlen as Hlen1. rewrite ws_specs_app in Hlen1.
  destruct (ws_loop_all st fs1 fs2 part' c1 Hwf Hh1 Hi') as (c2 & E2 & Hh2 & A2).
  { cbn [send set_recv c1 is_client drawn]. destruct (ws_specs st fs1) as [st1 [evs1 pongs1]].
    destruct (ws_specs st1 fs2) as [st2 [evs2 pongs2]]. cbn [fst snd] in *.
    rewrite pong_bytes_app, zlen_app in Hlen1. len. }
  assert (Eread : read_conn mg_random c d = Ok ((ws_specs st fs1).2.1, c2)).
  { rewrite Erc. unfold mg_ws_cb. cbn [is_websocket c1 set_recv]. rewrite Hopen. cbn [negb andb]. exact E2. }
  assert (A2' : answered c c2 (ws_specs st fs1).2.2) by (destruct A2; by split).
  pose proof (running_step st fs1 fs2 part' c c2 Hwf (hold_send _ _ _ Hh) Hopen Hi' Hlen Hh2 A2') as Hrun.
  step Eread. destruct (IH _ _ _ _ Hrun Er (Hfits _ _ Eread)) as (c3 & E3 & Hh3 & A3).
  step E3. exists c3. rewrite ws_specs_app. destruct (ws_specs st fs1) as [st1 [evs1 pongs1]].
  cbn [fst snd] in *. destruct (ws_specs st1 fs2) as [st2 [evs2 pongs2]]. cbn [fst snd] in *.
  split; [done|]. split; [done|]. by eapply answered_app.
Qed.

(** ** The opening handshake *)

Lemma request_len_stable b r i b1 b2 :
  request_len_loop b i b1 b2 ≠ 0 → request_len_loop (b ++ r) i b1 b2 = request_len_loop b i b1 b2.
Proof.
  revert i b1 b2. induction b as [|x b IH]; intros i b1 b2; cbn [app request_len_loop]; [done|].
  destruct (negb (isok x)); [done|]. destruct (_ || _); [done|]. apply IH.
Qed.

Lemma request_len_bound b i b1 b2 : 0 <= i → request_len_loop b i b1 b2 <= i + zlen b.
Proof.
  revert i b1 b2. induction b as [|x b IH]; intros i b1 b2 Hi; cbn [request_len_loop]; [len|].
  destruct (negb (isok x)); [len|]. destruct (_ || _); [len|].
  specialize (IH (i + 1) x b1 ltac:(lia)). len.
Qed.

(** An answer of the server that lets the client in: its first blank line is its end, and
    it says 101. *)
Definition accepts (h : list Z) : Prop :=
  mg_http_get_request_len h = zlen h ∧ 15 <= zlen h <= MG_MAX_RECV_BUF_SIZE
  ∧ take 3 (drop 9 h) = [49; 48; 49].

Lemma accepts_prefix h p q :
  accepts h → h = p ++ q → q ≠ [] → mg_http_get_request_len p = 0.
Proof.
  intros (Hh & Hl & _) E Hq. destruct (Z.eq_dec (mg_http_get_request_len p) 0) as [|Hne]; [done|].
  unfold mg_http_get_request_len in *. pose proof (request_len_stable p q 0 0 0 Hne) as Hs.
  rewrite <- E, Hh in Hs. pose proof (request_len_bound p 0 0 0 ltac:(lia)) as Hb.
  assert (zlen h = zlen p + zlen q) by (rewrite E; len). destruct q; [done|]. len.
Qed.

Lemma accepts_whole h s : accepts h → mg_http_get_request_len (h ++ s) = zlen h.
Proof.
  intros (Hh & Hl & _). unfold mg_http_get_request_len in *. rewrite request_len_stable; lia.
Qed.

(** The part [p] of the answer has come. *)
Record opening (h p : list Z) (c : mg_connection) : Prop := {
  op_recv : wf (recv c);
  op_content : content (recv c) = p;
  op_ofs : pfn_data c = 0;
  op_closed : is_websocket c = false;
  op_client : is_client c = true;
  op_part : ∃ q, q ≠ [] ∧ h = p ++ q;
  op_send : wf (send c);
}.

(** The whole answer is there, with [s] behind it. *)
Lemma handshake_done h s fs1 fs2 part c io :
  accepts h → opening h (take (length (content (recv c))) h) c → wf io → content io = h ++ s →
  s = stream fs1 ++ part → well_formed None (fs1 ++ fs2) → incomplete part fs2 →
  len (send c) + zlen (pong_bytes true (drawn c) (ws_specs None fs1).2.2) < 2 ^ 32 →
  ∃ c', mg_ws_cb mg_random (set_recv c io (pfn_data c)) = Ok (EV_WS_OPEN :: (ws_specs None fs1).2.1, c')
    ∧ holding (ws_specs None fs1).1 part c' ∧ is_websocket c' = true
    ∧ answered (set_websocket c) c' (ws_specs None fs1).2.2.
Proof.
  intros Hacc [H1 H2 H3 H4 H5 _ H7] Hw Ec Es Hwf Hi Hlen. unfold mg_ws_cb.
  cbn [is_websocket is_client set_recv recv pfn_data]. rewrite H4, H5. cbn [negb andb].
  pose proof (content_zlen _ _ Hw Ec) as Hl.
  pose proof (rd_range_content io [] (h ++ s) [] Hw ltac:(by rewrite app_nil_r)) as Er.
  rewrite zlen_nil, <- Hl in Er. step Er. rewrite accepts_whole by done.
  destruct Hacc as (_ & Hh & Hst). do 2 dec_if. rewrite (proj2 (Z.ltb_ge _ _)) by lia.
  assert (Estatus : rd_range (h ++ s) 9 3 = Ok [49; 48; 49]).
  { rewrite rd_range_app_l by lia. rewrite rd_range_in by lia. by rewrite <- Hst. }
  step Estatus. rewrite bool_decide_eq_true_2 by done.
  destruct (del_mid io [] h s Hw Ec) as (io2 & Ed & Hw2 & Ec2). rewrite zlen_nil in Ed.
  cbn [set_websocket set_recv recv]. step Ed. cbn [snd set_websocket set_recv recv pfn_data].
  set (c1 := set_recv _ io2 (pfn_data c)).
  assert (Hh1 : holding None (stream fs1 ++ part) c1).
  { split; cbn; [done|by rewrite Ec2, Es|by rewrite H3|done|len]. }
  destruct (ws_loop_all None fs1 fs2 part c1 Hwf Hh1 Hi) as (c2 & E2 & Hh2 & A2); [cbn; by rewrite H5|].
  change (len io2) with (len (recv c1)). rewrite E2. step_bind. exists c2. split; [done|].
  split; [done|]. split; [by rewrite (ans_websocket _ _ _ A2)|].
  destruct A2. by split.
Qed.

(** A part of the answer is kept, and nothing is done. *)
Lemma opening_waits h p d rest c :
  accepts h → opening h p c → zlen d <= room c → p ++ d ++ rest = h ++ drop (length h) (p ++ d ++ rest) →
  (length (p ++ d) < length h)%nat →
  ∃ io, read_conn mg_random c d = Ok ([], set_recv c io (pfn_data c))
    ∧ opening h (p ++ d) (set_recv c io (pfn_data c)).
Proof.
  intros Hacc [H1 H2 H3 H4 H5 (q & Hq & Eh) H7] Hroom E Hs. pose proof (content_zlen _ _ H1 H2) as Hl.
  assert (Hmax : len (recv c) < MG_MAX_RECV_BUF_SIZE).
  { destruct Hacc as (_ & Hh & _). rewrite Eh, zlen_app in Hh. destruct q; [done|]. len. }
  destruct (read_conn_adds c d H1 Hmax Hroom) as (io & Erc & Hw & Ec & _). rewrite H2 in Ec. exists io.
  assert (Hpre : ∃ q', q' ≠ [] ∧ h = (p ++ d) ++ q').
  { exists (drop (length (p ++ d)) h). split.
    - intros En. apply (f_equal length) in En. rewrite length_drop in En.
      change (length []) with 0%nat in En. lia.
    - rewrite app_assoc in E. apply (f_equal (take (length h))) in E.
      rewrite take_app_length, take_app_ge in E by lia. rewrite <- E at 2. rewrite drop_app_length.
      by rewrite E. }
  destruct Hpre as (q' & Hq' & Eh'). split; [|split; try done; by exists q'].
  rewrite Erc. unfold mg_ws_cb. cbn [is_websocket is_client set_recv recv]. rewrite H4, H5. cbn [negb andb].
  pose proof (rd_range_content io [] (p ++ d) [] Hw ltac:(by rewrite Ec, app_nil_r)) as Er.
  rewrite zlen_nil, <- (content_zlen _ _ Hw Ec) in Er. step Er. by rewrite (accepts_prefix h (p ++ d) q').
Qed.

(** From the request on: the answer and the frames, however they are cut. *)
Lemma read_all_opening chunks h p fs c :
  accepts h → opening h p c → p ++ concat chunks = h ++ stream fs → well_formed None fs →
  fits c chunks →
  len (send c) + zlen (pong_bytes true (drawn c) (ws_specs None fs).2.2) < 2 ^ 32 →
  ∃ c', read_all c chunks = Ok (EV_WS_OPEN :: (ws_specs None fs).2.1, c')
    ∧ holding (ws_specs None fs).1 [] c' ∧ answered (set_websocket c) c' (ws_specs None fs).2.2.
Proof.
  intros Hacc. revert p c. induction chunks as [|d chunks IH]; intros p c Ho E Hwf Hfits Hlen;
    pose proof Ho as [H1 H2 H3 H4 H5 (q & Hq & Eh) H7].
  { exfalso. cbn in E. rewrite app_nil_r in E. rewrite Eh in E. apply (f_equal length) in E.
    rewrite !length_app in E. destruct q; [done|cbn in E; lia]. }
  destruct Hfits as (Hd & Hroom & Hfits). cbn [concat] in E. cbn [read_all].
  pose proof (content_zlen _ _ H1 H2) as Hl.
  assert (Hmax : len (recv c) < MG_MAX_RECV_BUF_SIZE).
  { destruct Hacc as (_ & Hh & _). rewrite Eh, zlen_app in Hh. destruct q; [done|]. len. }
  destruct (read_conn_adds c d H1 Hmax Hroom) as (io & Erc & Hw & Ec & _). rewrite H2 in Ec.
  destruct (decide (length (p ++ d) < length h)%nat) as [Hs|Hs].
  - destruct (opening_waits h p d (concat chunks) c Hacc Ho Hroom) as (io' & Ecb & Ho'); [|done|].
    { rewrite E at 1. f_equal. by rewrite E, drop_app_length. }
    step Ecb. destruct (IH (p ++ d) (set_recv c io' (pfn_data c))) as (c' & E' & Hh' & A'); try done.
    + by rewrite <- app_assoc.
    + by apply (Hfits []).
    + step E'. exists c'. split; [done|]. split; [done|]. destruct A'. by split.
  - assert (Hsplit : ∃ s, p ++ d = h ++ s ∧ s ++ concat chunks = stream fs).
    { exists (drop (length h) (p ++ d)). rewrite app_assoc in E.
      pose proof (f_equal (take (length h)) E) as E1. pose proof (f_equal (drop (length h)) E) as E2.
      rewrite take_app_length, take_app_le in E1 by lia. rewrite drop_app_length, drop_app_le in E2 by lia.
      split; [by rewrite <- E1 at 1; rewrite take_drop|done]. }
    destruct Hsplit as (s & Es & Er). rewrite Es in Ec.
    destruct (split_stream fs s (concat chunks) Er) as (fs1 & fs2 & part & -> & Ep & Er' & Hi).
    pose proof Hlen as Hlen1. rewrite ws_specs_app in Hlen1.
    destruct (handshake_done h s fs1 fs2 part c io Hacc) as (c1 & E1 & Hh1 & Ho1 & A1); try done.
    { assert (Et : take (length (content (recv c))) h = p) by (rewrite H2, Eh; apply take_app_length).
      by rewrite Et. }
    { destruct (ws_specs None fs1) as [st1 [evs1 pongs1]], (ws_specs st1 fs2) as [st2 [evs2 pongs2]].
      cbn [fst snd] in *. rewrite pong_bytes_app, zlen_app in Hlen1. len. }
    assert (Hrun : running (ws_specs None fs1).1 part fs2 c1).
    { apply (running_step None fs1 fs2 part (set_websocket c) c1); try done. cbn. by rewrite H5. }
    rewrite <- Erc in E1. step E1.
    destruct (read_all_running chunks _ part fs2 c1 Hrun Er' (Hfits _ _ E1)) as (c2 & E2 & Hh2 & A2).
    step E2. exists c2. rewrite ws_specs_app. destruct (ws_specs None fs1) as [st1 [evs1 pongs1]].
    cbn [fst snd] in *. destruct (ws_specs st1 fs2) as [st2 [evs2 pongs2]]. cbn [fst snd] in *.
    split; [done|]. split; [done|]. by eapply answered_app.
Qed.
End receiving.
