(* ===== verification/MgSafety.v ===== *)
(** * MgSafety: any bytes at all

    No code of its own.  Whatever the peer sends, [read_conn] and [mg_ws_cb] of
    [src/websocket/mongoose.cpp] ([MgWebsocket]) come to their end without leaving a
    buffer: the lengths a frame announces are checked before they are used, and each
    turn of the loop takes at least two bytes. *)

From S2P Require Import Prelude.
From S2P Require Import MgIobuf.
From S2P Require Import MgWebsocket.

(** ** One frame *)

Lemma land_byte_range b m : 0 <= b → 0 <= m → 0 <= Z.land b m <= m.
Proof.
  intros Hb Hm. pose proof (Z.land_nonneg b m) as Hn.
  split; [by apply Hn; left|]. apply Z.ldiff_le; [done|].
  apply Z.bits_inj'. intros i Hi. rewrite Z.ldiff_spec, Z.land_spec, Z.bits_0.
  by destruct (Z.testbit b i), (Z.testbit m i).
Qed.

Lemma rd_byte b i : is_bytes b → 0 <= i < zlen b → ∃ x, rd b i = Ok x ∧ is_byte x.
Proof.
  intros Hb Hi. destruct (rd_in_range b i Hi) as (x & E & Hin). exists x. split; [done|].
  unfold is_bytes in Hb. rewrite Forall_forall in Hb. by apply Hb.
Qed.

Lemma is_bytes_take n b : is_bytes b → is_bytes (take n b).
Proof. apply Forall_take. Qed.

Lemma is_bytes_drop n b : is_bytes b → is_bytes (drop n b).
Proof. apply Forall_drop. Qed.

Lemma is_bytes_app a b : is_bytes (a ++ b) ↔ is_bytes a ∧ is_bytes b.
Proof. apply Forall_app. Qed.

Lemma lxor_byte a b : is_byte a → is_byte b → is_byte (Z.lxor a b).
Proof.
  unfold is_byte. intros Ha Hb. assert (0 <= Z.lxor a b) by (apply Z.lxor_nonneg; lia).
  split; [done|]. destruct (Z.eq_dec (Z.lxor a b) 0) as [->|Hne]; [lia|].
  change 256 with (2 ^ 8). apply Z.log2_lt_pow2; [lia|].
  pose proof (Z.log2_lxor a b ltac:(lia) ltac:(lia)).
  pose proof (Z.log2_le_mono a 255 ltac:(lia)). pose proof (Z.log2_le_mono b 255 ltac:(lia)).
  change (Z.log2 255) with 7 in *. lia.
Qed.

Lemma xor_mask_bytes k l : is_bytes k → is_bytes l → is_bytes (xor_mask k l).
Proof.
  intros Hk Hl. apply Forall_lookup. intros i x. unfold xor_mask. rewrite list_lookup_imap.
  destruct (l !! i) as [y|] eqn:E; [|done]. cbn. intros [= <-].
  apply lxor_byte; [by eapply Forall_lookup|].
  destruct (nth_in_or_default (Z.to_nat (Z.land (Z.of_nat i) 3)) k 0) as [Hin|E0]; [|by rewrite E0].
  unfold is_bytes in Hk. rewrite Forall_forall in Hk. apply Hk. by apply list_elem_of_In.
Qed.

(** A write within the bounds. *)
Lemma wr_range_bytes b i bs :
  is_bytes b → is_bytes bs → 0 <= i → i + zlen bs <= zlen b →
  ∃ b', wr_range b i bs = Ok b' ∧ zlen b' = zlen b ∧ is_bytes b'.
Proof.
  intros Hb Hbs Hi Hle. unfold wr_range. repeat dec_if. cbn [andb]. eexists. split; [done|].
  split.
  - unfold zlen in *. rewrite !length_app, length_take, length_drop. lia.
  - apply is_bytes_app. split; [by apply is_bytes_take|]. apply is_bytes_app.
    split; [done|by apply is_bytes_drop].
Qed.

(** The header of any bytes: not there yet, or with a length that is not negative. *)
Definition header_sane (k : Z) (m : ws_msg) : Prop :=
  (k = 0 ∨ k = 4) ∧ 0 <= data_len m
  ∧ ((header_len m = 0 ∧ data_len m = 0) ∨ 2 + k <= header_len m <= 14).

Lemma ws_header_any b :
  is_bytes b → ∃ k m, ws_header b = Ok (k, m) ∧ header_sane k m.
Proof.
  intros Hb. unfold ws_header. destruct (Z.leb_spec 2 (zlen b)) as [H2|H2].
  2:{ exists 0, (mk_ws_msg 0 0 0). unfold header_sane. cbn. auto with lia. }
  destruct (rd_byte b 0 Hb) as (b0 & -> & _); [lia|]. step_bind.
  destruct (rd_byte b 1 Hb) as (b1 & -> & Hb1); [lia|]. step_bind. unfold is_byte in Hb1.
  pose proof (land_byte_range b1 127 ltac:(lia) ltac:(lia)) as Hn.
  set (k := if Z.land b1 128 =? 0 then 0 else 4).
  assert (Hk : k = 0 ∨ k = 4) by (unfold k; case_match; auto).
  assert (Hsane : ∀ h d, 2 + k <= h <= 14 → 0 <= d → header_sane k (mk_ws_msg b0 h d))
    by (intros; split; [done|cbn; auto]).
  destruct ((Z.land b1 127 <? 126) && (k <=? zlen b)).
  { do 2 eexists. split; [done|]. apply Hsane; lia. }
  destruct ((Z.land b1 127 =? 126) && (4 + k <=? zlen b)) eqn:E.
  { apply andb_true_iff in E as [_ E%Z.leb_le].
    destruct (rd_be16_ok b 2) as (d & -> & Hd); [lia..|done|]. step_bind.
    do 2 eexists. split; [done|]. apply Hsane; lia. }
  destruct (Z.leb_spec (10 + k) (zlen b)).
  - destruct (rd_be32_ok b 2) as (hi & -> & Hhi); [lia..|done|]. step_bind.
    destruct (rd_be32_ok b 6) as (lo & -> & Hlo); [lia..|done|]. step_bind.
    do 2 eexists. split; [done|]. apply Hsane; [lia|]. apply Z.mod_pos_bound. lia.
  - do 2 eexists. split; [done|]. split; [done|]. cbn. auto with lia.
Qed.

(** What is taken off is at least a header, and is there. *)
Lemma ws_process_any b :
  is_bytes b →
  ∃ n m b', ws_process b = Ok (n, (m, b')) ∧ zlen b' = zlen b ∧ is_bytes b'
    ∧ (n = 0 ∨ (n = header_len m + data_len m ∧ 2 <= header_len m <= 14
                ∧ 0 <= data_len m <= 2 ^ 30 ∧ n <= zlen b)).
Proof.
  intros Hb. destruct (ws_header_any b Hb) as (k & m & Em & Hk & Hd & Hh). unfold ws_process. step Em.
  destruct (Z.ltb_spec (1024 * 1024 * 1024) (data_len m)) as [L1|L1]; [by exists 0, m, b; auto|].
  destruct (Z.ltb_spec (zlen b) (header_len m + data_len m)) as [L2|L2]; [by exists 0, m, b; auto|].
  assert (Hw : ∃ b', (if 0 <? k then
         mask ← (if data_len m =? 0 then Ok [] else rd_range b (header_len m - k) 4);
         data ← rd_range b (header_len m) (data_len m);
         wr_range b (header_len m) (xor_mask mask data)
       else Ok b) = Ok b' ∧ zlen b' = zlen b ∧ is_bytes b').
  { destruct (Z.ltb_spec 0 k) as [K|K]; [|by exists b].
    assert (Hmask : ∃ mask, (if data_len m =? 0 then Ok [] else rd_range b (header_len m - k) 4) = Ok mask
                            ∧ is_bytes mask).
    { destruct (Z.eqb_spec (data_len m) 0).
      { exists []. split; [done|by apply Forall_nil]. }
      rewrite rd_range_in by lia.
      eexists. split; [done|]. by apply is_bytes_take, is_bytes_drop. }
    destruct Hmask as (mask & Er & Hmask). step Er. rewrite rd_range_in by lia. step_bind.
    apply wr_range_bytes; [done| |lia|].
    - apply xor_mask_bytes; [done|]. by apply is_bytes_take, is_bytes_drop.
    - rewrite xor_mask_length, zlen_take; [lia|]. rewrite zlen_drop; lia. }
  destruct Hw as (b' & Eb & Hl & Hb'). step Eb. exists (header_len m + data_len m), m, b'.
  split; [done|]. split; [done|]. split; [done|]. destruct Hh as [[-> ->]|Hh]; [by left|right]. lia.
Qed.

(** ** One turn of the loop *)

(** The bytes of the receive buffer that no turn has looked at. *)
Definition left_over (c : mg_connection) : Z := len (recv c) - pfn_data c.

Definition RECV_BOUND : Z := MG_MAX_RECV_BUF_SIZE + 2 * MG_IO_SIZE.

Record sound (c : mg_connection) : Prop := {
  sound_recv : wf (recv c);
  sound_bytes : is_bytes (content (recv c));
  sound_size : size (recv c) <= RECV_BOUND;
  sound_ofs : 0 <= pfn_data c <= len (recv c);
  sound_send : wf (send c);
}.

(** The flags a turn leaves as they were; a connection that closes stays so. *)
Record same_kind (c c' : mg_connection) : Prop := {
  kind_websocket : is_websocket c' = is_websocket c;
  kind_client : is_client c' = is_client c;
  kind_closing : is_closing c = true → is_closing c' = true;
}.

Lemma same_kind_refl c : same_kind c c.
Proof. by split. Qed.

Lemma same_kind_trans c c1 c2 : same_kind c c1 → same_kind c1 c2 → same_kind c c2.
Proof. intros [] []. split; [congruence..|auto]. Qed.

(** Removing a part of what is stored. *)
Lemma sound_del c ofs n ofs' :
  sound c → 0 <= ofs → 0 <= n → ofs + n <= len (recv c) → 0 <= ofs' <= len (recv c) - n →
  ∃ io, mg_iobuf_del (recv c) ofs n = Ok (n, io) ∧ sound (set_recv c io ofs')
    ∧ len io = len (recv c) - n
    ∧ size io = size (recv c)
      ∧ content io = take (Z.to_nat ofs) (content (recv c)) ++ drop (Z.to_nat (ofs + n)) (content (recv c)).
Proof.
  intros [H1 H2 H3 H4 H5] Ho Hn Hle Ho'.
  destruct (del_content (recv c) ofs n) as (io & E & Hw & Hs & Ec); [done..|]. exists io.
  assert (El : len io = len (recv c) - n).
  { rewrite (content_zlen io _ Hw Ec). pose proof (content_length _ H1).
    rewrite zlen_app, zlen_take, zlen_drop by lia. lia. }
  split; [done|]. split; [|by split_and!]. split; cbn [recv send pfn_data set_recv]; try done; try lia.
  rewrite Ec. apply is_bytes_app. split; [by apply is_bytes_take|by apply is_bytes_drop].
Qed.

(** A message is handed to the program where its bytes are all in the buffer. *)
Definition in_buffer (e : mg_event) : Prop :=
  match e with EV_WS_MSG _ s => is_ok s = true | _ => True end.

(** The frame that comes next is a last fragment without data, and continues nothing. *)
Definition ends_nothing (m : ws_msg) : Prop :=
  data_len m = 0 ∧ Z.land (flags m) 128 ≠ 0 ∧ Z.land (flags m) 15 = WEBSOCKET_OP_CONTINUE.

Definition lone (c : mg_connection) : Prop :=
  pfn_data c = 0 ∧ ∃ n m b, ws_process (content (recv c)) = Ok (n, (m, b)) ∧ 0 < n ∧ ends_nothing m.

Section turns.
Context (mg_random : nat → list Z).
Hypothesis random_four : ∀ n, zlen (mg_random n) = 4.

(** The turns of the loop, one frame each. *)
Definition turns : relation mg_connection :=
  rtc (λ c c', ∃ evs, ws_turn mg_random c = Ok (Some (evs, c'))).

Lemma header_short f : frame_ok f → zlen (frame_header f) <= 14.
Proof.
  intros Hok. unfold frame_header. rewrite !zlen_app, key_size by done. unfold mask_size, len_field.
  destruct (f_key f); repeat case_match; len.
Qed.

(** The opcode: at most one frame with the same data is sent. *)
Definition dispatched (c : mg_connection) (n : Z) (r : outcome (list mg_event * mg_connection)) : Prop :=
  ∃ evs c', r = Ok (evs, c') ∧ sound c' ∧ recv c' = recv c ∧ pfn_data c' = pfn_data c
    ∧ same_kind c c' ∧ len (send c') <= len (send c) + 14 + n ∧ Forall in_buffer evs.

Lemma dispatched_same c n evs :
  sound c → 0 <= n → Forall in_buffer evs → dispatched c n (Ok (evs, c)).
Proof.
  intros. exists evs, c. do 4 (split; [done|]). split; [apply same_kind_refl|]. split; [lia|done].
Qed.

Lemma dispatched_close c n evs :
  sound c → 0 <= n → Forall in_buffer evs → dispatched c n (Ok (evs, set_closing c)).
Proof.
  intros Hs Hn He. exists evs, (set_closing c). split; [done|]. split; [by destruct Hs|].
  do 2 (split; [done|]). split; [by split|]. split; [cbn; lia|done].
Qed.

Lemma ws_dispatch_any c m d :
  sound c → zlen d <= 2 ^ 30 → len (send c) < 2 ^ 32 →
  dispatched c (zlen d) (ws_dispatch mg_random c m (Ok d)).
Proof.
  intros Hs Hd Hl. pose proof (zlen_nonneg d). unfold ws_dispatch.
  assert (Hctl : Forall in_buffer [EV_WS_CTL (flags m)]) by by constructor.
  assert (Herr : Forall in_buffer [EV_ERROR]) by by constructor.
  destruct (_ =? WEBSOCKET_OP_CONTINUE); [by apply dispatched_same|].
  destruct (_ =? WEBSOCKET_OP_PING).
  - step_bind. pose proof (sound_send _ Hs) as Hws.
    destruct (mg_ws_send_frame mg_random random_four c d WEBSOCKET_OP_PONG) as (io & E & Hw & Ec);
      [done..|by unfold WEBSOCKET_OP_PONG|done|].
    step E. do 2 eexists. split; [done|]. cbn [snd].
    split; [by destruct Hs|]. do 2 (split; [done|]). split; [by split|].
    cbn [send set_send]. rewrite (content_zlen io _ Hw Ec), zlen_app, (content_length _ Hws), frame_length.
    assert (Hok : frame_ok (sent_frame mg_random c d WEBSOCKET_OP_PONG)).
    { split; [by unfold WEBSOCKET_OP_PONG|]. split; [done|]. unfold sent_frame. cbn. by destruct (is_client c). }
    pose proof (header_short _ Hok). change (f_data (sent_frame _ _ _ _)) with d. split; [lia|done].
  - destruct (_ =? WEBSOCKET_OP_PONG); [by apply dispatched_same|].
    destruct (_ || _); [apply dispatched_same; [done..|]; case_match; by repeat constructor|].
    destruct (_ =? WEBSOCKET_OP_CLOSE); by apply dispatched_close.
Qed.

(** What is left in the buffer: the frame is behind the offset. *)
Lemma ws_strip_any c m :
  sound c → 2 <= header_len m → 0 <= data_len m → header_len m + data_len m <= left_over c →
  ∃ evs c', ws_strip c m = Ok (evs, c')
    ∧ sound c' ∧ send c' = send c ∧ same_kind c c'
    ∧ left_over c' = left_over c - (header_len m + data_len m)
    ∧ (Forall in_buffer evs ∨ (pfn_data c = 0 ∧ ends_nothing m)).
Proof.
  intros Hs Hh Hd Hle. pose proof (sound_ofs _ Hs) as Ho. pose proof (sound_recv _ Hs) as Hw.
  unfold left_over in Hle. unfold ws_strip.
  destruct (Z.land (flags m) 15 =? 0) eqn:Eop; destruct (Z.land (flags m) 128 =? 0) eqn:Ef; cbn [negb orb andb].
  - destruct (sound_del c (pfn_data c) (header_len m)
      (pfn_data c + (header_len m + data_len m - header_len m)) Hs) as (io & E & Hs' & El & _); [lia..|].
    step E. do 2 eexists. split; [done|]. split; [done|]. split; [done|]. split; [by split|].
    split; [unfold left_over; cbn; lia|by left].
  - destruct (sound_del c (pfn_data c) (header_len m)
      (pfn_data c + (header_len m + data_len m - header_len m)) Hs) as (io & E & Hs' & El & Ez & _); [lia..|].
    step E. cbn [snd].
    set (c1 := set_recv c io _) in *.
    destruct (rd_in_range (buf (recv c1)) 0) as (f & E0 & _).
    { change (recv c1) with io. fold (size io). rewrite Ez. unfold wf in Hw. lia. }
    step E0.
    destruct (sound_del c1 0 (pfn_data c + (header_len m + data_len m - header_len m)) 0 Hs')
      as (io2 & E2 & Hs2 & El2 & _); [cbn; lia..|].
    step E2. do 2 eexists. split; [done|]. split; [done|]. split; [done|]. split; [by split|].
    split; [unfold left_over; cbn in *; lia|].
    destruct (Z.eq_dec (pfn_data c + data_len m) 0) as [E00|E00].
    { right. split; [lia|]. apply Z.eqb_eq in Eop. apply Z.eqb_neq in Ef.
      split; [lia|done]. }
    left. constructor; [|constructor]. unfold in_buffer.
    change (recv c1) with io. rewrite u64_id by (pose proof (sound_size _ Hs); unfold wf, RECV_BOUND, MG_MAX_RECV_BUF_SIZE, MG_IO_SIZE in *; lia).
    rewrite rd_range_in; [done|lia|lia|]. change (zlen (buf io)) with (size io). rewrite Ez. unfold wf in Hw. lia.
  - destruct (sound_del c (pfn_data c + 1) (header_len m - 1)
      (pfn_data c + 1 + (header_len m + data_len m - 1 - (header_len m - 1))) Hs) as (io & E & Hs' & El & _); [lia..|].
    step E. do 2 eexists. split; [done|]. split; [done|]. split; [done|]. split; [by split|].
    split; [unfold left_over; cbn; lia|by left].
  - step_bind. destruct (sound_del c (pfn_data c) (header_len m + data_len m) (pfn_data c) Hs)
      as (io & E & Hs' & El & _); [lia..|].
    step E. do 2 eexists. split; [done|]. split; [done|]. split; [done|]. split; [by split|].
    split; [unfold left_over; cbn; lia|by left].
Qed.

(** A turn takes its frame off, and sends less than seven times as much. *)
Definition turned (c c' : mg_connection) : Prop :=
  sound c' ∧ same_kind c c' ∧ left_over c' < left_over c
  ∧ len (send c') + 7 * left_over c' <= len (send c) + 7 * left_over c.

Lemma ws_turn_any c :
  sound c → len (send c) < 2 ^ 32 →
  ∃ r, ws_turn mg_random c = Ok r
    ∧ match r with
      | None => True
      | Some (evs, c') => turned c c' ∧ (Forall in_buffer evs ∨ lone c)
      end.
Proof.
  intros Hs Hl. pose proof Hs as [H1 H2 H3 H4 H5]. pose proof (content_length _ H1) as Hlen. unfold ws_turn.
  set (a := take (Z.to_nat (pfn_data c)) (content (recv c))).
  set (b := drop (Z.to_nat (pfn_data c)) (content (recv c))).
  assert (Eab : content (recv c) = a ++ b ++ []) by (rewrite app_nil_r; symmetry; apply take_drop).
  assert (Ha : zlen a = pfn_data c) by (apply zlen_take; lia).
  assert (Hb : zlen b = left_over c) by (unfold left_over, b; rewrite zlen_drop; lia).
  pose proof (rd_range_content _ a b [] H1 Eab) as Er. rewrite Ha, Hb in Er. fold (left_over c). step Er.
  destruct (ws_process_any b) as (n & m & b' & Ep & Hb' & Hbytes & Hn); [by apply is_bytes_drop|].
  step Ep. destruct (Z.leb_spec n 0) as [Hn0|Hn0]; [by exists None|].
  destruct Hn as [->|(En & Hh & Hd & Hle)]; [lia|].
  destruct (wr_range_content _ a b [] b' H1 Eab Hb') as (mem & Ew & Hw & Ec). rewrite Ha in Ew. step Ew.
  set (c1 := set_recv c (mk_mg_iobuf mem (len (recv c))) (pfn_data c)).
  assert (Hmem : zlen mem = zlen (buf (recv c))).
  { unfold wr_range in Ew. case_match eqn:Eg; [|done]. injection Ew as <-.
    unfold zlen in *. rewrite !length_app, length_take, length_drop. lia. }
  assert (Hs1 : sound c1).
  { split; cbn; [done| | |done..].
    - rewrite Ec. apply is_bytes_app. split; [by apply is_bytes_take|]. by rewrite app_nil_r.
    - unfold size in *. cbn. lia. }
  assert (Hin : pfn_data c + header_len m + data_len m <= zlen mem).
  { rewrite Hmem. fold (size (recv c)). unfold wf in H1. unfold left_over in Hb. lia. }
  rewrite rd_range_in by lia. set (d := take _ _).
  assert (Hdl : zlen d = data_len m) by (unfold d; rewrite zlen_take; [done|]; rewrite zlen_drop; lia).
  destruct (ws_dispatch_any c1 m d Hs1) as (evs & c2 & E2 & Hs2 & Er2 & Eo2 & K2 & Hl2 & Hin2); [lia|done|].
  step E2. assert (El : left_over c2 = left_over c) by (unfold left_over; rewrite Er2, Eo2; done).
  destruct (ws_strip_any c2 m Hs2) as (evs' & c3 & E3 & Hs3 & Es3 & K3 & El3 & Hin3); [lia..|].
  step E3. eexists. split; [done|]. split.
  - split; [done|].
    split; [eapply same_kind_trans; [|done]; destruct K2; by split|]. cbn [snd]. cbn [send c1 set_recv] in Hl2.
    split; [|rewrite Es3]; lia.
  - cbn [fst]. destruct Hin3 as [Hin3|[Eo3 Hen]]; [left; by apply Forall_app|right].
    assert (E0 : pfn_data c = 0) by (rewrite Eo2 in Eo3; exact Eo3).
    split; [done|]. exists (header_len m + data_len m), m, b'. rewrite <- ?En. split; [|split; [lia|done]].
    unfold b in Ep. rewrite E0 in Ep. exact Ep.
Qed.

(** ** The loop and the read *)

Lemma ws_loop_any fuel c :
  sound c → len (send c) + 7 * left_over c < 2 ^ 32 → left_over c < Z.of_nat fuel →
  ∃ evs c', ws_loop mg_random fuel c = Ok (evs, c')
    ∧ sound c' ∧ same_kind c c' ∧ len (send c') <= len (send c) + 7 * left_over c
    ∧ (Forall in_buffer evs ∨ ∃ c1, turns c c1 ∧ lone c1).
Proof.
  revert c. induction fuel as [|fuel IH]; intros c Hs Hl Hf.
  { pose proof (sound_ofs _ Hs). unfold left_over in *. lia. }
  pose proof (sound_ofs _ Hs) as Ho. cbn [ws_loop].
  destruct (ws_turn_any c Hs) as (r & E & Hr); [unfold left_over in *; lia|]. step E.
  destruct r as [[evs c1]|].
  - destruct Hr as [(Hs1 & K1 & H1 & H2) Hin].
    destruct (IH c1 Hs1) as (evs' & c2 & E2 & Hs2 & K2 & Hl2 & Hin2); [lia..|]. step E2.
    do 2 eexists. split; [done|]. split; [done|]. split; [by eapply same_kind_trans|]. split; [cbn; lia|].
    cbn [fst]. destruct Hin as [Hin|Hin]; [|right; exists c; by split; [apply rtc_refl|]].
    destruct Hin2 as [Hin2|(c3 & H3 & Hin2)]; [left; by apply Forall_app|].
    right. exists c3. split; [|done]. eapply rtc_l; [by exists evs|done].
  - exists [], c. split; [done|]. split; [done|]. split; [apply same_kind_refl|].
    split; [unfold left_over in *; lia|by left].
Qed.

(** Until the handshake is over, or the connection is given up, nothing has been taken. *)
Definition alive (c : mg_connection) : Prop :=
  sound c ∧ (is_closing c = false → is_websocket c = false → is_client c = true → pfn_data c = 0).

(** The loop of a connection that is past the handshake, or given up. *)
Lemma ws_loop_alive c :
  sound c → len (send c) + 7 * left_over c < 2 ^ 32 →
  is_closing c = true ∨ is_websocket c = true ∨ is_client c = false →
  ∃ evs c', ws_loop mg_random (S (Z.to_nat (len (recv c)))) c = Ok (evs, c')
    ∧ alive c' ∧ len (send c') <= len (send c) + 7 * left_over c
    ∧ (Forall in_buffer evs ∨ ∃ c1, turns c c1 ∧ lone c1).
Proof.
  intros Hs Hl Hk. pose proof (sound_ofs _ Hs) as Ho.
  destruct (ws_loop_any (S (Z.to_nat (len (recv c)))) c Hs Hl) as (evs & c' & E & Hs' & K & Hl' & Hin);
    [unfold left_over; lia|].
  exists evs, c'. split; [done|]. split; [|by split]. split; [done|]. intros C W L. exfalso.
  rewrite (kind_websocket _ _ K) in W. rewrite (kind_client _ _ K) in L.
  destruct Hk as [Hk|[Hk|Hk]]; [|congruence..]. rewrite (kind_closing _ _ K) in C; done.
Qed.

(** The loop comes to a last fragment without data that continues nothing. *)
Definition meets_lone (c : mg_connection) : Prop :=
  ∃ c0 c1 n, content (recv c0) = drop n (content (recv c)) ∧ pfn_data c0 = pfn_data c
    ∧ turns c0 c1 ∧ lone c1.

(** The answer of the server, accepted or not, is taken off the buffer. *)
Lemma handshake_any c n :
  sound c → pfn_data c = 0 → 0 < n <= len (recv c) → len (send c) + 7 * left_over c < 2 ^ 32 →
  ∃ evs c', (let '(evs, c') :=
        if bool_decide ((if n <? 15 then [] else take 3 (drop 9 (content (recv c)))) = [49; 48; 49])
        then ([EV_WS_OPEN], set_websocket c) else ([], set_closing c) in
      d ← mg_iobuf_del (recv c') 0 n;
      let c' := set_recv c' d.2 (pfn_data c') in
      r ← ws_loop mg_random (S (Z.to_nat (len (recv c')))) c'; Ok (evs ++ r.1, r.2)) = Ok (evs, c')
    ∧ alive c' ∧ len (send c') <= len (send c) + 7 * left_over c
    ∧ (Forall in_buffer evs ∨ meets_lone c).
Proof.
  intros Hs Ho Hn Hl.
  set (ec := if bool_decide _ then _ else _).
  assert (Hec : ∃ evs c1, ec = (evs, c1) ∧ recv c1 = recv c ∧ send c1 = send c ∧ pfn_data c1 = 0
    ∧ (is_closing c1 = true ∨ is_websocket c1 = true) ∧ Forall in_buffer evs).
  { unfold ec. destruct (bool_decide _); do 2 eexists; (split; [done|]); cbn;
      (do 3 (split; [done|])); (split; [auto|by repeat constructor]). }
  clearbody ec. destruct Hec as (evs & c1 & -> & Er1 & Es1 & Eo1 & Hk1 & Hin1).
  assert (Hs1 : sound c1) by (destruct Hs; split; rewrite ?Er1, ?Es1, ?Eo1; try done; lia).
  destruct (sound_del c1 0 n (pfn_data c1) Hs1) as (io & E & Hs2 & El & _ & Ec2); [rewrite ?Er1, ?Eo1; lia..|].
  step E. cbn [snd]. set (c2 := set_recv c1 io (pfn_data c1)) in *.
  assert (Hl2 : len (send c2) + 7 * left_over c2 <= len (send c) + 7 * left_over c).
  { unfold left_over, c2. cbn. rewrite El, Es1, Er1, Eo1, Ho. lia. }
  destruct (ws_loop_alive c2 Hs2 ltac:(lia)) as (evs2 & c3 & E3 & Ha3 & Hl3 & Hin3); [cbn; tauto|].
  step E3. do 2 eexists. split; [done|]. split; [done|]. cbn [fst snd].
  assert (len (send c2) = len (send c)) by (unfold c2; cbn; by rewrite Es1). split; [lia|].
  destruct Hin3 as [Hin3|(c4 & Ht & Hin3)]; [left; by apply Forall_app|right].
  exists c2, c4, (Z.to_nat n). split; [|split; [cbn; congruence|by split]].
  change (recv c2) with io. by rewrite Ec2, Er1.
Qed.

Lemma mg_ws_cb_any c :
  alive c → is_closing c = false → len (send c) + 7 * left_over c < 2 ^ 32 →
  ∃ evs c', mg_ws_cb mg_random c = Ok (evs, c')
    ∧ alive c' ∧ len (send c') <= len (send c) + 7 * left_over c
    ∧ (Forall in_buffer evs ∨ meets_lone c).
Proof.
  assert (Hweak : ∀ c0, recv c0 = recv c → pfn_data c0 = pfn_data c →
    (∃ evs c', ws_loop mg_random (S (Z.to_nat (len (recv c0)))) c0 = Ok (evs, c')
      ∧ alive c' ∧ len (send c') <= len (send c0) + 7 * left_over c0
      ∧ (Forall in_buffer evs ∨ ∃ c1, turns c0 c1 ∧ lone c1)) →
    ∃ evs c', ws_loop mg_random (S (Z.to_nat (len (recv c0)))) c0 = Ok (evs, c')
      ∧ alive c' ∧ len (send c') <= len (send c0) + 7 * left_over c0
      ∧ (Forall in_buffer evs ∨ meets_lone c)).
  { intros c0 Er Eo (evs & c' & E & Ha & Hlen & Hin). exists evs, c'. do 3 (split; [done|]).
    destruct Hin as [Hin|(c1 & Ht & Hin)]; [by left|right].
    exists c0, c1, 0%nat. by rewrite Er, Eo, drop_0. }
  intros [Hs Hz] Hc Hl. pose proof (sound_recv _ Hs) as Hw. pose proof (sound_ofs _ Hs) as Ho.
  unfold mg_ws_cb.
  destruct (is_websocket c) eqn:Ew; cbn [negb andb]; [apply Hweak; [done..|]; apply ws_loop_alive; tauto|].
  destruct (is_client c) eqn:Ek; [|apply Hweak; [done..|]; apply ws_loop_alive; tauto]. specialize (Hz Hc eq_refl eq_refl).
  pose proof (rd_range_content _ [] (content (recv c)) [] Hw ltac:(by rewrite app_nil_r)) as Er.
  pose proof (content_length _ Hw) as Hlen. rewrite zlen_nil, Hlen in Er. step Er.
  set (n := mg_http_get_request_len (content (recv c))).
  assert (Hn : n <= len (recv c)).
  { pose proof (request_len_bound (content (recv c)) 0 0 0 ltac:(lia)) as Hb.
    unfold n, mg_http_get_request_len. lia. }
  destruct (Z.ltb_spec n 0) as [N|N].
  { apply (Hweak (set_closing c)); [done..|].
    apply (ws_loop_alive (set_closing c)); [by destruct Hs|done|by left]. }
  destruct (Z.ltb_spec 0 n) as [N'|N'].
  2:{ exists [], c. split; [done|]. split; [done|]. split; [unfold left_over; lia|by left]. }
  assert (Est : (if n <? 15 then Ok [] else rd_range (content (recv c)) 9 3)
    = Ok (if n <? 15 then [] else take 3 (drop 9 (content (recv c))))).
  { destruct (Z.ltb_spec n 15); [done|]. by rewrite rd_range_in by lia. }
  step Est. by apply handshake_any.
Qed.
End turns.

(** ** Whatever the peer sends *)

Lemma grown_size c : len (recv c) < MG_MAX_RECV_BUF_SIZE → sound c → size (grown c) <= RECV_BOUND.
Proof.
  intros Hm Hs. pose proof (sound_size _ Hs) as Hz. pose proof (sound_recv _ Hs) as Hw. unfold grown.
  destruct (Z.ltb_spec (size (recv c) - len (recv c)) MG_IO_SIZE) as [L|L]; [|done].
  destruct (resize_content (recv c) (size (recv c) + MG_IO_SIZE)) as (_ & _ & E & _); [done| |..].
  - unfold wf, MG_IO_SIZE in *. lia.
  - unfold wf, MG_IO_SIZE in *. lia.
  - rewrite E. unfold RECV_BOUND. lia.
Qed.


