(* ===== verification/MgSession.v ===== *)
(** * MgSession: texts over the connection

    Puts the websocket layer ([MgWebsocket]) under the client of the program
    ([WSClient]): [mg_call] runs [ws_event_handler] on each event, in order.  A message of
    the application is one frame or several fragments, with control frames in between;
    the theorems say which texts reach the application, however the connection cuts the
    bytes. *)

From S2P Require Import Prelude.
From S2P Require Import MgIobuf.
From S2P Require Import MgWebsocket.
From S2P Require Import MgSafety.
From S2P Require Import WSClient.

(** ** The handler on the events

    The data of a text are read by the callback, if there is one: pointer and length make
    a [std::string] ([websocket_received] of [src/application/app_meeting_room.cpp]), which
    throws when the length is not one of a string. *)
Definition to_client (this : WSClient) (e : mg_event) : outcome ws_event :=
  match e with
  | EV_WS_OPEN => Ok MG_EV_WS_OPEN
  | EV_WS_CTL flags => Ok (MG_EV_WS_CTL flags)
  | EV_ERROR => Ok MG_EV_ERROR
  | EV_WS_MSG flags data =>
      if (Z.land flags 15 =? WSClient.WEBSOCKET_OP_TEXT) && bool_decide (is_Some (m_recv_func this))
      then d ← data; Ok (MG_EV_WS_MSG flags d)
      else Ok (MG_EV_WS_MSG flags [])
  end.

Fixpoint feed_client (evs : list mg_event) (this : WSClient) : outcome (list ws_effect * WSClient) :=
  match evs with
  | [] => Ok ([], this)
  | e :: evs =>
      e ← to_client this e;
      let '(effects, this) := on_event_handle this e in
      r ← feed_client evs this; Ok (effects ++ r.1, r.2)
  end.

(** ** Messages and frames *)

Definition control (f : frame) : Prop :=
  f_final f = true ∧ (f_op f = WEBSOCKET_OP_PING ∨ f_op f = WEBSOCKET_OP_PONG).

Definition data_op (op : Z) : Prop := op = MgWebsocket.WEBSOCKET_OP_TEXT ∨ op = WEBSOCKET_OP_BINARY.

(** The fragments after the first, with the data they carry together. *)
Inductive continued : list Z → list frame → Prop :=
| continued_last key d : continued d [mk_frame true WEBSOCKET_OP_CONTINUE key d]
| continued_more key d ds fs :
    continued ds fs → continued (d ++ ds) (mk_frame false WEBSOCKET_OP_CONTINUE key d :: fs)
| continued_control f ds fs : control f → continued ds fs → continued ds (f :: fs).

(** The frames carry these messages, each with its opcode. *)
Inductive carries : list (Z * list Z) → list frame → Prop :=
| carries_nil : carries [] []
| carries_control f ms fs : control f → carries ms fs → carries ms (f :: fs)
| carries_whole op key d ms fs :
    data_op op → carries ms fs → carries ((op, d) :: ms) (mk_frame true op key d :: fs)
| carries_parts op key d ds ms fs1 fs2 :
    data_op op → continued ds fs1 → carries ms fs2 →
    carries ((op, d ++ ds) :: ms) (mk_frame false op key d :: fs1 ++ fs2).

Definition messages (evs : list mg_event) : list (Z * list Z) :=
  omap (λ e, match e with EV_WS_MSG f (Ok d) => Some (Z.land f 15, d) | _ => None end) evs.

Definition texts (ms : list (Z * list Z)) : list (list Z) :=
  omap (λ m, if m.1 =? MgWebsocket.WEBSOCKET_OP_TEXT then Some m.2 else None) ms.

Definition pings (fs : list frame) : list (list Z) :=
  omap (λ f, if f_op f =? WEBSOCKET_OP_PING then Some (f_data f) else None) fs.

(** No handshake, and the data of every message are there. *)
Definition readable (e : mg_event) : Prop :=
  match e with EV_WS_MSG _ data => is_ok data = true | EV_WS_OPEN => False | _ => True end.

Record meaning (st : ws_state) (fs : list frame) (ms : list (Z * list Z)) : Prop := {
  mean_pending : (ws_specs st fs).1 = None;
  mean_messages : messages (ws_specs st fs).2.1 = ms;
  mean_readable : Forall readable (ws_specs st fs).2.1;
  mean_pongs : (ws_specs st fs).2.2 = pings fs;
}.

Lemma meaning_nil : meaning None [] [].
Proof. split; [done..|constructor|done]. Qed.

Lemma messages_app a b : messages (a ++ b) = messages a ++ messages b.
Proof. apply omap_app. Qed.

(** One frame in front. *)
Lemma meaning_cons st f fs ms evs st' pongs ms0 :
  ws_spec st f = (st', (evs, pongs)) → messages evs = ms0 → Forall readable evs →
  pongs = pings [f] → meaning st' fs ms → meaning st (f :: fs) (ms0 ++ ms).
Proof.
  intros E <- Hr -> [H1 H2 H3 H4]. change (f :: fs) with ([f] ++ fs).
  assert (E' : ws_specs st ([f] ++ fs) = ((ws_specs st' fs).1,
    (evs ++ (ws_specs st' fs).2.1, pings [f] ++ (ws_specs st' fs).2.2))).
  { cbn [ws_specs app]. rewrite E. by destruct (ws_specs st' fs) as [? [??]]. }
  split; rewrite E'; cbn [fst snd]; [done|by rewrite messages_app, H2|by apply Forall_app|].
  unfold pings. by rewrite omap_app, H4.
Qed.

Lemma meaning_control st f fs ms : control f → meaning st fs ms → meaning st (f :: fs) ms.
Proof.
  destruct f as [fin op key d]. intros [Hf Hop] Hm. cbn in Hf, Hop. subst fin. change ms with ([] ++ ms).
  destruct Hop as [-> | ->];
    (eapply meaning_cons; [done|done|by repeat constructor|done|exact Hm]).
Qed.

Lemma meaning_continued flags d0 ds fs1 fs2 ms :
  continued ds fs1 → meaning None fs2 ms →
  meaning (Some (flags, d0)) (fs1 ++ fs2) ((Z.land flags 15, d0 ++ ds) :: ms).
Proof.
  intros Hc Hm. revert d0. induction Hc as [key d|key d ds fs _ IH|f ds fs Hf _ IH]; intros d0.
  - change (_ :: ms) with ([(Z.land flags 15, d0 ++ d)] ++ ms).
    eapply meaning_cons; [done|done|by repeat constructor|done|exact Hm].
  - rewrite app_assoc. change (_ :: ms) with ([] ++ (Z.land flags 15, (d0 ++ d) ++ ds) :: ms).
    eapply meaning_cons; [done|done|by repeat constructor|done|apply IH].
  - cbn [app]. apply meaning_control; [done|apply IH].
Qed.

Lemma meaning_carries ms fs : carries ms fs → meaning None fs ms.
Proof.
  induction 1 as [|f ms fs Hf _ IH|op key d ms fs Hop _ IH|op key d ds ms fs1 fs2 Hop Hc _ IH].
  - apply meaning_nil.
  - by apply meaning_control.
  - change (_ :: ms) with ([(op, d)] ++ ms).
    destruct Hop as [-> | ->];
      (eapply meaning_cons; [done|done|by repeat constructor|done|exact IH]).
  - change (_ :: ms) with ([] ++ (op, d ++ ds) :: ms).
    destruct Hop as [-> | ->];
      (eapply meaning_cons; [done|done|by repeat constructor|done|]).
    + exact (meaning_continued (1 + 0) d ds fs1 fs2 ms Hc IH).
    + exact (meaning_continued (2 + 0) d ds fs1 fs2 ms Hc IH).
Qed.

(** ** What the client does with them *)

(** The calls of the application. *)
Definition text_calls (func arg : Z) (ms : list (Z * list Z)) : list ws_effect :=
  (λ d, call_recv_func func d arg) <$> texts ms.

Lemma feed_client_texts evs this func :
  Forall readable evs → m_recv_func this = Some func →
  feed_client evs this = Ok (text_calls func (m_recv_func_arg this) (messages evs), this).
Proof.
  intros He Hf. induction He as [|e evs Hr _ IH]; [done|]. cbn [feed_client].
  destruct e as [|f|f data|]; cbn [readable to_client] in *; [done|..].
  - step_bind. cbn [on_event_handle]. by rewrite IH.
  - rewrite Hf. rewrite bool_decide_eq_true_2 by done. rewrite andb_true_r.
    destruct data as [d| |]; [|done..]. step_bind. unfold text_calls, messages, texts. cbn [omap list_omap fst snd].
    change WSClient.WEBSOCKET_OP_TEXT with MgWebsocket.WEBSOCKET_OP_TEXT.
    destruct (Z.land f 15 =? MgWebsocket.WEBSOCKET_OP_TEXT) eqn:E; step_bind; cbn [on_event_handle];
      change WSClient.WEBSOCKET_OP_TEXT with MgWebsocket.WEBSOCKET_OP_TEXT; rewrite E.
    + unfold on_message_received. rewrite Hf, IH. by step_bind.
    + rewrite IH. by step_bind.
  - step_bind. cbn [on_event_handle]. by rewrite IH.
Qed.

(** ** From the request to the application *)

(** The answer of the server and the frames behind it. *)
Lemma delivered_any mg_random c client func h chunks ms fs :
  (∀ n, zlen (mg_random n) = 4) →
  accepts h → opening h [] c → carries ms fs → well_formed None fs →
  concat chunks = h ++ stream fs → fits mg_random c chunks →
  len (send c) + zlen (pong_bytes mg_random true (drawn c) (pings fs)) < 2 ^ 32 →
  m_recv_func client = Some func →
  ∃ evs c', read_all mg_random c chunks = Ok (evs, c')
    ∧ feed_client evs client
      = Ok (call_event_func client MG_EV_WS_OPEN ++ text_calls func (m_recv_func_arg client) ms,
            set_connection client (m_connection client) true)
    ∧ content (recv c') = [] ∧ is_closing c' = is_closing c
    ∧ content (send c') = content (send c) ++ pong_bytes mg_random true (drawn c) (pings fs).
Proof.
  intros Hr Hacc Ho Hms Hwf E Hfits Hl Hf. destruct (meaning_carries ms fs Hms) as [M1 M2 M3 M4].
  rewrite <- M4 in Hl |- *.
  destruct (read_all_opening mg_random Hr chunks h [] fs c Hacc Ho E Hwf Hfits Hl) as (c' & Er & Hh & Ha).
  do 2 eexists. split; [exact Er|]. split.
  - cbn [feed_client to_client]. step_bind. cbn [on_event_handle].
    rewrite (feed_client_texts _ _ func) by done. rewrite M2. by step_bind.
  - split; [by rewrite (hold_content _ _ _ Hh), M1|]. split; [by rewrite (ans_closing _ _ _ _ Ha)|].
    rewrite (ans_sent _ _ _ _ Ha). cbn [send set_websocket is_client drawn]. by rewrite (op_client _ _ _ Ho).
Qed.

(** C10: After the request is sent, however the network cuts the answer of the server and the
    frames behind it: the client is told that the connection is open, and then each text is
    handed to the application, whole and in the order sent, whether it came in one frame or
    in fragments with pings between them; each ping is answered; nothing stays in the
    buffer. *)
Theorem texts_delivered mg_random c client func h chunks ms fs :
  (∀ n, zlen (mg_random n) = 4) →
  accepts h → opening h [] c → carries ms fs → well_formed None fs →
  concat chunks = h ++ stream fs → fits mg_random c chunks →
  len (send c) + zlen (pong_bytes mg_random true (drawn c) (pings fs)) < 2 ^ 32 →
  m_recv_func client = Some func →
  ∃ evs c', read_all mg_random c chunks = Ok (evs, c')
    ∧ feed_client evs client
      = Ok (call_event_func client MG_EV_WS_OPEN ++ text_calls func (m_recv_func_arg client) ms,
            set_connection client (m_connection client) true)
    ∧ content (recv c') = []
    ∧ content (send c') = content (send c) ++ pong_bytes mg_random true (drawn c) (pings fs).
Proof.
  intros. destruct (delivered_any mg_random c client func h chunks ms fs)
    as (evs & c' & E1 & E2 & E3 & _ & E4); [done..|by exists evs, c'].
Qed.

(** ** From one end to the other *)

(** [write_conn] when the socket answers [n]: what has gone out, and what [iolog] leaves. *)
Definition write_conn (c : mg_connection) (n : Z) : outcome (list Z * mg_connection) :=
  if n =? 0 then Ok ([], c)
  else if n <? 0 then Ok ([], set_closing c)
  else
    out ← rd_range (buf (send c)) 0 n;
    d ← mg_iobuf_del (send c) 0 n;
    Ok (out, set_send c d.2 (drawn c)).

(** What happens at the sending end: a text is sent, or the socket takes some bytes. *)
Inductive sender_act : Type :=
| Say (d : list Z)
| Wrote (n : Z).

Definition said (acts : list sender_act) : list (list Z) :=
  omap (λ a, match a with Say d => Some d | Wrote _ => None end) acts.

Fixpoint run_sender (mg_random : nat → list Z) (c : mg_connection) (acts : list sender_act)
    : outcome (list Z * mg_connection) :=
  match acts with
  | [] => Ok ([], c)
  | Say d :: acts =>
      r ← MgWebsocket.mg_ws_send mg_random c d MgWebsocket.WEBSOCKET_OP_TEXT;
      run_sender mg_random r.2 acts
  | Wrote n :: acts =>
      r ← write_conn c n;
      q ← run_sender mg_random r.2 acts; Ok (r.1 ++ q.1, q.2)
  end.

(** The socket never takes more than there is. *)
Fixpoint takes (mg_random : nat → list Z) (c : mg_connection) (acts : list sender_act) : Prop :=
  match acts with
  | [] => True
  | Say d :: acts =>
      ∀ r, MgWebsocket.mg_ws_send mg_random c d MgWebsocket.WEBSOCKET_OP_TEXT = Ok r →
        takes mg_random r.2 acts
  | Wrote n :: acts => n <= len (send c) ∧ ∀ r, write_conn c n = Ok r → takes mg_random r.2 acts
  end.

(** The frames that are written. *)
Fixpoint text_frames (mg_random : nat → list Z) (client : bool) (n : nat) (ds : list (list Z))
    : list frame :=
  match ds with
  | [] => []
  | d :: ds =>
      mk_frame true MgWebsocket.WEBSOCKET_OP_TEXT (if client then Some (mg_random n) else None) d
        :: text_frames mg_random client (if client then S n else n) ds
  end.

(** Each text fits in the buffer of the peer. *)
Definition short (d : list Z) : Prop := zlen d + 14 <= MG_MAX_RECV_BUF_SIZE.

Definition total (ds : list (list Z)) : Z := fold_right (λ d n, zlen d + 14 + n) 0 ds.

Lemma total_nonneg ds : 0 <= total ds.
Proof. induction ds as [|d ds IH]; [done|]. cbn [total fold_right]. fold (total ds). len. Qed.

Section both_ends.
Context (mg_random : nat → list Z).
Hypothesis random_four : ∀ n, zlen (mg_random n) = 4.

Lemma text_frame_ok (client : bool) (n : nat) (d : list Z) :
  short d →
  frame_ok (mk_frame true MgWebsocket.WEBSOCKET_OP_TEXT (if client then Some (mg_random n) else None) d).
Proof.
  unfold short, MG_MAX_RECV_BUF_SIZE. intros Hd. split; [done|]. split; [cbn; lia|]. cbn. by destruct client.
Qed.

Lemma write_conn_content c n :
  wf (send c) → n <= len (send c) →
  ∃ out c', write_conn c n = Ok (out, c') ∧ wf (send c') ∧ out ++ content (send c') = content (send c)
    ∧ len (send c') <= len (send c) ∧ is_client c' = is_client c ∧ drawn c' = drawn c.
Proof.
  intros Hw Hn. unfold write_conn. destruct (Z.eqb_spec n 0) as [->|Hne]; [by exists [], c|].
  destruct (Z.ltb_spec n 0); [by exists [], (set_closing c)|].
  pose proof (content_length _ Hw) as Hl.
  set (a := take (Z.to_nat n) (content (send c))). set (b := drop (Z.to_nat n) (content (send c))).
  assert (E : content (send c) = [] ++ a ++ b) by (symmetry; apply take_drop).
  assert (Ha : zlen a = n) by (apply zlen_take; lia).
  pose proof (rd_range_content _ [] a b Hw E) as Er. rewrite Ha, zlen_nil in Er. step Er.
  destruct (del_mid (send c) [] a b Hw E) as (io & Ed & Hw' & Ec). rewrite Ha, zlen_nil in Ed. step Ed.
  do 2 eexists. split; [done|]. split; [done|]. cbn [send set_send snd is_client drawn]. split; [by rewrite Ec, E|].
  split; [|done]. rewrite (content_zlen io _ Hw' Ec), <- Hl, E, !zlen_app. pose proof (zlen_nonneg a). lia.
Qed.

(** What has gone out and what is still to go are the frames, one after the other. *)
Lemma run_sender_content acts c :
  wf (send c) → len (send c) + total (said acts) < 2 ^ 32 → Forall short (said acts) →
  takes mg_random c acts →
  ∃ out c', run_sender mg_random c acts = Ok (out, c') ∧ wf (send c')
    ∧ out ++ content (send c')
      = content (send c) ++ stream (text_frames mg_random (is_client c) (drawn c) (said acts)).
Proof.
  revert c. induction acts as [|[d|n] acts IH]; intros c Hw Hl Hs Ht.
  - exists [], c. split; [done|]. split; [done|]. cbn. by rewrite app_nil_r.
  - change (said (Say d :: acts)) with (d :: said acts) in *.
    apply Forall_cons_1 in Hs as [Hd Hs]. cbn [total fold_right] in Hl. fold (total (said acts)) in Hl.
    pose proof (total_nonneg (said acts)). pose proof (zlen_nonneg d).
    pose proof Hd as Hd'. unfold short, MG_MAX_RECV_BUF_SIZE in Hd'.
    destruct (mg_ws_send_frame mg_random random_four c d MgWebsocket.WEBSOCKET_OP_TEXT)
      as (io & E & Hw' & Ec); [done|lia|done|lia|].
    specialize (Ht _ E). cbn [run_sender]. step E. cbn [snd] in *. set (c1 := set_send c io _) in *.
    pose proof (text_frame_ok (is_client c) (drawn c) d Hd) as Hok. pose proof (header_short _ Hok) as Hh.
    fold (sent_frame mg_random c d MgWebsocket.WEBSOCKET_OP_TEXT) in Hok, Hh.
    pose proof (content_zlen io _ Hw' Ec) as El. rewrite zlen_app, (content_length _ Hw), frame_length in El.
    change (f_data (sent_frame _ _ _ _)) with d in El.
    destruct (IH c1 Hw') as (out & c' & E' & Hw2 & Ec2); [change (send c1) with io; lia|done|done|].
    exists out, c'. split; [done|]. split; [done|]. rewrite Ec2. cbn [send c1 set_send is_client drawn].
    rewrite Ec. cbn [text_frames]. unfold stream. rewrite fmap_cons. cbn [concat]. by rewrite <- app_assoc.
  - change (said (Wrote n :: acts)) with (said acts) in *. destruct Ht as [Hn Ht].
    destruct (write_conn_content c n Hw Hn) as (out & c1 & E & Hw1 & Ec & Hl1 & Ek & Ed).
    specialize (Ht _ E). cbn [run_sender]. step E. cbn [fst snd] in *.
    destruct (IH c1 Hw1) as (out' & c' & E' & Hw2 & Ec2); [lia|done|done|]. step E'.
    do 2 eexists. split; [done|]. split; [done|]. cbn [fst snd].
    by rewrite <- app_assoc, Ec2, Ek, Ed, app_assoc, Ec.
Qed.

Lemma text_frames_meaning (client : bool) (n : nat) (ds : list (list Z)) :
  Forall short ds →
  well_formed None (text_frames mg_random client n ds)
  ∧ ws_specs None (text_frames mg_random client n ds) = (None, ((λ d, EV_WS_MSG 129 (Ok d)) <$> ds, [])).
Proof.
  intros Hs. revert n. induction Hs as [|d ds Hd _ IH]; intros n; [done|]. cbn [text_frames].
  pose proof (text_frame_ok client n d Hd) as Hok. set (f := mk_frame true _ _ d) in *.
  destruct (IH (if client then S n else n)) as [H1 H2]. split.
  - split; [right; right; split; by left|]. split; [done|]. split; [|exact H1].
    rewrite frame_length. cbn [pending]. pose proof (header_short _ Hok). unfold short in Hd.
    change (f_data f) with d. rewrite zlen_nil. lia.
  - cbn [ws_specs]. change (ws_spec None f) with (@None (Z * list Z), ([EV_WS_MSG 129 (Ok d)], @nil (list Z))).
    cbv beta iota. by rewrite H2.
Qed.

Lemma incomplete_nil fs : incomplete [] fs.
Proof.
  destruct fs as [|f fs]; [done|]. exists (frame_bytes f). split; [apply frame_nonempty|done].
Qed.
End both_ends.

(** A connection that is open, with nothing received and nothing pending. *)
Definition idle (c : mg_connection) : Prop :=
  wf (recv c) ∧ content (recv c) = [] ∧ pfn_data c = 0 ∧ wf (send c) ∧ is_websocket c = true.

(** C11: What the client sends is what the peer receives: the frames that [send_text] puts in
    the send buffer, masked with any random keys, while the socket takes the bytes in
    pieces of any size, are read by the same library at the other end as the same texts,
    each one whole, once and in order, however the bytes are cut. *)
Theorem sent_texts_received mg_random c acts :
  (∀ n, zlen (mg_random n) = 4) →
  wf (send c) → content (send c) = [] → Forall short (said acts) → total (said acts) < 2 ^ 32 →
  takes mg_random c acts →
  ∃ out c', run_sender mg_random c acts = Ok (out, c')
    ∧ ∀ mg_random' peer chunks,
        content (send c') = [] → (∀ n, zlen (mg_random' n) = 4) → idle peer → len (send peer) < 2 ^ 32 →
        concat chunks = out → fits mg_random' peer chunks →
        ∃ peer', read_all mg_random' peer chunks
            = Ok ((λ d, EV_WS_MSG 129 (Ok d)) <$> said acts, peer')
          ∧ content (recv peer') = [] ∧ content (send peer') = content (send peer).
Proof.
  intros Hr Hw Ec Hs Ht Htk. pose proof (content_zlen _ _ Hw Ec) as Hl. rewrite zlen_nil in Hl.
  destruct (run_sender_content mg_random Hr acts c Hw) as (out & c' & E & Hw' & Ec'); [lia|done|done|].
  exists out, c'. split; [done|]. rewrite Ec in Ec'. cbn [app] in Ec'.
  intros mg_random' peer chunks Hall Hr' (P1 & P2 & P3 & P4 & P5) Hlp Ech Hfits.
  rewrite Hall, app_nil_r in Ec'.
  destruct (text_frames_meaning mg_random Hr (is_client c) (drawn c) _ Hs) as [Hwf Hm].
  set (fs := text_frames _ _ _ _) in *.
  destruct (read_all_running mg_random' Hr' chunks None [] fs peer) as (p' & Er & Hh & Ha); [|by rewrite Ech|done|].
  - split; [by split|done|done|apply incomplete_nil|]. rewrite Hm. cbn [snd pong_bytes]. rewrite zlen_nil. lia.
  - exists p'. rewrite Hm in *. cbn [fst snd] in *. split; [done|].
    split; [apply (hold_content _ _ _ Hh)|]. rewrite (ans_sent _ _ _ _ Ha). cbn. by rewrite app_nil_r.
Qed.

(** ** A fragment that continues nothing *)

Section lone.
Context (mg_random : nat → list Z).
Hypothesis random_four : ∀ n, zlen (mg_random n) = 4.

(** The frame [128; 0] at the front of the buffer, with nothing pending. *)
Definition stray : list Z := [128; 0].

Lemma ws_process_stray rest : ws_process (stray ++ rest) = Ok (2, (mk_ws_msg 128 2 0, stray ++ rest)).
Proof.
  assert (Hl : 2 <= zlen (stray ++ rest)) by (unfold stray; cbn [app]; rewrite !zlen_cons; pose proof (zlen_nonneg rest); lia).
  unfold ws_process, ws_header. rewrite (proj2 (Z.leb_le 2 _)) by done.
  change (rd (stray ++ rest) 0) with (Ok 128). change (rd (stray ++ rest) 1) with (Ok 0). step_bind.
  change (Z.land 0 127 <? 126) with true. change (Z.land 0 128 =? 0) with true.
  rewrite (proj2 (Z.leb_le 0 (zlen _))) by lia. cbn [andb]. step_bind. cbn [data_len header_len Z.add].
  change (Z.land 0 127) with 0. rewrite (proj2 (Z.ltb_ge (zlen _) _)) by lia. done.
Qed.

(** Removing everything leaves zeros behind. *)
Lemma del_all io :
  wf io → 0 < len io →
  ∃ io', mg_iobuf_del io 0 (len io) = Ok (len io, io') ∧ rd (buf io') 0 = Ok 0.
Proof.
  intros Hw Hl. unfold mg_iobuf_del. rewrite (proj2 (Z.ltb_ge (len io) 0)) by lia.
  rewrite Z.add_0_l, Z.ltb_irrefl, Z.sub_0_r, Z.sub_diag. unfold wf, size in Hw.
  rewrite rd_range_in by lia. step_bind.
  rewrite (wr_range_at (buf io) 0 [] [] (buf io)) by done. step_bind. cbn [take app].
  unfold wr_range. rewrite zeros_length by lia. repeat dec_if. cbn [andb]. step_bind.
  eexists. split; [done|]. cbn [buf]. unfold zeros. destruct (Z.to_nat (len io)) eqn:E; [lia|done].
Qed.

(** The turn: the message takes the next byte for its flags, and its length wraps around. *)
Lemma ws_turn_stray c rest :
  sound c → pfn_data c = 0 → content (recv c) = stray ++ rest →
  ∃ x c', ws_turn mg_random c = Ok (Some ([EV_WS_CTL 128; EV_WS_MSG x Fault], c'))
    ∧ sound c' ∧ same_kind c c' ∧ pfn_data c' = 0 ∧ content (recv c') = rest ∧ send c' = send c
    ∧ x = hd 0 rest.
Proof.
  intros Hs Eo Ec. pose proof Hs as [H1 H2 H3 H4 H5]. pose proof (content_zlen _ _ H1 Ec) as Hl.
  unfold ws_turn. rewrite Eo, Z.sub_0_r.
  pose proof (rd_range_content _ [] (stray ++ rest) [] H1 ltac:(by rewrite app_nil_r)) as Er.
  rewrite zlen_nil, <- Hl in Er. step Er. rewrite ws_process_stray. step_bind. cbn [Z.leb Z.compare].
  destruct (content_split _ H1) as (slack & Eb & _).
  rewrite (wr_range_at (buf (recv c)) 0 [] (stray ++ rest) slack (stray ++ rest)) by (rewrite ?Eb, ?Ec; done).
  step_bind. cbn [app]. rewrite <- Ec, <- Eb.
  assert (Esame : set_recv c (mk_mg_iobuf (buf (recv c)) (len (recv c))) 0 = c).
  { destruct c as [[b l] s o w k z n]. cbn in *. by rewrite Eo. }
  rewrite Esame. unfold ws_dispatch. cbn [flags header_len data_len].
  change (Z.land 128 15 =? WEBSOCKET_OP_CONTINUE) with true. step_bind. unfold ws_strip. cbn [flags header_len data_len].
  change (Z.land 128 15 =? 0) with true. change (Z.land 128 128 =? 0) with false. cbn [orb negb andb].
  rewrite Eo. destruct (del_mid (recv c) [] stray rest H1 Ec) as (io & Ed & Hw & Ec'). rewrite zlen_nil in Ed.
  destruct (sound_del c 0 2 0 Hs) as (io' & Ed' & Hs' & El & Ez & _); [unfold stray in *; len..|].
  change (zlen stray) with 2 in Ed. rewrite Ed in Ed'. injection Ed' as <-. step Ed.
  cbn [snd Z.add Z.sub]. change (0 + (2 + 0 - 2)) with 0. cbn [recv set_recv pfn_data].
  assert (Ex : rd (buf io) 0 = Ok (hd 0 rest)).
  { destruct rest as [|y l]; [|by apply (rd_content io y l)].
    destruct (del_all (recv c) H1) as (io2 & E2 & R2); [unfold stray in Hl; len|].
    change (zlen (stray ++ [])) with 2 in Hl. rewrite Hl, Ed in E2. by injection E2 as <-. }
  step Ex.
  assert (Ef : rd_range (buf io) 1 (u64 (0 - 1)) = Fault).
  { unfold rd_range. change (u64 (0 - 1)) with (2 ^ 64 - 1). unfold size, RECV_BOUND, MG_MAX_RECV_BUF_SIZE, MG_IO_SIZE in *.
    repeat dec_if. by rewrite andb_false_r. }
  rewrite Ef. destruct (sound_del (set_recv c io 0) 0 0 0 Hs') as (io3 & E3 & Hs3 & El3 & _); [cbn; unfold stray in *; len..|].
  cbn [recv set_recv] in E3. destruct (del_mid io [] [] rest Hw Ec') as (io4 & E4 & Hw4 & Ec4).
  rewrite zlen_nil, E3 in E4. injection E4 as <-. step E3. cbn [app].
  do 2 eexists. split; [done|]. split; [exact Hs3|]. split; [by split|]. split; [done|].
  split; [exact Ec4|]. by split.
Qed.
End lone.

(** The bytes of one read, on a connection that is open and idle. *)
Lemma read_idle mg_random c data :
  sound c → idle c → zlen data <= room c →
  ∃ io, read_conn mg_random c data
      = ws_loop mg_random (S (Z.to_nat (len io))) (set_recv c io 0)
    ∧ content io = data ∧ len io = zlen data ∧ (is_bytes data → sound (set_recv c io 0)).
Proof.
  intros Hs (H1 & H2 & H3 & H4 & H5) Hroom. pose proof (content_zlen _ _ H1 H2) as Hl. rewrite zlen_nil in Hl.
  assert (M : len (recv c) < MG_MAX_RECV_BUF_SIZE) by (rewrite Hl; done).
  destruct (read_conn_adds mg_random c data H1 M Hroom) as (io & E & Hw & Ec & Es).
  rewrite H2 in Ec. cbn [app] in Ec. pose proof (content_zlen io _ Hw Ec) as Eio.
  exists io. split.
  { rewrite E, H3. unfold mg_ws_cb. cbn [is_websocket set_recv]. by rewrite H5. }
  split; [done|]. split; [done|]. intros Hd. pose proof (grown_size c M Hs) as Hg.
  unfold wf in *. split; cbn; [done|by rewrite Ec|congruence|lia|done].
Qed.

(** C40: A final fragment without data that continues nothing ends the program or does
    nothing, as the network cuts the bytes: if the first byte of a text frame arrives
    in the same read, the message is taken for a text of length 2{^64} - 1, and the
    [std::string] of the callback throws; if it arrives alone, the client goes on. *)
Theorem lone_continuation_crashes mg_random c client func x l :
  (∀ n, zlen (mg_random n) = 4) →
  sound c → idle c → len (send c) < 2 ^ 31 → m_recv_func client = Some func →
  is_bytes (x :: l) → Z.land x 15 = MgWebsocket.WEBSOCKET_OP_TEXT → zlen (stray ++ x :: l) <= room c →
  (∃ evs c', read_conn mg_random c (stray ++ x :: l) = Ok (evs, c') ∧ feed_client evs client = Fault)
  ∧ (∃ evs c', read_conn mg_random c stray = Ok (evs, c') ∧ feed_client evs client = Ok ([], client)
       ∧ sound c' ∧ idle c').
Proof.
  intros Hr Hs Hi Hl Hf Hb Hx Hroom. assert (Hstray : is_bytes stray).
  { repeat apply Forall_cons_2; [unfold is_byte; lia..|by apply Forall_nil]. }
  split.
  - destruct (read_idle mg_random c _ Hs Hi Hroom) as (io & E & Ec & El & Hs1).
    specialize (Hs1 ltac:(by apply is_bytes_app)). set (c1 := set_recv c io 0) in *.
    destruct (ws_turn_stray mg_random c1 (x :: l) Hs1) as (x' & c2 & Et & Hs2 & K2 & Eo2 & Ec2 & Es2 & ->); [done|done|].
    pose proof (content_zlen _ _ (sound_recv _ Hs2) Ec2) as El2.
    assert (Hlo : left_over c2 = zlen (x :: l)) by (unfold left_over; lia).
    assert (Hsize : zlen (x :: l) <= RECV_BOUND).
    { pose proof (sound_size _ Hs2). pose proof (sound_recv _ Hs2) as Hw2. unfold wf in Hw2. lia. }
    unfold RECV_BOUND, MG_MAX_RECV_BUF_SIZE, MG_IO_SIZE in Hsize. rewrite zlen_app in El. change (zlen stray) with 2 in El.
    destruct (ws_loop_any mg_random Hr (Z.to_nat (len io)) c2 Hs2) as (evs & c3 & E3 & _).
    { rewrite Es2, Hlo. cbn [send c1 set_recv]. lia. }
    { lia. }
    rewrite E. cbn [ws_loop]. step Et. step E3. do 2 eexists. split; [done|].
    cbn [app feed_client to_client]. step_bind. cbn [on_event_handle feed_client to_client hd]. rewrite Hx, Hf.
    by rewrite bool_decide_eq_true_2 by done.
  - destruct (read_idle mg_random c stray Hs Hi) as (io & E & Ec & El & Hs1).
    { rewrite zlen_app in Hroom. pose proof (zlen_nonneg (x :: l)). lia. }
    specialize (Hs1 Hstray). set (c1 := set_recv c io 0) in *.
    destruct (ws_turn_stray mg_random c1 [] Hs1) as (x' & c2 & Et & Hs2 & K2 & Eo2 & Ec2 & Es2 & ->); [done|by rewrite app_nil_r|].
    pose proof Hi as (I1 & I2 & I3 & I4 & I5).
    assert (Hh : holding None ([] ++ []) c2).
    { split; [apply Hs2|done|done|apply Hs2|done]. }
    rewrite E, El. change (S (Z.to_nat (zlen stray))) with 3%nat. cbn [ws_loop]. step Et.
    rewrite (ws_turn_waits mg_random None [] [] c2) by done. step_bind.
    do 2 eexists. split; [done|]. split; [done|]. split; [done|].
    split; [apply Hs2|]. split; [done|]. split; [done|]. split; [apply Hs2|].
    exact (eq_trans (kind_websocket _ _ K2) I5).
Qed.

(** ** Concrete runs *)

Definition any_mask (n : nat) : list Z := [17; 34; 51; 68].

(** [HTTP/1.1 101 ok] and a blank line. *)
Definition sample_answer : list Z := [72; 84; 84; 80; 47; 49; 46; 49; 32; 49; 48; 49; 32; 111; 107] ++ [13; 10; 13; 10].

(** A text in two fragments, a ping between them, and one more text. *)
Definition sample_frames : list frame :=
  [mk_frame false 1 None [104; 101]; mk_frame true 9 None [7]; mk_frame true 0 None [108; 108; 111];
   mk_frame true 1 None [33]].

Definition sample_connection : mg_connection :=
  mk_mg_connection empty_iobuf empty_iobuf 0 false true false 0.

(** The reads cut the answer, the header of a frame and the data of another. *)
Definition sample_chunks : list (list Z) :=
  let b := sample_answer ++ stream sample_frames in
  [take 5 b; take 15 (drop 5 b); take 6 (drop 20 b); drop 26 b].

(** Chunks of at least one byte that fit, one after the other. *)
Ltac fits_by_run :=
  repeat (split; [vm_compute; discriminate|]; split; [vm_compute; discriminate|];
    let E := fresh in intros ? ? E; vm_compute in E; injection E as <- <-); exact I.

Lemma sample_accepts : accepts sample_answer.
Proof. split; [reflexivity|]. split; [by vm_compute|reflexivity]. Qed.

Lemma sample_carries : carries [(1, [104; 101; 108; 108; 111]); (1, [33])] sample_frames.
Proof.
  apply (carries_parts 1 None [104; 101] [108; 108; 111] [(1, [33])]
           [mk_frame true 9 None [7]; mk_frame true 0 None [108; 108; 111]]); [by left| |].
  - apply continued_control; [split; [done|by left]|]. apply continued_last.
  - apply carries_whole; [by left|]. apply carries_nil.
Qed.

Lemma sample_well_formed : well_formed None sample_frames.
Proof.
  split; [right; right; split; [by left|by right]|]. do 2 (split; [by vm_compute|]).
  split; [right; left; split; [by left|done]|]. do 2 (split; [by vm_compute|]).
  split; [left; split; [done|by eexists]|]. do 2 (split; [by vm_compute|]).
  split; [right; right; split; [by left|by left]|]. do 2 (split; [by vm_compute|]). exact I.
Qed.

Lemma texts_delivered_witness :
  let client := set_text_received_func (new_client []) (Some 5) 6 in
  ∃ evs c', read_all any_mask sample_connection sample_chunks = Ok (evs, c')
    ∧ feed_client evs client
      = Ok ([call_recv_func 5 [104; 101; 108; 108; 111] 6; call_recv_func 5 [33] 6],
            set_connection client None true)
    ∧ content (recv c') = []
    ∧ content (send c') = frame_bytes (mk_frame true WEBSOCKET_OP_PONG (Some [17; 34; 51; 68]) [7]).
Proof.
  cbv zeta.
  refine (texts_delivered any_mask sample_connection _ 5 sample_answer sample_chunks
            [(1, [104; 101; 108; 108; 111]); (1, [33])] sample_frames _ _ _ _ _ _ _ _ _).
  - done.
  - apply sample_accepts.
  - split; [done|done|done|done|done| |done]. exists sample_answer. done.
  - apply sample_carries.
  - apply sample_well_formed.
  - reflexivity.
  - unfold sample_chunks. fits_by_run.
  - by vm_compute.
  - done.
Defined.

(** Two texts, the second empty; the socket takes three bytes, then the rest; the other end
    reads in two parts. *)
Definition sample_acts : list sender_act := [Say [104; 105]; Wrote 3; Say []; Wrote 11].

Lemma sent_texts_received_witness : ∃ out c',
  run_sender any_mask (set_websocket sample_connection) sample_acts = Ok (out, c')
  ∧ out = [129; 130; 17; 34; 51; 68; 121; 75; 129; 128; 17; 34; 51; 68]
  ∧ ∃ peer', read_all any_mask (mk_mg_connection empty_iobuf empty_iobuf 0 true false false 0)
      [[129; 130; 17; 34; 51; 68; 121]; [75; 129; 128; 17; 34; 51; 68]]
      = Ok ([EV_WS_MSG 129 (Ok [104; 105]); EV_WS_MSG 129 (Ok [])], peer').
Proof.
  destruct (sent_texts_received any_mask (set_websocket sample_connection) sample_acts)
    as (out & c' & E & H).
  - done.
  - done.
  - done.
  - by repeat constructor; vm_compute.
  - done.
  - cbn [takes sample_acts]. intros r E. vm_compute in E. injection E as <-.
    split; [vm_compute; discriminate|]. intros r E. vm_compute in E. injection E as <-.
    intros r E. vm_compute in E. injection E as <-.
    split; [vm_compute; discriminate|]. intros r _. exact I.
  - exists out, c'. split; [exact E|]. vm_compute in E. injection E as <- <-. split; [reflexivity|].
    destruct (H any_mask (mk_mg_connection empty_iobuf empty_iobuf 0 true false false 0)
        [[129; 130; 17; 34; 51; 68; 121]; [75; 129; 128; 17; 34; 51; 68]]) as (peer' & Er & _).
    + reflexivity.
    + intros n. reflexivity.
    + split; [split; vm_compute; discriminate|]. do 2 (split; [reflexivity|]).
      split; [split; vm_compute; discriminate|reflexivity].
    + vm_compute. reflexivity.
    + reflexivity.
    + fits_by_run.
    + exists peer'. exact Er.
Defined.

Lemma lone_continuation_crashes_witness :
  let c := set_websocket sample_connection in
  let client := set_text_received_func (new_client []) (Some 5) 6 in
  (∃ evs c', read_conn any_mask c [128; 0; 129; 1; 33] = Ok (evs, c') ∧ feed_client evs client = Fault)
  ∧ (∃ evs c', read_conn any_mask c [128; 0] = Ok (evs, c') ∧ feed_client evs client = Ok ([], client)
       ∧ sound c' ∧ idle c').
Proof.
  cbv zeta. apply (lone_continuation_crashes any_mask (set_websocket sample_connection) _ 5 129 [1; 33]).
  - done.
  - split; [done|by apply Forall_nil|by vm_compute|done|done].
  - done.
  - done.
  - done.
  - repeat apply Forall_cons_2; [unfold is_byte; lia..|by apply Forall_nil].
  - done.
  - by vm_compute.
Defined.
