(* ===== verification/MgBase64.v ===== *)
(** * MgBase64: the key of the handshake

    Models the base64 part of [src/websocket/mongoose.cpp], with which [mg_ws_connect]
    writes the key of its request: [mg_b64idx], [mg_b64rev], [mg_base64_update],
    [mg_base64_final], [mg_base64_encode] and [mg_base64_decode], and the reference
    encoding they are compared with.  A [char] of a buffer is its byte. *)

From S2P Require Import Prelude.

(** ** The code *)

Definition mg_b64idx (c : Z) : Z :=
  if c <? 26 then c + 65
  else if c <? 52 then c - 26 + 97
  else if c <? 62 then c - 52 + 48
  else if c =? 62 then 43 else 47.

Definition mg_b64rev (c : Z) : Z :=
  if (65 <=? c) && (c <=? 90) then c - 65
  else if (97 <=? c) && (c <=? 122) then c + 26 - 97
  else if (48 <=? c) && (c <=? 57) then c + 52 - 48
  else if c =? 43 then 62
  else if c =? 47 then 63
  else if c =? 61 then 64
  else -1.

(** [to[n] = v]. *)
Definition set_byte (to : list Z) (n v : Z) : outcome (list Z) := wr_range to n [u8 v].

Definition mg_base64_update (ch : Z) (to : list Z) (n : Z) : outcome (list Z * Z) :=
  let rem := Z.land n 3 mod 3 in
  if rem =? 0 then
    to ← set_byte to n (mg_b64idx (Z.shiftr ch 2));
    to ← set_byte to (n + 1) (Z.shiftl (Z.land ch 3) 4);
    Ok (to, n + 1)
  else if rem =? 1 then
    b ← rd to n;
    to ← set_byte to n (mg_b64idx (Z.lor b (Z.shiftr ch 4)));
    to ← set_byte to (n + 1) (Z.shiftl (Z.land ch 15) 2);
    Ok (to, n + 1)
  else
    b ← rd to n;
    to ← set_byte to n (mg_b64idx (Z.lor b (Z.shiftr ch 6)));
    to ← set_byte to (n + 1) (mg_b64idx (Z.land ch 63));
    Ok (to, n + 1 + 1).

(** [while (n & 3) to[n++] = '=']. *)
Fixpoint base64_pad (fuel : nat) (to : list Z) (n : Z) : outcome (list Z * Z) :=
  match fuel with
  | O => Hang
  | S fuel =>
      if Z.land n 3 =? 0 then Ok (to, n)
      else to ← set_byte to n 61; base64_pad fuel to (n + 1)
  end.

Definition mg_base64_final (to : list Z) (n : Z) : outcome (list Z * Z) :=
  let saved := n in
  r ← (if negb (Z.land n 3 =? 0) then mg_base64_update 0 to n else Ok (to, n));
  let '(to, n) := r in
  let n := if Z.land saved 3 =? 2 then n - 1 else n in
  r ← base64_pad 4 to n;
  let '(to, n) := r in
  to ← set_byte to n 0;
  Ok (to, n).

Fixpoint base64_loop (p : list Z) (to : list Z) (len : Z) : outcome (list Z * Z) :=
  match p with
  | [] => Ok (to, len)
  | ch :: p => r ← mg_base64_update ch to len; base64_loop p r.1 r.2
  end.

Definition mg_base64_encode (p : list Z) (to : list Z) : outcome (list Z * Z) :=
  r ← base64_loop p to 0; mg_base64_final r.1 r.2.

(** The [while]; then [dst[len] = '\0']. *)
Fixpoint base64_groups (src : list Z) (dst : list Z) (len : Z) : outcome (option (list Z * Z)) :=
  match src with
  | s0 :: s1 :: s2 :: s3 :: src =>
      let a := mg_b64rev s0 in let b := mg_b64rev s1 in
      let c := mg_b64rev s2 in let d := mg_b64rev s3 in
      if (a =? 64) || (a <? 0) || (b =? 64) || (b <? 0) || (c <? 0) || (d <? 0) then Ok None else
      dst ← set_byte dst len (Z.lor (Z.shiftl a 2) (Z.shiftr b 4));
      let len := len + 1 in
      r ← (if negb (s2 =? 61) then
             dst ← set_byte dst len (Z.lor (Z.shiftl b 4) (Z.shiftr c 2));
             let len := len + 1 in
             if negb (s3 =? 61) then
               dst ← set_byte dst len (Z.lor (Z.shiftl c 6) d); Ok (dst, len + 1)
             else Ok (dst, len)
           else Ok (dst, len));
      base64_groups src r.1 r.2
  | _ => Ok (Some (dst, len))
  end.

Definition mg_base64_decode (src : list Z) (dst : list Z) : outcome (list Z * Z) :=
  r ← base64_groups src dst 0;
  match r with
  | None => Ok (dst, 0)
  | Some (dst, len) => dst ← set_byte dst len 0; Ok (dst, len)
  end.

(** ** The reference *)

Definition sextets (a b c : Z) : list Z :=
  [Z.shiftr a 2; Z.lor (Z.shiftl (Z.land a 3) 4) (Z.shiftr b 4);
   Z.lor (Z.shiftl (Z.land b 15) 2) (Z.shiftr c 6); Z.land c 63].

Definition group (a b c : Z) : list Z := mg_b64idx <$> sextets a b c.

Fixpoint base64 (p : list Z) : list Z :=
  match p with
  | a :: b :: c :: p => group a b c ++ base64 p
  | [a; b] => take 3 (group a b 0) ++ [61]
  | [a] => take 2 (group a 0 0) ++ [61; 61]
  | [] => []
  end.

(** Induction by groups of three. *)
Lemma groups_ind (P : list Z → Prop) :
  P [] → (∀ a, P [a]) → (∀ a b, P [a; b]) → (∀ a b c p, P p → P (a :: b :: c :: p)) → ∀ p, P p.
Proof.
  intros H0 H1 H2 H3. fix IH 1. intros [|a [|b [|c p]]]; [exact H0|apply H1|apply H2|].
  apply H3, IH.
Qed.

(** ** Single bytes *)

Lemma b64idx_byte : ∀ s, 0 <= s < 64 → u8 (mg_b64idx s) = mg_b64idx s.
Proof. by_table. Qed.

Lemma b64idx_rev : ∀ s, 0 <= s < 64 →
  mg_b64rev (mg_b64idx s) = s ∧ mg_b64idx s =? 61 = false.
Proof. by_table. Qed.

Lemma set_byte_at A x R n v : n = zlen A → set_byte (A ++ x :: R) n v = Ok (A ++ u8 v :: R).
Proof. intros ->. unfold set_byte. apply (wr_range_mid A [x] R [u8 v]). done. Qed.

Lemma rd_at A x R n : n = zlen A → rd (A ++ x :: R) n = Ok x.
Proof. intros ->. rewrite rd_app_r by lia. by rewrite Z.sub_diag. Qed.

Lemma low_bits n k : n mod 4 = 0 → 0 <= k < 4 → Z.land (n + k) 3 = k.
Proof.
  intros Hn Hk. change 3 with (Z.ones 2). rewrite Z.land_ones by lia. change (2 ^ 2) with 4.
  rewrite Z.add_mod, Hn, Z.add_0_l, Z.mod_mod, Z.mod_small by lia. done.
Qed.

Lemma next_group n : n mod 4 = 0 → Z.land (n + 4) 3 = 0.
Proof.
  intros Hn. change 3 with (Z.ones 2). rewrite Z.land_ones by lia. change (2 ^ 2) with 4.
  by rewrite Z.add_mod, Hn by lia.
Qed.

(** The bits that wait for the next byte. *)
Lemma part_ranges a : is_byte a →
  0 <= Z.shiftr a 2 < 64 ∧ 0 <= Z.land a 3 < 4 ∧ 0 <= Z.shiftr a 4 < 16
  ∧ 0 <= Z.land a 15 < 16 ∧ 0 <= Z.shiftr a 6 < 4 ∧ 0 <= Z.land a 63 < 64.
Proof.
  unfold is_byte. revert a.
  assert (H : ∀ a, 0 <= a < 256 → 0 <= Z.shiftr a 2 < 64 ∧ 0 <= Z.land a 3 < 4 ∧ 0 <= Z.shiftr a 4 < 16
    ∧ 0 <= Z.land a 15 < 16 ∧ 0 <= Z.shiftr a 6 < 4 ∧ 0 <= Z.land a 63 < 64) by by_table.
  exact H.
Qed.

Lemma join_low : ∀ x, 0 <= x < 4 → ∀ h, 0 <= h < 16 →
  u8 (Z.shiftl x 4) = Z.shiftl x 4 ∧ 0 <= Z.lor (Z.shiftl x 4) h < 64.
Proof. by_table. Qed.

Lemma join_high : ∀ z, 0 <= z < 16 → ∀ y, 0 <= y < 4 →
  u8 (Z.shiftl z 2) = Z.shiftl z 2 ∧ 0 <= Z.lor (Z.shiftl z 2) y < 64.
Proof. by_table. Qed.

Lemma sextet_ranges a b c : is_byte a → is_byte b → is_byte c →
  Forall (λ s, 0 <= s < 64) (sextets a b c).
Proof.
  intros Ha%part_ranges Hb%part_ranges Hc%part_ranges. unfold sextets.
  repeat apply Forall_cons_2; [tauto|apply join_low; tauto|apply join_high; tauto|tauto|apply Forall_nil_2].
Qed.

(** ** Encoding *)

(** Three bytes at a multiple of four. *)
Lemma update_group a b c A x0 x1 x2 x3 R :
  is_byte a → is_byte b → is_byte c → zlen A mod 4 = 0 →
  (∃ to, mg_base64_update a (A ++ x0 :: x1 :: x2 :: x3 :: R) (zlen A) = Ok (to, zlen A + 1)
     ∧ to = A ++ mg_b64idx (Z.shiftr a 2) :: Z.shiftl (Z.land a 3) 4 :: x2 :: x3 :: R)
  ∧ mg_base64_update b (A ++ mg_b64idx (Z.shiftr a 2) :: Z.shiftl (Z.land a 3) 4 :: x2 :: x3 :: R)
      (zlen A + 1)
    = Ok (A ++ mg_b64idx (Z.shiftr a 2) :: mg_b64idx (Z.lor (Z.shiftl (Z.land a 3) 4) (Z.shiftr b 4))
            :: Z.shiftl (Z.land b 15) 2 :: x3 :: R, zlen A + 2)
  ∧ mg_base64_update c (A ++ mg_b64idx (Z.shiftr a 2)
      :: mg_b64idx (Z.lor (Z.shiftl (Z.land a 3) 4) (Z.shiftr b 4)) :: Z.shiftl (Z.land b 15) 2 :: x3 :: R)
      (zlen A + 2)
    = Ok (A ++ group a b c ++ R, zlen A + 4).
Proof.
  intros Ha Hb Hc Hm. pose proof (part_ranges a Ha) as Pa. pose proof (part_ranges b Hb) as Pb.
  pose proof (part_ranges c Hc) as Pc. unfold mg_base64_update.
  pose proof (low_bits _ 0 Hm ltac:(lia)) as L0. rewrite Z.add_0_r in L0.
  rewrite L0, !low_bits by lia. change (0 mod 3 =? 0) with true. change (1 mod 3 =? 0) with false.
  change (1 mod 3 =? 1) with true. change (2 mod 3 =? 0) with false. change (2 mod 3 =? 1) with false.
  destruct (join_low (Z.land a 3) ltac:(tauto) (Z.shiftr b 4) ltac:(tauto)) as [J1 J2].
  destruct (join_high (Z.land b 15) ltac:(tauto) (Z.shiftr c 6) ltac:(tauto)) as [J3 J4].
  split; [|split].
  - rewrite set_byte_at by done. step_bind. rewrite b64idx_byte by tauto.
    rewrite (cons_middle _ A), app_assoc, (set_byte_at (A ++ [_])) by len. step_bind.
    rewrite J1, <- app_assoc. by eexists.
  - rewrite (cons_middle _ A), app_assoc. rewrite (rd_at (A ++ [_])) by len. step_bind.
    rewrite (set_byte_at (A ++ [_])) by len. step_bind. rewrite b64idx_byte by done.
    rewrite (cons_middle _ (A ++ [_])), app_assoc, (set_byte_at ((A ++ [_]) ++ [_])) by len. step_bind.
    rewrite J3, <- !app_assoc. do 2 f_equal. lia.
  - rewrite (cons_middle _ A), app_assoc, (cons_middle _ (A ++ [_])), app_assoc.
    rewrite (rd_at ((A ++ [_]) ++ [_])) by len. step_bind.
    rewrite (set_byte_at ((A ++ [_]) ++ [_])) by len. step_bind. rewrite b64idx_byte by done.
    rewrite (cons_middle _ ((A ++ [_]) ++ [_])), app_assoc, (set_byte_at (((A ++ [_]) ++ [_]) ++ [_])) by len.
    step_bind. rewrite b64idx_byte by tauto. rewrite <- !app_assoc. do 2 f_equal. lia.
Qed.

Lemma four_slots (R : list Z) n :
  5 <= n → n <= zlen R →
  ∃ x0 x1 x2 x3 x4 R', R = x0 :: x1 :: x2 :: x3 :: x4 :: R'.
Proof.
  intros Hn Hl. destruct R as [|x0 [|x1 [|x2 [|x3 [|x4 R]]]]]; [exfalso; len..|]. by do 6 eexists.
Qed.

Lemma group_length a b c : zlen (group a b c) = 4.
Proof. done. Qed.

(** The end of the text: the last bytes, the [=] and the zero. *)
Lemma final_group A x0 x1 x2 x3 x4 R p n to :
  zlen A mod 4 = 0 → is_bytes p → (0 < length p < 3)%nat →
  base64_loop p (A ++ x0 :: x1 :: x2 :: x3 :: x4 :: R) (zlen A) = Ok (to, n) →
  mg_base64_final to n = Ok (A ++ base64 p ++ 0 :: R, zlen A + 4).
Proof.
  intros Hm Hp Hl E.
  assert (H0 : is_byte 0) by done.
  destruct p as [|a [|b [|]]]; [cbn in Hl; lia| | |cbn in Hl; lia].
  - apply Forall_cons_1 in Hp as [Ha _].
    destruct (update_group a 0 0 A x0 x1 x2 x3 (x4 :: R) Ha H0 H0 Hm) as ((to1 & E1 & ->) & E2 & _).
    cbn [base64_loop] in E. rewrite E1 in E. injection E as <- <-. unfold mg_base64_final.
    rewrite !low_bits by lia. cbn [Z.eqb negb Pos.eqb]. rewrite E2. step_bind.
    cbn [base64_pad]. rewrite !low_bits by lia. cbn [Z.eqb Pos.eqb].
    rewrite !(cons_middle _ A), app_assoc, !(cons_middle _ (A ++ [_])), app_assoc.
    rewrite (set_byte_at ((A ++ [_]) ++ [_])) by len. step_bind.
    replace (zlen A + 2 + 1) with (zlen A + 3) by lia. rewrite low_bits by lia. cbn [Z.eqb Pos.eqb].
    rewrite (cons_middle _ ((A ++ [_]) ++ [_])), app_assoc, (set_byte_at (((A ++ [_]) ++ [_]) ++ [_])) by len.
    step_bind. replace (zlen A + 3 + 1) with (zlen A + 4) by lia.
    rewrite next_group by done. cbn [Z.eqb]. step_bind. rewrite (cons_middle _ (((A ++ [_]) ++ [_]) ++ [_])), app_assoc, set_byte_at by len.
    step_bind. by rewrite <- !app_assoc.
  - apply Forall_cons_1 in Hp as [Ha [Hb _]%Forall_cons_1].
    destruct (update_group a b 0 A x0 x1 x2 x3 (x4 :: R) Ha Hb H0 Hm) as ((to1 & E1 & ->) & E2 & E3).
    cbn [base64_loop] in E. rewrite E1 in E. step_bind. cbn [fst snd mbind outcome_bind] in E. rewrite E2 in E.
    injection E as <- <-. unfold mg_base64_final.
    rewrite !low_bits by lia. cbn [Z.eqb negb Pos.eqb]. rewrite E3. step_bind.
    replace (zlen A + 4 - 1) with (zlen A + 3) by lia.
    cbn [base64_pad]. rewrite low_bits by lia. cbn [Z.eqb Pos.eqb]. unfold group, sextets. cbn [fmap list_fmap app].
    rewrite !(cons_middle _ A), app_assoc, !(cons_middle _ (A ++ [_])), app_assoc.
    rewrite !(cons_middle _ ((A ++ [_]) ++ [_])), app_assoc, (set_byte_at (((A ++ [_]) ++ [_]) ++ [_])) by len.
    step_bind. replace (zlen A + 3 + 1) with (zlen A + 4) by lia.
    rewrite next_group by done. cbn [Z.eqb]. step_bind. rewrite (cons_middle _ (((A ++ [_]) ++ [_]) ++ [_])), app_assoc, set_byte_at by len.
    step_bind. by rewrite <- !app_assoc.
Qed.

(** The loop and the end, from any multiple of four on. *)
Lemma encode_from p A R :
  is_bytes p → zlen A mod 4 = 0 → zlen (base64 p) + 1 <= zlen R →
  ∃ R', (r ← base64_loop p (A ++ R) (zlen A); mg_base64_final r.1 r.2)
      = Ok (A ++ base64 p ++ 0 :: R', zlen A + zlen (base64 p))
    ∧ zlen R = zlen (base64 p) + 1 + zlen R'.
Proof.
  intros Hp. revert A R. induction p as [|a|a b|a b c p IH] using groups_ind; intros A R Hm Hl.
  - cbn [base64 base64_loop] in *. step_bind. unfold mg_base64_final. cbn [fst snd].
    pose proof (low_bits _ 0 Hm ltac:(lia)) as L0. rewrite Z.add_0_r in L0.
    rewrite L0. cbn [Z.eqb negb]. step_bind. cbn [base64_pad]. rewrite L0. cbn [Z.eqb]. step_bind.
    destruct R as [|x R]; [len|]. rewrite set_byte_at by done. step_bind. exists R. split; [|len].
    cbn [app]. do 2 f_equal. len.
  - destruct (four_slots R 5 ltac:(lia)) as (x0 & x1 & x2 & x3 & x4 & R' & ->); [cbn in Hl; len|].
    apply Forall_cons_1 in Hp as Ha. destruct Ha as [Ha _].
    destruct (update_group a 0 0 A x0 x1 x2 x3 (x4 :: R') Ha) as ((to1 & E1 & E1') & _); [done..|].
    assert (E : base64_loop [a] (A ++ x0 :: x1 :: x2 :: x3 :: x4 :: R') (zlen A) = Ok (to1, zlen A + 1))
      by (cbn [base64_loop]; by rewrite E1).
    step E. cbn [fst snd]. exists R'.
    rewrite (final_group A x0 x1 x2 x3 x4 R' [a]) by (done || (cbn; lia) || exact E).
    split; [done|]. cbn. len.
  - destruct (four_slots R 5 ltac:(lia)) as (x0 & x1 & x2 & x3 & x4 & R' & ->); [cbn in Hl; len|].
    apply Forall_cons_1 in Hp as Ha. destruct Ha as [Ha [Hb _]%Forall_cons_1].
    destruct (update_group a b 0 A x0 x1 x2 x3 (x4 :: R') Ha Hb) as ((to1 & E1 & ->) & E2 & _); [done..|].
    match type of E2 with _ = Ok ?r => assert (E : base64_loop [a; b]
      (A ++ x0 :: x1 :: x2 :: x3 :: x4 :: R') (zlen A) = Ok r) end.
    { cbn [base64_loop]. rewrite E1. step_bind. cbn [fst snd]. by rewrite E2. }
    step E. cbn [fst snd]. exists R'.
    rewrite (final_group A x0 x1 x2 x3 x4 R' [a; b]) by (done || (cbn; lia) || exact E).
    split; [done|]. cbn. len.
  - cbn [base64] in *. rewrite zlen_app, group_length in Hl. pose proof (zlen_nonneg (base64 p)).
    destruct (four_slots R 5 ltac:(lia)) as (x0 & x1 & x2 & x3 & x4 & R' & ->); [len|].
    apply Forall_cons_1 in Hp as [Ha [Hb [Hc Hp]%Forall_cons_1]%Forall_cons_1].
    destruct (update_group a b c A x0 x1 x2 x3 (x4 :: R') Ha Hb Hc Hm) as ((to1 & E1 & ->) & E2 & E3).
    cbn [base64_loop]. rewrite E1. step_bind. cbn [fst snd]. rewrite E2. step_bind. cbn [fst snd]. rewrite E3.
    step_bind. cbn [fst snd]. rewrite app_assoc.
    replace (zlen A + 4) with (zlen (A ++ group a b c)) by (rewrite zlen_app, group_length; lia).
    destruct (IH Hp (A ++ group a b c) (x4 :: R')) as (R2 & E & Hl2).
    { rewrite zlen_app, group_length, Z.add_mod, Hm by lia. done. }
    { len. }
    rewrite E, !zlen_app, !group_length. exists R2. split; [|len].
    rewrite <- !app_assoc. do 2 f_equal. lia.
Qed.

Lemma encode_reference p to :
  is_bytes p → zlen (base64 p) + 1 <= zlen to →
  ∃ R, mg_base64_encode p to = Ok (base64 p ++ 0 :: R, zlen (base64 p)).
Proof.
  intros Hp Hl. destruct (encode_from p [] to Hp) as (R & E & _); [done|done|]. by exists R.
Qed.

(** ** Decoding *)

Lemma first_byte : ∀ a, 0 <= a < 256 → ∀ h, 0 <= h < 16 →
  u8 (Z.lor (Z.shiftl (Z.shiftr a 2) 2) (Z.shiftr (Z.lor (Z.shiftl (Z.land a 3) 4) h) 4)) = a.
Proof. by_table. Qed.

Lemma second_byte : ∀ b, 0 <= b < 256 → ∀ x, 0 <= x < 4 → ∀ y, 0 <= y < 4 →
  u8 (Z.lor (Z.shiftl (Z.lor (Z.shiftl x 4) (Z.shiftr b 4)) 4)
            (Z.shiftr (Z.lor (Z.shiftl (Z.land b 15) 2) y) 2)) = b.
Proof. by_table. Qed.

Lemma third_byte : ∀ c, 0 <= c < 256 → ∀ z, 0 <= z < 16 →
  u8 (Z.lor (Z.shiftl (Z.lor (Z.shiftl z 2) (Z.shiftr c 6)) 6) (Z.land c 63)) = c.
Proof. by_table. Qed.

(** A group, and what follows. *)
Lemma decode_group a b c s2 s3 src A R :
  is_byte a → is_byte b → is_byte c → zlen R = 3 →
  (s2 = 61 ∨ s2 = mg_b64idx (Z.lor (Z.shiftl (Z.land b 15) 2) (Z.shiftr c 6))) →
  (s3 = 61 ∨ s3 = mg_b64idx (Z.land c 63)) →
  ∀ rest, base64_groups (mg_b64idx (Z.shiftr a 2)
      :: mg_b64idx (Z.lor (Z.shiftl (Z.land a 3) 4) (Z.shiftr b 4)) :: s2 :: s3 :: src)
      (A ++ R ++ rest) (zlen A)
  = let out := if s2 =? 61 then [a] else if s3 =? 61 then [a; b] else [a; b; c] in
    base64_groups src (A ++ out ++ drop (length out) R ++ rest) (zlen A + zlen out).
Proof.
  intros Ha Hb Hc HR H2 H3 rest. pose proof (part_ranges a Ha) as Pa. pose proof (part_ranges b Hb) as Pb.
  pose proof (part_ranges c Hc) as Pc.
  destruct (join_low (Z.land a 3) ltac:(tauto) (Z.shiftr b 4) ltac:(tauto)) as [_ J1].
  destruct (join_high (Z.land b 15) ltac:(tauto) (Z.shiftr c 6) ltac:(tauto)) as [_ J2].
  destruct R as [|r0 [|r1 [|r2 [|]]]]; try (exfalso; len). clear HR.
  cbn [base64_groups]. destruct (b64idx_rev (Z.shiftr a 2) ltac:(tauto)) as [E0 _].
  destruct (b64idx_rev _ J1) as [E1 _]. destruct (b64idx_rev _ J2) as [E2 N2].
  destruct (b64idx_rev (Z.land c 63) ltac:(tauto)) as [E3 N3]. rewrite E0, E1.
  assert (Hc2 : mg_b64rev s2 <? 0 = false) by (destruct H2 as [-> | ->]; [done|rewrite E2; lia]).
  assert (Hc3 : mg_b64rev s3 <? 0 = false) by (destruct H3 as [-> | ->]; [done|rewrite E3; lia]).
  rewrite Hc2, Hc3. rewrite (proj2 (Z.eqb_neq (Z.shiftr a 2) 64)), (proj2 (Z.ltb_ge (Z.shiftr a 2) 0)) by lia.
  rewrite (proj2 (Z.eqb_neq _ 64)), (proj2 (Z.ltb_ge _ 0)) by lia. cbn [orb app].
  rewrite set_byte_at by done. step_bind. rewrite first_byte by (unfold is_byte in Ha; tauto).
  destruct (s2 =? 61) eqn:S2; cbn [negb]; step_bind; cbn [fst snd app drop length].
  { by rewrite zlen_cons, zlen_nil. }
  destruct H2 as [-> | ->]; [done|]. rewrite E2.
  rewrite (cons_middle _ A), app_assoc, (set_byte_at (A ++ [_])) by len. step_bind.
  rewrite second_byte by (unfold is_byte in Hb; tauto).
  destruct (s3 =? 61) eqn:S3; cbn [negb]; step_bind; cbn [fst snd app drop length].
  { rewrite <- app_assoc. by replace (zlen A + 1 + 1) with (zlen A + zlen [a; b]) by len. }
  destruct H3 as [-> | ->]; [done|]. rewrite E3.
  rewrite (cons_middle _ (A ++ [_])), app_assoc, (set_byte_at ((A ++ [_]) ++ [_])) by len. step_bind.
  rewrite third_byte by (unfold is_byte in Hc; tauto). cbn [fst snd].
  rewrite <- !app_assoc. by replace (zlen A + 1 + 1 + 1) with (zlen A + zlen [a; b; c]) by len.
Qed.

Lemma three_slots (R : list Z) n :
  0 <= n → n + 3 <= zlen R → ∃ S T, R = S ++ T ∧ zlen S = 3 ∧ n <= zlen T.
Proof.
  intros Hn Hl. exists (take 3 R), (drop 3 R). rewrite take_drop. split; [done|].
  unfold zlen in *. rewrite length_take, length_drop. lia.
Qed.

(** The groups of an encoding, from anywhere in the buffer. *)
Lemma decode_from p A R :
  is_bytes p → zlen p + 3 <= zlen R →
  ∃ R', base64_groups (base64 p) (A ++ R) (zlen A) = Ok (Some (A ++ p ++ R', zlen A + zlen p))
    ∧ zlen R' + zlen p = zlen R.
Proof.
  intros Hp. assert (H0 : is_byte 0) by done.
  revert A R. induction p as [|a|a b|a b c p IH] using groups_ind; intros A R Hl.
  - exists R. cbn [base64 base64_groups app]. rewrite zlen_nil, Z.add_0_r. split; [done|lia].
  - apply Forall_cons_1 in Hp as [Ha _].
    destruct (three_slots R 0) as (S & T & -> & HS & _); [lia|len|].
    pose proof (decode_group a 0 0 61 61 [] A S Ha H0 H0 HS (or_introl eq_refl) (or_introl eq_refl) T) as E.
    cbn [base64 group sextets fmap list_fmap take app] in E |- *. rewrite E. cbn [Z.eqb Pos.eqb base64_groups length]. eexists.
    split; [done|]. destruct S; [exfalso; len|]. cbn [drop app]. rewrite ?drop_0. len.
  - apply Forall_cons_1 in Hp as [Ha [Hb _]%Forall_cons_1].
    destruct (three_slots R 0) as (S & T & -> & HS & _); [lia|len|].
    pose proof (part_ranges b Hb) as Pb. destruct (join_high (Z.land b 15) ltac:(tauto) 0 ltac:(lia)) as [_ J].
    pose proof (decode_group a b 0 _ 61 [] A S Ha Hb H0 HS (or_intror eq_refl) (or_introl eq_refl) T) as E.
    destruct (b64idx_rev _ J) as [_ N]. change (Z.shiftr 0 6) with 0 in E. rewrite N in E.
    cbn [base64 group sextets fmap list_fmap take app] in E |- *. change (Z.shiftr 0 6) with 0. rewrite E. cbn [Z.eqb Pos.eqb base64_groups length]. eexists.
    split; [done|]. destruct S as [|? [|]]; [exfalso; len..|]. cbn [drop app]. rewrite ?drop_0. len.
  - apply Forall_cons_1 in Hp as [Ha [Hb [Hc Hp]%Forall_cons_1]%Forall_cons_1].
    destruct (three_slots R (zlen p + 3)) as (S & T & -> & HS & HT); [len..|].
    pose proof (part_ranges b Hb) as Pb. pose proof (part_ranges c Hc) as Pc.
    destruct (join_high (Z.land b 15) ltac:(tauto) (Z.shiftr c 6) ltac:(tauto)) as [_ J].
    pose proof (decode_group a b c _ _ (base64 p) A S Ha Hb Hc HS (or_intror eq_refl) (or_intror eq_refl) T) as E.
    destruct (b64idx_rev _ J) as [_ N]. destruct (b64idx_rev (Z.land c 63) ltac:(tauto)) as [_ N'].
    rewrite N, N' in E. cbn [base64 group sextets fmap list_fmap app] in E |- *. rewrite E.
    destruct S as [|? [|? [|? [|]]]]; try (exfalso; len). cbn [length drop app].
    change (A ++ a :: b :: c :: T) with (A ++ [a; b; c] ++ T). rewrite app_assoc, <- zlen_app.
    destruct (IH Hp (A ++ [a; b; c]) T HT) as (R' & E' & Hl'). rewrite E'. exists R'.
    split; [|len]. rewrite <- app_assoc. do 3 f_equal. len.
Qed.

Lemma base64_length p : 3 * zlen (base64 p) <= 4 * (zlen p + 2).
Proof.
  induction p as [|a|a b|a b c p IH] using groups_ind; [done..|].
  cbn [base64]. rewrite zlen_app, group_length, !zlen_cons. lia.
Qed.

(** The base64 of the library: the encoder writes the reference encoding and a zero,
    within a buffer of four thirds of the length, and the decoder gives back every byte
    of what was encoded. *)
Theorem base64_round_trip p to dst :
  is_bytes p → 4 * (zlen p + 2) + 3 <= 3 * zlen to → zlen p + 3 <= zlen dst →
  ∃ R R', mg_base64_encode p to = Ok (base64 p ++ 0 :: R, zlen (base64 p))
    ∧ mg_base64_decode (base64 p) dst = Ok (p ++ 0 :: R', zlen p).
Proof.
  intros Hp Hto Hdst. pose proof (base64_length p).
  destruct (encode_reference p to Hp) as (R & E); [lia|].
  destruct (decode_from p [] dst Hp Hdst) as (R' & E' & Hl).
  destruct R' as [|x R']; [exfalso; len|]. exists R, R'. split; [done|].
  unfold mg_base64_decode. cbn [app] in E'. rewrite zlen_nil, Z.add_0_l in E'. step E'.
  rewrite (set_byte_at p x R') by done. done.
Qed.

(** RFC 4648: "foob" is "Zm9vYg==". *)
Lemma base64_round_trip_witness :
  is_bytes [102; 111; 111; 98] ∧
  ∃ R R', mg_base64_encode [102; 111; 111; 98] (replicate 9 7)
      = Ok ([90; 109; 57; 118; 89; 103; 61; 61] ++ 0 :: R, 8)
    ∧ mg_base64_decode [90; 109; 57; 118; 89; 103; 61; 61] (replicate 7 7)
      = Ok ([102; 111; 111; 98] ++ 0 :: R', 4).
Proof.
  assert (H : is_bytes [102; 111; 111; 98])
    by (repeat apply Forall_cons_2; [unfold is_byte; lia..|by apply Forall_nil]).
  split; [exact H|].
  apply (base64_round_trip [102; 111; 111; 98] (replicate 9 7) (replicate 7 7) H); by vm_compute.
Defined.
