(* ===== verification/MgTimer.v ===== *)
(** * MgTimer: the timers of the embedded library

    Models [mg_timer_init], [mg_timer_free] and [mg_timer_poll] of
    [src/websocket/mongoose.cpp]: [g_timers] is the list, each timer with its address.
    What a poll calls is returned; the functions called do not touch the timers.  Times are
    milliseconds since the machine was started, far from the end of an [int64_t].
    The client of the program has one timer, which connects and reconnects it
    ([src/websocket/ws_client.cpp]). *)

From S2P Require Import Prelude.

Definition MG_TIMER_REPEAT : Z := 1.
Definition MG_TIMER_RUN_NOW : Z := 2.

Record mg_timer := mk_mg_timer {
  period_ms : Z;
  expire : Z;
  t_flags : Z;
  fn : Z;
  t_arg : Z;
}.

Definition set_expire (t : mg_timer) (at_ms : Z) : mg_timer :=
  mk_mg_timer (period_ms t) at_ms (t_flags t) (fn t) (t_arg t).

(** [fn(arg)], by the timer at an address. *)
Record timer_call := mk_call {
  call_timer : Z;
  call_fn : Z;
  call_arg : Z;
}.

(** [oldnow] is static in [mg_timer_poll]. *)
Record timer_state := mk_timers {
  g_timers : list (Z * mg_timer);
  oldnow : Z;
}.

Definition mg_timer_init (a ms flags func arg : Z) (s : timer_state) : list timer_call * timer_state :=
  (if negb (Z.land flags MG_TIMER_RUN_NOW =? 0) then [mk_call a func arg] else [],
   mk_timers ((a, mk_mg_timer ms 0 flags func arg) :: g_timers s) (oldnow s)).

Fixpoint remove_timer (a : Z) (l : list (Z * mg_timer)) : list (Z * mg_timer) :=
  match l with
  | [] => []
  | (b, t) :: l => if b =? a then l else (b, t) :: remove_timer a l
  end.

Definition mg_timer_free (a : Z) (s : timer_state) : timer_state :=
  mk_timers (remove_timer a (g_timers s)) (oldnow s).

Definition repeats (t : mg_timer) : bool := negb (Z.land (t_flags t) MG_TIMER_REPEAT =? 0).

(** The body of the [for]: whether the function is called, and the timer afterwards. *)
Definition timer_turn (now_ms : Z) (t : mg_timer) : bool * mg_timer :=
  let t := if expire t =? 0 then set_expire t (now_ms + period_ms t) else t in
  if now_ms <? expire t then (false, t)
  else (true, set_expire t (if period_ms t <? now_ms - expire t then now_ms + period_ms t
                            else expire t + period_ms t)).

(** A timer that does not repeat frees itself after its call. *)
Fixpoint timers_loop (now_ms : Z) (l : list (Z * mg_timer)) : list timer_call * list (Z * mg_timer) :=
  match l with
  | [] => ([], [])
  | (a, t) :: l =>
      let '(fired, t') := timer_turn now_ms t in
      let '(calls, l') := timers_loop now_ms l in
      (if fired then mk_call a (fn t) (t_arg t) :: calls else calls,
       if fired && negb (repeats t) then l' else (a, t') :: l')
  end.

Definition mg_timer_poll (now_ms : Z) (s : timer_state) : list timer_call * timer_state :=
  let l := if now_ms <? oldnow s then (λ at_, (at_.1, set_expire at_.2 0)) <$> g_timers s
           else g_timers s in
  let '(calls, l) := timers_loop now_ms l in
  (calls, mk_timers l now_ms).

(** ** Polls at one time after the other *)

Fixpoint polls (nows : list Z) (s : timer_state) : list timer_call * timer_state :=
  match nows with
  | [] => ([], s)
  | now :: nows =>
      let '(calls, s) := mg_timer_poll now s in
      let '(calls', s) := polls nows s in (calls ++ calls', s)
  end.

(** The calls of one timer. *)
Definition count (a : Z) (calls : list timer_call) : Z :=
  zlen (filter (λ c, call_timer c = a) calls).

(** The clock does not go back, and the polls are at most [gap] apart. *)
Fixpoint steady (gap now : Z) (nows : list Z) : Prop :=
  match nows with
  | [] => True
  | next :: nows => now <= next <= now + gap ∧ steady gap next nows
  end.

Fixpoint last_time (now : Z) (nows : list Z) : Z :=
  match nows with [] => now | next :: nows => last_time next nows end.

Lemma count_app a l k : count a (l ++ k) = count a l + count a k.
Proof. unfold count. by rewrite filter_app, zlen_app. Qed.

Lemma count_cons a c l : count a (c :: l) = (if bool_decide (call_timer c = a) then 1 else 0) + count a l.
Proof. unfold count. rewrite filter_cons. case_decide; case_bool_decide; try done; len. Qed.

(** *** One timer among the others *)

Lemma timers_loop_addresses now l a : a ∈ (timers_loop now l).2.*1 → a ∈ l.*1.
Proof.
  induction l as [|[b t] l IH]; [done|]. cbn [timers_loop]. destruct (timer_turn now t) as [fired t'].
  destruct (timers_loop now l) as [calls l']. cbn [fst snd] in *. rewrite fmap_cons, elem_of_cons.
  destruct (fired && _); [by auto|]. rewrite fmap_cons, elem_of_cons. cbn. intros [->|H]; auto.
Qed.

Lemma timers_loop_nodup now l : NoDup l.*1 → NoDup (timers_loop now l).2.*1.
Proof.
  induction l as [|[b t] l IH]; [done|]. rewrite fmap_cons, NoDup_cons. intros [Hb Hl].
  pose proof (timers_loop_addresses now l b) as Ha. cbn [timers_loop].
  destruct (timer_turn now t) as [fired t'], (timers_loop now l) as [calls l']. cbn [fst snd] in *.
  destruct (fired && _); [by apply IH|]. rewrite fmap_cons, NoDup_cons. cbn. auto.
Qed.

Lemma timers_loop_absent now l a : a ∉ l.*1 → count a (timers_loop now l).1 = 0.
Proof.
  induction l as [|[b t] l IH]; [done|]. rewrite fmap_cons, not_elem_of_cons. cbn [fst].
  intros [Hne Hl]. specialize (IH Hl). cbn [timers_loop].
  destruct (timer_turn now t) as [fired t'], (timers_loop now l) as [calls l']. cbn [fst snd] in *.
  destruct fired; [|done]. rewrite count_cons, bool_decide_eq_false_2 by (cbn; congruence). lia.
Qed.

(** The others do not matter to a timer that repeats. *)
Lemma timers_loop_one now l a t :
  NoDup l.*1 → (a, t) ∈ l → repeats t = true →
  count a (timers_loop now l).1 = (if (timer_turn now t).1 then 1 else 0)
  ∧ (a, (timer_turn now t).2) ∈ (timers_loop now l).2.
Proof.
  intros Hd Hin Hrep. induction l as [|[b t0] l IH]; [by apply elem_of_nil in Hin|].
  rewrite fmap_cons, NoDup_cons in Hd. destruct Hd as [Hb Hd]. cbn [timers_loop].
  apply elem_of_cons in Hin as [[= <- <-]|Hin].
  - pose proof (timers_loop_absent now l a Hb) as H0.
    destruct (timer_turn now t) as [fired t'], (timers_loop now l) as [calls l']. cbn [fst snd] in *.
    rewrite Hrep, andb_false_r. split; [|by left].
    destruct fired; [|done]. rewrite count_cons, bool_decide_eq_true_2 by done. lia.
  - destruct (IH Hd Hin) as [H1 H2].
    assert (Hne : b ≠ a). { intros ->. apply Hb. apply list_elem_of_fmap. by exists (a, t). }
    destruct (timer_turn now t0) as [fired t'], (timers_loop now l) as [calls l']. cbn [fst snd] in *. split.
    + destruct fired; [|done]. rewrite count_cons, bool_decide_eq_false_2 by done. lia.
    + destruct (fired && _); [done|]. by right.
Qed.

(** *** The pace *)

(** The [k] calls so far were due, the next is not, and it will be within a period. *)
Record paced (a p t0 now k : Z) (s : timer_state) : Prop := {
  paced_nodup : NoDup (g_timers s).*1;
  paced_old : oldnow s = now;
  paced_timer : ∃ t, (a, t) ∈ g_timers s ∧ repeats t = true ∧ period_ms t = p
    ∧ expire t = t0 + (k + 1) * p;
  paced_due : now < t0 + (k + 1) * p <= now + p;
}.

Lemma poll_one now s a t :
  oldnow s <= now → NoDup (g_timers s).*1 → (a, t) ∈ g_timers s → repeats t = true →
  count a (mg_timer_poll now s).1 = (if (timer_turn now t).1 then 1 else 0)
  ∧ (a, (timer_turn now t).2) ∈ g_timers (mg_timer_poll now s).2
  ∧ NoDup (g_timers (mg_timer_poll now s).2).*1 ∧ oldnow (mg_timer_poll now s).2 = now.
Proof.
  intros Ho Hd Hin Hrep. unfold mg_timer_poll. rewrite (proj2 (Z.ltb_ge _ _)) by done.
  destruct (timers_loop_one now _ a t Hd Hin Hrep) as [H1 H2].
  pose proof (timers_loop_nodup now _ Hd) as H3.
  destruct (timers_loop now (g_timers s)) as [calls l]. done.
Qed.

Lemma poll_paced a p t0 now k s next :
  0 < p → 0 <= t0 → 0 <= k → paced a p t0 now k s → now <= next <= now + p →
  ∃ d, count a (mg_timer_poll next s).1 = d ∧ 0 <= d
    ∧ paced a p t0 next (k + d) (mg_timer_poll next s).2.
Proof.
  intros Hp H0 Hk [Hd Ho (t & Hin & Hrep & Ep & Ee) Hdue] Hnext.
  destruct (poll_one next s a t) as (E1 & E2 & E3 & E4); [lia|done..|].
  eexists. split; [exact E1|].
  assert (Hturn : timer_turn next t = if next <? expire t then (false, t)
                                      else (true, set_expire t (expire t + p))).
  { unfold timer_turn. rewrite (proj2 (Z.eqb_neq (expire t) 0)) by nia.
    destruct (Z.ltb_spec next (expire t)); [done|]. by rewrite Ep, (proj2 (Z.ltb_ge _ _)) by lia. }
  rewrite Hturn in *. destruct (Z.ltb_spec next (expire t)) as [L|L]; cbn [fst snd] in *.
  - split; [done|]. rewrite Z.add_0_r. split; [done|done| |lia]. by exists t.
  - split; [done|]. split; [done|done| |lia].
    eexists. split; [exact E2|]. split; [done|]. split; [done|]. cbn. lia.
Qed.

Lemma polls_paced nows a p t0 now k s :
  0 < p → 0 <= t0 → 0 <= k → paced a p t0 now k s → steady p now nows →
  k + count a (polls nows s).1 = (last_time now nows - t0) / p.
Proof.
  intros Hp H0. revert now k s. induction nows as [|next nows IH]; intros now k s Hk Hpaced Hs.
  - cbn. change (count a []) with 0. pose proof (paced_due _ _ _ _ _ _ Hpaced) as Hd.
    apply (Z.div_unique _ _ _ (now - t0 - k * p)); lia.
  - destruct Hs as [Hnext Hs]. cbn [polls last_time].
    destruct (poll_paced a p t0 now k s next Hp H0 Hk Hpaced Hnext) as (d & E & Hd & Hpaced').
    destruct (mg_timer_poll next s) as [calls s']. cbn [fst snd] in *.
    specialize (IH next (k + d) s' ltac:(lia) Hpaced' Hs).
    destruct (polls nows s') as [calls' s'']. cbn [fst snd] in *. rewrite count_app. lia.
Qed.

(** The first poll starts the clock of the timer. *)
Lemma first_poll_paced a ms func arg s t0 :
  0 < ms → 0 <= t0 → oldnow s <= t0 → NoDup (g_timers s).*1 → a ∉ (g_timers s).*1 →
  let s1 := (mg_timer_init a ms (Z.lor MG_TIMER_REPEAT MG_TIMER_RUN_NOW) func arg s).2 in
  count a (mg_timer_poll t0 s1).1 = 0 ∧ paced a ms t0 t0 0 (mg_timer_poll t0 s1).2.
Proof.
  intros Hp H0 Ho Hd Ha s1. set (t := mk_mg_timer ms 0 3 func arg).
  destruct (poll_one t0 s1 a t) as (E1 & E2 & E3 & E4); [done| |by left|done|].
  { cbn [s1 mg_timer_init snd g_timers]. rewrite fmap_cons. by apply NoDup_cons. }
  assert (Hturn : timer_turn t0 t = (false, set_expire t (t0 + ms))).
  { unfold timer_turn, t. cbn [expire period_ms Z.eqb]. cbn [set_expire expire period_ms].
    by rewrite (proj2 (Z.ltb_lt _ _)) by lia. }
  rewrite Hturn in *. split; [exact E1|]. split; [done|done| |lia].
  eexists. split; [exact E2|]. split; [done|]. split; [done|]. cbn. lia.
Qed.

(** The pace of a timer like the one of the websocket client: it runs at once, and
    then, polled in steps of at most one period, it has run once for each period that has
    passed since the first poll, however the polls fall: no tick is lost and none drifts,
    whatever other timers there are. *)
Theorem timer_keeps_pace a ms func arg s t0 nows :
  0 < ms → 0 <= t0 → oldnow s <= t0 → NoDup (g_timers s).*1 → a ∉ (g_timers s).*1 →
  steady ms t0 nows →
  let '(calls, s1) := mg_timer_init a ms (Z.lor MG_TIMER_REPEAT MG_TIMER_RUN_NOW) func arg s in
  calls = [mk_call a func arg]
  ∧ count a (calls ++ (polls (t0 :: nows) s1).1) = 1 + (last_time t0 nows - t0) / ms.
Proof.
  intros Hp H0 Ho Hd Ha Hs.
  destruct (first_poll_paced a ms func arg s t0 Hp H0 Ho Hd Ha) as [E Hpaced]. cbv zeta in *.
  destruct (mg_timer_init a ms _ func arg s) as [calls s1] eqn:Ei. injection Ei as <- _.
  split; [done|]. cbn [snd] in *. cbn [polls].
  destruct (mg_timer_poll t0 s1) as [calls' s2]. cbn [fst snd] in *.
  pose proof (polls_paced nows a ms t0 t0 0 s2 Hp H0 ltac:(lia) Hpaced Hs) as Hc.
  destruct (polls nows s2) as [calls'' s3]. cbn [fst snd] in *.
  rewrite !count_app, count_cons, bool_decide_eq_true_2, E by done. change (count a []) with 0. lia.
Qed.

(** Twelve seconds, polled each second but for two turns of eleven and a half. *)
Lemma timer_keeps_pace_witness :
  let '(calls, s1) := mg_timer_init 7 12000 3 1 2 (mk_timers [] 0) in
  calls = [mk_call 7 1 2]
  ∧ count 7 (calls ++ (polls [5000; 6000; 17500; 18500; 30000; 41000] s1).1) = 4.
Proof.
  refine (timer_keeps_pace 7 12000 1 2 (mk_timers [] 0) 5000 [6000; 17500; 18500; 30000; 41000] _ _ _ _ _ _).
  - done.
  - done.
  - done.
  - apply NoDup_nil_2.
  - apply not_elem_of_nil.
  - repeat split; vm_compute; discriminate.
Defined.
