(* ===== verification/MgConnect.v ===== *)
(** * MgConnect: the request of the client

    Models the parts of [src/websocket/mongoose.cpp] with which [mg_ws_connect] writes the
    request that opens a websocket: [urlparse], [mg_url_is_ssl], [mg_url_host],
    [mg_url_uri], [mg_url_port] and the text itself.  A URL is a C string: the list of its
    bytes, without the zero.  The socket and the resolver are in [MgPoll]; the
    sixteen random bytes of the key are an argument. *)

From S2P Require Import Prelude.
From S2P Require Import Utils.
From S2P Require Import MgIobuf.
From S2P Require Import MgWebsocket.
From S2P Require Import MgBase64.
From S2P Require Import LiveMeetingRoom.

(** ** URLs *)

Record url := mk_url {
  u_user : Z;
  u_pass : Z;
  u_host : Z;
  u_port : Z;
  u_uri : Z;
  u_end : Z;
}.

(** The body of the [for] at index [i]; [prev] is the byte before, [c] the byte there. *)
Definition url_turn (i prev c : Z) (u : url) : url :=
  if (0 <? i) && (u_host u =? 0) && (prev =? 47) && (c =? 47) then
    mk_url (u_user u) (u_pass u) (i + 1) 0 (u_uri u) (u_end u)
  else if c =? 93 then mk_url (u_user u) (u_pass u) (u_host u) 0 (u_uri u) (u_end u)
  else if (c =? 58) && (u_port u =? 0) && (u_uri u =? 0) then
    mk_url (u_user u) (u_pass u) (u_host u) (i + 1) (u_uri u) (u_end u)
  else if (c =? 64) && (u_user u =? 0) && (u_pass u =? 0) then
    mk_url (u_host u) (u_port u) (i + 1) 0 (u_uri u) (u_end u)
  else if negb (u_host u =? 0) && (u_uri u =? 0) && (c =? 47) then
    mk_url (u_user u) (u_pass u) (u_host u) (u_port u) i (u_end u)
  else u.

Fixpoint url_loop (rest : list Z) (i prev : Z) (u : url) : url :=
  match rest with
  | [] => mk_url (u_user u) (u_pass u) (u_host u) (u_port u) (u_uri u) i
  | c :: rest => url_loop rest (i + 1) c (url_turn i prev c u)
  end.

Definition urlparse (s : list Z) : url := url_loop s 0 0 (mk_url 0 0 0 0 0 0).

(** [strncmp(url, prefix, strlen(prefix)) == 0]. *)
Definition has_prefix (prefix s : list Z) : bool := bool_decide (take (length prefix) s = prefix).

Definition mg_url_is_ssl (s : list Z) : bool :=
  has_prefix (bytes_of "wss:") s || has_prefix (bytes_of "https:") s
  || has_prefix (bytes_of "mqtts:") s || has_prefix (bytes_of "ssl:") s
  || has_prefix (bytes_of "tls:") s.

(** The bytes the pointer and length of the result stand for; the string has its zero. *)
Definition mg_url_host (s : list Z) : outcome (list Z) :=
  let u := urlparse s in
  let n := if negb (u_port u =? 0) then u_port u - u_host u - 1
           else if negb (u_uri u =? 0) then u_uri u - u_host u
           else u_end u - u_host u in
  rd_range (s ++ [0]) (u_host u) (u64 n).

Definition mg_url_uri (s : list Z) : list Z :=
  let u := urlparse s in
  if negb (u_uri u =? 0) then drop (Z.to_nat (u_uri u)) s else [47].

Definition mg_url_port (s : list Z) : Z :=
  let u := urlparse s in
  let port := 0 in
  let port := if has_prefix (bytes_of "http:") s || has_prefix (bytes_of "ws:") s then 80 else port in
  let port := if has_prefix (bytes_of "wss:") s || has_prefix (bytes_of "https:") s then 443 else port in
  let port := if has_prefix (bytes_of "mqtt:") s then 1883 else port in
  let port := if has_prefix (bytes_of "mqtts:") s then 8883 else port in
  if negb (u_port u =? 0) then u16 (string_to_int (drop (Z.to_nat (u_port u)) s)) else port.

(** ** The request *)

Definition crlf : list Z := [13; 10].

(** [%.*s] of the library's [vsnprintf]: a precision of zero is none ([request_is_printed]
    in MgPrintf has the whole of it). *)
Definition print_prefix (s : list Z) (n : Z) (rest : list Z) : list Z :=
  if n =? 0 then rest else s.

(** What the request is, for the headers [extra] of the caller and the random bytes of
    the nonce; [key] is the local array. *)
Definition ws_request (s extra nonce key : list Z) : outcome (list Z) :=
  host ← mg_url_host s;
  r ← mg_base64_encode nonce key;
  let host := print_prefix host (zlen host) (drop (Z.to_nat (u_host (urlparse s))) s) in
  Ok (bytes_of "GET " ++ mg_url_uri s ++ bytes_of " HTTP/1.1" ++ crlf
      ++ bytes_of "Upgrade: websocket" ++ crlf
      ++ bytes_of "Host: " ++ host ++ crlf
      ++ bytes_of "Connection: Upgrade" ++ crlf
      ++ extra
      ++ bytes_of "Sec-WebSocket-Version: 13" ++ crlf
      ++ bytes_of "Sec-WebSocket-Key: " ++ take (Z.to_nat r.2) r.1 ++ crlf
      ++ crlf).

(** The connection [mg_ws_connect] returns when [mg_connect] has one to give: nothing is
    received, and the request is to be sent.  [key] is [char key[30]]. *)
Definition mg_ws_connect (s extra nonce key : list Z) : outcome mg_connection :=
  let c := mk_mg_connection empty_iobuf empty_iobuf 0 false true false 0 in
  request ← ws_request s extra nonce key;
  mg_send c request.

(** The header [WSClient::on_timer] asks for. *)
Definition ctrl_protocol : list Z := bytes_of "Sec-WebSocket-Protocol: ctrl_protocol" ++ crlf.

(** ** The address of the server *)

(** No byte that means something in a URL. *)
Definition plain_byte (c : Z) : Prop := c ≠ 47 ∧ c ≠ 58 ∧ c ≠ 64 ∧ c ≠ 93.

Lemma url_loop_plain l rest i prev u :
  Forall plain_byte l → ∃ prev', url_loop (l ++ rest) i prev u = url_loop rest (i + zlen l) prev' u.
Proof.
  intros Hl. revert i prev. induction Hl as [|c l (H1 & H2 & H3 & H4) _ IH]; intros i prev.
  { exists prev. cbn [app]. by rewrite zlen_nil, Z.add_0_r. }
  cbn [app url_loop].
  assert (E : url_turn i prev c u = u).
  { unfold url_turn. rewrite (proj2 (Z.eqb_neq c 47)), (proj2 (Z.eqb_neq c 58)), (proj2 (Z.eqb_neq c 64)),
      (proj2 (Z.eqb_neq c 93)) by done. by rewrite !andb_false_r. }
  rewrite E. destruct (IH (i + 1) c) as [prev' ->]. exists prev'. f_equal. len.
Qed.

Lemma url_loop_colon rest i prev u :
  u_port u = 0 → u_uri u = 0 → u_host u ≠ 0 →
  url_loop (58 :: rest) i prev u
  = url_loop rest (i + 1) 58 (mk_url (u_user u) (u_pass u) (u_host u) (i + 1) (u_uri u) (u_end u)).
Proof.
  intros H1 H2 H3. cbn [url_loop]. f_equal. unfold url_turn. rewrite H1, H2.
  by rewrite (proj2 (Z.eqb_neq (u_host u) 0)), andb_false_r by done.
Qed.

Lemma url_loop_slash rest i prev u :
  u_uri u = 0 → u_host u ≠ 0 →
  url_loop (47 :: rest) i prev u
  = url_loop rest (i + 1) 47 (mk_url (u_user u) (u_pass u) (u_host u) (u_port u) i (u_end u)).
Proof.
  intros H2 H3. cbn [url_loop]. f_equal. unfold url_turn. rewrite H2.
  by rewrite (proj2 (Z.eqb_neq (u_host u) 0)), andb_false_r by done.
Qed.

Lemma digit_plain c : is_digit c → plain_byte c.
Proof. unfold is_digit, plain_byte. lia. Qed.

Lemma urlparse_address ip port :
  Forall plain_byte ip → 0 <= port →
  urlparse (wsaddress ip port)
  = mk_url 0 0 5 (6 + zlen ip) (6 + zlen ip + zlen (common_to_string port))
      (17 + zlen ip + zlen (common_to_string port)).
Proof.
  intros Hip Hp. destruct (common_to_string_nonneg port Hp) as (_ & Hd & _).
  set (ds := common_to_string port) in *. unfold wsaddress. fold ds.
  unfold urlparse. change (bytes_of "ws://" ++ ?l) with (119 :: 115 :: 58 :: 47 :: 47 :: l).
  set (l := ip ++ _).
  change (url_loop (119 :: 115 :: 58 :: 47 :: 47 :: l) 0 0 (mk_url 0 0 0 0 0 0))
    with (url_loop l 5 47 (mk_url 0 0 5 0 0 0)).
  unfold l. destruct (url_loop_plain ip (bytes_of ":" ++ ds ++ bytes_of "/rtc_signal") 5 47
                        (mk_url 0 0 5 0 0 0) Hip) as [p1 ->].
  change (bytes_of ":" ++ ?l) with (58 :: l). rewrite url_loop_colon by done.
  cbn [u_user u_pass u_host u_uri u_end].
  destruct (url_loop_plain ds (bytes_of "/rtc_signal") (5 + zlen ip + 1) 58
     (mk_url 0 0 5 (5 + zlen ip + 1) 0 0)) as [p2 ->].
  { eapply Forall_impl; [exact Hd|]. apply digit_plain. }
  change (bytes_of "/rtc_signal") with (47 :: bytes_of "rtc_signal").
  rewrite url_loop_slash by done. cbn [u_user u_pass u_host u_port u_end].
  rewrite <- (app_nil_r (bytes_of "rtc_signal")).
  destruct (url_loop_plain (bytes_of "rtc_signal") [] (5 + zlen ip + 1 + zlen ds + 1) 47
     (mk_url 0 0 5 (5 + zlen ip + 1) (5 + zlen ip + 1 + zlen ds) 0)) as [p3 ->].
  { unfold plain_byte. by_table. }
  cbn [url_loop u_user u_pass u_host u_port u_uri]. change (zlen (bytes_of "rtc_signal")) with 10.
  f_equal; lia.
Qed.

Lemma read_digits_stop ds c rest acc :
  Forall is_digit ds → ¬ is_digit c → read_digits (ds ++ c :: rest) acc = read_digits ds acc.
Proof.
  intros Hd Hc. revert acc. induction Hd as [|d ds Hd _ IH]; intros acc; cbn [app read_digits].
  - unfold is_digit in Hc. destruct ((48 <=? c) && (c <=? 57)) eqn:E; [|done].
    apply andb_true_iff in E as [?%Z.leb_le ?%Z.leb_le]. lia.
  - destruct (_ && _); [apply IH|done].
Qed.

(** [atoi] stops at the path. *)
Lemma string_to_int_prefix port rest :
  0 <= port < 2 ^ 31 → string_to_int (common_to_string port ++ 47 :: rest) = port.
Proof.
  intros Hp. destruct (common_to_string_nonneg port ltac:(lia)) as (Hne & Hd & Hv).
  destruct (number_roundtrip_spec port) as [_ Hr]. specialize (Hr ltac:(lia)).
  unfold string_to_int in *. etrans; [|exact Hr]. f_equal.
  unfold strtol. destruct (common_to_string port) as [|c ds] eqn:E; [done|].
  pose proof (Forall_inv Hd) as Hc. unfold is_digit in Hc. cbn [app string_trim_start].
  assert (is_not_space c = true) as ->.
  { unfold is_not_space. rewrite (proj2 (Z.eqb_neq c 32)) by lia.
    by rewrite (proj2 (Z.leb_gt c 13)), andb_false_r by lia. }
  rewrite (proj2 (Z.eqb_neq c 45)), (proj2 (Z.eqb_neq c 43)) by lia.
  change (c :: ds ++ 47 :: rest) with ((c :: ds) ++ 47 :: rest).
  rewrite read_digits_stop; [done|done|]. unfold is_digit. lia.
Qed.

Lemma wsaddress_split ip port :
  wsaddress ip port = bytes_of "ws://" ++ ip ++ 58 :: common_to_string port ++ bytes_of "/rtc_signal".
Proof. done. Qed.

(** Host, port and path of the address the room builds. *)
Lemma address_parts ip port :
  Forall plain_byte ip → 0 <= port < 65536 → zlen ip < 2 ^ 32 →
  mg_url_host (wsaddress ip port) = Ok ip ∧ mg_url_port (wsaddress ip port) = port
  ∧ mg_url_uri (wsaddress ip port) = bytes_of "/rtc_signal" ∧ mg_url_is_ssl (wsaddress ip port) = false.
Proof.
  intros Hip Hp Hl. pose proof (urlparse_address ip port Hip ltac:(lia)) as E.
  pose proof (zlen_nonneg ip). pose proof (zlen_nonneg (common_to_string port)).
  unfold mg_url_host, mg_url_port, mg_url_uri. rewrite E. cbn [u_port u_host u_uri u_end].
  rewrite (proj2 (Z.eqb_neq (6 + zlen ip) 0)), (proj2 (Z.eqb_neq (_ + zlen (common_to_string port)) 0)) by lia.
  cbn [negb]. rewrite wsaddress_split. split; [|split; [|split; [|done]]].
  - rewrite u64_id by lia. replace (6 + zlen ip - 5 - 1) with (zlen ip) by lia.
    rewrite <- !app_assoc. apply (rd_range_app (bytes_of "ws://") ip).
  - assert (Ed : drop (Z.to_nat (6 + zlen ip))
        (bytes_of "ws://" ++ ip ++ 58 :: common_to_string port ++ bytes_of "/rtc_signal")
      = common_to_string port ++ bytes_of "/rtc_signal").
    { rewrite (cons_middle 58 ip), !app_assoc, <- (app_assoc _ (common_to_string port)).
      replace (Z.to_nat (6 + zlen ip)) with (length ((bytes_of "ws://" ++ ip) ++ [58]))
        by (rewrite !length_app; change (length (bytes_of "ws://")) with 5%nat; cbn [length]; unfold zlen; lia).
      apply drop_app_length. }
    rewrite Ed. change (bytes_of "/rtc_signal") with (47 :: bytes_of "rtc_signal").
    rewrite string_to_int_prefix by lia. by apply u16_id.
  - rewrite (cons_middle 58 ip), !app_assoc.
    replace (Z.to_nat _) with (length (((bytes_of "ws://" ++ ip) ++ [58]) ++ common_to_string port))
      by (rewrite !length_app; change (length (bytes_of "ws://")) with 5%nat; cbn [length]; unfold zlen in *; lia).
    apply drop_app_length.
Qed.

(** *** The text *)

(** The bytes of a line. *)
Definition clean (l : list Z) : Prop := Forall (λ c, 32 <= c) l.

Lemma isok_clean c : 32 <= c → isok c = true.
Proof. intros. unfold isok. by rewrite (proj2 (Z.leb_le 32 c)), orb_true_r. Qed.

(** A line that has begun, and its end. *)
Lemma request_len_rest l rest i b1 b2 :
  clean l → 0 <= i → b1 ≠ 10 →
  request_len_loop (l ++ crlf ++ rest) i b1 b2 = request_len_loop rest (i + zlen l + 2) 10 13.
Proof.
  intros Hl. revert i b1 b2. induction Hl as [|c l Hc Hl IH]; intros i b1 b2 Hi Hb; cbn [app crlf request_len_loop].
  - change (isok 13) with true. change (isok 10) with true. cbn [negb Z.eqb Pos.eqb andb].
    rewrite (proj2 (Z.eqb_neq b1 10)) by done. rewrite !andb_false_r. cbn [orb]. f_equal. len.
  - rewrite isok_clean, (proj2 (Z.eqb_neq c 10)) by lia. rewrite !andb_false_r. cbn [negb orb andb].
    change (13 :: 10 :: rest) with (crlf ++ rest). rewrite IH by lia. f_equal. len.
Qed.

(** A whole line, wherever it begins. *)
Lemma request_len_line l rest i b1 b2 :
  clean l → l ≠ [] → 0 <= i →
  request_len_loop (l ++ crlf ++ rest) i b1 b2 = request_len_loop rest (i + zlen l + 2) 10 13.
Proof.
  intros Hl Hne Hi. destruct Hl as [|c l Hc Hl]; [done|]. cbn [app request_len_loop].
  rewrite isok_clean, (proj2 (Z.eqb_neq c 10)) by lia. rewrite !andb_false_r. cbn [negb orb andb].
  rewrite request_len_rest by (done || lia). f_equal. len.
Qed.

Definition text_lines (ls : list (list Z)) : list Z := concat ((λ l, l ++ crlf) <$> ls) ++ crlf.

(** Lines and a blank one. *)
Lemma request_len_lines ls i :
  Forall (λ l, clean l ∧ l ≠ []) ls → 0 <= i →
  ls ≠ [] ∨ 3 < i + 1 →
  ∀ b2, request_len_loop (text_lines ls) i 10 b2 = i + zlen (text_lines ls).
Proof.
  unfold text_lines. intros Hls. revert i.
  induction Hls as [|l ls [Hl Hne] _ IH]; intros i Hi Hlong b2.
  - destruct Hlong as [?|Hlong]; [done|]. cbn [fmap list_fmap concat app crlf request_len_loop].
    change (isok 13) with true. change (isok 10) with true. cbn [negb Z.eqb Pos.eqb andb orb].
    rewrite !andb_false_r. cbn [orb]. rewrite (proj2 (Z.ltb_lt 3 (i + 1))) by lia. cbn [andb orb]. change (zlen crlf) with 2. lia.
  - rewrite fmap_cons. cbn [concat]. rewrite <- !app_assoc. rewrite request_len_line by done.
    assert (1 <= zlen l) by (destruct l; [done|len]).
    rewrite IH by (lia || (right; lia)). rewrite !(zlen_app l), !(zlen_app crlf).
    change (zlen crlf) with 2. lia.
Qed.

Lemma text_lines_cons l ls : text_lines (l :: ls) = l ++ crlf ++ text_lines ls.
Proof. unfold text_lines. rewrite fmap_cons. cbn [concat]. by rewrite <- !app_assoc. Qed.

(** What holds of the sixty-four letters and the padding holds of all that is encoded. *)
Lemma base64_forall (P : Z → Prop) p :
  (∀ s, 0 <= s < 64 → P (mg_b64idx s)) → P 61 → is_bytes p → Forall P (base64 p).
Proof.
  intros H64 He Hp. assert (Hg : ∀ a b c, is_byte a → is_byte b → is_byte c → Forall P (group a b c)).
  { intros a b c Ha Hb Hc. unfold group. rewrite Forall_fmap.
    eapply Forall_impl; [by apply sextet_ranges|]. intros s Hs. cbn. by apply H64. }
  assert (H0 : is_byte 0) by done.
  induction p as [|a|a b|a b c p IH] using groups_ind; cbn [base64].
  - apply Forall_nil_2.
  - apply Forall_cons_1 in Hp as [Ha _]. apply Forall_app. split; [|by repeat constructor].
    by apply Forall_take, Hg.
  - apply Forall_cons_1 in Hp as [Ha [Hb _]%Forall_cons_1]. apply Forall_app. split; [|by repeat constructor].
    by apply Forall_take, Hg.
  - apply Forall_cons_1 in Hp as [Ha [Hb [Hc Hp]%Forall_cons_1]%Forall_cons_1].
    apply Forall_app. split; [by apply Hg|by apply IH].
Qed.

Lemma base64_clean p : is_bytes p → clean (base64 p).
Proof. apply base64_forall; [by_table|done]. Qed.

(** The lines of the request to a server at [ip]. *)
Definition request_lines (ip nonce : list Z) : list (list Z) :=
  [bytes_of "GET /rtc_signal HTTP/1.1"; bytes_of "Upgrade: websocket"; bytes_of "Host: " ++ ip;
   bytes_of "Connection: Upgrade"; bytes_of "Sec-WebSocket-Protocol: ctrl_protocol";
   bytes_of "Sec-WebSocket-Version: 13"; bytes_of "Sec-WebSocket-Key: " ++ base64 nonce].

Lemma request_lines_clean ip nonce :
  clean ip → is_bytes nonce → Forall (λ l, clean l ∧ l ≠ []) (request_lines ip nonce).
Proof.
  intros Hip Hn. assert (Hc : ∀ l, bool_decide (clean l) = true → clean l)
    by (intros l; apply bool_decide_eq_true_1).
  assert (Hd : ∀ l l', clean l → clean l' → clean (l ++ l')) by (intros; by apply Forall_app).
  pose proof (base64_clean nonce Hn).
  repeat apply Forall_cons_2; [..|apply Forall_nil_2]; (split; [|done]);
    try (apply Hc; vm_compute; reflexivity); (apply Hd; [apply Hc; vm_compute; reflexivity|done]).
Qed.

Lemma ws_request_lines ip port nonce key :
  Forall plain_byte ip → ip ≠ [] → 0 <= port < 65536 → zlen ip < 2 ^ 16 →
  is_bytes nonce → zlen nonce = 16 → zlen key = 30 →
  ws_request (wsaddress ip port) ctrl_protocol nonce key = Ok (text_lines (request_lines ip nonce)).
Proof.
  intros Hip Hne Hp Hl Hn Hn16 Hk. destruct (address_parts ip port Hip Hp ltac:(lia)) as (Eh & _ & Eu & _).
  unfold ws_request. step Eh. pose proof (base64_length nonce).
  destruct (encode_reference nonce key Hn) as (R & Ee); [lia|]. step Ee. cbn [fst snd].
  unfold print_prefix. rewrite (proj2 (Z.eqb_neq (zlen ip) 0)) by (destruct ip; [done|len]).
  rewrite Eu. replace (take _ _) with (base64 nonce).
  2:{ unfold zlen. by rewrite Nat2Z.id, take_app_length. }
  unfold request_lines. rewrite !text_lines_cons. unfold text_lines, ctrl_protocol. cbn [fmap list_fmap concat].
  rewrite <- !app_assoc. reflexivity.
Qed.

Lemma request_long ip nonce :
  zlen ip < 2 ^ 16 → zlen nonce = 16 → 0 < zlen (text_lines (request_lines ip nonce)) < 2 ^ 20.
Proof.
  intros Hl Hn16. unfold request_lines. rewrite !text_lines_cons, !zlen_app. unfold text_lines.
  cbn [fmap list_fmap concat app]. pose proof (base64_length nonce). pose proof (zlen_nonneg ip).
  pose proof (zlen_nonneg (base64 nonce)). change (zlen crlf) with 2.
  repeat match goal with |- context [zlen (bytes_of ?s)] =>
    let n := eval vm_compute in (zlen (bytes_of s)) in change (zlen (bytes_of s)) with n end. lia.
Qed.

(** What the send buffer holds, on the new connection. *)
Lemma request_sent ip port nonce key :
  Forall plain_byte ip → ip ≠ [] → 0 <= port < 65536 → zlen ip < 2 ^ 16 →
  is_bytes nonce → zlen nonce = 16 → zlen key = 30 →
  ∃ io, mg_ws_connect (wsaddress ip port) ctrl_protocol nonce key
      = Ok (mk_mg_connection empty_iobuf io 0 false true false 0)
    ∧ wf io ∧ content io = text_lines (request_lines ip nonce).
Proof.
  intros Hip Hne Hp Hl Hn Hn16 Hk. unfold mg_ws_connect.
  pose proof (ws_request_lines ip port nonce key Hip Hne Hp Hl Hn Hn16 Hk) as Er. step Er.
  set (req := text_lines (request_lines ip nonce)).
  set (c0 := mk_mg_connection empty_iobuf empty_iobuf 0 false true false 0).
  pose proof (request_long ip nonce Hl Hn16) as Hlen. fold req in Hlen.
  destruct (mg_send_content c0 req) as (io & E & Hw & Ec); [done|change (len (send c0)) with 0; lia|].
  exists io. split; [exact E|]. by rewrite Ec.
Qed.

(** The request the client opens its connection with: for a server at an address
    without colons and slashes, and any port, the host, the port and the path are read
    from the URL as the room put them there; the key of sixteen random bytes fits its
    array of thirty; the text is one request, which ends at its first blank line and
    carries the key in base64; and the connection waits for the answer. *)
Theorem request_well_formed ip port nonce key :
  Forall plain_byte ip → clean ip → ip ≠ [] → 0 <= port < 65536 → zlen ip < 2 ^ 16 →
  is_bytes nonce → zlen nonce = 16 → zlen key = 30 →
  mg_url_host (wsaddress ip port) = Ok ip ∧ mg_url_port (wsaddress ip port) = port
  ∧ ∃ c, mg_ws_connect (wsaddress ip port) ctrl_protocol nonce key = Ok c
    ∧ content (send c) = text_lines (request_lines ip nonce)
    ∧ mg_http_get_request_len (content (send c)) = zlen (content (send c))
    ∧ ∀ h, h ≠ [] → opening h [] c.
Proof.
  intros Hip Hc Hne Hp Hl Hn Hn16 Hk. destruct (address_parts ip port Hip Hp ltac:(lia)) as (Eh & Ep & _).
  split; [done|]. split; [done|].
  destruct (request_sent ip port nonce key) as (io & E & Hw & Ec); [done..|].
  eexists. split; [exact E|]. cbn [send]. rewrite Ec. split; [done|]. split.
  - unfold mg_http_get_request_len. unfold request_lines. rewrite text_lines_cons.
    pose proof (request_lines_clean ip nonce Hc Hn) as Hlines. unfold request_lines in Hlines.
    apply Forall_cons in Hlines as [[Hc1 Hne1] Hlines]. rewrite request_len_line by done.
    rewrite request_len_lines; [|exact Hlines| |by left]; [|vm_compute; discriminate].
    rewrite !(zlen_app (bytes_of "GET /rtc_signal HTTP/1.1")), (zlen_app crlf). change (zlen crlf) with 2. lia.
  - intros h Hh. split; cbn; [done..|by exists h|done].
Qed.

Lemma request_well_formed_witness :
  let ip := bytes_of "192.168.1.100" in
  let nonce := [0; 16; 131; 16; 81; 135; 32; 146; 139; 48; 211; 143; 65; 20; 147; 81] in
  mg_url_host (wsaddress ip 23579) = Ok ip ∧ mg_url_port (wsaddress ip 23579) = 23579
  ∧ ∃ c, mg_ws_connect (wsaddress ip 23579) ctrl_protocol nonce (replicate 30 0) = Ok c
    ∧ content (send c) = text_lines (request_lines ip nonce)
    ∧ mg_http_get_request_len (content (send c)) = zlen (content (send c))
    ∧ ∀ h, h ≠ [] → opening h [] c.
Proof.
  cbv zeta. apply request_well_formed.
  - unfold plain_byte. by_table.
  - unfold clean. by_table.
  - done.
  - lia.
  - vm_compute. reflexivity.
  - unfold is_bytes, is_byte. by_table.
  - reflexivity.
  - reflexivity.
Defined.
