(* ===== verification/MgPrintf.v ===== *)
(** * MgPrintf: the printing of the embedded library

    Models [mg_lld], [mg_copys], [mg_vsnprintf] and [mg_vasprintf] of
    [src/websocket/mongoose.cpp], with which [mg_ws_connect] prints the request that opens
    the connection and [mg_error] its message.  A format is the list of its bytes with the
    zero; a [char *] is what it points to, to the end of its memory.  The characters go
    through [put], which is [if (n < len) buf[n] = c; n++] in [mg_vsnprintf]: the same
    printing without a buffer is the specification.  [Fault] also is an argument of another
    type than the conversion takes. *)

From S2P Require Import Prelude.
From S2P Require Import Utils.
From S2P Require Import MgIobuf.
From S2P Require Import MgBase64.
From S2P Require Import LiveMeetingRoom.
From S2P Require Import MgConnect.

(** ** Numbers *)

Definition letters : list Z := bytes_of "0123456789abcdef".

(** The digits of [v], the last one first: [v] has at most 64 bits. *)
Fixpoint lld_digits (fuel : nat) (base v : Z) : list Z :=
  match fuel with
  | O => []
  | S fuel => if v =? 0 then [] else nth (Z.to_nat (v mod base)) letters 0 :: lld_digits fuel base (v / base)
  end.

(** What is written to [buf]; the loop over [i] reverses the digits.  The negation of the
    smallest [int64_t], which C++ leaves undefined, is taken to wrap. *)
Definition mg_lld (val : Z) (is_signed is_hex : bool) : list Z :=
  let v := u64 val in
  let '(sign, v) := if is_signed && (val <? 0) then ([45], u64 (- val)) else ([], v) in
  let base := if is_hex then 16 else 10 in
  let text := sign ++ rev (lld_digits 64 base v) in
  if val =? 0 then text ++ [48] else text.

(** ** Formats *)

Inductive va_arg : Type :=
| Int (v : Z)
| Ptr (mem : list Z)
| Null.

Definition peek (f : list Z) : outcome Z := match f with c :: _ => Ok c | [] => Fault end.

(** [if (c == flag) ..., c = fmt[++i]]. *)
Definition flag (ch : Z) (f : list Z) : bool * list Z :=
  match f with c :: f' => if c =? ch then (true, f') else (false, f) | [] => (false, f) end.

Definition digit (c : Z) : bool := (48 <=? c) && (c <=? 57).

Fixpoint number (f : list Z) (n : Z) : Z * list Z :=
  match f with
  | c :: f' => if digit c then number f' (u64 (u64 (n * 10) + (c - 48))) else (n, f)
  | [] => (n, f)
  end.

(** [while (c == 'h') c = fmt[++i]]. *)
Fixpoint skip_h (f : list Z) : list Z :=
  match f with c :: f' => if c =? 104 then skip_h f' else f | [] => f end.

Record conversion := mk_conversion {
  alt : bool;
  minus : bool;
  pad : Z;
  width : Z;
  prec : Z;
  is_long : Z;
}.

(** What is between the percent sign and the letter. *)
Definition parse_conversion (f : list Z) (ap : list va_arg)
    : outcome (conversion * (list Z * list va_arg)) :=
  let '(x, f) := flag 35 f in
  let '(minus, f) := flag 45 f in
  let '(zero, f) := flag 48 f in
  let '(w, f) := number f 0 in
  let '(dot, f) := flag 46 f in
  r ← (if (dot : bool) then
         let '(star, f) := flag 42 f in
         if (star : bool) then
           match ap with Int v :: ap => Ok (u64 v, (f, ap)) | _ => Fault end
         else let '(pr, f) := number f 0 in Ok (pr, (f, ap))
       else Ok (0, (f, ap)));
  let '(pr, (f, ap)) := r in
  let f := skip_h f in
  let '(l1, f) := flag 108 f in
  let '(l2, f) := if (l1 : bool) then flag 108 f else (false, f) in
  Ok (mk_conversion x minus (if (zero : bool) then 48 else 32) w pr
        (if l2 then 2 else if l1 then 1 else 0), (f, ap)).

Fixpoint strlen (mem : list Z) : outcome Z :=
  match mem with
  | [] => Fault
  | c :: mem => if c =? 0 then Ok 0 else n ← strlen mem; Ok (n + 1)
  end.

(** ** Printing *)

Section printing.
Context {S : Type} (put : S → Z → outcome S).

(** [k] times the character [c]. *)
Fixpoint put_times (k : nat) (c : Z) (st : S) : outcome S :=
  match k with O => Ok st | Datatypes.S k => st ← put st c; put_times k c st end.

(** The rest of the pointer, and how often the loop can turn. *)
Fixpoint copys_loop (k : nat) (p : list Z) (st : S) : outcome S :=
  match k with
  | O => Ok st
  | Datatypes.S k =>
      match p with
      | [] => Fault
      | c :: p => if c =? 0 then Ok st else st ← put st c; copys_loop k p st
      end
  end.

(** A [k] beyond the memory ends in [Fault] as one just beyond it does. *)
Definition mg_copys (p : list Z) (k : Z) (st : S) : outcome S :=
  copys_loop (Z.to_nat (Z.min k (zlen p + 1))) p st.

(** How much padding there is for [k] characters. *)
Definition padding (k w : Z) : nat := Z.to_nat (w - k).

Definition put_number (cv : conversion) (c v : Z) (st : S) : outcome S :=
  let s := c =? 100 in
  let h := (c =? 120) || (c =? 88) || (c =? 112) in
  let x := alt cv || (c =? 112) in
  let long := if c =? 112 then 1 else is_long cv in
  let v := if long =? 0 then (if s then i32 v else u32 v)
           else if long =? 1 then (if s then i64 v else i64 (u64 v)) else i64 v in
  let tmp := mg_lld v s h in
  let k := zlen tmp in
  let xl := if x then 2 else 0 in
  let w := if width cv <? xl then 0 else width cv - xl in
  st ← (if (pad cv =? 32) && negb (minus cv) then put_times (padding k w) 32 st else Ok st);
  st ← mg_copys (bytes_of "0x") xl st;
  st ← (if pad cv =? 48 then put_times (padding k w) 48 st else Ok st);
  st ← mg_copys tmp k st;
  if (pad cv =? 32) && minus cv then put_times (padding k w) 32 st else Ok st.

Definition put_string (cv : conversion) (p : va_arg) (st : S) : outcome S :=
  mem ← match p with Ptr mem => Ok mem | Null => Ok [] | Int _ => Fault end;
  pr ← (if prec cv =? 0
        then match p with Null => Ok 0 | _ => strlen mem end
        else Ok (prec cv));
  st ← (if minus cv then Ok st else put_times (padding pr (width cv)) (pad cv) st);
  st ← mg_copys mem pr st;
  if minus cv then put_times (padding pr (width cv)) (pad cv) st else Ok st.

(** One conversion, from the letter [c] on. *)
Definition put_conversion (cv : conversion) (c : Z) (ap : list va_arg) (st : S) : outcome (list va_arg * S) :=
  if (c =? 100) || (c =? 117) || (c =? 120) || (c =? 88) || (c =? 112) then
    match ap with
    | Int v :: ap => st ← put_number cv c v st; Ok (ap, st)
    | _ => Fault
    end
  else if c =? 99 then
    match ap with Int v :: ap => st ← put st (u8 v); Ok (ap, st) | _ => Fault end
  else if c =? 115 then
    match ap with p :: ap => st ← put_string cv p st; Ok (ap, st) | [] => Fault end
  else if c =? 37 then st ← put st 37; Ok (ap, st)
  else st ← put st 37; st ← put st c; Ok (ap, st).

(** The [while]; [f] is the format from [fmt[i]] on. *)
Fixpoint print_loop (fuel : nat) (f : list Z) (ap : list va_arg) (st : S) : outcome S :=
  match fuel with
  | O => Hang
  | Datatypes.S fuel =>
      c ← peek f;
      if c =? 0 then Ok st
      else if c =? 37 then
        r ← parse_conversion (tail f) ap;
        let '(cv, (f, ap)) := r in
        c ← peek f;
        r ← put_conversion cv c ap st;
        let '(ap, st) := r in
        print_loop fuel (tail f) ap st
      else st ← put st c; print_loop fuel (tail f) ap st
  end.

Definition print (fmt : list Z) (ap : list va_arg) (st : S) : outcome S :=
  print_loop (Datatypes.S (length fmt)) fmt ap st.
End printing.

(** [if (n < len) buf[n] = c; n++]. *)
Definition put_buf (len : Z) (st : Z * list Z) (c : Z) : outcome (Z * list Z) :=
  let '(n, buf) := st in
  buf ← (if n <? len then wr_range buf n [c] else Ok buf);
  Ok (n + 1, buf).

Definition mg_vsnprintf (buf : list Z) (len : Z) (fmt : list Z) (ap : list va_arg) : outcome (Z * list Z) :=
  r ← print (put_buf len) fmt ap (0, buf);
  let '(n, buf) := r in
  buf ← (if n <? len then wr_range buf n [0] else Ok buf);
  Ok (n, buf).

(** [buf] is the array of the caller, of [size] bytes; the result says which buffer holds
    the text.  [calloc] does not fail. *)
Definition mg_vasprintf (buf : list Z) (size : Z) (fmt : list Z) (ap : list va_arg) : outcome (Z * list Z) :=
  r ← mg_vsnprintf buf size fmt ap;
  let '(len, buf) := r in
  if size <=? len then mg_vsnprintf (zeros (len + 1)) (len + 1) fmt ap else Ok (len, buf).

(** ** The specification: the text, whatever the room *)

Definition printed (fmt : list Z) (ap : list va_arg) : outcome (list Z) :=
  print (λ out c, Ok (out ++ [c])) fmt ap [].

Example print_address :
  printed (bytes_of "%d.%d|%5s|%-4d|%04x|%.*s|%s" ++ [0])
    [Int 192; Int (-7); Ptr (bytes_of "ab" ++ [0]); Int 12; Int 255; Int 2; Ptr (bytes_of "xyz"); Ptr (bytes_of "end" ++ [0])]
  = Ok (bytes_of "192.-7|   ab|12  |00ff|xy|end").
Proof. vm_compute. reflexivity. Qed.

(** ** Two ways of storing the characters

    If the stores correspond, so do the results. *)

Definition related {A B} (R : A → B → Prop) (m : outcome A) (n : outcome B) : Prop :=
  match m, n with
  | Ok a, Ok b => R a b
  | Fault, Fault | Hang, Hang => True
  | _, _ => False
  end.

Lemma related_bind {A B C D} (P : A → B → Prop) (R : C → D → Prop) m n f g :
  related P m n → (∀ a b, P a b → related R (f a) (g b)) → related R (m ≫= f) (n ≫= g).
Proof. destruct m, n; cbn; intros H Hf; auto; done. Qed.

(** The same computation in front. *)
Lemma related_same {A C D} (R : C → D → Prop) (m : outcome A) f g :
  (∀ a, related R (f a) (g a)) → related R (m ≫= f) (m ≫= g).
Proof. intros H. destruct m; cbn; auto. Qed.

Section relation.
Context {S T : Type} (put1 : S → Z → outcome S) (put2 : T → Z → outcome T) (R : S → T → Prop).
Hypothesis put_related : ∀ s t c, R s t → related R (put1 s c) (put2 t c).

Lemma put_times_related k c s t : R s t → related R (put_times put1 k c s) (put_times put2 k c t).
Proof.
  revert s t. induction k as [|k IH]; intros s t H; cbn [put_times]; [done|].
  eapply related_bind; [by apply put_related|]. exact IH.
Qed.

Lemma mg_copys_related p k s t : R s t → related R (mg_copys put1 p k s) (mg_copys put2 p k t).
Proof.
  unfold mg_copys. generalize (Z.to_nat (Z.min k (zlen p + 1))). intros n. revert p s t.
  induction n as [|n IH]; intros p s t H; cbn [copys_loop]; [done|]. destruct p as [|c p]; [done|].
  destruct (c =? 0); [done|]. eapply related_bind; [by apply put_related|]. intros s' t' H'. by apply IH.
Qed.

(** Padding on one side or the other. *)
Lemma padded_related (b : bool) k c s t :
  R s t → related R (if b then put_times put1 k c s else Ok s) (if b then put_times put2 k c t else Ok t).
Proof. intros H. destruct b; [by apply put_times_related|done]. Qed.

Lemma put_number_related cv c v s t : R s t → related R (put_number put1 cv c v s) (put_number put2 cv c v t).
Proof.
  intros H. unfold put_number. eapply related_bind; [by apply padded_related|]. intros s1 t1 H1.
  eapply related_bind; [by apply mg_copys_related|]. intros s2 t2 H2.
  eapply related_bind; [by apply padded_related|]. intros s3 t3 H3.
  eapply related_bind; [by apply mg_copys_related|]. intros s4 t4 H4. by apply padded_related.
Qed.

Lemma put_string_related cv p s t : R s t → related R (put_string put1 cv p s) (put_string put2 cv p t).
Proof.
  intros H. unfold put_string. apply related_same. intros mem. apply related_same. intros pr.
  eapply related_bind with (P := R); [destruct (minus cv); [done|by apply put_times_related]|]. intros s1 t1 H1.
  eapply related_bind; [by apply mg_copys_related|]. intros s2 t2 H2. by apply padded_related.
Qed.

Lemma put_conversion_related cv c ap s t :
  R s t → related (λ r q, r.1 = q.1 ∧ R r.2 q.2) (put_conversion put1 cv c ap s) (put_conversion put2 cv c ap t).
Proof.
  intros H. unfold put_conversion.
  assert (Hret : ∀ ap m n, related R m n →
    related (λ r q, r.1 = q.1 ∧ R r.2 q.2) (st ← m; Ok (ap : list va_arg, st)) (st ← n; Ok (ap, st))).
  { intros ap' m n Hm. eapply related_bind; [exact Hm|]. by intros. }
  destruct (_ || _ || _ || _ || _); [destruct ap as [|[v|mem|] ap]; try done; by apply Hret, put_number_related|].
  destruct (c =? 99); [destruct ap as [|[v|mem|] ap]; try done; by apply Hret, put_related|].
  destruct (c =? 115); [destruct ap as [|p ap]; [done|]; by apply Hret, put_string_related|].
  destruct (c =? 37); [by apply Hret, put_related|].
  eapply related_bind; [by apply put_related|]. intros s1 t1 H1. by apply Hret, put_related.
Qed.

Lemma print_related fmt ap s t : R s t → related R (print put1 fmt ap s) (print put2 fmt ap t).
Proof.
  unfold print. generalize (Datatypes.S (length fmt)). intros fuel. revert fmt ap s t.
  induction fuel as [|fuel IH]; intros f ap s t H; cbn [print_loop]; [done|].
  apply related_same. intros c. destruct (c =? 0); [done|]. destruct (c =? 37).
  - apply related_same. intros [cv [f1 ap1]]. apply related_same. intros c1.
    eapply related_bind; [by apply put_conversion_related|]. intros [ap2 s2] [ap3 t2] [E H2]. cbn in E, H2. subst ap3.
    by apply IH.
  - eapply related_bind; [by apply put_related|]. intros s1 t1 H1. by apply IH.
Qed.
End relation.

(** ** The loop ends *)

Lemma flag_shorter ch f : (length (flag ch f).2 <= length f)%nat.
Proof. destruct f as [|c f]; cbn; [lia|]. case_match; cbn; lia. Qed.

Lemma number_shorter f n : (length (number f n).2 <= length f)%nat.
Proof.
  revert n. induction f as [|c f IH]; intros n; cbn [number]; [done|]. destruct (digit c); [|done].
  etrans; [apply IH|]. cbn. lia.
Qed.

Lemma skip_h_shorter f : (length (skip_h f) <= length f)%nat.
Proof. induction f as [|c f IH]; cbn [skip_h]; [done|]. destruct (c =? 104); [cbn; lia|done]. Qed.

Lemma parse_shorter f ap : match parse_conversion f ap with
  | Ok (_, (f', _)) => (length f' <= length f)%nat | Fault => True | Hang => False end.
Proof.
  unfold parse_conversion.
  pose proof (flag_shorter 35 f) as L1. destruct (flag 35 f) as [x f1]. cbn [snd] in L1.
  pose proof (flag_shorter 45 f1) as L2. destruct (flag 45 f1) as [mi f2]. cbn [snd] in L2.
  pose proof (flag_shorter 48 f2) as L3. destruct (flag 48 f2) as [ze f3]. cbn [snd] in L3.
  pose proof (number_shorter f3 0) as L4. destruct (number f3 0) as [w f4]. cbn [snd] in L4.
  pose proof (flag_shorter 46 f4) as L5. destruct (flag 46 f4) as [dot f5]. cbn [snd] in L5.
  pose proof (flag_shorter 42 f5) as L6. destruct (flag 42 f5) as [star f6]. cbn [snd] in L6.
  pose proof (number_shorter f6 0) as L7. destruct (number f6 0) as [pr f7]. cbn [snd] in L7.
  assert (Hend : ∀ g (pr : Z) (ap' : list va_arg), (length g <= length f)%nat →
    match (let f := skip_h g in
           let '(l1, f) := flag 108 f in
           let '(l2, f) := if (l1 : bool) then flag 108 f else (false, f) in
           Ok (mk_conversion x mi (if (ze : bool) then 48 else 32) w pr
                 (if l2 then 2 else if l1 then 1 else 0), (f, ap' : list va_arg))) with
    | Ok (_, (f', _)) => (length f' <= length f)%nat | Fault => True | Hang => False end).
  { intros g p' ap' Hg. cbv zeta. pose proof (skip_h_shorter g). pose proof (flag_shorter 108 (skip_h g)) as L.
    destruct (flag 108 (skip_h g)) as [l1 g1]. cbn [snd] in L. pose proof (flag_shorter 108 g1) as L'.
    destruct l1; [|cbn; lia]. destruct (flag 108 g1). cbn [snd] in L'. lia. }
  destruct dot; [|step_bind; apply Hend; lia]. destruct star.
  - destruct ap as [|[v|mem|] ap]; try done. step_bind. apply Hend. lia.
  - step_bind. apply Hend. lia.
Qed.

Definition ends {A} (m : outcome A) : Prop := m ≠ Hang.

Lemma ends_bind {A B} (m : outcome A) (f : A → outcome B) : ends m → (∀ a, ends (f a)) → ends (m ≫= f).
Proof. destruct m; cbn; intros H Hf; [apply Hf|done|done]. Qed.

Lemma strlen_ends mem : ends (strlen mem).
Proof.
  induction mem as [|c mem IH]; cbn [strlen]; [done|]. destruct (c =? 0); [done|]. by apply ends_bind.
Qed.

Section endings.
Context {S : Type} (put : S → Z → outcome S).
Hypothesis put_ends : ∀ st c, ends (put st c).

Lemma put_times_ends k c st : ends (put_times put k c st).
Proof.
  revert st. induction k as [|k IH]; intros st; cbn [put_times]; [done|]. apply ends_bind; [apply put_ends|exact IH].
Qed.

Lemma mg_copys_ends p k st : ends (mg_copys put p k st).
Proof.
  unfold mg_copys. generalize (Z.to_nat (Z.min k (zlen p + 1))). intros n. revert p st.
  induction n as [|n IH]; intros p st; cbn [copys_loop]; [done|]. destruct p as [|c p]; [done|].
  destruct (c =? 0); [done|]. apply ends_bind; [apply put_ends|]. intros s. apply IH.
Qed.

Lemma put_conversion_ends cv c ap st : ends (put_conversion put cv c ap st).
Proof.
  unfold put_conversion, put_number, put_string.
  pose proof put_ends. pose proof put_times_ends. pose proof mg_copys_ends. pose proof strlen_ends.
  repeat first [ done | apply ends_bind; [|intros ?] | progress case_match | by auto ].
Qed.

Lemma print_loop_ends fuel f ap st : (length f < fuel)%nat → ends (print_loop put fuel f ap st).
Proof.
  revert f ap st. induction fuel as [|fuel IH]; intros f ap st Hf; cbn [print_loop]; [lia|].
  destruct f as [|c f]; [done|]. cbn [peek tail]. step_bind. cbn [length] in Hf.
  destruct (c =? 0); [done|]. destruct (c =? 37).
  - pose proof (parse_shorter f ap) as Hp. destruct (parse_conversion f ap) as [[cv [f1 ap1]]| |]; [|done|done].
    step_bind. destruct f1 as [|c1 f1]; [done|]. cbn [peek tail]. step_bind. cbn [length] in Hp.
    apply ends_bind; [apply put_conversion_ends|]. intros [ap2 st2]. apply IH. lia.
  - apply ends_bind; [apply put_ends|]. intros st1. apply IH. lia.
Qed.
End endings.

Lemma printed_ends fmt ap : ends (printed fmt ap).
Proof. apply print_loop_ends; [done|lia]. Qed.

(** ** The buffer *)

(** What a buffer holds when as much of [out] as fits in [len] bytes is stored in front. *)
Definition stored (len : Z) (buf out : list Z) : list Z :=
  take (Z.to_nat len) out ++ drop (length (take (Z.to_nat len) out)) buf.

Lemma stored_nil len buf : stored len buf [] = buf.
Proof. unfold stored. by rewrite take_nil. Qed.

Lemma stored_full len buf out c : 0 <= len → len <= zlen out → stored len buf (out ++ [c]) = stored len buf out.
Proof. intros H0 H. unfold stored. by rewrite take_app_le by (unfold zlen in H; lia). Qed.

Lemma stored_write len buf out c :
  zlen out < len → len <= zlen buf →
  wr_range (stored len buf out) (zlen out) [c] = Ok (stored len buf (out ++ [c])).
Proof.
  intros Ho Hl. unfold stored. unfold zlen in Ho, Hl.
  rewrite (take_ge out), (take_ge (out ++ [c])) by (rewrite ?length_app; cbn [length]; lia).
  destruct (drop (length out) buf) as [|x rest] eqn:E.
  { apply (f_equal length) in E. rewrite length_drop in E. cbn in E. lia. }
  rewrite (wr_range_at _ (zlen out) out [x] rest [c]) by done. rewrite <- app_assoc. do 3 f_equal.
  rewrite length_app. cbn [length]. rewrite <- drop_drop, E. done.
Qed.

Lemma vsnprintf_any buf len fmt ap :
  0 <= len <= zlen buf →
  match printed fmt ap with
  | Ok out => mg_vsnprintf buf len fmt ap = Ok (zlen out, stored len buf (out ++ [0]))
  | Fault => mg_vsnprintf buf len fmt ap = Fault
  | Hang => False
  end.
Proof.
  intros Hlen. pose proof (printed_ends fmt ap) as Hend.
  assert (H : related (λ st out, st = (zlen out, stored len buf out))
                (print (put_buf len) fmt ap (0, buf)) (printed fmt ap)).
  { apply print_related; [|by rewrite stored_nil]. intros st out c ->. unfold put_buf.
    destruct (Z.ltb_spec (zlen out) len) as [Ho|Ho].
    - rewrite stored_write by lia. step_bind. cbn. by rewrite zlen_app.
    - step_bind. cbn. rewrite stored_full by lia. by rewrite zlen_app. }
  unfold mg_vsnprintf. destruct (print _ _ _ _) as [st| |], (printed fmt ap) as [out| |]; try done.
  cbn [related] in H. subst st. step_bind. destruct (Z.ltb_spec (zlen out) len) as [Ho|Ho].
  - rewrite stored_write by lia. by step_bind.
  - step_bind. by rewrite stored_full by lia.
Qed.

(** C37: Printing into a buffer of [len] bytes: whatever the format and the arguments, the
    loop ends, nothing is written outside of the [len] bytes, the value returned is the
    length of the whole text, and the buffer holds the text with its zero as far as they
    fit; it goes wrong exactly when the printing without a buffer does, on an argument of
    the wrong type or a string without an end. *)
Theorem vsnprintf_correct buf len fmt ap :
  0 <= len <= zlen buf →
  match printed fmt ap with
  | Ok out => mg_vsnprintf buf len fmt ap = Ok (zlen out, stored len buf (out ++ [0]))
  | Fault => mg_vsnprintf buf len fmt ap = Fault
  | Hang => False
  end.
Proof. apply vsnprintf_any. Qed.

Lemma vsnprintf_text buf len fmt ap out :
  0 <= len <= zlen buf → printed fmt ap = Ok out →
  mg_vsnprintf buf len fmt ap = Ok (zlen out, stored len buf (out ++ [0])).
Proof. intros Hl E. pose proof (vsnprintf_any buf len fmt ap Hl) as H. by rewrite E in H. Qed.

Lemma stored_whole len buf out :
  zlen out < len → take (length out + 1) (stored len buf (out ++ [0])) = out ++ [0].
Proof.
  intros H. unfold stored. unfold zlen in H.
  rewrite (take_ge (out ++ [0]) (Z.to_nat len)) by (rewrite length_app; cbn [length]; lia).
  apply take_app_length'. by rewrite length_app.
Qed.

(** The whole text, with its zero, is in the buffer that is given back. *)
Lemma vasprintf_text buf size fmt ap out :
  0 <= size <= zlen buf → printed fmt ap = Ok out →
  ∃ b, mg_vasprintf buf size fmt ap = Ok (zlen out, b) ∧ take (length out + 1) b = out ++ [0].
Proof.
  intros Hs E. pose proof (zlen_nonneg out) as Hn. unfold mg_vasprintf. rewrite (vsnprintf_text buf size fmt ap out) by done.
  step_bind. destruct (Z.leb_spec size (zlen out)) as [H|H].
  - rewrite (vsnprintf_text _ _ fmt ap out); [|rewrite zeros_length; lia|done].
    eexists. split; [done|]. apply stored_whole. lia.
  - eexists. split; [done|]. apply stored_whole. lia.
Qed.

(** ** Numbers *)

Lemma letters_decimal : ∀ d, 0 <= d < 10 → nth (Z.to_nat d) letters 0 = 48 + d.
Proof. by_table. Qed.

Lemma lld_zero fuel base : lld_digits fuel base 0 = [].
Proof. by destruct fuel. Qed.

Lemma lld_decimal fuel fuel' v acc :
  0 < v < 10 ^ Z.of_nat fuel → v < 2 ^ Z.of_nat fuel' →
  rev (lld_digits fuel 10 v) ++ acc = digits fuel' v acc.
Proof.
  revert fuel' v acc. induction fuel as [|fuel IH]; intros fuel' v acc Hv Hf.
  { change (10 ^ Z.of_nat 0) with 1 in Hv. lia. }
  destruct fuel' as [|fuel']; [change (2 ^ Z.of_nat 0) with 1 in Hf; lia|].
  rewrite Nat2Z.inj_succ, Z.pow_succ_r in Hv, Hf by lia.
  cbn [lld_digits digits]. rewrite (proj2 (Z.eqb_neq v 0)) by lia.
  pose proof (Z.mod_pos_bound v 10 ltac:(lia)). rewrite letters_decimal by done. cbn [rev]. rewrite <- app_assoc.
  destruct (Z.ltb_spec v 10) as [H10|H10].
  - rewrite Z.div_small by lia. by rewrite lld_zero.
  - apply IH; [split; [apply Z.div_str_pos; lia|]|]; apply Z.div_lt_upper_bound; lia.
Qed.

Lemma lld_length m fuel base v : 1 < base → 0 <= v < base ^ Z.of_nat m → (length (lld_digits fuel base v) <= m)%nat.
Proof.
  intros Hb. revert m v. induction fuel as [|fuel IH]; intros m v Hv; cbn [lld_digits length]; [lia|].
  destruct (Z.eqb_spec v 0); [cbn; lia|]. destruct m as [|m]; [change (base ^ Z.of_nat 0) with 1 in Hv; lia|].
  cbn [length]. rewrite Nat2Z.inj_succ, Z.pow_succ_r in Hv by lia.
  assert (length (lld_digits fuel base (v / base)) <= m)%nat; [|lia].
  apply IH. split; [apply Z.div_pos; lia|apply Z.div_lt_upper_bound; lia].
Qed.

(** Printing a number: the decimal text of every value of an [int64_t] but the smallest, and
    what is printed fits the thirty bytes of the caller, in decimal and in hexadecimal. *)
Theorem lld_correct v :
  - 2 ^ 63 < v < 2 ^ 63 →
  mg_lld v true false = common_to_string v ∧ (0 <= v → mg_lld v false false = common_to_string v)
  ∧ ∀ s h, zlen (mg_lld v s h) <= 30.
Proof.
  intros Hv.
  assert (Hd : ∀ n, 0 < n < 2 ^ 63 → rev (lld_digits 64 10 n) = digits (S (Z.to_nat (Z.log2 n))) n []).
  { intros n Hn. rewrite <- (app_nil_r (rev _)). apply lld_decimal; [|apply log2_bound; lia].
    split; [lia|]. assert (2 ^ 63 < 10 ^ Z.of_nat 64) by (by vm_compute). lia. }
  assert (H0 : mg_lld 0 true false = [48] ∧ mg_lld 0 false false = [48]) by (by vm_compute).
  split; [|split].
  - unfold common_to_string, mg_lld. destruct (Z.ltb_spec v 0).
    + cbn [andb]. rewrite (proj2 (Z.eqb_neq v 0)) by lia. rewrite u64_id by lia. cbn [app]. by rewrite Hd by lia.
    + destruct (Z.eq_dec v 0) as [->|Hne]; [by vm_compute|]. cbn [andb app]. rewrite (proj2 (Z.eqb_neq v 0)) by done.
      rewrite u64_id by lia. apply Hd. lia.
  - intros Hp. unfold common_to_string, mg_lld. rewrite (proj2 (Z.ltb_ge v 0)) by done. cbn [andb app].
    destruct (Z.eq_dec v 0) as [->|Hne]; [by vm_compute|]. rewrite (proj2 (Z.eqb_neq v 0)) by done.
    rewrite u64_id by lia. apply Hd. lia.
  - intros s h. unfold mg_lld. set (p := if s && _ then _ else _).
    assert (Hp : (length p.1 <= 1)%nat ∧ 0 <= p.2 < 2 ^ 64).
    { unfold p. destruct (_ && _); cbn [fst snd length]; (split; [lia|]; apply Z.mod_pos_bound; lia). }
    destruct p as [sign w]. cbn [fst snd] in Hp. destruct Hp as [Hs Hw]. set (base := if h then 16 else 10).
    assert (length (lld_digits 64 base w) <= 20)%nat.
    { apply lld_length; [unfold base; destruct h; lia|]. split; [lia|].
      assert (2 ^ 64 <= base ^ Z.of_nat 20) by (unfold base; destruct h; by vm_compute). lia. }
    unfold zlen. destruct (v =? 0); rewrite ?length_app, length_rev; cbn [length]; lia.
Qed.

(** ** The request

    What [mg_ws_connect] does from [mem1] and [mem2] on, for the headers [extra] that come in
    through its own format. *)

Definition request_fmt : list Z :=
  bytes_of "GET %s HTTP/1.1" ++ crlf ++ bytes_of "Upgrade: websocket" ++ crlf
  ++ bytes_of "Host: %.*s" ++ crlf ++ bytes_of "Connection: Upgrade" ++ crlf ++ bytes_of "%.*s"
  ++ bytes_of "Sec-WebSocket-Version: 13" ++ crlf ++ bytes_of "Sec-WebSocket-Key: %s" ++ crlf ++ crlf ++ [0].

Definition print_request (s extra nonce key : list Z) : outcome (list Z) :=
  host ← mg_url_host s;
  r1 ← mg_vasprintf (zeros 128) 128 (bytes_of "%s" ++ [0]) [Ptr (extra ++ [0])];
  let '(n1, buf1) := r1 in
  k ← mg_base64_encode nonce key;
  r2 ← mg_vasprintf (zeros 256) 256 request_fmt
         [Ptr (mg_url_uri s ++ [0]); Int (i32 (zlen host)); Ptr (drop (Z.to_nat (u_host (urlparse s))) (s ++ [0]));
          Int (i32 n1); Ptr buf1; Ptr k.1];
  let '(n2, buf2) := r2 in
  rd_range buf2 0 n2.

(** The format from here on prints [T] in the end. *)
Definition prints (f : list Z) (ap : list va_arg) (out T : list Z) : Prop :=
  ∀ fuel, (length f < fuel)%nat → print_loop (λ out c, Ok (out ++ [c])) fuel f ap out = Ok T.

Definition nonzero (c : Z) : Prop := c ≠ 0.
Definition plain_char (c : Z) : Prop := c ≠ 0 ∧ c ≠ 37.

Lemma prints_end ap out : prints [0] ap out out.
Proof. intros [|fuel] Hf; [cbn in Hf; lia|]. done. Qed.

Lemma prints_text l f ap out T :
  Forall plain_char l → prints f ap (out ++ l) T → prints (l ++ f) ap out T.
Proof.
  intros Hl. revert out. induction Hl as [|c l [H0 H37] _ IH]; intros out Hp; [by rewrite app_nil_r in Hp|].
  intros [|fuel] Hf; [cbn in Hf; lia|]. cbn [app print_loop peek tail]. step_bind.
  rewrite (proj2 (Z.eqb_neq c 0)), (proj2 (Z.eqb_neq c 37)) by done. step_bind.
  apply (IH (out ++ [c])); [by rewrite <- app_assoc|]. cbn in Hf. lia.
Qed.

Lemma strlen_run t rest : Forall nonzero t → strlen (t ++ 0 :: rest) = Ok (zlen t).
Proof.
  induction 1 as [|c t Hc _ IH]; [done|]. cbn [app strlen]. rewrite (proj2 (Z.eqb_neq c 0)) by done.
  step IH. by rewrite zlen_cons, Z.add_comm.
Qed.

Lemma copys_run t rest k out :
  Forall nonzero t → k = zlen t → mg_copys (λ out c, Ok (out ++ [c])) (t ++ rest) k out = Ok (out ++ t).
Proof.
  intros Ht ->. unfold mg_copys. rewrite zlen_app. pose proof (zlen_nonneg rest). rewrite Z.min_l by lia.
  unfold zlen at 1. rewrite Nat2Z.id. revert out. induction Ht as [|c t Hc _ IH]; intros out; [by rewrite app_nil_r|].
  cbn [app length copys_loop]. rewrite (proj2 (Z.eqb_neq c 0)) by done. step_bind. rewrite IH by (len). by rewrite <- app_assoc.
Qed.

(** Without a precision the string ends at its zero. *)
Lemma put_string_run t rest pr out :
  Forall nonzero t → (pr = zlen t ∧ pr ≠ 0) ∨ (pr = 0 ∧ ∃ r, rest = 0 :: r) →
  put_string (λ out c, Ok (out ++ [c])) (mk_conversion false false 32 0 pr 0) (Ptr (t ++ rest)) out = Ok (out ++ t).
Proof.
  intros Ht Hpr. unfold put_string. step_bind. cbn [prec minus pad width].
  assert (E : (if pr =? 0 then strlen (t ++ rest) else Ok pr) = Ok (zlen t)).
  { destruct Hpr as [[-> Hne]|[-> [r ->]]]; [by rewrite (proj2 (Z.eqb_neq _ 0))|by apply strlen_run]. }
  rewrite E. step_bind. unfold padding. pose proof (zlen_nonneg t).
  replace (Z.to_nat (0 - zlen t)) with 0%nat by lia. cbn [put_times]. step_bind.
  rewrite (copys_run t rest) by done. done.
Qed.

(** [%s]. *)
Lemma prints_string t rest f ap out T :
  Forall nonzero t → prints f ap (out ++ t) T → prints (37 :: 115 :: f) (Ptr (t ++ 0 :: rest) :: ap) out T.
Proof.
  intros Ht Hp [|fuel] Hf; [cbn in Hf; lia|]. cbn [print_loop peek tail]. step_bind. cbn [Z.eqb Pos.eqb].
  change (parse_conversion (115 :: f) ?ap) with (Ok (mk_conversion false false 32 0 0 0, (115 :: f, ap))).
  step_bind. cbn [peek tail]. step_bind. unfold put_conversion. cbn [Z.eqb Pos.eqb orb].
  rewrite put_string_run by eauto. step_bind. apply Hp. cbn in Hf. lia.
Qed.

(** [%.*s], which with the length zero is [%s]. *)
Lemma prints_prefix t rest v f ap out T :
  Forall nonzero t → 0 <= v < 2 ^ 31 → (v = zlen t ∧ v ≠ 0) ∨ (v = 0 ∧ ∃ r, rest = 0 :: r) →
  prints f ap (out ++ t) T → prints (37 :: 46 :: 42 :: 115 :: f) (Int v :: Ptr (t ++ rest) :: ap) out T.
Proof.
  intros Ht Hv Hl Hp [|fuel] Hf; [cbn in Hf; lia|]. cbn [print_loop peek tail]. step_bind. cbn [Z.eqb Pos.eqb].
  change (parse_conversion (46 :: 42 :: 115 :: f) (Int v :: ?ap))
    with (Ok (mk_conversion false false 32 0 (u64 v) 0, (115 :: f, ap))).
  step_bind. cbn [peek tail]. step_bind. unfold put_conversion. cbn [Z.eqb Pos.eqb orb].
  rewrite u64_id by lia. rewrite put_string_run by done. step_bind. apply Hp. cbn in Hf. lia.
Qed.

Lemma prints_printed f ap T : prints f ap [] T → printed f ap = Ok T.
Proof. intros H. apply H. lia. Qed.

(** The host begins inside of the URL. *)
Lemma url_host_inside rest i prev u :
  0 <= u_host u <= i → 0 <= i → 0 <= u_host (url_loop rest i prev u) <= i + zlen rest.
Proof.
  revert i prev u. induction rest as [|c rest IH]; intros i prev u Hu Hi; cbn [url_loop]; [cbn; len|].
  specialize (IH (i + 1) c (url_turn i prev c u)). rewrite zlen_cons.
  assert (0 <= u_host (url_turn i prev c u) <= i + 1); [|lia].
  unfold url_turn. repeat case_match; cbn [u_host]; lia.
Qed.

(** The host, as the format prints it. *)
Lemma host_printed s host f ap out T :
  Forall nonzero s → mg_url_host s = Ok host → Forall nonzero host → zlen host < 2 ^ 31 →
  let u := Z.to_nat (u_host (urlparse s)) in
  prints f ap (out ++ print_prefix host (zlen host) (drop u s)) T →
  prints (37 :: 46 :: 42 :: 115 :: f) (Int (i32 (zlen host)) :: Ptr (drop u (s ++ [0])) :: ap) out T.
Proof.
  intros Hs Hh Hhost Hlen. cbv zeta. set (u := Z.to_nat _). intros Hp. pose proof (zlen_nonneg host).
  rewrite i32_id by lia. unfold print_prefix in Hp.
  assert (Hm : ∃ rest, drop u (s ++ [0]) = host ++ rest).
  { unfold mg_url_host, rd_range in Hh. cbv zeta in Hh. destruct (_ && _); [|done]. injection Hh as <-.
    eexists. symmetry. apply take_drop. }
  destruct (Z.eqb_spec (zlen host) 0) as [E0|Hne].
  - assert (u <= length s)%nat.
    { pose proof (url_host_inside s 0 0 (mk_url 0 0 0 0 0 0)) as Hu. fold (urlparse s) in Hu. cbn [u_host] in Hu.
      unfold u, zlen in *. lia. }
    rewrite drop_app_le by done. apply prints_prefix; [by apply Forall_drop|lia| |done]. right. split; [done|by exists []].
  - destruct Hm as [rest ->]. apply prints_prefix; [done|lia| |done]. by left.
Qed.

(** C30: The text [mg_ws_connect] prints into the buffer it sends is the request that
    [ws_request] says, for every URL, every header of the caller that is not empty and every
    nonce: the conversions, their arguments and the two buffers fit together. *)
Theorem request_is_printed s host extra nonce key :
  Forall nonzero s → mg_url_host s = Ok host → Forall nonzero host → zlen host < 2 ^ 31 →
  Forall nonzero extra → extra ≠ [] → zlen extra < 2 ^ 31 →
  is_bytes nonce → zlen (base64 nonce) + 1 <= zlen key →
  print_request s extra nonce key = ws_request s extra nonce key.
Proof.
  intros Hs Hh Hhost Hhl He Hne Hel Hn Hk.
  destruct (encode_reference nonce key Hn Hk) as (R & Ek).
  unfold print_request, ws_request. step Hh.
  assert (E1 : printed (bytes_of "%s" ++ [0]) [Ptr (extra ++ [0])] = Ok extra).
  { apply prints_printed. change (bytes_of "%s" ++ [0]) with (37 :: 115 :: [0]). apply prints_string; [done|].
    apply prints_end. }
  destruct (vasprintf_text (zeros 128) 128 _ _ extra ltac:(by vm_compute) E1) as (buf1 & B1 & B2). step B1. step Ek.
  cbn [fst snd]. rewrite (i32_id (zlen extra)) by (pose proof (zlen_nonneg extra); lia).
  assert (Eb : ∃ rest, buf1 = extra ++ 0 :: rest).
  { exists (drop (length extra + 1) buf1). rewrite (cons_middle 0 extra), app_assoc, <- B2. by rewrite take_drop. }
  destruct Eb as [rest ->].
  set (u := drop (Z.to_nat (u_host (urlparse s))) s).
  match goal with |- _ = Ok ?T => set (T0 := T) end.
  assert (E2 : printed request_fmt
    [Ptr (mg_url_uri s ++ [0]); Int (i32 (zlen host)); Ptr (drop (Z.to_nat (u_host (urlparse s))) (s ++ [0]));
     Int (zlen extra); Ptr (extra ++ 0 :: rest); Ptr (base64 nonce ++ 0 :: R)] = Ok T0).
  { apply prints_printed. change request_fmt with
      (bytes_of "GET " ++ 37 :: 115 ::
       (bytes_of " HTTP/1.1" ++ crlf ++ bytes_of "Upgrade: websocket" ++ crlf ++ bytes_of "Host: ") ++
       37 :: 46 :: 42 :: 115 :: (crlf ++ bytes_of "Connection: Upgrade" ++ crlf) ++ 37 :: 46 :: 42 :: 115 ::
       (bytes_of "Sec-WebSocket-Version: 13" ++ crlf ++ bytes_of "Sec-WebSocket-Key: ") ++ 37 :: 115 ::
       (crlf ++ crlf) ++ [0]).
    apply prints_text; [unfold plain_char; by_table|]. apply prints_string.
    { unfold mg_url_uri. destruct (negb _); [by apply Forall_drop|by repeat constructor]. }
    apply prints_text; [unfold plain_char; by_table|]. apply host_printed; [done..|].
    apply prints_text; [unfold plain_char; by_table|]. apply prints_prefix; [done| |left; split; [done|]|].
    { pose proof (zlen_nonneg extra). lia. }
    { destruct extra; [done|len]. }
    apply prints_text; [unfold plain_char; by_table|]. apply prints_string.
    { eapply Forall_impl; [by apply base64_clean|]. cbn. unfold nonzero. lia. }
    apply prints_text; [unfold plain_char; by_table|].
    match goal with |- prints _ _ ?out _ => replace T0 with out; [apply prints_end|] end.
    unfold T0, zlen. rewrite Nat2Z.id, take_app_length, <- !app_assoc. done. }
  destruct (vasprintf_text (zeros 256) 256 _ _ T0 ltac:(by vm_compute) E2) as (buf2 & C1 & C2). step C1.
  rewrite <- (take_drop (length T0 + 1) buf2), C2, <- app_assoc. apply (rd_range_app [] T0).
Qed.

Lemma vsnprintf_correct_witness :
  mg_vsnprintf (zeros 6) 4 (bytes_of "%d-%s" ++ [0]) [Int 42; Ptr (bytes_of "abc" ++ [0])]
  = Ok (6, bytes_of "42-a" ++ [0; 0]).
Proof.
  assert (Hl : 0 <= 4 <= zlen (zeros 6)) by (rewrite zeros_length; lia).
  assert (E : printed (bytes_of "%d-%s" ++ [0]) [Int 42; Ptr (bytes_of "abc" ++ [0])] = Ok (bytes_of "42-abc"))
    by (vm_compute; reflexivity).
  pose proof (vsnprintf_correct _ _ (bytes_of "%d-%s" ++ [0]) [Int 42; Ptr (bytes_of "abc" ++ [0])] Hl) as H.
  rewrite E in H. rewrite H. vm_compute. reflexivity.
Defined.

Lemma request_is_printed_witness :
  print_request (bytes_of "ws://host:80/chat") (bytes_of "A: b" ++ crlf) (bytes_of "0123456789abcdef") (zeros 30)
  = ws_request (bytes_of "ws://host:80/chat") (bytes_of "A: b" ++ crlf) (bytes_of "0123456789abcdef") (zeros 30).
Proof.
  apply (request_is_printed _ (bytes_of "host")); [unfold nonzero; by_table|by vm_compute|unfold nonzero; by_table|
    by vm_compute|unfold nonzero; by_table|discriminate|by vm_compute|unfold is_bytes; by_table|by vm_compute].
Defined.
