(* ===== verification/MgHttp.v ===== *)
(** * MgHttp: the head of an HTTP message

    Models [skip], [mg_http_parse], [mg_http_parse_headers] and [mg_http_get_header] of
    [src/websocket/mongoose.cpp], with the functions on strings they use ([mg_lower],
    [mg_ncasecmp], [mg_vcasecmp], [mg_to64]).  [mg_ws_cb] runs them on the answer of the
    server; the other end of the library runs them on the request of the client.  A [char *]
    is an offset into the buffer, a [struct mg_str] an offset and a length; the parser reads
    only the bytes received, and [Fault] is a read behind them. *)

From S2P Require Import Prelude.
From S2P Require Import Utils.
From S2P Require Import MgIobuf.
From S2P Require Import MgWebsocket.
From S2P Require Import MgBase64.
From S2P Require Import LiveMeetingRoom.
From S2P Require Import MgConnect.

(** ** Strings *)

(** A [char] is signed. *)
Definition schar (c : Z) : Z := if c <? 128 then c else c - 256.

Definition mg_lower (c : Z) : Z :=
  let c := schar c in if (65 <=? c) && (c <=? 90) then c + 32 else c.

(** The first string is at [p1] in the buffer, the second a C string, from [p2] on. *)
Fixpoint mg_ncasecmp (len : nat) (b1 : list Z) (p1 : Z) (s2 : list Z) (p2 : Z) : outcome Z :=
  match len with
  | O => Ok 0
  | S len =>
      c1 ← rd b1 p1;
      c2 ← rd (s2 ++ [0]) p2;
      let diff := mg_lower c1 - mg_lower c2 in
      if (diff =? 0) && negb (c1 =? 0) then mg_ncasecmp len b1 (p1 + 1) s2 (p2 + 1) else Ok diff
  end.

Record mg_str := mk_str {
  ptr : Z;
  str_len : Z;
}.

#[global] Instance mg_str_eq_dec : EqDecision mg_str.
Proof. solve_decision. Defined.

Definition mg_vcasecmp (b : list Z) (str1 : mg_str) (str2 : list Z) : outcome Z :=
  let n2 := zlen str2 in
  let n1 := str_len str1 in
  r ← mg_ncasecmp (Z.to_nat (if n1 <? n2 then n1 else n2)) b (ptr str1) str2 0;
  Ok (if r =? 0 then i32 (n1 - n2) else r).

(** The digits at the front, from [result] on; [None] is the early [return 0]. *)
Fixpoint to64_digits (l : list Z) (result : Z) : option Z :=
  match l with
  | c :: l =>
      if (48 <=? c) && (c <=? 57)
      then if 922337203685477570 <? result then None else to64_digits l (result * 10 + (c - 48))
      else Some result
  | [] => Some result
  end.

Fixpoint skip_blanks (l : list Z) : list Z :=
  match l with
  | c :: l' => if (c =? 32) || (c =? 9) then skip_blanks l' else l
  | [] => []
  end.

(** On the bytes of the string. *)
Definition mg_to64 (l : list Z) : Z :=
  let l := skip_blanks l in
  let '(neg, l) := match l with c :: l' => if c =? 45 then (-1, l') else (1, l) | [] => (1, l) end in
  match to64_digits l 0 with Some result => result * neg | None => 0 end.

(** ** The parser *)

(** [strchr(d, c) != NULL]: the zero at the end of [d] counts. *)
Definition strchr (d : list Z) (c : Z) : bool := (c =? 0) || bool_decide (c ∈ d).

(** Forward from [s] while the byte there satisfies [p], at most to [e]; [n] is [e - s]. *)
Fixpoint advance (n : nat) (b : list Z) (s : Z) (p : Z → bool) : outcome Z :=
  match n with
  | O => Ok s
  | S n => c ← rd b s; if p c then advance n b (s + 1) p else Ok s
  end.

Definition skip (b : list Z) (s e : Z) (d : list Z) : outcome (mg_str * Z) :=
  s1 ← advance (Z.to_nat (e - s)) b s (λ c, negb (c =? 10) && negb (strchr d c));
  s2 ← advance (Z.to_nat (e - s1)) b s1 (strchr d);
  Ok (mk_str s (s1 - s), s2).

(** [while (v.len > 0 && v.ptr[v.len - 1] == ' ') v.len--]. *)
Fixpoint trim_spaces (n : nat) (b : list Z) (p : Z) : outcome Z :=
  match n with
  | O => Ok 0
  | S m => c ← rd b (p + Z.of_nat m); if c =? 32 then trim_spaces m b p else Ok (Z.of_nat n)
  end.

Definition MG_MAX_HTTP_HEADERS : nat := 40.

Definition header : Type := mg_str * mg_str.

Definition no_str : mg_str := mk_str 0 0.

(** The turns that are left, [n] of them, and what they put into the array. *)
Fixpoint mg_http_parse_headers (n : nat) (b : list Z) (s e : Z) : outcome (list header) :=
  match n with
  | O => Ok []
  | S n =>
      r ← skip b s e [10]; let '(tmp, he) := r in
      r ← skip b s he [58; 32; 13; 10]; let '(k, s) := r in
      r ← skip b s he [13; 10]; let '(v, s) := r in
      if str_len k =? str_len tmp then
        rest ← mg_http_parse_headers n b s e; Ok ((no_str, no_str) :: rest)
      else
        l ← trim_spaces (Z.to_nat (str_len v)) b (ptr v);
        if str_len k =? 0 then Ok (replicate (S n) (no_str, no_str))
        else rest ← mg_http_parse_headers n b s e; Ok ((k, mk_str (ptr v) l) :: rest)
  end.

Record mg_http_message := mk_http {
  method : mg_str;
  uri : mg_str;
  query : mg_str;
  proto : mg_str;
  headers : list header;
  body : mg_str;
  head : mg_str;
  chunk : mg_str;
  message : mg_str;
}.

(** The first header of this name before one without a name. *)
Fixpoint get_header_loop (b : list Z) (hs : list header) (name : list Z) : outcome (option mg_str) :=
  match hs with
  | [] => Ok None
  | (k, v) :: hs =>
      if 0 <? str_len k then
        same ← (if zlen name =? str_len k
                then r ← mg_ncasecmp (length name) b (ptr k) name 0; Ok (r =? 0) else Ok false);
        if (same : bool) then Ok (Some v) else get_header_loop b hs name
      else Ok None
  end.

Definition mg_http_get_header (b : list Z) (hm : mg_http_message) (name : list Z) : outcome (option mg_str) :=
  get_header_loop b (headers hm) name.

(** [memchr(p, c, n)]. *)
Fixpoint memchr (n : nat) (b : list Z) (p c : Z) : outcome (option Z) :=
  match n with
  | O => Ok None
  | S n => x ← rd b p; if x =? c then Ok (Some p) else memchr n b (p + 1) c
  end.

Definition INFINITE : Z := 2 ^ 64 - 1.

Definition set_body (hm : mg_http_message) (b m : Z) : mg_http_message :=
  mk_http (method hm) (uri hm) (query hm) (proto hm) (headers hm)
    (mk_str (ptr (body hm)) b) (head hm) (chunk hm) (mk_str (ptr (message hm)) m).

(** How long the body is. *)
Definition body_length (b : list Z) (req_len : Z) (hm : mg_http_message) : outcome mg_http_message :=
  cl ← mg_http_get_header b hm (bytes_of "Content-Length");
  hm ← match cl with
       | Some v =>
           digits ← rd_range b (ptr v) (str_len v);
           let n := u64 (mg_to64 digits) in Ok (set_body hm n (u64 (req_len + n)))
       | None => Ok hm
       end;
  is_response ← mg_ncasecmp 5 b (ptr (method hm)) (bytes_of "HTTP/") 0;
  let is_response := is_response =? 0 in
  hm ← (if (str_len (body hm) =? INFINITE) && negb is_response then
          put ← mg_vcasecmp b (method hm) (bytes_of "PUT");
          post ← (if put =? 0 then Ok 0 else mg_vcasecmp b (method hm) (bytes_of "POST"));
          Ok (if post =? 0 then hm else set_body hm 0 req_len)
        else Ok hm);
  (if (str_len (body hm) =? INFINITE) && is_response then
     nc ← mg_vcasecmp b (uri hm) (bytes_of "204");
     Ok (if nc =? 0 then set_body hm 0 req_len else hm)
   else Ok hm).

(** What the call returns, and the message if it is complete. *)
Definition mg_http_parse (b : list Z) : outcome (Z * option mg_http_message) :=
  let req_len := mg_http_get_request_len b in
  if req_len <=? 0 then Ok (req_len, None) else
  let e := req_len in
  r ← skip b 0 e [32]; let '(method, s) := r in
  r ← skip b s e [32]; let '(uri, s) := r in
  r ← skip b s e [13; 10]; let '(proto, s) := r in
  if (str_len method =? 0) || (str_len uri =? 0) then Ok (-1, None) else
  qs ← memchr (Z.to_nat (str_len uri)) b (ptr uri) 63;
  let '(uri, query) :=
    match qs with
    | Some qs => (mk_str (ptr uri) (qs - ptr uri), mk_str (qs + 1) (ptr uri + str_len uri - (qs + 1)))
    | None => (uri, no_str)
    end in
  hs ← mg_http_parse_headers MG_MAX_HTTP_HEADERS b s e;
  hm ← body_length b req_len
         (mk_http method uri query proto hs (mk_str e INFINITE) (mk_str 0 req_len) (mk_str e 0) (mk_str 0 INFINITE));
  Ok (req_len, Some hm).

(** ** Whatever the bytes are *)

(** A string in the first [e] bytes of the buffer. *)
Definition inside (e : Z) (v : mg_str) : Prop := 0 <= ptr v ∧ 0 <= str_len v ∧ ptr v + str_len v <= e.

Lemma inside_no_str e : 0 <= e → inside e no_str.
Proof. unfold inside. cbn. lia. Qed.

Section any_bytes.
Context (b : list Z).

Lemma advance_any p n s :
  0 <= s → s + Z.of_nat n <= zlen b → ∃ s', advance n b s p = Ok s' ∧ s <= s' <= s + Z.of_nat n.
Proof.
  revert s. induction n as [|n IH]; intros s Hs Hn; cbn [advance]; [exists s; split; [done|lia]|].
  destruct (rd_in_range b s) as (c & Ec & _); [lia|]. step Ec. destruct (p c).
  - destruct (IH (s + 1)) as (s' & -> & Hs'); [lia..|]. exists s'. split; [done|lia].
  - exists s. split; [done|lia].
Qed.

Lemma skip_any d s e :
  0 <= s <= e → e <= zlen b →
  ∃ v s', skip b s e d = Ok (v, s') ∧ ptr v = s ∧ inside e v ∧ s + str_len v <= s' <= e.
Proof.
  intros Hs He. unfold skip.
  destruct (advance_any (λ c, negb (c =? 10) && negb (strchr d c)) (Z.to_nat (e - s)) s) as (s1 & E1 & H1);
    [lia..|]. step E1.
  destruct (advance_any (strchr d) (Z.to_nat (e - s1)) s1) as (s2 & E2 & H2); [lia..|]. step E2.
  exists (mk_str s (s1 - s)), s2. unfold inside. cbn. split_and!; [done..|lia|lia|lia|lia|lia].
Qed.

Lemma trim_spaces_any n p :
  0 <= p → p + Z.of_nat n <= zlen b → ∃ l, trim_spaces n b p = Ok l ∧ 0 <= l <= Z.of_nat n.
Proof.
  intros Hp. induction n as [|n IH]; intros Hn; cbn [trim_spaces]; [by exists 0|].
  destruct (rd_in_range b (p + Z.of_nat n)) as (c & Ec & _); [lia|]. step Ec.
  destruct (c =? 32); [|eexists; split; [done|lia]].
  destruct IH as (l & E & Hl); [lia|]. exists l. split; [done|lia].
Qed.

Lemma memchr_any n p c :
  0 <= p → p + Z.of_nat n <= zlen b →
  ∃ r, memchr n b p c = Ok r ∧ match r with Some q => p <= q < p + Z.of_nat n | None => True end.
Proof.
  revert p. induction n as [|n IH]; intros p Hp Hn; cbn [memchr]; [by exists None|].
  destruct (rd_in_range b p) as (x & Ex & _); [lia|]. step Ex. destruct (x =? c).
  - exists (Some p). split; [done|lia].
  - destruct (IH (p + 1)) as (r & -> & Hr); [lia..|]. exists r. split; [done|]. destruct r; lia.
Qed.

(** The strings of a header. *)
Definition header_inside (e : Z) (h : header) : Prop := inside e h.1 ∧ inside e h.2.

Lemma parse_headers_any n s e :
  0 <= s <= e → e <= zlen b →
  ∃ hs, mg_http_parse_headers n b s e = Ok hs ∧ length hs = n ∧ Forall (header_inside e) hs.
Proof.
  revert s. induction n as [|n IH]; intros s Hs He; cbn [mg_http_parse_headers]; [by exists []|].
  assert (Hno : header_inside e (no_str, no_str)) by (split; apply inside_no_str; lia).
  destruct (skip_any [10] s e) as (tmp & he & E1 & P1 & I1 & H1); [lia..|]. step E1.
  unfold inside in *.
  destruct (skip_any [58; 32; 13; 10] s he) as (k & s1 & E2 & P2 & I2 & H2); [lia..|]. step E2.
  destruct (skip_any [13; 10] s1 he) as (v & s2 & E3 & P3 & I3 & H3); [unfold inside in *; lia..|]. step E3.
  destruct (IH s2) as (hs & E4 & L4 & F4); [unfold inside in *; lia..|].
  destruct (str_len k =? str_len tmp).
  { step E4. exists ((no_str, no_str) :: hs). cbn [length]. split; [done|]. split; [by rewrite L4|by constructor]. }
  destruct (trim_spaces_any (Z.to_nat (str_len v)) (ptr v)) as (l & E5 & H5); [unfold inside in *; lia..|]. step E5.
  destruct (str_len k =? 0).
  { exists (replicate (S n) (no_str, no_str)). rewrite length_replicate. split; [done|]. split; [done|].
    by apply Forall_replicate. }
  step E4. eexists. split; [done|]. cbn [length]. split; [by rewrite L4|]. constructor; [|done].
  unfold header_inside, inside in *. cbn. lia.
Qed.

(** A comparison stays inside the shorter string. *)
Lemma ncasecmp_any n p s2 p2 :
  0 <= p → p + Z.of_nat n <= zlen b → 0 <= p2 → p2 + Z.of_nat n <= zlen s2 + 1 →
  ∃ d, mg_ncasecmp n b p s2 p2 = Ok d.
Proof.
  revert p p2. induction n as [|n IH]; intros p p2 Hp Hn Hp2 Hn2; cbn [mg_ncasecmp]; [by eexists|].
  destruct (rd_in_range b p) as (c1 & E1 & _); [lia|]. step E1.
  destruct (rd_in_range (s2 ++ [0]) p2) as (c2 & E2 & _); [len|]. step E2.
  destruct (_ && _); [apply IH; lia|by eexists].
Qed.

(** It stops at a newline, if the other string has none. *)
Lemma ncasecmp_newline n p s2 p2 j :
  0 <= p <= j → rd b j = Ok 10 → Forall (λ c, 32 <= c < 128) s2 → 0 <= p2 → p2 + Z.of_nat n <= zlen s2 →
  ∃ d, mg_ncasecmp n b p s2 p2 = Ok d.
Proof.
  intros Hp Hj Hs2. revert p p2 Hp. induction n as [|n IH]; intros p p2 Hp Hp2 Hn; cbn [mg_ncasecmp]; [by eexists|].
  apply rd_ok_range in Hj as Hr. destruct (rd_in_range b p) as (c1 & E1 & _); [lia|]. step E1.
  destruct (rd_in_range s2 p2) as (c2 & E2 & Hin); [lia|]. rewrite rd_app_l by lia. step E2.
  destruct (_ && _) eqn:Et; [|by eexists]. apply andb_true_iff in Et as [Et _]. apply IH; [|lia..].
  destruct (decide (p = j)) as [->|]; [|lia]. rewrite Hj in E1. injection E1 as <-.
  rewrite Forall_forall in Hs2. specialize (Hs2 _ ltac:(by apply list_elem_of_In, Hin)) || specialize (Hs2 _ Hin). exfalso. apply Z.eqb_eq in Et.
  revert Et. change (mg_lower 10) with 10. unfold mg_lower, schar.
  rewrite (proj2 (Z.ltb_lt c2 128)) by lia. destruct (_ && _); lia.
Qed.

Lemma vcasecmp_any v s :
  inside (zlen b) v → ∃ d, mg_vcasecmp b v s = Ok d.
Proof.
  intros (H1 & H2 & H3). unfold mg_vcasecmp. pose proof (zlen_nonneg s).
  destruct (ncasecmp_any (Z.to_nat (if str_len v <? zlen s then str_len v else zlen s)) (ptr v) s 0)
    as (d & E); [lia|destruct (Z.ltb_spec (str_len v) (zlen s)); lia..|].
  step E. by eexists.
Qed.

Lemma get_header_any hs e name :
  Forall (header_inside e) hs → e <= zlen b →
  ∃ r, get_header_loop b hs name = Ok r ∧ match r with Some v => inside e v | None => True end.
Proof.
  intros Hhs He. induction Hhs as [|[k v] hs [Hk Hv] _ IH]; cbn [get_header_loop]; [by exists None|].
  destruct (0 <? str_len k); [|by exists None]. cbn [fst snd] in *.
  destruct (Z.eqb_spec (zlen name) (str_len k)) as [En|]; [|exact IH].
  destruct (ncasecmp_any (length name) (ptr k) name 0) as (d & E); [unfold inside, zlen in *; lia..|].
  step E. destruct (d =? 0); [by exists (Some v)|exact IH].
Qed.
End any_bytes.

Lemma request_len_last b i b1 b2 :
  0 <= i → 0 < request_len_loop b i b1 b2 →
  i < request_len_loop b i b1 b2 ∧ rd b (request_len_loop b i b1 b2 - 1 - i) = Ok 10.
Proof.
  revert i b1 b2. induction b as [|x b IH]; intros i b1 b2 Hi; cbn [request_len_loop]; [lia|].
  destruct (negb (isok x)); [lia|]. destruct (_ || _) eqn:E.
  - intros _. split; [lia|]. replace (i + 1 - 1 - i) with 0 by lia. rewrite rd_cons_0. f_equal.
    apply orb_true_iff in E as [[[_ E]%andb_true_iff _]%andb_true_iff|[[[_ E]%andb_true_iff _]%andb_true_iff _]%andb_true_iff];
      by apply Z.eqb_eq in E.
  - intros H. destruct (IH (i + 1) x b1) as [H1 H2]; [lia|done|]. split; [lia|].
    rewrite rd_cons_S by lia. rewrite <- H2. f_equal. lia.
Qed.

(** Where a message lies that was parsed from the first [e] bytes. *)
Record parsed (e : Z) (hm : mg_http_message) : Prop := {
  parsed_method : inside e (method hm) ∧ 0 < str_len (method hm) ∧ ptr (method hm) = 0;
  parsed_uri : inside e (uri hm);
  parsed_query : inside e (query hm);
  parsed_proto : inside e (proto hm);
  parsed_headers : length (headers hm) = MG_MAX_HTTP_HEADERS ∧ Forall (header_inside e) (headers hm);
}.

Lemma set_body_parsed e hm x y : parsed e hm → parsed e (set_body hm x y).
Proof. intros [? ? ? ? ?]. by split. Qed.

Lemma body_length_any b e hm :
  parsed e hm → e <= zlen b → rd b (e - 1) = Ok 10 →
  ∃ hm', body_length b e hm = Ok hm' ∧ parsed e hm'.
Proof.
  intros Hp He Hnl. unfold body_length, mg_http_get_header.
  destruct (get_header_any b (headers hm) e (bytes_of "Content-Length")) as (cl & E1 & Hcl);
    [apply Hp|done|]. step E1.
  assert (H1 : ∃ hm1, (match cl with
      | Some v => digits ← rd_range b (ptr v) (str_len v);
                  Ok (set_body hm (u64 (mg_to64 digits)) (u64 (e + u64 (mg_to64 digits))))
      | None => Ok hm end) = Ok hm1 ∧ parsed e hm1).
  { destruct cl as [v|]; [|by exists hm]. unfold inside in Hcl. rewrite rd_range_in by lia. step_bind.
    eexists. split; [done|]. by apply set_body_parsed. }
  destruct H1 as (hm1 & E2 & Hp1). step E2. destruct (parsed_method _ _ Hp1) as ([M1 [M2 M3]] & M4 & M5).
  destruct (ncasecmp_newline b 5 (ptr (method hm1)) (bytes_of "HTTP/") 0 (e - 1)) as (d & E3);
    [lia|done|by_table|lia|by vm_compute|]. step E3.
  assert (Hin : ∀ v, inside e v → inside (zlen b) v) by (unfold inside; lia).
  destruct (vcasecmp_any b (method hm1) (bytes_of "PUT")) as (put & E4); [apply Hin, Hp1|].
  destruct (vcasecmp_any b (method hm1) (bytes_of "POST")) as (post & E5); [apply Hin, Hp1|].
  assert (H2 : ∃ hm2, (if (str_len (body hm1) =? INFINITE) && negb (d =? 0) then
          put ← mg_vcasecmp b (method hm1) (bytes_of "PUT");
          post ← (if put =? 0 then Ok 0 else mg_vcasecmp b (method hm1) (bytes_of "POST"));
          Ok (if post =? 0 then hm1 else set_body hm1 0 e) else Ok hm1) = Ok hm2
      ∧ parsed e hm2).
  { destruct (_ && _); [|by exists hm1]. step E4.
    destruct (put =? 0); [step_bind; by exists hm1|]. step E5.
    eexists. split; [done|]. destruct (post =? 0); [done|by apply set_body_parsed]. }
  destruct H2 as (hm2 & E6 & Hp2). step E6.
  destruct (vcasecmp_any b (uri hm2) (bytes_of "204")) as (nc & E7); [apply Hin, Hp2|].
  clear E6. destruct (_ && _); [|exists hm2; split; [done|exact Hp2]]. step E7. eexists. split; [done|].
  destruct (nc =? 0); [by apply set_body_parsed|exact Hp2].
Qed.

Lemma http_parse_any b name :
  ∃ n r, mg_http_parse b = Ok (n, r)
    ∧ match r with
      | Some hm => 0 < n <= zlen b ∧ parsed n hm
          ∧ ∃ v, mg_http_get_header b hm name = Ok v
                 ∧ match v with Some v => inside n v | None => True end
      | None => n <= 0
      end.
Proof.
  unfold mg_http_parse. set (e := mg_http_get_request_len b). destruct (Z.leb_spec e 0) as [|He].
  { by exists e, None. }
  assert (Hb : e <= zlen b) by (pose proof (request_len_bound b 0 0 0 ltac:(lia)); unfold e, mg_http_get_request_len; lia).
  destruct (request_len_last b 0 0 0) as [_ Hnl]; [lia|done|]. rewrite Z.sub_0_r in Hnl. fold e in Hnl.
  destruct (skip_any b [32] 0 e) as (m & s1 & E1 & P1 & I1 & H1); [lia..|]. step E1.
  destruct (skip_any b [32] s1 e) as (u & s2 & E2 & P2 & I2 & H2); [unfold inside in *; lia..|]. step E2.
  destruct (skip_any b [13; 10] s2 e) as (p & s3 & E3 & P3 & I3 & H3); [unfold inside in *; lia..|]. step E3.
  destruct (Z.eqb_spec (str_len m) 0) as [|Hm]; cbn [orb]; [by eexists _, None|].
  destruct (Z.eqb_spec (str_len u) 0) as [|Hu]; [by eexists _, None|].
  destruct (memchr_any b (Z.to_nat (str_len u)) (ptr u) 63) as (qs & E4 & Hqs); [unfold inside in *; lia..|]. step E4.
  set (uq := match qs with Some _ => _ | None => _ end).
  assert (Huq : inside e uq.1 ∧ inside e uq.2).
  { unfold uq. destruct qs; unfold inside in *; cbn; lia. }
  clearbody uq. destruct uq as [u' q']. cbn [fst snd] in Huq.
  destruct (parse_headers_any b MG_MAX_HTTP_HEADERS s3 e) as (hs & E5 & L5 & F5); [unfold inside in *; lia..|]. step E5.
  set (hm0 := mk_http _ _ _ _ _ _ _ _ _).
  assert (Hp0 : parsed e hm0) by (split; cbn; unfold inside in *; try done; (split; [done|lia]) || lia || tauto).
  destruct (body_length_any b e hm0 Hp0 Hb Hnl) as (hm & E6 & Hp). step E6.
  exists e, (Some hm). split; [done|]. split; [done|]. split; [done|].
  apply get_header_any; [apply Hp|done].
Qed.

(** C20: The head of a message is parsed inside the bytes received, whatever they are: the
    parser and the search for a header come to their end, read nothing behind the blank
    line that ends the head, and every string of the result lies in front of it. *)
Theorem http_parse_safe b name :
  ∃ n r, mg_http_parse b = Ok (n, r)
    ∧ match r with
      | Some hm => 0 < n <= zlen b ∧ parsed n hm
          ∧ ∃ v, mg_http_get_header b hm name = Ok v
                 ∧ match v with Some v => inside n v | None => True end
      | None => n <= 0
      end.
Proof. apply http_parse_any. Qed.

(** ** A head that is well formed *)

(** The bytes a string stands for. *)
Definition text (b : list Z) (v : mg_str) : list Z := take (Z.to_nat (str_len v)) (drop (Z.to_nat (ptr v)) b).

Lemma text_at pre w rest : text (pre ++ w ++ rest) (mk_str (zlen pre) (zlen w)) = w.
Proof. unfold text, zlen. cbn. by rewrite !Nat2Z.id, drop_app_length, take_app_length. Qed.

Lemma advance_run p pre w rest n :
  Forall (λ c, p c = true) w →
  n = length w ∨ ((length w <= n)%nat ∧ ∃ c t, rest = c :: t ∧ p c = false) →
  advance n (pre ++ w ++ rest) (zlen pre) p = Ok (zlen pre + zlen w).
Proof.
  intros Hw. revert pre n. induction Hw as [|c w Hc _ IH]; intros pre n Hn.
  - rewrite zlen_nil, Z.add_0_r. destruct Hn as [->|(Hn & c & t & -> & Hc)]; [done|].
    destruct n as [|n]; [done|]. cbn [advance]. rewrite rd_app_r by lia. rewrite Z.sub_diag.
    cbn [app]. step rd_cons_0. by rewrite Hc.
  - destruct n as [|n]; [cbn [length] in Hn; lia|]. cbn [advance]. rewrite rd_app_r by lia.
    rewrite Z.sub_diag. cbn [app]. step rd_cons_0. rewrite Hc.
    replace (pre ++ c :: w ++ rest) with ((pre ++ [c]) ++ w ++ rest) by (by rewrite <- app_assoc).
    replace (zlen pre + 1) with (zlen (pre ++ [c])) by len. rewrite IH; [f_equal; len|].
    cbn [length] in Hn. destruct Hn as [Hn|[Hn ?]]; [left; lia|right; split; [lia|done]].
Qed.

(** A word, and the separators behind it, up to the end [e] or to what stops them. *)
Lemma skip_run pre w seps rest d e :
  Forall (λ c, c ≠ 10 ∧ strchr d c = false) w → Forall (λ c, strchr d c = true) seps →
  zlen (pre ++ w ++ seps) <= e →
  e = zlen (pre ++ w) ∨ (∃ c t, seps ++ rest = c :: t ∧ (c = 10 ∨ strchr d c = true)) →
  e = zlen (pre ++ w ++ seps) ∨ (∃ c t, rest = c :: t ∧ strchr d c = false) →
  skip (pre ++ w ++ seps ++ rest) (zlen pre) e d
  = Ok (mk_str (zlen pre) (zlen w), zlen pre + zlen w + zlen seps).
Proof.
  intros Hw Hs He H1 H2. unfold skip.
  assert (E1 : advance (Z.to_nat (e - zlen pre)) (pre ++ w ++ seps ++ rest) (zlen pre)
      (λ c, negb (c =? 10) && negb (strchr d c)) = Ok (zlen pre + zlen w)).
  { apply advance_run.
    - eapply Forall_impl; [exact Hw|]. intros c [Hc1 Hc2]. cbn. by rewrite (proj2 (Z.eqb_neq c 10)), Hc2.
    - rewrite !zlen_app in *. destruct H1 as [H1|(c & t & Ec & Hc)]; [left; unfold zlen in *; lia|].
      right. split; [unfold zlen in *; lia|]. exists c, t. split; [done|].
      destruct Hc as [->|Hc]; [done|]. by rewrite Hc, andb_false_r. }
  step E1. rewrite <- zlen_app, (app_assoc pre w).
  rewrite advance_run; [step_bind; do 2 f_equal; f_equal; len|done|].
  rewrite !zlen_app in *. destruct H2 as [H2|H2]; [left; unfold zlen in *; lia|].
  right. split; [unfold zlen in *; lia|done].
Qed.

Definition name_ok (n : list Z) : Prop := n ≠ [] ∧ Forall (λ c, 32 < c ∧ c ≠ 58) n.

Definition value_ok (v : list Z) : Prop :=
  Forall (λ c, 32 <= c) v ∧ (∃ c l, v = c :: l ∧ c ≠ 32 ∧ c ≠ 58) ∧ (∃ l c, v = l ++ [c] ∧ c ≠ 32).

Definition line_of (h : list Z * list Z) : list Z := h.1 ++ [58; 32] ++ h.2.

Lemma trim_spaces_run pre l c rest :
  c ≠ 32 → trim_spaces (length (l ++ [c])) (pre ++ (l ++ [c]) ++ rest) (zlen pre) = Ok (zlen (l ++ [c])).
Proof.
  intros Hc. rewrite length_app. cbn [length]. rewrite Nat.add_1_r. cbn [trim_spaces].
  replace (pre ++ (l ++ [c]) ++ rest) with ((pre ++ l) ++ c :: rest) by (by rewrite <- !app_assoc).
  replace (zlen pre + Z.of_nat (length l)) with (zlen (pre ++ l)) by (rewrite zlen_app; done).
  rewrite rd_app_r, Z.sub_diag by lia. step rd_cons_0. rewrite (proj2 (Z.eqb_neq c 32)) by done.
  f_equal. unfold zlen. rewrite length_app. cbn. lia.
Qed.

(** A byte that does not end a word. *)
Ltac no_sep :=
  unfold strchr; rewrite (proj2 (Z.eqb_neq _ 0)) by lia; rewrite bool_decide_eq_false_2; [done|];
  rewrite ?elem_of_cons; intros ?; repeat match goal with
  | H : _ ∨ _ |- _ => destruct H
  | H : _ ∈ [] |- _ => by apply not_elem_of_nil in H
  end; lia.

Lemma no_sep_name k : Forall (λ c, 32 < c ∧ c ≠ 58) k → Forall (λ c, c ≠ 10 ∧ strchr [58; 32; 13; 10] c = false) k.
Proof. intros Hk. eapply Forall_impl; [exact Hk|]. intros x Hx. cbn in Hx. split; [lia|no_sep]. Qed.

Lemma no_sep_value v : Forall (λ c, 32 <= c) v → Forall (λ c, c ≠ 10 ∧ strchr [13; 10] c = false) v.
Proof. intros Hv. eapply Forall_impl; [exact Hv|]. intros x Hx. cbn in Hx. split; [lia|no_sep]. Qed.

Lemma no_sep_line l : Forall (λ c, 32 <= c) l → Forall (λ c, c ≠ 10 ∧ strchr [10] c = false) (l ++ [13]).
Proof.
  intros Hl. apply Forall_app. split; [|by repeat constructor].
  eapply Forall_impl; [exact Hl|]. intros x Hx. cbn in Hx. split; [lia|no_sep].
Qed.

Lemma skip_line pre l rest e :
  Forall (λ c, 32 <= c) l → (∃ c t, rest = c :: t ∧ 10 < c) ∨ e = zlen (pre ++ l ++ crlf) →
  zlen (pre ++ l ++ crlf) <= e →
  skip (pre ++ l ++ crlf ++ rest) (zlen pre) e [10]
  = Ok (mk_str (zlen pre) (zlen (l ++ [13])), zlen (pre ++ l ++ crlf)).
Proof.
  intros Hl Hr He. change (crlf ++ rest) with ([13] ++ [10] ++ rest). rewrite (app_assoc l).
  rewrite skip_run; [do 2 f_equal; unfold crlf; len|by apply no_sep_line|by repeat constructor| | |].
  - by rewrite <- app_assoc.
  - right. exists 10, rest. split; [done|by left].
  - destruct Hr as [(c & t & -> & Hc)|Hr]; [right; exists c, t; split; [done|no_sep]|left; by rewrite <- app_assoc].
Qed.

Section one_line.
Context (pre k v rest : list Z).
Hypothesis (Hk : name_ok k) (Hv : value_ok v).

Let b := pre ++ line_of (k, v) ++ crlf ++ rest.
Let he := zlen (pre ++ line_of (k, v) ++ crlf).

Lemma line_printable : Forall (λ c, 32 <= c) (line_of (k, v)).
Proof.
  unfold line_of. cbn [fst snd]. rewrite !Forall_app. split; [|split; [by repeat constructor|apply Hv]].
  eapply Forall_impl; [apply Hk|]. cbn. lia.
Qed.

Lemma skip_name :
  skip b (zlen pre) he [58; 32; 13; 10] = Ok (mk_str (zlen pre) (zlen k), zlen (pre ++ k ++ [58; 32])).
Proof.
  destruct Hv as (Hv1 & (v0 & v' & Ev & Hv0 & Hv0') & _). unfold b, he, line_of. cbn [fst snd].
  rewrite <- !(app_assoc k), <- (app_assoc [58; 32]). rewrite skip_run.
  - do 2 f_equal. len.
  - apply no_sep_name, Hk.
  - by repeat constructor.
  - len.
  - right. exists 58, (32 :: v ++ crlf ++ rest). split; [done|by right].
  - right. exists v0, (v' ++ crlf ++ rest). split; [by rewrite Ev|].
    rewrite Ev in Hv1. apply Forall_cons_1 in Hv1 as [Hv1 _]. cbn in Hv1. no_sep.
Qed.

Lemma value_placed : b = (pre ++ k ++ [58; 32]) ++ v ++ crlf ++ rest.
Proof. unfold b, line_of. cbn [fst snd]. by rewrite <- !app_assoc. Qed.

Lemma skip_value :
  skip b (zlen (pre ++ k ++ [58; 32])) he [13; 10] = Ok (mk_str (zlen (pre ++ k ++ [58; 32])) (zlen v), he).
Proof.
  rewrite value_placed. unfold he, line_of. cbn [fst snd]. rewrite skip_run.
  - do 2 f_equal. len.
  - apply no_sep_value, Hv.
  - by repeat constructor.
  - len.
  - right. exists 13, (10 :: rest). split; [done|by right].
  - left. len.
Qed.

(** One turn on a line with a header. *)
Lemma parse_header_line n e :
  (∃ c t, rest = c :: t ∧ 10 < c) → he <= e →
  mg_http_parse_headers (S n) b (zlen pre) e
  = (r ← mg_http_parse_headers n b he e;
     Ok ((mk_str (zlen pre) (zlen k), mk_str (zlen (pre ++ k ++ [58; 32])) (zlen v)) :: r)).
Proof.
  intros Hr He. cbn [mg_http_parse_headers].
  pose proof (skip_line pre (line_of (k, v)) rest e line_printable (or_introl Hr) He) as E1.
  fold b he in E1. step E1. step skip_name. step skip_value. cbn [str_len ptr].
  rewrite (proj2 (Z.eqb_neq (zlen k) (zlen (line_of (k, v) ++ [13])))) by (unfold line_of; cbn [fst snd]; len).
  assert (E4 : trim_spaces (Z.to_nat (zlen v)) b (zlen (pre ++ k ++ [58; 32])) = Ok (zlen v)).
  { destruct Hv as (_ & _ & l & c & El & Hc). rewrite value_placed. unfold zlen at 1. rewrite Nat2Z.id, El.
    by apply trim_spaces_run. }
  step E4. destruct Hk as [Hk1 _]. rewrite (proj2 (Z.eqb_neq (zlen k) 0)) by (destruct k; [done|len]). done.
Qed.
End one_line.

(** What the array says: the texts of names and values. *)
Definition texts_of (b : list Z) (hs : list header) : list (list Z * list Z) :=
  (λ h, (text b h.1, text b h.2)) <$> hs.

Definition header_ok (h : list Z * list Z) : Prop := name_ok h.1 ∧ value_ok h.2.

(** Strings with their whole length in the buffer. *)
Definition whole (b : list Z) (h : header) : Prop :=
  str_len h.1 = zlen (text b h.1) ∧ 0 <= ptr h.1 ∧ ptr h.1 + str_len h.1 <= zlen b.

Lemma text_lines_head ls rest :
  Forall (λ l, ∃ c t, l = c :: t ∧ 10 < c) ls → ∃ c t, text_lines ls ++ rest = c :: t ∧ 10 < c.
Proof.
  intros Hls. destruct ls as [|l ls]; [by exists 13, (10 :: rest)|].
  apply Forall_cons_1 in Hls as [(c & t & -> & Hc) _]. rewrite text_lines_cons. cbn [app].
  by eexists _, _.
Qed.

Lemma line_head h : header_ok h → ∃ c t, line_of h = c :: t ∧ 10 < c.
Proof.
  destruct h as [k v]. intros [[Hk1 Hk2] _]. destruct k as [|c k]; [done|].
  apply Forall_cons_1 in Hk2 as [Hc _]. cbn in Hc. unfold line_of. cbn [fst snd app].
  eexists _, _. split; [done|lia].
Qed.

(** The blank line leaves the rest of the array empty. *)
Lemma parse_blank_line n pre rest :
  mg_http_parse_headers (S n) (pre ++ crlf ++ rest) (zlen pre) (zlen (pre ++ crlf))
  = Ok (replicate (S n) (no_str, no_str)).
Proof.
  cbn [mg_http_parse_headers]. set (b := pre ++ crlf ++ rest). set (e := zlen (pre ++ crlf)).
  pose proof (skip_line pre [] rest e ltac:(constructor)) as E1. cbn [app] in E1. fold b e in E1.
  rewrite E1; [|by right|lia]. step_bind.
  assert (E2 : skip b (zlen pre) e [58; 32; 13; 10] = Ok (mk_str (zlen pre) 0, e)).
  { unfold b. change (crlf ++ rest) with ([] ++ crlf ++ rest). rewrite skip_run; [do 2 f_equal; unfold e; len|..].
    - constructor.
    - by repeat constructor.
    - cbn [app]. unfold e. lia.
    - right. exists 13, (10 :: rest). split; [done|by right].
    - by left. }
  step E2.
  assert (E3 : skip b e e [13; 10] = Ok (mk_str e 0, e)).
  { unfold skip. rewrite Z.sub_diag. change (Z.to_nat 0) with O. cbn [advance]. step_bind.
    rewrite Z.sub_diag. change (Z.to_nat 0) with O. cbn [advance]. by step_bind. }
  step E3. by step_bind.
Qed.

Lemma parse_headers_run hs n pre rest :
  Forall header_ok hs →
  let b := pre ++ text_lines (line_of <$> hs) ++ rest in
  ∃ l, mg_http_parse_headers n b (zlen pre) (zlen (pre ++ text_lines (line_of <$> hs))) = Ok l
    ∧ texts_of b l = take n hs ++ replicate (n - length hs) ([], [])
    ∧ Forall (whole b) l.
Proof.
  intros Hhs. revert n pre. induction Hhs as [|[k v] hs Hh Hhs IH]; intros n pre.
  - destruct n as [|n]; [by exists []|]. change (text_lines (line_of <$> [])) with crlf. cbv zeta.
    exists (replicate (S n) (no_str, no_str)). split; [apply parse_blank_line|].
    unfold texts_of. rewrite fmap_replicate, take_nil. split; [done|]. apply Forall_replicate.
    split; cbn; [done|]. split; [lia|]. apply zlen_nonneg.
  - destruct n as [|n]; [by exists []|]. rewrite fmap_cons, text_lines_cons. cbv zeta.
    destruct (IH n (pre ++ line_of (k, v) ++ crlf)) as (l & E & Et & Hw).
    set (tl := text_lines (line_of <$> hs)) in *. cbv zeta in E, Et, Hw.
    replace (pre ++ (line_of (k, v) ++ crlf ++ tl) ++ rest) with (pre ++ line_of (k, v) ++ crlf ++ tl ++ rest)
      by (by rewrite <- !app_assoc).
    replace ((pre ++ line_of (k, v) ++ crlf) ++ tl ++ rest) with (pre ++ line_of (k, v) ++ crlf ++ tl ++ rest) in E, Et, Hw
      by (by rewrite <- !app_assoc).
    destruct Hh as [Hk Hv]. rewrite parse_header_line; [|done|done| |len].
    2:{ apply text_lines_head, Forall_fmap. eapply Forall_impl; [exact Hhs|]. apply line_head. }
    replace (pre ++ line_of (k, v) ++ crlf ++ tl) with ((pre ++ line_of (k, v) ++ crlf) ++ tl)
      by (by rewrite <- !app_assoc).
    step E. eexists. split; [done|].
    assert (T1 : text (pre ++ line_of (k, v) ++ crlf ++ tl ++ rest) (mk_str (zlen pre) (zlen k)) = k).
    { unfold line_of. cbn [fst snd]. rewrite <- !(app_assoc k). apply text_at. }
    assert (T2 : text (pre ++ line_of (k, v) ++ crlf ++ tl ++ rest) (mk_str (zlen (pre ++ k ++ [58; 32])) (zlen v)) = v).
    { rewrite value_placed. apply text_at. }
    split; [unfold texts_of in *; rewrite fmap_cons; cbn [fst snd]; by rewrite T1, T2, Et|].
    constructor; [|done]. split; cbn [fst snd]; rewrite ?T1; [done|]. cbn. unfold line_of. cbn [fst snd]. len.
Qed.

(** ** The search for a header *)

Fixpoint find_header (name : list Z) (hs : list (list Z * list Z)) : option (list Z) :=
  match hs with
  | [] => None
  | (k, v) :: hs => if bool_decide (mg_lower <$> k = mg_lower <$> name) then Some v else find_header name hs
  end.

Lemma ncasecmp_run b pre k rest q name :
  b = pre ++ k ++ rest → length k = length name → Forall (λ c, c ≠ 0) k →
  ∃ d, mg_ncasecmp (length k) b (zlen pre) (q ++ name) (zlen q) = Ok d
    ∧ (d = 0 ↔ mg_lower <$> k = mg_lower <$> name).
Proof.
  intros -> Hl Hk. revert pre q name Hl. induction Hk as [|c k Hc _ IH]; intros pre q [|x name] Hl; try done.
  { exists 0. by cbn. }
  cbn [length mg_ncasecmp]. rewrite (rd_app_r pre), Z.sub_diag by lia. cbn [app]. step rd_cons_0.
  rewrite <- (app_assoc q). cbn [app]. rewrite (rd_app_r q) by lia. rewrite Z.sub_diag. step rd_cons_0.
  rewrite (proj2 (Z.eqb_neq c 0)) by done. rewrite andb_true_r, !fmap_cons.
  destruct (Z.eqb_spec (mg_lower c - mg_lower x) 0) as [E|E].
  - destruct (IH (pre ++ [c]) (q ++ [x]) name) as (d & Ed & Hd); [cbn in Hl; lia|].
    replace (pre ++ c :: k ++ rest) with ((pre ++ [c]) ++ k ++ rest) by (by rewrite <- app_assoc).
    replace (q ++ x :: name) with ((q ++ [x]) ++ name) by (by rewrite <- app_assoc).
    replace (zlen pre + 1) with (zlen (pre ++ [c])) by len. replace (zlen q + 1) with (zlen (q ++ [x])) by len.
    exists d. split; [done|]. rewrite Hd. split; [intros ->; f_equal; lia|by intros [= _ ->]].
  - eexists. split; [done|]. split; [done|]. intros [= ? _]. lia.
Qed.

Lemma whole_text b h : whole b h → b = take (Z.to_nat (ptr h.1)) b ++ text b h.1 ++ drop (Z.to_nat (str_len h.1)) (drop (Z.to_nat (ptr h.1)) b).
Proof. intros _. unfold text. by rewrite take_drop, take_drop. Qed.

Lemma get_header_run b l name hs n :
  Forall (whole b) l → texts_of b l = hs ++ replicate n ([], []) → Forall header_ok hs → name ≠ [] →
  ∃ r, get_header_loop b l name = Ok r ∧ (text b <$> r) = find_header name hs.
Proof.
  intros Hw. revert hs. induction Hw as [|[k v] l Hkv _ IH]; intros hs Et Hhs Hn.
  - destruct hs; [|done]. by exists None.
  - unfold texts_of in Et. rewrite fmap_cons in Et. cbn [fst snd get_header_loop] in *.
    pose proof Hkv as (W1 & W2 & W3). cbn [fst] in W1, W2, W3. destruct hs as [|[k' v'] hs].
    + destruct n as [|n]; [done|]. cbn in Et. injection Et as Ek _ _. rewrite W1, Ek. by exists None.
    + cbn [app] in Et. injection Et as Ek Ev Et. apply Forall_cons_1 in Hhs as [[Hk' _] Hhs]. cbn [fst] in Hk'.
      destruct Hk' as [Hne Hc]. rewrite W1, Ek.
      assert (Hpos : 0 < zlen k') by (destruct k' as [|c' k']; [done|rewrite zlen_cons; pose proof (zlen_nonneg k'); lia]).
      rewrite (proj2 (Z.ltb_lt _ _) Hpos).
      cbn [find_header]. destruct (Z.eqb_spec (zlen name) (zlen k')) as [El|El].
      * assert (Hl : length k' = length name) by (unfold zlen in El; lia).
        pose proof (whole_text b (k, v) Hkv) as Eb. cbn [fst] in Eb. rewrite Ek in Eb.
        destruct (ncasecmp_run b _ k' _ [] name Eb Hl) as (d & Ed & Hd).
        { eapply Forall_impl; [exact Hc|]. cbn. lia. }
        rewrite zlen_take in Ed by (pose proof (zlen_nonneg (text b k)); lia). change (zlen []) with 0 in Ed. cbn [app] in Ed.
        rewrite <- Hl. step Ed. destruct (Z.eqb_spec d 0) as [->|Hd0].
        -- rewrite bool_decide_eq_true_2 by (by apply Hd). exists (Some v). split; [done|]. by rewrite <- Ev.
        -- rewrite bool_decide_eq_false_2 by (intros ?; by apply Hd0, Hd). by apply IH.
      * step_bind. rewrite bool_decide_eq_false_2; [by apply IH|].
        intros E%(f_equal length). rewrite !length_fmap in E. unfold zlen in El. lia.
Qed.

(** ** The whole head *)

Definition head_bytes (m u p : list Z) (hs : list (list Z * list Z)) : list Z :=
  text_lines ((m ++ [32] ++ u ++ [32] ++ p) :: (line_of <$> hs)).

Definition word_ok (w : list Z) : Prop := w ≠ [] ∧ Forall (λ c, 32 < c ∧ c ≠ 63) w.

Lemma word_no_sep w : word_ok w → Forall (λ c, c ≠ 10 ∧ strchr [32] c = false) w.
Proof. intros [_ Hw]. eapply Forall_impl; [exact Hw|]. intros x Hx. cbn in Hx. split; [lia|no_sep]. Qed.

Lemma word_clean w : word_ok w → Forall (λ c, 32 <= c) w.
Proof. intros [_ Hw]. eapply Forall_impl; [exact Hw|]. cbn. lia. Qed.

Lemma word_first w rest : word_ok w → ∃ c t, w ++ rest = c :: t ∧ strchr [32] c = false.
Proof.
  intros Hw. pose proof (word_no_sep w Hw) as Hf. destruct Hw as [Hne _]. destruct w as [|c w]; [done|].
  apply Forall_cons_1 in Hf as [[_ Hc] _]. by eexists _, _.
Qed.

(** A word of the request line, and the space behind it. *)
Lemma skip_word pre w rest e :
  word_ok w → (∃ c t, rest = c :: t ∧ strchr [32] c = false) → zlen (pre ++ w ++ [32]) <= e →
  skip (pre ++ w ++ [32] ++ rest) (zlen pre) e [32] = Ok (mk_str (zlen pre) (zlen w), zlen (pre ++ w ++ [32])).
Proof.
  intros Hw Hr He. rewrite skip_run; [do 2 f_equal; len|by apply word_no_sep|by repeat constructor|done| |by right].
  right. exists 32, rest. split; [done|by right].
Qed.

Lemma memchr_none b pre w rest c :
  b = pre ++ w ++ rest → Forall (λ x, x ≠ c) w → memchr (length w) b (zlen pre) c = Ok None.
Proof.
  intros -> Hw. revert pre. induction Hw as [|x w Hx _ IH]; intros pre; [done|]. cbn [length memchr app].
  rewrite (rd_app_r pre), Z.sub_diag by lia. step rd_cons_0. rewrite (proj2 (Z.eqb_neq x c)) by done.
  replace (pre ++ x :: w ++ rest) with ((pre ++ [x]) ++ w ++ rest) by (by rewrite <- app_assoc).
  replace (zlen pre + 1) with (zlen (pre ++ [x])) by len. apply IH.
Qed.

Lemma body_length_keeps b e hm hm' :
  body_length b e hm = Ok hm' →
  method hm' = method hm ∧ uri hm' = uri hm ∧ proto hm' = proto hm ∧ headers hm' = headers hm.
Proof.
  unfold body_length. intros H. inv_bind. repeat (case_match || inv_bind); simplify_eq; done.
Qed.

Lemma line_clean h : header_ok h → clean (line_of h) ∧ line_of h ≠ [].
Proof.
  destruct h as [k v]. intros Hh. pose proof (line_head _ Hh) as (c & t & E & _). destruct Hh as [Hk Hv].
  split; [by apply line_printable|by rewrite E].
Qed.

(** The head is as long as it looks. *)
Lemma head_length m u p hs rest :
  word_ok m → word_ok u → word_ok p → Forall header_ok hs →
  mg_http_get_request_len (head_bytes m u p hs ++ rest) = zlen (head_bytes m u p hs).
Proof.
  intros Hm Hu Hp Hhs. assert (E : mg_http_get_request_len (head_bytes m u p hs) = zlen (head_bytes m u p hs)).
  { unfold mg_http_get_request_len, head_bytes. set (l := m ++ [32] ++ u ++ [32] ++ p).
    assert (Hl : clean l).
    { unfold l, clean. rewrite !Forall_app. split_and!; try (by apply word_clean); by repeat constructor. }
    rewrite text_lines_cons, request_len_line; [|done| |lia].
    2:{ unfold l. destruct Hm as [Hm _]. by destruct m. }
    pose proof (zlen_nonneg l). rewrite request_len_lines; [change crlf with [13; 10]; len| |lia|].
    - apply Forall_fmap. eapply Forall_impl; [exact Hhs|]. apply line_clean.
    - right. unfold l. pose proof (zlen_nonneg m). pose proof (zlen_nonneg u). pose proof (zlen_nonneg p). len. }
  pose proof (zlen_nonneg (head_bytes m u p hs)). unfold mg_http_get_request_len in *.
  rewrite request_len_stable; [done|]. rewrite E. unfold head_bytes. rewrite text_lines_cons.
  change crlf with [13; 10]. len.
Qed.

(** The three words of the request line. *)
Lemma request_line_run m u p t e :
  word_ok m → word_ok u → word_ok p → (∃ c t', t = c :: t' ∧ strchr [13; 10] c = false) →
  let w1 := m ++ [32] in let w2 := w1 ++ u ++ [32] in let w3 := w2 ++ p ++ crlf in
  zlen w3 <= e →
  skip (w3 ++ t) 0 e [32] = Ok (mk_str 0 (zlen m), zlen w1)
  ∧ skip (w3 ++ t) (zlen w1) e [32] = Ok (mk_str (zlen w1) (zlen u), zlen w2)
  ∧ skip (w3 ++ t) (zlen w2) e [13; 10] = Ok (mk_str (zlen w2) (zlen p), zlen w3).
Proof.
  intros Hm Hu Hp Ht w1 w2 w3 He.
  assert (E2 : w3 ++ t = w1 ++ u ++ [32] ++ p ++ crlf ++ t) by (unfold w3, w2; by rewrite <- !app_assoc).
  assert (E1 : w3 ++ t = m ++ [32] ++ u ++ [32] ++ p ++ crlf ++ t) by (rewrite E2; unfold w1; by rewrite <- !app_assoc).
  assert (E3 : w3 ++ t = w2 ++ p ++ crlf ++ t) by (unfold w3; by rewrite <- !app_assoc).
  change crlf with [13; 10] in *.
  split; [|split].
  - rewrite E1. apply (skip_word [] m _ e Hm (word_first u _ Hu)). cbn [app]. unfold w3, w2, w1 in He. len.
  - rewrite E2. apply skip_word; [done|by apply word_first|]. unfold w3, w2 in He. len.
  - rewrite E3, skip_run; [do 2 f_equal; unfold w3; len|by apply no_sep_value, word_clean|by repeat constructor|done| |by right].
    right. eexists 13, _. split; [done|by right].
Qed.

(** The calls of the parser, one after the other. *)
Lemma http_parse_steps b e m u p l s1 s2 s3 :
  mg_http_get_request_len b = e → 0 < e → str_len m <> 0 → str_len u <> 0 →
  skip b 0 e [32] = Ok (m, s1) → skip b s1 e [32] = Ok (u, s2) → skip b s2 e [13; 10] = Ok (p, s3) →
  memchr (Z.to_nat (str_len u)) b (ptr u) 63 = Ok None →
  mg_http_parse_headers MG_MAX_HTTP_HEADERS b s3 e = Ok l →
  mg_http_parse b
  = (hm ← body_length b e (mk_http m u no_str p l (mk_str e INFINITE) (mk_str 0 e) (mk_str e 0) (mk_str 0 INFINITE));
     Ok (e, Some hm)).
Proof.
  unfold mg_http_parse. generalize MG_MAX_HTTP_HEADERS. intros n El He Hm Hu E1 E2 E3 E4 E5.
  rewrite El, (proj2 (Z.leb_gt e 0)) by done.
  step E1. step E2. step E3. rewrite (proj2 (Z.eqb_neq _ _) Hm), (proj2 (Z.eqb_neq _ _) Hu). cbn [orb].
  step E4. step E5. reflexivity.
Qed.

Lemma http_parse_run m u p hs rest :
  word_ok m → word_ok u → word_ok p → Forall header_ok hs → hs ≠ [] →
  let b := head_bytes m u p hs ++ rest in
  ∃ hm, mg_http_parse b = Ok (zlen (head_bytes m u p hs), Some hm)
    ∧ text b (method hm) = m ∧ text b (uri hm) = u ∧ text b (proto hm) = p
    ∧ texts_of b (headers hm) = take MG_MAX_HTTP_HEADERS hs ++ replicate (MG_MAX_HTTP_HEADERS - length hs) ([], [])
    ∧ Forall (whole b) (headers hm).
Proof.
  intros Hm Hu Hp Hhs Hne. cbv zeta. set (b := head_bytes m u p hs ++ rest).
  pose proof (head_length m u p hs rest Hm Hu Hp Hhs) as El. fold b in El.
  set (tl := text_lines (line_of <$> hs)) in *. set (e := zlen (head_bytes m u p hs)) in *.
  set (w1 := m ++ [32]). set (w2 := w1 ++ u ++ [32]). set (w3 := w2 ++ p ++ crlf).
  assert (Eh : head_bytes m u p hs = w3 ++ tl)
    by (unfold head_bytes, w3, w2, w1; rewrite text_lines_cons, <- !app_assoc; done).
  assert (Eb : b = w3 ++ tl ++ rest) by (unfold b; by rewrite Eh, <- app_assoc).
  assert (Ee : e = zlen (w3 ++ tl)) by (unfold e; by rewrite Eh).
  assert (Htl : ∃ c t, tl ++ rest = c :: t ∧ strchr [13; 10] c = false).
  { unfold tl. destruct Hhs as [|h hs Hh Hhs]; [done|]. destruct (line_head h Hh) as (c & t & Ec & _).
    destruct (line_clean h Hh) as [Hc _]. rewrite fmap_cons, text_lines_cons, Ec. cbn [app].
    eexists _, _. split; [done|]. unfold clean in Hc. rewrite Ec in Hc. apply Forall_cons_1 in Hc as [Hc _]. no_sep. }
  destruct (request_line_run m u p (tl ++ rest) e Hm Hu Hp Htl) as (E1 & E2 & E3);
    fold w1 w2 w3; [rewrite Ee, (zlen_app w3); pose proof (zlen_nonneg tl); lia|].
  fold w1 w2 w3 in E1, E2, E3. rewrite <- Eb in E1, E2, E3.
  destruct (parse_headers_run hs MG_MAX_HTTP_HEADERS w3 rest Hhs) as (l & E5 & Et & Hw).
  fold tl in E5, Et, Hw. rewrite <- Ee in E5. rewrite <- Eb in E5, Et, Hw.
  assert (Hpos : 0 < zlen m ∧ 0 < zlen u).
  { destruct Hm as [Hm _], Hu as [Hu _]. by destruct m, u. }
  assert (E4 : memchr (Z.to_nat (zlen u)) b (zlen w1) 63 = Ok None).
  { unfold zlen at 1. rewrite Nat2Z.id. apply (memchr_none _ _ _ ([32] ++ p ++ crlf ++ tl ++ rest)).
    - rewrite Eb. unfold w3, w2. by rewrite <- !app_assoc.
    - eapply Forall_impl; [apply Hu|]. cbn. tauto. }
  assert (Hepos : 0 < e) by (rewrite Ee; unfold w3, w2, w1; change crlf with [13; 10]; len).
  destruct (http_parse_any b []) as (n & r & E & _).
  assert (Hm0 : str_len (mk_str 0 (zlen m)) ≠ 0) by (cbn; lia).
  assert (Hu0 : str_len (mk_str (zlen w1) (zlen u)) ≠ 0) by (cbn; lia).
  pose proof (http_parse_steps b e _ _ _ l _ _ _ El Hepos Hm0 Hu0 E1 E2 E3 E4 E5) as Es.
  rewrite Es in E |- *. apply bind_is_ok in E as (hm & Ebl & _). step Ebl.
  exists hm. split; [done|]. destruct (body_length_keeps _ _ _ _ Ebl) as (-> & -> & -> & ->).
  cbn [method uri proto headers]. rewrite Et. split_and!; [| | |done|done].
  - rewrite Eb. unfold w3, w2, w1. rewrite <- !app_assoc. exact (text_at [] m _).
  - rewrite Eb. unfold w3, w2. rewrite <- !app_assoc. exact (text_at w1 u _).
  - rewrite Eb. unfold w3. rewrite <- !app_assoc. exact (text_at w2 p _).
Qed.

(** A search in the array the parser filled. *)
Lemma http_header_run m u p hs rest name hm :
  Forall header_ok hs → name ≠ [] →
  let b := head_bytes m u p hs ++ rest in
  texts_of b (headers hm) = take MG_MAX_HTTP_HEADERS hs ++ replicate (MG_MAX_HTTP_HEADERS - length hs) ([], []) →
  Forall (whole b) (headers hm) →
  ∃ v, mg_http_get_header b hm name = Ok v
    ∧ (text b <$> v) = find_header name (take MG_MAX_HTTP_HEADERS hs).
Proof. intros Hhs Hn b Et Hw. eapply get_header_run; [done..|by apply Forall_take|done]. Qed.

(** A head that is well formed is read as it was written: method, path, version and the
    first forty headers, whatever follows the blank line; a header is found by its name,
    in upper or lower case, and of several the first. *)
Theorem http_head_read m u p hs rest name :
  word_ok m → word_ok u → word_ok p → Forall header_ok hs → hs ≠ [] → name ≠ [] →
  let b := head_bytes m u p hs ++ rest in
  ∃ hm, mg_http_parse b = Ok (zlen (head_bytes m u p hs), Some hm)
    ∧ text b (method hm) = m ∧ text b (uri hm) = u ∧ text b (proto hm) = p
    ∧ ∃ v, mg_http_get_header b hm name = Ok v
           ∧ (text b <$> v) = find_header name (take MG_MAX_HTTP_HEADERS hs).
Proof.
  intros Hm Hu Hp Hhs Hne Hn b.
  destruct (http_parse_run m u p hs rest) as (hm & E & E1 & E2 & E3 & Et & Hw); [done..|].
  exists hm. do 4 (split; [done|]). by apply http_header_run.
Qed.

(** ** The request of the client *)

(** Its headers. *)
Definition request_headers (ip nonce : list Z) : list (list Z * list Z) :=
  [(bytes_of "Upgrade", bytes_of "websocket"); (bytes_of "Host", ip);
   (bytes_of "Connection", bytes_of "Upgrade");
   (bytes_of "Sec-WebSocket-Protocol", bytes_of "ctrl_protocol");
   (bytes_of "Sec-WebSocket-Version", bytes_of "13");
   (bytes_of "Sec-WebSocket-Key", base64 nonce)].

Lemma request_head ip nonce :
  text_lines (request_lines ip nonce)
  = head_bytes (bytes_of "GET") (bytes_of "/rtc_signal") (bytes_of "HTTP/1.1") (request_headers ip nonce).
Proof. reflexivity. Qed.

Lemma value_of_word v : v ≠ [] → Forall (λ c, 32 < c ∧ c ≠ 58) v → value_ok v.
Proof.
  intros Hne Hv. split; [eapply Forall_impl; [exact Hv|]; cbn; lia|]. split.
  - destruct v as [|c v]; [done|]. apply Forall_cons_1 in Hv as [Hc _]. cbn in Hc. exists c, v. split; [done|lia].
  - destruct v as [|c v] using rev_ind; [done|]. apply Forall_app in Hv as [_ [Hc _]%Forall_cons_1]. cbn in Hc.
    exists v, c. split; [done|lia].
Qed.

Lemma request_headers_ok ip nonce :
  Forall (λ c, 32 < c ∧ c ≠ 58) ip → ip ≠ [] → is_bytes nonce → nonce ≠ [] →
  Forall header_ok (request_headers ip nonce).
Proof.
  intros Hip Hne Hn Hn0.
  assert (Hk : ∀ k, bool_decide (Forall (λ c, 32 < c ∧ c ≠ 58) k ∧ k ≠ []) = true → name_ok k).
  { intros k [H1 H2]%bool_decide_eq_true_1. by split. }
  assert (Hv : ∀ v, bool_decide (Forall (λ c, 32 < c ∧ c ≠ 58) v ∧ v ≠ []) = true → value_ok v).
  { intros v [H1 H2]%bool_decide_eq_true_1. by apply value_of_word. }
  assert (Hb : value_ok (base64 nonce)).
  { apply value_of_word; [|apply base64_forall; [by_table|lia|done]].
    by destruct nonce as [|? [|? [|? ?]]]. }
  unfold request_headers. repeat apply Forall_cons_2; [..|apply Forall_nil_2];
    (split; [apply Hk; vm_compute; reflexivity|]); try (apply Hv; vm_compute; reflexivity); [by apply value_of_word|done].
Qed.

(** C12: What the client asks, the other end of the library reads: the bytes [mg_ws_connect]
    leaves in the send buffer parse as one request for the path of the
    room; every header is found with the value the client gave it, and no other; and the
    key decodes to the random bytes it was made of. *)
Theorem opening_request_read ip port nonce key dst :
  Forall plain_byte ip → Forall (λ c, 32 < c) ip → ip ≠ [] → 0 <= port < 65536 → zlen ip < 2 ^ 16 →
  is_bytes nonce → zlen nonce = 16 → zlen key = 30 → 19 <= zlen dst →
  ∃ c hm, mg_ws_connect (wsaddress ip port) ctrl_protocol nonce key = Ok c
    ∧ let b := content (send c) in
      mg_http_parse b = Ok (zlen b, Some hm)
      ∧ text b (method hm) = bytes_of "GET" ∧ text b (uri hm) = bytes_of "/rtc_signal"
      ∧ (∀ name, name ≠ [] → ∃ v, mg_http_get_header b hm name = Ok v
           ∧ (text b <$> v) = find_header name (request_headers ip nonce))
      ∧ ∃ v R, mg_http_get_header b hm (bytes_of "sec-websocket-key") = Ok (Some v)
          ∧ mg_base64_decode (text b v) dst = Ok (nonce ++ R, 16).
Proof.
  intros Hip Hp32 Hne Hp Hl Hn Hn16 Hk Hdst.
  destruct (request_sent ip port nonce key) as (io & E & Hw & Ec); [done..|].
  assert (Hip' : Forall (λ c, 32 < c ∧ c ≠ 58) ip).
  { apply Forall_and. split; [done|]. eapply Forall_impl; [exact Hip|]. unfold plain_byte. tauto. }
  assert (Hhs : Forall header_ok (request_headers ip nonce)) by (apply request_headers_ok; [done..|by destruct nonce]).
  destruct (http_parse_run (bytes_of "GET") (bytes_of "/rtc_signal") (bytes_of "HTTP/1.1") (request_headers ip nonce) [])
    as (hm & Ep & E1 & E2 & _ & Et & Hwh); [split; [done|by_table]..|done|done|].
  pose proof (λ name Hname, http_header_run _ _ _ _ [] name hm Hhs Hname Et Hwh) as Hget. cbv zeta in Hget.
  rewrite app_nil_r, <- request_head in Ep, E1, E2, Hget.
  eexists _, hm. split; [exact E|]. cbn [send]. rewrite Ec. do 4 (split; [done|]).
  destruct (Hget (bytes_of "sec-websocket-key")) as (v & Ev & Tv); [done|].
  destruct v as [v|]; [|done]. injection Tv as Tv. exists v.
  destruct (decode_from nonce [] dst Hn) as (R' & E' & Hl'); [lia|]. destruct R' as [|x R']; [exfalso; len|].
  exists (0 :: R'). split; [done|]. rewrite Tv. unfold mg_base64_decode. cbn [app] in E'. rewrite zlen_nil, Z.add_0_l in E'.
  step E'. rewrite (set_byte_at nonce x R') by done. by rewrite Hn16.
Qed.

(** ** Concrete runs *)

Lemma http_head_read_witness :
  let b := head_bytes [71] [47] [72] [([65; 66], [120; 121]); ([66], [49])] ++ [33; 33] in
  ∃ hm, mg_http_parse b = Ok (23, Some hm)
    ∧ text b (method hm) = [71] ∧ text b (uri hm) = [47] ∧ text b (proto hm) = [72]
    ∧ ∃ v, mg_http_get_header b hm [97; 98] = Ok v ∧ (text b <$> v) = Some [120; 121].
Proof.
  cbv zeta.
  assert (Hh : Forall header_ok [([65; 66], [120; 121]); ([66], [49])]).
  { repeat apply Forall_cons_2; [..|apply Forall_nil_2];
      (split; [split; [done|by_table]|apply value_of_word; [done|by_table]]). }
  destruct (http_head_read [71] [47] [72] [([65; 66], [120; 121]); ([66], [49])] [33; 33] [97; 98])
    as (hm & E & E1 & E2 & E3 & v & Ev & Tv); [split; [done|by_table]..|exact Hh|done|done|].
  exists hm. split; [exact E|]. do 3 (split; [assumption|]). exists v. split; [exact Ev|]. rewrite Tv. reflexivity.
Defined.

Lemma opening_request_read_witness :
  let ip := bytes_of "192.168.1.100" in
  let nonce := [0; 16; 131; 16; 81; 135; 32; 146; 139; 48; 211; 143; 65; 20; 147; 81] in
  ∃ c hm, mg_ws_connect (wsaddress ip 23579) ctrl_protocol nonce (replicate 30 0) = Ok c
    ∧ let b := content (send c) in
      mg_http_parse b = Ok (zlen b, Some hm)
      ∧ text b (method hm) = bytes_of "GET" ∧ text b (uri hm) = bytes_of "/rtc_signal"
      ∧ (∀ name, name ≠ [] → ∃ v, mg_http_get_header b hm name = Ok v
           ∧ (text b <$> v) = find_header name (request_headers ip nonce))
      ∧ ∃ v R, mg_http_get_header b hm (bytes_of "sec-websocket-key") = Ok (Some v)
          ∧ mg_base64_decode (text b v) (replicate 19 0) = Ok (nonce ++ R, 16).
Proof.
  cbv zeta. apply opening_request_read.
  - unfold plain_byte. by_table.
  - by_table.
  - done.
  - lia.
  - vm_compute. reflexivity.
  - unfold is_bytes, is_byte. by_table.
  - reflexivity.
  - reflexivity.
  - vm_compute. discriminate.
Defined.


(** A line without a colon, ended by a bare line feed, leaves its place in the array empty,
    and the search stops there: the headers behind it are not found. *)
Lemma hole_hides_headers :
  let b := bytes_of "GET / HTTP/1.1" ++ [10] ++ bytes_of "abc" ++ [10] ++ bytes_of "Host: x" ++ [10; 10] in
  ∃ n hm, mg_http_parse b = Ok (n, Some hm) ∧ mg_http_get_header b hm (bytes_of "Host") = Ok None
    ∧ text b <$> (fst <$> take 3 (headers hm)) = [[]; bytes_of "Host"; []].
Proof. cbv zeta. do 2 eexists. split; [by vm_compute|]. split; by vm_compute. Qed.
