(* ===== verification/MgAton.v ===== *)
(** * MgAton: addresses in text

    Models how [src/websocket/mongoose.cpp] tells whether the host of a URL is an address:
    [mg_aton] with [mg_atone], [mg_atonl], [mg_aton4], [mg_v4mapped], [mg_aton6] and
    [mg_unhexn].  The program gives its server by address, and what [mg_aton] takes is
    connected to at once; any other host goes to the resolver ([mg_resolve]). *)

From S2P Require Import Prelude.
From S2P Require Import Utils.
From S2P Require Import MgIobuf.
From S2P Require Import MgHttp.

Record mg_addr := mk_addr {
  ip : list Z;
  ip6 : list Z;
  is_ip6 : bool;
}.

Definition set_ip (a : mg_addr) (x : list Z) : mg_addr := mk_addr x (ip6 a) false.

(** ** Hexadecimal *)

Definition mg_unhex_nimble (c : Z) : Z :=
  if (48 <=? c) && (c <=? 57) then u8 (c - 48)
  else if (65 <=? c) && (c <=? 70) then u8 (c - 55)
  else u8 (c - 87).

Definition mg_unhexn (l : list Z) : Z :=
  foldl (λ v c, Z.lor (u64 (Z.shiftl v 4)) (mg_unhex_nimble c)) 0 l.

(** ** IPv4 *)

(** From index [i] on; [prev] is the byte before.  [None] is [return false]. *)
Fixpoint aton4_loop (l : list Z) (i prev : Z) (data : list Z) (num_dots : Z)
    : outcome (option (Z * (list Z * Z))) :=
  match l with
  | [] => Ok (Some (prev, (data, num_dots)))
  | c :: l =>
      if (48 <=? c) && (c <=? 57) then
        x ← rd data num_dots;
        let octet := x * 10 + (c - 48) in
        if 255 <? octet then Ok None else
        data ← wr_range data num_dots [u8 octet];
        aton4_loop l (i + 1) c data num_dots
      else if c =? 46 then
        if (3 <=? num_dots) || (i =? 0) || (prev =? 46) then Ok None
        else aton4_loop l (i + 1) c data (num_dots + 1)
      else Ok None
  end.

Definition mg_aton4 (str : list Z) (addr : mg_addr) : outcome (bool * mg_addr) :=
  r ← aton4_loop str 0 0 [0; 0; 0; 0] 0;
  match r with
  | Some (prev, (data, num_dots)) =>
      if negb (num_dots =? 3) || (prev =? 46) then Ok (false, addr) else Ok (true, set_ip addr data)
  | None => Ok (false, addr)
  end.

Definition mg_atone (str : list Z) (addr : mg_addr) : bool * mg_addr :=
  if 0 <? zlen str then (false, addr) else (true, set_ip addr [0; 0; 0; 0]).

Definition mg_atonl (str : list Z) (addr : mg_addr) : outcome (bool * mg_addr) :=
  r ← mg_vcasecmp str (mk_str 0 (zlen str)) (bytes_of "localhost");
  Ok (if negb (r =? 0) then (false, addr) else (true, set_ip addr [127; 0; 0; 1])).

(** ** IPv6 *)

(** All four of [str.ptr[2]] to [str.ptr[5]] are the letter f. *)
Definition four_f (l : list Z) : bool := forallb (λ c, (c =? 102) || (c =? 70)) l.

Definition mg_v4mapped (str : list Z) (addr : mg_addr) : outcome (bool * mg_addr) :=
  if zlen str <? 14 then Ok (false, addr) else
  c0 ← rd str 0; c1 ← rd str 1; c6 ← rd str 6;
  if negb (c0 =? 58) || negb (c1 =? 58) || negb (c6 =? 58) then Ok (false, addr) else
  f ← rd_range str 2 4;
  if negb (four_f f) then Ok (false, addr) else
  rest ← rd_range str 7 (zlen str - 7);
  r ← mg_aton4 rest addr;
  let '(ok, addr) := r in
  Ok (if (ok : bool)
      then (true, mk_addr (ip addr) (replicate 10 0 ++ [255; 255] ++ ip addr) true)
      else (false, addr)).

Record aton6_state := mk_aton6 {
  a6_j : Z;
  a6_n : Z;
  a6_dc : Z;
  a6_ip6 : list Z;
}.

Definition is_hex (c : Z) : bool :=
  ((48 <=? c) && (c <=? 57)) || ((97 <=? c) && (c <=? 102)) || ((65 <=? c) && (c <=? 70)).

(** The body of the [for]; [p1] and [p2] are the bytes before, the nearest first. *)
Definition aton6_turn (str : list Z) (i c p1 p2 : Z) (s : aton6_state) : outcome (option aton6_state) :=
  if is_hex c then
    if a6_j s + 3 <? i then Ok None else
    digits ← rd_range str (a6_j s) (i - a6_j s + 1);
    let val := mg_unhexn digits in
    a ← wr_range (a6_ip6 s) (a6_n s) [Z.land (Z.shiftr val 8) 255];
    a ← wr_range a (a6_n s + 1) [Z.land val 255];
    Ok (Some (mk_aton6 (a6_j s) (a6_n s) (a6_dc s) a))
  else if c =? 58 then
    let twice := (0 <? i) && (p1 =? 58) in
    if twice && (1 <? i) && (p2 =? 58) then Ok None else
    let dc := if twice then a6_n s else a6_dc s in
    let n := if negb twice && (0 <? i) then a6_n s + 2 else a6_n s in
    if 14 <? n then Ok None else
    a ← wr_range (a6_ip6 s) (n + 1) [0];
    a ← wr_range a n [0];
    Ok (Some (mk_aton6 (i + 1) n dc a))
  else Ok None.

(** What was stored is in the address, whether the text is one or not. *)
Fixpoint aton6_loop (str l : list Z) (i p1 p2 : Z) (s : aton6_state) : outcome (bool * aton6_state) :=
  match l with
  | [] => Ok (true, s)
  | c :: l =>
      r ← aton6_turn str i c p1 p2 s;
      match r with
      | Some s => aton6_loop str l (i + 1) c p1 s
      | None => Ok (false, s)
      end
  end.

(** The zeros of a double colon. *)
Definition aton6_spread (n dc : Z) (a : list Z) : outcome (list Z) :=
  if n <? 14 then
    tail ← rd_range a dc (n - dc + 2);
    a ← wr_range a (dc + (14 - n)) tail;
    wr_range a dc (zeros (14 - n))
  else Ok a.

Definition mg_aton6 (str : list Z) (addr : mg_addr) : outcome (bool * mg_addr) :=
  str ← (if 2 <? zlen str
         then c ← rd str 0;
              if c =? 91 then rd_range str 1 (zlen str - 2) else Ok str
         else Ok str);
  r ← mg_v4mapped str addr;
  let '(mapped, addr) := r in
  if (mapped : bool) then Ok (true, addr) else
  r ← aton6_loop str str 0 0 0 (mk_aton6 0 0 42 (ip6 addr));
  let '(ok, s) := r in
  let addr := mk_addr (ip addr) (a6_ip6 s) (is_ip6 addr) in
  if negb ok || ((a6_n s <? 14) && (a6_dc s =? 42)) then Ok (false, addr) else
  a ← aton6_spread (a6_n s) (a6_dc s) (a6_ip6 s);
  Ok (true, mk_addr (ip addr) a true).

(** ** An address or a name *)

Definition mg_aton (str : list Z) (addr : mg_addr) : outcome (bool * mg_addr) :=
  let '(ok, addr) := mg_atone str addr in
  if ok then Ok (true, addr) else
  r ← mg_atonl str addr;
  let '(ok, addr) := r in
  if (ok : bool) then Ok (true, addr) else
  r ← mg_aton4 str addr;
  let '(ok, addr) := r in
  if (ok : bool) then Ok (true, addr) else
  mg_aton6 str addr.

(** ** Every host is read without leaving a buffer *)

Lemma wr_range_in b i bs :
  0 <= i → i + zlen bs <= zlen b → ∃ b', wr_range b i bs = Ok b' ∧ zlen b' = zlen b.
Proof.
  intros Hi Hb. unfold wr_range. repeat dec_if. cbn [andb]. eexists. split; [done|].
  unfold zlen in *. rewrite !length_app, length_take, length_drop. lia.
Qed.

Lemma aton4_loop_any l i prev data num_dots :
  zlen data = 4 → 0 <= num_dots <= 3 →
  ∃ r, aton4_loop l i prev data num_dots = Ok r
    ∧ match r with Some (_, (data, _)) => zlen data = 4 | None => True end.
Proof.
  revert i prev data num_dots. induction l as [|c l IH]; intros i prev data num_dots Hd Hn; cbn [aton4_loop].
  { by eexists. }
  destruct (_ && _).
  - destruct (rd_in_range data num_dots) as (x & Ex & _); [lia|]. step Ex.
    destruct (255 <? _); [by exists None|].
    destruct (wr_range_in data num_dots [u8 (x * 10 + (c - 48))]) as (data' & Ew & Hl); [lia|len|]. step Ew.
    apply IH; lia.
  - destruct (c =? 46); [|by exists None]. destruct (Z.leb_spec 3 num_dots); cbn [orb]; [by exists None|].
    destruct (_ || _); [by exists None|]. apply IH; lia.
Qed.

(** The address keeps its size. *)
Definition addr_ok (a : mg_addr) : Prop := zlen (ip a) = 4 ∧ zlen (ip6 a) = 16.

Definition reads (m : outcome (bool * mg_addr)) : Prop := ∃ ok a, m = Ok (ok, a) ∧ addr_ok a.

Lemma aton4_any str a : addr_ok a → reads (mg_aton4 str a).
Proof.
  intros [H1 H2]. unfold mg_aton4. destruct (aton4_loop_any str 0 0 [0; 0; 0; 0] 0) as (r & E & Hr); [done|lia|].
  step E. destruct r as [[prev [data n]]|]; [|by eexists _, _].
  destruct (_ || _); by eexists _, _.
Qed.

Lemma v4mapped_any str a : addr_ok a → reads (mg_v4mapped str a).
Proof.
  intros Ha. unfold mg_v4mapped. destruct (Z.ltb_spec (zlen str) 14) as [|Hl]; [by eexists _, _|].
  destruct (rd_in_range str 0) as (c0 & E0 & _); [lia|]. destruct (rd_in_range str 1) as (c1 & E1 & _); [lia|].
  destruct (rd_in_range str 6) as (c6 & E6 & _); [lia|]. step E0. step E1. step E6.
  destruct (_ || _); [by eexists _, _|]. rewrite !rd_range_in by lia. step_bind.
  destruct (negb _); [by eexists _, _|].
  destruct (aton4_any (take (Z.to_nat (zlen str - 7)) (drop (Z.to_nat 7) str)) a Ha) as (ok & a' & E & Ha').
  step E. destruct ok; [|by eexists _, _]. eexists _, _. split; [done|]. destruct Ha' as [H1 H2].
  split; cbn; [done|]. rewrite !zlen_cons. lia.
Qed.

(** What the loop keeps at index [i]. *)
Record aton6_ok (i : Z) (s : aton6_state) : Prop := {
  a6_j_ok : 0 <= a6_j s <= i;
  a6_n_ok : 0 <= a6_n s <= 14;
  a6_dc_ok : a6_dc s = 42 ∨ 0 <= a6_dc s <= a6_n s;
  a6_size : zlen (a6_ip6 s) = 16;
}.

Lemma aton6_turn_any str i c p1 p2 s :
  0 <= i < zlen str → aton6_ok i s →
  ∃ r, aton6_turn str i c p1 p2 s = Ok r ∧ match r with Some s => aton6_ok (i + 1) s | None => True end.
Proof.
  intros Hi [Hj Hn Hdc Hz]. unfold aton6_turn. destruct (is_hex c).
  - destruct (Z.ltb_spec (a6_j s + 3) i); [by exists None|]. rewrite rd_range_in by lia. step_bind.
    set (val := mg_unhexn _).
    destruct (wr_range_in (a6_ip6 s) (a6_n s) [Z.land (Z.shiftr val 8) 255]) as (a & E & Ha); [lia|len|]. step E.
    destruct (wr_range_in a (a6_n s + 1) [Z.land val 255]) as (a' & E' & Ha'); [lia|len|]. step E'.
    eexists. split; [done|]. split; cbn; [lia|done|done|lia].
  - destruct (c =? 58); [|by exists None]. cbv zeta. set (twice := _ && (p1 =? 58)).
    destruct (_ && (p2 =? 58)); [by exists None|].
    set (n := if negb twice && _ then _ else _).
    assert (H1 : a6_n s <= n) by (unfold n; case_match; lia).
    destruct (Z.ltb_spec 14 n) as [|H2]; [by exists None|].
    destruct (wr_range_in (a6_ip6 s) (n + 1) [0]) as (a & E & Ha); [lia|len|]. step E.
    destruct (wr_range_in a n [0]) as (a' & E' & Ha'); [lia|len|]. step E'.
    eexists. split; [done|]. split; cbn; [lia|lia| |lia]. destruct twice; lia.
Qed.

Lemma aton6_loop_any str l i p1 p2 s :
  0 <= i → i + zlen l = zlen str → aton6_ok i s →
  ∃ ok s', aton6_loop str l i p1 p2 s = Ok (ok, s') ∧ zlen (a6_ip6 s') = 16
    ∧ (ok = true → aton6_ok (zlen str) s').
Proof.
  revert i p1 p2 s. induction l as [|c l IH]; intros i p1 p2 s Hi Hl Hs; cbn [aton6_loop].
  - rewrite zlen_nil in Hl. exists true, s. split; [done|]. split; [apply Hs|]. intros _. by replace (zlen str) with i by lia.
  - rewrite zlen_cons in Hl. pose proof (zlen_nonneg l).
    destruct (aton6_turn_any str i c p1 p2 s) as (r & E & Hr); [lia|done|]. step E.
    destruct r as [s'|]; [apply IH; [lia..|done]|]. exists false, s. split; [done|]. split; [apply Hs|done].
Qed.

Lemma aton6_spread_any i s :
  aton6_ok i s → (a6_n s <? 14) && (a6_dc s =? 42) = false →
  ∃ a, aton6_spread (a6_n s) (a6_dc s) (a6_ip6 s) = Ok a ∧ zlen a = 16.
Proof.
  intros [Hj Hn Hdc Hz] Hok. unfold aton6_spread. destruct (Z.ltb_spec (a6_n s) 14) as [Hl|]; [|by eexists].
  cbn [andb] in Hok. apply Z.eqb_neq in Hok. destruct Hdc as [|Hdc]; [done|].
  rewrite rd_range_in by lia. step_bind. set (tail := take _ _).
  assert (Ht : zlen tail = a6_n s - a6_dc s + 2) by (unfold tail; rewrite zlen_take by (rewrite zlen_drop; lia); done).
  destruct (wr_range_in (a6_ip6 s) (a6_dc s + (14 - a6_n s)) tail) as (a & E & Ha); [lia..|]. step E.
  destruct (wr_range_in a (a6_dc s) (zeros (14 - a6_n s))) as (a' & E' & Ha'); [lia|rewrite zeros_length; lia|].
  exists a'. split; [done|lia].
Qed.

Lemma aton6_any str a : addr_ok a → reads (mg_aton6 str a).
Proof.
  intros Ha. unfold mg_aton6.
  assert (Es : ∃ str', (if 2 <? zlen str
         then c ← rd str 0; if c =? 91 then rd_range str 1 (zlen str - 2) else Ok str
         else Ok str) = Ok str').
  { destruct (Z.ltb_spec 2 (zlen str)); [|by eexists]. destruct (rd_in_range str 0) as (c & E & _); [lia|]. step E.
    destruct (c =? 91); [|by eexists]. rewrite rd_range_in by lia. by eexists. }
  destruct Es as (s & E). step E.
  destruct (v4mapped_any s a Ha) as (mapped & a1 & E1 & Ha1). step E1. destruct mapped; [by eexists _, _|].
  destruct Ha1 as [H1 H2].
  destruct (aton6_loop_any s s 0 0 0 (mk_aton6 0 0 42 (ip6 a1))) as (ok & st & E2 & Hz & Hok);
    [lia|lia|split; cbn; [lia|lia|by left|done]|]. step E2.
  destruct ok; cbn [negb orb]; [|by eexists _, _].
  destruct (_ && _) eqn:Ed; [by eexists _, _|].
  destruct (aton6_spread_any _ _ (Hok eq_refl) Ed) as (a' & E3 & Hl). step E3. by eexists _, _.
Qed.

(** Whatever the host of the URL is, [mg_aton] comes to its end inside the text and
    inside the address: every index into the four and the sixteen bytes of the address is
    in range, the spreading of a double colon included. *)
Theorem aton_safe str addr : addr_ok addr → reads (mg_aton str addr).
Proof.
  intros Ha. unfold mg_aton, mg_atone. destruct (0 <? zlen str).
  2:{ eexists _, _. split; [done|]. by destruct Ha. }
  unfold mg_atonl. destruct (vcasecmp_any str (mk_str 0 (zlen str)) (bytes_of "localhost")) as (d & E).
  { unfold inside. cbn. pose proof (zlen_nonneg str). lia. }
  step E. destruct (negb (d =? 0)).
  - destruct (aton4_any str addr Ha) as (ok & a1 & E1 & Ha1). step E1. destruct ok; [by eexists _, _|].
    by apply aton6_any.
  - eexists _, _. split; [done|]. by destruct Ha.
Qed.

(** ** Which hosts are IPv4 addresses *)

(** A number of at most 255 in decimal, with leading zeros if one likes. *)
Definition octet (ds : list Z) (v : Z) : Prop :=
  ds ≠ [] ∧ Forall is_digit ds ∧ read_digits ds 0 = v ∧ v <= 255.

Definition dotted_quad (s : list Z) (a b c d : Z) : Prop :=
  ∃ da db dc dd, s = da ++ 46 :: db ++ 46 :: dc ++ 46 :: dd
    ∧ octet da a ∧ octet db b ∧ octet dc c ∧ octet dd d.

Lemma read_digits_above ds v : Forall is_digit ds → 0 <= v → v <= read_digits ds v.
Proof.
  intros Hd. revert v. induction Hd as [|c ds Hc _ IH]; intros v Hv; cbn [read_digits]; [lia|].
  unfold is_digit in Hc. repeat dec_if. cbn [andb]. specialize (IH (v * 10 + (c - 48)) ltac:(lia)). lia.
Qed.

(** A run of digits. *)
Lemma aton4_digits ds l i prev pre v post :
  Forall is_digit ds → 0 <= v →
  aton4_loop (ds ++ l) i prev (pre ++ v :: post) (zlen pre)
  = if bool_decide (ds = []) || (read_digits ds v <=? 255)
    then aton4_loop l (i + zlen ds) (default prev (last ds)) (pre ++ read_digits ds v :: post) (zlen pre)
    else Ok None.
Proof.
  intros Hd. revert i prev v. induction Hd as [|c ds Hc Hd IH]; intros i prev v Hv.
  { cbn [app read_digits bool_decide orb]. by rewrite zlen_nil, Z.add_0_r. }
  rewrite bool_decide_eq_false_2 by done. cbn [orb app aton4_loop read_digits].
  pose proof Hc as Hc'. unfold is_digit in Hc'. repeat dec_if. cbn [andb].
  rewrite (rd_app_r pre), Z.sub_diag by lia. step rd_cons_0.
  pose proof (read_digits_above ds (v * 10 + (c - 48)) Hd ltac:(lia)) as Ha.
  destruct (Z.ltb_spec 255 (v * 10 + (c - 48))) as [Hb|Hb].
  { by rewrite (proj2 (Z.leb_gt _ _)) by lia. }
  pose proof (wr_range_mid pre [v] post [u8 (v * 10 + (c - 48))] eq_refl) as Ew. cbn [app] in Ew.
  step Ew. rewrite u8_id by (unfold is_byte; lia). rewrite IH by lia.
  rewrite last_cons. replace (i + 1 + zlen ds) with (i + zlen (c :: ds)) by len.
  destruct ds as [|c' ds]; cbn [bool_decide orb].
  - cbn [read_digits]. by rewrite (proj2 (Z.leb_le _ 255)) by lia.
  - rewrite bool_decide_eq_false_2 by done. cbn [orb]. destruct (last (c' :: ds)) eqn:El; [done|].
    by apply last_None in El.
Qed.

Lemma span_digits l : ∃ ds rest, l = ds ++ rest ∧ Forall is_digit ds
  ∧ match rest with c :: _ => ¬ is_digit c | [] => True end.
Proof.
  induction l as [|c l (ds & rest & -> & Hd & Hr)]; [by exists [], []|].
  destruct (decide (is_digit c)); [exists (c :: ds), rest; by auto|].
  exists [], (c :: ds ++ rest). split; [done|]. by split.
Qed.

(** What is at the front of a text the loop takes. *)
Lemma aton4_segment l i prev pre post p data n :
  (i = 0 ∨ prev = 46) → 0 <= i → aton4_loop l i prev (pre ++ 0 :: post) (zlen pre) = Ok (Some (p, (data, n))) →
  ∃ ds, Forall is_digit ds ∧ (ds = [] ∨ read_digits ds 0 <= 255)
    ∧ ((l = ds ∧ data = pre ++ read_digits ds 0 :: post ∧ n = zlen pre ∧ p = default prev (last ds))
       ∨ ∃ l', l = ds ++ 46 :: l' ∧ ds ≠ [] ∧ zlen pre < 3
           ∧ aton4_loop l' (i + zlen ds + 1) 46 (pre ++ read_digits ds 0 :: post) (zlen pre + 1)
             = Ok (Some (p, (data, n)))).
Proof.
  intros Hi Hi0. destruct (span_digits l) as (ds & rest & -> & Hd & Hr). rewrite aton4_digits by done.
  destruct (_ || _) eqn:Eb; [|done]. intros E. exists ds. split; [done|]. split.
  { apply orb_true_iff in Eb as [Eb%bool_decide_eq_true_1|Eb%Z.leb_le]; auto. }
  destruct rest as [|c rest]; [left; cbn [aton4_loop] in E; injection E as -> -> ->; by rewrite app_nil_r|].
  right. cbn [aton4_loop] in E. replace ((48 <=? c) && (c <=? 57)) with false in E.
  2:{ symmetry. apply andb_false_iff. unfold is_digit in Hr. rewrite Z.leb_gt, Z.leb_gt. lia. }
  destruct (Z.eqb_spec c 46) as [->|]; [|done]. destruct (Z.leb_spec 3 (zlen pre)); [done|]. cbn [orb] in E.
  destruct (Z.eqb_spec (i + zlen ds) 0) as [|Hz]; [done|]. cbn [orb] in E.
  exists rest. destruct ds as [|x ds].
  - rewrite zlen_nil, Z.add_0_r in Hz. destruct Hi as [?| ->]; [lia|]. done.
  - destruct (_ =? 46); [done|]. by repeat split.
Qed.

(** A segment that is there. *)
Lemma aton4_octet ds v l i prev pre post :
  octet ds v → aton4_loop (ds ++ l) i prev (pre ++ 0 :: post) (zlen pre)
  = aton4_loop l (i + zlen ds) (default prev (last ds)) (pre ++ v :: post) (zlen pre)
  ∧ default prev (last ds) ≠ 46 ∧ 0 < zlen ds.
Proof.
  intros (Hne & Hd & <- & Hv). rewrite aton4_digits by done.
  rewrite (proj2 (Z.leb_le _ 255)), orb_true_r by done. split; [done|].
  destruct (last ds) as [x|] eqn:El; [|by apply last_None in El]. cbn. split.
  - apply last_Some in El as [l' ->]. apply Forall_app in Hd as [_ [Hx _]%Forall_cons_1]. unfold is_digit in Hx. lia.
  - destruct ds; [done|len].
Qed.

Lemma aton4_dot l i prev data k :
  k < 3 → 0 < i → prev ≠ 46 → aton4_loop (46 :: l) i prev data k = aton4_loop l (i + 1) 46 data (k + 1).
Proof. intros Hk Hi Hp. cbn [aton4_loop]. repeat dec_if. by rewrite andb_false_r || done. Qed.

Lemma aton4_quad str addr a b c d :
  mg_aton4 str addr = Ok (true, set_ip addr [a; b; c; d]) ↔ dotted_quad str a b c d.
Proof.
  unfold mg_aton4. split.
  - intros ([[p [data n]]|] & E & E')%bind_is_ok; [|done].
    destruct (_ || _) eqn:Ez; [done|]. apply orb_false_iff in Ez as [En Ep].
    apply negb_false_iff, Z.eqb_eq in En as ->. apply Z.eqb_neq in Ep. injection E' as ->.
    destruct (aton4_segment str 0 0 [] [0; 0; 0] p [a; b; c; d] 3) as (da & Da & Va & [(_ & _ & ? & _)|(l1 & -> & Na & _ & E1)]);
      [by left|done|done|done|].
    destruct (aton4_segment l1 (0 + zlen da + 1) 46 [read_digits da 0] [0; 0] p [a; b; c; d] 3)
      as (db & Db & Vb & [(_ & _ & ? & _)|(l2 & -> & Nb & _ & E2)]); [by right|len|done|done|].
    destruct (aton4_segment l2 (0 + zlen da + 1 + zlen db + 1) 46 [read_digits da 0; read_digits db 0] [0] p [a; b; c; d] 3)
      as (dc & Dc & Vc & [(_ & _ & ? & _)|(l3 & -> & Nc & _ & E3)]); [by right|len|done|done|].
    destruct (aton4_segment l3 (0 + zlen da + 1 + zlen db + 1 + zlen dc + 1) 46
      [read_digits da 0; read_digits db 0; read_digits dc 0] [] p [a; b; c; d] 3)
      as (dd & Dd & Vd & [(-> & Ed & _ & Ep')|(l4 & _ & _ & ? & _)]); [by right|len|done| |done].
    injection Ed as -> -> -> ->. exists da, db, dc, dd. split; [done|].
    assert (Nd : dd ≠ []) by (intros ->; done).
    repeat split; try done; tauto.
  - intros (da & db & dc & dd & -> & Ha & Hb & Hc & Hd).
    destruct (aton4_octet da a (46 :: db ++ 46 :: dc ++ 46 :: dd) 0 0 [] [0; 0; 0] Ha) as (E & P & L).
    change ([] ++ 0 :: [0; 0; 0]) with [0; 0; 0; 0] in E. change (zlen []) with 0 in E. rewrite E; clear E.
    rewrite aton4_dot by (done || lia).
    destruct (aton4_octet db b (46 :: dc ++ 46 :: dd) (0 + zlen da + 1) 46 [a] [0; 0] Hb) as (E & P' & L').
    change ([a] ++ 0 :: [0; 0]) with ([] ++ a :: [0; 0; 0]) in E. change (zlen [a]) with (0 + 1) in E. rewrite E; clear E.
    rewrite aton4_dot by (done || lia).
    destruct (aton4_octet dc c (46 :: dd) (0 + zlen da + 1 + zlen db + 1) 46 [a; b] [0] Hc) as (E & P'' & L'').
    change ([a; b] ++ 0 :: [0]) with ([a] ++ b :: [0; 0]) in E. change (zlen [a; b]) with (0 + 1 + 1) in E. rewrite E; clear E.
    rewrite aton4_dot by (done || lia).
    destruct (aton4_octet dd d [] (0 + zlen da + 1 + zlen db + 1 + zlen dc + 1) 46 [a; b; c] [] Hd) as (E & P3 & L3).
    rewrite app_nil_r in E. change ([a; b; c] ++ 0 :: []) with ([a; b] ++ c :: [0]) in E.
    change (zlen [a; b; c]) with (0 + 1 + 1 + 1) in E. rewrite E; clear E. cbn [aton4_loop]. step_bind.
    rewrite (proj2 (Z.eqb_neq _ 46)) by done. done.
Qed.

(** C21: The hosts that are taken for IPv4 addresses are the dotted quads and no other:
    four decimal numbers of at most 255 with a dot between two, and the address stored is
    their four bytes. *)
Theorem aton4_correct str addr a b c d :
  mg_aton4 str addr = Ok (true, set_ip addr [a; b; c; d]) ↔ dotted_quad str a b c d.
Proof. apply aton4_quad. Qed.

(** A dotted quad is not taken for a name. *)
Lemma quad_head str a b c d : dotted_quad str a b c d → ∃ x l, str = x :: l ∧ is_digit x.
Proof.
  intros (da & db & dc & dd & -> & (Hne & Hd & _) & _). destruct da as [|x da]; [done|].
  apply Forall_cons in Hd as [Hx _]. by exists x, (da ++ 46 :: db ++ 46 :: dc ++ 46 :: dd).
Qed.

Lemma digit_no_name x : is_digit x → (mg_lower x - mg_lower 108 =? 0) = false.
Proof.
  unfold is_digit. intros Hx. apply Z.eqb_neq.
  change (mg_lower 108) with 108. unfold mg_lower, schar. repeat case_match; lia.
Qed.

Lemma aton_quad str addr a b c d :
  dotted_quad str a b c d → mg_aton str addr = Ok (true, set_ip addr [a; b; c; d]).
Proof.
  intros Hq. pose proof (proj2 (aton4_quad str addr a b c d) Hq) as E4.
  destruct (quad_head _ _ _ _ _ Hq) as (x & l & -> & Hx). unfold mg_aton, mg_atone.
  rewrite (proj2 (Z.ltb_lt 0 _)) by (pose proof (zlen_nonneg l); len).
  assert (E : ∃ n, mg_atonl (x :: l) addr = Ok (if negb (n =? 0) then (false, addr) else (true, set_ip addr [127; 0; 0; 1]))
                ∧ n ≠ 0).
  { unfold mg_atonl, mg_vcasecmp. cbn [str_len ptr].
    set (k := if zlen (x :: l) <? _ then _ else _).
    assert (Ek : ∃ n, Z.to_nat k = S n).
    { exists (pred (Z.to_nat k)). assert (1 <= k); [|lia]. unfold k. change (zlen (bytes_of "localhost")) with 9.
      pose proof (zlen_nonneg l). destruct (_ <? _); len. }
    destruct Ek as [n ->]. cbn [mg_ncasecmp]. change (rd (x :: l) 0) with (Ok x).
    change (rd (bytes_of "localhost" ++ [0]) 0) with (Ok 108). step_bind.
    pose proof (digit_no_name x Hx) as Hne. rewrite Hne. cbn [andb]. step_bind. rewrite Hne. eexists. split; [done|]. by apply Z.eqb_neq. }
  destruct E as (n & E & Hn). step E. rewrite (proj2 (Z.eqb_neq n 0)) by done. cbn [negb]. by step E4.
Qed.

(** Its bytes mean nothing in a URL. *)
Lemma quad_bytes str a b c d : dotted_quad str a b c d → Forall (λ x, x = 46 ∨ is_digit x) str.
Proof.
  intros (da & db & dc & dd & -> & (_ & Ha & _) & (_ & Hb & _) & (_ & Hc & _) & (_ & Hd & _)).
  assert (H : ∀ l, Forall is_digit l → Forall (λ x, x = 46 ∨ is_digit x) l).
  { intros l Hl. eapply Forall_impl; [exact Hl|]. by right. }
  repeat (apply Forall_app; split; [by apply H|]; apply Forall_cons; split; [by left|]). by apply H.
Qed.

Lemma aton_safe_witness :
  reads (mg_aton (bytes_of "[::ffff:10.0.0.1]") (mk_addr [0; 0; 0; 0] (replicate 16 0) false)).
Proof. apply aton_safe. by vm_compute. Defined.
