(* ===== verification/MgDns.v ===== *)
(** * MgDns: messages of the resolver

    Models the reading and writing of DNS messages in [src/websocket/mongoose.cpp]:
    [mg_dns_parse_name_depth], [mg_dns_parse_rr], [mg_dns_parse] and the packet that
    [mg_dns_send] builds.  The bytes come from whoever answers on the port of the resolver.
    The requests under way are in [MgPoll]. *)

From S2P Require Import Prelude.
From S2P Require Import Utils.
From S2P Require Import MgIobuf.
From S2P Require Import MgAton.
From S2P Require Import MgSafety.

(** ** Names *)

(** [to[j] = c] if [j] is inside. *)
Definition put_byte (dst : list Z) (j c : Z) : outcome (list Z) :=
  if j <? zlen dst then wr_range dst j [c] else Ok dst.

(** The [while] of [mg_dns_parse_name_depth] over the message [s]; [rec] reads the name at a
    pointer.  [None] is [return 0], [Some i] the end of the loop. *)
Fixpoint name_loop (rec : Z → list Z → outcome (Z * list Z)) (fuel : nat) (s : list Z) (ofs i j : Z)
    (dst : list Z) : outcome (option Z * list Z) :=
  match fuel with
  | O => Hang
  | S fuel =>
      if negb (ofs + i + 1 <? zlen s) then Ok (Some i, dst) else
      n ← rd s (ofs + i);
      if n =? 0 then Ok (Some (i + 1), dst) else
      if negb (Z.land n 192 =? 0) then
        low ← rd s (ofs + i + 1);
        let ptr := Z.lor (Z.shiftl (Z.land n 63) 8) low in
        if ptr + 1 <? zlen s then
          c ← rd s ptr;
          if Z.land c 192 =? 0 then
            r ← rec ptr dst;
            let '(k, dst) := r in
            if k =? 0 then Ok (None, dst) else Ok (Some (i + 2), dst)
          else Ok (Some (i + 2), dst)
        else Ok (Some (i + 2), dst)
      else
      if zlen s <=? ofs + i + n + 1 then Ok (None, dst) else
      dst ← (if 0 <? j then put_byte dst j 46 else Ok dst);
      let j := if 0 <? j then j + 1 else j in
      dst ← (if j + n <? zlen dst
             then label ← rd_range s (ofs + i + 1) n; wr_range dst j label else Ok dst);
      let j := j + n in
      let i := i + n + 1 in
      dst ← put_byte dst j 0;
      name_loop rec fuel s ofs i j dst
  end.

(** [more] is how much deeper the reader may go: [depth] is [6 - more]. *)
Fixpoint mg_dns_parse_name_depth (more : nat) (s : list Z) (ofs : Z) (dst : list Z) : outcome (Z * list Z) :=
  dst ← put_byte dst 0 0;
  match more with
  | O => Ok (0, dst)
  | S more =>
      r ← name_loop (mg_dns_parse_name_depth more s) (S (length s)) s ofs 0 0 dst;
      match r with
      | (None, dst) => Ok (0, dst)
      | (Some i, dst) =>
          dst ← (if 0 <? zlen dst then wr_range dst (zlen dst - 1) [0] else Ok dst);
          Ok (i, dst)
      end
  end.

Definition mg_dns_parse_name (s : list Z) (ofs : Z) (dst : list Z) : outcome (Z * list Z) :=
  mg_dns_parse_name_depth 6 s ofs dst.

(** ** Records *)

Record mg_dns_rr := mk_rr {
  nlen : Z;
  atype : Z;
  aclass : Z;
  alen : Z;
}.

Definition no_rr : mg_dns_rr := mk_rr 0 0 0 0.

Definition sizeof_header : Z := 12.

Definition mg_dns_parse_rr (buf : list Z) (ofs : Z) (is_question : bool) : outcome (Z * mg_dns_rr) :=
  let len := zlen buf in
  if len <? sizeof_header then Ok (0, no_rr) else
  if 512 <? len then Ok (0, no_rr) else
  if len <=? ofs then Ok (0, no_rr) else
  r ← mg_dns_parse_name buf ofs [];
  let nlen := u16 r.1 in
  if nlen =? 0 then Ok (0, no_rr) else
  let s := ofs + nlen + 4 in
  if len <? s then Ok (0, mk_rr nlen 0 0 0) else
  atype ← rd_be16 buf (s - 4);
  aclass ← rd_be16 buf (s - 2);
  if is_question then Ok (nlen + 4, mk_rr nlen atype aclass 0) else
  let s := s + 6 in
  if len <? s then Ok (0, mk_rr nlen atype aclass 0) else
  alen ← rd_be16 buf (s - 2);
  if len <? s + alen then Ok (0, mk_rr nlen atype aclass alen) else
  Ok (nlen + alen + 10, mk_rr nlen atype aclass alen).

(** ** Messages *)

Record mg_dns_message := mk_dns {
  txnid : Z;
  resolved : bool;
  addr : mg_addr;
  name : list Z;
}.

Definition no_addr : mg_addr := mk_addr [0; 0; 0; 0] (replicate 16 0) false.

Fixpoint dns_questions (n : nat) (buf : list Z) (ofs : Z) : outcome (option Z) :=
  match n with
  | O => Ok (Some ofs)
  | S n =>
      r ← mg_dns_parse_rr buf ofs true;
      if r.1 =? 0 then Ok None else dns_questions n buf (ofs + r.1)
  end.

(** [false] is the early [return false]. *)
Fixpoint dns_answers (n : nat) (buf : list Z) (ofs : Z) (dm : mg_dns_message) : outcome (bool * mg_dns_message) :=
  match n with
  | O => Ok (true, dm)
  | S n =>
      r ← mg_dns_parse_rr buf ofs false;
      let '(k, rr) := r in
      if k =? 0 then Ok (false, dm) else
      r ← mg_dns_parse_name buf ofs (name dm);
      let dm := mk_dns (txnid dm) (resolved dm) (addr dm) r.2 in
      let ofs := ofs + k in
      if (alen rr =? 4) && (atype rr =? 1) && (aclass rr =? 1) then
        x ← rd_range buf (ofs - 4) 4;
        Ok (true, mk_dns (txnid dm) true (set_ip (addr dm) x) (name dm))
      else if (alen rr =? 16) && (atype rr =? 28) && (aclass rr =? 1) then
        x ← rd_range buf (ofs - 16) 16;
        Ok (true, mk_dns (txnid dm) true (mk_addr (ip (addr dm)) x true) (name dm))
      else dns_answers n buf ofs dm
  end.

Definition mg_dns_parse (buf : list Z) : outcome (bool * mg_dns_message) :=
  let dm := mk_dns 0 false no_addr (replicate 256 0) in
  if zlen buf <? sizeof_header then Ok (false, dm) else
  id ← rd_be16 buf 0;
  questions ← rd_be16 buf 4;
  answers ← rd_be16 buf 6;
  if 1 <? questions then Ok (false, dm) else
  if 10 <? answers then Ok (false, dm) else
  let dm := mk_dns id false no_addr (replicate 256 0) in
  r ← dns_questions (Z.to_nat questions) buf sizeof_header;
  match r with
  | Some ofs => dns_answers (Z.to_nat answers) buf ofs dm
  | None => Ok (false, dm)
  end.

(** ** The query

    [ptr] is the name and what follows it in memory, [len] its length; [data] are the
    [256] bytes of [pkt.data]. *)
Fixpoint query_loop (fuel : nat) (ptr : list Z) (len i n : Z) (data : list Z) : outcome (list Z * Z) :=
  match fuel with
  | O => Ok (data, n)
  | S fuel =>
      c ← rd ptr i;
      r ← (if (c =? 46) || (len <=? i) then
             data ← wr_range data n [u8 (i - n)];
             label ← rd_range ptr n (i - n);
             data ← wr_range data (n + 1) label;
             Ok (data, i + 1)
           else Ok (data, n));
      let '(data, n) := r in
      if len <=? i then Ok (data, n) else query_loop fuel ptr len (i + 1) n data
  end.

(** The bytes that are sent. *)
Definition mg_dns_send (ptr : list Z) (len txnid : Z) (ipv6 : bool) : outcome (list Z) :=
  r ← query_loop 251 ptr len 0 0 (zeros 256);
  let '(data, n) := r in
  data ← wr_range data n [0; 0; 1; 0; 1];
  let n := n + 5 in
  data ← (if ipv6 then wr_range data (n - 3) [28] else Ok data);
  question ← rd_range data 0 n;
  Ok (be16_bytes txnid ++ be16_bytes 256 ++ be16_bytes 1 ++ [0; 0; 0; 0; 0; 0] ++ question).

(** ** Whatever comes back *)

Lemma put_byte_any dst j c : 0 <= j → ∃ dst', put_byte dst j c = Ok dst' ∧ zlen dst' = zlen dst.
Proof.
  intros Hj. unfold put_byte. destruct (Z.ltb_spec j (zlen dst)); [|by exists dst].
  apply wr_range_in; [done|]. rewrite zlen_cons, zlen_nil. lia.
Qed.

(** A reader of names: it ends, and the buffer for the name keeps its size. *)
Definition reader_ok (rec : Z → list Z → outcome (Z * list Z)) : Prop :=
  ∀ ofs dst, 0 <= ofs → ∃ k dst', rec ofs dst = Ok (k, dst') ∧ 0 <= k ∧ zlen dst' = zlen dst.

Section any_message.
Context (s : list Z).
Hypothesis Hs : is_bytes s.

(** A label, copied if there is room. *)
Lemma copy_label dst ofs n j :
  0 <= ofs → 0 <= n → ofs + n <= zlen s → 0 <= j →
  ∃ dst', (if j + n <? zlen dst then label ← rd_range s ofs n; wr_range dst j label else Ok dst) = Ok dst'
    ∧ zlen dst' = zlen dst.
Proof.
  intros Ho Hn Hl Hj. destruct (Z.ltb_spec (j + n) (zlen dst)); [|by exists dst].
  rewrite rd_range_in by lia. step_bind. apply wr_range_in; [done|].
  rewrite zlen_take by (rewrite zlen_drop; lia). lia.
Qed.

Lemma name_loop_any rec fuel ofs i j dst :
  reader_ok rec → 0 <= ofs → 0 <= i → 0 <= j → zlen s - ofs - i < Z.of_nat fuel → 0 < Z.of_nat fuel →
  ∃ r dst', name_loop rec fuel s ofs i j dst = Ok (r, dst') ∧ zlen dst' = zlen dst
    ∧ match r with Some k => 0 <= k | None => True end.
Proof.
  intros Hrec Ho. revert i j dst. induction fuel as [|fuel IH]; intros i j dst Hi Hj Hf Hf0; [lia|].
  cbn [name_loop]. destruct (Z.ltb_spec (ofs + i + 1) (zlen s)) as [L|L]; cbn [negb]; [|by exists (Some i), dst].
  destruct (rd_byte s (ofs + i) Hs) as (n & En & Hn); [lia|]. step En. unfold is_byte in Hn.
  destruct (n =? 0); [exists (Some (i + 1)), dst; split; [done|]; split; [done|lia]|].
  destruct (negb (Z.land n 192 =? 0)).
  - destruct (rd_byte s (ofs + i + 1) Hs) as (low & El & Hl); [lia|]. step El. cbv zeta.
    set (p := Z.lor _ _). assert (Hp : 0 <= p).
    { unfold p. apply Z.lor_nonneg. unfold is_byte in Hl. split; [|lia].
      apply Z.shiftl_nonneg, Z.land_nonneg. lia. }
    destruct (Z.ltb_spec (p + 1) (zlen s)); [|exists (Some (i + 2)), dst; split; [done|]; split; [done|lia]].
    destruct (rd_byte s p Hs) as (c & Ec & _); [lia|]. step Ec.
    destruct (_ =? 0); [|exists (Some (i + 2)), dst; split; [done|]; split; [done|lia]].
    destruct (Hrec p dst Hp) as (k & dst' & Er & Hk & Hd). step Er.
    destruct (k =? 0); [by exists None, dst'|exists (Some (i + 2)), dst'; split; [done|]; split; [done|lia]].
  - destruct (Z.leb_spec (zlen s) (ofs + i + n + 1)); [by exists None, dst|].
    assert (Hdot : ∃ d1, (if 0 <? j then put_byte dst j 46 else Ok dst) = Ok d1 ∧ zlen d1 = zlen dst).
    { destruct (0 <? j); [by apply put_byte_any|by exists dst]. }
    destruct Hdot as (d1 & E1 & Hd1). step E1. cbv zeta. set (j1 := if 0 <? j then j + 1 else j).
    assert (Hj1 : 0 <= j1) by (unfold j1; case_match; lia).
    destruct (copy_label d1 (ofs + i + 1) n j1) as (d2 & E2 & Hd2); [lia..|]. step E2.
    destruct (put_byte_any d2 (j1 + n) 0) as (d3 & E3 & Hd3); [lia|]. step E3.
    destruct (IH (i + n + 1) (j1 + n) d3) as (r & d4 & E4 & Hd4 & Hr); [lia..|].
    exists r, d4. split; [done|]. split; [lia|done].
Qed.

Lemma name_depth_any more : reader_ok (mg_dns_parse_name_depth more s).
Proof.
  induction more as [|more IH]; intros ofs dst Ho; cbn [mg_dns_parse_name_depth].
  - destruct (put_byte_any dst 0 0) as (d & E & Hd); [lia|]. step E. by exists 0, d.
  - destruct (put_byte_any dst 0 0) as (d & E & Hd); [lia|]. step E.
    destruct (name_loop_any _ (S (length s)) ofs 0 0 d IH) as (r & d' & E' & Hd' & Hr); [lia..|unfold zlen; lia|lia|].
    step E'. destruct r as [k|]; [|exists 0, d'; split; [done|]; split; [lia|congruence]].
    assert (Hz : ∃ d2, (if 0 <? zlen d' then wr_range d' (zlen d' - 1) [0] else Ok d') = Ok d2 ∧ zlen d2 = zlen d').
    { destruct (Z.ltb_spec 0 (zlen d')); [|by exists d']. apply wr_range_in; [lia|]. rewrite zlen_cons, zlen_nil. lia. }
    destruct Hz as (d2 & E2 & Hd2). step E2. exists k, d2. split; [done|]. split; [done|congruence].
Qed.

Lemma rd_be16_any i : 0 <= i → i + 2 <= zlen s → ∃ x, rd_be16 s i = Ok x ∧ 0 <= x < 65536.
Proof.
  intros Hi Hl. unfold rd_be16. destruct (rd_byte s i Hs) as (a & Ea & Ha); [lia|].
  destruct (rd_byte s (i + 1) Hs) as (b & Eb & Hb); [lia|]. step Ea. step Eb. eexists. split; [done|].
  unfold is_byte in *. lia.
Qed.

(** The size of a record, if it is one: the record is inside. *)
Lemma parse_rr_any ofs q :
  0 <= ofs →
  ∃ k rr, mg_dns_parse_rr s ofs q = Ok (k, rr)
    ∧ (k = 0 ∨ 0 < k ∧ ofs + k <= zlen s ∧ (q = false → 0 <= alen rr <= k)).
Proof.
  intros Ho. unfold mg_dns_parse_rr. destruct (zlen s <? _); [by eexists _, _; auto|].
  destruct (512 <? zlen s); [by eexists _, _; auto|]. destruct (zlen s <=? ofs); [by eexists _, _; auto|].
  destruct (name_depth_any 6 ofs [] Ho) as (k & d & E & Hk & _). unfold mg_dns_parse_name. step E.
  pose proof (u16_range k) as Hu. cbn [fst]. set (n := u16 k) in *.
  destruct (Z.eqb_spec n 0); [by eexists _, _; auto|].
  destruct (Z.ltb_spec (zlen s) (ofs + n + 4)); [by eexists _, _; auto|].
  destruct (rd_be16_any (ofs + n + 4 - 4)) as (a & Ea & _); [lia..|]. step Ea.
  destruct (rd_be16_any (ofs + n + 4 - 2)) as (c & Ec & _); [lia..|]. step Ec.
  destruct q; [eexists _, _; split; [done|]; right; split; [lia|]; split; [lia|done]|].
  destruct (Z.ltb_spec (zlen s) (ofs + n + 4 + 6)); [by eexists _, _; auto|].
  destruct (rd_be16_any (ofs + n + 4 + 6 - 2)) as (l & El & Hl); [lia..|]. step El.
  destruct (Z.ltb_spec (zlen s) (ofs + n + 4 + 6 + l)); [by eexists _, _; auto|].
  eexists _, _. split; [done|]. right. cbn. lia.
Qed.

Lemma questions_any n ofs :
  0 <= ofs → ∃ r, dns_questions n s ofs = Ok r ∧ match r with Some o => 0 <= o | None => True end.
Proof.
  revert ofs. induction n as [|n IH]; intros ofs Ho; cbn [dns_questions]; [by eexists|].
  destruct (parse_rr_any ofs true Ho) as (k & rr & E & Hk). step E. cbn [fst].
  destruct (Z.eqb_spec k 0); [by exists None|]. apply IH. lia.
Qed.

Definition dns_ok (dm : mg_dns_message) : Prop := zlen (name dm) = 256 ∧ addr_ok (addr dm).

Lemma answers_any n ofs dm :
  0 <= ofs → dns_ok dm → ∃ ok dm', dns_answers n s ofs dm = Ok (ok, dm') ∧ dns_ok dm' ∧ txnid dm' = txnid dm.
Proof.
  revert ofs dm. induction n as [|n IH]; intros ofs dm Ho Hd; cbn [dns_answers]; [by eexists _, _|].
  destruct (parse_rr_any ofs false Ho) as (k & rr & E & Hk). step E.
  destruct (Z.eqb_spec k 0); [by eexists _, _|]. destruct Hk as [?|(K1 & K2 & K3)]; [done|]. specialize (K3 eq_refl).
  destruct Hd as [Hn [Ha1 Ha2]].
  destruct (name_depth_any 6 ofs (name dm) Ho) as (k' & d & E' & _ & Hd). unfold mg_dns_parse_name. step E'.
  cbn [snd txnid resolved addr name]. rewrite Hn in Hd.
  destruct (Z.eqb_spec (alen rr) 4) as [E4|]; cbn [andb].
  - destruct (_ && _).
    + rewrite rd_range_in by lia. step_bind. eexists _, _. split; [done|]. split; [|done]. split; [done|].
      split; cbn; [|done]. rewrite zlen_take by (rewrite zlen_drop; lia). done.
    + rewrite E4. cbn [Z.eqb Pos.eqb andb]. apply (IH (ofs + k) (mk_dns _ _ _ _)); [lia|]. by split.
  - destruct (Z.eqb_spec (alen rr) 16); cbn [andb].
    2:{ apply (IH (ofs + k) (mk_dns _ _ _ _)); [lia|]. by split. }
    destruct (_ && _); [|apply (IH (ofs + k) (mk_dns _ _ _ _)); [lia|]; by split].
    rewrite rd_range_in by lia. step_bind. eexists _, _. split; [done|]. split; [|done]. split; [done|].
    split; cbn; [done|]. rewrite zlen_take by (rewrite zlen_drop; lia). done.
Qed.

Lemma dns_parse_any : ∃ ok dm, mg_dns_parse s = Ok (ok, dm) ∧ dns_ok dm.
Proof.
  unfold mg_dns_parse. assert (H0 : ∀ id, dns_ok (mk_dns id false no_addr (replicate 256 0))) by (by vm_compute).
  destruct (Z.ltb_spec (zlen s) sizeof_header) as [|Hl]; [by eexists _, _|]. unfold sizeof_header in Hl.
  destruct (rd_be16_any 0) as (id & E1 & _); [lia..|]. step E1.
  destruct (rd_be16_any 4) as (nq & E2 & _); [lia..|]. step E2.
  destruct (rd_be16_any 6) as (na & E3 & _); [lia..|]. step E3.
  destruct (1 <? nq); [by eexists _, _|]. destruct (10 <? na); [by eexists _, _|].
  destruct (questions_any (Z.to_nat nq) sizeof_header) as (r & E4 & Hr); [done|]. step E4.
  destruct r as [ofs|]; [|by eexists _, _].
  destruct (answers_any (Z.to_nat na) ofs _ Hr (H0 id)) as (ok & dm & E5 & Hd & _). by eexists _, _.
Qed.
End any_message.

(** C19: Whatever arrives on the port of the resolver, reading it comes to its end and stays
    inside the datagram and inside the message: names with pointers back into the message
    are followed at most five deep, a name too long for its buffer is cut, and an address
    is copied only from a record that is all there. *)
Theorem dns_parse_safe buf : is_bytes buf → ∃ ok dm, mg_dns_parse buf = Ok (ok, dm) ∧ dns_ok dm.
Proof. apply dns_parse_any. Qed.

(** ** A question and its answer *)

Fixpoint dotted (ls : list (list Z)) : list Z :=
  match ls with
  | [] => []
  | [l] => l
  | l :: ls => l ++ 46 :: dotted ls
  end.

(** A name on the wire, without the zero at its end. *)
Definition qname (ls : list (list Z)) : list Z := concat ((λ l, zlen l :: l) <$> ls).

Definition label_ok (l : list Z) : Prop := 1 <= zlen l <= 63 ∧ Forall (λ c, c ≠ 46) l.

Lemma dotted_cons l l' ls : dotted (l :: l' :: ls) = l ++ 46 :: dotted (l' :: ls).
Proof. done. Qed.

Lemma qname_cons l ls : qname (l :: ls) = (zlen l :: l) ++ qname ls.
Proof. done. Qed.

Lemma qname_zlen ls : ls ≠ [] → zlen (qname ls) = zlen (dotted ls) + 1.
Proof.
  induction ls as [|l [|l' ls] IH]; intros Hne; [done| |].
  - rewrite qname_cons. cbn [dotted]. change (qname []) with (@nil Z). len.
  - rewrite qname_cons, dotted_cons, zlen_app, IH by done. len.
Qed.

(** *** Writing the question *)

(** Over the bytes of a label nothing is written. *)
Lemma query_label ptr pre l rest fuel n data len :
  ptr = pre ++ l ++ rest → Forall (λ c, c ≠ 46) l → zlen pre + zlen l <= len →
  query_loop (length l + fuel) ptr len (zlen pre) n data = query_loop fuel ptr len (zlen pre + zlen l) n data.
Proof.
  intros Ep Hl. revert pre Ep. induction Hl as [|c l Hc _ IH]; intros pre Ep Hlen.
  { by rewrite zlen_nil, Z.add_0_r. }
  assert (Er : rd ptr (zlen pre) = Ok c) by (rewrite Ep, rd_app_r, Z.sub_diag by lia; apply rd_cons_0).
  cbn [length Nat.add query_loop]. step Er. rewrite zlen_cons in Hlen. pose proof (zlen_nonneg l).
  rewrite (proj2 (Z.eqb_neq c 46)), (proj2 (Z.leb_gt len _)) by (done || lia). cbn [orb]. step_bind.
  replace (zlen pre + 1) with (zlen (pre ++ [c])) by len.
  rewrite IH; [f_equal; len|by rewrite Ep, <- !app_assoc|len].
Qed.

(** At the dot, or at the end, the label goes out with its length in front. *)
Lemma query_flush A R l :
  zlen l <= 63 → zlen l + 1 <= zlen R →
  ∃ R', wr_range (A ++ R) (zlen A) [u8 (zlen l)] = Ok (A ++ zlen l :: drop 1 R)
    ∧ wr_range (A ++ zlen l :: drop 1 R) (zlen A + 1) l = Ok ((A ++ zlen l :: l) ++ R')
    ∧ zlen R' = zlen R - zlen l - 1.
Proof.
  intros Hl HR. pose proof (zlen_nonneg l). destruct R as [|x R]; [len|]. rewrite zlen_cons in HR.
  rewrite u8_id by (unfold is_byte; lia).
  exists (drop (length l) R). split; [|split].
  - apply (wr_range_mid A [x] R [zlen l]). done.
  - cbn [drop]. replace ((A ++ zlen l :: l) ++ drop (length l) R) with ((A ++ [zlen l]) ++ l ++ drop (length l) R)
      by (by rewrite <- !app_assoc).
    apply (wr_range_at _ _ _ (take (length l) R)); [by rewrite take_drop, <- app_assoc|len|].
    unfold zlen in *. rewrite length_take. lia.
  - rewrite zlen_cons. unfold zlen in *. rewrite length_drop. lia.
Qed.

Lemma query_run ls : ∀ pre A R fuel rest x,
  ls ≠ [] → Forall label_ok ls → zlen A = zlen pre → zlen (dotted ls) < Z.of_nat fuel →
  zlen (dotted ls) + 1 <= zlen R →
  let ptr := pre ++ dotted ls ++ x :: rest in let len := zlen (pre ++ dotted ls) in
  ∃ R', query_loop fuel ptr len (zlen pre) (zlen pre) (A ++ R) = Ok ((A ++ qname ls) ++ R', len + 1)
    ∧ zlen R' = zlen R - zlen (qname ls).
Proof.
  induction ls as [|l ls IH]; intros pre A R fuel rest x Hne Hls HA Hf HR; [done|]. cbv zeta.
  apply Forall_cons_1 in Hls as [[Hl Hd] Hls].
  assert (Hfl : ∃ m, fuel = (length l + S m)%nat ∧ (ls ≠ [] → zlen (dotted ls) < Z.of_nat m)).
  { destruct ls as [|l' ls].
    - cbn [dotted] in Hf. exists (fuel - length l - 1)%nat. split; [unfold zlen in *; lia|done].
    - rewrite dotted_cons in Hf. exists (fuel - length l - 1)%nat. unfold zlen in *. rewrite length_app in Hf. cbn [length] in Hf.
      split; [lia|]. intros _. lia. }
  destruct Hfl as (m & -> & Hm).
  assert (HRl : zlen l + 1 <= zlen R).
  { destruct ls as [|l' ls]; [done|]. rewrite dotted_cons in HR. clear -HR. len. }
  destruct (query_flush A R l) as (R1 & W1 & W2 & HR1); [lia|done|]. rewrite HA in W1, W2.
  set (tl := match ls with [] => [] | _ => 46 :: dotted ls end).
  assert (Edot : dotted (l :: ls) = l ++ tl) by (unfold tl; destruct ls; [by rewrite app_nil_r|done]).
  rewrite Edot. set (ptr := pre ++ (l ++ tl) ++ x :: rest).
  assert (Ep : ptr = pre ++ l ++ tl ++ x :: rest) by (unfold ptr; by rewrite <- (app_assoc l)).
  rewrite (query_label ptr pre l _ _ _ _ _ Ep Hd) by (clear; len). cbn [query_loop].
  assert (Elab : rd_range ptr (zlen pre) (zlen pre + zlen l - zlen pre) = Ok l).
  { replace (zlen pre + zlen l - zlen pre) with (zlen l) by lia. rewrite Ep. apply rd_range_app. }
  assert (Ec : ∃ c, rd ptr (zlen pre + zlen l) = Ok c ∧ c = match ls with [] => x | _ => 46 end).
  { rewrite Ep, (app_assoc pre), rd_app_r by (clear; len). rewrite zlen_app, Z.sub_diag.
    unfold tl. destruct ls; cbn [app]; rewrite rd_cons_0; by eexists. }
  destruct Ec as (c & Ec & Hc). step Ec.
  assert (Eout : (c =? 46) || (zlen (pre ++ l ++ tl) <=? zlen pre + zlen l) = true).
  { destruct ls; [|by rewrite Hc]. apply orb_true_iff. right. apply Z.leb_le. unfold tl. rewrite app_nil_r. clear. len. }
  rewrite Eout. replace (zlen pre + zlen l - zlen pre) with (zlen l) in * by lia.
  step W1. step Elab. step W2. rewrite zlen_app. destruct ls as [|l' ls].
  - unfold tl. rewrite app_nil_r, (proj2 (Z.leb_le _ _)) by lia. exists R1. split.
    + change (qname [l]) with ((zlen l :: l) ++ []). rewrite app_nil_r. done.
    + change (qname [l]) with ((zlen l :: l) ++ []). rewrite app_nil_r, zlen_cons. lia.
  - unfold tl in *. rewrite (proj2 (Z.leb_gt _ _)) by (clear; len).
    destruct (IH (pre ++ l ++ [46]) (A ++ zlen l :: l) R1 m rest x) as (R2 & E2 & HR2); [done|done|len|by apply Hm| |].
    { rewrite dotted_cons in HR. rewrite zlen_app, zlen_cons in HR. lia. }
    exists R2. cbv zeta in E2.
    replace ((pre ++ l ++ [46]) ++ dotted (l' :: ls) ++ x :: rest) with ptr in E2.
    2:{ rewrite Ep. by rewrite <- !app_assoc. }
    replace (zlen pre + zlen l + 1) with (zlen (pre ++ l ++ [46])) by (clear; len).
    replace (zlen pre + zlen (l ++ 46 :: dotted (l' :: ls))) with (zlen ((pre ++ l ++ [46]) ++ dotted (l' :: ls)))
      by (clear; len).
    rewrite E2. rewrite (qname_cons l). split; [by rewrite <- !app_assoc|]. rewrite zlen_app, zlen_cons. lia.
Qed.

(** The packet of the question. *)
Definition question (ls : list (list Z)) (id : Z) : list Z :=
  be16_bytes id ++ [1; 0; 0; 1; 0; 0; 0; 0; 0; 0] ++ qname ls ++ [0; 0; 1; 0; 1].

Lemma dns_send_question ls id x rest :
  ls ≠ [] → Forall label_ok ls → zlen (dotted ls) <= 250 →
  mg_dns_send (dotted ls ++ x :: rest) (zlen (dotted ls)) id false = Ok (question ls id).
Proof.
  intros Hne Hls Hl. unfold mg_dns_send. pose proof (zlen_nonneg (dotted ls)) as H0.
  pose proof (qname_zlen ls Hne) as Hq.
  destruct (query_run ls [] [] (zeros 256) 251 rest x) as (R & E & HR); [done|done|done|lia|rewrite zeros_length; lia|].
  rewrite zeros_length in HR by lia. cbv zeta in E. cbn [app] in E. change (zlen []) with 0 in E. step E.
  replace (zlen (dotted ls) + 1) with (zlen (qname ls)) by lia.
  assert (H5 : zlen (take 5 R) = 5) by (unfold zlen in *; rewrite length_take; lia).
  assert (Ew : wr_range (qname ls ++ R) (zlen (qname ls)) [0; 0; 1; 0; 1] = Ok (qname ls ++ [0; 0; 1; 0; 1] ++ drop 5 R))
    by (apply (wr_range_at _ _ _ (take 5 R)); [by rewrite take_drop|done|by rewrite H5]).
  step Ew. replace (zlen (qname ls) + 5) with (zlen (qname ls ++ [0; 0; 1; 0; 1])) by len.
  rewrite app_assoc. pose proof (rd_range_app [] (qname ls ++ [0; 0; 1; 0; 1]) (drop 5 R)) as Er.
  cbn [app] in Er. change (zlen []) with 0 in Er. step Er. reflexivity.
Qed.

(** *** Reading a name *)

Lemma land_label n : 1 <= n <= 63 → Z.land n 192 = 0.
Proof. intros Hn. revert n Hn. assert (H : ∀ n, 0 <= n < 64 → Z.land n 192 = 0) by by_table. intros. apply H. lia. Qed.

Lemma name_run rec ls : ∀ pre T fuel ofs i j,
  Forall label_ok ls → T ≠ [] → ofs + i = zlen pre → 0 <= j → (length ls < fuel)%nat →
  name_loop rec fuel (pre ++ qname ls ++ 0 :: T) ofs i j [] = Ok (Some (i + zlen (qname ls) + 1), []).
Proof.
  assert (Hp : ∀ k c, 0 <= k → put_byte [] k c = Ok []).
  { intros k c Hk. unfold put_byte. rewrite zlen_nil. by rewrite (proj2 (Z.ltb_ge k 0)). }
  induction ls as [|l ls IH]; intros pre T fuel ofs i j Hls HT Ho Hj Hf; (destruct fuel as [|fuel]; [lia|]); cbn [name_loop].
  - change (i + zlen (qname []) + 1) with (i + 0 + 1). cbn [qname fmap list_fmap concat app]. destruct T as [|t T]; [done|].
    rewrite Ho, (proj2 (Z.ltb_lt _ _)) by (clear; len). cbn [negb].
    rewrite (rd_app_r pre _ (zlen pre)), Z.sub_diag by lia. step rd_cons_0. cbn [Z.eqb]. by rewrite Z.add_0_r.
  - apply Forall_cons_1 in Hls as [[Hl Hd] Hls]. rewrite (qname_cons l), <- (app_assoc (zlen l :: l)). cbn [app].
    rewrite Ho, (proj2 (Z.ltb_lt _ _)) by (clear - Hl; len). cbn [negb].
    rewrite (rd_app_r pre _ (zlen pre)), Z.sub_diag by lia. step rd_cons_0.
    rewrite (proj2 (Z.eqb_neq (zlen l) 0)) by lia. rewrite land_label by done. cbn [negb Z.eqb].
    rewrite (proj2 (Z.leb_gt _ (zlen pre + zlen l + 1))) by (destruct T; [done|clear -Hl; len]).
    assert (Hdot : (if 0 <? j then put_byte [] j 46 else Ok []) = Ok []) by (case_match; [by apply Hp|done]).
    step Hdot. set (j1 := if 0 <? j then j + 1 else j). assert (Hj1 : 0 <= j1) by (unfold j1; case_match; lia).
    change (zlen (@nil Z)) with 0. rewrite (proj2 (Z.ltb_ge (j1 + zlen l) 0)) by lia. step_bind. step (Hp (j1 + zlen l) 0) by lia.
    replace (pre ++ zlen l :: l ++ qname ls ++ 0 :: T) with ((pre ++ zlen l :: l) ++ qname ls ++ 0 :: T)
      by (by rewrite <- app_assoc).
    rewrite IH; [|done|done|rewrite zlen_app, zlen_cons; lia|lia|cbn [length] in Hf; lia].
    do 2 f_equal. f_equal. rewrite zlen_cons, zlen_app. lia.
Qed.

(** *** Reading the answer *)

(** A reply that repeats the question and gives one address, by a pointer to the name. *)
Definition answer (ls : list (list Z)) (id : Z) (ttl x : list Z) : list Z :=
  be16_bytes id ++ [129; 128; 0; 1; 0; 1; 0; 0; 0; 0] ++ qname ls
  ++ [0; 0; 1; 0; 1] ++ [192; 12; 0; 1; 0; 1] ++ ttl ++ [0; 4] ++ x.

Lemma rd_be16_mid pre a b rest i : i = zlen pre → rd_be16 (pre ++ a :: b :: rest) i = Ok (a * 256 + b).
Proof.
  intros ->. unfold rd_be16. rewrite (rd_app_r pre _ (zlen pre)), Z.sub_diag by lia. step rd_cons_0.
  rewrite (rd_app_r pre _ (zlen pre + 1)) by lia. replace (zlen pre + 1 - zlen pre) with 1 by lia.
  rewrite rd_cons_S by lia. by step rd_cons_0.
Qed.

Lemma name_depth_run more ls pre T :
  Forall label_ok ls → T ≠ [] →
  mg_dns_parse_name_depth (S more) (pre ++ qname ls ++ 0 :: T) (zlen pre) [] = Ok (zlen (qname ls) + 1, []).
Proof.
  intros Hls HT. cbn [mg_dns_parse_name_depth]. change (put_byte [] 0 0) with (Ok (@nil Z)). step_bind.
  rewrite name_run; [done|done|done|lia|lia|]. rewrite !length_app.
  assert (length ls <= length (qname ls))%nat; [|lia].
  clear. induction ls as [|l ls IH]; [done|]. rewrite qname_cons, length_app. cbn [length]. lia.
Qed.

(** The record of the question: a name, its type and its class. *)
Lemma parse_question ls pre T :
  Forall label_ok ls → ls ≠ [] → 12 <= zlen pre → zlen (pre ++ qname ls ++ [0; 0; 1; 0; 1] ++ T) <= 512 →
  mg_dns_parse_rr (pre ++ qname ls ++ [0; 0; 1; 0; 1] ++ T) (zlen pre) true
  = Ok (zlen (qname ls) + 5, mk_rr (zlen (qname ls) + 1) 1 1 0).
Proof.
  intros Hls Hne Hpre Hl. set (s := pre ++ qname ls ++ [0; 0; 1; 0; 1] ++ T) in *.
  assert (Hs : zlen s = zlen pre + zlen (qname ls) + 5 + zlen T) by (unfold s; clear; len).
  pose proof (zlen_nonneg (qname ls)). pose proof (zlen_nonneg T).
  unfold mg_dns_parse_rr, sizeof_header. cbv zeta. repeat dec_if. unfold mg_dns_parse_name.
  assert (En : mg_dns_parse_name_depth 6 s (zlen pre) [] = Ok (zlen (qname ls) + 1, []))
    by (apply name_depth_run; done).
  step En. cbn [fst]. rewrite u16_id by lia. repeat dec_if.
  assert (Ea : rd_be16 s (zlen pre + (zlen (qname ls) + 1) + 4 - 4) = Ok 1).
  { unfold s. replace (pre ++ qname ls ++ [0; 0; 1; 0; 1] ++ T) with ((pre ++ qname ls ++ [0]) ++ 0 :: 1 :: 0 :: 1 :: T)
      by (by rewrite <- !app_assoc). rewrite rd_be16_mid; [done|len]. }
  assert (Ec : rd_be16 s (zlen pre + (zlen (qname ls) + 1) + 4 - 2) = Ok 1).
  { unfold s. replace (pre ++ qname ls ++ [0; 0; 1; 0; 1] ++ T) with ((pre ++ qname ls ++ [0; 0; 1]) ++ 0 :: 1 :: T)
      by (by rewrite <- !app_assoc). rewrite rd_be16_mid; [done|len]. }
  step Ea. step Ec. do 2 f_equal. lia.
Qed.

(** A pointer to a name. *)
Lemma name_pointer more s ofs p k c :
  0 <= p → rd s ofs = Ok 192 → rd s (ofs + 1) = Ok p → p + 1 < zlen s → ofs + 1 < zlen s →
  rd s p = Ok c → Z.land c 192 = 0 → 0 < k → mg_dns_parse_name_depth more s p [] = Ok (k, []) →
  mg_dns_parse_name_depth (S more) s ofs [] = Ok (2, []).
Proof.
  intros Hp E0 E1 L1 L0 Ec Hc Hk Ek.
  change (mg_dns_parse_name_depth (S more) s ofs []) with
    (r ← name_loop (mg_dns_parse_name_depth more s) (S (length s)) s ofs 0 0 [];
     match r with
     | (None, dst) => Ok (0, dst)
     | (Some i, dst) => dst ← (if 0 <? zlen dst then wr_range dst (zlen dst - 1) [0] else Ok dst); Ok (i, dst)
     end).
  cbn [name_loop]. rewrite !Z.add_0_r. rewrite (proj2 (Z.ltb_lt _ _) L0). cbn [negb]. step E0.
  change (192 =? 0) with false. change (Z.land 192 192 =? 0) with false. cbn [negb]. step E1.
  change (Z.shiftl (Z.land 192 63) 8) with 0. rewrite Z.lor_0_l, (proj2 (Z.ltb_lt _ _) L1). step Ec.
  rewrite Hc. cbn [Z.eqb]. step Ek. by rewrite (proj2 (Z.eqb_neq k 0)) by lia.
Qed.

(** The record of the address, whose name points to the question. *)
Lemma parse_address s pre ttl x :
  s = pre ++ [192; 12; 0; 1; 0; 1] ++ ttl ++ [0; 4] ++ x → zlen ttl = 4 → zlen x = 4 →
  14 <= zlen pre → zlen s <= 512 → (∀ more, ∃ k, 0 < k ∧ mg_dns_parse_name_depth (S more) s 12 [] = Ok (k, [])) →
  (∃ c, rd s 12 = Ok c ∧ Z.land c 192 = 0) →
  mg_dns_parse_rr s (zlen pre) false = Ok (16, mk_rr 2 1 1 4).
Proof.
  intros Es Ht Hx Hpre Hl Hname (c & Ec & Hc).
  assert (Hs : zlen s = zlen pre + 16) by (rewrite Es, !zlen_app, Ht, Hx; clear; len).
  unfold mg_dns_parse_rr, sizeof_header. cbv zeta. repeat dec_if. unfold mg_dns_parse_name.
  assert (En : mg_dns_parse_name_depth 6 s (zlen pre) [] = Ok (2, [])).
  { destruct (Hname 4%nat) as (k & Hk & Ek). apply (name_pointer 5 s (zlen pre) 12 k c); try done; [| |lia..].
    - by rewrite Es, (rd_app_r pre _ (zlen pre)), Z.sub_diag by lia.
    - rewrite Es, (rd_app_r pre) by lia. by replace (zlen pre + 1 - zlen pre) with 1 by lia. }
  step En. cbn [fst]. change (u16 2) with 2. cbn [Z.eqb]. repeat dec_if.
  assert (Ea : rd_be16 s (zlen pre + 2 + 4 - 4) = Ok 1).
  { rewrite Es. replace (pre ++ [192; 12; 0; 1; 0; 1] ++ ttl ++ [0; 4] ++ x)
      with ((pre ++ [192; 12]) ++ 0 :: 1 :: 0 :: 1 :: ttl ++ [0; 4] ++ x) by (by rewrite <- !app_assoc).
    rewrite rd_be16_mid; [done|rewrite zlen_app; change (zlen [192; 12]) with 2; lia]. }
  assert (Eb : rd_be16 s (zlen pre + 2 + 4 - 2) = Ok 1).
  { rewrite Es. replace (pre ++ [192; 12; 0; 1; 0; 1] ++ ttl ++ [0; 4] ++ x)
      with ((pre ++ [192; 12; 0; 1]) ++ 0 :: 1 :: ttl ++ [0; 4] ++ x) by (by rewrite <- !app_assoc).
    rewrite rd_be16_mid; [done|rewrite zlen_app; change (zlen [192; 12; 0; 1]) with 4; lia]. }
  assert (El : rd_be16 s (zlen pre + 2 + 4 + 6 - 2) = Ok 4).
  { rewrite Es. replace (pre ++ [192; 12; 0; 1; 0; 1] ++ ttl ++ [0; 4] ++ x)
      with ((pre ++ [192; 12; 0; 1; 0; 1] ++ ttl) ++ 0 :: 4 :: x) by (by rewrite <- !app_assoc).
    rewrite rd_be16_mid; [done|rewrite !zlen_app, Ht; change (zlen [192; 12; 0; 1; 0; 1]) with 6; lia]. }
  step Ea. step Eb. step El. repeat dec_if. done.
Qed.

Lemma qname_bytes ls : Forall label_ok ls → Forall is_bytes ls → is_bytes (qname ls).
Proof.
  intros Hls Hb. induction Hls as [|l ls [Hl _] _ IH]; [constructor|]. apply Forall_cons_1 in Hb as [Hb Hbs].
  rewrite qname_cons. apply is_bytes_app. split; [|by apply IH]. constructor; [unfold is_byte; lia|done].
Qed.

Lemma answer_parsed ls id ttl x :
  ls ≠ [] → Forall label_ok ls → Forall is_bytes ls → zlen (dotted ls) <= 250 → 0 <= id < 65536 →
  is_bytes ttl → zlen ttl = 4 → is_bytes x → zlen x = 4 →
  ∃ n, mg_dns_parse (answer ls id ttl x) = Ok (true, mk_dns id true (set_ip no_addr x) n).
Proof.
  intros Hne Hls Hbs Hl Hid Hbt Ht Hbx Hx. set (s := answer ls id ttl x).
  set (hdr := be16_bytes id ++ [129; 128; 0; 1; 0; 1; 0; 0; 0; 0]).
  set (q := hdr ++ qname ls ++ [0; 0; 1; 0; 1]).
  set (rr := [192; 12; 0; 1; 0; 1] ++ ttl ++ [0; 4] ++ x).
  pose proof (qname_zlen ls Hne) as Hq.
  assert (Eh : zlen hdr = 12) by (unfold hdr; rewrite zlen_app, zlen_be16; done).
  assert (Es1 : s = hdr ++ qname ls ++ [0; 0; 1; 0; 1] ++ rr) by (unfold s, answer, hdr, rr; by rewrite <- !app_assoc).
  assert (Es2 : s = q ++ rr) by (rewrite Es1; unfold q; by rewrite <- !app_assoc).
  assert (Hzr : zlen rr = 16) by (unfold rr; rewrite !zlen_app, Ht, Hx; done).
  assert (Hzq : zlen q = zlen (qname ls) + 17) by (unfold q; rewrite !zlen_app, Eh; change (zlen [0; 0; 1; 0; 1]) with 5; lia).
  assert (Hs : zlen s = zlen (qname ls) + 33) by (rewrite Es2, zlen_app; lia).
  assert (Hb : is_bytes s).
  { rewrite Es1. unfold hdr, rr. rewrite !is_bytes_app.
    split_and!; try done; try (by apply be16_bytes_ok); try (by apply qname_bytes); unfold is_bytes, is_byte; by_table. }
  pose proof (zlen_nonneg (dotted ls)).
  unfold mg_dns_parse. rewrite (proj2 (Z.ltb_ge _ _)) by (unfold sizeof_header; lia).
  assert (E0 : rd_be16 s 0 = Ok id).
  { unfold s, answer. rewrite <- (u16_id id Hid) at 2. apply (be16_roundtrip []). }
  assert (E4 : rd_be16 s 4 = Ok 1 ∧ rd_be16 s 6 = Ok 1).
  { unfold s, answer. split.
    - change ([129; 128; 0; 1; 0; 1; 0; 0; 0; 0] ++ ?l) with ([129; 128] ++ 0 :: 1 :: 0 :: 1 :: 0 :: 0 :: 0 :: 0 :: l).
      rewrite app_assoc. by rewrite rd_be16_mid.
    - change ([129; 128; 0; 1; 0; 1; 0; 0; 0; 0] ++ ?l) with ([129; 128; 0; 1] ++ 0 :: 1 :: 0 :: 0 :: 0 :: 0 :: l).
      rewrite app_assoc. by rewrite rd_be16_mid. }
  destruct E4 as [E4 E6]. step E0. step E4. step E6. cbn [Z.ltb Z.compare Pos.compare Pos.compare_cont].
  change (Z.to_nat 1) with 1%nat. cbn [dns_questions]. unfold sizeof_header. rewrite <- Eh.
  pose proof (parse_question ls hdr rr Hls Hne ltac:(lia)) as Eq. rewrite <- Es1 in Eq. step Eq by lia. cbn [fst].
  rewrite (proj2 (Z.eqb_neq _ 0)) by lia. step_bind. cbn [dns_answers].
  replace (zlen hdr + (zlen (qname ls) + 5)) with (zlen q) by lia.
  assert (Hfirst : ∃ c, rd s 12 = Ok c ∧ Z.land c 192 = 0).
  { destruct ls as [|l ls]; [done|]. apply Forall_cons_1 in Hls as [[Hl1 _] _]. exists (zlen l).
    split; [|by apply land_label]. rewrite Es1, qname_cons, <- Eh. rewrite (rd_app_r hdr _ (zlen hdr)), Z.sub_diag by lia. done. }
  pose proof (parse_address s q ttl x Es2 Ht Hx ltac:(lia) ltac:(lia)) as Ea. step Ea.
  2:{ intros more. exists (zlen (qname ls) + 1). split; [lia|]. rewrite <- Eh, Es1. apply name_depth_run; [done|].
      by destruct rr. }
  2:{ done. }
  cbn [Z.eqb name txnid resolved addr alen atype aclass].
  destruct (name_depth_any s Hb 6 (zlen q) (replicate 256 0)) as (k & d & En & _); [lia|].
  unfold mg_dns_parse_name. step En. cbn [snd Z.eqb Pos.eqb andb].
  assert (Ex : rd_range s (zlen q + 16 - 4) 4 = Ok x).
  { rewrite Es2. unfold rr. replace (q ++ [192; 12; 0; 1; 0; 1] ++ ttl ++ [0; 4] ++ x)
      with ((q ++ [192; 12; 0; 1; 0; 1] ++ ttl ++ [0; 4]) ++ x ++ []) by (by rewrite app_nil_r, <- !app_assoc).
    replace (zlen q + 16 - 4) with (zlen (q ++ [192; 12; 0; 1; 0; 1] ++ ttl ++ [0; 4]))
      by (rewrite !zlen_app, Ht; change (zlen [192; 12; 0; 1; 0; 1]) with 6; change (zlen [0; 4]) with 2; lia).
    rewrite <- Hx. apply rd_range_app. }
  step Ex. by eexists.
Qed.

(** C18: A name is resolved as it was asked: for labels of at most 63 bytes, 250 in all, the
    packet of [mg_dns_send] is the question for that name under the number of the request;
    and of a reply that repeats the question and gives an address, the reader takes that
    number and those four bytes. *)
Theorem dns_exchange ls id x rest ttl addr :
  ls ≠ [] → Forall label_ok ls → Forall is_bytes ls → zlen (dotted ls) <= 250 → 0 <= id < 65536 →
  is_bytes ttl → zlen ttl = 4 → is_bytes addr → zlen addr = 4 →
  mg_dns_send (dotted ls ++ x :: rest) (zlen (dotted ls)) id false = Ok (question ls id)
  ∧ ∃ n, mg_dns_parse (answer ls id ttl addr) = Ok (true, mk_dns id true (set_ip no_addr addr) n).
Proof. intros. split; [by apply dns_send_question|by apply answer_parsed]. Qed.

(** ** Concrete runs *)

(** A name that points to itself. *)
Lemma dns_parse_safe_witness : ∃ ok dm,
  mg_dns_parse [0; 1; 129; 128; 0; 1; 0; 1; 0; 0; 0; 0; 192; 12; 0; 1; 0; 1; 0; 0; 0; 0; 0; 0; 0; 4; 1; 2; 3; 4] = Ok (ok, dm)
  ∧ dns_ok dm.
Proof. apply dns_parse_safe. unfold is_bytes, is_byte. by_table. Defined.

Definition sample_labels : list (list Z) := [bytes_of "rtc"; bytes_of "example"; bytes_of "org"].

Lemma dns_exchange_witness :
  mg_dns_send (bytes_of "rtc.example.org" ++ [0]) 15 7 false = Ok (question sample_labels 7)
  ∧ ∃ n, mg_dns_parse (answer sample_labels 7 [0; 0; 0; 60] [10; 0; 0; 9])
         = Ok (true, mk_dns 7 true (set_ip no_addr [10; 0; 0; 9]) n).
Proof.
  apply (dns_exchange sample_labels 7 0 []).
  - done.
  - unfold sample_labels, label_ok. repeat apply Forall_cons_2; [split; [vm_compute; split; discriminate|by_table]..|apply Forall_nil_2].
  - unfold sample_labels, is_bytes, is_byte. repeat apply Forall_cons_2; [by_table..|apply Forall_nil_2].
  - by vm_compute.
  - lia.
  - unfold is_bytes, is_byte. by_table.
  - reflexivity.
  - unfold is_bytes, is_byte. by_table.
  - reflexivity.
Defined.
