(* ===== verification/MgPoll.v ===== *)
(** * MgPoll: the connections of the client

    Models the manager of connections of [src/websocket/mongoose.cpp] as the client of the
    program drives it: [mg_connect], [mg_resolve] and [mg_connect_resolved] open a
    connection, [mg_mgr_poll] with [mg_iotest] moves all of them one turn, [close_conn] and
    [mg_close_conn] end them, [dns_cb] handles the connection to the resolver; and
    [WSClient::on_timer], [pulse] and [send_text] of [src/websocket/ws_client.cpp] on top,
    with the events of the library going to [WSClient::on_event_handle].

    A pointer to a connection is its number ([id]): using one that is not in the list of the
    manager is a use after free.  A descriptor is what [FD] gives: a connection comes from
    [calloc], so before its socket is there it has descriptor 0, and [-1] is the invalid
    one.  What the system calls answer in a turn is a parameter ([os]), as are the bytes of
    the random generator.  Connections that listen, TLS and draining are left out: nothing
    the client calls sets their flags.  The URL of the server is no [udp:] URL.  The
    callbacks of the application are recorded in the log, and so is what the client has the
    library do. *)

From S2P Require Import Prelude.
From S2P Require Import Utils.
From S2P Require Import MgIobuf.
From S2P Require Import MgWebsocket.
From S2P Require Import MgTimer.
From S2P Require Import MgConnect.
From S2P Require Import MgAton.
From S2P Require Import MgDns.
From S2P Require Import WSClient.
From S2P Require Import MgSession.

(** ** What can go wrong *)

Inductive mishap : Type :=
| use_after_free (id : Z)
| fd_set_overflow (fd : Z)
| bytes_fault
| out_of_fuel.

Inductive res (A : Type) : Type :=
| Done (a : A)
| Stop (m : mishap).

Arguments Done {A} a.
Arguments Stop {A} m.

#[global] Instance res_ret : MRet res := fun A a => Done a.
#[global] Instance res_map : FMap res := fun A B f m =>
  match m with Done a => Done (f a) | Stop e => Stop e end.
#[global] Instance res_bind : MBind res := fun A B f m =>
  match m with Done a => f a | Stop e => Stop e end.

(** The functions on bytes. *)
Definition lift {A} (m : outcome A) : res A :=
  match m with Ok a => Done a | Fault | Hang => Stop bytes_fault end.

(** ** The state *)

Inductive protocol : Type := no_pfn | mg_ws_cb | dns_cb.

Record conn := mk_conn {
  c_id : Z;
  c_fd : Z;
  c_fn : bool;             (* the handler is [ws_event_handler]; else there is none *)
  c_pfn : protocol;
  is_resolving : bool;
  is_connecting : bool;
  is_udp : bool;
  is_readable : bool;
  is_writable : bool;
  c_io : mg_connection;
}.

Record dns_data := mk_dns_data {
  d_conn : Z;
  d_expire : Z;
  d_txnid : Z;
}.

Record world := mk_world {
  conns : list conn;
  nextid : Z;
  fds : gset Z;            (* the descriptors the process has open *)
  s_reqs : list dns_data;
  dns4 : option Z;
  client : WSClient;
  timers : timer_state;
  log : list ws_effect;
}.

Definition set_conns (w : world) (cs : list conn) : world :=
  mk_world cs (nextid w) (fds w) (s_reqs w) (dns4 w) (client w) (timers w) (log w).
Definition set_fds (w : world) (s : gset Z) : world :=
  mk_world (conns w) (nextid w) s (s_reqs w) (dns4 w) (client w) (timers w) (log w).
Definition set_reqs (w : world) (l : list dns_data) : world :=
  mk_world (conns w) (nextid w) (fds w) l (dns4 w) (client w) (timers w) (log w).
Definition set_dns4 (w : world) (c : option Z) : world :=
  mk_world (conns w) (nextid w) (fds w) (s_reqs w) c (client w) (timers w) (log w).
Definition set_client (w : world) (c : WSClient) : world :=
  mk_world (conns w) (nextid w) (fds w) (s_reqs w) (dns4 w) c (timers w) (log w).
Definition set_timers (w : world) (t : timer_state) : world :=
  mk_world (conns w) (nextid w) (fds w) (s_reqs w) (dns4 w) (client w) t (log w).
Definition emit (w : world) (es : list ws_effect) : world :=
  mk_world (conns w) (nextid w) (fds w) (s_reqs w) (dns4 w) (client w) (timers w) (log w ++ es).

Definition set_io (c : conn) (io : mg_connection) : conn :=
  mk_conn (c_id c) (c_fd c) (c_fn c) (c_pfn c) (is_resolving c) (is_connecting c) (is_udp c)
    (is_readable c) (is_writable c) io.
Definition set_pfn (c : conn) (p : protocol) : conn :=
  mk_conn (c_id c) (c_fd c) (c_fn c) p (is_resolving c) (is_connecting c) (is_udp c)
    (is_readable c) (is_writable c) (c_io c).
Definition set_socket (c : conn) (fd : Z) (resolving connecting : bool) : conn :=
  mk_conn (c_id c) fd (c_fn c) (c_pfn c) resolving connecting (is_udp c)
    (is_readable c) (is_writable c) (c_io c).
Definition set_ready (c : conn) (r w : bool) : conn :=
  mk_conn (c_id c) (c_fd c) (c_fn c) (c_pfn c) (is_resolving c) (is_connecting c) (is_udp c) r w (c_io c).

Definition closing (c : conn) : bool := is_closing (c_io c).

(** *** Pointers *)

Fixpoint find_conn (id : Z) (cs : list conn) : option conn :=
  match cs with
  | [] => None
  | c :: cs => if c_id c =? id then Some c else find_conn id cs
  end.

Definition get_conn (id : Z) (w : world) : res conn :=
  match find_conn id (conns w) with Some c => Done c | None => Stop (use_after_free id) end.

(** [*c = ...]. *)
Definition put_conn (c : conn) (w : world) : world :=
  set_conns w ((λ c', if c_id c' =? c_id c then c else c') <$> conns w).

(** [c->next]. *)
Fixpoint next_conn (id : Z) (cs : list conn) : option Z :=
  match cs with
  | [] => None
  | c :: cs => if c_id c =? id then c_id <$> head cs else next_conn id cs
  end.

(** [LIST_DELETE]. *)
Definition remove_conn (id : Z) (w : world) : world :=
  set_conns w (filter (λ c, c_id c ≠ id) (conns w)).

(** ** The system *)

Inductive connect_answer : Type := connected | in_progress | refused.

Record os := mk_os {
  os_now : Z;                              (* [mg_millis] *)
  os_select : bool;                        (* [select] does not fail *)
  os_readable : Z → bool;                  (* by descriptor *)
  os_writable : Z → bool;
  os_socket : Z → gset Z → Z;              (* for a connection, when these are open *)
  os_connect : Z → connect_answer;
  os_so_error : Z → Z;
  os_recv : Z → option (list Z);           (* [None] is [-1]; no bytes: it would block *)
  os_send : Z → Z;                         (* [mg_sock_send] *)
  os_nonce : Z → list Z;
}.

Definition EAGAIN : Z := 11.
Definition FD_SETSIZE : Z := 1024.

Definition dns_url : list Z := bytes_of "udp://8.8.8.8:53".
Definition dnstimeout : Z := 3000.

(** ** Events *)

(** [c->fn]: the client handles the event. *)
Definition call_fn (c : conn) (e : ws_event) (w : world) : world :=
  if c_fn c then let '(es, this) := on_event_handle (client w) e in emit (set_client w this) es else w.

Definition mg_error (id : Z) (w : world) : res world :=
  c ← get_conn id w;
  let w := put_conn (set_io c (set_closing (c_io c))) w in
  Done (call_fn c MG_EV_ERROR w).

(** The loops of [dns_cb] over the requests. *)
Fixpoint dns_expire (reqs : list dns_data) (now : Z) (w : world) : res world :=
  match reqs with
  | [] => Done w
  | d :: reqs =>
      w ← (if d_expire d <? now then mg_error (d_conn d) w else Done w);
      dns_expire reqs now w
  end.

Fixpoint dns_fail (reqs : list dns_data) (w : world) : res world :=
  match reqs with
  | [] => Done (set_reqs w [])
  | d :: reqs => w ← mg_error (d_conn d) w; dns_fail reqs w
  end.

Definition mg_resolve_cancel (id : Z) (w : world) : world :=
  set_reqs w (filter (λ d, d_conn d ≠ id) (s_reqs w)).

(** ** Closing *)

Definition mg_close_conn (id : Z) (w : world) : res world :=
  let w := mg_resolve_cancel id w in
  c ← get_conn id w;
  let w := remove_conn id w in
  let w := if bool_decide (dns4 w = Some id) then set_dns4 w None else w in
  let w := call_fn c MG_EV_CLOSE w in
  match c_pfn c with
  | dns_cb => dns_fail (s_reqs w) w
  | mg_ws_cb | no_pfn => Done w
  end.

Definition close_conn (id : Z) (w : world) : res world :=
  c ← get_conn id w;
  let w := if negb (c_fd c =? -1)
           then put_conn (set_socket c 0 (is_resolving c) (is_connecting c)) (set_fds w (fds w ∖ {[c_fd c]}))
           else w in
  mg_close_conn id w.

(** ** Opening *)

Section polling.
Context (mg_random : nat → list Z) (o : os).

Definition mg_connect_resolved (id : Z) (w : world) : res world :=
  c ← get_conn id w;
  let fd := os_socket o id (fds w) in
  let c := set_socket c fd false (is_connecting c) in
  if fd =? -1 then mg_error id (put_conn c w) else
  let w := put_conn c (set_fds w ({[fd]} ∪ fds w)) in
  let w := call_fn c MG_EV_OTHER w in
  if is_udp c then Done (call_fn c MG_EV_OTHER w) else
  match os_connect o id with
  | connected => Done (call_fn c MG_EV_OTHER w)
  | in_progress => Done (put_conn (set_socket c fd false true) w)
  | refused => mg_error id w
  end.

(** [mg_send] on a datagram socket, with [iolog]; nothing is in the send buffer. *)
Definition send_datagram (id : Z) (w : world) : res world :=
  c ← get_conn id w;
  let n := os_send o id in
  if n <? 0 then Done (put_conn (set_io c (set_closing (c_io c))) w)
  else if 0 <? n then
    d ← lift (mg_iobuf_del (send (c_io c)) 0 n);
    Done (call_fn c MG_EV_OTHER (put_conn (set_io c (set_send (c_io c) d.2 (drawn (c_io c)))) w))
  else Done w.

(** [calloc], and the connection at the head of the list. *)
Definition mg_alloc_conn (url : list Z) (fn : bool) (w : world) : Z * world :=
  let id := nextid w + 1 in
  let c := mk_conn id 0 fn no_pfn false false (has_prefix (bytes_of "udp:") url) false false
             (mk_mg_connection empty_iobuf empty_iobuf 0 false true false 0) in
  (id, mk_world (c :: conns w) id (fds w) (s_reqs w) (dns4 w) (client w) (timers w) (log w)).

(** [connect_dns] opens the connection to the resolver. *)
Definition mg_sendnsreq (connect_dns : world → res (option Z * world)) (id : Z) (url host : list Z) (w : world)
    : res world :=
  w ← match dns4 w with
      | Some _ => Done w
      | None =>
          r ← connect_dns w;
          let '(dns, w) := r in
          match dns with
          | Some d => c ← get_conn d w; Done (set_dns4 (put_conn (set_pfn c dns_cb) w) (Some d))
          | None => Done w
          end
      end;
  match dns4 w with
  | None => mg_error id w
  | Some dns =>
      let txnid := match s_reqs w with d :: _ => u16 (d_txnid d + 1) | [] => 1 end in
      let w := set_reqs w (mk_dns_data id (os_now o + dnstimeout) txnid :: s_reqs w) in
      c ← get_conn id w;
      let w := put_conn (set_socket c (c_fd c) true (is_connecting c)) w in
      packet ← lift (mg_dns_send (drop (Z.to_nat (u_host (urlparse url))) (url ++ [0])) (zlen host) txnid false);
      send_datagram dns w
  end.

Definition mg_resolve (connect_dns : world → res (option Z * world)) (id : Z) (url : list Z) (w : world) : res world :=
  host ← lift (mg_url_host url);
  r ← lift (mg_aton host no_addr);
  if (r.1 : bool) then mg_connect_resolved id w else mg_sendnsreq connect_dns id url host w.

(** [mg_connect] of the URL of the resolver comes back to [mg_connect]: [depth] bounds how
    often. *)
Fixpoint mg_connect (depth : nat) (url : list Z) (fn : bool) (w : world) : res (option Z * world) :=
  match depth with
  | O => Stop out_of_fuel
  | S depth =>
      match url with
      | [] => Done (None, w)
      | _ =>
          let '(id, w) := mg_alloc_conn url fn w in
          c ← get_conn id w;
          w ← mg_resolve (mg_connect depth dns_url false) id url (call_fn c MG_EV_OTHER w);
          Done (Some id, w)
      end
  end.

Definition mg_ws_connect (url : list Z) (w : world) : res (option Z * world) :=
  r ← mg_connect 2 url true w;
  let '(conn, w) := r in
  match conn with
  | Some id =>
      request ← lift (ws_request url ctrl_protocol (os_nonce o id) (replicate 30 0));
      c ← get_conn id w;
      io ← lift (MgWebsocket.mg_send (c_io c) request);
      Done (Some id, put_conn (set_pfn (set_io c io) mg_ws_cb) w)
  | None => Done (None, w)
  end.

(** ** The timer *)

(** [WSClient::on_timer]. *)
Definition reconnect (w : world) : res world :=
  r ← mg_ws_connect (m_server_url (client w)) w;
  let '(conn, w) := r in
  let w := emit w [WSClient.mg_ws_connect (m_server_url (client w))] in
  Done (set_client w (set_connection (client w) conn (m_connected (client w)))).

Definition ws_send (w : world) (data : list Z) (op : Z) : res world :=
  match m_connection (client w) with
  | Some id =>
      c ← get_conn id w;
      r ← lift (MgWebsocket.mg_ws_send mg_random (c_io c) data op);
      Done (emit (put_conn (set_io c r.2) w) [WSClient.mg_ws_send (Some id) data op])
  | None => Stop (use_after_free 0)
  end.

Definition on_timer (w : world) : res world :=
  if m_connected (client w) then ws_send w [112; 105; 110; 103] WSClient.WEBSOCKET_OP_PING
  else
    match m_connection (client w) with
    | Some id =>
        w ← mg_close_conn id (emit w [WSClient.mg_close_conn id]);
        reconnect (set_client w (set_connection (client w) None (m_connected (client w))))
    | None => reconnect w
    end.

Fixpoint on_timers (calls : list timer_call) (w : world) : res world :=
  match calls with
  | [] => Done w
  | _ :: calls => w ← on_timer w; on_timers calls w
  end.

(** ** A turn *)

(** The descriptors [mg_iotest] asks for. *)
Definition watched (c : conn) : bool :=
  negb (closing c) && negb (is_resolving c) && negb (c_fd c =? -1).

Definition wants_write (c : conn) : bool :=
  watched c && (is_connecting c || (0 <? len (send (c_io c)))).

(** [FD_SET] and [FD_ISSET] of a descriptor outside of an [fd_set]. *)
Fixpoint fd_sets (cs : list conn) : res unit :=
  match cs with
  | [] => Done tt
  | c :: cs =>
      if negb (c_fd c =? -1) && (FD_SETSIZE <=? c_fd c) then Stop (fd_set_overflow (c_fd c)) else fd_sets cs
  end.

Definition mg_iotest (w : world) : res world :=
  _ ← fd_sets (conns w);
  let rset : gset Z := list_to_set (c_fd <$> filter (λ c, watched c = true) (conns w)) in
  let wset : gset Z := list_to_set (c_fd <$> filter (λ c, wants_write c = true) (conns w)) in
  let test (s : gset Z) (ready : Z → bool) (c : conn) : bool :=
    negb (c_fd c =? -1) && bool_decide (c_fd c ∈ s) && ready (c_fd c) && os_select o in
  Done (set_conns w ((λ c, set_ready c (test rset (os_readable o) c) (test wset (os_writable o) c)) <$> conns w)).

Definition connect_conn (id : Z) (w : world) : res world :=
  c ← get_conn id w;
  let rc := if os_so_error o id =? EAGAIN then 0 else os_so_error o id in
  let w := put_conn (set_socket c (c_fd c) (is_resolving c) false) w in
  if negb (rc =? 0) then mg_error id w else Done (call_fn c MG_EV_OTHER w).

(** The loop of [dns_cb] over the requests a reply may answer; what is left of them. *)
Fixpoint dns_reply (reqs : list dns_data) (dm : mg_dns_message) (w : world) : res (list dns_data * world) :=
  match reqs with
  | [] => Done ([], w)
  | d :: reqs =>
      if negb (txnid dm =? d_txnid d) then
        r ← dns_reply reqs dm w; Done (d :: r.1, r.2)
      else
        c ← get_conn (d_conn d) w;
        w ← (if is_resolving c
             then if resolved dm then mg_connect_resolved (d_conn d) w else mg_error (d_conn d) w
             else Done w);
        dns_reply reqs dm w
  end.

(** [dns_cb] on [MG_EV_READ]; [recv.len] is 0 again at the end. *)
Definition dns_read (id : Z) (w : world) : res world :=
  c ← get_conn id w;
  r ← lift (mg_dns_parse (content (recv (c_io c))));
  let '(ok, dm) := r in
  w ← (if (ok : bool)
       then r ← dns_reply (s_reqs w) dm w; Done (set_reqs r.2 r.1)
       else Done w);
  c ← get_conn id w;
  Done (put_conn (set_io c (set_recv (c_io c) (mk_mg_iobuf (buf (recv (c_io c))) 0) (pfn_data (c_io c)))) w).

(** What the handler does with the events of a read, in order. *)
Fixpoint feed (c : conn) (evs : list mg_event) (w : world) : res world :=
  match evs with
  | [] => Done w
  | e :: evs => e ← lift (to_client (client w) e); feed c evs (call_fn c e w)
  end.

Definition read_conn (id : Z) (w : world) : res world :=
  c ← get_conn id w;
  if MG_MAX_RECV_BUF_SIZE <=? len (recv (c_io c)) then mg_error id w else
  let io := set_recv (c_io c) (grown (c_io c)) (pfn_data (c_io c)) in
  match os_recv o id with
  | None => Done (put_conn (set_io c (set_closing io)) w)
  | Some [] => Done (put_conn (set_io c io) w)
  | Some data =>
      let w := call_fn c MG_EV_OTHER w in
      match c_pfn c with
      | mg_ws_cb =>
          r ← lift (MgWebsocket.read_conn mg_random (c_io c) data);
          feed c r.1 (put_conn (set_io c r.2) w)
      | dns_cb =>
          b ← lift (wr_range (buf (recv io)) (len (recv io)) data);
          dns_read id (put_conn (set_io c (set_recv io (mk_mg_iobuf b (len (recv io) + zlen data)) (pfn_data io))) w)
      | no_pfn =>
          b ← lift (wr_range (buf (recv io)) (len (recv io)) data);
          Done (put_conn (set_io c (set_recv io (mk_mg_iobuf b (len (recv io) + zlen data)) (pfn_data io))) w)
      end
  end.

Definition write_conn (id : Z) (w : world) : res world :=
  c ← get_conn id w;
  r ← lift (MgSession.write_conn (c_io c) (os_send o id));
  let w := put_conn (set_io c r.2) w in
  Done (if 0 <? os_send o id then call_fn c MG_EV_OTHER w else w).

(** The body of the [for]. *)
Definition poll_turn (id : Z) (w : world) : res world :=
  c ← get_conn id w;
  let w := call_fn c MG_EV_OTHER w in
  w ← (match c_pfn c with
       | dns_cb => dns_expire (s_reqs w) (os_now o) w
       | mg_ws_cb | no_pfn => Done w
       end);
  c ← get_conn id w;
  w ← (if is_resolving c || closing c then Done w
       else if is_connecting c then
         if is_readable c || is_writable c then connect_conn id w else Done w
       else
         w ← (if is_readable c then read_conn id w else Done w);
         c ← get_conn id w;
         if is_writable c then write_conn id w else Done w);
  c ← get_conn id w;
  if closing c then close_conn id w else Done w.

(** From [c] on; the next connection is looked up before the turn. *)
Fixpoint poll_loop (fuel : nat) (c : option Z) (w : world) : res world :=
  match c with
  | None => Done w
  | Some id =>
      match fuel with
      | O => Stop out_of_fuel
      | S fuel =>
          _ ← get_conn id w;
          let tmp := next_conn id (conns w) in
          w ← poll_turn id w;
          poll_loop fuel tmp w
      end
  end.

Definition mg_mgr_poll (w : world) : res world :=
  w ← mg_iotest w;
  let '(calls, t) := mg_timer_poll (os_now o) (timers w) in
  w ← on_timers calls (set_timers w t);
  poll_loop (length (conns w)) (c_id <$> head (conns w)) w.

(** [WSClient::send_text]. *)
Definition send_text (msg : list Z) (w : world) : res (bool * world) :=
  match m_connection (client w) with
  | Some _ =>
      if m_connected (client w)
      then w ← ws_send w msg WSClient.WEBSOCKET_OP_TEXT; Done (true, w) else Done (false, w)
  | None => Done (false, w)
  end.

(** The constructor of [WSClient]: [mg_timer_init] calls the timer at once. *)
Definition new_world (url : list Z) (open : gset Z) : res world :=
  let '(calls, t) := mg_timer_init 1 12000 (Z.lor MG_TIMER_REPEAT MG_TIMER_RUN_NOW) 1 1 (mk_timers [] 0) in
  on_timers calls (mk_world [] 0 open [] None (new_client url) t []).

(** [mg_mgr_free]. *)
Definition mg_mgr_free (w : world) : res world :=
  mg_mgr_poll (set_conns w ((λ c, set_io c (set_closing (c_io c))) <$> conns w)).
End polling.

(** ** From the constructor on *)

Section running.
Context (mg_random : nat → list Z).

(** What the program does with the client, in its own thread. *)
Inductive act : Type :=
| Pulse (o : os)
| Say (msg : list Z)
| Set_text (func : option Z) (arg : Z)
| Set_event (func : option Z) (arg : Z).

Definition client_act (a : act) (w : world) : res world :=
  match a with
  | Pulse o => mg_mgr_poll mg_random o w
  | Say msg => snd <$> send_text mg_random msg w
  | Set_text func arg => Done (set_client w (set_text_received_func (client w) func arg))
  | Set_event func arg => Done (set_client w (set_ws_event_func (client w) func arg))
  end.

Fixpoint client_run (acts : list act) (w : world) : res world :=
  match acts with
  | [] => Done w
  | a :: acts => w ← client_act a w; client_run acts w
  end.
End running.

(** ** Reasoning about what a function leaves

    [safe m P]: if [m] comes to its end, [P] holds of what it leaves; if it stops, then not
    because of a pointer or of fuel. *)

Definition benign (m : mishap) : Prop :=
  match m with fd_set_overflow _ | bytes_fault => True | use_after_free _ | out_of_fuel => False end.

Definition safe {A} (m : res A) (P : A → Prop) : Prop :=
  match m with Done a => P a | Stop e => benign e end.

Lemma safe_bind {A B} (m : res A) (f : A → res B) P Q :
  safe m P → (∀ a, P a → safe (f a) Q) → safe (m ≫= f) Q.
Proof. destruct m; cbn; auto. Qed.

Lemma safe_mono {A} (m : res A) (P Q : A → Prop) : safe m P → (∀ a, P a → Q a) → safe m Q.
Proof. destruct m; cbn; auto. Qed.

Lemma safe_lift {A} (m : outcome A) : safe (lift m) (λ a, m = Ok a).
Proof. by destruct m. Qed.

(** *** The list of connections *)

Definition sig (c : conn) : Z * bool := (c_id c, c_fn c).
Definition sigs (w : world) : list (Z * bool) := sig <$> conns w.
Definition ids (w : world) : list Z := (sigs w).*1.
Definition clients (w : world) : list Z := (filter (λ s, s.2 = true) (sigs w)).*1.

Lemma find_conn_in id cs : id ∈ (sig <$> cs).*1 → ∃ c, find_conn id cs = Some c ∧ c ∈ cs ∧ c_id c = id.
Proof.
  induction cs as [|c cs IH]; [by intros ?%elem_of_nil|]. cbn [fmap list_fmap find_conn fst sig].
  intros [E|H]%elem_of_cons.
  - rewrite <- E, Z.eqb_refl. exists c. split; [done|]. split; [apply elem_of_cons; by left|done].
  - destruct (Z.eqb_spec (c_id c) id) as [E|].
    + exists c. split; [done|]. split; [apply elem_of_cons; by left|done].
    + destruct (IH H) as (c' & E & Hin & Hid). exists c'. split; [done|]. split; [apply elem_of_cons; by right|done].
Qed.

Lemma get_conn_safe id w :
  id ∈ ids w → safe (get_conn id w) (λ c, find_conn id (conns w) = Some c ∧ sig c ∈ sigs w ∧ c_id c = id).
Proof.
  intros Hid. unfold get_conn. destruct (find_conn_in id (conns w) Hid) as (c & -> & Hin & E).
  split; [done|]. split; [by apply list_elem_of_fmap_2|done].
Qed.

(** Storing a connection in its place leaves the list as it is. *)
Lemma put_conn_sigs c w : NoDup (ids w) → sig c ∈ sigs w → sigs (put_conn c w) = sigs w.
Proof.
  intros Hd Hs. unfold sigs, put_conn in *. cbn [conns set_conns]. rewrite <- list_fmap_compose.
  apply list_fmap_ext. intros i c' Hi. cbn. case_match eqn:E; [|done]. apply Z.eqb_eq in E.
  apply list_elem_of_lookup in Hs as [j Hj].
  assert (i = j) as ->.
  { apply (NoDup_lookup (ids w) _ _ (c_id c) Hd); unfold ids, sigs; rewrite list_lookup_fmap.
    - rewrite list_lookup_fmap, Hi. cbn. by rewrite E.
    - by rewrite Hj. }
  rewrite list_lookup_fmap, Hi in Hj. cbn in Hj. congruence.
Qed.

(** What most functions do not touch: everything but flags, buffers and descriptors. *)
Record frame (w w' : world) : Prop := {
  frame_sigs : sigs w' = sigs w;
  frame_next : nextid w' = nextid w;
  frame_reqs : s_reqs w' = s_reqs w;
  frame_dns4 : dns4 w' = dns4 w;
  frame_client : client w' = client w;
  frame_timers : timers w' = timers w;
  frame_log : log w' = log w;
}.

Lemma frame_refl w : frame w w.
Proof. by split. Qed.

Lemma frame_trans w w1 w2 : frame w w1 → frame w1 w2 → frame w w2.
Proof. intros [] []. split; congruence. Qed.

Lemma frame_put c w : NoDup (ids w) → sig c ∈ sigs w → frame w (put_conn c w).
Proof. intros. split; try done. by apply put_conn_sigs. Qed.

Lemma frame_fds w s : frame w (set_fds w s).
Proof. by split. Qed.

Lemma frame_ids w w' : frame w w' → ids w' = ids w.
Proof. intros H. unfold ids. by rewrite (frame_sigs _ _ H). Qed.

Lemma frame_clients w w' : frame w w' → clients w' = clients w.
Proof. intros H. unfold clients. by rewrite (frame_sigs _ _ H). Qed.

(** Events the client does not react to. *)
Lemma emit_nil w : emit (set_client w (client w)) [] = w.
Proof. destruct w. unfold emit, set_client. cbn. by rewrite app_nil_r. Qed.

Lemma call_fn_other c w : call_fn c MG_EV_OTHER w = w.
Proof. unfold call_fn. cbn [on_event_handle]. destruct (c_fn c); [apply emit_nil|done]. Qed.

Lemma call_fn_error c w : call_fn c MG_EV_ERROR w = w.
Proof. unfold call_fn. cbn [on_event_handle]. destruct (c_fn c); [apply emit_nil|done]. Qed.

(** The connection with this number, which is there. *)
Ltac at_conn c Hf Hs Hid :=
  eapply safe_bind; [eapply get_conn_safe; eassumption|intros c (Hf & Hs & Hid)].

Lemma mg_error_frame id w : NoDup (ids w) → id ∈ ids w → safe (mg_error id w) (frame w).
Proof.
  intros Hd Hid. unfold mg_error. at_conn c Hf Hs Ec. cbn. rewrite call_fn_error. by apply frame_put.
Qed.

Lemma frame_error id w w1 :
  frame w w1 → NoDup (ids w) → id ∈ ids w → safe (mg_error id w1) (frame w).
Proof.
  intros H1 Hd Hid. eapply safe_mono; [apply mg_error_frame; by rewrite (frame_ids _ _ H1)|].
  intros w'. by apply frame_trans.
Qed.

Lemma frame_put_in c w w1 :
  frame w w1 → NoDup (ids w) → sig c ∈ sigs w → frame w (put_conn c w1).
Proof.
  intros H1 Hd Hs. eapply frame_trans; [exact H1|]. apply frame_put; [by rewrite (frame_ids _ _ H1)|].
  by rewrite (frame_sigs _ _ H1).
Qed.

Section frames.
Context (mg_random : nat → list Z) (o : os).

Lemma connect_resolved_frame id w :
  NoDup (ids w) → id ∈ ids w → safe (mg_connect_resolved o id w) (frame w).
Proof.
  intros Hd Hid. unfold mg_connect_resolved. at_conn c Hf Hs Ec. cbv zeta. rewrite !call_fn_other.
  destruct (_ =? -1); [apply frame_error; [by apply frame_put|done..]|].
  set (w1 := put_conn _ _).
  assert (H1 : frame w w1) by (apply frame_put_in; [apply frame_fds|done..]).
  destruct (is_udp _); [exact H1|].
  destruct (os_connect o id); [exact H1|by apply frame_put_in|by apply frame_error].
Qed.

Lemma connect_conn_frame id w :
  NoDup (ids w) → id ∈ ids w → safe (connect_conn o id w) (frame w).
Proof.
  intros Hd Hid. unfold connect_conn. at_conn c Hf Hs Ec. cbv zeta. rewrite call_fn_other.
  destruct (negb _); [apply frame_error; [by apply frame_put|done..]|by apply frame_put].
Qed.

Lemma send_datagram_frame id w :
  NoDup (ids w) → id ∈ ids w → safe (send_datagram o id w) (frame w).
Proof.
  intros Hd Hid. unfold send_datagram. at_conn c Hf Hs Ec.
  destruct (_ <? 0); [by apply frame_put|]. destruct (0 <? _); [|apply frame_refl].
  eapply safe_bind; [apply safe_lift|]. intros d _. cbn. rewrite call_fn_other. by apply frame_put.
Qed.

Lemma dns_expire_frame reqs now w :
  NoDup (ids w) → Forall (λ d, d_conn d ∈ ids w) reqs → safe (dns_expire reqs now w) (frame w).
Proof.
  revert w. induction reqs as [|d reqs IH]; intros w Hd Hr; cbn [dns_expire]; [apply frame_refl|].
  apply Forall_cons_1 in Hr as [Hc Hr].
  eapply safe_bind with (P := frame w).
  { destruct (_ <? _); [by apply mg_error_frame|apply frame_refl]. }
  intros w1 H1. pose proof (frame_ids _ _ H1) as E1.
  eapply safe_mono; [apply IH; by rewrite E1|]. intros w'. by apply frame_trans.
Qed.

Lemma dns_reply_frame reqs dm w :
  NoDup (ids w) → Forall (λ d, d_conn d ∈ ids w) reqs →
  safe (dns_reply o reqs dm w) (λ r, frame w r.2 ∧ r.1 ⊆ reqs).
Proof.
  revert w. induction reqs as [|d reqs IH]; intros w Hd Hr; cbn [dns_reply].
  { split; [apply frame_refl|done]. }
  apply Forall_cons_1 in Hr as [Hc Hr]. destruct (negb _).
  { eapply safe_bind; [by apply IH|]. intros r [H1 H2]. cbn. split; [done|]. set_solver. }
  at_conn c Hf Hs Ec. eapply safe_bind with (P := frame w).
  { destruct (is_resolving c); [|apply frame_refl].
    destruct (resolved dm); [by apply connect_resolved_frame|by apply mg_error_frame]. }
  intros w1 H1. pose proof (frame_ids _ _ H1) as E1.
  eapply safe_mono; [apply IH; by rewrite E1|]. intros r [H2 H3]. split; [by eapply frame_trans|set_solver].
Qed.
End frames.

(** ** The manager *)

(** The list has no connection twice, numbers are fresh, a request of the resolver is for a
    connection of the client that is there, and so is the connection to the resolver. *)
Record core (w : world) : Prop := {
  core_nodup : NoDup (ids w);
  core_next : Forall (λ i, i <= nextid w) (ids w);
  core_reqs : Forall (λ d, d_conn d ∈ clients w) (s_reqs w);
  core_dns : ∀ d, dns4 w = Some d → (d, false) ∈ sigs w;
}.

Lemma frame_core w w' : frame w w' → core w → core w'.
Proof.
  intros [F1 F2 F3 F4 _ _ _] [H1 H2 H3 H4]. unfold ids, clients in *.
  split; unfold ids, clients; rewrite ?F1, ?F2, ?F3, ?F4; done.
Qed.

Lemma clients_sig w i : i ∈ clients w ↔ (i, true) ∈ sigs w.
Proof.
  unfold clients. rewrite list_elem_of_fmap. split.
  - intros ([j b] & -> & [Hb Hs]%list_elem_of_filter). cbn in Hb. by subst b.
  - intros Hs. exists (i, true). split; [done|]. by apply list_elem_of_filter.
Qed.

Lemma clients_ids w : clients w ⊆ ids w.
Proof. intros i Hi%clients_sig. by apply (list_elem_of_fmap_2 fst _ (i, true)). Qed.

Lemma sig_unique w i b b' : NoDup (ids w) → (i, b) ∈ sigs w → (i, b') ∈ sigs w → b = b'.
Proof.
  intros Hd [j Hj]%list_elem_of_lookup [j' Hj']%list_elem_of_lookup.
  assert (j = j') as -> by (apply (NoDup_lookup (ids w) _ _ i Hd); unfold ids; rewrite list_lookup_fmap; by rewrite ?Hj, ?Hj').
  congruence.
Qed.

Lemma core_reqs_ids w : core w → Forall (λ d, d_conn d ∈ ids w) (s_reqs w).
Proof. intros H. eapply Forall_impl; [apply H|]. intros d. apply clients_ids. Qed.

Lemma sigs_remove id w : sigs (remove_conn id w) = filter (λ s, s.1 ≠ id) (sigs w).
Proof.
  unfold sigs, remove_conn. cbn [conns set_conns]. induction (conns w) as [|c cs IH]; [done|].
  rewrite fmap_cons, !filter_cons. cbn [fst sig]. case_decide; [by rewrite fmap_cons, IH|done].
Qed.

(** The list without one connection. *)
Lemma without_ids (l : list (Z * bool)) id : (filter (λ s, s.1 ≠ id) l).*1 = filter (λ i, i ≠ id) l.*1.
Proof.
  induction l as [|s l IH]; [done|]. rewrite fmap_cons, !filter_cons. case_decide; [by rewrite fmap_cons, IH|done].
Qed.

Lemma without_clients (l : list (Z * bool)) id :
  (filter (λ s, s.2 = true) (filter (λ s, s.1 ≠ id) l)).*1 = filter (λ i, i ≠ id) (filter (λ s, s.2 = true) l).*1.
Proof.
  rewrite list_filter_filter. rewrite <- without_ids, list_filter_filter. f_equal.
  apply list_filter_iff. tauto.
Qed.

Lemma core_remove id w :
  core w →
  let w' := remove_conn id (mg_resolve_cancel id w) in
  core (if bool_decide (dns4 w' = Some id) then set_dns4 w' None else w').
Proof.
  intros [H1 H2 H3 H4]. cbv zeta. set (w' := remove_conn id _).
  assert (Es : sigs w' = filter (λ s, s.1 ≠ id) (sigs w)) by apply (sigs_remove id (mg_resolve_cancel id w)).
  assert (Hc : ∀ w2, sigs w2 = sigs w' → nextid w2 = nextid w → s_reqs w2 = s_reqs w' →
    (∀ d, dns4 w2 = Some d → d ≠ id ∧ dns4 w = Some d) → core w2).
  { intros w2 E1 E2 E3 E4. split; unfold ids, clients; rewrite ?E1, ?E2, ?E3, Es.
    - rewrite without_ids. by apply NoDup_filter.
    - rewrite without_ids. apply Forall_forall. intros i [_ Hi]%list_elem_of_filter. rewrite Forall_forall in H2. by apply H2.
    - rewrite without_clients. apply Forall_forall. intros d [Hd Hin]%list_elem_of_filter.
      apply list_elem_of_filter. split; [done|]. rewrite Forall_forall in H3. by apply H3.
    - intros d Hd. destruct (E4 d Hd) as [Hne Hd']. apply list_elem_of_filter. split; [done|by apply H4]. }
  case_bool_decide as E; apply Hc; try done. intros d Hd. split; [|done]. intros ->. by apply E.
Qed.

Lemma dns_fail_frame reqs w :
  NoDup (ids w) → Forall (λ d, d_conn d ∈ ids w) reqs → safe (dns_fail reqs w) (frame (set_reqs w [])).
Proof.
  revert w. induction reqs as [|d reqs IH]; intros w Hd Hr; cbn [dns_fail]; [apply frame_refl|].
  apply Forall_cons_1 in Hr as [Hc Hr]. eapply safe_bind; [by apply mg_error_frame|]. intros w1 H1.
  pose proof (frame_ids _ _ H1) as E1. eapply safe_mono; [apply IH; by rewrite E1|].
  intros w'. apply frame_trans. destruct H1. by split.
Qed.

(** What the client makes of the end of a connection, if it is its own. *)
Definition told (fn : bool) (w w' : world) : Prop :=
  client w' = (if fn then set_connection (client w) None false else client w)
  ∧ log w' = log w ++ (if fn then call_event_func (client w) MG_EV_CLOSE else []).

Record closed (id : Z) (w w' : world) : Prop := {
  closed_core : core w';
  closed_sigs : sigs w' = filter (λ s, s.1 ≠ id) (sigs w);
  closed_timers : timers w' = timers w;
  closed_told : ∃ fn, (id, fn) ∈ sigs w ∧ told fn w w';
}.

Lemma call_fn_close c w :
  told (c_fn c) w (call_fn c MG_EV_CLOSE w) ∧ sigs (call_fn c MG_EV_CLOSE w) = sigs w
  ∧ timers (call_fn c MG_EV_CLOSE w) = timers w ∧ s_reqs (call_fn c MG_EV_CLOSE w) = s_reqs w
  ∧ (core w → core (call_fn c MG_EV_CLOSE w)).
Proof.
  unfold call_fn, told. cbn [on_event_handle]. destruct (c_fn c); cbn; rewrite ?app_nil_r; [|done].
  do 4 (split; [done|]). intros []. by split.
Qed.

Lemma mg_close_conn_closed id w : core w → id ∈ ids w → safe (mg_close_conn id w) (closed id w).
Proof.
  intros Hc Hid. unfold mg_close_conn.
  assert (Hid' : id ∈ ids (mg_resolve_cancel id w)) by done. at_conn c Hf Hs Ec.
  pose proof (core_remove id w Hc) as Hc1. cbv zeta in Hc1.
  set (w1 := remove_conn id _) in *. set (w2 := if bool_decide _ then _ else _) in *.
  assert (E2 : sigs w2 = sigs w1 ∧ timers w2 = timers w ∧ client w2 = client w ∧ log w2 = log w)
    by (unfold w2; by case_bool_decide).
  destruct E2 as (S2 & T2 & C2 & L2).
  destruct (call_fn_close c w2) as ([K1 K2] & Ks & Kt & Kr & Kc). specialize (Kc Hc1).
  set (w3 := call_fn c MG_EV_CLOSE w2) in *.
  assert (H3 : closed id w w3).
  { split; [done| |congruence|].
    - rewrite Ks, S2. apply (sigs_remove id (mg_resolve_cancel id w)).
    - exists (c_fn c). split; [by rewrite <- Ec|]. unfold told. by rewrite <- C2, <- L2. }
  destruct (c_pfn c); [done..|].
  eapply safe_mono; [apply dns_fail_frame; [apply Kc|by apply core_reqs_ids]|]. intros w' F.
  destruct H3 as [_ H2 H4 (fn & Hfn & N1 & N2)]. destruct F as [F1 F2 F3 F4 F5 F6 F7].
  split; [| |by rewrite F6|].
  - destruct Kc as [G1 G2 G3 G4]. split; unfold ids, clients; rewrite ?F1, ?F2, ?F3, ?F4; done.
  - by rewrite F1.
  - exists fn. split; [done|]. split; [by rewrite F5|by rewrite F7].
Qed.

Lemma close_conn_closed id w : core w → id ∈ ids w → safe (close_conn id w) (closed id w).
Proof.
  intros Hc Hid. unfold close_conn. at_conn c Hf Hs Ec. cbv zeta.
  set (w1 := if negb _ then _ else _).
  assert (F : frame w w1).
  { unfold w1. destruct (negb _); [|apply frame_refl]. apply frame_put_in; [apply frame_fds|apply Hc|done]. }
  eapply safe_mono; [apply mg_close_conn_closed; [by eapply frame_core|by rewrite (frame_ids _ _ F)]|].
  intros w' [H1 H2 H3 (fn & Hfn & N1 & N2)]. destruct F as [F1 F2 F3 F4 F5 F6 F7].
  split; [done|by rewrite H2, F1|congruence|]. exists fn. rewrite <- F1. split; [done|].
  unfold told. by rewrite <- F5, <- F7.
Qed.

(** ** Opening *)

(** What [mg_connect] leaves: the new connection, perhaps one to the resolver, and nothing
    else. *)
Record opened (id : Z) (fn : bool) (w w' : world) : Prop := {
  opened_core : core w';
  opened_in : (id, fn) ∈ sigs w';
  opened_clients : clients w' = (if fn then [id] else []) ++ clients w;
  opened_client : client w' = client w;
  opened_timers : timers w' = timers w;
  opened_log : log w' = log w;
}.

Lemma opened_frame id fn w w1 w2 : opened id fn w w1 → frame w1 w2 → opened id fn w w2.
Proof.
  intros [H1 H2 H3 H4 H5 H6] F. split; [by eapply frame_core|by rewrite (frame_sigs _ _ F)|
    by rewrite (frame_clients _ _ F)|by rewrite (frame_client _ _ F)|by rewrite (frame_timers _ _ F)|
    by rewrite (frame_log _ _ F)].
Qed.

Lemma opened_id id fn w w' : opened id fn w w' → NoDup (ids w') ∧ id ∈ ids w'.
Proof. intros H. split; [apply H|]. apply (list_elem_of_fmap_2 fst _ (id, fn)), H. Qed.

Lemma alloc_opened url fn w :
  core w → opened (mg_alloc_conn url fn w).1 fn w (mg_alloc_conn url fn w).2
           ∧ dns4 (mg_alloc_conn url fn w).2 = dns4 w ∧ s_reqs (mg_alloc_conn url fn w).2 = s_reqs w.
Proof.
  intros [H1 H2 H3 H4]. cbn [mg_alloc_conn fst snd]. set (w' := mk_world _ _ _ _ _ _ _ _).
  assert (Es : sigs w' = (nextid w + 1, fn) :: sigs w) by done.
  assert (Ec : clients w' = (if fn then [nextid w + 1] else []) ++ clients w).
  { unfold clients. rewrite Es, filter_cons. cbn [snd]. destruct fn; by case_decide. }
  split; [|done]. split; try done.
  - split; [| | |].
    + unfold ids. rewrite Es. cbn. constructor; [|done]. intros Hin. rewrite Forall_forall in H2.
      specialize (H2 _ Hin). lia.
    + unfold ids. rewrite Es. cbn. constructor; [lia|]. eapply Forall_impl; [exact H2|]. cbn. lia.
    + eapply Forall_impl; [exact H3|]. intros d Hd. rewrite Ec. apply elem_of_app. by right.
    + intros d Hd. rewrite Es. apply elem_of_cons. right. by apply H4.
  - rewrite Es. apply elem_of_cons. by left.
Qed.

(** A connection of its own is in the way of the resolver. *)
Lemma opened_trans id w w1 dns w2 :
  opened id true w w1 → opened dns false w1 w2 → (id, true) ∈ sigs w2 → opened id true w w2.
Proof.
  intros [] [] Hin. cbn [app] in *. split; cbn [app]; try done; congruence.
Qed.

Section opening.
Context (mg_random : nat → list Z) (o : os).

(** A host that is an address. *)
Lemma connect_address depth url fn host a w :
  core w → url ≠ [] → mg_url_host url = Ok host → mg_aton host no_addr = Ok (true, a) →
  safe (mg_connect o (S depth) url fn w)
    (λ r, ∃ id, r.1 = Some id ∧ opened id fn w r.2 ∧ sigs r.2 = (id, fn) :: sigs w
                ∧ dns4 r.2 = dns4 w ∧ s_reqs r.2 = s_reqs w).
Proof.
  intros Hc Hne Eh Ea. destruct url as [|x url]; [done|]. set (url' := x :: url) in *. cbn [mg_connect].
  fold url'. destruct (alloc_opened url' fn w Hc) as (Ho & Ed & Er).
  assert (Es : sigs (mg_alloc_conn url' fn w).2 = ((mg_alloc_conn url' fn w).1, fn) :: sigs w) by done.
  destruct (mg_alloc_conn url' fn w) as [id w1]. cbn [fst snd] in *.
  destruct (opened_id _ _ _ _ Ho) as [Hd Hid].
  at_conn c Hf Hs Ec. rewrite call_fn_other. unfold mg_resolve. rewrite Eh. cbn [lift mbind res_bind].
  rewrite Ea. cbn [lift mbind res_bind fst].
  eapply safe_bind; [by apply connect_resolved_frame|]. intros w2 F. exists id. cbn.
  split; [done|]. split; [by eapply opened_frame|].
  split; [by rewrite (frame_sigs _ _ F)|]. split; [by rewrite (frame_dns4 _ _ F)|by rewrite (frame_reqs _ _ F)].
Qed.

(** The resolver is at an address. *)
Lemma connect_dns depth w :
  core w → safe (mg_connect o (S depth) dns_url false w)
    (λ r, ∃ id, r.1 = Some id ∧ opened id false w r.2 ∧ sigs r.2 = (id, false) :: sigs w
                ∧ dns4 r.2 = dns4 w ∧ s_reqs r.2 = s_reqs w).
Proof.
  intros Hc. apply (connect_address depth dns_url false (bytes_of "8.8.8.8") (set_ip no_addr [8; 8; 8; 8]));
    [done|done|vm_compute; reflexivity..].
Qed.

Lemma opened_reqs id w w' x t :
  opened id true w w' → opened id true w (set_reqs w' (mk_dns_data id x t :: s_reqs w')).
Proof.
  intros [[C1 C2 C3 C4] H2 H3 H4 H5 H6]. split; try done. split; try done. constructor; [|done].
  change (id ∈ clients w'). rewrite H3. apply elem_of_cons. by left.
Qed.

(** The connection to the resolver, if it is not there yet. *)
Lemma resolver_opened id w w1 :
  opened id true w w1 →
  safe (r ← mg_connect o 1 dns_url false w1;
        let '(dns, w) := r in
        match dns with
        | Some d => c ← get_conn d w; Done (set_dns4 (put_conn (set_pfn c dns_cb) w) (Some d))
        | None => Done w
        end) (opened id true w).
Proof.
  intros Ho. eapply safe_bind; [apply connect_dns, Ho|].
  intros [r' w2] (dns & Er' & Hod & Esd & Ed2 & Er2). cbn [fst snd] in *. subst r'.
  destruct (opened_id _ _ _ _ Hod) as [Hdd Hidd]. at_conn cd Hfd Hsd Ecd. cbn.
  assert (Hin : (id, true) ∈ sigs w2) by (rewrite Esd; apply elem_of_cons; right; apply Ho).
  assert (Fp : frame w2 (put_conn (set_pfn cd dns_cb) w2)) by (by apply frame_put).
  pose proof (opened_frame _ _ _ _ _ (opened_trans _ _ _ _ _ Ho Hod Hin) Fp) as [[C1 C2 C3 C4] ? ? ? ? ?].
  split; try done. split; try done. intros d [= <-]. change ((dns, false) ∈ sigs (put_conn (set_pfn cd dns_cb) w2)).
  rewrite (frame_sigs _ _ Fp), Esd. apply elem_of_cons. by left.
Qed.

Lemma mg_sendnsreq_opened id url host w w1 :
  opened id true w w1 → safe (mg_sendnsreq o (mg_connect o 1 dns_url false) id url host w1) (opened id true w).
Proof.
  intros Ho. unfold mg_sendnsreq. eapply safe_bind with (P := opened id true w).
  { destruct (dns4 w1) as [d|]; [done|by apply resolver_opened]. }
  intros w2 Ho2. destruct (opened_id _ _ _ _ Ho2) as [Hd2 Hid2].
  destruct (dns4 w2) as [dns|] eqn:E4.
  2:{ eapply safe_mono; [by apply mg_error_frame|]. intros w3 F. by eapply opened_frame. }
  cbv zeta. set (w3 := set_reqs _ _). assert (Ho3 : opened id true w w3) by (by apply opened_reqs).
  destruct (opened_id _ _ _ _ Ho3) as [Hd3 Hid3]. at_conn c3 Hf3 Hs3 Ec3.
  eapply safe_bind; [apply safe_lift|]. intros packet _. set (w4 := put_conn _ _).
  assert (F4 : frame w3 w4) by (by apply frame_put).
  assert (Hdns : dns ∈ ids w4).
  { rewrite (frame_ids _ _ F4). apply (list_elem_of_fmap_2 fst _ (dns, false)). by apply Ho3. }
  eapply safe_mono; [apply send_datagram_frame; [by rewrite (frame_ids _ _ F4)|done]|].
  intros w5 F5. eapply opened_frame; [exact Ho3|]. by eapply frame_trans.
Qed.

Lemma mg_connect_opened url w :
  core w → safe (mg_connect o 2 url true w)
    (λ r, match r.1 with Some id => opened id true w r.2 | None => r.2 = w end).
Proof.
  intros Hc. destruct url as [|x url]; [done|]. set (url' := x :: url).
  change (mg_connect o 2 url' true w) with (
    let '(id, w) := mg_alloc_conn url' true w in
    c ← get_conn id w;
    w ← mg_resolve o (mg_connect o 1 dns_url false) id url' (call_fn c MG_EV_OTHER w);
    Done (Some id, w)).
  destruct (alloc_opened url' true w Hc) as (Ho & _ & _).
  destruct (mg_alloc_conn url' true w) as [id w1]. cbn [fst snd] in *.
  destruct (opened_id _ _ _ _ Ho) as [Hd Hid]. at_conn c Hf Hs Ec. rewrite call_fn_other.
  eapply safe_bind with (P := opened id true w); [|by intros].
  unfold mg_resolve. eapply safe_bind; [apply safe_lift|]. intros host _.
  eapply safe_bind; [apply safe_lift|]. intros r _. destruct (r.1); [|by apply mg_sendnsreq_opened].
  eapply safe_mono; [by apply connect_resolved_frame|]. intros w2 F. by eapply opened_frame.
Qed.

Lemma mg_ws_connect_opened url w :
  core w → safe (mg_ws_connect o url w)
    (λ r, match r.1 with Some id => opened id true w r.2 | None => r.2 = w end).
Proof.
  intros Hc. unfold mg_ws_connect. eapply safe_bind; [by apply mg_connect_opened|].
  intros [[id|] w1] Ho; cbn in Ho; [|done]. destruct (opened_id _ _ _ _ Ho) as [Hd Hid].
  eapply safe_bind; [apply safe_lift|]. intros request _. at_conn c Hf Hs Ec.
  eapply safe_bind; [apply safe_lift|]. intros io _. cbn. eapply opened_frame; [exact Ho|]. by apply frame_put.
Qed.
End opening.

(** ** The client on the manager

    The manager is in order; the connections with the handler of the client are the one
    the client points to, and no other; and what the client has done so far is a run of the
    machine of [WSClient]. *)
Record inv (c0 : WSClient) (w : world) : Prop := {
  inv_core : core w;
  inv_conn : clients w = option_list (m_connection (client w));
  inv_ok : ws_ok (client w);
  inv_run : ws_run c0 (log w) (client w);
}.

(** The connections are the same as before. *)
Definition kept (c0 : WSClient) (w w' : world) : Prop := inv c0 w' ∧ sigs w' = sigs w.

Lemma core_ext w w' :
  core w → sigs w' = sigs w → nextid w' = nextid w → s_reqs w' ⊆ s_reqs w → dns4 w' = dns4 w → core w'.
Proof.
  intros [H1 H2 H3 H4] E1 E2 E3 E4. split; unfold ids, clients in *; rewrite ?E1, ?E2, ?E4; try done.
  apply Forall_forall. intros d Hd. rewrite Forall_forall in H3. by apply H3, E3.
Qed.

Section client.
Context (c0 : WSClient).

Lemma frame_inv w w' : frame w w' → inv c0 w → inv c0 w'.
Proof.
  intros F [H1 H2 H3 H4]. split; rewrite ?(frame_client _ _ F), ?(frame_log _ _ F); try done.
  - by eapply frame_core.
  - by rewrite (frame_clients _ _ F).
Qed.

Lemma frame_kept w w' : inv c0 w → frame w w' → kept c0 w w'.
Proof. intros H F. split; [by eapply frame_inv|apply F]. Qed.

Lemma poll_kept_trans w w1 w2 : kept c0 w w1 → kept c0 w1 w2 → kept c0 w w2.
Proof. intros [_ E1] [H2 E2]. split; [done|congruence]. Qed.

(** The handler's own connection. *)
Lemma own_conn w id : inv c0 w → (id, true) ∈ sigs w ↔ m_connection (client w) = Some id.
Proof.
  intros H. rewrite <- clients_sig, (inv_conn _ _ H). destruct (m_connection (client w)) as [i|]; cbn.
  - rewrite list_elem_of_singleton. split; [by intros ->|by intros [= ->]].
  - split; [by intros ?%elem_of_nil|done].
Qed.

Lemma call_fn_kept c e w : inv c0 w → sig c ∈ sigs w → e ≠ MG_EV_CLOSE → kept c0 w (call_fn c e w).
Proof.
  intros H Hs He. unfold call_fn. destruct (c_fn c) eqn:Ef; [|by split].
  assert (Ec : m_connection (client w) = Some (c_id c)).
  { apply own_conn; [done|]. by rewrite <- Ef. }
  destruct (on_event_handle (client w) e) as [es this] eqn:E.
  assert (Hstep : ws_step (client w) es this) by (by eapply step_event).
  assert (Em : m_connection this = m_connection (client w)).
  { destruct e; cbn [on_event_handle] in E; repeat case_match; by simplify_eq. }
  split; [|done]. destruct H as [H1 H2 H3 H4]. split; cbn.
  - by destruct H1.
  - by rewrite Em.
  - by eapply ws_step_ok.
  - by eapply ws_run_snoc.
Qed.

Lemma to_client_not_close this e e' : to_client this e = Ok e' → e' ≠ MG_EV_CLOSE.
Proof. destruct e; cbn [to_client]; intros H; try destruct (_ && _); inv_bind; by subst. Qed.

Lemma feed_kept c evs w : inv c0 w → sig c ∈ sigs w → safe (feed c evs w) (kept c0 w).
Proof.
  revert w. induction evs as [|e evs IH]; intros w H Hs; cbn [feed]; [by split|].
  eapply safe_bind; [apply safe_lift|]. intros e' Ee.
  destruct (call_fn_kept c e' w H Hs (to_client_not_close _ _ _ Ee)) as [H1 E1].
  eapply safe_mono; [apply IH; [done|by rewrite E1]|]. intros w'. apply poll_kept_trans. by split.
Qed.

(** A connection is closed in the loop. *)
Lemma closed_inv id w w' : inv c0 w → closed id w w' → inv c0 w'.
Proof.
  intros H [C1 C2 _ (fn & Hfn & T1 & T2)].
  assert (Ec : clients w' = filter (λ i, i ≠ id) (clients w)) by (unfold clients; rewrite C2; apply without_clients).
  destruct fn.
  - pose proof Hfn as Em. apply (own_conn w id H) in Em. split; [done| | |].
    + rewrite Ec, T1, (inv_conn _ _ H), Em. change (option_list (Some id)) with [id].
      by rewrite filter_cons_False by (by intros []).
    + by rewrite T1.
    + rewrite T1, T2. eapply ws_run_snoc; [apply H|]. by apply (step_event _ id MG_EV_CLOSE).
  - rewrite app_nil_r in T2. split; [done| |by rewrite T1; apply H|by rewrite T1, T2; apply H].
    rewrite T1, Ec, (inv_conn _ _ H). destruct (m_connection (client w)) as [i|] eqn:Em; [|done].
    change (option_list (Some i)) with [i].
    rewrite filter_cons_True; [done|]. intros ->. apply (own_conn w id H) in Em.
    by pose proof (sig_unique w id _ _ (core_nodup _ (inv_core _ _ H)) Hfn Em).
Qed.

Context (mg_random : nat → list Z) (o : os).

Lemma own_ids w id : inv c0 w → m_connection (client w) = Some id → id ∈ ids w.
Proof. intros H E. by apply clients_ids, clients_sig, own_conn. Qed.

Lemma ws_send_inv w data op :
  inv c0 w → is_Some (m_connection (client w)) →
  ws_step (client w) [WSClient.mg_ws_send (m_connection (client w)) data op] (client w) →
  safe (ws_send mg_random w data op) (inv c0).
Proof.
  intros H [id Eid] Hstep. unfold ws_send. rewrite Eid in *. pose proof (own_ids w id H Eid) as Hid.
  at_conn c Hf Hs Ec. eapply safe_bind; [apply safe_lift|]. intros r _. cbn.
  assert (F : frame w (put_conn (set_io c r.2) w)) by (apply frame_put; [apply H|done]).
  pose proof (frame_inv _ _ F H) as [H1 H2 H3 H4]. split; cbn; [by destruct H1|done|done|].
  by eapply ws_run_snoc.
Qed.

(** Afterwards the client has the connection that was opened, if one was. *)
Lemma reconnect_opened w :
  core w → clients w = [] →
  safe (reconnect o w) (λ w', core w' ∧ ∃ conn,
    client w' = set_connection (client w) conn (m_connected (client w)) ∧ clients w' = option_list conn
    ∧ log w' = log w ++ [WSClient.mg_ws_connect (m_server_url (client w))]).
Proof.
  intros Hc Hcl. unfold reconnect. eapply safe_bind; [by apply mg_ws_connect_opened|].
  intros [conn w1] Ho. cbn [fst snd] in Ho.
  assert (E : core w1 ∧ clients w1 = option_list conn ∧ client w1 = client w ∧ log w1 = log w).
  { destruct conn as [id|]; [|by subst w1]. destruct Ho as [O1 O2 O3 O4 O5 O6]. rewrite Hcl in O3. done. }
  destruct E as (C1 & C2 & C3 & C4). cbn. split; [by destruct C1|]. exists conn. by rewrite C3, C4.
Qed.

Lemma on_timer_inv w : inv c0 w → safe (on_timer mg_random o w) (inv c0).
Proof.
  intros H. pose proof (inv_conn _ _ H) as Hcl. unfold on_timer. destruct (m_connected (client w)) eqn:Em.
  { apply ws_send_inv; [done|by apply H|]. apply (step_timer _ None). unfold WSClient.on_timer. by rewrite Em. }
  destruct (m_connection (client w)) as [id|] eqn:En.
  - set (w1 := emit w _). assert (C1 : core w1) by (by destruct (inv_core _ _ H)).
    assert (Hid : id ∈ ids w1) by (exact (own_ids w id H En)).
    eapply safe_bind; [by apply mg_close_conn_closed|]. intros w2 [D1 D2 _ (fn & Hfn & T1 & T2)].
    assert (fn = true) as ->.
    { apply (sig_unique w id); [apply H|done|]. by apply own_conn. }
    eapply safe_mono; [apply reconnect_opened; [by destruct D1|]|].
    + change (clients (set_client w2 _)) with (clients w2). unfold clients. rewrite D2, without_clients.
      change (sigs w1) with (sigs w). unfold clients in Hcl. rewrite Hcl. change (option_list (Some id)) with [id].
      by rewrite filter_cons_False by (by intros []).
    + cbn [client set_client log]. rewrite T1, T2. intros w3 (R1 & conn & R2 & R3 & R4).
      split; [done|by rewrite R2|by rewrite R2|]. rewrite R2, R4. unfold w1. cbn [log emit client].
      rewrite <- !app_assoc. eapply ws_run_snoc; [apply H|]. eapply (step_timer _ conn). unfold WSClient.on_timer.
      by rewrite Em, En.
  - eapply safe_mono; [apply reconnect_opened; [apply H|done]|]. intros w3 (R1 & conn & R2 & R3 & R4).
    split; [done|by rewrite R2|by rewrite R2, Em|]. rewrite R2, R4. eapply ws_run_snoc; [apply H|].
    eapply (step_timer _ conn). unfold WSClient.on_timer. by rewrite Em, En.
Qed.

Lemma on_timers_inv calls w : inv c0 w → safe (on_timers mg_random o calls w) (inv c0).
Proof.
  revert w. induction calls as [|call calls IH]; intros w H; cbn [on_timers]; [done|].
  eapply safe_bind; [by apply on_timer_inv|]. intros w1 H1. by apply IH.
Qed.

Lemma iotest_frame w : safe (mg_iotest o w) (frame w).
Proof.
  unfold mg_iotest. eapply safe_bind with (P := λ _, True).
  { induction (conns w) as [|c cs IH]; cbn [fd_sets]; [done|]. by case_match. }
  intros _ _. cbn. split; try done. unfold sigs. cbn [conns set_conns]. by rewrite <- list_fmap_compose.
Qed.

Lemma dns_read_kept id w : inv c0 w → id ∈ ids w → safe (dns_read o id w) (kept c0 w).
Proof.
  intros H Hid. unfold dns_read. at_conn c Hf Hs Ec. eapply safe_bind; [apply safe_lift|]. intros [ok dm] _.
  eapply safe_bind with (P := kept c0 w).
  { destruct ok; [|by split]. eapply safe_bind; [apply dns_reply_frame; [apply H|apply core_reqs_ids, H]|].
    intros r [F Hr]. pose proof (frame_inv _ _ F H) as [H1 H2 H3 H4].
    split; [|by rewrite <- (frame_sigs _ _ F)]. split; cbn; try done.
    eapply core_ext; [exact H1|done|done|by rewrite (frame_reqs _ _ F)|done]. }
  intros w1 K. pose proof K as [K1 K2]. assert (Hid1 : id ∈ ids w1) by (unfold ids; by rewrite K2).
  at_conn c1 Hf1 Hs1 Ec1. cbn. eapply poll_kept_trans; [exact K|]. apply frame_kept; [done|].
  apply frame_put; [apply K1|done].
Qed.

Lemma read_conn_kept id w : inv c0 w → id ∈ ids w → safe (read_conn mg_random o id w) (kept c0 w).
Proof.
  intros H Hid. pose proof (core_nodup _ (inv_core _ _ H)) as Hd. unfold read_conn. at_conn c Hf Hs Ec.
  assert (Hput : ∀ io, kept c0 w (put_conn (set_io c io) w)) by (intros; by apply frame_kept, frame_put).
  destruct (_ <=? _).
  { eapply safe_mono; [by apply mg_error_frame|]. intros w'. by apply frame_kept. }
  destruct (os_recv o id) as [[|x data]|]; [apply Hput| |apply Hput].
  rewrite call_fn_other. destruct (c_pfn c).
  - eapply safe_bind; [apply safe_lift|]. intros b _. apply Hput.
  - eapply safe_bind; [apply safe_lift|]. intros r _. destruct (Hput r.2) as [K1 K2].
    eapply safe_mono; [apply feed_kept; [exact K1|by rewrite K2]|]. intros w'. by apply poll_kept_trans.
  - eapply safe_bind; [apply safe_lift|]. intros b _. cbv zeta.
    eapply safe_mono; [apply dns_read_kept; [apply Hput|]|].
    + unfold ids. by rewrite (proj2 (Hput _)).
    + intros w'. by apply poll_kept_trans.
Qed.

Lemma write_conn_kept id w : inv c0 w → id ∈ ids w → safe (write_conn o id w) (kept c0 w).
Proof.
  intros H Hid. unfold write_conn. at_conn c Hf Hs Ec. eapply safe_bind; [apply safe_lift|]. intros r _. cbn.
  rewrite call_fn_other. assert (K : kept c0 w (put_conn (set_io c r.2) w)); [|by case_match].
  apply frame_kept; [done|]. apply frame_put; [apply H|done].
Qed.

(** A turn keeps the connections, or ends the one whose turn it is. *)
Definition turned (id : Z) (w w' : world) : Prop :=
  inv c0 w' ∧ (sigs w' = sigs w ∨ sigs w' = filter (λ s, s.1 ≠ id) (sigs w)).

Lemma kept_turn (f : world → res world) id w w1 :
  kept c0 w w1 → (∀ w, inv c0 w → id ∈ ids w → safe (f w) (kept c0 w)) → id ∈ ids w →
  safe (f w1) (kept c0 w).
Proof.
  intros [K1 K2] Hf Hid. eapply safe_mono; [apply Hf; [done|unfold ids; by rewrite K2]|].
  intros w2. by apply poll_kept_trans.
Qed.

Lemma poll_turn_turned id w : inv c0 w → id ∈ ids w → safe (poll_turn mg_random o id w) (turned id w).
Proof.
  intros H Hid. unfold poll_turn. at_conn c Hf Hs Ec. rewrite call_fn_other.
  eapply safe_bind with (P := kept c0 w).
  { destruct (c_pfn c); [by split..|].
    eapply safe_mono; [apply dns_expire_frame; [apply H|apply core_reqs_ids, H]|]. intros w'. by apply frame_kept. }
  intros w1 K. pose proof K as [K1 K2]. assert (Hid1 : id ∈ ids w1) by (unfold ids; by rewrite K2).
  at_conn c1 Hf1 Hs1 Ec1. eapply safe_bind with (P := kept c0 w).
  { destruct (_ || closing c1); [exact K|]. destruct (is_connecting c1).
    - destruct (_ || _); [|exact K]. apply (kept_turn (connect_conn o id) id w w1 K); [|done].
      intros w' H' Hid'. eapply safe_mono; [apply connect_conn_frame; [apply H'|done]|]. intros w''. by apply frame_kept.
    - eapply safe_bind with (P := kept c0 w).
      { destruct (is_readable c1); [|exact K]. apply (kept_turn (read_conn mg_random o id) id w w1 K); [|done].
        intros; by apply read_conn_kept. }
      intros w2 K'. pose proof K' as [K1' K2']. assert (Hid2 : id ∈ ids w2) by (unfold ids; by rewrite K2').
      at_conn c2 Hf2 Hs2 Ec2. destruct (is_writable c2); [|exact K'].
      apply (kept_turn (write_conn o id) id w w2 K'); [|done]. intros; by apply write_conn_kept. }
  intros w2 K'. pose proof K' as [K1' K2']. assert (Hid2 : id ∈ ids w2) by (unfold ids; by rewrite K2').
  at_conn c2 Hf2 Hs2 Ec2. destruct (closing c2); [|split; [done|by left]].
  eapply safe_mono; [apply close_conn_closed; [apply K1'|done]|]. intros w3 D.
  split; [by apply (closed_inv id w2)|right]. by rewrite (closed_sigs _ _ _ D), K2'.
Qed.
End client.

(** ** The loop *)

Lemma next_conn_head pre id tl cs :
  (sig <$> cs).*1 = pre ++ id :: tl → id ∉ pre → next_conn id cs = head tl.
Proof.
  revert pre. induction cs as [|c cs IH]; intros pre E Hid; [by destruct pre|]. cbn [next_conn].
  destruct pre as [|j pre]; injection E as E1 E2.
  - rewrite E1, Z.eqb_refl. rewrite <- E2. by destruct cs.
  - apply not_elem_of_cons in Hid as [Hne Hid].
    rewrite (proj2 (Z.eqb_neq (c_id c) id)) by (rewrite E1; congruence). by apply (IH pre).
Qed.

Lemma head_ids w : c_id <$> head (conns w) = head (ids w).
Proof. unfold ids, sigs. by destruct (conns w). Qed.

Lemma without_none (l : list Z) id : id ∉ l → filter (λ i, i ≠ id) l = l.
Proof.
  induction l as [|j l IH]; [done|]. intros [Hne Hl]%not_elem_of_cons.
  by rewrite filter_cons_True, IH by congruence.
Qed.

Section loop.
Context (c0 : WSClient) (mg_random : nat → list Z).

(** The next connection survives the turn of the one before it. *)
Lemma poll_loop_inv o fuel pre tl w :
  inv c0 w → ids w = pre ++ tl → (length tl <= fuel)%nat →
  safe (poll_loop mg_random o fuel (head tl) w) (inv c0).
Proof.
  revert pre tl w. induction fuel as [|fuel IH]; intros pre [|id tl] w H E Hf; cbn [head poll_loop];
    cbn [length] in Hf; [done|lia|done|].
  pose proof (core_nodup _ (inv_core _ _ H)) as Hd. rewrite E in Hd.
  apply NoDup_app in Hd as (Hd1 & Hd2 & Hd3). apply NoDup_cons in Hd3 as [Hd3 Hd4].
  assert (Hpre : id ∉ pre) by (intros Hin; by apply (Hd2 id Hin), elem_of_cons; left).
  assert (Hid : id ∈ ids w) by (rewrite E; set_solver).
  at_conn c Hc Hs Ec. rewrite (next_conn_head pre id tl (conns w) E Hpre).
  eapply safe_bind; [by apply poll_turn_turned|]. intros w1 [H1 [E1|E1]].
  - apply (IH (pre ++ [id])); [done| |lia]. unfold ids. rewrite E1. fold (ids w). by rewrite E, <- app_assoc.
  - apply (IH pre); [done| |lia]. unfold ids. rewrite E1, without_ids. fold (ids w). rewrite E, filter_app.
    rewrite filter_cons_False by (by intros []). by rewrite !without_none.
Qed.

Lemma mg_mgr_poll_inv o w : inv c0 w → safe (mg_mgr_poll mg_random o w) (inv c0).
Proof.
  intros H. unfold mg_mgr_poll. eapply safe_bind; [apply iotest_frame|]. intros w1 F.
  pose proof (frame_inv c0 _ _ F H) as [H1 H2 H3 H4]. destruct (mg_timer_poll _ _) as [calls t].
  eapply safe_bind; [apply (on_timers_inv c0); split; [by destruct H1|done..]|]. intros w2 H'.
  rewrite head_ids. apply (poll_loop_inv o _ [] (ids w2)); [done|done|].
  unfold ids, sigs. by rewrite !length_fmap.
Qed.

Lemma send_text_inv msg w : inv c0 w → safe (send_text mg_random msg w) (λ r, inv c0 r.2).
Proof.
  intros H. unfold send_text. destruct (m_connection (client w)) as [id|] eqn:En; [|done].
  destruct (m_connected (client w)) eqn:Em; [|done].
  eapply safe_bind; [|intros w' H'; exact H'].
  apply ws_send_inv; [done|by rewrite En|]. eapply (step_send _ msg true).
  unfold WSClient.send_text. by rewrite En, Em.
Qed.

(** The callbacks can be set at any time. *)
Lemma set_func_inv (f : WSClient → WSClient) w :
  inv c0 w → m_connection (f (client w)) = m_connection (client w) →
  m_connected (f (client w)) = m_connected (client w) →
  ws_run (client w) [] (f (client w)) → inv c0 (set_client w (f (client w))).
Proof.
  intros [H1 H2 H3 H4] E1 E2 Hr. split; cbn.
  - by destruct H1.
  - by rewrite E1.
  - unfold ws_ok. by rewrite E1, E2.
  - rewrite <- (app_nil_r (log w)). by eapply ws_run_app.
Qed.

Lemma client_act_inv a w : inv c0 w → safe (client_act mg_random a w) (inv c0).
Proof.
  intros H. destruct a as [o|msg|func arg|func arg]; cbn [client_act].
  - by apply mg_mgr_poll_inv.
  - pose proof (send_text_inv msg w H) as Hs. by destruct (send_text mg_random msg w).
  - apply (set_func_inv (λ c, set_text_received_func c func arg)); [done..|].
    eapply run_set_text. constructor.
  - apply (set_func_inv (λ c, set_ws_event_func c func arg)); [done..|].
    eapply run_set_event. constructor.
Qed.

Lemma client_run_inv acts w : inv c0 w → safe (client_run mg_random acts w) (inv c0).
Proof.
  revert w. induction acts as [|a acts IH]; intros w H; cbn [client_run]; [done|].
  eapply safe_bind; [by apply client_act_inv|]. exact IH.
Qed.

Lemma mg_mgr_free_inv o w : inv c0 w → safe (mg_mgr_free mg_random o w) (inv c0).
Proof.
  intros H. apply mg_mgr_poll_inv. eapply frame_inv; [|exact H]. split; try done.
  unfold sigs. cbn [conns set_conns]. by rewrite <- list_fmap_compose.
Qed.
End loop.

Lemma new_world_inv mg_random o url open :
  safe (new_world mg_random o url open) (inv (new_client url)).
Proof.
  unfold new_world. destruct (mg_timer_init _ _ _ _ _ _) as [calls t]. apply on_timers_inv.
  split; [|done|done|constructor]. split; [constructor|constructor|constructor|done].
Qed.

(** C9: From the constructor of the client on, whatever the program does with it, whatever
    the system and the network answer, and also in the destructor: no function of the
    library touches a connection that is freed, and a loop over the connections ends.
    There is at most one connection of the client, the one [m_connection] points to; the
    resolver's requests are for it; and what the client did is a run of the machine in
    [WSClient], whose assumption on the library holds. *)
Theorem client_never_dangles mg_random url open o acts :
  safe (w ← new_world mg_random o url open; client_run mg_random acts w) (λ w,
    NoDup (ids w) ∧ clients w = option_list (m_connection (client w))
    ∧ Forall (λ d, d_conn d ∈ clients w) (s_reqs w)
    ∧ ws_run (new_client url) (log w) (client w)
    ∧ ∀ o', safe (mg_mgr_free mg_random o' w) (λ w', NoDup (ids w'))).
Proof.
  eapply safe_mono.
  - eapply safe_bind; [apply new_world_inv|]. intros w H. by apply (client_run_inv (new_client url)).
  - intros w H. split_and!; try apply H. intros o'.
    eapply safe_mono; [by apply (mg_mgr_free_inv (new_client url))|]. intros w' H'. apply H'.
Qed.
