(* ===== verification/MgOnline.v ===== *)
(** * MgOnline: from the constructor of the client to the texts it receives

    No code of its own.  The poll loop ([MgPoll]) runs the websocket layer ([MgWebsocket])
    and the handler of the client ([MgSession]) on the one connection of a client whose
    server has a numeric address: the connection is opened, the request goes out, and what
    the server sends reaches the application. *)

From S2P Require Import Prelude.
From S2P Require Import Utils.
From S2P Require Import LiveMeetingRoom.
From S2P Require Import MgIobuf.
From S2P Require Import MgWebsocket.
From S2P Require Import MgTimer.
From S2P Require Import MgConnect.
From S2P Require Import MgAton.
From S2P Require Import WSClient.
From S2P Require Import MgSession.
From S2P Require Import MgPoll.

(** ** A connection that is closing stays so *)

Section closing.
Context (mg_random : nat → list Z).

Lemma mg_send_closing c d c' : MgWebsocket.mg_send c d = Ok c' → is_closing c' = is_closing c.
Proof. unfold MgWebsocket.mg_send. intros H. inv_bind. by subst. Qed.

Lemma mg_ws_send_closing c d op r : MgWebsocket.mg_ws_send mg_random c d op = Ok r → is_closing r.2 = is_closing c.
Proof.
  unfold MgWebsocket.mg_ws_send. destruct (mkhdr _ _ _ _ _) as [header n]. intros (c1 & E1 & H)%bind_is_ok.
  apply bind_is_ok in H as (c2 & E2 & H). apply bind_is_ok in H as (c3 & E3 & [= <-]). cbn [snd].
  apply mg_send_closing in E1, E2. cbn [is_closing set_send] in E1. rewrite <- E1, <- E2.
  unfold mg_ws_mask in E3. destruct (_ && _); inv_bind; by subst.
Qed.

Lemma ws_dispatch_closing c m s r :
  ws_dispatch mg_random c m s = Ok r → is_closing c = true → is_closing r.2 = true.
Proof.
  intros H Hc. unfold ws_dispatch in H. repeat case_match; try (injection H as <-; done).
  apply bind_is_ok in H as (d & _ & H). apply bind_is_ok in H as (x & E & [= <-]).
  cbn [snd]. by rewrite (mg_ws_send_closing _ _ _ _ E).
Qed.

Lemma ws_strip_closing c m r : ws_strip c m = Ok r → is_closing r.2 = is_closing c.
Proof.
  unfold ws_strip. intros ([ofs c1] & E1 & H)%bind_is_ok. apply bind_is_ok in H as (c2 & E2 & H).
  assert (C1 : is_closing c1 = is_closing c).
  { clear E2 H. destruct (_ || _); [|by injection E1 as <- <-]. destruct (if negb _ then _ else _) as [[??]?].
    apply bind_is_ok in E1 as (? & _ & [= <- <-]). done. }
  assert (C2 : is_closing c2 = is_closing c1).
  { clear E1 H. destruct (_ && _); [|by injection E2 as <-]. apply bind_is_ok in E2 as (? & _ & [= <-]). done. }
  rewrite <- C1, <- C2. clear E2. destruct (_ && _); [|by injection H as <-].
  apply bind_is_ok in H as (? & _ & H). apply bind_is_ok in H as (? & _ & [= <-]). done.
Qed.

Lemma ws_loop_closing fuel c r :
  ws_loop mg_random fuel c = Ok r → is_closing c = true → is_closing r.2 = true.
Proof.
  revert c r. induction fuel as [|fuel IH]; intros c r H Hc; cbn [ws_loop] in H; [done|].
  apply bind_is_ok in H as ([[evs c1]|] & E & H); [|injection H as <-; done].
  apply bind_is_ok in H as (r1 & E1 & [= <-]). cbn [snd]. eapply IH; [exact E1|].
  unfold ws_turn in E. apply bind_is_ok in E as (b & _ & E). apply bind_is_ok in E as ([n [m b']] & _ & E).
  destruct (n <=? 0); [done|]. apply bind_is_ok in E as (mem & _ & E).
  apply bind_is_ok in E as ([evs2 c2] & E2 & E). apply bind_is_ok in E as (r2 & E3 & [= <- <-]).
  rewrite (ws_strip_closing _ _ _ E3). apply (ws_dispatch_closing _ _ _ _ E2). done.
Qed.

Lemma read_conn_closing c d r :
  MgWebsocket.read_conn mg_random c d = Ok r → is_closing c = true → is_closing r.2 = true.
Proof.
  unfold MgWebsocket.read_conn. intros H Hc. destruct (_ <=? _); [by injection H as <-|].
  apply bind_is_ok in H as (b & _ & H). revert H. set (c1 := set_recv _ _ _). assert (Hc1 : is_closing c1 = true) by done.
  clearbody c1. unfold MgWebsocket.mg_ws_cb. intros H. destruct (_ && _); [|by eapply ws_loop_closing].
  apply bind_is_ok in H as (data & _ & H). destruct (_ <? 0); [by eapply ws_loop_closing|].
  destruct (0 <? _); [|by injection H as <-].
  apply bind_is_ok in H as (status & _ & H). destruct (if bool_decide _ then _ else _) as [evs c2] eqn:E2.
  apply bind_is_ok in H as (x & _ & H). apply bind_is_ok in H as (r2 & E3 & [= <-]). cbn [snd].
  eapply ws_loop_closing; [exact E3|]. cbn [is_closing set_recv]. case_bool_decide; by injection E2 as <- <-.
Qed.

Lemma read_all_closing c chunks r :
  read_all mg_random c chunks = Ok r → is_closing c = true → is_closing r.2 = true.
Proof.
  revert c r. induction chunks as [|d chunks IH]; intros c r H Hc; cbn [read_all] in H; [by injection H as <-|].
  apply bind_is_ok in H as ([evs c1] & E & H). apply bind_is_ok in H as (r1 & E1 & [= <-]). cbn [snd].
  eapply IH; [exact E1|]. by apply (read_conn_closing _ _ _ E).
Qed.
End closing.

(** ** The one connection of the client

    It is [c], nothing keeps it from being watched, and the timer is not due before
    [deadline]. *)
Record attached (deadline : Z) (w : world) (c : conn) : Prop := {
  at_conns : conns w = [c];
  at_fn : c_fn c = true;
  at_fd : 0 <= c_fd c < FD_SETSIZE;
  at_resolving : is_resolving c = false;
  at_connecting : is_connecting c = false;
  at_pfn : c_pfn c = mg_ws_cb;
  at_open : is_closing (c_io c) = false;
  at_timer : ∃ a t, g_timers (timers w) = [(a, t)] ∧ expire t = deadline ∧ deadline ≠ 0;
}.

(** What the system says of the descriptor in a turn. *)
Record says (o : os) (fd : Z) (r w : bool) : Prop := {
  say_select : os_select o = true;
  say_readable : os_readable o fd = r;
  say_writable : os_writable o fd = w;
}.

(** The world after the flags are set. *)
Definition tested (o : os) (w : world) (c : conn) (t : timer_state) : world :=
  mk_world [set_ready c (os_readable o (c_fd c)) (wants_write c && os_writable o (c_fd c))]
    (nextid w) (fds w) (s_reqs w) (dns4 w) (client w) t (log w).

Lemma watched_open c :
  0 <= c_fd c < FD_SETSIZE → is_resolving c = false → is_closing (c_io c) = false → watched c = true.
Proof.
  intros Hfd Hr Hc. unfold watched, closing. rewrite Hr, Hc. by rewrite (proj2 (Z.eqb_neq (c_fd c) (-1))) by lia.
Qed.

Lemma set_of_filter (f : conn → bool) c :
  bool_decide (c_fd c ∈ (list_to_set (c_fd <$> filter (λ c, f c = true) [c]) : gset Z)) = f c.
Proof.
  rewrite filter_cons. destruct (f c) eqn:E.
  - rewrite decide_True by done. apply bool_decide_eq_true_2. cbn. set_solver.
  - rewrite decide_False by done. apply bool_decide_eq_false_2. cbn. set_solver.
Qed.

(** Its number leads to it. *)
Lemma get_one w c id : conns w = [c] → c_id c = id → get_conn id w = Done c.
Proof. intros E <-. unfold get_conn. rewrite E. cbn [find_conn]. by rewrite Z.eqb_refl. Qed.

Lemma put_one w c c' : conns w = [c] → c_id c' = c_id c → put_conn c' w = set_conns w [c'].
Proof. intros E Ei. unfold put_conn. rewrite E. cbn [fmap list_fmap]. by rewrite Ei, Z.eqb_refl. Qed.

Section polling.
Context (mg_random : nat → list Z).

(** A poll is the turn of the connection. *)
Lemma poll_is_turn o w c t :
  conns w = [c] → watched c = true → c_fd c < FD_SETSIZE → os_select o = true →
  mg_timer_poll (os_now o) (timers w) = ([], t) →
  mg_mgr_poll mg_random o w = poll_turn mg_random o (c_id c) (tested o w c t).
Proof.
  intros Ec Hw Hfd Hs Ht. pose proof Hw as Hfd'. unfold watched in Hfd'.
  apply andb_true_iff in Hfd' as [_ Hne%negb_true_iff].
  unfold mg_mgr_poll, mg_iotest. rewrite Ec. cbn [fd_sets]. rewrite Hne. cbn [negb andb].
  rewrite (proj2 (Z.leb_gt FD_SETSIZE (c_fd c))) by done. cbn [mbind res_bind fmap list_fmap].
  rewrite !set_of_filter, Hw, Hne, Hs, !andb_true_r. cbn [negb andb timers set_conns]. rewrite Ht.
  cbn [on_timers mbind res_bind set_timers set_conns conns length head fmap option_fmap option_map poll_loop c_id set_ready].
  change (set_timers (set_conns w [set_ready c (os_readable o (c_fd c)) (wants_write c && os_writable o (c_fd c))]) t)
    with (tested o w c t).
  rewrite (get_one _ (set_ready c (os_readable o (c_fd c)) (wants_write c && os_writable o (c_fd c)))) by done.
  cbn [mbind res_bind next_conn c_id set_ready]. rewrite Z.eqb_refl.
  by destruct (poll_turn mg_random o (c_id c) (tested o w c t)).
Qed.

Lemma timer_waits deadline w c now :
  attached deadline w c → oldnow (timers w) <= now < deadline →
  mg_timer_poll now (timers w) = ([], mk_timers (g_timers (timers w)) now).
Proof.
  intros [_ _ _ _ _ _ _ (a & t & Eg & Ee & Hne)] Hn. unfold mg_timer_poll.
  rewrite (proj2 (Z.ltb_ge _ _)) by lia. rewrite Eg. cbn [timers_loop]. unfold timer_turn.
  rewrite Ee, (proj2 (Z.eqb_neq deadline 0)) by done. rewrite Ee, (proj2 (Z.ltb_lt now deadline)) by lia. done.
Qed.

Lemma attached_watched deadline w c : attached deadline w c → watched c = true.
Proof. intros []. by apply watched_open. Qed.

(** What the socket has taken is gone. *)
Lemma write_all c :
  wf (send c) → 0 < len (send c) →
  ∃ io, MgSession.write_conn c (len (send c)) = Ok (content (send c), set_send c io (drawn c))
    ∧ wf io ∧ content io = [].
Proof.
  intros Hw Hl. pose proof (content_length _ Hw) as El. unfold MgSession.write_conn.
  rewrite (proj2 (Z.eqb_neq _ 0)), (proj2 (Z.ltb_ge _ 0)) by lia.
  assert (E : content (send c) = [] ++ content (send c) ++ []) by (by rewrite app_nil_r).
  pose proof (rd_range_content _ [] _ [] Hw E) as Er. rewrite zlen_nil, El in Er. step Er.
  destruct (del_mid (send c) [] (content (send c)) [] Hw E) as (io & Ed & Hw' & Ec'). rewrite zlen_nil, El in Ed.
  step Ed. by exists io.
Qed.

(** The polls of the next turns, while nothing but the connection moves. *)
Ltac one_conn := repeat first
  [ erewrite get_one by reflexivity
  | erewrite put_one by reflexivity
  | rewrite call_fn_other
  | progress cbn [mbind res_bind tested conns set_conns c_id c_pfn c_io set_ready set_socket set_io c_fd c_fn
      is_resolving is_connecting is_readable is_writable is_udp andb orb negb closing is_closing snd fst] ].

Lemma poll_connects o w c t :
  conns w = [c] → watched c = true → c_fd c < FD_SETSIZE → is_connecting c = true → c_pfn c = mg_ws_cb →
  os_select o = true → os_writable o (c_fd c) = true → os_so_error o (c_id c) = 0 →
  mg_timer_poll (os_now o) (timers w) = ([], t) →
  mg_mgr_poll mg_random o w = Done (mk_world
    [set_socket (set_ready c (os_readable o (c_fd c)) true) (c_fd c) (is_resolving c) false]
    (nextid w) (fds w) (s_reqs w) (dns4 w) (client w) t (log w)).
Proof.
  intros Ec Hw Hfd Hcon Hp Hs Hwr He Ht. rewrite (poll_is_turn o w c t) by done.
  pose proof Hw as Hopen. unfold watched in Hopen. apply andb_true_iff in Hopen as [[Hcl Hr]%andb_true_iff _].
  apply negb_true_iff in Hcl, Hr. unfold closing in Hcl.
  unfold tested, wants_write. rewrite Hw, Hcon, Hwr. cbn [andb orb].
  unfold poll_turn. one_conn. rewrite Hp. one_conn. unfold closing. one_conn. rewrite Hr, Hcl, Hcon. cbn [orb].
  rewrite orb_true_r. unfold connect_conn. one_conn. rewrite He. change (0 =? EAGAIN) with false. cbn [Z.eqb negb]. one_conn.
  unfold closing. one_conn. rewrite Hcl, Hr. done.
Qed.
(** What a poll leaves of the connection that is attached. *)
Lemma attached_next deadline w c now c' this es :
  attached deadline w c → sig c' = sig c → c_fd c' = c_fd c → c_pfn c' = mg_ws_cb → is_resolving c' = false →
  is_connecting c' = false → is_closing (c_io c') = false →
  attached deadline (mk_world [c'] (nextid w) (fds w) (s_reqs w) (dns4 w) this
                       (mk_timers (g_timers (timers w)) now) es) c'.
Proof. intros [] [= E1 E2] **. split; try done; congruence. Qed.

Lemma poll_writes deadline o w c :
  attached deadline w c → says o (c_fd c) false true → oldnow (timers w) <= os_now o < deadline →
  wf (send (c_io c)) → 0 < len (send (c_io c)) → os_send o (c_id c) = len (send (c_io c)) →
  ∃ w' c' io, mg_mgr_poll mg_random o w = Done w' ∧ attached deadline w' c' ∧ wf io ∧ content io = []
    ∧ c_io c' = set_send (c_io c) io (drawn (c_io c)) ∧ sig c' = sig c ∧ c_fd c' = c_fd c
    ∧ client w' = client w ∧ log w' = log w ∧ oldnow (timers w') = os_now o.
Proof.
  intros Ha [S1 S2 S3] Hn Hw Hl Hs. destruct (write_all (c_io c) Hw Hl) as (io & E & Hwi & Ei).
  pose proof Ha as [A1 A2 A3 A4 A5 A6 A7 _].
  exists (mk_world [set_io (set_ready c false true) (set_send (c_io c) io (drawn (c_io c)))]
    (nextid w) (fds w) (s_reqs w) (dns4 w) (client w) (mk_timers (g_timers (timers w)) (os_now o)) (log w)).
  eexists; exists io. split; [|split; [by apply (attached_next deadline w c)|by split_and!]].
  rewrite (poll_is_turn o w c _ A1 (attached_watched _ _ _ Ha) (proj2 A3) S1 (timer_waits _ _ _ _ Ha Hn)).
  unfold tested, wants_write. rewrite (attached_watched _ _ _ Ha), S2, S3, A5, (proj2 (Z.ltb_lt _ _) Hl). cbn [andb orb].
  unfold poll_turn. one_conn. rewrite A6. one_conn. unfold closing. one_conn. rewrite A4, A5, A7. one_conn.
  unfold write_conn. one_conn. rewrite Hs, E. cbn [lift]. one_conn. rewrite (proj2 (Z.ltb_lt 0 _) Hl). one_conn.
  cbn [is_closing set_send]. rewrite A7. done.
Qed.

(** The handler does with the events what [feed_client] says. *)
Lemma feed_is_client c evs w es this :
  c_fn c = true → feed_client evs (client w) = Ok (es, this) →
  feed c evs w = Done (emit (set_client w this) es).
Proof.
  intros Hf. revert w es. induction evs as [|e evs IH]; intros w es E; cbn [feed_client feed] in *.
  { injection E as <- <-. by rewrite emit_nil. }
  apply bind_is_ok in E as (e' & Ee & E). destruct (on_event_handle (client w) e') as [es1 this1] eqn:Eh.
  apply bind_is_ok in E as ([es2 this2] & Er & [= <- <-]). rewrite Ee. cbn [lift mbind res_bind].
  unfold call_fn. rewrite Hf, Eh. rewrite (IH _ es2) by exact Er. cbn. unfold emit, set_client. cbn.
  by rewrite <- app_assoc.
Qed.

Lemma poll_reads deadline o w c d evs io es this :
  attached deadline w c → says o (c_fd c) true false → oldnow (timers w) <= os_now o < deadline →
  os_recv o (c_id c) = Some d → d ≠ [] →
  MgWebsocket.read_conn mg_random (c_io c) d = Ok (evs, io) → is_closing io = false →
  feed_client evs (client w) = Ok (es, this) →
  ∃ w' c', mg_mgr_poll mg_random o w = Done w' ∧ attached deadline w' c' ∧ c_io c' = io
    ∧ sig c' = sig c ∧ c_fd c' = c_fd c
    ∧ client w' = this ∧ log w' = log w ++ es ∧ oldnow (timers w') = os_now o.
Proof.
  intros Ha [S1 S2 S3] Hn Hrecv Hd E Hcl Hf. pose proof Ha as [A1 A2 A3 A4 A5 A6 A7 _].
  exists (mk_world [set_io (set_ready c true false) io]
    (nextid w) (fds w) (s_reqs w) (dns4 w) this (mk_timers (g_timers (timers w)) (os_now o)) (log w ++ es)).
  eexists. split; [|split; [by apply (attached_next deadline w c)|by split_and!]].
  rewrite (poll_is_turn o w c _ A1 (attached_watched _ _ _ Ha) (proj2 A3) S1 (timer_waits _ _ _ _ Ha Hn)).
  unfold tested. rewrite S2, S3, andb_false_r.
  unfold poll_turn. one_conn. rewrite A6. one_conn. unfold closing. one_conn. rewrite A4, A5, A7. one_conn.
  unfold read_conn. one_conn. rewrite Hrecv. destruct d as [|x d]; [done|].
  assert (Hmax : (MG_MAX_RECV_BUF_SIZE <=? len (recv (c_io c))) = false).
  { destruct (_ <=? _) eqn:Em; [|done]. unfold MgWebsocket.read_conn in E. rewrite Em in E. by injection E as <- <-. }
  rewrite Hmax. one_conn. rewrite A6, E. cbn [lift]. one_conn.
  rewrite (feed_is_client _ _ _ es this) by done. one_conn. unfold emit, set_client. one_conn.
  rewrite Hcl. done.
Qed.

(** The times of the polls: the clock does not go back, and the timer is not due. *)
Fixpoint punctual (deadline now : Z) (nows : list Z) : Prop :=
  match nows with [] => True | n :: nows => now <= n < deadline ∧ punctual deadline n nows end.

(** In each of these turns the connection has something to read, and it is this. *)
Definition delivers (fd : Z) (o : os) (d : list Z) : Prop :=
  says o fd true false ∧ os_recv o 1 = Some d.

Lemma feed_client_app evs1 evs2 this r :
  feed_client (evs1 ++ evs2) this = Ok r →
  ∃ r1 r2, feed_client evs1 this = Ok r1 ∧ feed_client evs2 r1.2 = Ok r2 ∧ r = (r1.1 ++ r2.1, r2.2).
Proof.
  revert this r. induction evs1 as [|e evs1 IH]; intros this r E; cbn [app feed_client] in *.
  { exists ([], this), r. by destruct r. }
  apply bind_is_ok in E as (e' & Ee & E). destruct (on_event_handle this e') as [es1 this1] eqn:Eh.
  apply bind_is_ok in E as (r' & Er & [= <-]). destruct (IH _ _ Er) as (r1 & r2 & E1 & E2 & ->).
  rewrite Ee. step_bind. rewrite Eh, E1. step_bind. do 2 eexists. split; [done|]. split; [exact E2|].
  cbn. by rewrite <- app_assoc.
Qed.

Lemma polls_read deadline os chunks w c evs io es this :
  attached deadline w c → c_id c = 1 → punctual deadline (oldnow (timers w)) (os_now <$> os) →
  Forall2 (delivers (c_fd c)) os chunks → fits mg_random (c_io c) chunks →
  read_all mg_random (c_io c) chunks = Ok (evs, io) → is_closing io = false →
  feed_client evs (client w) = Ok (es, this) →
  ∃ w' c', client_run mg_random (Pulse <$> os) w = Done w' ∧ attached deadline w' c' ∧ c_io c' = io
    ∧ client w' = this ∧ log w' = log w ++ es.
Proof.
  intros Ha Hid Hp Hd. revert chunks w c evs es Ha Hid Hp Hd.
  induction os as [|o os IH]; intros chunks w c evs es Ha Hid Hp Hd Hfit Hr Hcl Hf.
  { apply Forall2_nil_inv_l in Hd as ->. injection Hr as <- <-. injection Hf as <- <-.
    exists w, c. by rewrite app_nil_r. }
  apply Forall2_cons_inv_l in Hd as (d & chunks' & [Hs Hrecv] & Hd & ->). destruct Hp as [Hn Hp].
  destruct Hfit as (Hne & _ & Hfit). cbn [read_all] in Hr.
  apply bind_is_ok in Hr as ([evs1 io1] & E1 & Hr). apply bind_is_ok in Hr as ([evs2 io2] & E2 & [= <- <-]).
  cbn [fst snd] in *. apply feed_client_app in Hf as ([es1 this1] & [es2 this2] & F1 & F2 & [= -> ->]). cbn [fst snd] in *.
  assert (Hcl1 : is_closing io1 = false).
  { apply not_true_iff_false. intros Hc1. apply (read_all_closing _ _ _ _ E2) in Hc1. cbn in Hc1. congruence. }
  rewrite <- Hid in Hrecv.
  destruct (poll_reads deadline o w c d evs1 io1 es1 this1) as (w1 & c1 & P1 & P2 & P3 & P4 & P5 & P6 & P7 & P8); [done..|].
  injection P4 as P4 _. subst io1 this1.
  destruct (IH chunks' w1 c1 evs2 es2) as (w' & c' & Q1 & Q2 & Q3 & Q4 & Q5); [done|congruence|by rewrite P8|by rewrite P5|eauto|done..|].
  exists w', c'. change (client_run mg_random (Pulse <$> o :: os) w)
    with (w1 ← mg_mgr_poll mg_random o w; client_run mg_random (Pulse <$> os) w1).
  rewrite P1. cbn [mbind res_bind]. split; [done|]. split; [done|]. split; [done|]. split; [done|].
  by rewrite Q5, P7, app_assoc.
Qed.
End polling.

(** ** Opening *)

(** The answers of the system until the request is out: [socket] gives [fd], the connection
    is under way and made at the first poll, and the socket takes the whole request at the
    second, both before the timer is due. *)
Record connects (o0 o1 o2 : os) (open : gset Z) (fd : Z) (request : list Z) : Prop := {
  con_socket : os_socket o0 1 open = fd;
  con_fd : 0 <= fd < FD_SETSIZE;
  con_under_way : os_connect o0 1 = in_progress;
  con_nonce : is_bytes (os_nonce o0 1) ∧ zlen (os_nonce o0 1) = 16;
  con_select : os_select o1 = true;
  con_made : os_writable o1 fd = true ∧ os_so_error o1 1 = 0;
  con_sends : says o2 fd false true;
  con_takes : os_send o2 1 = zlen request;
  con_times : 0 <= os_now o1 <= os_now o2 ∧ os_now o2 < os_now o1 + 12000;
}.

Definition fresh_io : mg_connection := mk_mg_connection empty_iobuf empty_iobuf 0 false true false 0.

(** A connection that was just opened. *)
Definition started (id fd : Z) (io : mg_iobuf) : conn :=
  mk_conn id fd true mg_ws_cb false true false false false (set_send fresh_io io 0).

Section numeric.
Context (ip : list Z) (port : Z) (a b c d : Z).
Hypothesis quad : dotted_quad ip a b c d.
Hypothesis ip_short : zlen ip < 2 ^ 16.
Hypothesis port_ok : 0 <= port < 65536.

Lemma quad_plain : Forall plain_byte ip ∧ ip ≠ [].
Proof.
  split.
  - eapply Forall_impl; [by eapply quad_bytes|]. cbn. intros x [->|Hx]; [by unfold plain_byte|by apply digit_plain].
  - by destruct (quad_head _ _ _ _ _ quad) as (x & l & -> & _).
Qed.

(** The connection to the server is opened, and the request waits to be sent. *)
Lemma numeric_connect o fd open n this t lg :
  let id := n + 1 in
  m_server_url this = wsaddress ip port → os_socket o id open = fd → 0 <= fd → os_connect o id = in_progress →
  is_bytes (os_nonce o id) → zlen (os_nonce o id) = 16 →
  ∃ io, reconnect o (mk_world [] n open [] None this t lg)
      = Done (mk_world [started id fd io] id ({[fd]} ∪ open) [] None
                (set_connection this (Some id) (m_connected this)) t
                (lg ++ [WSClient.mg_ws_connect (wsaddress ip port)]))
    ∧ wf io ∧ content io = text_lines (request_lines ip (os_nonce o id)).
Proof.
  intros id Eu Hs Hfd Hc Hn Hn16. destruct quad_plain as [Hp Hne].
  destruct (address_parts ip port Hp port_ok ltac:(lia)) as (Eh & _).
  pose proof (ws_request_lines ip port (os_nonce o id) (replicate 30 0) Hp Hne port_ok ip_short Hn Hn16 eq_refl) as Er.
  set (request := text_lines _) in *.
  destruct (mg_send_content fresh_io request) as (io & Es & Hw & Ec); [done| |].
  { pose proof (request_long ip (os_nonce o id) ip_short Hn16) as Hl. fold request in Hl. change (len (send fresh_io)) with 0. lia. }
  exists io. split; [|by rewrite Ec]. 
  set (url := wsaddress ip port) in *. unfold reconnect. cbn [client]. rewrite Eu. unfold mg_ws_connect.
  assert (Ealloc : ∀ w, mg_connect o 2 url true w =
    let '(id, w) := mg_alloc_conn url true w in
    c ← get_conn id w;
    w ← mg_resolve o (mg_connect o 1 dns_url false) id url (call_fn c MG_EV_OTHER w);
    Done (Some id, w)).
  { intros w. unfold url. by rewrite wsaddress_split. }
  rewrite Ealloc. unfold mg_alloc_conn. cbn [nextid conns]. change (n + 1) with id.
  assert (Eudp : has_prefix (bytes_of "udp:") url = false).
  { unfold url. by rewrite wsaddress_split. }
  rewrite Eudp. fold fresh_io.
  erewrite get_one by reflexivity. cbn [mbind res_bind]. rewrite call_fn_other. unfold mg_resolve.
  rewrite Eh. cbn [lift mbind res_bind]. rewrite (aton_quad _ _ _ _ _ _ quad). cbn [lift mbind res_bind fst].
  unfold mg_connect_resolved. erewrite get_one by reflexivity. cbn [mbind res_bind MgPoll.fds].
  rewrite Hs, (proj2 (Z.eqb_neq fd (-1))) by lia. erewrite put_one by reflexivity. rewrite !call_fn_other.
  cbn [is_udp set_socket]. rewrite Hc. erewrite put_one by reflexivity. cbn [mbind res_bind].
  rewrite Er. cbn [lift mbind res_bind]. erewrite get_one by reflexivity. cbn [mbind res_bind c_io set_socket].
  rewrite Es. cbn [lift mbind res_bind]. erewrite put_one by reflexivity.
  change (m_server_url (client _)) with (m_server_url this). rewrite Eu. done.
Qed.

(** The timer as the constructor leaves it. *)
Definition started_timer : timer_state := mk_timers [(1, mk_mg_timer 12000 0 3 1 1)] 0.

Lemma numeric_start mg_random o fd open :
  os_socket o 1 open = fd → 0 <= fd → os_connect o 1 = in_progress →
  is_bytes (os_nonce o 1) → zlen (os_nonce o 1) = 16 →
  ∃ io, new_world mg_random o (wsaddress ip port) open
      = Done (mk_world [started 1 fd io] 1 ({[fd]} ∪ open) [] None
                (set_connection (new_client (wsaddress ip port)) (Some 1) false) started_timer
                [WSClient.mg_ws_connect (wsaddress ip port)])
    ∧ wf io ∧ content io = text_lines (request_lines ip (os_nonce o 1)).
Proof.
  intros Hs Hfd Hc Hn Hn16.
  destruct (numeric_connect o fd open 0 (new_client (wsaddress ip port)) started_timer [] eq_refl Hs Hfd Hc Hn Hn16)
    as (io & E & Hw & Ec).
  change (0 + 1) with 1 in E, Ec. exists io. split; [|done].
  unfold new_world. change (mg_timer_init _ _ _ _ _ _) with ([mk_call 1 1 1], started_timer). cbn [on_timers].
  change (on_timer mg_random o _)
    with (reconnect o (mk_world [] 0 open [] None (new_client (wsaddress ip port)) started_timer [])).
  by rewrite E.
Qed.

(** The first poll arms it. *)
Lemma timer_armed now :
  0 <= now → mg_timer_poll now started_timer = ([], mk_timers [(1, mk_mg_timer 12000 (now + 12000) 3 1 1)] now).
Proof.
  intros Hn. unfold mg_timer_poll. cbn [oldnow g_timers started_timer]. rewrite (proj2 (Z.ltb_ge _ 0)) by lia.
  cbn [timers_loop]. unfold timer_turn. cbn [expire Z.eqb set_expire period_ms].
  rewrite (proj2 (Z.ltb_lt _ (_ + _))) by lia. done.
Qed.

Context (mg_random : nat → list Z) (open : gset Z) (fd : Z) (o0 o1 o2 : os) (func arg func2 arg2 : Z).
Notation url := (wsaddress ip port).
Notation request := (text_lines (request_lines ip (os_nonce o0 1))).
Hypothesis Hcon : connects o0 o1 o2 open fd request.

(** The client, when it waits for the answer. *)
Definition waiting : WSClient :=
  set_ws_event_func (set_text_received_func (set_connection (new_client url) (Some 1) false) (Some func) arg)
    (Some func2) arg2.

Lemma opened_polls :
  ∃ w1 c1, (w ← new_world mg_random o0 url open;
            client_run mg_random [Set_text (Some func) arg; Set_event (Some func2) arg2; Pulse o1] w) = Done w1
    ∧ conns w1 = [c1] ∧ content (send (c_io c1)) = request
    ∧ ∃ w2 c2, mg_mgr_poll mg_random o2 w1 = Done w2 ∧ attached (os_now o1 + 12000) w2 c2
        ∧ c_id c2 = 1 ∧ c_fd c2 = fd ∧ oldnow (timers w2) = os_now o2
        ∧ client w2 = waiting ∧ log w2 = [WSClient.mg_ws_connect url]
        ∧ ∃ io, c_io c2 = set_send fresh_io io 0 ∧ wf io ∧ content io = [].
Proof.
  destruct Hcon as [K1 K2 K3 [K4 K5] K6 [K7 K8] K9 K10 [K11 K12]].
  destruct (numeric_start mg_random o0 fd open K1 (proj1 K2) K3 K4 K5) as (io & Enew & Hw & Ec).
  set (t1 := mk_timers [(1, mk_mg_timer 12000 (os_now o1 + 12000) 3 1 1)] (os_now o1)).
  assert (Et : mg_timer_poll (os_now o1) started_timer = ([], t1)) by (apply timer_armed; lia).
  set (w1 := mk_world [set_socket (set_ready (started 1 fd io) (os_readable o1 fd) true) fd false false]
    1 ({[fd]} ∪ open) [] None waiting t1 [WSClient.mg_ws_connect url]).
  exists w1. eexists. split.
  { rewrite Enew. cbn [mbind res_bind client_run client_act].
    erewrite (poll_connects mg_random o1 _ (started 1 fd io) t1); [done|done| |apply K2|done..].
    by apply watched_open. }
  split; [done|]. split; [exact Ec|].
  assert (Ha : attached (os_now o1 + 12000) w1 (set_socket (set_ready (started 1 fd io) (os_readable o1 fd) true) fd false false)).
  { split; try done. exists 1, (mk_mg_timer 12000 (os_now o1 + 12000) 3 1 1). split; [done|]. split; [done|]. lia. }
  pose proof (request_long ip (os_nonce o0 1) ip_short K5) as Hlong.
  pose proof (content_zlen io _ Hw Ec) as El.
  destruct (poll_writes mg_random _ o2 w1 _ Ha K9) as (w2 & c2 & io2 & P1 & P2 & P3 & P4 & P5 & P6 & P7 & P8 & P9 & P10).
  - cbn. lia.
  - exact Hw.
  - change (0 < len io). lia.
  - change (os_send o2 1 = len io). by rewrite El.
  - injection P6 as P6 _. exists w2, c2. do 7 (split; [done|]). exists io2. split; [|done]. by rewrite P5.
Qed.
End numeric.

(** C8: A client whose server has a numeric address: the constructor opens the connection
    and leaves the request of the opening handshake to be sent; two polls later the
    connection is made and the request is gone, and the client waits for the answer.  From
    then on, one read a poll, however the network cuts the answer and the frames behind it,
    and as long as the timer is not due: the client is connected and its callback has been
    told so, each text is handed to the application, whole and in order, the pings are
    answered, and nothing is left in the buffer. *)
Theorem client_receives mg_random ip port a b c d open fd o0 o1 o2 func arg func2 arg2 :
  dotted_quad ip a b c d → zlen ip < 2 ^ 16 → 0 <= port < 65536 → (∀ n, zlen (mg_random n) = 4) →
  connects o0 o1 o2 open fd (text_lines (request_lines ip (os_nonce o0 1))) →
  ∃ w1 c1 w2 c2,
    (w ← new_world mg_random o0 (wsaddress ip port) open;
     client_run mg_random [Set_text (Some func) arg; Set_event (Some func2) arg2; Pulse o1] w) = Done w1
    ∧ conns w1 = [c1] ∧ content (send (c_io c1)) = text_lines (request_lines ip (os_nonce o0 1))
    ∧ mg_mgr_poll mg_random o2 w1 = Done w2 ∧ conns w2 = [c2] ∧ content (send (c_io c2)) = [] ∧ recv (c_io c2) = empty_iobuf
    ∧ ∀ os h chunks ms fs,
        punctual (os_now o1 + 12000) (os_now o2) (os_now <$> os) → Forall2 (delivers fd) os chunks →
        fits mg_random (c_io c2) chunks → accepts h → carries ms fs → well_formed None fs →
        concat chunks = h ++ stream fs → zlen (pong_bytes mg_random true 0 (pings fs)) < 2 ^ 32 →
        ∃ w3 c3, client_run mg_random (Pulse <$> os) w2 = Done w3
          ∧ is_connected (client w3) = true ∧ m_connection (client w3) = Some 1
          ∧ log w3 = [WSClient.mg_ws_connect (wsaddress ip port); call_ws_func func2 MG_EV_WS_OPEN arg2]
                       ++ text_calls func arg ms
          ∧ conns w3 = [c3] ∧ content (recv (c_io c3)) = []
          ∧ content (send (c_io c3)) = pong_bytes mg_random true 0 (pings fs).
Proof.
  intros Hq Hip Hp Hr Hcon.
  destruct (opened_polls ip port a b c d Hq Hip Hp mg_random open fd o0 o1 o2 func arg func2 arg2 Hcon)
    as (w1 & c1 & E1 & C1 & Q1 & w2 & c2 & E2 & Ha & Hid & Hfd & Hold & Hcl & Hlog & io & Eio & Hw & Ec).
  exists w1, c1, w2, c2. split; [done|]. split; [done|]. split; [done|]. split; [done|]. split; [apply Ha|].
  do 2 (split; [by rewrite Eio|]). intros os h chunks ms fs Hpun Hdel Hfit Hacc Hms Hwf Hch Hpong.
  pose proof (content_zlen io _ Hw Ec) as El. rewrite zlen_nil in El.
  destruct (delivered_any mg_random (c_io c2) (client w2) func h chunks ms fs) as (evs & io' & R1 & R2 & R3 & R4 & R5);
    try done.
  - rewrite Eio. split; try done. exists h. split; [|done]. intros ->. destruct Hacc as (_ & Hl & _). by destruct Hl.
  - rewrite Eio. change (len io + zlen (pong_bytes mg_random true 0 (pings fs)) < 2 ^ 32). lia.
  - by rewrite Hcl.
  - destruct (polls_read mg_random _ os chunks w2 c2 evs io'
      (call_event_func (client w2) MG_EV_WS_OPEN ++ text_calls func (m_recv_func_arg (client w2)) ms)
      (set_connection (client w2) (m_connection (client w2)) true) Ha Hid) as (w3 & c3 & P1 & P2 & P3 & P4 & P5);
      [by rewrite Hold|by rewrite Hfd|done|exact R1|by rewrite R4; apply Ha|exact R2|].
    exists w3, c3. split; [done|]. rewrite P4, P5, P3, Hcl, Hlog. split; [done|]. split; [done|]. split; [done|].
    split; [apply P2|]. split; [done|]. rewrite R5, Eio. change (content io ++ pong_bytes mg_random true 0 (pings fs) = pong_bytes mg_random true 0 (pings fs)).
    by rewrite Ec.
Qed.

(** ** A concrete run *)

(** The system: [socket] gives 3, the rest as the arguments say. *)
Definition sample_os (now : Z) (r w : bool) (sent : Z) (data : option (list Z)) : os :=
  mk_os now true (λ _, r) (λ _, w) (λ _ _, 3) (λ _, in_progress) (λ _, 0) (λ _, data) (λ _, sent)
    (λ _, replicate 16 65).

Lemma client_receives_witness :
  let ip := bytes_of "10.0.0.1" in
  let data := sample_answer ++ stream sample_frames in
  ∃ w2 w3, client_run any_mask [Pulse (sample_os 1400 true false (-1) (Some data))] w2 = Done w3
    ∧ is_connected (client w3) = true
    ∧ log w3 = [WSClient.mg_ws_connect (wsaddress ip 8080); call_ws_func 7 MG_EV_WS_OPEN 8;
                call_recv_func 5 [104; 101; 108; 108; 111] 6; call_recv_func 5 [33] 6].
Proof.
  cbv zeta. set (o0 := sample_os 0 false false (-1) None).
  set (request := text_lines (request_lines (bytes_of "10.0.0.1") (os_nonce o0 1))).
  destruct (client_receives any_mask (bytes_of "10.0.0.1") 8080 10 0 0 1 {[0; 1; 2]} 3 o0
    (sample_os 1000 false true (-1) None) (sample_os 1200 false true (zlen request) None) 5 6 7 8)
    as (w1 & c1 & w2 & c2 & _ & _ & _ & _ & _ & _ & Er & Hrun).
  - exists [49; 48], [48], [48], [49]. unfold octet. split; [reflexivity|].
    split_and!; try done; unfold is_digit; by repeat constructor.
  - done.
  - done.
  - done.
  - split; try done. unfold is_bytes. split; [by repeat constructor|done].
  - destruct (Hrun [sample_os 1400 true false (-1) (Some (sample_answer ++ stream sample_frames))]
      sample_answer [sample_answer ++ stream sample_frames] [(1, [104; 101; 108; 108; 111]); (1, [33])] sample_frames)
      as (w3 & c3 & E1 & E2 & _ & E3 & _).
    + done.
    + by repeat constructor.
    + split; [done|]. split; [|done]. unfold room, grown. rewrite Er. by vm_compute.
    + apply sample_accepts.
    + apply sample_carries.
    + apply sample_well_formed.
    + done.
    + by vm_compute.
    + exists w2, w3. split; [exact E1|]. split; [exact E2|exact E3].
Defined.
