(* ===== verification/MgRetry.v ===== *)
(** * MgRetry: a client whose server does not answer

    No code of its own.  Every twelve seconds [WSClient::on_timer] gives up the connection
    under way with [mg_close_conn] and opens another.  [mg_close_conn] frees the connection
    and leaves its socket open ([close_conn] is the one that closes it), so each turn of the
    timer takes one more descriptor, and [mg_iotest] hands any descriptor to [FD_SET]. *)

From S2P Require Import Prelude.
From S2P Require Import Utils.
From S2P Require Import LiveMeetingRoom.
From S2P Require Import MgIobuf.
From S2P Require Import MgWebsocket.
From S2P Require Import MgTimer.
From S2P Require Import MgConnect.
From S2P Require Import MgAton.
From S2P Require Import WSClient.
From S2P Require Import MgSession.
From S2P Require Import MgPoll.
From S2P Require Import MgOnline.

(** The system while nothing comes from the network: a connection stays under way, and
    [socket] gives a descriptor below the limit of the process that is not open, or none
    when all of these are. *)
Record silent (limit : Z) (o : os) : Prop := {
  sil_ready : ∀ fd, os_readable o fd = false ∧ os_writable o fd = false;
  sil_connect : ∀ id, os_connect o id = in_progress;
  sil_nonce : ∀ id, is_bytes (os_nonce o id) ∧ zlen (os_nonce o id) = 16;
  sil_socket : ∀ id s, (0 <= os_socket o id s < limit ∧ os_socket o id s ∉ s)
    ∨ (os_socket o id s = -1 ∧ ∀ fd, 0 <= fd < limit → fd ∈ s);
}.

(** The clock does not go back. *)
Fixpoint rising (now : Z) (nows : list Z) : bool :=
  match nows with [] => true | n :: nows => (now <=? n) && rising n nows end.

(** When the timer is due next, if it was due at [at_ms] and is called at [n]. *)
Definition due_next (at_ms n : Z) : Z := if 12000 <? n - at_ms then n + 12000 else at_ms + 12000.

(** How often polls at these times call it: at the first poll that finds it due. *)
Fixpoint turns (at_ms : Z) (nows : list Z) : nat :=
  match nows with
  | [] => O
  | n :: nows => if n <? at_ms then turns at_ms nows else S (turns (due_next at_ms n) nows)
  end.

Definition client_timer (at_ms now : Z) : timer_state :=
  mk_timers [(1, mk_mg_timer 12000 at_ms 3 1 1)] now.

Lemma timer_polled at_ms now n :
  0 < at_ms → now <= n →
  mg_timer_poll n (client_timer at_ms now)
  = if n <? at_ms then ([], client_timer at_ms n)
    else ([mk_call 1 1 1], client_timer (due_next at_ms n) n).
Proof.
  intros Hpos Hle. unfold mg_timer_poll, client_timer, due_next. cbn [oldnow g_timers].
  rewrite (proj2 (Z.ltb_ge n now)) by lia. cbn [timers_loop]. unfold timer_turn. cbn [expire].
  rewrite (proj2 (Z.eqb_neq at_ms 0)) by lia. cbn [expire]. destruct (n <? at_ms); [done|].
  cbn [period_ms expire]. by destruct (12000 <? n - at_ms).
Qed.

(** One connection, under way; the timer is due at [at_ms]. *)
Definition trying (id fd : Z) (io : mg_iobuf) (open : gset Z) (this : WSClient) (at_ms now : Z) (lg : list ws_effect)
    : world :=
  mk_world [started id fd io] id open [] None this (client_timer at_ms now) lg.

(** A connection whose socket was refused. *)
Definition failed (id : Z) (io : mg_iobuf) : conn :=
  mk_conn id (-1) true mg_ws_cb false false false false false (set_send (set_closing fresh_io) io 0).

Section silence.
Context (mg_random : nat → list Z) (ip : list Z) (port a b c d : Z).
Hypothesis quad : dotted_quad ip a b c d.
Hypothesis ip_short : zlen ip < 2 ^ 16.
Hypothesis port_ok : 0 <= port < 65536.

(** Nothing happens on the connection. *)
Lemma silent_turn o id fd io open this t lg :
  let w := mk_world [started id fd io] id open [] None this t lg in poll_turn mg_random o id w = Done w.
Proof.
  cbv zeta. unfold poll_turn. erewrite get_one by reflexivity. cbn [mbind res_bind]. rewrite call_fn_other.
  cbn [c_pfn started mbind res_bind]. erewrite get_one by reflexivity. cbn [mbind res_bind].
  change (is_resolving _ || closing _) with false. change (is_connecting _) with true.
  change (is_readable _ || is_writable _) with false. cbn [mbind res_bind].
  erewrite get_one by reflexivity. done.
Qed.

Lemma silent_loop o id fd io open this t lg :
  let w := mk_world [started id fd io] id open [] None this t lg in
  poll_loop mg_random o (length (conns w)) (c_id <$> head (conns w)) w = Done w.
Proof.
  cbv zeta. cbn [length conns head fmap option_fmap option_map c_id started poll_loop].
  erewrite get_one by reflexivity. cbn [mbind res_bind]. rewrite silent_turn. cbn [mbind res_bind next_conn c_id started conns].
  by rewrite Z.eqb_refl.
Qed.

(** Nor is anything ready. *)
Lemma silent_iotest limit o id fd io open this t lg :
  silent limit o → 0 <= fd →
  let w := mk_world [started id fd io] id open [] None this t lg in
  mg_iotest o w = if FD_SETSIZE <=? fd then Stop (fd_set_overflow fd) else Done w.
Proof.
  intros Hs Hfd. cbv zeta. unfold mg_iotest. cbn [conns fd_sets c_fd started].
  rewrite (proj2 (Z.eqb_neq fd (-1))) by lia. cbn [negb andb]. destruct (_ <=? _); [done|].
  cbn [mbind res_bind fmap list_fmap c_fd started]. destruct (sil_ready limit o Hs fd) as [-> ->].
  rewrite !andb_false_r. cbn [andb]. done.
Qed.

(** The connection is freed, its descriptor is not closed. *)
Lemma close_one id cn n open this t lg :
  c_id cn = id → c_fn cn = true → c_pfn cn = mg_ws_cb →
  mg_close_conn id (mk_world [cn] n open [] None this t lg)
  = Done (mk_world [] n open [] None (set_connection this None false) t (lg ++ call_event_func this MG_EV_CLOSE)).
Proof.
  intros E1 E2 E3. unfold mg_close_conn, mg_resolve_cancel, remove_conn. erewrite get_one by reflexivity || exact E1.
  cbn [mbind res_bind set_reqs conns]. rewrite filter_cons_False by (by intros []). rewrite E3.
  unfold call_fn. rewrite E2. done.
Qed.

(** A socket is refused: the connection is there until the end of the poll. *)
Lemma numeric_refused o open n this t lg :
  let id := n + 1 in
  m_server_url this = wsaddress ip port → os_socket o id open = -1 →
  is_bytes (os_nonce o id) → zlen (os_nonce o id) = 16 →
  ∃ io, reconnect o (mk_world [] n open [] None this t lg)
      = Done (mk_world [failed id io] id open [] None (set_connection this (Some id) (m_connected this)) t
                (lg ++ [WSClient.mg_ws_connect (wsaddress ip port)])).
Proof.
  intros id Eu Hs Hn Hn16. destruct (quad_plain ip a b c d quad ip_short) as [Hp Hne].
  destruct (address_parts ip port Hp port_ok ltac:(lia)) as (Eh & _).
  pose proof (ws_request_lines ip port (os_nonce o id) (replicate 30 0) Hp Hne port_ok ip_short Hn Hn16 eq_refl) as Er.
  set (request := text_lines _) in *.
  destruct (mg_send_content (set_closing fresh_io) request) as (io & Es & _ & _); [done| |].
  { pose proof (request_long ip (os_nonce o id) ip_short Hn16) as Hl. fold request in Hl.
    change (len (send (set_closing fresh_io))) with 0. lia. }
  exists io. set (url := wsaddress ip port) in *. unfold reconnect. cbn [client]. rewrite Eu. unfold mg_ws_connect.
  assert (Ealloc : ∀ w, mg_connect o 2 url true w =
    let '(id, w) := mg_alloc_conn url true w in
    c ← get_conn id w;
    w ← mg_resolve o (mg_connect o 1 dns_url false) id url (call_fn c MG_EV_OTHER w);
    Done (Some id, w)).
  { intros w. unfold url. by rewrite wsaddress_split. }
  rewrite Ealloc. unfold mg_alloc_conn. cbn [nextid conns]. change (n + 1) with id.
  assert (Eudp : has_prefix (bytes_of "udp:") url = false) by (unfold url; by rewrite wsaddress_split).
  rewrite Eudp. fold fresh_io.
  erewrite get_one by reflexivity. cbn [mbind res_bind]. rewrite call_fn_other. unfold mg_resolve.
  rewrite Eh. cbn [lift mbind res_bind]. rewrite (aton_quad _ _ _ _ _ _ quad). cbn [lift mbind res_bind fst].
  unfold mg_connect_resolved. erewrite get_one by reflexivity. cbn [mbind res_bind MgPoll.fds].
  rewrite Hs. change (-1 =? -1) with true. cbv iota. unfold mg_error. erewrite put_one by reflexivity.
  erewrite get_one by reflexivity. cbn [mbind res_bind]. erewrite put_one by reflexivity. rewrite call_fn_error.
  cbn [mbind res_bind]. rewrite Er. cbn [lift mbind res_bind]. erewrite get_one by reflexivity.
  cbn [mbind res_bind c_io set_socket set_io].
  rewrite Es. cbn [lift mbind res_bind]. erewrite put_one by reflexivity.
  change (m_server_url (client _)) with (m_server_url this). rewrite Eu. done.
Qed.

(** And is freed by the end of it. *)
Lemma refused_loop o id io open this t lg :
  ∃ lg', let w := mk_world [failed id io] id open [] None this t lg in
    poll_loop mg_random o (length (conns w)) (c_id <$> head (conns w)) w
    = Done (mk_world [] id open [] None (set_connection this None false) t lg').
Proof.
  eexists. cbv zeta. cbn [length conns head fmap option_fmap option_map c_id failed poll_loop].
  erewrite get_one by reflexivity. cbn [mbind res_bind]. unfold poll_turn.
  erewrite get_one by reflexivity. cbn [mbind res_bind]. rewrite call_fn_other.
  cbn [c_pfn failed mbind res_bind]. erewrite get_one by reflexivity. cbn [mbind res_bind].
  change (is_resolving _ || closing _) with true. cbn [mbind res_bind].
  erewrite get_one by reflexivity. cbn [mbind res_bind]. change (closing (failed id io)) with true. cbv iota.
  unfold close_conn. erewrite get_one by reflexivity. cbn [mbind res_bind].
  change (negb (c_fd (failed id io) =? -1)) with false. cbv iota.
  rewrite (close_one id (failed id io)) by done. cbn [mbind res_bind next_conn c_id failed].
  by rewrite Z.eqb_refl.
Qed.

(** *** The state after [t] attempts *)

Section limit.
Context (limit : Z) (open : gset Z).

(** The descriptors [l] were taken from the system, and are all open. *)
Record leaked (w : world) (l : list Z) : Prop := {
  lk_distinct : NoDup l;
  lk_new : Forall (λ fd, 0 <= fd < limit ∧ fd ∉ open) l;
  lk_open : fds w = list_to_set l ∪ open;
}.

(** All attempts had a socket; the last one is the connection under way. *)
Definition under_way (t : nat) (w : world) : Prop :=
  ∃ fd l cn, leaked w (fd :: l) ∧ length (fd :: l) = t ∧ conns w = [cn] ∧ c_fd cn = fd
    ∧ Forall (λ fd, fd < FD_SETSIZE) l.

(** No descriptor below the limit is left, and there is no connection. *)
Definition offline (t : nat) (w : world) : Prop :=
  ∃ l, leaked w l ∧ (length l < t)%nat ∧ conns w = [] ∧ m_connection (client w) = None
    ∧ (∀ fd, 0 <= fd < limit → fd ∈ fds w) ∧ Forall (λ fd, fd < FD_SETSIZE) l.

Definition spends (t : nat) (m : res world) : Prop :=
  match m with
  | Done w => under_way t w ∨ offline t w
  | Stop e => ∃ fd, e = fd_set_overflow fd ∧ FD_SETSIZE <= fd < limit
  end.

(** The state in between two polls. *)
Definition between (at_ms now : Z) (w : world) : Prop :=
  m_connected (client w) = false ∧ m_server_url (client w) = wsaddress ip port
  ∧ ((∃ id fd io this lg, w = trying id fd io (fds w) this at_ms now lg ∧ m_connection this = Some id)
     ∨ ∃ n this lg, w = mk_world [] n (fds w) [] None this (client_timer at_ms now) lg
                    ∧ m_connection this = None).

(** An attempt, while no connection is in the list. *)
Lemma attempt o n fds0 this at_ms now lg :
  silent limit o → m_connected this = false → m_server_url this = wsaddress ip port →
  let w0 := mk_world [] n fds0 [] None this (client_timer at_ms now) lg in
  let r := w ← reconnect o w0; poll_loop mg_random o (length (conns w)) (c_id <$> head (conns w)) w in
  ∃ w, r = Done w ∧ between at_ms now w
    ∧ ((∃ fd cn, 0 <= fd < limit ∧ fd ∉ fds0 ∧ fds w = {[fd]} ∪ fds0 ∧ conns w = [cn] ∧ c_fd cn = fd)
       ∨ (fds w = fds0 ∧ conns w = [] ∧ m_connection (client w) = None ∧ ∀ fd, 0 <= fd < limit → fd ∈ fds0)).
Proof.
  intros Ho Hc Hu w0 r. destruct (sil_nonce limit o Ho (n + 1)) as [N1 N2].
  destruct (sil_socket limit o Ho (n + 1) fds0) as [[Hfd Hnew]|[Hfd Hfull]].
  - destruct (numeric_connect ip port a b c d quad ip_short port_ok o (os_socket o (n + 1) fds0) fds0 n this
      (client_timer at_ms now) lg Hu eq_refl (proj1 Hfd) (sil_connect limit o Ho _) N1 N2) as (io & E & _).
    eexists. split; [unfold r, w0; rewrite E; cbn [mbind res_bind]; apply silent_loop|]. split.
    + split; [exact Hc|]. split; [exact Hu|]. left.
      exists (n + 1), (os_socket o (n + 1) fds0), io, (set_connection this (Some (n + 1)) (m_connected this)),
        (lg ++ [WSClient.mg_ws_connect (wsaddress ip port)]). by split.
    + left. do 2 eexists. split; [exact Hfd|]. split; [exact Hnew|]. by split_and!.
  - destruct (numeric_refused o fds0 n this (client_timer at_ms now) lg Hu Hfd N1 N2) as (io & E).
    destruct (refused_loop o (n + 1) io fds0 (set_connection this (Some (n + 1)) (m_connected this))
      (client_timer at_ms now) (lg ++ [WSClient.mg_ws_connect (wsaddress ip port)])) as (lg' & E').
    cbv zeta in E'. eexists. split; [unfold r, w0; rewrite E; cbn [mbind res_bind]; exact E'|]. split.
    + split; [done|]. split; [exact Hu|]. right.
      by exists (n + 1), (set_connection (set_connection this (Some (n + 1)) (m_connected this)) None false), lg'.
    + right. by split_and!.
Qed.

Lemma spent_same t w w' :
  conns w' = conns w → fds w' = fds w → client w' = client w →
  under_way t w ∨ offline t w → under_way t w' ∨ offline t w'.
Proof.
  intros E1 E2 E3 [(fd & l & cn & [L1 L2 L3] & H)|(l & [L1 L2 L3] & H)]; [left|right].
  - exists fd, l, cn. rewrite E1. split; [split; [done|done|congruence]|done].
  - exists l. rewrite E1, E2, E3. split; [split; [done|done|congruence]|done].
Qed.

Lemma spent_step t w w' :
  under_way t w ∨ offline t w →
  (∀ cn, conns w = [cn] → c_fd cn < FD_SETSIZE) →
  ((∃ fd cn, 0 <= fd < limit ∧ fd ∉ fds w ∧ fds w' = {[fd]} ∪ fds w ∧ conns w' = [cn] ∧ c_fd cn = fd)
   ∨ (fds w' = fds w ∧ conns w' = [] ∧ m_connection (client w') = None ∧ ∀ fd, 0 <= fd < limit → fd ∈ fds w)) →
  under_way (S t) w' ∨ offline (S t) w'.
Proof.
  intros Hw Hsmall Hn.
  assert (H : ∃ l, leaked w l ∧ (length l <= t)%nat ∧ Forall (λ fd, fd < FD_SETSIZE) l
    ∧ (length l = t ∨ ∀ fd, 0 <= fd < limit → fd ∈ fds w)).
  { destruct Hw as [(fd & l & cn & Hl & Hlen & Hc & Hfd & Hs)|(l & Hl & Hlen & _ & _ & Hfull & Hs)].
    - exists (fd :: l). split; [done|]. split; [lia|]. split; [|by left].
      constructor; [rewrite <- Hfd; by apply Hsmall|done].
    - exists l. split; [done|]. split; [lia|]. split; [done|by right]. }
  destruct H as (l & [L1 L2 L3] & Hlen & Hs & Hmax).
  destruct Hn as [(fd & cn & Hfd & Hnew & Ef & Ec & E)|(Ef & Ec & Em & Hfull)].
  - left. exists fd, l, cn. rewrite L3 in Hnew. apply not_elem_of_union in Hnew as [Hl Hopen].
    rewrite elem_of_list_to_set in Hl.
    split; [split; [by constructor|by constructor|rewrite Ef, L3; set_solver]|].
    split; [|done]. cbn [length]. destruct Hmax as [->|Hfull]; [done|].
    exfalso. apply Hfull in Hfd. rewrite L3 in Hfd. set_solver.
  - right. exists l. split; [split; [done|done|congruence]|]. split; [lia|]. split; [done|]. split; [done|].
    split; [by rewrite Ef|done].
Qed.

Lemma on_timers_one o call w : on_timers mg_random o [call] w = on_timer mg_random o w.
Proof. cbn [on_timers]. by destruct (on_timer _ _ _). Qed.

(** Nothing to watch. *)
Lemma idle_iotest o n fds0 this tm lg :
  let w := mk_world [] n fds0 [] None this tm lg in mg_iotest o w = Done w.
Proof. done. Qed.

Definition due_after (at_ms n : Z) : Z := if n <? at_ms then at_ms else due_next at_ms n.

(** A poll while a connection is under way. *)
Lemma poll_trying o id fd io fds0 this at_ms now lg :
  silent limit o → 0 <= fd < FD_SETSIZE → 0 < at_ms → now <= os_now o →
  m_connection this = Some id → m_connected this = false →
  mg_mgr_poll mg_random o (trying id fd io fds0 this at_ms now lg)
  = if os_now o <? at_ms then Done (trying id fd io fds0 this at_ms (os_now o) lg)
    else w ← reconnect o (mk_world [] id fds0 [] None (set_connection (set_connection this None false) None false)
                            (client_timer (due_next at_ms (os_now o)) (os_now o))
                            (lg ++ [WSClient.mg_close_conn id] ++ call_event_func this MG_EV_CLOSE));
         poll_loop mg_random o (length (conns w)) (c_id <$> head (conns w)) w.
Proof.
  intros Ho Hfd Hpos Hnow Hid Hc. unfold mg_mgr_poll, trying.
  rewrite (silent_iotest limit) by (done || lia). rewrite (proj2 (Z.leb_gt FD_SETSIZE fd)) by lia.
  cbn [mbind res_bind timers]. rewrite timer_polled by done.
  destruct (os_now o <? at_ms); [apply silent_loop|]. rewrite on_timers_one.
  unfold on_timer. cbn [client set_timers]. rewrite Hc, Hid.
  match goal with |- context [mg_close_conn id ?w] => change w with
    (mk_world [started id fd io] id fds0 [] None this (client_timer (due_next at_ms (os_now o)) (os_now o))
       (lg ++ [WSClient.mg_close_conn id])) end.
  rewrite (close_one _ (started id fd io)) by done. cbn [mbind res_bind client].
  rewrite <- app_assoc. done.
Qed.

(** And while there is none. *)
Lemma poll_idle o n fds0 this at_ms now lg :
  0 < at_ms → now <= os_now o → m_connection this = None → m_connected this = false →
  mg_mgr_poll mg_random o (mk_world [] n fds0 [] None this (client_timer at_ms now) lg)
  = if os_now o <? at_ms then Done (mk_world [] n fds0 [] None this (client_timer at_ms (os_now o)) lg)
    else w ← reconnect o (mk_world [] n fds0 [] None this
                            (client_timer (due_next at_ms (os_now o)) (os_now o)) lg);
         poll_loop mg_random o (length (conns w)) (c_id <$> head (conns w)) w.
Proof.
  intros Hpos Hnow Hid Hc. unfold mg_mgr_poll. rewrite idle_iotest. cbn [mbind res_bind timers].
  rewrite timer_polled by done. destruct (os_now o <? at_ms); [done|]. rewrite on_timers_one.
  unfold on_timer. cbn [client set_timers]. by rewrite Hc, Hid.
Qed.

Lemma silent_poll o t at_ms now w :
  silent limit o → 0 < at_ms → now <= os_now o → between at_ms now w → under_way t w ∨ offline t w →
  (∃ fd, mg_mgr_poll mg_random o w = Stop (fd_set_overflow fd) ∧ FD_SETSIZE <= fd < limit)
  ∨ ∃ w', mg_mgr_poll mg_random o w = Done w' ∧ between (due_after at_ms (os_now o)) (os_now o) w'
      ∧ let t' := if os_now o <? at_ms then t else S t in under_way t' w' ∨ offline t' w'.
Proof.
  intros Ho Hpos Hnow (Hc & Hu & Hb) Hw. unfold due_after.
  destruct Hb as [(id & fd & io & this & lg & Ew & Hid)|(n & this & lg & Ew & Hid)].
  - assert (Hfd : 0 <= fd < limit).
    { destruct Hw as [(fd1 & l & cn & [_ L2 _] & _ & E & <- & _)|(l & _ & _ & E & _)]; rewrite Ew in E; [|done].
      injection E as <-. by apply Forall_cons in L2 as [[? _] _]. }
    destruct (Z_lt_le_dec fd FD_SETSIZE) as [Hlt|Hge].
    2: { left. exists fd. split; [|lia]. rewrite Ew. unfold mg_mgr_poll, trying.
         rewrite (silent_iotest limit) by (done || lia). by rewrite (proj2 (Z.leb_le FD_SETSIZE fd)). }
    right. rewrite Ew in Hc, Hu |- *. cbn [client trying] in Hc, Hu.
    rewrite poll_trying by (done || lia).
    destruct (os_now o <? at_ms) eqn:Et.
    + eexists. split; [done|]. split; [|apply (spent_same t w); [by rewrite Ew..|exact Hw]].
      split; [exact Hc|]. split; [exact Hu|]. left. by do 5 eexists.
    + match goal with |- context [reconnect o (mk_world _ _ _ _ _ ?th ?tm ?lg')] =>
        destruct (attempt o id (fds w) th (due_next at_ms (os_now o)) (os_now o) lg' Ho eq_refl Hu)
          as (w' & E & Hb' & Hn) end.
      exists w'. split; [exact E|]. split; [exact Hb'|]. apply (spent_step t w); [done| |exact Hn].
      intros cn Ecn. rewrite Ew in Ecn. injection Ecn as <-. exact Hlt.
  - right. rewrite Ew in Hc, Hu |- *. cbn [client] in Hc, Hu. rewrite poll_idle by (done || lia).
    destruct (os_now o <? at_ms) eqn:Et.
    + eexists. split; [done|]. split; [|apply (spent_same t w); [by rewrite Ew..|exact Hw]].
      split; [exact Hc|]. split; [exact Hu|]. right. by do 3 eexists.
    + destruct (attempt o n (fds w) this (due_next at_ms (os_now o)) (os_now o) lg Ho Hc Hu)
        as (w' & E & Hb' & Hn).
      exists w'. split; [exact E|]. split; [exact Hb'|]. apply (spent_step t w); [done| |exact Hn].
      intros cn Ecn. by rewrite Ew in Ecn.
Qed.

Lemma pulse_first o os w :
  client_run mg_random (Pulse <$> o :: os) w = mg_mgr_poll mg_random o w ≫= client_run mg_random (Pulse <$> os).
Proof. done. Qed.

Lemma silent_polls os t at_ms now w :
  Forall (silent limit) os → rising now (os_now <$> os) = true → 0 < at_ms → 0 <= now →
  between at_ms now w → under_way t w ∨ offline t w →
  spends (t + turns at_ms (os_now <$> os)) (client_run mg_random (Pulse <$> os) w).
Proof.
  revert t at_ms now w. induction os as [|o os IH]; intros t at_ms now w Hs Hr Hpos Hn Hb Hw.
  { cbn. by rewrite Nat.add_0_r. }
  apply Forall_cons in Hs as [Ho Hs]. rewrite pulse_first.
  change (turns at_ms (os_now <$> o :: os)) with
    (if os_now o <? at_ms then turns at_ms (os_now <$> os)
     else S (turns (due_next at_ms (os_now o)) (os_now <$> os))).
  apply andb_prop in Hr as [Hle%Z.leb_le Hr].
  destruct (silent_poll o t at_ms now w Ho Hpos Hle Hb Hw) as [(fd & -> & Hfd)|(w' & -> & Hb' & Hw')];
    [by exists fd|]. cbn [mbind res_bind]. unfold due_after in Hb'.
  destruct (Z.ltb_spec (os_now o) at_ms) as [H|H].
  - apply (IH t at_ms (os_now o)); try done; lia.
  - rewrite Nat.add_succ_r. apply (IH (S t) (due_next at_ms (os_now o)) (os_now o)); try done; [|lia].
    unfold due_next. case_match; lia.
Qed.

(** Distinct descriptors within a bound. *)
Lemma within_bound l n : 0 <= n → NoDup l → Forall (λ fd, 0 <= fd < n) l → Z.of_nat (length l) <= n.
Proof.
  intros Hn Hd Hl. assert (Hsub : l ⊆+ seqZ 0 n).
  { apply NoDup_submseteq; [done|]. intros f Hf. rewrite Forall_forall in Hl. apply elem_of_seqZ.
    specialize (Hl f Hf). lia. }
  apply submseteq_length in Hsub. rewrite length_seqZ in Hsub. lia.
Qed.

(** A process that may have no more descriptors than an [fd_set]. *)
Lemma spends_offline t m :
  spends t m → limit <= FD_SETSIZE → limit < Z.of_nat t → ∃ w, m = Done w ∧ offline t w.
Proof.
  intros Hm Hl Ht. destruct m as [w|e]; [|destruct Hm as (fd & _ & ?); lia].
  exists w. split; [done|]. destruct Hm as [(fd & l & cn & [L1 L2 _] & Hlen & _)|H]; [|done].
  assert (Hb : Z.of_nat (length (fd :: l)) <= Z.max 0 limit); [|cbn [length] in *; lia].
  apply within_bound; [lia|done|]. eapply Forall_impl; [exact L2|]. cbn. lia.
Qed.

(** One that may have more. *)
Lemma spends_overflow t m :
  spends t m → FD_SETSIZE + 1 < Z.of_nat t → (∃ fd, FD_SETSIZE <= fd < limit ∧ fd ∉ open) →
  ∃ fd, m = Stop (fd_set_overflow fd) ∧ FD_SETSIZE <= fd < limit.
Proof.
  intros Hm Ht (big & Hbig & Hopen). destruct m as [w|e]; [exfalso|destruct Hm as (fd & -> & ?); by exists fd].
  destruct Hm as [(fd & l & cn & [L1 L2 _] & Hlen & _ & _ & Hs)|(l & [L1 L2 L3] & _ & _ & _ & Hfull & Hs)].
  - apply NoDup_cons in L1 as [_ L1]. apply Forall_cons in L2 as [_ L2].
    assert (Hb : Z.of_nat (length l) <= FD_SETSIZE); [|cbn in Hlen; lia].
    apply within_bound; [done|done|]. rewrite Forall_forall in L2, Hs |- *. intros x Hx.
    destruct (L2 x Hx) as [? _]. specialize (Hs x Hx). lia.
  - assert (Hin : big ∈ l).
    { specialize (Hfull big ltac:(unfold FD_SETSIZE in *; lia)). rewrite L3 in Hfull. set_solver. }
    rewrite Forall_forall in Hs. specialize (Hs big Hin). lia.
Qed.
End limit.
End silence.

(** C39: A server that does not answer, at a numeric address, on a system that lets the
    process have the descriptors below [limit]; polls may come at any times.  Every turn of
    the timer (the first poll that finds twelve seconds gone) takes a descriptor, as long
    as there is one, and none is ever closed, though there is at most one connection.  So
    with a limit of at most 1024 nothing stops, but after [limit] turns no descriptor is
    left: [socket] fails from then on, and the client has no connection.  With a higher
    limit, and a descriptor from 1024 on free, after at most 1025 turns a poll hands [FD_SET]
    a descriptor outside of its set. *)
Theorem silent_server_exhausts mg_random ip port a b c d limit open o0 o1 os :
  dotted_quad ip a b c d → zlen ip < 2 ^ 16 → 0 <= port < 65536 →
  Forall (silent limit) (o0 :: o1 :: os) → os_socket o0 1 open ≠ -1 →
  rising 0 (os_now <$> o1 :: os) = true →
  let t := turns (os_now o1 + 12000) (os_now <$> os) in
  let m := w ← new_world mg_random o0 (wsaddress ip port) open;
           client_run mg_random (Pulse <$> o1 :: os) w in
  spends limit open (S t) m
  ∧ (limit <= FD_SETSIZE → limit <= Z.of_nat t →
     ∃ w, m = Done w ∧ conns w = [] ∧ m_connection (client w) = None
       ∧ ∀ fd, 0 <= fd < limit → fd ∈ fds w)
  ∧ (FD_SETSIZE < Z.of_nat t → (∃ fd, FD_SETSIZE <= fd < limit ∧ fd ∉ open) →
     ∃ fd, m = Stop (fd_set_overflow fd) ∧ FD_SETSIZE <= fd < limit).
Proof.
  intros Hq Hip Hp Hs Hfirst Hr t m.
  apply Forall_cons in Hs as [S0 Hs]. apply Forall_cons in Hs as [S1 Hs].
  cbn [fmap list_fmap rising] in Hr. change (list_fmap _ _ os_now os) with (os_now <$> os) in Hr.
  apply andb_prop in Hr as [Hnow%Z.leb_le Hr].
  assert (Hm : spends limit open (S t) m).
  { destruct (sil_nonce limit o0 S0 1) as [N1 N2].
    destruct (sil_socket limit o0 S0 1 open) as [[K1 K2]|[K _]]; [|done].
    set (fd := os_socket o0 1 open) in *. unfold m.
    destruct (numeric_start ip port a b c d Hq Hip Hp mg_random o0 fd open eq_refl (proj1 K1) (sil_connect limit o0 S0 1) N1 N2)
      as (io & -> & _ & _).
    cbn [mbind res_bind]. rewrite pulse_first. unfold mg_mgr_poll.
    rewrite (silent_iotest limit) by (done || lia).
    destruct (Z.leb_spec FD_SETSIZE fd) as [Hge|Hlt]; [exists fd; split; [done|lia]|]. cbn [mbind res_bind timers].
    rewrite timer_armed by done. cbn [on_timers mbind res_bind set_timers].
    match goal with |- context [poll_loop _ _ (length (conns ?w)) _ _] => change w with
      (trying 1 fd io ({[fd]} ∪ open) (set_connection (new_client (wsaddress ip port)) (Some 1) false)
         (os_now o1 + 12000) (os_now o1) [WSClient.mg_ws_connect (wsaddress ip port)]) end.
    unfold trying at 1 2 3. rewrite silent_loop. cbn [mbind res_bind].
    apply (silent_polls mg_random ip port a b c d Hq Hip Hp limit open os 1 _ (os_now o1)); try done; [lia| |].
    - split; [done|]. split; [done|]. left. by do 5 eexists.
    - left. exists fd, [], (started 1 fd io). split; [|by split_and!].
      split; [by apply NoDup_singleton|by constructor; [|constructor]|cbn; set_solver]. }
  split; [exact Hm|]. split.
  - intros Hl Ht. destruct (spends_offline limit open _ _ Hm Hl ltac:(lia)) as (w & E & l & _ & _ & H1 & H2 & H3 & _).
    by exists w.
  - intros Ht Hfree. eapply spends_overflow; [done..|exact Hm|lia|exact Hfree].
Qed.

(** ** A concrete system *)

(** The lowest descriptor that is not open, below the limit. *)
Definition new_fd (limit : Z) (s : gset Z) : Z :=
  match list_find (λ fd, fd ∉ s) (seqZ 0 limit) with Some (_, fd) => fd | None => -1 end.

Definition quiet_os (limit now : Z) : os :=
  mk_os now true (λ _, false) (λ _, false) (λ _ s, new_fd limit s) (λ _, in_progress) (λ _, 0) (λ _, None) (λ _, -1)
    (λ _, replicate 16 65).

Lemma quiet_silent limit now : silent limit (quiet_os limit now).
Proof.
  split; try done.
  - intros id. unfold is_bytes. split; [by repeat constructor|done].
  - intros id s. change (os_socket (quiet_os limit now) id s) with (new_fd limit s). unfold new_fd.
    destruct (list_find _ _) as [[i fd]|] eqn:E.
    + left. apply list_find_Some in E as (E & Hn & _). split; [|done].
      apply list_elem_of_lookup_2, elem_of_seqZ in E. lia.
    + right. split; [done|]. intros fd Hfd. apply list_find_None in E. rewrite Forall_forall in E.
      destruct (decide (fd ∈ s)) as [|Hn]; [done|]. destruct (E fd); [|done]. apply elem_of_seqZ. lia.
Qed.

(** Polls every twelve and a half seconds. *)
Definition quiet_run (limit : Z) (n : nat) : list os :=
  (λ i, quiet_os limit (13000 + 12500 * Z.of_nat i)) <$> seq 0 n.

Lemma sample_quad : dotted_quad (bytes_of "10.0.0.1") 10 0 0 1.
Proof.
  exists [49; 48], [48], [48], [49]. unfold octet. split; [reflexivity|].
  split_and!; try done; unfold is_digit; by repeat constructor.
Qed.

(** At the usual limit of 1024 the client ends without a connection and the process without
    a descriptor; at a higher one the program overruns its [fd_set]. *)
Lemma silent_server_exhausts_witness :
  (∃ w, (w ← new_world any_mask (quiet_os 1024 0) (wsaddress (bytes_of "10.0.0.1") 8080) {[0; 1; 2]};
         client_run any_mask (Pulse <$> quiet_os 1024 1000 :: quiet_run 1024 1024) w) = Done w
     ∧ m_connection (client w) = None ∧ ∀ fd, 0 <= fd < 1024 → fd ∈ fds w)
  ∧ ∃ fd, (w ← new_world any_mask (quiet_os 4096 0) (wsaddress (bytes_of "10.0.0.1") 8080) {[0; 1; 2]};
           client_run any_mask (Pulse <$> quiet_os 4096 1000 :: quiet_run 4096 1025) w)
        = Stop (fd_set_overflow fd) ∧ FD_SETSIZE <= fd < 4096.
Proof.
  assert (Hs : ∀ limit n, Forall (silent limit) (quiet_os limit 0 :: quiet_os limit 1000 :: quiet_run limit n)).
  { intros limit n. do 2 (constructor; [apply quiet_silent|]).
    apply Forall_forall. intros o (i & -> & _)%list_elem_of_fmap. apply quiet_silent. }
  split.
  - destruct (silent_server_exhausts any_mask (bytes_of "10.0.0.1") 8080 10 0 0 1 1024 {[0; 1; 2]}
      (quiet_os 1024 0) (quiet_os 1024 1000) (quiet_run 1024 1024) sample_quad) as (_ & H & _);
      [done|done|apply Hs|by vm_compute|by vm_compute|].
    destruct H as (w & E & _ & H1 & H2); [done|apply Z.leb_le; vm_compute; reflexivity|]. exists w. exact (conj E (conj H1 H2)).
  - destruct (silent_server_exhausts any_mask (bytes_of "10.0.0.1") 8080 10 0 0 1 4096 {[0; 1; 2]}
      (quiet_os 4096 0) (quiet_os 4096 1000) (quiet_run 4096 1025) sample_quad) as (_ & _ & H);
      [done|done|apply Hs|by vm_compute|by vm_compute|].
    apply H; [apply Z.ltb_lt; vm_compute; reflexivity|]. exists 2000. clear. split; [by vm_compute|by apply (bool_decide_unpack _); vm_compute].
Defined.

(** The resolver does not answer: the request expires, and the connection that waited for it
    is closed.  It never had a socket; its descriptor is the 0 of [calloc], and [close_conn]
    closes standard input. *)
Lemma dns_timeout_closes_stdin :
  match (w ← new_world any_mask (quiet_os 1024 0) (bytes_of "ws://rtc.example.org:8080/rtc_signal") {[0; 1; 2]};
         client_run any_mask [Pulse (quiet_os 1024 1000); Pulse (quiet_os 1024 4500)] w) with
  | Done w => bool_decide (0 ∈ fds w) = false ∧ bool_decide (1 ∈ fds w) = true ∧ m_connection (client w) = None
  | Stop _ => False
  end.
Proof. vm_compute. repeat split. Qed.

(** The destructor marks the connections and polls once, before it takes the timer away: a
    timer that is due then opens a new connection, and nobody ends it. *)
Lemma destructor_leaves_connection :
  match (w ← new_world any_mask (quiet_os 1024 0) (wsaddress (bytes_of "10.0.0.1") 8080) {[0; 1; 2]};
         w ← client_run any_mask [Pulse (quiet_os 1024 1000)] w;
         mg_mgr_free any_mask (quiet_os 1024 13000) w) with
  | Done w => clients w = [2] ∧ m_connection (client w) = Some 2
  | Stop _ => False
  end.
Proof. vm_compute. repeat split. Qed.
