(* ===== verification/Delivery.v ===== *)
(** * Delivery: from the bytes of the server to the program

    No code of its own.  The layers are put on each other: the bytes that arrive
    ([MgWebsocket]), the events of the library, the client ([WSClient]), the room, and
    the callbacks of the demo ([Main]).  What the program does depends on the texts alone,
    and not on the frames that carry them or on the reads that cut the frames. *)

From S2P Require Import Prelude.
From S2P Require Import WSClient.
From S2P Require Import PortManager.
From S2P Require Import RoomUser.
From S2P Require Import LiveMeetingRoom.
From S2P Require Import RoomSpec.
From S2P Require Import RoomStreams.
From S2P Require Import RoomLife.
From S2P Require Import Main.
From S2P Require Import MgIobuf.
From S2P Require Import MgWebsocket.
From S2P Require Import MgSafety.
From S2P Require Import MgSession.

(** What the system answers while one event is handled: the receivers and sockets, the
    creation of a thread, the clock. *)
Definition turn : Type := environment * Z * Z.

Definition turn_ok (t : turn) : Prop := env_ok t.1.1.

Section delivery.
Context {double : Type} (string_to_double : list Z → double).
Context (print_double print_f : double → list Z).
Context (A : addresses).

Notation handler t := (ws_event_handler string_to_double print_double print_f A t.1.1 t.1.2 t.2).
Notation run w0 := (demo_run string_to_double print_double print_f A w0).
Notation fits_log := (text_fits string_to_double print_f).

(** [mg_call] on each event in order. *)
Fixpoint handle_events (evs : list (turn * mg_event)) (d : demo) : outcome demo :=
  match evs with
  | [] => Ok d
  | (t, e) :: evs =>
      match m_websocket_client (d_room d) with
      | Some client =>
          e ← to_client client e;
          d ← handler t e d;
          handle_events evs d
      | None => Fault
      end
  end.

(** The texts, one after the other. *)
Fixpoint hear (ts : list (turn * list Z)) (d : demo) : outcome demo :=
  match ts with
  | [] => Ok d
  | (t, text) :: ts =>
      d ← handler t (MG_EV_WS_MSG MgWebsocket.WEBSOCKET_OP_TEXT text) d; hear ts d
  end.

(** The texts among the events, each with its turn. *)
Definition heard_texts (evs : list (turn * mg_event)) : list (turn * list Z) :=
  omap (λ te, match te.2 with
              | EV_WS_MSG f (Ok d) => if Z.land f 15 =? MgWebsocket.WEBSOCKET_OP_TEXT then Some (te.1, d) else None
              | _ => None
              end) evs.

Lemma heard_texts_messages turns evs :
  length turns = length evs → (heard_texts (zip turns evs)).*2 = texts (messages evs).
Proof.
  revert turns. induction evs as [|e evs IH]; intros [|t turns] Hl; try done.
  cbn [length] in Hl. specialize (IH turns ltac:(lia)). unfold heard_texts, texts, messages in *.
  cbn [zip zip_with omap list_omap fst snd].
  destruct e as [| |f [d| |]|]; cbn [omap list_omap fst snd]; try exact IH.
  destruct (Z.land f 15 =? _); [|exact IH]. rewrite fmap_cons. by f_equal.
Qed.

(** *** The client stays as it is while texts are handled *)

Lemma conference_event_callback_context clock event d d' :
  conference_event_callback print_double clock event d = Ok d' →
  context (d_room d') = context (d_room d).
Proof.
  assert (Hpull : ∀ streams,
    (r ← signal_start_pull_stream print_double (d_room d) clock streams (d_world d);
     Ok (mkDemo (d_globals d) r.2.2.1 r.2.2.2)) = Ok d' → context (d_room d') = context (d_room d)).
  { intros streams. destruct (signal_total print_double (d_room d) clock (S_start_pull streams) (d_world d))
      as (ret & t & v & E & Ec).
    destruct (start_pull_signal _ _ _ _ _ _ _ _ E) as [l ->]. step_bind. by intros [= <-]. }
  destruct event; cbn [conference_event_callback]; try apply Hpull; try by intros [= <-].
  destruct (signal_total print_double (d_room d) clock S_online_users (d_world d)) as (ret & t & v & E & Ec).
  rewrite (online_users_signal _ _ _ _ _ E). step_bind. by intros [= <-].
Qed.

Lemma deliver_context clock evs d d' :
  deliver print_double A clock evs d = Ok d' → context (d_room d') = context (d_room d).
Proof.
  revert d. induction evs as [|[[func event] arg] evs IH]; intros d; cbn [deliver]; [by intros [= <-]|].
  case_match; [|done]. intros (d1 & E1 & E)%bind_is_ok. rewrite (IH _ E).
  by eapply conference_event_callback_context.
Qed.

Lemma websocket_received_context env thread_create clock data d d' :
  env_ok env →
  websocket_received string_to_double print_double print_f A env thread_create clock data d = Ok d' →
  context (d_room d') = context (d_room d).
Proof.
  intros Hf. unfold websocket_received. intros ([evs [room w]] & E1 & E)%bind_is_ok.
  rewrite (deliver_context _ _ _ _ E).
  by destruct (message_kept string_to_double print_double print_f env thread_create _ _ _ _ _ _ Hf E1) as [Hc _].
Qed.

(** *** One event *)

Lemma quiet_event t e client d :
  m_websocket_client (d_room d) = Some client → on_event_handle client e = ([], client) →
  handler t e d = Ok d.
Proof.
  intros Ec E. unfold ws_event_handler, run_client. rewrite Ec, E. cbn [fst snd perform].
  destruct d as [g this w]. cbn [d_globals d_room d_world] in *. do 2 f_equal.
  - destruct this. cbn in Ec. by subst.
  - destruct w. unfold set_effects. cbn. by rewrite app_nil_r.
Qed.

Lemma text_event t f text client d :
  m_websocket_client (d_room d) = Some client → Z.land f 15 = MgWebsocket.WEBSOCKET_OP_TEXT →
  handler t (MG_EV_WS_MSG f text) d = handler t (MG_EV_WS_MSG MgWebsocket.WEBSOCKET_OP_TEXT text) d.
Proof. intros Ec Hf. unfold ws_event_handler. rewrite Ec. cbn [on_event_handle]. by rewrite Hf. Qed.

(** A text is handled, and the client is what it was. *)
Lemma text_handled w0 t text client conn d :
  PortManager.m_initialized (w_ports w0) = false → run w0 d → turn_ok t → fits_log text = true →
  m_websocket_client (d_room d) = Some client → m_connection client = Some conn →
  ∃ d', handler t (MG_EV_WS_MSG MgWebsocket.WEBSOCKET_OP_TEXT text) d = Ok d' ∧ run w0 d'
    ∧ m_websocket_client (d_room d') = Some client.
Proof.
  intros Hi Hr Ht Hfit Ec En. destruct (run_wired _ _ _ _ w0 d Hi Hr) as (Hp & Hw & Hm).
  destruct (ws_event_handler_keeps _ _ _ A _ t.1.1 t.1.2 t.2
    (MG_EV_WS_MSG MgWebsocket.WEBSOCKET_OP_TEXT text) client conn d Hp Ht Ec En Hfit Hw Hm) as (d' & E & _).
  exists d'. split; [done|]. split; [eapply run_step; [done|]; by eapply demo_event|].
  destruct (wired_client _ _ _ _ _ _ Hw) as (c & Ec' & H1 & H2 & _). rewrite Ec in Ec'. injection Ec' as <-.
  unfold ws_event_handler, run_client in E. rewrite Ec in E. cbn [on_event_handle] in E.
  change (Z.land MgWebsocket.WEBSOCKET_OP_TEXT 15 =? WSClient.WEBSOCKET_OP_TEXT) with true in E.
  unfold on_message_received in E. rewrite H1, H2 in E. cbn [fst snd perform] in E.
  rewrite !Z.eqb_refl in E. cbn [andb] in E. apply bind_is_ok in E as (d1 & E & [= ->]).
  assert (Hmv : ws_step client [call_recv_func (a_websocket_received A) text (a_room A)] client).
  { eapply (WSClient.step_event client conn (MG_EV_WS_MSG MgWebsocket.WEBSOCKET_OP_TEXT text)); [done|].
    cbn [on_event_handle]. unfold on_message_received. by rewrite H1, H2. }
  pose proof (client_moved_wired _ _ _ _ _ _ _ _ _ Hw Ec Hmv) as Hw'. unfold client_moved in Hw'.
  rewrite (receive_text_eq string_to_double print_double print_f A _ t.1.1 t.1.2 t.2 text _ Hp Hw'), Hfit in E.
  pose proof (websocket_received_context _ _ _ _ _ _ Ht E) as Hc. unfold context in Hc.
  cbn in Hc. by injection Hc as _ _ -> _ _.
Qed.

(** *** All events of a stream *)

Lemma events_are_texts w0 evs client conn func :
  PortManager.m_initialized (w_ports w0) = false → Forall readable evs →
  Forall (λ text, fits_log text = true) (texts (messages evs)) →
  m_connection client = Some conn → m_recv_func client = Some func →
  ∀ turns d, length turns = length evs → Forall turn_ok turns → run w0 d →
    m_websocket_client (d_room d) = Some client →
    ∃ d', handle_events (zip turns evs) d = Ok d' ∧ hear (heard_texts (zip turns evs)) d = Ok d'
      ∧ run w0 d' ∧ m_websocket_client (d_room d') = Some client.
Proof.
  intros Hi He Hlog En Hf. induction He as [|e evs Hr _ IH]; intros turns d Hl Ht Hrun Ec.
  { exists d. by destruct turns. }
  destruct turns as [|t turns]; [done|]. cbn [length] in Hl. apply Forall_cons_1 in Ht as [Ht Hts].
  assert (Htail : Forall (λ text, fits_log text = true) (texts (messages evs))).
  { revert Hlog. unfold texts, messages. cbn [omap list_omap].
    destruct e as [| |f [data| |]|]; cbn [omap list_omap]; try done.
    cbn [fst snd]. destruct (_ =? _); [|done]. by intros [_ H]%Forall_cons_1. }
  specialize (IH Htail turns). cbn [zip zip_with handle_events]. rewrite Ec.
  assert (Hquiet : ∀ e', to_client client e = Ok e' → on_event_handle client e' = ([], client) →
    heard_texts ((t, e) :: zip turns evs) = heard_texts (zip turns evs) →
    ∃ d', (e0 ← to_client client e; d0 ← handler t e0 d; handle_events (zip turns evs) d0) = Ok d'
      ∧ hear (heard_texts ((t, e) :: zip turns evs)) d = Ok d' ∧ run w0 d'
      ∧ m_websocket_client (d_room d') = Some client).
  { intros e' E E' ->. step E. rewrite (quiet_event t e' client d Ec E'). step_bind.
    apply IH; [lia|done..]. }
  destruct e as [|f|f data|]; cbn [readable] in Hr; [done|by eapply Hquiet| |by eapply Hquiet].
  destruct data as [text| |]; [|done..]. destruct (Z.eqb_spec (Z.land f 15) MgWebsocket.WEBSOCKET_OP_TEXT) as [Et|Et].
  - assert (E : to_client client (EV_WS_MSG f (Ok text)) = Ok (MG_EV_WS_MSG f text)).
    { cbn [to_client]. rewrite Et, Hf, bool_decide_eq_true_2 by done. done. }
    rewrite E. step_bind. rewrite (text_event t f text client d Ec Et).
    assert (Hfit : fits_log text = true).
    { revert Hlog. unfold texts, messages. cbn [omap list_omap fst snd].
      rewrite Et. cbn. by intros [H _]%Forall_cons_1. }
    destruct (text_handled w0 t text client conn d Hi Hrun Ht Hfit Ec En) as (d1 & E1 & Hr1 & Ec1).
    assert (Eh : heard_texts ((t, EV_WS_MSG f (Ok text)) :: zip turns evs) = (t, text) :: heard_texts (zip turns evs)).
    { unfold heard_texts. cbn [omap list_omap fst snd]. by rewrite Et. }
    rewrite Eh. cbn [hear]. rewrite E1. step_bind. apply IH; [lia|done..].
  - apply (Hquiet (MG_EV_WS_MSG f [])); cbn [to_client on_event_handle].
    + change WSClient.WEBSOCKET_OP_TEXT with MgWebsocket.WEBSOCKET_OP_TEXT.
      by rewrite (proj2 (Z.eqb_neq _ _) Et).
    + change WSClient.WEBSOCKET_OP_TEXT with MgWebsocket.WEBSOCKET_OP_TEXT.
      by rewrite (proj2 (Z.eqb_neq _ _) Et).
    + unfold heard_texts. cbn [omap list_omap fst snd]. by rewrite (proj2 (Z.eqb_neq _ _) Et).
Qed.

(** The handshake. *)
Lemma open_handled w0 t client conn d :
  PortManager.m_initialized (w_ports w0) = false → run w0 d → turn_ok t →
  m_websocket_client (d_room d) = Some client → m_connection client = Some conn →
  ∃ d', handler t MG_EV_WS_OPEN d = Ok d' ∧ run w0 d'
    ∧ m_websocket_client (d_room d') = Some (set_connection client (Some conn) true).
Proof.
  intros Hi Hr Ht Ec En. destruct (run_wired _ _ _ _ w0 d Hi Hr) as (Hp & Hw & Hm).
  destruct (ws_event_handler_keeps _ _ _ A _ t.1.1 t.1.2 t.2 MG_EV_WS_OPEN client conn d Hp Ht Ec En eq_refl Hw Hm)
    as (d' & E & Hw' & _).
  exists d'. split; [done|]. split; [eapply run_step; [done|]; by eapply demo_event|].
  destruct (wired_client _ _ _ _ _ _ Hw) as (c & Ec' & _ & _ & H3 & H4 & _).
  rewrite Ec in Ec'. injection Ec' as <-.
  unfold ws_event_handler, run_client in E. rewrite Ec in E. cbn [on_event_handle] in E.
  unfold call_event_func in E. rewrite H3, H4, En in E. cbn [fst snd perform] in E.
  rewrite !Z.eqb_refl in E. cbn [andb] in E. unfold websocket_event, on_websocket_event in E.
  cbn [d_room m_signal_callback_func set_context] in E. rewrite (wired_signal _ _ _ _ _ _ Hw) in E.
  rewrite Z.eqb_refl in E. step_bind. by injection E as <-.
Qed.

(** C7: From the bytes of the server to the program: once a connection is under way, the
    answer of the server and the frames behind it drive the program, however the network
    cuts the bytes, however the server cuts its messages into fragments, and whatever
    pings it sends between them, to the state that the same texts lead to one by one after
    the opening; none of the texts makes anything stop, and the program knows it is
    connected.  The condition on the texts is that no line that is logged of one of them
    has more than 4096 bytes, the buffer of the logger. *)
Theorem server_drives_demo mg_random w0 d client conn c h chunks ms fs :
  PortManager.m_initialized (w_ports w0) = false → run w0 d →
  m_websocket_client (d_room d) = Some client → m_connection client = Some conn →
  (∀ n, zlen (mg_random n) = 4) →
  accepts h → opening h [] c → carries ms fs → well_formed None fs →
  Forall (λ text, fits_log text = true) (texts ms) →
  concat chunks = h ++ stream fs → fits mg_random c chunks →
  len (send c) + zlen (pong_bytes mg_random true (drawn c) (pings fs)) < 2 ^ 32 →
  ∃ evs c', read_all mg_random c chunks = Ok (evs, c')
    ∧ ∀ t turns, length (t :: turns) = length evs → Forall turn_ok (t :: turns) →
        ∃ d1 d', handler t MG_EV_WS_OPEN d = Ok d1
          ∧ handle_events (zip (t :: turns) evs) d = Ok d'
          ∧ hear (heard_texts (zip (t :: turns) evs)) d1 = Ok d'
          ∧ (heard_texts (zip (t :: turns) evs)).*2 = texts ms
          ∧ run w0 d' ∧ g_room_connected (d_globals d') = true.
Proof.
  intros Hi Hrun Ec En Hr Hacc Ho Hms Hwf Hlog E Hfits Hl. destruct (meaning_carries ms fs Hms) as [M1 M2 M3 M4].
  rewrite <- M4 in Hl.
  destruct (read_all_opening mg_random Hr chunks h [] fs c Hacc Ho E Hwf Hfits Hl) as (c' & Er & _).
  do 2 eexists. split; [exact Er|]. intros t turns Hlen Ht.
  destruct (open_handled w0 t client conn d Hi Hrun) as (d1 & E1 & Hrun1 & Ec1);
    [by apply Forall_cons_1 in Ht as [? _]|done..|].
  apply Forall_cons_1 in Ht as Hts. destruct Hts as [_ Hts].
  destruct (run_wired _ _ _ _ w0 d1 Hi Hrun1) as (_ & Hw1 & _).
  destruct (wired_client _ _ _ _ _ _ Hw1) as (c1 & Ec1' & H1 & _). rewrite Ec1 in Ec1'. injection Ec1' as <-.
  destruct (events_are_texts w0 (ws_specs None fs).2.1 (set_connection client (Some conn) true) conn _ Hi M3
      ltac:(by rewrite M2) eq_refl H1 turns d1)
    as (d' & E2 & E3 & Hrun' & Ec'); [cbn in Hlen; lia|done..|].
  exists d1, d'. split; [done|]. split.
  - cbn [zip zip_with handle_events]. rewrite Ec. cbn [to_client]. step_bind. rewrite E1. step_bind. exact E2.
  - split; [exact E3|]. split; [|split; [done|]].
    + rewrite heard_texts_messages by done. cbn [messages omap list_omap]. by rewrite <- M2.
    + destruct (run_wired _ _ _ _ w0 d' Hi Hrun') as (_ & _ & Hm). unfold mirrors, is_signal_connected in Hm.
      rewrite Ec' in Hm. exact Hm.
Qed.
End delivery.

(** ** A concrete run

    The demo has asked for its connection; the server lets it in and says that the
    conference is created, in two fragments with a ping between them. *)
Definition created_frames : list frame :=
  [mk_frame false 1 None (take 20 created_text); mk_frame true 9 None [7];
   mk_frame true 0 None (drop 20 created_text)].

Definition created_chunks : list (list Z) :=
  let b := sample_answer ++ stream created_frames in [take 30 b; drop 30 b].

Definition sample_turn : turn := (full_environment, 0, 20000000).

Lemma demo_connecting_run :
  demo_run (λ _, tt) (λ _ : unit, []) (λ _, []) sample_addresses fresh_world demo_connecting.
Proof.
  eapply run_step; [by apply (run_start _ _ _ _ _ 0)|].
  eapply (demo_timer _ _ _ _ full_environment 0 0 (Some 7) _ demo_connecting); [by eexists|].
  vm_compute. reflexivity.
Qed.

Lemma server_drives_demo_witness : ∃ evs c',
  read_all any_mask sample_connection created_chunks = Ok (evs, c')
  ∧ ∃ d', handle_events (λ _, tt) (λ _ : unit, []) (λ _, []) sample_addresses
      (zip (replicate 4 sample_turn) evs) demo_connecting = Ok d'
    ∧ g_room_connected (d_globals d') = true ∧ g_in_room (d_globals d') = true.
Proof.
  destruct (server_drives_demo (λ _, tt) (λ _ : unit, []) (λ _, []) sample_addresses any_mask fresh_world
    demo_connecting (default (new_client []) (m_websocket_client (d_room demo_connecting))) 7
    sample_connection sample_answer created_chunks [(1, created_text)] created_frames)
    as (evs & c' & E & H).
  - reflexivity.
  - exact demo_connecting_run.
  - vm_compute. reflexivity.
  - vm_compute. reflexivity.
  - done.
  - split; [reflexivity|]. split; [by vm_compute|reflexivity].
  - split; [done|done|done|done|done| |done]. exists sample_answer. done.
  - rewrite <- (take_drop 20 created_text) at 1.
    apply (carries_parts 1 None (take 20 created_text) (drop 20 created_text) []
             [mk_frame true 9 None [7]; mk_frame true 0 None (drop 20 created_text)] []); [by left| |].
    + apply continued_control; [split; [done|by left]|]. apply continued_last.
    + apply carries_nil.
  - split; [right; right; split; [by left|by right]|]. do 2 (split; [by vm_compute|]).
    split; [right; left; split; [by left|done]|]. do 2 (split; [by vm_compute|]).
    split; [left; split; [done|by eexists]|]. do 2 (split; [by vm_compute|]). exact I.
  - constructor; [vm_compute; reflexivity|constructor].
  - vm_compute. reflexivity.
  - unfold created_chunks. fits_by_run.
  - by vm_compute.
  - exists evs, c'. split; [exact E|].
    vm_compute in E. injection E as <- <-.
    destruct (H sample_turn (replicate 3 sample_turn)) as (d1 & d' & _ & E2 & _ & _ & _ & Hc).
    + reflexivity.
    + by repeat constructor.
    + exists d'. split; [exact E2|]. split; [exact Hc|].
      vm_compute in E2. injection E2 as <-. reflexivity.
Defined.
